(* ===== verification/_CoqProject ===== *)
-Q . S2P
Prelude.v
LinkedList.v
Memory.v
Common.v
OrderedArray.v
KHeap.v
HeapInv.v
HeapAlloc.v
HeapContract.v
HeapFree.v
HeapTheorems.v
Kmalloc.v
Keyboard.v
Monitor.v
Frames.v
Paging.v
PagingProofs.v
PagingTheorems.v
AddressSpace.v
AddressClone.v
HeapPaging.v
Vfs.v
VfsSpec.v
VfsProofs.v
Initrd.v
InitrdTree.v
InitrdProofs.v
InitrdMount.v
MakeInitrd.v
InitrdImage.v
InitrdTheorems.v
Task.v
Scheduler.v
UserSpace.v
UserMemory.v
Signal.v
Process.v
ProcessInv.v
ProcessOps.v
Fork.v
Exit.v
Reap.v
Delivery.v
Demo.v
ForkWait.v
ProcessMemory.v
Descriptors.v
SignalTheorems.v
Steps.v
UserFile.v
Elf.v
ElfSpec.v
Exec.v
AddressBuild.v
ExecImage.v
ExecCheck.v
ExecLoad.v
ExecSpec.v
ExecTheorems.v
KernelTheorems.v
Syscall.v
Interrupt.v
DescriptorTables.v
BootPaging.v
BootPagingSpec.v
LibC.v
LibCSpec.v
Newlib.v
MachineInv.v
MachineSteps.v
SyscallIO.v
SyscallSpec.v
SyscallTheorems.v
Ring3.v
Programs.v
NewlibSpec.v
Shell.v
ShellSpec.v
ShellTheorems.v
Boot.v
