(* ===== verification/Prelude.v ===== *)
(** * Verification of the "my-own-os" kernel: root and prelude

    The program is an i386 teaching kernel with its user space: a Multiboot
    kernel under src/src (heap, paging, processes, signals, ELF loader, file
    system on a boot archive, console, keyboard, system calls), the host tool
    src/make_initrd.c that writes the archive, and user programs under
    src/user (a small C library, the hooks below Newlib, a shell and
    demonstration programs).  This library models that C code function by
    function and proves what each part promises to the others.

    ** How the model reads

    - A C function is a definition of the same name.  Its result is a [res]:
      [Ok] for a return, [Panic] where [ASSERT], [PANIC] or a page fault
      stops the machine, and [OutOfFuel], which only loops of the model can
      give.  A refusal that C reports by a return value is that value.
    - Integers are [Z] with the wrap-around written out: [u32], [u16], [u8],
      and [s32], [s8] for signed readings.
    - Loops are [while], with the binary fuel [LOOP_FUEL] = 2^34.  Every
      loop of the code counts with 32-bit numbers or walks a structure of
      fewer than 2^32 elements, so the fuel is never used up; [while_rule]
      asks for a measure below it and gives a result, not just a property of
      results.  Loops with a bound fixed on entry are [for_range].  The only
      other fuel is that of [KHeap.alloc], which calls itself after growing
      the heap; kheap.c runs it with [ALLOC_ROUNDS] = 4, because three
      growths always make room (HeapContract, [alloc_correct]).
    - State is explicit.  [hmem] is byte memory; page tables, directories,
      tasks and tree nodes are objects of stores named by the address the
      allocator returned, [0] being null; [mm] is the memory manager,
      [kernel] adds the processes and the file system, [machine] adds the
      screen, the keyboard buffer and the clock, [boot_state] the tables of
      the processor.
    - The context switch is assembly.  [switch_task] receives the registers
      it saves and ends with the chosen task current; a handler ends in an
      [event]: the interrupted process resumes, is gone, or sleeps inside a
      read, to be continued by [resume_read].

    ** The parts, bottom up

    - Foundations.  Prelude (results, loops, integers, tactics), LinkedList
      (sibling lists, the ready queue), Memory (bytes and words), Common
      (common.c: memcpy, memset and the string routines).
    - Kernel heap.  OrderedArray (ordered_array.c), KHeap (kheap.c), HeapInv
      (the block list behind the boundary tags), HeapAlloc and HeapContract
      ([alloc], growing), HeapFree ([free], contracting), HeapTheorems;
      Kmalloc (the front end, and the interface every client uses).
    - Memory manager.  Frames (the frame bitmap), Paging (tables,
      directories, clone and destroy), PagingProofs, PagingTheorems,
      AddressSpace ([vm_ok] and [pte]: the address space as a map from
      pages), AddressClone, AddressBuild (a directory under construction),
      HeapPaging (the pages of the heap come from these tables), BootPaging
      and BootPagingSpec ([initialise_paging]).
    - Files.  Vfs (fs.c), VfsSpec and VfsProofs (paths, over any driver),
      Initrd (initrd.c), InitrdTree, InitrdProofs (the driver obeys the
      interface), MakeInitrd (make_initrd.c), InitrdImage, InitrdMount,
      InitrdTheorems.
    - Processes.  Task (task.c: scheduler, heap, descriptors, keyboard
      waiting), Signal (signal.c), Process (task.c: spawn, fork, exit,
      waitpid, and signal delivery), UserSpace and UserMemory (what a
      process sees through its page tables), Scheduler, ProcessInv, ProcessOps,
      Fork, Exit, Reap, Delivery, Descriptors, Steps, ForkWait,
      ProcessMemory, SignalTheorems, KernelTheorems; Demo is the small
      running kernel the witnesses use.
    - Loader.  Elf (elf.h and the validation), ElfSpec, UserFile (reading a
      file into user memory), Exec (exec.c), ExecImage, ExecCheck, ExecLoad,
      ExecSpec, ExecTheorems.
    - System calls and interrupts.  Syscall (syscall.c: every service),
      Interrupt (the dispatcher, timer.c, isr.c, the keyboard handler),
      MachineInv, MachineSteps, SyscallIO, SyscallSpec, SyscallTheorems;
      Keyboard (keyboard.c), Monitor (monitor.c), DescriptorTables
      (descriptor_tables.c).
    - Boot.  Boot (main.c, [move_stack], [init_timer], [page_fault], the
      panic printers, the kernel's own syscall wrappers).
    - User space.  LibC (user/libc), LibCSpec, Ring3 (a process on the
      machine is a world for LibC), Newlib (user/newlib/syscalls.c),
      NewlibSpec, Shell (user/programs/shell.c), ShellSpec, ShellTheorems,
      Programs (the other programs of user/programs).

    ** Interfaces

    Components meet in type classes, and each implementation discharges the
    laws its clients assume:
    - [PageBacking], [PageBackingLaws]: kheap.c wants pages.  HeapPaging
      implements both with the page tables ([table_backing],
      [table_backing_laws]).
    - [Kmalloc], [KmallocLaws]: everyone wants memory.  kheap.c implements
      [Kmalloc] ([kernel_kmalloc]).  The laws say that blocks are live and
      disjoint; they also say that freeing a live block returns, which the
      heap itself breaks in one case ([HeapTheorems.free_sliver_panics],
      below), so clients are proved against the laws and the heap against
      its own contract.
    - [BootAllocator], [BootLaws], [BootKeeps]: [initialise_paging] wants
      the bump allocator and [create_heap]; [kernel_boot_laws]
      and [table_boot_laws] discharge the laws for kheap.c, on the page
      tables; [BootKeeps], which rests on [KmallocLaws], is discharged by
      the bump allocator of BootPagingSpec.
    - [FsDriver], [FsLaws], [FileSource]: fs.c and the loader want a driver;
      InitrdProofs discharges them for initrd.c.
    - [HasMemory], [HasMemoryLaws], [HasAllocator], [AllocatorLaws]: the file system state
      carries the kernel memory and the allocator.
    - [UserWorld], [ConsoleWorld]: a program wants memory, a trap and a
      console; Ring3 discharges them for the machine.

    ** What the theorems show

    - Heap: [alloc] and [free] against the block list, every session of
      calls, [heap_validate] exact, and the payloads of the heap are private
      mapped pages once the heap stands on the page tables
      ([kernel_heap_mapped]).
    - Paging: cloning isolates, destroying undoes cloning;
      [initialise_paging] gives the identity mapping, the heap and a sound
      directory.
    - Processes: one invariant for all reachable kernels and one for all
      reachable machines; fork, exit, waitpid, sbrk by contract; fork
      followed by waitpid leaks nothing; isolation of memories; round-robin
      order and fairness; signals delivered and returned from; SIGKILL
      uncatchable; every walk of the process table ends.
    - Loader: [validate_elf] accepts exactly the loadable files; execve
      installs the image the file describes or changes nothing.
    - Files: paths denote, directories are created, and an image written
      by make_initrd is mounted and read back file by file.
    - Calls: a descriptor reads its file to the end, a keyboard read sleeps
      and wakes; each library wrapper is the kernel service it names; what
      args.c prints, with its arguments, reaches the screen; the shell
      edits, echoes, splits and dispatches lines; Newlib hooks report errors
      through [errno].
    - Boot: after [init_descriptor_tables] the processor reads the intended
      segments and gates, and [main] ends with a sound machine, PID 0
      running and PID 1 ready, the archive mounted and the handlers
      installed ([boot_reaches_user_mode]).

    ** Assumptions

    - Kernel structures are abstract objects: a store through a pointer
      changes bytes of memory, never a record of these stores.  Kernel code
      that is proved here writes its structures through their names.
    - Addresses the linker or compiler chose (string literals, locals whose
      address is taken, the stubs of the assembly) and registers that C code
      reads through asm are parameters.  [resume_user_frame] is the return
      path of a forked child in process.s, [cpu] the registers a context
      switch saves.
    - Devices: port writes are recorded ([outb] on a list, the cursor
      registers of the console); a port read is an argument, as the scancode
      of [keyboard_interrupt].
    - A user string is read to its end before it is used; nothing writes it
      meanwhile, because the kernel runs with interrupts off there.
    - [main] runs uninterrupted until it halts.
    - Running out of frames or of heap panics in this kernel, and the
      theorems say so: [clone_failure] is the other way an operation that
      allocates can end.
    - The heap stands on page tables that exist for its window
      ([heap_window]): [initialise_paging] makes them for the first 4 MiB.
      Beyond, [expand] would create a table in the middle of an allocation
      and enter it in the kernel directory alone
      ([HeapPaging.new_heap_table_unshared]).
    - Newlib's numbers and structures ([NewlibHeaders]) are parameters.

    ** Not modelled

    - The assembly files boot.s, gdt.s, interrupt.s, process.s, crt0.s and
      signal.s: instructions below the level of the model.  What C relies on
      is in the definitions: the saved register frame, the copy and the
      zeroing of a physical page, what [lgdt], [lidt] and [ltr] load.
    - [inb] and [inw] of common.c: what a device answers.
    - user/apps/normal.c and user/newlib/demo.c: they call the stdio and
      malloc of the upstream Newlib, which is not in the repository; the
      hooks below them are modelled.
    - make_initrd.c's host errors other than an unreadable input file. *)

From Stdlib Require Export ZArith Lia.
From stdpp Require Export base tactics numbers list gmap strings.

#[global] Open Scope Z_scope.
#[global] Set Default Goal Selector "!".

(** ** Machine integers

    C values of type [u32int], [u16int], [u8int] are integers in
    [0, 2^w); the wrap-around of an operation is written out with [u32],
    [u16] or [u8].  [s32] and [s8] are the signed readings of the same
    bits ([int] and gcc's signed [char] on i386). *)

Definition u32 (x : Z) : Z := x mod 2 ^ 32.
Definition u16 (x : Z) : Z := x mod 2 ^ 16.
Definition u8 (x : Z) : Z := x mod 2 ^ 8.
Definition s32 (x : Z) : Z := if u32 x <? 2 ^ 31 then u32 x else u32 x - 2 ^ 32.
Definition s8 (x : Z) : Z := if u8 x <? 2 ^ 7 then u8 x else u8 x - 2 ^ 8.

#[global] Arguments u32 x : simpl never.
#[global] Arguments u16 x : simpl never.
#[global] Arguments u8 x : simpl never.
#[global] Arguments s32 x : simpl never.
#[global] Arguments s8 x : simpl never.

Definition is_u32 (x : Z) : Prop := 0 <= x < 2 ^ 32.

(** ** Results of kernel code

    [ASSERT] and [PANIC] stop the machine for good (common.c halts in an
    endless loop after printing), so a kernel operation either returns a
    value, panics with a message, or - in this model only - exhausts the
    fuel of a loop.  Totality theorems rule the last case out. *)

Inductive res (A : Type) : Type :=
  | Ok (a : A)
  | Panic (msg : string)
  | OutOfFuel.
Arguments Ok {A} a.
Arguments Panic {A} msg.
Arguments OutOfFuel {A}.

#[export] Instance res_ret : MRet res := @Ok.
#[export] Instance res_bind : MBind res := fun A B k r =>
  match r with
  | Ok a => k a
  | Panic m => Panic m
  | OutOfFuel => OutOfFuel
  end.
#[export] Instance res_fmap : FMap res := fun A B f r =>
  match r with
  | Ok a => Ok (f a)
  | Panic m => Panic m
  | OutOfFuel => OutOfFuel
  end.

#[export] Instance res_eq_dec {A} `{EqDecision A} : EqDecision (res A).
Proof. solve_decision. Defined.

(** Did the operation return?  The test of concrete runs. *)
Definition is_ok {A} (r : res A) : bool :=
  match r with Ok _ => true | _ => false end.
Lemma is_ok_true {A} (r : res A) : is_ok r = true -> exists a, r = Ok a.
Proof. destruct r as [a|?|]; [eauto|discriminate..]. Qed.

Definition ASSERTION_FAILED : string := "ASSERTION-FAILED".

(** [ASSERT(b)] of common.h. *)
Definition ASSERT (b : bool) : res unit :=
  if b then Ok tt else Panic ASSERTION_FAILED.

(** ** Loops

    [while] runs a loop body until it breaks.  The fuel is a binary
    number far above any count of iterations that 32-bit addresses allow;
    an early [Break] leaves the rest of it unused, so loops compute. *)

Inductive ctl (S R : Type) : Type :=
  | Continue (s : S)
  | Break (r : R).
Arguments Continue {S R} s.
Arguments Break {S R} r.

Definition LOOP_FUEL : positive := (2 ^ 34)%positive.

Section loops.
Context {S R : Type}.
Implicit Types f : S -> res (ctl S R).

(** Either the state after [n] complete iterations or the final result. *)
Fixpoint iter_until (n : positive) f (s : S) : S + res R :=
  let once s := match f s with
                | Ok (Continue s') => inl s'
                | Ok (Break r) => inr (Ok r)
                | Panic m => inr (Panic m)
                | OutOfFuel => inr OutOfFuel
                end in
  let andthen (x : S + res R) (k : S -> S + res R) :=
    match x with inl s' => k s' | inr r => inr r end in
  match n with
  | xH => once s
  | xO n => andthen (iter_until n f s) (iter_until n f)
  | xI n => andthen (once s)
              (fun s => andthen (iter_until n f s) (iter_until n f))
  end.

Definition while f (s : S) : res R :=
  match iter_until LOOP_FUEL f s with
  | inl _ => OutOfFuel
  | inr r => r
  end.

(** [runs f n s r]: the loop started in [s] continues [n] times and then
    ends with [r]. *)
Inductive runs f : nat -> S -> res R -> Prop :=
  | runs_break s r : f s = Ok (Break r) -> runs f 0 s (Ok r)
  | runs_panic s m : f s = Panic m -> runs f 0 s (Panic m)
  | runs_fuel s : f s = OutOfFuel -> runs f 0 s OutOfFuel
  | runs_step n s s' r :
      f s = Ok (Continue s') -> runs f n s' r -> runs f (1 + n) s r.

Lemma iter_until_spec p f n s r :
  runs f n s r ->
  (n < Pos.to_nat p)%nat /\ iter_until p f s = inr r \/
  exists s' k, iter_until p f s = inl s' /\ runs f k s' r /\
    n = (k + Pos.to_nat p)%nat.
Proof.
  revert n s. induction p as [p IH|p IH|]; intros n s Hr.
  - rewrite Pos2Nat.inj_xI. simpl iter_until.
    inversion Hr as [? ? E|? ? E|? E|k ? s1 ? E Hr1]; subst; rewrite E; simpl.
    1-3: left; split; [lia|done].
    destruct (IH k s1 Hr1) as [[? ->]|(s2 & k2 & -> & Hr2 & ->)]; [left; split; [lia|done]|].
    destruct (IH k2 s2 Hr2) as [[? ->]|(s3 & k3 & -> & Hr3 & ->)]; [left; split; [lia|done]|].
    right. exists s3, k3. split_and!; [done..|lia].
  - rewrite Pos2Nat.inj_xO. simpl iter_until.
    destruct (IH n s Hr) as [[? ->]|(s2 & k2 & -> & Hr2 & ->)]; [left; split; [lia|done]|].
    destruct (IH k2 s2 Hr2) as [[? ->]|(s3 & k3 & -> & Hr3 & ->)]; [left; split; [lia|done]|].
    right. exists s3, k3. split_and!; [done..|lia].
  - simpl. inversion Hr as [? ? E|? ? E|? E|k ? s1 ? E Hr1]; subst; rewrite E; simpl.
    1-3: left; split; [lia|done].
    right. exists s1, k. split_and!; [done..|lia].
Qed.

Lemma while_runs f s r n :
  runs f n s r -> Z.of_nat n < 2 ^ 34 -> while f s = r.
Proof.
  intros Hr Hn. unfold while.
  destruct (iter_until_spec LOOP_FUEL f n s r Hr)
    as [[_ ->]|(s' & k & _ & _ & ->)]; [done|].
  exfalso. rewrite Nat2Z.inj_add, positive_nat_Z in Hn. unfold LOOP_FUEL in Hn. lia.
Qed.

Lemma runs_of_iter p f s r :
  iter_until p f s = inr r -> r <> OutOfFuel -> exists n, runs f n s r.
Proof.
  intros Hit Hnf.
  enough (forall p s, match iter_until p f s with
            | inr r' => r' <> OutOfFuel -> exists n, runs f n s r'
            | inl s' => forall k r', runs f k s' r' -> exists n, runs f n s r'
            end) as Hgen.
  { specialize (Hgen p s). rewrite Hit in Hgen. auto. }
  clear. intros p. induction p as [p IH|p IH|]; intros s; simpl.
  - destruct (f s) as [[s1|r1]|m|] eqn:E; simpl.
    2,3: intros _; exists 0%nat; by constructor.
    2: done.
    assert (H1 := IH s1). destruct (iter_until p f s1) as [s2|r2].
    2:{ intros Hr. destruct (H1 Hr) as [n Hn]. exists (1 + n)%nat. by econstructor. }
    assert (H2 := IH s2). destruct (iter_until p f s2) as [s3|r3].
    + intros k r' Hk. destruct (H2 _ _ Hk) as [n Hn]. destruct (H1 _ _ Hn) as [n' Hn'].
      exists (1 + n')%nat. by econstructor.
    + intros Hr. destruct (H2 Hr) as [n Hn]. destruct (H1 _ _ Hn) as [n' Hn'].
      exists (1 + n')%nat. by econstructor.
  - assert (H1 := IH s). destruct (iter_until p f s) as [s2|r2]; [|done].
    assert (H2 := IH s2). destruct (iter_until p f s2) as [s3|r3].
    + intros k r' Hk. destruct (H2 _ _ Hk) as [n Hn]. eauto.
    + intros Hr. destruct (H2 Hr) as [n Hn]. eauto.
  - destruct (f s) as [[s1|r1]|m|] eqn:E; simpl.
    2,3: intros _; exists 0%nat; by constructor.
    2: done.
    intros k r' Hk. exists (1 + k)%nat. by econstructor.
Qed.

Lemma while_inv f s r :
  while f s = r -> r <> OutOfFuel -> exists n, runs f n s r.
Proof.
  unfold while. destruct (iter_until _ f s) as [s'|r'] eqn:E; intros <- Hr; [done|].
  by eapply runs_of_iter.
Qed.

(** What holds of the result when the loop returns at all. *)
Lemma while_preserves (I : S -> Prop) (Q : R -> Prop) f s r :
  (forall s s', I s -> f s = Ok (Continue s') -> I s') -> (forall s r, I s -> f s = Ok (Break r) -> Q r) ->
  I s -> while f s = Ok r -> Q r.
Proof.
  intros Hc Hb Hs Hr. destruct (while_inv _ _ _ Hr) as [n Hn]; [done|]. clear Hr. revert s Hs Hn.
  induction n as [|n IH]; intros s Hs Hn; inversion Hn; subst; [by eapply Hb|]. eapply IH; [|done]. by eapply Hc.
Qed.

(** A loop with an invariant and a decreasing measure terminates. *)
Lemma while_rule f (I : S -> Prop) (Q : R -> Prop) (m : S -> Z) s :
  (forall s, I s ->
     match f s with
     | Ok (Continue s') => I s' /\ 0 <= m s' < m s
     | Ok (Break r) => Q r
     | _ => False
     end) ->
  I s -> 0 <= m s < 2 ^ 34 -> exists r, while f s = Ok r /\ Q r.
Proof.
  intros Hf Hs Hm.
  enough (exists n r, runs f n s (Ok r) /\ Z.of_nat n <= m s /\ Q r)
    as (n & r & Hr & Hn & HQ).
  { exists r. split; [|done]. eapply while_runs; [done|lia]. }
  destruct Hm as [Hm _]. remember (Z.to_nat (m s)) as k eqn:Hk.
  revert s Hs Hm Hk. induction k as [k IH] using lt_wf_ind; intros s Hs Hm ->.
  specialize (Hf s Hs). destruct (f s) as [[s'|r]|?|] eqn:E; [| |done|done].
  - destruct Hf as [Hs' Hm'].
    destruct (IH (Z.to_nat (m s')) ltac:(lia) s' Hs' ltac:(lia) eq_refl)
      as (n & r & Hr & Hn & HQ).
    exists (1 + n)%nat, r. split_and!; [by econstructor|lia|done].
  - exists 0%nat, r. split_and!; [by constructor|lia|done].
Qed.

(** A loop that either reaches a result in [Q] or fails in a way [E]. *)
Lemma while_cases (I : S -> Prop) (Q : R -> Prop) (E : res R -> Prop) (m : S -> Z) f s :
  (forall s, I s ->
     match f s with
     | Ok (Continue s') => I s' /\ 0 <= m s' < m s
     | Ok (Break r) => Q r
     | Panic msg => E (Panic msg)
     | OutOfFuel => E OutOfFuel
     end) ->
  I s -> 0 <= m s < 2 ^ 34 -> (exists r, while f s = Ok r /\ Q r) \/ E (while f s).
Proof.
  intros Hf Hs Hm.
  enough (exists n r, runs f n s r /\ Z.of_nat n <= m s /\ ((exists a, r = Ok a /\ Q a) \/ E r)) as (n & r & Hr & Hn & H).
  { rewrite (while_runs f s r n Hr) by lia. destruct H as [(a & -> & HQ)|HE]; [left; by exists a|by right]. }
  destruct Hm as [Hm _]. remember (Z.to_nat (m s)) as k eqn:Hk.
  revert s Hs Hm Hk. induction k as [k IH] using lt_wf_ind; intros s Hs Hm ->.
  specialize (Hf s Hs). destruct (f s) as [[s'|r]|msg|] eqn:Ef.
  - destruct Hf as [Hs' Hm'].
    destruct (IH (Z.to_nat (m s')) ltac:(lia) s' Hs' ltac:(lia) eq_refl) as (n & r & Hr & Hn & HQ).
    exists (1 + n)%nat, r. split_and!; [by econstructor|lia|done].
  - exists 0%nat, (Ok r). split_and!; [by constructor|lia|]. left. by exists r.
  - exists 0%nat, (Panic msg). split_and!; [by constructor|lia|by right].
  - exists 0%nat, OutOfFuel. split_and!; [by constructor|lia|by right].
Qed.
End loops.

(** [for (i = lo; i < hi; i++)], for loops whose bound is fixed on entry. *)
Fixpoint for_nat {S} (n : nat) (i : Z) (f : Z -> S -> res S) (s : S) : res S :=
  match n with
  | O => Ok s
  | S n => s' ← f i s; for_nat n (i + 1) f s'
  end.
Definition for_range {S} (lo hi : Z) (f : Z -> S -> res S) (s : S) : res S :=
  for_nat (Z.to_nat (hi - lo)) lo f s.

(** ** Reasoning about results *)

Lemma bind_Ok_inv {A B} (r : res A) (k : A -> res B) y :
  (x ← r; k x) = Ok y -> exists x, r = Ok x /\ k x = Ok y.
Proof. destruct r; [eauto|discriminate..]. Qed.

Lemma bind_Ok {A B} (x : A) (k : A -> res B) : (x ← Ok x; k x) = k x.
Proof. done. Qed.

Lemma ASSERT_ok b : b = true -> ASSERT b = Ok tt.
Proof. by intros ->. Qed.

Lemma ASSERT_inv b u : ASSERT b = Ok u -> b = true.
Proof. by destruct b. Qed.

Lemma ASSERT_fail b : b = false -> ASSERT b = Panic ASSERTION_FAILED.
Proof. by intros ->. Qed.

Lemma for_nat_rule {S} (I : Z -> S -> Prop) f n i s :
  (forall j s, i <= j < i + Z.of_nat n -> I j s ->
     exists s', f j s = Ok s' /\ I (j + 1) s') ->
  I i s -> exists s', for_nat n i f s = Ok s' /\ I (i + Z.of_nat n) s'.
Proof.
  revert i s. induction n as [|n IH]; intros i s Hf Hs; cbn [for_nat].
  - exists s. split; [done|]. by rewrite Z.add_0_r.
  - destruct (Hf i s) as (s1 & -> & H1); [lia|done|]. rewrite bind_Ok.
    destruct (IH (i + 1) s1) as (s2 & -> & H2); [|done|].
    { intros j s' Hj. apply Hf. lia. }
    exists s2. split; [done|]. by replace (i + Z.of_nat (Datatypes.S n)) with (i + 1 + Z.of_nat n) by lia.
Qed.

Lemma for_range_rule {S} (I : Z -> S -> Prop) f lo hi s :
  lo <= hi ->
  (forall j s, lo <= j < hi -> I j s -> exists s', f j s = Ok s' /\ I (j + 1) s') ->
  I lo s -> exists s', for_range lo hi f s = Ok s' /\ I hi s'.
Proof.
  intros Hlh Hf Hs. unfold for_range.
  destruct (for_nat_rule I f (Z.to_nat (hi - lo)) lo s) as (s' & -> & Hs'); [|done|].
  { intros j s' Hj. apply Hf. lia. }
  exists s'. split; [done|]. by replace hi with (lo + Z.of_nat (Z.to_nat (hi - lo))) by lia.
Qed.

Lemma for_nat_inv {S} (I : Z -> S -> Prop) f n i s s' :
  (forall j s s', i <= j < i + Z.of_nat n -> I j s -> f j s = Ok s' -> I (j + 1) s') ->
  I i s -> for_nat n i f s = Ok s' -> I (i + Z.of_nat n) s'.
Proof.
  revert i s. induction n as [|n IH]; intros i s Hf Hs; cbn [for_nat].
  - intros [= ->]. by rewrite Z.add_0_r.
  - intros (s1 & H1 & H2)%bind_Ok_inv.
    replace (i + Z.of_nat (Datatypes.S n)) with (i + 1 + Z.of_nat n) by lia.
    eapply IH; [|eapply Hf; [lia|done..]|done].
    intros j s2 s3 Hj. apply Hf. lia.
Qed.

Lemma for_range_inv {S} (I : Z -> S -> Prop) f lo hi s s' :
  lo <= hi ->
  (forall j s s', lo <= j < hi -> I j s -> f j s = Ok s' -> I (j + 1) s') ->
  I lo s -> for_range lo hi f s = Ok s' -> I hi s'.
Proof.
  intros Hlh Hf Hs Hr. replace hi with (lo + Z.of_nat (Z.to_nat (hi - lo))) by lia.
  eapply for_nat_inv; [|done..]. intros j s1 s2 Hj. apply Hf. lia.
Qed.

(** A loop whose steps keep [I] or panic for a reason [E]. *)
Lemma for_nat_cases {S} (I : Z -> S -> Prop) (E : res S -> Prop) f n i s :
  (forall j s, i <= j < i + Z.of_nat n -> I j s -> (exists s', f j s = Ok s' /\ I (j + 1) s') \/ E (f j s)) ->
  (forall r, E r -> forall s, r <> Ok s) -> I i s ->
  (exists s', for_nat n i f s = Ok s' /\ I (i + Z.of_nat n) s') \/ E (for_nat n i f s).
Proof.
  intros Hf HE. revert i s Hf. induction n as [|n IH]; intros i s Hf Hs; cbn [for_nat].
  - left. exists s. split; [done|]. by rewrite Z.add_0_r.
  - destruct (Hf i s) as [(s1 & -> & H1)|Hp]; [lia|done| |].
    + rewrite bind_Ok. replace (i + Z.of_nat (Datatypes.S n)) with (i + 1 + Z.of_nat n) by lia.
      apply IH; [|done]. intros j s' Hj. apply Hf. lia.
    + right. destruct (f i s) as [s'|m|] eqn:Ef; [by destruct (HE _ Hp s')|done|done].
Qed.

Lemma for_range_cases {S} (I : Z -> S -> Prop) (E : res S -> Prop) f lo hi s :
  lo <= hi ->
  (forall j s, lo <= j < hi -> I j s -> (exists s', f j s = Ok s' /\ I (j + 1) s') \/ E (f j s)) ->
  (forall r, E r -> forall s, r <> Ok s) -> I lo s ->
  (exists s', for_range lo hi f s = Ok s' /\ I hi s') \/ E (for_range lo hi f s).
Proof.
  intros Hlh Hf HE Hs.
  destruct (for_nat_cases I E f (Z.to_nat (hi - lo)) lo s) as [(s' & Hr & Hs')|Hp]; [|done..| |by right].
  { intros j s' Hj. apply Hf. lia. }
  left. exists s'. split; [done|]. by replace hi with (lo + Z.of_nat (Z.to_nat (hi - lo))) by lia.
Qed.

(** ** Machine-integer lemmas *)

Lemma u32_small x : 0 <= x < 2 ^ 32 -> u32 x = x.
Proof. apply Z.mod_small. Qed.
Lemma u32_range x : 0 <= u32 x < 2 ^ 32.
Proof. by apply Z.mod_pos_bound. Qed.
Lemma u8_small x : 0 <= x < 2 ^ 8 -> u8 x = x.
Proof. apply Z.mod_small. Qed.
Lemma u8_range x : 0 <= u8 x < 2 ^ 8.
Proof. by apply Z.mod_pos_bound. Qed.
Lemma u32_u32 x : u32 (u32 x) = u32 x.
Proof. apply Z.mod_mod. lia. Qed.
Lemma s32_small x : 0 <= x < 2 ^ 31 -> s32 x = x.
Proof.
  intros Hx. unfold s32. rewrite u32_small by lia.
  by rewrite (proj2 (Z.ltb_lt _ _)) by lia.
Qed.
Lemma s32_range x : - 2 ^ 31 <= s32 x < 2 ^ 31.
Proof. pose proof (u32_range x). unfold s32. destruct (Z.ltb_spec (u32 x) (2 ^ 31)); lia. Qed.
Lemma u32_s32 x : u32 (s32 x) = u32 x.
Proof.
  unfold s32. destruct (u32 x <? 2 ^ 31); [apply u32_u32|].
  unfold u32. rewrite <- (Z.mod_mod x (2 ^ 32)) at 2 by lia.
  replace (x mod 2 ^ 32 - 2 ^ 32) with (x mod 2 ^ 32 + (-1) * 2 ^ 32) by lia.
  apply Z.mod_add. lia.
Qed.

(** The facts on widths that arithmetic alone does not know. *)
Create HintDb ints.
#[export] Hint Resolve u32_range u8_range s32_range : ints.
#[export] Hint Rewrite u32_u32 u32_s32 : ints.

(** A property of a small range, by computation. *)
Lemma range_check (n : nat) (f : Z -> bool) :
  forallb (fun i => f (Z.of_nat i)) (seq 0 n) = true -> forall x, 0 <= x < Z.of_nat n -> f x = true.
Proof.
  intros H x Hx. rewrite forallb_forall in H. specialize (H (Z.to_nat x)).
  rewrite Z2Nat.id in H by lia. apply H, in_seq. lia.
Qed.

(** Page arithmetic: [x & 0xFFF] and [x & 0xFFFFF000]. *)
Lemma land_page_offset x : Z.land x 0xFFF = x mod 0x1000.
Proof. change 0xFFF with (Z.ones 12). by rewrite Z.land_ones by lia. Qed.

Lemma word_bits w n : is_u32 w -> 32 <= n -> Z.testbit w n = false.
Proof.
  unfold is_u32. intros Hw Hn. destruct (Z.eq_dec w 0) as [->|]; [apply Z.bits_0|].
  apply Z.bits_above_log2; [lia|]. apply Z.log2_lt_pow2; [lia|].
  apply Z.lt_le_trans with (2 ^ 32); [lia|]. apply Z.pow_le_mono_r; lia.
Qed.

(** Clearing the low [n] bits of a word. *)
Lemma land_high_mask v n : is_u32 v -> 0 <= n <= 32 -> Z.land v (Z.shiftl (Z.ones (32 - n)) n) = v - v mod 2 ^ n.
Proof.
  intros Hv Hn. assert (0 < 2 ^ n) as Hp by (apply Z.pow_pos_nonneg; lia).
  replace (v - v mod 2 ^ n) with (Z.shiftl (Z.shiftr v n) n).
  - apply Z.bits_inj'. intros i Hi. rewrite Z.land_spec, !Z.shiftl_spec by lia. destruct (Z.lt_ge_cases i n).
    + rewrite !(Z.testbit_neg_r _ (i - n)) by lia. by rewrite andb_false_r.
    + rewrite Z.shiftr_spec by lia. replace (i - n + n) with i by lia. destruct (Z.lt_ge_cases i 32).
      * rewrite Z.ones_spec_low by lia. by rewrite andb_true_r.
      * by rewrite (word_bits v i).
  - rewrite Z.shiftl_mul_pow2, Z.shiftr_div_pow2 by lia. pose proof (Z.div_mod v (2 ^ n)). lia.
Qed.

Lemma land_page_base x : is_u32 x -> Z.land x 0xFFFFF000 = x - x mod 0x1000.
Proof. intros Hx. by apply (land_high_mask x 12). Qed.

(** [x & ~0xF]. *)
Lemma land_16 x : is_u32 x -> Z.land x (u32 (Z.lnot 0xF)) = x - x mod 16.
Proof. intros Hx. by apply (land_high_mask x 4). Qed.

(** ** String literals *)

(** The character codes of a literal, without a terminator. *)
Fixpoint codes (s : string) : list Z :=
  match s with
  | EmptyString => []
  | String c s => Z.of_N (Ascii.N_of_ascii c) :: codes s
  end.

(** ** Tactics of the development *)

(** Proves a boolean condition from arithmetic facts. *)
Ltac kbool := first [done | lia | (repeat (rewrite andb_true_iff || split)); first [done|lia]].

(** Runs the binds whose first computation already returned. *)
Ltac rsimpl := rewrite ?bind_Ok; cbv beta iota.

(** Discharges the leading [ASSERT] of the goal. *)
Ltac assert_step :=
  match goal with
  | |- context [ASSERT ?b] => rewrite (ASSERT_ok b) by kbool; rsimpl
  end.

(** Removes wrap-arounds that cannot happen. *)
Ltac u32_simpl :=
  repeat match goal with
  | |- context [u32 ?x] => rewrite (u32_small x) by lia
  end.
Ltac u32_simpl_in H :=
  repeat match type of H with
  | context [u32 ?x] => rewrite (u32_small x) in H by lia
  end.

(** Opens a monadic hypothesis [x ← r; k x = Ok y], one bind at a time. *)
Ltac res_inv H :=
  repeat match type of H with
  | (mbind _ _) = Ok _ => apply bind_Ok_inv in H as (? & ? & H)
  end.
