(* ===== verification/LinkedList.v ===== *)
(** * Singly linked lists in a store

    [chain nx m c l]: starting at address [c] and following the field [nx],
    the objects met in the store [m] are [l], and then comes null.  Used for
    the sibling lists of the initrd tree and for the ready queue. *)

From S2P Require Import Prelude.

Section chain.
Context {A : Type} (nx : A -> Z).
Implicit Types (m : gmap Z A) (l : list Z) (c : Z).

Fixpoint chain m c l : Prop :=
  match l with
  | [] => c = 0
  | x :: l => c = x /\ x <> 0 /\ exists n, m !! x = Some n /\ chain m (nx n) l
  end.

Lemma chain_in m l c : chain m c l -> forall x, x ∈ l -> is_Some (m !! x).
Proof.
  revert c. induction l as [|y l IH]; intros c Hs x Hx; [by apply not_elem_of_nil in Hx|].
  destruct Hs as (_ & _ & n & Hn & Hs). apply elem_of_cons in Hx as [->|Hx]; [by eexists|by eapply IH].
Qed.

(** Stores that agree on the links have the same chains. *)
Lemma chain_keep m m' l c :
  (forall x n, x ∈ l -> m !! x = Some n -> exists n', m' !! x = Some n' /\ nx n' = nx n) ->
  chain m c l -> chain m' c l.
Proof.
  revert c. induction l as [|y l IH]; intros c Hk; [done|]. intros (-> & Hy & n & Hn & Hs).
  destruct (Hk y n) as (n' & Hn' & He); [by apply elem_of_cons; left|done|]. split; [done|]. split; [done|].
  exists n'. split; [done|]. rewrite He. apply IH; [|done]. intros x q Hx. apply Hk. by apply elem_of_cons; right.
Qed.

Lemma chain_functional m l l' c : chain m c l -> chain m c l' -> l = l'.
Proof.
  revert l' c. induction l as [|x l IH]; intros l' c Hl Hl'.
  - simpl in Hl. subst c. destruct l' as [|y l']; [done|]. by destruct Hl' as (<- & ? & _).
  - destruct Hl as (-> & Hx & n & Hn & Hl). destruct l' as [|y l']; [simpl in Hl'; done|].
    destruct Hl' as (<- & _ & n' & Hn' & Hl'). assert (n' = n) as -> by congruence. f_equal. by eapply IH.
Qed.

Lemma chain_split m l1 x l2 c : chain m c (l1 ++ x :: l2) -> chain m x (x :: l2).
Proof.
  revert c. induction l1 as [|y l1 IH]; intros c; [by intros (-> & H)|]. intros (_ & _ & n & _ & H). by eapply IH.
Qed.

(** No object occurs twice: what follows it would be shorter than itself. *)
Lemma chain_NoDup m l c : chain m c l -> NoDup l.
Proof.
  revert c. induction l as [|x l IH]; intros c Hl; [constructor|]. pose proof Hl as (-> & _ & n & _ & Hl2).
  constructor; [|by eapply IH]. intros Hin. apply list_elem_of_split in Hin as (l1 & l2 & ->).
  pose proof (chain_split _ _ _ _ _ Hl2) as Hs.
  pose proof (chain_functional _ _ _ _ Hl Hs) as E. apply (f_equal List.length) in E.
  simpl in E. rewrite length_app in E. simpl in E. lia.
Qed.

(** The object in the middle of a chain points to the next one. *)
Lemma chain_next m l1 x y l2 c : chain m c (l1 ++ x :: y :: l2) -> exists n, m !! x = Some n /\ nx n = y.
Proof.
  intros H. apply chain_split in H as (_ & _ & n & Hn & He & _). eauto.
Qed.
Lemma chain_last m l x c : chain m c (l ++ [x]) -> exists n, m !! x = Some n /\ nx n = 0.
Proof. intros H. apply chain_split in H as (_ & _ & n & Hn & He). eauto. Qed.

Lemma chain_head m x l c : chain m c (x :: l) -> c = x /\ x <> 0.
Proof. by intros (-> & ? & _). Qed.
End chain.

(** 32-bit addresses bound the length of any list of distinct ones. *)
Lemma addresses_bound (l : list Z) : NoDup l -> (forall x, x ∈ l -> 0 < x < 2 ^ 32) -> Z.of_nat (List.length l) < 2 ^ 32.
Proof.
  intros Hnd Hl. assert (l ⊆+ seqZ 1 (2 ^ 32 - 1)) as Hsub%submseteq_length.
  { apply NoDup_submseteq; [done|]. intros x Hx. apply elem_of_seqZ. apply Hl in Hx. lia. }
  rewrite length_seqZ in Hsub. apply Nat2Z.inj_le in Hsub. rewrite Z2Nat.id in Hsub by lia. lia.
Qed.
