(* ===== verification/Memory.v ===== *)
(** * Byte-addressed memory

    [mem] is the contents of an address space: every address holds a byte.
    Reading an address that was never written yields whatever the initial
    contents are, so no theorem can rely on fresh memory being zero.
    Words are little-endian, as on i386. *)

From S2P Require Import Prelude.

Definition mem : Type := Z -> Z.

Definition load8 (m : mem) (a : Z) : Z := m a.
Definition store8 (m : mem) (a v : Z) : mem :=
  fun x => if x =? a then u8 v else m x.

Definition load32 (m : mem) (a : Z) : Z :=
  m a + 0x100 * m (a + 1) + 0x10000 * m (a + 2) + 0x1000000 * m (a + 3).
Definition store32 (m : mem) (a v : Z) : mem :=
  fun x => if (a <=? x) && (x <? a + 4) then u8 (u32 v / 2 ^ (8 * (x - a))) else m x.

(** The bytes of a word, and the word they make. *)
Definition le32 (v : Z) : list Z :=
  [v `mod` 256; (v / 256) `mod` 256; (v / 65536) `mod` 256; (v / 16777216) `mod` 256].
Definition word_of (bytes : list Z) : Z :=
  match bytes with
  | [b0; b1; b2; b3] => b0 + 0x100 * b1 + 0x10000 * b2 + 0x1000000 * b3
  | _ => 0
  end.

(** [m'] differs from [m] at most inside [lo, hi). *)
Definition agree_outside (lo hi : Z) (m m' : mem) : Prop :=
  forall x, x < lo \/ hi <= x -> m' x = m x.

(** [m'] and [m] are equal inside [lo, hi). *)
Definition agree_on (lo hi : Z) (m m' : mem) : Prop :=
  forall x, lo <= x < hi -> m' x = m x.

Lemma word_of_le32 v : word_of (le32 v) = u32 v.
Proof.
  unfold word_of, le32, u32. change (2 ^ 32) with 4294967296. Z.div_mod_to_equations. lia.
Qed.
Lemma le32_length v : List.length (le32 v) = 4%nat.
Proof. done. Qed.
Lemma concat_le32_length (ws : list Z) : Z.of_nat (List.length (concat (le32 <$> ws))) = 4 * Z.of_nat (List.length ws).
Proof. induction ws as [|w ws IH]; [done|]. cbn [fmap list_fmap concat]. rewrite length_app, le32_length. simpl. lia. Qed.

Section mem_lemmas.
Implicit Types (m : mem) (a b v lo hi : Z).

Lemma load32_store32_eq m a v : load32 (store32 m a v) a = u32 v.
Proof.
  unfold load32, store32.
  assert (forall i, 0 <= i < 4 ->
    (if (a <=? a + i) && (a + i <? a + 4) then u8 (u32 v / 2 ^ (8 * (a + i - a))) else m (a + i))
    = u8 (u32 v / 2 ^ (8 * i))) as H.
  { intros i Hi. rewrite (proj2 (andb_true_iff _ _)) by lia.
    by replace (a + i - a) with i by lia. }
  rewrite (H 1), (H 2), (H 3) by lia.
  pose proof (H 0 ltac:(lia)) as H0. rewrite Z.add_0_r in H0. rewrite H0.
  pose proof (u32_range v). unfold u8.
  change (2 ^ (8 * 0)) with 1. change (2 ^ (8 * 1)) with 256.
  change (2 ^ (8 * 2)) with 65536. change (2 ^ (8 * 3)) with 16777216.
  change (2 ^ 8) with 256. change (2 ^ 32) with 4294967296 in *.
  Z.div_mod_to_equations. lia.
Qed.

Lemma load32_store32_ne m a b v :
  a + 4 <= b \/ b + 4 <= a -> load32 (store32 m a v) b = load32 m b.
Proof.
  intros Hab. unfold load32, store32.
  by rewrite !(proj2 (andb_false_iff _ _)) by lia.
Qed.

Lemma load32_store8_ne m a b v :
  a + 1 <= b \/ b + 4 <= a -> load32 (store8 m a v) b = load32 m b.
Proof.
  intros Hab. unfold load32, store8.
  by rewrite !(proj2 (Z.eqb_neq _ _)) by lia.
Qed.

Lemma load8_store8_eq m a v : load8 (store8 m a v) a = u8 v.
Proof. unfold load8, store8. by rewrite Z.eqb_refl. Qed.

Lemma load8_store8_ne m a b v : a <> b -> load8 (store8 m a v) b = load8 m b.
Proof. intros Hab. unfold load8, store8. by rewrite (proj2 (Z.eqb_neq _ _)) by lia. Qed.

Lemma load8_store32_ne m a b v :
  a + 4 <= b \/ b + 1 <= a -> load8 (store32 m a v) b = load8 m b.
Proof.
  intros Hab. unfold load8, store32.
  by rewrite (proj2 (andb_false_iff _ _)) by lia.
Qed.

Lemma agree_outside_refl lo hi m : agree_outside lo hi m m.
Proof. by intros x _. Qed.

Lemma agree_outside_weaken lo hi lo' hi' m m' :
  agree_outside lo hi m m' -> lo' <= lo -> hi <= hi' -> agree_outside lo' hi' m m'.
Proof. intros H ? ? x Hx. apply H. lia. Qed.

Lemma agree_outside_trans lo hi m1 m2 m3 :
  agree_outside lo hi m1 m2 -> agree_outside lo hi m2 m3 -> agree_outside lo hi m1 m3.
Proof. intros H1 H2 x Hx. by rewrite (H2 x Hx), (H1 x Hx). Qed.

Lemma agree_outside_store32 lo hi m a v m' :
  agree_outside lo hi m m' -> lo <= a -> a + 4 <= hi ->
  agree_outside lo hi m (store32 m' a v).
Proof.
  intros H ? ? x Hx. unfold store32.
  rewrite (proj2 (andb_false_iff _ _)) by lia. by apply H.
Qed.

Lemma agree_outside_store8 lo hi m a v m' :
  agree_outside lo hi m m' -> lo <= a < hi ->
  agree_outside lo hi m (store8 m' a v).
Proof.
  intros H ? x Hx. unfold store8.
  rewrite (proj2 (Z.eqb_neq _ _)) by lia. by apply H.
Qed.

Lemma agree_outside_on lo hi lo' hi' m m' :
  agree_outside lo hi m m' -> hi' <= lo \/ hi <= lo' -> agree_on lo' hi' m m'.
Proof. intros H ? x Hx. apply H. lia. Qed.

Lemma load32_agree lo hi m m' a :
  agree_on lo hi m m' -> lo <= a -> a + 4 <= hi -> load32 m' a = load32 m a.
Proof. intros H ? ?. unfold load32. by rewrite !H by lia. Qed.

Lemma load8_agree lo hi m m' a :
  agree_on lo hi m m' -> lo <= a < hi -> load8 m' a = load8 m a.
Proof. intros H ?. unfold load8. by rewrite H by lia. Qed.
End mem_lemmas.

(** Reads through a chain of writes at arithmetically disjoint addresses. *)
Ltac mem_simpl :=
  repeat first
    [ rewrite load32_store32_eq
    | rewrite load8_store8_eq
    | rewrite load32_store32_ne by lia
    | rewrite load32_store8_ne by lia
    | rewrite load8_store32_ne by lia
    | rewrite load8_store8_ne by lia ].

(** Shows that a chain of writes stays inside a range. *)
Ltac solve_agree :=
  repeat first
    [ apply agree_outside_refl
    | assumption
    | apply agree_outside_store32; [|lia|lia]
    | apply agree_outside_store8; [|lia] ].
