(* ===== verification/Common.v ===== *)
(** * common.c: memory and string routines

    Pointers are addresses, so the routines walk the byte memory one cell at
    a time with 32-bit address arithmetic.  [cstring m a s] says that the
    NUL-terminated string at [a] has the characters [s]. *)

From S2P Require Import Prelude Memory.

Section common.
Implicit Types (m : mem) (dest src len : Z).

Definition memcpy dest src len m : res mem :=
  while (fun '(dp, sp, len, m) =>
    if negb (len =? 0) then
      Ok (Continue (u32 (dp + 1), u32 (sp + 1), u32 (len - 1), store8 m dp (load8 m sp)))
    else Ok (Break m)) (dest, src, len, m).

Definition memset dest (val len : Z) m : res mem :=
  while (fun '(temp, len, m) =>
    if negb (len =? 0) then
      Ok (Continue (u32 (temp + 1), u32 (len - 1), store8 m temp val))
    else Ok (Break m)) (dest, len, m).

Definition strcmp str1 str2 m : res Z :=
  let at1 i := load8 m (u32 (str1 + i)) in
  let at2 i := load8 m (u32 (str2 + i)) in
  '(i, failed) ← while (fun i =>
    if negb (at1 i =? 0) && negb (at2 i =? 0) then
      if negb (at1 i =? at2 i) then Ok (Break (i, 1)) else Ok (Continue (i + 1))
    else Ok (Break (i, 0))) 0;
  Ok (if ((at1 i =? 0) && negb (at2 i =? 0)) || (negb (at1 i =? 0) && (at2 i =? 0))
      then 1 else failed).

Definition strncmp str1 str2 (count : Z) m : res Z :=
  while (fun i =>
    if i <? count then
      let c1 := load8 m (u32 (str1 + i)) in
      let c2 := load8 m (u32 (str2 + i)) in
      if negb (c1 =? c2) then Ok (Break 1)
      else if c1 =? 0 then Ok (Break 0) else Ok (Continue (u32 (i + 1)))
    else Ok (Break 0)) 0.

Definition strcpy dest src m : res (Z * mem) :=
  m ← while (fun '(dest, src, m) =>
    let c := load8 m src in
    let m := store8 m dest c in
    if negb (c =? 0) then Ok (Continue (u32 (dest + 1), u32 (src + 1), m))
    else Ok (Break m)) (dest, src, m);
  Ok (dest, m).

Definition strcat dest src m : res (Z * mem) :=
  tail ← while (fun dest =>
    if negb (load8 m dest =? 0) then Ok (Continue (u32 (dest + 1))) else Ok (Break dest)) dest;
  '(_, m) ← strcpy tail src m;
  Ok (dest, m).

Definition strlen src m : res Z :=
  '(_, i) ← while (fun '(src, i) =>
    if negb (load8 m src =? 0) then Ok (Continue (u32 (src + 1), i + 1))
    else Ok (Break (src, i))) (src, 0);
  Ok i.
End common.

(** ** Specification vocabulary *)

(** The NUL-terminated string at [a]. *)
Record cstring (m : mem) (a : Z) (s : list Z) : Prop := {
  cs_chars : Forall (fun c => 0 < c < 256) s;
  cs_bytes : forall i c, s !! i = Some c -> load8 m (a + Z.of_nat i) = c;
  cs_end : load8 m (a + Z.of_nat (length s)) = 0;
  cs_range : 0 <= a /\ a + Z.of_nat (length s) < 2 ^ 32
}.

(** [len] bytes at [dest] are those that were at [src]. *)
Definition copied (m m' : mem) (dest src len : Z) : Prop :=
  forall i, 0 <= i < len -> load8 m' (dest + i) = load8 m (src + i).

(** Memory holds bytes. *)
Definition bytes_ok (m : mem) : Prop := forall a, 0 <= m a < 256.

Section common_lemmas.
Implicit Types (m : mem).

Lemma cstring_nonzero m a s i :
  cstring m a s -> 0 <= i < Z.of_nat (length s) -> load8 m (a + i) <> 0.
Proof.
  intros [Hc Hb _ _] Hi. destruct (lookup_lt_is_Some_2 s (Z.to_nat i)) as [c Hs]; [lia|].
  pose proof (Hb _ _ Hs) as H. rewrite Z2Nat.id in H by lia. rewrite H.
  rewrite Forall_lookup in Hc. specialize (Hc _ _ Hs). simpl in Hc. lia.
Qed.

Lemma memcpy_correct dest src len m :
  bytes_ok m -> 0 <= len -> is_u32 dest -> is_u32 src -> dest + len <= 2 ^ 32 -> src + len <= 2 ^ 32 ->
  dest + len <= src \/ src + len <= dest ->
  exists m', memcpy dest src len m = Ok m' /\ copied m m' dest src len /\
    agree_outside dest (dest + len) m m'.
Proof.
  unfold is_u32. intros Hbytes Hl Hd Hs Hde Hse Hsep. unfold memcpy.
  match goal with |- context [while ?f ?s0] =>
    destruct (while_rule f
      (fun '(dp, sp, n, m1) => 0 <= n <= len /\ dp = u32 (dest + (len - n)) /\
         sp = u32 (src + (len - n)) /\ copied m m1 dest src (len - n) /\
         agree_outside dest (dest + len) m m1)
      (fun m1 => copied m m1 dest src len /\ agree_outside dest (dest + len) m m1)
      (fun '(dp, sp, n, m1) => n) s0) as (m' & Hr & HQ) end.
  - intros [[[dp sp] n] m1] (Hn & -> & -> & Hc & Ha).
    destruct (Z.eqb_spec n 0) as [->|Hne]; simpl; [by rewrite Z.sub_0_r in Hc|].
    rewrite (u32_small (dest + _)), (u32_small (src + _)), (u32_small (n - 1)) by lia.
    split; [|lia]. split_and!; [lia|lia|f_equal; lia|f_equal; lia| |].
    + intros i Hi. destruct (decide (i = len - n)) as [->|].
      * rewrite load8_store8_eq. unfold load8. rewrite (Ha (src + _)) by lia. apply u8_small.
        pose proof (Hbytes (src + (len - n))). lia.
      * rewrite load8_store8_ne by lia. apply Hc. lia.
    + apply agree_outside_store8; [done|lia].
  - rewrite Z.sub_diag, !Z.add_0_r, !u32_small by lia.
    split_and!; try lia; first [apply agree_outside_refl|intros i Hi; lia].
  - lia.
  - exists m'. by split.
Qed.

Lemma memset_correct dest val len m :
  0 <= val < 256 -> 0 <= len -> is_u32 dest -> dest + len <= 2 ^ 32 ->
  exists m', memset dest val len m = Ok m' /\
    (forall i, 0 <= i < len -> load8 m' (dest + i) = val) /\
    agree_outside dest (dest + len) m m'.
Proof.
  unfold is_u32. intros Hv Hl Hd Hde. unfold memset.
  match goal with |- context [while ?f ?s0] =>
    destruct (while_rule f
      (fun '(dp, n, m1) => 0 <= n <= len /\ dp = u32 (dest + (len - n)) /\
         (forall i, 0 <= i < len - n -> load8 m1 (dest + i) = val) /\
         agree_outside dest (dest + len) m m1)
      (fun m1 => (forall i, 0 <= i < len -> load8 m1 (dest + i) = val) /\
         agree_outside dest (dest + len) m m1)
      (fun '(dp, n, m1) => n) s0) as (m' & Hr & HQ) end.
  - intros [[dp n] m1] (Hn & -> & Hc & Ha).
    destruct (Z.eqb_spec n 0) as [->|Hne]; simpl; [by rewrite Z.sub_0_r in Hc|].
    rewrite (u32_small (dest + _)), (u32_small (n - 1)) by lia.
    split; [|lia]. split_and!; [lia|lia|f_equal; lia| |].
    + intros i Hi. destruct (decide (i = len - n)) as [->|].
      * rewrite load8_store8_eq. by apply u8_small.
      * rewrite load8_store8_ne by lia. apply Hc. lia.
    + apply agree_outside_store8; [done|lia].
  - rewrite Z.sub_diag, !Z.add_0_r, !u32_small by lia.
    split_and!; try lia; first [apply agree_outside_refl|intros i Hi; lia].
  - lia.
  - exists m'. by split.
Qed.

Lemma strlen_correct m a s : cstring m a s -> strlen a m = Ok (Z.of_nat (length s)).
Proof.
  intros Hcs. pose proof Hcs as [_ _ Hend [Ha Hlen]]. unfold strlen.
  match goal with |- context [while ?f ?s0] =>
    destruct (while_rule f
      (fun '(p, i) => 0 <= i <= Z.of_nat (length s) /\ p = a + i)
      (fun '(p, i) => i = Z.of_nat (length s))
      (fun '(p, i) => Z.of_nat (length s) - i) s0) as ([p i] & -> & HQ) end.
  - intros [p i] [Hi ->]. destruct (Z.eqb_spec (load8 m (a + i)) 0) as [E|E]; simpl.
    + destruct (decide (i = Z.of_nat (length s))); [done|].
      exfalso. by apply (cstring_nonzero m a s i); [|lia|].
    + assert (i <> Z.of_nat (length s)) by (intros ->; done).
      rewrite u32_small by lia. lia.
  - split; lia.
  - lia.
  - rsimpl. by rewrite HQ.
Qed.

Lemma cstring_lookup m a s i :
  cstring m a s -> 0 <= i <= Z.of_nat (length s) ->
  load8 m (a + i) = default 0 (s !! Z.to_nat i).
Proof.
  intros [_ Hb He _] Hi. destruct (s !! Z.to_nat i) as [c|] eqn:E; simpl.
  - rewrite <- (Hb _ _ E). f_equal. lia.
  - apply lookup_ge_None in E. rewrite <- He. f_equal. lia.
Qed.

Lemma take_S_eq (s1 s2 : list Z) i c :
  take i s1 = take i s2 -> s1 !! i = Some c -> s2 !! i = Some c -> take (S i) s1 = take (S i) s2.
Proof. intros H H1 H2. by rewrite (take_S_r _ _ _ H1), (take_S_r _ _ _ H2), H. Qed.

(** [strcmp] tests equality; it does not order. *)
Lemma strcmp_correct m a b s t :
  cstring m a s -> cstring m b t ->
  strcmp a b m = Ok (if decide (s = t) then 0 else 1).
Proof.
  intros Hs Ht. pose proof (cs_range _ _ _ Hs) as [Ha Hal]. pose proof (cs_range _ _ _ Ht) as [Hb Hbl].
  set (n := Z.min (Z.of_nat (length s)) (Z.of_nat (length t))).
  unfold strcmp.
  match goal with |- context [while ?f 0] =>
    destruct (while_rule f
      (fun i => 0 <= i <= n /\ take (Z.to_nat i) s = take (Z.to_nat i) t)
      (fun '(i, failed) => 0 <= i <= n /\ take (Z.to_nat i) s = take (Z.to_nat i) t /\
         (failed = 0 /\ i = n \/ failed = 1 /\ i < n /\ s <> t))
      (fun i => n - i) 0) as ([i failed] & -> & Hi & Htk & HQ) end.
  - intros i [Hi Htk]. rewrite !u32_small by lia.
    rewrite (cstring_lookup m a s i Hs), (cstring_lookup m b t i Ht) by lia.
    destruct (s !! Z.to_nat i) as [c|] eqn:E1, (t !! Z.to_nat i) as [d|] eqn:E2; simpl.
    2-4: rewrite ?andb_false_r; simpl; split_and!; [lia..|done|]; left; split; [done|];
         repeat match goal with H : _ !! _ = None |- _ => apply lookup_ge_None in H end; lia.
    pose proof (cs_chars _ _ _ Hs) as Hc. pose proof (cs_chars _ _ _ Ht) as Hd.
    rewrite Forall_lookup in Hc, Hd. specialize (Hc _ _ E1). specialize (Hd _ _ E2). simpl in Hc, Hd.
    rewrite (proj2 (Z.eqb_neq c 0)), (proj2 (Z.eqb_neq d 0)) by lia. simpl.
    pose proof (lookup_lt_Some _ _ _ E1). pose proof (lookup_lt_Some _ _ _ E2).
    destruct (Z.eqb_spec c d) as [->|Hne]; simpl.
    + split; [|lia]. split; [lia|]. replace (Z.to_nat (i + 1)) with (S (Z.to_nat i)) by lia.
      by eapply take_S_eq.
    + split_and!; [lia..|done|]. right. split_and!; [done|lia|]. intros ->. congruence.
  - split; [lia|done].
  - lia.
  - rsimpl. rewrite !u32_small by lia.
    rewrite (cstring_lookup m a s i Hs), (cstring_lookup m b t i Ht) by lia.
    destruct HQ as [[-> ->]|(-> & Hlt & Hne)].
    + destruct (decide (s = t)) as [<-|Hne].
      * by destruct (default 0 (s !! Z.to_nat n) =? 0).
      * destruct (decide (length s = length t)) as [Hlen|Hlen].
        { destruct Hne. rewrite <- (take_ge s (Z.to_nat n)), <- (take_ge t (Z.to_nat n)) by lia. done. }
        assert (forall u, cstring m a u \/ cstring m b u -> forall k, Z.to_nat n = k -> (k < length u)%nat ->
          default 0 (u !! k) <> 0) as Hnz.
        { intros u Hu k <- Hk. destruct (lookup_lt_is_Some_2 u (Z.to_nat n) Hk) as [c Ec]. rewrite Ec. simpl.
          assert (Forall (fun c => 0 < c < 256) u) as Hf by (destruct Hu as [Hu|Hu]; apply Hu).
          rewrite Forall_lookup in Hf. specialize (Hf _ _ Ec). simpl in Hf. lia. }
        destruct (decide (length s < length t)%nat).
        -- rewrite (lookup_ge_None_2 s) by lia. simpl.
           rewrite (proj2 (Z.eqb_neq (default 0 (t !! _)) 0)); [done|]. eapply Hnz; [by right|done|lia].
        -- rewrite (lookup_ge_None_2 t) by lia. simpl.
           rewrite (proj2 (Z.eqb_neq (default 0 (s !! _)) 0)); [done|]. eapply Hnz; [by left|done|lia].
    + destruct (decide (s = t)); [done|]. by destruct (_ || _).
Qed.

Lemma strncmp_correct m a b s t n :
  cstring m a s -> cstring m b t -> is_u32 n ->
  strncmp a b n m = Ok (if decide (take (Z.to_nat n) s = take (Z.to_nat n) t) then 0 else 1).
Proof.
  unfold is_u32. intros Hs Ht Hn.
  pose proof (cs_range _ _ _ Hs) as [Ha Hal]. pose proof (cs_range _ _ _ Ht) as [Hb Hbl].
  set (same := fun i : Z => take (Z.to_nat i) s = take (Z.to_nat i) t).
  unfold strncmp.
  match goal with |- context [while ?f 0] =>
    destruct (while_rule f
      (fun i => 0 <= i <= n /\ i <= Z.of_nat (length s) /\ i <= Z.of_nat (length t) /\ same i)
      (fun r => r = if decide (same n) then 0 else 1)
      (fun i => n - i) 0) as (r & -> & ->) end; [| |lia|done].
  - intros i (Hi & His & Hit & Htk). destruct (Z.ltb_spec i n).
    2:{ replace i with n in Htk by lia. by destruct (decide (same n)). }
    rewrite !u32_small by lia.
    rewrite (cstring_lookup m a s i Hs), (cstring_lookup m b t i Ht) by lia.
    assert (same n -> s !! Z.to_nat i = t !! Z.to_nat i) as Hsame.
    { intros Hsn. rewrite <- (lookup_take_lt s (Z.to_nat n)), <- (lookup_take_lt t (Z.to_nat n)) by lia.
      by rewrite Hsn. }
    pose proof (cs_chars _ _ _ Hs) as Hc. pose proof (cs_chars _ _ _ Ht) as Hd.
    rewrite Forall_lookup in Hc, Hd.
    destruct (s !! Z.to_nat i) as [c|] eqn:E1, (t !! Z.to_nat i) as [d|] eqn:E2; simpl.
    + specialize (Hc _ _ E1). specialize (Hd _ _ E2). simpl in Hc, Hd.
      pose proof (lookup_lt_Some _ _ _ E1). pose proof (lookup_lt_Some _ _ _ E2).
      destruct (Z.eqb_spec c d) as [->|Hne]; simpl.
      * rewrite (proj2 (Z.eqb_neq d 0)) by lia. split; [|lia].
        split_and!; [lia..|]. unfold same. replace (Z.to_nat (i + 1)) with (S (Z.to_nat i)) by lia.
        by eapply take_S_eq.
      * destruct (decide (same n)) as [Hsn|]; [|done]. specialize (Hsame Hsn). congruence.
    + specialize (Hc _ _ E1). simpl in Hc. rewrite (proj2 (Z.eqb_neq c 0)) by lia. simpl.
      destruct (decide (same n)) as [Hsn|]; [|done]. by specialize (Hsame Hsn).
    + specialize (Hd _ _ E2). simpl in Hd. destruct d as [|d|d]; [lia| |lia]. simpl.
      destruct (decide (same n)) as [Hsn|]; [|done]. by specialize (Hsame Hsn).
    + apply lookup_ge_None in E1, E2. destruct (decide (same n)) as [|Hsn]; [done|].
      destruct Hsn. unfold same in *. rewrite !take_ge in Htk |- * by lia. done.
  - split_and!; [lia..|done].
Qed.

(** The copy loop, started in the middle of a buffer. *)
Lemma strcpy_correct m dest src s :
  let len := Z.of_nat (length s) in
  cstring m src s -> 0 <= dest -> dest + len < 2 ^ 32 ->
  dest + len < src \/ src + len < dest ->
  exists m', strcpy dest src m = Ok (dest, m') /\ cstring m' dest s /\
    agree_outside dest (dest + len + 1) m m'.
Proof.
  intros len Hcs Hd Hde Hsep. pose proof (cs_range _ _ _ Hcs) as [Hs Hse]. fold len in Hse.
  unfold strcpy.
  match goal with |- context [while ?f ?s0] =>
    destruct (while_rule f
      (fun '(dp, sp, m1) => exists i, 0 <= i <= len /\ dp = dest + i /\ sp = src + i /\
         copied m m1 dest src i /\ agree_outside dest (dest + len + 1) m m1)
      (fun m1 => copied m m1 dest src (len + 1) /\ agree_outside dest (dest + len + 1) m m1)
      (fun '(dp, sp, m1) => dest + len - dp) s0) as (m' & -> & Hc & Hag) end.
  - intros [[dp sp] m1] (i & Hi & -> & -> & Hc & Hag).
    assert (load8 m1 (src + i) = load8 m (src + i)) as E by (unfold load8; apply Hag; lia).
    assert (0 <= load8 m (src + i) < 256) as Hbyte.
    { rewrite (cstring_lookup m src s i Hcs) by (fold len; lia).
      destruct (s !! Z.to_nat i) as [c|] eqn:Ec; simpl; [|lia].
      pose proof (cs_chars _ _ _ Hcs) as Hf. rewrite Forall_lookup in Hf. specialize (Hf _ _ Ec). simpl in Hf. lia. }
    assert (copied m (store8 m1 (dest + i) (load8 m1 (src + i))) dest src (i + 1)) as Hc'.
    { intros j Hj. destruct (decide (j = i)) as [->|].
      - rewrite load8_store8_eq, E. by apply u8_small.
      - rewrite load8_store8_ne by lia. apply Hc. lia. }
    assert (agree_outside dest (dest + len + 1) m (store8 m1 (dest + i) (load8 m1 (src + i)))) as Hag'
      by (apply agree_outside_store8; [done|lia]).
    rewrite E. destruct (Z.eqb_spec (load8 m (src + i)) 0) as [E0|E0]; simpl; rewrite <- E.
    + assert (i = len) as ->; [|by split].
      destruct (decide (i = len)); [done|]. exfalso.
      apply (cstring_nonzero m src s i Hcs); [fold len; lia|done].
    + assert (i <> len) by (intros ->; apply E0; exact (cs_end _ _ _ Hcs)).
      rewrite !u32_small by lia. split; [|lia]. exists (i + 1). split_and!; [lia..|done|done].
  - exists 0. rewrite !Z.add_0_r. split_and!; [lia..|intros j; lia|apply agree_outside_refl].
  - lia.
  - rsimpl. exists m'. split; [done|]. split; [|done]. split.
    + apply Hcs.
    + intros i c Hi. pose proof (lookup_lt_Some _ _ _ Hi). rewrite Hc by (unfold len; lia).
      by apply (cs_bytes _ _ _ Hcs i c).
    + fold len. rewrite Hc by lia. exact (cs_end _ _ _ Hcs).
    + fold len. lia.
Qed.

Lemma strcat_correct m dest src d s :
  let total := Z.of_nat (length d + length s) in
  cstring m dest d -> cstring m src s -> dest + total < 2 ^ 32 ->
  dest + total < src \/ src + Z.of_nat (length s) < dest ->
  exists m', strcat dest src m = Ok (dest, m') /\ cstring m' dest (d ++ s) /\
    agree_outside dest (dest + total + 1) m m'.
Proof.
  intros total Hd Hs Hde Hsep. pose proof (cs_range _ _ _ Hd) as [Hd0 Hdl].
  assert (total = Z.of_nat (length d) + Z.of_nat (length s)) as Et by (unfold total; lia).
  unfold strcat.
  match goal with |- context [while ?f ?s0] =>
    destruct (while_rule f
      (fun p => dest <= p <= dest + Z.of_nat (length d))
      (fun p => p = dest + Z.of_nat (length d))
      (fun p => dest + Z.of_nat (length d) - p) s0) as (p & -> & ->) end; [|lia|lia|].
  - intros p Hp. destruct (Z.eqb_spec (load8 m p) 0) as [E|E]; simpl.
    + destruct (decide (p = dest + Z.of_nat (length d))); [done|]. exfalso.
      apply (cstring_nonzero m dest d (p - dest) Hd); [lia|]. by replace (dest + (p - dest)) with p by lia.
    + assert (p <> dest + Z.of_nat (length d)) by (intros ->; by rewrite (cs_end _ _ _ Hd) in E).
      rewrite u32_small by lia. lia.
  - rsimpl. destruct (strcpy_correct m (dest + Z.of_nat (length d)) src s Hs)
      as (m' & -> & Hcs & Hag); [lia..|].
    rsimpl. exists m'. split; [done|]. split.
    + split.
      * apply Forall_app. split; [apply Hd|apply Hs].
      * intros i c Hi. destruct (decide (i < length d)%nat) as [Hlt|Hge].
        -- rewrite lookup_app_l in Hi by done. rewrite <- (cs_bytes _ _ _ Hd i c Hi).
           apply Hag. lia.
        -- rewrite lookup_app_r in Hi by lia. rewrite <- (cs_bytes _ _ _ Hcs _ _ Hi). f_equal. lia.
      * rewrite length_app. rewrite <- (cs_end _ _ _ Hcs). f_equal. lia.
      * rewrite length_app. lia.
    + eapply agree_outside_weaken; [exact Hag|lia..].
Qed.
End common_lemmas.

(** A string in a memory of zeros, for concrete instances. *)
Fixpoint put_string (a : Z) (s : list Z) (m : mem) : mem :=
  match s with
  | [] => store8 m a 0
  | c :: s => put_string (a + 1) s (store8 m a c)
  end.

Section put.
Implicit Types (m : mem) (s : list Z).

Lemma cstring_agree m m' a s :
  cstring m a s -> agree_on a (a + Z.of_nat (length s) + 1) m m' -> cstring m' a s.
Proof.
  intros [Hc Hb He Hr] Hag. split; [done| | |done].
  - intros i c Hi. pose proof (lookup_lt_Some _ _ _ Hi). rewrite <- (Hb i c Hi). apply Hag. lia.
  - rewrite <- He. apply Hag. lia.
Qed.

Lemma put_string_agree a s m :
  agree_outside a (a + Z.of_nat (length s) + 1) m (put_string a s m).
Proof.
  revert a m. induction s as [|c s IH]; intros a m; simpl; [solve_agree|].
  eapply (agree_outside_trans _ _ _ (store8 m a c)); [solve_agree|].
  eapply agree_outside_weaken; [apply IH|lia..].
Qed.

Lemma put_string_cstring a s m :
  Forall (fun c => 0 < c < 256) s -> 0 <= a -> a + Z.of_nat (length s) < 2 ^ 32 ->
  cstring (put_string a s m) a s.
Proof.
  intros Hs. revert a m. induction Hs as [|c s Hc Hs IH]; intros a m Ha Hr; simpl in *.
  - split; [by apply Forall_nil|intros i x Hx; by rewrite lookup_nil in Hx| |simpl; lia]. simpl. rewrite Z.add_0_r. by rewrite load8_store8_eq.
  - destruct (IH (a + 1) (store8 m a c)) as [_ Hb He _]; [lia..|].
    split; [by apply Forall_cons| | |simpl; lia].
    + intros [|i] x Hx; simpl in Hx.
      * injection Hx as ->. rewrite Z.add_0_r. unfold load8. rewrite put_string_agree by lia.
        change (load8 (store8 m a x) a = x). rewrite load8_store8_eq. apply u8_small; lia.
      * rewrite <- (Hb i x Hx). f_equal. lia.
    + rewrite <- He. simpl. f_equal. lia.
Qed.

(** Two strings in separate buffers. *)
Definition two_strings (a : Z) s (b : Z) (t : list Z) : mem :=
  put_string a s (put_string b t (fun _ => 0)).

Lemma two_strings_ok a s b t :
  Forall (fun c => 0 < c < 256) s -> Forall (fun c => 0 < c < 256) t ->
  0 <= a -> a + Z.of_nat (length s) < b -> b + Z.of_nat (length t) < 2 ^ 32 ->
  cstring (two_strings a s b t) a s /\ cstring (two_strings a s b t) b t.
Proof.
  intros Hs Ht Ha Hab Hb. split; [apply put_string_cstring; [done|lia..]|].
  eapply cstring_agree; [apply put_string_cstring; [done|lia..]|].
  eapply agree_outside_on; [apply put_string_agree|]. lia.
Qed.
End put.

(** [strcmp] returns 0 exactly for equal strings and 1 for all others;
    unlike its comment it never returns -1, so it cannot order strings. *)
Theorem strcmp_tests_equality m a b s t :
  cstring m a s -> cstring m b t -> strcmp a b m = Ok (if decide (s = t) then 0 else 1).
Proof. apply strcmp_correct. Qed.

Lemma strcmp_tests_equality_witness :
  strcmp 0x1000 0x2000 (two_strings 0x1000 [97; 98] 0x2000 [97; 99]) =
    Ok (if decide ([97; 98] = [97; 99]) then 0 else 1).
Proof.
  destruct (two_strings_ok 0x1000 [97; 98] 0x2000 [97; 99]) as [H1 H2];
    [repeat constructor; lia..|lia|simpl; lia|simpl; lia|].
  apply (strcmp_tests_equality _ _ _ _ _ H1 H2).
Defined.

(** When the destination buffer has room and does not overlap the
    source, [strcat] leaves the concatenation at the destination, writes
    nothing outside it, and [strlen] of the result is the sum. *)
Theorem strcat_appends m dest src d s :
  let total := Z.of_nat (length d + length s) in
  cstring m dest d -> cstring m src s -> dest + total < 2 ^ 32 ->
  dest + total < src \/ src + Z.of_nat (length s) < dest ->
  exists m', strcat dest src m = Ok (dest, m') /\ cstring m' dest (d ++ s) /\
    agree_outside dest (dest + total + 1) m m' /\ strlen dest m' = Ok total.
Proof.
  intros total Hd Hs Hroom Hsep.
  destruct (strcat_correct m dest src d s Hd Hs Hroom Hsep) as (m' & Hr & Hcs & Hag).
  exists m'. split_and!; [done..|]. rewrite (strlen_correct _ _ _ Hcs). by rewrite length_app.
Qed.

Lemma strcat_appends_witness :
  exists m', strcat 0x1000 0x2000 (two_strings 0x1000 [97; 98] 0x2000 [99]) = Ok (0x1000, m') /\
    cstring m' 0x1000 [97; 98; 99] /\ strlen 0x1000 m' = Ok 3.
Proof.
  destruct (two_strings_ok 0x1000 [97; 98] 0x2000 [99]) as [H1 H2];
    [repeat constructor; lia..|lia|simpl; lia|simpl; lia|].
  destruct (strcat_appends _ _ _ _ _ H1 H2) as (m' & Hr & Hcs & _ & Hl); [simpl; lia|simpl; lia|].
  exists m'. split; [exact Hr|]. split; [exact Hcs|exact Hl].
Defined.
