(* ===== verification/OrderedArray.v ===== *)
(** * ordered_array.c: the sorted pointer array behind the kernel heap

    [ordered_array_t] is the C struct; the memory its [array] pointer
    designates is the list [slots], and an access outside it is an explicit
    panic, so every [Ok] theorem is also a memory-safety theorem.  The
    [less_than] callback reads kernel memory (kheap.c compares header
    sizes), hence its extra argument of type [M]. *)

From Stdlib Require Import Sorting.Sorted.
From S2P Require Import Prelude.

(** [type_t]: a pointer or an integer, here the 32-bit value itself. *)
Abbreviation type_t := Z (only parsing).

Record ordered_array_t (M : Type) : Type := mk_ordered_array {
  array : Z;                       (* backing pointer, 0 when null *)
  slots : list type_t;             (* the memory it points to *)
  size : Z;
  max_size : Z;
  less_than : option (M -> type_t -> type_t -> bool);
  owns_storage : Z
}.
Arguments mk_ordered_array {M}.
Arguments array {M}. Arguments slots {M}. Arguments size {M}.
Arguments max_size {M}. Arguments less_than {M}. Arguments owns_storage {M}.

Definition OUT_OF_BOUNDS : string := "out-of-bounds array access".

(** [array->array[i]] as an rvalue and as an lvalue. *)
Definition get_slot (l : list type_t) (i : Z) : res type_t :=
  if i <? 0 then Panic OUT_OF_BOUNDS else
  match l !! Z.to_nat i with Some x => Ok x | None => Panic OUT_OF_BOUNDS end.
Definition set_slot (l : list type_t) (i : Z) (x : type_t) : res (list type_t) :=
  if (0 <=? i) && (i <? Z.of_nat (length l)) then Ok (<[Z.to_nat i := x]> l)
  else Panic OUT_OF_BOUNDS.

Definition standard_lessthan_predicate {M : Type} (_ : M) (a b : type_t) : bool :=
  u32 a <? u32 b.

Section operations.
Context {M : Type}.
Abbreviation oarray := (ordered_array_t M).

Definition with_slots (arr : oarray) (l : list type_t) (n : Z) : oarray :=
  {| array := array arr; slots := l; size := n; max_size := max_size arr;
     less_than := less_than arr; owns_storage := owns_storage arr |}.

Definition sizeof_type_t : Z := 4.

(** [kmalloc] is the allocator of kheap.c, on its own state [K]. *)
Definition create_ordered_array {K : Type} (kmalloc : Z -> K -> res (Z * K))
    (max : Z) (lt : option (M -> type_t -> type_t -> bool)) (k : K) :
    res (oarray * K) :=
  ASSERT (0 <? max);;
  ASSERT (max <=? 0xFFFFFFFF `div` sizeof_type_t);;
  ASSERT (match lt with Some _ => true | None => false end);;
  '(addr, k) ← kmalloc (u32 (max * sizeof_type_t)) k;
  Ok ({| array := addr; slots := replicate (Z.to_nat max) 0; size := 0;
         max_size := max; less_than := lt; owns_storage := 1 |}, k).

Definition place_ordered_array (addr max : Z)
    (lt : option (M -> type_t -> type_t -> bool)) : res oarray :=
  ASSERT (negb (addr =? 0));;
  ASSERT (0 <? max);;
  ASSERT (max <=? 0xFFFFFFFF `div` sizeof_type_t);;
  ASSERT (match lt with Some _ => true | None => false end);;
  Ok {| array := addr; slots := replicate (Z.to_nat max) 0; size := 0;
        max_size := max; less_than := lt; owns_storage := 0 |}.

Definition destroy_ordered_array {K : Type} (kfree : Z -> K -> res K)
    (arr : oarray) (k : K) : res (oarray * K) :=
  k ← (if negb (owns_storage arr =? 0) && negb (array arr =? 0)
       then kfree (array arr) k else Ok k);
  Ok ({| array := 0; slots := []; size := 0; max_size := 0;
         less_than := less_than arr; owns_storage := 0 |}, k).

(** First loop of [insert_ordered_array]: the insertion position. *)
Definition insert_position (lt : type_t -> type_t -> bool) (item : type_t)
    (arr : oarray) : res Z :=
  while (fun iterator =>
    if iterator <? size arr then
      x ← get_slot (slots arr) iterator;
      if lt x item then Ok (Continue (u32 (iterator + 1)))
      else Ok (Break iterator)
    else Ok (Break iterator)) 0.

(** Second loop: make room by moving later entries one slot right. *)
Definition shift_right (iterator destination : Z) (l : list type_t) :
    res (list type_t) :=
  while (fun '(destination, l) =>
    if iterator <? destination then
      x ← get_slot l (u32 (destination - 1));
      l ← set_slot l destination x;
      Ok (Continue (u32 (destination - 1), l))
    else Ok (Break l)) (destination, l).

Definition insert_ordered_array (m : M) (item : type_t) (arr : oarray) : res oarray :=
  ASSERT (negb (array arr =? 0));;
  match less_than arr with
  | None => Panic ASSERTION_FAILED
  | Some lt =>
      ASSERT (size arr <? max_size arr);;
      iterator ← insert_position (lt m) item arr;
      l ← shift_right iterator (size arr) (slots arr);
      l ← set_slot l iterator item;
      Ok (with_slots arr l (u32 (size arr + 1)))
  end.

Definition lookup_ordered_array (i : Z) (arr : oarray) : res type_t :=
  ASSERT (negb (array arr =? 0));;
  ASSERT (i <? size arr);;
  get_slot (slots arr) i.

(** The loop of [remove_ordered_array]. *)
Definition shift_left (n i : Z) (l : list type_t) : res (list type_t) :=
  while (fun '(i, l) =>
    if u32 (i + 1) <? n then
      x ← get_slot l (u32 (i + 1));
      l ← set_slot l i x;
      Ok (Continue (u32 (i + 1), l))
    else Ok (Break l)) (i, l).

Definition remove_ordered_array (i : Z) (arr : oarray) : res oarray :=
  ASSERT (negb (array arr =? 0));;
  ASSERT (i <? size arr);;
  l ← shift_left (size arr) i (slots arr);
  l ← set_slot l (u32 (size arr - 1)) 0;
  Ok (with_slots arr l (u32 (size arr - 1))).
End operations.

(** ** Specification vocabulary *)

(** Well-formed arrays: what [place_] and [create_ordered_array] establish. *)
Record oa_wf {M} (arr : ordered_array_t M) : Prop := {
  oa_array : array arr <> 0;
  oa_size : 0 <= size arr <= max_size arr;
  oa_max : max_size arr = Z.of_nat (length (slots arr));
  oa_cap : max_size arr <= 0xFFFFFFFF `div` sizeof_type_t;
  oa_lt : is_Some (less_than arr)
}.

(** The populated prefix. *)
Definition contents {M} (arr : ordered_array_t M) : list type_t :=
  take (Z.to_nat (size arr)) (slots arr).

(** Reference insertion into a sorted list. *)
Fixpoint insert_sorted {A} (lt : A -> A -> bool) (item : A) (l : list A) : list A :=
  match l with
  | [] => [item]
  | x :: l => if lt x item then x :: insert_sorted lt item l else item :: x :: l
  end.

Class StrictWeakOrder {A} (lt : A -> A -> bool) : Prop := {
  swo_asym x y : lt x y = true -> lt y x = false;
  swo_negtrans x y z : lt x y = false -> lt y z = false -> lt x z = false
}.

Definition sorted_by {A} (lt : A -> A -> bool) (l : list A) : Prop :=
  StronglySorted (fun x y => lt y x = false) l.

(** ** Slots *)

Lemma get_slot_ok l i x :
  0 <= i -> l !! Z.to_nat i = Some x -> get_slot l i = Ok x.
Proof. intros Hi Hx. unfold get_slot. by rewrite (proj2 (Z.ltb_ge _ _)), Hx by lia. Qed.

Lemma get_slot_inv l i x :
  get_slot l i = Ok x -> 0 <= i /\ l !! Z.to_nat i = Some x.
Proof.
  unfold get_slot. destruct (Z.ltb_spec i 0); [done|].
  destruct (l !! Z.to_nat i) eqn:E; [|done]. by intros [= ->].
Qed.

Lemma get_slot_lt l i :
  0 <= i < Z.of_nat (length l) ->
  exists x, l !! Z.to_nat i = Some x /\ get_slot l i = Ok x.
Proof.
  intros Hi. destruct (lookup_lt_is_Some_2 l (Z.to_nat i)) as [x Hx]; [lia|].
  exists x. split; [done|]. by apply get_slot_ok; [lia|].
Qed.

Lemma set_slot_ok l i x :
  0 <= i < Z.of_nat (length l) -> set_slot l i x = Ok (<[Z.to_nat i := x]> l).
Proof. intros Hi. unfold set_slot. by rewrite (proj2 (andb_true_iff _ _)) by lia. Qed.

Section insert_sorted_facts.
Context {A : Type} (lt : A -> A -> bool).
Implicit Types (l : list A) (x item : A).

Lemma insert_sorted_perm item l : insert_sorted lt item l ≡ₚ item :: l.
Proof.
  induction l as [|x l IH]; simpl; [done|].
  destruct (lt x item); [|done]. by rewrite IH, (Permutation_swap item x).
Qed.

Lemma insert_sorted_length item l : length (insert_sorted lt item l) = S (length l).
Proof. by rewrite (insert_sorted_perm item l). Qed.

(** The position of the first element that is not smaller. *)
Lemma insert_sorted_at k item l :
  (k <= length l)%nat ->
  (forall j x, (j < k)%nat -> l !! j = Some x -> lt x item = true) ->
  (forall x, l !! k = Some x -> lt x item = false) ->
  insert_sorted lt item l = take k l ++ item :: drop k l.
Proof.
  revert l. induction k as [|k IH]; intros l Hk Hlt Hge.
  - destruct l as [|x l]; [done|]. simpl. by rewrite (Hge x eq_refl).
  - destruct l as [|x l]; [simpl in Hk; lia|]. simpl.
    rewrite (Hlt 0%nat x) by (done || lia). f_equal.
    apply IH; [simpl in Hk; lia| |done].
    intros j y Hj Hy. by apply (Hlt (S j)); [lia|].
Qed.

Context `{!StrictWeakOrder lt}.

Lemma insert_sorted_sorted item l :
  sorted_by lt l -> sorted_by lt (insert_sorted lt item l).
Proof.
  unfold sorted_by. induction 1 as [|x l Hl IH Hx]; simpl.
  { by repeat constructor. }
  destruct (lt x item) eqn:E.
  - constructor; [done|]. rewrite insert_sorted_perm.
    constructor; [by apply swo_asym|done].
  - constructor; [by constructor|]. constructor; [done|].
    eapply Forall_impl; [done|]. intros y Hy. by apply (swo_negtrans y x item).
Qed.
End insert_sorted_facts.

Lemma sorted_by_delete {A} (lt : A -> A -> bool) i l :
  sorted_by lt l -> sorted_by lt (delete i l).
Proof.
  unfold sorted_by. intros Hl. revert i.
  induction Hl as [|x l Hl IH Hx]; intros [|i]; simpl; [constructor..|done|].
  constructor; [apply IH|]. by apply Forall_delete.
Qed.

(** Sortedness only depends on how the order sees the elements. *)
Lemma sorted_by_ext {A} (lt lt' : A -> A -> bool) l :
  (forall x y, x ∈ l -> y ∈ l -> lt x y = lt' x y) ->
  sorted_by lt l -> sorted_by lt' l.
Proof.
  unfold sorted_by. intros Heq Hl. induction Hl as [|x l Hl IH Hx]; constructor.
  - apply IH. intros y z Hy Hz. apply Heq; by right.
  - rewrite Forall_forall in Hx |- *. intros y Hy.
    rewrite <- Heq; [by apply Hx|by right|by left].
Qed.

Lemma sorted_by_lookup {A} (lt : A -> A -> bool) l i j x y :
  sorted_by lt l -> (i < j)%nat -> l !! i = Some x -> l !! j = Some y -> lt y x = false.
Proof.
  unfold sorted_by. intros Hl. revert i j. induction Hl as [|z l Hl IH Hz]; intros i j Hij Hi Hj; [done|].
  destruct j as [|j]; [lia|]. destruct i as [|i]; simpl in *.
  - injection Hi as ->. rewrite Forall_forall in Hz. apply Hz. by eapply list_elem_of_lookup_2.
  - apply (IH i j); [lia|done|done].
Qed.

(** Comparing neighbours is enough. *)
Lemma sorted_by_adjacent {A} (lt : A -> A -> bool) `{!StrictWeakOrder lt} l :
  (forall i x y, l !! i = Some x -> l !! S i = Some y -> lt y x = false) -> sorted_by lt l.
Proof.
  intros Hadj. unfold sorted_by. apply Sorted_StronglySorted.
  { intros x y z Hyx Hzy. by apply (swo_negtrans z y x). }
  induction l as [|x l IH]; constructor.
  - apply IH. intros i. apply (Hadj (S i)).
  - destruct l as [|y l]; constructor. by apply (Hadj 0%nat).
Qed.

(** ** The loops *)

Section loops.
Context {M : Type}.
Implicit Types arr : ordered_array_t M.

Lemma oa_bound arr : oa_wf arr -> max_size arr < 2 ^ 30.
Proof. intros [_ _ _ H _]. change (0xFFFFFFFF `div` sizeof_type_t) with (2 ^ 30 - 1) in H. lia. Qed.

Lemma contents_length arr : oa_wf arr -> length (contents arr) = Z.to_nat (size arr).
Proof. intros [_ Hs Hm _ _]. unfold contents. rewrite length_take. lia. Qed.

Lemma contents_lookup arr j :
  (j < Z.to_nat (size arr))%nat -> contents arr !! j = slots arr !! j.
Proof. intros Hj. by apply lookup_take_lt. Qed.

Lemma insert_position_spec arr (lt : type_t -> type_t -> bool) item :
  oa_wf arr ->
  exists k, insert_position lt item arr = Ok k /\ 0 <= k <= size arr /\
    (forall j x, (j < Z.to_nat k)%nat -> contents arr !! j = Some x -> lt x item = true) /\
    (forall x, contents arr !! Z.to_nat k = Some x -> lt x item = false).
Proof.
  intros Hwf. pose proof (oa_bound arr Hwf). pose proof (contents_length arr Hwf) as Hlen.
  destruct Hwf as [_ Hs Hm _ _].
  pose (I := fun it => 0 <= it <= size arr /\
    forall j x, (j < Z.to_nat it)%nat -> contents arr !! j = Some x -> lt x item = true).
  apply (while_rule _ I _ (fun it => size arr - it)); unfold I; clear I; [|split; [lia|intros ? ? ?; lia]|lia].
  intros it [Hit Hlt]. destruct (Z.ltb_spec it (size arr)).
  - destruct (get_slot_lt (slots arr) it) as (x & Hx & ->); [lia|]. rewrite bind_Ok.
    assert (contents arr !! Z.to_nat it = Some x) as Hx' by (rewrite contents_lookup; [done|lia]).
    destruct (lt x item) eqn:E.
    + u32_simpl. split_and!; [lia..| |lia|lia].
      intros j y Hj Hy. destruct (decide (j = Z.to_nat it)) as [->|]; [congruence|].
      by apply (Hlt j); [lia|].
    + split_and!; [lia..|done|]. intros y Hy. congruence.
  - split_and!; [lia..|done|]. intros y Hy.
    apply lookup_lt_Some in Hy. lia.
Qed.

Lemma shift_right_spec (it n : Z) (l : list type_t) :
  0 <= it <= n -> n < Z.of_nat (length l) -> n < 2 ^ 31 ->
  exists l', shift_right it n l = Ok l' /\ length l' = length l /\
    forall j, l' !! j = if decide (Z.to_nat it < j <= Z.to_nat n)%nat then l !! (j - 1)%nat else l !! j.
Proof.
  intros Hit Hn Hb.
  pose (I := fun p : Z * list type_t => let '(d, l') := p in it <= d <= n /\ length l' = length l /\
    forall j, l' !! j = if decide (Z.to_nat d < j <= Z.to_nat n)%nat then l !! (j - 1)%nat else l !! j).
  apply (while_rule _ I _ (fun p => p.1 - it)); unfold I; clear I; [|split_and!; [lia..|done|]|simpl; lia].
  - intros [d l'] (Hd & Hlen & Hl'). destruct (Z.ltb_spec it d); simpl.
    + u32_simpl. destruct (get_slot_lt l' (d - 1)) as (x & Hx & ->); [lia|]. rewrite bind_Ok.
      rewrite set_slot_ok, bind_Ok by lia. cbn [fst].
      split_and!; [lia..|by rewrite length_insert| |lia|lia].
      rewrite Hl', decide_False in Hx by lia.
      intros j. destruct (decide (j = Z.to_nat d)) as [->|].
      * rewrite list_lookup_insert_eq by lia. rewrite decide_True by lia.
        by replace (Z.to_nat d - 1)%nat with (Z.to_nat (d - 1)) by lia.
      * rewrite list_lookup_insert_ne, Hl' by done. by repeat case_decide; try lia.
    + split; [done|]. by replace it with d by lia.
  - intros j. by rewrite decide_False by lia.
Qed.

Lemma shift_left_spec (n i : Z) (l : list type_t) :
  0 <= i < n -> n <= Z.of_nat (length l) -> n < 2 ^ 31 ->
  exists l', shift_left n i l = Ok l' /\ length l' = length l /\
    forall j, l' !! j = if decide (Z.to_nat i <= j < Z.to_nat n - 1)%nat then l !! (j + 1)%nat else l !! j.
Proof.
  intros Hi Hn Hb.
  pose (I := fun p : Z * list type_t => let '(k, l') := p in i <= k < n /\ length l' = length l /\
    forall j, l' !! j = if decide (Z.to_nat i <= j < Z.to_nat k)%nat then l !! (j + 1)%nat else l !! j).
  apply (while_rule _ I _ (fun p => n - p.1)); unfold I; clear I; [|split_and!; [lia..|done|]|simpl; lia].
  - intros [k l'] (Hk & Hlen & Hl'). u32_simpl. destruct (Z.ltb_spec (k + 1) n); simpl.
    + destruct (get_slot_lt l' (k + 1)) as (x & Hx & ->); [lia|]. rewrite bind_Ok.
      rewrite set_slot_ok, bind_Ok by lia. cbn [fst].
      split_and!; [lia..|by rewrite length_insert| |lia|lia].
      rewrite Hl', decide_False in Hx by lia.
      intros j. destruct (decide (j = Z.to_nat k)) as [->|].
      * rewrite list_lookup_insert_eq by lia. rewrite decide_True by lia.
        by replace (Z.to_nat k + 1)%nat with (Z.to_nat (k + 1)) by lia.
      * rewrite list_lookup_insert_ne, Hl' by done. by repeat case_decide; try lia.
    + split; [done|]. intros j. rewrite Hl'. by repeat case_decide; try lia.
  - intros j. by rewrite decide_False by lia.
Qed.
End loops.

(** ** Operations *)

(** The fields no insertion or removal changes. *)
Definition oa_same {M} (arr arr' : ordered_array_t M) : Prop :=
  array arr' = array arr /\ max_size arr' = max_size arr /\
  less_than arr' = less_than arr /\ owns_storage arr' = owns_storage arr.

Section specs.
Context {M : Type}.
Implicit Types arr : ordered_array_t M.

Lemma insert_ordered_array_spec (m : M) item arr lt :
  oa_wf arr -> less_than arr = Some lt -> size arr < max_size arr ->
  exists arr', insert_ordered_array m item arr = Ok arr' /\ oa_wf arr' /\
    contents arr' = insert_sorted (lt m) item (contents arr) /\
    size arr' = size arr + 1 /\ oa_same arr arr'.
Proof.
  intros Hwf Hlt Hfull. pose proof (oa_bound arr Hwf). pose proof (contents_length arr Hwf) as Hlen.
  destruct (insert_position_spec arr (lt m) item Hwf) as (k & Hk & Hkr & Hbefore & Hat).
  pose proof Hwf as [Harr Hs Hm Hcap Hlt'].
  destruct (shift_right_spec k (size arr) (slots arr)) as (l & Hl & Hll & Hlook); [lia..|].
  unfold insert_ordered_array. rewrite Hlt. do 2 assert_step.
  rewrite Hk, bind_Ok, Hl, bind_Ok, set_slot_ok, bind_Ok by lia. u32_simpl.
  eexists. split; [done|]. split; [|split; [|done]].
  { split; simpl; rewrite ?length_insert; [done|lia|lia|done|done]. }
  rewrite (insert_sorted_at _ (Z.to_nat k)); [|lia|done|done].
  unfold contents at 1. simpl. apply list_eq. intros j.
  rewrite lookup_take. destruct (decide (j < Z.to_nat (size arr + 1))%nat) as [Hj|Hj].
  2:{ rewrite (lookup_ge_None_2 (_ ++ _)); [done|].
      rewrite length_app. simpl. rewrite length_take, length_drop. lia. }
  destruct (decide (j = Z.to_nat k)) as [->|Hne].
  - rewrite list_lookup_insert_eq by lia. rewrite lookup_app_r by (rewrite length_take; lia).
    rewrite length_take. by replace (Z.to_nat k - _)%nat with 0%nat by lia.
  - rewrite list_lookup_insert_ne, Hlook by done. case_decide.
    + rewrite lookup_app_r by (rewrite length_take; lia). rewrite length_take, Nat.min_l by lia.
      replace (j - Z.to_nat k)%nat with (S (j - 1 - Z.to_nat k)) by lia. simpl.
      rewrite lookup_drop, contents_lookup by lia. f_equal. lia.
    + rewrite lookup_app_l by (rewrite length_take; lia).
      by rewrite lookup_take_lt, contents_lookup by lia.
Qed.

Lemma lookup_ordered_array_spec i arr :
  oa_wf arr -> 0 <= i < size arr ->
  exists x, lookup_ordered_array i arr = Ok x /\ contents arr !! Z.to_nat i = Some x.
Proof.
  intros [Harr Hs Hm _ _] Hi. unfold lookup_ordered_array. do 2 assert_step.
  destruct (get_slot_lt (slots arr) i) as (x & Hx & ->); [lia|].
  exists x. split; [done|]. by rewrite contents_lookup by lia.
Qed.

Lemma lookup_ordered_array_inv i arr x :
  lookup_ordered_array i arr = Ok x -> 0 <= i < size arr /\ contents arr !! Z.to_nat i = Some x.
Proof.
  unfold lookup_ordered_array. intros H. res_inv H.
  repeat match goal with Ha : ASSERT _ = Ok _ |- _ => apply ASSERT_inv in Ha end.
  apply get_slot_inv in H as [? Hx]. split; [lia|].
  rewrite contents_lookup by lia. done.
Qed.

Lemma remove_ordered_array_spec i arr :
  oa_wf arr -> 0 <= i < size arr ->
  exists arr', remove_ordered_array i arr = Ok arr' /\ oa_wf arr' /\
    contents arr' = delete (Z.to_nat i) (contents arr) /\
    size arr' = size arr - 1 /\ oa_same arr arr'.
Proof.
  intros Hwf Hi. pose proof (oa_bound arr Hwf). pose proof (contents_length arr Hwf) as Hlen.
  destruct Hwf as [Harr Hs Hm Hcap Hlt].
  destruct (shift_left_spec (size arr) i (slots arr)) as (l & Hl & Hll & Hlook); [lia..|].
  unfold remove_ordered_array. do 2 assert_step. u32_simpl.
  rewrite Hl, bind_Ok, set_slot_ok, bind_Ok by lia.
  eexists. split; [done|]. split; [|split; [|done]].
  { split; simpl; rewrite ?length_insert; [done|lia|lia|done|done]. }
  unfold contents at 1. simpl. apply list_eq. intros j.
  rewrite lookup_take. case_decide.
  - rewrite list_lookup_insert_ne, Hlook by lia. case_decide.
    + rewrite list_lookup_delete_ge, contents_lookup by lia. f_equal. lia.
    + by rewrite list_lookup_delete_lt, contents_lookup by lia.
  - rewrite lookup_ge_None_2; [done|].
    rewrite length_delete; [lia|]. apply lookup_lt_is_Some_2. lia.
Qed.
End specs.

(** ** Sequences of operations refine a bounded sorted list *)

Inductive oa_op : Type :=
  | OpInsert (item : type_t)
  | OpLookup (i : Z)
  | OpRemove (i : Z).

(** Arguments are machine words. *)
Definition op_u32 (o : oa_op) : Prop :=
  match o with OpInsert x => is_u32 x | OpLookup i => is_u32 i | OpRemove i => is_u32 i end.

Definition run_op {M} (m : M) (o : oa_op) (arr : ordered_array_t M) :
    res (option type_t * ordered_array_t M) :=
  match o with
  | OpInsert x => arr ← insert_ordered_array m x arr; Ok (None, arr)
  | OpLookup i => x ← lookup_ordered_array i arr; Ok (Some x, arr)
  | OpRemove i => arr ← remove_ordered_array i arr; Ok (None, arr)
  end.
Fixpoint run_ops {M} (m : M) (ops : list oa_op) (arr : ordered_array_t M) :
    res (list (option type_t) * ordered_array_t M) :=
  match ops with
  | [] => Ok ([], arr)
  | o :: ops =>
      '(out, arr) ← run_op m o arr;
      '(outs, arr) ← run_ops m ops arr;
      Ok (out :: outs, arr)
  end.

(** The abstract object: a list of at most [cap] entries. *)
Definition spec_op (lt : type_t -> type_t -> bool) (cap : Z) (o : oa_op) (l : list type_t) :
    option (option type_t * list type_t) :=
  match o with
  | OpInsert x => if Z.of_nat (length l) <? cap then Some (None, insert_sorted lt x l) else None
  | OpLookup i => x ← l !! Z.to_nat i; Some (Some x, l)
  | OpRemove i => if i <? Z.of_nat (length l) then Some (None, delete (Z.to_nat i) l) else None
  end.
Fixpoint spec_ops (lt : type_t -> type_t -> bool) (cap : Z) (ops : list oa_op) (l : list type_t) :
    option (list (option type_t) * list type_t) :=
  match ops with
  | [] => Some ([], l)
  | o :: ops =>
      '(out, l) ← spec_op lt cap o l;
      '(outs, l) ← spec_ops lt cap ops l;
      Some (out :: outs, l)
  end.

Section sequences.
Context {M : Type}.
Implicit Types arr : ordered_array_t M.

Lemma place_ordered_array_wf addr max lt arr :
  place_ordered_array addr max (Some lt) = Ok arr ->
  oa_wf arr /\ less_than arr = Some lt /\ max_size arr = max /\ contents arr = [].
Proof.
  unfold place_ordered_array. intros H.
  apply bind_Ok_inv in H as (? & Ha%ASSERT_inv & H).
  apply bind_Ok_inv in H as (? & Hb%ASSERT_inv & H).
  apply bind_Ok_inv in H as (? & Hc%ASSERT_inv & [= <-]).
  split; [|done]. split; simpl; rewrite ?length_replicate; [|lia..|done].
  intros ->. done.
Qed.

Lemma run_op_spec (m : M) lt o arr :
  oa_wf arr -> less_than arr = Some lt -> op_u32 o ->
  match spec_op (lt m) (max_size arr) o (contents arr) with
  | Some (out, l) => exists arr', run_op m o arr = Ok (out, arr') /\ contents arr' = l /\
      oa_wf arr' /\ less_than arr' = Some lt /\ max_size arr' = max_size arr
  | None => run_op m o arr = Panic ASSERTION_FAILED
  end.
Proof.
  intros Hwf Hlt Ho. pose proof (contents_length arr Hwf) as Hlen.
  assert (0 <= size arr) by apply Hwf. unfold is_u32 in *.
  pose proof (oa_array _ Hwf). unfold spec_op, run_op. destruct o as [x|i|i]; simpl in Ho.
  - destruct (Z.ltb_spec (Z.of_nat (length (contents arr))) (max_size arr)).
    + destruct (insert_ordered_array_spec m x arr lt Hwf Hlt) as (arr' & -> & Hwf' & Hc & _ & Hs); [lia|].
      exists arr'. destruct Hs as (_ & ? & ? & _). split_and!; [done..|congruence|done].
    + unfold insert_ordered_array. rewrite Hlt. assert_step. by rewrite ASSERT_fail by lia.
  - destruct (Z.ltb_spec i (size arr)) as [Hi|Hi].
    + destruct (lookup_ordered_array_spec i arr Hwf) as (x & -> & ->); [unfold is_u32 in *; lia|].
      simpl. by exists arr.
    + rewrite lookup_ge_None_2 by (unfold is_u32 in *; lia). simpl.
      unfold lookup_ordered_array. assert_step. by rewrite ASSERT_fail by lia.
  - destruct (Z.ltb_spec i (Z.of_nat (length (contents arr)))) as [Hi|Hi].
    + destruct (remove_ordered_array_spec i arr Hwf) as (arr' & -> & Hwf' & Hc & _ & Hs);
        [unfold is_u32 in *; lia|].
      exists arr'. destruct Hs as (_ & ? & ? & _). split_and!; [done..|congruence|done].
    + unfold remove_ordered_array. assert_step. rewrite ASSERT_fail; [done|]. lia.
Qed.

Lemma run_ops_spec (m : M) lt ops arr :
  oa_wf arr -> less_than arr = Some lt -> Forall op_u32 ops ->
  match spec_ops (lt m) (max_size arr) ops (contents arr) with
  | Some (outs, l) => exists arr', run_ops m ops arr = Ok (outs, arr') /\ contents arr' = l
  | None => run_ops m ops arr = Panic ASSERTION_FAILED
  end.
Proof.
  intros Hwf Hlt Hops. revert arr Hwf Hlt.
  induction Hops as [|o ops Ho _ IH]; intros arr Hwf Hlt; simpl; [by exists arr|].
  pose proof (run_op_spec m lt o arr Hwf Hlt Ho) as Hop.
  destruct (spec_op _ _ o _) as [[out l]|]; simpl; [|by rewrite Hop].
  destruct Hop as (arr1 & -> & <- & Hwf1 & Hlt1 & Hcap1). rsimpl. rewrite <- Hcap1.
  specialize (IH arr1 Hwf1 Hlt1). destruct (spec_ops _ _ ops _) as [[outs l]|]; simpl;
    [|by rewrite IH].
  destruct IH as (arr2 & -> & <-). by exists arr2.
Qed.

Lemma spec_ops_sorted lt `{!StrictWeakOrder lt} cap ops l outs l' :
  spec_ops lt cap ops l = Some (outs, l') -> sorted_by lt l -> Z.of_nat (length l) <= cap ->
  sorted_by lt l' /\ Z.of_nat (length l') <= cap.
Proof.
  revert l outs. induction ops as [|o ops IH]; intros l outs; simpl; [by intros [= _ <-]|].
  intros ([out l1] & Hop & H)%bind_Some. apply bind_Some in H as ([outs1 l2] & Hops & [= _ ->]).
  intros Hs Hl. apply (IH l1 outs1 Hops).
  - destruct o; simpl in Hop; [| |].
    + destruct (_ <? _); [|done]. injection Hop as _ <-. by apply insert_sorted_sorted.
    + apply bind_Some in Hop as (? & _ & [= _ <-]). done.
    + destruct (_ <? _); [|done]. injection Hop as _ <-. by apply sorted_by_delete.
  - destruct o as [x|i|i]; simpl in Hop.
    + destruct (Z.ltb_spec (Z.of_nat (length l)) cap); [|done]. injection Hop as _ <-.
      rewrite insert_sorted_length. lia.
    + apply bind_Some in Hop as (? & _ & [= _ <-]). done.
    + destruct (Z.ltb_spec i (Z.of_nat (length l))); [|done]. injection Hop as _ <-.
      pose proof (sublist_length _ _ (sublist_delete l (Z.to_nat i))). lia.
Qed.
End sequences.

#[export] Instance standard_order (m : unit) :
  StrictWeakOrder (standard_lessthan_predicate m).
Proof. split; unfold standard_lessthan_predicate; intros; lia. Qed.

(** C38: every sequence of insertions, lookups and removals on a freshly
    placed array behaves like the same sequence on a sorted list bounded by
    [max_size]: same results, same contents, and an assertion failure
    exactly where the list has no such operation. *)
Theorem ordered_array_refines_list {M} (m : M) addr max lt arr ops :
  place_ordered_array addr max (Some lt) = Ok arr -> Forall op_u32 ops ->
  match spec_ops (lt m) max ops [] with
  | Some (outs, l) => exists arr', run_ops m ops arr = Ok (outs, arr') /\ contents arr' = l
  | None => run_ops m ops arr = Panic ASSERTION_FAILED
  end.
Proof.
  intros (Hwf & Hlt & <- & Hc)%place_ordered_array_wf Hops. rewrite <- Hc. by apply run_ops_spec.
Qed.

Lemma ordered_array_refines_list_witness :
  exists arr, place_ordered_array 0x1000 3 (Some standard_lessthan_predicate) = Ok arr /\
  match spec_ops (standard_lessthan_predicate tt) 3
          [OpInsert 7; OpInsert 3; OpInsert 5; OpRemove 1; OpLookup 1] [] with
  | Some (outs, l) => exists arr',
      run_ops tt [OpInsert 7; OpInsert 3; OpInsert 5; OpRemove 1; OpLookup 1] arr = Ok (outs, arr') /\
      contents arr' = l
  | None => False
  end.
Proof.
  eexists. split; [reflexivity|].
  refine (ordered_array_refines_list tt 0x1000 3 standard_lessthan_predicate _
    [OpInsert 7; OpInsert 3; OpInsert 5; OpRemove 1; OpLookup 1] eq_refl _).
  repeat constructor; unfold is_u32; lia.
Defined.

(** Whatever is done to a freshly placed array, its entries stay sorted
    by the callback and never exceed [max_size]. *)
Theorem ordered_array_stays_sorted {M} (m : M) addr max lt arr ops outs arr' :
  StrictWeakOrder (lt m) -> place_ordered_array addr max (Some lt) = Ok arr ->
  Forall op_u32 ops -> run_ops m ops arr = Ok (outs, arr') ->
  sorted_by (lt m) (contents arr') /\ Z.of_nat (length (contents arr')) <= max.
Proof.
  intros Ho (Hwf & Hlt & <- & Hc)%place_ordered_array_wf Hops Hrun.
  pose proof (run_ops_spec m lt ops arr Hwf Hlt Hops) as Hs.
  destruct (spec_ops _ _ ops _) as [[outs' l]|] eqn:E; [|congruence].
  destruct Hs as (arr2 & H2 & <-). rewrite H2 in Hrun. injection Hrun as _ ->.
  rewrite Hc in E. apply (spec_ops_sorted _ _ _ _ _ _ E); [constructor|].
  destruct Hwf as [_ ? _ _ _]. simpl. lia.
Qed.

Lemma ordered_array_stays_sorted_witness :
  exists arr outs arr', place_ordered_array 0x1000 3 (Some standard_lessthan_predicate) = Ok arr /\
    run_ops tt [OpInsert 7; OpInsert 3] arr = Ok (outs, arr') /\
    sorted_by (standard_lessthan_predicate tt) (contents arr') /\
    Z.of_nat (length (contents arr')) <= 3.
Proof.
  destruct (is_ok_true (place_ordered_array 0x1000 3 (Some (@standard_lessthan_predicate unit))))
    as [arr Ea]; [reflexivity|].
  destruct (is_ok_true (run_ops tt [OpInsert 7; OpInsert 3] arr)) as [[outs arr'] Er].
  { injection Ea as <-. vm_compute. reflexivity. }
  exists arr, outs, arr'. split; [exact Ea|split; [exact Er|]].
  refine (ordered_array_stays_sorted tt 0x1000 3 standard_lessthan_predicate arr
    [OpInsert 7; OpInsert 3] outs arr' (standard_order tt) Ea _ Er).
  repeat constructor; unfold is_u32; lia.
Defined.
