(* ===== verification/KHeap.v ===== *)
(** * kheap.c: the boundary-tag allocator of the kernel heap

    Headers and footers are words in the byte memory [hmem]; the functions
    read and write them at the offsets of [header_t] and [footer_t].  The
    free-hole index is an [ordered_array_t] whose backing slots sit in
    front of [start_address], outside the block arena.

    [expand] and [contract] ask the page tables for frames.  That contract
    is the class [PageBacking]: [pb_map a k w] is
    [alloc_frame(get_page(a, 1, kernel_directory), k, w)], [pb_unmap a] is
    [free_frame(get_page(a, 0, kernel_directory)); invalidate_page(a)].
    HeapPaging implements the class with the page tables. *)

From S2P Require Import Prelude Memory OrderedArray.

(** ** Layout constants and boundary tags *)

Definition KHEAP_START : Z := 0xC0000000.
Definition KHEAP_INITIAL_SIZE : Z := 0x100000.
Definition HEAP_INDEX_SIZE : Z := 0x20000.
Definition HEAP_MAGIC : Z := 0x123890AB.
Definition HEAP_MIN_SIZE : Z := 0x70000.

Definition sizeof_header_t : Z := 12.
Definition sizeof_footer_t : Z := 8.
Definition sizeof_heap_t : Z := 36.

(** [header_t]: magic at 0, is_hole (one byte) at 4, size at 8. *)
Definition hdr_magic (m : mem) (h : Z) : Z := load32 m h.
Definition hdr_is_hole (m : mem) (h : Z) : Z := load8 m (h + 4).
Definition hdr_size (m : mem) (h : Z) : Z := load32 m (h + 8).
Definition set_hdr_magic (h v : Z) (m : mem) : mem := store32 m h v.
Definition set_hdr_is_hole (h v : Z) (m : mem) : mem := store8 m (h + 4) v.
Definition set_hdr_size (h v : Z) (m : mem) : mem := store32 m (h + 8) v.

(** [footer_t]: magic at 0, the back pointer to the header at 4. *)
Definition ftr_magic (m : mem) (f : Z) : Z := load32 m f.
Definition ftr_header (m : mem) (f : Z) : Z := load32 m (f + 4).
Definition set_ftr_magic (f v : Z) (m : mem) : mem := store32 m f v.
Definition set_ftr_header (f v : Z) (m : mem) : mem := store32 m (f + 4) v.

Record heap_t : Type := mk_heap {
  index : ordered_array_t mem;
  start_address : Z;
  end_address : Z;
  max_address : Z;
  supervisor : Z;
  readonly : Z
}.

Definition set_index (h : heap_t) (i : ordered_array_t mem) : heap_t :=
  {| index := i; start_address := start_address h; end_address := end_address h;
     max_address := max_address h; supervisor := supervisor h; readonly := readonly h |}.
Definition set_end_address (h : heap_t) (e : Z) : heap_t :=
  {| index := index h; start_address := start_address h; end_address := e;
     max_address := max_address h; supervisor := supervisor h; readonly := readonly h |}.

(** Heap memory, heap descriptor, and the state of the paging component. *)
Record hstate (P : Type) : Type := mk_hstate {
  hmem : mem;
  hheap : heap_t;
  hpages : P
}.
Arguments mk_hstate {P}. Arguments hmem {P}. Arguments hheap {P}. Arguments hpages {P}.

Class PageBacking (P : Type) : Type := {
  pb_map : Z -> Z -> Z -> hstate P -> res (hstate P);
  pb_unmap : Z -> hstate P -> res (hstate P)
}.

(** The [less_than] callback of the index: smaller holes first. *)
Definition header_t_less_than (m : mem) (a b : Z) : bool := hdr_size m a <? hdr_size m b.

Definition page_alignment_offset (header : Z) : Z :=
  let payload_address := u32 (header + sizeof_header_t) in
  let offset := Z.land (u32 (0x1000 - Z.land payload_address 0xFFF)) 0xFFF in
  let minimum_hole_size := sizeof_header_t + sizeof_footer_t in
  if negb (offset =? 0) && (offset <? minimum_hole_size) then u32 (offset + 0x1000)
  else offset.

Section kheap.
Context {P : Type} `{!PageBacking P}.
Implicit Types (s : hstate P) (h : heap_t) (m : mem).

Definition with_heap s (m : mem) (h : heap_t) : hstate P :=
  {| hmem := m; hheap := h; hpages := hpages s |}.

Definition expand (new_size : Z) s : res (hstate P) :=
  let h := hheap s in
  ASSERT (u32 (end_address h - start_address h) <? new_size);;
  new_size ← (if negb (Z.land new_size 0xFFF =? 0) then
                ASSERT (new_size <=? 0xFFFFF000);;
                Ok (u32 (Z.land new_size 0xFFFFF000 + 0x1000))
              else Ok new_size);
  ASSERT (new_size <=? u32 (max_address h - start_address h));;
  let old_size := u32 (end_address h - start_address h) in
  s ← while (fun '(i, s) =>
        if i <? new_size then
          let h := hheap s in
          s ← pb_map (u32 (start_address h + i))
                (if supervisor h =? 0 then 0 else 1)
                (if readonly h =? 0 then 1 else 0) s;
          Ok (Continue (u32 (i + 0x1000), s))
        else Ok (Break s)) (old_size, s);
  Ok (with_heap s (hmem s) (set_end_address (hheap s)
        (u32 (start_address (hheap s) + new_size)))).

Definition contract (new_size : Z) s : res (Z * hstate P) :=
  let h := hheap s in
  ASSERT (new_size <? u32 (end_address h - start_address h));;
  let new_size := if negb (Z.land new_size 0xFFF =? 0)
                  then u32 (Z.land new_size 0xFFFFF000 + 0x1000) else new_size in
  let new_size := if new_size <? HEAP_MIN_SIZE then HEAP_MIN_SIZE else new_size in
  let old_size := u32 (end_address h - start_address h) in
  s ← while (fun '(i, s) =>
        if new_size <=? i then
          s ← pb_unmap (u32 (start_address (hheap s) + i)) s;
          Ok (Continue (u32 (i - 0x1000), s))
        else Ok (Break s)) (u32 (old_size - 0x1000), s);
  Ok (new_size, with_heap s (hmem s) (set_end_address (hheap s)
        (u32 (start_address (hheap s) + new_size)))).

Definition find_smallest_hole (size page_align : Z) (m : mem) h : res Z :=
  iterator ← while (fun iterator =>
    if iterator <? OrderedArray.size (index h) then
      header ← lookup_ordered_array iterator (index h);
      if 0 <? page_align then
        let offset := page_alignment_offset header in
        if (offset <=? 0xFFFFFFFF - size) && (u32 (size + offset) <=? hdr_size m header)
        then Ok (Break iterator) else Ok (Continue (u32 (iterator + 1)))
      else if size <=? hdr_size m header then Ok (Break iterator)
      else Ok (Continue (u32 (iterator + 1)))
    else Ok (Break iterator)) 0;
  if iterator =? OrderedArray.size (index h) then Ok (-1) else Ok (s32 iterator).

(** The [matches] loop of [heap_validate]: how often [header] is indexed. *)
Definition count_matches (header : Z) h : res Z :=
  for_range 0 (OrderedArray.size (index h)) (fun i matches =>
    x ← lookup_ordered_array i (index h);
    Ok (if x =? header then u32 (matches + 1) else matches)) 0.

(** One block of the walk of [heap_validate]. *)
Definition validate_block (m : mem) h (address hole_count : Z) : res (Z * Z) :=
  let header := address in
  ASSERT (hdr_magic m header =? HEAP_MAGIC);;
  ASSERT (sizeof_header_t + sizeof_footer_t <=? hdr_size m header);;
  ASSERT (hdr_size m header <=? u32 (end_address h - address));;
  let footer := u32 (address + hdr_size m header - sizeof_footer_t) in
  ASSERT (ftr_magic m footer =? HEAP_MAGIC);;
  ASSERT (ftr_header m footer =? header);;
  hole_count ← (if negb (hdr_is_hole m header =? 0) then
                  matches ← count_matches header h;
                  ASSERT (matches =? 1);;
                  Ok (u32 (hole_count + 1))
                else Ok hole_count);
  Ok (u32 (address + hdr_size m header), hole_count).

(** One entry of the final pass over the index. *)
Definition validate_entry (m : mem) h (i : Z) : res unit :=
  hole ← lookup_ordered_array i (index h);
  ASSERT (start_address h <=? hole);;
  ASSERT (hole <? end_address h);;
  ASSERT (hdr_magic m hole =? HEAP_MAGIC);;
  ASSERT (hdr_is_hole m hole =? 1);;
  if 0 <? i then
    previous ← lookup_ordered_array (u32 (i - 1)) (index h);
    ASSERT (hdr_size m previous <=? hdr_size m hole)
  else Ok tt.

Definition heap_validate (m : mem) h : res unit :=
  ASSERT (start_address h <? end_address h);;
  ASSERT (end_address h <=? max_address h);;
  '(address, hole_count) ← while (fun '(address, hole_count) =>
    if address <? end_address h then
      r ← validate_block m h address hole_count;
      Ok (Continue r)
    else Ok (Break (address, hole_count))) (start_address h, 0);
  ASSERT (address =? end_address h);;
  ASSERT (hole_count =? OrderedArray.size (index h));;
  for_range 0 (OrderedArray.size (index h)) (fun i _ => validate_entry m h i) tt.

(** [heap_t] itself comes from the bootstrap allocator [kmalloc]. *)
Definition create_heap (kmalloc : Z -> P -> res (Z * P))
    (start end_addr max supervisor readonly : Z) (m : mem) (pages : P) :
    res (hstate P) :=
  '(_, pages) ← kmalloc sizeof_heap_t pages;
  ASSERT (start `mod` 0x1000 =? 0);;
  ASSERT (end_addr `mod` 0x1000 =? 0);;
  ASSERT ((max `mod` 0x1000 =? 0) || (max =? 0xCFFFF000));;
  ASSERT (start <? end_addr);;
  ASSERT (end_addr <=? max);;
  ASSERT (HEAP_INDEX_SIZE <=? 0xFFFFFFFF `div` sizeof_type_t);;
  ASSERT (sizeof_type_t * HEAP_INDEX_SIZE + sizeof_header_t + sizeof_footer_t
            <? u32 (end_addr - start));;
  idx ← place_ordered_array start HEAP_INDEX_SIZE (Some header_t_less_than);
  let start := u32 (start + sizeof_type_t * HEAP_INDEX_SIZE) in
  let start := if negb (Z.land start 0xFFF =? 0)
               then u32 (Z.land start 0xFFFFF000 + 0x1000) else start in
  let hole := start in
  let m := set_hdr_size hole (u32 (end_addr - start)) m in
  let m := set_hdr_magic hole HEAP_MAGIC m in
  let m := set_hdr_is_hole hole 1 m in
  let hole_footer := u32 (end_addr - sizeof_footer_t) in
  let m := set_ftr_magic hole_footer HEAP_MAGIC m in
  let m := set_ftr_header hole_footer hole m in
  idx ← insert_ordered_array m hole idx;
  let h := {| index := idx; start_address := start; end_address := end_addr;
              max_address := max; supervisor := supervisor; readonly := readonly |} in
  heap_validate m h;;
  Ok {| hmem := m; hheap := h; hpages := pages |}.

(** *** alloc *)

(** The scan for the hole with the greatest address: ([idx], [value]). *)
Definition endmost_hole h : res (Z * Z) :=
  for_range 0 (OrderedArray.size (index h)) (fun scan_index '(idx, value) =>
    tmp ← lookup_ordered_array scan_index (index h);
    Ok (if value <? tmp then (scan_index, tmp) else (idx, value))) (u32 (-1), 0).

(** After [expand]: publish the new pages, as a hole of their own or by
    enlarging the hole that ended at the old end of the heap. *)
Definition add_expanded_tail (old_length old_end_address new_length : Z) s :
    res (hstate P) :=
  let h := hheap s in
  let m := hmem s in
  '(idx, _) ← endmost_hole h;
  end_hole ← (if negb (idx =? u32 (-1)) then lookup_ordered_array idx (index h) else Ok 0);
  if (end_hole =? 0) || negb (u32 (end_hole + hdr_size m end_hole) =? old_end_address) then
    let header := old_end_address in
    let m := set_hdr_magic header HEAP_MAGIC m in
    let m := set_hdr_size header (u32 (new_length - old_length)) m in
    let m := set_hdr_is_hole header 1 m in
    let footer := u32 (old_end_address + hdr_size m header - sizeof_footer_t) in
    let m := set_ftr_magic footer HEAP_MAGIC m in
    let m := set_ftr_header footer header m in
    i ← insert_ordered_array m header (index h);
    Ok (with_heap s m (set_index h i))
  else
    i ← remove_ordered_array idx (index h);
    let m := set_hdr_size end_hole
               (u32 (hdr_size m end_hole + u32 (new_length - old_length))) m in
    let footer := u32 (end_hole + hdr_size m end_hole - sizeof_footer_t) in
    let m := set_ftr_header footer end_hole m in
    let m := set_ftr_magic footer HEAP_MAGIC m in
    i ← insert_ordered_array m end_hole i;
    Ok (with_heap s m (set_index h i)).

(** The [iterator == -1] branch up to the retry. *)
Definition grow (new_size : Z) s : res (hstate P) :=
  let old_length := u32 (end_address (hheap s) - start_address (hheap s)) in
  let old_end_address := end_address (hheap s) in
  ASSERT (old_length <=? 0xFFFFFFFF - new_size);;
  s ← expand (u32 (old_length + new_size)) s;
  let new_length := u32 (end_address (hheap s) - start_address (hheap s)) in
  add_expanded_tail old_length old_end_address new_length s.

(** Carve the leading free hole of a page-aligned allocation out of the
    chosen hole; returns the remaining position and size. *)
Definition split_leading (page_align pos hsize : Z) (m : mem) (i : ordered_array_t mem) :
    res (mem * ordered_array_t mem * Z * Z) :=
  let leading_hole_size := if page_align =? 0 then 0 else page_alignment_offset pos in
  if negb (leading_hole_size =? 0) then
    let m := set_hdr_size pos leading_hole_size m in
    let m := set_hdr_magic pos HEAP_MAGIC m in
    let m := set_hdr_is_hole pos 1 m in
    let hole_footer := u32 (pos + leading_hole_size - sizeof_footer_t) in
    let m := set_ftr_magic hole_footer HEAP_MAGIC m in
    let m := set_ftr_header hole_footer pos m in
    i ← insert_ordered_array m pos i;
    Ok (m, i, u32 (pos + leading_hole_size), u32 (hsize - leading_hole_size))
  else Ok (m, i, pos, hsize).

(** Publish what is left to the right of the block, when it can hold tags. *)
Definition split_trailing (pos size new_size hsize : Z) (m : mem) h
    (i : ordered_array_t mem) : res (mem * ordered_array_t mem) :=
  if sizeof_header_t + sizeof_footer_t <=? u32 (hsize - new_size) then
    let hole_header := u32 (pos + sizeof_header_t + size + sizeof_footer_t) in
    let m := set_hdr_magic hole_header HEAP_MAGIC m in
    let m := set_hdr_is_hole hole_header 1 m in
    let m := set_hdr_size hole_header (u32 (hsize - new_size)) m in
    let hole_footer := u32 (hole_header + hsize - new_size - sizeof_footer_t) in
    ASSERT (hole_footer <? end_address h);;
    let m := set_ftr_magic hole_footer HEAP_MAGIC m in
    let m := set_ftr_header hole_footer hole_header m in
    i ← insert_ordered_array m hole_header i;
    Ok (m, i)
  else Ok (m, i).

(** [alloc] once a suitable hole is found at index [iterator]. *)
Definition allocate_at (size new_size page_align iterator : Z) s : res (Z * hstate P) :=
  let h := hheap s in
  orig_hole_header ← lookup_ordered_array iterator (index h);
  let orig_hole_size := hdr_size (hmem s) orig_hole_header in
  i ← remove_ordered_array iterator (index h);
  '(m, i, pos, hsize) ←
    split_leading page_align orig_hole_header orig_hole_size (hmem s) i;
  let '(size, new_size) :=
    if u32 (hsize - new_size) <? sizeof_header_t + sizeof_footer_t
    then (u32 (size + u32 (hsize - new_size)), hsize) else (size, new_size) in
  let block_header := pos in
  let m := set_hdr_magic block_header HEAP_MAGIC m in
  let m := set_hdr_is_hole block_header 0 m in
  let m := set_hdr_size block_header new_size m in
  let block_footer := u32 (pos + sizeof_header_t + size) in
  let m := set_ftr_magic block_footer HEAP_MAGIC m in
  let m := set_ftr_header block_footer block_header m in
  '(m, i) ← split_trailing pos size new_size hsize m h i;
  let h := set_index h i in
  heap_validate m h;;
  Ok (u32 (block_header + sizeof_header_t), with_heap s m h).

(** The retry is a recursive call in C, hence the fuel. *)
Fixpoint alloc (fuel : nat) (size page_align : Z) s : res (Z * hstate P) :=
  match fuel with
  | O => OutOfFuel
  | S fuel =>
      ASSERT (0 <? size);;
      ASSERT (size <=? 0xFFFFFFFF - sizeof_header_t - sizeof_footer_t);;
      heap_validate (hmem s) (hheap s);;
      let new_size := u32 (size + sizeof_header_t + sizeof_footer_t) in
      iterator ← find_smallest_hole new_size page_align (hmem s) (hheap s);
      if iterator =? -1 then
        s ← grow new_size s;
        alloc fuel size page_align s
      else allocate_at size new_size page_align iterator s
  end.

(** *** free *)

(** The search loops of [free]; the caller asserts the result is in range. *)
Definition find_in_index (header : Z) (i : ordered_array_t mem) : res Z :=
  while (fun iterator =>
    if iterator <? OrderedArray.size i then
      x ← lookup_ordered_array iterator i;
      if negb (x =? header) then Ok (Continue (u32 (iterator + 1))) else Ok (Break iterator)
    else Ok (Break iterator)) 0.

(** Merge with the hole on the left; returns memory, index and header. *)
Definition coalesce_left (header footer : Z) (m : mem) h :
    res (mem * ordered_array_t mem * Z) :=
  let test_footer := u32 (header - sizeof_footer_t) in
  if (start_address h <? header) && (ftr_magic m test_footer =? HEAP_MAGIC) &&
     (hdr_is_hole m (ftr_header m test_footer) =? 1) then
    iterator ← find_in_index (ftr_header m test_footer) (index h);
    ASSERT (iterator <? OrderedArray.size (index h));;
    i ← remove_ordered_array iterator (index h);
    let cache_size := hdr_size m header in
    let header := ftr_header m test_footer in
    let m := set_ftr_header footer header m in
    let m := set_hdr_size header (u32 (hdr_size m header + cache_size)) m in
    Ok (m, i, header)
  else Ok (m, index h, header).

(** Merge with the hole on the right; returns memory, index and footer. *)
Definition coalesce_right (header footer : Z) (m : mem) h (i : ordered_array_t mem) :
    res (mem * ordered_array_t mem * Z) :=
  let test_header := u32 (footer + sizeof_footer_t) in
  if (test_header <? end_address h) && (hdr_magic m test_header =? HEAP_MAGIC) &&
     negb (hdr_is_hole m test_header =? 0) then
    let m := set_hdr_size header (u32 (hdr_size m header + hdr_size m test_header)) m in
    let footer := u32 (test_header + hdr_size m test_header - sizeof_footer_t) in
    let m := set_ftr_header footer header m in
    iterator ← find_in_index test_header i;
    ASSERT (iterator <? OrderedArray.size i);;
    i ← remove_ordered_array iterator i;
    Ok (m, i, footer)
  else Ok (m, i, footer).

(** Give trailing pages back; the boolean is [do_add]. *)
Definition trim_tail (header footer : Z) s : res (bool * hstate P) :=
  let h := hheap s in
  if u32 (footer + sizeof_footer_t) =? end_address h then
    let old_length := u32 (end_address h - start_address h) in
    '(new_length, s) ← contract (u32 (header - start_address h)) s;
    let m := hmem s in
    if u32 (old_length - new_length) <? hdr_size m header then
      let m := set_hdr_size header
                 (u32 (hdr_size m header - u32 (old_length - new_length))) m in
      let footer := u32 (header + hdr_size m header - sizeof_footer_t) in
      let m := set_ftr_magic footer HEAP_MAGIC m in
      let m := set_ftr_header footer header m in
      Ok (true, with_heap s m (hheap s))
    else Ok (false, s)
  else Ok (true, s).

Definition free (p : Z) s : res (hstate P) :=
  if p =? 0 then Ok s else
  let h := hheap s in
  let m := hmem s in
  heap_validate m h;;
  ASSERT (u32 (start_address h + sizeof_header_t) <=? p);;
  ASSERT (p <? end_address h);;
  let header := u32 (p - sizeof_header_t) in
  ASSERT (hdr_magic m header =? HEAP_MAGIC);;
  ASSERT (hdr_is_hole m header =? 0);;
  ASSERT (sizeof_header_t + sizeof_footer_t <=? hdr_size m header);;
  ASSERT (hdr_size m header <=? u32 (end_address h - header));;
  let footer := u32 (header + hdr_size m header - sizeof_footer_t) in
  ASSERT (hdr_magic m header =? HEAP_MAGIC);;
  ASSERT (ftr_magic m footer =? HEAP_MAGIC);;
  let m := set_hdr_is_hole header 1 m in
  '(m, i, header) ← coalesce_left header footer m h;
  '(m, i, footer) ← coalesce_right header footer m h i;
  '(do_add, s) ← trim_tail header footer (with_heap s m (set_index h i));
  s ← (if do_add : bool then
         i ← insert_ordered_array (hmem s) header (index (hheap s));
         Ok (with_heap s (hmem s) (set_index (hheap s) i))
       else Ok s);
  heap_validate (hmem s) (hheap s);;
  Ok s.
End kheap.
