(* ===== verification/HeapInv.v ===== *)
(** * The invariant of the kernel heap

    A heap is described by the list of its blocks in address order, each a
    hole or an allocation with its size.  [layout] says that the boundary
    tags in memory spell that list, [heap_ok] adds that the blocks tile the
    arena and that the index holds exactly the holes, smallest first.
    [heap_validate_ok] and [validate_sound] relate it to the run-time check
    [heap_validate]. *)

From Stdlib Require Import Sorting.Sorted.
From S2P Require Import Prelude Memory OrderedArray KHeap.

Definition MIN_BLOCK : Z := sizeof_header_t + sizeof_footer_t.

(** Is it a hole? and the size of the whole region. *)
Definition block : Type := bool * Z.

Definition block_ok (m : mem) (a : Z) (b : block) : Prop :=
  MIN_BLOCK <= b.2 /\
  hdr_magic m a = HEAP_MAGIC /\
  hdr_is_hole m a = (if b.1 then 1 else 0) /\
  hdr_size m a = b.2 /\
  ftr_magic m (a + b.2 - sizeof_footer_t) = HEAP_MAGIC /\
  ftr_header m (a + b.2 - sizeof_footer_t) = a.

Fixpoint layout (m : mem) (a : Z) (bl : list block) : Prop :=
  match bl with
  | [] => True
  | b :: bl => block_ok m a b /\ layout m (a + b.2) bl
  end.

Fixpoint total (bl : list block) : Z :=
  match bl with [] => 0 | b :: bl => b.2 + total bl end.

(** Header addresses of the holes, in address order. *)
Fixpoint holes (a : Z) (bl : list block) : list Z :=
  match bl with
  | [] => []
  | b :: bl => (if b.1 then [a] else []) ++ holes (a + b.2) bl
  end.

(** Payloads owned by callers: address and usable length. *)
Fixpoint allocated (a : Z) (bl : list block) : list (Z * Z) :=
  match bl with
  | [] => []
  | b :: bl => (if b.1 then [] else [(a + sizeof_header_t, b.2 - MIN_BLOCK)]) ++
               allocated (a + b.2) bl
  end.

(** Facts about the descriptor alone. *)
Record heap_wf (h : heap_t) : Prop := {
  wf_start : 0 < start_address h < 2 ^ 32;
  wf_end : 0 <= end_address h < 2 ^ 32;
  wf_max : 0 <= max_address h < 2 ^ 32;
  wf_index : oa_wf (index h);
  wf_less_than : less_than (index h) = Some header_t_less_than
}.

Record heap_ok (m : mem) (h : heap_t) (bl : list block) : Prop := {
  ok_layout : layout m (start_address h) bl;
  ok_total : start_address h + total bl = end_address h;
  ok_nonempty : start_address h < end_address h;
  ok_max : end_address h <= max_address h;
  ok_holes : contents (index h) ≡ₚ holes (start_address h) bl;
  ok_sorted : sorted_by (header_t_less_than m) (contents (index h))
}.

#[export] Instance header_order m : StrictWeakOrder (header_t_less_than m).
Proof. split; unfold header_t_less_than; intros; lia. Qed.

(** ** Block lists *)

Lemma total_app bl1 bl2 : total (bl1 ++ bl2) = total bl1 + total bl2.
Proof. induction bl1; simpl; lia. Qed.

Lemma layout_app m a bl1 bl2 :
  layout m a (bl1 ++ bl2) <-> layout m a bl1 /\ layout m (a + total bl1) bl2.
Proof.
  revert a. induction bl1 as [|b bl1 IH]; intros a; simpl.
  - rewrite Z.add_0_r. tauto.
  - rewrite IH. replace (a + b.2 + total bl1) with (a + (b.2 + total bl1)) by lia. tauto.
Qed.

Lemma holes_app a bl1 bl2 : holes a (bl1 ++ bl2) = holes a bl1 ++ holes (a + total bl1) bl2.
Proof.
  revert a. induction bl1 as [|b bl1 IH]; intros a; simpl.
  - by rewrite Z.add_0_r.
  - rewrite IH, app_assoc. by replace (a + b.2 + total bl1) with (a + (b.2 + total bl1)) by lia.
Qed.

Lemma allocated_app a bl1 bl2 :
  allocated a (bl1 ++ bl2) = allocated a bl1 ++ allocated (a + total bl1) bl2.
Proof.
  revert a. induction bl1 as [|b bl1 IH]; intros a; simpl.
  - by rewrite Z.add_0_r.
  - rewrite IH, app_assoc. by replace (a + b.2 + total bl1) with (a + (b.2 + total bl1)) by lia.
Qed.

Lemma layout_total m a bl : layout m a bl -> MIN_BLOCK * Z.of_nat (length bl) <= total bl.
Proof.
  revert a. induction bl as [|b bl IH]; intros a; simpl; [lia|].
  intros [[Hb _] Hl]. apply IH in Hl. change MIN_BLOCK with 20 in *. lia.
Qed.

Lemma layout_total_nonneg m a bl : layout m a bl -> 0 <= total bl.
Proof. intros H%layout_total. change MIN_BLOCK with 20 in H. lia. Qed.

(** Only the bytes of the region matter. *)
Lemma block_ok_agree m m' a b :
  agree_on a (a + b.2) m m' -> block_ok m a b -> block_ok m' a b.
Proof.
  unfold block_ok, hdr_magic, hdr_is_hole, hdr_size, ftr_magic, ftr_header,
    MIN_BLOCK, sizeof_header_t, sizeof_footer_t.
  intros Hag (H1 & H2 & H3 & H4 & H5 & H6). split_and!; [done| | | | |].
  - rewrite (load32_agree _ _ _ _ _ Hag); [done|lia..].
  - rewrite (load8_agree _ _ _ _ _ Hag); [done|lia..].
  - rewrite (load32_agree _ _ _ _ _ Hag); [done|lia..].
  - rewrite (load32_agree _ _ _ _ _ Hag); [done|lia..].
  - rewrite (load32_agree _ _ _ _ _ Hag); [done|lia..].
Qed.

Lemma layout_agree m m' a bl :
  agree_on a (a + total bl) m m' -> layout m a bl -> layout m' a bl.
Proof.
  revert a. induction bl as [|b bl IH]; intros a Hag; simpl in *; [done|].
  intros [Hb Hl]. pose proof (layout_total_nonneg _ _ _ Hl).
  assert (0 <= b.2) by (destruct Hb as [Hb _]; change MIN_BLOCK with 20 in Hb; lia).
  split.
  - eapply block_ok_agree; [|done]. intros x Hx. apply Hag. lia.
  - apply IH; [|done]. intros x Hx. apply Hag. lia.
Qed.

Lemma holes_bounds m a bl x :
  layout m a bl -> x ∈ holes a bl -> a <= x <= a + total bl - MIN_BLOCK.
Proof.
  revert a. induction bl as [|[f sz] bl IH]; intros a; simpl; [by rewrite list_elem_of_In|].
  intros [[Hb _] Hl]. pose proof (layout_total_nonneg _ _ _ Hl). simpl in Hb.
  change MIN_BLOCK with 20 in *.
  rewrite elem_of_app. intros [Hx|Hx].
  - destruct f; [apply list_elem_of_singleton in Hx; lia|by apply elem_of_nil in Hx].
  - apply IH in Hx; [lia|done].
Qed.

Lemma holes_NoDup m a bl : layout m a bl -> NoDup (holes a bl).
Proof.
  revert a. induction bl as [|[f sz] bl IH]; intros a; simpl; [intros; constructor|].
  intros [[Hb _] Hl]. simpl in Hb. change MIN_BLOCK with 20 in *.
  destruct f; simpl; [|by apply IH].
  constructor; [|by apply IH]. intros Hx. pose proof (holes_bounds _ _ _ _ Hl Hx).
  change MIN_BLOCK with 20 in *. lia.
Qed.

Lemma holes_split a bl x :
  x ∈ holes a bl -> exists pre sz post, bl = pre ++ (true, sz) :: post /\ x = a + total pre.
Proof.
  revert a. induction bl as [|[f sz] bl IH]; intros a; simpl; [by rewrite list_elem_of_In|].
  rewrite elem_of_app. intros [Hx|Hx].
  - destruct f; [apply list_elem_of_singleton in Hx as ->|by apply elem_of_nil in Hx].
    exists [], sz, bl. split; [done|]. simpl. lia.
  - destruct (IH _ Hx) as (pre & sz' & post & -> & ->).
    exists ((f, sz) :: pre), sz', post. split; [done|]. simpl. lia.
Qed.

Lemma allocated_split a bl p n :
  (p, n) ∈ allocated a bl ->
  exists pre post, bl = pre ++ (false, n + MIN_BLOCK) :: post /\ p = a + total pre + sizeof_header_t.
Proof.
  revert a. induction bl as [|[f sz] bl IH]; intros a; simpl; [by rewrite list_elem_of_In|].
  rewrite elem_of_app. intros [Hx|Hx].
  - destruct f; [by apply elem_of_nil in Hx|]. apply list_elem_of_singleton in Hx as [= -> ->].
    exists [], bl. split; [|simpl; lia]. simpl. by rewrite Z.sub_add.
  - destruct (IH _ Hx) as (pre & post & -> & ->).
    exists ((f, sz) :: pre), post. split; [done|]. simpl. lia.
Qed.

Lemma hole_size m a bl x pre sz post :
  layout m a bl -> bl = pre ++ (true, sz) :: post -> x = a + total pre -> hdr_size m x = sz.
Proof. intros Hl -> ->. apply layout_app in Hl as [_ [Hb _]]. apply Hb. Qed.

(** ** The check accepts well-formed heaps *)

Lemma heap_size_bound m h bl :
  heap_wf h -> heap_ok m h bl -> Z.of_nat (length bl) < 2 ^ 32.
Proof.
  intros Hwf Hok. pose proof (layout_total _ _ _ (ok_layout _ _ _ Hok)) as H.
  pose proof (ok_total _ _ _ Hok). destruct Hwf as [? ? ? _ _]. change MIN_BLOCK with 20 in H. lia.
Qed.

Section validate.
Implicit Types (m : mem) (h : heap_t).

Definition occ (x : Z) (l : list Z) : Z := Z.of_nat (count_occ Z.eq_dec l x).

Lemma occ_snoc x l y : occ x (l ++ [y]) = occ x l + (if y =? x then 1 else 0).
Proof.
  unfold occ. rewrite count_occ_app. simpl.
  destruct (Z.eq_dec y x), (Z.eqb_spec y x); try congruence; lia.
Qed.

Lemma occ_bound x l : 0 <= occ x l <= Z.of_nat (length l).
Proof. unfold occ. pose proof (count_occ_bound Z.eq_dec x l). lia. Qed.

Lemma occ_NoDup x l : NoDup l -> x ∈ l -> occ x l = 1.
Proof.
  intros Hl Hx. unfold occ. apply NoDup_ListNoDup in Hl.
  rewrite (proj1 (NoDup_count_occ' Z.eq_dec l) Hl x); [done|]. by apply list_elem_of_In.
Qed.

Lemma occ_pos x l : 0 < occ x l -> x ∈ l.
Proof.
  unfold occ. intros H. apply list_elem_of_In. apply (count_occ_In Z.eq_dec). lia.
Qed.

Lemma oa_lengths h : heap_wf h ->
  length (contents (index h)) = Z.to_nat (OrderedArray.size (index h)) /\
  0 <= OrderedArray.size (index h) < 2 ^ 30.
Proof.
  intros [_ _ _ Hwf _]. pose proof (oa_bound _ Hwf). split; [by apply contents_length|].
  destruct Hwf as [_ ? _ _ _]. lia.
Qed.

Lemma count_matches_spec h x :
  heap_wf h -> count_matches x h = Ok (occ x (contents (index h))).
Proof.
  intros Hwf. destruct (oa_lengths h Hwf) as [Hlen Hsz]. unfold count_matches.
  destruct (for_range_rule
    (fun i c => c = occ x (take (Z.to_nat i) (contents (index h))))
    (fun i matches => y ← lookup_ordered_array i (index h);
      Ok (if y =? x then u32 (matches + 1) else matches))
    0 (OrderedArray.size (index h)) 0) as (c & -> & ->); [lia| |done|].
  - intros i c Hi ->.
    destruct (lookup_ordered_array_spec i (index h)) as (y & -> & Hy);
      [apply Hwf|lia|]. eexists. split; [done|].
    replace (Z.to_nat (i + 1)) with (S (Z.to_nat i)) by lia.
    rewrite (take_S_r _ _ _ Hy), occ_snoc.
    pose proof (occ_bound x (take (Z.to_nat i) (contents (index h)))) as Hb.
    rewrite length_take in Hb.
    destruct (y =? x); [|lia]. rewrite u32_small by lia. done.
  - by rewrite take_ge by lia.
Qed.

(** The walk over the blocks. *)
Definition walk_body m h : Z * Z -> res (ctl (Z * Z) (Z * Z)) :=
  fun '(address, hole_count) =>
    if address <? end_address h then
      r ← validate_block m h address hole_count;
      Ok (Continue r)
    else Ok (Break (address, hole_count)).

Lemma validate_block_ok m h a hc b :
  heap_wf h -> block_ok m a b -> 0 <= a -> a + b.2 <= end_address h ->
  0 <= hc < 2 ^ 32 - 1 ->
  (b.1 = true -> occ a (contents (index h)) = 1) ->
  validate_block m h a hc = Ok (a + b.2, hc + (if b.1 then 1 else 0)).
Proof.
  intros Hwf (Hmin & Hmag & Hhole & Hsz & Hfm & Hfh) Ha Hend Hhc Hocc.
  pose proof Hwf as [? ? ? _ _]. unfold validate_block.
  unfold MIN_BLOCK, sizeof_header_t, sizeof_footer_t in *.
  rewrite Hsz. u32_simpl. rewrite Hmag, Hfm, Hfh. repeat assert_step.
  rewrite Hhole. destruct b as [[] sz]; simpl in *.
  - rewrite count_matches_spec by done. rsimpl. by rewrite Hocc.
  - by rewrite Z.add_0_r.
Qed.

Lemma walk_runs m h a hc bl :
  heap_wf h -> layout m a bl -> 0 <= a -> a + total bl = end_address h ->
  0 <= hc -> hc + Z.of_nat (length bl) < 2 ^ 32 - 1 ->
  (forall x, x ∈ holes a bl -> occ x (contents (index h)) = 1) ->
  runs (walk_body m h) (length bl) (a, hc)
    (Ok (end_address h, hc + Z.of_nat (length (holes a bl)))).
Proof.
  intros Hwf. revert a hc. induction bl as [|[f sz] bl IH]; intros a hc Hl Ha Hend Hhc Hcap Hocc.
  - simpl in *. rewrite Z.add_0_r. replace (end_address h) with a by lia.
    constructor. unfold walk_body. by rewrite (proj2 (Z.ltb_ge _ _)) by lia.
  - destruct Hl as [Hb Hl]. pose proof (layout_total_nonneg _ _ _ Hl). simpl in *.
    assert (MIN_BLOCK <= sz) as Hsz by apply Hb. change MIN_BLOCK with 20 in Hsz.
    apply (runs_step _ (length bl) _ (a + sz, hc + (if f then 1 else 0))).
    + unfold walk_body. rewrite (proj2 (Z.ltb_lt _ _)) by lia.
      rewrite (validate_block_ok m h a hc (f, sz)); simpl; [done|done|done|lia|lia|lia|].
      intros ->. apply Hocc. by left.
    + replace (hc + Z.of_nat (length ((if f then [a] else []) ++ holes (a + sz) bl)))
        with (hc + (if f then 1 else 0) + Z.of_nat (length (holes (a + sz) bl)))
        by (destruct f; simpl; lia).
      apply IH; [done|lia|lia|destruct f; lia|destruct f; lia|].
      intros x Hx. apply Hocc. apply elem_of_app. by right.
Qed.

Lemma validate_entry_ok m h bl i :
  heap_wf h -> heap_ok m h bl -> 0 <= i < OrderedArray.size (index h) ->
  validate_entry m h i = Ok tt.
Proof.
  intros Hwf Hok Hi. unfold validate_entry.
  destruct (lookup_ordered_array_spec i (index h)) as (x & -> & Hx); [apply Hwf|lia|].
  rewrite bind_Ok. assert (x ∈ holes (start_address h) bl) as Hin.
  { rewrite <- (ok_holes _ _ _ Hok). by eapply list_elem_of_lookup_2. }
  pose proof (holes_bounds _ _ _ _ (ok_layout _ _ _ Hok) Hin) as Hbd.
  rewrite (ok_total _ _ _ Hok) in Hbd. change MIN_BLOCK with 20 in Hbd.
  destruct (holes_split _ _ _ Hin) as (pre & sz & post & Hbl & ->).
  pose proof (ok_layout _ _ _ Hok) as Hl. rewrite Hbl in Hl.
  apply layout_app in Hl as [_ [(_ & Hmag & Hhole & _) _]]. simpl in Hhole.
  rewrite Hmag, Hhole. repeat assert_step. destruct (Z.ltb_spec 0 i); [|done].
  pose proof (oa_lengths h Hwf) as [_ ?]. u32_simpl.
  destruct (lookup_ordered_array_spec (i - 1) (index h)) as (y & -> & Hy); [apply Hwf|lia|].
  rewrite bind_Ok. apply ASSERT_ok. apply Z.leb_le.
  assert (header_t_less_than m (start_address h + total pre) y = false) as Hs.
  { eapply sorted_by_lookup; [apply Hok| |exact Hy|exact Hx]. lia. }
  unfold header_t_less_than in Hs. lia.
Qed.

Lemma heap_validate_ok m h bl :
  heap_wf h -> heap_ok m h bl -> heap_validate m h = Ok tt.
Proof.
  intros Hwf Hok. pose proof (oa_lengths h Hwf) as [Hlen Hsz].
  pose proof (layout_total _ _ _ (ok_layout _ _ _ Hok)) as Hcount.
  pose proof Hok as [Hl Ht Hne Hmax Hh Hs]. pose proof Hwf as [? ? ? _ _].
  change MIN_BLOCK with 20 in Hcount.
  unfold heap_validate. repeat assert_step. fold (walk_body m h).
  assert (forall x, x ∈ holes (start_address h) bl -> occ x (contents (index h)) = 1) as Hocc.
  { intros x Hx. apply occ_NoDup; [|by rewrite Hh].
    rewrite Hh. by eapply holes_NoDup. }
  rewrite (while_runs _ _ _ (length bl)
    (walk_runs m h _ 0 bl Hwf Hl ltac:(lia) Ht ltac:(lia) ltac:(lia) Hocc)) by lia.
  rsimpl.
  assert (length (holes (start_address h) bl) = length (contents (index h))) as Hlh
    by (by rewrite Hh).
  rewrite Z.add_0_l, Hlh, Hlen, Z2Nat.id, Z.eqb_refl by lia. repeat assert_step.
  destruct (for_range_rule (fun _ (_ : unit) => True)
    (fun i _ => validate_entry m h i) 0 (OrderedArray.size (index h)) tt)
    as ([] & -> & _); [lia| |done|done].
  intros i [] Hi _. exists tt. split; [|done]. by eapply validate_entry_ok.
Qed.

(** ** The check only accepts well-formed heaps *)

(** [validate_block] succeeded: the tags describe a block, apart from the
    exact value of the hole flag. *)
Lemma validate_block_inv m h a hc a' hc' :
  heap_wf h -> 0 <= a < end_address h -> 0 <= hc < 2 ^ 32 - 1 ->
  validate_block m h a hc = Ok (a', hc') ->
  exists hole sz, a' = a + sz /\ a' <= end_address h /\ MIN_BLOCK <= sz /\
    hdr_magic m a = HEAP_MAGIC /\ hdr_size m a = sz /\
    ftr_magic m (a + sz - sizeof_footer_t) = HEAP_MAGIC /\
    ftr_header m (a + sz - sizeof_footer_t) = a /\
    (if hole : bool then occ a (contents (index h)) = 1 /\ hc' = hc + 1
     else hdr_is_hole m a = 0 /\ hc' = hc).
Proof.
  intros Hwf Ha Hhc. pose proof Hwf as [? ? ? _ _].
  unfold validate_block. intros H0. res_inv H0.
  repeat match goal with Hx : ASSERT _ = Ok _ |- _ => apply ASSERT_inv in Hx end.
  unfold MIN_BLOCK, sizeof_header_t, sizeof_footer_t in *.
  rewrite (u32_small (end_address h - a)) in * by lia.
  rewrite (u32_small (a + hdr_size m a - 8)) in * by lia.
  rewrite (u32_small (a + hdr_size m a)) in * by lia.
  injection H0 as <- <-. exists (negb (hdr_is_hole m a =? 0)), (hdr_size m a).
  split_and!; [done|lia..|].
  destruct (Z.eqb_spec (hdr_is_hole m a) 0) as [E|E]; simpl in *.
  - split; [done|congruence].
  - rewrite count_matches_spec in * by done. rewrite bind_Ok in *.
    match goal with Hx : mbind _ (ASSERT _) = Ok _ |- _ =>
      apply bind_Ok_inv in Hx as (? & Hm%ASSERT_inv & [= <-]) end.
    rewrite u32_small by lia. split; [lia|done].
Qed.

(** [layout] up to the value of the hole flags of holes. *)
Fixpoint tags m (a : Z) (bl : list block) : Prop :=
  match bl with
  | [] => True
  | (f, sz) :: bl =>
      (MIN_BLOCK <= sz /\ hdr_magic m a = HEAP_MAGIC /\ hdr_size m a = sz /\
       ftr_magic m (a + sz - sizeof_footer_t) = HEAP_MAGIC /\
       ftr_header m (a + sz - sizeof_footer_t) = a /\
       (f = false -> hdr_is_hole m a = 0)) /\ tags m (a + sz) bl
  end.

Lemma layout_of_tags m a bl :
  tags m a bl -> (forall x, x ∈ holes a bl -> hdr_is_hole m x = 1) -> layout m a bl.
Proof.
  revert a. induction bl as [|[f sz] bl IH]; intros a; simpl; [done|].
  intros [(H1 & H2 & H3 & H4 & H5 & H6) Ht] Hh. split.
  - split_and!; simpl; try done. destruct f; [|by apply H6]. apply Hh. by left.
  - apply IH; [done|]. intros x Hx. apply Hh, elem_of_app. by right.
Qed.

Lemma walk_inv m h n a hc a' hc' :
  heap_wf h -> runs (walk_body m h) n (a, hc) (Ok (a', hc')) ->
  0 <= a <= end_address h -> 0 <= hc /\ MIN_BLOCK * hc <= a ->
  exists bl, tags m a bl /\ a + total bl = a' /\ a' = end_address h /\
    hc' = hc + Z.of_nat (length (holes a bl)) /\
    (forall x, x ∈ holes a bl -> occ x (contents (index h)) = 1).
Proof.
  intros Hwf. pose proof (wf_end _ Hwf) as Hend. change MIN_BLOCK with 20.
  revert a hc. induction n as [|n IH]; intros a hc Hr Ha Hhc; inversion Hr as [? ? E|? ? E|? E|? ? [a1 hc1] ? E Hr1]; subst.
  - unfold walk_body in E. destruct (Z.ltb_spec a (end_address h)).
    { by destruct (validate_block m h a hc). }
    injection E as <- <-. exists []. simpl. split_and!; [done|lia..|].
    intros x Hx. by apply elem_of_nil in Hx.
  - unfold walk_body in E. destruct (Z.ltb_spec a (end_address h)); [|done].
    apply bind_Ok_inv in E as ([a2 hc2] & E & [= -> ->]).
    apply validate_block_inv in E as (f & sz & -> & Hle & Hmin & H1 & H2 & H3 & H4 & Hf);
      [|done|lia|lia].
    change MIN_BLOCK with 20 in Hmin.
    destruct (IH (a + sz) hc1) as (bl & Htags & Htot & Hend' & Hhc' & Hocc);
      [done|lia|destruct f; lia|].
    exists ((f, sz) :: bl). simpl. split_and!; try done; [|lia|destruct f; simpl; lia|].
    { destruct f; [done|]. intros _. apply Hf. }
    intros x [Hx|Hx]%elem_of_app; [|by apply Hocc].
    destruct f; [|by apply elem_of_nil in Hx].
    apply list_elem_of_singleton in Hx as ->. apply Hf.
Qed.

Lemma validate_entry_inv m h i u :
  heap_wf h -> validate_entry m h i = Ok u -> 0 <= i ->
  exists x, contents (index h) !! Z.to_nat i = Some x /\ hdr_is_hole m x = 1 /\
    (forall y, 0 < i -> contents (index h) !! Z.to_nat (i - 1) = Some y ->
       header_t_less_than m x y = false).
Proof.
  intros Hwf H Hi. pose proof (oa_lengths h Hwf) as [_ Hsz]. unfold validate_entry in H.
  apply bind_Ok_inv in H as (x & Hx & H). apply lookup_ordered_array_inv in Hx as [Hi' Hx].
  res_inv H. repeat match goal with Ha : ASSERT _ = Ok _ |- _ => apply ASSERT_inv in Ha end.
  exists x. split_and!; [done|lia|]. intros y Hi0 Hy.
  rewrite (proj2 (Z.ltb_lt _ _)) in H by lia. u32_simpl_in H.
  apply bind_Ok_inv in H as (y' & Hy' & H). apply lookup_ordered_array_inv in Hy' as [_ Hy'].
  apply ASSERT_inv in H. unfold header_t_less_than. assert (y = y') by congruence. subst. lia.
Qed.

Lemma validate_sound m h :
  heap_wf h -> heap_validate m h = Ok tt -> exists bl, heap_ok m h bl.
Proof.
  intros Hwf H. pose proof (oa_lengths h Hwf) as [Hlen Hsz]. pose proof Hwf as [? ? ? _ _].
  unfold heap_validate in H.
  apply bind_Ok_inv in H as (_ & Hse%ASSERT_inv & H).
  apply bind_Ok_inv in H as (_ & Hem%ASSERT_inv & H).
  apply bind_Ok_inv in H as ([a hc] & Hw & H). fold (walk_body m h) in Hw.
  apply bind_Ok_inv in H as (_ & Ha%ASSERT_inv & H).
  apply bind_Ok_inv in H as (_ & Hn%ASSERT_inv & H).
  apply while_inv in Hw as [n Hw]; [|done].
  apply (walk_inv m h n (start_address h) 0 a hc Hwf) in Hw
    as (bl & Htags & Htot & Hend & Hhc & Hocc); [|lia|change MIN_BLOCK with 20; lia].
  assert (forall i, (i < length (contents (index h)))%nat ->
    exists x, contents (index h) !! i = Some x /\ hdr_is_hole m x = 1 /\
      (forall y, (0 < i)%nat -> contents (index h) !! (i - 1)%nat = Some y ->
         header_t_less_than m x y = false)) as Hent.
  { pose proof (for_range_inv (fun j (_ : unit) => forall i, (i < Z.to_nat j)%nat ->
      exists x, contents (index h) !! i = Some x /\ hdr_is_hole m x = 1 /\
      (forall y, (0 < i)%nat -> contents (index h) !! (i - 1)%nat = Some y ->
         header_t_less_than m x y = false)) (fun i _ => validate_entry m h i)
      0 (OrderedArray.size (index h)) tt tt ltac:(lia)) as HI.
    cbv beta in HI. rewrite Hlen. apply HI; [|intros i ?; lia|exact H].
    intros j [] [] Hj IH Hv i Hi. destruct (decide (i = Z.to_nat j)) as [->|]; [|apply IH; lia].
    apply validate_entry_inv in Hv as (x & Hx & Hx1 & Hx2); [|done|lia].
    exists x. split_and!; [done..|]. intros y Hy0 Hy. apply Hx2; [lia|].
    rewrite <- Hy. f_equal. lia. }
  assert (forall x, x ∈ holes (start_address h) bl -> hdr_is_hole m x = 1) as Hflag.
  { intros x Hx. pose proof (Hocc x Hx) as Ho. assert (x ∈ contents (index h)) as Hxc
      by (apply occ_pos; lia).
    apply list_elem_of_lookup in Hxc as [i Hi].
    destruct (Hent i) as (x' & Hx' & ? & _); [by eapply lookup_lt_Some|]. congruence. }
  pose proof (layout_of_tags _ _ _ Htags Hflag) as Hl.
  exists bl. split; [done|lia|lia|lia| |].
  - symmetry. apply NoDup_Permutation_bis.
    + apply NoDup_ListNoDup. by eapply holes_NoDup.
    + lia.
    + intros x Hx. apply list_elem_of_In in Hx. apply list_elem_of_In.
      apply occ_pos. rewrite (Hocc x Hx). lia.
  - apply sorted_by_adjacent; [apply _|]. intros i x y Hx Hy.
    destruct (Hent (S i)) as (y' & Hy' & _ & Hs); [by eapply lookup_lt_Some|].
    assert (y = y') by congruence. subst. apply Hs; [lia|].
    by replace (S i - 1)%nat with i by lia.
Qed.
End validate.
