(* ===== verification/HeapAlloc.v ===== *)
(** * Correctness of [alloc]

    The proof follows the function: the index operations ([idx_ok]), the
    search for a hole, the leading split, the block itself, the trailing
    split, up to [allocate_at_spec].  Growing the heap is in
    HeapContract. *)

From S2P Require Import Prelude Memory OrderedArray KHeap HeapInv.

(** ** The hole index *)

Record idx_ok (m : mem) (i : ordered_array_t mem) (hs : list Z) : Prop := {
  idx_wf : oa_wf i;
  idx_lt : less_than i = Some header_t_less_than;
  idx_holes : contents i ≡ₚ hs;
  idx_sorted : sorted_by (header_t_less_than m) (contents i)
}.

(** The headers of [hs] lie outside [lo, hi). *)
Definition outside (lo hi : Z) (hs : list Z) : Prop :=
  forall y, y ∈ hs -> y + sizeof_header_t <= lo \/ hi <= y.

Section index_facts.
Implicit Types (m : mem) (i : ordered_array_t mem) (hs : list Z).

Lemma idx_ok_perm m i hs hs' : idx_ok m i hs -> hs ≡ₚ hs' -> idx_ok m i hs'.
Proof. intros [? ? Hh ?] Hp. split; try done. by rewrite Hh. Qed.

#[global] Instance idx_ok_proper m i : Proper ((≡ₚ) ==> iff) (idx_ok m i).
Proof. intros hs hs' Hp. split; intros H; by eapply idx_ok_perm. Qed.

Lemma hdr_size_agree lo hi m m' y :
  agree_outside lo hi m m' -> y + sizeof_header_t <= lo \/ hi <= y ->
  hdr_size m' y = hdr_size m y.
Proof.
  unfold sizeof_header_t. intros Hag Hy. unfold hdr_size.
  eapply load32_agree; [eapply (agree_outside_on _ _ y (y + 12)); [done|lia]|lia..].
Qed.

Lemma idx_ok_agree lo hi m m' i hs :
  idx_ok m i hs -> agree_outside lo hi m m' -> outside lo hi hs -> idx_ok m' i hs.
Proof.
  intros [? ? Hh Hs] Hag Hout. split; try done.
  eapply sorted_by_ext; [|done]. intros x y Hx Hy. unfold header_t_less_than.
  rewrite Hh in Hx, Hy. by rewrite !(hdr_size_agree _ _ _ _ _ Hag) by auto.
Qed.

Lemma idx_insert m i hs x :
  idx_ok m i hs -> OrderedArray.size i < max_size i ->
  exists i', insert_ordered_array m x i = Ok i' /\ idx_ok m i' (x :: hs) /\
    OrderedArray.size i' = OrderedArray.size i + 1 /\ oa_same i i'.
Proof.
  intros [Hwf Hlt Hh Hs] Hroom.
  destruct (insert_ordered_array_spec m x i _ Hwf Hlt Hroom) as (i' & -> & Hwf' & Hc & Hsz & Hsame).
  exists i'. split_and!; [done| |done|done]. split; [done| | |].
  - destruct Hsame as (_ & _ & -> & _). done.
  - by rewrite Hc, insert_sorted_perm, Hh.
  - rewrite Hc. apply insert_sorted_sorted; [apply _|done].
Qed.

Lemma idx_remove m i hs k x :
  idx_ok m i hs -> 0 <= k -> contents i !! Z.to_nat k = Some x ->
  exists i' hs', remove_ordered_array k i = Ok i' /\ hs ≡ₚ x :: hs' /\ idx_ok m i' hs' /\
    OrderedArray.size i' = OrderedArray.size i - 1 /\ oa_same i i'.
Proof.
  intros [Hwf Hlt Hh Hs] Hk Hx. pose proof (contents_length i Hwf) as Hlen.
  pose proof (lookup_lt_Some _ _ _ Hx) as Hlt'.
  destruct (remove_ordered_array_spec k i Hwf) as (i' & -> & Hwf' & Hc & Hsz & Hsame); [lia|].
  exists i', (delete (Z.to_nat k) (contents i)). split_and!; [done| | |done|done].
  - rewrite <- Hh. by apply delete_Permutation.
  - split; [done| | |].
    + destruct Hsame as (_ & _ & -> & _). done.
    + by rewrite Hc.
    + rewrite Hc. by apply sorted_by_delete.
Qed.
End index_facts.

Lemma oa_same_trans {M} (i1 i2 i3 : ordered_array_t M) :
  oa_same i1 i2 -> oa_same i2 i3 -> oa_same i1 i3.
Proof. unfold oa_same. intros (? & ? & ? & ?) (? & ? & ? & ?). split_and!; congruence. Qed.

(** ** Page alignment *)

Lemma page_alignment_offset_spec header :
  0 <= header -> header + sizeof_header_t < 2 ^ 32 ->
  let o := page_alignment_offset header in
  (header + sizeof_header_t + o) `mod` 0x1000 = 0 /\ (o = 0 \/ MIN_BLOCK <= o) /\
  0 <= o < 0x1000 + MIN_BLOCK.
Proof.
  unfold sizeof_header_t. intros H0 H1. unfold page_alignment_offset, sizeof_header_t.
  change MIN_BLOCK with 20. change (12 + sizeof_footer_t) with 20. cbv zeta.
  rewrite !land_page_offset. u32_simpl.
  pose proof (Z.mod_pos_bound (header + 12) 0x1000 ltac:(lia)) as Hb.
  set (r := (header + 12) `mod` 0x1000) in *. rewrite (u32_small (0x1000 - r)) by lia.
  assert (exists q, header + 12 = 0x1000 * q + r) as [q Hq].
  { exists ((header + 12) `div` 0x1000). subst r. apply Z.div_mod. lia. }
  destruct (Z.eq_dec r 0) as [E|E].
  - rewrite E. change ((0x1000 - 0) `mod` 0x1000) with 0. simpl.
    split_and!; [|lia..]. rewrite Hq, E. replace (0x1000 * q + 0 + 0) with (q * 0x1000) by lia.
    apply Z.mod_mul. lia.
  - rewrite (Z.mod_small (0x1000 - r)) by lia.
    rewrite (proj2 (Z.eqb_neq (0x1000 - r) 0)) by lia. simpl.
    destruct (Z.ltb_spec (0x1000 - r) 20); u32_simpl.
    + split_and!; [|lia..]. rewrite Hq.
      replace (0x1000 * q + r + (0x1000 - r + 0x1000)) with ((q + 2) * 0x1000) by lia.
      apply Z.mod_mul. lia.
    + split_and!; [|lia..]. rewrite Hq.
      replace (0x1000 * q + r + (0x1000 - r)) with ((q + 1) * 0x1000) by lia.
      apply Z.mod_mul. lia.
Qed.

(** ** Searching *)

(** The bytes skipped in front of a hole, and whether the request fits. *)
Definition lead_of (page_align x : Z) : Z :=
  if 0 <? page_align then page_alignment_offset x else 0.
Definition fits (m : mem) (new_size page_align x : Z) : Prop :=
  new_size + lead_of page_align x <= hdr_size m x.

Lemma find_smallest_hole_spec m h bl new_size page_align :
  heap_wf h -> heap_ok m h bl -> 0 <= new_size < 2 ^ 32 ->
  exists k, find_smallest_hole new_size page_align m h = Ok k /\
    (k = -1 /\ (forall x, x ∈ contents (index h) -> ~ fits m new_size page_align x) \/
     exists x, 0 <= k /\ contents (index h) !! Z.to_nat k = Some x /\
       fits m new_size page_align x /\
       (forall j y, (j < Z.to_nat k)%nat -> contents (index h) !! j = Some y ->
          ~ fits m new_size page_align y)).
Proof.
  intros Hwf Hok Hns. pose proof (oa_lengths h Hwf) as [Hlen Hsz].
  unfold find_smallest_hole.
  pose (I := fun it => 0 <= it <= OrderedArray.size (index h) /\
    forall j y, (j < Z.to_nat it)%nat -> contents (index h) !! j = Some y ->
      ~ fits m new_size page_align y).
  pose (Q := fun it => I it /\
    (it < OrderedArray.size (index h) ->
     exists x, contents (index h) !! Z.to_nat it = Some x /\ fits m new_size page_align x)).
  match goal with |- context [while ?f 0] =>
    destruct (while_rule f I Q (fun it => OrderedArray.size (index h) - it) 0)
      as (k & -> & [Hk Hbefore] & Hfit) end.
  - intros it [Hit Hno]. destruct (Z.ltb_spec it (OrderedArray.size (index h))) as [Hlt|Hge].
    2:{ split; [by split|lia]. }
    destruct (lookup_ordered_array_spec it (index h)) as (x & -> & Hx); [apply Hwf|lia|]. rsimpl.
    assert (x ∈ holes (start_address h) bl) as Hin.
    { rewrite <- (ok_holes _ _ _ Hok). by eapply list_elem_of_lookup_2. }
    pose proof (holes_bounds _ _ _ _ (ok_layout _ _ _ Hok) Hin) as Hb.
    rewrite (ok_total _ _ _ Hok) in Hb. change MIN_BLOCK with 20 in Hb.
    destruct Hwf as [? ? ? _ _].
    destruct (holes_split _ _ _ Hin) as (pre & sz & post & Hbl & Hxa).
    pose proof (hole_size _ _ _ _ _ _ _ (ok_layout _ _ _ Hok) Hbl Hxa) as Hsx.
    assert (x + sz <= end_address h).
    { pose proof (ok_layout _ _ _ Hok) as Hl. rewrite Hbl in Hl. apply layout_app in Hl as [_ [_ Hl]].
      pose proof (layout_total_nonneg _ _ _ Hl). pose proof (ok_total _ _ _ Hok) as Ht.
      rewrite Hbl, total_app in Ht. simpl in Ht. lia. }
    assert (I (u32 (it + 1)) /\ 0 <= OrderedArray.size (index h) - u32 (it + 1) < OrderedArray.size (index h) - it
            \/ fits m new_size page_align x) as Hstep.
    { destruct (Z.le_gt_cases (new_size + lead_of page_align x) (hdr_size m x)); [by right|left].
      u32_simpl. split; [|lia]. split; [lia|]. intros j y Hj Hy.
      destruct (decide (j = Z.to_nat it)) as [->|]; [|by apply (Hno j y); [lia|]].
      assert (x = y) as <- by congruence. unfold fits. lia. }
    unfold fits, lead_of in *.
    pose proof (page_alignment_offset_spec x ltac:(lia) ltac:(unfold sizeof_header_t; lia)) as (_ & _ & Ho).
    destruct (Z.ltb_spec 0 page_align); cbv beta iota.
    + destruct (Z.leb_spec (page_alignment_offset x) (0xFFFFFFFF - new_size)); simpl.
      * rewrite (u32_small (new_size + _)) by lia.
        destruct (Z.leb_spec (new_size + page_alignment_offset x) (hdr_size m x)).
        -- split; [by split|]. intros _. exists x. split; [done|lia].
        -- destruct Hstep; [done|lia].
      * destruct Hstep; [done|lia].
    + destruct (Z.leb_spec new_size (hdr_size m x)).
      * split; [by split|]. intros _. exists x. split; [done|lia].
      * destruct Hstep; [done|lia].
  - split; [lia|]. intros j y ?. lia.
  - lia.
  - rsimpl. destruct (Z.eqb_spec k (OrderedArray.size (index h))) as [->|Hne].
    + exists (-1). split; [done|]. left. split; [done|]. intros x [j Hj]%list_elem_of_lookup.
      apply (Hbefore j x); [|done]. apply lookup_lt_Some in Hj. lia.
    + rewrite s32_small by lia. exists k. split; [done|]. right.
      destruct Hfit as (x & Hx & Hfx); [lia|]. exists x. by split_and!; [lia|..].
Qed.

(** ** Carving a block out of a hole *)

Ltac unfold_tags :=
  unfold block_ok, set_hdr_magic, set_hdr_is_hole, set_hdr_size, set_ftr_magic,
    set_ftr_header, hdr_magic, hdr_is_hole, hdr_size, ftr_magic, ftr_header,
    MIN_BLOCK, sizeof_header_t, sizeof_footer_t in *.

(** Solves [block_ok m a b] when [m] is a chain of tag writes. *)
Ltac solve_block :=
  unfold_tags; cbn [fst snd]; repeat split; try lia; mem_simpl; u32_simpl;
  try reflexivity; try lia.

(** Closes the routine conjuncts of a split specification. *)
Ltac finish_split :=
  split_and!; try done; try lia; try apply agree_outside_refl; try (by left);
  try (by right; eexists).

(** The result of [split_leading]: no block or one free block in front. *)
Lemma split_leading_spec page_align pos hsize new_size m i hs :
  0 < pos -> pos + hsize < 2 ^ 32 -> 0 <= page_align ->
  MIN_BLOCK <= new_size -> MIN_BLOCK <= hsize ->
  new_size + lead_of page_align pos <= hsize -> idx_ok m i hs -> outside pos (pos + hsize) hs -> OrderedArray.size i < max_size i ->
  exists m' i' lead,
    split_leading page_align pos hsize m i =
      Ok (m', i', pos + total lead, hsize - total lead) /\
    new_size <= hsize - total lead /\ 0 <= total lead /\
    layout m' pos lead /\ allocated pos lead = [] /\
    agree_outside pos (pos + total lead) m m' /\
    idx_ok m' i' (holes pos lead ++ hs) /\ oa_same i i' /\
    OrderedArray.size i <= OrderedArray.size i' <= OrderedArray.size i + 1 /\
    (0 < page_align -> (pos + total lead + sizeof_header_t) `mod` 0x1000 = 0) /\
    (lead = [] \/ exists n, lead = [(true, n)]).
Proof.
  intros Hpos Hend Hal Hns Hhs Hfit Hidx Hout Hroom.
  unfold split_leading. unfold lead_of in Hfit.
  change MIN_BLOCK with 20 in Hns, Hhs.
  destruct (page_alignment_offset_spec pos) as (Hmod & Ho & Hob); [lia|unfold sizeof_header_t; lia|].
  change MIN_BLOCK with 20 in Ho, Hob.
  revert Hfit. destruct (Z.ltb_spec 0 page_align) as [Hp|Hp]; intros Hfit.
  - rewrite (proj2 (Z.eqb_neq page_align 0)) by lia.
    destruct (Z.eqb_spec (page_alignment_offset pos) 0) as [E|E]; simpl negb; cbv iota.
    + rewrite E, Z.add_0_r in Hmod. exists m, i, []. simpl. rewrite Z.add_0_r, Z.sub_0_r.
      finish_split.
    + set (o := page_alignment_offset pos) in *. cbv zeta. unfold sizeof_footer_t.
      rewrite (u32_small (pos + o - 8)), (u32_small (pos + o)), (u32_small (hsize - o)) by lia.
      match goal with |- context [insert_ordered_array ?m1 pos i] => set (m' := m1) end.
      assert (agree_outside pos (pos + o) m m') as Hag by (unfold m'; unfold_tags; solve_agree).
      destruct (idx_insert m' i hs pos) as (i' & -> & Hidx' & Hsz & Hsame); [|done|].
      { eapply idx_ok_agree; [done|done|]. intros y Hy. apply Hout in Hy. lia. }
      rsimpl. exists m', i', [(true, o)]. simpl. rewrite Z.add_0_r.
      finish_split; [unfold m'; solve_block|]. intros _.
      by replace (pos + o + sizeof_header_t) with (pos + sizeof_header_t + o) by lia.
  - rewrite (proj2 (Z.eqb_eq page_align 0)) by lia. simpl negb; cbv iota.
    exists m, i, []. simpl. rewrite Z.add_0_r, Z.sub_0_r.
    finish_split.
Qed.

Lemma split_trailing_spec pos new_size hsize m h i hs :
  0 < pos -> pos + hsize <= end_address h -> end_address h < 2 ^ 32 ->
  MIN_BLOCK <= new_size <= hsize -> (hsize - new_size = 0 \/ MIN_BLOCK <= hsize - new_size) ->
  idx_ok m i hs -> outside (pos + new_size) (pos + hsize) hs ->
  OrderedArray.size i < max_size i ->
  exists m' i' trail,
    split_trailing pos (new_size - MIN_BLOCK) new_size hsize m h i = Ok (m', i') /\
    layout m' (pos + new_size) trail /\ total trail = hsize - new_size /\
    allocated (pos + new_size) trail = [] /\
    agree_outside (pos + new_size) (pos + hsize) m m' /\
    idx_ok m' i' (holes (pos + new_size) trail ++ hs) /\ oa_same i i' /\
    OrderedArray.size i' <= OrderedArray.size i + 1 /\
    (trail = [] \/ exists n, trail = [(true, n)]).
Proof.
  intros Hpos Hend Hmax Hns Hrem Hidx Hout Hroom. change MIN_BLOCK with 20 in *.
  unfold split_trailing, sizeof_header_t, sizeof_footer_t. u32_simpl.
  destruct (Z.leb_spec (12 + 8) (hsize - new_size)).
  - replace (pos + 12 + (new_size - 20) + 8) with (pos + new_size) by lia. cbv zeta.
    u32_simpl. rewrite ASSERT_ok by lia. rsimpl.
    match goal with |- context [insert_ordered_array ?m1 _ i] => set (m' := m1) end.
    assert (agree_outside (pos + new_size) (pos + hsize) m m') as Hag
      by (unfold m'; unfold_tags; solve_agree).
    destruct (idx_insert m' i hs (pos + new_size)) as (i' & -> & Hidx' & Hsz & Hsame); [|done|].
    { eapply idx_ok_agree; [done|done|]. done. }
    rsimpl. exists m', i', [(true, hsize - new_size)]. simpl.
    finish_split. unfold m'.
    replace (pos + new_size + hsize - new_size - 8) with (pos + new_size + (hsize - new_size) - 8) by lia.
    solve_block.
  - exists m, i, []. simpl. finish_split.
Qed.

Lemma layout_app3 m a pre old post :
  layout m a (pre ++ old ++ post) <->
  layout m a pre /\ layout m (a + total pre) old /\
  layout m (a + total pre + total old) post.
Proof. by rewrite !layout_app. Qed.

(** Replacing the blocks of one region. *)
Lemma layout_replace m m' a pre old mid post :
  layout m a (pre ++ old ++ post) -> total mid = total old ->
  agree_outside (a + total pre) (a + total pre + total old) m m' ->
  layout m' (a + total pre) mid -> layout m' a (pre ++ mid ++ post).
Proof.
  intros (Hpre & Hold & Hpost)%layout_app3 Htot Hag Hmid.
  pose proof (layout_total_nonneg _ _ _ Hpre). pose proof (layout_total_nonneg _ _ _ Hold).
  apply layout_app3. split_and!; [|done|].
  - eapply layout_agree; [|done]. eapply agree_outside_on; [done|]. lia.
  - rewrite Htot. eapply layout_agree; [|done]. eapply agree_outside_on; [done|]. lia.
Qed.

Lemma holes_outside m a pre old post :
  layout m a (pre ++ old ++ post) ->
  outside (a + total pre) (a + total pre + total old)
    (holes a pre ++ holes (a + total pre + total old) post).
Proof.
  intros (Hpre & Hold & Hpost)%layout_app3 y.
  rewrite elem_of_app. intros [Hy|Hy].
  - eapply holes_bounds in Hy; [|done]. change MIN_BLOCK with 20 in Hy. unfold sizeof_header_t. lia.
  - eapply holes_bounds in Hy; [|done]. lia.
Qed.

Lemma heap_idx_ok m h bl :
  heap_wf h -> heap_ok m h bl -> idx_ok m (index h) (holes (start_address h) bl).
Proof. intros [? ? ? ? ?] [? ? ? ? ? ?]. by split. Qed.

(** Rewriting one region of a well-formed heap keeps it well-formed. *)
Lemma heap_ok_replace m h m' i' pre old mid post :
  let x := start_address h + total pre in
  heap_wf h -> heap_ok m h (pre ++ old ++ post) -> total mid = total old ->
  agree_outside x (x + total old) m m' -> layout m' x mid ->
  idx_ok m' i' (holes x mid ++ holes (start_address h) pre ++ holes (x + total old) post) ->
  heap_wf (set_index h i') /\ heap_ok m' (set_index h i') (pre ++ mid ++ post).
Proof.
  intros x [? ? ? ? ?] [Hl Ht Hne Hmax Hh Hs] Htot Hag Hmid [Hwf' Hlt' Hh' Hs'].
  split; [by split|]. split; simpl; try done.
  - by eapply layout_replace.
  - rewrite <- Ht, !total_app. lia.
  - rewrite Hh', !holes_app, Htot. fold x. rewrite Permutation_app_swap_app. done.
Qed.

(** What a successful allocation did, at the level of blocks. *)
Record alloc_result {P} (s s' : hstate P) (bl bl' : list block) (size page_align p : Z) : Prop := {
  ar_wf : heap_wf (hheap s');
  ar_ok : heap_ok (hmem s') (hheap s') bl';
  ar_start : start_address (hheap s') = start_address (hheap s);
  ar_end : end_address (hheap s') = end_address (hheap s);
  ar_max : max_address (hheap s') = max_address (hheap s);
  ar_index : OrderedArray.size (index (hheap s')) <= OrderedArray.size (index (hheap s)) + 1;
  ar_cap : max_size (index (hheap s')) = max_size (index (hheap s));
  ar_pages : hpages s' = hpages s;
  (** where the block came from *)
  ar_blocks : exists pre hsz post lead n trail,
    bl = pre ++ [(true, hsz)] ++ post /\
    bl' = pre ++ (lead ++ (false, n + MIN_BLOCK) :: trail) ++ post /\
    (lead = [] \/ exists k, lead = [(true, k)]) /\
    (trail = [] \/ exists k, trail = [(true, k)]) /\
    total (lead ++ (false, n + MIN_BLOCK) :: trail) = hsz /\
    p = start_address (hheap s) + total pre + total lead + sizeof_header_t /\
    size <= n /\
    agree_outside (start_address (hheap s) + total pre)
      (start_address (hheap s) + total pre + hsz) (hmem s) (hmem s');
  ar_aligned : 0 < page_align -> p `mod` 0x1000 = 0
}.

Section allocate.
Context {P : Type} `{!PageBacking P}.
Implicit Types s : hstate P.

Lemma allocate_at_spec size page_align k x s bl :
  let new_size := size + MIN_BLOCK in
  heap_wf (hheap s) -> heap_ok (hmem s) (hheap s) bl ->
  0 < size -> 0 <= page_align -> 0 <= k ->
  contents (index (hheap s)) !! Z.to_nat k = Some x ->
  fits (hmem s) new_size page_align x ->
  OrderedArray.size (index (hheap s)) < max_size (index (hheap s)) ->
  exists p s' bl', allocate_at size new_size page_align k s = Ok (p, s') /\
    alloc_result s s' bl bl' size page_align p.
Proof.
  intros new_size Hwf Hok Hsize Hal Hk Hx Hfit Hroom.
  set (h := hheap s) in *. set (m := hmem s) in *. set (a := start_address h).
  pose proof (heap_idx_ok _ _ _ Hwf Hok) as Hidx. fold a in Hidx.
  assert (x ∈ holes a bl) as Hin.
  { rewrite <- (idx_holes _ _ _ Hidx). by eapply list_elem_of_lookup_2. }
  destruct (holes_split _ _ _ Hin) as (pre & hsz & post & -> & Hxa).
  change (pre ++ (true, hsz) :: post) with (pre ++ [(true, hsz)] ++ post) in *.
  pose proof (ok_layout _ _ _ Hok) as Hl. pose proof (ok_total _ _ _ Hok) as Ht.
  fold a in Hl, Ht. rewrite !total_app in Ht. simpl in Ht.
  pose proof (proj1 (layout_app3 _ _ _ _ _) Hl) as (Hlpre & [Hlx _] & Hlpost).
  pose proof (layout_total_nonneg _ _ _ Hlpre). pose proof (layout_total_nonneg _ _ _ Hlpost).
  assert (hdr_size m x = hsz) as Hsz by (rewrite Hxa; apply Hlx).
  unfold fits in Hfit. rewrite Hsz in Hfit.
  assert (MIN_BLOCK <= hsz) as Hhs by apply Hlx. change MIN_BLOCK with 20 in Hhs.
  pose proof (wf_start _ Hwf) as Hstart. pose proof (wf_end _ Hwf) as Hendr. fold a in Hstart.
  (* the index without the chosen hole *)
  destruct (idx_remove m (index h) _ k x Hidx Hk Hx) as (i0 & hs & Hrem & Hperm & Hidx0 & Hsz0 & Hsame0).
  set (rest := holes a pre ++ holes (x + hsz) post).
  assert (idx_ok m i0 rest) as Hidx0'.
  { eapply idx_ok_perm; [done|]. apply (Permutation_cons_inv (a := x)). rewrite <- Hperm.
    rewrite !holes_app. simpl. unfold rest. rewrite Hxa, Z.add_0_r, Permutation_middle. done. }
  assert (outside x (x + hsz) rest) as Hout.
  { pose proof (holes_outside _ _ _ _ _ Hl) as Ho. simpl in Ho. rewrite Z.add_0_r, <- Hxa in Ho. done. }
  (* the leading hole *)
  destruct (split_leading_spec page_align x hsz new_size m i0 rest)
    as (m1 & i1 & lead & Hlead & Hfit1 & Htl & Hl1 & _ & Hag1 & Hidx1 & Hsame1 & Hsz1 & Hmod & Hleadc);
    [lia|lia|lia|unfold new_size; change MIN_BLOCK with 20; lia|done|done|done|done| |].
  { destruct Hsame0 as (_ & -> & _). lia. }
  set (pos := x + total lead) in *. set (hs1 := hsz - total lead) in *.
  (* the block takes the whole hole when the remainder cannot hold tags *)
  assert (MIN_BLOCK = 20) as HMB by done.
  assert (pos = x + total lead /\ hs1 = hsz - total lead /\ new_size = size + 20)
    as (Epos & Ehs1 & Ens) by done.
  set (n := if hs1 - new_size <? MIN_BLOCK then hs1 else new_size).
  assert (new_size <= n <= hs1 /\ (hs1 - n = 0 \/ MIN_BLOCK <= hs1 - n)) as [Hn Hrem'].
  { unfold n. destruct (Z.ltb_spec (hs1 - new_size) MIN_BLOCK); lia. }
  assert ((if u32 (hs1 - new_size) <? sizeof_header_t + sizeof_footer_t
           then (u32 (size + u32 (hs1 - new_size)), hs1) else (size, new_size))
          = (n - MIN_BLOCK, n)) as Hpick.
  { rewrite (u32_small (hs1 - new_size)) by lia.
    change (sizeof_header_t + sizeof_footer_t) with MIN_BLOCK. unfold n.
    destruct (Z.ltb_spec (hs1 - new_size) MIN_BLOCK).
    - f_equal. rewrite u32_small by lia. lia.
    - f_equal. unfold new_size. lia. }
  unfold allocate_at. fold h m.
  destruct (lookup_ordered_array_spec k (index h)) as (x' & -> & Hx');
    [apply Hwf|apply lookup_lt_Some in Hx; rewrite contents_length in Hx by apply Hwf; lia|].
  assert (x' = x) as -> by congruence. rsimpl. rewrite Hrem, Hsz. rsimpl.
  rewrite Hlead. rsimpl. rewrite Hpick. cbv beta iota zeta.
  replace (pos + sizeof_header_t + (n - MIN_BLOCK)) with (pos + n - 8) by (unfold sizeof_header_t; lia).
  rewrite (u32_small (pos + n - 8)) by lia.
  match goal with |- context [split_trailing _ _ _ _ ?mm _ _] => set (m2 := mm) end.
  assert (block_ok m2 pos (false, n)) as Hb2 by (unfold m2; solve_block).
  assert (agree_outside pos (pos + n) m1 m2) as Hag2
    by (unfold m2; unfold_tags; solve_agree).
  (* the trailing hole *)
  assert (idx_ok m2 i1 (holes x lead ++ rest)) as Hidx2.
  { eapply idx_ok_agree; [done|done|]. intros y [Hy|Hy]%elem_of_app.
    - eapply holes_bounds in Hy; [|done]. unfold sizeof_header_t. fold pos in Hy. lia.
    - apply Hout in Hy. lia. }
  destruct (split_trailing_spec pos n hs1 m2 h i1 (holes x lead ++ rest))
    as (m3 & i3 & trail & Htrail & Hl3 & Htt & _ & Hag3 & Hidx3 & Hsame3 & Hsz3 & Htrailc);
    [lia|lia|lia|lia|lia|done| | |].
  { intros y [Hy|Hy]%elem_of_app.
    - eapply holes_bounds in Hy; [|done]. unfold sizeof_header_t. fold pos in Hy. lia.
    - apply Hout in Hy. lia. }
  { destruct Hsame0 as (_ & Hc0 & _), Hsame1 as (_ & Hc1 & _). lia. }
  rewrite Htrail. rsimpl.
  set (mid := lead ++ (false, n - MIN_BLOCK + MIN_BLOCK) :: trail).
  assert (total mid = hsz) as Hmid.
  { unfold mid. rewrite total_app. simpl. lia. }
  assert (agree_outside x (x + hsz) m m3) as Hag.
  { eapply agree_outside_trans; [eapply agree_outside_weaken; [exact Hag1|lia..]|].
    eapply agree_outside_trans; [eapply agree_outside_weaken; [exact Hag2|lia..]|].
    eapply agree_outside_weaken; [exact Hag3|lia..]. }
  assert (layout m3 x mid) as Hlmid.
  { unfold mid. rewrite Z.sub_add. apply layout_app. fold pos. split; [|split; simpl].
    - eapply layout_agree; [|exact Hl1]. intros y Hy. fold pos in Hy. rewrite (Hag3 y), (Hag2 y) by lia. done.
    - eapply block_ok_agree; [|exact Hb2]. simpl. intros y Hy. apply Hag3. lia.
    - exact Hl3. }
  destruct (heap_ok_replace m h m3 i3 pre [(true, hsz)] mid post) as [Hwf' Hok'];
    [done|done|simpl; lia|simpl; fold a; rewrite <- Hxa, Z.add_0_r; done
    |fold a; by rewrite <- Hxa| |].
  { fold a. rewrite <- Hxa. simpl. rewrite Z.add_0_r. fold rest.
    eapply idx_ok_perm; [exact Hidx3|]. unfold mid. rewrite holes_app. simpl. fold pos.
    rewrite Z.sub_add, <- !app_assoc. rewrite Permutation_app_swap_app. done. }
  rewrite (heap_validate_ok _ _ _ Hwf' Hok'). rsimpl.
  eexists _, _, _. split; [done|].
  split; simpl; try done.
  - fold h. lia.
  - destruct Hsame0 as (_ & Hc0 & _), Hsame1 as (_ & Hc1 & _), Hsame3 as (_ & Hc3 & _).
    by rewrite Hc3, Hc1, Hc0.
  - exists pre, hsz, post, lead, (n - MIN_BLOCK), trail. split_and!; try done.
    + rewrite u32_small by (unfold sizeof_header_t; lia). fold h a. lia.
    + lia.
    + fold h a m. by rewrite <- Hxa.
  - intros Hp. rewrite u32_small by (unfold sizeof_header_t; lia). by apply Hmod.
Qed.
End allocate.

