(* ===== verification/HeapContract.v ===== *)
(** * Growing the heap, and the contract of [alloc]

    [expand] asks the paging component for frames through the interface
    [PageBackingLaws]; [add_expanded_tail] publishes the new pages, as a
    hole of their own or as part of the hole that ended the arena.  [alloc] then finds a hole in
    at most three rounds. *)

From S2P Require Import Prelude Memory OrderedArray KHeap HeapInv HeapAlloc.

(** What the paging component promises to the heap: [pb_ready p lo hi n]
    says that the page tables of the virtual range [lo, hi) exist and that
    [n] more frames can be handed out.  Then mapping a page of the range
    succeeds, costs at most one frame, leaves the heap descriptor alone and
    touches no byte outside that page; unmapping never fails. *)
Class PageBackingLaws (P : Type) `{!PageBacking P} : Type := {
  pb_ready : P -> Z -> Z -> Z -> Prop;
  pb_map_ok s a k w lo hi n :
    pb_ready (hpages s) lo hi n -> 0 < n -> lo <= a < hi -> a `mod` 0x1000 = 0 ->
    exists m' p', pb_map a k w s = Ok (mk_hstate m' (hheap s) p') /\
      agree_outside a (a + 0x1000) (hmem s) m' /\ pb_ready p' lo hi (n - 1);
  pb_unmap_ok s a lo hi n :
    pb_ready (hpages s) lo hi n -> lo <= a < hi -> a `mod` 0x1000 = 0 ->
    exists p', pb_unmap a s = Ok (mk_hstate (hmem s) (hheap s) p') /\ pb_ready p' lo hi n
}.

Definition round_up_page (x : Z) : Z := (x + 0xFFF) `div` 0x1000 * 0x1000.

Lemma round_up_page_spec x :
  round_up_page x `mod` 0x1000 = 0 /\ x <= round_up_page x < x + 0x1000.
Proof.
  unfold round_up_page. split; [by apply Z.mod_mul|].
  pose proof (Z.div_mod (x + 0xFFF) 0x1000 ltac:(lia)).
  pose proof (Z.mod_pos_bound (x + 0xFFF) 0x1000 ltac:(lia)). lia.
Qed.

(** The rounding idiom of kheap.c. *)
Lemma round_idiom x :
  0 <= x < 2 ^ 32 ->
  (if negb (Z.land x 0xFFF =? 0) then Z.land x 0xFFFFF000 + 0x1000 else x) = round_up_page x.
Proof.
  intros Hx. rewrite land_page_offset, land_page_base by done.
  pose proof (Z.div_mod x 0x1000 ltac:(lia)). pose proof (Z.mod_pos_bound x 0x1000 ltac:(lia)).
  destruct (round_up_page_spec x) as [Hm Hb]. unfold round_up_page in *.
  pose proof (Z.div_mod (x + 0xFFF) 0x1000 ltac:(lia)).
  pose proof (Z.mod_pos_bound (x + 0xFFF) 0x1000 ltac:(lia)).
  destruct (Z.eqb_spec (x `mod` 0x1000) 0); simpl; lia.
Qed.

Lemma mod_page_add a b : a `mod` 0x1000 = 0 -> b `mod` 0x1000 = 0 -> (a + b) `mod` 0x1000 = 0.
Proof. intros Ha Hb. by rewrite Z.add_mod, Ha, Hb by lia. Qed.
Lemma mod_page_sub a b : a `mod` 0x1000 = 0 -> b `mod` 0x1000 = 0 -> (a - b) `mod` 0x1000 = 0.
Proof. intros Ha Hb. by rewrite Zminus_mod, Ha, Hb by lia. Qed.

(** Both ends of the arena are page boundaries. *)
Definition page_aligned (h : heap_t) : Prop :=
  start_address h `mod` 0x1000 = 0 /\ end_address h `mod` 0x1000 = 0.

Section growth.
Context {P : Type} `{!PageBacking P} `{!PageBackingLaws P}.
Implicit Types s : hstate P.

Lemma expand_spec new_size s lo hi n :
  let h := hheap s in let new_end := start_address h + round_up_page new_size in
  heap_wf h -> page_aligned h -> start_address h <= end_address h ->
  end_address h - start_address h < new_size < 2 ^ 32 -> new_end <= max_address h ->
  pb_ready (hpages s) lo hi n -> lo <= end_address h -> new_end <= hi ->
  new_end - end_address h <= n * 0x1000 ->
  exists m' p', expand new_size s = Ok (mk_hstate m' (set_end_address h new_end) p') /\
    agree_outside (end_address h) new_end (hmem s) m' /\
    pb_ready p' lo hi (n - (new_end - end_address h) `div` 0x1000).
Proof.
  intros h new_end Hwf [Has Hae] Hse Hns Hmax Hready Hlo Hhi Hn.
  destruct (round_up_page_spec new_size) as [Hrm Hrb].
  set (R := round_up_page new_size) in *. pose proof Hwf as [? ? ? _ _].
  assert (new_end = start_address h + R) as Ene by done.
  unfold expand. fold h. rewrite (u32_small (end_address h - start_address h)) by lia.
  rewrite (ASSERT_ok (_ <? new_size)) by lia. rsimpl.
  pose proof (round_idiom new_size ltac:(lia)) as Hidiom. fold R in Hidiom.
  match goal with |- context [mbind (M:=res) _ (if _ then ?A else ?B)] =>
    assert ((if negb (Z.land new_size 0xFFF =? 0) then A else B) = Ok R) as -> end.
  { destruct (negb (Z.land new_size 0xFFF =? 0)) eqn:E; rewrite ?E in Hidiom.
    - rewrite ASSERT_ok, bind_Ok; [f_equal; rewrite Hidiom; apply u32_small; lia|].
      apply Z.leb_le. rewrite land_page_offset in E. rewrite land_page_base in Hidiom by (unfold is_u32; lia).
      pose proof (Z.mod_pos_bound new_size 0x1000 ltac:(lia)).
      assert (R <= 0xFFFFF000); [|lia].
      pose proof (Z.div_mod R 0x1000 ltac:(lia)). lia.
    - by rewrite Hidiom. }
  rsimpl. rewrite (u32_small (max_address h - start_address h)) by lia.
  rewrite ASSERT_ok by lia. rsimpl.
  set (old := end_address h - start_address h).
  assert (old `mod` 0x1000 = 0) as Hom by by apply mod_page_sub.
  pose (I := fun q : Z * hstate P => let '(i, s1) := q in
    old <= i <= R /\ i `mod` 0x1000 = 0 /\ hheap s1 = h /\
    agree_outside (end_address h) new_end (hmem s) (hmem s1) /\
    pb_ready (hpages s1) lo hi (n - (i - old) `div` 0x1000)).
  pose (Q := fun s1 : hstate P => hheap s1 = h /\
    agree_outside (end_address h) new_end (hmem s) (hmem s1) /\
    pb_ready (hpages s1) lo hi (n - (R - old) `div` 0x1000)).
  match goal with |- context [while ?f (old, s)] =>
    destruct (while_rule f I Q (fun q => R - q.1) (old, s)) as (s1 & -> & Hh & Hag & Hr) end.
  - intros [i s1] (Hi & Him & Hh1 & Hag1 & Hr1). cbn [fst].
    destruct (Z.ltb_spec i R) as [HiR|HiR].
    + assert (i + 0x1000 <= R) as HiR'.
      { pose proof (Z.div_mod i 0x1000 ltac:(lia)). pose proof (Z.div_mod R 0x1000 ltac:(lia)). lia. }
      rewrite Hh1, (u32_small (start_address h + i)) by lia.
      destruct (pb_map_ok s1 (start_address h + i)
        (if supervisor h =? 0 then 0 else 1) (if readonly h =? 0 then 1 else 0) lo hi _ Hr1)
        as (m2 & p2 & -> & Hag2 & Hr2); [|lia|by apply mod_page_add|].
      { pose proof (Z.div_mod (i - old) 0x1000 ltac:(lia)).
        pose proof (Z.mod_pos_bound (i - old) 0x1000 ltac:(lia)). lia. }
      rsimpl. rewrite (u32_small (i + 0x1000)) by lia. unfold I. cbn [fst snd hheap hmem hpages].
      split; [|lia]. split_and!; [lia|lia|by apply mod_page_add|done| |].
      * eapply agree_outside_trans; [done|]. eapply agree_outside_weaken; [done|lia..].
      * replace (i + 0x1000 - old) with (i - old + 1 * 0x1000) by lia.
        rewrite Z.div_add by lia. by replace (n - ((i - old) `div` 0x1000 + 1))
          with (n - (i - old) `div` 0x1000 - 1) by lia.
    + assert (i = R) as -> by lia. by split_and!.
  - unfold I. split_and!; [lia|lia|done|done|apply agree_outside_refl|].
    rewrite Z.sub_diag. change (0 `div` 0x1000) with 0. by rewrite Z.sub_0_r.
  - cbn [fst]. unfold old. lia.
  - rsimpl. unfold with_heap. rewrite Hh, (u32_small (start_address h + R)) by lia.
    exists (hmem s1), (hpages s1). split_and!; [done|done|].
    by replace (new_end - end_address h) with (R - old) by (unfold old; lia).
Qed.

(** [bl'] is [bl] with a tail hole that is larger by [d]; [pre] are the
    blocks below that hole. *)
Inductive grown (d : Z) (pre : list block) : list block -> list block -> Prop :=
  | grown_new : (forall bl sz, pre <> bl ++ [(true, sz)]) -> grown d pre pre (pre ++ [(true, d)])
  | grown_tail sz : grown d pre (pre ++ [(true, sz)]) (pre ++ [(true, sz + d)]).

Lemma endmost_hole_spec h :
  oa_wf (index h) -> (forall y, y ∈ contents (index h) -> 0 < y) ->
  exists k v, endmost_hole h = Ok (k, v) /\
    (k = 2 ^ 32 - 1 /\ v = 0 /\ contents (index h) = [] \/
     0 <= k < OrderedArray.size (index h) /\ contents (index h) !! Z.to_nat k = Some v /\
     (forall y, y ∈ contents (index h) -> y <= v)).
Proof.
  intros Hwf Hpos. unfold endmost_hole. pose proof (contents_length _ Hwf) as Hlen.
  pose proof (oa_bound _ Hwf). assert (0 <= OrderedArray.size (index h)) by apply Hwf.
  set (c := contents (index h)) in *.
  match goal with |- context [for_range 0 _ ?f (u32 (-1), 0)] =>
    destruct (for_range_rule (fun i (q : Z * Z) =>
      q = (2 ^ 32 - 1, 0) /\ i = 0 \/
      0 <= q.1 < i /\ c !! Z.to_nat q.1 = Some q.2 /\
      (forall j y, (j < Z.to_nat i)%nat -> c !! j = Some y -> y <= q.2))
      f 0 (OrderedArray.size (index h)) (u32 (-1), 0)) as ([k v] & -> & HI) end.
  - done.
  - intros j [k v] Hj HI.
    destruct (lookup_ordered_array_spec j (index h) Hwf) as (x & -> & Hx); [lia|]. rsimpl.
    fold c in Hx. eexists. split; [done|]. right.
    assert (0 < x) by (apply Hpos; by eapply list_elem_of_lookup_2).
    destruct HI as [[[= -> ->] ->]|(Hk & Hv & Hmax)]; cbn [fst snd] in *.
    + rewrite (proj2 (Z.ltb_lt 0 x)) by lia. split_and!; [simpl; lia..|done|]. simpl.
      intros i y Hi Hy. assert (i = 0%nat) as -> by lia. change (Z.to_nat 0) with 0%nat in Hx.
      assert (x = y) by congruence. lia.
    + assert (forall i y, (i < Z.to_nat (j + 1))%nat -> c !! i = Some y -> y <= v \/ y = x) as Hall.
      { intros i y Hi Hy. destruct (decide (i = Z.to_nat j)) as [->|];
          [right; congruence|left; apply (Hmax i y); [lia|done]]. }
      destruct (Z.ltb_spec v x); simpl; (split_and!; [lia..|done|]);
        intros i y Hi Hy; destruct (Hall i y Hi Hy); lia.
  - by left.
  - exists k, v. split; [done|]. cbn [fst snd] in HI.
    destruct HI as [[[= -> ->] Hz]|(Hk & Hv & Hmax)]; [left|right].
    + split_and!; [done..|]. apply nil_length_inv. lia.
    + split_and!; [lia..|done|]. intros y [i Hy]%list_elem_of_lookup.
      apply (Hmax i y); [|done]. apply lookup_lt_Some in Hy. lia.
Qed.

(** Every hole other than the last block ends below the end. *)
Lemma hole_not_last m a pre sz post :
  layout m a (pre ++ (true, sz) :: post) -> post <> [] ->
  hdr_size m (a + total pre) = sz /\
  a + total pre + sz + MIN_BLOCK <= a + total (pre ++ (true, sz) :: post).
Proof.
  intros Hl Hp. split; [by eapply (hole_size _ _ _ _ pre sz post)|].
  apply layout_app in Hl as [_ [_ Hl]]. rewrite total_app. simpl.
  destruct post as [|[f n] post]; [done|]. destruct Hl as [[Hb _] Hl].
  pose proof (layout_total_nonneg _ _ _ Hl). simpl in *. lia.
Qed.

(** Publishing a hole over [x, x + n), the last block of the arena. *)
Lemma heap_ok_tail m m' h i pre x n :
  heap_wf h -> layout m (start_address h) pre -> x = start_address h + total pre ->
  x + n = end_address h -> end_address h <= max_address h ->
  agree_outside x (x + n) m m' -> block_ok m' x (true, n) ->
  idx_ok m i (holes (start_address h) pre) ->
  OrderedArray.size i < max_size i ->
  exists i', insert_ordered_array m' x i = Ok i' /\
  heap_wf (set_index h i') /\ heap_ok m' (set_index h i') (pre ++ [(true, n)]) /\
  OrderedArray.size i' = OrderedArray.size i + 1 /\ oa_same i i'.
Proof.
  intros [? ? ? ? ?] Hl Hx Hend Hmax Hag Hb Hidx Hroom.
  pose proof (layout_total_nonneg _ _ _ Hl). assert (MIN_BLOCK <= n) as Hn by apply Hb.
  change MIN_BLOCK with 20 in Hn.
  assert (idx_ok m' i (holes (start_address h) pre)) as Hidx'.
  { eapply idx_ok_agree; [done|done|]. intros y Hy. left.
    pose proof (holes_bounds _ _ _ _ Hl Hy) as Hy'. change MIN_BLOCK with 20 in Hy'.
    unfold sizeof_header_t. lia. }
  destruct (idx_insert m' i _ x Hidx' Hroom) as (i2 & Hi2 & [Hwf2 Hlt2 Hh2 Hs2] & Hsz & Hsame).
  exists i2. split_and!; [done|by split| |done|done]. split; simpl; try done; [| |lia|].
  - apply layout_app. split; [|simpl; rewrite <- Hx; by split].
    eapply layout_agree; [|done]. eapply agree_outside_on; [done|]. left. lia.
  - rewrite total_app. simpl. lia.
  - rewrite Hh2, holes_app. simpl. by rewrite <- Hx, Permutation_app_comm.
Qed.


(** The hole [alloc] enlarges: the highest one, or none. *)
Lemma end_hole_spec h :
  oa_wf (index h) -> (forall y, y ∈ contents (index h) -> 0 < y) ->
  exists k v, endmost_hole h = Ok (k, v) /\
    (if negb (k =? u32 (-1)) then lookup_ordered_array k (index h) else Ok 0) = Ok v /\
    (v = 0 /\ contents (index h) = [] \/
     0 <= k /\ contents (index h) !! Z.to_nat k = Some v /\
     (forall y, y ∈ contents (index h) -> y <= v)).
Proof.
  intros Hwf Hpos. destruct (endmost_hole_spec h Hwf Hpos) as (k & v & -> & Hc).
  exists k, v. split; [done|]. change (u32 (-1)) with (2 ^ 32 - 1).
  destruct Hc as [(-> & -> & Hc)|(Hk & Hv & Hm)]; [split; [done|by left]|].
  pose proof (oa_bound _ Hwf). assert (OrderedArray.size (index h) <= max_size (index h)) by apply Hwf.
  rewrite (proj2 (Z.eqb_neq _ _)) by lia. simpl.
  destruct (lookup_ordered_array_spec k (index h)) as (y & -> & Hy); [done|lia|].
  split; [congruence|right; split_and!; [lia|done..]].
Qed.

(** The result of publishing [d] new bytes at the end of the arena. *)
Definition tail_published (d : Z) s (bl : list block) (r : res (hstate P)) : Prop :=
  let h := hheap s in
  exists m' i' pre bl', r = Ok (mk_hstate m' (set_index h i') (hpages s)) /\
    heap_wf (set_index h i') /\ heap_ok m' (set_index h i') bl' /\ grown d pre bl bl' /\
    agree_outside (start_address h + total pre) (end_address h) (hmem s) m' /\
    OrderedArray.size i' <= OrderedArray.size (index h) + 1 /\
    max_size i' = max_size (index h).

Lemma merge_tail_spec d s pre sz k :
  let h := hheap s in let m := hmem s in let x := start_address h + total pre in
  heap_wf h -> heap_ok m (set_end_address h (end_address h - d)) (pre ++ [(true, sz)]) ->
  0 < d -> end_address h <= max_address h -> OrderedArray.size (index h) <= max_size (index h) ->
  0 <= k -> contents (index h) !! Z.to_nat k = Some x ->
  tail_published d s (pre ++ [(true, sz)])
    (i ← remove_ordered_array k (index h);
     let m := set_hdr_size x (u32 (hdr_size m x + d)) m in
     let footer := u32 (x + hdr_size m x - sizeof_footer_t) in
     let m := set_ftr_header footer x m in
     let m := set_ftr_magic footer HEAP_MAGIC m in
     i ← insert_ordered_array m x i;
     Ok (with_heap s m (set_index h i))).
Proof.
  intros h m x Hwf [Hl Ht _ _ Hh Hs] Hd Hmax Hroom Hk Hkx. simpl in *.
  set (a := start_address h) in *. assert (x = a + total pre) as Ex by done.
  apply layout_app in Hl as [Hlp [Hb _]]. rewrite total_app in Ht. simpl in Ht.
  pose proof (layout_total_nonneg _ _ _ Hlp). fold x in Hb.
  pose proof (wf_start _ Hwf) as Hsr. fold a in Hsr. pose proof (wf_end _ Hwf) as Her.
  assert (idx_ok m (index h) (holes a (pre ++ [(true, sz)]))) as Hidx by (destruct Hwf; by split).
  destruct (idx_remove _ _ _ k x Hidx Hk Hkx) as (i0 & hs & -> & Hperm & Hidx0 & Hsz0 & Hsame0).
  destruct Hsame0 as (_ & Hcap0 & _). rsimpl.
  destruct Hb as (Hsz & Hmg & Hho & Hsize & Hfm & Hfh).
  cbn [fst snd] in Hsz, Hho, Hsize, Hfm, Hfh. change MIN_BLOCK with 20 in Hsz.
  rewrite Hsize, (u32_small (sz + d)) by lia. cbv zeta.
  assert (hdr_size (set_hdr_size x (sz + d) m) x = sz + d) as ->
    by (unfold_tags; mem_simpl; apply u32_small; lia).
  rewrite (u32_small (x + (sz + d) - sizeof_footer_t)) by (unfold sizeof_footer_t; lia).
  match goal with |- context [insert_ordered_array ?m1 x i0] => set (m' := m1) end.
  destruct (heap_ok_tail m m' h i0 pre x (sz + d)) as (i' & -> & Hwf' & Hok' & Hsz' & Hsame');
    [done|done|done|lia|done|unfold m'; unfold_tags; solve_agree| | |lia|].
  { unfold m'. revert Hho Hmg. unfold_tags. cbn [fst snd]. intros.
    repeat split; try lia; mem_simpl; u32_simpl; done. }
  { eapply idx_ok_perm; [done|]. apply (Permutation_cons_inv (a := x)).
    rewrite <- Hperm, holes_app. simpl. fold x. by rewrite Permutation_app_comm. }
  rsimpl. exists m', i', pre, (pre ++ [(true, sz + d)]).
  destruct Hsame' as (_ & Hcap' & _).
  fold h m. split_and!; [done..|constructor| |lia|congruence].
  fold a. rewrite <- Ex. replace (end_address h) with (x + (sz + d)) by lia.
  unfold m'. unfold_tags. solve_agree.
Qed.

Lemma new_tail_spec d s bl :
  let h := hheap s in let x := end_address h - d in
  heap_wf h -> heap_ok (hmem s) (set_end_address h x) bl ->
  MIN_BLOCK <= d -> end_address h <= max_address h ->
  OrderedArray.size (index h) < max_size (index h) ->
  (forall pre sz, bl <> pre ++ [(true, sz)]) ->
  tail_published d s bl
    (let m := set_hdr_magic x HEAP_MAGIC (hmem s) in
     let m := set_hdr_size x d m in
     let m := set_hdr_is_hole x 1 m in
     let footer := u32 (x + hdr_size m x - sizeof_footer_t) in
     let m := set_ftr_magic footer HEAP_MAGIC m in
     let m := set_ftr_header footer x m in
     i ← insert_ordered_array m x (index h);
     Ok (with_heap s m (set_index h i))).
Proof.
  intros h x Hwf [Hl Ht Hne _ Hh Hs] Hd Hmax Hroom Hnot. simpl in *.
  set (a := start_address h) in *. assert (x = end_address h - d) as Ex by done.
  change MIN_BLOCK with 20 in Hd. pose proof (layout_total_nonneg _ _ _ Hl).
  pose proof (wf_start _ Hwf) as Hsr. fold a in Hsr. pose proof (wf_end _ Hwf) as Her.
  match goal with |- context [hdr_size ?m1 x] => assert (hdr_size m1 x = d) as -> end.
  { unfold_tags. mem_simpl. apply u32_small. lia. }
  rewrite (u32_small (x + d - sizeof_footer_t)) by (unfold sizeof_footer_t; lia).
  match goal with |- context [insert_ordered_array ?m1 x _] => set (m' := m1) end.
  destruct (heap_ok_tail (hmem s) m' h (index h) bl x d) as (i' & -> & Hwf' & Hok' & Hsz' & Hsame');
    [done|done|lia|lia|done|unfold m'; unfold_tags; solve_agree|unfold m'; solve_block
    |destruct Hwf; by split|done|].
  rsimpl. exists m', i', bl, (bl ++ [(true, d)]). destruct Hsame' as (_ & Hcap' & _).
  fold h. split_and!; [done..|by constructor| |lia|congruence].
  fold a. replace (a + total bl) with x by lia. replace (end_address h) with (x + d) by lia.
  unfold m'. unfold_tags. solve_agree.
Qed.

Lemma last_hole_dec (bl : list block) :
  (exists pre sz, bl = pre ++ [(true, sz)]) \/ (forall pre sz, bl <> pre ++ [(true, sz)]).
Proof.
  destruct (list_eq_nil_dec bl) as [->|Hne]; [right; intros [] ?; done|].
  destruct (exists_last Hne) as (pre & [[] sz] & ->); [left; eauto|].
  right. intros ? ? [_ [=]]%app_inj_tail.
Qed.

Lemma add_expanded_tail_spec d s bl :
  let h := hheap s in let old := end_address h - d in let a := start_address h in
  heap_wf h -> heap_ok (hmem s) (set_end_address h old) bl ->
  MIN_BLOCK <= d -> end_address h <= max_address h ->
  OrderedArray.size (index h) < max_size (index h) ->
  tail_published d s bl (add_expanded_tail (old - a) old (old - a + d) s).
Proof.
  intros h old a Hwf Hok Hd Hmax Hroom. pose proof Hok as [Hl Ht _ _ Hh _]. simpl in *.
  assert (old = end_address h - d) as Eold by done.
  pose proof (wf_start _ Hwf). pose proof (wf_end _ Hwf).
  change MIN_BLOCK with 20 in Hd.
  assert (forall y, y ∈ contents (index h) -> a <= y <= old - 20) as Hin.
  { intros y Hy. rewrite Hh in Hy. pose proof (holes_bounds _ _ _ _ Hl Hy) as Hb.
    change MIN_BLOCK with 20 in Hb. fold a in Hb, Ht. lia. }
  assert (a = start_address h) as Ea by done. pose proof (layout_total_nonneg _ _ _ Hl).
  destruct (end_hole_spec h) as (k & v & Hem & Hlk & Hc);
    [apply Hwf|intros y Hy; apply Hin in Hy; lia|].
  unfold add_expanded_tail. fold h. rewrite Hem. rsimpl. rewrite Hlk. rsimpl.
  replace (old - a + d - (old - a)) with d by lia. rewrite (u32_small d) by lia.
  destruct (last_hole_dec bl) as [(pre & sz & ->)|Hnot].
  - (* the hole at the end is the highest one *)
    assert (Hl' := Hl). apply layout_app in Hl' as [Hlp [Hb _]]. fold a in Hlp, Hb, Hl, Hh.
    set (x := a + total pre) in *. assert (hdr_size (hmem s) x = sz) as Hsz by apply Hb.
    rewrite total_app in Ht. simpl in Ht.
    assert (x ∈ contents (index h)) as Hx.
    { rewrite Hh, holes_app, elem_of_app. right. by left. }
    assert (v = x /\ 0 <= k /\ contents (index h) !! Z.to_nat k = Some x) as (-> & Hk & Hkx).
    { destruct Hc as [[_ Hc]|(Hk & Hkv & Hm)]; [rewrite Hc in Hx; by apply elem_of_nil in Hx|].
      assert (v ∈ contents (index h)) as Hv by by eapply list_elem_of_lookup_2.
      pose proof (Hm x Hx). rewrite Hh, holes_app, elem_of_app in Hv.
      assert (v = x) as ->; [|by split_and!].
      destruct Hv as [Hv|Hv%list_elem_of_singleton]; [|done].
      eapply holes_bounds in Hv; [|done]. change MIN_BLOCK with 20 in Hv. lia. }
    pose proof (Hin x Hx).
    assert ((x =? 0) || negb (u32 (x + hdr_size (hmem s) x) =? old) = false) as ->.
    { rewrite Hsz, u32_small by lia. apply orb_false_iff. split; [lia|].
      apply negb_false_iff. lia. }
    apply (merge_tail_spec d s pre sz k); [exact Hwf|exact Hok|lia|exact Hmax|fold h; lia|exact Hk|exact Hkx].
  - (* the last block is allocated *)
    assert ((v =? 0) || negb (u32 (v + hdr_size (hmem s) v) =? old) = true) as ->.
    { destruct Hc as [[-> _]|(Hk & Hkv & _)]; [done|]. apply list_elem_of_lookup_2 in Hkv.
      pose proof (Hin v Hkv) as Hvb. rewrite Hh in Hkv.
      destruct (holes_split _ _ _ Hkv) as (pre & sz & post & -> & Hv).
      destruct (hole_not_last _ _ _ _ _ Hl) as [Hsz Hlt]; [intros ->; by eapply Hnot|].
      rewrite Hv, Hsz. rewrite (proj2 (Z.eqb_neq (u32 _) old)); [by destruct (_ =? 0)|].
      change MIN_BLOCK with 20 in Hlt. assert (20 <= sz).
      { apply layout_app in Hl as [_ [[Hb _] _]]. done. }
      rewrite u32_small by lia. lia. }
    by apply new_tail_spec.
Qed.

(** The pages of the arena above its minimal size are managed by the
    paging component, and [room] more bytes of them can be granted. *)
Definition backed (room : Z) s : Prop :=
  let h := hheap s in
  page_aligned h /\ HEAP_MIN_SIZE <= end_address h - start_address h /\
  end_address h + room <= max_address h /\
  exists lo hi n, pb_ready (hpages s) lo hi n /\ lo <= start_address h + HEAP_MIN_SIZE /\
    end_address h + room <= hi /\ room <= n * 0x1000.

Lemma backed_weaken room room' s : backed room s -> room' <= room -> backed room' s.
Proof.
  intros (? & ? & ? & lo & hi & n & ? & ? & ? & ?) Hr. split_and!; [done..|lia|].
  exists lo, hi, n. split_and!; [done|done|lia..].
Qed.

(** Only the descriptor's bounds and the pages matter. *)
Lemma backed_same room s s' :
  backed room s -> hpages s' = hpages s -> start_address (hheap s') = start_address (hheap s) ->
  end_address (hheap s') = end_address (hheap s) -> max_address (hheap s') = max_address (hheap s) ->
  backed room s'.
Proof. intros Hb H1 H2 H3 H4. unfold backed, page_aligned. by rewrite H1, H2, H3, H4. Qed.

Record grow_result (s s' : hstate P) (d room : Z) (pre bl bl' : list block) : Prop := {
  gr_wf : heap_wf (hheap s');
  gr_ok : heap_ok (hmem s') (hheap s') bl';
  gr_blocks : grown d pre bl bl';
  gr_start : start_address (hheap s') = start_address (hheap s);
  gr_end : end_address (hheap s') = end_address (hheap s) + d;
  gr_max : max_address (hheap s') = max_address (hheap s);
  gr_frame : agree_outside (start_address (hheap s) + total pre)
    (end_address (hheap s) + d) (hmem s) (hmem s');
  gr_index : OrderedArray.size (index (hheap s')) <= OrderedArray.size (index (hheap s)) + 1;
  gr_cap : max_size (index (hheap s')) = max_size (index (hheap s));
  gr_backed : backed room s'
}.

Lemma round_up_page_add a b : a `mod` 0x1000 = 0 -> round_up_page (a + b) = a + round_up_page b.
Proof.
  intros Ha. unfold round_up_page. pose proof (Z.div_mod a 0x1000 ltac:(lia)) as E.
  rewrite Ha in E. rewrite E at 1.
  replace (0x1000 * (a `div` 0x1000) + 0 + b + 0xFFF) with (b + 0xFFF + (a `div` 0x1000) * 0x1000) by lia.
  rewrite Z.div_add by lia. lia.
Qed.

Lemma heap_ok_end m m' h bl e :
  heap_ok m h bl -> agree_outside (end_address h) e m m' -> end_address h <= e ->
  e <= max_address h -> 
  heap_ok m' (set_end_address (set_end_address h e) (end_address h)) bl.
Proof.
  intros [Hl Ht Hne Hmax Hh Hs] Hag He Hm. split; simpl; try done.
  - eapply layout_agree; [|done]. eapply agree_outside_on; [done|]. lia.
  - eapply sorted_by_ext; [|done]. intros x y Hx Hy. unfold header_t_less_than.
    rewrite Hh in Hx, Hy. apply (holes_bounds _ _ _ _ Hl) in Hx, Hy.
    change MIN_BLOCK with 20 in *.
    by rewrite !(hdr_size_agree _ _ _ _ _ Hag) by (unfold sizeof_header_t; lia).
Qed.

Lemma grow_spec new_size room s bl :
  let h := hheap s in let d := round_up_page new_size in
  heap_wf h -> heap_ok (hmem s) h bl -> MIN_BLOCK < new_size < 2 ^ 32 ->
  0 <= room -> backed (d + room) s ->
  OrderedArray.size (index h) < max_size (index h) ->
  exists s' pre bl', grow new_size s = Ok s' /\ grow_result s s' d room pre bl bl'.
Proof.
  intros h d Hwf Hok Hns Hr0 ([Hal Hae] & Hmin & Hmax & lo & hi & n & Hready & Hlo & Hhi & Hn) Hroom.
  fold h in Hal, Hae, Hmin, Hmax, Hlo, Hhi. pose proof (ok_nonempty _ _ _ Hok) as Hne.
  pose proof (wf_start _ Hwf). pose proof (wf_end _ Hwf). pose proof (wf_max _ Hwf).
  destruct (round_up_page_spec new_size) as [Hdm Hdb]. fold d in Hdm, Hdb.
  assert (round_up_page (end_address h - start_address h + new_size)
          = end_address h - start_address h + d) as HR
    by (apply round_up_page_add; by apply mod_page_sub).
  change MIN_BLOCK with 20 in Hns. assert (HEAP_MIN_SIZE = 0x70000) as EM by done. set (len := end_address h - start_address h) in *.
  assert (len = end_address h - start_address h) as Elen by done.
  unfold grow. fold h. rewrite (u32_small (end_address h - start_address h)) by lia. fold len.
  rewrite ASSERT_ok by lia. rsimpl. rewrite (u32_small (len + new_size)) by lia.
  destruct (expand_spec (len + new_size) s lo hi n) as (m1 & p1 & -> & Hag1 & Hr1);
    fold h; rewrite ?HR; [done|by split|lia|fold len; lia|lia|done|lia|lia|lia|].
  rsimpl. cbn [hheap]. fold h. rewrite HR in Hag1, Hr1. fold h in Hag1, Hr1.
  replace (start_address h + (len + d)) with (end_address h + d) in * by lia.
  replace (end_address h + d - end_address h) with d in Hr1 by lia.
  set (s1 := mk_hstate m1 (set_end_address h (end_address h + d)) p1).
  assert (heap_ok m1 (set_end_address (hheap s1) (end_address h)) bl) as Hok1
    by (apply heap_ok_end with (m := hmem s); [done|done|lia|lia]).
  pose proof (add_expanded_tail_spec d s1 bl) as Hadd. cbn [s1 hheap hmem set_end_address
    end_address start_address index max_address] in Hadd.
  replace (end_address h + d - d) with (end_address h) in Hadd by lia. fold len in Hadd.
  cbn [set_end_address end_address start_address]. rewrite (u32_small (_ - _)) by lia.
  replace (end_address h + d - start_address h) with (len + d) by lia.
  destruct Hadd as (m2 & i2 & pre & bl' & -> & Hwf2 & Hok2 & Hgr & Hag2 & Hsz2 & Hcap2);
    [destruct Hwf; split; simpl; try done; lia|done|change MIN_BLOCK with 20; lia|lia|done|].
  cbn in Hwf2, Hok2, Hag2, Hsz2, Hcap2.
  exists (mk_hstate m2 (set_index (hheap s1) i2) (hpages s1)), pre, bl'. split; [done|].
  assert (start_address h + total pre <= end_address h) as Hpre.
  { pose proof (ok_total _ _ _ Hok) as Ht. inversion Hgr; subst; rewrite ?total_app in *; simpl in *; [lia|].
    pose proof (ok_layout _ _ _ Hok) as Hl. apply layout_app in Hl as [_ [[Hb _] _]].
    change MIN_BLOCK with 20 in Hb. simpl in Hb. lia. }
  split; simpl; fold h; try done.
  - eapply agree_outside_trans; [|exact Hag2]. eapply agree_outside_weaken; [exact Hag1|lia..].
  - split; [split; simpl; [done|by apply mod_page_add]|]. split; [simpl; fold h; lia|].
    split; [simpl; fold h; lia|].
    exists lo, hi, (n - d `div` 0x1000). pose proof (Z.div_mod d 0x1000 ltac:(lia)).
    split_and!; simpl; fold h; [done|lia..].
Qed.
End growth.

(** ** The contract of [alloc]

    At the level of payloads: [alloc] returns a fresh payload of at least
    the requested size, keeps every other payload and its bytes, and leaves
    a well-formed heap.  A request needs at most three growths, so [alloc]
    with fuel 4 returns.  [coalesced] is the invariant that no two holes are
    adjacent. *)

(** ** No two adjacent holes *)

Fixpoint coalesced_from (prev : bool) (bl : list block) : bool :=
  match bl with
  | [] => true
  | b :: bl => negb (prev && b.1) && coalesced_from b.1 bl
  end.
Definition coalesced (bl : list block) : bool := coalesced_from false bl.

Definition last_is_hole (prev : bool) (bl : list block) : bool :=
  foldl (fun _ b => b.1) prev bl.

Lemma coalesced_app p bl1 bl2 :
  coalesced_from p (bl1 ++ bl2) =
  coalesced_from p bl1 && coalesced_from (last_is_hole p bl1) bl2.
Proof.
  revert p. induction bl1 as [|b bl1 IH]; intros p; simpl; [done|].
  rewrite IH. by rewrite andb_assoc.
Qed.

Lemma coalesced_weaken p bl : coalesced_from p bl = true -> coalesced_from false bl = true.
Proof. destruct bl as [|b bl]; simpl; [done|]. by intros [_ ->]%andb_true_iff. Qed.

Lemma last_is_hole_snoc p bl b : last_is_hole p (bl ++ [b]) = b.1.
Proof. unfold last_is_hole. by rewrite foldl_app. Qed.

(** Carving an allocation out of a hole never creates two adjacent holes. *)
Lemma coalesced_carve pre h lead n trail post :
  (lead = [] \/ exists k, lead = [(true, k)]) -> (trail = [] \/ exists k, trail = [(true, k)]) ->
  coalesced (pre ++ [(true, h)] ++ post) = true ->
  coalesced (pre ++ (lead ++ (false, n) :: trail) ++ post) = true.
Proof.
  unfold coalesced. rewrite !coalesced_app. simpl.
  intros Hlead Htrail [Hpre [[Hn _]%andb_true_iff Hpost]%andb_true_iff]%andb_true_iff.
  rewrite andb_true_r in Hn. rewrite Hpre. destruct (last_is_hole false pre); [done|].
  assert (coalesced_from false post = true) by by eapply coalesced_weaken.
  by destruct Hlead as [->|[k ->]], Htrail as [->|[k' ->]].
Qed.

Lemma coalesced_grown d pre bl bl' : grown d pre bl bl' -> coalesced bl = coalesced bl'.
Proof.
  unfold coalesced. intros [Hn|sz]; rewrite ?coalesced_app; [|done].
  destruct (last_hole_dec pre) as [(q & sz & ->)|_]; [by destruct (Hn q sz)|].
  simpl. enough (last_is_hole false pre = false) as -> by by rewrite andb_true_r.
  destruct (list_eq_nil_dec pre) as [->|Hne]; [done|].
  destruct (exists_last Hne) as (q & [[] sz] & ->); [by destruct (Hn q sz)|].
  by rewrite last_is_hole_snoc.
Qed.

(** ** Payloads *)

(** The bytes of every payload are untouched. *)
Definition payloads_kept (a : Z) (bl : list block) (m m' : mem) : Prop :=
  forall p n, (p, n) ∈ allocated a bl -> agree_on p (p + n) m m'.

Lemma allocated_range m a bl p n :
  layout m a bl -> (p, n) ∈ allocated a bl -> a + 12 <= p /\ 0 <= n /\ p + n + 8 <= a + total bl.
Proof.
  intros Hl Hp. destruct (allocated_split _ _ _ _ Hp) as (l1 & l2 & -> & ->).
  apply layout_app in Hl as [H1 [[Hb _] H2]].
  pose proof (layout_total_nonneg _ _ _ H1). pose proof (layout_total_nonneg _ _ _ H2).
  rewrite total_app. simpl in *. change MIN_BLOCK with 20 in *. unfold sizeof_header_t. lia.
Qed.

Lemma payloads_kept_region m m' a pre old post :
  layout m a (pre ++ old ++ post) -> allocated (a + total pre) old = [] ->
  agree_outside (a + total pre) (a + total pre + total old) m m' ->
  payloads_kept a (pre ++ old ++ post) m m'.
Proof.
  intros (Hpre & Hold & Hpost)%layout_app3 Hal Hag p n Hp.
  rewrite !allocated_app, Hal in Hp. simpl in Hp.
  eapply agree_outside_on; [exact Hag|]. apply elem_of_app in Hp as [Hp|Hp].
  - apply (allocated_range _ _ _ _ _ Hpre) in Hp. lia.
  - apply (allocated_range _ _ _ _ _ Hpost) in Hp. lia.
Qed.

Lemma payloads_kept_above m m' a pre old e :
  layout m a (pre ++ old) -> allocated (a + total pre) old = [] ->
  agree_outside (a + total pre) e m m' -> payloads_kept a (pre ++ old) m m'.
Proof.
  intros [Hpre _]%layout_app Hal Hag p n Hp.
  rewrite allocated_app, Hal, app_nil_r in Hp.
  eapply agree_outside_on; [exact Hag|]. apply (allocated_range _ _ _ _ _ Hpre) in Hp. lia.
Qed.

(** The hole at the end of the arena, 0 when the last block is in use. *)
Definition tail_size (bl : list block) : Z :=
  match last bl with Some (true, sz) => sz | _ => 0 end.

Lemma tail_size_snoc bl sz : tail_size (bl ++ [(true, sz)]) = sz.
Proof. unfold tail_size. by rewrite last_snoc. Qed.

Lemma grown_tail_size d pre bl bl' : grown d pre bl bl' -> tail_size bl' = tail_size bl + d.
Proof.
  intros [Hn|sz]; rewrite ?tail_size_snoc; [|done].
  unfold tail_size. destruct (last pre) as [[[] sz]|] eqn:E; try lia.
  apply last_Some in E as [q ->]. by destruct (Hn q sz).
Qed.

Lemma grown_allocated d pre bl bl' a : grown d pre bl bl' -> allocated a bl' = allocated a bl.
Proof. intros [_|sz]; rewrite !allocated_app; simpl; by rewrite ?app_nil_r. Qed.

Section contract.
Context {P : Type} `{!PageBacking P} `{!PageBackingLaws P}.
Implicit Types s : hstate P.

(** The hole index has at most [k] more entries. *)
Definition index_grown (k : Z) s s' : Prop :=
  OrderedArray.size (index (hheap s')) <= OrderedArray.size (index (hheap s)) + k /\
  max_size (index (hheap s')) = max_size (index (hheap s)).

(** What a caller of [alloc] may rely on. *)
Record alloc_post (room : Z) (s s' : hstate P) (bl bl' : list block) (size page_align p : Z) : Prop := {
  ap_wf : heap_wf (hheap s');
  ap_ok : heap_ok (hmem s') (hheap s') bl';
  ap_start : start_address (hheap s') = start_address (hheap s);
  ap_max : max_address (hheap s') = max_address (hheap s);
  ap_end : end_address (hheap s) <= end_address (hheap s');
  ap_payloads : exists n, size <= n /\
    allocated (start_address (hheap s)) bl' ≡ₚ (p, n) :: allocated (start_address (hheap s)) bl;
  ap_kept : payloads_kept (start_address (hheap s)) bl (hmem s) (hmem s');
  ap_backed : backed room s';
  ap_aligned : 0 < page_align -> p `mod` 0x1000 = 0;
  ap_coalesced : coalesced bl = true -> coalesced bl' = true
}.

Lemma alloc_result_post room s s' bl bl' size page_align p :
  heap_ok (hmem s) (hheap s) bl -> backed room s ->
  alloc_result s s' bl bl' size page_align p -> alloc_post room s s' bl bl' size page_align p.
Proof.
  intros Hok Hback [Hwf' Hok' Hst He Hmax _ _ Hpg Hblocks Hal].
  destruct Hblocks as (pre & hsz & post & lead & n & trail & -> & -> & Hlead & Htrail & Htot & Hp & Hn & Hag).
  split; try done; [lia| | | |].
  - exists n. split; [done|]. rewrite !allocated_app, Htot. simpl. rewrite Z.add_0_r.
    replace (start_address (hheap s) + total pre + total lead + sizeof_header_t) with p by lia.
    replace (n + MIN_BLOCK - MIN_BLOCK) with n by lia.
    destruct Hlead as [->|[k ->]], Htrail as [->|[k' ->]]; simpl; by rewrite Permutation_middle.
  - apply payloads_kept_region; [apply Hok|done|]. simpl. by rewrite Z.add_0_r.
  - by eapply backed_same.
  - by apply coalesced_carve.
Qed.

Lemma grow_then_post room s s1 s' d room' pre bl bl1 bl' size page_align p :
  heap_ok (hmem s) (hheap s) bl -> 0 <= d ->
  grow_result s s1 d room' pre bl bl1 -> alloc_post room s1 s' bl1 bl' size page_align p ->
  alloc_post room s s' bl bl' size page_align p.
Proof.
  intros Hok Hd [_ _ Hgr Hst He Hmax Hag _ _ _] [? ? Hst' Hm' He' Hpl Hkept ? ? Hco].
  rewrite Hst in *. rewrite (grown_allocated _ _ _ _ _ Hgr) in Hpl.
  split; try done; [lia|lia| |by rewrite (coalesced_grown _ _ _ _ Hgr)].
  intros q k Hq x Hx. rewrite (Hkept q k); [|by rewrite (grown_allocated _ _ _ _ _ Hgr)|done].
  pose proof (ok_layout _ _ _ Hok) as Hl.
  enough (payloads_kept (start_address (hheap s)) bl (hmem s) (hmem s1)) as Hk by by apply (Hk q k).
  destruct Hgr as [_|sz]; [rewrite <- (app_nil_r pre) in Hl |- *|]; by eapply payloads_kept_above.
Qed.

(** A large hole at the end fits any alignment. *)
Lemma tail_fits m h bl new_size page_align :
  heap_wf h -> heap_ok m h bl -> 0 < new_size ->
  new_size + 0x1000 + MIN_BLOCK <= tail_size bl ->
  exists x, x ∈ contents (index h) /\ fits m new_size page_align x.
Proof.
  intros Hwf Hok Hns Hts. unfold tail_size in Hts. change MIN_BLOCK with 20 in Hts.
  destruct (last bl) as [[[] sz]|] eqn:E; [|lia..]. apply last_Some in E as [pre ->].
  exists (start_address h + total pre).
  assert (start_address h + total pre ∈ holes (start_address h) (pre ++ [(true, sz)])) as Hin.
  { rewrite holes_app, elem_of_app. right. by left. }
  split; [by rewrite (ok_holes _ _ _ Hok)|]. unfold fits.
  pose proof (ok_layout _ _ _ Hok) as Hl. pose proof (holes_bounds _ _ _ _ Hl Hin) as Hb.
  pose proof (ok_total _ _ _ Hok). destruct Hwf as [? ? _ _ _]. change MIN_BLOCK with 20 in Hb.
  rewrite (hole_size _ _ _ _ pre sz [] Hl eq_refl eq_refl). unfold lead_of.
  destruct (0 <? page_align); [|lia].
  destruct (page_alignment_offset_spec (start_address h + total pre)) as (_ & _ & Ho);
    [lia|unfold sizeof_header_t; lia|]. change MIN_BLOCK with 20 in Ho. lia.
Qed.

(** [k] more growths are enough. *)
Lemma alloc_rounds room k size page_align s bl :
  let d := round_up_page (size + MIN_BLOCK) in
  heap_wf (hheap s) -> heap_ok (hmem s) (hheap s) bl ->
  0 < size -> size + MIN_BLOCK < 2 ^ 32 -> 0 <= page_align ->
  backed (Z.of_nat k * d + room) s -> 0 <= room ->
  size + MIN_BLOCK + 0x1000 + MIN_BLOCK <= tail_size bl + Z.of_nat k * d ->
  OrderedArray.size (index (hheap s)) + Z.of_nat k < max_size (index (hheap s)) ->
  exists p s' bl', alloc (1 + k) size page_align s = Ok (p, s') /\
    alloc_post room s s' bl bl' size page_align p /\
    index_grown (Z.of_nat k + 1) s s'.
Proof.
  intros d. revert s bl. induction k as [k IH] using lt_wf_ind. 
  intros s bl Hwf Hok Hsize Hns Hal Hgrow Hroom0 Htail Hroom. change MIN_BLOCK with 20 in *.
  destruct (round_up_page_spec (size + 20)) as [_ Hdb]. fold d in Hdb.
  cbn [Nat.add alloc]. rewrite !ASSERT_ok by (unfold sizeof_header_t, sizeof_footer_t; lia). rsimpl.
  rewrite (heap_validate_ok _ _ _ Hwf Hok). rsimpl.
  replace (size + sizeof_header_t + sizeof_footer_t) with (size + 20)
    by (unfold sizeof_header_t, sizeof_footer_t; lia).
  rewrite (u32_small (size + 20)) by lia.
  destruct (find_smallest_hole_spec _ _ bl (size + 20) page_align Hwf Hok) as (it & -> & Hit); [lia|].
  rsimpl. destruct Hit as [[-> Hnone]|(x & Hit & Hx & Hfit & _)].
  - simpl Z.eqb. cbv iota. destruct k as [|k].
    { destruct (tail_fits _ _ _ (size + 20) page_align Hwf Hok) as (x & Hx & Hf); [lia| |].
      - change MIN_BLOCK with 20. lia.
      - by destruct (Hnone x Hx). }
    destruct (grow_spec (size + 20) (Z.of_nat k * d + room) s bl) as (s1 & pre & bl1 & -> & Hg);
      [done..|change MIN_BLOCK with 20; lia|nia| |lia|].
    { fold d. by replace (d + (Z.of_nat k * d + room)) with (Z.of_nat (S k) * d + room) by lia. }
    fold d in Hg. pose proof (grown_tail_size _ _ _ _ (gr_blocks _ _ _ _ _ _ _ Hg)) as Hts.
    rsimpl. destruct (IH k ltac:(lia) s1 bl1) as (p & s' & bl' & Hrun & Hpost & Hidx);
      [apply Hg|apply Hg|done|done|done|apply Hg|done|lia| |].
    { pose proof (gr_index _ _ _ _ _ _ _ Hg). pose proof (gr_cap _ _ _ _ _ _ _ Hg). lia. }
    exists p, s', bl'. split; [exact Hrun|]. split; [eapply grow_then_post; [done| |done..]; lia|].
    destruct Hidx as [Hi1 Hi2]. pose proof (gr_index _ _ _ _ _ _ _ Hg).
    pose proof (gr_cap _ _ _ _ _ _ _ Hg). split; [lia|congruence].
  - rewrite (proj2 (Z.eqb_neq it (-1))) by lia.
    destruct (allocate_at_spec size page_align it x s bl Hwf Hok Hsize Hal Hit Hx Hfit)
      as (p & s' & bl' & Hr & Hpost); [lia|].
    exists p, s', bl'. split; [done|]. split; [apply alloc_result_post; [done| |done]; eapply backed_weaken; [done|]; nia|].
    pose proof (ar_index _ _ _ _ _ _ _ Hpost). split; [lia|by apply Hpost].
Qed.

(** Three growths are always enough: [d] is a whole number of pages and at
    least the new size. *)
Lemma alloc_correct room size page_align s bl :
  heap_wf (hheap s) -> heap_ok (hmem s) (hheap s) bl ->
  0 < size -> size + MIN_BLOCK < 2 ^ 32 -> 0 <= page_align ->
  backed (3 * round_up_page (size + MIN_BLOCK) + room) s -> 0 <= room ->
  OrderedArray.size (index (hheap s)) + 3 < max_size (index (hheap s)) ->
  exists p s' bl', alloc 4 size page_align s = Ok (p, s') /\
    alloc_post room s s' bl bl' size page_align p /\ index_grown 4 s s'.
Proof.
  intros Hwf Hok Hsize Hns Hal Hgrow Hroom0 Hroom. apply (alloc_rounds room 3); try done.
  change MIN_BLOCK with 20 in *. change (Z.of_nat 3) with 3.
  destruct (round_up_page_spec (size + 20)) as [Hm Hdb].
  pose proof (Z.div_mod (round_up_page (size + 20)) 0x1000 ltac:(lia)).
  assert (0 <= tail_size bl); [|lia].
  unfold tail_size. destruct (last bl) as [[[] sz]|] eqn:E; [|lia..].
  apply last_Some in E as [pre ->]. pose proof (ok_layout _ _ _ Hok) as Hl.
  apply layout_app in Hl as [_ [[Hb _] _]]. change MIN_BLOCK with 20 in Hb. simpl in Hb. lia.
Qed.
End contract.
