(* ===== verification/HeapFree.v ===== *)
(** * The contract of [free]

    Freeing a payload turns its block into a hole, merges it with a hole on
    either side and gives trailing pages back.  [open_hole] describes the
    intermediate states: the new hole is in memory but not yet indexed. *)

From S2P Require Import Prelude Memory OrderedArray KHeap HeapInv HeapAlloc HeapContract.

(** A heap whose block [pre ++ [N]] is a hole that the index misses. *)
Record open_hole (m : mem) (h : heap_t) (i : ordered_array_t mem)
    (pre : list block) (N : Z) (post : list block) : Prop := {
  oh_layout : layout m (start_address h) (pre ++ [(true, N)] ++ post);
  oh_total : start_address h + total pre + N + total post = end_address h;
  oh_index : idx_ok m i (holes (start_address h) pre ++
                         holes (start_address h + total pre + N) post)
}.

(** The size of the hole that starts a block list, and what follows it. *)
Definition head_size (bl : list block) : Z :=
  match bl with (true, sz) :: _ => sz | _ => 0 end.
Definition drop_head_hole (bl : list block) : list block :=
  match bl with (true, _) :: bl => bl | _ => bl end.
Definition drop_tail_hole (bl : list block) : list block :=
  match last bl with Some (true, _) => removelast bl | _ => bl end.

(** Publishing the open hole closes the heap again. *)
Lemma open_hole_close m h i pre N post :
  heap_wf h -> open_hole m h i pre N post -> end_address h <= max_address h ->
  OrderedArray.size i < max_size i ->
  exists i', insert_ordered_array m (start_address h + total pre) i = Ok i' /\
    heap_wf (set_index h i') /\ heap_ok m (set_index h i') (pre ++ [(true, N)] ++ post) /\
    OrderedArray.size i' = OrderedArray.size i + 1 /\ max_size i' = max_size i.
Proof.
  intros [? ? ? ? ?] [Hl Ht Hidx] Hmax Hroom.
  destruct (idx_insert _ _ _ (start_address h + total pre) Hidx Hroom)
    as (i' & -> & [Hwf' Hlt' Hh' Hs'] & Hsz & (_ & Hcap & _)).
  exists i'. split_and!; [done|by split| |done|done]. split; simpl; try done.
  - rewrite total_app. simpl. lia.
  - pose proof (proj1 (layout_app3 _ _ _ _ _) Hl) as (H1 & [[Hb _] _] & H3).
    pose proof (layout_total_nonneg _ _ _ H1). pose proof (layout_total_nonneg _ _ _ H3).
    change MIN_BLOCK with 20 in Hb. simpl in Hb. lia.
  - rewrite Hh', !holes_app. simpl. by rewrite Permutation_middle.
Qed.

Lemma find_in_index_spec x (i : ordered_array_t mem) :
  oa_wf i -> x ∈ contents i ->
  exists k, find_in_index x i = Ok k /\ 0 <= k < OrderedArray.size i /\
    contents i !! Z.to_nat k = Some x.
Proof.
  intros Hwf [n Hn]%list_elem_of_lookup. pose proof (oa_bound _ Hwf) as Hb.
  pose proof (lookup_lt_Some _ _ _ Hn) as Hlt. rewrite contents_length in Hlt by done.
  assert (OrderedArray.size i <= max_size i) by apply Hwf.
  unfold find_in_index.
  match goal with |- context [while ?f 0] =>
    destruct (while_rule f (fun k => 0 <= k <= Z.of_nat n)
      (fun k => 0 <= k < OrderedArray.size i /\ contents i !! Z.to_nat k = Some x)
      (fun k => OrderedArray.size i - k) 0) as (k & Hk & HQ) end.
  - intros k Hk. rewrite (proj2 (Z.ltb_lt _ _)) by lia.
    destruct (lookup_ordered_array_spec k i Hwf) as (y & -> & Hy); [lia|]. rsimpl.
    destruct (Z.eqb_spec y x) as [->|Hne]; simpl; [by split; [lia|]|].
    rewrite u32_small by lia. assert (k <> Z.of_nat n); [|lia].
    intros ->. rewrite Nat2Z.id in Hy. congruence.
  - lia.
  - lia.
  - exists k. by split.
Qed.

(** Both views of the left neighbour. *)
Lemma left_cases (pre : list block) :
  (exists q l, pre = q ++ [(true, l)] /\ tail_size pre = l /\ drop_tail_hole pre = q) \/
  tail_size pre = 0 /\ drop_tail_hole pre = pre /\ (pre = [] \/ exists q l, pre = q ++ [(false, l)]).
Proof.
  destruct (list_eq_nil_dec pre) as [->|Hne]; [right; by auto|].
  destruct (exists_last Hne) as (q & [[] l] & ->).
  - left. exists q, l. unfold tail_size, drop_tail_hole. rewrite last_snoc. by rewrite removelast_last.
  - right. unfold tail_size, drop_tail_hole. rewrite last_snoc. split_and!; [done..|]. right; eauto.
Qed.

Section coalesce.
Implicit Types (m : mem) (h : heap_t).

(** Two adjacent holes become one once the outer tags say so. *)
Lemma open_merge m m' h i q l N post :
  let y := start_address h + total q in
  layout m (start_address h) (q ++ [(true, l); (true, N)] ++ post) ->
  y + l + N + total post = end_address h ->
  agree_outside y (y + l + N) m m' -> block_ok m' y (true, l + N) ->
  idx_ok m i (holes (start_address h) q ++ holes (y + l + N) post) ->
  open_hole m' h i q (l + N) post.
Proof.
  intros y Hl Ht Hag Hb Hidx.
  assert (total [(true, l); (true, N)] = l + N) as E by (simpl; lia).
  assert (start_address h + total q + (l + N) = y + l + N) as E2 by (unfold y; lia).
  split; rewrite ?E2; [|lia|].
  - eapply layout_replace; [exact Hl|simpl; lia| |by split]. fold y. rewrite E.
    by replace (y + (l + N)) with (y + l + N) by lia.
  - eapply idx_ok_agree; [done|done|].
    pose proof (holes_outside _ _ _ _ _ Hl) as Ho. rewrite E in Ho. fold y in Ho.
    by replace (y + (l + N)) with (y + l + N) in Ho by lia.
Qed.

Lemma coalesce_left_spec m h pre N post :
  let x := start_address h + total pre in let L := tail_size pre in
  heap_wf h -> open_hole m h (index h) pre N post ->
  exists m' i', coalesce_left x (x + N - sizeof_footer_t) m h = Ok (m', i', x - L) /\
    open_hole m' h i' (drop_tail_hole pre) (L + N) post /\
    total (drop_tail_hole pre) = total pre - L /\ 0 <= L /\
    agree_outside (x - L) (x + N) m m' /\
    OrderedArray.size i' <= OrderedArray.size (index h) /\ max_size i' = max_size (index h).
Proof.
  intros x L Hwf Hopen. pose proof Hopen as [Hl Ht Hidx]. set (a := start_address h) in *.
  pose proof (proj1 (layout_app3 _ _ _ _ _) Hl) as (Hlp & [Hb _] & Hpost).
  pose proof (layout_total_nonneg _ _ _ Hlp). pose proof (layout_total_nonneg _ _ _ Hpost).
  pose proof (wf_start _ Hwf) as Hsr. fold a in Hsr. pose proof (wf_end _ Hwf) as Her.
  fold x in Hb, Hidx, Ht. assert (x = a + total pre) as Ex by done.
  destruct Hb as (HN & HNm & _ & HNs & HNfm & _). cbn [snd] in *.
  change MIN_BLOCK with 20 in HN. unfold sizeof_footer_t in *.
  unfold coalesce_left. fold a. unfold sizeof_footer_t.
  destruct (left_cases pre) as [(q & l & -> & Hts & Hdt)|(Hts & Hdt & Hpre)];
    fold L in Hts; rewrite Hts in *; rewrite Hdt.
  - (* a hole on the left *)
    rewrite total_app in Ex. simpl in Ex.
    rewrite <- app_assoc in Hl. apply layout_app in Hlp as [Hlq [Hbl _]].
    pose proof (layout_total_nonneg _ _ _ Hlq).
    destruct Hbl as (Hlmin & Hlm & Hlhole & Hlsize & Hlmag & Hlhdr).
    cbn [fst snd] in *. change MIN_BLOCK with 20 in Hlmin. unfold sizeof_footer_t in *.
    set (y := a + total q) in *. assert (y = a + total q) as Ey by done.
    replace (y + l - 8) with (x - 8) in * by lia.
    rewrite (u32_small (x - 8)), Hlmag, Hlhdr, Hlhole by lia.
    rewrite (proj2 (Z.ltb_lt a x)) by lia. simpl andb. cbv iota.
    assert (y ∈ contents (index h)) as Hy.
    { rewrite (idx_holes _ _ _ Hidx), holes_app, !elem_of_app. left. right. by left. }
    destruct (find_in_index_spec y (index h)) as (k & -> & Hk & Hky); [apply Hwf|done|].
    rsimpl. rewrite ASSERT_ok by lia. rsimpl.
    destruct (idx_remove _ _ _ k y Hidx ltac:(lia) Hky) as (i1 & hs & -> & Hperm & Hidx1 & Hsz1 & (_ & Hcap1 & _)).
    rsimpl. rewrite holes_app in Hperm. simpl in Hperm. fold y in Hperm.
    rewrite <- app_assoc in Hperm. simpl in Hperm.
    rewrite <- Permutation_middle in Hperm. apply Permutation_cons_inv in Hperm.
    rewrite <- Hperm in Hidx1.
    assert (hdr_size (set_ftr_header (x + N - 8) y m) y = l) as ->
      by (rewrite <- Hlsize; unfold_tags; by mem_simpl).
    rewrite HNs, (u32_small (l + N)) by lia.
    match goal with |- context [Ok (?m1, i1, y)] => set (m' := m1) end.
    assert (agree_outside y (x + N) m m') as Hag by (unfold m'; unfold_tags; solve_agree).
    exists m', i1. replace (x - l) with y by lia.
    split_and!; [done| |rewrite total_app; simpl; lia|lia|done|lia|done].
    replace (x + N) with (y + l + N) in * by lia.
    apply (open_merge m); fold a y; [exact Hl|lia|exact Hag| |exact Hidx1].
    unfold m'. revert Hlm HNfm Hlhole. unfold_tags. cbn [fst snd]. intros.
    replace (y + (l + N) - 8) with (y + l + N - 8) by lia.
    replace (x + N - 8) with (y + l + N - 8) by lia.
    repeat split; try lia; mem_simpl; u32_simpl; done.
  - (* none: the arena starts here or the neighbour is in use *)
    exists m, (index h). rewrite Z.sub_0_r. simpl Z.add.
    assert ((a <? x) && (ftr_magic m (u32 (x - 8)) =? HEAP_MAGIC) &&
            (hdr_is_hole m (ftr_header m (u32 (x - 8))) =? 1) = false) as ->.
    { destruct Hpre as [->|(q & l & ->)].
      - simpl in Ex. by rewrite (proj2 (Z.ltb_ge _ _)) by lia.
      - rewrite total_app in Ex. simpl in Ex. apply layout_app in Hlp as [Hlq [Hbl _]].
        pose proof (layout_total_nonneg _ _ _ Hlq).
        destruct Hbl as (Hlmin & _ & Hlhole & _ & _ & Hlhdr). cbn [fst snd] in *.
        change MIN_BLOCK with 20 in Hlmin. unfold sizeof_footer_t in *.
        replace (a + total q + l - 8) with (x - 8) in * by lia.
        rewrite (u32_small (x - 8)), Hlhdr, Hlhole by lia. by rewrite andb_false_r. }
    split_and!; try done; try lia; apply agree_outside_refl.
Qed.

Lemma coalesce_right_spec m h i pre N post :
  let x := start_address h + total pre in let R := head_size post in
  heap_wf h -> open_hole m h i pre N post ->
  exists m' i', coalesce_right x (x + N - sizeof_footer_t) m h i =
      Ok (m', i', x + N + R - sizeof_footer_t) /\
    open_hole m' h i' pre (N + R) (drop_head_hole post) /\ 0 <= R /\
    total post = R + total (drop_head_hole post) /\
    agree_outside x (x + N + R) m m' /\
    OrderedArray.size i' <= OrderedArray.size i /\ max_size i' = max_size i.
Proof.
  intros x R Hwf Hopen. pose proof Hopen as [Hl Ht Hidx]. set (a := start_address h) in *.
  pose proof (proj1 (layout_app3 _ _ _ _ _) Hl) as (Hlp & [Hb _] & Hpost).
  pose proof (layout_total_nonneg _ _ _ Hlp).
  pose proof (wf_start _ Hwf) as Hsr. fold a in Hsr. pose proof (wf_end _ Hwf) as Her.
  fold x in Hb, Hidx, Ht, Hpost. assert (x = a + total pre) as Ex by done.
  destruct Hb as (HN & HNm & HNh & HNs & HNfm & _). cbn [fst snd] in *.
  change MIN_BLOCK with 20 in HN. simpl in Hpost. rewrite Z.add_0_r in Hpost.
  unfold coalesce_right. unfold sizeof_footer_t in *.
  pose proof (layout_total_nonneg _ _ _ Hpost).
  replace (x + N - 8 + 8) with (x + N) by lia. rewrite (u32_small (x + N)) by lia.
  destruct post as [|[f r] post]; [|destruct Hpost as [(Hr & Hrm & Hrh & Hrs & Hrf & _) Hpost];
    cbn [fst snd] in *; change MIN_BLOCK with 20 in Hr; pose proof (layout_total_nonneg _ _ _ Hpost);
    simpl in Ht, Hidx |- *; rewrite (proj2 (Z.ltb_lt (x + N) _)), Hrm, Hrh by lia;
    unfold sizeof_footer_t in Hrf; destruct f].
  - (* the hole ends the arena *)
    simpl in *. rewrite (proj2 (Z.ltb_ge (x + N) _)) by lia. simpl.
    exists m, i. unfold R. simpl. rewrite !Z.add_0_r.
    split_and!; [done..|lia|lia|apply agree_outside_refl|lia|done].
  - (* a hole on the right *)
    set (z := x + N) in *. assert (z = x + N) as Ez by done. unfold R. simpl.
    rewrite HNs, Hrs, (u32_small (N + r)) by lia.
    assert (hdr_size (set_hdr_size x (N + r) m) z = r) as -> by (rewrite <- Hrs; unfold_tags; by mem_simpl).
    rewrite (u32_small (z + r - 8)) by lia.
    assert (z ∈ contents i) as Hz.
    { rewrite (idx_holes _ _ _ Hidx), elem_of_app. right. by left. }
    destruct (find_in_index_spec z i) as (k & -> & Hk & Hkz); [apply Hidx|done|].
    rsimpl. rewrite ASSERT_ok by lia. rsimpl.
    destruct (idx_remove _ _ _ k z Hidx ltac:(lia) Hkz) as (i1 & hs & -> & Hperm & Hidx1 & Hsz1 & (_ & Hcap1 & _)).
    rsimpl. cbn [app] in Hperm, Hidx. rewrite <- Permutation_middle in Hperm. apply Permutation_cons_inv in Hperm.
    rewrite <- Hperm in Hidx1.
    match goal with |- context [Ok (?m1, i1, _)] => set (m' := m1) end.
    assert (agree_outside x (z + r) m m') as Hag by (unfold m'; unfold_tags; solve_agree).
    exists m', i1. split_and!; [done| |lia|lia|done|lia|done].
    apply (open_merge m); fold a x z; [exact Hl|lia|exact Hag| |exact Hidx1].
    unfold m'. revert HNm HNh Hrf. unfold_tags. cbn [fst snd]. intros.
    replace (x + (N + r) - 8) with (z + r - 8) by lia.
    repeat split; try lia; mem_simpl; u32_simpl; done.
  - (* the neighbour is in use *)
    simpl. exists m, i. unfold R. simpl. rewrite !Z.add_0_r.
    split_and!; [done..|lia|lia|apply agree_outside_refl|lia|done].
Qed.
End coalesce.

(** ** Giving pages back *)

(** The length of the arena once [contract] kept [x] bytes. *)
Definition kept_length (x : Z) : Z := Z.max (round_up_page x) HEAP_MIN_SIZE.

Lemma kept_length_spec x :
  x <= kept_length x /\ HEAP_MIN_SIZE <= kept_length x /\ kept_length x `mod` 0x1000 = 0.
Proof.
  unfold kept_length. destruct (round_up_page_spec x). split_and!; [lia..|].
  by destruct (Z.max_spec (round_up_page x) HEAP_MIN_SIZE) as [[_ ->]|[_ ->]].
Qed.

Section shrink.
Context {P : Type} `{!PageBacking P} `{!PageBackingLaws P} (room : Z).
Hypothesis room_nonneg : 0 <= room.
Implicit Types s : hstate P.

Lemma contract_spec new_size s :
  let h := hheap s in
  heap_wf h -> backed room s -> 0 <= new_size < end_address h - start_address h ->
  exists p', contract new_size s = Ok (kept_length new_size,
      mk_hstate (hmem s) (set_end_address h (start_address h + kept_length new_size)) p') /\
    kept_length new_size <= end_address h - start_address h /\
    backed room (mk_hstate (hmem s) (set_end_address h (start_address h + kept_length new_size)) p').
Proof.
  intros h Hwf ([Has Hae] & Hmin & Hbmax & lo & hi & n & Hready & Hlo & Hhi & Hn) Hns.
  fold h in Has, Hae, Hmin, Hbmax, Hlo, Hhi. pose proof Hwf as [? ? _ _ _].
  destruct (kept_length_spec new_size) as (Hk1 & Hk2 & Hk3).
  set (old := end_address h - start_address h) in *.
  assert (old = end_address h - start_address h) as Eold by done.
  assert (old `mod` 0x1000 = 0) as Hom by by apply mod_page_sub.
  assert (HEAP_MIN_SIZE = 0x70000) as EM by done.
  assert (kept_length new_size <= old) as Hkold.
  { unfold kept_length. destruct (round_up_page_spec new_size) as [Hrm Hrb].
    pose proof (Z.div_mod old 0x1000 ltac:(lia)).
    pose proof (Z.div_mod (round_up_page new_size) 0x1000 ltac:(lia)). lia. }
  unfold contract. fold h. rewrite (u32_small (end_address h - start_address h)) by lia. fold old.
  rewrite ASSERT_ok by lia. rsimpl.
  match goal with |- context [if ?r <? HEAP_MIN_SIZE then HEAP_MIN_SIZE else ?r] =>
    assert (r = round_up_page new_size) as -> end.
  { rewrite <- round_idiom by lia. destruct (negb _); [|done].
    apply u32_small. rewrite land_page_base by (unfold is_u32; lia).
    pose proof (Z.mod_pos_bound new_size 0x1000 ltac:(lia)).
    pose proof (Z.div_mod old 0x1000 ltac:(lia)). pose proof (Z.div_mod new_size 0x1000 ltac:(lia)). lia. }
  assert ((if round_up_page new_size <? HEAP_MIN_SIZE then HEAP_MIN_SIZE else round_up_page new_size)
          = kept_length new_size) as ->.
  { unfold kept_length. destruct (Z.ltb_spec (round_up_page new_size) HEAP_MIN_SIZE); lia. }
  set (NL := kept_length new_size) in *.
  pose (I := fun q : Z * hstate P => NL - 0x1000 <= q.1 < old /\ q.1 `mod` 0x1000 = 0 /\
    hheap q.2 = h /\ hmem q.2 = hmem s /\ pb_ready (hpages q.2) lo hi n).
  pose (Q := fun s1 : hstate P => hheap s1 = h /\ hmem s1 = hmem s /\ pb_ready (hpages s1) lo hi n).
  rewrite (u32_small (old - 0x1000)) by lia.
  match goal with |- context [while ?f (?i, s)] =>
    destruct (while_rule f I Q (fun q => q.1) (i, s)) as (s1 & -> & Hh & Hm & Hr) end.
  - intros [i s1] (Hi & Him & Hh1 & Hm1 & Hr1). cbn [fst snd] in *.
    destruct (Z.leb_spec NL i); [|by split_and!].
    rewrite Hh1, (u32_small (start_address h + i)) by lia.
    destruct (pb_unmap_ok s1 (start_address h + i) lo hi n Hr1) as (p2 & -> & Hr2);
      [lia|by apply mod_page_add|].
    rsimpl. rewrite (u32_small (i - 0x1000)) by lia.
    split; [|cbn [fst]; lia]. split_and!; cbn [fst snd hheap hmem hpages]; try done; [lia..|].
    by apply mod_page_sub.
  - split_and!; cbn [fst snd]; try done; [lia..|]. by apply mod_page_sub.
  - cbn [fst]. lia.
  - rsimpl. unfold with_heap. rewrite Hh, Hm, (u32_small (start_address h + NL)) by lia.
    exists (hpages s1). split; [done|]. split; [done|]. split; [split; simpl|split; simpl].
    + done.
    + by apply mod_page_add.
    + lia.
    + split; [simpl; lia|]. exists lo, hi, n. split_and!; [done|done|simpl; lia|done].
Qed.

(** What is left of the last hole is nothing or can hold its tags. *)
Definition remnant_ok (below : Z) : Prop :=
  kept_length below = below \/ MIN_BLOCK <= kept_length below - below.

(** The result of [trim_tail]. *)
Record trimmed s s' (pre : list block) (N : Z) (post : list block) (do_add : bool) : Prop := {
  tr_wf : heap_wf (hheap s');
  tr_start : start_address (hheap s') = start_address (hheap s);
  tr_end : end_address (hheap s') <= end_address (hheap s);
  tr_max : max_address (hheap s') = max_address (hheap s);
  tr_index : index (hheap s') = index (hheap s);
  tr_frame : let x := start_address (hheap s) + total pre in
    agree_outside x (x + N) (hmem s) (hmem s');
  tr_shrink : backed room s';
  tr_hole : if do_add
    then exists N', (post = [] \/ N' = N) /\
      open_hole (hmem s') (hheap s') (index (hheap s')) pre N' post
    else post = [] /\ heap_ok (hmem s') (hheap s') pre
}.

Lemma trim_tail_spec s pre N post :
  let h := hheap s in let x := start_address h + total pre in
  heap_wf h -> open_hole (hmem s) h (index h) pre N post -> backed room s ->
  end_address h <= max_address h -> (post = [] -> remnant_ok (total pre)) ->
  exists do_add s', trim_tail x (x + N - sizeof_footer_t) s = Ok (do_add, s') /\
    trimmed s s' pre N post do_add.
Proof.
  intros h x Hwf Hopen Hshrink Hmax Hrem. pose proof Hopen as [Hl Ht Hidx].
  pose proof (proj1 (layout_app3 _ _ _ _ _) Hl) as (Hlp & [Hb _] & Hpost).
  pose proof (layout_total_nonneg _ _ _ Hlp). pose proof (layout_total_nonneg _ _ _ Hpost).
  pose proof (wf_start _ Hwf). pose proof (wf_end _ Hwf).
  set (a := start_address h) in *. assert (x = a + total pre) as Ex by done. fold x in Hb, Ht, Hidx.
  destruct Hb as (HN & HNm & HNh & HNs & _). cbn [fst snd] in *. change MIN_BLOCK with 20 in HN.
  unfold trim_tail. fold h. unfold sizeof_footer_t. replace (x + N - 8 + 8) with (x + N) by lia.
  rewrite (u32_small (x + N)) by lia.
  destruct post as [|b post].
  2:{ destruct Hpost as [[Hb _] Hpost]. change MIN_BLOCK with 20 in Hb.
    pose proof (layout_total_nonneg _ _ _ Hpost). simpl in Ht.
    rewrite (proj2 (Z.eqb_neq (x + N) _)) by lia. exists true, s. split; [done|].
    split; try done. exists N. by split; [right|]. }
  simpl in Ht. rewrite (proj2 (Z.eqb_eq (x + N) _)) by lia. specialize (Hrem eq_refl).
  unfold remnant_ok in Hrem. change MIN_BLOCK with 20 in Hrem.
  fold a. rewrite (u32_small (x - a)) by lia. rewrite (u32_small (_ - a)) by lia.
  destruct (contract_spec (x - a) s Hwf Hshrink) as (p' & -> & HNL & Hshrink'); [fold h a; lia|].
  fold h a in HNL, Hshrink' |- *. rsimpl. cbn [hmem hheap].
  destruct (kept_length_spec (x - a)) as (Hk1 & Hk2 & _).
  replace (total pre) with (x - a) in Hrem by lia. set (NL := kept_length (x - a)) in *.
  rewrite HNs, (u32_small (_ - NL)) by lia.
  assert (heap_wf (set_end_address h (a + NL))) as Hwf'.
  { assert (HEAP_MIN_SIZE = 0x70000) by done. destruct Hwf; split; simpl; try done. lia. }
  destruct (Z.ltb_spec (end_address h - a - NL) N).
  - (* the shortened hole gets a new footer *)
    replace (N - (end_address h - a - NL)) with (a + NL - x) by lia.
    rewrite (u32_small (a + NL - x)) by lia.
    assert (hdr_size (set_hdr_size x (a + NL - x) (hmem s)) x = a + NL - x) as ->
      by (unfold_tags; mem_simpl; apply u32_small; lia).
    rewrite (u32_small (x + (a + NL - x) - 8)) by lia.
    match goal with |- context [with_heap _ ?m1 _] => set (m' := m1) end.
    assert (agree_outside x (x + N) (hmem s) m') as Hag by (unfold m'; unfold_tags; solve_agree).
    eexists true, _. split; [reflexivity|].
    split; cbn [with_heap hmem hheap set_end_address start_address end_address max_address index]; try done; [fold h a; lia|].
    + exists (a + NL - x). split; [by left|]. split; simpl; fold a; [|fold x; lia|].
      * apply layout_app. split; [|split; [|done]].
        -- eapply layout_agree; [|exact Hlp]. eapply agree_outside_on; [done|]. lia.
        -- fold x. revert HNm HNh. unfold m'. unfold_tags. cbn [fst snd]. intros.
           repeat split; try lia; mem_simpl; u32_simpl; done.
      * simpl in Hidx. eapply idx_ok_agree; [done|done|]. intros y Hy. left.
        rewrite app_nil_r in Hy. pose proof (holes_bounds _ _ _ _ Hlp Hy) as Hyb.
        change MIN_BLOCK with 20 in Hyb. unfold sizeof_header_t. lia.
  - (* the whole hole is gone *)
    eexists false, _. split; [reflexivity|].
    split; cbn [hmem hheap set_end_address start_address end_address max_address index]; try done;
      [fold h a; lia|]. split; [done|].
    simpl in Hidx. rewrite app_nil_r in Hidx. destruct Hidx.
    assert (HEAP_MIN_SIZE = 0x70000) by done.
    split; simpl; fold a; try done; lia.
Qed.
End shrink.

(** ** The whole of [free] *)

Lemma coalesced_merge pre N N' post :
  coalesced (pre ++ (false, N) :: post) = true ->
  coalesced (drop_tail_hole pre ++ [(true, N')] ++ drop_head_hole post) = true /\
  coalesced (drop_tail_hole pre) = true.
Proof.
  unfold coalesced. rewrite coalesced_app. simpl. intros [Hpre Hpost]%andb_true_iff.
  rewrite andb_false_r in Hpost. simpl in Hpost.
  assert (coalesced_from false (drop_tail_hole pre) = true /\
          last_is_hole false (drop_tail_hole pre) = false) as [H1 H2].
  { destruct (left_cases pre) as [(q & l & -> & _ & ->)|(_ & -> & [->|(q & l & ->)])]; [|done|].
    - rewrite coalesced_app in Hpre. apply andb_true_iff in Hpre as [Hq Hl]. split; [done|].
      simpl in Hl. by destruct (last_is_hole false q).
    - split; [done|]. by rewrite last_is_hole_snoc. }
  split; [|done]. rewrite coalesced_app, H1, H2. simpl.
  destruct post as [|[[] r] post]; simpl in *; done.
Qed.

Lemma drop_tail_allocated a pre : allocated a (drop_tail_hole pre) = allocated a pre.
Proof.
  destruct (left_cases pre) as [(q & l & -> & _ & ->)|(_ & -> & _)]; [|done].
  rewrite allocated_app. simpl. by rewrite app_nil_r.
Qed.

Lemma drop_head_allocated a post :
  allocated (a + head_size post) (drop_head_hole post) = allocated a post.
Proof. destruct post as [|[[] r] post]; simpl; by rewrite ?Z.add_0_r. Qed.

Section free.
Context {P : Type} `{!PageBacking P} `{!PageBackingLaws P} (room : Z).
Hypothesis room_nonneg : 0 <= room.
Implicit Types s : hstate P.

(** What [free] of the payload ([p], [n]) does. *)
Record free_post (s s' : hstate P) (bl bl' : list block) (p n : Z) : Prop := {
  fp_wf : heap_wf (hheap s');
  fp_ok : heap_ok (hmem s') (hheap s') bl';
  fp_start : start_address (hheap s') = start_address (hheap s);
  fp_max : max_address (hheap s') = max_address (hheap s);
  fp_end : end_address (hheap s') <= end_address (hheap s);
  fp_index : index_grown 1 s s';
  fp_payloads : allocated (start_address (hheap s)) bl ≡ₚ
    (p, n) :: allocated (start_address (hheap s)) bl';
  fp_kept : payloads_kept (start_address (hheap s)) bl' (hmem s) (hmem s');
  fp_shrink : backed room s';
  fp_coalesced : coalesced bl = true -> coalesced bl' = true
}.

(** What is left of a layout without the holes next to a block. *)
Lemma layout_drop_tail m a pre :
  layout m a pre -> layout m a (drop_tail_hole pre) /\
    total (drop_tail_hole pre) = total pre - tail_size pre.
Proof.
  destruct (left_cases pre) as [(q & l & -> & -> & ->)|(-> & -> & _)]; [|by rewrite Z.sub_0_r].
  intros [Hq _]%layout_app. split; [done|]. rewrite total_app. simpl. lia.
Qed.

Lemma layout_drop_head m a post :
  layout m a post -> layout m (a + head_size post) (drop_head_hole post).
Proof. destruct post as [|[[] r] post]; simpl; rewrite ?Z.add_0_r; [done|by intros [_ ?]|done]. Qed.

(** Contraction, when it applies, leaves no sliver of a block behind. *)
Definition no_sliver (bl : list block) (p : Z) (a : Z) : Prop :=
  forall pre n post, bl = pre ++ (false, n) :: post -> p = a + total pre + sizeof_header_t ->
    drop_head_hole post = [] -> remnant_ok (total pre - tail_size pre).

(** From the trimmed heap to the end of [free]. *)
Lemma finish_free s s1 pre N post do_add :
  trimmed room s1 s pre N post do_add ->
  end_address (hheap s1) <= max_address (hheap s1) ->
  OrderedArray.size (index (hheap s1)) < max_size (index (hheap s1)) ->
  exists s' bl',
    (s ← (if do_add : bool then
         i ← insert_ordered_array (hmem s) (start_address (hheap s1) + total pre) (index (hheap s));
         Ok (with_heap s (hmem s) (set_index (hheap s) i))
       else Ok s);
     heap_validate (hmem s) (hheap s);; Ok s) = Ok s' /\
    hmem s' = hmem s /\ heap_wf (hheap s') /\ heap_ok (hmem s') (hheap s') bl' /\
    backed room s' /\ start_address (hheap s') = start_address (hheap s) /\
    end_address (hheap s') = end_address (hheap s) /\
    max_address (hheap s') = max_address (hheap s) /\ index_grown 1 s s' /\
    (bl' = pre /\ post = [] \/ exists N', (post = [] \/ N' = N) /\ bl' = pre ++ [(true, N')] ++ post).
Proof.
  intros [Hwf Hst He Hmax Hidx Hag Hsh Hhole] Hmax1 Hroom. destruct do_add.
  - destruct Hhole as (N' & HN' & Hopen).
    destruct (open_hole_close _ _ _ _ _ _ Hwf Hopen) as (i' & Hi' & Hwf' & Hok' & Hsz' & Hcap');
      [lia|by rewrite Hidx|].
    rewrite Hst in Hi'. rewrite Hi'. rsimpl. cbn [with_heap hmem hheap].
    rewrite (heap_validate_ok _ _ _ Hwf' Hok'). rsimpl.
    eexists _, _. split; [reflexivity|]. split_and!; try done; [split; simpl; [lia|done]|].
    right. by exists N'.
  - destruct Hhole as [-> Hok]. rsimpl. rewrite (heap_validate_ok _ _ _ Hwf Hok). rsimpl.
    exists s, pre. split_and!; try done; [split; [lia|done]|]. by left.
Qed.

(** The checks at the start of [free] pass and open the block. *)
Lemma open_block m h bl pre n post :
  let x := start_address h + total pre in let m' := set_hdr_is_hole x 1 m in
  heap_wf h -> heap_ok m h bl -> bl = pre ++ (false, n) :: post ->
  open_hole m' h (index h) pre n post /\ agree_outside x (x + n) m m'.
Proof.
  intros x m' Hwf Hok ->. pose proof Hok as [Hl Ht _ _ _ _].
  pose proof (heap_idx_ok _ _ _ Hwf Hok) as Hidx.
  change (pre ++ (false, n) :: post) with (pre ++ [(false, n)] ++ post) in *.
  pose proof (proj1 (layout_app3 _ _ _ _ _) Hl) as (Hlp & [Hb _] & Hpost). fold x in Hb.
  assert (20 <= n) as Hn by apply Hb.
  assert (agree_outside x (x + n) m m') as Hag by (unfold m'; unfold_tags; solve_agree).
  rewrite !total_app in Ht. simpl in Ht. split; [|done]. split; [|lia|].
  - eapply layout_replace; [exact Hl|done| |split; [|done]]; fold x.
    + simpl. by rewrite Z.add_0_r.
    + destruct Hb as (? & Hmg & _ & Hs & Hf1 & Hf2). cbn [fst snd] in *.
      unfold m'. revert Hmg Hs Hf1 Hf2. unfold_tags. cbn [fst snd]. intros.
      repeat split; try lia; mem_simpl; done.
  - pose proof (holes_outside _ _ _ _ _ Hl) as Ho. rewrite !holes_app in Hidx.
    simpl in Ho, Hidx. fold x in Ho, Hidx |- *. rewrite Z.add_0_r in Ho, Hidx. by eapply idx_ok_agree.
Qed.

Lemma free_blocks s bl pre n post :
  let h := hheap s in let x := start_address h + total pre in
  let L := tail_size pre in let R := head_size post in
  heap_wf h -> heap_ok (hmem s) h bl -> bl = pre ++ (false, n) :: post ->
  backed room s -> (drop_head_hole post = [] -> remnant_ok (total pre - L)) ->
  OrderedArray.size (index h) < max_size (index h) ->
  exists s' bl', free (x + sizeof_header_t) s = Ok s' /\
    heap_wf (hheap s') /\ heap_ok (hmem s') (hheap s') bl' /\ backed room s' /\
    start_address (hheap s') = start_address h /\ end_address (hheap s') <= end_address h /\
    max_address (hheap s') = max_address h /\ index_grown 1 s s' /\
    agree_outside (x - L) (x + n + R) (hmem s) (hmem s') /\
    (bl' = drop_tail_hole pre /\ drop_head_hole post = [] \/
     exists N', (drop_head_hole post = [] \/ N' = L + n + R) /\
       bl' = drop_tail_hole pre ++ [(true, N')] ++ drop_head_hole post).
Proof.
  intros h x L R Hwf Hok Hbl Hsh Hrem Hroom.
  destruct (open_block (hmem s) h bl pre n post Hwf Hok Hbl) as [Hopen Hag0]. fold x in Hopen, Hag0.
  pose proof (ok_layout _ _ _ Hok) as Hl. pose proof (ok_total _ _ _ Hok) as Ht.
  rewrite Hbl in Hl, Ht. apply layout_app in Hl as [Hlp [Hb Hpost]].
  rewrite total_app in Ht. simpl in Ht, Hpost.
  pose proof (layout_total_nonneg _ _ _ Hlp). pose proof (layout_total_nonneg _ _ _ Hpost).
  pose proof (wf_start _ Hwf). pose proof (wf_end _ Hwf). fold x in Hb.
  assert (x = start_address h + total pre) as Ex by done.
  destruct Hb as (Hn & Hmg & Hho & Hsz & Hfm & _). cbn [fst snd] in *.
  change MIN_BLOCK with 20 in Hn. pose proof (ok_max _ _ _ Hok) as Hmax.
  unfold free. fold h. change sizeof_header_t with 12.
  rewrite (proj2 (Z.eqb_neq (x + 12) 0)) by lia.
  rewrite (heap_validate_ok _ _ _ Hwf Hok). rsimpl.
  replace (x + 12 - 12) with x by lia. rewrite (u32_small x) by lia.
  rewrite Hsz, Hmg, Hho. unfold sizeof_footer_t in Hfm |- *. u32_simpl. rewrite Hfm.
  repeat assert_step. change 8 with sizeof_footer_t.
  set (m1 := set_hdr_is_hole x 1 (hmem s)) in *.
  destruct (coalesce_left_spec m1 h pre n post Hwf Hopen)
    as (m2 & i2 & Hcl & Hopen2 & Htp & HL & Hag2 & Hsz2 & Hcap2).
  fold x L in Hcl, Hag2, Hopen2, Htp, HL. rewrite Hcl. rsimpl.
  set (pre' := drop_tail_hole pre) in *.
  replace (x + n - sizeof_footer_t) with (start_address h + total pre' + (L + n) - sizeof_footer_t) by lia.
  replace (x - L) with (start_address h + total pre') by lia.
  destruct (coalesce_right_spec m2 h i2 pre' (L + n) post Hwf Hopen2)
    as (m3 & i3 & Hcr & Hopen3 & HR & Htpost & Hag3 & Hsz3 & Hcap3).
  fold R in Hcr, Hag3, Hopen3, HR, Htpost. rewrite Hcr. rsimpl.
  set (post' := drop_head_hole post) in *. set (s3 := with_heap s m3 (set_index h i3)).
  assert (heap_wf (hheap s3)) as Hwf3.
  { destruct Hwf, (oh_index _ _ _ _ _ _ Hopen3). by split. }
  destruct (trim_tail_spec room room_nonneg s3 pre' (L + n + R) post' Hwf3) as (do_add & s4 & Htt & Htr);
    [by destruct Hopen3|done|done| |].
  { intros Hp. specialize (Hrem Hp). by replace (total pre') with (total pre - L) by lia. }
  cbn [s3 with_heap hheap set_index start_address] in Htt.
  replace (start_address h + total pre' + (L + n) + R)
    with (start_address h + total pre' + (L + n + R)) by lia. rewrite Htt. rsimpl.
  destruct (finish_free s4 s3 pre' (L + n + R) post' do_add Htr) as
    (s' & bl' & Hrun & Hm' & Hwf' & Hok' & Hsh' & Hst' & He' & Hmax' & Hix' & Hblocks); [done|simpl; lia|].
  destruct Htr as [_ Hst4 He4 Hmax4 Hix4 Hag4 _ _]. cbn in Hst4, He4, Hmax4, Hag4. fold h in Hst4, He4, Hmax4, Hag4.
  exists s', bl'. split; [exact Hrun|]. split_and!; try done; [congruence|lia|congruence| |].
  { unfold index_grown in *. rewrite Hix4 in Hix'. simpl in Hix'. fold h. lia. }
  rewrite Hm'. replace (x - L) with (start_address h + total pre') in * by lia.
  replace (x + n + R) with (start_address h + total pre' + (L + n + R)) in * by lia.
  assert (start_address h + total pre' <= x <= start_address h + total pre' + (L + n + R)) by lia.
  eapply agree_outside_trans; [eapply agree_outside_weaken; [exact Hag0|lia..]|].
  eapply agree_outside_trans; [eapply agree_outside_weaken; [exact Hag2|lia..]|].
  eapply agree_outside_trans; [eapply agree_outside_weaken; [exact Hag3|lia..]|]. done.
Qed.

Lemma free_correct s bl p n :
  heap_wf (hheap s) -> heap_ok (hmem s) (hheap s) bl ->
  (p, n) ∈ allocated (start_address (hheap s)) bl ->
  backed room s -> no_sliver bl p (start_address (hheap s)) ->
  OrderedArray.size (index (hheap s)) < max_size (index (hheap s)) ->
  exists s' bl', free p s = Ok s' /\ free_post s s' bl bl' p n.
Proof.
  intros Hwf Hok Hp Hsh Hsl Hroom. set (a := start_address (hheap s)) in *.
  destruct (allocated_split _ _ _ _ Hp) as (pre & post & -> & ->).
  destruct (free_blocks s _ pre (n + MIN_BLOCK) post Hwf Hok eq_refl Hsh) as
    (s' & bl' & Hrun & Hwf' & Hok' & Hsh' & Hst' & He' & Hmax' & Hix & Hag & Hbl');
    [by apply (Hsl pre (n + MIN_BLOCK) post)|done|].
  fold a in Hst', Hag, Hrun. pose proof (ok_layout _ _ _ Hok) as Hl. fold a in Hl.
  apply layout_app in Hl as [[Hlp Htp]%layout_drop_tail [_ Hpost%layout_drop_head]]. simpl in Hpost.
  set (x := a + total pre) in *. assert (x = a + total pre) as Ex by done.
  assert (forall q k, (q, k) ∈ allocated a bl' ->
    (q, k) ∈ allocated a (drop_tail_hole pre) \/
    (q, k) ∈ allocated (x + (n + MIN_BLOCK) + head_size post) (drop_head_hole post)) as Hin.
  { intros q k Hq. destruct Hbl' as [[-> _]|(N' & HN' & ->)]; [by left|].
    rewrite !allocated_app in Hq. simpl in Hq. apply elem_of_app in Hq as [Hq|Hq]; [by left|right].
    destruct HN' as [Hnil| ->]; [rewrite Hnil in Hq; by apply elem_of_nil in Hq|].
    by replace (x + (n + MIN_BLOCK) + head_size post) with
      (a + total (drop_tail_hole pre) + (tail_size pre + (n + MIN_BLOCK) + head_size post + 0)) by lia. }
  exists s', bl'. split; [done|]. split; fold a; try done.
  - rewrite allocated_app. simpl. fold x. replace (n + MIN_BLOCK - MIN_BLOCK) with n by lia.
    rewrite <- Permutation_middle. f_equiv.
    rewrite <- (drop_tail_allocated a pre), <- (drop_head_allocated _ post).
    destruct Hbl' as [[-> Hnil]|(N' & HN' & ->)]; [by rewrite Hnil; simpl; rewrite app_nil_r|].
    rewrite !allocated_app. simpl. destruct HN' as [Hnil| ->]; [by rewrite Hnil|].
    by replace (a + total (drop_tail_hole pre) + (tail_size pre + (n + MIN_BLOCK) + head_size post + 0))
      with (x + (n + MIN_BLOCK) + head_size post) by lia.
  - intros q k Hq. eapply agree_outside_on; [exact Hag|]. apply Hin in Hq as [Hq|Hq].
    + apply (allocated_range _ _ _ _ _ Hlp) in Hq. lia.
    + apply (allocated_range _ _ _ _ _ Hpost) in Hq. lia.
  - intros Hco. destruct Hbl' as [[-> _]|(N' & _ & ->)]; by eapply coalesced_merge.
Qed.
End free.
