(* ===== verification/HeapTheorems.v ===== *)
(** * Properties of the kernel heap

    The contracts of [create_heap], [alloc], [free] and [heap_validate], the
    invariant of every sequence of heap calls, and the concrete run that
    shows where [free] breaks the heap.  [counted_backing] is a paging
    component that only counts frames; it instantiates the interface. *)

From S2P Require Import Prelude Memory OrderedArray KHeap HeapInv HeapAlloc HeapContract HeapFree.

(** ** A concrete paging component *)

Definition NO_FREE_FRAMES : string := "No free frames!".

#[export] Instance counted_backing : PageBacking Z := {
  pb_map a k w s := if 0 <? hpages s then Ok (mk_hstate (hmem s) (hheap s) (hpages s - 1))
                    else Panic NO_FREE_FRAMES;
  pb_unmap a s := Ok (mk_hstate (hmem s) (hheap s) (hpages s + 1))
}.

#[export] Program Instance counted_backing_laws : PageBackingLaws Z := {
  pb_ready p lo hi n := n <= p
}.
Next Obligation.
  intros s a k w lo hi n Hr Hn _ _. simpl in *. rewrite (proj2 (Z.ltb_lt _ _)) by lia.
  eexists _, _. split_and!; [done|apply agree_outside_refl|lia].
Qed.
Next Obligation. intros s a lo hi n Hr _ _. simpl in *. eexists. split; [done|lia]. Qed.

(** ** Creation *)

Lemma insert_single {M} (m : M) x (arr : ordered_array_t M) lt :
  oa_wf arr -> less_than arr = Some lt -> contents arr = [] -> 0 < max_size arr ->
  exists arr', insert_ordered_array m x arr = Ok arr' /\ oa_wf arr' /\ contents arr' = [x] /\
    OrderedArray.size arr' = 1 /\ oa_same arr arr'.
Proof.
  intros Hwf Hlt Hc Hmax. pose proof (contents_length arr Hwf) as Hlen. rewrite Hc in Hlen.
  assert (0 <= OrderedArray.size arr) by apply Hwf. simpl in Hlen.
  destruct (insert_ordered_array_spec m x arr lt Hwf Hlt) as (arr' & -> & Hwf' & Hc' & Hs & Hsame); [lia|].
  exists arr'. rewrite Hc in Hc'. split_and!; [done..|lia|done].
Qed.

(** The arena behind the hole index. *)
Definition arena_start (start : Z) : Z := start + sizeof_type_t * HEAP_INDEX_SIZE.

Section create.
Context {P : Type} `{!PageBacking P}.

Record created (start end_addr max : Z) (pages : P) (s : hstate P) : Prop := {
  cr_wf : heap_wf (hheap s);
  cr_ok : heap_ok (hmem s) (hheap s) [(true, end_addr - arena_start start)];
  cr_start : start_address (hheap s) = arena_start start;
  cr_end : end_address (hheap s) = end_addr;
  cr_max : max_address (hheap s) = max;
  cr_aligned : page_aligned (hheap s);
  cr_index : OrderedArray.size (index (hheap s)) = 1;
  cr_cap : max_size (index (hheap s)) = HEAP_INDEX_SIZE;
  cr_pages : hpages s = pages
}.

Lemma create_heap_correct kmalloc start end_addr max sup ro m pages q pages' :
  kmalloc sizeof_heap_t pages = Ok (q, pages') ->
  0 < start -> start `mod` 0x1000 = 0 -> end_addr `mod` 0x1000 = 0 ->
  max `mod` 0x1000 = 0 \/ max = 0xCFFFF000 ->
  arena_start start + MIN_BLOCK < end_addr -> end_addr <= max < 2 ^ 32 ->
  exists s, create_heap kmalloc start end_addr max sup ro m pages = Ok s /\
    created start end_addr max pages' s.
Proof.
  intros Hk Hst Has Hae Ham Hend Hmax. unfold arena_start in Hend.
  change MIN_BLOCK with 20 in Hend. unfold sizeof_type_t, HEAP_INDEX_SIZE in *.
  unfold create_heap. rewrite Hk. rsimpl. unfold sizeof_type_t, HEAP_INDEX_SIZE.
  rewrite Has, Hae, (u32_small (end_addr - start)) by lia.
  change (sizeof_header_t + sizeof_footer_t) with 20. unfold sizeof_header_t, sizeof_footer_t.
  assert (((max `mod` 0x1000 =? 0) || (max =? 0xCFFFF000)) = true) as -> by lia.
  repeat assert_step.
  destruct (place_ordered_array start 0x20000 (Some header_t_less_than)) as [i|?|] eqn:Ei;
    [|unfold place_ordered_array in Ei; rewrite !ASSERT_ok in Ei by first [done|lia]; discriminate Ei..].
  apply place_ordered_array_wf in Ei as (Hwfi & Hlti & Hcapi & Hci). rsimpl.
  rewrite (u32_small (start + 4 * 0x20000)) by lia. set (a := start + 4 * 0x20000) in *.
  assert (a = start + 0x80000) as Ea by done.
  assert (a `mod` 0x1000 = 0) as Haa by (rewrite Ea; by apply mod_page_add).
  assert ((if negb (Z.land a 0xFFF =? 0) then u32 (Z.land a 0xFFFFF000 + 0x1000) else a) = a) as ->
    by by rewrite land_page_offset, Haa.
  rewrite (u32_small (end_addr - a)), (u32_small (end_addr - 8)) by lia.
  match goal with |- context [insert_ordered_array ?m1 a i] => set (m' := m1) end.
  destruct (insert_single m' a i _ Hwfi Hlti Hci) as (i' & -> & Hwf' & Hc' & Hs' & Hsame); [lia|].
  destruct Hsame as (_ & Hcap' & Hlt' & _). rsimpl.
  match goal with |- context [heap_validate m' ?h1] => set (h := h1) end.
  assert (heap_wf h) as Hwf by (split; simpl; [lia|lia|lia|done|congruence]).
  assert (heap_ok m' h [(true, end_addr - a)]) as Hok.
  { split; simpl; [|lia|lia|lia|by rewrite Hc'|rewrite Hc'; repeat constructor].
    split; [|done]. unfold m'. unfold_tags. cbn [fst snd].
    replace (a + (end_addr - a) - 8) with (end_addr - 8) by lia.
    repeat split; try lia; mem_simpl; u32_simpl; done. }
  rewrite (heap_validate_ok _ _ _ Hwf Hok). rsimpl. eexists. split; [reflexivity|].
  split; simpl; try done. by rewrite Hcap', Hcapi.
Qed.
End create.

(** [create_heap] with page-aligned bounds and room for the index builds
    a heap that is one hole from the end of the index to [end]. *)
Theorem create_heap_one_hole {P} `{!PageBacking P} kmalloc start end_addr max sup ro m
    (pages : P) q pages' :
  kmalloc sizeof_heap_t pages = Ok (q, pages') ->
  0 < start -> start `mod` 0x1000 = 0 -> end_addr `mod` 0x1000 = 0 ->
  max `mod` 0x1000 = 0 \/ max = 0xCFFFF000 ->
  arena_start start + MIN_BLOCK < end_addr -> end_addr <= max < 2 ^ 32 ->
  exists s, create_heap kmalloc start end_addr max sup ro m pages = Ok s /\
    created start end_addr max pages' s.
Proof. apply create_heap_correct. Qed.

(** The heap that initialise_paging builds, over memory full of 0xCC. *)
Definition boot_kmalloc (n : Z) (pages : Z) : res (Z * Z) := Ok (0x200000, pages).
Definition boot_heap : res (hstate Z) :=
  create_heap boot_kmalloc KHEAP_START (KHEAP_START + KHEAP_INITIAL_SIZE) 0xCFFFF000 0 0
    (fun _ => 0xCC) 0x1000.

Lemma create_heap_one_hole_witness :
  exists s, boot_heap = Ok s /\
    created KHEAP_START (KHEAP_START + KHEAP_INITIAL_SIZE) 0xCFFFF000 0x1000 s.
Proof.
  unfold boot_heap. apply (create_heap_one_hole boot_kmalloc _ _ _ _ _ _ _ 0x200000);
    first [reflexivity | by right | unfold arena_start; vm_compute; done | split; vm_compute; done].
Defined.

(** ** The contracts *)

(** C5: a request that the page pool and the hole index can serve returns,
    after at most three growths: the payload is new, at least as large as
    asked and page aligned when asked; every other payload is still
    allocated and its bytes are untouched; the heap stays well-formed and no
    two holes become adjacent. *)
Theorem alloc_contract {P} `{!PageBacking P} `{!PageBackingLaws P}
    room size page_align (s : hstate P) bl :
  heap_wf (hheap s) -> heap_ok (hmem s) (hheap s) bl ->
  0 < size -> size + MIN_BLOCK < 2 ^ 32 -> 0 <= page_align ->
  backed (3 * round_up_page (size + MIN_BLOCK) + room) s -> 0 <= room ->
  OrderedArray.size (index (hheap s)) + 3 < max_size (index (hheap s)) ->
  exists p s' bl', alloc 4 size page_align s = Ok (p, s') /\
    alloc_post room s s' bl bl' size page_align p /\ index_grown 4 s s'.
Proof. apply alloc_correct. Qed.

(** The boot heap meets the hypotheses. *)
Definition BOOT_ARENA : Z := KHEAP_START + KHEAP_INITIAL_SIZE - arena_start KHEAP_START.

Lemma boot_heap_created :
  exists s, boot_heap = Ok s /\
    created KHEAP_START (KHEAP_START + KHEAP_INITIAL_SIZE) 0xCFFFF000 0x1000 s.
Proof.
  unfold boot_heap. apply (create_heap_correct boot_kmalloc _ _ _ _ _ _ _ 0x200000);
    first [reflexivity | by right | unfold arena_start; vm_compute; done | split; vm_compute; done].
Qed.

Lemma created_backed start end_addr max pages s room :
  created start end_addr max pages s -> HEAP_MIN_SIZE <= end_addr - arena_start start ->
  end_addr + room <= max -> room <= pages * 0x1000 -> backed room s.
Proof.
  intros [_ _ Hs He Hm Hal _ _ Hp] Hmin Hroom Hpages. split; [done|]. rewrite Hs, He, Hm, Hp.
  split_and!; [done..|]. exists (arena_start start + HEAP_MIN_SIZE), (end_addr + room), pages.
  simpl. split_and!; lia.
Qed.

Lemma boot_backed s room :
  created KHEAP_START (KHEAP_START + KHEAP_INITIAL_SIZE) 0xCFFFF000 0x1000 s ->
  room <= 0x1000000 -> backed room s.
Proof.
  intros Hc Hr. eapply created_backed; [exact Hc|vm_compute; discriminate|unfold KHEAP_START, KHEAP_INITIAL_SIZE; lia|lia].
Qed.

Lemma alloc_contract_witness :
  exists s, boot_heap = Ok s /\
    exists p s' bl', alloc 4 100 1 s = Ok (p, s') /\
      alloc_post 0 s s' [(true, BOOT_ARENA)] bl' 100 1 p /\ index_grown 4 s s'.
Proof.
  destruct boot_heap_created as (s & Hs & Hc). exists s. split; [exact Hs|].
  refine (alloc_contract 0 100 1 s _ (cr_wf _ _ _ _ _ Hc) (cr_ok _ _ _ _ _ Hc) _ _ _ _ _ _).
  - lia.
  - reflexivity.
  - lia.
  - apply boot_backed; [exact Hc|vm_compute; discriminate].
  - lia.
  - rewrite (cr_index _ _ _ _ _ Hc), (cr_cap _ _ _ _ _ Hc). reflexivity.
Defined.

(** C6: freeing an allocated payload returns; it is no longer allocated,
    every other payload is kept with its bytes, the block is merged with the
    holes beside it, and the heap stays well-formed. *)
Theorem free_contract {P} `{!PageBacking P} `{!PageBackingLaws P} room (s : hstate P) bl p n :
  0 <= room -> heap_wf (hheap s) -> heap_ok (hmem s) (hheap s) bl ->
  (p, n) ∈ allocated (start_address (hheap s)) bl ->
  backed room s -> no_sliver bl p (start_address (hheap s)) ->
  OrderedArray.size (index (hheap s)) < max_size (index (hheap s)) ->
  exists s' bl', free p s = Ok s' /\ free_post room s s' bl bl' p n.
Proof. intros. by apply free_correct. Qed.

(** A heap whose only payload sits behind at most one hole contracts safely. *)
Lemma holes_only_total b a pre :
  allocated a pre = [] -> coalesced_from b pre = true -> total pre = tail_size pre.
Proof.
  destruct pre as [|[[] n] pre]; [done| |done]. intros Hal Hco. simpl in Hal, Hco.
  destruct pre as [|[[] k] pre]; [unfold tail_size; simpl; lia| |done].
  apply andb_true_iff in Hco as [_ Hco]. done.
Qed.

Lemma only_payload_no_sliver p n a bl q :
  allocated a bl ≡ₚ [(p, n)] -> coalesced bl = true -> no_sliver bl q a.
Proof.
  intros Hal Hco pre k post -> _ _. rewrite allocated_app in Hal. simpl in Hal.
  rewrite <- Permutation_middle in Hal.
  apply Permutation_length in Hal as Hlen. simpl in Hlen. rewrite length_app in Hlen.
  destruct (allocated a pre) as [|? ?] eqn:E; [|simpl in Hlen; lia].
  unfold coalesced in Hco. rewrite coalesced_app in Hco. apply andb_true_iff in Hco as [Hco _].
  rewrite <- (holes_only_total _ _ _ E Hco), Z.sub_diag. right. vm_compute. discriminate.
Qed.

(** One allocation after booting. *)
Lemma boot_alloc size : 0 < size < 0x100000 ->
  exists s p s' bl' n, boot_heap = Ok s /\ alloc 4 size 0 s = Ok (p, s') /\
    alloc_post 0 s s' [(true, BOOT_ARENA)] bl' size 0 p /\
    allocated (start_address (hheap s')) bl' ≡ₚ [(p, n)] /\ coalesced bl' = true /\
    OrderedArray.size (index (hheap s')) < max_size (index (hheap s')).
Proof.
  intros Hsz. destruct boot_heap_created as (s & Hs & Hc).
  destruct (round_up_page_spec (size + MIN_BLOCK)) as [_ Hr]. change MIN_BLOCK with 20 in *.
  pose proof (cr_index _ _ _ _ _ Hc) as Hi1. pose proof (cr_cap _ _ _ _ _ Hc) as Hi2.
  destruct (alloc_correct 0 size 0 s _ (cr_wf _ _ _ _ _ Hc) (cr_ok _ _ _ _ _ Hc))
    as (p & s' & bl' & Hrun & Hpost & Hix & Hcap);
    [lia|change MIN_BLOCK with 20; lia|lia|apply boot_backed; [done|change MIN_BLOCK with 20; lia]|lia
    |by rewrite Hi1, Hi2|].
  destruct (ap_payloads _ _ _ _ _ _ _ _ Hpost) as (n & _ & Hpl). simpl in Hpl.
  exists s, p, s', bl', n. rewrite (ap_start _ _ _ _ _ _ _ _ Hpost), Hcap.
  split; [exact Hs|]. split; [exact Hrun|]. split; [exact Hpost|]. split; [exact Hpl|].
  split; [by apply Hpost|]. rewrite Hi1 in Hix. rewrite Hi2. unfold HEAP_INDEX_SIZE. lia.
Qed.

Lemma free_contract_witness :
  exists p (s s' s'' : hstate Z) bl' bl'' n,
    alloc 4 100 0 s = Ok (p, s') /\ free p s' = Ok s'' /\ free_post 0 s' s'' bl' bl'' p n.
Proof.
  destruct (boot_alloc 100) as (s & p & s' & bl' & n & Hs & Hrun & Hpost & Hpl & Hco & Hix); [lia|].
  assert (exists s'' bl'', free p s' = Ok s'' /\ free_post 0 s' s'' bl' bl'' p n) as (s'' & bl'' & Hfree & Hfp).
  { refine (free_contract 0 s' bl' p n _ (ap_wf _ _ _ _ _ _ _ _ Hpost)
      (ap_ok _ _ _ _ _ _ _ _ Hpost) _ (ap_backed _ _ _ _ _ _ _ _ Hpost) _ Hix).
    - lia.
    - rewrite Hpl. by left.
    - exact (only_payload_no_sliver _ _ _ _ _ Hpl Hco). }
  exists p, s, s', s'', bl', bl'', n. split; [exact Hrun|]. split; [exact Hfree|exact Hfp].
Defined.

(** C37: the run-time check [heap_validate] accepts exactly the well-formed
    heaps, so an allocator call that passes it starts from a heap whose
    blocks tile the arena and whose index holds exactly the holes. *)
Theorem heap_validate_exact m h :
  heap_wf h -> heap_validate m h = Ok tt <-> exists bl, heap_ok m h bl.
Proof.
  intros Hwf. split; [by apply validate_sound|]. intros [bl Hok]. by eapply heap_validate_ok.
Qed.

Lemma heap_validate_exact_witness :
  exists s, boot_heap = Ok s /\ heap_validate (hmem s) (hheap s) = Ok tt.
Proof.
  destruct boot_heap_created as (s & Hs & Hc). exists s. split; [exact Hs|].
  apply (heap_validate_exact (hmem s) (hheap s) (cr_wf _ _ _ _ _ Hc)).
  eexists. exact (cr_ok _ _ _ _ _ Hc).
Defined.

(** ** Sequences of heap calls *)

(** Two payloads, each an address and a length, do not overlap. *)
Definition disjoint_payloads (x y : Z * Z) : Prop := x.1 + x.2 <= y.1 \/ y.1 + y.2 <= x.1.

Definition pairwise_disjoint (l : list (Z * Z)) : Prop :=
  forall i j x y, i <> j -> l !! i = Some x -> l !! j = Some y -> disjoint_payloads x y.

Lemma pairwise_disjoint_perm l l' : l ≡ₚ l' -> pairwise_disjoint l -> pairwise_disjoint l'.
Proof.
  intros (_ & f & Hinj & Hf)%symmetry%Permutation_inj Hd i j x y Hij Hx Hy.
  rewrite Hf in Hx, Hy. apply (Hd (f i) (f j)); [|done..]. by intros ?%Hinj.
Qed.

Lemma allocated_disjoint m a bl : layout m a bl -> pairwise_disjoint (allocated a bl).
Proof.
  revert a. induction bl as [|[[] n] bl IH]; intros a; simpl.
  - intros _ i j x y _ Hx. by rewrite lookup_nil in Hx.
  - intros [_ Hl]. by apply IH.
  - intros [[Hn _] Hl]. simpl in Hn. change MIN_BLOCK with 20 in *. specialize (IH _ Hl).
    assert (forall k y, allocated (a + n) bl !! k = Some y ->
      disjoint_payloads (a + sizeof_header_t, n - 20) y) as Hhd.
    { intros k [q l] Hk%list_elem_of_lookup_2. apply (allocated_range _ _ _ _ _ Hl) in Hk.
      left. simpl. unfold sizeof_header_t. lia. }
    intros [|i] [|j] x y Hij Hx Hy; simpl in Hx, Hy; simplify_eq.
    + by eapply Hhd.
    + destruct (Hhd i x Hx); [by right|by left].
    + apply (IH i j); [congruence|done..].
Qed.

Section sessions.
Context {P : Type} `{!PageBacking P} `{!PageBackingLaws P}.
Implicit Types s : hstate P.

(** The heap with the payloads its clients hold (address, size asked for),
    the bytes that may still be granted, and what the clients expect to find
    in their payloads: what was there when they got them, and since then
    what they wrote. *)
Definition session : Type := hstate P * list (Z * Z) * Z * mem.

(** A client takes note of what its new payload holds. *)
Definition granted (p size : Z) (m expected : mem) : mem :=
  fun x => if (p <=? x) && (x <? p + size) then m x else expected x.

Inductive heap_step : session -> session -> Prop :=
  | step_alloc s s' live room size page_align p c :
      0 < size -> size + MIN_BLOCK < 2 ^ 32 -> 0 <= page_align -> 0 <= room ->
      OrderedArray.size (index (hheap s)) + 3 < max_size (index (hheap s)) ->
      alloc 4 size page_align s = Ok (p, s') ->
      heap_step (s, live, 3 * round_up_page (size + MIN_BLOCK) + room, c)
        (s', (p, size) :: live, room, granted p size (hmem s') c)
  | step_free s s' l1 l2 room p size c :
      OrderedArray.size (index (hheap s)) < max_size (index (hheap s)) ->
      (forall bl, heap_ok (hmem s) (hheap s) bl -> no_sliver bl p (start_address (hheap s))) ->
      0 <= room -> free p s = Ok s' ->
      heap_step (s, l1 ++ (p, size) :: l2, room, c) (s', l1 ++ l2, room, c)
  | step_write s live room p size a v c :
      (p, size) ∈ live -> p <= a < p + size ->
      heap_step (s, live, room, c) (with_heap s (store8 (hmem s) a v) (hheap s), live, room, store8 c a v).

Definition covers (x y : Z * Z) : Prop := x.1 = y.1 /\ x.2 <= y.2.

Definition session_ok (q : session) : Prop :=
  let '(s, live, room, c) := q in
  (forall p n, (p, n) ∈ live -> agree_on p (p + n) c (hmem s)) /\
  exists bl pl, heap_wf (hheap s) /\ heap_ok (hmem s) (hheap s) bl /\ backed room s /\
    coalesced bl = true /\ allocated (start_address (hheap s)) bl ≡ₚ pl /\
    Forall2 covers live pl.

Lemma heap_ok_write s bl p n a v :
  heap_ok (hmem s) (hheap s) bl -> (p, n) ∈ allocated (start_address (hheap s)) bl ->
  p <= a < p + n -> heap_ok (store8 (hmem s) a v) (hheap s) bl.
Proof.
  intros [Hl Ht Hne Hmax Hh Hs] Hp Ha.
  destruct (allocated_split _ _ _ _ Hp) as (pre & post & -> & Hpe).
  set (x := start_address (hheap s) + total pre) in *.
  assert (agree_outside x (x + (n + MIN_BLOCK)) (hmem s) (store8 (hmem s) a v)) as Hag
    by (change MIN_BLOCK with 20; unfold sizeof_header_t in Hpe; solve_agree).
  split; try done.
  - apply (layout_replace (hmem s) _ _ pre [(false, n + MIN_BLOCK)] [(false, n + MIN_BLOCK)] post Hl eq_refl).
    + simpl. rewrite Z.add_0_r. done.
    + fold x. split; [|done]. apply layout_app in Hl as [_ [Hb _]]. fold x in Hb. revert Hb.
      change MIN_BLOCK with 20. unfold sizeof_header_t in Hpe. unfold_tags. cbn [fst snd].
      intros (? & ? & ? & ? & ? & ?).
      repeat split; first [by rewrite load32_store8_ne by lia|by rewrite load8_store8_ne by lia|done].
  - eapply sorted_by_ext; [|exact Hs]. intros y z Hy Hz. unfold header_t_less_than.
    rewrite Hh in Hy, Hz. pose proof (holes_outside _ _ pre [(false, n + MIN_BLOCK)] post Hl) as Ho.
    rewrite holes_app in Hy, Hz. simpl in Hy, Hz, Ho. fold x in Hy, Hz, Ho. rewrite (Z.add_0_r (n + MIN_BLOCK)) in Ho.
    by rewrite !(hdr_size_agree _ _ _ _ _ Hag) by (apply Ho; done).
Qed.

(** A payload that a client holds is one of the heap's. *)
Lemma covered live pl q k : Forall2 covers live pl -> (q, k) ∈ live ->
  exists i n, live !! i = Some (q, k) /\ pl !! i = Some (q, n) /\ k <= n.
Proof.
  intros Hl [i Hi]%list_elem_of_lookup. destruct (Forall2_lookup_l _ _ _ _ _ Hl Hi) as ([p n] & Hp & [E Hn]).
  simpl in E, Hn. subst p. by exists i, n.
Qed.

(** Every other client still finds its bytes after an [alloc]. *)
Lemma alloc_kept s s' bl bl' live pl room size page_align p n c :
  alloc_post room s s' bl bl' size page_align p -> size <= n -> Forall2 covers live pl ->
  allocated (start_address (hheap s)) bl ≡ₚ pl -> allocated (start_address (hheap s)) bl' ≡ₚ (p, n) :: pl ->
  (forall q k, (q, k) ∈ live -> agree_on q (q + k) c (hmem s)) ->
  forall q k, (q, k) ∈ (p, size) :: live -> agree_on q (q + k) (granted p size (hmem s') c) (hmem s').
Proof.
  intros Hpost Hn Hlive Hpl Hpl' Hc q k Hq x Hx. unfold granted.
  destruct (Z.leb_spec p x), (Z.ltb_spec x (p + size)); cbn [andb]; try done.
  all: apply elem_of_cons in Hq as [[= -> ->]|Hq]; [lia|].
  all: destruct (covered _ _ _ _ Hlive Hq) as (i & n' & Hi & Hp' & Hk).
  all: rewrite <- (Hc q k Hq x Hx).
  all: apply (ap_kept _ _ _ _ _ _ _ _ Hpost q n'); [rewrite Hpl; by eapply list_elem_of_lookup_2|lia].
Qed.

Lemma free_kept s s' bl bl' live pl room p n c : free_post room s s' bl bl' p n -> Forall2 covers live pl ->
  allocated (start_address (hheap s)) bl' ≡ₚ pl ->
  (forall q k, (q, k) ∈ live -> agree_on q (q + k) c (hmem s)) ->
  forall q k, (q, k) ∈ live -> agree_on q (q + k) c (hmem s').
Proof.
  intros Hpost Hlive Hpl Hc q k Hq x Hx. rewrite <- (Hc q k Hq x Hx). destruct (covered _ _ _ _ Hlive Hq) as (i & n' & Hi & Hp' & Hk).
  apply (fp_kept _ _ _ _ _ _ _ Hpost q n'); [rewrite Hpl; by eapply list_elem_of_lookup_2|lia].
Qed.

Lemma session_step q q' : heap_step q q' -> session_ok q -> session_ok q'.
Proof.
  intros [s s' live room size page_align p c Hsz Hsz2 Hal Hr Hix Hrun
         |s s' l1 l2 room p size c Hix Hns Hr Hrun|s live room p size a v c Hp Ha];
    intros (Hc & bl & pl & Hwf & Hok & Hback & Hco & Hpl & Hlive).
  - destruct (alloc_correct room size page_align s bl Hwf Hok Hsz Hsz2 Hal Hback Hr Hix)
      as (p' & s1 & bl' & Hrun' & Hpost & _). rewrite Hrun in Hrun'. injection Hrun' as <- <-.
    destruct (ap_payloads _ _ _ _ _ _ _ _ Hpost) as (n & Hn & Hpl'). split.
    { eapply alloc_kept; [exact Hpost|exact Hn|exact Hlive|exact Hpl|by rewrite Hpl', Hpl|exact Hc]. }
    exists bl', ((p, n) :: pl). split_and!; try by apply Hpost.
    + rewrite (ap_start _ _ _ _ _ _ _ _ Hpost), Hpl', Hpl. done.
    + constructor; [by split|done].
  - apply Forall2_app_inv_l in Hlive as (k1 & k2' & Hl1 & Hl2 & ->).
    apply Forall2_cons_inv_l in Hl2 as ([p' n] & k2 & [Hpp Hn] & Hl2 & ->). simpl in Hpp, Hn. subst p'.
    destruct (free_correct room Hr s bl p n Hwf Hok) as (s1 & bl' & Hrun' & Hpost); [| |by apply Hns|done|].
    { rewrite Hpl. apply elem_of_app. right. by left. }
    { done. }
    rewrite Hrun in Hrun'. injection Hrun' as <-.
    assert (allocated (start_address (hheap s)) bl' ≡ₚ k1 ++ k2) as Hpl'.
    { apply (Permutation_cons_inv (a := (p, n))). rewrite <- (fp_payloads _ _ _ _ _ _ _ Hpost), Hpl. by rewrite Permutation_middle. }
    split.
    { eapply free_kept; [exact Hpost|by apply Forall2_app|exact Hpl'|]. intros b k Hb. apply Hc. set_solver. }
    exists bl', (k1 ++ k2). split_and!; try by apply Hpost.
    + by rewrite (fp_start _ _ _ _ _ _ _ Hpost).
    + by apply Forall2_app.
  - split.
    { intros b k Hb x Hx. simpl. unfold store8. by rewrite (Hc b k Hb x Hx). }
    destruct (covered _ _ _ _ Hlive Hp) as (i & n & Hi & Hp' & Hn).
    exists bl, pl. split_and!; try done. apply (heap_ok_write s bl p n); [exact Hok| |lia].
    rewrite Hpl. by eapply list_elem_of_lookup_2.
Qed.

Lemma session_facts s live room c : session_ok (s, live, room, c) ->
  heap_validate (hmem s) (hheap s) = Ok tt /\ pairwise_disjoint live /\
  forall p n, (p, n) ∈ live ->
    start_address (hheap s) + sizeof_header_t <= p /\ p + n <= end_address (hheap s) - sizeof_footer_t.
Proof.
  intros (_ & bl & pl & Hwf & Hok & _ & _ & Hpl & Hlive). split; [by eapply heap_validate_ok|].
  pose proof (pairwise_disjoint_perm _ _ Hpl (allocated_disjoint _ _ _ (ok_layout _ _ _ Hok))) as Hd.
  split.
  - intros i j x y Hij Hx Hy.
    destruct (Forall2_lookup_l _ _ _ _ _ Hlive Hx) as (x' & Hx' & [Ex1 Ex2]).
    destruct (Forall2_lookup_l _ _ _ _ _ Hlive Hy) as (y' & Hy' & [Ey1 Ey2]).
    pose proof (Hd i j _ _ Hij Hx' Hy') as Hxy. unfold disjoint_payloads in *. lia.
  - intros p n [i Hi]%list_elem_of_lookup.
    destruct (Forall2_lookup_l _ _ _ _ _ Hlive Hi) as ([p' k] & Hi' & [Hpp Hn]). simpl in Hpp, Hn. subst p'.
    apply list_elem_of_lookup_2 in Hi'. rewrite <- Hpl in Hi'.
    apply (allocated_range _ _ _ _ _ (ok_layout _ _ _ Hok)) in Hi'.
    rewrite (ok_total _ _ _ Hok) in Hi'. unfold sizeof_header_t, sizeof_footer_t. lia.
Qed.
End sessions.

(** C7: along every sequence of [alloc], [free] and writes by clients into
    their own payloads, starting from a freshly created heap, the payloads
    held by clients never overlap, each lies between a header and a footer
    of the arena, and each keeps its bytes: a client finds in its payload
    what was there when it got it, changed by its own writes only.  The
    metadata check passes throughout.  The calls are those that return:
    pages and index slots suffice, and no contraction leaves a sliver. *)
Theorem heap_sessions_safe {P} `{!PageBacking P} `{!PageBackingLaws P}
    start end_addr max pages (s0 s : hstate P) room0 live room c0 c :
  created start end_addr max pages s0 -> backed room0 s0 ->
  rtc heap_step (s0, [], room0, c0) (s, live, room, c) ->
  heap_validate (hmem s) (hheap s) = Ok tt /\ pairwise_disjoint live /\
  forall p n, (p, n) ∈ live ->
    start_address (hheap s) + sizeof_header_t <= p /\ p + n <= end_address (hheap s) - sizeof_footer_t /\
    forall a, p <= a < p + n -> load8 (hmem s) a = load8 c a.
Proof.
  intros Hcr Hback Hsteps.
  assert (session_ok (s0, [], room0, c0)) as H0.
  { split; [intros p n Hp; by apply not_elem_of_nil in Hp|].
    exists [(true, end_addr - arena_start start)], []. split_and!; [apply Hcr|apply Hcr|done..|]. constructor. }
  assert (session_ok (s, live, room, c)) as Hok.
  { revert H0. generalize (s0, @nil (Z * Z), room0, c0) (s, live, room, c) Hsteps.
    intros q q' Hq. induction Hq as [|q1 q2 q3 H1 _ IH]; [done|]. intros Hok. by eapply IH, session_step. }
  destruct (session_facts s live room c Hok) as (H1 & H2 & H3). split_and!; [done..|]. intros p n Hp.
  destruct (H3 p n Hp). split_and!; [done..|]. intros a Ha. by apply (proj1 Hok p n Hp).
Qed.

(** Two clients get payloads; the first writes before and after the second
    allocation; then the second payload is freed. *)
Definition client_writes (a v : Z) (s : hstate Z) : hstate Z := with_heap s (store8 (hmem s) a v) (hheap s).
Lemma two_clients_run : ('(p, s1) ← (s0 ← boot_heap; alloc 4 100 0 s0);
  '(q, s2) ← alloc 4 50 0 (client_writes p 7 s1);
  s3 ← free q (client_writes (p + 1) 8 s2);
  Ok ((q =? start_address (hheap s2) + 132) && (OrderedArray.size (index (hheap s1)) <? 10) && (OrderedArray.size (index (hheap s2)) <? 10) &&
      (max_size (index (hheap s1)) =? HEAP_INDEX_SIZE) && (max_size (index (hheap s2)) =? HEAP_INDEX_SIZE),
      (load8 (hmem s3) p, load8 (hmem s3) (p + 1)))) = Ok (true, (7, 8)).
Proof. vm_compute. reflexivity. Qed.

Lemma two_clients_parts s0 : boot_heap = Ok s0 -> exists p s1 q s2 s3, alloc 4 100 0 s0 = Ok (p, s1) /\
  alloc 4 50 0 (client_writes p 7 s1) = Ok (q, s2) /\ free q (client_writes (p + 1) 8 s2) = Ok s3 /\
  q = start_address (hheap s2) + 132 /\
  OrderedArray.size (index (hheap s1)) + 3 < max_size (index (hheap s1)) /\ OrderedArray.size (index (hheap s2)) < max_size (index (hheap s2)) /\
  load8 (hmem s3) p = 7 /\ load8 (hmem s3) (p + 1) = 8.
Proof.
  intros H0. pose proof (bind_Ok_inv _ _ _ two_clients_run) as ([p s1] & H1 & H). apply bind_Ok_inv in H1 as (s0' & H0' & H1).
  assert (s0' = s0) as -> by congruence. apply bind_Ok_inv in H as ([q s2] & H2 & H). apply bind_Ok_inv in H as (s3 & H3 & H).
  injection H as H Hp Hp1. apply andb_true_iff in H as [[[[Hq%Z.eqb_eq A1%Z.ltb_lt]%andb_true_iff A2%Z.ltb_lt]%andb_true_iff A3%Z.eqb_eq]%andb_true_iff A4%Z.eqb_eq].
  exists p, s1, q, s2, s3. unfold HEAP_INDEX_SIZE in A3, A4. rewrite A3, A4. clear - H1 H2 H3 Hp Hp1 Hq A1 A2.
  split; [exact H1|]. split; [exact H2|]. split; [exact H3|]. split; [exact Hq|].
  split; [lia|]. split; [lia|]. split; [exact Hp|exact Hp1].
Qed.

Lemma layout_tail_nonneg m a pre : layout m a pre -> 0 <= tail_size pre.
Proof.
  intros Hl. destruct (left_cases pre) as [(h & l & -> & -> & _)|(-> & _)]; [|done].
  apply layout_app in Hl as [_ [[Hn _] _]]. change MIN_BLOCK with 20 in Hn. simpl in Hn. lia.
Qed.

Lemma low_block_no_sliver bl a q m : layout m a bl -> q = a + 132 -> no_sliver bl q a.
Proof.
  intros Hl -> pre n post -> Hq _. apply layout_app in Hl as [Hl _]. right.
  pose proof (layout_tail_nonneg _ _ _ Hl). destruct (kept_length_spec (total pre - tail_size pre)) as (K1 & K2 & _).
  revert K1 K2 H Hq. change MIN_BLOCK with 20. unfold sizeof_header_t, HEAP_MIN_SIZE. lia.
Qed.

Lemma heap_sessions_safe_witness : exists (s0 s : hstate Z) live room c, rtc heap_step (s0, [], 0x9000, fun _ => 0) (s, live, room, c) /\
  exists p, live = [(p, 100)] /\ heap_validate (hmem s) (hheap s) = Ok tt /\ pairwise_disjoint live /\
    load8 c p = 7 /\ load8 (hmem s) p = 7 /\ load8 (hmem s) (p + 1) = 8.
Proof.
  destruct boot_heap_created as (s0 & Hs & Hc). destruct (two_clients_parts s0 Hs) as (p & s1 & q & s2 & s3 & H1 & H2 & H3 & Hq & I1 & I2 & L1 & L2).
  set (c3 := store8 (granted q 50 (hmem s2) (store8 (granted p 100 (hmem s1) (fun _ => 0)) p 7)) (p + 1) 8).
  assert (rtc heap_step (s0, [], 0x9000, fun _ => 0) (s3, [(p, 100)], 0x3000, c3)) as Hsteps.
  { change 0x9000 with (3 * round_up_page (100 + MIN_BLOCK) + 0x6000).
    eapply rtc_l; [apply (step_alloc s0 s1 [] 0x6000 100 0 p); [lia|reflexivity|lia|lia| |exact H1];
      by rewrite (cr_index _ _ _ _ _ Hc), (cr_cap _ _ _ _ _ Hc)|].
    eapply rtc_l; [apply (step_write s1 _ _ p 100 p 7); [by left|lia]|].
    change 0x6000 with (3 * round_up_page (50 + MIN_BLOCK) + 0x3000).
    eapply rtc_l; [apply (step_alloc (client_writes p 7 s1) s2 _ 0x3000 50 0 q); [lia|reflexivity|lia|lia|exact I1|exact H2]|].
    eapply rtc_l; [apply (step_write s2 _ _ p 100 (p + 1) 8); [by right; left|lia]|].
    apply rtc_once. apply (step_free (client_writes (p + 1) 8 s2) s3 [] [(p, 100)] 0x3000 q 50); [exact I2| |lia|exact H3].
    intros bl Hok. eapply low_block_no_sliver; [exact (ok_layout _ _ _ Hok)|exact Hq]. }
  exists s0, s3, [(p, 100)], 0x3000, c3. split; [exact Hsteps|]. exists p. split; [reflexivity|].
  destruct (heap_sessions_safe _ _ _ _ s0 s3 0x9000 [(p, 100)] 0x3000 (fun _ => 0) c3 Hc) as (V1 & V2 & V3).
  - apply boot_backed; [exact Hc|lia].
  - exact Hsteps.
  - destruct (V3 p 100 ltac:(left)) as (_ & _ & V4). split; [exact V1|]. split; [exact V2|].
    split; [rewrite <- (V4 p) by lia; exact L1|]. split; [exact L1|exact L2].
Defined.

(** ** A contraction that leaves a sliver *)

(** Two allocations whose boundary lies four bytes below a page boundary
    above HEAP_MIN_SIZE, then a [free] of the second. *)
Definition sliver_run : res (hstate Z) :=
  s ← boot_heap;
  '(_, s) ← alloc 4 (HEAP_MIN_SIZE + 0x1000 - 4 - 20) 0 s;
  '(b, s) ← alloc 4 100 0 s;
  free b s.

(** [free] of the last block contracts the heap to a page boundary; when
    fewer than 20 bytes of the freed hole remain below that boundary, the
    remnant is published as a hole that cannot hold its own tags, and the
    closing [heap_validate] stops the kernel although the caller's [free] was
    legitimate. *)
Theorem free_sliver_panics : sliver_run = Panic ASSERTION_FAILED.
Proof. vm_compute. reflexivity. Qed.
