(* ===== verification/Kmalloc.v ===== *)
(** * kheap.c: the kmalloc interface

    [Kmalloc] is what the rest of the kernel sees of the allocator, and
    [KmallocLaws] what it relies on.  [kernel_kmalloc] is the implementation
    of kheap.c: a bump pointer until the heap exists, the hole allocator
    afterwards.  A request says whether the caller passed a [phys] pointer;
    without one the physical address reported is 0.  [kept_heap] shows that
    the heap of kheap.c keeps the laws. *)

From stdpp Require Import fin_sets.
From S2P Require Import Prelude Memory OrderedArray KHeap HeapInv HeapContract HeapFree HeapTheorems.

Class Kmalloc (K : Type) : Type := {
  kmalloc_int : Z -> Z -> bool -> K -> res (Z * Z * K);
  kfree : Z -> K -> res K
}.

Section wrappers.
Context {K : Type} `{!Kmalloc K}.

Definition kmalloc_a (sz : Z) (k : K) : res (Z * K) :=
  '(a, _, k) ← kmalloc_int sz 1 false k; Ok (a, k).
Definition kmalloc_p (sz : Z) (k : K) : res (Z * Z * K) := kmalloc_int sz 0 true k.
Definition kmalloc_ap (sz : Z) (k : K) : res (Z * Z * K) := kmalloc_int sz 1 true k.
Definition kmalloc (sz : Z) (k : K) : res (Z * K) :=
  '(a, _, k) ← kmalloc_int sz 0 false k; Ok (a, k).
End wrappers.

(** Blocks are 32-bit addresses, new while live; a [kfree] of a live block
    that returns removes it.  kheap.c keeps these laws ([kept_heap_laws]
    below).  The frames under the heap's own pages are part of the
    allocator's state, not of its clients'. *)
Class KmallocLaws (K : Type) `{!Kmalloc K} : Type := {
  k_live : K -> gset Z;
  kmalloc_int_fresh sz align phys k a p k' :
    kmalloc_int sz align phys k = Ok (a, p, k') ->
    0 < a < 2 ^ 32 /\ (a ∉ k_live k) /\ k_live k' = ({[a]} ∪ k_live k);
  kfree_live a k k' : a ∈ k_live k -> kfree a k = Ok k' -> k_live k' = (k_live k ∖ {[a]})
}.

(** An allocator whose [kfree] returns for every live block.  kheap.c is one
    except where giving trailing pages back leaves a sliver
    ([free_sliver_panics]); only the theorems that say so assume it. *)
Class KfreeReturns (K : Type) `{!Kmalloc K} `{!KmallocLaws K} : Prop :=
  kfree_returns a k : a ∈ k_live k -> exists k', kfree a k = Ok k'.

Lemma kmalloc_fresh {K} `{!Kmalloc K} `{!KmallocLaws K} sz k a p k' :
  kmalloc_ap sz k = Ok (a, p, k') -> a <> 0 /\ (a ∉ k_live k) /\ k_live k' = ({[a]} ∪ k_live k).
Proof. intros H%kmalloc_int_fresh. split; [lia|tauto]. Qed.

Lemma kmalloc_plain_fresh {K} `{!Kmalloc K} `{!KmallocLaws K} sz k a k' :
  kmalloc sz k = Ok (a, k') -> 0 < a < 2 ^ 32 /\ (a ∉ k_live k) /\ k_live k' = ({[a]} ∪ k_live k).
Proof.
  unfold kmalloc. intros ([[b p] k1] & H & [= <- <-])%bind_Ok_inv. by eapply kmalloc_int_fresh.
Qed.

Lemma kmalloc_a_fresh {K} `{!Kmalloc K} `{!KmallocLaws K} sz k a k' :
  kmalloc_a sz k = Ok (a, k') -> 0 < a < 2 ^ 32 /\ (a ∉ k_live k) /\ k_live k' = ({[a]} ∪ k_live k).
Proof.
  unfold kmalloc_a. intros ([[b p] k1] & H & [= <- <-])%bind_Ok_inv. by eapply kmalloc_int_fresh.
Qed.

(** ** Failure

    The result of some request that the allocator did not serve; what a
    caller that has no other way to fail can fail with. *)
Section failure.
Context {K : Type} `{!Kmalloc K}.

Definition alloc_failed {A} (r : res A) : Prop :=
  exists sz align phys k,
    match kmalloc_int sz align phys k with
    | Ok _ => False
    | Panic m => r = Panic m
    | OutOfFuel => r = OutOfFuel
    end.

Lemma alloc_failed_not_ok {A} (r : res A) : alloc_failed r -> forall a, r <> Ok a.
Proof. intros (sz & al & ph & k & H) a. destruct (kmalloc_int sz al ph k); [done|congruence..]. Qed.

Lemma alloc_failed_bind {A B} (r : res A) (f : A -> res B) : alloc_failed r -> alloc_failed (r ≫= f).
Proof.
  intros (sz & al & ph & k & Hk). exists sz, al, ph, k.
  destruct (kmalloc_int sz al ph k); [done|by subst..].
Qed.

Lemma kmalloc_int_cases sz align phys k :
  (exists x, kmalloc_int sz align phys k = Ok x) \/ alloc_failed (kmalloc_int sz align phys k).
Proof.
  destruct (kmalloc_int sz align phys k) as [x|m|] eqn:E; [left; by exists x|right|right];
    exists sz, align, phys, k; by rewrite E.
Qed.

Lemma kmalloc_cases sz k : (exists a k', kmalloc sz k = Ok (a, k')) \/ alloc_failed (kmalloc sz k).
Proof.
  unfold kmalloc. destruct (kmalloc_int_cases sz 0 false k) as [[[[a p] k'] ->]|Hf]; [left|right].
  - rsimpl. eauto.
  - by apply alloc_failed_bind.
Qed.

Context `{!KmallocLaws K}.

(** The result of some [kfree] of a live block that did not return. *)
Definition free_failed {A} (r : res A) : Prop :=
  exists a k, a ∈ k_live k /\
    match kfree a k with
    | Ok _ => False
    | Panic m => r = Panic m
    | OutOfFuel => r = OutOfFuel
    end.

Lemma free_failed_not_ok {A} (r : res A) : free_failed r -> forall a, r <> Ok a.
Proof. intros (b & k & _ & H) a. destruct (kfree b k); [done|congruence..]. Qed.

Lemma free_failed_bind {A B} (r : res A) (f : A -> res B) : free_failed r -> free_failed (r ≫= f).
Proof. intros (a & k & Hl & H). exists a, k. split; [done|]. destruct (kfree a k); [done|by subst..]. Qed.

Lemma kfree_cases a k : a ∈ k_live k ->
  (exists k', kfree a k = Ok k' /\ k_live k' = (k_live k ∖ {[a]})) \/ free_failed (kfree a k).
Proof.
  intros Hl. destruct (kfree a k) as [k'|m|] eqn:E; [left; exists k'; split; [done|]; by eapply kfree_live|right..];
    exists a, k; by rewrite E.
Qed.

Lemma free_never_fails `{!KfreeReturns K} {A} (r : res A) : ~ free_failed r.
Proof. intros (a & k & Hl & H). destruct (kfree_returns a k Hl) as [k' E]. by rewrite E in H. Qed.
End failure.

(** ** The implementation *)

(** [get_page(address, 0, kernel_directory)]: null, or present bit and frame. *)
Class PageWalk (P : Type) : Type := {
  pw_page : P -> Z -> option (Z * Z)
}.

(** [placement_address] and [kheap]; [None] is the null pointer. *)
Record kernel_alloc (P : Type) : Type := mk_kernel_alloc {
  placement_address : Z;
  kheap : option (hstate P)
}.
Arguments mk_kernel_alloc {P}. Arguments placement_address {P}. Arguments kheap {P}.

(** The retries of [alloc]; three always suffice. *)
Definition ALLOC_ROUNDS : nat := 4.

Section implementation.
Context {P : Type} `{!PageBacking P} `{!PageWalk P}.
Implicit Types k : kernel_alloc P.

(** The bump allocator of early boot. *)
Definition early_kmalloc (sz align : Z) (phys : bool) k : res (Z * Z * kernel_alloc P) :=
  place ←
    (if (align =? 1) && negb (Z.land (placement_address k) 0xFFF =? 0) then
       let place := Z.land (placement_address k) 0xFFFFF000 in
       ASSERT (place <=? 0xFFFFEFFF);;
       Ok (u32 (place + 0x1000))
     else Ok (placement_address k));
  ASSERT (sz <=? 0xFFFFFFFF - place);;
  Ok (place, if phys then place else 0, mk_kernel_alloc (u32 (place + sz)) (kheap k)).

(** Allocation from the heap, translated through the kernel directory. *)
Definition heap_kmalloc (sz align : Z) (phys : bool) (h : hstate P) k : res (Z * Z * kernel_alloc P) :=
  '(addr, h) ← alloc ALLOC_ROUNDS sz (u8 align) h;
  let k := mk_kernel_alloc (placement_address k) (Some h) in
  if phys then
    match pw_page (hpages h) addr with
    | None => Panic ASSERTION_FAILED
    | Some (present, frame) =>
        ASSERT (negb (present =? 0));;
        Ok (addr, u32 (frame * 0x1000 + Z.land addr 0xFFF), k)
    end
  else Ok (addr, 0, k).

#[export] Instance kernel_kmalloc : Kmalloc (kernel_alloc P) := {|
  kmalloc_int sz align phys k :=
    match kheap k with
    | Some h => heap_kmalloc sz align phys h k
    | None => early_kmalloc sz align phys k
    end;
  kfree p k :=
    match kheap k with
    | Some h => h ← free p h; Ok (mk_kernel_alloc (placement_address k) (Some h))
    | None => Panic ASSERTION_FAILED
    end
|}.

(** ** Early allocations *)

(** A list of boot-time requests: size and alignment. *)
Fixpoint early_requests (reqs : list (Z * Z)) k : res (list (Z * Z) * kernel_alloc P) :=
  match reqs with
  | [] => Ok ([], k)
  | (sz, align) :: reqs =>
      '(a, _, k) ← kmalloc_int sz align true k;
      '(blocks, k) ← early_requests reqs k;
      Ok ((a, sz) :: blocks, k)
  end.

(** Blocks in ascending order without overlap, from [lo] up to [hi]; an
    aligned request starts on a page. *)
Fixpoint bump_layout (lo : Z) (reqs blocks : list (Z * Z)) (hi : Z) : Prop :=
  match reqs, blocks with
  | [], [] => lo = hi
  | (sz, align) :: reqs, (a, n) :: blocks =>
      n = sz /\ lo <= a < lo + 0x1000 /\ (align = 1 -> a `mod` 0x1000 = 0) /\ (align <> 1 -> a = lo) /\
      bump_layout (a + sz) reqs blocks hi
  | _, _ => False
  end.

(** How far the requests move the bump pointer. *)
Fixpoint early_demand (reqs : list (Z * Z)) : Z :=
  match reqs with
  | [] => 0
  | (sz, align) :: reqs => (if align =? 1 then 0xFFF else 0) + sz + early_demand reqs
  end.

Lemma early_kmalloc_spec sz align phys k :
  is_u32 (placement_address k) -> 0 <= sz ->
  placement_address k + (if align =? 1 then 0xFFF else 0) + sz < 2 ^ 32 ->
  exists a, early_kmalloc sz align phys k = Ok (a, if phys then a else 0, mk_kernel_alloc (a + sz) (kheap k)) /\
    placement_address k <= a <= placement_address k + (if align =? 1 then 0xFFF else 0) /\
    (align = 1 -> a `mod` 0x1000 = 0) /\ (align <> 1 -> a = placement_address k).
Proof.
  unfold is_u32. intros Hp Hsz Hfit. set (p := placement_address k) in *. unfold early_kmalloc. fold p.
  rewrite land_page_offset, land_page_base by done.
  pose proof (Z.mod_pos_bound p 0x1000 ltac:(lia)) as Hm.
  destruct (Z.eqb_spec align 1) as [->|Ha]; cbn [andb].
  - destruct (Z.eqb_spec (p `mod` 0x1000) 0) as [E|E]; cbn [negb].
    + rsimpl. assert_step. u32_simpl. exists p. split_and!; [done|lia|lia|done|done].
    + assert_step. u32_simpl. assert_step. u32_simpl. exists (p - p `mod` 0x1000 + 0x1000). split_and!; [done|lia|lia| |done].
      intros _. pose proof (Z.div_mod p 0x1000). replace (p - p `mod` 0x1000 + 0x1000) with ((p / 0x1000 + 1) * 0x1000) by lia.
      by apply Z.mod_mul.
  - rsimpl. assert_step. u32_simpl. exists p. by split_and!; try lia.
Qed.

Lemma early_requests_correct reqs : forall k,
  kheap k = None -> is_u32 (placement_address k) -> Forall (fun r => 0 <= fst r) reqs ->
  placement_address k + early_demand reqs < 2 ^ 32 ->
  exists blocks hi, early_requests reqs k = Ok (blocks, mk_kernel_alloc hi None) /\
    bump_layout (placement_address k) reqs blocks hi /\ hi <= placement_address k + early_demand reqs.
Proof.
  induction reqs as [|[sz align] reqs IH]; intros k Hk Hp Hpos Hfit.
  - exists [], (placement_address k). split_and!; [|done|simpl; lia]. simpl. rewrite <- Hk. by destruct k.
  - inversion Hpos as [|? ? Hsz Hpos']; subst. simpl in Hsz, Hfit. cbn [early_requests].
    assert (0 <= early_demand reqs) as Hd.
    { clear - Hpos'. induction Hpos' as [|[z al] l H _ IH]; simpl in *; [lia|]. destruct (al =? 1); lia. }
    destruct (early_kmalloc_spec sz align true k Hp Hsz) as (a & Hrun & Ha & Hal & Hna); [lia|].
    assert (kmalloc_int sz align true k = early_kmalloc sz align true k) as -> by (simpl; by rewrite Hk).
    rewrite Hrun. rsimpl. unfold is_u32 in *.
    destruct (IH (mk_kernel_alloc (a + sz) (kheap k))) as (blocks & hi & -> & Hl & Hhi); simpl; [done|..].
    + destruct (align =? 1); lia.
    + done.
    + lia.
    + rsimpl. exists ((a, sz) :: blocks), hi. split; [done|]. simpl in *. split_and!; try done; [lia..| |].
      * destruct (align =? 1); lia.
      * lia.
Qed.

Lemma bump_layout_bound reqs : forall lo blocks hi,
  Forall (fun r => 0 <= fst r) reqs -> bump_layout lo reqs blocks hi -> lo <= hi.
Proof.
  induction reqs as [|[sz al] reqs IH]; intros lo [|[a n] blocks] hi Hp Hl; simpl in Hl; [lia|done|done|].
  inversion Hp; subst. simpl in *. destruct Hl as (-> & Ha & _ & _ & Hl). apply IH in Hl; [lia|done].
Qed.

(** Before the heap exists, boot-time requests that fit below 4 GiB all
    succeed; the blocks are handed out in ascending order without
    overlapping, those that asked for alignment start on a page boundary and
    the others directly after their predecessor, and the bump pointer ends
    right behind the last block. *)
Theorem early_kmalloc_bumps reqs k :
  kheap k = None -> is_u32 (placement_address k) -> Forall (fun r => 0 <= fst r) reqs ->
  placement_address k + early_demand reqs < 2 ^ 32 ->
  exists blocks hi, early_requests reqs k = Ok (blocks, mk_kernel_alloc hi None) /\
    bump_layout (placement_address k) reqs blocks hi /\
    placement_address k <= hi <= placement_address k + early_demand reqs.
Proof.
  intros Hk Hp Hpos Hfit. destruct (early_requests_correct reqs k Hk Hp Hpos Hfit) as (blocks & hi & Hr & Hl & Hhi).
  exists blocks, hi. split_and!; [done..| |done]. by eapply bump_layout_bound.
Qed.
End implementation.

(** ** kheap.c keeps the laws

    [kept_heap] is the state of kheap.c once the heap exists, with what every
    call preserves: the boundary tags spell blocks that tile the arena.  Its
    live blocks are read off those tags.  Its operations are those of kheap.c
    where their preconditions hold (pages, index slots, and for [kfree] no
    sliver left by a contraction) and panic elsewhere, so whatever they
    return kheap.c returns. *)

(** The blocks that the tags from [a] up to [hi] spell. *)
Fixpoint read_blocks (fuel : nat) (m : mem) (a hi : Z) : list block :=
  match fuel with
  | O => []
  | S fuel => if a <? hi then (hdr_is_hole m a =? 1, hdr_size m a) :: read_blocks fuel m (a + hdr_size m a) hi else []
  end.

Lemma read_blocks_layout fuel m a bl : layout m a bl -> (List.length bl <= fuel)%nat -> read_blocks fuel m a (a + total bl) = bl.
Proof.
  revert a fuel. induction bl as [|[f n] bl IH]; intros a [|fuel]; simpl; intros Hl Hf; try done; try lia.
  - by rewrite (proj2 (Z.ltb_ge _ _)) by lia.
  - destruct Hl as [(Hn & _ & Hh & Hs & _) Hl]. simpl in Hn, Hh, Hs. change MIN_BLOCK with 20 in Hn.
    pose proof (layout_total_nonneg _ _ _ Hl). rewrite (proj2 (Z.ltb_lt _ _)), Hh, Hs by lia.
    replace (a + (n + total bl)) with (a + n + total bl) by lia. rewrite IH by (done || lia). by destruct f.
Qed.

Lemma allocated_NoDup m a bl : layout m a bl -> NoDup (allocated a bl).*1.
Proof.
  revert a. induction bl as [|[[] n] bl IH]; intros a; simpl; [constructor|intros [_ Hl]; by apply IH|].
  intros [[Hn _] Hl]. constructor; [|by apply IH]. simpl in Hn. change MIN_BLOCK with 20 in Hn.
  intros ([q k] & E & Hq)%list_elem_of_fmap. apply (allocated_range _ _ _ _ _ Hl) in Hq. simpl in E. unfold sizeof_header_t in E. lia.
Qed.

(** Does freeing [p] leave room for the tags of what remains of its hole? *)
Definition no_sliverb (bl : list block) (p a : Z) : bool :=
  forallb (fun i => match bl !! i with
    | Some (false, _) =>
        let below := total (take i bl) - tail_size (take i bl) in
        negb (p =? a + total (take i bl) + sizeof_header_t) || negb (bool_decide (drop_head_hole (drop (S i) bl) = [])) ||
        (kept_length below =? below) || (MIN_BLOCK <=? kept_length below - below)
    | _ => true
    end) (seq 0 (List.length bl)).

Lemma no_sliverb_sound bl p a : no_sliverb bl p a = true -> no_sliver bl p a.
Proof.
  intros H pre n post -> Hp Hd. unfold no_sliverb in H. rewrite forallb_forall in H.
  specialize (H (List.length pre)). rewrite list_lookup_middle, take_app_length in H by done.
  assert (@drop block (S (List.length pre)) (pre ++ (false, n) :: post) = post) as E.
  { change (pre ++ (false, n) :: post) with (pre ++ [(false, n)] ++ post). rewrite app_assoc. apply drop_app_length'. rewrite length_app. simpl. lia. }
  unfold block in *. rewrite E, Hd, (proj2 (Z.eqb_eq _ _) Hp), bool_decide_true in H by done. cbn [negb orb] in H.
  unfold remnant_ok. rewrite orb_true_iff, Z.eqb_eq, Z.leb_le in H. apply H, in_seq. rewrite length_app. simpl. lia.
Qed.

(** May [room] more bytes be granted? *)
Class HeapRoom (P : Type) `{!PageBacking P} `{!PageBackingLaws P} : Type := {
  has_room : Z -> hstate P -> bool;
  has_room_backed room (s : hstate P) : backed 0 s -> has_room room s = true -> backed room s
}.

Section kept.
Context {P : Type} `{!PageBacking P} `{!PageBackingLaws P} `{!HeapRoom P} `{!PageWalk P}.
Implicit Types s : hstate P.

Definition heap_blocks s : list block :=
  let h := hheap s in
  read_blocks (Z.to_nat ((end_address h - start_address h) / MIN_BLOCK)) (hmem s) (start_address h) (end_address h).

Record kept s : Prop := {
  kept_wf : heap_wf (hheap s);
  kept_ok : heap_ok (hmem s) (hheap s) (heap_blocks s);
  kept_backed : backed 0 s;
  kept_coalesced : coalesced (heap_blocks s) = true
}.

Lemma heap_blocks_eq s bl : heap_ok (hmem s) (hheap s) bl -> heap_blocks s = bl.
Proof.
  intros [Hl Ht _ _ _ _]. unfold heap_blocks. rewrite <- Ht. apply read_blocks_layout; [done|].
  pose proof (layout_total _ _ _ Hl) as Hn. change MIN_BLOCK with 20 in *.
  replace (start_address (hheap s) + total bl - start_address (hheap s)) with (total bl) by lia.
  pose proof (Z.div_le_lower_bound (total bl) 20 (Z.of_nat (List.length bl))). lia.
Qed.

Lemma kept_intro s bl : heap_wf (hheap s) -> heap_ok (hmem s) (hheap s) bl -> backed 0 s -> coalesced bl = true -> kept s.
Proof. intros Hwf Hok Hb Hc. pose proof (heap_blocks_eq s bl Hok) as E. split; by rewrite ?E. Qed.

Record kept_heap : Type := mk_kept { kept_state : hstate P; kept_inv : kept kept_state }.
Implicit Types k : kept_heap.

Definition payloads k : list Z := (allocated (start_address (hheap (kept_state k))) (heap_blocks (kept_state k))).*1.

(** Can [alloc] serve this request? *)
Definition servable (sz : Z) s : bool :=
  (0 <? sz) && (sz + MIN_BLOCK <? 2 ^ 32) && (OrderedArray.size (index (hheap s)) + 3 <? max_size (index (hheap s))) &&
  has_room (3 * round_up_page (sz + MIN_BLOCK)) s.

Lemma kept_alloc sz align s : kept s -> servable sz s = true ->
  exists p s' bl', alloc ALLOC_ROUNDS sz (u8 align) s = Ok (p, s') /\ kept s' /\ heap_blocks s' = bl' /\
    alloc_post 0 s s' (heap_blocks s) bl' sz (u8 align) p.
Proof.
  intros [Hwf Hok Hb Hc] Hs. unfold servable in Hs. rewrite !andb_true_iff, !Z.ltb_lt in Hs. destruct Hs as (((H1 & H2) & H3) & H4).
  destruct (alloc_correct 0 sz (u8 align) s _ Hwf Hok H1 H2) as (p & s' & bl' & Hrun & Hpost & _); try done.
  - unfold u8. apply Z.mod_pos_bound. done.
  - rewrite Z.add_0_r. by apply has_room_backed.
  - exists p, s', bl'. split; [exact Hrun|]. split; [apply (kept_intro s' bl'); by apply Hpost|]. split; [|exact Hpost].
    apply heap_blocks_eq. by apply Hpost.
Qed.

(** Can [free] release this payload? *)
Definition freeable (p : Z) k : bool :=
  let s := kept_state k in
  bool_decide (p ∈ payloads k) && (OrderedArray.size (index (hheap s)) <? max_size (index (hheap s))) &&
  no_sliverb (heap_blocks s) p (start_address (hheap s)).

Lemma kept_free p k : freeable p k = true ->
  exists n s' bl', free p (kept_state k) = Ok s' /\ kept s' /\ heap_blocks s' = bl' /\
    free_post 0 (kept_state k) s' (heap_blocks (kept_state k)) bl' p n.
Proof.
  destruct k as [s [Hwf Hok Hb Hc]]. unfold freeable, payloads. cbn [kept_state]. intros H.
  rewrite !andb_true_iff, bool_decide_eq_true, Z.ltb_lt in H. destruct H as ((([q n] & -> & Hp)%list_elem_of_fmap & H2) & H3%no_sliverb_sound).
  destruct (free_correct 0 ltac:(lia) s _ q n Hwf Hok Hp Hb H3 H2) as (s' & bl' & Hrun & Hpost).
  exists n, s', bl'. split; [exact Hrun|]. split; [apply (kept_intro s' bl'); by apply Hpost|]. split; [|exact Hpost].
  apply heap_blocks_eq. by apply Hpost.
Qed.

(** The invariant travels with the state. *)
Definition keep {A} (r : res (A * hstate P)) (H : forall a s, r = Ok (a, s) -> kept s) : res (A * kept_heap) :=
  match r as r' return r = r' -> res (A * kept_heap) with
  | Ok (a, s) => fun E => Ok (a, mk_kept s (H a s E))
  | Panic m => fun _ => Panic m
  | OutOfFuel => fun _ => OutOfFuel
  end eq_refl.

Lemma keep_Ok {A} (r : res (A * hstate P)) H a k : keep r H = Ok (a, k) -> r = Ok (a, kept_state k).
Proof. unfold keep. destruct r as [[b s]|m|]; [|done..]. by intros [= <- <-]. Qed.

Lemma keep_returns {A} (r : res (A * hstate P)) H a s : r = Ok (a, s) -> exists k, keep r H = Ok (a, k).
Proof. intros ->. unfold keep. eauto. Qed.

Lemma alloc_keeps sz align s : kept s -> servable sz s = true -> forall p s', alloc ALLOC_ROUNDS sz (u8 align) s = Ok (p, s') -> kept s'.
Proof. intros Hk Hs p s' E. destruct (kept_alloc sz align s Hk Hs) as (q & s1 & bl & E' & H & _). congruence. Qed.

Lemma free_keeps p k : freeable p k = true -> forall (u : unit) s', (s ← free p (kept_state k); Ok (tt, s)) = Ok (u, s') -> kept s'.
Proof. intros Hf u s' (s & E & [= _ <-])%bind_Ok_inv. destruct (kept_free p k Hf) as (n & s1 & bl & E' & H & _). congruence. Qed.

#[export] Instance kept_kmalloc : Kmalloc kept_heap := {|
  kmalloc_int sz align phys k :=
    match sumbool_of_bool (servable sz (kept_state k)) with
    | left H =>
        '(a, k) ← keep (alloc ALLOC_ROUNDS sz (u8 align) (kept_state k)) (alloc_keeps sz align (kept_state k) (kept_inv k) H);
        if phys then
          match pw_page (hpages (kept_state k)) a with
          | None => Panic ASSERTION_FAILED
          | Some (present, frame) =>
              ASSERT (negb (present =? 0));;
              Ok (a, u32 (frame * 0x1000 + Z.land a 0xFFF), k)
          end
        else Ok (a, 0, k)
    | right _ => Panic ASSERTION_FAILED
    end;
  kfree p k :=
    match sumbool_of_bool (freeable p k) with
    | left H => '(_, k) ← keep (s ← free p (kept_state k); Ok (tt, s)) (free_keeps p k H); Ok k
    | right _ => Panic ASSERTION_FAILED
    end
|}.

Ltac kept_simpl := cbn [kmalloc_int kfree kept_kmalloc kernel_kmalloc kheap].

(** What it returns, kheap.c returns. *)
Lemma kept_kmalloc_is_kheap sz align phys k a q k' place :
  kmalloc_int sz align phys k = Ok (a, q, k') ->
  kmalloc_int sz align phys (mk_kernel_alloc place (Some (kept_state k))) = Ok (a, q, mk_kernel_alloc place (Some (kept_state k'))).
Proof.
  kept_simpl. destruct sumbool_of_bool as [H|]; [|done]. intros ([b k1] & E%keep_Ok & Hr)%bind_Ok_inv.
  unfold heap_kmalloc. rewrite E. rsimpl. cbn [hpages placement_address]. destruct phys; [|by simplify_eq].
  destruct (pw_page _ b) as [[pr f]|]; [|done]. destruct (negb (pr =? 0)); rsimpl; [|done]. by injection Hr as <- <- <-.
Qed.

Lemma kept_kfree_is_kheap p k k' place : kfree p k = Ok k' ->
  kfree p (mk_kernel_alloc place (Some (kept_state k))) = Ok (mk_kernel_alloc place (Some (kept_state k'))).
Proof.
  kept_simpl. destruct sumbool_of_bool as [H|]; [|done]. intros ([u k1] & E%keep_Ok & [= <-])%bind_Ok_inv.
  apply bind_Ok_inv in E as (s & -> & [= _ <-]). by rsimpl.
Qed.

(** Short of a sliver and of index slots, [kfree] of a live block returns. *)
Lemma kept_kfree_returns p k : freeable p k = true -> exists k', kfree p k = Ok k'.
Proof.
  intros Hf. kept_simpl. destruct sumbool_of_bool as [H|H]; [|congruence].
  destruct (kept_free p k H) as (n & s' & bl & E & _).
  destruct (keep_returns (s ← free p (kept_state k); Ok (tt, s)) (free_keeps p k H) tt s') as [k' ->]; [by rewrite E|]. by exists k'.
Qed.

Lemma kept_kmalloc_returns sz align k : servable sz (kept_state k) = true -> exists a k', kmalloc_int sz align false k = Ok (a, 0, k').
Proof.
  intros Hs. kept_simpl. destruct sumbool_of_bool as [H|H]; [|congruence].
  destruct (kept_alloc sz align _ (kept_inv k) H) as (a & s' & bl & E & _).
  destruct (keep_returns _ (alloc_keeps sz align _ (kept_inv k) H) a s' E) as [k' ->]. by exists a, k'.
Qed.

Lemma payloads_NoDup k : NoDup (payloads k).
Proof. eapply allocated_NoDup, kept_ok, kept_inv. Qed.

Lemma kept_kmalloc_payloads sz align phys k a q k' : kmalloc_int sz align phys k = Ok (a, q, k') -> payloads k' ≡ₚ a :: payloads k.
Proof.
  kept_simpl. destruct sumbool_of_bool as [H|]; [|done]. intros ([b k1] & E%keep_Ok & Hr)%bind_Ok_inv.
  assert (a = b /\ k' = k1) as [-> ->].
  { destruct phys; [|by injection Hr as <- <- <-]. destruct (pw_page _ b) as [[pr f]|]; [|done].
    destruct (negb (pr =? 0)); rsimpl; [|done]. by injection Hr as <- <- <-. }
  destruct (kept_alloc sz align _ (kept_inv k) H) as (b' & s' & bl & E' & _ & <- & Hpost).
  rewrite E in E'. injection E' as <- <-. destruct (ap_payloads _ _ _ _ _ _ _ _ Hpost) as (n & _ & Hp).
  unfold payloads. by rewrite (ap_start _ _ _ _ _ _ _ _ Hpost), Hp.
Qed.

Lemma kept_kfree_payloads p k k' : kfree p k = Ok k' -> payloads k ≡ₚ p :: payloads k'.
Proof.
  kept_simpl. destruct sumbool_of_bool as [H|]; [|done]. intros ([u k1] & E%keep_Ok & [= <-])%bind_Ok_inv.
  apply bind_Ok_inv in E as (s & E & [= _ ->]).
  destruct (kept_free p k H) as (n & s' & bl & E' & _ & <- & Hpost). rewrite E in E'. injection E' as <-.
  unfold payloads. by rewrite (fp_start _ _ _ _ _ _ _ Hpost), (fp_payloads _ _ _ _ _ _ _ Hpost).
Qed.

Lemma payload_range k a : a ∈ payloads k -> 0 < a < 2 ^ 32.
Proof.
  destruct (kept_inv k) as [Hwf Hok _ _]. intros ([q n] & -> & Hq)%list_elem_of_fmap.
  apply (allocated_range _ _ _ _ _ (ok_layout _ _ _ Hok)) in Hq. rewrite (ok_total _ _ _ Hok) in Hq.
  pose proof (wf_start _ Hwf). pose proof (wf_end _ Hwf). simpl. lia.
Qed.

#[export] Program Instance kept_heap_laws : KmallocLaws kept_heap := {| k_live k := list_to_set (payloads k) |}.
Next Obligation.
  intros sz align phys k a q k' H. cbn beta. apply kept_kmalloc_payloads in H. pose proof (payloads_NoDup k') as Hd.
  split; [apply (payload_range k'); rewrite H; by left|]. rewrite H in Hd. apply NoDup_cons in Hd as [Hn _].
  split; [by rewrite elem_of_list_to_set|]. by rewrite H.
Qed.
Next Obligation.
  intros a k k' Ha H. cbn beta in *. apply kept_kfree_payloads in H. pose proof (payloads_NoDup k) as Hd.
  rewrite H in Hd |- *. apply NoDup_cons in Hd as [Hn _]. apply set_eq. intros x.
  rewrite elem_of_difference, elem_of_singleton, !elem_of_list_to_set, elem_of_cons. destruct (decide (x = a)) as [->|]; tauto.
Qed.
End kept.
Arguments kept_heap P {_ _}.
Arguments kept_heap_laws {_ _ _ _ _}.

(** Pages that are only counted; each is behind its own address. *)
#[export] Program Instance counted_room : HeapRoom Z := {|
  has_room room s := (end_address (hheap s) + room <=? max_address (hheap s)) && (room <=? hpages s * 0x1000)
|}.
Next Obligation.
  intros room s (Hal & Hmin & _ & lo & hi & n & _ & Hlo & _) H. rewrite andb_true_iff, !Z.leb_le in H. destruct H as [H1 H2].
  split; [done|]. split; [done|]. split; [done|].
  exists lo, (end_address (hheap s) + room), (hpages s). cbn [pb_ready counted_backing_laws]. split_and!; [lia|done|lia|done].
Qed.

#[export] Instance counted_walk : PageWalk Z := {| pw_page _ a := Some (1, a / 0x1000) |}.

(** The heap of boot is such a heap, and serves its callers. *)
Lemma boot_heap_kept : exists s, boot_heap = Ok s /\ exists k : kept_heap Z, kept_state k = s /\ payloads k = [].
Proof.
  destruct boot_heap_created as (s & Hs & Hc). exists s. split; [done|].
  assert (kept s) as Hk.
  { eapply kept_intro; [apply Hc|exact (cr_ok _ _ _ _ _ Hc)|apply boot_backed; [exact Hc|lia]|done]. }
  exists (mk_kept s Hk). split; [done|]. unfold payloads. cbn [kept_state].
  by rewrite (heap_blocks_eq s _ (cr_ok _ _ _ _ _ Hc)).
Qed.

Lemma early_kmalloc_bumps_witness :
  exists blocks hi, early_requests [(36, 0); (8196, 1); (4096, 1)] (mk_kernel_alloc (P := Z) 0x101234 None) =
      Ok (blocks, mk_kernel_alloc hi None) /\
    bump_layout 0x101234 [(36, 0); (8196, 1); (4096, 1)] blocks hi.
Proof.
  destruct (early_kmalloc_bumps (P := Z) [(36, 0); (8196, 1); (4096, 1)] (mk_kernel_alloc 0x101234 None))
    as (blocks & hi & Hr & Hl & _); simpl; unfold is_u32; [reflexivity|lia|repeat constructor; simpl; lia|lia|].
  exists blocks, hi. split; assumption.
Defined.

(** ** An allocator for concrete runs: the set of live addresses *)

Definition next_block (k : gset Z) : Z := set_fold Z.max 0 k + 0x1000.

#[export] Instance set_kmalloc : Kmalloc (gset Z) := {|
  kmalloc_int sz align phys k :=
    let a := next_block k in
    if bool_decide (0 < a < 2 ^ 32 /\ (a ∉ k)) then Ok (a, a, {[a]} ∪ k) else Panic ASSERTION_FAILED;
  kfree a k := if decide (a ∈ k) then Ok (k ∖ {[a]}) else Panic ASSERTION_FAILED
|}.

#[export] Program Instance set_kmalloc_laws : KmallocLaws (gset Z) := {| k_live := id |}.
Next Obligation.
  intros sz align phys k a p k'. simpl. case_bool_decide as H; [|done]. intros [= <- <- <-]. tauto.
Qed.
Next Obligation. intros a k k' Ha. simpl in *. rewrite decide_True by done. by intros [= <-]. Qed.

#[export] Instance set_kfree_returns : KfreeReturns (gset Z).
Proof. intros a k Ha. simpl in *. exists (k ∖ {[a]}). by rewrite decide_True. Qed.
