(* ===== verification/Keyboard.v ===== *)
(** * keyboard.c: scancode decoding and the input ring buffer

    [keyboard_interrupt] is the IRQ1 handler, with the scancode that [inb]
    read as an argument and whether it called [task_wake_keyboard_waiters]
    as a result.  The ring keeps one slot empty, so it is a FIFO of at most
    127 characters; the refinement theorem says so for every interleaving of
    interrupts and reads. *)

From S2P Require Import Prelude.

Definition KEYBOARD_BUFFER_SIZE : Z := 128.

Definition APOSTROPHE : Z := 39.
Definition QUOTE : Z := 34.

(** The initialisers of the two tables; the rest of each is zero. *)
Definition normal_map : list Z :=
  [0; 0] ++ codes "1234567890-=" ++ [8; 9] ++ codes "qwertyuiop[]" ++ [10; 0] ++
  codes "asdfghjkl;" ++ [APOSTROPHE] ++ codes "`" ++ [0] ++ codes "\zxcvbnm,./" ++ [0] ++
  codes "*" ++ [0] ++ codes " " ++ [0].
Definition shifted_map : list Z :=
  [0; 0] ++ codes "!@#$%^&*()_+" ++ [8; 9] ++ codes "QWERTYUIOP{}" ++ [10; 0] ++
  codes "ASDFGHJKL:" ++ [QUOTE] ++ codes "~" ++ [0] ++ codes "|ZXCVBNM<>?" ++ [0] ++
  codes "*" ++ [0] ++ codes " " ++ [0].

Definition table_at (t : list Z) (i : Z) : Z := nth (Z.to_nat i) t 0.

Record keyboard : Type := mk_keyboard {
  input_buffer : list Z;
  read_index : Z;
  write_index : Z;
  shift_pressed : Z
}.

Definition set_shift (k : keyboard) (v : Z) : keyboard :=
  mk_keyboard (input_buffer k) (read_index k) (write_index k) v.

Definition keyboard_interrupt (scancode : Z) (k : keyboard) : keyboard * bool :=
  if (scancode =? 0x2A) || (scancode =? 0x36) then (set_shift k 1, false)
  else if (scancode =? 0xAA) || (scancode =? 0xB6) then (set_shift k 0, false)
  else if negb (Z.land scancode 0x80 =? 0) || (128 <=? scancode) then (k, false)
  else
    let character := if negb (shift_pressed k =? 0) then table_at shifted_map scancode
                     else table_at normal_map scancode in
    if character =? 0 then (k, false)
    else
      let next := u32 (write_index k + 1) `mod` KEYBOARD_BUFFER_SIZE in
      if next =? read_index k then (k, false)
      else (mk_keyboard (<[Z.to_nat (write_index k) := character]> (input_buffer k))
              (read_index k) next (shift_pressed k), true).

Definition initialise_keyboard (k : keyboard) : keyboard :=
  mk_keyboard (input_buffer k) 0 0 0.

Definition keyboard_getchar (k : keyboard) : Z * keyboard :=
  if read_index k =? write_index k then (-1, k)
  else
    let character := nth (Z.to_nat (read_index k)) (input_buffer k) 0 in
    (u8 character,
     mk_keyboard (input_buffer k) (u32 (read_index k + 1) `mod` KEYBOARD_BUFFER_SIZE)
       (write_index k) (shift_pressed k)).

(** ** The abstract queue *)

(** Pending characters, oldest first, and the shift state. *)
Definition kqueue : Type := list Z * bool.

Inductive key : Type :=
  | KShift (pressed : bool)
  | KChar (plain shifted : Z)
  | KNothing.

(** What the driver takes a scancode to mean; it looks at one byte at a time. *)
Definition decode (scancode : Z) : key :=
  if (scancode =? 0x2A) || (scancode =? 0x36) then KShift true
  else if (scancode =? 0xAA) || (scancode =? 0xB6) then KShift false
  else if 128 <=? scancode then KNothing
  else KChar (table_at normal_map scancode) (table_at shifted_map scancode).

Definition queue_key (scancode : Z) (q : kqueue) : kqueue * bool :=
  let '(l, shift) := q in
  match decode scancode with
  | KShift b => ((l, b), false)
  | KNothing => (q, false)
  | KChar p s =>
      let c := if shift : bool then s else p in
      if (c =? 0) || (127 <=? Z.of_nat (length l)) then (q, false)
      else ((l ++ [c], shift), true)
  end.

Definition queue_getchar (q : kqueue) : Z * kqueue :=
  let '(l, shift) := q in
  match l with [] => (-1, q) | c :: l => (c, (l, shift)) end.

(** Interrupts and reads in any order. *)
Inductive kevent : Type := EvKey (scancode : Z) | EvRead.

(** The wake-up flag of an interrupt, or the result of a read. *)
Definition run_event (e : kevent) (k : keyboard) : (bool + Z) * keyboard :=
  match e with
  | EvKey sc => let '(k, w) := keyboard_interrupt sc k in (inl w, k)
  | EvRead => let '(c, k) := keyboard_getchar k in (inr c, k)
  end.
Definition queue_event (e : kevent) (q : kqueue) : (bool + Z) * kqueue :=
  match e with
  | EvKey sc => let '(q, w) := queue_key sc q in (inl w, q)
  | EvRead => let '(c, q) := queue_getchar q in (inr c, q)
  end.
Fixpoint run_events {S} (step : kevent -> S -> (bool + Z) * S) (es : list kevent) (s : S) :
    list (bool + Z) * S :=
  match es with
  | [] => ([], s)
  | e :: es =>
      let '(o, s) := step e s in
      let '(os, s) := run_events step es s in
      (o :: os, s)
  end.

(** ** The ring as a queue *)

Record ring_wf (k : keyboard) : Prop := {
  rw_length : length (input_buffer k) = 128%nat;
  rw_read : 0 <= read_index k < 128;
  rw_write : 0 <= write_index k < 128
}.

Definition ring_size (k : keyboard) : Z := (write_index k - read_index k) `mod` 128.
Definition ring_at (k : keyboard) (i : Z) : Z :=
  nth (Z.to_nat ((read_index k + i) `mod` 128)) (input_buffer k) 0.
Definition ring_list (k : keyboard) : list Z :=
  (fun i => ring_at k (Z.of_nat i)) <$> seq 0 (Z.to_nat (ring_size k)).

Record represents (k : keyboard) (q : kqueue) : Prop := {
  rp_wf : ring_wf k;
  rp_list : ring_list k = q.1;
  rp_shift : shift_pressed k = if q.2 then 1 else 0;
  rp_bytes : Forall (fun c => 0 < c < 256) q.1
}.

Ltac mod128_cases := Z.div_mod_to_equations.

Lemma decode_chars sc p s :
  decode sc = KChar p s -> 0 <= sc -> 0 <= p < 256 /\ 0 <= s < 256.
Proof.
  intros H Hsc.
  assert (forall t i, forallb (fun c => (0 <=? c) && (c <? 256)) t = true ->
            0 <= table_at t i < 256) as Ht.
  { intros t i Hall. unfold table_at. rewrite forallb_forall in Hall.
    destruct (nth_in_or_default (Z.to_nat i) t 0) as [Hin|E]; [|rewrite E; lia].
    apply Hall in Hin. lia. }
  unfold decode in H. repeat (case_match; try discriminate H).
  injection H as <- <-. split; apply Ht; reflexivity.
Qed.

Lemma land_0x80 sc : 0 <= sc < 128 -> Z.land sc 0x80 = 0.
Proof.
  intros Hsc. apply Z.bits_inj'. intros n Hn. rewrite Z.land_spec, Z.bits_0.
  destruct (Z.eq_dec n 7) as [->|Hne].
  - apply andb_false_iff. left. destruct (Z.eq_dec sc 0) as [->|]; [done|].
    apply Z.bits_above_log2; [lia|]. apply Z.log2_lt_pow2; lia.
  - apply andb_false_iff. right. change 0x80 with (2 ^ 7). by apply Z.pow2_bits_false.
Qed.

Lemma ring_list_lookup k i :
  ring_list k !! i =
  if decide (i < Z.to_nat (ring_size k))%nat then Some (ring_at k (Z.of_nat i)) else None.
Proof.
  unfold ring_list. rewrite list_lookup_fmap. case_decide as H.
  - by rewrite lookup_seq_lt.
  - by rewrite lookup_seq_ge by lia.
Qed.

Lemma ring_list_length k : length (ring_list k) = Z.to_nat (ring_size k).
Proof. unfold ring_list. by rewrite length_fmap, length_seq. Qed.

Lemma ring_push k c :
  ring_wf k -> ring_size k < 127 ->
  let k' := mk_keyboard (<[Z.to_nat (write_index k) := c]> (input_buffer k)) (read_index k)
              ((write_index k + 1) `mod` 128) (shift_pressed k) in
  ring_wf k' /\ ring_list k' = ring_list k ++ [c].
Proof.
  intros [Hlen Hr Hw] Hsz k'. unfold ring_size in Hsz.
  assert (ring_size k' = ring_size k + 1) as Hs.
  { unfold k', ring_size. simpl. mod128_cases. lia. }
  split; [split; simpl; [by rewrite length_insert|done|by apply Z.mod_pos_bound]|].
  apply list_eq. intros i. rewrite ring_list_lookup, Hs. unfold ring_size in *.
  pose proof (Z.mod_pos_bound (write_index k - read_index k) 128 ltac:(lia)) as Hb.
  assert (forall j, 0 <= j <= (write_index k - read_index k) `mod` 128 ->
    (read_index k + j) `mod` 128 = write_index k <-> j = (write_index k - read_index k) `mod` 128) as Hpos.
  { intros j Hj. split; intros Hj'; clear Hs; mod128_cases; lia. }
  assert (forall j, 0 <= (read_index k + j) `mod` 128 < 128) as Hrange by (intros j; by apply Z.mod_pos_bound).
  case_decide as H.
  - unfold ring_at, k'. simpl. rewrite !nth_lookup.
    destruct (decide (i = Z.to_nat ((write_index k - read_index k) `mod` 128))) as [->|Hne].
    + rewrite lookup_app_r by (rewrite ring_list_length; unfold ring_size; lia).
      rewrite ring_list_length. unfold ring_size. rewrite Nat.sub_diag. simpl.
      rewrite Z2Nat.id by lia.
      rewrite (proj2 (Hpos ((write_index k - read_index k) `mod` 128) ltac:(lia)) eq_refl). by rewrite list_lookup_insert_eq by lia.
    + rewrite lookup_app_l by (rewrite ring_list_length; unfold ring_size; lia).
      rewrite ring_list_lookup. rewrite decide_True by (unfold ring_size; lia).
      unfold ring_at. rewrite nth_lookup, list_lookup_insert_ne; [done|].
      intros E. apply Hne. specialize (Hrange (Z.of_nat i)).
      assert ((read_index k + Z.of_nat i) `mod` 128 = write_index k) as E' by lia.
      apply Hpos in E'; lia.
  - rewrite lookup_ge_None_2; [done|]. rewrite length_app, ring_list_length. unfold ring_size. simpl. lia.
Qed.

Lemma ring_pop k :
  ring_wf k -> read_index k <> write_index k ->
  let k' := mk_keyboard (input_buffer k) ((read_index k + 1) `mod` 128) (write_index k) (shift_pressed k) in
  ring_wf k' /\ ring_list k = nth (Z.to_nat (read_index k)) (input_buffer k) 0 :: ring_list k'.
Proof.
  intros [Hlen Hr Hw] Hne k'.
  assert (ring_size k = ring_size k' + 1) as Hs.
  { unfold k', ring_size. simpl. mod128_cases. lia. }
  split; [split; simpl; [done|by apply Z.mod_pos_bound|done]|].
  pose proof (Z.mod_pos_bound (write_index k' - read_index k') 128 ltac:(lia)) as Hb.
  apply list_eq. intros [|i]; simpl; rewrite !ring_list_lookup.
  - rewrite decide_True by (rewrite Hs; unfold ring_size; lia).
    unfold ring_at. simpl. by rewrite Z.add_0_r, Z.mod_small by lia.
  - unfold ring_size in *. repeat case_decide; try lia; [|done].
    f_equal. unfold ring_at, k'. simpl. f_equal. f_equal. rewrite Zplus_mod_idemp_l. f_equal. lia.
Qed.

Lemma keyboard_interrupt_refines sc k q :
  0 <= sc < 256 -> represents k q ->
  exists k', keyboard_interrupt sc k = (k', (queue_key sc q).2) /\ represents k' (queue_key sc q).1.
Proof.
  intros Hsc [Hwf Hl Hs Hb]. destruct q as [l shift]. simpl in Hl, Hs, Hb.
  pose proof (decode_chars sc (table_at normal_map sc) (table_at shifted_map sc)) as Hdec.
  unfold keyboard_interrupt, queue_key, decode in *.
  destruct ((sc =? 0x2A) || (sc =? 0x36)); [eexists; split; [done|]; destruct Hwf; split; try done; by split|].
  destruct ((sc =? 0xAA) || (sc =? 0xB6)); [eexists; split; [done|]; destruct Hwf; split; try done; by split|].
  destruct (Z.leb_spec 128 sc).
  { rewrite orb_true_r. eexists. split; [done|]. by split. }
  specialize (Hdec eq_refl ltac:(lia)). rewrite land_0x80 by lia. cbn [Z.eqb negb orb].
  set (p := table_at normal_map sc) in *. set (s := table_at shifted_map sc) in *.
  assert ((if negb (shift_pressed k =? 0) then s else p) = if shift then s else p) as ->
    by (rewrite Hs; by destruct shift).
  set (c := if shift then s else p) in *. assert (0 <= c < 256) as Hc by (unfold c; destruct shift; lia).
  cbv zeta. destruct (Z.eqb_spec c 0); [eexists; split; [done|]; by split|]. simpl orb.
  pose proof Hwf as [Hlen Hr Hw]. subst l. rewrite ring_list_length.
  assert (0 <= ring_size k < 128) as Hsz by by apply Z.mod_pos_bound.
  rewrite Z2Nat.id by lia. unfold KEYBOARD_BUFFER_SIZE. rewrite u32_small by lia.
  assert (((write_index k + 1) `mod` 128 =? read_index k) = (127 <=? ring_size k)) as ->.
  { unfold ring_size in *. apply eq_true_iff_eq. rewrite Z.eqb_eq, Z.leb_le. mod128_cases. lia. }
  destruct (Z.leb_spec 127 (ring_size k)) as [Hf|Hf]; [eexists; split; [done|]; by split|].
  destruct (ring_push k c Hwf Hf) as [Hwf' Hl']. eexists. split; [done|].
  split; simpl; [done|done|done|]. apply Forall_app. split; [done|].
  apply Forall_singleton. lia.
Qed.

Lemma keyboard_getchar_refines k q :
  represents k q ->
  exists k', keyboard_getchar k = ((queue_getchar q).1, k') /\ represents k' (queue_getchar q).2.
Proof.
  intros [Hwf Hl Hs Hb]. destruct q as [l shift]. simpl in *. pose proof Hwf as [Hlen Hr Hw].
  unfold keyboard_getchar. destruct (Z.eqb_spec (read_index k) (write_index k)) as [E|E].
  - unfold ring_list, ring_size in Hl. rewrite E, Z.sub_diag in Hl. simpl in Hl. subst l.
    eexists. split; [done|]. split; try done. unfold ring_list, ring_size. by rewrite E, Z.sub_diag.
  - destruct (ring_pop k Hwf E) as [Hwf' Hl']. subst l. rewrite Hl' in Hb |- *.
    apply Forall_cons in Hb as [Hc Hb]. unfold KEYBOARD_BUFFER_SIZE.
    rewrite (u32_small (read_index k + 1)), u8_small by lia.
    eexists. split; [done|]. by split.
Qed.

Definition event_ok (e : kevent) : Prop :=
  match e with EvKey sc => 0 <= sc < 256 | EvRead => True end.

Lemma run_events_refine es k q :
  Forall event_ok es -> represents k q ->
  (run_events run_event es k).1 = (run_events queue_event es q).1 /\
  represents (run_events run_event es k).2 (run_events queue_event es q).2.
Proof.
  intros Hes. revert k q. induction Hes as [|e es He _ IH]; intros k q Hk; simpl; [done|].
  assert (exists o k' q', run_event e k = (o, k') /\ queue_event e q = (o, q') /\ represents k' q')
    as (o & k' & q' & -> & -> & Hk').
  { destruct e as [sc|]; simpl in He |- *.
    - destruct (keyboard_interrupt_refines sc k q He Hk) as (k' & -> & Hk').
      destruct (queue_key sc q) as [q' w]. by exists (inl w), k', q'.
    - destruct (keyboard_getchar_refines k q Hk) as (k' & -> & Hk').
      destruct (queue_getchar q) as [c q']. by exists (inr c), k', q'. }
  destruct (IH k' q' Hk') as [IH1 IH2].
  destruct (run_events run_event es k') as [os k2], (run_events queue_event es q') as [os' q2].
  simpl in *. by rewrite IH1.
Qed.

(** Set 1 announces an extended key with the byte E0.  The handler drops
    that byte and keeps no trace of it, so the scancode that follows is read
    as the plain key of the same number, although the header of keyboard.c
    says that extended keys are not silently misinterpreted. *)
Lemma extended_prefix_dropped k : keyboard_interrupt 0xE0 k = (k, false).
Proof. done. Qed.
(** E0 37 (print screen) puts an asterisk in the buffer, and E0 2A, which a
    keyboard sends around the grey keys, presses Shift. *)
Example extended_keys_misread (k : keyboard) : length (input_buffer k) = 128%nat ->
  (run_events run_event [EvKey 0xE0; EvKey 0x37; EvRead; EvKey 0xE0; EvKey 0x2A; EvKey 0x1E; EvRead] (initialise_keyboard k)).1 =
  [inl false; inl true; inr 42; inl false; inl false; inl true; inr 65].
Proof.
  intros Hlen. etransitivity; [apply (run_events_refine _ _ ([], false))|vm_compute; reflexivity].
  - repeat constructor; simpl; lia.
  - by split.
Qed.

(** C39: for every interleaving of keyboard interrupts and reads after
    initialisation, the driver behaves like a FIFO of at most 127 decoded
    characters with the newest key dropped when it is full: same characters
    in the same order, -1 exactly when it is empty, and waiters are woken
    exactly when a character was queued.  Decoding is that of the code, byte
    by byte: the byte E0 of an extended key means nothing and the byte after
    it is decoded as a plain key ([extended_keys_misread]), against the
    driver's header comment (recorded as a finding). *)
Theorem keyboard_is_bounded_fifo es k :
  length (input_buffer k) = 128%nat -> Forall event_ok es ->
  (run_events run_event es (initialise_keyboard k)).1 =
  (run_events queue_event es ([], false)).1.
Proof.
  intros Hlen Hes. apply run_events_refine; [done|]. split; simpl; try done.
Qed.

Lemma keyboard_is_bounded_fifo_witness :
  (run_events run_event [EvRead; EvKey 0x1E; EvKey 0x2A; EvKey 0x30; EvRead; EvRead; EvRead]
     (initialise_keyboard (mk_keyboard (replicate 128 7) 5 9 1))).1 =
  [inr (-1); inl true; inl false; inl true; inr 97; inr 66; inr (-1)].
Proof.
  etransitivity; [apply keyboard_is_bounded_fifo|vm_compute; reflexivity].
  - reflexivity.
  - repeat constructor.
    all: lia.
Defined.
