(* ===== verification/Monitor.v ===== *)
(** * monitor.c: the VGA text console

    The frame buffer is a list of 16-bit cells; a store outside it is the
    error [OUTSIDE_SCREEN], which the theorems exclude.  The two CRTC
    registers written by [move_cursor] are part of the state.  The number
    printers are written over an arbitrary character sink [put], so that
    what they print can be stated without a screen. *)

From S2P Require Import Prelude Keyboard.

Definition OUTSIDE_SCREEN : string := "store outside the frame buffer".
Definition COLUMNS : Z := 80.
Definition ROWS : Z := 25.

(** Space with white on black: [0x20 | (attributeByte << 8)]. *)
Definition attributeByte : Z := Z.lor (Z.shiftl 0 4) (Z.land 15 0x0F).
Definition blank : Z := Z.lor 0x20 (Z.shiftl attributeByte 8).

Record monitor : Type := mk_monitor {
  video_memory : list Z;
  cursor_x : Z;
  cursor_y : Z;
  crtc_high : Z;
  crtc_low : Z
}.

Definition set_cell (vm : list Z) (i v : Z) : res (list Z) :=
  if (0 <=? i) && (i <? Z.of_nat (length vm)) then Ok (<[Z.to_nat i := v]> vm)
  else Panic OUTSIDE_SCREEN.
Definition get_cell (vm : list Z) (i : Z) : res Z :=
  match vm !! Z.to_nat i with Some v => Ok v | None => Panic OUTSIDE_SCREEN end.

Definition move_cursor (m : monitor) : monitor :=
  let cursorLocation := u16 (cursor_y m * 80 + cursor_x m) in
  mk_monitor (video_memory m) (cursor_x m) (cursor_y m)
    (u8 (Z.shiftr cursorLocation 8)) (u8 cursorLocation).

Definition scroll (m : monitor) : res monitor :=
  if 25 <=? cursor_y m then
    vm ← for_range (0 * 80) (24 * 80) (fun i vm =>
           v ← get_cell vm (i + 80); set_cell vm i v) (video_memory m);
    vm ← for_range (24 * 80) (25 * 80) (fun i vm => set_cell vm i blank) vm;
    Ok (mk_monitor vm (cursor_x m) 24 (crtc_high m) (crtc_low m))
  else Ok m.

(** The cell and the cursor after one character, before wrapping. *)
Definition put_character (c : Z) (m : monitor) : res (list Z * Z * Z) :=
  let c := s8 c in
  let attribute := u16 (Z.shiftl attributeByte 8) in
  if (c =? 0x08) && negb (cursor_x m =? 0) then
    Ok (video_memory m, u8 (cursor_x m - 1), cursor_y m)
  else if c =? 0x09 then
    Ok (video_memory m, u8 (Z.land (cursor_x m + 8) (Z.lnot (8 - 1))), cursor_y m)
  else if c =? 13 then Ok (video_memory m, 0, cursor_y m)
  else if c =? 10 then Ok (video_memory m, 0, u8 (cursor_y m + 1))
  else if 32 <=? c then
    vm ← set_cell (video_memory m) (cursor_y m * 80 + cursor_x m) (Z.lor c attribute);
    Ok (vm, u8 (cursor_x m + 1), cursor_y m)
  else Ok (video_memory m, cursor_x m, cursor_y m).

Definition monitor_put (c : Z) (m : monitor) : res monitor :=
  '(vm, x, y) ← put_character c m;
  let '(x, y) := if 80 <=? x then (0, u8 (y + 1)) else (x, y) in
  m ← scroll (mk_monitor vm x y (crtc_high m) (crtc_low m));
  Ok (move_cursor m).

Definition monitor_clear (m : monitor) : res monitor :=
  vm ← for_range 0 (80 * 25) (fun i vm => set_cell vm i blank) (video_memory m);
  Ok (move_cursor (mk_monitor vm 0 0 (crtc_high m) (crtc_low m))).

(** ** Printing through a character sink *)

Section sink.
Context {M : Type} (put : Z -> M -> M).

(** Characters up to the terminating NUL. *)
Fixpoint monitor_write (s : list Z) (m : M) : M :=
  match s with
  | [] => m
  | c :: s => if c =? 0 then m else monitor_write s (put c m)
  end.

Definition hex_digit (tmp : Z) : Z :=
  if 0xA <=? tmp then tmp - 0xA + 97 else tmp + 48.

Definition monitor_write_hex (n : Z) (m : M) : res M :=
  let m := monitor_write (codes "0x") m in
  '(_, m) ← while (fun '(i, noZeroes, m) =>
    if 0 <? i then
      let tmp := Z.land (Z.shiftr n i) 0xF in
      if (tmp =? 0) && negb (noZeroes =? 0) then Ok (Continue (i - 4, noZeroes, m))
      else Ok (Continue (i - 4, 0, put (hex_digit tmp) m))
    else Ok (Break (noZeroes, m))) (28, 1, m);
  Ok (put (hex_digit (Z.land n 0xF)) m).

(** [c] and [c2] are the two local arrays. *)
Definition monitor_write_dec (n : Z) (m : M) : res M :=
  if n =? 0 then Ok (put 48 m)
  else
    '(c, i) ← while (fun '(acc, c, i) =>
      if 0 <? acc then
        Ok (Continue (Z.quot acc 10, <[Z.to_nat i := 48 + Z.rem acc 10]> c, i + 1))
      else Ok (Break (c, i))) (s32 n, replicate 32 0, 0);
    let c := <[Z.to_nat i := 0]> c in
    c2 ← while (fun '(i, j, c2) =>
      if 0 <=? i then
        Ok (Continue (i - 1, j + 1, <[Z.to_nat i := nth (Z.to_nat j) c 0]> c2))
      else Ok (Break c2)) (i - 1, 0, <[Z.to_nat i := 0]> (replicate 32 0));
    Ok (monitor_write c2 m).
End sink.

(** The console as a sink: once a store failed, nothing more is written. *)
Definition console_put (c : Z) (r : res monitor) : res monitor := m ← r; monitor_put c m.

(** ** The abstract terminal *)

(** Cells in reading order and the cursor. *)
Definition terminal : Type := list Z * Z * Z.

(** One character on a terminal of 25 rows of 80 cells. *)
Definition terminal_put (c : Z) (t : terminal) : terminal :=
  let '(cells, x, y) := t in
  let '(cells, x, y) :=
    if (c =? 8) && (0 <? x) then (cells, x - 1, y)
    else if c =? 9 then (cells, (x / 8 + 1) * 8, y)
    else if c =? 13 then (cells, 0, y)
    else if c =? 10 then (cells, 0, y + 1)
    else if (32 <=? c) && (c <? 128) then
      (<[Z.to_nat (y * 80 + x) := c + 0xF00]> cells, x + 1, y)
    else (cells, x, y) in
  let '(x, y) := if 80 <=? x then (0, y + 1) else (x, y) in
  if 25 <=? y then (drop 80 cells ++ replicate 80 (0x20 + 0xF00), x, 24) else (cells, x, y).

Definition terminal_of (m : monitor) : terminal := (video_memory m, cursor_x m, cursor_y m).

Record screen_ok (m : monitor) : Prop := {
  sc_cells : length (video_memory m) = 2000%nat;
  sc_x : 0 <= cursor_x m < 80;
  sc_y : 0 <= cursor_y m < 25
}.

(** The hardware cursor shows the software cursor. *)
Definition cursor_synced (m : monitor) : Prop :=
  crtc_high m * 256 + crtc_low m = cursor_y m * 80 + cursor_x m.

Lemma u8_tab x : 0 <= x < 80 -> u8 (Z.land (x + 8) (Z.lnot (8 - 1))) = (x / 8 + 1) * 8.
Proof.
  intros Hx. apply Z.eqb_eq.
  apply (range_check 80 (fun x => u8 (Z.land (x + 8) (Z.lnot (8 - 1))) =? (x / 8 + 1) * 8)); [by vm_compute|lia].
Qed.

Lemma s8_char c : 0 <= c < 256 -> s8 c = if c <? 128 then c else c - 256.
Proof. intros Hc. unfold s8. rewrite u8_small by lia. done. Qed.

Lemma lor_attribute c : 32 <= c < 128 -> Z.lor c (u16 (Z.shiftl attributeByte 8)) = c + 0xF00.
Proof.
  intros Hc. apply Z.eqb_eq.
  apply (range_check 128 (fun c => Z.lor c (u16 (Z.shiftl attributeByte 8)) =? c + 0xF00)); [by vm_compute|lia].
Qed.

Lemma move_cursor_synced m : screen_ok m -> cursor_synced (move_cursor m).
Proof.
  intros [_ Hx Hy]. unfold cursor_synced, move_cursor. simpl. unfold u16, u8.
  rewrite Z.shiftr_div_pow2 by lia. change (2 ^ 8) with 256. change (2 ^ 16) with 65536.
  rewrite (Z.mod_small (cursor_y m * 80 + cursor_x m) 65536) by lia. Z.div_mod_to_equations. lia.
Qed.

Lemma set_cell_ok vm i v :
  0 <= i < Z.of_nat (length vm) -> set_cell vm i v = Ok (<[Z.to_nat i := v]> vm).
Proof. intros Hi. unfold set_cell. by rewrite (proj2 (andb_true_iff _ _)) by lia. Qed.

Lemma scroll_up vm : length vm = 2000%nat ->
  exists vm', for_range (0 * 80) (24 * 80) (fun i vm => v ← get_cell vm (i + 80); set_cell vm i v) vm = Ok vm' /\
    length vm' = 2000%nat /\ take 1920 vm' = drop 80 vm.
Proof.
  intros Hlen.
  match goal with |- context [for_range _ _ ?f vm] =>
    destruct (for_range_rule (fun i vm' => 0 <= i <= 1920 /\ length vm' = 2000%nat /\
      forall k : nat, vm' !! k = if decide (k < Z.to_nat i)%nat then vm !! (k + 80)%nat else vm !! k)
      f 0 1920 vm) as (vm' & Hr & _ & Hl & Hk) end.
  - lia.
  - intros i v1 Hi (_ & Hl & Hk). unfold get_cell. rewrite Hk, decide_False by lia.
    destruct (lookup_lt_is_Some_2 vm (Z.to_nat (i + 80))) as [c Hc]; [lia|]. rewrite Hc. rsimpl.
    rewrite set_cell_ok by lia. eexists. split; [done|]. rewrite length_insert.
    split_and!; [lia..|]. intros k. destruct (decide (k = Z.to_nat i)) as [->|Hne].
    + rewrite list_lookup_insert_eq, decide_True by lia. rewrite <- Hc. f_equal. lia.
    + rewrite list_lookup_insert_ne, Hk by done. repeat case_decide; try lia; done.
  - split_and!; [lia..|done].
  - exists vm'. split; [exact Hr|]. split; [done|]. apply list_eq. intros k.
    rewrite lookup_drop. destruct (decide (k < 1920)%nat).
    + rewrite lookup_take_lt, Hk, decide_True by lia. f_equal. lia.
    + rewrite !lookup_ge_None_2; [done|lia|rewrite length_take; lia].
Qed.

Lemma fill_cells lo hi vm v : 0 <= lo -> lo <= hi -> hi = Z.of_nat (length vm) ->
  for_range lo hi (fun i vm => set_cell vm i v) vm =
  Ok (take (Z.to_nat lo) vm ++ replicate (Z.to_nat (hi - lo)) v).
Proof.
  intros Hlo Hlh Hhi.
  match goal with |- context [for_range _ _ ?f vm] =>
    destruct (for_range_rule (fun i vm' => lo <= i <= hi /\ length vm' = length vm /\
      forall k : nat, vm' !! k = if decide (Z.to_nat lo <= k < Z.to_nat i)%nat then Some v else vm !! k)
      f lo hi vm) as (vm' & -> & _ & Hl & Hk) end; [lia| | |].
  - intros i v1 Hi (_ & Hl & Hk). rewrite set_cell_ok by lia. eexists. split; [done|].
    rewrite length_insert. split_and!; [lia..|done|]. intros k.
    destruct (decide (k = Z.to_nat i)) as [->|Hne].
    + by rewrite list_lookup_insert_eq, decide_True by lia.
    + rewrite list_lookup_insert_ne, Hk by done. repeat case_decide; try lia; done.
  - split_and!; [lia..|done|]. intros k. rewrite decide_False by lia. done.
  - f_equal. apply list_eq. intros k. rewrite Hk.
    destruct (decide (k < Z.to_nat lo)%nat).
    + rewrite decide_False, lookup_app_l by (rewrite ?length_take; lia). by rewrite lookup_take_lt by lia.
    + rewrite lookup_app_r by (rewrite length_take; lia). rewrite length_take, Nat.min_l by lia.
      destruct (decide (k < Z.to_nat hi)%nat).
      * rewrite decide_True by lia. symmetry. apply lookup_replicate. split; [done|lia].
      * rewrite decide_False, !lookup_ge_None_2; [done|rewrite length_replicate; lia|lia|lia].
Qed.

(** The driver is the abstract terminal. *)
Lemma monitor_put_refines c m :
  0 <= c < 256 -> screen_ok m ->
  exists m', monitor_put c m = Ok m' /\ terminal_of m' = terminal_put c (terminal_of m) /\
    screen_ok m' /\ cursor_synced m'.
Proof.
  intros Hc [Hlen Hx Hy]. unfold monitor_put.
  assert (exists vm x y, put_character c m = Ok (vm, x, y) /\ length vm = 2000%nat /\
    0 <= x <= 80 /\ 0 <= y <= 25 /\ (x = 80 -> y < 25) /\
    terminal_put c (terminal_of m) =
      (let '(x, y) := if 80 <=? x then (0, y + 1) else (x, y) in
       if 25 <=? y then (drop 80 vm ++ replicate 80 (0x20 + 0xF00), x, 24) else (vm, x, y)))
    as (vm & x & y & -> & Hl & Hxr & Hyr & Hxy & ->).
  { unfold put_character, terminal_put, terminal_of. rewrite (s8_char c) by done.
    assert ((if c <? 128 then c else c - 256) = c /\ c < 128 \/
            (if c <? 128 then c else c - 256) < 0 /\ 128 <= c) as Hcc
      by (destruct (Z.ltb_spec c 128); lia).
    set (c' := if c <? 128 then c else c - 256) in *. clearbody c'.
    assert (forall k, 0 <= k < 128 -> (c' =? k) = (c =? k)) as Hk by lia.
    rewrite !Hk by lia. assert ((32 <=? c') = ((32 <=? c) && (c <? 128))) as -> by lia.
    assert (negb (cursor_x m =? 0) = (0 <? cursor_x m)) as -> by lia.
    destruct ((c =? 8) && (0 <? cursor_x m)) eqn:E1.
    { rewrite u8_small by lia. eexists _, _, _. split; [done|]. by split_and!; try lia. }
    destruct (c =? 9).
    { rewrite u8_tab by lia. eexists _, _, _. split; [done|].
      split_and!; try done; Z.div_mod_to_equations; lia. }
    destruct (c =? 13); [eexists _, _, _; split; [done|]; by split_and!; try lia|].
    destruct (c =? 10).
    { rewrite u8_small by lia. eexists _, _, _. split; [done|]. by split_and!; try lia. }
    destruct ((32 <=? c) && (c <? 128)) eqn:E2; [|eexists _, _, _; split; [done|]; by split_and!; try lia].
    replace c' with c by lia. rewrite set_cell_ok by lia. rsimpl. rewrite u8_small by lia.
    rewrite lor_attribute by lia. eexists _, _, _. split; [done|]. rewrite length_insert.
    by split_and!; try lia. }
  rsimpl.
  assert ((if 80 <=? x then (0, u8 (y + 1)) else (x, y)) = (if 80 <=? x then (0, y + 1) else (x, y))) as ->
    by (destruct (Z.leb_spec 80 x); [rewrite u8_small by lia|]; done).
  destruct (if 80 <=? x then (0, y + 1) else (x, y)) as [x1 y1] eqn:E.
  assert (0 <= x1 < 80 /\ 0 <= y1 <= 25) as [Hx1 Hy1].
  { destruct (Z.leb_spec 80 x); injection E as <- <-; lia. }
  unfold scroll. simpl. destruct (Z.leb_spec 25 y1).
  - destruct (scroll_up vm Hl) as (vm' & Hr & Hl' & Ht). simpl in Hr. rewrite Hr. rsimpl.
    rewrite fill_cells by lia. rsimpl. change (Z.to_nat (24 * 80)) with 1920%nat.
    change (Z.to_nat (25 * 80 - 24 * 80)) with 80%nat. rewrite Ht. change blank with (0x20 + 0xF00).
    assert (screen_ok (mk_monitor (drop 80 vm ++ replicate 80 (0x20 + 0xF00)) x1 24
              (crtc_high m) (crtc_low m))) as Hok.
    { split; cbn [video_memory cursor_x cursor_y]; [|lia|lia]. rewrite length_app, length_drop, length_replicate. lia. }
    eexists. split; [done|]. split; [done|]. split; [|by apply move_cursor_synced].
    destruct Hok. by split.
  - rsimpl. assert (screen_ok (mk_monitor vm x1 y1 (crtc_high m) (crtc_low m))) as Hok
      by (split; simpl; [done|lia|lia]).
    eexists. split; [done|]. split; [done|]. split; [|by apply move_cursor_synced].
    destruct Hok. by split.
Qed.

(** ** What the number printers print *)

Definition digit_value (c : Z) : Z := if c <? 58 then c - 48 else c - 87.
Definition digit_ok (b c : Z) : Prop :=
  (48 <= c < 58 \/ 97 <= c < 103) /\ 0 <= digit_value c < b.

Definition text_value (b : Z) (ds : list Z) : Z :=
  foldl (fun acc c => acc * b + digit_value c) 0 ds.

(** [ds] is the usual numeral of [n] in base [b]: no leading zeros. *)
Record numeral (b : Z) (ds : list Z) (n : Z) : Prop := {
  nm_digits : Forall (digit_ok b) ds;
  nm_value : text_value b ds = n;
  nm_leading : ds = [48] \/ exists c ds', ds = c :: ds' /\ c <> 48
}.

Lemma text_value_snoc b ds c : text_value b (ds ++ [c]) = text_value b ds * b + digit_value c.
Proof. unfold text_value. by rewrite foldl_app. Qed.

Lemma hex_digit_ok t : 0 <= t < 16 ->
  digit_ok 16 (hex_digit t) /\ digit_value (hex_digit t) = t /\ (hex_digit t = 48 <-> t = 0).
Proof.
  intros Ht. unfold digit_ok, digit_value, hex_digit. destruct (Z.leb_spec 0xA t).
  - rewrite (proj2 (Z.ltb_ge _ _)) by lia. lia.
  - rewrite (proj2 (Z.ltb_lt _ _)) by lia. lia.
Qed.

Lemma shiftr_nibble n i : 0 <= i ->
  Z.shiftr n i = Z.shiftr n (i + 4) * 16 + Z.land (Z.shiftr n i) 0xF.
Proof.
  intros Hi. change 0xF with (Z.ones 4). rewrite Z.land_ones by lia.
  rewrite <- Z.shiftr_shiftr by lia. rewrite (Z.shiftr_div_pow2 (Z.shiftr n i) 4) by lia.
  change (2 ^ 4) with 16. pose proof (Z.div_mod (Z.shiftr n i) 16). lia.
Qed.

Lemma nibble_range x : 0 <= Z.land x 0xF < 16.
Proof. change 0xF with (Z.ones 4). rewrite Z.land_ones by lia. by apply Z.mod_pos_bound. Qed.

Section printers.
Context {M : Type} (put : Z -> M -> M).

Lemma monitor_write_app s t m :
  Forall (fun c => c <> 0) s ->
  monitor_write put (s ++ t) m = monitor_write put t (monitor_write put s m).
Proof.
  intros Hs. revert m. induction Hs as [|c s Hc _ IH]; intros m; simpl; [done|].
  by rewrite (proj2 (Z.eqb_neq c 0)) by done.
Qed.

Lemma digits_nonzero b ds : Forall (digit_ok b) ds -> Forall (fun c => c <> 0) ds.
Proof. intros H. eapply Forall_impl; [exact H|]. unfold digit_ok. simpl. lia. Qed.

Lemma put_write c ds m :
  Forall (fun c => c <> 0) ds -> c <> 0 ->
  put c (monitor_write put ds m) = monitor_write put (ds ++ [c]) m.
Proof.
  intros Hds Hc. rewrite monitor_write_app by done. simpl.
  by rewrite (proj2 (Z.eqb_neq c 0)) by done.
Qed.

(** The digits printed so far, none while only zeros were seen. *)
Definition hex_prefix (v noZeroes : Z) (ds : list Z) : Prop :=
  Forall (digit_ok 16) ds /\ text_value 16 ds = v /\
  (noZeroes = 1 /\ ds = [] \/ noZeroes = 0 /\ exists c ds', ds = c :: ds' /\ c <> 48).

Lemma hex_prefix_snoc v noZeroes ds t :
  hex_prefix v noZeroes ds -> 0 <= t < 16 -> (noZeroes = 1 -> t <> 0) ->
  hex_prefix (v * 16 + t) 0 (ds ++ [hex_digit t]).
Proof.
  intros (Hds & <- & Hlead) Ht Hnz. destruct (hex_digit_ok t Ht) as (Hd & Hv & Hz).
  split_and!.
  - apply Forall_app. by rewrite Forall_singleton.
  - by rewrite text_value_snoc, Hv.
  - right. split; [done|]. destruct Hlead as [[Hn ->]|[_ (c & ds' & -> & Hc)]].
    + exists (hex_digit t), []. split; [done|]. intros E. by apply Hnz, Hz.
    + by exists c, (ds' ++ [hex_digit t]).
Qed.

Lemma monitor_write_hex_correct n m :
  0 <= n < 2 ^ 32 ->
  exists ds, numeral 16 ds n /\
    monitor_write_hex put n m = Ok (monitor_write put (codes "0x" ++ ds) m).
Proof.
  intros Hn. unfold monitor_write_hex. set (m0 := monitor_write put (codes "0x") m).
  match goal with |- context [while ?f ?s0] =>
    destruct (while_rule f
      (fun '(i, nz, m1) => 0 <= i <= 28 /\ i `mod` 4 = 0 /\
         exists ds, hex_prefix (Z.shiftr n (i + 4)) nz ds /\ m1 = monitor_write put ds m0)
      (fun '(nz, m1) => exists ds, hex_prefix (Z.shiftr n 4) nz ds /\ m1 = monitor_write put ds m0)
      (fun '(i, _, _) => i) s0) as ([nz m1] & -> & ds & Hp & ->) end.
  - intros [[i nz] m1] (Hi & Him & ds & Hp & ->).
    destruct (Z.ltb_spec 0 i).
    2:{ assert (i = 0) as -> by lia. by exists ds. }
    pose proof (nibble_range (Z.shiftr n i)) as Ht.
    pose proof (shiftr_nibble n i ltac:(lia)) as Hs.
    set (t := Z.land (Z.shiftr n i) 0xF) in *.
    assert (4 <= i /\ (i - 4) `mod` 4 = 0) as [Hi4 Him'] by (Z.div_mod_to_equations; lia).
    destruct ((t =? 0) && negb (nz =? 0)) eqn:E.
    + split; [|lia]. split; [lia|]. split; [done|]. exists ds. split; [|done].
      replace (i - 4 + 4) with i by lia. destruct Hp as (Hds & Hv & Hlead).
      destruct Hlead as [[Hnz ->]|[-> _]]; [|by rewrite andb_false_r in E].
      split_and!; [done| |by left]. change (text_value 16 []) with 0 in *. lia.
    + split; [|lia]. split; [lia|]. split; [done|]. exists (ds ++ [hex_digit t]).
      replace (i - 4 + 4) with i by lia. split.
      * rewrite Hs. apply (hex_prefix_snoc _ nz); [done|done|]. intros ->. lia.
      * destruct Hp as (Hds & _). apply put_write; [by eapply digits_nonzero|].
        unfold hex_digit. destruct (0xA <=? t); lia.
  - split; [lia|]. split; [done|]. exists []. split; [|done].
    split_and!; [done| |by left]. symmetry. change (28 + 4) with 32.
    rewrite Z.shiftr_div_pow2 by lia. apply Z.div_small. lia.
  - lia.
  - rsimpl. pose proof (nibble_range n) as Ht. pose proof (shiftr_nibble n 0 ltac:(lia)) as Hs.
    rewrite Z.shiftr_0_r in Hs. change (0 + 4) with 4 in Hs. set (t := Z.land n 0xF) in *.
    destruct (hex_digit_ok t Ht) as (Hd & Hdv & Hdz).
    exists (ds ++ [hex_digit t]). destruct Hp as (Hds & Hv & Hlead). split.
    + split.
      * apply Forall_app. by rewrite Forall_singleton.
      * rewrite text_value_snoc, Hv, Hdv. lia.
      * destruct Hlead as [[_ ->]|[_ (c & ds' & -> & Hc)]]; simpl.
        -- destruct (decide (t = 0)) as [E|E]; [left; by rewrite (proj2 Hdz E)|].
           right. exists (hex_digit t), []. split; [done|]. intros ?. by apply E, Hdz.
        -- right. by exists c, (ds' ++ [hex_digit t]).
    + rewrite put_write; [|by eapply digits_nonzero|unfold hex_digit; destruct (0xA <=? t); lia].
      by rewrite (monitor_write_app (codes "0x")) by (repeat constructor; done).
Qed.

(** The value of decimal digits, least significant first. *)
Fixpoint low_first (ds : list Z) : Z :=
  match ds with [] => 0 | c :: ds => digit_value c + 10 * low_first ds end.

Lemma low_first_snoc ds c :
  low_first (ds ++ [c]) = low_first ds + 10 ^ Z.of_nat (length ds) * digit_value c.
Proof.
  induction ds as [|d ds IH]; simpl low_first; [simpl; lia|].
  rewrite IH. simpl length. rewrite Nat2Z.inj_succ, Z.pow_succ_r by lia. lia.
Qed.

Lemma text_value_reverse ds : text_value 10 (reverse ds) = low_first ds.
Proof.
  induction ds as [|c ds IH]; [done|]. rewrite reverse_cons, text_value_snoc, IH. simpl. lia.
Qed.

Lemma take_insert_snoc (c : list Z) i v :
  (i < length c)%nat -> take (S i) (<[i := v]> c) = take i c ++ [v].
Proof.
  intros Hi. rewrite (take_S_r _ _ v) by by apply list_lookup_insert_eq.
  by rewrite take_insert_ge by lia.
Qed.

(** The first loop stores the digits of [n], least significant first. *)
Lemma dec_digits n :
  0 < n < 2 ^ 31 ->
  exists c i,
    while (S := Z * list Z * Z) (fun '(acc, c, i) =>
      if 0 <? acc then
        Ok (Continue (Z.quot acc 10, <[Z.to_nat i := 48 + Z.rem acc 10]> c, i + 1))
      else Ok (Break (c, i))) (n, replicate 32 0, 0) = Ok (c, i) /\
    0 < i <= 10 /\ length c = 32%nat /\
    Forall (digit_ok 10) (take (Z.to_nat i) c) /\ low_first (take (Z.to_nat i) c) = n /\
    (exists ds d, take (Z.to_nat i) c = ds ++ [d] /\ d <> 48).
Proof.
  intros Hn.
  match goal with |- context [while ?f ?s0] =>
    destruct (while_rule f
      (fun '(acc, c, i) => 0 <= i <= 10 /\ length c = 32%nat /\ 0 <= acc < 10 ^ (10 - i) /\
         Forall (digit_ok 10) (take (Z.to_nat i) c) /\
         low_first (take (Z.to_nat i) c) + 10 ^ i * acc = n /\
         (acc = 0 -> exists ds d, take (Z.to_nat i) c = ds ++ [d] /\ d <> 48))
      (fun '(c, i) => 0 < i <= 10 /\ length c = 32%nat /\
         Forall (digit_ok 10) (take (Z.to_nat i) c) /\ low_first (take (Z.to_nat i) c) = n /\
         (exists ds d, take (Z.to_nat i) c = ds ++ [d] /\ d <> 48))
      (fun '(acc, _, _) => acc) s0) as ([c i] & Hr & HQ) end.
  - intros [[acc c] i] (Hi & Hlen & Hacc & Hds & Hval & Hlast).
    destruct (Z.ltb_spec 0 acc) as [Hp|Hp].
    + assert (i < 10) as Hi10.
      { destruct (Z.eq_dec i 10) as [->|]; [|lia]. change (10 ^ (10 - 10)) with 1 in Hacc. lia. }
      rewrite Z.quot_div_nonneg, Z.rem_mod_nonneg by lia.
      pose proof (Z.mod_pos_bound acc 10 ltac:(lia)) as Hm. pose proof (Z.div_mod acc 10 ltac:(lia)) as Hdm.
      set (q := acc / 10) in *. set (r := acc mod 10) in *.
      assert (digit_value (48 + r) = r) as Hdv.
      { unfold digit_value. rewrite (proj2 (Z.ltb_lt _ _)) by lia. lia. }
      split; [|lia]. rewrite length_insert. replace (Z.to_nat (i + 1)) with (S (Z.to_nat i)) by lia.
      rewrite take_insert_snoc by lia.
      split_and!; [lia|lia|done|lia| | | |].
      * apply Z.mul_lt_mono_pos_l with 10; [lia|]. rewrite <- Z.pow_succ_r by lia.
        replace (Z.succ (10 - (i + 1))) with (10 - i) by lia. lia.
      * apply Forall_app. rewrite Forall_singleton. split; [done|]. unfold digit_ok. rewrite Hdv. lia.
      * rewrite low_first_snoc, Hdv, length_take, Nat.min_l by lia.
        rewrite Z2Nat.id, Z.pow_add_r by lia. change (10 ^ 1) with 10. nia.
      * intros Hq0. exists (take (Z.to_nat i) c), (48 + r). split; [done|]. lia.
    + assert (acc = 0) as -> by lia. destruct (Hlast eq_refl) as (ds & d & Htk & Hd).
      split_and!; [|lia|done|done|lia|by exists ds, d].
      destruct (Z.eq_dec i 0) as [->|]; [|lia]. by destruct ds.
  - split_and!; [lia|lia|done|lia|simpl; lia|constructor|simpl; lia|lia].
  - lia.
  - exists c, i. by split.
Qed.

(** The second loop reverses them into [c2]. *)
Lemma dec_reverse c i c2 :
  0 <= i < 32 -> length c = 32%nat -> length c2 = 32%nat ->
  exists c3,
    while (S := Z * Z * list Z) (fun '(i, j, c2) =>
      if 0 <=? i then
        Ok (Continue (i - 1, j + 1, <[Z.to_nat i := nth (Z.to_nat j) c 0]> c2))
      else Ok (Break c2)) (i - 1, 0, c2) = Ok c3 /\
    c3 = reverse (take (Z.to_nat i) c) ++ drop (Z.to_nat i) c2.
Proof.
  intros Hi Hc Hc2.
  match goal with |- context [while ?f ?s0] =>
    destruct (while_rule f
      (fun '(k, j, c3) => -1 <= k < i /\ j = i - 1 - k /\
         c3 = take (Z.to_nat (k + 1)) c2 ++ reverse (take (Z.to_nat j) c) ++ drop (Z.to_nat i) c2)
      (fun c3 => c3 = reverse (take (Z.to_nat i) c) ++ drop (Z.to_nat i) c2)
      (fun '(k, _, _) => k + 1) s0) as (c3 & Hr & HQ) end.
  - intros [[k j] c3] (Hk & -> & ->). destruct (Z.leb_spec 0 k).
    + split; [|lia]. split_and!; [lia..|].
      replace (k - 1 + 1) with k by lia. replace (Z.to_nat (i - 1 - k + 1)) with (S (Z.to_nat (i - 1 - k))) by lia.
      destruct (lookup_lt_is_Some_2 c (Z.to_nat (i - 1 - k))) as [x Hx]; [lia|].
      rewrite nth_lookup, Hx. simpl default. rewrite (take_S_r _ _ x Hx), reverse_snoc.
      replace (Z.to_nat (k + 1)) with (S (Z.to_nat k)) by lia.
      destruct (lookup_lt_is_Some_2 c2 (Z.to_nat k)) as [y Hy]; [lia|].
      rewrite (take_S_r _ _ y Hy), <- app_assoc.
      rewrite insert_app_r_alt by (rewrite length_take; lia).
      rewrite length_take, Nat.min_l by lia. by rewrite Nat.sub_diag.
    + assert (k = -1) as -> by lia. simpl. by replace (i - 1 - -1) with i by lia.
  - split_and!; [lia..|]. replace (i - 1 - (i - 1)) with 0 by lia. simpl.
    replace (i - 1 + 1) with i by lia. by rewrite take_drop.
  - lia.
  - exists c3. by split.
Qed.

Lemma monitor_write_dec_correct n m :
  0 < n < 2 ^ 31 ->
  exists ds, numeral 10 ds n /\ monitor_write_dec put n m = Ok (monitor_write put ds m).
Proof.
  intros Hn. unfold monitor_write_dec. rewrite (proj2 (Z.eqb_neq n 0)) by lia.
  rewrite s32_small by lia. destruct (dec_digits n Hn) as (c & i & -> & Hi & Hlen & Hds & Hval & ds & d & Htk & Hd).
  rsimpl.
  destruct (dec_reverse (<[Z.to_nat i := 0]> c) i (<[Z.to_nat i := 0]> (replicate 32 0)))
    as (c3 & -> & ->); [lia|by rewrite length_insert|by rewrite length_insert, length_replicate|].
  rsimpl. rewrite take_insert_ge by lia.
  rewrite drop_insert_ge by lia. rewrite Nat.sub_diag.
  destruct (drop (Z.to_nat i) (replicate 32 0)) as [|x rest] eqn:Ed.
  { apply (f_equal length) in Ed. rewrite length_drop, length_replicate in Ed. simpl in Ed. lia. }
  exists (reverse (take (Z.to_nat i) c)). split.
  - split.
    + by apply Forall_reverse.
    + by rewrite text_value_reverse.
    + rewrite Htk, reverse_snoc. right. by exists d, (reverse ds).
  - rewrite monitor_write_app; [done|]. apply Forall_reverse. by eapply digits_nonzero.
Qed.
Lemma monitor_write_dec_all n m :
  is_u32 n ->
  if n <? 2 ^ 31
  then exists ds, numeral 10 ds n /\ monitor_write_dec put n m = Ok (monitor_write put ds m)
  else monitor_write_dec put n m = Ok m.
Proof.
  intros Hn. unfold is_u32 in Hn. destruct (Z.ltb_spec n (2 ^ 31)).
  - destruct (Z.eq_dec n 0) as [->|]; [|apply monitor_write_dec_correct; lia].
    exists [48]. split; [|done]. split; [|done|by left].
    apply Forall_singleton. unfold digit_ok, digit_value. simpl. lia.
  - unfold monitor_write_dec. rewrite (proj2 (Z.eqb_neq n 0)) by lia.
    assert (s32 n < 0) as Hs.
    { unfold s32. rewrite u32_small by lia. rewrite (proj2 (Z.ltb_ge _ _)) by lia. lia. }
    rewrite (while_runs _ _ (Ok (replicate 32 0, 0)) 0); [|constructor|done].
    + rsimpl. by rewrite (while_runs _ _ (Ok (<[Z.to_nat 0 := 0]> (replicate 32 0))) 0); [|constructor|].
    + by rewrite (proj2 (Z.ltb_ge _ _)) by lia.
Qed.
End printers.

(** C40: on an 80x25 screen every character is handled without a store
    outside the frame buffer, exactly as on the abstract terminal (printing,
    backspace, tab, return, newline, wrapping, scrolling one row up), and
    the hardware cursor follows. *)
Theorem monitor_is_terminal c m :
  0 <= c < 256 -> screen_ok m ->
  exists m', monitor_put c m = Ok m' /\ terminal_of m' = terminal_put c (terminal_of m) /\
    screen_ok m' /\ cursor_synced m'.
Proof. apply monitor_put_refines. Qed.

Definition demo_screen : monitor := mk_monitor (replicate 2000 0) 79 24 0 0.

Lemma monitor_is_terminal_witness :
  exists m', monitor_put 65 demo_screen = Ok m' /\
    terminal_of m' = terminal_put 65 (terminal_of demo_screen) /\ screen_ok m' /\ cursor_synced m'.
Proof. apply (monitor_is_terminal 65 demo_screen); [lia|]. split; [reflexivity|simpl; lia|simpl; lia]. Defined.

(** [monitor_write_hex] prints "0x" and the shortest lower-case
    hexadecimal numeral of any 32-bit value. *)
Theorem monitor_write_hex_numeral {M} (put : Z -> M -> M) n m :
  is_u32 n ->
  exists ds, numeral 16 ds n /\
    monitor_write_hex put n m = Ok (monitor_write put (codes "0x" ++ ds) m).
Proof. apply monitor_write_hex_correct. Qed.

Lemma monitor_write_hex_numeral_witness :
  exists ds, numeral 16 ds 0xC0DE /\
    monitor_write_hex console_put 0xC0DE (Ok demo_screen) =
    Ok (monitor_write console_put (codes "0x" ++ ds) (Ok demo_screen)).
Proof. apply (monitor_write_hex_numeral console_put 0xC0DE). unfold is_u32. lia. Defined.

(** [monitor_write_dec] prints the decimal numeral of [n] up to
    2^31 - 1, and nothing at all from 2^31 on, because the accumulator is a
    signed copy of the unsigned argument. *)
Theorem monitor_write_dec_numeral {M} (put : Z -> M -> M) n m :
  is_u32 n ->
  if n <? 2 ^ 31
  then exists ds, numeral 10 ds n /\ monitor_write_dec put n m = Ok (monitor_write put ds m)
  else monitor_write_dec put n m = Ok m.
Proof. apply monitor_write_dec_all. Qed.

Lemma monitor_write_dec_numeral_witness :
  (exists ds, numeral 10 ds 40917 /\
     monitor_write_dec cons 40917 [] = Ok (monitor_write cons ds [])) /\
  monitor_write_dec cons 3000000000 [] = Ok [].
Proof.
  split.
  - refine (monitor_write_dec_numeral cons 40917 [] _). unfold is_u32. lia.
  - refine (monitor_write_dec_numeral cons 3000000000 [] _). unfold is_u32. lia.
Defined.
