(* ===== verification/Frames.v ===== *)
(** * paging.c: the physical-frame bitmap and page-table entries

    One bit per 4 KiB frame, packed in 32-bit words.  [used] reads the
    bitmap as a predicate on frame numbers; the operations are specified
    against it.  Frames at or above [nframes] are never handed out. *)

From S2P Require Import Prelude.

Definition BITS_PER_FRAME_WORD : Z := 32.
Definition INDEX_FROM_BIT (a : Z) : Z := a / BITS_PER_FRAME_WORD.
Definition OFFSET_FROM_BIT (a : Z) : Z := a mod BITS_PER_FRAME_WORD.
Definition OUT_OF_MEMORY : string := "Out of physical memory".
Definition BITMAP_OVERRUN : string := "access outside the frame bitmap".

Record bitmap : Type := mk_bitmap {
  frames : list Z;
  nframes : Z;
  frame_word_count : Z
}.

Definition frame_word (i : Z) (b : bitmap) : res Z :=
  match frames b !! Z.to_nat i with Some w => Ok w | None => Panic BITMAP_OVERRUN end.
Definition set_frame_word (i w : Z) (b : bitmap) : bitmap :=
  mk_bitmap (<[Z.to_nat i := w]> (frames b)) (nframes b) (frame_word_count b).

Definition set_frame (frame_addr : Z) (b : bitmap) : res bitmap :=
  let frame := frame_addr / 0x1000 in
  ASSERT (frame <? nframes b);;
  let idx := INDEX_FROM_BIT frame in
  let off := OFFSET_FROM_BIT frame in
  w ← frame_word idx b;
  Ok (set_frame_word idx (Z.lor w (u32 (Z.shiftl 1 off))) b).

Definition clear_frame (frame_addr : Z) (b : bitmap) : res bitmap :=
  let frame := frame_addr / 0x1000 in
  ASSERT (frame <? nframes b);;
  let idx := INDEX_FROM_BIT frame in
  let off := OFFSET_FROM_BIT frame in
  w ← frame_word idx b;
  Ok (set_frame_word idx (Z.land w (u32 (Z.lnot (Z.shiftl 1 off)))) b).

Definition test_frame (frame_addr : Z) (b : bitmap) : res Z :=
  let frame := frame_addr / 0x1000 in
  ASSERT (frame <? nframes b);;
  let idx := INDEX_FROM_BIT frame in
  let off := OFFSET_FROM_BIT frame in
  w ← frame_word idx b;
  Ok (Z.land w (u32 (Z.shiftl 1 off))).

(** The inner loop of [first_frame] over one word: a frame, or none. *)
Fixpoint scan_word (fuel : nat) (w i j n : Z) : option Z :=
  match fuel with
  | O => None
  | S fuel =>
      let toTest := u32 (Z.shiftl 1 j) in
      let frame := i * BITS_PER_FRAME_WORD + j in
      if (Z.land w toTest =? 0) && (frame <? n) then Some frame
      else scan_word fuel w i (j + 1) n
  end.

Definition first_frame (b : bitmap) : res Z :=
  while (fun i =>
    if i <? frame_word_count b then
      w ← frame_word i b;
      if negb (w =? 0xFFFFFFFF) then
        match scan_word 32 w i 0 (nframes b) with
        | Some frame => Ok (Break frame)
        | None => Ok (Continue (i + 1))
        end
      else Ok (Continue (i + 1))
    else Ok (Break (u32 (-1)))) 0.

(** [page_t]: the bit-fields of an x86 page-table entry. *)
Record page_t : Type := mk_page {
  present : Z;
  rw : Z;
  user : Z;
  accessed : Z;
  dirty : Z;
  unused : Z;
  frame : Z
}.
#[export] Instance page_eq_dec : EqDecision page_t.
Proof. solve_decision. Defined.

(** An entry of a table cleared by [memset]. *)
Definition empty_page : page_t := mk_page 0 0 0 0 0 0 0.

Definition alloc_frame (page : page_t) (is_kernel is_writeable : Z) (b : bitmap) :
    res (page_t * bitmap) :=
  if negb (present page =? 0) then Ok (page, b)
  else
    idx ← first_frame b;
    if idx =? u32 (-1) then Panic OUT_OF_MEMORY
    else
      t ← test_frame (u32 (idx * 0x1000)) b;
      ASSERT (t =? 0);;
      b ← set_frame (u32 (idx * 0x1000)) b;
      Ok (mk_page 1 (if is_writeable =? 1 then 1 else 0) (if is_kernel =? 1 then 0 else 1)
            (accessed page) (dirty page) (unused page) (idx mod 2 ^ 20), b).

Definition free_frame (page : page_t) (b : bitmap) : res (page_t * bitmap) :=
  if present page =? 0 then Ok (page, b)
  else
    b ← clear_frame (u32 (frame page * 0x1000)) b;
    Ok (mk_page 0 1 0 0 0 (unused page) 0, b).

(** The bitmap that [initialise_paging] sets up: all free, padding bits set. *)
Definition initialise_bitmap (physical_memory_end : Z) : res bitmap :=
  let physical_memory_end := Z.land physical_memory_end 0xFFFFF000 in
  let nframes := physical_memory_end / 0x1000 in
  let frame_word_count := INDEX_FROM_BIT (nframes + 31) in
  l ← for_range nframes (frame_word_count * BITS_PER_FRAME_WORD) (fun padding_frame l =>
        let idx := Z.to_nat (INDEX_FROM_BIT padding_frame) in
        match l !! idx with
        | Some w => Ok (<[idx := Z.lor w (u32 (Z.shiftl 1 (OFFSET_FROM_BIT padding_frame)))]> l)
        | None => Panic BITMAP_OVERRUN
        end) (replicate (Z.to_nat frame_word_count) 0);
  Ok (mk_bitmap l nframes frame_word_count).

Definition paging_total_memory_kib (b : bitmap) : Z := u32 (nframes b * 4).

(** ** Specification vocabulary *)

Definition used (b : bitmap) (f : Z) : bool :=
  match frames b !! Z.to_nat (f / 32) with
  | Some w => Z.testbit w (f mod 32)
  | None => true
  end.

Record bitmap_wf (b : bitmap) : Prop := {
  bw_nframes : 0 < nframes b <= 2 ^ 20;
  bw_count : frame_word_count b = (nframes b + 31) / 32;
  bw_length : Z.of_nat (length (frames b)) = frame_word_count b;
  bw_words : Forall is_u32 (frames b)
}.

(** [b'] is [b] with frame [f] marked [v]. *)
Definition bitmap_set (b b' : bitmap) (f : Z) (v : bool) : Prop :=
  nframes b' = nframes b /\
  forall g, 0 <= g -> used b' g = if decide (g = f) then v else used b g.

Lemma u32_bit j : 0 <= j < 32 -> u32 (Z.shiftl 1 j) = 2 ^ j.
Proof.
  intros Hj. rewrite Z.shiftl_1_l. apply u32_small.
  split; [lia|]. apply Z.pow_lt_mono_r; lia.
Qed.

Lemma land_pow2 w j : 0 <= j -> (Z.land w (2 ^ j) =? 0) = negb (Z.testbit w j).
Proof.
  intros Hj. apply eq_true_iff_eq. rewrite Z.eqb_eq, negb_true_iff. split.
  - intros H. apply (f_equal (fun x => Z.testbit x j)) in H.
    rewrite Z.land_spec, Z.pow2_bits_true, andb_true_r, Z.bits_0 in H by done. done.
  - intros H. apply Z.bits_inj'. intros n Hn. rewrite Z.land_spec, Z.bits_0.
    destruct (Z.eq_dec n j) as [->|]; [by rewrite H|].
    rewrite Z.pow2_bits_false by done. by rewrite andb_false_r.
Qed.

Lemma testbit_bounded w n : 0 <= w -> (forall i, n <= i -> Z.testbit w i = false) -> 0 <= n -> w < 2 ^ n.
Proof.
  intros Hw Hb Hn. destruct (Z.lt_ge_cases w (2 ^ n)) as [|Hge]; [done|].
  pose proof (Z.pow_pos_nonneg 2 n ltac:(lia) Hn).
  pose proof (Z.log2_le_pow2 w n ltac:(lia)) as [Hl _]. specialize (Hl Hge).
  specialize (Hb (Z.log2 w) Hl). rewrite Z.bit_log2 in Hb by lia. done.
Qed.

(** Setting and clearing one bit of a word. *)
Lemma word_set_bit w j : is_u32 w -> 0 <= j < 32 ->
  is_u32 (Z.lor w (u32 (Z.shiftl 1 j))) /\
  forall n, 0 <= n -> Z.testbit (Z.lor w (u32 (Z.shiftl 1 j))) n = if decide (n = j) then true else Z.testbit w n.
Proof.
  intros Hw Hj. rewrite u32_bit by done.
  assert (forall n, 0 <= n -> Z.testbit (Z.lor w (2 ^ j)) n = if decide (n = j) then true else Z.testbit w n) as Hbit.
  { intros n Hn. rewrite Z.lor_spec. case_decide as E.
    - rewrite E, Z.pow2_bits_true by lia. by rewrite orb_true_r.
    - rewrite Z.pow2_bits_false by done. by rewrite orb_false_r. }
  split; [|done]. pose proof (Z.pow_pos_nonneg 2 j). unfold is_u32 in *.
  split; [apply Z.lor_nonneg; lia|]. apply testbit_bounded; [apply Z.lor_nonneg; lia| |lia].
  intros i Hi. rewrite Hbit, decide_False by lia. by apply word_bits.
Qed.

Lemma word_clear_bit w j : is_u32 w -> 0 <= j < 32 ->
  is_u32 (Z.land w (u32 (Z.lnot (Z.shiftl 1 j)))) /\
  forall n, 0 <= n -> Z.testbit (Z.land w (u32 (Z.lnot (Z.shiftl 1 j)))) n = if decide (n = j) then false else Z.testbit w n.
Proof.
  intros Hw Hj. pose proof (u32_range (Z.lnot (Z.shiftl 1 j))) as Hr.
  assert (forall n, 0 <= n -> Z.testbit (Z.land w (u32 (Z.lnot (Z.shiftl 1 j)))) n = if decide (n = j) then false else Z.testbit w n) as Hbit.
  { intros n Hn. rewrite Z.land_spec. destruct (Z.lt_ge_cases n 32).
    - unfold u32. rewrite Z.mod_pow2_bits_low, Z.lnot_spec, Z.shiftl_1_l by lia. case_decide as E.
      + rewrite E, Z.pow2_bits_true by lia. by rewrite andb_false_r.
      + rewrite Z.pow2_bits_false by done. by rewrite andb_true_r.
    - rewrite (word_bits w n Hw) by done. by rewrite decide_False by lia. }
  split; [|done]. unfold is_u32 in *.
  split; [apply Z.land_nonneg; lia|]. apply testbit_bounded; [apply Z.land_nonneg; lia| |lia].
  intros i Hi. rewrite Hbit, decide_False by lia. by apply word_bits.
Qed.

Section bitmap_lemmas.
Implicit Types b : bitmap.

Lemma frame_split f : 0 <= f -> f = 32 * (f / 32) + f mod 32 /\ 0 <= f mod 32 < 32 /\ 0 <= f / 32.
Proof. intros Hf. Z.div_mod_to_equations. lia. Qed.

Lemma frame_word_ok b f : bitmap_wf b -> 0 <= f < nframes b ->
  exists w, frame_word (INDEX_FROM_BIT f) b = Ok w /\ is_u32 w /\
    frames b !! Z.to_nat (f / 32) = Some w /\ used b f = Z.testbit w (f mod 32).
Proof.
  intros [Hn Hc Hl Hw] Hf. unfold frame_word, INDEX_FROM_BIT, BITS_PER_FRAME_WORD, used.
  destruct (lookup_lt_is_Some_2 (frames b) (Z.to_nat (f / 32))) as [w E];
    [Z.div_mod_to_equations; lia|].
  rewrite E. exists w. split_and!; try done. rewrite Forall_lookup in Hw. by eapply Hw.
Qed.

Lemma update_word b f v w w' : bitmap_wf b -> 0 <= f < nframes b ->
  frames b !! Z.to_nat (f / 32) = Some w -> is_u32 w' ->
  (forall n, 0 <= n -> Z.testbit w' n = if decide (n = f mod 32) then v else Z.testbit w n) ->
  bitmap_wf (set_frame_word (INDEX_FROM_BIT f) w' b) /\
  bitmap_set b (set_frame_word (INDEX_FROM_BIT f) w' b) f v.
Proof.
  intros [Hn Hc Hl Hw] Hf Hlook Hw' Hbits. unfold set_frame_word, INDEX_FROM_BIT, BITS_PER_FRAME_WORD.
  pose proof (lookup_lt_Some _ _ _ Hlook) as Hlt. destruct (frame_split f) as (Ef & Hm & Hd); [lia|].
  split; [split; simpl; [done|done|by rewrite length_insert|by apply Forall_insert]|].
  split; [done|]. intros g Hg. unfold used. simpl. destruct (frame_split g Hg) as (Eg & Hgm & Hgd).
  destruct (decide (g / 32 = f / 32)) as [E|E].
  - rewrite E, list_lookup_insert_eq by done. rewrite Hbits, Hlook by lia.
    repeat case_decide; try lia; done.
  - rewrite list_lookup_insert_ne by lia. rewrite decide_False by (intros ->; done). done.
Qed.

Lemma page_addr f : 0 <= f < 2 ^ 20 -> u32 (f * 0x1000) / 0x1000 = f.
Proof. intros Hf. rewrite u32_small by lia. by apply Z.div_mul. Qed.

Lemma set_frame_spec b f : bitmap_wf b -> 0 <= f < nframes b ->
  exists b', set_frame (u32 (f * 0x1000)) b = Ok b' /\ bitmap_wf b' /\ bitmap_set b b' f true.
Proof.
  intros Hwf Hf. pose proof (bw_nframes _ Hwf). unfold set_frame.
  rewrite page_addr by lia. rewrite ASSERT_ok by lia. rsimpl.
  destruct (frame_word_ok b f Hwf Hf) as (w & -> & Hw & Hlook & _). rsimpl.
  destruct (frame_split f) as (_ & Hm & _); [lia|]. unfold OFFSET_FROM_BIT, BITS_PER_FRAME_WORD.
  destruct (word_set_bit w (f mod 32) Hw Hm) as [Hw' Hbits].
  eexists. split; [done|]. by eapply update_word.
Qed.

Lemma clear_frame_spec b f : bitmap_wf b -> 0 <= f < nframes b ->
  exists b', clear_frame (u32 (f * 0x1000)) b = Ok b' /\ bitmap_wf b' /\ bitmap_set b b' f false.
Proof.
  intros Hwf Hf. pose proof (bw_nframes _ Hwf). unfold clear_frame.
  rewrite page_addr by lia. rewrite ASSERT_ok by lia. rsimpl.
  destruct (frame_word_ok b f Hwf Hf) as (w & -> & Hw & Hlook & _). rsimpl.
  destruct (frame_split f) as (_ & Hm & _); [lia|]. unfold OFFSET_FROM_BIT, BITS_PER_FRAME_WORD.
  destruct (word_clear_bit w (f mod 32) Hw Hm) as [Hw' Hbits].
  eexists. split; [done|]. by eapply update_word.
Qed.

Lemma test_frame_spec b f : bitmap_wf b -> 0 <= f < nframes b ->
  exists t, test_frame (u32 (f * 0x1000)) b = Ok t /\ (t =? 0) = negb (used b f).
Proof.
  intros Hwf Hf. pose proof (bw_nframes _ Hwf). unfold test_frame.
  rewrite page_addr by lia. rewrite ASSERT_ok by lia. rsimpl.
  destruct (frame_word_ok b f Hwf Hf) as (w & -> & Hw & _ & ->). rsimpl.
  destruct (frame_split f) as (_ & Hm & _); [lia|]. unfold OFFSET_FROM_BIT, BITS_PER_FRAME_WORD.
  eexists. split; [done|]. rewrite u32_bit by done. apply land_pow2. lia.
Qed.

Lemma scan_word_spec k w i j n :
  0 <= j -> j + Z.of_nat k <= 32 ->
  match scan_word k w i j n with
  | Some f => i * 32 + j <= f < i * 32 + j + Z.of_nat k /\ f < n /\ Z.testbit w (f - i * 32) = false /\
      (forall g, i * 32 + j <= g < f -> g < n -> Z.testbit w (g - i * 32) = true)
  | None => forall g, i * 32 + j <= g < i * 32 + j + Z.of_nat k -> g < n -> Z.testbit w (g - i * 32) = true
  end.
Proof.
  revert j. induction k as [|k IH]; intros j Hj Hk; [intros g Hg; simpl in Hg; lia|].
  cbn [scan_word]. rewrite u32_bit, land_pow2 by lia. unfold BITS_PER_FRAME_WORD.
  destruct (negb (Z.testbit w j) && (i * 32 + j <? n)) eqn:E.
  - apply andb_true_iff in E as [E1%negb_true_iff E2]. split_and!; [lia..| |].
    + by replace (i * 32 + j - i * 32) with j by lia.
    + intros g Hg. lia.
  - assert (i * 32 + j < n -> Z.testbit w j = true) as Hj'.
    { intros Hlt. apply andb_false_iff in E as [E%negb_false_iff|E]; [done|lia]. }
    specialize (IH (j + 1) ltac:(lia) ltac:(lia)). destruct (scan_word k w i (j + 1) n) as [f|].
    + destruct IH as (Hf & Hfn & Hfb & Hfl). split_and!; [lia..|done|].
      intros g Hg Hgn. destruct (decide (g = i * 32 + j)) as [->|]; [|apply Hfl; lia].
      replace (i * 32 + j - i * 32) with j by lia. auto.
    + intros g Hg Hgn. destruct (decide (g = i * 32 + j)) as [->|]; [|apply IH; lia].
      replace (i * 32 + j - i * 32) with j by lia. auto.
Qed.

Lemma all_ones_bit j : 0 <= j < 32 -> Z.testbit 0xFFFFFFFF j = true.
Proof. intros Hj. change 0xFFFFFFFF with (Z.ones 32). apply Z.ones_spec_low. lia. Qed.

(** The lowest free frame, or the sentinel when there is none. *)
Lemma first_frame_spec b : bitmap_wf b ->
  exists r, first_frame b = Ok r /\
    (r = 2 ^ 32 - 1 /\ (forall g, 0 <= g < nframes b -> used b g = true) \/
     0 <= r < nframes b /\ used b r = false /\ (forall g, 0 <= g < r -> used b g = true)).
Proof.
  intros Hwf. pose proof Hwf as [Hn Hc Hl Hw]. unfold first_frame.
  assert (0 <= frame_word_count b <= 2 ^ 15) as Hcr by (rewrite Hc; Z.div_mod_to_equations; lia).
  match goal with |- context [while ?f 0] =>
    destruct (while_rule f
      (fun i => 0 <= i <= frame_word_count b /\
         forall g, 0 <= g < i * 32 -> g < nframes b -> used b g = true)
      (fun r => r = 2 ^ 32 - 1 /\ (forall g, 0 <= g < nframes b -> used b g = true) \/
         0 <= r < nframes b /\ used b r = false /\ (forall g, 0 <= g < r -> used b g = true))
      (fun i => frame_word_count b - i) 0) as (r & Hr & HQ) end.
  - intros i [Hi Hbelow]. destruct (Z.ltb_spec i (frame_word_count b)).
    2:{ left. split; [done|]. intros g Hg. apply Hbelow; [|lia].
        assert (i = frame_word_count b) as -> by lia. rewrite Hc. Z.div_mod_to_equations. lia. }
    destruct (lookup_lt_is_Some_2 (frames b) (Z.to_nat i)) as [w E]; [lia|].
    unfold frame_word. rewrite E. rsimpl.
    assert (forall g, i * 32 <= g < i * 32 + 32 -> used b g = Z.testbit w (g - i * 32)) as Hused.
    { intros g Hg. unfold used. assert (g / 32 = i) as -> by (Z.div_mod_to_equations; lia).
      rewrite E. f_equal. Z.div_mod_to_equations. lia. }
    assert ((forall g, 0 <= g < (i + 1) * 32 -> g < nframes b -> used b g = true) ->
      (0 <= i + 1 <= frame_word_count b /\
       (forall g, 0 <= g < (i + 1) * 32 -> g < nframes b -> used b g = true)) /\
      0 <= frame_word_count b - (i + 1) < frame_word_count b - i) as Hnext by (intros; split; [split; [lia|done]|lia]).
    pose proof (scan_word_spec 32 w i 0 (nframes b) ltac:(lia) ltac:(lia)) as Hs.
    destruct (Z.eqb_spec w 0xFFFFFFFF) as [->|Hne]; simpl negb; cbv iota.
    + apply Hnext. intros g Hg Hgn. destruct (decide (g < i * 32)); [apply Hbelow; lia|].
      rewrite Hused by lia. apply all_ones_bit. lia.
    + destruct (scan_word 32 w i 0 (nframes b)) as [f|].
      * right. destruct Hs as (Hf & Hfn & Hfb & Hfl). split; [lia|]. split.
        -- by rewrite Hused by lia.
        -- intros g Hg. destruct (decide (g < i * 32)); [apply Hbelow; lia|].
           rewrite Hused by lia. apply Hfl; lia.
      * apply Hnext. intros g Hg Hgn. destruct (decide (g < i * 32)); [apply Hbelow; lia|].
        rewrite Hused by lia. apply Hs; lia.
  - split; [lia|]. intros g Hg. lia.
  - lia.
  - exists r. by split.
Qed.

Lemma alloc_frame_spec page k w b : bitmap_wf b -> present page = 0 ->
  (alloc_frame page k w b = Panic OUT_OF_MEMORY /\ forall g, 0 <= g < nframes b -> used b g = true) \/
  exists f b', alloc_frame page k w b =
      Ok (mk_page 1 (if w =? 1 then 1 else 0) (if k =? 1 then 0 else 1)
            (accessed page) (dirty page) (unused page) f, b') /\
    0 <= f < nframes b /\ used b f = false /\ (forall g, 0 <= g < f -> used b g = true) /\
    bitmap_wf b' /\ bitmap_set b b' f true.
Proof.
  intros Hwf Hp. pose proof (bw_nframes _ Hwf). unfold alloc_frame. rewrite Hp. simpl negb. cbv iota.
  destruct (first_frame_spec b Hwf) as (r & -> & [[-> Hall]|(Hr & Hfree & Hlow)]); rsimpl.
  - left. by split.
  - right. rewrite (proj2 (Z.eqb_neq r (u32 (-1)))) by (change (u32 (-1)) with (2 ^ 32 - 1); lia).
    destruct (test_frame_spec b r Hwf Hr) as (t & -> & Ht). rsimpl. rewrite Ht, Hfree. simpl. rsimpl.
    destruct (set_frame_spec b r Hwf Hr) as (b' & -> & Hwf' & Hset). rsimpl.
    exists r, b'. rewrite Z.mod_small by lia. by split_and!; try lia.
Qed.

Lemma free_frame_spec page b : bitmap_wf b -> present page <> 0 -> 0 <= frame page < nframes b ->
  exists b', free_frame page b = Ok (mk_page 0 1 0 0 0 (unused page) 0, b') /\
    bitmap_wf b' /\ bitmap_set b b' (frame page) false.
Proof.
  intros Hwf Hp Hf. unfold free_frame. rewrite (proj2 (Z.eqb_neq _ 0)) by done.
  destruct (clear_frame_spec b (frame page) Hwf Hf) as (b' & -> & Hwf' & Hset). rsimpl.
  by exists b'.
Qed.
End bitmap_lemmas.

Lemma initialise_bitmap_spec pme : is_u32 pme -> 0x1000 <= pme ->
  exists b, initialise_bitmap pme = Ok b /\ bitmap_wf b /\ nframes b = pme / 0x1000 /\
    forall f, 0 <= f < nframes b -> used b f = false.
Proof.
  unfold is_u32. intros Hp Hmin. unfold initialise_bitmap. cbv zeta.
  rewrite land_page_base by done. set (n := (pme - pme mod 0x1000) / 0x1000).
  assert (n = pme / 0x1000) as En by (unfold n; Z.div_mod_to_equations; lia).
  assert (0 < n <= 2 ^ 20) as Hn by (rewrite En; Z.div_mod_to_equations; lia).
  unfold INDEX_FROM_BIT, OFFSET_FROM_BIT, BITS_PER_FRAME_WORD. set (c := (n + 31) / 32).
  assert (n <= c * 32 < n + 32) as Hc by (unfold c; Z.div_mod_to_equations; lia).
  match goal with |- context [for_range _ _ ?f ?s0] =>
    destruct (for_range_rule (fun i l => n <= i <= c * 32 /\ Z.of_nat (length l) = c /\ Forall is_u32 l /\
      forall g, 0 <= g < n -> used (mk_bitmap l n c) g = false) f n (c * 32) s0)
      as (l & -> & _ & Hl & Hw & Hfree) end.
  - lia.
  - intros i l Hi (_ & Hl & Hw & Hfree).
    destruct (lookup_lt_is_Some_2 l (Z.to_nat (i / 32))) as [w E]; [Z.div_mod_to_equations; lia|].
    rewrite E. eexists. split; [done|]. rewrite length_insert.
    assert (is_u32 w) as Hwu by (rewrite Forall_lookup in Hw; by eapply Hw).
    destruct (frame_split i ltac:(lia)) as (Ei & Him & Hid).
    destruct (word_set_bit w (i mod 32) Hwu Him) as [Hw' Hbits].
    split_and!; [lia..|by apply Forall_insert|]. intros g Hg. rewrite <- (Hfree g Hg). unfold used. simpl.
    destruct (frame_split g ltac:(lia)) as (Eg & Hgm & Hgd).
    destruct (decide (g / 32 = i / 32)) as [Ed|Ed].
    + rewrite Ed, list_lookup_insert_eq by (by eapply lookup_lt_Some). rewrite E, Hbits by lia.
      rewrite decide_False by lia. done.
    + by rewrite list_lookup_insert_ne by lia.
  - split_and!; [lia|lia|rewrite length_replicate; lia| |].
    + apply Forall_replicate. unfold is_u32. lia.
    + intros g Hg. unfold used. simpl. rewrite lookup_replicate_2; [apply Z.bits_0|].
      Z.div_mod_to_equations. lia.
  - rsimpl. eexists. split; [done|]. split; [split; simpl; [lia|done|done|done]|]. by split.
Qed.

(** [alloc_frame] on a non-present entry hands out the lowest free frame
    and marks exactly that frame, with the access bits asked for; it panics
    with "Out of physical memory" exactly when every tracked frame is used. *)
Theorem alloc_frame_lowest_free page k w b :
  bitmap_wf b -> present page = 0 ->
  (alloc_frame page k w b = Panic OUT_OF_MEMORY <-> forall g, 0 <= g < nframes b -> used b g = true) /\
  (forall page' b', alloc_frame page k w b = Ok (page', b') ->
     0 <= frame page' < nframes b /\ used b (frame page') = false /\
     (forall g, 0 <= g < frame page' -> used b g = true) /\
     present page' = 1 /\ rw page' = (if w =? 1 then 1 else 0) /\ user page' = (if k =? 1 then 0 else 1) /\
     bitmap_wf b' /\ bitmap_set b b' (frame page') true).
Proof.
  intros Hwf Hp. destruct (alloc_frame_spec page k w b Hwf Hp) as [[-> Hall]|(f & b' & -> & Hf & Hfree & Hlow & Hwf' & Hset)].
  - split; [by split|]. intros ? ? [=].
  - split; [|intros ? ? [= <- <-]; simpl; by split_and!; try lia].
    split; [done|]. intros Hall. rewrite Hall in Hfree by lia. done.
Qed.

Definition demo_bitmap : bitmap := mk_bitmap [0xFFFFFFFF; 0xFFFFFFF5] 36 2.
Lemma demo_bitmap_wf : bitmap_wf demo_bitmap.
Proof. split; simpl; [lia|reflexivity|reflexivity|]. repeat constructor; unfold is_u32; lia. Qed.

Lemma alloc_frame_lowest_free_witness :
  alloc_frame empty_page 1 1 demo_bitmap =
    Ok (mk_page 1 1 0 0 0 0 33, mk_bitmap [0xFFFFFFFF; 0xFFFFFFF7] 36 2) /\
  used demo_bitmap 33 = false /\ (forall g, 0 <= g < 33 -> used demo_bitmap g = true).
Proof.
  destruct (alloc_frame_lowest_free empty_page 1 1 demo_bitmap demo_bitmap_wf eq_refl) as [_ H].
  destruct (H (mk_page 1 1 0 0 0 0 33) (mk_bitmap [0xFFFFFFFF; 0xFFFFFFF7] 36 2)) as (_ & H1 & H2 & _);
    [vm_compute; reflexivity|].
  split; [vm_compute; reflexivity|]. split; [exact H1|exact H2].
Defined.

(** Freeing a frame right after it was allocated restores the bitmap
    (as a set of used frames) and leaves the entry not present. *)
Theorem frame_round_trip page k w b page' b' :
  bitmap_wf b -> present page = 0 -> alloc_frame page k w b = Ok (page', b') ->
  exists page'' b'', free_frame page' b' = Ok (page'', b'') /\ present page'' = 0 /\
    nframes b'' = nframes b /\ forall g, 0 <= g -> used b'' g = used b g.
Proof.
  intros Hwf Hp Ha.
  destruct (alloc_frame_spec page k w b Hwf Hp) as [[Hx _]|(f & b1 & Hx & Hf & Hfree & _ & Hwf' & [Hn Hset])];
    rewrite Hx in Ha; [discriminate|injection Ha as <- <-].
  match goal with |- context [free_frame ?p _] =>
    destruct (free_frame_spec p b1 Hwf') as (b2 & -> & _ & Hn2 & Hset2); [done|simpl; lia|] end.
  eexists _, b2. split; [done|]. split_and!; [done|congruence|]. simpl in Hset2.
  intros g Hg. rewrite Hset2, Hset by done. case_decide as E; [by rewrite E, Hfree|done].
Qed.

Lemma frame_round_trip_witness :
  exists page'' b'', free_frame (mk_page 1 1 0 0 0 0 33) (mk_bitmap [0xFFFFFFFF; 0xFFFFFFF7] 36 2) = Ok (page'', b'') /\
    present page'' = 0 /\ nframes b'' = 36 /\ forall g, 0 <= g -> used b'' g = used demo_bitmap g.
Proof.
  refine (frame_round_trip empty_page 1 1 demo_bitmap _ _ demo_bitmap_wf eq_refl _).
  vm_compute. reflexivity.
Defined.
