(* ===== verification/Paging.v ===== *)
(** * paging.c: page tables, directories, cloning and destruction

    Page tables and directories are objects of a store, named by the address
    that [kmalloc_ap] returned; [0] is the null pointer.  The contents of a
    physical frame are a value of an arbitrary type, found under the frame's
    base address, and [copy_page_physical] copies one.  The allocator is
    the interface [Kmalloc] with the laws [KmallocLaws]; HeapPaging says what an
    allocation does to the page tables of the kernel heap itself. *)

From S2P Require Import Prelude Kmalloc Frames.

Definition NULL_POINTER : string := "null pointer dereference".
Definition sizeof_page_table_t : Z := 4096.
Definition sizeof_page_directory_t : Z := 8196.

Record page_directory : Type := mk_directory {
  tables : list Z;
  tablesPhysical : list Z;
  physicalAddr : Z
}.

Record mm (C K : Type) : Type := mk_mm {
  bits : bitmap;
  page_tables : gmap Z (list page_t);
  directories : gmap Z page_directory;
  contents_of : Z -> C;
  kernel_directory : Z;
  current_directory : Z;
  kstate : K
}.
Arguments mk_mm {C K}. Arguments bits {C K}. Arguments page_tables {C K}.
Arguments directories {C K}. Arguments contents_of {C K}. Arguments kernel_directory {C K}.
Arguments current_directory {C K}. Arguments kstate {C K}.

Section paging.
Context {C K : Type} `{!Kmalloc K}.
Implicit Types s : mm C K.

Definition with_bits s (b : bitmap) : mm C K :=
  mk_mm b (page_tables s) (directories s) (contents_of s) (kernel_directory s) (current_directory s) (kstate s).
Definition with_tables s (t : gmap Z (list page_t)) : mm C K :=
  mk_mm (bits s) t (directories s) (contents_of s) (kernel_directory s) (current_directory s) (kstate s).
Definition with_directories s (d : gmap Z page_directory) : mm C K :=
  mk_mm (bits s) (page_tables s) d (contents_of s) (kernel_directory s) (current_directory s) (kstate s).
Definition with_kstate s (k : K) : mm C K :=
  mk_mm (bits s) (page_tables s) (directories s) (contents_of s) (kernel_directory s) (current_directory s) k.

(** [memcpy] of one physical page, both addresses physical. *)
Definition copy_page_physical (source destination : Z) s : mm C K :=
  mk_mm (bits s) (page_tables s) (directories s)
    (fun a => if a =? destination then contents_of s source else contents_of s a)
    (kernel_directory s) (current_directory s) (kstate s).

(** CR3 and CR0.PG are loaded; the visible effect is the current directory. *)
Definition switch_page_directory (dir : Z) s : mm C K :=
  mk_mm (bits s) (page_tables s) (directories s) (contents_of s) (kernel_directory s) dir (kstate s).

Definition read_directory (d : Z) s : res page_directory :=
  match directories s !! d with Some x => Ok x | None => Panic NULL_POINTER end.
Definition table_slot (l : list Z) (i : Z) : res Z :=
  match l !! Z.to_nat i with Some t => Ok t | None => Panic NULL_POINTER end.
Definition read_page (t i : Z) s : res page_t :=
  match page_tables s !! t with
  | Some ps => match ps !! Z.to_nat i with Some p => Ok p | None => Panic NULL_POINTER end
  | None => Panic NULL_POINTER
  end.
Definition write_page (t i : Z) (p : page_t) s : mm C K :=
  with_tables s (alter (fun ps => <[Z.to_nat i := p]> ps) t (page_tables s)).

(** [kmalloc_ap(sizeof(page_table_t), &phys)] followed by [memset]. *)
Definition new_page_table s : res (Z * Z * mm C K) :=
  '(t, phys, k) ← kmalloc_ap sizeof_page_table_t (kstate s);
  Ok (t, phys, with_tables (with_kstate s k) (<[t := replicate 1024 empty_page]> (page_tables s))).

Definition set_table_slot (d i t phys : Z) s : mm C K :=
  with_directories s (alter (fun x => mk_directory (<[Z.to_nat i := t]> (tables x))
    (<[Z.to_nat i := phys]> (tablesPhysical x)) (physicalAddr x)) d (directories s)).

(** The entry for [address]: table and index, or the null pointer. *)
Definition get_page (address make dir : Z) s : res (option (Z * Z) * mm C K) :=
  ASSERT (negb (dir =? 0));;
  let address := address / 0x1000 in
  let table_idx := address / 1024 in
  d ← read_directory dir s;
  t ← table_slot (tables d) table_idx;
  if negb (t =? 0) then Ok (Some (t, address mod 1024), s)
  else if negb (make =? 0) then
    '(t, tmp, s) ← new_page_table s;
    Ok (Some (t, address mod 1024), set_table_slot dir table_idx t (Z.lor tmp 0x7) s)
  else Ok (None, s).

(** One entry of [clone_table]: an independent frame with the same bytes. *)
Definition clone_entry (src table i : Z) s : res (mm C K) :=
  p ← read_page src i s;
  if present p =? 0 then Ok s
  else
    q ← read_page table i s;
    '(q, b) ← alloc_frame q 0 0 (bits s);
    let q := mk_page (if negb (present p =? 0) then 1 else present q)
               (if negb (rw p =? 0) then 1 else rw q)
               (if negb (user p =? 0) then 1 else user q)
               (if negb (accessed p =? 0) then 1 else accessed q)
               (if negb (dirty p =? 0) then 1 else dirty q) (unused q) (frame q) in
    Ok (copy_page_physical (u32 (frame p * 0x1000)) (u32 (frame q * 0x1000))
          (write_page table i q (with_bits s b))).

Definition clone_table (src : Z) s : res (Z * Z * mm C K) :=
  '(table, physAddr, s) ← new_page_table s;
  s ← for_range 0 1024 (clone_entry src table) s;
  Ok (table, physAddr, s).

(** One slot of [clone_directory]. *)
Definition clone_slot (src dir i : Z) s : res (mm C K) :=
  d ← read_directory src s;
  t ← table_slot (tables d) i;
  if t =? 0 then Ok s
  else
    kd ← read_directory (kernel_directory s) s;
    kt ← table_slot (tables kd) i;
    if kt =? t then
      tp ← table_slot (tablesPhysical d) i;
      Ok (set_table_slot dir i t tp s)
    else
      '(t', phys, s) ← clone_table t s;
      Ok (set_table_slot dir i t' (Z.lor phys 0x07) s).

Definition clone_directory (src : Z) s : res (Z * mm C K) :=
  ASSERT (negb (src =? 0));;
  '(dir, phys, k) ← kmalloc_ap sizeof_page_directory_t (kstate s);
  let offset := 4096 in
  let s := with_directories (with_kstate s k)
    (<[dir := mk_directory (replicate 1024 0) (replicate 1024 0) (u32 (phys + offset))]>
       (directories s)) in
  s ← for_range 0 1024 (clone_slot src dir) s;
  Ok (dir, s).

(** One entry of a private table in [destroy_directory]. *)
Definition destroy_entry (table i : Z) s : res (mm C K) :=
  p ← read_page table i s;
  if negb (present p =? 0) then
    '(p, b) ← free_frame p (bits s);
    Ok (write_page table i p (with_bits s b))
  else Ok s.

Definition destroy_slot (directory i : Z) s : res (mm C K) :=
  d ← read_directory directory s;
  table ← table_slot (tables d) i;
  if table =? 0 then Ok s
  else
    kd ← read_directory (kernel_directory s) s;
    kt ← table_slot (tables kd) i;
    if kt =? table then Ok s
    else
      s ← for_range 0 1024 (destroy_entry table) s;
      k ← kfree table (kstate s);
      Ok (with_tables (with_kstate s k) (delete table (page_tables s))).

Definition destroy_directory (directory : Z) s : res (mm C K) :=
  ASSERT (negb (directory =? 0));;
  ASSERT (negb (directory =? kernel_directory s));;
  ASSERT (negb (directory =? current_directory s));;
  s ← for_range 0 1024 (destroy_slot directory) s;
  k ← kfree directory (kstate s);
  Ok (with_directories (with_kstate s k) (delete directory (directories s))).
End paging.
