(* ===== verification/PagingProofs.v ===== *)
(** * Cloning and destroying address spaces

    A clone of a table has the same shape, its own frames - all free before,
    all distinct - and the same bytes in them ([cloned]); destroying a
    directory frees exactly what its private tables own. *)

From S2P Require Import Prelude Kmalloc Frames Paging.

(** Physical base address of a frame. *)
Definition base (f : Z) : Z := u32 (f * 0x1000).

Lemma base_inj f g : 0 <= f < 2 ^ 20 -> 0 <= g < 2 ^ 20 -> base f = base g -> f = g.
Proof. unfold base. intros Hf Hg. rewrite !u32_small by lia. lia. Qed.

Definition owns (ps : list page_t) (f : Z) : Prop :=
  exists j q, ps !! j = Some q /\ present q <> 0 /\ frame q = f.

(** The frames of a table exist and are marked used. *)
Record table_ok (b : bitmap) (ps : list page_t) : Prop := {
  tk_length : length ps = 1024%nat;
  tk_frames : forall f, owns ps f -> 0 <= f < nframes b /\ used b f = true
}.

(** What [clone_table] makes of a present entry: same access bits except
    that the clone is always user-accessible. *)
Record clone_of (p q : page_t) : Prop := {
  co_present : present q = 1;
  co_rw : rw q = if rw p =? 0 then 0 else 1;
  co_user : user q = 1;
  co_accessed : accessed q = if accessed p =? 0 then 0 else 1;
  co_dirty : dirty q = if dirty p =? 0 then 0 else 1
}.

Section proofs.
Context {C K : Type} `{!Kmalloc K} `{!KmallocLaws K}.
Implicit Types s : mm C K.

(** [qs] clones the first [n] entries of [ps]. *)
Record cloned s s' (ps qs : list page_t) (n : nat) : Prop := {
  cl_length : length qs = 1024%nat;
  cl_none : forall j p q, (j < n)%nat -> ps !! j = Some p -> qs !! j = Some q ->
    present p = 0 -> q = empty_page;
  cl_some : forall j p q, (j < n)%nat -> ps !! j = Some p -> qs !! j = Some q ->
    present p <> 0 -> clone_of p q /\ 0 <= frame q < nframes (bits s) /\
      used (bits s) (frame q) = false /\
      contents_of s' (base (frame q)) = contents_of s (base (frame p));
  cl_rest : forall j q, (n <= j)%nat -> qs !! j = Some q -> q = empty_page;
  cl_distinct : forall j k q r, qs !! j = Some q -> qs !! k = Some r ->
    present q <> 0 -> present r <> 0 -> frame q = frame r -> j = k
}.

(** What stays as it was while tables are cloned. *)
Record extends s s' (new : Z -> Prop) : Prop := {
  ex_wf : bitmap_wf (bits s');
  ex_nframes : nframes (bits s') = nframes (bits s);
  ex_used : forall g, 0 <= g ->
    used (bits s') g = true <-> used (bits s) g = true \/ new g;
  ex_contents : forall f, 0 <= f < nframes (bits s) -> used (bits s) f = true ->
    contents_of s' (base f) = contents_of s (base f);
  ex_kernel : kernel_directory s' = kernel_directory s;
  ex_current : current_directory s' = current_directory s
}.

Lemma extends_refl s : bitmap_wf (bits s) -> extends s s (fun _ => False).
Proof. split; try done. intros. tauto. Qed.

Lemma read_page_ok t i s ps p :
  page_tables s !! t = Some ps -> ps !! Z.to_nat i = Some p -> read_page t i s = Ok p.
Proof. intros H1 H2. unfold read_page. by rewrite H1, H2. Qed.

Lemma clone_entry_spec s0 s s' src table ps qs i :
  page_tables s !! src = Some ps -> page_tables s !! table = Some qs -> src <> table ->
  table_ok (bits s0) ps -> 0 <= i < 1024 ->
  extends s0 s (owns qs) -> cloned s0 s ps qs (Z.to_nat i) ->
  clone_entry src table i s = Ok s' ->
  exists qs', page_tables s' = <[table := qs']> (page_tables s) /\
    directories s' = directories s /\ kstate s' = kstate s /\
    extends s0 s' (owns qs') /\ cloned s0 s' ps qs' (Z.to_nat (i + 1)).
Proof.
  intros Hsrc Htab Hne [Hlen Hfr] Hi Hext [Cl Cn Cs Cr Cd] Hrun.
  destruct (lookup_lt_is_Some_2 ps (Z.to_nat i)) as [p Hp]; [lia|].
  destruct (lookup_lt_is_Some_2 qs (Z.to_nat i)) as [q Hq]; [lia|].
  assert (q = empty_page) as -> by by eapply (Cr (Z.to_nat i)).
  replace (Z.to_nat (i + 1)) with (S (Z.to_nat i)) by lia.
  unfold clone_entry in Hrun. rewrite (read_page_ok _ _ _ _ _ Hsrc Hp), bind_Ok in Hrun.
  destruct (Z.eqb_spec (present p) 0) as [E|E].
  { injection Hrun as <-. exists qs. split_and!; try done; [by rewrite insert_id|].
    split; try done.
    - intros j p' q' Hj Hp' Hq' Hpr. destruct (decide (j = Z.to_nat i)) as [->|]; [congruence|].
      apply (Cn j p'); [lia|done..].
    - intros j p' q' Hj Hp' Hq' Hpr. destruct (decide (j = Z.to_nat i)) as [->|]; [congruence|].
      apply (Cs j p'); [lia|done..].
    - intros j q' Hj. apply Cr. lia. }
  rewrite (read_page_ok _ _ _ _ _ Htab Hq), bind_Ok in Hrun.
  apply bind_Ok_inv in Hrun as ([q' b'] & Ha & Hrun).
  destruct (alloc_frame_spec empty_page 0 0 (bits s)) as [[Hx _]|(f & b1 & Hx & Hf & Hfree & _ & Hwf' & [Hnf Hset])];
    [apply Hext|done|rewrite Hx in Ha; discriminate|]. rewrite Hx in Ha. injection Ha as <- <-.
  cbn [present rw user accessed dirty unused frame empty_page Z.eqb] in Hrun.
  assert (nframes (bits s) = nframes (bits s0)) as Enf by apply Hext.
  pose proof (bw_nframes _ (ex_wf _ _ _ Hext)) as Hnb.
  assert (used (bits s0) f = false) as Hf0.
  { destruct (used (bits s0) f) eqn:Eu; [|done]. rewrite (proj2 (ex_used _ _ _ Hext f ltac:(lia))) in Hfree; [done|by left]. }
  assert (~ owns qs f) as Hnotown.
  { intros Ho. rewrite (proj2 (ex_used _ _ _ Hext f ltac:(lia))) in Hfree; [done|by right]. }
  match type of Hrun with Ok (copy_page_physical _ _ (write_page _ _ ?q1 _)) = _ => set (q1' := q1) in * end.
  assert (frame q1' = f /\ present q1' = 1) as [Fq Pq].
  { done. }
  injection Hrun as <-.
  set (qs' := <[Z.to_nat i := q1']> qs).
  assert (forall j q2, qs' !! j = Some q2 -> j = Z.to_nat i /\ q2 = q1' \/ j <> Z.to_nat i /\ qs !! j = Some q2) as Hlook.
  { intros j q2. unfold qs'. destruct (decide (j = Z.to_nat i)) as [->|Hj].
    - rewrite list_lookup_insert_eq by lia. intros [= <-]. by left.
    - rewrite list_lookup_insert_ne by done. by right. }
  assert (forall g, owns qs' g <-> owns qs g \/ g = f) as Howns.
  { intros g. split.
    - intros (j & q2 & Hj & Hpr & Hg). apply Hlook in Hj as [[-> ->]|[_ Hj]]; [right; congruence|left; by exists j, q2].
    - intros [(j & q2 & Hj & Hpr & Hg)| ->].
      + exists j, q2. split; [|done]. unfold qs'. rewrite list_lookup_insert_ne; [done|].
        intros <-. assert (q2 = empty_page) as -> by congruence. done.
      + exists (Z.to_nat i), q1'. split; [unfold qs'; by rewrite list_lookup_insert_eq by lia|]. split; [lia|done]. }
  assert (owns ps (frame p)) as Hop by by exists (Z.to_nat i), p.
  destruct (Hfr _ Hop) as [Hpr Hpu].
  assert (frame p <> f) as Hpf by (intros <-; congruence).
  assert (forall g, 0 <= g < nframes (bits s0) -> g <> f ->
    contents_of (copy_page_physical (u32 (frame p * 0x1000)) (u32 (frame q1' * 0x1000))
      (write_page table i q1' (with_bits s b1))) (base g) = contents_of s (base g)) as Hcont.
  { intros g Hg Hgf. unfold copy_page_physical. cbn [contents_of]. rewrite Fq. change (u32 (f * 0x1000)) with (base f).
    rewrite (proj2 (Z.eqb_neq (base g) (base f))); [done|].
    intros Eb. apply Hgf, (base_inj g f); [lia|lia|done]. }
  exists qs'. simpl. split_and!; [|done|done| |].
  - apply map_eq. intros t. unfold write_page. simpl. destruct (decide (t = table)) as [->|Ht].
    + by rewrite lookup_alter_eq, Htab, lookup_insert_eq.
    + by rewrite lookup_alter_ne, lookup_insert_ne.
  - split; simpl; [done|congruence| | |apply Hext|apply Hext].
    + intros g Hg. rewrite Howns, Hset by done. case_decide as Egf; [tauto|].
      rewrite (ex_used _ _ _ Hext) by done. tauto.
    + intros g Hg Hu. etransitivity; [apply Hcont; [done|intros ->; congruence]|]. by apply Hext.
  - split.
    + unfold qs'. by rewrite length_insert.
    + intros j p2 q2 Hj Hp2 Hq2 Hpr2. apply Hlook in Hq2 as [[-> ->]|[Hne2 Hq2]]; [congruence|].
      apply (Cn j p2); [lia|done..].
    + intros j p2 q2 Hj Hp2 Hq2 Hpr2. apply Hlook in Hq2 as [[-> ->]|[Hne2 Hq2]].
      * assert (p2 = p) as -> by congruence. split_and!; [|lia|lia|by rewrite Fq|].
        -- split; unfold q1'; cbn [present rw user accessed dirty];
           first [done|by destruct (rw p =? 0)|by destruct (user p =? 0)
             |by destruct (accessed p =? 0)|by destruct (dirty p =? 0)].
        -- unfold copy_page_physical. simpl. unfold base. rewrite Z.eqb_refl.
           change (u32 (frame p * 0x1000)) with (base (frame p)). by apply Hext.
      * destruct (Cs j p2 q2 ltac:(lia) Hp2 Hq2 Hpr2) as (Hc & Hr & Hu & Hct). split_and!; try done; [lia..|].
        rewrite <- Hct. apply Hcont; [lia|]. intros Eg. apply Hnotown. exists j, q2.
        split_and!; [done| |done]. rewrite (co_present _ _ Hc). lia.
    + intros j q2 Hj Hq2. apply Hlook in Hq2 as [[-> _]|[_ Hq2]]; [lia|]. apply (Cr j); [lia|done].
    + intros j k q2 r2 Hj Hk Hq2 Hr2 Heq.
      apply Hlook in Hj as [[-> ->]|[Hj1 Hj]]; apply Hlook in Hk as [[-> ->]|[Hk1 Hk]].
      * done.
      * exfalso. apply Hnotown. exists k, r2. split_and!; [done..|congruence].
      * exfalso. apply Hnotown. exists j, q2. split_and!; [done..|congruence].
      * by eapply Cd.
Qed.

(** Every object of the store is a live block of the allocator. *)
Record objects_live s : Prop := {
  ol_tables : forall t ps, page_tables s !! t = Some ps -> t ∈ k_live (kstate s);
  ol_directories : forall d x, directories s !! d = Some x -> d ∈ k_live (kstate s)
}.

Lemma cloned_start s s' ps : cloned s s' ps (replicate 1024 empty_page) 0.
Proof.
  assert (forall j q, replicate 1024 empty_page !! j = Some q -> q = empty_page) as H
    by (intros j q [Hq _]%lookup_replicate; done).
  split; [by rewrite length_replicate|lia|lia|intros j q _; apply H|].
  intros j k q r Hq _ Hp. apply H in Hq as ->. done.
Qed.

Lemma extends_new s s1 (N N' : Z -> Prop) :
  (forall g, N g <-> N' g) -> extends s s1 N -> extends s s1 N'.
Proof. intros HN [? ? Hu ? ? ?]. split; try done. intros g Hg. rewrite Hu by done. by rewrite HN. Qed.

Lemma extends_trans s1 s2 s3 N1 N2 :
  extends s1 s2 N1 -> extends s2 s3 N2 -> extends s1 s3 (fun g => N1 g \/ N2 g).
Proof.
  intros [W1 F1 U1 C1 K1 R1] [W2 F2 U2 C2 K2 R2]. split; [done|congruence| | |congruence|congruence].
  - intros g Hg. rewrite U2, U1 by done. tauto.
  - intros f Hf Hu. rewrite C2, C1; [done|done|done|lia|]. apply U1; [lia|by left].
Qed.

Lemma clone_table_spec s s' src ps t' phys :
  bitmap_wf (bits s) -> page_tables s !! src = Some ps -> table_ok (bits s) ps ->
  objects_live s -> clone_table src s = Ok (t', phys, s') ->
  exists qs, t' <> 0 /\ (t' ∉ k_live (kstate s)) /\ page_tables s !! t' = None /\
    page_tables s' = <[t' := qs]> (page_tables s) /\ directories s' = directories s /\
    k_live (kstate s') = {[t']} ∪ k_live (kstate s) /\
    extends s s' (owns qs) /\ cloned s s' ps qs 1024.
Proof.
  intros Hwf Hsrc Hok [Hlt _] Hrun. unfold clone_table, new_page_table in Hrun.
  apply bind_Ok_inv in Hrun as ([[t ph] s1] & H1 & Hrun).
  apply bind_Ok_inv in H1 as ([[a p] k] & Hk & [= <- <- <-]).
  apply bind_Ok_inv in Hrun as (s2 & Hloop & [= <- <- <-]).
  destruct (kmalloc_fresh _ _ _ _ _ Hk) as (Ha & Hfresh & Hlive).
  assert (page_tables s !! a = None) as Hnone.
  { destruct (page_tables s !! a) as [qs|] eqn:E; [|done]. by apply Hlt in E. }
  set (s1 := with_tables (with_kstate s k) (<[a := replicate 1024 empty_page]> (page_tables s))) in *.
  pose proof (for_range_inv (fun i s2 => 0 <= i <= 1024 /\ exists qs,
      page_tables s2 = <[a := qs]> (page_tables s) /\ directories s2 = directories s /\
      kstate s2 = k /\ extends s s2 (owns qs) /\ cloned s s2 ps qs (Z.to_nat i))
    (clone_entry src a) 0 1024 s1 s2) as Hinv.
  destruct Hinv as (_ & qs & Ht & Hd & Hks & Hex & Hcl); [lia| | |done|].
  - intros i s3 s4 Hi (_ & qs & Ht & Hd & Hks & Hex & Hcl) Hstep. split; [lia|].
    assert (src <> a) as Hne by congruence.
    destruct (clone_entry_spec s s3 s4 src a ps qs i) as (qs' & Ht' & Hd' & Hks' & Hex' & Hcl'); try done.
    + by rewrite Ht, lookup_insert_ne.
    + by rewrite Ht, lookup_insert_eq.
    + exists qs'. split_and!; [|congruence|congruence|done|done].
      by rewrite Ht', Ht, insert_insert_eq.
  - split; [lia|]. exists (replicate 1024 empty_page). split_and!; try done; [|apply cloned_start].
    split; try done. intros g Hg. split; [by left|]. intros [?|(j & q & [Hq _]%lookup_replicate & Hp & _)]; [done|].
    by rewrite Hq in Hp.
  - exists qs. split_and!; try done. by rewrite Hks.
Qed.

(** A directory whose tables exist and own frames that are in use. *)
Record directory_ok s (d : page_directory) : Prop := {
  dk_tables : length (tables d) = 1024%nat;
  dk_physical : length (tablesPhysical d) = 1024%nat;
  dk_present : forall j t, tables d !! j = Some t -> t <> 0 ->
    exists ps, page_tables s !! t = Some ps /\ table_ok (bits s) ps
}.

(** A table of [s] that [s0] does not have. *)
Definition fresh_table s0 s (t : Z) (qs : list page_t) : Prop :=
  page_tables s0 !! t = None /\ page_tables s !! t = Some qs.
Definition fresh_owned s0 s (g : Z) : Prop := exists t qs, fresh_table s0 s t qs /\ owns qs g.

(** [t'] is an independent copy of the table [t]. *)
Definition private_clone s0 s (t t' : Z) : Prop :=
  exists ps qs, page_tables s0 !! t = Some ps /\ table_ok (bits s0) ps /\
    fresh_table s0 s t' qs /\ cloned s0 s ps qs 1024.

(** Slot [j] of a clone: empty, shared with the kernel, or private. *)
Definition slot_cloned s0 s (d kd : page_directory) (D : list Z) (j : nat) : Prop :=
  exists t t', tables d !! j = Some t /\ D !! j = Some t' /\
    (t = 0 /\ t' = 0 \/
     t <> 0 /\ tables kd !! j = Some t /\ t' = t \/
     t <> 0 /\ tables kd !! j <> Some t /\ t' <> 0 /\ private_clone s0 s t t').

(** The state while [clone_directory] fills the new directory [nd]. *)
Record cloning s0 s (nd : Z) (d kd : page_directory) (D : list Z) (n : nat) : Prop := {
  cg_directory : exists Ph pa, directories s = <[nd := mk_directory D Ph pa]> (directories s0);
  cg_length : length D = 1024%nat;
  cg_live : objects_live s;
  cg_blocks : forall x, x ∈ k_live (kstate s) <->
    x ∈ k_live (kstate s0) \/ x = nd \/ exists qs, fresh_table s0 s x qs;
  cg_old : forall t ps, page_tables s0 !! t = Some ps -> page_tables s !! t = Some ps;
  cg_extends : extends s0 s (fresh_owned s0 s);
  cg_slots : forall j, (j < n)%nat -> slot_cloned s0 s d kd D j;
  cg_rest : forall j t, (n <= j)%nat -> D !! j = Some t -> t = 0;
  cg_listed : forall t qs, fresh_table s0 s t qs -> exists j, (j < n)%nat /\ D !! j = Some t;
  cg_once : forall j k t qs, fresh_table s0 s t qs -> D !! j = Some t -> D !! k = Some t -> j = k;
  cg_new : forall t qs, fresh_table s0 s t qs -> t <> 0 /\ (t ∉ k_live (kstate s0)) /\ t <> nd;
  cg_apart : forall t1 t2 q1 q2 g, fresh_table s0 s t1 q1 -> fresh_table s0 s t2 q2 ->
    owns q1 g -> owns q2 g -> t1 = t2;
  cg_physical : forall y, directories s !! nd = Some y -> length (tablesPhysical y) = 1024%nat
}.

Lemma cloned_owned s s' ps qs f :
  cloned s s' ps qs 1024 -> length ps = 1024%nat -> owns qs f ->
  0 <= f < nframes (bits s) /\ used (bits s) f = false.
Proof.
  intros Hc Hl (j & q & Hj & Hp & <-). pose proof (lookup_lt_Some _ _ _ Hj) as Hlt.
  rewrite (cl_length _ _ _ _ _ Hc) in Hlt.
  destruct (lookup_lt_is_Some_2 ps j) as [p Hpj]; [lia|].
  destruct (decide (present p = 0)) as [E|E].
  - rewrite (cl_none _ _ _ _ _ Hc j p q ltac:(lia) Hpj Hj E) in Hp. done.
  - destruct (cl_some _ _ _ _ _ Hc j p q ltac:(lia) Hpj Hj E) as (_ & ? & ? & _). done.
Qed.

(** A private copy survives later cloning. *)
Lemma cloned_mono s0 s s' N ps qs :
  cloned s0 s ps qs 1024 -> length ps = 1024%nat -> extends s s' N -> nframes (bits s) = nframes (bits s0) ->
  (forall f, owns qs f -> used (bits s) f = true) -> cloned s0 s' ps qs 1024.
Proof.
  intros [Cl Cn Cs Cr Cd] Hl Hex Hnf Hused. split; try done.
  intros j p q Hj Hp Hq Hpr. destruct (Cs j p q Hj Hp Hq Hpr) as (Hc & Hr & Hu & Hct).
  split_and!; try done; [lia..|]. rewrite <- Hct. apply (ex_contents _ _ _ Hex); [lia|].
  apply Hused. exists j, q. split_and!; [done|rewrite (co_present _ _ Hc); lia|done].
Qed.

(** A copy made from a later state is a copy of the original. *)
Lemma cloned_base s0 s s' N ps qs :
  extends s0 s N -> table_ok (bits s0) ps -> cloned s s' ps qs 1024 -> cloned s0 s' ps qs 1024.
Proof.
  intros Hex [Hl Hfr] [Cl Cn Cs Cr Cd]. split; try done.
  intros j p q Hj Hp Hq Hpr. destruct (Cs j p q Hj Hp Hq Hpr) as (Hc & Hr & Hu & Hct).
  rewrite (ex_nframes _ _ _ Hex) in Hr. split_and!; try done; [lia..| |].
  - destruct (used (bits s0) (frame q)) eqn:E; [|done].
    rewrite (proj2 (ex_used _ _ _ Hex (frame q) ltac:(lia))) in Hu; [done|by left].
  - rewrite Hct. apply Hex; apply Hfr; by exists j, p.
Qed.

Lemma table_ok_extends s s' N ps : table_ok (bits s) ps -> extends s s' N -> table_ok (bits s') ps.
Proof.
  intros [Hl Hf] Hex. split; [done|]. intros f Ho. destruct (Hf f Ho) as [Hr Hu].
  rewrite (ex_nframes _ _ _ Hex). split; [done|]. apply Hex; [lia|by left].
Qed.

Lemma slot_cloned_mono s0 s s' d kd D j :
  (forall t t', private_clone s0 s t t' -> private_clone s0 s' t t') ->
  slot_cloned s0 s d kd D j -> slot_cloned s0 s' d kd D j.
Proof.
  intros Hp (t & t' & Ht & Ht' & [H|[H|(H1 & H2 & H3 & H4)]]); exists t, t'; split_and!; try done;
    [by left|by right; left|right; right]. split_and!; try done. by apply Hp.
Qed.

Lemma private_clone_same s0 s s' t t' :
  page_tables s' = page_tables s -> contents_of s' = contents_of s ->
  private_clone s0 s t t' -> private_clone s0 s' t t'.
Proof.
  intros Ht Hc (ps & qs & Hp & Hpk & [Hn Hq] & [? ? Hs ? ?]). exists ps, qs. split_and!; [done|done|split; [done|by rewrite Ht]|].
  split; try done. intros j p q Hj Hpj Hqj Hpr. rewrite Hc. by apply (Hs j).
Qed.

(** Filling a slot without new tables: empty or shared. *)
Lemma cloning_share s0 s nd d kd D n t :
  cloning s0 s nd d kd D n -> (n < 1024)%nat ->
  tables d !! n = Some t -> t <> 0 -> tables kd !! n = Some t ->
  (exists ps, page_tables s0 !! t = Some ps) ->
  forall tp, cloning s0 (set_table_slot nd (Z.of_nat n) t tp s) nd d kd (<[n := t]> D) (S n).
Proof.
  intros [(Ph & pa & Hd) Hl Hlv Hlm Hold Hex Hsl Hrest Hlist Honce Hnew Hap Hph] Hn Ht Ht0 Hkt [ps Hps] tp.
  assert (forall q k, fresh_table s0 s q k -> q <> t) as Hnf by (intros q k [Hq _] ->; congruence).
  split; simpl; try done.
  - exists (<[n := tp]> Ph), pa. rewrite Hd, alter_insert_eq. simpl. by rewrite Nat2Z.id.
  - by rewrite length_insert.
  - destruct Hlv as [Hlt Hld]. split; [done|]. intros x y Hx. simpl in *.
    destruct (decide (x = nd)) as [->|Hxn].
    + apply (Hld nd (mk_directory D Ph pa)). by rewrite Hd, lookup_insert_eq.
    + rewrite lookup_alter_ne in Hx by done. by eapply Hld.
  - destruct Hex. by split.
  - intros j Hj. destruct (decide (j = n)) as [->|].
    + exists t, t. rewrite list_lookup_insert_eq by lia. split_and!; [done..|]. right. left. done.
    + eapply (slot_cloned_mono s0 s); [intros x y; by apply private_clone_same|].
      destruct (Hsl j) as (a & b & Ha & Hb & Hc); [lia|]. exists a, b.
      by rewrite list_lookup_insert_ne by lia.
  - intros j x Hj Hx. rewrite list_lookup_insert_ne in Hx by lia. apply (Hrest j); [lia|done].
  - intros q qs Hq. destruct (Hlist q qs Hq) as (j & Hj & HDj). exists j. split; [lia|].
    rewrite list_lookup_insert_ne by lia. done.
  - intros j k q qs Hq Hj Hk. pose proof (Hnf _ _ Hq) as Hqt.
    destruct (decide (j = n)) as [->|]; [rewrite list_lookup_insert_eq in Hj by lia; congruence|].
    destruct (decide (k = n)) as [->|]; [rewrite list_lookup_insert_eq in Hk by lia; congruence|].
    rewrite list_lookup_insert_ne in Hj, Hk by lia. by eapply Honce.
  - intros y. simpl. rewrite Hd, alter_insert_eq, lookup_insert_eq. intros [= <-]. simpl. rewrite length_insert.
    apply (Hph (mk_directory D Ph pa)). by rewrite Hd, lookup_insert_eq.
Qed.

Lemma fresh_owned_used s0 s g : extends s0 s (fresh_owned s0 s) -> 0 <= g -> fresh_owned s0 s g -> used (bits s) g = true.
Proof. intros Hex Hg Ho. apply Hex; [done|by right]. Qed.

(** Filling a slot with a freshly cloned table. *)
Lemma cloning_private s0 s s2 nd d kd D n t t' qs ps :
  cloning s0 s nd d kd D n -> (n < 1024)%nat -> directory_ok s0 d ->
  tables d !! n = Some t -> t <> 0 -> tables kd !! n <> Some t ->
  page_tables s0 !! t = Some ps -> table_ok (bits s0) ps ->
  t' <> 0 -> (t' ∉ k_live (kstate s)) -> page_tables s !! t' = None -> page_tables s2 = <[t' := qs]> (page_tables s) ->
  directories s2 = directories s -> k_live (kstate s2) = {[t']} ∪ k_live (kstate s) ->
  extends s s2 (owns qs) -> cloned s s2 ps qs 1024 ->
  forall tp, cloning s0 (set_table_slot nd (Z.of_nat n) t' tp s2) nd d kd (<[n := t']> D) (S n).
Proof.
  intros [(Ph & pa & Hd) Hl Hlv Hlm Hold Hex Hsl Hrest Hlist Honce Hnew Hap Hph] Hn Hdok Ht Ht0 Hkt Hps Hpok
    Ht'0 Hnl' Hnone Hts2 Hds2 Hlive2 Hex2 Hcl tp.
  assert (page_tables s0 !! t' = None) as Hnone0.
  { destruct (page_tables s0 !! t') as [q|] eqn:E; [|done]. apply Hold in E. congruence. }
  set (s' := set_table_slot nd (Z.of_nat n) t' tp s2).
  assert (page_tables s' = <[t' := qs]> (page_tables s)) as Hts' by done.
  assert (forall q k, fresh_table s0 s' q k <-> q = t' /\ k = qs \/ fresh_table s0 s q k) as Hfresh.
  { intros q k. unfold fresh_table. rewrite Hts'. destruct (decide (q = t')) as [->|Hq].
    - rewrite lookup_insert_eq. split; [intros [_ [= <-]]; by left|]. intros [[_ ->]|[_ H]]; [done|congruence].
    - rewrite lookup_insert_ne by done. split; [by right|]. by intros [[? _]|?]. }
  pose proof (cloned_base _ _ _ _ _ _ Hex Hpok Hcl) as Hcl0.
  assert (length ps = 1024%nat) as Hlps by apply Hpok.
  assert (forall f, owns qs f -> 0 <= f < nframes (bits s0) /\ used (bits s) f = false) as Hqs.
  { intros f Ho. destruct (cloned_owned _ _ _ _ _ Hcl Hlps Ho) as [Hr Hu].
    rewrite (ex_nframes _ _ _ Hex) in Hr. done. }
  assert (forall q k g, fresh_table s0 s q k -> owns k g -> 0 <= g -> used (bits s) g = true) as Hfu.
  { intros q k g Hq Ho Hg. eapply fresh_owned_used; [done|done|]. by exists q, k. }
  assert (forall q q', private_clone s0 s q q' -> private_clone s0 s' q q') as Hmono.
  { intros q q' (p1 & q1 & Hp1 & Hpk1 & Hq1 & Hc1). exists p1, q1.
    split; [done|]. split; [done|]. split; [apply Hfresh; by right|].
    apply (cloned_mono s0 s s' (owns qs)); [done|apply Hpk1|destruct Hex2; by split|apply Hex|].
    intros f Ho. destruct (cloned_owned _ _ _ _ _ Hc1 (tk_length _ _ Hpk1) Ho). eapply Hfu; [done|done|lia]. }
  assert (forall j x, D !! j = Some x -> x <> t' \/ x = 0) as HDold.
  { intros j x Hj. destruct (decide (j < n)%nat) as [Hjn|Hjn]; [|right; apply (Hrest j); [lia|done]].
    left. intros ->. destruct (Hsl j Hjn) as (a & b & Ha & Hb & Hc). assert (b = t') as -> by congruence.
    destruct Hc as [[_ ?]|[(Hx1 & Hx2 & ->)|(_ & _ & _ & p1 & q1 & _ & _ & [_ Hq1] & _)]]; [done| |congruence].
    destruct (dk_present _ _ Hdok j a Ha Hx1) as (k & Hk & _). congruence. }
  split.
  - exists (<[n := tp]> Ph), pa. unfold s', set_table_slot. simpl. rewrite Hds2, Hd, alter_insert_eq. simpl. by rewrite Nat2Z.id.
  - by rewrite length_insert.
  - destruct Hlv as [Hlt Hld]. split; simpl; rewrite Hlive2.
    + intros x k Hx. rewrite Hts2 in Hx. destruct (decide (x = t')) as [->|]; [apply elem_of_union_l; by apply elem_of_singleton|].
      rewrite lookup_insert_ne in Hx by done. apply Hlt in Hx. by apply elem_of_union_r.
    + intros x y Hx. rewrite Hds2 in Hx. destruct (decide (x = nd)) as [->|Hxn].
      * apply elem_of_union_r. apply (Hld nd (mk_directory D Ph pa)).
        by rewrite Hd, lookup_insert_eq.
      * rewrite lookup_alter_ne in Hx by done. apply Hld in Hx. by apply elem_of_union_r.
  - intros x. simpl. rewrite Hlive2, elem_of_union, elem_of_singleton, Hlm. split.
    + intros [->|[?|[?|[k Hk]]]]; [right; right; exists qs; apply Hfresh; by left|by left|by right; left|].
      right. right. exists k. apply Hfresh. by right.
    + intros [?|[?|[k [[-> _]|Hk]%Hfresh]]]; [right; by left|right; right; by left|by left|].
      right. right. right. by exists k.
  - intros q k Hq. simpl. rewrite Hts2, lookup_insert_ne by congruence. by apply Hold.
  - eapply extends_new; [|eapply extends_trans; [exact Hex|]].
    2:{ instantiate (1 := owns qs). destruct Hex2. by split. }
    intros g. unfold fresh_owned. split.
    + intros [(q & k & Hq & Ho)|Ho]; [exists q, k|exists t', qs]; (split; [apply Hfresh|done]); [by right|by left].
    + intros (q & k & [[-> ->]|Hq]%Hfresh & Ho); [by right|left; by exists q, k].
  - intros j Hj. destruct (decide (j = n)) as [->|].
    + exists t, t'. rewrite list_lookup_insert_eq by lia. split_and!; [done..|]. right. right. split_and!; try done.
      exists ps, qs. split_and!; [done|done|apply Hfresh; by left|]. destruct Hcl0; by split.
    + eapply (slot_cloned_mono s0 s); [done|].
      destruct (Hsl j) as (a & b & Ha & Hb & Hc); [lia|]. exists a, b.
      by rewrite list_lookup_insert_ne by lia.
  - intros j x Hj Hx. rewrite list_lookup_insert_ne in Hx by lia. apply (Hrest j); [lia|done].
  - intros q k [[-> ->]|Hq]%Hfresh.
    + exists n. split; [lia|]. by rewrite list_lookup_insert_eq by lia.
    + destruct (Hlist q k Hq) as (j & Hj & HDj). exists j. split; [lia|]. by rewrite list_lookup_insert_ne by lia.
  - intros j k q l Hq Hj Hk.
    destruct (decide (j = n)) as [->|Hjn]; destruct (decide (k = n)) as [->|Hkn]; [done| | |].
    + rewrite list_lookup_insert_eq in Hj by lia. injection Hj as <-.
      rewrite list_lookup_insert_ne in Hk by lia. destruct (HDold k t' Hk); congruence.
    + rewrite list_lookup_insert_eq in Hk by lia. injection Hk as <-.
      rewrite list_lookup_insert_ne in Hj by lia. destruct (HDold j t' Hj); congruence.
    + rewrite list_lookup_insert_ne in Hj, Hk by lia. apply Hfresh in Hq as [[-> _]|Hq]; [|by eapply Honce].
      destruct (HDold j t' Hj); congruence.
  - intros q k [[-> _]|Hq]%Hfresh; [|by eapply Hnew].
    split; [done|]. rewrite Hlm in Hnl'. split; [tauto|]. intros ->. tauto.
  - intros t1 t2 q1 q2 g [[-> ->]|H1]%Hfresh [[-> ->]|H2]%Hfresh Ho1 Ho2; [done| | |by eapply Hap].
    + destruct (Hqs g Ho1) as [Hr Hu]. rewrite (Hfu t2 q2 g H2 Ho2) in Hu by lia. done.
    + destruct (Hqs g Ho2) as [Hr Hu]. rewrite (Hfu t1 q1 g H1 Ho1) in Hu by lia. done.
  - intros y. simpl. rewrite Hds2, Hd, alter_insert_eq, lookup_insert_eq. intros [= <-]. simpl. rewrite length_insert.
    apply (Hph (mk_directory D Ph pa)). by rewrite Hd, lookup_insert_eq.
Qed.

Lemma cloning_skip s0 s nd d kd D n :
  cloning s0 s nd d kd D n -> (n < 1024)%nat -> tables d !! n = Some 0 -> cloning s0 s nd d kd D (S n).
Proof.
  intros [? Hl ? ? ? ? Hsl Hrest Hlist ? ? ?] Hn Ht. split; try done.
  - intros j Hj. destruct (decide (j = n)) as [->|]; [|apply Hsl; lia].
    destruct (lookup_lt_is_Some_2 D n) as [x Hx]; [lia|].
    assert (x = 0) as -> by (apply (Hrest n); [lia|done]). exists 0, 0. split_and!; try done. by left.
  - intros j x Hj. apply Hrest. lia.
  - intros t qs Hq. destruct (Hlist t qs Hq) as (j & Hj & HD). exists j. split; [lia|done].
Qed.

Lemma clone_slot_spec s0 s s' src nd d kd D i :
  bitmap_wf (bits s0) -> directories s0 !! src = Some d -> directory_ok s0 d ->
  directories s0 !! kernel_directory s0 = Some kd -> length (tables kd) = 1024%nat ->
  directories s0 !! nd = None -> 0 <= i < 1024 -> cloning s0 s nd d kd D (Z.to_nat i) ->
  clone_slot src nd i s = Ok s' -> exists D', cloning s0 s' nd d kd D' (Z.to_nat (i + 1)).
Proof.
  intros Hwf Hsrc Hdok Hk Hkl Hnd Hi Hcg Hrun. pose proof Hcg as [(Ph & pa & Hd) Hl Hlv _ Hold Hex _ _ _ _ _ _].
  replace (Z.to_nat (i + 1)) with (S (Z.to_nat i)) by lia.
  assert (exists n, i = Z.of_nat n /\ (n < 1024)%nat) as (n & -> & Hn) by (exists (Z.to_nat i); lia).
  rewrite Nat2Z.id in *.
  unfold clone_slot, read_directory, table_slot in Hrun. rewrite ?Nat2Z.id in Hrun.
  assert (nd <> src /\ nd <> kernel_directory s0) as [Hns Hnk] by (split; congruence).
  rewrite Hd, (lookup_insert_ne _ nd src), Hsrc, bind_Ok in Hrun by done.
  destruct (lookup_lt_is_Some_2 (tables d) n) as [t Ht]; [rewrite (dk_tables _ _ Hdok); lia|].
  rewrite Ht, bind_Ok in Hrun. destruct (Z.eqb_spec t 0) as [Et|Ht0].
  { rewrite Et in Ht. injection Hrun as <-. exists D. apply cloning_skip; [done|lia|done]. }
  rewrite (ex_kernel _ _ _ Hex), lookup_insert_ne, Hk, bind_Ok in Hrun by done.
  destruct (lookup_lt_is_Some_2 (tables kd) n) as [kt Hkt]; [lia|].
  rewrite Hkt, bind_Ok in Hrun. destruct (dk_present _ _ Hdok _ _ Ht Ht0) as (ps & Hps & Hpk).
  destruct (Z.eqb_spec kt t) as [Et|Hne].
  - rewrite Et in Hkt. destruct (lookup_lt_is_Some_2 (tablesPhysical d) n) as [tp Htp]; [rewrite (dk_physical _ _ Hdok); lia|].
    rewrite Htp, bind_Ok in Hrun. injection Hrun as <-.
    eexists. eapply cloning_share; [done|lia|done|done|done|by exists ps].
  - apply bind_Ok_inv in Hrun as ([[t' phys] s2] & Hclone & [= <-]).
    destruct (clone_table_spec s s2 t ps t' phys) as (qs & H1 & H1' & H2 & H3 & H4 & H5 & H6 & H7); try done.
    { apply Hex. }
    { by apply Hold. }
    { by eapply table_ok_extends. }
    eexists. by eapply cloning_private; try done; rewrite Hkt; intros [= ->].
Qed.

(** The new directory before its slots are filled. *)
Lemma cloning_start s a k d kd pa :
  bitmap_wf (bits s) -> objects_live s -> directories s !! a = None -> a <> 0 ->
  k_live k = {[a]} ∪ k_live (kstate s) ->
  cloning s (with_directories (with_kstate s k)
    (<[a := mk_directory (replicate 1024 0) (replicate 1024 0) pa]> (directories s))) a d kd (replicate 1024 0) 0.
Proof.
  intros Hwf [Hlt Hld] Hnone Ha Hlive.
  match goal with |- cloning _ ?q _ _ _ _ _ => set (s1 := q) end.
  assert (forall t qs, ~ fresh_table s s1 t qs) as Hno by (intros t qs [H1 H2]; simpl in H2; congruence).
  split.
  + eexists _, _. reflexivity.
  + by rewrite length_replicate.
  + split; simpl; rewrite Hlive.
    * intros t ps Ht. apply Hlt in Ht. by apply elem_of_union_r.
    * intros x y Hx. destruct (decide (x = a)) as [->|]; [apply elem_of_union_l; by apply elem_of_singleton|].
      rewrite lookup_insert_ne in Hx by done. apply Hld in Hx. by apply elem_of_union_r.
  + intros x. simpl. rewrite Hlive, elem_of_union, elem_of_singleton. split; [tauto|].
    intros [?|[?|[qs Hq]]]; [by right|by left|by apply Hno in Hq].
  + done.
  + split; simpl; try done. intros g Hg. split; [by left|].
    intros [?|(t & qs & Ht & _)]; [done|]. by apply Hno in Ht.
  + intros j Hj. simpl in Hj. lia.
  + intros j t _ [Ht _]%lookup_replicate. done.
  + intros t qs Ht. by apply Hno in Ht.
  + intros j l t qs Ht. by apply Hno in Ht.
  + intros t qs Ht. by apply Hno in Ht.
  + intros t1 t2 q1 q2 g Ht. by apply Hno in Ht.
  + intros y E. change (directories s1) with (<[a := mk_directory (replicate 1024 0) (replicate 1024 0) pa]> (directories s)) in E.
    rewrite lookup_insert_eq in E. apply (f_equal (default y)) in E. cbn [default id from_option] in E.
    rewrite <- E. cbn [tablesPhysical]. by rewrite length_replicate.
Qed.

Lemma clone_directory_spec s s' src nd d kd :
  bitmap_wf (bits s) -> objects_live s -> directories s !! src = Some d -> directory_ok s d ->
  directories s !! kernel_directory s = Some kd -> length (tables kd) = 1024%nat ->
  clone_directory src s = Ok (nd, s') ->
  nd <> 0 /\ directories s !! nd = None /\ (nd ∉ k_live (kstate s)) /\
  exists D, cloning s s' nd d kd D 1024.
Proof.
  intros Hwf [Hlt Hld] Hsrc Hdok Hk Hkl Hrun. unfold clone_directory in Hrun.
  apply bind_Ok_inv in Hrun as (_ & _ & Hrun).
  apply bind_Ok_inv in Hrun as ([[a p] k] & Hkm & Hrun).
  apply bind_Ok_inv in Hrun as (s2 & Hloop & [= <- <-]).
  destruct (kmalloc_fresh _ _ _ _ _ Hkm) as (Ha & Hfresh & Hlive).
  assert (directories s !! a = None) as Hnone.
  { destruct (directories s !! a) as [x|] eqn:E; [|done]. by apply Hld in E. }
  split_and!; try done.
  match type of Hloop with for_range _ _ _ ?q = _ => set (s1 := q) in * end.
  pose proof (for_range_inv (fun i s2 => 0 <= i <= 1024 /\ exists D, cloning s s2 a d kd D (Z.to_nat i))
    (clone_slot src a) 0 1024 s1 s2) as Hinv.
  destruct Hinv as (_ & D & Hcg); [lia| | |done|by exists D].
  - intros i s3 s4 Hi (_ & D & Hcg) Hstep. split; [lia|].
    by apply (clone_slot_spec s s3 s4 src a d kd D i).
  - split; [lia|]. exists (replicate 1024 0). by eapply cloning_start.
Qed.

(** ** Destruction *)

Implicit Types u : mm C K.

(** [u] is [s] with the frames of [gone] free again. *)
Record released s u (gone : Z -> Prop) : Prop := {
  rl_wf : bitmap_wf (bits u);
  rl_nframes : nframes (bits u) = nframes (bits s);
  rl_used : forall g, 0 <= g -> used (bits u) g = true <-> used (bits s) g = true /\ ~ gone g;
  rl_contents : contents_of u = contents_of s;
  rl_directories : directories u = directories s;
  rl_kernel : kernel_directory u = kernel_directory s;
  rl_current : current_directory u = current_directory s
}.

(** The frames of the first [n] entries. *)
Definition owns_below (qs : list page_t) (n : nat) (g : Z) : Prop :=
  exists j q, (j < n)%nat /\ qs !! j = Some q /\ present q <> 0 /\ frame q = g.

Lemma destroy_entries_spec s t qs :
  bitmap_wf (bits s) -> page_tables s !! t = Some qs -> length qs = 1024%nat ->
  (forall f, owns qs f -> 0 <= f < nframes (bits s)) ->
  exists u ks, for_range 0 1024 (destroy_entry t) s = Ok u /\ released s u (owns qs) /\
    kstate u = kstate s /\ page_tables u = <[t := ks]> (page_tables s).
Proof.
  intros Hwf Ht Hl Hr.
  destruct (for_range_rule (fun i u => 0 <= i <= 1024 /\ kstate u = kstate s /\
      released s u (owns_below qs (Z.to_nat i)) /\
      exists ks, page_tables u = <[t := ks]> (page_tables s) /\
        forall j, (Z.to_nat i <= j)%nat -> ks !! j = qs !! j)
    (destroy_entry t) 0 1024 s) as (u & Hrun & _ & Hk & Hrel & ks & Hts & _).
  - lia.
  - intros i u Hi (_ & Hk & [Rw Rn Ru Rc Rd Rk Rr] & ks & Hts & Hks).
    destruct (lookup_lt_is_Some_2 qs (Z.to_nat i)) as [q Hq]; [lia|].
    assert (ks !! Z.to_nat i = Some q) as Hkq by by rewrite Hks.
    assert (read_page t i u = Ok q) as Hread
      by (apply (read_page_ok _ _ _ ks); [by rewrite Hts, lookup_insert_eq|done]).
    unfold destroy_entry. rewrite Hread. rsimpl.
    replace (Z.to_nat (i + 1)) with (S (Z.to_nat i)) by lia.
    assert (forall g, owns_below qs (S (Z.to_nat i)) g <->
      owns_below qs (Z.to_nat i) g \/ present q <> 0 /\ frame q = g) as Hown.
    { intros g. split.
      - intros (j & q' & Hj & Hq' & Hp & Hg). destruct (decide (j = Z.to_nat i)) as [->|].
        + right. assert (q' = q) as -> by congruence. done.
        + left. exists j, q'. split_and!; [lia|done..].
      - intros [(j & q' & Hj & Hq' & Hp & Hg)|[Hp Hg]]; [exists j, q'|exists (Z.to_nat i), q];
          split_and!; try done; lia. }
    destruct (Z.eqb_spec (present q) 0) as [E|E]; simpl negb; cbv iota.
    + exists u. split; [done|]. split; [lia|]. split; [done|]. split.
      * split; try done. intros g Hg. rewrite Ru, Hown by done. tauto.
      * exists ks. split; [done|]. intros j Hj. apply Hks. lia.
    + assert (0 <= frame q < nframes (bits u)) as Hfr by (rewrite Rn; apply Hr; by exists (Z.to_nat i), q).
      destruct (free_frame_spec q (bits u) Rw E Hfr) as (b' & -> & Hwf' & [Hn' Hset]). rsimpl.
      eexists. split; [done|]. split; [lia|]. split; [done|]. split.
      * split; simpl; try done; [congruence|]. intros g Hg. rewrite Hset, Hown by done.
        case_decide as Eg; [|rewrite Ru by done; split; [|tauto]; intros [? ?]; split; [done|]; intros [?|[_ ?]]; congruence].
        split; [done|]. intros [_ Hno]. destruct Hno. right. by split.
      * eexists. split.
        -- unfold write_page. simpl. by rewrite Hts, alter_insert_eq.
        -- intros j Hj. rewrite list_lookup_insert_ne by lia. apply Hks. lia.
  - split; [lia|]. split; [done|]. split.
    + split; try done. intros g Hg. split; [|tauto]. intros Hu. split; [done|]. intros (j & q & Hj & _). simpl in Hj. lia.
    + exists qs. split; [by rewrite insert_id|done].
  - exists u, ks. split_and!; [done| |done|done]. destruct Hrel as [Rw Rn Ru Rc Rd Rk Rr]. split; try done.
    intros g Hg. rewrite Ru by done. split; intros [H1 H2]; (split; [done|]); intros Ho; apply H2.
    + destruct Ho as (j & q & Hq & Ho). exists j, q. split; [|done]. apply lookup_lt_Some in Hq. rewrite Hl in Hq. simpl. lia.
    + destruct Ho as (j & q & _ & Ho). by exists j, q.
Qed.

(** The state while [destroy_directory] takes the clone apart: slots from
    [n] on are still there. *)
Record destroying s0 s u (nd : Z) (D : list Z) (n : nat) : Prop := {
  dg_wf : bitmap_wf (bits u);
  dg_nframes : nframes (bits u) = nframes (bits s0);
  dg_used : forall g, 0 <= g -> used (bits u) g = true <-> used (bits s0) g = true \/
    exists j t qs, (n <= j)%nat /\ D !! j = Some t /\ fresh_table s0 s t qs /\ owns qs g;
  dg_contents : contents_of u = contents_of s;
  dg_directories : directories u = directories s;
  dg_kernel : kernel_directory u = kernel_directory s0;
  dg_old : forall t ps, page_tables s0 !! t = Some ps -> page_tables u !! t = Some ps;
  dg_left : forall j t qs, (n <= j)%nat -> D !! j = Some t -> fresh_table s0 s t qs ->
    page_tables u !! t = Some qs;
  dg_only : forall t ps, page_tables u !! t = Some ps -> page_tables s0 !! t = Some ps \/
    exists j qs, (n <= j)%nat /\ D !! j = Some t /\ fresh_table s0 s t qs;
  dg_blocks : forall x, x ∈ k_live (kstate u) <-> x ∈ k_live (kstate s0) \/ x = nd \/
    exists j qs, (n <= j)%nat /\ D !! j = Some x /\ fresh_table s0 s x qs
}.

(** A slot that is not private needs no work. *)
Lemma destroying_skip s0 s u nd D n t :
  destroying s0 s u nd D n -> D !! n = Some t -> (forall qs, ~ fresh_table s0 s t qs) ->
  destroying s0 s u nd D (S n).
Proof.
  intros [? ? Hu ? ? ? ? Hleft Honly Hb] HD Hnf.
  assert (forall j t' qs, (n <= j)%nat -> D !! j = Some t' -> fresh_table s0 s t' qs -> (S n <= j)%nat) as Hj.
  { intros j t' qs Hj Ht Hf. destruct (decide (j = n)) as [->|]; [|lia].
    assert (t' = t) as -> by congruence. by apply Hnf in Hf. }
  split; try done.
  - intros g Hg. rewrite Hu by done. split; (intros [?|(j & t' & qs & H1 & H2 & H3 & H4)]; [by left|right]);
      exists j, t', qs; split_and!; try done; [by eapply Hj|lia].
  - intros j t' qs Hj' HDj Hf. apply (Hleft j); [lia|done..].
  - intros t' ps Ht. destruct (Honly t' ps Ht) as [?|(j & qs & H1 & H2 & H3)]; [by left|right].
    exists j, qs. split_and!; try done. by eapply Hj.
  - intros x. rewrite Hb. split; (intros [?|[?|(j & qs & H1 & H2 & H3)]]; [by left|by right; left|right; right]);
      exists j, qs; split_and!; try done; [by eapply Hj|lia].
Qed.

(** A private slot: its frames, its table and its block are given back. *)
Lemma destroying_private s0 s d kd u nd D n t qs :
  cloning s0 s nd d kd D 1024 -> length qs = 1024%nat ->
  (forall f, owns qs f -> 0 <= f < nframes (bits s0) /\ used (bits s0) f = false) ->
  t ∉ k_live (kstate s0) -> t <> nd ->
  destroying s0 s u nd D n -> D !! n = Some t -> fresh_table s0 s t qs ->
  exists u1, for_range 0 1024 (destroy_entry t) u = Ok u1 /\
    ((exists k, kfree t (kstate u1) = Ok k /\
        destroying s0 s (with_tables (with_kstate u1 k) (delete t (page_tables u1))) nd D (S n)) \/
     free_failed (kfree t (kstate u1))).
Proof.
  intros Hcg Hlq Hqs Htl Htnd [Hwf Hnf Hu Hc Hd Hk Hold Hleft Honly Hb] HD Hf.
  assert (page_tables u !! t = Some qs) as Ht by (by eapply (Hleft n)).
  destruct (destroy_entries_spec u t qs Hwf Ht Hlq) as (u1 & ks & Hrun & [Rw Rn Ru Rc Rd Rk Rr] & Hks & Hts).
  { intros f Ho. rewrite Hnf. by apply Hqs. }
  assert (t ∈ k_live (kstate u)) as Hlive.
  { apply Hb. right. right. exists n, qs. split_and!; [lia|done..]. }
  rewrite <- Hks in Hlive. exists u1. split; [done|].
  destruct (kfree_cases t (kstate u1) Hlive) as [(k & Hfree & Hkl)|Hfail]; [left|by right].
  exists k. split; [done|].
  assert (delete t (page_tables u1) = delete t (page_tables u)) as Hdel by by rewrite Hts, delete_insert_eq.
  assert (forall j t' q, (n <= j)%nat -> D !! j = Some t' -> fresh_table s0 s t' q -> t' <> t -> (S n <= j)%nat) as Hj.
  { intros j t' q Hj Ht' _ Hne. destruct (decide (j = n)) as [->|]; [congruence|lia]. }
  assert (forall j t' q, (S n <= j)%nat -> D !! j = Some t' -> fresh_table s0 s t' q -> t' <> t) as Hne.
  { intros j t' q Hj' Ht' Hq ->. pose proof (cg_once _ _ _ _ _ _ _ Hcg j n t q Hq Ht' HD). lia. }
  split; simpl.
  - done.
  - congruence.
  - intros g Hg. rewrite Ru, Hu by done. split.
    + intros [[?|(j & t' & q & H1 & H2 & H3 & H4)] Hno]; [by left|right]. exists j, t', q.
      split_and!; try done. eapply Hj; try done. intros ->. destruct Hf, H3. apply Hno. congruence.
    + intros [Hg0|(j & t' & q & H1 & H2 & H3 & H4)].
      * split; [by left|]. intros Ho. destruct (Hqs g Ho). congruence.
      * split; [right; exists j, t', q; split_and!; try done; lia|]. intros Ho.
        apply (Hne j t' q H1 H2 H3). by eapply (cg_apart _ _ _ _ _ _ _ Hcg).
  - congruence.
  - congruence.
  - congruence.
  - intros t' ps Ht'. rewrite Hdel, lookup_delete_ne; [by apply Hold|]. destruct Hf as [Hf _]. congruence.
  - intros j t' q Hj' HDj Hq. rewrite Hdel, lookup_delete_ne by (intros <-; by eapply Hne).
    apply (Hleft j); [lia|done..].
  - intros t' ps Ht'. rewrite Hdel in Ht'. apply lookup_delete_Some in Ht' as [Hne' Ht'].
    destruct (Honly t' ps Ht') as [?|(j & q & H1 & H2 & H3)]; [by left|right]. exists j, q.
    split_and!; try done. by eapply Hj.
  - intros x. rewrite Hkl, elem_of_difference, not_elem_of_singleton, Hks, Hb. split.
    + intros [[?|[?|(j & q & H1 & H2 & H3)]] Hx]; [by left|by right; left|right; right].
      exists j, q. split_and!; try done. by eapply Hj.
    + intros [?|[->|(j & q & H1 & H2 & H3)]].
      * split; [by left|]. intros ->. done.
      * split; [by right; left|]. by intros <-.
      * split; [|by eapply Hne]. right. right. exists j, q. split_and!; try done. lia.
Qed.

Lemma destroy_slot_spec s0 s d kd u nd D n Ph pa :
  cloning s0 s nd d kd D 1024 -> directory_ok s0 d -> objects_live s0 ->
  directories s0 !! kernel_directory s0 = Some kd -> directory_ok s0 kd ->
  (nd ∉ k_live (kstate s0)) -> directories s0 !! nd = None ->
  directories s = <[nd := mk_directory D Ph pa]> (directories s0) ->
  (n < 1024)%nat -> destroying s0 s u nd D n ->
  (exists u', destroy_slot nd (Z.of_nat n) u = Ok u' /\ destroying s0 s u' nd D (S n)) \/
  free_failed (destroy_slot nd (Z.of_nat n) u).
Proof.
  intros Hcg Hdok [Hlt Hld] Hkd Hkok Hnl Hnone Hds Hn Hdg.
  destruct (cg_slots _ _ _ _ _ _ _ Hcg n Hn) as (t & t' & Ht & HD & Hcase).
  assert (nd <> kernel_directory s0) as Hnk by congruence.
  unfold destroy_slot, read_directory, table_slot. rewrite (dg_directories _ _ _ _ _ _ Hdg), Hds.
  rewrite lookup_insert_eq. rsimpl. cbn [tables]. rewrite Nat2Z.id, HD. rsimpl.
  assert (forall t ps, page_tables s0 !! t = Some ps -> forall qs, ~ fresh_table s0 s t qs) as Hof
    by (intros x ps Hx qs [Hx' _]; congruence).
  destruct (Z.eqb_spec t' 0) as [E|E].
  { left. exists u. split; [done|]. eapply destroying_skip; [done|done|]. intros qs Hf.
    by destruct (cg_new _ _ _ _ _ _ _ Hcg t' qs Hf). }
  rewrite (dg_kernel _ _ _ _ _ _ Hdg), lookup_insert_ne, Hkd by done. rsimpl.
  destruct (lookup_lt_is_Some_2 (tables kd) n) as [kt Hkt]; [rewrite (dk_tables _ _ Hkok); lia|]. rewrite Hkt. rsimpl.
  destruct Hcase as [[_ ?]|[(H1 & H2 & H3)|(H1 & H2 & _ & ps & qs & Hps & Hpk & Hf & Hcl)]]; [done| |].
  - subst t'. assert (kt = t) as -> by congruence. rewrite Z.eqb_refl. left. exists u. split; [done|].
    eapply destroying_skip; [done|done|]. destruct (dk_present _ _ Hdok _ _ Ht H1) as (ps & Hps & _). by eapply Hof.
  - assert (kt <> t') as Hne.
    { intros ->. destruct (dk_present _ _ Hkok _ _ Hkt E) as (p' & Hp' & _). by eapply Hof. }
    rewrite (proj2 (Z.eqb_neq kt t') Hne).
    destruct (cg_new _ _ _ _ _ _ _ Hcg t' qs Hf) as (_ & Hl1 & Hl2).
    destruct (destroying_private s0 s d kd u nd D n t' qs) as (u1 & -> & Hor); try done.
    + apply Hcl.
    + intros f. by apply (cloned_owned s0 s ps qs f Hcl), Hpk.
    + rsimpl. destruct Hor as [(k & -> & Hdg')|Hfail]; [left|right; by apply free_failed_bind].
      rsimpl. eexists. by split.
Qed.

(** A directory that can be cloned, with the kernel's. *)
Record clonable s (src : Z) (d kd : page_directory) : Prop := {
  cb_bits : bitmap_wf (bits s);
  cb_live : objects_live s;
  cb_nonzero : src <> 0;
  cb_src : directories s !! src = Some d;
  cb_ok : directory_ok s d;
  cb_kernel : directories s !! kernel_directory s = Some kd;
  cb_kernel_ok : directory_ok s kd;
  cb_current : is_Some (directories s !! current_directory s)
}.

Lemma clone_destroy_spec s s' src nd d kd :
  clonable s src d kd -> clone_directory src s = Ok (nd, s') ->
  (exists s'', destroy_directory nd s' = Ok s'' /\
    nframes (bits s'') = nframes (bits s) /\
    (forall g, 0 <= g -> used (bits s'') g = used (bits s) g) /\
    (forall f, 0 <= f < nframes (bits s) -> used (bits s) f = true ->
       contents_of s'' (base f) = contents_of s (base f)) /\
    page_tables s'' = page_tables s /\ directories s'' = directories s /\
    k_live (kstate s'') = k_live (kstate s)) \/
  free_failed (destroy_directory nd s').
Proof.
  intros [Hwf Hlive _ Hsrc Hdok Hk Hkok [cd Hcd]] Hrun. pose proof Hlive as [Hlt Hld].
  destruct (clone_directory_spec s s' src nd d kd Hwf Hlive Hsrc Hdok Hk (dk_tables _ _ Hkok) Hrun)
    as (Hnd0 & Hnone & Hnl & D & Hcg).
  pose proof Hcg as [(Ph & pa & Hds) HlD _ Hblk Hold Hex _ _ Hlist _ Hnew _].
  unfold destroy_directory. rewrite (ex_kernel _ _ _ Hex), (ex_current _ _ _ Hex).
  rewrite (proj2 (Z.eqb_neq nd 0)), (proj2 (Z.eqb_neq nd (kernel_directory s))),
    (proj2 (Z.eqb_neq nd (current_directory s))) by congruence.
  repeat assert_step.
  destruct (for_range_cases (fun i u => 0 <= i <= 1024 /\ destroying s s' u nd D (Z.to_nat i)) free_failed
    (destroy_slot nd) 0 1024 s') as [(u & -> & _ & Hdg)|Hfail]; [lia| |apply free_failed_not_ok| | |right; by apply free_failed_bind].
  - intros i u Hi (_ & Hdg). assert (exists n, i = Z.of_nat n /\ (n < 1024)%nat) as (n & -> & Hn)
      by (exists (Z.to_nat i); lia).
    rewrite Nat2Z.id in Hdg.
    destruct (destroy_slot_spec s s' d kd u nd D n Ph pa) as [(u' & -> & Hdg')|Hfail]; try done; [left|by right].
    exists u'. split; [done|]. split; [lia|]. by replace (Z.to_nat (Z.of_nat n + 1)) with (S n) by lia.
  - split; [lia|]. split; try done; try apply Hex.
    + intros g Hg. rewrite (ex_used _ _ _ Hex) by done. split; (intros [?|H]; [by left|right]).
      * destruct H as (t & qs & Ht & Ho). destruct (Hlist t qs Ht) as (j & _ & HD).
        exists j, t, qs. split_and!; try done. simpl. lia.
      * destruct H as (j & t & qs & _ & _ & Ht & Ho). by exists t, qs.
    + intros j t qs _ _ [_ Ht]. done.
    + intros t ps Ht. destruct (page_tables s !! t) as [q|] eqn:E.
      * left. apply Hold in E. congruence.
      * right. destruct (Hlist t ps) as (j & _ & HD); [done|]. exists j, ps. split_and!; [simpl; lia|done..].
    + intros x. rewrite Hblk. split; (intros [?|[?|H]]; [by left|by right; left|right; right]).
      * destruct H as [qs Hq]. destruct (Hlist x qs Hq) as (j & _ & HD). exists j, qs.
        split_and!; [simpl; lia|done..].
      * destruct H as (j & qs & _ & _ & Hq). by exists qs.
  - rsimpl. destruct Hdg as [Dw Dn Du Dc Dd Dk Dold Dleft Donly Db].
    assert (forall j t, (Z.to_nat 1024 <= j)%nat -> D !! j = Some t -> False) as Hno.
    { intros j t Hj HD. apply lookup_lt_Some in HD. rewrite HlD in HD. lia. }
    destruct (kfree_cases nd (kstate u)) as [(k & -> & Hkl)|Hfail]; [apply Db; by right; left| |right; by apply free_failed_bind].
    rsimpl. left. eexists. split; [done|]. simpl. split_and!; [done| | | | |].
    + intros g Hg. apply eq_true_iff_eq. rewrite Du by done. split; [|by left].
      intros [?|(j & t & qs & Hj & HD & _)]; [done|]. by destruct (Hno j t).
    + intros f Hf Hu. rewrite Dc. by apply Hex.
    + apply map_eq. intros t. destruct (page_tables s !! t) as [ps|] eqn:E; [by apply Dold|].
      destruct (page_tables u !! t) as [ps|] eqn:E2; [|done].
      destruct (Donly t ps E2) as [?|(j & qs & Hj & HD & _)]; [congruence|]. by destruct (Hno j t).
    + by rewrite Dd, Hds, delete_insert_id.
    + apply set_eq. intros x. rewrite Hkl, elem_of_difference, not_elem_of_singleton, Db. split.
      * intros [[?|[?|(j & qs & Hj & HD & _)]] Hx]; [done|done|]. by destruct (Hno j x).
      * intros Hx. split; [by left|]. intros ->. done.
Qed.

(** ** Failures *)

(** The only ways cloning can fail: no free frame, or the allocator did. *)
Definition clone_failure {A} (r : res A) : Prop := r = Panic OUT_OF_MEMORY \/ alloc_failed r.

Lemma clone_failure_not_ok {A} (r : res A) : clone_failure r -> forall a, r <> Ok a.
Proof. intros [->|H] a; [done|by apply alloc_failed_not_ok]. Qed.

Lemma clone_failure_bind {A B} (r : res A) (f : A -> res B) : clone_failure r -> clone_failure (r ≫= f).
Proof. intros [->|H]; [by left|right; by apply alloc_failed_bind]. Qed.

(** Releasing can fail as well, in [kfree]. *)
Definition kernel_failure {A} (r : res A) : Prop := clone_failure r \/ free_failed r.

Lemma kernel_failure_not_ok {A} (r : res A) : kernel_failure r -> forall a, r <> Ok a.
Proof. intros [H|H]; [by apply clone_failure_not_ok|by apply free_failed_not_ok]. Qed.

Lemma kernel_failure_returns `{!KfreeReturns K} {A} (r : res A) : kernel_failure r -> clone_failure r.
Proof. intros [H|H]; [done|by apply free_never_fails in H]. Qed.

Lemma kmalloc_ap_cases sz k :
  (exists x, kmalloc_ap sz k = Ok x) \/ clone_failure (kmalloc_ap sz k).
Proof. destruct (kmalloc_int_cases sz 1 true k) as [?|H]; [by left|right; by right]. Qed.

Lemma clone_entry_cases s src table ps qs i :
  page_tables s !! src = Some ps -> page_tables s !! table = Some qs ->
  length ps = 1024%nat -> length qs = 1024%nat -> 0 <= i < 1024 -> bitmap_wf (bits s) ->
  (forall q, qs !! Z.to_nat i = Some q -> present q = 0) ->
  (exists s', clone_entry src table i s = Ok s') \/ clone_failure (clone_entry src table i s).
Proof.
  intros Hsrc Htab Hlp Hlq Hi Hwf Hq0.
  destruct (lookup_lt_is_Some_2 ps (Z.to_nat i)) as [p Hp]; [lia|].
  destruct (lookup_lt_is_Some_2 qs (Z.to_nat i)) as [q Hq]; [lia|].
  unfold clone_entry. rewrite (read_page_ok _ _ _ _ _ Hsrc Hp). rsimpl.
  destruct (present p =? 0); [left; by eexists|].
  rewrite (read_page_ok _ _ _ _ _ Htab Hq). rsimpl.
  destruct (alloc_frame_spec q 0 0 (bits s) Hwf (Hq0 _ Hq)) as [[-> _]|(f & b & -> & _)]; rsimpl.
  - right. by left.
  - left. by eexists.
Qed.

Lemma clone_table_cases s src ps :
  bitmap_wf (bits s) -> page_tables s !! src = Some ps -> table_ok (bits s) ps -> objects_live s ->
  (exists x, clone_table src s = Ok x) \/ clone_failure (clone_table src s).
Proof.
  intros Hwf Hsrc Hok [Hlt _]. unfold clone_table, new_page_table.
  destruct (kmalloc_ap_cases sizeof_page_table_t (kstate s)) as [[[[a p] k] Hk]|Hf].
  2:{ right. by do 2 apply clone_failure_bind. }
  rewrite Hk. rsimpl. destruct (kmalloc_fresh _ _ _ _ _ Hk) as (_ & Hfresh & _).
  assert (src <> a) as Hne by (intros ->; by apply Hlt in Hsrc).
  match goal with |- context [for_range _ _ _ ?q] => set (s1 := q) end.
  destruct (for_range_cases (fun i s2 => exists qs,
      page_tables s2 = <[a := qs]> (page_tables s) /\ extends s s2 (owns qs) /\ cloned s s2 ps qs (Z.to_nat i))
    clone_failure (clone_entry src a) 0 1024 s1) as [(s2 & -> & _)|Hf].
  - lia.
  - intros i s3 Hi (qs & Ht & Hex & Hcl).
    assert (page_tables s3 !! src = Some ps) as H1 by by rewrite Ht, lookup_insert_ne.
    assert (page_tables s3 !! a = Some qs) as H2 by by rewrite Ht, lookup_insert_eq.
    destruct (clone_entry_cases s3 src a ps qs i H1 H2) as [[s4 Hs4]|Hf]; [apply Hok|apply Hcl|lia|apply Hex| | |by right].
    { intros q Hq. by rewrite (cl_rest _ _ _ _ _ Hcl (Z.to_nat i) q (Nat.le_refl _) Hq). }
    left. exists s4. split; [done|].
    destruct (clone_entry_spec s s3 s4 src a ps qs i) as (qs' & Ht' & _ & _ & Hex' & Hcl'); try done.
    exists qs'. split_and!; [|done..]. by rewrite Ht', Ht, insert_insert_eq.
  - apply clone_failure_not_ok.
  - exists (replicate 1024 empty_page). split_and!; try done; [|apply cloned_start].
    split; try done. intros g Hg. split; [by left|]. intros [?|(j & q & [Hq _]%lookup_replicate & Hp & _)]; [done|].
    by rewrite Hq in Hp.
  - left. rsimpl. by eexists.
  - right. by apply clone_failure_bind.
Qed.

Lemma clone_slot_cases s0 s src nd d kd D i :
  bitmap_wf (bits s0) -> directories s0 !! src = Some d -> directory_ok s0 d ->
  directories s0 !! kernel_directory s0 = Some kd -> length (tables kd) = 1024%nat ->
  directories s0 !! nd = None -> 0 <= i < 1024 -> cloning s0 s nd d kd D (Z.to_nat i) ->
  (exists s', clone_slot src nd i s = Ok s') \/ clone_failure (clone_slot src nd i s).
Proof.
  intros Hwf Hsrc Hdok Hk Hkl Hnd Hi Hcg. pose proof Hcg as [(Ph & pa & Hd) Hl Hlv _ Hold Hex _ _ _ _ _ _].
  unfold clone_slot, read_directory, table_slot.
  assert (nd <> src /\ nd <> kernel_directory s0) as [Hns Hnk] by (split; congruence).
  rewrite Hd, (lookup_insert_ne _ nd src), Hsrc by done. rsimpl.
  destruct (lookup_lt_is_Some_2 (tables d) (Z.to_nat i)) as [t Ht]; [rewrite (dk_tables _ _ Hdok); lia|].
  rewrite Ht. rsimpl. destruct (Z.eqb_spec t 0) as [Et|Ht0]; [left; by eexists|].
  rewrite (ex_kernel _ _ _ Hex), lookup_insert_ne, Hk by done. rsimpl.
  destruct (lookup_lt_is_Some_2 (tables kd) (Z.to_nat i)) as [kt Hkt]; [lia|].
  rewrite Hkt. rsimpl. destruct (dk_present _ _ Hdok _ _ Ht Ht0) as (ps & Hps & Hpk).
  destruct (kt =? t).
  - destruct (lookup_lt_is_Some_2 (tablesPhysical d) (Z.to_nat i)) as [tp Htp]; [rewrite (dk_physical _ _ Hdok); lia|].
    rewrite Htp. left. by eexists.
  - destruct (clone_table_cases s t ps) as [[[[t' phys] s2] ->]|Hf].
    + apply Hex.
    + by apply Hold.
    + by eapply table_ok_extends.
    + done.
    + left. by eexists.
    + right. by apply clone_failure_bind.
Qed.

Lemma clone_directory_cases s src d kd :
  clonable s src d kd ->
  (exists x, clone_directory src s = Ok x) \/ clone_failure (clone_directory src s).
Proof.
  intros [Hwf Hlive H0 Hsrc Hdok Hk Hkok _]. pose proof Hlive as [Hlt Hld].
  unfold clone_directory. rewrite (proj2 (Z.eqb_neq src 0)) by done. assert_step.
  destruct (kmalloc_ap_cases sizeof_page_directory_t (kstate s)) as [[[[a p] k] Hkm]|Hf].
  2:{ right. by apply clone_failure_bind. }
  rewrite Hkm. rsimpl. destruct (kmalloc_fresh _ _ _ _ _ Hkm) as (Ha & Hfresh & Hl).
  assert (directories s !! a = None) as Hnone.
  { destruct (directories s !! a) as [x|] eqn:E; [|done]. by apply Hld in E. }
  match goal with |- context [for_range _ _ _ ?q] => set (s1 := q) end.
  destruct (for_range_cases (fun i s2 => exists D, cloning s s2 a d kd D (Z.to_nat i))
    clone_failure (clone_slot src a) 0 1024 s1) as [(s2 & -> & _)|Hf].
  - lia.
  - intros i s3 Hi (D & Hcg).
    destruct (clone_slot_cases s s3 src a d kd D i) as [[s4 Hs4]|Hf]; try done; [apply Hkok| |by right].
    left. exists s4. split; [done|].
    apply (clone_slot_spec s s3 s4 src a d kd D i); try done. apply Hkok.
  - apply clone_failure_not_ok.
  - exists (replicate 1024 0). by eapply cloning_start.
  - left. rsimpl. by eexists.
  - right. by apply clone_failure_bind.
Qed.
End proofs.
