(* ===== verification/PagingTheorems.v ===== *)
(** * paging.c: what fork gets from clone_directory, and waitpid from destroy_directory

    The theorems of the address-space part, over any allocator that obeys
    [KmallocLaws]. *)

From S2P Require Import Prelude Kmalloc Frames Paging PagingProofs.

Section theorems.
Context {C K : Type} `{!Kmalloc K} `{!KmallocLaws K}.
Implicit Types s : mm C K.

(** C12: [clone_directory] either fails because frames or kernel memory
    ran out, or returns a new directory each of whose 1024 slots is empty,
    shared with the kernel directory, or a new table: every present page
    of that table has a frame that was free, with the same bytes and the
    same flags except that the user bit is always set, and an absent page
    stays absent.  Two private tables never share a frame; the
    tables, the frames in use with their bytes and the current directory
    of the rest of the system are untouched. *)
Theorem clone_directory_isolates s src d kd :
  clonable s src d kd ->
  clone_failure (clone_directory src s) \/
  exists nd s' D, clone_directory src s = Ok (nd, s') /\ directories s !! nd = None /\
    (exists Ph pa, directories s' = <[nd := mk_directory D Ph pa]> (directories s)) /\
    length D = 1024%nat /\
    (forall j, (j < 1024)%nat -> slot_cloned s s' d kd D j) /\
    (forall j k t1 t2 q1 q2 f, D !! j = Some t1 -> D !! k = Some t2 ->
       fresh_table s s' t1 q1 -> fresh_table s s' t2 q2 -> owns q1 f -> owns q2 f -> j = k) /\
    (forall t ps, page_tables s !! t = Some ps -> page_tables s' !! t = Some ps) /\
    (forall f, 0 <= f < nframes (bits s) -> used (bits s) f = true ->
       used (bits s') f = true /\ contents_of s' (base f) = contents_of s (base f)) /\
    current_directory s' = current_directory s.
Proof.
  intros Hc. destruct (clone_directory_cases s src d kd Hc) as [[[nd s'] Hrun]|]; [right|by left].
  destruct Hc as [Hwf Hlive _ Hsrc Hdok Hk Hkok _].
  destruct (clone_directory_spec s s' src nd d kd Hwf Hlive Hsrc Hdok Hk (dk_tables _ _ Hkok) Hrun)
    as (_ & Hnone & _ & D & Hcg).
  exists nd, s', D. split_and!; try done; try apply Hcg.
  - intros j k t1 t2 q1 q2 f Hj Hk2 H1 H2 Ho1 Ho2.
    assert (t1 = t2) as -> by (by eapply (cg_apart _ _ _ _ _ _ _ Hcg)).
    by eapply (cg_once _ _ _ _ _ _ _ Hcg).
  - intros f Hf Hu. split; [apply (cg_extends _ _ _ _ _ _ _ Hcg); [lia|by left]|].
    by apply (cg_extends _ _ _ _ _ _ _ Hcg).
Qed.

(** C13: destroying the directory that [clone_directory] just made either
    halts the kernel in one of its [kfree] calls or restores the address
    spaces: of the frames that paging.c hands out exactly the same are in
    use, the same tables and directories exist, the same kernel blocks are
    live, and the bytes of every frame that was in use are intact.  The
    allocator is any that keeps [KmallocLaws], as kheap.c does on a reserve
    of pages ([kept_heap_laws]); the pages it holds for itself are its own
    account and not in the bitmap of the statement. *)
Theorem clone_then_destroy_restores s s' src nd d kd :
  clonable s src d kd -> clone_directory src s = Ok (nd, s') ->
  free_failed (destroy_directory nd s') \/
  exists s'', destroy_directory nd s' = Ok s'' /\
    nframes (bits s'') = nframes (bits s) /\
    (forall g, 0 <= g -> used (bits s'') g = used (bits s) g) /\
    (forall f, 0 <= f < nframes (bits s) -> used (bits s) f = true ->
       contents_of s'' (base f) = contents_of s (base f)) /\
    page_tables s'' = page_tables s /\ directories s'' = directories s /\
    k_live (kstate s'') = k_live (kstate s).
Proof. intros Hc Hrun. destruct (clone_destroy_spec s s' src nd d kd Hc Hrun); [by right|by left]. Qed.
End theorems.

(** ** A concrete address space

    Kernel table 0x5000 at slot 0, and a private table 0x6000 at slot 1
    with one read-only supervisor page in frame 2. *)

Definition slots (l : list Z) : list Z := l ++ replicate (1024 - length l) 0.
Definition demo_pages : list page_t := mk_page 1 0 0 1 0 0 2 :: replicate 1023 empty_page.
Definition demo_directory : page_directory := mk_directory (slots [0x5000; 0x6000]) (slots [0x5007; 0x6007]) 0x3000.
Definition demo_kernel_directory : page_directory := mk_directory (slots [0x5000]) (slots [0x5007]) 0x2000.

Definition demo_mm : mm string (gset Z) := {|
  bits := mk_bitmap [0x7] 32 1;
  page_tables := {[ 0x5000 := replicate 1024 empty_page; 0x6000 := demo_pages ]};
  directories := {[ 0x2000 := demo_kernel_directory; 0x3000 := demo_directory ]};
  contents_of := fun a => if a =? 0x2000 then "program text" else "junk";
  kernel_directory := 0x2000;
  current_directory := 0x2000;
  kstate := {[ 0x2000; 0x3000; 0x5000; 0x6000 ]}
|}.

Lemma demo_slots l j t : slots l !! j = Some t -> l !! j = Some t \/ t = 0.
Proof. intros [?|[_ [-> _]%lookup_replicate]]%lookup_app_Some; [by left|by right]. Qed.

Lemma demo_pages_ok b : 2 < nframes b -> used b 2 = true -> table_ok b demo_pages.
Proof.
  intros Hn Hu. split; [done|]. intros f ([|j] & q & Hj & Hp & <-); unfold demo_pages in Hj; cbn [lookup list_lookup] in Hj.
  - injection Hj as <-. simpl. split; [lia|done].
  - apply lookup_replicate in Hj as [-> _]. done.
Qed.

Lemma empty_table_ok b : table_ok b (replicate 1024 empty_page).
Proof. split; [done|]. intros f (j & q & [-> _]%lookup_replicate & Hp & _). done. Qed.

Lemma demo_clonable : clonable demo_mm 0x3000 demo_directory demo_kernel_directory.
Proof.
  split; [| |done|done| |done| |by eexists].
  - split; simpl; [lia|done|done|]. repeat constructor; unfold is_u32; lia.
  - split; intros t x; simpl; intros [[<- _]|[_ [<- _]%lookup_singleton_Some]]%lookup_insert_Some; set_solver.
  - split; [done|done|]. intros j t Ht H0. apply demo_slots in Ht as [Ht|]; [|done].
    destruct j as [|[|j]]; simpl in Ht; [| |done]; injection Ht as <-; eexists; (split; [reflexivity|]).
    + apply empty_table_ok.
    + by apply demo_pages_ok.
  - split; [done|done|]. intros j t Ht H0. apply demo_slots in Ht as [Ht|]; [|done].
    destruct j as [|j]; simpl in Ht; [|done]; injection Ht as <-; eexists; (split; [reflexivity|]).
    apply empty_table_ok.
Qed.

Lemma demo_clone_runs : is_ok (clone_directory 0x3000 demo_mm) = true.
Proof. vm_compute. reflexivity. Qed.

Lemma clone_directory_isolates_witness :
  exists nd s' D, clone_directory 0x3000 demo_mm = Ok (nd, s') /\
    (forall j, (j < 1024)%nat -> slot_cloned demo_mm s' demo_directory demo_kernel_directory D j) /\
    contents_of s' 0x2000 = "program text".
Proof.
  destruct (clone_directory_isolates demo_mm 0x3000 demo_directory demo_kernel_directory demo_clonable)
    as [Hf|(nd & s' & D & Hrun & _ & _ & _ & Hsl & _ & _ & Hc & _)].
  - exfalso. destruct (is_ok_true _ demo_clone_runs) as [x Hx]. exact (clone_failure_not_ok _ Hf x Hx).
  - exists nd, s', D. split; [exact Hrun|]. split; [exact Hsl|].
    change 0x2000 with (base 2). rewrite (proj2 (Hc 2 ltac:(simpl; lia) eq_refl)). reflexivity.
Defined.

Lemma clone_then_destroy_restores_witness :
  exists nd s' s'', clone_directory 0x3000 demo_mm = Ok (nd, s') /\ destroy_directory nd s' = Ok s'' /\
    page_tables s'' = page_tables demo_mm /\ directories s'' = directories demo_mm.
Proof.
  destruct (is_ok_true _ demo_clone_runs) as [[nd s'] Hrun].
  destruct (clone_then_destroy_restores demo_mm s' 0x3000 nd demo_directory demo_kernel_directory demo_clonable Hrun)
    as [Hf|(s'' & Hd & _ & _ & _ & Ht & Hdir & _)]; [destruct (free_never_fails _ Hf)|].
  exists nd, s', s''. repeat split; assumption.
Defined.
