(* ===== verification/AddressSpace.v ===== *)
(** * The invariant of all address spaces

    [vm_ok]: every page table that is not the kernel's belongs to one slot
    of one directory, and every frame a private table maps is in use and
    mapped nowhere else.  [pte] is the address space as a map from virtual
    page numbers; the specifications of the paging operations say what they
    do to it, for every directory at once. *)

From S2P Require Import Prelude Kmalloc Frames Paging PagingProofs.

Section address_space.
Context {C K : Type} `{!Kmalloc K} `{!KmallocLaws K}.
Implicit Types m u : mm C K.

(** Slot [i] of [dir] holds the table [t] with entries [ps], not shared with
    the kernel. *)
Definition private m (dir : Z) (i : nat) (t : Z) (ps : list page_t) : Prop :=
  exists d kd, directories m !! dir = Some d /\ tables d !! i = Some t /\ t <> 0 /\
    directories m !! kernel_directory m = Some kd /\ tables kd !! i <> Some t /\ page_tables m !! t = Some ps.

Record vm_ok m : Prop := {
  vm_bits : bitmap_wf (bits m);
  vm_live : objects_live m;
  vm_addr d x : directories m !! d = Some x -> d <> 0;
  vm_kernel : exists kd, directories m !! kernel_directory m = Some kd;
  vm_current : is_Some (directories m !! current_directory m);
  vm_directories dir d : directories m !! dir = Some d -> directory_ok m d;
  vm_disjoint t ps d : page_tables m !! t = Some ps -> directories m !! t = Some d -> False;
  vm_once dir i dir' i' t ps ps' : private m dir i t ps -> private m dir' i' t ps' -> dir = dir' /\ i = i';
  vm_kernel_slot dir i t ps kd j : private m dir i t ps ->
    directories m !! kernel_directory m = Some kd -> tables kd !! j = Some t -> False;
  vm_frames dir i t ps dir' i' t' ps' f : private m dir i t ps -> private m dir' i' t' ps' ->
    owns ps f -> owns ps' f -> t = t';
  vm_entries dir i t ps j k p q : private m dir i t ps -> ps !! j = Some p -> ps !! k = Some q ->
    present p <> 0 -> present q <> 0 -> frame p = frame q -> j = k;
  vm_kernel_frames dir i t ps kd j t' qs f : private m dir i t ps ->
    directories m !! kernel_directory m = Some kd -> tables kd !! j = Some t' -> t' <> 0 ->
    page_tables m !! t' = Some qs -> owns ps f -> owns qs f -> False
}.

(** The entry of virtual page [v], when it is present. *)
Definition table_entry (ps : option (list page_t)) (v : Z) : option page_t :=
  ps ← ps; p ← ps !! Z.to_nat (v mod 1024); if present p =? 0 then None else Some p.
Definition pte m (dir v : Z) : option page_t :=
  d ← directories m !! dir;
  t ← tables d !! Z.to_nat (v / 1024);
  if t =? 0 then None else table_entry (page_tables m !! t) v.

Lemma table_entry_empty v : table_entry (Some (replicate 1024 empty_page)) v = None.
Proof.
  unfold table_entry. cbn [mbind option_bind].
  destruct (replicate 1024 empty_page !! Z.to_nat (v mod 1024)) as [p|] eqn:E; [|done].
  apply lookup_replicate in E as [-> _]. done.
Qed.

(** Only liveness depends on the allocator's state. *)
Lemma vm_ok_kstate m ks : vm_ok m -> (forall x, is_Some (page_tables m !! x) \/ is_Some (directories m !! x) -> x ∈ k_live ks) ->
  vm_ok (with_kstate m ks).
Proof.
  intros [? _ ? ? ? Hdir ? ? ? ? ? ?] Hx. split; try done.
  - split; simpl; intros x y Hy; apply Hx; [left|right]; eauto.
  - intros x y Hy. destruct (Hdir x y Hy). by split.
Qed.

(** [f] backs a private page of [dir]. *)
Definition owned m (dir f : Z) : Prop := exists i t ps, private m dir i t ps /\ owns ps f.

Lemma private_kernel m i t ps : private m (kernel_directory m) i t ps -> False.
Proof. intros (d & kd & Hd & Ht & _ & Hk & Hn & _). congruence. Qed.

Lemma owned_used m dir f : vm_ok m -> owned m dir f -> 0 <= f < nframes (bits m) /\ used (bits m) f = true.
Proof.
  intros Hvm (i & t & ps & (d & kd & Hd & Ht & H0 & Hk & Hn & Hps) & Ho).
  destruct (dk_present _ _ (vm_directories _ Hvm _ _ Hd) i t Ht H0) as (ps' & Hps' & Hok).
  assert (ps' = ps) as -> by congruence. by apply Hok.
Qed.

Lemma owned_once m dir dir' f : vm_ok m -> owned m dir f -> owned m dir' f -> dir = dir'.
Proof.
  intros Hvm (i & t & ps & Hp & Ho) (i' & t' & ps' & Hp' & Ho').
  assert (t = t') as <- by (by eapply (vm_frames _ Hvm)).
  by destruct (vm_once _ Hvm _ _ _ _ _ _ _ Hp Hp').
Qed.

(** The kernel maps nothing in the range of programs, process heaps and
    stacks, 4 MiB to 3 GiB. *)
Definition user_range (v : Z) : Prop := 0x400 <= v < 0xC0000.
Definition user_region_free m : Prop :=
  exists kd, directories m !! kernel_directory m = Some kd /\
    forall i, (1 <= i < 768)%nat -> tables kd !! i = Some 0.

(** The slot of virtual page [v] may hold a table of its own. *)
Definition user_slot m (dir v : Z) : Prop :=
  exists d kd, directories m !! dir = Some d /\ directories m !! kernel_directory m = Some kd /\
    dir <> kernel_directory m /\
    forall t, tables d !! Z.to_nat (v / 1024) = Some t -> t <> 0 -> tables kd !! Z.to_nat (v / 1024) <> Some t.

Lemma user_region_slot m dir v : user_region_free m -> is_Some (directories m !! dir) ->
  dir <> kernel_directory m -> user_range v -> user_slot m dir v.
Proof.
  intros (kd & Hk & Hfree) [d Hd] Hne Hv. unfold user_range in Hv. exists d, kd. split_and!; try done. intros t _ H0.
  rewrite Hfree by (Z.div_mod_to_equations; lia). congruence.
Qed.

Lemma user_region_keep m m' : kernel_directory m' = kernel_directory m ->
  directories m' !! kernel_directory m = directories m !! kernel_directory m -> user_region_free m -> user_region_free m'.
Proof. intros HK HD (kd & Hk & Hf). exists kd. by rewrite HK, HD. Qed.

(** Slot [i] of [d] is the kernel's. *)
Definition shared_slot m (d : Z) (i : nat) : Prop := exists x kd t,
  directories m !! d = Some x /\ directories m !! kernel_directory m = Some kd /\
  tables x !! i = Some t /\ tables kd !! i = Some t /\ t <> 0.

(** Address [a] is on a present kernel page that [d] shares. *)
Definition kernel_page m (d a : Z) : Prop :=
  shared_slot m d (Z.to_nat (a / 0x400000)) /\ is_Some (pte m (kernel_directory m) (a / 0x1000)).

Lemma shared_pte m d v : shared_slot m d (Z.to_nat (v / 1024)) -> pte m d v = pte m (kernel_directory m) v.
Proof. intros (x & kd & t & H1 & H2 & H3 & H4 & _). unfold pte. rewrite H1, H2. cbn [mbind option_bind]. by rewrite H3, H4. Qed.

(** ** Destruction *)

Definition private_below m dir (n : nat) (t : Z) : Prop := exists i ps, (i < n)%nat /\ private m dir i t ps.
Definition owned_below m dir (n : nat) (f : Z) : Prop :=
  exists i t ps, (i < n)%nat /\ private m dir i t ps /\ owns ps f.

(** [u] is [m] with the first [n] slots of [dir] taken apart. *)
Record unmapped m u dir (n : nat) : Prop := {
  un_wf : bitmap_wf (bits u);
  un_nframes : nframes (bits u) = nframes (bits m);
  un_used g : 0 <= g -> used (bits u) g = true <-> used (bits m) g = true /\ ~ owned_below m dir n g;
  un_kept t ps : page_tables m !! t = Some ps -> ~ private_below m dir n t -> page_tables u !! t = Some ps;
  un_gone t : private_below m dir n t -> page_tables u !! t = None;
  un_only t ps : page_tables u !! t = Some ps -> page_tables m !! t = Some ps;
  un_blocks x : x ∈ k_live (kstate u) <-> x ∈ k_live (kstate m) /\ ~ private_below m dir n x;
  un_contents : contents_of u = contents_of m;
  un_directories : directories u = directories m;
  un_kernel : kernel_directory u = kernel_directory m;
  un_current : current_directory u = current_directory m
}.

Lemma private_below_S m dir n t : private_below m dir (S n) t <-> private_below m dir n t \/ exists ps, private m dir n t ps.
Proof.
  split.
  - intros (i & ps & Hi & Hp). destruct (decide (i = n)) as [->|]; [right; eauto|left]. exists i, ps. split; [lia|done].
  - intros [(i & ps & Hi & Hp)|[ps Hp]]; [exists i, ps; split; [lia|done]|exists n, ps; split; [lia|done]].
Qed.
Lemma owned_below_S m dir n f : owned_below m dir (S n) f <-> owned_below m dir n f \/ exists t ps, private m dir n t ps /\ owns ps f.
Proof.
  split.
  - intros (i & t & ps & Hi & Hp). destruct (decide (i = n)) as [->|]; [right; eauto|left]. exists i, t, ps. split; [lia|done].
  - intros [(i & t & ps & Hi & Hp)|(t & ps & Hp)]; [exists i, t, ps; split; [lia|done]|exists n, t, ps; split; [lia|done]].
Qed.

Lemma unmapped_start m dir : bitmap_wf (bits m) -> unmapped m m dir 0.
Proof.
  intros Hwf. assert (forall t, ~ private_below m dir 0 t) as Hno by (intros t (i & ps & Hi & _); lia).
  assert (forall g, ~ owned_below m dir 0 g) as Hno' by (intros t (i & x & ps & Hi & _); lia).
  split; try done.
  - intros g Hg. split; [|tauto]. intros H. split; [done|apply Hno'].
  - intros t Ht. by destruct (Hno t).
  - intros x. split; [|tauto]. intros H. split; [done|apply Hno].
Qed.

(** A slot without a private table needs no work. *)
Lemma unmapped_skip m u dir n : (forall t ps, ~ private m dir n t ps) -> unmapped m u dir n -> unmapped m u dir (S n).
Proof.
  intros Hno [? ? Hu Hk Hg Ho Hb ? ? ? ?].
  assert (forall t, private_below m dir (S n) t <-> private_below m dir n t) as Hp
    by (intros t; rewrite private_below_S; split; [intros [?|[ps ?]]; [done|by destruct (Hno t ps)]|by left]).
  split; try done.
  - intros g Hg0. rewrite Hu, owned_below_S by done. split; [|tauto]. intros [H1 H2]. split; [done|].
    intros [?|(t & ps & H3 & _)]; [done|by destruct (Hno t ps)].
  - intros t ps Ht Hnp. apply Hk; [done|]. by rewrite <- Hp.
  - intros t. rewrite Hp. apply Hg.
  - intros x. rewrite Hb, Hp. done.
Qed.

Lemma unmapped_private m u dir n t ps : vm_ok m -> private m dir n t ps -> unmapped m u dir n ->
  exists u1, for_range 0 1024 (destroy_entry t) u = Ok u1 /\
    ((exists k, kfree t (kstate u1) = Ok k /\
        unmapped m (with_tables (with_kstate u1 k) (delete t (page_tables u1))) dir (S n)) \/
     free_failed (kfree t (kstate u1))).
Proof.
  intros Hvm Hp Hun. pose proof Hun as [Hwf Hnf Hu Hk Hg Ho Hb Hc Hd Hkd Hcur].
  assert (~ private_below m dir n t) as Hnb.
  { intros (i & ps' & Hi & Hp'). destruct (vm_once _ Hvm _ _ _ _ _ _ _ Hp Hp'). lia. }
  assert (page_tables m !! t = Some ps) as Hmt by (destruct Hp as (?&?&?&?&?&?&?&?); done).
  assert (page_tables u !! t = Some ps) as Ht by (by apply Hk).
  assert (forall f, owns ps f -> 0 <= f < nframes (bits m)) as Hfr
    by (intros f Hf; eapply (owned_used m dir f Hvm); by exists n, t, ps).
  assert (List.length ps = 1024%nat) as Hlen.
  { destruct Hp as (d & kd & Hd' & Ht' & H0 & _). destruct (dk_present _ _ (vm_directories _ Hvm _ _ Hd') n t Ht' H0) as (qs & Hqs & Hok).
    assert (qs = ps) as -> by congruence. apply Hok. }
  destruct (destroy_entries_spec u t ps Hwf Ht Hlen) as (u1 & ks & Hrun & [Rw Rn Ru Rc Rd Rk Rr] & Hks & Hts).
  { intros f Hf. rewrite Hnf. by apply Hfr. }
  assert (t ∈ k_live (kstate u1)) as Hlive.
  { rewrite Hks. apply Hb. split; [by eapply (ol_tables _ (vm_live _ Hvm))|done]. }
  exists u1. split; [done|]. destruct (kfree_cases t (kstate u1) Hlive) as [(k & Hfree & Hkl)|Hfail]; [left|by right].
  exists k. split; [done|].
  assert (delete t (page_tables u1) = delete t (page_tables u)) as Hdel by by rewrite Hts, delete_insert_eq.
  assert (forall x, private_below m dir (S n) x <-> private_below m dir n x \/ x = t) as HS.
  { intros x. rewrite private_below_S. split; (intros [?|H]; [by left|right]); [|subst; eauto].
    destruct H as [qs Hq]. destruct Hp as (d & kd & Hd' & Ht' & _), Hq as (d2 & kd2 & Hd2 & Ht2 & _). congruence. }
  split; simpl; try congruence.
  - intros g Hg0. rewrite Ru, Hu, owned_below_S by done. split.
    + intros [[H1 H2] H3]. split; [done|]. intros [?|(t' & ps' & Hp' & Hw)]; [done|].
      assert (t' = t) as ->.
      { destruct Hp as (d & kd & Hd' & Ht' & _), Hp' as (d2 & kd2 & Hd2 & Ht2 & _). congruence. }
      destruct Hp' as (_ & _ & _ & _ & _ & _ & _ & Hps'). apply H3. congruence.
    + intros [H1 H2]. split; [split; [done|tauto]|]. intros Hw. apply H2. right. eauto.
  - intros x qs Hx Hnx. rewrite Hdel, lookup_delete_ne; [apply Hk; [done|]|]; intros H; apply Hnx, HS; [by left|by right].
  - intros x Hx%HS. rewrite Hdel. destruct (decide (x = t)) as [->|]; [by rewrite lookup_delete_eq|].
    rewrite lookup_delete_ne by done. apply Hg. by destruct Hx.
  - intros x qs. rewrite Hdel. intros [_ Hx]%lookup_delete_Some. by apply Ho.
  - intros x. rewrite Hkl, elem_of_difference, not_elem_of_singleton, Hks, Hb, HS. tauto.
Qed.

(** Is the slot private? *)
Lemma slot_cases m dir d kd i : vm_ok m -> directories m !! dir = Some d ->
  directories m !! kernel_directory m = Some kd -> (i < 1024)%nat ->
  exists t kt, tables d !! i = Some t /\ tables kd !! i = Some kt /\
    (t = 0 \/ t <> 0 /\ kt = t \/ exists ps, private m dir i t ps).
Proof.
  intros Hvm Hd Hk Hi. pose proof (vm_directories _ Hvm _ _ Hd) as Hdok. pose proof (vm_directories _ Hvm _ _ Hk) as Hkok.
  destruct (lookup_lt_is_Some_2 (tables d) i) as [t Ht]; [rewrite (dk_tables _ _ Hdok); lia|].
  destruct (lookup_lt_is_Some_2 (tables kd) i) as [kt Hkt]; [rewrite (dk_tables _ _ Hkok); lia|].
  exists t, kt. split_and!; [done..|]. destruct (decide (t = 0)); [by left|right].
  destruct (decide (kt = t)); [by left|right].
  destruct (dk_present _ _ Hdok i t Ht) as (ps & Hps & _); [done|]. exists ps, d, kd.
  split_and!; try done. congruence.
Qed.

Lemma destroy_slot_unmaps m u dir d n : vm_ok m -> directories m !! dir = Some d -> (n < 1024)%nat ->
  unmapped m u dir n -> (exists u', destroy_slot dir (Z.of_nat n) u = Ok u' /\ unmapped m u' dir (S n)) \/
    free_failed (destroy_slot dir (Z.of_nat n) u).
Proof.
  intros Hvm Hd Hn Hun. destruct (vm_kernel _ Hvm) as [kd Hkd].
  destruct (slot_cases m dir d kd n Hvm Hd Hkd Hn) as (t & kt & Ht & Hkt & Hcase).
  assert (forall t' ps, private m dir n t' ps -> t' = t /\ t' <> 0 /\ t' <> kt) as Hpt.
  { intros t' ps (d' & kd' & H1 & H2 & H3 & H4 & H5 & _). split_and!; [congruence|done|congruence]. }
  unfold destroy_slot, read_directory, table_slot. rewrite (un_directories _ _ _ _ Hun), (un_kernel _ _ _ _ Hun), Hd. rsimpl.
  rewrite Nat2Z.id, Ht. rsimpl. destruct (Z.eqb_spec t 0) as [E|E].
  { left. exists u. split; [done|]. apply unmapped_skip; [|done]. intros t' ps Hp. by apply Hpt in Hp as (? & ? & _); subst. }
  rewrite Hkd. rsimpl. rewrite Hkt. rsimpl. destruct (Z.eqb_spec kt t) as [E2|E2].
  { left. exists u. split; [done|]. apply unmapped_skip; [|done]. intros t' ps Hp. apply Hpt in Hp as (? & ? & ?); congruence. }
  destruct Hcase as [?|[[_ ?]|[ps Hps]]]; [done..|].
  destruct (unmapped_private m u dir n t ps Hvm Hps Hun) as (u1 & -> & [(k & Hk & Hun')|Hfail]); rsimpl; [left|right; by apply free_failed_bind].
  rewrite Hk. rsimpl. eexists. by split.
Qed.

Lemma pte_lookup m dir v d t : directories m !! dir = Some d -> tables d !! Z.to_nat (v / 1024) = Some t ->
  pte m dir v = if t =? 0 then None else table_entry (page_tables m !! t) v.
Proof. intros Hd Ht. unfold pte. rewrite Hd. simpl. by rewrite Ht. Qed.

(** What [destroy_directory] leaves. *)
Record destroyed m m' (dir : Z) : Prop := {
  de_ok : vm_ok m';
  de_nframes : nframes (bits m') = nframes (bits m);
  de_used g : 0 <= g -> used (bits m') g = true <-> used (bits m) g = true /\ ~ owned m dir g;
  de_contents : contents_of m' = contents_of m;
  de_directories : directories m' = delete dir (directories m);
  de_pte dir' v : dir' <> dir -> pte m' dir' v = pte m dir' v;
  de_kernel : kernel_directory m' = kernel_directory m;
  de_current : current_directory m' = current_directory m;
  de_blocks x : x ∈ k_live (kstate m') <-> x ∈ k_live (kstate m) /\ x <> dir /\ forall i ps, ~ private m dir i x ps;
  de_tables t ps : page_tables m' !! t = Some ps -> page_tables m !! t = Some ps
}.

(** All slots done, and the directory itself gone. *)
Lemma unmapped_private_inv m u k dir d i t ps :
  unmapped m u dir 1024 -> dir <> kernel_directory m ->
  private (with_directories (with_kstate u k) (delete dir (directories u))) d i t ps ->
  private m d i t ps /\ d <> dir.
Proof.
  intros Hun Hk (x & kx & H1 & H2 & H3 & H4 & H5 & H6). simpl in *.
  rewrite (un_directories _ _ _ _ Hun) in *. rewrite (un_kernel _ _ _ _ Hun) in *.
  apply lookup_delete_Some in H1 as [Hne H1]. apply lookup_delete_Some in H4 as [_ H4].
  apply (un_only _ _ _ _ Hun) in H6. split; [by exists x, kx|congruence].
Qed.

(** A table in a slot of another directory outlives the destruction. *)
Lemma unmapped_slot m u dir d' x i t : vm_ok m -> unmapped m u dir 1024 ->
  directories m !! d' = Some x -> d' <> dir -> tables x !! i = Some t -> t <> 0 ->
  exists ps, page_tables u !! t = Some ps /\ page_tables m !! t = Some ps /\ table_ok (bits u) ps.
Proof.
  intros Hvm Hun Hd' Hne Ht H0. destruct (vm_kernel _ Hvm) as [kd Hkd].
  pose proof (vm_directories _ Hvm _ _ Hd') as Hdok.
  assert ((i < 1024)%nat) as Hi by (apply lookup_lt_Some in Ht; rewrite (dk_tables _ _ Hdok) in Ht; done).
  destruct (dk_present _ _ Hdok i t Ht H0) as (ps & Hps & Hok). exists ps.
  destruct (slot_cases m d' x kd i Hvm Hd' Hkd Hi) as (t1 & kt & Ht1 & Hkt & Hcase).
  assert (t1 = t) as -> by congruence.
  assert (forall j ps', private m dir j t ps' -> False) as Hnp.
  { intros j ps' Hp. destruct Hcase as [?|[[_ ->]|[ps2 Hp2]]]; [done|by eapply (vm_kernel_slot _ Hvm)|].
    by destruct (vm_once _ Hvm _ _ _ _ _ _ _ Hp Hp2). }
  split_and!; [|done|split; [apply Hok|]].
  - apply (un_kept _ _ _ _ Hun); [done|]. intros (j & ps' & _ & Hp). by eapply Hnp.
  - intros f Hf. destruct (tk_frames _ _ Hok f Hf) as [H1 H2]. rewrite (un_nframes _ _ _ _ Hun). split; [done|].
    apply (un_used _ _ _ _ Hun); [lia|]. split; [done|]. intros (j & t' & ps' & _ & Hp & Hw).
    destruct Hcase as [?|[[_ ->]|[ps2 Hp2]]]; [done|by eapply (vm_kernel_frames _ Hvm)|].
    assert (ps2 = ps) as -> by (destruct Hp2 as (?&?&_&_&_&_&_&?); congruence).
    assert (t' = t) as -> by (by eapply (vm_frames _ Hvm)). by eapply Hnp.
Qed.

Lemma destroy_directory_spec m dir : vm_ok m -> is_Some (directories m !! dir) ->
  dir <> kernel_directory m -> dir <> current_directory m ->
  (exists m', destroy_directory dir m = Ok m' /\ destroyed m m' dir) \/ free_failed (destroy_directory dir m).
Proof.
  intros Hvm [d Hd] Hnk Hnc. unfold destroy_directory. pose proof (vm_addr _ Hvm _ _ Hd).
  rewrite (proj2 (Z.eqb_neq dir 0)), (proj2 (Z.eqb_neq dir (kernel_directory m))),
    (proj2 (Z.eqb_neq dir (current_directory m))) by congruence. repeat assert_step.
  destruct (for_range_cases (fun i u => 0 <= i <= 1024 /\ unmapped m u dir (Z.to_nat i)) free_failed
    (destroy_slot dir) 0 1024 m) as [(u & -> & _ & Hun)|Hfail]; [lia| |apply free_failed_not_ok| | |right; by apply free_failed_bind].
  { intros i u Hi (_ & Hun). assert (exists n, i = Z.of_nat n /\ (n < 1024)%nat) as (n & -> & Hn)
      by (exists (Z.to_nat i); lia).
    rewrite Nat2Z.id in Hun. destruct (destroy_slot_unmaps m u dir d n) as [(u' & -> & Hun')|Hfail]; try done; [left|by right].
    exists u'. split; [done|]. split; [lia|]. by replace (Z.to_nat (Z.of_nat n + 1)) with (S n) by lia. }
  { split; [lia|]. apply unmapped_start, Hvm. }
  change (Z.to_nat 1024) with 1024%nat in Hun. rsimpl.
  assert (forall i ps, ~ private m dir i dir ps) as Hself.
  { intros i ps (x & kx & _ & _ & _ & _ & _ & Hps). by eapply (vm_disjoint _ Hvm). }
  destruct (kfree_cases dir (kstate u)) as [(k & -> & Hkl)|Hfail]; [| |right; by apply free_failed_bind].
  { apply (un_blocks _ _ _ _ Hun). split; [by eapply (ol_directories _ (vm_live _ Hvm))|]. intros (i & ps & _ & Hp). by eapply Hself. }
  rsimpl. left. eexists. split; [done|]. set (m' := with_directories (with_kstate u k) (delete dir (directories u))).
  assert (forall d i t ps, private m' d i t ps -> private m d i t ps /\ d <> dir) as Hpriv
    by (intros ? ? ? ?; by apply unmapped_private_inv).
  assert (directories m' = delete dir (directories m)) as Hds by (simpl; by rewrite (un_directories _ _ _ _ Hun)).
  assert (forall d' x, directories m' !! d' = Some x -> directories m !! d' = Some x /\ d' <> dir) as Hdir
    by (intros d' x; rewrite Hds; intros [? ?]%lookup_delete_Some; done).
  assert (forall i t ps, private m dir i t ps -> private_below m dir 1024 t) as Hall.
  { intros i t ps Hp. exists i, ps. split; [|done]. destruct Hp as (x & kx & Hx & Ht & _).
    apply lookup_lt_Some in Ht. by rewrite (dk_tables _ _ (vm_directories _ Hvm _ _ Hx)) in Ht. }
  assert (forall d' x i t, directories m !! d' = Some x -> d' <> dir -> tables x !! i = Some t -> t <> 0 ->
    exists ps, page_tables m' !! t = Some ps /\ page_tables m !! t = Some ps /\ table_ok (bits m') ps) as Hslot.
  { intros d' x i t H1 H2 H3 H4. by eapply (unmapped_slot m u dir d' x i t). }
  split; try done; try apply Hun.
  - assert (kernel_directory m' = kernel_directory m) as HK by apply Hun.
    split; try (rewrite ?HK; done).
    + apply Hun.
    + split.
      * intros t ps Ht. simpl in Ht. simpl. rewrite Hkl, elem_of_difference, not_elem_of_singleton, (un_blocks _ _ _ _ Hun).
        pose proof Ht as Ht2. apply (un_only _ _ _ _ Hun) in Ht2. split; [split|].
        -- by eapply (ol_tables _ (vm_live _ Hvm)).
        -- intros Hp. apply (un_gone _ _ _ _ Hun) in Hp. congruence.
        -- intros ->. by eapply (vm_disjoint _ Hvm).
      * intros d' x [Hx Hne]%Hdir. simpl. rewrite Hkl, elem_of_difference, not_elem_of_singleton, (un_blocks _ _ _ _ Hun).
        split; [split|done]; [by eapply (ol_directories _ (vm_live _ Hvm))|].
        intros (i & ps & _ & (y & ky & _ & _ & _ & _ & _ & Hps)). by eapply (vm_disjoint _ Hvm).
    + intros d' x [Hx _]%Hdir. by eapply (vm_addr _ Hvm).
    + rewrite HK, Hds. destruct (vm_kernel _ Hvm) as [kd Hkd]. exists kd. by rewrite lookup_delete_ne.
    + rewrite Hds. change (current_directory m') with (current_directory u). rewrite (un_current _ _ _ _ Hun), lookup_delete_ne by done.
      apply Hvm.
    + intros d' x [Hx Hne]%Hdir. pose proof (vm_directories _ Hvm _ _ Hx) as [? ? _]. split; try done.
      intros j t Ht H0. destruct (Hslot d' x j t Hx Hne Ht H0) as (ps & ? & _ & ?). eauto.
    + intros t ps x Ht [Hx _]%Hdir. simpl in Ht. apply (un_only _ _ _ _ Hun) in Ht. by eapply (vm_disjoint _ Hvm).
    + intros d1 i1 d2 i2 t p1 p2 [H1 _]%Hpriv [H2 _]%Hpriv. by eapply (vm_once _ Hvm).
    + intros d1 i t ps kd j [H1 _]%Hpriv [Hkd _]%Hdir. rewrite HK in Hkd. by eapply (vm_kernel_slot _ Hvm).
    + intros d1 i1 t1 p1 d2 i2 t2 p2 f [H1 _]%Hpriv [H2 _]%Hpriv. by eapply (vm_frames _ Hvm).
    + intros d1 i t ps j l p q [H1 _]%Hpriv. by eapply (vm_entries _ Hvm).
    + intros d1 i t ps kd j t' qs f [H1 _]%Hpriv [Hkd _]%Hdir Ht' H0 Hqs. rewrite HK in Hkd.
      simpl in Hqs. apply (un_only _ _ _ _ Hun) in Hqs. by eapply (vm_kernel_frames _ Hvm).
  - intros g Hg. simpl. rewrite (un_used _ _ _ _ Hun) by done. split; (intros [H1 H2]; split; [done|]); intros Ho; apply H2.
    + destruct Ho as (i & t & ps & Hp & Hw). destruct (Hall i t ps Hp) as (j & ps' & Hj & Hp').
      exists j, t, ps. split_and!; try done. destruct (vm_once _ Hvm _ _ _ _ _ _ _ Hp Hp') as [_ ->]. done.
    + destruct Ho as (i & t & ps & _ & Hp & Hw). by exists i, t, ps.
  - intros d' v Hne. unfold pte. rewrite Hds, lookup_delete_ne by done.
    destruct (directories m !! d') as [x|] eqn:Hx; [|done]. simpl.
    destruct (tables x !! Z.to_nat (v / 1024)) as [t|] eqn:Ht; [|done]. simpl. destruct (Z.eqb_spec t 0); [done|].
    destruct (Hslot d' x _ t Hx Hne Ht) as (ps & E1 & E2 & _); [done|]. simpl in E1 |- *. by rewrite E1, E2.
  - intros x. simpl. rewrite Hkl, elem_of_difference, not_elem_of_singleton, (un_blocks _ _ _ _ Hun). split.
    + intros [[H1 H2] H3]. split_and!; try done. intros i ps Hp. apply H2. by eapply Hall.
    + intros (H1 & H2 & H3). split_and!; try done. intros (i & ps & _ & Hp). by eapply H3.
Qed.

Lemma pte_used m dir v p : vm_ok m -> pte m dir v = Some p ->
  0 <= frame p < nframes (bits m) /\ used (bits m) (frame p) = true.
Proof.
  intros Hvm. unfold pte. destruct (directories m !! dir) as [d|] eqn:Hd; [|done]. cbn [mbind option_bind].
  destruct (tables d !! Z.to_nat (v / 1024)) as [t|] eqn:Ht; [|done]. cbn [mbind option_bind].
  destruct (Z.eqb_spec t 0) as [|H0]; [done|].
  destruct (dk_present _ _ (vm_directories _ Hvm _ _ Hd) _ t Ht H0) as (ps & Hps & Hok). rewrite Hps.
  unfold table_entry. cbn [mbind option_bind]. destruct (ps !! Z.to_nat (v mod 1024)) as [q|] eqn:Hq; [|done].
  cbn [mbind option_bind]. destruct (Z.eqb_spec (present q) 0); [done|]. intros [= ->].
  apply Hok. by exists (Z.to_nat (v mod 1024)), p.
Qed.
End address_space.
