(* ===== verification/AddressClone.v ===== *)
(** * Cloning keeps the address-space invariant

    [clone_directory] adds one address space that reads like its source and
    shares no private frame with anything. *)

From S2P Require Import Prelude Kmalloc Frames Paging PagingProofs AddressSpace.

Section clone.
Context {C K : Type} `{!Kmalloc K} `{!KmallocLaws K}.
Implicit Types m s : mm C K.

(** What a fork of the address space [src] gives. *)
Record forked s s' (src nd : Z) : Prop := {
  fk_ok : vm_ok s';
  fk_new : directories s !! nd = None /\ page_tables s !! nd = None /\ nd ∉ k_live (kstate s);
  fk_none v : 0 <= v < 2 ^ 20 -> pte s src v = None -> pte s' nd v = None;
  fk_some v p : 0 <= v < 2 ^ 20 -> pte s src v = Some p -> exists q, pte s' nd v = Some q /\
    contents_of s' (base (frame q)) = contents_of s (base (frame p)) /\
    (q = p \/ clone_of p q /\ used (bits s) (frame q) = false);
  fk_old d v : d <> nd -> pte s' d v = pte s d v;
  fk_nframes : nframes (bits s') = nframes (bits s);
  fk_used g : 0 <= g -> used (bits s) g = true -> used (bits s') g = true;
  fk_contents f : 0 <= f < nframes (bits s) -> used (bits s) f = true -> contents_of s' (base f) = contents_of s (base f);
  fk_kernel : kernel_directory s' = kernel_directory s;
  fk_current : current_directory s' = current_directory s;
  fk_directories x : is_Some (directories s' !! x) <-> is_Some (directories s !! x) \/ x = nd;
  fk_tables t : is_Some (page_tables s' !! t) -> is_Some (page_tables s !! t) \/ t ∉ k_live (kstate s);
  fk_blocks x : x ∈ k_live (kstate s) -> x ∈ k_live (kstate s');
  fk_used_exactly g : 0 <= g -> used (bits s') g = true <-> used (bits s) g = true \/ owned s' nd g;
  fk_blocks_exactly x : x ∈ k_live (kstate s') <-> x ∈ k_live (kstate s) \/ x = nd \/ exists i ps, private s' nd i x ps;
  fk_owned g : owned s' nd g -> used (bits s) g = false;
  fk_private i x ps : private s' nd i x ps -> x ∉ k_live (kstate s);
  fk_source i x ps : private s' nd i x ps -> exists y qs, private s src i y qs;
  fk_shared i : shared_slot s src i -> shared_slot s' nd i;
  fk_kernel_slots : directories s' !! kernel_directory s = directories s !! kernel_directory s
}.

Lemma clonable_ok s src d kd : vm_ok s -> directories s !! src = Some d ->
  directories s !! kernel_directory s = Some kd -> clonable s src d kd.
Proof.
  intros Hvm Hd Hk. split; try done; try apply Hvm; try done.
  - by eapply (vm_addr _ Hvm).
  - by apply (vm_directories _ Hvm src).
  - by apply (vm_directories _ Hvm (kernel_directory s)).
Qed.

Section cloned.
Context s s' src nd d kd D (Hvm : vm_ok s) (Hd : directories s !! src = Some d)
  (Hk : directories s !! kernel_directory s = Some kd) (Hcg : cloning s s' nd d kd D 1024)
  (Hnone : directories s !! nd = None) (Hnl : nd ∉ k_live (kstate s)).

Lemma cloned_directory x y : directories s' !! x = Some y ->
  x = nd /\ tables y = D /\ List.length (tablesPhysical y) = 1024%nat \/ x <> nd /\ directories s !! x = Some y.
Proof.
  pose proof (cg_physical _ _ _ _ _ _ _ Hcg) as Hph. destruct (cg_directory _ _ _ _ _ _ _ Hcg) as (Ph & pa & E).
  intros Hx. destruct (decide (x = nd)) as [->|Hne]; [left|right].
  - split_and!; [done| |by apply Hph]. rewrite E, lookup_insert_eq in Hx. by injection Hx as <-.
  - split; [done|]. by rewrite E, lookup_insert_ne in Hx.
Qed.

Lemma cloned_new_directory : exists y, directories s' !! nd = Some y /\ tables y = D.
Proof.
  destruct (cg_directory _ _ _ _ _ _ _ Hcg) as (Ph & pa & E). exists (mk_directory D Ph pa). by rewrite E, lookup_insert_eq.
Qed.

Lemma cloned_old_directory x y : directories s !! x = Some y -> directories s' !! x = Some y.
Proof.
  intros Hx. destruct (cg_directory _ _ _ _ _ _ _ Hcg) as (Ph & pa & E). rewrite E, lookup_insert_ne; [done|]. congruence.
Qed.

Lemma cloned_kernel y : directories s' !! kernel_directory s' = Some y <-> y = kd.
Proof.
  rewrite (ex_kernel _ _ _ (cg_extends _ _ _ _ _ _ _ Hcg)), (cloned_old_directory _ _ Hk). split; congruence.
Qed.

(** A fresh table copies a private one. *)
Lemma fresh_copy i t qs : D !! i = Some t -> fresh_table s s' t qs ->
  exists t0 ps, tables d !! i = Some t0 /\ t0 <> 0 /\ tables kd !! i <> Some t0 /\ page_tables s !! t0 = Some ps /\
    table_ok (bits s) ps /\ cloned s s' ps qs 1024.
Proof.
  intros HD [Hf1 Hf2]. assert ((i < 1024)%nat) as Hi.
  { apply lookup_lt_Some in HD. by rewrite (cg_length _ _ _ _ _ _ _ Hcg) in HD. }
  destruct (cg_slots _ _ _ _ _ _ _ Hcg i Hi) as (t0 & t' & Ht0 & HD' & Hcase). assert (t' = t) as -> by congruence.
  destruct (cg_new _ _ _ _ _ _ _ Hcg t qs) as (Hn0 & _ & _); [done|].
  destruct Hcase as [[_ ?]|[(H1 & H2 & ->)|(H1 & H2 & _ & ps & qs' & Hps & Hok & [_ Hq] & Hcl)]]; [done| |].
  - destruct (dk_present _ _ (vm_directories _ Hvm _ _ Hk) i t0 H2 H1) as (ps & Hps & _). congruence.
  - exists t0, ps. assert (qs' = qs) as -> by congruence. done.
Qed.

Lemma fresh_unused i t qs f : D !! i = Some t -> fresh_table s s' t qs -> owns qs f ->
  0 <= f < nframes (bits s) /\ used (bits s) f = false /\ used (bits s') f = true.
Proof.
  intros HD Hf Ho. destruct (fresh_copy i t qs HD Hf) as (t0 & ps & _ & _ & _ & _ & Hok & Hcl).
  destruct (cloned_owned s s' ps qs f Hcl) as [H1 H2]; [apply Hok|done|]. split_and!; try done; try lia.
  apply (ex_used _ _ _ (cg_extends _ _ _ _ _ _ _ Hcg)); [lia|]. right. by exists t, qs.
Qed.

Lemma cloned_private d' i t ps : private s' d' i t ps ->
  d' = nd /\ D !! i = Some t /\ fresh_table s s' t ps \/ d' <> nd /\ private s d' i t ps.
Proof.
  intros (x & kx & H1 & H2 & H3 & H4 & H5 & H6). apply cloned_kernel in H4 as ->.
  destruct (cloned_directory _ _ H1) as [(-> & <- & _)|[Hne Hx]]; [left|right].
  - assert ((i < 1024)%nat) as Hi.
    { apply lookup_lt_Some in H2. by rewrite (cg_length _ _ _ _ _ _ _ Hcg) in H2. }
    split; [done|]. split; [done|]. split; [|done].
    destruct (cg_slots _ _ _ _ _ _ _ Hcg i Hi) as (t0 & t' & Ht0 & HD' & Hcase). assert (t' = t) as -> by congruence.
    destruct Hcase as [[_ ?]|[(_ & ? & ->)|(_ & _ & _ & q & q' & _ & _ & [? _] & _)]]; done.
  - split; [done|]. exists x, kd. split_and!; try done.
    destruct (dk_present _ _ (vm_directories _ Hvm _ _ Hx) i t H2 H3) as (q & Hq & _).
    pose proof (cg_old _ _ _ _ _ _ _ Hcg _ _ Hq). congruence.
Qed.

Lemma private_fresh t ps : fresh_table s s' t ps <-> exists i, private s' nd i t ps.
Proof.
  split.
  - intros Hf. destruct (cg_listed _ _ _ _ _ _ _ Hcg t ps Hf) as (i & _ & HD). exists i.
    destruct (cloned_new_directory) as (y & Hy & HT). destruct (cg_new _ _ _ _ _ _ _ Hcg t ps Hf) as (H0 & _ & _).
    exists y, kd. split_and!; try done; [by rewrite HT|by apply cloned_kernel| |apply Hf].
    intros Hkt. destruct (dk_present _ _ (vm_directories _ Hvm _ _ Hk) i t Hkt H0) as (q & Hq & _). destruct Hf. congruence.
  - intros [i [(_ & _ & ?)|[? _]]%cloned_private]; done.
Qed.

Lemma owned_fresh g : owned s' nd g <-> fresh_owned s s' g.
Proof.
  split.
  - intros (i & t & ps & Hp & Ho). exists t, ps. split; [|done]. apply private_fresh. eauto.
  - intros (t & ps & [i Hp]%private_fresh & Ho). by exists i, t, ps.
Qed.

Lemma old_table x y i t ps : directories s !! x = Some y -> tables y !! i = Some t -> t <> 0 ->
  page_tables s' !! t = Some ps -> page_tables s !! t = Some ps /\ table_ok (bits s) ps.
Proof.
  intros Hx Ht H0 Hps. destruct (dk_present _ _ (vm_directories _ Hvm _ _ Hx) i t Ht H0) as (q & Hq & Hok).
  pose proof (cg_old _ _ _ _ _ _ _ Hcg _ _ Hq). assert (q = ps) as -> by congruence. done.
Qed.

Lemma used_kept g : 0 <= g -> used (bits s) g = true -> used (bits s') g = true.
Proof. intros Hg Hu. apply (ex_used _ _ _ (cg_extends _ _ _ _ _ _ _ Hcg)); [done|by left]. Qed.

Lemma cloned_directory_ok x y : directories s' !! x = Some y -> directory_ok s' y.
Proof.
  pose proof (cg_extends _ _ _ _ _ _ _ Hcg) as Hex.
  intros [(-> & HT & Hph)|[Hne Hx]]%cloned_directory.
  - split; [rewrite HT; apply Hcg|done|]. rewrite HT. intros i t HD H0.
    assert ((i < 1024)%nat) as Hi.
    { apply lookup_lt_Some in HD. by rewrite (cg_length _ _ _ _ _ _ _ Hcg) in HD. }
    destruct (cg_slots _ _ _ _ _ _ _ Hcg i Hi) as (t0 & t' & Ht0 & HD' & Hcase). assert (t' = t) as -> by congruence.
    destruct Hcase as [[_ ?]|[(H1 & H2 & ->)|(H1 & H2 & _ & ps & qs & Hps & Hok & Hf & Hcl)]]; [done| |].
    + destruct (dk_present _ _ (vm_directories _ Hvm _ _ Hk) i t0 H2 H1) as (ps & Hps & Hok). exists ps.
      split; [by apply (cg_old _ _ _ _ _ _ _ Hcg)|by eapply table_ok_extends].
    + exists qs. split; [apply Hf|]. split; [apply Hcl|]. intros f Hw.
      destruct (fresh_unused i t qs f HD Hf Hw) as (H3 & _ & H4). rewrite (ex_nframes _ _ _ Hex). done.
  - destruct (vm_directories _ Hvm _ _ Hx) as [L1 L2 Hp]. split; [done|done|]. intros i t Ht H0.
    destruct (Hp i t Ht H0) as (ps & Hps & Hok). exists ps. split; [by apply (cg_old _ _ _ _ _ _ _ Hcg)|by eapply table_ok_extends].
Qed.

Lemma cloned_vm_ok : nd <> 0 -> vm_ok s'.
Proof.
  intros Hnd0. pose proof (cg_extends _ _ _ _ _ _ _ Hcg) as Hex. split.
  - apply Hex.
  - apply Hcg.
  - intros x y [(-> & _)|[_ Hx]]%cloned_directory; [done|by eapply (vm_addr _ Hvm)].
  - exists kd. by apply cloned_kernel.
  - rewrite (ex_current _ _ _ Hex). destruct (vm_current _ Hvm) as [y Hy]. exists y. by apply cloned_old_directory.
  - apply cloned_directory_ok.
  - intros t ps y Ht Hy. destruct (page_tables s !! t) as [q|] eqn:E.
    + destruct (cloned_directory _ _ Hy) as [(-> & _)|[_ Hx]]; [|by eapply (vm_disjoint _ Hvm)].
      apply Hnl. by eapply (ol_tables _ (vm_live _ Hvm)).
    + destruct (cg_new _ _ _ _ _ _ _ Hcg t ps) as (_ & H1 & H2); [done|].
      destruct (cloned_directory _ _ Hy) as [(-> & _)|[_ Hx]]; [done|]. apply H1. by eapply (ol_directories _ (vm_live _ Hvm)).
  - intros d1 i1 d2 i2 t p1 p2 H1%cloned_private H2%cloned_private.
    destruct H1 as [(-> & HD1 & Hf1)|[N1 H1]], H2 as [(-> & HD2 & Hf2)|[N2 H2]].
    + split; [done|]. by eapply (cg_once _ _ _ _ _ _ _ Hcg).
    + destruct H2 as (?&?&_&_&_&_&_&?), Hf1. congruence.
    + destruct H1 as (?&?&_&_&_&_&_&?), Hf2. congruence.
    + by eapply (vm_once _ Hvm).
  - intros d1 i1 t p1 y j H1%cloned_private ->%cloned_kernel Hj. destruct H1 as [(-> & HD1 & Hf1)|[N1 H1]].
    + destruct (cg_new _ _ _ _ _ _ _ Hcg t p1 Hf1) as (H0 & _ & _).
      destruct (dk_present _ _ (vm_directories _ Hvm _ _ Hk) j t Hj H0) as (q & Hq & _). destruct Hf1. congruence.
    + by eapply (vm_kernel_slot _ Hvm).
  - intros d1 i1 t1 p1 d2 i2 t2 p2 f H1%cloned_private H2%cloned_private Ho1 Ho2.
    assert (forall d0 i t q, private s d0 i t q -> owns q f -> used (bits s) f = true) as Hused.
    { intros d0 i t q Hp Ho. eapply (owned_used _ d0); [done|]. by exists i, t, q. }
    destruct H1 as [(-> & HD1 & Hf1)|[N1 H1]], H2 as [(-> & HD2 & Hf2)|[N2 H2]].
    + by eapply (cg_apart _ _ _ _ _ _ _ Hcg).
    + destruct (fresh_unused _ _ _ f HD1 Hf1 Ho1) as (_ & ? & _). rewrite (Hused _ _ _ _ H2 Ho2) in *. done.
    + destruct (fresh_unused _ _ _ f HD2 Hf2 Ho2) as (_ & ? & _). rewrite (Hused _ _ _ _ H1 Ho1) in *. done.
    + by eapply (vm_frames _ Hvm).
  - intros d1 i1 t p1 j k p q H1%cloned_private Hj Hq Hp1 Hp2 E. destruct H1 as [(-> & HD1 & Hf1)|[N1 H1]].
    + destruct (fresh_copy _ _ _ HD1 Hf1) as (t0 & ps & _ & _ & _ & _ & _ & Hcl). by eapply (cl_distinct _ _ _ _ _ Hcl).
    + by eapply (vm_entries _ Hvm).
  - intros d1 i1 t1 p1 y j t2 q f H1%cloned_private ->%cloned_kernel Hj H0 Hq Ho1 Ho2.
    destruct (old_table _ _ j t2 q Hk Hj H0 Hq) as [Hq0 Hok2]. destruct H1 as [(-> & HD1 & Hf1)|[N1 H1]].
    + destruct (fresh_unused _ _ _ f HD1 Hf1 Ho1) as (_ & ? & _). destruct (tk_frames _ _ Hok2 f Ho2). congruence.
    + by eapply (vm_kernel_frames _ Hvm).
Qed.

Lemma cloned_pte_old x v : x <> nd -> pte s' x v = pte s x v.
Proof.
  intros Hne. unfold pte. destruct (directories s !! x) as [y|] eqn:Hx.
  - rewrite (cloned_old_directory _ _ Hx). cbn [mbind option_bind].
    destruct (tables y !! Z.to_nat (v / 1024)) as [t|] eqn:Ht; [|done]. cbn [mbind option_bind].
    destruct (Z.eqb_spec t 0) as [|H0]; [done|].
    destruct (dk_present _ _ (vm_directories _ Hvm _ _ Hx) _ t Ht H0) as (q & Hq & _).
    by rewrite Hq, (cg_old _ _ _ _ _ _ _ Hcg _ _ Hq).
  - destruct (directories s' !! x) as [y|] eqn:Hy; [|done].
    destruct (cloned_directory _ _ Hy) as [(? & _)|[_ ?]]; congruence.
Qed.

Lemma cloned_pte_new v : 0 <= v < 2 ^ 20 ->
  match pte s src v with
  | None => pte s' nd v = None
  | Some p => exists q, pte s' nd v = Some q /\ contents_of s' (base (frame q)) = contents_of s (base (frame p)) /\
                (q = p \/ clone_of p q /\ used (bits s) (frame q) = false)
  end.
Proof.
  intros Hv. assert ((Z.to_nat (v / 1024) < 1024)%nat) as Hi by (Z.div_mod_to_equations; lia).
  assert ((Z.to_nat (v mod 1024) < 1024)%nat) as Hj by (pose proof (Z.mod_pos_bound v 1024); lia).
  destruct cloned_new_directory as (y & Hy & HT).
  destruct (cg_slots _ _ _ _ _ _ _ Hcg _ Hi) as (t & t' & Ht & HD & Hcase).
  rewrite (pte_lookup s src v d t), (pte_lookup s' nd v y t') by (try done; by rewrite HT).
  destruct Hcase as [[-> ->]|[(H0 & Hkt & ->)|(H0 & _ & H0' & ps & qs & Hps & Hok & [_ Hqs] & Hcl)]]; [done| |].
  - rewrite (proj2 (Z.eqb_neq t 0)) by done.
    destruct (dk_present _ _ (vm_directories _ Hvm _ _ Hk) _ t Hkt H0) as (q & Hq & Hok).
    rewrite Hq, (cg_old _ _ _ _ _ _ _ Hcg _ _ Hq). unfold table_entry. cbn [mbind option_bind].
    destruct (q !! Z.to_nat (v mod 1024)) as [p|] eqn:Hp; [|done]. cbn [mbind option_bind].
    destruct (Z.eqb_spec (present p) 0); [done|]. exists p. split; [done|]. split; [|by left].
    apply (cg_extends _ _ _ _ _ _ _ Hcg); apply Hok; by exists (Z.to_nat (v mod 1024)), p.
  - rewrite (proj2 (Z.eqb_neq t 0)), (proj2 (Z.eqb_neq t' 0)), Hps, Hqs by done. unfold table_entry. cbn [mbind option_bind].
    destruct (lookup_lt_is_Some_2 ps (Z.to_nat (v mod 1024))) as [p Hp]; [rewrite (tk_length _ _ Hok); done|].
    destruct (lookup_lt_is_Some_2 qs (Z.to_nat (v mod 1024))) as [q Hq]; [rewrite (cl_length _ _ _ _ _ Hcl); done|].
    rewrite Hp, Hq. cbn [mbind option_bind]. destruct (Z.eqb_spec (present p) 0) as [E|E].
    + by rewrite (cl_none _ _ _ _ _ Hcl _ p q Hj Hp Hq E).
    + destruct (cl_some _ _ _ _ _ Hcl _ p q Hj Hp Hq E) as (Hc & _ & Hu & Hct). exists q.
      rewrite (proj2 (Z.eqb_neq (present q) 0)) by (rewrite (co_present _ _ Hc); lia). split; [done|]. split; [done|].
      right. done.
Qed.
End cloned.

Lemma clone_directory_forked s src : vm_ok s -> is_Some (directories s !! src) ->
  clone_failure (clone_directory src s) \/
  exists nd s', clone_directory src s = Ok (nd, s') /\ nd <> 0 /\ forked s s' src nd.
Proof.
  intros Hvm [d Hd]. destruct (vm_kernel _ Hvm) as [kd Hk]. pose proof (clonable_ok s src d kd Hvm Hd Hk) as Hc.
  destruct (clone_directory_cases s src d kd Hc) as [[[nd s'] Hrun]|]; [right|by left].
  pose proof Hc as [Hwf Hlive _ Hsrc Hdok _ Hkok _].
  destruct (clone_directory_spec s s' src nd d kd Hwf Hlive Hsrc Hdok Hk (dk_tables _ _ Hkok) Hrun)
    as (Hnd0 & Hnone & Hnl & D & Hcg).
  exists nd, s'. split; [done|]. split; [done|]. pose proof (cg_extends _ _ _ _ _ _ _ Hcg) as Hex.
  assert (page_tables s !! nd = None) as Hnt.
  { destruct (page_tables s !! nd) eqn:E; [|done]. destruct Hnl. by eapply (ol_tables _ Hlive). }
  pose proof (cloned_pte_new s s' src nd d kd D Hvm Hd Hk Hcg) as Hnew.
  split; try by apply Hex.
  - by eapply cloned_vm_ok.
  - done.
  - intros v Hv Hp. specialize (Hnew v Hv). by rewrite Hp in Hnew.
  - intros v p Hv Hp. specialize (Hnew v Hv). by rewrite Hp in Hnew.
  - intros x v. by eapply cloned_pte_old.
  - intros g Hg Hu. by eapply used_kept.
  - intros x. split.
    + intros [y Hy]. destruct (cloned_directory _ _ _ _ _ _ Hcg _ _ Hy) as [(-> & _)|[_ ?]]; [by right|left; eauto].
    + intros [[y Hy]| ->].
      * exists y. by eapply cloned_old_directory.
      * destruct (cloned_new_directory _ _ _ _ _ _ Hcg) as (y & Hy & _). eauto.
  - intros t [ps Ht]. destruct (page_tables s !! t) as [q|] eqn:E; [left; eauto|right].
    by apply (cg_new _ _ _ _ _ _ _ Hcg t ps).
  - intros x Hx. apply (cg_blocks _ _ _ _ _ _ _ Hcg). by left.
  - intros g Hg. rewrite (ex_used _ _ _ Hex g Hg), (owned_fresh s s' nd d kd D Hvm Hk Hcg Hnone). done.
  - intros x. rewrite (cg_blocks _ _ _ _ _ _ _ Hcg).
    assert ((exists qs, fresh_table s s' x qs) <-> exists i ps, private s' nd i x ps) as ->; [|done].
    split; [intros (qs & [i Hq]%(private_fresh s s' nd d kd D Hvm Hk Hcg Hnone))|intros (i & qs & Hq)]; [eauto|].
    exists qs. apply (private_fresh s s' nd d kd D Hvm Hk Hcg Hnone). eauto.
  - intros g (i & t & ps & Hp & Ho).
    destruct (cloned_private _ _ _ _ _ _ Hvm Hk Hcg Hnone _ _ _ _ Hp) as [(_ & HD & Hf)|[? _]]; [|done].
    by destruct (fresh_unused _ _ _ _ _ _ Hvm Hk Hcg i t ps g HD Hf Ho) as (_ & ? & _).
  - intros i x ps Hp. apply (cg_new _ _ _ _ _ _ _ Hcg x ps), (private_fresh s s' nd d kd D Hvm Hk Hcg Hnone). eauto.
  - intros i x ps Hp. destruct (cloned_private _ _ _ _ _ _ Hvm Hk Hcg Hnone _ _ _ _ Hp) as [(_ & HD & Hf)|[? _]]; [|done].
    edestruct fresh_copy as (t0 & qs & H1 & H2 & H3 & H4 & _); [eassumption..|]. by exists t0, qs, d, kd.
  - intros i (x & kx & t & H1 & H2 & H3 & H4 & H5). assert (x = d) as -> by congruence. assert (kx = kd) as -> by congruence.
    destruct (cloned_new_directory _ _ _ _ _ _ Hcg) as (y & Hy & HT). exists y, kd, t. split_and!; try done.
    + by eapply cloned_kernel.
    + rewrite HT. assert ((i < 1024)%nat) as Hi by (apply lookup_lt_Some in H3; by rewrite (dk_tables _ _ Hdok) in H3).
      destruct (cg_slots _ _ _ _ _ _ _ Hcg i Hi) as (t0 & t' & Ht0 & HD & [[? _]|[(_ & _ & ->)|(_ & Hn & _)]]); congruence.
  - rewrite Hk. by eapply cloned_old_directory.
Qed.
End clone.
