(* ===== verification/HeapPaging.v ===== *)
(** * kheap.c on paging.c: the pages under the kernel heap

    [expand] and [contract] ask for page frames through the interface
    [PageBacking].  Here it is implemented by the page tables: a page is
    mapped by [alloc_frame(get_page(a, 1, kernel_directory), k, w)] and
    unmapped by [free_frame(get_page(a, 0, kernel_directory))].  The bytes
    of the heap are those of the frames behind it: mapping a page shows the
    bytes of its frame, unmapping it leaves them there.

    [heap_window lo hi m] is what the tables must look like for that: the
    tables of the virtual range [lo, hi) exist, so that [get_page] never
    allocates in the middle of an allocation. *)

From S2P Require Import Prelude Memory OrderedArray KHeap HeapInv HeapContract HeapFree Kmalloc Frames Paging PagingProofs AddressSpace.

Section operations.
Context {C K : Type} `{!Kmalloc K}.
Implicit Types m : mm C K.

(** [alloc_frame(get_page(a, 1, kernel_directory), k, w)]. *)
Definition back_kernel_page (a k w : Z) m : res (mm C K) :=
  '(page, m) ← get_page a 1 (kernel_directory m) m;
  match page with
  | None => Panic ASSERTION_FAILED
  | Some (t, j) =>
      p ← read_page t j m;
      '(p, b) ← alloc_frame p k w (bits m);
      Ok (write_page t j p (with_bits m b))
  end.

(** [free_frame(get_page(a, 0, kernel_directory))]. *)
Definition release_kernel_page (a : Z) m : res (mm C K) :=
  '(page, m) ← get_page a 0 (kernel_directory m) m;
  match page with
  | None => Panic ASSERTION_FAILED
  | Some (t, j) =>
      p ← read_page t j m;
      '(p, b) ← free_frame p (bits m);
      Ok (write_page t j p (with_bits m b))
  end.

(** The entry of a kernel page. *)
Definition kernel_page m (a : Z) : option page_t := pte m (kernel_directory m) (a / 0x1000).
End operations.

Section backing.
Context {K : Type} `{!Kmalloc K}.

(** Bytes [x] of page [a], as the frame at [f] has them. *)
Definition show_page (a f : Z) (c : Z -> Z -> Z) (h : mem) : mem :=
  fun x => if (a <=? x) && (x <? a + 0x1000) then c f (x - a) else h x.
Definition save_page (a f : Z) (h : mem) (m : mm (Z -> Z) K) : mm (Z -> Z) K :=
  mk_mm (bits m) (page_tables m) (directories m) (fun x => if x =? f then fun i => h (a + i) else contents_of m x)
    (kernel_directory m) (current_directory m) (kstate m).

#[export] Instance table_backing : PageBacking (mm (Z -> Z) K) := {|
  pb_map a k w s :=
    let m := hpages s in
    m' ← back_kernel_page a k w m;
    Ok (mk_hstate
          (match kernel_page m a, kernel_page m' a with
           | None, Some p => show_page a (base (frame p)) (contents_of m') (hmem s)
           | _, _ => hmem s
           end) (hheap s) m');
  pb_unmap a s :=
    let m := hpages s in
    let m := match kernel_page m a with Some p => save_page a (base (frame p)) (hmem s) m | None => m end in
    m ← release_kernel_page a m;
    Ok (mk_hstate (hmem s) (hheap s) m)
|}.

(** An absent page halts [kmalloc_int] like a missing table does. *)
#[export] Instance table_walk : PageWalk (mm (Z -> Z) K) := {|
  pw_page m a := p ← kernel_page m a; Some (present p, frame p)
|}.
End backing.

(** ** One entry of a kernel table changes *)

Section entries.
Context {C K : Type} `{!Kmalloc K} `{!KmallocLaws K}.
Implicit Types m : mm C K.

(** The kernel's table for the virtual page [v], and its entries. *)
Definition kernel_slot m (v t : Z) (qs : list page_t) : Prop :=
  exists kd, directories m !! kernel_directory m = Some kd /\ tables kd !! Z.to_nat (v / 1024) = Some t /\ t <> 0 /\
    page_tables m !! t = Some qs.

(** Entry [j] of the table [t] is now [p]; the bitmap may have changed. *)
Record kernel_set m m' (t : Z) (qs : list page_t) (j : nat) (p : page_t) : Prop := {
  ks_tables : page_tables m' = <[t := <[j := p]> qs]> (page_tables m);
  ks_wf : bitmap_wf (bits m');
  ks_nframes : nframes (bits m') = nframes (bits m);
  ks_directories : directories m' = directories m;
  ks_kernel : kernel_directory m' = kernel_directory m;
  ks_current : current_directory m' = current_directory m;
  ks_kstate : kstate m' = kstate m
}.

Lemma kernel_not_private m v t qs d i ps : vm_ok m -> kernel_slot m v t qs -> private m d i t ps -> False.
Proof. intros Hvm (kd & Hkd & Ht & _) Hp. by eapply (vm_kernel_slot _ Hvm). Qed.

(** Private tables are what they were. *)
Lemma kernel_set_private m m' v t qs j p d i x ps : vm_ok m -> kernel_slot m v t qs -> kernel_set m m' t qs j p ->
  private m' d i x ps <-> private m d i x ps.
Proof.
  intros Hvm Hs Hk. destruct Hs as (kd0 & Hkd0 & Ht0 & H0 & Hqs).
  assert (forall ds kd, directories m !! d = Some ds -> tables ds !! i = Some x -> directories m !! kernel_directory m = Some kd ->
    tables kd !! i <> Some x -> x <> t) as Hne.
  { intros ds kd Hds Hx Hkd Hnk ->. eapply (kernel_not_private m v t qs d i qs Hvm); [by exists kd0|]. by exists ds, kd. }
  split; intros (ds & kd & H1 & H2 & H3 & H4 & H5 & H6).
  - rewrite (ks_directories _ _ _ _ _ _ Hk) in H1, H4. rewrite (ks_kernel _ _ _ _ _ _ Hk) in H4. rewrite (ks_tables _ _ _ _ _ _ Hk) in H6.
    rewrite lookup_insert_ne in H6 by (intros <-; by eapply Hne). by exists ds, kd.
  - exists ds, kd. rewrite (ks_directories _ _ _ _ _ _ Hk), (ks_kernel _ _ _ _ _ _ Hk), (ks_tables _ _ _ _ _ _ Hk).
    rewrite lookup_insert_ne by (intros <-; by eapply Hne). done.
Qed.

(** Every table of a directory is private or the kernel's. *)
Lemma private_or_kernel m d ds i x ps : vm_ok m -> directories m !! d = Some ds -> tables ds !! i = Some x -> x <> 0 ->
  page_tables m !! x = Some ps -> private m d i x ps \/
  exists kd, directories m !! kernel_directory m = Some kd /\ tables kd !! i = Some x.
Proof.
  intros Hvm Hds Hx Hx0 Hps. destruct (vm_kernel _ Hvm) as [kd Hkd].
  destruct (decide (tables kd !! i = Some x)) as [E|E]; [right; by exists kd|left; by exists ds, kd].
Qed.

Lemma kernel_set_ok m m' v t qs j p : vm_ok m -> kernel_slot m v t qs -> kernel_set m m' t qs j p ->
  (forall g, owns (<[j := p]> qs) g -> 0 <= g < nframes (bits m) /\ used (bits m') g = true /\ (owns qs g \/ used (bits m) g = false)) ->
  (forall x ps g, x <> t -> page_tables m !! x = Some ps -> (exists d ds i, directories m !! d = Some ds /\ tables ds !! i = Some x) -> x <> 0 ->
     owns ps g -> 0 <= g -> used (bits m) g = true -> used (bits m') g = true) ->
  vm_ok m'.
Proof.
  intros Hvm Hs Hk Hnew Hold.
  pose proof (fun d i x ps => kernel_set_private m m' v t qs j p d i x ps Hvm Hs Hk) as Hpriv.
  pose proof Hs as (kd0 & Hkd0 & Ht0 & H0 & Hqs).
  pose proof (ks_tables _ _ _ _ _ _ Hk) as HT. pose proof (ks_directories _ _ _ _ _ _ Hk) as HD.
  pose proof (ks_kernel _ _ _ _ _ _ Hk) as HK. pose proof (ks_nframes _ _ _ _ _ _ Hk) as HN.
  split.
  - exact (ks_wf _ _ _ _ _ _ Hk).
  - destruct (vm_live _ Hvm) as [Hl1 Hl2]. split; rewrite ?HD, (ks_kstate _ _ _ _ _ _ Hk); [|exact Hl2].
    intros x ps. rewrite HT. intros [[<- _]|[_ Hx]]%lookup_insert_Some; eauto.
  - rewrite HD. apply (vm_addr _ Hvm).
  - rewrite HD, HK. apply (vm_kernel _ Hvm).
  - rewrite HD, (ks_current _ _ _ _ _ _ Hk). apply (vm_current _ Hvm).
  - intros dir d. rewrite HD. intros Hd. destruct (vm_directories _ Hvm _ _ Hd) as [Hlt Hlp Hpr]. split; [done..|].
    intros i x Hx Hx0. destruct (Hpr i x Hx Hx0) as (ps & Hps & [Hlen Hown]). rewrite HT.
    destruct (decide (t = x)) as [->|Hne].
    + exists (<[j := p]> qs). rewrite lookup_insert_eq. split; [done|]. split; [rewrite length_insert; congruence|].
      intros g Hg. rewrite HN. destruct (Hnew g Hg) as (? & ? & _). by split.
    + exists ps. rewrite lookup_insert_ne by done. split; [done|]. split; [done|]. intros g Hg. rewrite HN.
      destruct (Hown g Hg) as [Hgn Hgu]. split; [done|]. apply (Hold x ps g); eauto. lia.
  - intros x ps d. rewrite HT, HD. intros [[<- _]|[_ Hx]]%lookup_insert_Some Hd; by eapply (vm_disjoint _ Hvm).
  - intros dir i dir' i' x ps ps'. rewrite !Hpriv. apply (vm_once _ Hvm).
  - intros dir i x ps kd i'. rewrite Hpriv, HD, HK. apply (vm_kernel_slot _ Hvm).
  - intros dir i x ps dir' i' x' ps' f. rewrite !Hpriv. apply (vm_frames _ Hvm).
  - intros dir i x ps a b q r. rewrite !Hpriv. apply (vm_entries _ Hvm).
  - intros dir i x ps kd i' t' rs f. rewrite Hpriv, HD, HK, HT. intros Hp Hkd Hi' Ht' Hrs Ho1 Ho2.
    apply lookup_insert_Some in Hrs as [[<- <-]|[_ Hrs]]; [|by eapply (vm_kernel_frames _ Hvm)].
    destruct (Hnew f Ho2) as (_ & _ & [Hq|Hu]); [by eapply (vm_kernel_frames _ Hvm dir i x ps kd i')|].
    assert (owned m dir f) as Ho by (by exists i, x, ps). apply (owned_used _ _ _ Hvm) in Ho as [_ Ho]. congruence.
Qed.

(** ** The window of the heap *)

(** The tables of the pages that begin in [lo, hi) exist, each in one slot of
    the kernel directory only, and no frame under the window is mapped twice
    by the kernel. *)
Record heap_window (lo hi : Z) m : Prop := {
  hw_vm : vm_ok m;
  hw_range : 0 <= lo /\ hi <= 2 ^ 32;
  hw_tables v : lo <= v * 0x1000 < hi -> exists t qs, kernel_slot m v t qs;
  hw_slots v v' t qs qs' : lo <= v * 0x1000 < hi -> 0 <= v' < 2 ^ 20 -> kernel_slot m v t qs -> kernel_slot m v' t qs' -> v / 1024 = v' / 1024;
  hw_once v v' p p' : lo <= v * 0x1000 < hi -> 0 <= v' < 2 ^ 20 ->
    pte m (kernel_directory m) v = Some p -> pte m (kernel_directory m) v' = Some p' -> frame p = frame p' -> v = v'
}.

Lemma kernel_pte m v t qs : kernel_slot m v t qs ->
  pte m (kernel_directory m) v = (q ← qs !! Z.to_nat (v mod 1024); if present q =? 0 then None else Some q).
Proof.
  intros (kd & Hkd & Ht & H0 & Hqs). unfold pte. rewrite Hkd. cbn [mbind option_bind]. rewrite Ht. cbn [mbind option_bind].
  rewrite (proj2 (Z.eqb_neq t 0)) by done. unfold table_entry. by rewrite Hqs.
Qed.

Lemma kernel_slot_length m v t qs : vm_ok m -> kernel_slot m v t qs -> List.length qs = 1024%nat /\
  forall g, owns qs g -> 0 <= g < nframes (bits m) /\ used (bits m) g = true.
Proof.
  intros Hvm (kd & Hkd & Ht & H0 & Hqs). destruct (dk_present _ _ (vm_directories _ Hvm _ _ Hkd) _ _ Ht H0) as (ps & Hps & [Hl Ho]).
  assert (ps = qs) as -> by congruence. done.
Qed.

Lemma slot_entry m v t qs : vm_ok m -> kernel_slot m v t qs -> exists q, qs !! Z.to_nat (v mod 1024) = Some q.
Proof.
  intros Hvm Hs. destruct (kernel_slot_length _ _ _ _ Hvm Hs) as [Hl _]. apply lookup_lt_is_Some_2. rewrite Hl.
  pose proof (Z.mod_pos_bound v 1024). lia.
Qed.

(** What a changed entry does to the address spaces: the page [v] of the
    kernel, and of whoever shares its table, and nothing else. *)
Lemma kernel_set_pte m m' v t qs p : vm_ok m -> kernel_slot m v t qs -> kernel_set m m' t qs (Z.to_nat (v mod 1024)) p ->
  pte m' (kernel_directory m) v = (if present p =? 0 then None else Some p).
Proof.
  intros Hvm Hs Hk. destruct (slot_entry _ _ _ _ Hvm Hs) as [q Hq]. destruct Hs as (kd & Hkd & Ht & H0 & Hqs).
  unfold pte. rewrite (ks_directories _ _ _ _ _ _ Hk), Hkd. cbn [mbind option_bind]. rewrite Ht. cbn [mbind option_bind].
  rewrite (proj2 (Z.eqb_neq t 0)) by done. unfold table_entry. rewrite (ks_tables _ _ _ _ _ _ Hk), lookup_insert_eq. cbn [mbind option_bind].
  rewrite list_lookup_insert_eq by (by eapply lookup_lt_Some). done.
Qed.

Lemma kernel_set_slot m m' t qs j p v' t' qs' : kernel_set m m' t qs j p -> page_tables m !! t = Some qs ->
  kernel_slot m' v' t' qs' -> exists rs, kernel_slot m v' t' rs.
Proof.
  intros Hk Hqs (kd & Hkd & Ht & H0 & Hqs'). rewrite (ks_directories _ _ _ _ _ _ Hk), (ks_kernel _ _ _ _ _ _ Hk) in Hkd.
  rewrite (ks_tables _ _ _ _ _ _ Hk) in Hqs'. apply lookup_insert_Some in Hqs' as [[<- _]|[_ Hx]]; [exists qs|exists qs']; by exists kd.
Qed.

Lemma kernel_slot_set m m' t qs j p v' t' qs' : kernel_set m m' t qs j p -> kernel_slot m v' t' qs' ->
  exists rs, kernel_slot m' v' t' rs.
Proof.
  intros Hk (kd & Hkd & Ht & H0 & Hqs'). unfold kernel_slot.
  rewrite (ks_directories _ _ _ _ _ _ Hk), (ks_kernel _ _ _ _ _ _ Hk), (ks_tables _ _ _ _ _ _ Hk).
  destruct (decide (t = t')) as [->|Hne]; [exists (<[j := p]> qs)|exists qs']; exists kd; split_and!; try done.
  - by rewrite lookup_insert_eq.
  - by rewrite lookup_insert_ne.
Qed.

(** Any other page of any directory. *)
Lemma kernel_set_pte_other lo hi m m' v t qs p d v' : heap_window lo hi m -> lo <= v * 0x1000 < hi -> kernel_slot m v t qs ->
  kernel_set m m' t qs (Z.to_nat (v mod 1024)) p -> 0 <= v' < 2 ^ 20 -> v' <> v -> pte m' d v' = pte m d v'.
Proof.
  intros [Hvm Hrange _ Hslots _] Hv Hs Hk Hv' Hne. unfold pte. rewrite (ks_directories _ _ _ _ _ _ Hk).
  destruct (directories m !! d) as [ds|] eqn:Hd; [|done]. cbn [mbind option_bind].
  destruct (tables ds !! Z.to_nat (v' / 1024)) as [t'|] eqn:Ht'; [|done]. cbn [mbind option_bind].
  destruct (Z.eqb_spec t' 0) as [|Ht0]; [done|]. unfold table_entry. rewrite (ks_tables _ _ _ _ _ _ Hk).
  destruct (decide (t = t')) as [<-|]; [|by rewrite lookup_insert_ne].
  pose proof Hs as (kd & Hkd & Ht & H0 & Hqs). rewrite lookup_insert_eq, Hqs. cbn [mbind option_bind].
  destruct (private_or_kernel m d ds _ t qs Hvm Hd Ht' H0 Hqs) as [Hp|(kd' & Hkd' & Hk')]; [destruct (kernel_not_private _ _ _ _ _ _ _ Hvm Hs Hp)|].
  assert (v / 1024 = v' / 1024) as Hq by (eapply Hslots; [exact Hv|exact Hv'|exact Hs|by exists kd']).
  rewrite list_lookup_insert_ne; [done|]. pose proof (Z.div_mod v 1024). pose proof (Z.div_mod v' 1024).
  pose proof (Z.mod_pos_bound v 1024). pose proof (Z.mod_pos_bound v' 1024). lia.
Qed.

(** ** Mapping and unmapping one page *)

(** The page [v] of the kernel is [p], mapped to a frame that was free. *)
Record page_backed m m' (v : Z) (p : page_t) : Prop := {
  bk_page : pte m' (kernel_directory m) v = Some p;
  bk_pages d v' : 0 <= v' < 2 ^ 20 -> v' <> v -> pte m' d v' = pte m d v';
  bk_frame : 0 <= frame p < nframes (bits m) /\ used (bits m) (frame p) = false;
  bk_bits : bitmap_set (bits m) (bits m') (frame p) true;
  bk_contents : contents_of m' = contents_of m
}.

(** The page [v], which was [p], is gone and its frame is free. *)
Record page_released m m' (v : Z) (p : page_t) : Prop := {
  rl_was : pte m (kernel_directory m) v = Some p;
  rl_page : pte m' (kernel_directory m) v = None;
  rl_pages d v' : 0 <= v' < 2 ^ 20 -> v' <> v -> pte m' d v' = pte m d v';
  rl_bits : bitmap_set (bits m) (bits m') (frame p) false;
  rl_contents : contents_of m' = contents_of m
}.

Record same_frame_of m m' : Prop := {
  sf_directories : directories m' = directories m;
  sf_kernel : kernel_directory m' = kernel_directory m;
  sf_current : current_directory m' = current_directory m;
  sf_kstate : kstate m' = kstate m;
  sf_nframes : nframes (bits m') = nframes (bits m)
}.

Lemma kernel_set_same m m' t qs j p : kernel_set m m' t qs j p -> same_frame_of m m'.
Proof. intros []. by split. Qed.

Lemma get_kernel_page a make m t qs : vm_ok m -> 0 <= a < 2 ^ 32 -> kernel_slot m (a / 0x1000) t qs ->
  get_page a make (kernel_directory m) m = Ok (Some (t, a / 0x1000 mod 1024), m).
Proof.
  intros Hvm Ha (kd & Hkd & Ht & H0 & Hqs). unfold get_page.
  rewrite (ASSERT_ok (negb _)) by (apply negb_true_iff, Z.eqb_neq; by eapply (vm_addr _ Hvm)). rsimpl.
  unfold read_directory. rewrite Hkd. rsimpl. unfold table_slot. rewrite Ht. rsimpl.
  by rewrite (proj2 (Z.eqb_neq t 0)).
Qed.

Lemma alter_present {A} (f : A -> A) (l : gmap Z A) i x : l !! i = Some x -> alter f i l = <[i := f x]> l.
Proof. intros Hx. apply map_eq. intros j. destruct (decide (i = j)) as [<-|]; [by rewrite lookup_alter_eq, lookup_insert_eq, Hx|by rewrite lookup_alter_ne, lookup_insert_ne]. Qed.

Lemma write_kernel_set m t qs j p b : page_tables m !! t = Some qs -> bitmap_wf b -> nframes b = nframes (bits m) ->
  kernel_set m (write_page t j p (with_bits m b)) t qs (Z.to_nat j) p.
Proof.
  intros Hqs Hwf Hn. split; try done. simpl. by apply alter_present.
Qed.

Lemma kernel_set_window lo hi m m' t qs j p : heap_window lo hi m -> page_tables m !! t = Some qs -> kernel_set m m' t qs j p -> vm_ok m' ->
  (forall v v' r r', lo <= v * 0x1000 < hi -> 0 <= v' < 2 ^ 20 ->
    pte m' (kernel_directory m) v = Some r -> pte m' (kernel_directory m) v' = Some r' -> frame r = frame r' -> v = v') ->
  heap_window lo hi m'.
Proof.
  intros [Hvm Hr Htab Hsl _] Hqs Hk Hvm' Honce. split; [done|done| | |].
  - intros v Hv. destruct (Htab v Hv) as (x & rs & Hx). destruct (kernel_slot_set _ _ _ _ _ _ _ _ _ Hk Hx). eauto.
  - intros v v' x rs rs' Hv Hv' H1 H2.
    destruct (kernel_set_slot _ _ _ _ _ _ _ _ _ Hk Hqs H1) as [us1 G1]. destruct (kernel_set_slot _ _ _ _ _ _ _ _ _ Hk Hqs H2) as [us2 G2].
    exact (Hsl v v' x us1 us2 Hv Hv' G1 G2).
  - rewrite (ks_kernel _ _ _ _ _ _ Hk). done.
Qed.

Lemma kernel_pte_slot m v p : vm_ok m -> pte m (kernel_directory m) v = Some p ->
  exists t qs, kernel_slot m v t qs /\ owns qs (frame p) /\ qs !! Z.to_nat (v mod 1024) = Some p /\ present p <> 0.
Proof.
  intros Hvm. unfold pte. destruct (directories m !! kernel_directory m) as [kd|] eqn:Hkd; [|done]. cbn [mbind option_bind].
  destruct (tables kd !! Z.to_nat (v / 1024)) as [t|] eqn:Ht; [|done]. cbn [mbind option_bind].
  destruct (Z.eqb_spec t 0) as [|H0]; [done|]. unfold table_entry. destruct (page_tables m !! t) as [qs|] eqn:Hqs; [|done]. cbn [mbind option_bind].
  destruct (qs !! Z.to_nat (v mod 1024)) as [q|] eqn:Hq; [|done]. cbn [mbind option_bind].
  destruct (Z.eqb_spec (present q) 0) as [|Hp]; [done|]. intros [= <-]. exists t, qs.
  split_and!; [by exists kd|by exists (Z.to_nat (v mod 1024)), q|done..].
Qed.

Lemma window_page lo hi a : 0 <= lo -> hi <= 2 ^ 32 -> lo <= a < hi -> a mod 0x1000 = 0 ->
  lo <= a / 0x1000 * 0x1000 < hi /\ 0 <= a / 0x1000 < 2 ^ 20 /\ 0 <= a < 2 ^ 32.
Proof. intros. Z.to_euclidean_division_equations. lia. Qed.

Lemma back_kernel_page_spec lo hi m a k w : heap_window lo hi m -> lo <= a < hi -> a mod 0x1000 = 0 ->
  (exists p, kernel_page m a = Some p /\ back_kernel_page a k w m = Ok m) \/
  kernel_page m a = None /\
  (back_kernel_page a k w m = Panic OUT_OF_MEMORY /\ (forall g, 0 <= g < nframes (bits m) -> used (bits m) g = true) \/
   exists m' p, back_kernel_page a k w m = Ok m' /\ page_backed m m' (a / 0x1000) p /\ same_frame_of m m' /\ heap_window lo hi m').
Proof.
  intros Hw Ha Hal. pose proof Hw as [Hvm [Hlo Hhi] Htab _ Honce]. destruct (window_page lo hi a Hlo Hhi Ha Hal) as (Hv & Hv20 & Ha32).
  set (v := a / 0x1000) in *. destruct (Htab v Hv) as (t & qs & Hs). pose proof Hs as (_ & _ & _ & _ & Hqs).
  destruct (slot_entry _ _ _ _ Hvm Hs) as [q Hq]. destruct (kernel_slot_length _ _ _ _ Hvm Hs) as [Hlen Hused].
  unfold back_kernel_page, kernel_page. fold v. rewrite (get_kernel_page a 1 m t qs Hvm Ha32 Hs). rsimpl. fold v.
  rewrite (read_page_ok _ _ _ qs q Hqs Hq). rsimpl. rewrite (kernel_pte _ _ _ _ Hs), Hq. cbn [mbind option_bind].
  destruct (Z.eqb_spec (present q) 0) as [E|E].
  - right. split; [done|]. destruct (alloc_frame_spec q k w (bits m) (vm_bits _ Hvm) E) as [[-> Hall]|(f & b & -> & Hf & Hfree & _ & Hwf & Hset)]; rsimpl.
    + left. by split.
    + right. match goal with |- context [write_page t _ ?r _] => set (p := r) end. eexists _, p. split; [done|].
      pose proof (write_kernel_set m t qs (v mod 1024) p b Hqs Hwf (proj1 Hset)) as Hk. set (m' := write_page _ _ _ _) in *.
      assert (present p <> 0) as Hpp by (simpl; lia).
      assert (vm_ok m') as Hvm'.
      { eapply (kernel_set_ok m m' v); [done..| |].
        - intros g (j & r & [(_ & <- & _)|[_ Hr]]%list_lookup_insert_Some & Hpr & <-).
          + change (frame p) with f. split_and!; [lia|lia| |by right]. change (bits m') with b. rewrite (proj2 Hset) by lia. by rewrite decide_True.
          + destruct (Hused (frame r)) as [Hr1 Hr2]; [by exists j, r|]. split_and!; [lia|lia| |left; by exists j, r].
            change (bits m') with b. rewrite (proj2 Hset) by lia. by case_decide.
        - intros x ps g _ _ _ _ _ Hg Hu. change (bits m') with b. rewrite (proj2 Hset) by lia. by case_decide. }
      assert (page_backed m m' v p) as Hbk.
      { split; [rewrite (kernel_set_pte m m' v t qs p Hvm Hs Hk); by destruct (Z.eqb_spec (present p) 0)|by intros; eapply kernel_set_pte_other|done|done|done]. }
      split; [done|]. split; [by eapply kernel_set_same|].
      eapply kernel_set_window; [done..|]. intros v1 v2 r1 r2 H1 H2. destruct (decide (v1 = v)) as [->|N1], (decide (v2 = v)) as [->|N2].
      * done.
      * rewrite (bk_page _ _ _ _ Hbk), (bk_pages _ _ _ _ Hbk) by done. intros [= <-] Hr2 Hfr.
        apply (pte_used _ _ _ _ Hvm) in Hr2 as [_ Hr2]. change (frame p) with f in Hfr. congruence.
      * assert (0 <= v1 < 2 ^ 20) by lia. rewrite (bk_page _ _ _ _ Hbk), (bk_pages _ _ _ _ Hbk) by done. intros Hr1 [= <-] Hfr.
        apply (pte_used _ _ _ _ Hvm) in Hr1 as [_ Hr1]. change (frame p) with f in Hfr. congruence.
      * assert (0 <= v1 < 2 ^ 20) by lia. rewrite !(bk_pages _ _ _ _ Hbk) by done. by apply Honce.
  - left. exists q. split; [done|]. unfold alloc_frame. rewrite (proj2 (Z.eqb_neq (present q) 0)) by done. cbn [negb]. rsimpl. f_equal.
    unfold write_page, with_tables, with_bits. simpl. rewrite (alter_present _ _ _ qs Hqs), list_insert_id, insert_id by done. by destruct m.
Qed.

(** A page outside the window never lies on a frame of the window. *)
Lemma window_frame_apart lo hi m v p d v' p' : heap_window lo hi m -> lo <= v * 0x1000 < hi -> 0 <= v' < 2 ^ 20 -> v' <> v ->
  pte m (kernel_directory m) v = Some p -> pte m d v' = Some p' -> frame p <> frame p'.
Proof.
  intros [Hvm _ _ _ Honce] Hv Hv' Hne Hp Hp' Hf.
  destruct (kernel_pte_slot _ _ _ Hvm Hp) as (t & qs & (kd & Hkd & Ht & H0 & Hqs) & Ho & _).
  pose proof Hp' as Hpd. unfold pte in Hpd. destruct (directories m !! d) as [ds|] eqn:Hd; [|done]. cbn [mbind option_bind] in Hpd.
  destruct (tables ds !! Z.to_nat (v' / 1024)) as [t'|] eqn:Ht'; [|done]. cbn [mbind option_bind] in Hpd.
  destruct (Z.eqb_spec t' 0) as [|H0']; [done|]. unfold table_entry in Hpd. destruct (page_tables m !! t') as [rs|] eqn:Hrs; [|done]. cbn [mbind option_bind] in Hpd.
  destruct (rs !! Z.to_nat (v' mod 1024)) as [r|] eqn:Hr; [|done]. cbn [mbind option_bind] in Hpd.
  destruct (Z.eqb_spec (present r) 0) as [|Hpr]; [done|]. injection Hpd as ->.
  destruct (private_or_kernel m d ds _ t' rs Hvm Hd Ht' H0' Hrs) as [Hpv|(kd' & Hkd' & Hk')].
  - eapply (vm_kernel_frames _ Hvm d _ t' rs kd _ t qs (frame p) Hpv Hkd Ht H0 Hqs); [|done].
    exists (Z.to_nat (v' mod 1024)), p'. done.
  - apply Hne. symmetry. eapply Honce; [done..|exact Hp| |done].
    rewrite (kernel_pte m v' t' rs) by (by exists kd'). rewrite Hr. cbn [mbind option_bind]. by rewrite (proj2 (Z.eqb_neq (present p') 0)).
Qed.

(** The entry of a window page is the only one of the kernel on its frame. *)
Lemma window_frame_entry lo hi m v q kd i x ps j r : heap_window lo hi m -> lo <= v * 0x1000 < hi -> 0 <= v < 2 ^ 20 ->
  pte m (kernel_directory m) v = Some q -> directories m !! kernel_directory m = Some kd -> tables kd !! i = Some x -> x <> 0 ->
  page_tables m !! x = Some ps -> ps !! j = Some r -> present r <> 0 -> frame r = frame q ->
  i = Z.to_nat (v / 1024) /\ j = Z.to_nat (v mod 1024).
Proof.
  intros [Hvm _ _ _ Honce] Hv Hv20 Hq Hkd Hi Hx0 Hx Hj Hr Hf.
  destruct (vm_directories _ Hvm _ _ Hkd) as [Hlk _ _]. pose proof (lookup_lt_Some _ _ _ Hi) as Hi1024. rewrite Hlk in Hi1024.
  assert (kernel_slot m (Z.of_nat i * 1024) x ps) as Hs' by (exists kd; by rewrite Z.div_mul, Nat2Z.id by lia).
  destruct (kernel_slot_length _ _ _ _ Hvm Hs') as [Hl' _]. pose proof (lookup_lt_Some _ _ _ Hj) as Hj1024. rewrite Hl' in Hj1024.
  set (v' := Z.of_nat i * 1024 + Z.of_nat j).
  assert (v' / 1024 = Z.of_nat i /\ v' mod 1024 = Z.of_nat j /\ 0 <= v' < 2 ^ 20) as (E1 & E2 & E3)
    by (unfold v'; Z.to_euclidean_division_equations; lia).
  assert (v = v') as Ev; [|by rewrite Ev, E1, E2, !Nat2Z.id].
  apply (Honce v v' q r); [done..| |done]. rewrite (kernel_pte m v' x ps) by (exists kd; by rewrite E1, Nat2Z.id).
  rewrite E2, Nat2Z.id, Hj. cbn [mbind option_bind]. by rewrite (proj2 (Z.eqb_neq (present r) 0)).
Qed.

Lemma release_kernel_page_spec lo hi m a : heap_window lo hi m -> lo <= a < hi -> a mod 0x1000 = 0 ->
  (kernel_page m a = None /\ release_kernel_page a m = Ok m) \/
  exists m' p, kernel_page m a = Some p /\ release_kernel_page a m = Ok m' /\ page_released m m' (a / 0x1000) p /\
    same_frame_of m m' /\ heap_window lo hi m'.
Proof.
  intros Hw Ha Hal. pose proof Hw as [Hvm [Hlo Hhi] Htab _ Honce]. destruct (window_page lo hi a Hlo Hhi Ha Hal) as (Hv & Hv20 & Ha32).
  set (v := a / 0x1000) in *. destruct (Htab v Hv) as (t & qs & Hs). pose proof Hs as (kd & Hkd & Ht & H0 & Hqs).
  destruct (slot_entry _ _ _ _ Hvm Hs) as [q Hq]. destruct (kernel_slot_length _ _ _ _ Hvm Hs) as [Hlen Hused].
  pose proof (kernel_pte _ _ _ _ Hs) as Hpte. rewrite Hq in Hpte. cbn [mbind option_bind] in Hpte.
  unfold release_kernel_page, kernel_page. fold v. rewrite (get_kernel_page a 0 m t qs Hvm Ha32 Hs). rsimpl. fold v.
  rewrite (read_page_ok _ _ _ qs q Hqs Hq). rsimpl. rewrite Hpte.
  destruct (Z.eqb_spec (present q) 0) as [E|E].
  - left. split; [done|]. unfold free_frame. rewrite E. cbn [Z.eqb]. rsimpl. f_equal.
    unfold write_page, with_tables, with_bits. simpl. rewrite (alter_present _ _ _ qs Hqs), list_insert_id, insert_id by done. by destruct m.
  - right. assert (owns qs (frame q)) as Hown by (by exists (Z.to_nat (v mod 1024)), q). destruct (Hused _ Hown) as [Hfr Hfu].
    destruct (free_frame_spec q (bits m) (vm_bits _ Hvm) E Hfr) as (b & -> & Hwf & Hset). rsimpl. set (p := mk_page 0 1 0 0 0 (unused q) 0).
    eexists _, q. split; [done|]. split; [done|]. pose proof (write_kernel_set m t qs (v mod 1024) p b Hqs Hwf (proj1 Hset)) as Hk.
    set (m' := write_page _ _ _ _) in *.
    assert (forall g, 0 <= g -> g <> frame q -> used (bits m) g = true -> used (bits m') g = true) as Hkeep.
    { intros g Hg Hne Hu. change (bits m') with b. rewrite (proj2 Hset) by lia. by rewrite decide_False. }
    assert (vm_ok m') as Hvm'.
    { eapply (kernel_set_ok m m' v); [done..| |].
      - intros g (j & r & Hj & Hpr & <-). apply list_lookup_insert_Some in Hj as [(_ & <- & _)|[Hj Hr]]; [done|].
        destruct (Hused (frame r)) as [Hr1 Hr2]; [by exists j, r|]. split_and!; [lia|lia| |left; by exists j, r].
        apply Hkeep; [lia| |done]. intros Hfe. apply Hj. symmetry.
        by apply (window_frame_entry lo hi m v q kd _ t qs j r Hw Hv Hv20 Hpte Hkd Ht H0 Hqs Hr Hpr).
      - intros x ps g Hne Hx (d & ds & i & Hds & Hi) Hx0 (j & r & Hj & Hpr & <-) Hg Hu. apply Hkeep; [done| |done]. intros Hfe.
        destruct (private_or_kernel m d ds i x ps Hvm Hds Hi Hx0 Hx) as [Hp|(kd' & Hkd' & Hki)].
        + eapply (vm_kernel_frames _ Hvm d i x ps kd _ t qs (frame q) Hp Hkd Ht H0 Hqs); [|done]. by exists j, r.
        + assert (kd' = kd) as -> by congruence.
          destruct (window_frame_entry lo hi m v q kd i x ps j r Hw Hv Hv20 Hpte Hkd Hki Hx0 Hx Hj Hpr Hfe) as [-> _]. congruence. }
    assert (page_released m m' v q) as Hrl.
    { split; [done|by rewrite (kernel_set_pte m m' v t qs p Hvm Hs Hk)|by intros; eapply kernel_set_pte_other|done|done]. }
    split; [done|]. split; [by eapply kernel_set_same|].
    eapply kernel_set_window; [done..|]. intros v1 v2 r1 r2 H1 H2. destruct (decide (v1 = v)) as [->|N1]; [by rewrite (rl_page _ _ _ _ Hrl)|].
    destruct (decide (v2 = v)) as [->|N2]; [by rewrite (rl_page _ _ _ _ Hrl)|].
    assert (0 <= v1 < 2 ^ 20) by lia. rewrite !(rl_pages _ _ _ _ Hrl) by done. by apply Honce.
Qed.
End entries.

(** Outside the window: a table that [get_page] makes for the heap is entered
    in the kernel directory only, so no other directory sees the new page -
    not even the current one, which the kernel runs on. *)
Lemma new_heap_table_unshared {C K} `{!Kmalloc K} (m m' : mm C K) a k w d ds :
  directories m !! d = Some ds -> d <> kernel_directory m -> tables ds !! Z.to_nat (a / 0x1000 / 1024) = Some 0 ->
  back_kernel_page a k w m = Ok m' -> pte m' d (a / 0x1000) = None.
Proof.
  intros Hd Hne Hz. unfold back_kernel_page. intros ([page m1] & Hg & H)%bind_Ok_inv.
  assert (directories m1 !! d = Some ds) as Hd1.
  { unfold get_page in Hg. apply bind_Ok_inv in Hg as (u & _ & Hg). apply bind_Ok_inv in Hg as (kd & _ & Hg). apply bind_Ok_inv in Hg as (t & _ & Hg).
    destruct (negb (t =? 0)); [by injection Hg as _ <-|]. destruct (negb (1 =? 0)); [|by injection Hg as _ <-].
    apply bind_Ok_inv in Hg as ([[t' ph] m2] & Hn & [= _ <-]). unfold new_page_table in Hn. apply bind_Ok_inv in Hn as ([[x y] z] & _ & [= _ _ <-]).
    simpl. by rewrite lookup_alter_ne. }
  destruct page as [[t j]|]; [|done]. apply bind_Ok_inv in H as (p & _ & H). apply bind_Ok_inv in H as ([q b] & _ & [= <-]).
  unfold pte. change (directories (write_page t j q (with_bits m1 b))) with (directories m1). rewrite Hd1. cbn [mbind option_bind]. rewrite Hz. done.
Qed.

(** ** The page tables implement [PageBacking] *)

(** [n] frames can still be handed out. *)
Definition frames_left {C K} (n : Z) (m : mm C K) : Prop :=
  exists l, NoDup l /\ (forall f, f ∈ l -> 0 <= f < nframes (bits m) /\ used (bits m) f = false) /\ n <= Z.of_nat (List.length l).

Lemma frames_left_weaken {C K} n n' (m : mm C K) : frames_left n m -> n' <= n -> frames_left n' m.
Proof. intros (l & Hl & Hf & Hn) Hle. exists l. split_and!; [done..|lia]. Qed.

Lemma frames_left_backed {C K} n (m m' : mm C K) f : frames_left n m -> bitmap_set (bits m) (bits m') f true -> frames_left (n - 1) m'.
Proof.
  intros (l & Hl & Hf & Hn) [Hnf Hset]. destruct (decide (f ∈ l)) as [Hin|Hin].
  - apply list_elem_of_split in Hin as (l1 & l2 & ->). exists (l1 ++ l2).
    assert ((f ∉ l1 ++ l2) /\ NoDup (l1 ++ l2)) as [Hnot Hl'].
    { rewrite <- Permutation_middle in Hl. by apply NoDup_cons in Hl. }
    split_and!; [done| |rewrite !length_app in *; simpl in Hn; lia].
    intros g Hg. destruct (Hf g) as [Hg1 Hg2]; [set_solver|]. rewrite Hnf, Hset by lia. split; [done|]. rewrite decide_False by congruence. done.
  - exists l. split_and!; [done| |lia]. intros g Hg. destruct (Hf g Hg) as [Hg1 Hg2]. rewrite Hnf, Hset by lia. split; [done|].
    rewrite decide_False by congruence. done.
Qed.

Lemma frames_left_released {C K} n (m m' : mm C K) f : frames_left n m -> bitmap_set (bits m) (bits m') f false -> frames_left n m'.
Proof.
  intros (l & Hl & Hf & Hn) [Hnf Hset]. exists l. split_and!; [done| |done]. intros g Hg. destruct (Hf g Hg) as [Hg1 Hg2].
  rewrite Hnf, Hset by lia. split; [done|]. by case_decide.
Qed.

Section laws.
Context {K : Type} `{!Kmalloc K} `{!KmallocLaws K}.
Variables LO HI : Z.
Variable m0 : mm (Z -> Z) K.
Implicit Types m : mm (Z -> Z) K.

(** All that the heap may have changed of [m0]: the kernel pages of the
    window, and the frames behind them. *)
Record beside m : Prop := {
  bs_same : same_frame_of m0 m;
  bs_pages d v : 0 <= v < 2 ^ 20 -> ~ (LO <= v * 0x1000 < HI) -> pte m d v = pte m0 d v;
  bs_bytes d v p : 0 <= v < 2 ^ 20 -> ~ (LO <= v * 0x1000 < HI) -> pte m0 d v = Some p ->
    contents_of m (base (frame p)) = contents_of m0 (base (frame p))
}.

Lemma beside_refl : beside m0.
Proof. by split. Qed.

Lemma same_frame_of_trans m1 m2 m3 : same_frame_of m1 m2 -> same_frame_of m2 m3 -> same_frame_of m1 m3.
Proof. intros [] []. split; congruence. Qed.

Lemma beside_backed m m' v p : beside m -> LO <= v * 0x1000 < HI -> page_backed m m' v p -> same_frame_of m m' -> beside m'.
Proof.
  intros [Hs Hp Hb] Hv Hbk Hsf. split; [by eapply same_frame_of_trans| |].
  - intros d v' Hv' Hn. rewrite (bk_pages _ _ _ _ Hbk) by (done || congruence). by apply Hp.
  - intros d v' q Hv' Hn Hq. rewrite (bk_contents _ _ _ _ Hbk). by eapply Hb.
Qed.

Lemma beside_released m m' v p h : beside m -> heap_window LO HI m -> LO <= v * 0x1000 < HI ->
  page_released (save_page (v * 0x1000) (base (frame p)) h m) m' v p -> same_frame_of m m' -> beside m'.
Proof.
  intros [Hs Hp Hb] Hw Hv Hrl Hsf. split; [by eapply same_frame_of_trans| |].
  - intros d v' Hv' Hn. rewrite (rl_pages _ _ _ _ Hrl) by (done || congruence). by apply Hp.
  - intros d v' q Hv' Hn Hq. rewrite (rl_contents _ _ _ _ Hrl). simpl. destruct (Z.eqb_spec (base (frame q)) (base (frame p))) as [E|]; [|by eapply Hb].
    exfalso. pose proof (hw_vm _ _ _ Hw) as Hvm. pose proof (rl_was _ _ _ _ Hrl) as Hp0. change (pte m (kernel_directory m) v = Some p) in Hp0.
    rewrite <- Hp in Hq by done. destruct (pte_used _ _ _ _ Hvm Hp0) as [Hf1 _].
    eapply (window_frame_apart LO HI m v p d v' q); [done..|congruence|exact Hp0|exact Hq|].
    pose proof (bw_nframes _ (vm_bits _ Hvm)). assert (0 <= frame q < nframes (bits m)); [|symmetry; apply base_inj; [lia|lia|done]].
    by eapply pte_used.
Qed.

Record window_ready m (lo hi n : Z) : Prop := {
  wr_window : heap_window LO HI m;
  wr_low : LO <= lo;
  wr_high : hi <= HI;
  wr_frames : frames_left n m;
  wr_beside : beside m
}.

(** Saving the bytes of a page moves no entry. *)
Lemma save_page_window a f h m : heap_window LO HI m -> heap_window LO HI (save_page a f h m).
Proof.
  intros [Hvm Hr Ht Hs Ho]. split; [|exact Hr|exact Ht|exact Hs|exact Ho]. destruct Hvm as [? [? ?] ? ? ? Hdir ? ? ? ? ? ?].
  split; try done. intros x y Hy. destruct (Hdir x y Hy). by split.
Qed.

Lemma window_map_ok (s : hstate (mm (Z -> Z) K)) a k w lo hi n : window_ready (hpages s) lo hi n -> 0 < n -> lo <= a < hi -> a mod 0x1000 = 0 ->
  exists h' p', pb_map a k w s = Ok (mk_hstate h' (hheap s) p') /\ agree_outside a (a + 0x1000) (hmem s) h' /\ window_ready p' lo hi (n - 1).
Proof.
  intros [Hw Hlo Hhi Hfr Hbe] Hn Ha Hal. cbn [pb_map table_backing].
  destruct (window_page LO HI a (proj1 (hw_range _ _ _ Hw)) (proj2 (hw_range _ _ _ Hw))) as (Hv & _); [lia|done|].
  destruct (back_kernel_page_spec LO HI (hpages s) a k w Hw) as [(p & Hp & ->)|[Hnone [[-> Hall]|(m' & p & -> & Hbk & Hsf & Hw')]]]; [lia|done|..].
  - rsimpl. rewrite Hp. eexists _, _. split; [done|]. split; [apply agree_outside_refl|]. split; try done. apply (frames_left_weaken n); [done|lia].
  - exfalso. destruct Hfr as (l & _ & Hl & Hln). destruct l as [|f l]; [simpl in Hln; lia|]. destruct (Hl f) as [H1 H2]; [by left|]. rewrite Hall in H2; done.
  - rsimpl. rewrite Hnone. unfold kernel_page at 1. rewrite (sf_kernel _ _ Hsf), (bk_page _ _ _ _ Hbk). eexists _, _. split; [done|]. split.
    + intros x Hx. unfold show_page. destruct (Z.leb_spec a x), (Z.ltb_spec x (a + 0x1000)); simpl; try done. lia.
    + split; [done..| |by eapply beside_backed]. by eapply frames_left_backed, bk_bits.
Qed.

Lemma window_unmap_ok (s : hstate (mm (Z -> Z) K)) a lo hi n : window_ready (hpages s) lo hi n -> lo <= a < hi -> a mod 0x1000 = 0 ->
  exists p', pb_unmap a s = Ok (mk_hstate (hmem s) (hheap s) p') /\ window_ready p' lo hi n.
Proof.
  intros [Hw Hlo Hhi Hfr Hbe] Ha Hal. cbn [pb_unmap table_backing]. pose proof (Z.div_mod a 0x1000) as Hdm.
  destruct (window_page LO HI a (proj1 (hw_range _ _ _ Hw)) (proj2 (hw_range _ _ _ Hw))) as (Hv & _); [lia|done|].
  destruct (kernel_page (hpages s) a) as [p|] eqn:Hp.
  - destruct (release_kernel_page_spec LO HI (save_page a (base (frame p)) (hmem s) (hpages s)) a) as [(Hnone & _)|(m' & q & Hq & -> & Hrl & Hsf & Hw')];
      [by apply save_page_window|lia|done|change (kernel_page (hpages s) a = None) in Hnone; congruence|].
    change (kernel_page (hpages s) a = Some q) in Hq. assert (q = p) as -> by congruence. rsimpl. eexists. split; [done|].
    split; [done..| |].
    + eapply frames_left_released; [|exact (rl_bits _ _ _ _ Hrl)]. done.
    + apply (beside_released (hpages s) m' (a / 0x1000) p (hmem s)); [done|done|done| |by destruct Hsf; split]. by replace (a / 0x1000 * 0x1000) with a by lia.
  - destruct (release_kernel_page_spec LO HI (hpages s) a Hw) as [(_ & ->)|(m' & q & Hq & _)]; [lia|done| |congruence].
    rsimpl. eexists. split; [done|]. by split.
Qed.

#[export] Instance table_backing_laws : PageBackingLaws (mm (Z -> Z) K) := {|
  pb_ready := window_ready;
  pb_map_ok := window_map_ok;
  pb_unmap_ok := window_unmap_ok
|}.

(** How many frames are free; so the heap of kheap.c over these tables keeps
    the laws of [kmalloc] ([Kmalloc.kept_heap_laws]). *)
Definition unused_frames m : list Z := filter (fun f => used (bits m) f = false) (seqZ 0 (nframes (bits m))).

Lemma unused_frames_left m : frames_left (Z.of_nat (List.length (unused_frames m))) m.
Proof.
  exists (unused_frames m). split_and!; [apply NoDup_filter, NoDup_seqZ| |lia].
  intros f [Hu Hf]%list_elem_of_filter. rewrite elem_of_seqZ in Hf. split; [lia|done].
Qed.

#[export] Program Instance table_room : HeapRoom (mm (Z -> Z) K) := {|
  has_room room s := (end_address (hheap s) + room <=? max_address (hheap s)) && (end_address (hheap s) + room <=? HI) &&
    (room <=? Z.of_nat (List.length (unused_frames (hpages s))) * 0x1000)
|}.
Next Obligation.
  intros room s (Hal & Hmin & _ & lo & hi & n & [Hw Hl Hh _ Hb] & Hlo & _) H.
  rewrite !andb_true_iff, !Z.leb_le in H. destruct H as [[H1 H2] H3].
  split; [done|]. split; [done|]. split; [done|]. exists lo, HI, (Z.of_nat (List.length (unused_frames (hpages s)))).
  split; [|by split_and!]. split; [exact Hw|done..|apply unused_frames_left|exact Hb].
Qed.
End laws.

(** ** Every page of the arena is mapped *)

Section arena.
Context {K : Type} `{!Kmalloc K} `{!KmallocLaws K}.
Variables LO HI : Z.
Implicit Types s : hstate (mm (Z -> Z) K).

Record arena s : Prop := {
  ar_bounds : 0 <= start_address (hheap s) <= end_address (hheap s) /\ end_address (hheap s) <= max_address (hheap s) < 2 ^ 32;
  ar_start : start_address (hheap s) mod 0x1000 = 0;
  ar_end : end_address (hheap s) mod 0x1000 = 0;
  ar_low : LO <= start_address (hheap s);
  ar_high : end_address (hheap s) <= HI;
  ar_window : heap_window LO HI (hpages s);
  ar_mapped a : start_address (hheap s) <= a < end_address (hheap s) -> a mod 0x1000 = 0 -> is_Some (kernel_page (hpages s) a)
}.

(** Only the index, the bytes and the pages may differ. *)
Record same_arena s s' : Prop := {
  sa_start : start_address (hheap s') = start_address (hheap s);
  sa_end : end_address (hheap s') = end_address (hheap s);
  sa_max : max_address (hheap s') = max_address (hheap s);
  sa_pages : hpages s' = hpages s
}.

Lemma arena_same s s' : same_arena s s' -> arena s -> arena s'.
Proof. intros [H1 H2 H3 H4] [? ? ? ? ? ? ?]. by split; rewrite ?H1, ?H2, ?H3, ?H4. Qed.

Lemma allocate_at_same size new_size page_align it s p s' : allocate_at size new_size page_align it s = Ok (p, s') -> same_arena s s'.
Proof.
  unfold allocate_at. intros (x & _ & H)%bind_Ok_inv. apply bind_Ok_inv in H as (i & _ & H). apply bind_Ok_inv in H as ([[[m i2] pos] hs] & _ & H).
  cbv beta iota in H. destruct (if _ <? _ then _ else _) as [sz ns] in H. apply bind_Ok_inv in H as ([m3 i3] & _ & H).
  apply bind_Ok_inv in H as (u & _ & H). injection H as _ <-. by split.
Qed.

Lemma expanded_tail_same old_length old_end new_length s s' : add_expanded_tail old_length old_end new_length s = Ok s' -> same_arena s s'.
Proof.
  unfold add_expanded_tail. intros ([idx v] & _ & H)%bind_Ok_inv. apply bind_Ok_inv in H as (e & _ & H).
  destruct (_ || _) in H; [apply bind_Ok_inv in H as (i & _ & H)|apply bind_Ok_inv in H as (i & _ & H); apply bind_Ok_inv in H as (i' & _ & H)];
    injection H as <-; by split.
Qed.

Lemma pb_map_heap a k w s s' : pb_map a k w s = Ok s' -> hheap s' = hheap s.
Proof. cbn [pb_map table_backing]. intros (m & _ & H)%bind_Ok_inv. by injection H as <-. Qed.

(** One more page at the end of what is mapped. *)
Lemma map_next_page a k w s s' : heap_window LO HI (hpages s) -> LO <= a < HI -> a mod 0x1000 = 0 -> pb_map a k w s = Ok s' ->
  heap_window LO HI (hpages s') /\ is_Some (kernel_page (hpages s') a) /\
  forall b, 0 <= b < 2 ^ 32 -> is_Some (kernel_page (hpages s) b) -> is_Some (kernel_page (hpages s') b).
Proof.
  intros Hw Ha Hal. cbn [pb_map table_backing].
  destruct (back_kernel_page_spec LO HI (hpages s) a k w Hw Ha Hal) as [(p & Hp & ->)|[Hnone [[-> _]|(m' & p & -> & Hbk & Hsf & Hw')]]]; rsimpl; [|done|]; intros [= <-]; cbn [hpages].
  - split; [done|]. split; [by exists p|done].
  - split; [done|]. assert (is_Some (kernel_page m' a)) as Hm by (exists p; unfold kernel_page; rewrite (sf_kernel _ _ Hsf); apply (bk_page _ _ _ _ Hbk)).
    split; [done|]. intros b Hb Hs. destruct (decide (b / 0x1000 = a / 0x1000)) as [E|E]; [unfold kernel_page in *; by rewrite E|].
    unfold kernel_page in *. rewrite (sf_kernel _ _ Hsf), (bk_pages _ _ _ _ Hbk); [done| |done]. Z.to_euclidean_division_equations; lia.
Qed.

Lemma rounded_size n n2 : 0 <= n < 2 ^ 32 ->
  (if negb (Z.land n 0xFFF =? 0) then ASSERT (n <=? 0xFFFFF000);; Ok (u32 (Z.land n 0xFFFFF000 + 0x1000)) else Ok n) = Ok n2 ->
  n <= n2 < 2 ^ 32 /\ n2 mod 0x1000 = 0.
Proof.
  intros Hn H. pose proof (round_idiom n Hn) as Hi. destruct (round_up_page_spec n) as [Hm Hb].
  destruct (negb _) eqn:E; [|injection H as <-; split; [lia|congruence]].
  apply bind_Ok_inv in H as (u & Hle%ASSERT_inv & [= <-]). apply Z.leb_le in Hle.
  rewrite land_page_offset in E. rewrite land_page_base in Hi |- * by done.
  assert (n mod 0x1000 <> 0) by (intros E0; by rewrite E0 in E).
  rewrite u32_small by (Z.to_euclidean_division_equations; lia). split; [|congruence]. Z.to_euclidean_division_equations; lia.
Qed.

(** The loop of [expand]. *)
Definition map_up_to (h : heap_t) (n2 : Z) : Z * hstate (mm (Z -> Z) K) -> res (ctl (Z * hstate (mm (Z -> Z) K)) (hstate (mm (Z -> Z) K))) :=
  fun '(i, s) =>
    if i <? n2 then
      let h := hheap s in
      s ← pb_map (u32 (start_address h + i)) (if supervisor h =? 0 then 0 else 1) (if readonly h =? 0 then 1 else 0) s;
      Ok (Continue (u32 (i + 0x1000), s))
    else Ok (Break s).

Definition bounded (h : heap_t) : Prop :=
  0 <= start_address h <= end_address h /\ end_address h <= max_address h < 2 ^ 32.

Lemma expand_shape n s s' : let h := hheap s in bounded h -> 0 <= n < 2 ^ 32 -> expand n s = Ok s' ->
  exists n2 s2, end_address h - start_address h < n <= n2 /\ start_address h + n2 <= max_address h /\ n2 mod 0x1000 = 0 /\
    while (map_up_to h n2) (end_address h - start_address h, s) = Ok s2 /\ hheap s2 = h /\
    s' = with_heap s2 (hmem s2) (set_end_address h (start_address h + n2)).
Proof.
  intros h Hb Hn32. unfold bounded in Hb. unfold expand. fold h. rewrite (u32_small (end_address h - start_address h)) by lia.
  intros (u & Hgt%ASSERT_inv & H)%bind_Ok_inv. apply bind_Ok_inv in H as (n2 & Hn2%rounded_size & H); [|done].
  apply bind_Ok_inv in H as (u2 & Hle%ASSERT_inv & H).
  apply Z.ltb_lt in Hgt. apply Z.leb_le in Hle. rewrite (u32_small (max_address h - start_address h)) in Hle by lia.
  apply bind_Ok_inv in H as (s2 & Hloop & H). injection H as <-.
  assert (hheap s2 = h) as Hh2.
  { revert Hloop. apply (while_preserves (fun st => hheap (snd st) = h) (fun r => hheap r = h)); [..|done].
    - intros [i t] [i' t'] Ht. cbn [snd] in *. destruct (i <? n2); [|done]. intros (t2 & Hp & [= <- <-])%bind_Ok_inv. cbn [snd].
      by rewrite (pb_map_heap _ _ _ _ _ Hp).
    - intros [i t] r Ht. cbn [snd] in *. destruct (i <? n2); [|by intros [= <-]]. by intros (t2 & _ & [=])%bind_Ok_inv. }
  exists n2, s2. rewrite Hh2, (u32_small (start_address h + n2)) by lia. split_and!; [lia|lia|lia|apply Hn2|exact Hloop|done|done].
Qed.

Lemma expand_arena n s s' : arena s -> 0 <= n < 2 ^ 32 -> expand n s = Ok s' -> end_address (hheap s') <= HI -> arena s'.
Proof.
  intros [Hb Hsa Hea Hlo _ Hw Hmap] Hn32 Hx. destruct (expand_shape n s s' Hb Hn32 Hx) as (n2 & s2 & Hn & Hle & Hn2 & Hloop & Hh2 & ->). clear Hx.
  set (h := hheap s) in *. cbn [hheap with_heap set_end_address end_address]. intros Hhi.
  pose (I := fun st : Z * hstate (mm (Z -> Z) K) => let '(i, t) := st in
    end_address h - start_address h <= i <= n2 /\ i mod 0x1000 = 0 /\ hheap t = h /\ heap_window LO HI (hpages t) /\
    forall a, start_address h <= a < start_address h + i -> a mod 0x1000 = 0 -> is_Some (kernel_page (hpages t) a)).
  assert (I (n2, s2)) as (_ & _ & _ & Hw2 & Hmap2).
  { revert Hloop. apply (while_preserves I (fun r => I (n2, r))); unfold map_up_to.
    - intros [i t] [i' t'] (Hi & Him & Ht & Hwt & Hmt). destruct (Z.ltb_spec i n2) as [Hin|]; [|done].
      intros (t2 & Hp & [= <- <-])%bind_Ok_inv. rewrite Ht in Hp.
      assert (i + 0x1000 <= n2) by (Z.to_euclidean_division_equations; lia).
      rewrite (u32_small (start_address h + i)) in Hp by lia. rewrite (u32_small (i + 0x1000)) by lia.
      destruct (map_next_page (start_address h + i) _ _ _ _ Hwt ltac:(lia) ltac:(by apply mod_page_add) Hp) as (Hw' & Hnew & Hkeep).
      split; [lia|]. split; [by apply mod_page_add|]. split; [by rewrite (pb_map_heap _ _ _ _ _ Hp)|]. split; [done|].
      intros a Ha Haa. destruct (decide (a = start_address h + i)) as [->|]; [done|]. apply Hkeep; [lia|]. apply Hmt; [|done].
      Z.to_euclidean_division_equations; lia.
    - intros [i t] r (Hi & Him & Ht & Hwt & Hmt). destruct (Z.ltb_spec i n2); [by intros (? & _ & [=])%bind_Ok_inv|]. intros [= <-].
      assert (i = n2) as -> by lia. exact (conj Hi (conj Him (conj Ht (conj Hwt Hmt)))).
    - unfold I. split_and!; [lia|lia|by apply mod_page_sub|done|done|]. intros a Ha. apply Hmap. lia. }
  split; cbn [hheap with_heap set_end_address end_address start_address max_address hpages]; [lia|done|by apply mod_page_add|done|done|done|].
  intros a Ha. apply Hmap2. lia.
Qed.

(** Growing moves the end up, within bounds. *)
Lemma grow_shape n s s' : bounded (hheap s) -> 0 <= n -> grow n s = Ok s' ->
  exists k s1, 0 <= k < 2 ^ 32 /\ expand k s = Ok s1 /\ same_arena s1 s' /\ bounded (hheap s') /\
    end_address (hheap s) <= end_address (hheap s').
Proof.
  intros Hb Hn. unfold grow. intros (u & _ & H)%bind_Ok_inv. apply bind_Ok_inv in H as (s1 & Hx & H%expanded_tail_same).
  exists (u32 (u32 (end_address (hheap s) - start_address (hheap s)) + n)), s1.
  pose proof (u32_range (u32 (end_address (hheap s) - start_address (hheap s)) + n)) as Hr.
  destruct (expand_shape _ _ _ Hb Hr Hx) as (n2 & s2 & Hn2 & Hle & _ & _ & Hh2 & ->). split; [lia|]. split; [done|]. split; [done|].
  destruct H as [E1 E2 E3 _]. unfold bounded in *. cbn [hheap with_heap set_end_address end_address start_address max_address] in *. lia.
Qed.

Lemma alloc_end fuel size al s p s' : bounded (hheap s) -> alloc fuel size al s = Ok (p, s') -> end_address (hheap s) <= end_address (hheap s').
Proof.
  revert s. induction fuel as [|fuel IH]; intros s Hb; [done|]. cbn [alloc]. intros (u & _ & H)%bind_Ok_inv. apply bind_Ok_inv in H as (u1 & _ & H).
  apply bind_Ok_inv in H as (u2 & _ & H). apply bind_Ok_inv in H as (it & _ & H). destruct (it =? -1).
  - apply bind_Ok_inv in H as (s1 & Hg & H). destruct (grow_shape _ _ _ Hb (proj1 (u32_range _)) Hg) as (k & s2 & _ & _ & _ & Hb1 & Hle).
    pose proof (IH s1 Hb1 H). lia.
  - apply allocate_at_same in H as [_ E _ _]. lia.
Qed.

(** [alloc] keeps every page of the arena mapped. *)
Lemma alloc_arena fuel size al s p s' : arena s -> alloc fuel size al s = Ok (p, s') -> end_address (hheap s') <= HI -> arena s'.
Proof.
  revert s. induction fuel as [|fuel IH]; intros s Ha; [done|]. cbn [alloc]. intros (u & _ & H)%bind_Ok_inv. apply bind_Ok_inv in H as (u1 & _ & H).
  apply bind_Ok_inv in H as (u2 & _ & H). apply bind_Ok_inv in H as (it & _ & H). intros Hend. destruct (it =? -1).
  - apply bind_Ok_inv in H as (s1 & Hg & H). destruct (grow_shape _ _ _ (ar_bounds _ Ha) (proj1 (u32_range _)) Hg) as (k & s2 & Hk & Hx & Hsame & Hb1 & Hle).
    pose proof (alloc_end _ _ _ _ _ _ Hb1 H). apply (IH s1); [|done..]. apply (arena_same s2); [done|].
    apply (expand_arena k s); [done..|]. destruct Hsame as [_ E _ _]. lia.
  - by apply (arena_same s); [by eapply allocate_at_same|].
Qed.

(** ** Giving pages back *)

Lemma pb_unmap_heap a s s' : pb_unmap a s = Ok s' -> hheap s' = hheap s.
Proof. cbn [pb_unmap table_backing]. intros (m & _ & H)%bind_Ok_inv. by injection H as <-. Qed.

Lemma unmap_page a s s' : heap_window LO HI (hpages s) -> LO <= a < HI -> a mod 0x1000 = 0 -> pb_unmap a s = Ok s' ->
  heap_window LO HI (hpages s') /\
  forall b, 0 <= b < 2 ^ 32 -> b / 0x1000 <> a / 0x1000 -> is_Some (kernel_page (hpages s) b) -> is_Some (kernel_page (hpages s') b).
Proof.
  intros Hw Ha Hal H. cbn [pb_unmap table_backing] in H. apply bind_Ok_inv in H as (m & Hm & H). injection H as <-. cbn [hpages].
  set (u := match kernel_page (hpages s) a with Some p => _ | None => _ end) in Hm.
  assert (heap_window LO HI u /\ forall b, kernel_page u b = kernel_page (hpages s) b) as [Hwu Hu].
  { unfold u. destruct (kernel_page (hpages s) a); [by split; [apply save_page_window|]|done]. }
  destruct (release_kernel_page_spec LO HI u a Hwu Ha Hal) as [(_ & E)|(m' & q & _ & E & Hrl & Hsf & Hw')]; rewrite E in Hm; injection Hm as <-.
  - split; [done|]. intros b _ _. by rewrite Hu.
  - split; [done|]. intros b Hb Hne. rewrite <- Hu. unfold kernel_page. rewrite (sf_kernel _ _ Hsf), (rl_pages _ _ _ _ Hrl); [done| |done].
    Z.to_euclidean_division_equations; lia.
Qed.

Lemma contract_arena n s k s' : arena s -> 0 <= n -> contract n s = Ok (k, s') -> HEAP_MIN_SIZE <= end_address (hheap s) - start_address (hheap s) -> arena s'.
Proof.
  intros [Hb Hsa Hea Hlo Hhi Hw Hmap] Hn0. unfold contract. set (h := hheap s) in *. rewrite (u32_small (end_address h - start_address h)) by lia.
  intros (u & Hlt%ASSERT_inv & H)%bind_Ok_inv Hmin. apply Z.ltb_lt in Hlt.
  set (n1 := if negb (Z.land n 0xFFF =? 0) then u32 (Z.land n 0xFFFFF000 + 0x1000) else n) in H.
  assert (0 <= n1 <= end_address h - start_address h /\ n1 mod 0x1000 = 0) as [Hn1 Hn1a].
  { unfold n1. pose proof (round_idiom n ltac:(lia)) as Hi. destruct (round_up_page_spec n) as [Hm Hr].
    pose proof (mod_page_sub _ _ Hea Hsa). destruct (negb _); [rewrite Hi, u32_small; [|Z.to_euclidean_division_equations; lia]|rewrite Hi];
    (split; [Z.to_euclidean_division_equations; lia|done]). }
  set (n2 := if n1 <? HEAP_MIN_SIZE then HEAP_MIN_SIZE else n1) in H.
  assert (HEAP_MIN_SIZE <= n2 <= end_address h - start_address h /\ n2 mod 0x1000 = 0) as [Hn2 Hn2a].
  { unfold n2. destruct (Z.ltb_spec n1 HEAP_MIN_SIZE); [by split; [lia|]|by split; [lia|]]. }
  apply bind_Ok_inv in H as (s2 & Hloop & H). injection H as _ <-.
  rewrite u32_small in Hloop by (unfold HEAP_MIN_SIZE in *; lia).
  pose (I := fun st : Z * hstate (mm (Z -> Z) K) => let '(i, t) := st in
    -0x1000 <= i < end_address h - start_address h /\ i mod 0x1000 = 0 /\ hheap t = h /\ heap_window LO HI (hpages t) /\
    forall a, start_address h <= a < start_address h + n2 -> a mod 0x1000 = 0 -> is_Some (kernel_page (hpages t) a)).
  assert (I (0, s2)) as (_ & _ & Hh2 & Hw2 & Hmap2).
  { revert Hloop. apply (while_preserves I (fun r => I (0, r))).
    - intros [i t] [i' t'] (Hi & Him & Ht & Hwt & Hmt). destruct (Z.leb_spec n2 i) as [Hin|]; [|done].
      intros (t2 & Hp & [= <- <-])%bind_Ok_inv. rewrite Ht in Hp. unfold HEAP_MIN_SIZE in *.
      rewrite (u32_small (start_address h + i)) in Hp by lia. rewrite (u32_small (i - 0x1000)) by lia.
      destruct (unmap_page (start_address h + i) _ _ Hwt ltac:(lia) ltac:(by apply mod_page_add) Hp) as (Hw' & Hkeep).
      split; [lia|]. split; [by apply mod_page_sub|]. split; [by rewrite (pb_unmap_heap _ _ _ Hp)|]. split; [done|].
      intros a Ha Haa. apply Hkeep; [lia| |by apply Hmt]. Z.to_euclidean_division_equations; lia.
    - intros [i t] r (Hi & Him & Ht & Hwt & Hmt). destruct (Z.leb_spec n2 i); [by intros (? & _ & [=])%bind_Ok_inv|]. intros [= <-].
      unfold HEAP_MIN_SIZE in *. split; [lia|]. exact (conj eq_refl (conj Ht (conj Hwt Hmt))).
    - split; [unfold HEAP_MIN_SIZE in *; lia|]. split; [by apply mod_page_sub; [apply mod_page_sub|]|]. split; [done|]. split; [done|].
      intros a Ha. apply Hmap. lia. }
  unfold HEAP_MIN_SIZE in *. split; cbn [hheap with_heap set_end_address end_address start_address max_address hpages]; rewrite ?Hh2, ?(u32_small (start_address h + n2)) by lia;
    [lia|done|by apply mod_page_add|done|lia|done|done].
Qed.

Lemma trim_tail_arena header footer s b s' : arena s -> trim_tail header footer s = Ok (b, s') ->
  HEAP_MIN_SIZE <= end_address (hheap s) - start_address (hheap s) -> arena s'.
Proof.
  intros Ha H Hmin. unfold trim_tail in H. destruct (_ =? _); [|by injection H as _ <-].
  apply bind_Ok_inv in H as ([k s1] & Hc & H). apply (contract_arena _ _ _ _ Ha (proj1 (u32_range _))) in Hc; [|done].
  destruct (_ <? _) in H; injection H as _ <-; [|done]. by apply (arena_same s1).
Qed.

(** [free] unmaps only pages behind the new end. *)
Lemma free_arena p s s' : arena s -> free p s = Ok s' -> HEAP_MIN_SIZE <= end_address (hheap s) - start_address (hheap s) -> arena s'.
Proof.
  intros Ha H Hmin. unfold free in H. destruct (p =? 0); [by injection H as <-|].
  do 9 (apply bind_Ok_inv in H as (? & _ & H)).
  apply bind_Ok_inv in H as ([[m1 i1] h1] & _ & H). apply bind_Ok_inv in H as ([[m2 i2] f2] & _ & H).
  apply bind_Ok_inv in H as ([b s1] & Ht & H). apply bind_Ok_inv in H as (s2 & Hb & H). apply bind_Ok_inv in H as (u & _ & [= <-]).
  apply trim_tail_arena in Ht; [|by apply (arena_same s)|done].
  destruct b; [|by injection Hb as <-]. apply bind_Ok_inv in Hb as (i3 & _ & [= <-]). by apply (arena_same s1).
Qed.

(** A payload lies in mapped pages. *)
Lemma payload_mapped s bl p n a : arena s -> heap_ok (hmem s) (hheap s) bl -> (p, n) ∈ allocated (start_address (hheap s)) bl ->
  p <= a < p + n -> exists q, kernel_page (hpages s) a = Some q.
Proof.
  intros Har Hok Hp Ha. pose proof (allocated_range _ _ _ _ _ (ok_layout _ _ _ Hok) Hp) as (H1 & _ & H2).
  rewrite (ok_total _ _ _ Hok) in H2. pose proof (ar_start _ Har) as Hs0.
  destruct (ar_mapped _ Har (a / 0x1000 * 0x1000)) as [q Hq].
  - Z.to_euclidean_division_equations; lia.
  - by apply Z.mod_mul.
  - exists q. unfold kernel_page in *. by rewrite Z.div_mul in Hq by lia.
Qed.
End arena.

Section kernel_heap.
Context {K : Type} `{!Kmalloc K} `{!KmallocLaws K}.

(** What an allocation from a heap on page tables gives. *)
Record mapped_alloc (LO HI : Z) (s s' : hstate (mm (Z -> Z) K)) (bl bl' : list block) (size page_align p : Z) : Prop := {
  ma_ok : heap_ok (hmem s') (hheap s') bl';
  ma_payload : exists n, size <= n /\ allocated (start_address (hheap s)) bl' ≡ₚ (p, n) :: allocated (start_address (hheap s)) bl /\
    forall a, p <= a < p + n -> exists q, kernel_page (hpages s') a = Some q;
  ma_aligned : 0 < page_align -> p mod 0x1000 = 0;
  ma_kept : payloads_kept (start_address (hheap s)) bl (hmem s) (hmem s');
  ma_arena : arena LO HI s';
  ma_beside : beside LO HI (hpages s) (hpages s');
  ma_wf : heap_wf (hheap s');
  ma_start : start_address (hheap s') = start_address (hheap s);
  ma_end : end_address (hheap s) <= end_address (hheap s');
  ma_index : index_grown 4 s s';
  ma_coalesced : coalesced bl = true -> coalesced bl' = true
}.

Lemma alloc_mapped LO HI n size page_align (s : hstate (mm (Z -> Z) K)) bl :
  arena LO HI s -> heap_wf (hheap s) -> heap_ok (hmem s) (hheap s) bl ->
  0 < size -> size + MIN_BLOCK < 2 ^ 32 -> 0 <= page_align -> HEAP_MIN_SIZE <= end_address (hheap s) - start_address (hheap s) ->
  let room := 3 * round_up_page (size + MIN_BLOCK) in
  end_address (hheap s) + room <= max_address (hheap s) -> end_address (hheap s) + room <= HI -> room <= n * 0x1000 ->
  frames_left n (hpages s) -> OrderedArray.size (index (hheap s)) + 3 < max_size (index (hheap s)) ->
  exists p s' bl', alloc ALLOC_ROUNDS size page_align s = Ok (p, s') /\ mapped_alloc LO HI s s' bl bl' size page_align p.
Proof.
  intros Har Hwf Hok Hsz Hs32 Hal Hmin room Hmax Hhi Hroom Hfr Hidx.
  pose (L := table_backing_laws LO HI (hpages s)). pose proof (ar_bounds _ _ _ Har) as Hb. pose proof (ar_low _ _ _ Har) as Hlow.
  destruct (@alloc_correct _ _ L 0 size page_align s bl) as (p & s' & bl' & Hrun & [Hwf' Hok' Hst Hmx Hen (len & Hlen & Hpay) Hkept Hback Halign Hco] & Hix);
    [done..| |done|done|].
  { fold room. split; [split; [apply Har|apply Har]|]. split; [done|]. split; [lia|]. exists LO, HI, n. split; [|unfold HEAP_MIN_SIZE; lia].
    split; [apply Har|lia|lia|done|apply beside_refl]. }
  destruct Hback as (_ & _ & _ & lo & hi & k & [_ Hlo' Hhi' _ Hbeside] & _ & Hend & _).
  assert (arena LO HI s') as Har' by (apply (alloc_arena LO HI _ _ _ _ _ _ Har Hrun); lia).
  exists p, s', bl'. split; [exact Hrun|]. split; try done. exists len. split; [done|]. split; [done|]. intros a Ha.
  apply (payload_mapped LO HI s' bl' p len a Har' Hok'); [|done]. rewrite Hst, Hpay. by left.
Qed.

(** What [free] does to a heap on page tables. *)
Record mapped_free (LO HI : Z) (s s' : hstate (mm (Z -> Z) K)) (bl bl' : list block) (p n : Z) : Prop := {
  mf_ok : heap_ok (hmem s') (hheap s') bl';
  mf_payload : allocated (start_address (hheap s)) bl ≡ₚ (p, n) :: allocated (start_address (hheap s)) bl';
  mf_kept : payloads_kept (start_address (hheap s)) bl' (hmem s) (hmem s');
  mf_arena : arena LO HI s';
  mf_beside : beside LO HI (hpages s) (hpages s');
  mf_mapped q k a : (q, k) ∈ allocated (start_address (hheap s)) bl' -> q <= a < q + k -> exists r, kernel_page (hpages s') a = Some r
}.

Lemma free_mapped LO HI (s : hstate (mm (Z -> Z) K)) bl p n :
  arena LO HI s -> heap_wf (hheap s) -> heap_ok (hmem s) (hheap s) bl -> (p, n) ∈ allocated (start_address (hheap s)) bl ->
  HEAP_MIN_SIZE <= end_address (hheap s) - start_address (hheap s) -> no_sliver bl p (start_address (hheap s)) ->
  OrderedArray.size (index (hheap s)) < max_size (index (hheap s)) ->
  exists s' bl', free p s = Ok s' /\ mapped_free LO HI s s' bl bl' p n.
Proof.
  intros Har Hwf Hok Hp Hmin Hsl Hidx.
  pose (L := table_backing_laws LO HI (hpages s)). pose proof (ar_bounds _ _ _ Har) as Hb. pose proof (ar_low _ _ _ Har) as Hlow.
  destruct (@free_correct _ _ L 0 ltac:(lia) s bl p n) as (s' & bl' & Hrun & [Hwf' Hok' Hst Hmx Hen _ Hpay Hkept Hback _]); [done..| |done|done|].
  { split; [split; [apply Har|apply Har]|]. split; [done|]. split; [lia|]. exists LO, HI, 0. split; [|pose proof (ar_high _ _ _ Har); unfold HEAP_MIN_SIZE; lia].
    split; [apply Har|lia|lia|by exists []; split_and!; [constructor|set_solver|]|apply beside_refl]. }
  destruct Hback as (_ & _ & _ & lo & hi & k & [_ Hlo' Hhi' _ Hbeside] & _).
  assert (arena LO HI s') as Har' by (by apply (free_arena LO HI _ _ _ Har Hrun)).
  exists s', bl'. split; [exact Hrun|]. split; try done. intros q l a Hq Ha. apply (payload_mapped LO HI s' bl' q l a Har' Hok'); [|done]. by rewrite Hst.
Qed.
End kernel_heap.
