(* ===== verification/Vfs.v ===== *)
(** * fs.c: the virtual file system

    Nodes are named by their address and read through [node_at]; the
    function pointers of a node are values of a type [Cb] that the driver
    chooses, and [FsDriver] says what calling each of them does.  Strings
    are the bytes before the terminator; a nullable [const char *] is an
    option.  The path loops run on the unread rest of the path. *)

From S2P Require Import Prelude.

Definition FS_FILE : Z := 0x01.
Definition FS_DIRECTORY : Z := 0x02.
Definition BAD_POINTER : string := "dereference of a pointer to no object".
Definition SLASH : Z := 47.
Definition DOT : list Z := [46].
Definition DOTDOT : list Z := [46; 46].
(** [sizeof(component)], also [sizeof(name)]. *)
Definition NAME_SIZE : Z := 128.

Record fs_node (Cb : Type) : Type := mk_fs_node {
  name : list Z;
  mask : Z;
  uid : Z;
  gid : Z;
  flags : Z;
  inode : Z;
  length : Z;
  impl : Z;
  read : option Cb;
  write : option Cb;
  open : option Cb;
  close : option Cb;
  readdir : option Cb;
  finddir : option Cb;
  mkdir : option Cb;
  ptr : Z;
  parent : Z
}.
Arguments mk_fs_node {Cb}. Arguments name {Cb}. Arguments mask {Cb}. Arguments uid {Cb}.
Arguments gid {Cb}. Arguments flags {Cb}. Arguments inode {Cb}. Arguments length {Cb}.
Arguments impl {Cb}. Arguments read {Cb}. Arguments write {Cb}. Arguments open {Cb}.
Arguments close {Cb}. Arguments readdir {Cb}. Arguments finddir {Cb}. Arguments mkdir {Cb}.
Arguments ptr {Cb}. Arguments parent {Cb}.

(** What the callbacks of a driver do.  [call_read] and [call_write] get the
    node, offset, size and buffer address; [call_readdir] returns the name
    and inode of an entry. *)
Class FsDriver (S Cb : Type) : Type := {
  node_at : S -> Z -> option (fs_node Cb);
  call_read : Cb -> Z -> Z -> Z -> Z -> S -> res (Z * S);
  call_write : Cb -> Z -> Z -> Z -> Z -> S -> res (Z * S);
  call_open : Cb -> Z -> S -> res S;
  call_close : Cb -> Z -> S -> res S;
  call_readdir : Cb -> Z -> Z -> S -> res (option (list Z * Z) * S);
  call_finddir : Cb -> Z -> list Z -> S -> res Z;
  call_mkdir : Cb -> Z -> list Z -> S -> res (Z * S)
}.

Fixpoint skip_slashes (path : list Z) : list Z :=
  match path with
  | c :: rest => if c =? SLASH then skip_slashes rest else path
  | [] => []
  end.

(** The loop that copies one component: it and the rest of the path, or
    failure when the name does not fit. *)
Fixpoint copy_component (len : Z) (path : list Z) : option (list Z * list Z) :=
  match path with
  | [] => Some ([], [])
  | c :: rest =>
      if c =? SLASH then Some ([], path)
      else if len + 1 >=? NAME_SIZE then None
      else match copy_component (len + 1) rest with
           | Some (component, rest) => Some (c :: component, rest)
           | None => None
           end
  end.

Section fs.
Context {S Cb : Type} `{!FsDriver S Cb}.
Implicit Types s : S.

Definition deref (node : Z) s : res (fs_node Cb) :=
  match node_at s node with Some n => Ok n | None => Panic BAD_POINTER end.

Definition is_directory (n : fs_node Cb) : bool := Z.land (flags n) 0x7 =? FS_DIRECTORY.

Definition read_fs (node offset size buffer : Z) s : res (Z * S) :=
  if (node =? 0) || (buffer =? 0) then Ok (0, s)
  else
    n ← deref node s;
    match read n with
    | Some cb => call_read cb node offset size buffer s
    | None => Ok (0, s)
    end.

Definition write_fs (node offset size buffer : Z) s : res (Z * S) :=
  if (node =? 0) || (buffer =? 0) then Ok (0, s)
  else
    n ← deref node s;
    match write n with
    | Some cb => call_write cb node offset size buffer s
    | None => Ok (0, s)
    end.

Definition open_fs (node : Z) (_read _write : Z) s : res S :=
  if node =? 0 then Ok s
  else
    n ← deref node s;
    match open n with Some cb => call_open cb node s | None => Ok s end.

Definition close_fs (node : Z) s : res S :=
  if node =? 0 then Ok s
  else
    n ← deref node s;
    match close n with Some cb => call_close cb node s | None => Ok s end.

Definition readdir_fs (node index : Z) s : res (option (list Z * Z) * S) :=
  if node =? 0 then Ok (None, s)
  else
    n ← deref node s;
    match is_directory n, readdir n with
    | true, Some cb => call_readdir cb node index s
    | _, _ => Ok (None, s)
    end.

Definition finddir_fs (node : Z) (nm : list Z) s : res Z :=
  if node =? 0 then Ok 0
  else
    n ← deref node s;
    match is_directory n, finddir n with
    | true, Some cb => call_finddir cb node nm s
    | _, _ => Ok 0
    end.

(** [..]: root has no parent. *)
Definition parent_or_self (root node : Z) s : res Z :=
  if node =? root then Ok node
  else n ← deref node s; Ok (if parent n =? 0 then node else parent n).

(** One turn of the loop of [resolve_path_fs]. *)
Definition resolve_step (root : Z) s (st : Z * list Z) : res (ctl (Z * list Z) Z) :=
  let '(node, path) := st in
  match path with
  | [] => Ok (Break node)
  | _ =>
      match copy_component 0 path with
      | None => Ok (Break 0)
      | Some (component, rest) =>
          if decide (component = DOT) then Ok (Continue (node, skip_slashes rest))
          else if decide (component = DOTDOT) then
            node ← parent_or_self root node s;
            Ok (Continue (node, skip_slashes rest))
          else
            node ← finddir_fs node component s;
            if node =? 0 then Ok (Break 0) else Ok (Continue (node, skip_slashes rest))
      end
  end.

Definition resolve_path_fs (root working_directory : Z) (path : option (list Z)) s : res Z :=
  match path with
  | None => Ok 0
  | Some path =>
      if (root =? 0) || (working_directory =? 0) then Ok 0
      else
        let node := match path with c :: _ => if c =? SLASH then root else working_directory | [] => working_directory end in
        while (resolve_step root s) (node, skip_slashes path)
  end.

Definition find_path_fs (root : Z) (path : option (list Z)) s : res Z := resolve_path_fs root root path s.

(** [get_path_fs], first loop: the ancestors of [node], nearest root first. *)
Definition ancestor_step (root : Z) s (st : Z * list Z) : res (ctl (Z * list Z) (option (list Z))) :=
  let '(node, components) := st in
  if node =? root then Ok (Break (Some components))
  else if node =? 0 then Ok (Break None)
  else
    n ← deref node s;
    if (parent n =? 0) || (Z.of_nat (List.length components) >=? 32) then Ok (Break None)
    else Ok (Continue (parent n, node :: components)).

(** Second loop: the names, separated by slashes; the buffer so far is
    [out].  Returns the result code and what the buffer holds. *)
Fixpoint emit_names (components : list Z) (capacity : Z) (out : list Z) s : res (Z * list Z) :=
  match components with
  | [] => Ok (Z.of_nat (List.length out), out ++ [0])
  | c :: rest =>
      n ← deref c s;
      let used := Z.of_nat (List.length out) in
      let len := Z.of_nat (List.length (name n)) in
      let more := match rest with [] => false | _ => true end in
      if used + len + (if more then 1 else 0) + 1 >? capacity then Ok (-1, out)
      else emit_names rest capacity (out ++ name n ++ (if more then [SLASH] else [])) s
  end.

(** Result code and buffer contents; the buffer is untouched when the
    arguments are rejected or the node is not below [root]. *)
Definition get_path_fs (root node buffer capacity : Z) s : res (Z * list Z) :=
  if (root =? 0) || (node =? 0) || (buffer =? 0) || (capacity <? 2) then Ok (-1, [])
  else
    components ← while (ancestor_step root s) (node, []);
    match components with
    | None => Ok (-1, [])
    | Some components => emit_names components capacity [SLASH] s
    end.

Definition mkdir_fs (dir : Z) (nm : option (list Z)) s : res (Z * S) :=
  match nm with
  | None => Ok (-1, s)
  | Some nm =>
      if dir =? 0 then Ok (-1, s)
      else
        n ← deref dir s;
        match is_directory n, mkdir n with
        | true, Some cb => call_mkdir cb dir nm s
        | _, _ => Ok (-1, s)
        end
  end.

(** One turn of the loop of [mkdir_path_fs]; a [Break] carries what is left
    to do: the directory and the last component, or failure. *)
Definition mkdir_step (root : Z) s (st : Z * list Z) : res (ctl (Z * list Z) (option (Z * list Z))) :=
  let '(directory, path) := st in
  match copy_component 0 path with
  | None => Ok (Break None)
  | Some ([], _) => Ok (Break None)
  | Some (component, rest) =>
      match skip_slashes rest with
      | [] =>
          if decide (component = DOT) then Ok (Break None)
          else if decide (component = DOTDOT) then Ok (Break None)
          else Ok (Break (Some (directory, component)))
      | remainder =>
          if decide (component = DOT) then Ok (Continue (directory, remainder))
          else if decide (component = DOTDOT) then
            directory ← parent_or_self root directory s;
            Ok (Continue (directory, remainder))
          else
            directory ← finddir_fs directory component s;
            if directory =? 0 then Ok (Break None)
            else
              n ← deref directory s;
              if is_directory n then Ok (Continue (directory, remainder)) else Ok (Break None)
      end
  end.

Definition mkdir_path_fs (root working_directory : Z) (path : option (list Z)) s : res (Z * S) :=
  match path with
  | None | Some [] => Ok (-1, s)
  | Some ((c :: _) as path) =>
      if (root =? 0) || (working_directory =? 0) then Ok (-1, s)
      else
        let directory := if c =? SLASH then root else working_directory in
        match skip_slashes path with
        | [] => Ok (-1, s)
        | path =>
            target ← while (mkdir_step root s) (directory, path);
            match target with
            | None => Ok (-1, s)
            | Some (directory, component) => mkdir_fs directory (Some component) s
            end
        end
  end.
End fs.
