(* ===== verification/VfsSpec.v ===== *)
(** * Paths: the specification of fs.c and what drivers promise

    A path is the list of its non-empty components; [resolves] says in terms
    of parents and names which node a list of components denotes.  [FsLaws]
    is the interface a driver has to implement: its tree is well-formed and
    its callbacks answer questions about that tree. *)

From S2P Require Import Prelude Vfs.

(** The pieces of a path between slashes. *)
Fixpoint split_path (path : list Z) : list (list Z) :=
  match path with
  | [] => [[]]
  | c :: rest =>
      if c =? SLASH then [] :: split_path rest
      else match split_path rest with
           | first :: others => (c :: first) :: others
           | [] => [[c]]
           end
  end.
Definition components (path : list Z) : list (list Z) := filter (fun c => c <> []) (split_path path).

(** A name that a path component can denote. *)
Record good_name (c : list Z) : Prop := {
  gn_nonempty : c <> [];
  gn_no_slash : SLASH ∉ c;
  gn_size : Z.of_nat (List.length c) < NAME_SIZE;
  gn_not_dot : c <> DOT;
  gn_not_dotdot : c <> DOTDOT
}.

Section tree.
Context {S Cb : Type} `{!FsDriver S Cb}.
Implicit Types s : S.

Definition child s (d x : Z) (c : list Z) : Prop :=
  exists m, node_at s x = Some m /\ parent m = d /\ name m = c.

(** What [..] means at [d]. *)
Definition parent_of s (root d : Z) : Z :=
  if d =? root then d
  else match node_at s d with
       | Some n => if parent n =? 0 then d else parent n
       | None => d
       end.

Inductive resolves s (root : Z) : Z -> list (list Z) -> Z -> Prop :=
  | resolves_here d : resolves s root d [] d
  | resolves_dot d cs x : resolves s root d cs x -> resolves s root d (DOT :: cs) x
  | resolves_dotdot d cs x :
      resolves s root (parent_of s root d) cs x -> resolves s root d (DOTDOT :: cs) x
  | resolves_child d c y cs x :
      good_name c -> child s d y c -> resolves s root y cs x -> resolves s root d (c :: cs) x.

(** What a directory must look like for [mkdir] to add [c] to it. *)
Definition only_added s s' (d x : Z) (c : list Z) : Prop :=
  node_at s x = None /\ (forall y, y <> x -> node_at s' y = node_at s y) /\
  exists m, node_at s' x = Some m /\ parent m = d /\ name m = c /\ is_directory m = true.
End tree.

Class FsLaws (S Cb : Type) `{!FsDriver S Cb} : Type := {
  fs_ok : S -> Prop;
  null_no_node s : fs_ok s -> node_at s 0 = None;
  child_found s x (m : fs_node Cb) : fs_ok s -> node_at s x = Some m -> parent m <> 0 ->
    good_name (name m) /\ exists p cb, node_at s (parent m) = Some p /\ is_directory p = true /\
      finddir p = Some cb /\ call_finddir cb (parent m) (name m) s = Ok x;
  finddir_sound s d (n : fs_node Cb) cb c :
    fs_ok s -> node_at s d = Some n -> is_directory n = true -> finddir n = Some cb ->
    exists x, call_finddir cb d c s = Ok x /\ (x = 0 \/ child s d x c);
  mkdir_adds s d (n : fs_node Cb) cb c r s' :
    fs_ok s -> node_at s d = Some n -> is_directory n = true -> mkdir n = Some cb -> good_name c ->
    call_mkdir cb d c s = Ok (r, s') ->
    fs_ok s' /\ (r = -1 /\ s' = s \/ r = 0 /\ exists x, x <> 0 /\ only_added s s' d x c)
}.

(** ** Splitting paths *)

(** The path up to the first slash, and from it on. *)
Fixpoint span_name (path : list Z) : list Z * list Z :=
  match path with
  | [] => ([], [])
  | c :: rest => if c =? SLASH then ([], path) else let '(a, b) := span_name rest in (c :: a, b)
  end.

Lemma span_name_spec path a b : span_name path = (a, b) ->
  path = a ++ b /\ (SLASH ∉ a) /\ (b = [] \/ exists r, b = SLASH :: r).
Proof.
  revert a b. induction path as [|c path IH]; intros a b; simpl.
  - intros [= <- <-]. split_and!; [done|set_solver|by left].
  - destruct (Z.eqb_spec c SLASH) as [E|E].
    + intros [= <- <-]. split_and!; [done|set_solver|right; exists path; by rewrite E].
    + destruct (span_name path) as [a' b'] eqn:Hs. intros [= <- <-].
      destruct (IH a' b' eq_refl) as (-> & Ha & Hb). split_and!; [done|set_solver|done].
Qed.

Lemma copy_component_spec len path a b :
  0 <= len < NAME_SIZE -> span_name path = (a, b) ->
  copy_component len path = if len + Z.of_nat (List.length a) <? NAME_SIZE then Some (a, b) else None.
Proof.
  revert len a b. induction path as [|c path IH]; intros len a b Hl; simpl.
  - intros [= <- <-]. simpl. rewrite (proj2 (Z.ltb_lt _ _)); [done|lia].
  - destruct (c =? SLASH).
    + intros [= <- <-]. simpl. rewrite (proj2 (Z.ltb_lt _ _)); [done|lia].
    + destruct (span_name path) as [a' b'] eqn:Hs. intros [= <- <-]. simpl List.length.
      destruct (Z.geb_spec (len + 1) NAME_SIZE) as [H|H].
      * rewrite (proj2 (Z.ltb_ge _ _)); [done|lia].
      * rewrite (IH (len + 1) a' b') by (done || lia).
        replace (len + Z.of_nat (Datatypes.S (List.length a'))) with (len + 1 + Z.of_nat (List.length a')) by lia.
        by destruct (_ <? _).
Qed.

Lemma components_slash path : components (SLASH :: path) = components path.
Proof. done. Qed.

Lemma components_skip path : components (skip_slashes path) = components path.
Proof.
  induction path as [|c path IH]; simpl; [done|]. destruct (Z.eqb_spec c SLASH) as [->|E]; [|done].
  by rewrite components_slash.
Qed.

Lemma skip_slashes_head path : skip_slashes path = [] \/ exists c r, skip_slashes path = c :: r /\ c <> SLASH.
Proof.
  induction path as [|c path IH]; simpl; [by left|]. destruct (Z.eqb_spec c SLASH); [done|right; eauto].
Qed.

Lemma skip_slashes_length path : (List.length (skip_slashes path) <= List.length path)%nat.
Proof. induction path as [|c path IH]; simpl; [done|]. destruct (c =? SLASH); simpl; lia. Qed.

Lemma split_path_nonnil path : split_path path <> [].
Proof. destruct path as [|c path]; simpl; [done|]. destruct (c =? SLASH); [done|]. by destruct (split_path path). Qed.

Lemma split_path_span path a b : span_name path = (a, b) ->
  split_path path = a :: match b with [] => [] | _ :: r => split_path r end.
Proof.
  revert a b. induction path as [|c path IH]; intros a b; simpl.
  - by intros [= <- <-].
  - destruct (c =? SLASH); [by intros [= <- <-]|].
    destruct (span_name path) as [a' b'] eqn:Hs. intros [= <- <-]. by rewrite (IH a' b' eq_refl).
Qed.

Lemma components_span path a b : span_name path = (a, b) -> a <> [] ->
  components path = a :: components b.
Proof.
  intros Hs Ha. destruct (span_name_spec path a b Hs) as (_ & _ & Hb).
  unfold components. rewrite (split_path_span _ _ _ Hs), filter_cons_True by done. f_equal.
  destruct Hb as [->|[r ->]]; done.
Qed.

(** The view of one component that the path loops take. *)
Variant path_view (path : list Z) : Prop :=
  | view_end : path = [] -> path_view path
  | view_long c r : copy_component 0 path = None -> NAME_SIZE <= Z.of_nat (List.length c) ->
      components path = c :: components r -> path_view path
  | view_next c r : copy_component 0 path = Some (c, r) -> c <> [] -> (SLASH ∉ c) ->
      Z.of_nat (List.length c) < NAME_SIZE -> components path = c :: components r ->
      (List.length r < List.length path)%nat -> path_view path.

Lemma path_cases path : path = [] \/ (exists c r, path = c :: r /\ c <> SLASH) -> path_view path.
Proof.
  intros [->|(c & r & -> & Hc)]; [by apply view_end|].
  destruct (span_name (c :: r)) as [a b] eqn:Hs.
  assert (a <> []) as Ha.
  { simpl in Hs. rewrite (proj2 (Z.eqb_neq c SLASH)) in Hs by done. destruct (span_name r). by injection Hs as <- _. }
  pose proof (copy_component_spec 0 (c :: r) a b ltac:(done) Hs) as Hcc.
  pose proof (components_span _ _ _ Hs Ha) as Hcomp.
  destruct (span_name_spec _ _ _ Hs) as (Hp & Hns & _).
  rewrite Z.add_0_l in Hcc. destruct (Z.ltb_spec (Z.of_nat (List.length a)) NAME_SIZE) as [Hl|Hl].
  - eapply view_next; try done. rewrite Hp, length_app. destruct a; [done|simpl; lia].
  - by eapply view_long.
Qed.

Lemma skip_view path : path_view (skip_slashes path).
Proof. apply path_cases, skip_slashes_head. Qed.

(** A path printed as [/a/b/c] has the components [a; b; c]. *)
Lemma span_name_app a b : (SLASH ∉ a) -> (b = [] \/ exists r, b = SLASH :: r) -> span_name (a ++ b) = (a, b).
Proof.
  intros Ha Hb. induction a as [|c a IH]; simpl.
  - destruct Hb as [->|[r ->]]; [done|]. simpl. done.
  - rewrite (proj2 (Z.eqb_neq c SLASH)) by set_solver. rewrite IH by set_solver. done.
Qed.

Fixpoint join_names (names : list (list Z)) : list Z :=
  match names with
  | [] => []
  | c :: rest => c ++ match rest with [] => [] | _ => SLASH :: join_names rest end
  end.

Lemma components_join names : Forall good_name names -> components (join_names names) = names.
Proof.
  induction 1 as [|c names Hc Hns IH]; [done|].
  rewrite (components_span _ c (match names with [] => [] | _ => SLASH :: join_names names end)).
  - f_equal. destruct names; [done|]. rewrite components_slash. apply IH.
  - simpl. apply span_name_app; [apply Hc|]. destruct names; [by left|right; eauto].
  - apply Hc.
Qed.
