(* ===== verification/VfsProofs.v ===== *)
(** * Path resolution, printing and directory creation are correct

    The loops of fs.c against [resolves], over any driver with [FsLaws]. *)

From S2P Require Import Prelude Vfs VfsSpec.

Section proofs.
Context {S Cb : Type} `{!FsDriver S Cb} `{!FsLaws S Cb}.
Implicit Types s : S.

Lemma deref_ok node s n : node_at s node = Some n -> deref node s = Ok n.
Proof. intros H. unfold deref. by rewrite H. Qed.

Lemma node_nonnull s x n : fs_ok s -> node_at s x = Some n -> x <> 0.
Proof. intros Hok Hx ->. by rewrite null_no_node in Hx. Qed.

(** [finddir_fs] is the child of that name, if there is one. *)
Lemma finddir_fs_spec s d c : fs_ok s -> d <> 0 -> is_Some (node_at s d) ->
  exists x, finddir_fs d c s = Ok x /\ (x = 0 \/ child s d x c).
Proof.
  intros Hok H0 [n Hn]. unfold finddir_fs. rewrite (proj2 (Z.eqb_neq d 0)) by done.
  rewrite (deref_ok _ _ _ Hn). rsimpl. destruct (is_directory n) eqn:Hd; [|exists 0; split; [done|by left]].
  destruct (finddir n) as [cb|] eqn:Hf; [|exists 0; split; [done|by left]].
  by apply (finddir_sound s d n cb c).
Qed.

Lemma finddir_fs_child s d x c : fs_ok s -> d <> 0 -> child s d x c ->
  good_name c /\ is_Some (node_at s d) /\ finddir_fs d c s = Ok x.
Proof.
  intros Hok H0 (m & Hx & Hp & Hc). destruct (child_found s x m Hok Hx) as (Hg & p & cb & Hpn & Hdir & Hf & Hcall); [by rewrite Hp|].
  rewrite Hp in Hpn, Hcall. rewrite Hc in Hg, Hcall. split; [done|]. split; [by eexists|]. unfold finddir_fs.
  rewrite (proj2 (Z.eqb_neq d 0)) by done. rewrite (deref_ok _ _ _ Hpn). rsimpl. by rewrite Hdir, Hf.
Qed.

Lemma parent_or_self_spec s root node : fs_ok s -> is_Some (node_at s node) ->
  parent_or_self root node s = Ok (parent_of s root node) /\ is_Some (node_at s (parent_of s root node)).
Proof.
  intros Hok [n Hn]. unfold parent_or_self, parent_of. destruct (node =? root); [by split; [|eexists]|].
  rewrite (deref_ok _ _ _ Hn), Hn. rsimpl. destruct (Z.eqb_spec (parent n) 0) as [E|E]; [by split; [|eexists]|].
  split; [done|]. destruct (child_found s node n Hok Hn E) as (_ & p & _ & Hp & _). by eexists.
Qed.

Lemma resolves_nonnull s root d cs x : fs_ok s -> is_Some (node_at s d) -> resolves s root d cs x -> is_Some (node_at s x).
Proof.
  intros Hok Hd Hr. induction Hr as [d|d cs x _ IH|d cs x _ IH|d c y cs x _ (m & Hy & _) _ IH]; auto.
  apply IH. by apply parent_or_self_spec.
Qed.

(** ** Resolution *)

Lemma resolve_long s root d c cs x : NAME_SIZE <= Z.of_nat (List.length c) -> ~ resolves s root d (c :: cs) x.
Proof.
  intros Hl Hr. unfold NAME_SIZE in *. inversion Hr as [| | |d' c' y cs' x' [_ _ Hs _ _]]; subst; simpl in Hl; unfold NAME_SIZE in *; lia.
Qed.

Lemma resolve_named s root d c cs x : c <> DOT -> c <> DOTDOT ->
  resolves s root d (c :: cs) x -> exists y, child s d y c /\ resolves s root y cs x.
Proof. intros H1 H2 Hr. inversion Hr; subst; try done. eauto. Qed.

Lemma resolve_runs s root : fs_ok s -> forall k path node, (List.length path <= k)%nat ->
  path = [] \/ (exists c r, path = c :: r /\ c <> SLASH) -> is_Some (node_at s node) ->
  exists n r, runs (resolve_step root s) n (node, path) (Ok r) /\ (n <= List.length path)%nat /\
    forall x, x <> 0 -> (r = x <-> resolves s root node (components path) x).
Proof.
  intros Hok k. induction k as [|k IH]; intros path node Hlen Hhead Hnode; destruct (path_cases path Hhead) as [->|c r Hcc Hl Hcomp|c r Hcc Hne Hns Hl Hcomp Hlr].
  1,4: exists 0%nat, node; split; [by constructor|split; [done|]]; intros x Hx; split; [intros ->; constructor|by inversion 1].
  2: simpl in *; lia.
  - destruct path; [done|simpl in Hlen; lia].
  - exists 0%nat, 0. split; [constructor; unfold resolve_step; rewrite Hcc; by destruct path|]. split; [lia|].
    intros x Hx. rewrite Hcomp. split; [congruence|]. intros Hr. exfalso. eapply resolve_long; eauto.
  - assert (forall node', is_Some (node_at s node') ->
      resolve_step root s (node, path) = Ok (Continue (node', skip_slashes r)) ->
      (forall x, resolves s root node (c :: components r) x <-> resolves s root node' (components r) x) ->
      exists n x0, runs (resolve_step root s) n (node, path) (Ok x0) /\ (n <= List.length path)%nat /\
        forall x, x <> 0 -> (x0 = x <-> resolves s root node (components path) x)) as Hnext.
    { intros node' Hnode' Hstep Heq. pose proof (skip_slashes_length r).
      destruct (IH (skip_slashes r) node') as (n & x0 & Hr & Hn & Hx0); [lia|apply skip_slashes_head|done|].
      exists (1 + n)%nat, x0. split; [by econstructor|]. split; [lia|]. intros x Hx.
      by rewrite Hx0, components_skip, Hcomp, Heq by done. }
    assert (path <> []) as Hpne by (by destruct path).
    unfold resolve_step in Hnext. rewrite Hcc in Hnext. destruct path as [|z path]; [done|].
    destruct (decide (c = DOT)) as [Ed|Hd]; [|destruct (decide (c = DOTDOT)) as [Edd|Hdd]].
    + apply (Hnext node); [done..|]. intros x. subst c. split; [|by constructor].
      inversion 1 as [| | |? ? ? ? ? [_ _ _ Hnd _]]; subst; done.
    + destruct (parent_or_self_spec s root node Hok Hnode) as [Hpo Hps]. rewrite Hpo, bind_Ok in Hnext.
      apply (Hnext (parent_of s root node)); [done..|]. intros x. subst c. split; [|by constructor].
      inversion 1 as [| | |? ? ? ? ? [_ _ _ _ Hnd]]; subst; done.
    + assert (node <> 0) as Hn0 by (destruct Hnode; by eapply node_nonnull).
      destruct (finddir_fs_spec s node c Hok Hn0 Hnode) as (y & Hfd & Hy). rewrite Hfd, bind_Ok in Hnext.
      destruct (Z.eqb_spec y 0) as [E|E].
      * exists 0%nat, 0. split.
        { constructor. unfold resolve_step. rewrite Hcc, !decide_False, Hfd, bind_Ok by done. by rewrite E. }
        split; [lia|]. intros x Hx. split; [congruence|]. rewrite Hcomp. intros Hr.
        destruct (resolve_named _ _ _ _ _ _ Hd Hdd Hr) as (y' & Hc' & _).
        destruct (finddir_fs_child s node y' c Hok Hn0 Hc') as (_ & _ & Hfd'). rewrite Hfd in Hfd'.
        assert (y' = y) as -> by congruence. destruct Hc' as (m & Hm & _). rewrite E, null_no_node in Hm by done. done.
      * destruct Hy as [?|Hy]; [done|]. apply (Hnext y); [destruct Hy as (m & Hm & _); by eexists|done|].
        intros x. split.
        -- intros Hr. destruct (resolve_named _ _ _ _ _ _ Hd Hdd Hr) as (y' & Hc' & Hr').
           destruct (finddir_fs_child s node y' c Hok Hn0 Hc') as (_ & _ & Hfd'). congruence.
        -- intros Hr. econstructor; [|done..]. by apply (finddir_fs_child s node y c Hok Hn0 Hy).
Qed.

(** The node a path starts from. *)
Definition start_of (root working_directory : Z) (path : list Z) : Z :=
  match path with c :: _ => if c =? SLASH then root else working_directory | [] => working_directory end.

Lemma resolve_path_correct s root wd path :
  fs_ok s -> is_Some (node_at s root) -> is_Some (node_at s wd) -> Z.of_nat (List.length path) < 2 ^ 32 ->
  exists r, resolve_path_fs root wd (Some path) s = Ok r /\
    forall x, x <> 0 -> (r = x <-> resolves s root (start_of root wd path) (components path) x).
Proof.
  intros Hok Hroot Hwd Hlen. unfold resolve_path_fs.
  assert (root <> 0 /\ wd <> 0) as [Hr0 Hw0] by (destruct Hroot, Hwd; split; by eapply node_nonnull).
  rewrite (proj2 (Z.eqb_neq root 0)), (proj2 (Z.eqb_neq wd 0)) by done. cbn [orb]. fold (start_of root wd path).
  assert (is_Some (node_at s (start_of root wd path))) as Hst.
  { unfold start_of. destruct path as [|c p]; [done|]. by destruct (c =? SLASH). }
  destruct (resolve_runs s root Hok _ (skip_slashes path) (start_of root wd path) (Nat.le_refl _) (skip_slashes_head path) Hst)
    as (n & r & Hrun & Hn & Hr).
  pose proof (skip_slashes_length path). exists r. split; [apply (while_runs _ _ _ _ Hrun); lia|].
  intros x Hx. by rewrite Hr, components_skip.
Qed.

(** ** Printing *)

(** [node] is reached from [top] through the [ids]. *)
Fixpoint chain s (top : Z) (ids : list Z) (node : Z) : Prop :=
  match ids with
  | [] => top = node
  | x :: ids => x <> 0 /\ (exists m, node_at s x = Some m /\ parent m = top) /\ chain s x ids node
  end.

Lemma ancestor_rule s root : fs_ok s -> root <> 0 -> forall k node ids leaf,
  is_Some (node_at s node) -> (List.length ids + k = 32)%nat -> chain s node ids leaf ->
  exists n r, runs (ancestor_step root s) n (node, ids) (Ok r) /\ (n <= k)%nat /\
    match r with None => True | Some ids' => chain s root ids' leaf end.
Proof.
  intros Hok Hr0 k. induction k as [|k IH]; intros node ids leaf [m Hm] Hk Hch.
  all: assert (node <> 0) as Hn0 by (by eapply node_nonnull).
  all: assert (ancestor_step root s (node, ids) = if node =? root then Ok (Break (Some ids)) else
     if (parent m =? 0) || (Z.of_nat (List.length ids) >=? 32) then Ok (Break None) else Ok (Continue (parent m, node :: ids))) as Hstep
    by (unfold ancestor_step; rewrite (proj2 (Z.eqb_neq node 0)), (deref_ok _ _ _ Hm) by done; done).
  all: destruct (Z.eqb_spec node root) as [E|E]; [exists 0%nat, (Some ids); split; [by constructor|]; split; [lia|by subst]|].
  - exists 0%nat, None. split; [|done]. constructor. rewrite Hstep.
    rewrite (Z.geb_leb _ 32), (proj2 (Z.leb_le 32 _)) by lia. by rewrite orb_true_r.
  - rewrite (Z.geb_leb _ 32), (proj2 (Z.leb_gt 32 _)), orb_false_r in Hstep by lia.
    destruct (Z.eqb_spec (parent m) 0) as [E2|E2]; [exists 0%nat, None; split; [by apply runs_break|split; [lia|done]]|].
    destruct (child_found s node m Hok Hm E2) as (_ & p & cb & Hp & _).
    destruct (IH (parent m) (node :: ids) leaf) as (n & r & Hrun & Hn & Hr); [by eexists|simpl; lia|..].
    { simpl. split; [done|]. split; [by eexists|done]. }
    exists (1 + n)%nat, r. split; [by econstructor|]. split; [lia|done].
Qed.

(** Names along a chain; every one can be looked up again. *)
Lemma chain_names s root : fs_ok s -> forall ids top leaf, top <> 0 -> chain s top ids leaf ->
  exists names, Forall2 (fun x c => exists m, node_at s x = Some m /\ name m = c) ids names /\
    Forall good_name names /\ resolves s root top names leaf.
Proof.
  intros Hok ids. induction ids as [|x ids IH]; intros top leaf H0; simpl.
  - intros ->. exists []. split_and!; constructor.
  - intros (Hx0 & (m & Hm & Hp) & Hch). destruct (IH x leaf Hx0 Hch) as (names & H2 & Hg & Hr).
    assert (child s top x (name m)) as Hc by (exists m; done).
    destruct (child_found s x m Hok Hm) as [Hgm _]; [congruence|].
    exists (name m :: names). split_and!; [constructor; [by eexists|done]|by constructor|].
    by econstructor.
Qed.

Lemma emit_names_spec s capacity ids : forall names out,
  Forall2 (fun x c => exists m, node_at s x = Some m /\ name m = c) ids names ->
  Z.of_nat (List.length out) + 1 <= capacity ->
  exists r out', emit_names ids capacity out s = Ok (r, out') /\
    (r = -1 \/ out' = out ++ join_names names ++ [0] /\ r = Z.of_nat (List.length (out ++ join_names names)) /\ r + 1 <= capacity).
Proof.
  induction ids as [|x ids IH]; intros names out H2 Hcap; inversion H2 as [|? c ? names' (m & Hm & Hc) H2']; subst.
  - simpl. eexists _, _. split; [done|]. right. simpl. rewrite app_nil_r. done.
  - simpl. rewrite (deref_ok _ _ _ Hm). rsimpl.
    set (tl := match ids with [] => false | _ => true end).
    destruct (Z.gtb_spec (Z.of_nat (List.length out) + Z.of_nat (List.length (name m)) + (if tl then 1 else 0) + 1) capacity) as [H|H].
    + eexists _, _. split; [done|]. by left.
    + destruct (IH names' (out ++ name m ++ if tl then [SLASH] else []) H2') as (r & out' & -> & Hr).
      { rewrite !length_app. destruct tl; simpl; lia. }
      exists r, out'. split; [done|]. destruct Hr as [?|(-> & -> & Hle)]; [by left|right].
      assert ((out ++ name m ++ if tl then [SLASH] else []) ++ join_names names' =
        out ++ name m ++ match names' with [] => [] | _ => SLASH :: join_names names' end) as Heq.
      { rewrite <- !app_assoc. do 2 f_equal. unfold tl. inversion H2'; subst; done. }
      split_and!; [|by rewrite Heq|done].
      by rewrite app_assoc, Heq, <- !app_assoc.
Qed.

(** [get_path_fs] prints a path that leads back to the node. *)
Lemma get_path_correct s root node buffer capacity wd :
  fs_ok s -> is_Some (node_at s root) -> is_Some (node_at s node) -> is_Some (node_at s wd) ->
  buffer <> 0 -> 2 <= capacity < 2 ^ 32 ->
  exists r out, get_path_fs root node buffer capacity s = Ok (r, out) /\
    (r = -1 \/ exists path, out = path ++ [0] /\ r = Z.of_nat (List.length path) /\ r < capacity /\
       resolve_path_fs root wd (Some path) s = Ok node).
Proof.
  intros Hok Hroot Hnode Hwd Hb Hcap.
  assert (root <> 0 /\ node <> 0) as [Hr0 Hn0] by (destruct Hroot, Hnode; split; by eapply node_nonnull).
  unfold get_path_fs. rewrite (proj2 (Z.eqb_neq root 0)), (proj2 (Z.eqb_neq node 0)), (proj2 (Z.eqb_neq buffer 0)),
    (proj2 (Z.ltb_ge capacity 2)) by (done || lia). cbn [orb].
  destruct (ancestor_rule s root Hok Hr0 32 node [] node Hnode eq_refl eq_refl) as (n & r & Hrun & Hn & Hr).
  rewrite (while_runs _ _ _ _ Hrun) by lia. rsimpl.
  destruct r as [ids|]; [|eexists _, _; split; [done|by left]].
  destruct (chain_names s root Hok ids root node Hr0 Hr) as (names & H2 & Hg & Hres).
  destruct (emit_names_spec s capacity ids names [SLASH] H2) as (r & out & -> & Hout); [simpl; lia|].
  exists r, out. split; [done|]. destruct Hout as [?|(-> & -> & Hle)]; [by left|right].
  exists ([SLASH] ++ join_names names). split_and!; [done|done|lia|].
  destruct (resolve_path_correct s root wd ([SLASH] ++ join_names names) Hok Hroot Hwd) as (x & -> & Hx); [lia|].
  f_equal. apply Hx; [done|]. simpl. rewrite components_slash, components_join by done. done.
Qed.
(** ** Creating directories *)

Lemma mkdir_runs s root : fs_ok s -> forall k path node, (List.length path <= k)%nat ->
  (exists c r, path = c :: r /\ c <> SLASH) -> is_Some (node_at s node) ->
  exists n t, runs (mkdir_step root s) n (node, path) (Ok t) /\ (n <= List.length path)%nat /\
    match t with
    | None => True
    | Some (d, c) => exists pre, components path = pre ++ [c] /\ resolves s root node pre d /\
        good_name c /\ is_Some (node_at s d)
    end.
Proof.
  intros Hok k. induction k as [|k IH]; intros path node Hlen Hhead Hnode.
  { destruct Hhead as (c & r & -> & _). simpl in Hlen. lia. }
  destruct (path_cases path (or_intror Hhead)) as [->|c r Hcc Hl Hcomp|c r Hcc Hne Hns Hl Hcomp Hlr].
  { by destruct Hhead as (? & ? & [=] & _). }
  { exists 0%nat, None. split; [constructor; unfold mkdir_step; by rewrite Hcc|]. split; [lia|done]. }
  assert (exists h l, c = h :: l) as (h & l & Hc) by (destruct c; [done|eauto]).
  pose proof (skip_slashes_length r) as Hsl. rewrite <- (components_skip r) in Hcomp.
  destruct (skip_slashes_head r) as [Hnil|(c2 & r2 & Hr2 & Hc2)].
  - destruct (decide (c = DOT)) as [Ed|Hd]; [|destruct (decide (c = DOTDOT)) as [Edd|Hdd]];
      [exists 0%nat, None|exists 0%nat, None|exists 0%nat, (Some (node, c))]; (split; [constructor; unfold mkdir_step|]).
    all: try (rewrite Hcc, Hc, Hnil, <- Hc).
    1,3,5: by repeat case_decide.
    1,2: split; [lia|done].
    split; [lia|]. exists []. rewrite Hcomp, Hnil. split_and!; [done|constructor|by split|done].
  - assert (forall t, t = None \/ (exists node', t = Some node' /\ is_Some (node_at s node') /\
        forall pre d, resolves s root node' pre d -> resolves s root node (c :: pre) d) ->
      mkdir_step root s (node, path) = Ok match t with None => Break None | Some node' => Continue (node', skip_slashes r) end ->
      exists n t, runs (mkdir_step root s) n (node, path) (Ok t) /\ (n <= List.length path)%nat /\
        match t with None => True | Some (d, c) => exists pre, components path = pre ++ [c] /\
          resolves s root node pre d /\ good_name c /\ is_Some (node_at s d) end) as Hnext.
    { intros t [->|(node' & -> & Hnode' & Hres)] Hstep; [exists 0%nat, None; split; [by constructor|split; [lia|done]]|].
      destruct (IH (skip_slashes r) node') as (n & t & Hrun & Hn & Ht); [lia|by eauto|done|].
      exists (1 + n)%nat, t. split; [by econstructor|]. split; [lia|]. destruct t as [[d c']|]; [|done].
      destruct Ht as (pre & Hpre & Hd & Hg & Hnd). exists (c :: pre). rewrite Hcomp, Hpre. split_and!; auto. }
    unfold mkdir_step in Hnext. rewrite Hcc, Hc, Hr2, <- Hc in Hnext.
    destruct (decide (c = DOT)) as [Ed|Hd]; [|destruct (decide (c = DOTDOT)) as [Edd|Hdd]].
    + apply (Hnext (Some node)); [right|done]. exists node. split_and!; [done..|]. intros. rewrite Ed. by constructor.
    + destruct (parent_or_self_spec s root node Hok Hnode) as [Hpo Hps]. rewrite Hpo, bind_Ok in Hnext.
      apply (Hnext (Some (parent_of s root node))); [right|done]. eexists. split_and!; [done..|]. intros. rewrite Edd. by constructor.
    + assert (node <> 0) as Hn0 by (destruct Hnode; by eapply node_nonnull).
      destruct (finddir_fs_spec s node c Hok Hn0 Hnode) as (y & Hfd & Hy). rewrite Hfd, bind_Ok in Hnext.
      destruct (Z.eqb_spec y 0) as [E|E]; [apply (Hnext None); [by left|done]|].
      destruct Hy as [?|Hy]; [done|]. pose proof Hy as (m & Hm & _). rewrite (deref_ok _ _ _ Hm), bind_Ok in Hnext.
      destruct (is_directory m); [apply (Hnext (Some y)); [right|done]|apply (Hnext None); [by left|done]].
      exists y. split_and!; [done|by eexists|]. intros. econstructor; [|done..].
      by apply (finddir_fs_child s node y c Hok Hn0 Hy).
Qed.

Lemma parent_of_added s s' d x c root y : only_added s s' d x c -> is_Some (node_at s y) ->
  parent_of s' root y = parent_of s root y.
Proof.
  intros (Hx & Hy & _) [m Hm]. unfold parent_of. rewrite Hy; [done|]. intros ->. congruence.
Qed.

Lemma resolves_added s s' d x c root : fs_ok s -> only_added s s' d x c -> forall a cs b,
  resolves s root a cs b -> is_Some (node_at s a) -> resolves s' root a cs b.
Proof.
  intros Hok Hadd a cs b Hr. induction Hr as [a|a cs b _ IH|a cs b _ IH|a e y cs b Hg Hc _ IH]; intros Ha.
  - constructor.
  - constructor. by apply IH.
  - constructor. rewrite (parent_of_added s s' d x c root a Hadd Ha). apply IH. by apply parent_or_self_spec.
  - destruct Hc as (m & Hm & Hp). destruct Hadd as (Hx & Hy & _).
    econstructor; [done|exists m; rewrite Hy; [done|congruence]|]. apply IH. by eexists.
Qed.

Lemma resolves_snoc s root a cs d c x : good_name c -> child s d x c -> resolves s root a cs d -> resolves s root a (cs ++ [c]) x.
Proof.
  intros Hg Hc Hr. induction Hr as [a|a cs d _ IH|a cs d _ IH|a e y cs d Hge Hce _ IH]; simpl.
  - econstructor; [done..|constructor].
  - constructor. by apply IH.
  - constructor. by apply IH.
  - econstructor; [done..|]. by apply IH.
Qed.

Lemma mkdir_path_correct s s' root wd path r :
  fs_ok s -> is_Some (node_at s root) -> is_Some (node_at s wd) -> Z.of_nat (List.length path) < 2 ^ 32 ->
  mkdir_path_fs root wd (Some path) s = Ok (r, s') ->
  fs_ok s' /\ (r = -1 /\ s' = s \/
    r = 0 /\ exists pre c d x, components path = pre ++ [c] /\ good_name c /\
      resolves s root (start_of root wd path) pre d /\ only_added s s' d x c /\
      resolve_path_fs root wd (Some path) s' = Ok x).
Proof.
  intros Hok Hroot Hwd Hlen Hrun.
  assert (root <> 0 /\ wd <> 0) as [Hr0 Hw0] by (destruct Hroot, Hwd; split; by eapply node_nonnull).
  assert (forall a b, Ok (-1, s) = Ok (a, b) -> fs_ok b /\ (a = -1 /\ b = s)) as Hfail by (intros ? ? [= <- <-]; done).
  unfold mkdir_path_fs in Hrun. destruct path as [|c0 p]; [apply Hfail in Hrun; tauto|].
  cbv beta iota in Hrun. set (path := c0 :: p) in *. rewrite (proj2 (Z.eqb_neq root 0)), (proj2 (Z.eqb_neq wd 0)) in Hrun by done.
  cbn [orb] in Hrun. change (if c0 =? SLASH then root else wd) with (start_of root wd path) in Hrun.
  assert (is_Some (node_at s (start_of root wd path))) as Hst by (unfold start_of, path; by destruct (c0 =? SLASH)).
  pose proof (skip_slashes_length path) as Hsl.
  destruct (skip_slashes_head path) as [Hnil|(c1 & p1 & Hp1 & Hc1)]; [rewrite Hnil in Hrun; apply Hfail in Hrun; tauto|].
  destruct (mkdir_runs s root Hok _ (skip_slashes path) (start_of root wd path) (Nat.le_refl _)) as (n & t & Hr & Hn & Ht); [by eauto|done|].
  rewrite Hp1 in Hrun. rewrite <- Hp1 in Hrun. rewrite (while_runs _ _ _ _ Hr), bind_Ok in Hrun by lia.
  destruct t as [[d c]|]; [|apply Hfail in Hrun; tauto].
  destruct Ht as (pre & Hpre & Hres & Hg & [m Hm]). rewrite components_skip in Hpre.
  assert (d <> 0) as Hd0 by by eapply node_nonnull.
  unfold mkdir_fs in Hrun. rewrite (proj2 (Z.eqb_neq d 0)), (deref_ok _ _ _ Hm), bind_Ok in Hrun by done.
  destruct (is_directory m) eqn:Hdir; [|apply Hfail in Hrun; tauto].
  destruct (mkdir m) as [cb|] eqn:Hcb; [|apply Hfail in Hrun; tauto].
  destruct (mkdir_adds s d m cb c r s' Hok Hm Hdir Hcb Hg Hrun) as [Hok' [?|(-> & x & Hx0 & Hadd)]]; [tauto|].
  split; [done|]. right. split; [done|]. exists pre, c, d, x. split_and!; try done.
  assert (forall y, is_Some (node_at s y) -> is_Some (node_at s' y)) as Hkeep.
  { intros y [z Hz]. destruct Hadd as (Hx & Hy & _). rewrite Hy; [by eexists|congruence]. }
  destruct (resolve_path_correct s' root wd path Hok' (Hkeep _ Hroot) (Hkeep _ Hwd) Hlen) as (q & -> & Hq).
  f_equal. apply Hq; [done|]. rewrite Hpre. apply (resolves_snoc _ _ _ _ d); [done| |].
  - destruct Hadd as (_ & _ & m' & Hm' & Hp' & Hn' & _). by exists m'.
  - by apply (resolves_added s s' d x c root Hok Hadd).
Qed.
End proofs.
