(* ===== verification/Initrd.v ===== *)
(** * initrd.c: the boot archive as a file system tree

    The archive is bytes of memory: a file count, 64 headers, file data.
    [initialise_initrd] builds tree nodes in a store named by the addresses
    [kmalloc] returned; a node's [fs_node] is its first field, so both have
    the same address.  [initrd_driver] gives the callbacks to the VFS. *)

From S2P Require Import Prelude Memory Common Kmalloc Vfs.

Definition INITRD_HEADER_SLOTS : Z := 64.
Definition MAX_PATH_COMPONENTS : Z := 32.
Definition sizeof_initrd_header_t : Z := 4.
Definition sizeof_initrd_file_header_t : Z := 76.
Definition sizeof_tree_node : Z := 204.

(** [initrd_file_header_t]: magic at 0, name at 1, offset at 68, length at 72. *)
Definition hd_magic (m : mem) (h : Z) : Z := load8 m h.
Definition hd_name (m : mem) (h j : Z) : Z := load8 m (h + 1 + j).
Definition hd_offset (m : mem) (h : Z) : Z := load32 m (h + 68).
Definition hd_length (m : mem) (h : Z) : Z := load32 m (h + 72).

(** The driver's functions that nodes point to. *)
Inductive initrd_callback : Type :=
  | InitrdRead
  | InitrdReaddir
  | InitrdFinddir
  | InitrdMkdir.

Record tree_node : Type := mk_tree_node {
  fs : fs_node initrd_callback;
  tree_parent : Z;
  first_child : Z;
  next_sibling : Z
}.

Record initrd (K : Type) : Type := mk_initrd {
  imem : mem;
  tree : gmap Z tree_node;
  file_headers : Z;
  initrd_location : Z;
  initrd_end : Z;
  initrd_root : Z;
  initrd_dev : Z;
  shared_dirent : list Z * Z;
  ialloc : K
}.
Arguments mk_initrd {K}. Arguments imem {K}. Arguments tree {K}. Arguments file_headers {K}.
Arguments initrd_location {K}. Arguments initrd_end {K}. Arguments initrd_root {K}.
Arguments initrd_dev {K}. Arguments shared_dirent {K}. Arguments ialloc {K}.

Definition blank_fs_node (nm : list Z) (fl : Z) : fs_node initrd_callback :=
  mk_fs_node nm 0 0 0 fl 0 0 0 None None None None None None None 0 0.
Definition set_fs_parent (p : Z) (n : fs_node initrd_callback) : fs_node initrd_callback :=
  mk_fs_node (name n) (mask n) (uid n) (gid n) (flags n) (inode n) (length n) (impl n)
    (read n) (write n) (open n) (close n) (readdir n) (finddir n) (mkdir n) (ptr n) p.
(** [configure_directory], on the public part of a node. *)
Definition as_directory (n : fs_node initrd_callback) : fs_node initrd_callback :=
  mk_fs_node (name n) (mask n) (uid n) (gid n) FS_DIRECTORY (inode n) (length n) (impl n)
    (read n) (write n) (open n) (close n) (Some InitrdReaddir) (Some InitrdFinddir) (Some InitrdMkdir)
    (ptr n) (parent n).
(** The fields [add_archived_file] sets. *)
Definition as_archived_file (header_index len : Z) (n : fs_node initrd_callback) : fs_node initrd_callback :=
  mk_fs_node (name n) (mask n) (uid n) (gid n) (flags n) header_index len (impl n)
    (Some InitrdRead) (write n) (open n) (close n) (readdir n) (finddir n) (mkdir n) (ptr n) (parent n).

Section initrd.
Context {K : Type} `{!Kmalloc K}.
Implicit Types s : initrd K.

Definition with_tree s (t : gmap Z tree_node) : initrd K :=
  mk_initrd (imem s) t (file_headers s) (initrd_location s) (initrd_end s) (initrd_root s) (initrd_dev s)
    (shared_dirent s) (ialloc s).
Definition with_imem s (m : mem) : initrd K :=
  mk_initrd m (tree s) (file_headers s) (initrd_location s) (initrd_end s) (initrd_root s) (initrd_dev s)
    (shared_dirent s) (ialloc s).
Definition with_dirent s (d : list Z * Z) : initrd K :=
  mk_initrd (imem s) (tree s) (file_headers s) (initrd_location s) (initrd_end s) (initrd_root s) (initrd_dev s)
    d (ialloc s).
Definition with_roots s (root dev : Z) : initrd K :=
  mk_initrd (imem s) (tree s) (file_headers s) (initrd_location s) (initrd_end s) root dev
    (shared_dirent s) (ialloc s).

Definition get_node (x : Z) s : res tree_node :=
  match tree s !! x with Some n => Ok n | None => Panic BAD_POINTER end.
Definition update_fs (x : Z) (f : fs_node initrd_callback -> fs_node initrd_callback) s : initrd K :=
  with_tree s (alter (fun n => mk_tree_node (f (fs n)) (tree_parent n) (first_child n) (next_sibling n)) x (tree s)).

Definition new_tree_node (nm : list Z) (fl : Z) s : res (Z * initrd K) :=
  '(node, k) ← kmalloc sizeof_tree_node (ialloc s);
  ASSERT (negb (node =? 0));;
  ASSERT (Z.of_nat (List.length nm) <? NAME_SIZE);;
  Ok (node, mk_initrd (imem s) (<[node := mk_tree_node (blank_fs_node nm fl) 0 0 0]> (tree s)) (file_headers s)
    (initrd_location s) (initrd_end s) (initrd_root s) (initrd_dev s) (shared_dirent s) k).

Definition configure_directory (directory : Z) s : initrd K := update_fs directory as_directory s.

Definition attach_child (dir child : Z) s : res (initrd K) :=
  ASSERT (negb (dir =? 0) && negb (child =? 0));;
  c ← get_node child s;
  ASSERT (tree_parent c =? 0);;
  p ← get_node dir s;
  let t := <[child := mk_tree_node (set_fs_parent dir (fs c)) dir (first_child c) (first_child p)]> (tree s) in
  Ok (with_tree s (alter (fun p => mk_tree_node (fs p) (tree_parent p) child (next_sibling p)) dir t)).

Definition find_child (directory : Z) (nm : list Z) s : res Z :=
  d ← get_node directory s;
  while (fun child =>
    if child =? 0 then Ok (Break 0)
    else
      c ← get_node child s;
      if decide (name (fs c) = nm) then Ok (Break child) else Ok (Continue (next_sibling c))) (first_child d).

Definition file_header (index : Z) s : Z := file_headers s + index * sizeof_initrd_file_header_t.

Definition initrd_read (node offset size buffer : Z) s : res (Z * initrd K) :=
  n ← get_node node s;
  let header := file_header (inode (fs n)) s in
  let len := hd_length (imem s) header in
  if len <=? offset then Ok (0, s)
  else
    let size := if len - offset <? size then len - offset else size in
    m ← memcpy buffer (u32 (initrd_location s + hd_offset (imem s) header + offset)) size (imem s);
    Ok (size, with_imem s m).

Definition initrd_readdir (node index : Z) s : res (option (list Z * Z) * initrd K) :=
  directory ← get_node node s;
  child ← while (fun '(child, index) =>
    if negb (child =? 0) && negb (index =? 0) then
      c ← get_node child s; Ok (Continue (next_sibling c, index - 1))
    else Ok (Break child)) (first_child directory, index);
  if child =? 0 then Ok (None, s)
  else
    c ← get_node child s;
    let entry := (name (fs c), inode (fs c)) in
    Ok (Some entry, with_dirent s entry).

Definition initrd_finddir (node : Z) (nm : list Z) s : res Z := find_child node nm s.

Definition initrd_mkdir (parent_node : Z) (nm : list Z) s : res (Z * initrd K) :=
  match nm with
  | [] => Ok (-1, s)
  | _ =>
      existing ← find_child parent_node nm s;
      if negb (existing =? 0) then Ok (-1, s)
      else
        '(directory, s) ← new_tree_node nm FS_DIRECTORY s;
        s ← attach_child parent_node directory (configure_directory directory s);
        Ok (0, s)
  end.

Definition get_or_create_directory (dir : Z) (nm : list Z) s : res (Z * initrd K) :=
  node ← find_child dir nm s;
  if negb (node =? 0) then
    n ← get_node node s;
    ASSERT (Z.land (flags (fs n)) 0x7 =? FS_DIRECTORY);;
    Ok (node, s)
  else
    '(node, s) ← new_tree_node nm FS_DIRECTORY s;
    s ← attach_child dir node (configure_directory node s);
    Ok (node, s).

(** One component of an archived name, from [position]. *)
Definition archived_component (header path_length : Z) (m : mem) (st : list Z * Z) : res (ctl (list Z * Z) (list Z * Z)) :=
  let '(component, position) := st in
  if (position <? path_length) && negb (hd_name m header position =? SLASH) then
    ASSERT (Z.of_nat (List.length component) + 1 <? NAME_SIZE);;
    Ok (Continue (component ++ [hd_name m header position], position + 1))
  else Ok (Break (component, position)).

(** One turn of the loop of [add_archived_file]: current directory, position
    in the name, components so far. *)
Definition archive_step (header header_index path_length : Z) (st : Z * Z * Z * initrd K) :
    res (ctl (Z * Z * Z * initrd K) (initrd K)) :=
  let '(directory, position, component_count, s) := st in
  if position <? path_length then
    '(component, position) ← while (archived_component header path_length (imem s)) ([], position);
    ASSERT (negb (Z.of_nat (List.length component) =? 0));;
    ASSERT (negb (bool_decide (component = DOT)) && negb (bool_decide (component = DOTDOT)));;
    let component_count := component_count + 1 in
    ASSERT (component_count <=? MAX_PATH_COMPONENTS);;
    if position <? path_length then
      let position := position + 1 in
      ASSERT ((position <? path_length) && negb (hd_name (imem s) header position =? SLASH));;
      '(directory, s) ← get_or_create_directory directory component s;
      Ok (Continue (directory, position, component_count, s))
    else
      existing ← find_child directory component s;
      ASSERT (existing =? 0);;
      '(file, s) ← new_tree_node component FS_FILE s;
      let s := update_fs file (as_archived_file header_index (hd_length (imem s) header)) s in
      s ← attach_child directory file s;
      Ok (Continue (directory, position, component_count, s))
  else Ok (Break s).

Definition archived_name_length (header : Z) (m : mem) : res Z :=
  while (fun path_length =>
    if (path_length <? 64) && negb (hd_name m header path_length =? 0) then Ok (Continue (path_length + 1))
    else Ok (Break path_length)) 0.

Definition add_archived_file (header_index : Z) s : res (initrd K) :=
  let header := file_header header_index s in
  path_length ← archived_name_length header (imem s);
  ASSERT ((0 <? path_length) && (path_length <? 64));;
  ASSERT (negb (hd_name (imem s) header 0 =? SLASH) && negb (hd_name (imem s) header (path_length - 1) =? SLASH));;
  while (archive_step header header_index path_length) (initrd_root s, 0, 0, s).

(** Names of the two built-in directories. *)
Definition INITRD : list Z := [105; 110; 105; 116; 114; 100].
Definition DEV : list Z := [100; 101; 118].

Definition load_header (i : Z) s : res (initrd K) :=
  let h := file_header i s in
  ASSERT (hd_magic (imem s) h =? 0xBF);;
  ASSERT (hd_offset (imem s) h <=? initrd_end s - initrd_location s);;
  ASSERT (hd_length (imem s) h <=? initrd_end s - initrd_location s - hd_offset (imem s) h);;
  add_archived_file i s.

Definition initialise_initrd (location end_ : Z) (m : mem) (dirent : list Z * Z) (k : K) : res (Z * initrd K) :=
  ASSERT (location <? end_);;
  ASSERT (sizeof_initrd_header_t + INITRD_HEADER_SLOTS * sizeof_initrd_file_header_t <=? end_ - location);;
  let s := mk_initrd m ∅ (location + sizeof_initrd_header_t) location end_ 0 0 dirent k in
  let nfiles := load32 m location in
  ASSERT (nfiles <=? INITRD_HEADER_SLOTS);;
  '(root, s) ← new_tree_node INITRD FS_DIRECTORY s;
  let s := with_roots (configure_directory root s) root 0 in
  '(dev, s) ← new_tree_node DEV FS_DIRECTORY s;
  s ← attach_child root dev (configure_directory dev s);
  let s := with_roots s root dev in
  s ← for_range 0 nfiles load_header s;
  Ok (initrd_root s, s).

(** The callbacks, as the VFS calls them. *)
#[export] Instance initrd_driver : FsDriver (initrd K) initrd_callback := {|
  node_at s x := fs <$> tree s !! x;
  call_read cb node offset size buffer s :=
    match cb with InitrdRead => initrd_read node offset size buffer s | _ => Panic BAD_POINTER end;
  call_write _ _ _ _ _ _ := Panic BAD_POINTER;
  call_open _ _ _ := Panic BAD_POINTER;
  call_close _ _ _ := Panic BAD_POINTER;
  call_readdir cb node index s :=
    match cb with InitrdReaddir => initrd_readdir node index s | _ => Panic BAD_POINTER end;
  call_finddir cb node nm s :=
    match cb with InitrdFinddir => initrd_finddir node nm s | _ => Panic BAD_POINTER end;
  call_mkdir cb node nm s :=
    match cb with InitrdMkdir => initrd_mkdir node nm s | _ => Panic BAD_POINTER end
|}.
End initrd.
