(* ===== verification/InitrdTree.v ===== *)
(** * The initrd tree: invariant, lookups, and adding a child

    [tree_ok] relates the sibling lists to the parent pointers: the list
    hanging off a directory holds exactly its children, once each, with
    different names.  It makes [initrd_driver] satisfy [FsLaws]. *)

From S2P Require Import Prelude LinkedList Memory Kmalloc Vfs VfsSpec Initrd.

Implicit Types (tr : gmap Z tree_node) (l : list Z).

(** [l] is the sibling list that starts at [c]. *)
Abbreviation siblings tr c l := (chain next_sibling tr c l).

Definition child_list tr (d : Z) (n : tree_node) l : Prop :=
  siblings tr (first_child n) l /\ NoDup l /\
  forall x, x ∈ l <-> exists m, tr !! x = Some m /\ tree_parent m = d.

Definition named_child tr (d x : Z) (c : list Z) : Prop :=
  exists m, tr !! x = Some m /\ tree_parent m = d /\ name (fs m) = c.

(** A directory has the driver's directory callbacks. *)
Definition configured (n : fs_node initrd_callback) : Prop :=
  is_directory n = true -> finddir n = Some InitrdFinddir /\ mkdir n = Some InitrdMkdir.

Record tree_ok tr : Prop := {
  ok_addr : forall x n, tr !! x = Some n -> 0 < x < 2 ^ 32;
  ok_kids : forall d n, tr !! d = Some n -> exists l, child_list tr d n l;
  ok_parent : forall x m, tr !! x = Some m -> parent (fs m) = tree_parent m /\
    (tree_parent m <> 0 -> good_name (name (fs m)) /\
       exists p, tr !! tree_parent m = Some p /\ is_directory (fs p) = true);
  ok_unique : forall d x y c, d <> 0 -> named_child tr d x c -> named_child tr d y c -> x = y;
  ok_configured : forall x n, tr !! x = Some n -> configured (fs n)
}.

Section lookups.
Context {K : Type} `{!Kmalloc K}.
Implicit Types s : initrd K.

Lemma get_node_ok x s n : tree s !! x = Some n -> get_node x s = Ok n.
Proof. intros H. unfold get_node. by rewrite H. Qed.

Lemma find_child_spec s d n nm : tree_ok (tree s) -> tree s !! d = Some n ->
  exists r, find_child d nm s = Ok r /\
    (r = 0 /\ (forall x, ~ named_child (tree s) d x nm) \/ named_child (tree s) d r nm).
Proof.
  intros Hok Hd. destruct (ok_kids _ Hok d n Hd) as (l & Hs & Hnd & Hl).
  unfold find_child. rewrite (get_node_ok _ _ _ Hd). rsimpl.
  match goal with |- context [while ?f _] => set (step := f) end.
  assert (Z.of_nat (List.length l) < 2 ^ 32) as Hlen.
  { apply addresses_bound; [done|]. intros x Hx. destruct (chain_in _ _ _ _ Hs x Hx) as [m Hm]. by apply (ok_addr _ Hok x m). }
  assert (forall x, x ∈ l -> exists m, tree s !! x = Some m /\ tree_parent m = d) as Hin by (intros x; apply Hl).
  assert (forall x, named_child (tree s) d x nm -> x ∈ l) as Hback by (intros x (m & Hm & Hp & _); apply Hl; by exists m).
  assert (exists k r, runs step k (first_child n) (Ok r) /\ (k <= List.length l)%nat /\
    (r = 0 /\ (forall x, named_child (tree s) d x nm -> x ∉ l) \/ named_child (tree s) d r nm)) as (k & r & Hrun & Hk & Hr).
  { clear Hnd Hl Hback Hlen Hd. generalize dependent (first_child n). induction l as [|x l IH]; intros c Hs.
    - simpl in Hs. subst c. exists 0%nat, 0. split; [by constructor|]. split; [lia|]. left. split; [done|]. set_solver.
    - destruct Hs as (-> & Hx0 & m & Hm & Hs).
      assert (step x = if decide (name (fs m) = nm) then Ok (Break x) else Ok (Continue (next_sibling m))) as Hstep.
      { unfold step. rewrite (proj2 (Z.eqb_neq x 0)), (get_node_ok _ _ _ Hm) by done. done. }
      destruct (decide (name (fs m) = nm)) as [E|E].
      + exists 0%nat, x. split; [by constructor|]. split; [lia|]. right.
        destruct (Hin x) as (m' & Hm' & Hp); [set_solver|]. exists m'. rewrite Hm in Hm'. injection Hm' as <-. done.
      + destruct (IH ltac:(set_solver) _ Hs) as (k & r & Hrun & Hk & Hr).
        exists (1 + k)%nat, r. split; [by econstructor|]. split; [simpl; lia|].
        destruct Hr as [[-> Hno]|Hr]; [left|by right]. split; [done|]. intros y Hy Hyl.
        apply elem_of_cons in Hyl as [->|Hyl]; [|by eapply Hno]. destruct Hy as (m' & Hm' & _ & Hn'). congruence. }
  exists r. split; [apply (while_runs _ _ _ _ Hrun); lia|].
  destruct Hr as [[-> Hno]|Hr]; [left|by right]. split; [done|]. intros x Hx. exact (Hno x Hx (Hback x Hx)).
Qed.
End lookups.

(** ** Adding a child *)

(** The store after [attach_child d x] for a new node with contents [f]. *)
Definition linked tr (d x : Z) (p : tree_node) (f : fs_node initrd_callback) : gmap Z tree_node :=
  <[d := mk_tree_node (fs p) (tree_parent p) x (next_sibling p)]>
    (<[x := mk_tree_node (set_fs_parent d f) d 0 (first_child p)]> tr).

Record addable tr (d x : Z) (p : tree_node) (f : fs_node initrd_callback) : Prop := {
  ad_dir : tr !! d = Some p /\ is_directory (fs p) = true;
  ad_new : tr !! x = None /\ 0 < x < 2 ^ 32;
  ad_name : good_name (name f) /\ forall y, ~ named_child tr d y (name f);
  ad_configured : configured f
}.

Section adding.
Variables (tr : gmap Z tree_node) (d x : Z) (p : tree_node) (f : fs_node initrd_callback).
Hypotheses (Hok : tree_ok tr) (Had : addable tr d x p f).

Lemma added_ne : x <> d.
Proof. destruct Had as [[Hd _] [Hx _] _ _]. congruence. Qed.

Lemma linked_new : linked tr d x p f !! x = Some (mk_tree_node (set_fs_parent d f) d 0 (first_child p)).
Proof. unfold linked. rewrite lookup_insert_ne by (apply not_eq_sym, added_ne). by rewrite lookup_insert_eq. Qed.

Lemma linked_old y m : tr !! y = Some m ->
  exists m', linked tr d x p f !! y = Some m' /\ fs m' = fs m /\ tree_parent m' = tree_parent m /\
    next_sibling m' = next_sibling m /\ first_child m' = if decide (y = d) then x else first_child m.
Proof.
  intros Hy. destruct Had as [[Hd _] [Hx _] _ _]. unfold linked. destruct (decide (y = d)) as [->|Hne].
  - rewrite lookup_insert_eq. eexists. split; [done|]. assert (m = p) as -> by congruence. done.
  - rewrite lookup_insert_ne by done. rewrite lookup_insert_ne by congruence. by exists m.
Qed.

Lemma linked_inv y m : linked tr d x p f !! y = Some m ->
  y = x /\ m = mk_tree_node (set_fs_parent d f) d 0 (first_child p) \/
  exists m0, tr !! y = Some m0 /\ fs m = fs m0 /\ tree_parent m = tree_parent m0.
Proof.
  intros Hy. destruct (decide (y = x)) as [->|Hne].
  - left. rewrite linked_new in Hy. by injection Hy as <-.
  - right. assert (is_Some (tr !! y)) as [m0 Hm0].
    { unfold linked in Hy. apply lookup_insert_Some in Hy as [[<- _]|[_ Hy]]; [destruct Had as [[Hd _] _ _ _]; by eexists|].
      apply lookup_insert_Some in Hy as [[<- _]|[_ Hy]]; [done|by eexists]. }
    exists m0. split; [done|]. destruct (linked_old y m0 Hm0) as (m' & Hm' & Hf & Hp & _).
    assert (m' = m) as -> by congruence. done.
Qed.

Lemma linked_named d' y c : named_child (linked tr d x p f) d' y c <->
  named_child tr d' y c \/ d' = d /\ y = x /\ c = name f.
Proof.
  split.
  - intros (m & Hm & Hp & Hn). apply linked_inv in Hm as [[-> ->]|(m0 & Hm0 & Hf & Hp0)]; [right; simpl in *; done|left].
    exists m0. split_and!; [done|congruence|congruence].
  - intros [(m & Hm & Hp & Hn)|(-> & -> & ->)].
    + destruct (linked_old y m Hm) as (m' & Hm' & Hf & Hp' & _). exists m'. split_and!; [done|congruence|congruence].
    + eexists. by rewrite linked_new.
Qed.

Lemma child_list_keep y m l : child_list tr y m l -> y <> d -> tr !! y = Some m ->
  forall m', linked tr d x p f !! y = Some m' -> child_list (linked tr d x p f) y m' l.
Proof.
  intros (Hs & Hnd & Hl) Hyd Hy m' Hm'. destruct (linked_old y m Hy) as (m2 & Hm2 & _ & _ & _ & Hfc).
  rewrite decide_False in Hfc by done. assert (m2 = m') as -> by congruence.
  split_and!; [|done|].
  - rewrite Hfc. eapply chain_keep; [|done]. intros z n _ Hz. destruct (linked_old z n Hz) as (n' & ? & _ & _ & ? & _). eauto.
  - intros z. rewrite Hl. split.
    + intros (n & Hn & Hp). destruct (linked_old z n Hn) as (n' & Hn' & _ & Hp' & _). exists n'. split; [done|congruence].
    + intros (n & Hn & Hp). apply linked_inv in Hn as [[-> ->]|(n0 & Hn0 & _ & Hp0)]; [simpl in Hp; congruence|].
      exists n0. split; [done|congruence].
Qed.

Lemma child_list_new l : child_list tr d p l ->
  forall m', linked tr d x p f !! d = Some m' -> child_list (linked tr d x p f) d m' (x :: l).
Proof.
  intros (Hs & Hnd & Hl) m' Hm'. destruct Had as [[Hd _] [Hx Hxa] _ _].
  destruct (linked_old d p Hd) as (m2 & Hm2 & _ & _ & _ & Hfc). rewrite decide_True in Hfc by done.
  assert (m2 = m') as -> by congruence.
  split_and!.
  - simpl. rewrite Hfc. split; [done|]. split; [lia|]. eexists. rewrite linked_new. split; [done|]. simpl.
    eapply chain_keep; [|done]. intros z n _ Hz. destruct (linked_old z n Hz) as (n' & ? & _ & _ & ? & _). eauto.
  - constructor; [|done]. intros Hxl. destruct (chain_in _ _ _ _ Hs x Hxl) as [? ?]. congruence.
  - intros z. rewrite elem_of_cons, Hl. split.
    + intros [->|(n & Hn & Hp)]; [eexists; by rewrite linked_new|].
      destruct (linked_old z n Hn) as (n' & Hn' & _ & Hp' & _). exists n'. split; [done|congruence].
    + intros (n & Hn & Hp). apply linked_inv in Hn as [[-> _]|(n0 & Hn0 & _ & Hp0)]; [by left|right].
      exists n0. split; [done|congruence].
Qed.

Lemma linked_ok : tree_ok (linked tr d x p f).
Proof.
  pose proof Had as [[Hd Hdir] [Hx Hxa] [Hg Hno] Hcf].
  split.
  - intros y m Hm. apply linked_inv in Hm as [[-> _]|(m0 & Hm0 & _)]; [done|by eapply ok_addr].
  - intros y m Hm. destruct (decide (y = x)) as [->|Hyx].
    + rewrite linked_new in Hm. injection Hm as <-. exists []. split_and!; [done|constructor|]. intros z.
      split; [by intros []%not_elem_of_nil|]. intros (n & Hn & Hp). exfalso.
      apply linked_inv in Hn as [[-> ->]|(n0 & Hn0 & _ & Hp0)]; [simpl in Hp; by apply added_ne|].
      destruct (ok_parent _ Hok z n0 Hn0) as [_ Hpp]. destruct Hpp as (_ & q & Hq & _); [lia|]. congruence.
    + pose proof Hm as Hm2. apply linked_inv in Hm2 as [[-> _]|(m0 & Hm0 & _)]; [done|].
      destruct (ok_kids _ Hok y m0 Hm0) as [l Hl]. destruct (decide (y = d)) as [->|Hyd].
      * assert (m0 = p) as -> by congruence. exists (x :: l). by apply child_list_new.
      * exists l. by apply (child_list_keep y m0 l).
  - intros y m Hm. apply linked_inv in Hm as [[-> ->]|(m0 & Hm0 & Hf & Hp)].
    + simpl. split; [done|]. intros _. split; [done|]. destruct (linked_old d p Hd) as (m' & Hm' & Hf & _).
      exists m'. split; [done|]. by rewrite Hf.
    + destruct (ok_parent _ Hok y m0 Hm0) as [H1 H2]. rewrite Hf, Hp. split; [done|]. intros H0.
      destruct (H2 H0) as (Hgn & q & Hq & Hqd). split; [done|].
      destruct (linked_old _ q Hq) as (q' & Hq' & Hqf & _). exists q'. split; [done|]. by rewrite Hqf.
  - intros d' y z c Hd0 [Hy|(-> & -> & ->)]%linked_named [Hz|(E1 & -> & E3)]%linked_named; [by eapply (ok_unique _ Hok)| | |done].
    + exfalso. subst. by apply (Hno y).
    + exfalso. by apply (Hno z).
  - intros y m Hm. apply linked_inv in Hm as [[-> ->]|(m0 & Hm0 & Hf & _)]; [exact Hcf|].
    rewrite Hf. by eapply ok_configured.
Qed.
End adding.
