(* ===== verification/InitrdProofs.v ===== *)
(** * The initrd driver implements the VFS interface

    [initrd_mkdir], [get_or_create_directory] and the addition of a file are
    all one step on the tree ([linked]); the driver therefore satisfies
    [FsLaws], so the path theorems hold for it. *)

From S2P Require Import Prelude LinkedList Memory Kmalloc Vfs VfsSpec VfsProofs Initrd InitrdTree.

Section proofs.
Context {K : Type} `{!Kmalloc K} `{!KmallocLaws K}.
Implicit Types s : initrd K.

Record initrd_ok s : Prop := {
  io_tree : tree_ok (tree s);
  io_live : forall x n, tree s !! x = Some n -> x ∈ k_live (ialloc s)
}.

(** Everything but the tree and the allocator is as before. *)
Record same_archive s s' : Prop := {
  sa_mem : imem s' = imem s;
  sa_headers : file_headers s' = file_headers s;
  sa_location : initrd_location s' = initrd_location s;
  sa_end : initrd_end s' = initrd_end s;
  sa_root : initrd_root s' = initrd_root s;
  sa_dev : initrd_dev s' = initrd_dev s
}.

Lemma same_archive_refl s : same_archive s s.
Proof. by split. Qed.
Lemma same_archive_trans s1 s2 s3 : same_archive s1 s2 -> same_archive s2 s3 -> same_archive s1 s3.
Proof. intros [] []. split; congruence. Qed.

(** [s'] is [s] with one more node: [x], a child of [d] with contents [f]. *)
Record child_added s s' (d x : Z) (f : fs_node initrd_callback) : Prop := {
  ca_ok : initrd_ok s';
  ca_same : same_archive s s';
  ca_new : tree s !! x = None /\ x <> 0;
  ca_node : fs <$> tree s' !! x = Some (set_fs_parent d f);
  ca_old : forall y m, tree s !! y = Some m -> exists m', tree s' !! y = Some m' /\ fs m' = fs m /\ tree_parent m' = tree_parent m;
  ca_inv : forall y m, tree s' !! y = Some m -> y = x \/ exists m0, tree s !! y = Some m0 /\ fs m = fs m0;
  ca_named : forall d' y c, named_child (tree s') d' y c <-> named_child (tree s) d' y c \/ d' = d /\ y = x /\ c = name f
}.

(** How a fresh node is filled in before it is attached. *)
Record node_setup (g : fs_node initrd_callback -> fs_node initrd_callback) (nm : list Z) (fl : Z) : Prop := {
  ns_name : name (g (blank_fs_node nm fl)) = nm;
  ns_parent : parent (g (blank_fs_node nm fl)) = 0;
  ns_configured : configured (g (blank_fs_node nm fl))
}.

Lemma setup_directory nm fl : node_setup as_directory nm fl.
Proof. split; done. Qed.
Lemma setup_file i len nm : node_setup (as_archived_file i len) nm FS_FILE.
Proof. split; done. Qed.

Lemma add_child_spec s d p nm fl g : initrd_ok s -> tree s !! d = Some p -> is_directory (fs p) = true ->
  good_name nm -> (forall y, ~ named_child (tree s) d y nm) -> node_setup g nm fl ->
  alloc_failed (new_tree_node nm fl s) \/
  exists x s1 s', new_tree_node nm fl s = Ok (x, s1) /\ same_archive s s1 /\
    attach_child d x (update_fs x g s1) = Ok s' /\ child_added s s' d x (g (blank_fs_node nm fl)).
Proof.
  intros [Hok Hlive] Hd Hdir Hg Hno [Hgn Hgp Hgc].
  unfold new_tree_node. destruct (kmalloc_cases sizeof_tree_node (ialloc s)) as [(x & k & Hk)|Hf].
  2:{ left. by apply alloc_failed_bind. }
  right. destruct (kmalloc_plain_fresh _ _ _ _ Hk) as (Hx & Hnl & Hl). rewrite Hk. rsimpl.
  rewrite (proj2 (Z.eqb_neq x 0)) by lia. do 1 assert_step.
  rewrite ASSERT_ok by (apply Z.ltb_lt, Hg). rsimpl.
  assert (tree s !! x = None) as Hnone by (destruct (tree s !! x) as [m|] eqn:E; [by apply Hlive in E|done]).
  assert (d <> 0 /\ x <> d) as [Hd0 Hxd] by (split; [apply (ok_addr _ Hok) in Hd; lia|congruence]).
  eexists x, _, _. split; [done|]. split; [by split|].
  unfold attach_child. rewrite (proj2 (Z.eqb_neq d 0)), (proj2 (Z.eqb_neq x 0)) by lia. do 1 assert_step.
  unfold update_fs, get_node. simpl. rewrite alter_insert_eq, lookup_insert_eq. rsimpl.
  rewrite (lookup_insert_ne _ x d), Hd by done. cbn [tree_parent]. rewrite Z.eqb_refl. assert_step.
  split; [done|]. set (f := g (blank_fs_node nm fl)) in *. cbn [fs first_child].
  match goal with |- child_added s ?s' d x f => set (s2 := s') end.
  assert (addable (tree s) d x p f) as Had by (split; rewrite ?Hgn; done).
  assert (tree s2 = linked (tree s) d x p f) as Ht.
  { unfold s2, linked, with_tree. simpl. apply map_eq. intros y. destruct (decide (y = d)) as [->|Hyd].
    - rewrite lookup_alter_eq, lookup_insert_eq, !lookup_insert_ne, Hd by done. done.
    - rewrite lookup_alter_ne, (lookup_insert_ne _ d y) by done. destruct (decide (y = x)) as [->|Hyx].
      + by rewrite !lookup_insert_eq.
      + by rewrite !lookup_insert_ne. }
  split.
  - split; rewrite Ht.
    + by apply linked_ok.
    + intros y m Hy. change (ialloc s2) with k. rewrite Hl, elem_of_union, elem_of_singleton.
      apply linked_inv in Hy as [[-> _]|(m0 & Hm0 & _)]; [by left|right; by eapply Hlive|done].
  - by split.
  - split; [done|lia].
  - rewrite Ht, (linked_new (tree s) d x p f Had). done.
  - intros y m Hy. rewrite Ht. destruct (linked_old (tree s) d x p f Had y m Hy) as (m' & H1 & H2 & H3 & _). eauto.
  - intros y m Hy. rewrite Ht in Hy. apply linked_inv in Hy as [[-> _]|(m0 & H1 & H2 & _)]; [by left|right; eauto|done].
  - intros d' y c. rewrite Ht. by apply linked_named.
Qed.

(** ** The laws *)

Lemma initrd_mkdir_spec s d p nm r s' : initrd_ok s -> tree s !! d = Some p -> is_directory (fs p) = true ->
  good_name nm -> initrd_mkdir d nm s = Ok (r, s') ->
  r = -1 /\ s' = s \/ r = 0 /\ exists x, child_added s s' d x (as_directory (blank_fs_node nm FS_DIRECTORY)).
Proof.
  intros Hok Hd Hdir Hg Hrun. unfold initrd_mkdir in Hrun. destruct nm as [|c nm]; [by destruct (gn_nonempty _ Hg)|].
  destruct (find_child_spec s d p (c :: nm) (io_tree _ Hok) Hd) as (e & He & Hcase). rewrite He, bind_Ok in Hrun.
  destruct (Z.eqb_spec e 0) as [E|E]; cbn [negb] in Hrun; [|injection Hrun as <- <-; by left].
  destruct Hcase as [[_ Hno]|(m & Hm & _)].
  2:{ rewrite E in Hm. apply (ok_addr _ (io_tree _ Hok)) in Hm. lia. }
  destruct (add_child_spec s d p (c :: nm) FS_DIRECTORY as_directory Hok Hd Hdir Hg Hno (setup_directory _ _))
    as [Hf|(x & s1 & s2 & Hn & _ & Ha & Hadd)].
  - exfalso. by eapply (alloc_failed_not_ok _ (alloc_failed_bind _ _ Hf)).
  - rewrite Hn, bind_Ok in Hrun. unfold configure_directory in Hrun. rewrite Ha, bind_Ok in Hrun.
    injection Hrun as <- <-. right. split; [done|]. by exists x.
Qed.

Lemma node_at_tree s x m : tree s !! x = Some m -> node_at s x = Some (fs m).
Proof. simpl. by intros ->. Qed.

Lemma node_at_inv s x n : node_at s x = Some n -> exists m, tree s !! x = Some m /\ fs m = n.
Proof. simpl. intros (m & -> & Hm)%fmap_Some. by exists m. Qed.

Lemma child_named s d x c : initrd_ok s -> child s d x c <-> named_child (tree s) d x c.
Proof.
  intros [Hok _]. split.
  - intros (n & Hn & Hp & Hc). apply node_at_inv in Hn as (m & Hm & <-). exists m. split; [done|].
    by rewrite <- (proj1 (ok_parent _ Hok x m Hm)).
  - intros (m & Hm & Hp & Hc). exists (fs m). split; [by apply node_at_tree|].
    by rewrite (proj1 (ok_parent _ Hok x m Hm)).
Qed.

#[export] Program Instance initrd_laws : FsLaws (initrd K) initrd_callback := {|
  fs_ok := initrd_ok
|}.
Next Obligation.
  intros s [Hok _]. simpl. destruct (tree s !! 0) as [m|] eqn:E; [|done].
  apply (ok_addr _ Hok) in E. lia.
Qed.
Next Obligation.
  intros s x n Hio Hx Hp. pose proof Hio as [Hok _]. apply node_at_inv in Hx as (m & Hm & <-).
  destruct (ok_parent _ Hok x m Hm) as [Hpe Hpp]. destruct (Hpp ltac:(congruence)) as (Hg & p & Hpn & Hdir).
  split; [done|]. destruct (ok_configured _ Hok _ p Hpn Hdir) as [Hf _].
  exists (fs p), InitrdFinddir. rewrite Hpe. split_and!; [by apply node_at_tree|done|done|].
  simpl. unfold initrd_finddir. destruct (find_child_spec s (tree_parent m) p (name (fs m)) Hok Hpn) as (r & -> & Hr).
  assert (named_child (tree s) (tree_parent m) x (name (fs m))) as Hx by (by exists m).
  f_equal. destruct Hr as [[_ Hno]|Hr]; [by apply Hno in Hx|].
  apply (ok_unique _ Hok (tree_parent m) r x (name (fs m))); [congruence|done..].
Qed.
Next Obligation.
  intros s d n cb c Hio Hd Hdir Hcb. pose proof Hio as [Hok _]. apply node_at_inv in Hd as (m & Hm & <-).
  destruct (ok_configured _ Hok _ m Hm Hdir) as [Hf _]. rewrite Hf in Hcb. injection Hcb as <-.
  simpl. unfold initrd_finddir. destruct (find_child_spec s d m c Hok Hm) as (r & -> & Hr). exists r. split; [done|].
  destruct Hr as [[-> _]|Hr]; [by left|right]. by apply child_named.
Qed.
Next Obligation.
  intros s d n cb c r s' Hio Hd Hdir Hcb Hg Hrun. pose proof Hio as [Hok _]. apply node_at_inv in Hd as (m & Hm & <-).
  destruct (ok_configured _ Hok _ m Hm Hdir) as [_ Hk]. rewrite Hk in Hcb. injection Hcb as <-. simpl in Hrun.
  destruct (initrd_mkdir_spec s d m c r s' Hio Hm Hdir Hg Hrun) as [[-> ->]|(-> & x & [Hio' _ [Hx Hx0] Hnode Hold Hinv _])].
  - split; [done|by left].
  - split; [done|]. right. split; [done|]. exists x. split; [done|]. split_and!.
    + simpl. by rewrite Hx.
    + intros y Hy. simpl. destruct (tree s !! y) as [a|] eqn:E.
      * destruct (Hold y a E) as (a' & -> & Hf & _). simpl. by rewrite Hf.
      * destruct (tree s' !! y) as [a'|] eqn:E'; [|done]. destruct (Hinv y a' E') as [?|(a & Ha & _)]; [done|congruence].
    + eexists. split; [exact Hnode|]. done.
Qed.
End proofs.
