(* ===== verification/InitrdMount.v ===== *)
(** * Mounting a boot archive

    What [initialise_initrd] builds from an archive whose names are
    prefix-free: every archived file is found under its path, and reading it
    gives the archived bytes.  [archive_inv] is the loop invariant: which
    nodes the tree holds after some of the files.  The last part reads an
    archived file through the mounted tree. *)

From S2P Require Import Prelude LinkedList Memory Common Kmalloc Vfs VfsSpec VfsProofs Initrd InitrdTree InitrdProofs.

(** The node at the end of a list of names below [root]. *)
Inductive at_path (tr : gmap Z tree_node) (root : Z) : list (list Z) -> Z -> Prop :=
  | at_root : at_path tr root [] root
  | at_child ps d c x : at_path tr root ps d -> named_child tr d x c -> at_path tr root (ps ++ [c]) x.

(** [nm] is the string in the name field of header [h]. *)
Definition name_field (m : mem) (h : Z) (nm : list Z) : Prop :=
  (forall j c, nm !! j = Some c -> hd_name m h (Z.of_nat j) = c) /\ hd_name m h (Z.of_nat (List.length nm)) = 0.

(** An archived file: its path and where its bytes are. *)
Record afile : Type := mk_afile {
  af_path : list (list Z);
  af_offset : Z;
  af_length : Z
}.

Record header_ok (m : mem) (h size : Z) (f : afile) : Prop := {
  ho_magic : hd_magic m h = 0xBF;
  ho_name : name_field m h (join_names (af_path f));
  ho_bytes : 0 ∉ join_names (af_path f);
  ho_size : Z.of_nat (List.length (join_names (af_path f))) < 64;
  ho_names : Forall good_name (af_path f) /\ af_path f <> [];
  ho_offset : hd_offset m h = af_offset f /\ 0 <= af_offset f <= size;
  ho_length : hd_length m h = af_length f /\ 0 <= af_length f <= size - af_offset f
}.

(** No path is another one, or leads through another one, or is [dev]. *)
Definition compatible (paths : list (list (list Z))) : Prop :=
  NoDup paths /\ ([DEV] ∉ paths) /\
  forall a b, a ∈ paths -> b ∈ paths -> (a `prefix_of` b) -> a = b.

(** ** Parsing a name *)

Section parse.
Context (m : mem) (h : Z).

Lemma name_length_spec nm : name_field m h nm -> (0 ∉ nm) -> Z.of_nat (List.length nm) < 64 ->
  archived_name_length h m = Ok (Z.of_nat (List.length nm)).
Proof.
  intros [Hc Hend] Hz Hl. unfold archived_name_length.
  match goal with |- while ?f ?s0 = _ =>
    destruct (while_rule f (fun i => 0 <= i <= Z.of_nat (List.length nm)) (fun r => r = Z.of_nat (List.length nm))
      (fun i => Z.of_nat (List.length nm) - i) s0) as (r & -> & ->) end; [|lia|lia|done].
  intros i Hi. rewrite (proj2 (Z.ltb_lt i 64)) by lia. cbn [andb].
  destruct (decide (i = Z.of_nat (List.length nm))) as [->|Hne].
  - by rewrite Hend.
  - destruct (lookup_lt_is_Some_2 nm (Z.to_nat i)) as [c Hci]; [lia|].
    pose proof (Hc _ _ Hci) as Hh. rewrite Z2Nat.id in Hh by lia. rewrite Hh.
    rewrite (proj2 (Z.eqb_neq c 0)) by (intros ->; by apply Hz, list_elem_of_lookup_2 with (Z.to_nat i)).
    cbn [negb]. lia.
Qed.

(** The copy of a component [c] that is followed by [rest]. *)
Lemma component_spec pre c rest : name_field m h (pre ++ c ++ rest) -> (SLASH ∉ c) ->
  rest = [] \/ (exists r, rest = SLASH :: r) -> Z.of_nat (List.length c) < NAME_SIZE ->
  while (archived_component h (Z.of_nat (List.length (pre ++ c ++ rest))) m) ([], Z.of_nat (List.length pre)) =
    Ok (c, Z.of_nat (List.length pre + List.length c)).
Proof.
  intros [Hc _] Hns Hrest Hl. set (n := Z.of_nat (List.length (pre ++ c ++ rest))).
  enough (forall k c1 c2, c = c1 ++ c2 -> List.length c2 = k ->
    runs (archived_component h n m) k (c1, Z.of_nat (List.length pre + List.length c1))
      (Ok (c, Z.of_nat (List.length pre + List.length c)))) as Hgen.
  { apply (while_runs _ _ _ (List.length c)); [|unfold NAME_SIZE in *; lia].
    specialize (Hgen _ [] c eq_refl eq_refl). simpl in Hgen. by rewrite Nat.add_0_r in Hgen. }
  assert (forall j x, c !! j = Some x -> hd_name m h (Z.of_nat (List.length pre + j)) = x) as Hchar.
  { intros j x Hj. apply Hc. rewrite lookup_app_r by lia. rewrite lookup_app_l; [|by apply lookup_lt_Some in Hj; lia].
    by replace (List.length pre + j - List.length pre)%nat with j by lia. }
  intros k. induction k as [|k IH]; intros c1 c2 Ec Hk.
  - apply nil_length_inv in Hk. subst c2. rewrite app_nil_r in Ec. subst c1. constructor. unfold archived_component.
    destruct Hrest as [->|[r ->]].
    + rewrite (proj2 (Z.ltb_ge _ n)); [done|]. unfold n. rewrite !length_app. simpl. lia.
    + assert (hd_name m h (Z.of_nat (List.length pre + List.length c)) = SLASH) as ->.
      { apply Hc. rewrite app_assoc, lookup_app_r, length_app, Nat.sub_diag by (rewrite length_app; lia). done. }
      by rewrite andb_false_r.
  - destruct c2 as [|x c2]; [done|]. simpl in Hk.
    assert (c !! List.length c1 = Some x) as Hcx by by rewrite Ec, lookup_app_r, Nat.sub_diag by lia.
    pose proof (lookup_lt_Some _ _ _ Hcx) as Hlt. pose proof (Hchar _ _ Hcx) as Hx.
    assert (x <> SLASH) as Hxs by (intros ->; by apply Hns, list_elem_of_lookup_2 with (List.length c1)).
    apply (runs_step _ k _ (c1 ++ [x], Z.of_nat (List.length pre + List.length c1) + 1)).
    + unfold archived_component. rewrite (proj2 (Z.ltb_lt _ n)) by (unfold n; rewrite !length_app; lia).
      rewrite Hx, (proj2 (Z.eqb_neq x SLASH)) by done. cbn [andb negb].
      rewrite ASSERT_ok by (apply Z.ltb_lt; lia). done.
    + replace (Z.of_nat (List.length pre + List.length c1) + 1) with (Z.of_nat (List.length pre + List.length (c1 ++ [x])))
        by (rewrite length_app; simpl; lia).
      apply (IH (c1 ++ [x]) c2); [by rewrite <- app_assoc|lia].
Qed.
End parse.

(** ** The tree below the root *)

Section paths.
Context {K : Type} `{!Kmalloc K} `{!KmallocLaws K}.
Implicit Types (s : initrd K) (ps qs : list (list Z)).

Lemma at_path_in tr root ps x : is_Some (tr !! root) -> at_path tr root ps x -> is_Some (tr !! x).
Proof. intros Hr Hp. destruct Hp as [|ps d c x _ (m & Hm & _)]; [done|by eexists]. Qed.

Record rooted s : Prop := {
  rt_root : exists r, tree s !! initrd_root s = Some r /\ tree_parent r = 0 /\ is_directory (fs r) = true
}.

Lemma at_path_unique s ps qs x : initrd_ok s -> rooted s ->
  at_path (tree s) (initrd_root s) ps x -> at_path (tree s) (initrd_root s) qs x -> ps = qs.
Proof.
  intros [Hok _] [(r & Hr & Hr0 & _)] Hp. revert qs.
  assert (forall ps d c, at_path (tree s) (initrd_root s) ps d -> named_child (tree s) d (initrd_root s) c -> False) as Hroot.
  { intros ps' d c Hd (m & Hm & Hmp & _). assert (m = r) as -> by congruence. rewrite Hr0 in Hmp. subst d.
    destruct (at_path_in _ _ _ _ (mk_is_Some _ _ Hr) Hd) as [z Hz]. apply (ok_addr _ Hok) in Hz. lia. }
  induction Hp as [|ps d c x Hd IH Hc]; intros qs Hq; inversion Hq as [|qs' d' c' x' Hd' Hc']; subst; [done|..].
  - exfalso. eauto.
  - exfalso. eauto.
  - destruct Hc as (m & Hm & Hmp & Hmn), Hc' as (m' & Hm' & Hmp' & Hmn').
    assert (m' = m) as -> by congruence. rewrite Hmp in Hmp'. subst d'. f_equal; [by apply IH|congruence].
Qed.

Lemma at_path_functional s ps x y : initrd_ok s -> rooted s ->
  at_path (tree s) (initrd_root s) ps x -> at_path (tree s) (initrd_root s) ps y -> x = y.
Proof.
  intros [Hok _] [(r & Hr & _)] Hx. revert y. induction Hx as [|ps d c x Hd IH Hc]; intros y Hy.
  - inversion Hy as [|? ? ? ? _ _ E]; [done|]. by destruct ps.
  - inversion Hy as [E|ps' d' c' y' Hd' Hc' E]; [by destruct ps|]. apply app_inj_tail in E as [-> ->].
    assert (d' = d) as -> by (symmetry; by apply IH).
    destruct (at_path_in _ _ _ _ (mk_is_Some _ _ Hr) Hd) as [z Hz]. apply (ok_addr _ Hok) in Hz.
    apply (ok_unique _ Hok d x y c); [lia|done|done].
Qed.

(** Following names is what path resolution does. *)
Lemma at_path_resolves s ps x : initrd_ok s -> rooted s ->
  at_path (tree s) (initrd_root s) ps x -> resolves s (initrd_root s) (initrd_root s) ps x.
Proof.
  intros Hio [(r & Hr & _)]. induction 1 as [|ps d c x Hd IH Hc]; [constructor|].
  apply (resolves_snoc _ _ _ _ d); [|by apply child_named|done].
  destruct Hc as (m & Hm & Hp & <-). pose proof Hio as [Hok _].
  destruct (at_path_in _ _ _ _ (mk_is_Some _ _ Hr) Hd) as [z Hz]. apply (ok_addr _ Hok) in Hz.
  destruct (ok_parent _ Hok x m Hm) as [_ Hpp]. apply Hpp. lia.
Qed.

Lemma rooted_added s s' d x f : initrd_ok s -> rooted s -> child_added s s' d x f -> rooted s'.
Proof.
  intros Hio [(r & Hr & Hp & Hd)] [_ [_ _ _ _ Hroot _] _ _ Hold _ _].
  destruct (Hold _ r Hr) as (r' & Hr' & Hf & Hp'). constructor. exists r'. rewrite Hroot, Hf, Hp'. done.
Qed.

Lemma at_path_added s s' d x f ps qs y : initrd_ok s -> rooted s -> child_added s s' d x f ->
  at_path (tree s) (initrd_root s) ps d ->
  at_path (tree s') (initrd_root s') qs y <->
    at_path (tree s) (initrd_root s) qs y \/ qs = ps ++ [name f] /\ y = x.
Proof.
  intros Hio Hrt Hadd Hps. pose proof Hrt as [(r & Hr & _)].
  pose proof Hadd as [_ [_ _ _ _ Hroot _] [Hx _] _ _ _ Hnamed]. rewrite Hroot. split.
  - induction 1 as [|qs e c y He IH Hc]; [left; constructor|].
    apply Hnamed in Hc as [Hc|(-> & -> & ->)].
    + destruct IH as [IH|[-> ->]]; [left; by econstructor|]. exfalso.
      destruct Hc as (m & Hm & Hmp & _). pose proof Hio as [Hok _].
      destruct (ok_parent _ Hok y m Hm) as [_ Hpp]. destruct Hpp as (_ & q & Hq & _); [|congruence].
      rewrite Hmp. destruct Hadd as [_ _ [_ Hx0] _ _ _ _]. done.
    + right. split; [|done]. destruct IH as [IH|[-> ->]].
      * f_equal. by eapply at_path_unique.
      * destruct (at_path_in _ _ _ _ (mk_is_Some _ _ Hr) Hps) as [z Hz]. congruence.
  - assert (forall qs y, at_path (tree s) (initrd_root s) qs y -> at_path (tree s') (initrd_root s) qs y) as Hmono.
    { induction 1 as [|qs' e c z He IH Hc]; [constructor|]. apply at_child with (d := e); [done|]. apply Hnamed. by left. }
    intros [Hq|[-> ->]]; [by apply Hmono|]. apply at_child with (d := d); [by apply Hmono|]. apply Hnamed. by right.
Qed.
End paths.

(** ** Mounting a boot archive: the loops of initrd.c

    Each header adds one path to the tree; [archive_inv] says which nodes
    the tree holds, and [initialise_initrd] ends with every archived file
    under its path. *)

(** A name of [n] components has at least [2 n - 1] characters. *)
Lemma join_names_length names : Forall good_name names ->
  (2 * List.length names <= List.length (join_names names) + 1)%nat.
Proof.
  induction 1 as [|c names Hc Hns IH]; [simpl; lia|]. pose proof (gn_nonempty _ Hc).
  destruct c as [|x c]; [done|]. simpl join_names. destruct names; simpl in *; rewrite ?length_app; simpl in *; lia.
Qed.

(** How the archived name continues after a component. *)
Lemma join_names_cons c names :
  join_names (c :: names) = c ++ match names with [] => [] | _ => SLASH :: join_names names end.
Proof. by destruct names. Qed.

Lemma join_names_head names : Forall good_name names -> names <> [] ->
  exists x r, join_names names = x :: r /\ x <> SLASH.
Proof.
  intros Hg Hne. destruct Hg as [|[|x c] names Hc _]; [done|by destruct (gn_nonempty _ Hc)|].
  rewrite join_names_cons. exists x. eexists. split; [done|]. pose proof (gn_no_slash _ Hc). set_solver.
Qed.

Section mount.
Context {K : Type} `{!Kmalloc K} `{!KmallocLaws K}.
Implicit Types (s : initrd K) (ps : list (list Z)) (files : list (list (list Z))).

Abbreviation reached s ps x := (at_path (tree s) (initrd_root s) ps x).

Lemma alloc_failed_runs {T R} (f : T -> res (ctl T R)) t :
  alloc_failed (f t) -> exists r, runs f 0 t r /\ alloc_failed r.
Proof.
  intros (sz & al & ph & k & H). destruct (kmalloc_int sz al ph k) as [?|msg|] eqn:E; [done|..].
  - exists (Panic msg). split; [by constructor|]. exists sz, al, ph, k. by rewrite E.
  - exists OutOfFuel. split; [by constructor|]. exists sz, al, ph, k. by rewrite E.
Qed.

(** The nodes of the tree are the directories on the way to [opened] files
    and [files] themselves. *)
Definition archive_inv s (opened files : list (list (list Z))) : Prop :=
  forall ps x m, reached s ps x -> tree s !! x = Some m ->
    is_directory (fs m) = true /\
      (ps = [] \/ ps = [DEV] \/ exists a, a ∈ opened /\ (ps `prefix_of` a) /\ ps <> a) \/
    is_directory (fs m) = false /\ ps ∈ files.

(** [s'] keeps all nodes of [s]. *)
Record progress s s' : Prop := {
  pg_ok : initrd_ok s';
  pg_rooted : rooted s';
  pg_same : same_archive s s';
  pg_stays : forall ps x m, reached s ps x -> tree s !! x = Some m ->
    reached s' ps x /\ exists m', tree s' !! x = Some m' /\ fs m' = fs m
}.

Lemma progress_refl s : initrd_ok s -> rooted s -> progress s s.
Proof. intros H1 H2. split; [done|done|apply same_archive_refl|eauto]. Qed.

Lemma progress_trans s1 s2 s3 : progress s1 s2 -> progress s2 s3 -> progress s1 s3.
Proof.
  intros [_ _ Hs1 Hst1] [Ho Hr Hs2 Hst2]. split; [done|done|by eapply same_archive_trans|].
  intros ps x m Hp Hx. destruct (Hst1 _ _ _ Hp Hx) as (Hp' & m' & Hx' & Hf).
  destruct (Hst2 _ _ _ Hp' Hx') as (Hp'' & m'' & Hx'' & Hf'). split; [done|]. exists m''. split; [done|congruence].
Qed.

Lemma progress_added s s' d x f ps : initrd_ok s -> rooted s -> child_added s s' d x f -> reached s ps d -> progress s s'.
Proof.
  intros Hio Hrt Hadd Hps. split; [apply Hadd|by eapply rooted_added|apply Hadd|].
  intros qs y m Hq Hy. split; [apply (at_path_added s s' d x f ps); try done; by left|].
  destruct (ca_old _ _ _ _ _ Hadd y m Hy) as (m' & ? & ? & _). eauto.
Qed.

(** A new directory on the way to an opened file, or a new file. *)
Lemma archive_inv_added s s' d x f ps opened files files' : initrd_ok s -> rooted s ->
  child_added s s' d x f -> reached s ps d -> archive_inv s opened files -> (forall a, a ∈ files -> a ∈ files') ->
  (is_directory f = true /\ (exists a, a ∈ opened /\ ((ps ++ [name f]) `prefix_of` a) /\ ps ++ [name f] <> a) \/
   is_directory f = false /\ (ps ++ [name f]) ∈ files') ->
  archive_inv s' opened files'.
Proof.
  intros Hio Hrt Hadd Hps Hinv Hsub Hnew qs y m Hq Hy.
  apply (at_path_added s s' d x f ps qs y Hio Hrt Hadd Hps) in Hq as [Hq|[-> ->]].
  - destruct Hrt as [(r & Hr & _)]. destruct (at_path_in _ _ _ _ (mk_is_Some _ _ Hr) Hq) as [m0 Hm0].
    destruct (ca_old _ _ _ _ _ Hadd y m0 Hm0) as (m' & Hm' & Hf & _). assert (m' = m) as -> by congruence.
    rewrite Hf. destruct (Hinv qs y m0 Hq Hm0) as [H|[H1 H2]]; [by left|right; auto].
  - pose proof (ca_node _ _ _ _ _ Hadd) as Hn. rewrite Hy in Hn. injection Hn as Hn. rewrite Hn.
    change (is_directory (set_fs_parent d f)) with (is_directory f). destruct Hnew as [[H1 H2]|[H1 H2]]; [left|right]; auto.
Qed.

Lemma no_child s d c ps : initrd_ok s -> reached s ps d -> (forall x m, reached s (ps ++ [c]) x -> tree s !! x = Some m -> False) ->
  forall x, ~ named_child (tree s) d x c.
Proof. intros Hio Hp Hno x Hx. pose proof Hx as (m & Hm & _). apply (Hno x m); [by econstructor|done]. Qed.

Lemma get_or_create_spec s d p ps c a files : initrd_ok s -> rooted s -> reached s ps d ->
  tree s !! d = Some p -> is_directory (fs p) = true -> good_name c -> archive_inv s (a :: files) files ->
  ((ps ++ [c]) `prefix_of` a) -> ps ++ [c] <> a -> (forall b, b ∈ files -> ~ (b `prefix_of` a)) ->
  alloc_failed (get_or_create_directory d c s) \/
  exists x s' q, get_or_create_directory d c s = Ok (x, s') /\ progress s s' /\ reached s' (ps ++ [c]) x /\
    tree s' !! x = Some q /\ is_directory (fs q) = true /\ archive_inv s' (a :: files) files.
Proof.
  intros Hio Hrt Hps Hd Hdir Hg Hinv Hpre Hne Hpf. unfold get_or_create_directory.
  destruct (find_child_spec s d p c (io_tree _ Hio) Hd) as (e & -> & Hcase). rsimpl.
  destruct Hcase as [[-> Hno]|Hc]; cbn [negb Z.eqb].
  - destruct (add_child_spec s d p c FS_DIRECTORY as_directory Hio Hd Hdir Hg Hno (setup_directory _ _))
      as [Hf|(x & s1 & s2 & Hn & _ & Ha & Hadd)]; [left; by apply alloc_failed_bind|right].
    rewrite Hn. rsimpl. unfold configure_directory. rewrite Ha. rsimpl.
    pose proof (ca_node _ _ _ _ _ Hadd) as Hnode. apply fmap_Some in Hnode as (q & Hq & Hqf).
    exists x, s2, q. split_and!; [done|by eapply progress_added| |done|by rewrite <- Hqf|].
    + apply (at_path_added s s2 d x _ ps (ps ++ [c]) x Hio Hrt Hadd Hps). by right.
    + eapply archive_inv_added; [done..|]. left. split; [done|]. exists a. split; [by apply elem_of_cons; left|done].
  - right. pose proof Hc as (m & Hm & Hmp & Hmn). pose proof (ok_addr _ (io_tree _ Hio) e m Hm).
    rewrite (proj2 (Z.eqb_neq e 0)) by lia. cbn [negb]. rewrite (get_node_ok _ _ _ Hm). rsimpl.
    assert (reached s (ps ++ [c]) e) as Hpe by by econstructor.
    destruct (Hinv _ _ _ Hpe Hm) as [[Hisd _]|[_ Hin]]; [|by apply Hpf in Hin].
    change (Z.land (flags (fs m)) 7 =? FS_DIRECTORY) with (is_directory (fs m)). rewrite ASSERT_ok by done. rsimpl.
    exists e, s, m. split_and!; try done. by apply progress_refl.
Qed.

(** The archived file [f] is in the tree, with header index [idx]. *)
Definition file_at s (f : afile) (idx : Z) : Prop :=
  exists x m, reached s (af_path f) x /\ tree s !! x = Some m /\ inode (fs m) = idx /\
    length (fs m) = af_length f /\ read (fs m) = Some InitrdRead /\ is_directory (fs m) = false.

Lemma file_at_stays s s' f idx : progress s s' -> file_at s f idx -> file_at s' f idx.
Proof.
  intros Hpg (x & m & Hp & Hm & H). destruct (pg_stays _ _ Hpg _ _ _ Hp Hm) as (Hp' & m' & Hm' & Hf).
  exists x, m'. by rewrite Hf.
Qed.

Lemma add_file_spec s d p ps c f idx files : initrd_ok s -> rooted s -> reached s ps d ->
  tree s !! d = Some p -> is_directory (fs p) = true -> good_name c -> archive_inv s (af_path f :: files) files ->
  af_path f = ps ++ [c] -> af_path f <> [DEV] -> (forall b, b ∈ files -> ~ (af_path f `prefix_of` b)) ->
  find_child d c s = Ok 0 /\
  (alloc_failed (new_tree_node c FS_FILE s) \/
   exists x s1 s', new_tree_node c FS_FILE s = Ok (x, s1) /\ same_archive s s1 /\
     attach_child d x (update_fs x (as_archived_file idx (af_length f)) s1) = Ok s' /\ progress s s' /\
     archive_inv s' (af_path f :: files) (af_path f :: files) /\ file_at s' f idx).
Proof.
  intros Hio Hrt Hps Hd Hdir Hg Hinv Hpath Hdev Hpf.
  assert (forall x, ~ named_child (tree s) d x c) as Hno.
  { apply (no_child s d c ps Hio Hps). intros x m Hx Hm. rewrite <- Hpath in Hx.
    destruct (Hinv _ _ _ Hx Hm) as [[_ [H|[H|(a & Ha & Hpre & Hne)]]]|[_ Hin]].
    - rewrite Hpath in H. by destruct ps.
    - done.
    - apply elem_of_cons in Ha as [->|Ha]; [done|]. by apply (Hpf a).
    - by apply (Hpf _ Hin). }
  split.
  - destruct (find_child_spec s d p c (io_tree _ Hio) Hd) as (e & -> & [[-> _]|Hc]); [done|]. by apply Hno in Hc.
  - destruct (add_child_spec s d p c FS_FILE (as_archived_file idx (af_length f)) Hio Hd Hdir Hg Hno (setup_file _ _ _))
      as [Hf|(x & s1 & s2 & Hn & Hsame & Ha & Hadd)]; [by left|right].
    exists x, s1, s2. split_and!; [done..|by eapply progress_added| |].
    + eapply archive_inv_added; [done..|intros a Ha'; by apply elem_of_cons; right|].
      right. split; [done|]. simpl. rewrite <- Hpath. by apply elem_of_cons; left.
    + pose proof (ca_node _ _ _ _ _ Hadd) as Hnode. apply fmap_Some in Hnode as (q & Hq & Hqf).
      exists x, q. rewrite <- Hqf. split_and!; try done. rewrite Hpath.
      apply (at_path_added s s2 d x _ ps (ps ++ [c]) x Hio Hrt Hadd Hps). by right.
Qed.

(** The loop of [add_archived_file], from the directory at [ps], with the
    components [cs] still to come. *)
Lemma archive_loop f idx h size files : forall cs pre ps d p s,
  initrd_ok s -> rooted s -> header_ok (imem s) h size f ->
  reached s ps d -> tree s !! d = Some p -> is_directory (fs p) = true ->
  archive_inv s (af_path f :: files) files ->
  af_path f = ps ++ cs -> cs <> [] -> join_names (af_path f) = pre ++ join_names cs ->
  af_path f <> [DEV] ->
  (forall b, b ∈ files -> ~ (b `prefix_of` af_path f) /\ ~ (af_path f `prefix_of` b)) ->
  exists n r, runs (archive_step h idx (Z.of_nat (List.length (join_names (af_path f))))) n
      (d, Z.of_nat (List.length pre), Z.of_nat (List.length ps), s) r /\ (n <= List.length cs)%nat /\
    (alloc_failed r \/ exists s', r = Ok s' /\ progress s s' /\
       archive_inv s' (af_path f :: files) (af_path f :: files) /\ file_at s' f idx).
Proof.
  intros cs. induction cs as [|c cs IH]; intros pre ps d p s Hio Hrt Hho Hps Hd Hdir Hinv Hpath Hcs Hjoin Hdev Hpf; [done|].
  clear Hcs. pose proof Hho as [_ Hname _ Hsz [Hgn _] _ [Hlen _]].
  set (nm := join_names (af_path f)) in *. set (n := Z.of_nat (List.length nm)).
  rewrite join_names_cons in Hjoin. set (rest := match cs with [] => [] | _ => SLASH :: join_names cs end) in *.
  assert (Forall good_name (c :: cs)) as Hgc by (rewrite Hpath in Hgn; by apply Forall_app in Hgn as [_ ?]).
  apply Forall_cons in Hgc as [Hg Hgcs].
  assert (rest = [] \/ exists r, rest = SLASH :: r) as Hrest by (unfold rest; destruct cs; [by left|right; eauto]).
  assert (Z.of_nat (List.length nm) = Z.of_nat (List.length pre) + Z.of_nat (List.length c) + Z.of_nat (List.length rest)) as Hnl
    by (rewrite Hjoin, !length_app; lia).
  pose proof (gn_nonempty _ Hg) as Hcne. pose proof (gn_size _ Hg) as Hcsz.
  assert (0 < List.length c)%nat as Hc0 by (destruct c; [done|simpl; lia]).
  assert (Z.of_nat (List.length ps) + 1 <= 32) as Hcount.
  { pose proof (join_names_length _ Hgn) as H. fold nm in H. rewrite Hpath, length_app in H. simpl in H. lia. }
  set (st0 := (d, Z.of_nat (List.length pre), Z.of_nat (List.length ps), s)).
  assert (archive_step h idx n st0 =
    (let position := Z.of_nat (List.length pre + List.length c) in
     if position <? n then
       ASSERT ((position + 1 <? n) && negb (hd_name (imem s) h (position + 1) =? SLASH));;
       '(directory, s) ← get_or_create_directory d c s;
       Ok (Continue (directory, position + 1, Z.of_nat (List.length ps) + 1, s))
     else
       existing ← find_child d c s;
       ASSERT (existing =? 0);;
       '(file, s) ← new_tree_node c FS_FILE s;
       s ← attach_child d file (update_fs file (as_archived_file idx (hd_length (imem s) h)) s);
       Ok (Continue (d, position, Z.of_nat (List.length ps) + 1, s)))) as Hstep.
  { unfold archive_step, st0. rewrite (proj2 (Z.ltb_lt _ n)) by (unfold n; lia).
    unfold n. rewrite Hjoin, component_spec; [|by rewrite <- Hjoin|apply Hg|done|done]. rsimpl.
    rewrite (proj2 (Z.eqb_neq (Z.of_nat (List.length c)) 0)) by lia. assert_step.
    rewrite !bool_decide_eq_false_2 by apply Hg. assert_step. rewrite (ASSERT_ok (_ <=? MAX_PATH_COMPONENTS)) by (unfold MAX_PATH_COMPONENTS; lia). done. }
  unfold rest in *. destruct cs as [|c2 cs].
  - (* the file itself *)
    simpl in Hnl. rewrite (proj2 (Z.ltb_ge _ n)) in Hstep by (unfold n; lia).
    destruct (add_file_spec s d p ps c f idx files) as [Hfc Hadd]; try done; [intros b Hb; by apply Hpf|].
    rewrite Hfc, bind_Ok in Hstep. cbn [Z.eqb] in Hstep. rewrite ASSERT_ok, bind_Ok in Hstep by done.
    destruct Hadd as [Hf|(x & s1 & s2 & Hn & Hsame & Ha & Hpg & Hinv2 & Hfile)].
    + destruct (alloc_failed_runs (archive_step h idx n) st0) as (r & Hr & Hfr).
      { rewrite Hstep. by apply alloc_failed_bind. }
      exists 0%nat, r. split; [done|]. split; [lia|by left].
    + rewrite Hn, bind_Ok in Hstep. rewrite (sa_mem _ _ Hsame), Hlen, Ha, bind_Ok in Hstep.
      exists 1%nat, (Ok s2). split; [|split; [simpl; lia|right; by exists s2]].
      eapply (runs_step _ 0%nat); [exact Hstep|]. constructor. unfold archive_step.
      by rewrite (proj2 (Z.ltb_ge _ n)) by (unfold n; lia).
  - (* a directory on the way *)
    destruct (join_names_head (c2 :: cs) Hgcs) as (x2 & r2 & Hx2 & Hx2s); [done|].
    assert (hd_name (imem s) h (Z.of_nat (List.length pre + List.length c) + 1) = x2) as Hchar.
    { destruct Hname as [Hname _]. replace (Z.of_nat (List.length pre + List.length c) + 1)
        with (Z.of_nat (List.length pre + (List.length c + 1))) by lia. apply Hname.
      rewrite Hjoin, lookup_app_r by lia. rewrite lookup_app_r by lia. rewrite Hx2.
      by replace (List.length pre + (List.length c + 1) - List.length pre - List.length c)%nat with 1%nat by lia. }
    rewrite Hx2 in Hnl. cbn [List.length] in Hnl.
    rewrite (proj2 (Z.ltb_lt _ n)) in Hstep by (unfold n; lia).
    rewrite Hchar, ASSERT_ok, bind_Ok in Hstep.
    2:{ rewrite (proj2 (Z.ltb_lt _ n)), (proj2 (Z.eqb_neq x2 SLASH)) by (done || unfold n; lia). done. }
    assert (af_path f = (ps ++ [c]) ++ c2 :: cs) as Hpath2 by by rewrite <- app_assoc.
    destruct (get_or_create_spec s d p ps c (af_path f) files) as [Hf|(x & s1 & q & Hgoc & Hpg & Hpx & Hq & Hqd & Hinv1)]; try done.
    + rewrite Hpath2. apply prefix_app_r. done.
    + rewrite Hpath2. intros E. apply (f_equal List.length) in E. rewrite !length_app in E. simpl in E. lia.
    + intros b Hb. exact (proj1 (Hpf b Hb)).
    + destruct (alloc_failed_runs (archive_step h idx n) st0) as (r & Hr & Hfr).
      { rewrite Hstep. by apply alloc_failed_bind. }
      exists 0%nat, r. split; [done|]. split; [lia|by left].
    + rewrite Hgoc, bind_Ok in Hstep. pose proof (pg_same _ _ Hpg) as Hsame.
      destruct (IH (pre ++ c ++ [SLASH]) (ps ++ [c]) x q s1) as (k & r & Hr & Hk & Hres); try done; try apply Hpg.
      * by rewrite (sa_mem _ _ Hsame).
      * rewrite Hjoin, <- !app_assoc. done.
      * exists (1 + k)%nat, r. split.
        -- eapply runs_step; [exact Hstep|]. rewrite !length_app in Hr. cbn [List.length] in Hr.
           replace (Z.of_nat (List.length pre + List.length c) + 1) with (Z.of_nat (List.length pre + (List.length c + 1))) by lia.
           replace (Z.of_nat (List.length ps) + 1) with (Z.of_nat (List.length ps + 1)) by lia. exact Hr.
        -- split; [simpl in *; lia|]. destruct Hres as [?|(s' & -> & Hpg' & H')]; [by left|right].
           exists s'. split; [done|]. split; [by eapply progress_trans|done].
Qed.
End mount.

(** ** Mounting and reading a boot archive

    [initialise_initrd] on an archive with compatible paths returns a root
    below which every file is found, and reading a file yields its bytes. *)

(** The bytes [location, end_) of [m] are an archive of [files]. *)
Record archive (m : mem) (location end_ : Z) (files : list afile) : Prop := {
  ar_range : 0 <= location /\ location + 4868 <= end_ < 2 ^ 32;
  ar_count : load32 m location = Z.of_nat (List.length files) /\ Z.of_nat (List.length files) <= INITRD_HEADER_SLOTS;
  ar_headers : forall i f, files !! i = Some f ->
    header_ok m (location + 4 + Z.of_nat i * 76) (end_ - location) f;
  ar_paths : compatible (af_path <$> files)
}.

Lemma join_names_last names : Forall good_name names -> names <> [] ->
  exists r x, join_names names = r ++ [x] /\ x <> SLASH.
Proof.
  intros Hg. induction Hg as [|c names Hc Hns IH]; intros Hne; [done|]. rewrite join_names_cons.
  destruct names as [|c2 names].
  - destruct (exists_last (gn_nonempty _ Hc)) as (r & x & ->). exists r, x. rewrite app_nil_r. split; [done|].
    pose proof (gn_no_slash _ Hc). set_solver.
  - destruct IH as (r & x & -> & Hx); [done|]. exists (c ++ SLASH :: r), x. by rewrite <- app_assoc.
Qed.

Section boot.
Context {K : Type} `{!Kmalloc K} `{!KmallocLaws K}.
Implicit Types (s : initrd K) (files : list afile).

(** ** One header *)

Lemma add_archived_file_spec i f size files s root :
  initrd_ok s -> rooted s -> header_ok (imem s) (file_header i s) size f ->
  tree s !! initrd_root s = Some root -> is_directory (fs root) = true ->
  archive_inv s (af_path <$> files) (af_path <$> files) -> compatible (af_path <$> (files ++ [f])) ->
  alloc_failed (add_archived_file i s) \/
  exists s', add_archived_file i s = Ok s' /\ progress s s' /\
    archive_inv s' (af_path <$> (files ++ [f])) (af_path <$> (files ++ [f])) /\ file_at s' f i.
Proof.
  intros Hio Hrt Hho Hr Hrd Hinv (Hnd & Hdev & Hpre). pose proof Hho as [_ Hname Hnz Hsz [Hgn Hne] _ _].
  rewrite fmap_app in Hnd, Hdev, Hpre. simpl in Hnd, Hdev, Hpre.
  apply NoDup_app in Hnd as (_ & Hdisj & _).
  assert (forall b, b ∈ (af_path <$> files) -> ~ (b `prefix_of` af_path f) /\ ~ (af_path f `prefix_of` b)) as Hpf.
  { intros b Hb. assert (b <> af_path f) as Hbf by (intros ->; apply (Hdisj _ Hb); set_solver).
    split; intros H; apply Hpre in H; set_solver. }
  unfold add_archived_file. rewrite (name_length_spec _ _ _ Hname Hnz Hsz). rsimpl.
  set (nm := join_names (af_path f)) in *.
  destruct (join_names_head _ Hgn Hne) as (x & r & Hx & Hxs). destruct (join_names_last _ Hgn Hne) as (r' & y & Hy & Hys).
  fold nm in Hx, Hy.
  assert (0 < Z.of_nat (List.length nm)) by (rewrite Hx; simpl; lia).
  assert (hd_name (imem s) (file_header i s) 0 = x) as -> by (apply (proj1 Hname 0%nat); by rewrite Hx).
  assert (hd_name (imem s) (file_header i s) (Z.of_nat (List.length nm) - 1) = y) as ->.
  { replace (Z.of_nat (List.length nm) - 1) with (Z.of_nat (List.length r')) by (rewrite Hy, length_app; simpl; lia).
    apply (proj1 Hname). by rewrite Hy, lookup_app_r, Nat.sub_diag by lia. }
  rewrite (proj2 (Z.eqb_neq x SLASH)), (proj2 (Z.eqb_neq y SLASH)) by done.
  rewrite (ASSERT_ok (_ && (_ <? 64))) by (apply andb_true_iff; split; apply Z.ltb_lt; lia). rsimpl. assert_step.
  destruct (archive_loop f i (file_header i s) size (af_path <$> files) (af_path f) [] [] (initrd_root s) root s)
    as (n & res & Hruns & Hn & Hres); try done.
  - constructor.
  - intros ps z m Hp Hm. destruct (Hinv ps z m Hp Hm) as [(H1 & [?|[?|(a & Ha & H2)]])|?]; [left|left|left|by right];
      (split; [done|]); [by left|by right; left|right; right]. exists a. split; [by apply elem_of_cons; right|done].
  - set_solver.
  - pose proof (join_names_length _ Hgn) as Hjl. fold nm in Hruns, Hjl. simpl in Hruns. change (Z.of_nat 0) with 0 in Hruns.
    rewrite (while_runs _ _ _ _ Hruns) by lia. destruct Hres as [Hf|(s' & -> & Hpg & Hinv' & Hfile)]; [by left|right].
    exists s'. split_and!; try done. rewrite fmap_app. simpl.
    intros ps z m Hp Hm. destruct (Hinv' ps z m Hp Hm) as [(H1 & [?|[?|(a & Ha & H2)]])|[H1 Hin]];
      [left; split; [done|]; by left|left; split; [done|]; by right; left|left; split; [done|]; right; right|right].
    + exists a. split; [set_solver|done].
    + split; [done|set_solver].
Qed.

(** ** All headers *)

Record mounting m location end_ root files s (n : nat) : Prop := {
  mg_ok : initrd_ok s;
  mg_rooted : rooted s;
  mg_mem : imem s = m;
  mg_headers : file_headers s = location + 4;
  mg_location : initrd_location s = location;
  mg_end : initrd_end s = end_;
  mg_root : initrd_root s = root;
  mg_inv : archive_inv s (af_path <$> take n files) (af_path <$> take n files);
  mg_files : forall i f, (i < n)%nat -> files !! i = Some f -> file_at s f (Z.of_nat i)
}.

Lemma take_compatible files n : compatible (af_path <$> files) -> compatible (af_path <$> take n files).
Proof.
  intros (Hnd & Hdev & Hpre). rewrite <- (take_drop n files), fmap_app in Hnd, Hdev, Hpre.
  apply NoDup_app in Hnd as (Hnd & _). split_and!; [done|set_solver|].
  intros a b Ha Hb. apply Hpre; apply elem_of_app; by left.
Qed.

Lemma load_header_spec m location end_ root files s n : archive m location end_ files ->
  (n < List.length files)%nat -> mounting m location end_ root files s n ->
  (exists s', load_header (Z.of_nat n) s = Ok s' /\ mounting m location end_ root files s' (S n)) \/
  alloc_failed (load_header (Z.of_nat n) s).
Proof.
  intros [_ _ Hhd Hcompat] Hn [Hio Hrt Hm Hfh Hloc Hend Hroot Hinv Hfiles].
  destruct (lookup_lt_is_Some_2 files n Hn) as [f Hf]. pose proof (Hhd n f Hf) as Hho.
  assert (file_header (Z.of_nat n) s = location + 4 + Z.of_nat n * 76) as Hh by (unfold file_header; rewrite Hfh; done).
  unfold load_header. pose proof Hho as [Hma _ _ _ _ [Hoff Hor] [Hlen Hlr]].
  rewrite Hh, Hm, Hma, Hoff, Hlen, Hloc, Hend. assert_step. repeat assert_step.
  destruct Hrt as [(r & Hr & Hr0 & Hrd)].
  destruct (add_archived_file_spec (Z.of_nat n) f (end_ - location) (take n files) s r) as [Hfl|(s' & -> & Hpg & Hinv' & Hfile)]; try done.
  - by constructor; exists r.
  - by rewrite Hm, Hh.
  - rewrite <- (take_S_r _ _ _ Hf). by apply take_compatible.
  - by right.
  - left. exists s'. split; [done|]. pose proof (pg_same _ _ Hpg) as [E1 E2 E3 E4 E5 E6].
    rewrite <- (take_S_r _ _ _ Hf) in Hinv'. split; try congruence; try apply Hpg; [done|].
    intros i g Hi Hg. destruct (decide (i = n)) as [->|].
    + assert (g = f) as -> by congruence. done.
    + eapply file_at_stays; [done|]. apply Hfiles; [lia|done].
Qed.

Lemma dev_good : good_name DEV.
Proof. split; [done|unfold DEV, SLASH; set_solver|done|done|done]. Qed.

(** The tree with nothing but the root. *)
Lemma root_only_ok (root : Z) (n : tree_node) : 0 < root < 2 ^ 32 -> tree_parent n = 0 -> parent (fs n) = 0 ->
  first_child n = 0 -> configured (fs n) -> tree_ok {[root := n]}.
Proof.
  intros Hr Hp Hpf Hfc Hcf. split.
  - intros x m [<- _]%lookup_singleton_Some. done.
  - intros d m [<- <-]%lookup_singleton_Some. exists []. split_and!; [done|constructor|]. intros x.
    split; [by intros []%not_elem_of_nil|]. intros (m & [<- <-]%lookup_singleton_Some & Hm). lia.
  - intros x m [<- <-]%lookup_singleton_Some. split; [congruence|]. by intros [].
  - intros d x y c H0 (m & [<- <-]%lookup_singleton_Some & Hm & _). congruence.
  - intros x m [<- <-]%lookup_singleton_Some. done.
Qed.

Lemma new_tree_node_spec nm fl s : (Z.of_nat (List.length nm) <? NAME_SIZE) = true ->
  alloc_failed (new_tree_node nm fl s) \/
  exists x k, new_tree_node nm fl s = Ok (x, mk_initrd (imem s) (<[x := mk_tree_node (blank_fs_node nm fl) 0 0 0]> (tree s))
      (file_headers s) (initrd_location s) (initrd_end s) (initrd_root s) (initrd_dev s) (shared_dirent s) k) /\
    0 < x < 2 ^ 32 /\ (x ∉ k_live (ialloc s)) /\ k_live k = {[x]} ∪ k_live (ialloc s).
Proof.
  intros Hl. unfold new_tree_node.
  destruct (kmalloc_cases sizeof_tree_node (ialloc s)) as [(x & k & Hk)|Hf]; [right|left; by apply alloc_failed_bind].
  destruct (kmalloc_plain_fresh _ _ _ _ Hk) as (Hx & Hnl & Hk'). rewrite Hk. rsimpl.
  rewrite (proj2 (Z.eqb_neq x 0)) by lia. rewrite Hl. repeat assert_step.
  eexists _, _. done.
Qed.

Lemma initialise_initrd_correct location end_ m dirent (k : K) files :
  archive m location end_ files ->
  alloc_failed (initialise_initrd location end_ m dirent k) \/
  exists root s, initialise_initrd location end_ m dirent k = Ok (root, s) /\
    mounting m location end_ root files s (List.length files).
Proof.
  intros Har. pose proof Har as [Hrange [Hcount Hslots] _ Hcompat].
  unfold initialise_initrd, sizeof_initrd_header_t, INITRD_HEADER_SLOTS, sizeof_initrd_file_header_t in *.
  rewrite (ASSERT_ok (location <? end_)) by lia. rsimpl. rewrite (ASSERT_ok (_ <=? end_ - location)) by lia. rsimpl.
  rewrite Hcount, (ASSERT_ok (_ <=? 64)) by lia. rsimpl.
  match goal with |- context [new_tree_node INITRD FS_DIRECTORY ?q] => set (s0 := q) end.
  destruct (new_tree_node_spec INITRD FS_DIRECTORY s0 eq_refl) as [Hf|(root & k1 & Hnew & Hra & Hnl & Hl)];
    [left; by apply alloc_failed_bind|].
  rewrite Hnew. rsimpl.
  match goal with |- context [with_roots ?s0 root 0] => set (s1 := with_roots s0 root 0) end.
  set (rn := mk_tree_node (as_directory (blank_fs_node INITRD FS_DIRECTORY)) 0 0 0).
  assert (tree s1 = {[root := rn]}) as Ht1.
  { unfold s1. simpl. by rewrite alter_insert_eq. }
  assert (initrd_ok s1) as Hio1.
  { split; rewrite Ht1; [by apply root_only_ok|]. intros x n [<- _]%lookup_singleton_Some.
    change (ialloc s1) with k1. rewrite Hl. apply elem_of_union_l. by apply elem_of_singleton. }
  assert (tree s1 !! root = Some rn) as Hroot by (rewrite Ht1; by apply lookup_singleton_eq).
  assert (rooted s1) as Hrt1 by (constructor; exists rn; done).
  destruct (add_child_spec s1 root rn DEV FS_DIRECTORY as_directory Hio1 Hroot eq_refl dev_good) as [Hf|(dev & s2 & s3 & Hn & _ & Ha & Hadd)].
  - intros y (n & Hn & Hp & _). rewrite Ht1 in Hn. apply lookup_singleton_Some in Hn as [<- <-]. simpl in Hp. lia.
  - apply setup_directory.
  - left. by apply alloc_failed_bind.
  - rewrite Hn. rsimpl. unfold configure_directory. rewrite Ha. rsimpl.
    set (s4 := with_roots s3 root dev).
    pose proof (ca_same _ _ _ _ _ Hadd) as [Em Eh El Ee Er Ed].
    assert (mounting m location end_ root files s4 0) as Hstart.
    { pose proof (rooted_added _ _ _ _ _ Hio1 Hrt1 Hadd) as [(r & Hr & Hr0 & Hrd)].
      change (initrd_root s1) with root in Er. rewrite Er in Hr.
      split; try done.
      - destruct Hadd as [[Hok Hlv] _ _ _ _ _ _]. by split.
      - constructor. exists r. done.
      - intros ps x n Hp Hx. left. change (tree s4) with (tree s3) in *. change (initrd_root s4) with root in Hp.
        rewrite <- Er in Hp. apply (at_path_added s1 s3 root dev _ [] ps x Hio1 Hrt1 Hadd (at_root _ _)) in Hp as [Hp|[-> ->]].
        + destruct (at_path_in _ _ _ _ (mk_is_Some _ _ Hroot) Hp) as [z Hz]. rewrite Ht1 in Hz.
          apply lookup_singleton_Some in Hz as [<- _]. assert (n = r) as -> by congruence.
          split; [done|left]. eapply (at_path_unique s1); [done|done|done|constructor].
        + split; [|by right; left]. pose proof (ca_node _ _ _ _ _ Hadd) as Hnode. rewrite Hx in Hnode.
          injection Hnode as ->. done.
      - intros i f Hi. lia. }
    destruct (for_range_cases (fun i s => 0 <= i /\ mounting m location end_ root files s (Z.to_nat i)) alloc_failed
      load_header 0 (Z.of_nat (List.length files)) s4) as [(s5 & -> & _ & Hmt)|Hf].
    + lia.
    + intros j s Hj [_ Hmt]. assert (exists n, j = Z.of_nat n) as [n ->] by (exists (Z.to_nat j); lia).
      rewrite Nat2Z.id in Hmt. destruct (load_header_spec m location end_ root files s n Har ltac:(lia) Hmt) as [(s' & Hs & Hmt')|Hf]; [left|by right].
      exists s'. split; [done|]. split; [lia|]. by replace (Z.to_nat (Z.of_nat n + 1)) with (S n) by lia.
    + apply alloc_failed_not_ok.
    + split; [lia|done].
    + right. rsimpl. rewrite Nat2Z.id in Hmt. exists root, s5. split; [|done]. by rewrite (mg_root _ _ _ _ _ _ _ Hmt).
    + left. by apply alloc_failed_bind.
Qed.

(** ** Reading *)

Lemma initrd_read_spec m location end_ root files s i f x n offset size buffer :
  archive m location end_ files -> mounting m location end_ root files s (List.length files) ->
  files !! i = Some f -> tree s !! x = Some n -> inode (fs n) = Z.of_nat i ->
  bytes_ok m -> is_u32 buffer -> 0 <= size -> 0 <= offset -> buffer + size <= 2 ^ 32 ->
  buffer + size <= location \/ end_ <= buffer ->
  let count := if af_length f <=? offset then 0 else Z.min size (af_length f - offset) in
  exists s', initrd_read x offset size buffer s = Ok (count, s') /\
    copied m (imem s') buffer (location + af_offset f + offset) count /\
    agree_outside buffer (buffer + count) m (imem s').
Proof.
  intros [Hrange _ Hhd _] [_ _ Hm Hfh Hloc _ _ _ _] Hf Hx Hin Hbytes Hb Hs Ho Hfit Hsep count.
  destruct (Hhd i f Hf) as [_ _ _ _ _ [Hoff Hor] [Hlen Hlr]].
  unfold initrd_read. rewrite (get_node_ok _ _ _ Hx). rsimpl. unfold file_header. rewrite Hin, Hfh.
  unfold sizeof_initrd_file_header_t. rewrite Hm, Hlen, Hoff, Hloc. unfold count. clear count.
  destruct (Z.leb_spec (af_length f) offset) as [Hle|Hlt].
  - exists s. split; [done|]. rewrite Hm. split; [intros j Hj; lia|done].
  - replace (if af_length f - offset <? size then af_length f - offset else size) with (Z.min size (af_length f - offset))
      by (destruct (Z.ltb_spec (af_length f - offset) size); lia).
    unfold is_u32 in Hb. rewrite u32_small by lia.
    destruct (memcpy_correct buffer (location + af_offset f + offset) (Z.min size (af_length f - offset)) m)
      as (m' & -> & Hc & Ha); try done; unfold is_u32; try lia.
    rsimpl. eexists. split; [done|]. done.
Qed.

(** Opening an archived file by its absolute path and reading it. *)
Lemma read_archived m location end_ root files s i f wd offset size buffer :
  archive m location end_ files -> mounting m location end_ root files s (List.length files) ->
  files !! i = Some f -> is_Some (tree s !! wd) ->
  bytes_ok m -> is_u32 buffer -> buffer <> 0 -> 0 <= size -> 0 <= offset -> buffer + size <= 2 ^ 32 ->
  buffer + size <= location \/ end_ <= buffer ->
  let count := if af_length f <=? offset then 0 else Z.min size (af_length f - offset) in
  exists x s', resolve_path_fs root wd (Some (SLASH :: join_names (af_path f))) s = Ok x /\
    read_fs x offset size buffer s = Ok (count, s') /\
    copied m (imem s') buffer (location + af_offset f + offset) count /\
    agree_outside buffer (buffer + count) m (imem s').
Proof.
  intros Har Hmt Hf [wn Hwd] Hbytes Hb Hb0 Hs Ho Hfit Hsep count. pose proof Hmt as [Hio Hrt _ _ _ _ Hroot _ Hfiles].
  destruct (Hfiles i f (lookup_lt_Some _ _ _ Hf) Hf) as (x & n & Hp & Hx & Hin & _ & Hread & _).
  pose proof (ar_headers _ _ _ _ Har i f Hf) as [_ _ _ Hsz [Hgn _] _ _].
  pose proof Hrt as [(r & Hr & _)]. rewrite Hroot in Hr.
  pose proof (ok_addr _ (io_tree _ Hio) x n Hx) as Hxa.
  destruct (resolve_path_correct s root wd (SLASH :: join_names (af_path f))) as (y & Hy & Hyx).
  { exact Hio. }
  { eexists. by apply node_at_tree. }
  { eexists. by apply node_at_tree. }
  { simpl. lia. }
  assert (y = x) as ->.
  { apply Hyx; [lia|]. rewrite components_slash, components_join by done. simpl. rewrite <- Hroot. by apply at_path_resolves. }
  destruct (initrd_read_spec m location end_ root files s i f x n offset size buffer) as (s' & Hrd & Hc & Ha); try done.
  exists x, s'. split; [done|]. split; [|done]. unfold read_fs.
  rewrite (proj2 (Z.eqb_neq x 0)), (proj2 (Z.eqb_neq buffer 0)) by (done || lia). cbn [orb].
  rewrite (deref_ok _ _ _ (node_at_tree _ _ _ Hx)). rsimpl. rewrite Hread. exact Hrd.
Qed.
End boot.
