(* ===== verification/MakeInitrd.v ===== *)
(** * make_initrd.c: the host-side archive builder

    [main] takes the host files in command-line order, each with the name
    it gets in the image; a file that cannot be read is [None].  The result
    is the bytes of initrd.img, or [None] when the tool exits with an error.
    Host files are assumed not to change between the two passes. *)

From S2P Require Import Prelude Memory Vfs.

Definition MAX_INITRD_FILES : Z := 64.
Definition UINT32_MAX : Z := 0xFFFFFFFF.
Definition sizeof_initrd_header : Z := 76.
Definition NAME_FIELD : nat := 64.

Record initrd_header : Type := mk_initrd_header {
  ih_magic : Z;
  ih_name : list Z;
  ih_offset : Z;
  ih_length : Z
}.
Definition zero_header : initrd_header := mk_initrd_header 0 (replicate NAME_FIELD 0) 0 0.

(** The loop of [valid_image_path]: [component] is what lies between
    [component] and [cursor]. *)
Fixpoint valid_components (component cursor : list Z) : bool :=
  let bad := bool_decide (component = []) || bool_decide (component = DOT) || bool_decide (component = DOTDOT) in
  match cursor with
  | [] => negb bad
  | c :: cursor =>
      if c =? SLASH then if bad then false else valid_components [] cursor
      else valid_components (component ++ [c]) cursor
  end.

Definition valid_image_path (path : list Z) : bool :=
  match head path, last path with
  | Some first, Some final =>
      if (first =? SLASH) || (final =? SLASH) then false else valid_components [] path
  | _, _ => false
  end.

(** The string in a name field. *)
Fixpoint c_string (field : list Z) : list Z :=
  match field with
  | c :: field => if c =? 0 then [] else c :: c_string field
  | [] => []
  end.
(** [strcpy] into a zeroed name field. *)
Definition name_bytes (nm : list Z) : list Z := nm ++ replicate (NAME_FIELD - List.length nm) 0.

(** First pass: the headers so far and where the next file goes. *)
Fixpoint scan_inputs (inputs : list (option (list Z) * list Z)) (headers : list initrd_header)
    (next_offset : Z) : option (list initrd_header) :=
  match inputs with
  | [] => Some headers
  | (host, image_name) :: inputs =>
      if 64 <=? Z.of_nat (List.length image_name) then None
      else if negb (valid_image_path image_name) then None
      else if existsb (fun h => bool_decide (c_string (ih_name h) = image_name)) headers then None
      else match host with
           | None => None
           | Some bytes =>
               let len := Z.of_nat (List.length bytes) in
               if UINT32_MAX <? next_offset + len then None
               else scan_inputs inputs
                      (headers ++ [mk_initrd_header 0xBF (name_bytes image_name) next_offset len])
                      (next_offset + len)
           end
  end.

(** A header as it lies in memory, with three bytes of padding. *)
Definition header_bytes (h : initrd_header) : list Z :=
  [ih_magic h] ++ ih_name h ++ [0; 0; 0] ++ le32 (ih_offset h) ++ le32 (ih_length h).

(** Second pass, one file: chunks of at most 4096 bytes. *)
Definition copy_chunk (st : Z * list Z * list Z) : res (ctl (Z * list Z * list Z) (list Z)) :=
  let '(remaining, input, output) := st in
  if negb (remaining =? 0) then
    let chunk := if remaining <? 4096 then remaining else 4096 in
    Ok (Continue (remaining - chunk, drop (Z.to_nat chunk) input, output ++ take (Z.to_nat chunk) input))
  else Ok (Break output).
Definition copy_file (bytes output : list Z) : res (list Z) :=
  while copy_chunk (Z.of_nat (List.length bytes), bytes, output).

Fixpoint copy_files (inputs : list (option (list Z) * list Z)) (output : list Z) : res (list Z) :=
  match inputs with
  | [] => Ok output
  | (Some bytes, _) :: inputs => output ← copy_file bytes output; copy_files inputs output
  | (None, _) :: inputs => copy_files inputs output
  end.

Definition main (inputs : list (option (list Z) * list Z)) : res (option (list Z)) :=
  match inputs with
  | [] => Ok None
  | _ =>
      let file_count := Z.of_nat (List.length inputs) in
      if MAX_INITRD_FILES <? file_count then Ok None
      else
        match scan_inputs inputs [] (4 + MAX_INITRD_FILES * sizeof_initrd_header) with
        | None => Ok None
        | Some headers =>
            let unused := replicate (Z.to_nat MAX_INITRD_FILES - List.length headers) zero_header in
            let output := le32 file_count ++ concat (header_bytes <$> (headers ++ unused)) in
            image ← copy_files inputs output;
            Ok (Some image)
        end
  end.

(** ** What the image contains *)

Definition file_bytes (input : option (list Z) * list Z) : list Z := default [] (fst input).

(** The headers of [inputs], with the first file at [off]. *)
Fixpoint placed (off : Z) (inputs : list (option (list Z) * list Z)) : list initrd_header :=
  match inputs with
  | [] => []
  | i :: inputs =>
      mk_initrd_header 0xBF (name_bytes (snd i)) off (Z.of_nat (List.length (file_bytes i))) ::
      placed (off + Z.of_nat (List.length (file_bytes i))) inputs
  end.

Record input_ok (i : option (list Z) * list Z) : Prop := {
  in_readable : is_Some (fst i);
  in_short : Z.of_nat (List.length (snd i)) < 64;
  in_valid : valid_image_path (snd i) = true
}.

Definition total_bytes (inputs : list (option (list Z) * list Z)) : list Z := concat (file_bytes <$> inputs).

Lemma c_string_name nm k : (0 ∉ nm) -> c_string (nm ++ replicate k 0) = nm.
Proof.
  intros Hz. induction nm as [|c nm IH]; simpl.
  - by destruct k.
  - apply not_elem_of_cons in Hz as [Hc Hz]. rewrite (proj2 (Z.eqb_neq c 0)) by done. by rewrite IH.
Qed.

Lemma scan_inputs_spec inputs : forall headers off result,
  Forall (fun i => 0 ∉ snd i) inputs ->
  scan_inputs inputs headers off = Some result ->
  result = headers ++ placed off inputs /\ Forall input_ok inputs /\
  off + Z.of_nat (List.length (total_bytes inputs)) <= Z.max off UINT32_MAX /\
  NoDup (snd <$> inputs) /\
  forall i h, i ∈ inputs -> h ∈ headers -> c_string (ih_name h) <> snd i.
Proof.
  induction inputs as [|[host nm] inputs IH]; intros headers off result Hz; cbn [scan_inputs].
  - intros [= <-]. simpl. split_and!; [by rewrite app_nil_r|constructor|lia|constructor|]. by intros i h Hi%elem_of_nil.
  - apply Forall_cons in Hz as [Hz Hzs]. simpl in Hz.
    destruct (Z.leb_spec 64 (Z.of_nat (List.length nm))) as [|Hl]; [done|].
    destruct (valid_image_path nm) eqn:Hv; cbn [negb]; [|done].
    destruct (existsb _ headers) eqn:Hex; [done|]. destruct host as [bytes|]; [|done].
    set (len := Z.of_nat (List.length bytes)). destruct (Z.ltb_spec UINT32_MAX (off + len)) as [|Hfit]; [done|].
    intros Hs. destruct (IH _ _ _ Hzs Hs) as (-> & Hok & Htot & Hnd & Hdis). split_and!.
    + by rewrite <- app_assoc.
    + constructor; [|done]. split; simpl; [by eexists|lia|done].
    + unfold total_bytes in *. cbn [fmap list_fmap concat fst]. change (file_bytes (Some bytes, nm)) with bytes.
      rewrite length_app. lia.
    + simpl. constructor; [|done]. intros (i & Hi & Hin)%list_elem_of_fmap.
      apply (Hdis i (mk_initrd_header 0xBF (name_bytes nm) off len)); [done|apply elem_of_app; right; by apply list_elem_of_singleton|].
      simpl. unfold name_bytes. by rewrite c_string_name.
    + intros i h [->|Hi]%elem_of_cons Hh.
      * simpl. intros E. rewrite <- not_true_iff_false in Hex. apply Hex, existsb_exists. exists h.
        split; [by apply list_elem_of_In|]. by apply bool_decide_eq_true_2.
      * apply Hdis; [done|]. apply elem_of_app. by left.
Qed.

Lemma copy_file_spec bytes output : Z.of_nat (List.length bytes) < 2 ^ 34 ->
  copy_file bytes output = Ok (output ++ bytes).
Proof.
  intros Hl. unfold copy_file.
  destruct (while_rule copy_chunk (fun '(remaining, input, out) =>
      remaining = Z.of_nat (List.length input) /\ out ++ input = output ++ bytes)
    (fun out => out = output ++ bytes) (fun '(remaining, _, _) => remaining)
    (Z.of_nat (List.length bytes), bytes, output)) as (r & -> & ->); [|done|lia|done].
  intros [[remaining input] out] (-> & He). unfold copy_chunk.
  destruct (Z.eqb_spec (Z.of_nat (List.length input)) 0) as [E|E]; cbn [negb].
  - destruct input; [|simpl in E; lia]. by rewrite app_nil_r in He.
  - set (chunk := if Z.of_nat (List.length input) <? 4096 then Z.of_nat (List.length input) else 4096).
    assert (0 < chunk <= Z.of_nat (List.length input)) as Hc.
    { unfold chunk. destruct (Z.ltb_spec (Z.of_nat (List.length input)) 4096); lia. }
    split; [split|lia].
    + rewrite length_drop. lia.
    + by rewrite <- app_assoc, take_drop.
Qed.

Lemma copy_files_spec inputs : forall output, Forall input_ok inputs ->
  Z.of_nat (List.length (total_bytes inputs)) < 2 ^ 34 ->
  copy_files inputs output = Ok (output ++ total_bytes inputs).
Proof.
  induction inputs as [|[host nm] inputs IH]; intros output Hok Hl; cbn [copy_files].
  - by rewrite app_nil_r.
  - apply Forall_cons in Hok as [[[bytes Hb] _ _] Hok]. simpl in Hb. subst host.
    unfold total_bytes in *. cbn [fmap list_fmap concat] in *. change (file_bytes (Some bytes, nm)) with bytes in *.
    rewrite length_app in Hl.
    rewrite copy_file_spec by lia. rsimpl. rewrite IH; [by rewrite <- app_assoc|done|lia].
Qed.

(** The layout of the image that [main] writes. *)
Definition image_of (inputs : list (option (list Z) * list Z)) : list Z :=
  le32 (Z.of_nat (List.length inputs)) ++
  concat (header_bytes <$> (placed 4868 inputs ++ replicate (64 - List.length inputs) zero_header)) ++
  total_bytes inputs.

Lemma placed_length off inputs : List.length (placed off inputs) = List.length inputs.
Proof. revert off. induction inputs as [|i inputs IH]; intros off; simpl; [done|]. by rewrite IH. Qed.

Lemma main_spec inputs image : Forall (fun i => 0 ∉ snd i) inputs -> main inputs = Ok (Some image) ->
  image = image_of inputs /\ Forall input_ok inputs /\ (0 < List.length inputs <= 64)%nat /\
  4868 + Z.of_nat (List.length (total_bytes inputs)) <= UINT32_MAX /\ NoDup (snd <$> inputs).
Proof.
  intros Hz Hm. unfold main in Hm. destruct inputs as [|i inputs]; [done|]. set (ins := i :: inputs) in *.
  unfold MAX_INITRD_FILES, sizeof_initrd_header in Hm.
  destruct (Z.ltb_spec 64 (Z.of_nat (List.length ins))) as [|Hn]; [done|].
  destruct (scan_inputs ins [] (4 + 64 * 76)) as [headers|] eqn:Hs; [|done].
  destruct (scan_inputs_spec _ _ _ _ Hz Hs) as (-> & Hok & Htot & Hnd & _). unfold UINT32_MAX in *.
  rewrite copy_files_spec, bind_Ok in Hm by (done || lia).
  apply (f_equal (fun r => match r with Ok (Some x) => x | _ => [] end)) in Hm. cbv beta iota in Hm. subst image.
  split_and!; [|exact Hok|simpl; lia|lia|change (4 + 64 * 76) with 4868 in Htot; lia|exact Hnd].
  unfold image_of. rewrite <- app_assoc. change (4 + 64 * 76) with 4868.
  replace (Z.to_nat 64 - List.length ([] ++ placed 4868 ins))%nat with (64 - List.length ins)%nat by (rewrite app_nil_l, placed_length; lia).
  done.
Qed.
