(* ===== verification/InitrdImage.v ===== *)
(** * The image that make_initrd writes is an archive the kernel accepts

    Serialised headers are read back by the accessors of initrd.c, image
    names split into good components, and file data lies where the headers
    say. *)

From S2P Require Import Prelude Memory Vfs VfsSpec Initrd InitrdTree InitrdMount MakeInitrd.

(** [img] lies in memory at [location]. *)
Definition loaded (m : mem) (location : Z) (img : list Z) : Prop :=
  forall j c, img !! j = Some c -> load8 m (location + Z.of_nat j) = c.

Lemma loaded_app m location a b : loaded m location (a ++ b) ->
  loaded m location a /\ loaded m (location + Z.of_nat (List.length a)) b.
Proof.
  intros H. split; intros j c Hj.
  - apply H. by apply lookup_app_l_Some.
  - rewrite <- Z.add_assoc, <- Nat2Z.inj_add. apply H. rewrite lookup_app_r by lia.
    by replace (List.length a + j - List.length a)%nat with j by lia.
Qed.

Lemma load32_le32 m a v : loaded m a (le32 v) -> 0 <= v < 2 ^ 32 -> load32 m a = v.
Proof.
  intros H Hv. pose proof (H 0%nat _ eq_refl) as H0. unfold load8 in H0. rewrite Z.add_0_r in H0.
  assert (m (a + 1) = (v / 256) `mod` 256) as H1 by exact (H 1%nat _ eq_refl).
  assert (m (a + 2) = (v / 65536) `mod` 256) as H2 by exact (H 2%nat _ eq_refl).
  assert (m (a + 3) = (v / 16777216) `mod` 256) as H3 by exact (H 3%nat _ eq_refl).
  unfold load32. rewrite H0, H1, H2, H3.
  pose proof (Z.div_mod v 256). pose proof (Z.div_mod (v / 256) 256). pose proof (Z.div_mod (v / 65536) 256).
  rewrite (Z.mod_small (v / 16777216)) by (split; [apply Z.div_pos; lia|apply Z.div_lt_upper_bound; lia]).
  assert (v / 65536 = v / 256 / 256) as E1 by (rewrite Z.div_div; [done|lia|lia]).
  assert (v / 16777216 = v / 65536 / 256) as E2 by (rewrite Z.div_div; [done|lia|lia]).
  rewrite E2. lia.
Qed.

(** Blocks of equal size one after the other. *)
Lemma loaded_block m location n blocks i b : Forall (fun b => List.length b = n) blocks ->
  loaded m location (concat blocks) -> blocks !! i = Some b -> loaded m (location + Z.of_nat i * Z.of_nat n) b.
Proof.
  revert location i. induction blocks as [|b0 blocks IH]; intros location i Hn Hl Hi; [done|].
  apply Forall_cons in Hn as [Hb0 Hn]. simpl in Hl. apply loaded_app in Hl as [Hl0 Hl]. destruct i as [|i].
  - injection Hi as <-. by replace (location + Z.of_nat 0 * Z.of_nat n) with location by lia.
  - replace (location + Z.of_nat (S i) * Z.of_nat n) with (location + Z.of_nat (List.length b0) + Z.of_nat i * Z.of_nat n) by lia.
    by apply IH.
Qed.

Lemma name_bytes_length nm : Z.of_nat (List.length nm) < 64 -> List.length (name_bytes nm) = 64%nat.
Proof. intros H. unfold name_bytes, NAME_FIELD. rewrite length_app, length_replicate. lia. Qed.

Lemma header_fields m h hd nm : loaded m h (header_bytes hd) -> ih_name hd = name_bytes nm ->
  Z.of_nat (List.length nm) < 64 -> 0 <= ih_offset hd < 2 ^ 32 -> 0 <= ih_length hd < 2 ^ 32 ->
  hd_magic m h = ih_magic hd /\ name_field m h nm /\ hd_offset m h = ih_offset hd /\ hd_length m h = ih_length hd.
Proof.
  intros Hl Hnm Hn Ho Hlen. unfold header_bytes in Hl. rewrite Hnm in Hl.
  apply loaded_app in Hl as [Hmagic Hl]. apply loaded_app in Hl as [Hname Hl].
  apply loaded_app in Hl as [_ Hl]. apply loaded_app in Hl as [Hoff Hl].
  rewrite name_bytes_length in * by done. cbn [List.length] in *.
  split_and!.
  - specialize (Hmagic 0%nat _ eq_refl). unfold hd_magic. by rewrite <- Hmagic, Z.add_0_r.
  - split.
    + intros j c Hj. unfold hd_name. apply (Hname j c). unfold name_bytes. by apply lookup_app_l_Some.
    + apply (Hname (List.length nm) 0). unfold name_bytes, NAME_FIELD. rewrite lookup_app_r, Nat.sub_diag by lia.
      apply lookup_replicate_2. lia.
  - unfold hd_offset. replace (h + 68) with (h + Z.of_nat 1 + Z.of_nat 64 + Z.of_nat 3) by lia. by apply load32_le32.
  - unfold hd_length. replace (h + 72) with (h + Z.of_nat 1 + Z.of_nat 64 + Z.of_nat 3 + Z.of_nat 4) by lia. by apply load32_le32.
Qed.

(** ** Image names *)

Lemma valid_components_spec cursor : forall component, (SLASH ∉ component) -> valid_components component cursor = true ->
  exists names, names <> [] /\ join_names names = component ++ cursor /\
    Forall (fun c => c <> [] /\ (SLASH ∉ c) /\ c <> DOT /\ c <> DOTDOT) names.
Proof.
  induction cursor as [|x cursor IH]; intros component Hs Hv; simpl in Hv.
  - exists [component]. split; [done|]. split; [by rewrite join_names_cons|].
    constructor; [|done]. rewrite negb_true_iff, !orb_false_iff, !bool_decide_eq_false in Hv. tauto.
  - destruct (Z.eqb_spec x SLASH) as [->|E].
    + destruct (_ || _) eqn:Hbad; [done|]. rewrite !orb_false_iff, !bool_decide_eq_false in Hbad.
      destruct (IH [] ltac:(apply not_elem_of_nil) Hv) as (names & Hne & Hj & Hf).
      exists (component :: names). split; [done|]. split; [|constructor; [tauto|done]].
      rewrite join_names_cons. destruct names; [done|]. by rewrite Hj.
    + destruct (IH (component ++ [x])) as (names & Hne & Hj & Hf); [|done|].
      * rewrite elem_of_app, list_elem_of_singleton. intros [?|?]; [done|congruence].
      * exists names. split; [done|]. split; [|done]. by rewrite Hj, <- app_assoc.
Qed.

Lemma join_names_component names c : c ∈ names -> (List.length c <= List.length (join_names names))%nat.
Proof.
  induction names as [|d names IH]; [by intros []%not_elem_of_nil|]. rewrite join_names_cons, length_app.
  intros [->|Hc]%elem_of_cons; [lia|]. apply IH in Hc. destruct names; simpl in *; lia.
Qed.

Lemma valid_name nm : valid_image_path nm = true -> Z.of_nat (List.length nm) < 64 ->
  Forall good_name (components nm) /\ components nm <> [] /\ join_names (components nm) = nm.
Proof.
  intros Hv Hl. unfold valid_image_path in Hv. destruct (head nm), (last nm); try done.
  destruct (_ || _); [done|].
  destruct (valid_components_spec nm [] ltac:(apply not_elem_of_nil) Hv) as (names & Hne & Hj & Hf). simpl in Hj.
  assert (Forall good_name names) as Hg.
  { apply Forall_forall. intros c Hc. rewrite Forall_forall in Hf. destruct (Hf c Hc) as (H1 & H2 & H3 & H4).
    split; try done. pose proof (join_names_component names c Hc) as H. rewrite Hj in H. unfold NAME_SIZE. lia. }
  rewrite <- Hj, components_join by done. done.
Qed.

(** ** The whole image *)

(** What the kernel is meant to find for the inputs, the first at [off]. *)
Fixpoint archived (off : Z) (inputs : list (option (list Z) * list Z)) : list afile :=
  match inputs with
  | [] => []
  | i :: inputs =>
      mk_afile (components (snd i)) off (Z.of_nat (List.length (file_bytes i))) ::
      archived (off + Z.of_nat (List.length (file_bytes i))) inputs
  end.

Lemma archived_lookup inputs : forall off i input, inputs !! i = Some input ->
  let o := off + Z.of_nat (List.length (total_bytes (take i inputs))) in
  archived off inputs !! i = Some (mk_afile (components (snd input)) o (Z.of_nat (List.length (file_bytes input)))) /\
  placed off inputs !! i = Some (mk_initrd_header 0xBF (name_bytes (snd input)) o (Z.of_nat (List.length (file_bytes input)))) /\
  o + Z.of_nat (List.length (file_bytes input)) <= off + Z.of_nat (List.length (total_bytes inputs)).
Proof.
  induction inputs as [|a inputs IH]; intros off i input Hi; [done|]. destruct i as [|i].
  - injection Hi as <-. unfold total_bytes. simpl. rewrite Z.add_0_r, length_app. split_and!; [done|done|lia].
  - destruct (IH (off + Z.of_nat (List.length (file_bytes a))) i input Hi) as (H1 & H2 & H3).
    unfold total_bytes in *. cbn [take fmap list_fmap concat]. rewrite !length_app.
    replace (off + Z.of_nat (List.length (file_bytes a) + List.length (concat (file_bytes <$> take i inputs))))
      with (off + Z.of_nat (List.length (file_bytes a)) + Z.of_nat (List.length (concat (file_bytes <$> take i inputs)))) by lia.
    split_and!; [done|done|lia].
Qed.

Lemma archived_paths off inputs : af_path <$> archived off inputs = (fun i => components (snd i)) <$> inputs.
Proof. revert off. induction inputs as [|i inputs IH]; intros off; simpl; [done|]. by rewrite IH. Qed.

Lemma archived_length off inputs : List.length (archived off inputs) = List.length inputs.
Proof. revert off. induction inputs as [|i inputs IH]; intros off; simpl; [done|]. by rewrite IH. Qed.

(** The paths are not in each other's way; the tool does not check this. *)
Record unobstructed (inputs : list (option (list Z) * list Z)) : Prop := {
  un_dev : forall i, i ∈ inputs -> components (snd i) <> [DEV];
  un_prefix : forall i j, i ∈ inputs -> j ∈ inputs -> (components (snd i) `prefix_of` components (snd j)) ->
    components (snd i) = components (snd j)
}.

Lemma headers_76 inputs : Forall input_ok inputs ->
  Forall (fun b => List.length b = 76%nat) (header_bytes <$> (placed 4868 inputs ++ replicate (64 - List.length inputs) zero_header)).
Proof.
  intros Hok. apply Forall_fmap, Forall_app. split; [|by apply Forall_replicate]. generalize 4868.
  induction Hok as [|i inputs [_ Hs _] _ IH]; intros off; simpl; [constructor|]. constructor; [|apply IH].
  unfold compose, header_bytes. simpl. rewrite length_app, name_bytes_length by done. done.
Qed.

Lemma concat_blocks_length n (blocks : list (list Z)) : Forall (fun b => List.length b = n) blocks ->
  List.length (concat blocks) = (n * List.length blocks)%nat.
Proof. induction 1 as [|b blocks Hb _ IH]; simpl; [lia|]. rewrite length_app, Hb, IH. lia. Qed.

Lemma headers_length inputs : Forall input_ok inputs -> (List.length inputs <= 64)%nat ->
  List.length (concat (header_bytes <$> (placed 4868 inputs ++ replicate (64 - List.length inputs) zero_header))) = 4864%nat.
Proof.
  intros Hok Hn. rewrite (concat_blocks_length _ _ (headers_76 _ Hok)), length_fmap, length_app, placed_length, length_replicate. lia.
Qed.

Lemma image_parts m location inputs : Forall input_ok inputs -> loaded m location (image_of inputs) ->
  loaded m location (le32 (Z.of_nat (List.length inputs))) /\
  loaded m (location + 4) (concat (header_bytes <$> (placed 4868 inputs ++ replicate (64 - List.length inputs) zero_header))) /\
  ((List.length inputs <= 64)%nat -> loaded m (location + 4868) (total_bytes inputs)).
Proof.
  intros Hok Hl. unfold image_of in Hl. apply loaded_app in Hl as [H1 Hl]. apply loaded_app in Hl as [H2 H3].
  split; [done|]. split; [exact H2|]. intros Hn.
  rewrite (headers_length _ Hok Hn) in H3. by replace (location + 4868) with (location + 4 + 4864) by lia.
Qed.

Lemma image_is_archive m location inputs image :
  Forall (fun i => 0 ∉ snd i) inputs -> main inputs = Ok (Some image) -> unobstructed inputs ->
  loaded m location image -> 0 <= location -> location + Z.of_nat (List.length image) < 2 ^ 32 ->
  archive m location (location + Z.of_nat (List.length image)) (archived 4868 inputs) /\
  forall i bytes nm, inputs !! i = Some (Some bytes, nm) ->
    exists f, archived 4868 inputs !! i = Some f /\ af_path f = components nm /\ join_names (af_path f) = nm /\
      af_length f = Z.of_nat (List.length bytes) /\ loaded m (location + af_offset f) bytes.
Proof.
  intros Hz Hm [Hdev Hpre] Hl Hloc Hend. destruct (main_spec _ _ Hz Hm) as (-> & Hok & Hn & Htot & Hnd).
  destruct (image_parts _ _ _ Hok Hl) as (Hcount & Hheaders & Hdata). specialize (Hdata ltac:(lia)).
  unfold UINT32_MAX in Htot.
  assert (Z.of_nat (List.length (image_of inputs)) = 4868 + Z.of_nat (List.length (total_bytes inputs))) as Hlen.
  { unfold image_of. rewrite !length_app, headers_length by (done || lia). simpl List.length at 1. lia. }
  rewrite Hlen in *. split.
  - split.
    + lia.
    + rewrite archived_length. split; [|unfold INITRD_HEADER_SLOTS; lia]. apply load32_le32; [done|lia].
    + intros i f Hf. assert (exists input, inputs !! i = Some input) as [input Hi].
      { apply lookup_lt_is_Some_2. rewrite <- (archived_length 4868). by eapply lookup_lt_Some. }
      destruct (archived_lookup inputs 4868 i input Hi) as (Ha & Hp & Hbound). rewrite Hf in Ha. injection Ha as ->.
      assert (input_ok input) as [_ Hs Hv] by (rewrite Forall_forall in Hok; apply Hok; by eapply list_elem_of_lookup_2).
      destruct (valid_name _ Hv Hs) as (Hg & Hne & Hj).
      assert ((header_bytes <$> (placed 4868 inputs ++ replicate (64 - List.length inputs) zero_header)) !! i = Some (header_bytes
        (mk_initrd_header 0xBF (name_bytes (snd input)) (4868 + Z.of_nat (List.length (total_bytes (take i inputs))))
          (Z.of_nat (List.length (file_bytes input)))))) as Hblock.
      { rewrite list_lookup_fmap, (lookup_app_l_Some _ _ _ _ Hp). done. }
      pose proof (loaded_block _ _ _ _ _ _ (headers_76 _ Hok) Hheaders Hblock) as Hh.
      destruct (header_fields m _ _ (snd input) Hh) as (H1 & H2 & H3 & H4); simpl; try done; try lia.
      change (Z.of_nat 76) with 76 in *. split; simpl; rewrite ?Hj; try done.
      * rewrite Forall_forall in Hz. apply Hz. by eapply list_elem_of_lookup_2.
      * split; [done|lia].
      * split; [done|lia].
    + rewrite archived_paths. split_and!.
      * apply NoDup_fmap_2_strong; [|by apply NoDup_fmap_1 in Hnd]. intros i j Hi Hj E.
        rewrite Forall_forall in Hok. pose proof (Hok i Hi) as [_ Hsi Hvi]. pose proof (Hok j Hj) as [_ Hsj Hvj].
        destruct (valid_name _ Hvi Hsi) as (_ & _ & E1). destruct (valid_name _ Hvj Hsj) as (_ & _ & E2).
        assert (snd i = snd j) as Es by congruence.
        apply list_elem_of_lookup in Hi as [a Ha]. apply list_elem_of_lookup in Hj as [b Hb].
        assert (a = b) as ->.
        { apply (NoDup_lookup _ a b (snd i) Hnd); rewrite list_lookup_fmap, ?Ha, ?Hb; simpl; congruence. }
        congruence.
      * intros (i & Hi & Hin)%list_elem_of_fmap. by apply (Hdev i).
      * intros a b (i & -> & Hi)%list_elem_of_fmap (j & -> & Hj)%list_elem_of_fmap. by apply Hpre.
  - intros i bytes nm Hi. destruct (archived_lookup inputs 4868 i _ Hi) as (Ha & _ & _).
    eexists. split; [exact Ha|]. simpl. split; [done|].
    assert (input_ok (Some bytes, nm)) as [_ Hs Hv] by (rewrite Forall_forall in Hok; apply Hok; by eapply list_elem_of_lookup_2).
    destruct (valid_name _ Hv Hs) as (_ & _ & Hj). split; [done|]. split; [done|].
    rewrite <- (take_drop_middle _ _ _ Hi) in Hdata. unfold total_bytes in Hdata.
    rewrite fmap_app, concat_app in Hdata. apply loaded_app in Hdata as [_ Hdata]. simpl in Hdata.
    apply loaded_app in Hdata as [Hdata _]. by rewrite Z.add_assoc.
Qed.
