(* ===== verification/InitrdTheorems.v ===== *)
(** * Paths and the boot archive: theorems

    Path resolution, printing and directory creation over any driver with
    [FsLaws], and the round trip from make_initrd to reading files through
    the mounted archive.  The witnesses run on a small image. *)

From S2P Require Import Prelude Memory Common Kmalloc Vfs VfsSpec VfsProofs Initrd InitrdTree InitrdProofs InitrdMount MakeInitrd InitrdImage.

Section paths.
Context {S Cb : Type} `{!FsDriver S Cb} `{!FsLaws S Cb}.
Implicit Types s : S.

(** C36: path resolution always returns, and the node it returns is the one
    that the path's components denote by parents and names: [.] stays, [..]
    goes to the parent but never above root, a name goes to the child of
    that name; a null result means that they denote nothing.  Repeated,
    leading and trailing slashes do not matter, a leading one selects root,
    and a component of 128 characters or more denotes nothing. *)
Theorem resolve_path_denotes s root wd path :
  fs_ok s -> is_Some (node_at s root) -> is_Some (node_at s wd) -> Z.of_nat (List.length path) < 2 ^ 32 ->
  exists r, resolve_path_fs root wd (Some path) s = Ok r /\
    forall x, x <> 0 -> (r = x <-> resolves s root (start_of root wd path) (components path) x).
Proof. apply resolve_path_correct. Qed.

(** [get_path_fs] always returns; when it succeeds the buffer holds a
    terminated path that fits its capacity, the result is the length of that
    path, and resolving the path leads back to the very node it was printed
    for, from any working directory. *)
Theorem get_path_round_trip s root node buffer capacity wd :
  fs_ok s -> is_Some (node_at s root) -> is_Some (node_at s node) -> is_Some (node_at s wd) ->
  buffer <> 0 -> 2 <= capacity < 2 ^ 32 ->
  exists r out, get_path_fs root node buffer capacity s = Ok (r, out) /\
    (r = -1 \/ exists path, out = path ++ [0] /\ r = Z.of_nat (List.length path) /\ r < capacity /\
       resolve_path_fs root wd (Some path) s = Ok node).
Proof. apply get_path_correct. Qed.

(** When [mkdir_path_fs] returns, the tree is well-formed; on failure
    nothing changed; on success exactly one node was added, a directory
    named by the last component inside the directory that the components
    before it denote, and the path now resolves to it. *)
Theorem mkdir_path_creates s s' root wd path r :
  fs_ok s -> is_Some (node_at s root) -> is_Some (node_at s wd) -> Z.of_nat (List.length path) < 2 ^ 32 ->
  mkdir_path_fs root wd (Some path) s = Ok (r, s') ->
  fs_ok s' /\ (r = -1 /\ s' = s \/
    r = 0 /\ exists pre c d x, components path = pre ++ [c] /\ good_name c /\
      resolves s root (start_of root wd path) pre d /\ only_added s s' d x c /\
      resolve_path_fs root wd (Some path) s' = Ok x).
Proof. apply mkdir_path_correct. Qed.
End paths.

(** The part of a file that [read] at [offset] of [size] bytes delivers. *)
Definition window (offset size : Z) (bytes : list Z) : list Z := take (Z.to_nat size) (drop (Z.to_nat offset) bytes).

Lemma window_length offset size bytes : 0 <= offset -> 0 <= size ->
  Z.of_nat (List.length (window offset size bytes)) =
    if Z.of_nat (List.length bytes) <=? offset then 0 else Z.min size (Z.of_nat (List.length bytes) - offset).
Proof.
  intros Ho Hs. unfold window. rewrite length_take, length_drop.
  destruct (Z.leb_spec (Z.of_nat (List.length bytes)) offset); lia.
Qed.

Lemma window_copied m m' src buffer offset size bytes : 0 <= offset -> 0 <= size -> loaded m src bytes ->
  copied m m' buffer (src + offset) (Z.of_nat (List.length (window offset size bytes))) ->
  loaded m' buffer (window offset size bytes).
Proof.
  intros Ho Hs Hl Hc j c Hj. pose proof (lookup_lt_Some _ _ _ Hj) as Hlt. rewrite Hc by lia.
  unfold window in Hj. apply lookup_take_Some in Hj as [Hj _]. rewrite lookup_drop in Hj.
  rewrite <- (Hl _ _ Hj). f_equal. lia.
Qed.

(** C35: round trip of the boot archive.  Take any image that make_initrd
    writes, whose paths are not in each other's way and not [dev], loaded
    anywhere below 4 GiB.  Unless kernel memory runs out,
    [initialise_initrd] mounts it with a well-formed tree, every input file
    is found under its image name, and reading it at any offset into any
    buffer outside the image delivers exactly the host file's bytes. *)
Theorem initrd_image_round_trip {K} `{!Kmalloc K} `{!KmallocLaws K} m location inputs image dirent (k : K) :
  Forall (fun i => 0 ∉ snd i) inputs -> main inputs = Ok (Some image) -> unobstructed inputs ->
  loaded m location image -> 0 <= location -> location + Z.of_nat (List.length image) < 2 ^ 32 -> bytes_ok m ->
  let end_ := location + Z.of_nat (List.length image) in
  alloc_failed (initialise_initrd location end_ m dirent k) \/
  exists root s, initialise_initrd location end_ m dirent k = Ok (root, s) /\ fs_ok s /\
    forall i bytes nm wd offset size buffer, inputs !! i = Some (Some bytes, nm) -> is_Some (tree s !! wd) ->
      is_u32 buffer -> buffer <> 0 -> 0 <= size -> 0 <= offset -> buffer + size <= 2 ^ 32 ->
      buffer + size <= location \/ end_ <= buffer ->
      exists x s', resolve_path_fs root wd (Some (SLASH :: nm)) s = Ok x /\
        read_fs x offset size buffer s = Ok (Z.of_nat (List.length (window offset size bytes)), s') /\
        loaded (imem s') buffer (window offset size bytes).
Proof.
  intros Hz Hm Hun Hl Hloc Hfit Hbytes end_.
  destruct (image_is_archive m location inputs image Hz Hm Hun Hl Hloc Hfit) as (Har & Hfiles). fold end_ in Har.
  destruct (initialise_initrd_correct location end_ m dirent k _ Har) as [Hf|(root & s & Hrun & Hmt)]; [by left|right].
  exists root, s. split; [done|]. split; [apply Hmt|].
  intros i bytes nm wd offset size buffer Hi Hwd Hb Hb0 Hs Ho Hbs Hsep.
  destruct (Hfiles i bytes nm Hi) as (f & Hf & _ & Hnm & Hlen & Hdata).
  destruct (read_archived m location end_ root _ s i f wd offset size buffer Har Hmt Hf Hwd)
    as (x & s' & Hres & Hread & Hcopied & _); try done.
  exists x, s'. rewrite Hnm in Hres. split; [done|].
  rewrite Hlen, <- (window_length offset size bytes) in Hread, Hcopied by done. split; [done|]. by eapply window_copied.
Qed.

(** ** A small image *)

Definition demo_inputs : list (option (list Z) * list Z) :=
  [(Some (codes "ELF"), codes "bin/hello"); (Some (codes "colour=1"), codes "etc/system/config")].
Definition demo_image : list Z := image_of demo_inputs.
Definition DEMO_LOCATION : Z := 0x100000.
Definition image_memory (location : Z) (img : list Z) : mem :=
  fun a => if a <? location then 0 else default 0 (img !! Z.to_nat (a - location)).
Definition demo_mem : mem := image_memory DEMO_LOCATION demo_image.
Definition DEMO_END : Z := DEMO_LOCATION + Z.of_nat (List.length demo_image).
Definition demo_mount : res (Z * initrd (gset Z)) := initialise_initrd DEMO_LOCATION DEMO_END demo_mem ([], 0) ∅.
Definition demo_initrd : initrd (gset Z) :=
  match demo_mount with Ok (_, s) => s | _ => mk_initrd demo_mem ∅ 0 0 0 0 0 ([], 0) ∅ end.
Definition demo_root : Z := match demo_mount with Ok (r, _) => r | _ => 0 end.

Lemma image_memory_loaded location img : 0 <= location -> loaded (image_memory location img) location img.
Proof.
  intros Hl j c Hj. unfold image_memory, load8. rewrite (proj2 (Z.ltb_ge _ _)) by lia.
  replace (Z.to_nat (location + Z.of_nat j - location)) with j by lia. by rewrite Hj.
Qed.

Lemma image_memory_bytes location img : Forall (fun c => 0 <= c < 256) img -> bytes_ok (image_memory location img).
Proof.
  intros Hi a. unfold image_memory. destruct (a <? location); [lia|].
  destruct (img !! _) as [c|] eqn:E; [|simpl; lia]. rewrite Forall_forall in Hi. apply Hi. by eapply list_elem_of_lookup_2.
Qed.

Lemma demo_main : main demo_inputs = Ok (Some demo_image).
Proof. vm_compute. reflexivity. Qed.
Lemma demo_no_zero : Forall (fun i => 0 ∉ snd i) demo_inputs.
Proof. repeat constructor; apply (bool_decide_unpack _); vm_compute; exact I. Qed.
Lemma demo_unobstructed : unobstructed demo_inputs.
Proof.
  split.
  - intros i Hi. apply elem_of_cons in Hi as [->|[->|[]%not_elem_of_nil]%elem_of_cons]; done.
  - intros i j Hi Hj. apply elem_of_cons in Hi as [->|[->|[]%not_elem_of_nil]%elem_of_cons];
      apply elem_of_cons in Hj as [->|[->|[]%not_elem_of_nil]%elem_of_cons]; try done; intros [r Hr]; discriminate Hr.
Qed.
Lemma demo_bytes : bytes_ok demo_mem.
Proof.
  apply image_memory_bytes, Forall_forall. intros c Hc. apply list_elem_of_In in Hc.
  assert (forallb (fun c => (0 <=? c) && (c <? 256)) demo_image = true) as H by (vm_compute; reflexivity).
  rewrite forallb_forall in H. apply H, andb_true_iff in Hc as [H1 H2]. lia.
Qed.
Lemma demo_mounts : is_ok demo_mount = true.
Proof. vm_compute. reflexivity. Qed.

Lemma demo_archive : archive demo_mem DEMO_LOCATION DEMO_END (archived 4868 demo_inputs).
Proof.
  apply (image_is_archive demo_mem DEMO_LOCATION demo_inputs demo_image demo_no_zero demo_main demo_unobstructed);
    [by apply image_memory_loaded|vm_compute; discriminate|vm_compute; reflexivity].
Qed.

Lemma demo_fs_ok : fs_ok demo_initrd.
Proof.
  destruct (initialise_initrd_correct DEMO_LOCATION DEMO_END demo_mem ([], 0) (∅ : gset Z) _ demo_archive)
    as [Hf|(root & s & Hrun & Hmt)].
  - exfalso. destruct (is_ok_true _ demo_mounts) as [x Hx]. exact (alloc_failed_not_ok _ Hf x Hx).
  - unfold demo_initrd, demo_mount. rewrite Hrun. apply Hmt.
Qed.

Lemma is_Some_check {A} (o : option A) : match o with Some _ => true | None => false end = true -> is_Some o.
Proof. destruct o; [by eexists|done]. Qed.

Lemma demo_root_node : is_Some (node_at demo_initrd demo_root).
Proof. apply is_Some_check. vm_compute. reflexivity. Qed.

(** The node a path leads to in the demo tree. *)
Definition demo_node (path : string) : Z :=
  match resolve_path_fs demo_root demo_root (Some (codes path)) demo_initrd with Ok x => x | _ => 0 end.

Lemma resolve_path_denotes_witness :
  exists r, resolve_path_fs demo_root demo_root (Some (codes "//etc/./system/../../bin/hello/")) demo_initrd = Ok r /\
    r = demo_node "/bin/hello" /\
    resolves demo_initrd demo_root demo_root (components (codes "//etc/./system/../../bin/hello/")) r.
Proof.
  destruct (resolve_path_denotes demo_initrd demo_root demo_root (codes "//etc/./system/../../bin/hello/")
    demo_fs_ok demo_root_node demo_root_node ltac:(vm_compute; reflexivity)) as (r & Hr & Hx).
  exists r. split; [exact Hr|].
  assert (r = demo_node "/bin/hello") as E.
  { apply (f_equal (fun q => match q with Ok x => x | _ => 0 end)) in Hr. rewrite <- Hr. vm_compute. reflexivity. }
  split; [exact E|]. apply Hx; [|reflexivity]. rewrite E. vm_compute. discriminate.
Defined.

Lemma get_path_round_trip_witness :
  exists r out, get_path_fs demo_root (demo_node "etc/system") 0x5000 64 demo_initrd = Ok (r, out) /\
    out = codes "/etc/system" ++ [0] /\
    resolve_path_fs demo_root (demo_node "bin") (Some (codes "/etc/system")) demo_initrd = Ok (demo_node "etc/system").
Proof.
  destruct (get_path_round_trip demo_initrd demo_root (demo_node "etc/system") 0x5000 64 (demo_node "bin"))
    as (r & out & Hrun & Hr).
  - exact demo_fs_ok.
  - exact demo_root_node.
  - apply is_Some_check. vm_compute. reflexivity.
  - apply is_Some_check. vm_compute. reflexivity.
  - discriminate.
  - split; [discriminate|reflexivity].
  - assert (get_path_fs demo_root (demo_node "etc/system") 0x5000 64 demo_initrd = Ok (11, codes "/etc/system" ++ [0])) as E
      by (vm_compute; reflexivity).
    assert (out = codes "/etc/system" ++ [0]) as Eo by congruence.
    exists r, out. split; [exact Hrun|]. split; [exact Eo|]. assert (r = 11) as Er by congruence.
    destruct Hr as [Hr|(path & Hp & _ & _ & Hres)]; [congruence|]. rewrite Eo in Hp. apply app_inj_tail in Hp as [<- _]. exact Hres.
Defined.

Lemma mkdir_path_creates_witness :
  exists s' x, mkdir_path_fs demo_root (demo_node "etc") (Some (codes "system/new")) demo_initrd = Ok (0, s') /\
    only_added demo_initrd s' (demo_node "etc/system") x (codes "new").
Proof.
  assert (match mkdir_path_fs demo_root (demo_node "etc") (Some (codes "system/new")) demo_initrd with Ok (r, _) => r =? 0 | _ => false end = true)
    as Hok by (vm_compute; reflexivity).
  destruct (mkdir_path_fs demo_root (demo_node "etc") (Some (codes "system/new")) demo_initrd) as [[r s']|?|] eqn:E; [|discriminate Hok..].
  apply Z.eqb_eq in Hok. subst r.
  destruct (mkdir_path_creates demo_initrd s' demo_root (demo_node "etc") (codes "system/new") 0) as [_ [[H _]|[_ (pre & c & d & x & Hc & _ & Hres & Hadd & _)]]].
  - exact demo_fs_ok.
  - exact demo_root_node.
  - apply is_Some_check. vm_compute. reflexivity.
  - vm_compute. reflexivity.
  - exact E.
  - discriminate H.
  - exists s', x. split; [reflexivity|]. change (components (codes "system/new")) with ([codes "system"] ++ [codes "new"]) in Hc.
    apply app_inj_tail in Hc as [<- <-].
    destruct (resolve_path_correct demo_initrd demo_root (demo_node "etc") (codes "system") demo_fs_ok demo_root_node) as (y & Hy & Hyx);
      [apply is_Some_check; vm_compute; reflexivity|vm_compute; reflexivity|].
    assert (d = demo_node "etc/system") as ->; [|exact Hadd].
    assert (d <> 0) as Hd0.
    { destruct Hadd as (_ & _ & m & _). intros ->. destruct (resolves_nonnull demo_initrd demo_root (demo_node "etc") [codes "system"] 0 demo_fs_ok) as [n Hn];
        [apply is_Some_check; vm_compute; reflexivity|exact Hres|]. rewrite (null_no_node _ demo_fs_ok) in Hn. discriminate Hn. }
    apply (Hyx d Hd0) in Hres. apply (f_equal (fun q => match q with Ok z => z | _ => 0 end)) in Hy. rewrite <- Hres, <- Hy. vm_compute. reflexivity.
Defined.

Lemma initrd_image_round_trip_witness :
  exists root s x s', initialise_initrd DEMO_LOCATION DEMO_END demo_mem ([], 0) (∅ : gset Z) = Ok (root, s) /\
    resolve_path_fs root root (Some (codes "/etc/system/config")) s = Ok x /\
    read_fs x 7 100 0x200000 s = Ok (1, s') /\ loaded (imem s') 0x200000 (codes "1").
Proof.
  destruct (initrd_image_round_trip demo_mem DEMO_LOCATION demo_inputs demo_image ([], 0) (∅ : gset Z)
    demo_no_zero demo_main demo_unobstructed) as [Hf|(root & s & Hrun & Hok & Hread)].
  - apply image_memory_loaded. vm_compute. discriminate.
  - vm_compute. discriminate.
  - vm_compute. reflexivity.
  - exact demo_bytes.
  - exfalso. destruct (is_ok_true _ demo_mounts) as [x Hx]. exact (alloc_failed_not_ok _ Hf x Hx).
  - assert (root = demo_root /\ s = demo_initrd) as [-> ->].
    { unfold demo_root, demo_initrd, demo_mount, DEMO_END. rewrite Hrun. split; reflexivity. }
    destruct (Hread 1%nat (codes "colour=1") (codes "etc/system/config") demo_root 7 100 0x200000) as (x & s' & Hres & Hrd & Hl).
    + reflexivity.
    + apply is_Some_check. vm_compute. reflexivity.
    + split; [discriminate|reflexivity].
    + discriminate.
    + discriminate.
    + discriminate.
    + discriminate.
    + right. vm_compute. discriminate.
    + exists demo_root, demo_initrd, x, s'. split; [exact Hrun|]. split; [exact Hres|]. split; [exact Hrd|exact Hl].
Defined.

(** ** What the builder does not check *)

Definition clash_inputs : list (option (list Z) * list Z) :=
  [(Some (codes "a"), codes "etc"); (Some (codes "b"), codes "etc/config")].
Definition clash_image : list Z := image_of clash_inputs.
Definition dev_inputs : list (option (list Z) * list Z) := [(Some (codes "a"), codes "dev")].
Definition dev_image : list Z := image_of dev_inputs.
Definition boot_image (img : list Z) : res (Z * initrd (gset Z)) :=
  initialise_initrd DEMO_LOCATION (DEMO_LOCATION + Z.of_nat (List.length img)) (image_memory DEMO_LOCATION img) ([], 0) ∅.

(** Make_initrd writes an image for a file and another file below it,
    and for a file named [dev], although the kernel panics on both while
    mounting. *)
Theorem make_initrd_unbootable :
  main clash_inputs = Ok (Some clash_image) /\ boot_image clash_image = Panic ASSERTION_FAILED /\
  main dev_inputs = Ok (Some dev_image) /\ boot_image dev_image = Panic ASSERTION_FAILED.
Proof. vm_compute. repeat split. Qed.
