(* ===== verification/Task.v ===== *)
(** * task.c: processes and the round-robin scheduler

    Tasks are objects of a store named by their address, linked by [next]
    into the ready queue; [0] is the null pointer.  [kernel] is the state
    the process code touches: the tasks, the memory manager (directories,
    frames, the allocator), the VFS and the register frames saved on kernel
    stacks.  The context switch itself is assembly: [switch_task] gets the
    registers it reads from the CPU as arguments and ends with the chosen
    task in [current_task]; the CPU then continues at that task's [eip]. *)

From S2P Require Import Prelude Kmalloc Frames Paging Vfs.

Definition USER_HEAP_START : Z := 0x40000000.
Definition USER_HEAP_LIMIT : Z := 0xBFF00000.
Definition USER_STACK_TOP : Z := 0xC0000000.
Definition KERNEL_STACK_SIZE : Z := 8192.
Definition TASK_STACK_SIZE : Z := 8192.
Definition STACK_BOTTOM : Z := USER_STACK_TOP - TASK_STACK_SIZE.
Definition MAX_FILE_DESCRIPTORS : nat := 16.
Definition PAGE_SIZE : Z := 0x1000.
Definition PAGE_ALIGN_UP (value : Z) : Z := Z.land (u32 (value + PAGE_SIZE - 1)) (u32 (Z.lnot (PAGE_SIZE - 1))).
Definition sizeof_task_t : Z := 460.
Definition sizeof_registers_t : Z := 64.

Inductive file_descriptor_kind : Type := FD_KIND_FREE | FD_KIND_KEYBOARD | FD_KIND_CONSOLE | FD_KIND_NODE.
#[export] Instance file_descriptor_kind_eq_dec : EqDecision file_descriptor_kind.
Proof. solve_decision. Defined.

Record file_descriptor : Type := mk_descriptor {
  kind : file_descriptor_kind;
  node : Z;
  offset : Z;
  fd_flags : Z
}.
Definition free_descriptor : file_descriptor := mk_descriptor FD_KIND_FREE 0 0 0.

Inductive task_state : Type := TASK_RUNNABLE | TASK_WAITING_INPUT | TASK_ZOMBIE.
#[export] Instance task_state_eq_dec : EqDecision task_state.
Proof. solve_decision. Defined.

(** [registers_t], the frame an interrupt leaves on the kernel stack. *)
Record registers : Type := mk_registers {
  r_ds : Z; r_edi : Z; r_esi : Z; r_ebp : Z; r_esp : Z; r_ebx : Z; r_edx : Z; r_ecx : Z; r_eax : Z;
  r_int_no : Z; r_err_code : Z; r_eip : Z; r_cs : Z; r_eflags : Z; r_useresp : Z; r_ss : Z
}.
Definition set_eax (v : Z) (r : registers) : registers :=
  mk_registers (r_ds r) (r_edi r) (r_esi r) (r_ebp r) (r_esp r) (r_ebx r) (r_edx r) (r_ecx r) v
    (r_int_no r) (r_err_code r) (r_eip r) (r_cs r) (r_eflags r) (r_useresp r) (r_ss r).

Record task : Type := mk_task {
  id : Z;
  parent_id : Z;
  state : task_state;
  exit_status : Z;
  esp : Z; ebp : Z; eip : Z;
  task_directory : Z;
  kernel_stack : Z;
  heap_start : Z; heap_break : Z; heap_mapped_end : Z; heap_limit : Z;
  is_user_process : Z;
  signal_handlers : list Z;
  pending_signals : Z;
  signal_trampoline : Z;
  signal_active : Z;
  active_signal : Z;
  descriptors : list file_descriptor;
  working_directory : Z;
  next : Z
}.

(** After [memset(task, 0, sizeof(task_t))]. *)
Definition zero_task : task :=
  mk_task 0 0 TASK_RUNNABLE 0 0 0 0 0 0 0 0 0 0 0 (replicate 32 0) 0 0 0 0
    (replicate MAX_FILE_DESCRIPTORS free_descriptor) 0 0.

Definition set_next (n : Z) (t : task) : task :=
  mk_task (id t) (parent_id t) (state t) (exit_status t) (esp t) (ebp t) (eip t) (task_directory t) (kernel_stack t)
    (heap_start t) (heap_break t) (heap_mapped_end t) (heap_limit t) (is_user_process t)
    (signal_handlers t) (pending_signals t) (signal_trampoline t) (signal_active t) (active_signal t)
    (descriptors t) (working_directory t) n.
Definition set_state (s : task_state) (t : task) : task :=
  mk_task (id t) (parent_id t) s (exit_status t) (esp t) (ebp t) (eip t) (task_directory t) (kernel_stack t)
    (heap_start t) (heap_break t) (heap_mapped_end t) (heap_limit t) (is_user_process t)
    (signal_handlers t) (pending_signals t) (signal_trampoline t) (signal_active t) (active_signal t)
    (descriptors t) (working_directory t) (next t).
Definition set_exit_status (v : Z) (t : task) : task :=
  mk_task (id t) (parent_id t) (state t) v (esp t) (ebp t) (eip t) (task_directory t) (kernel_stack t)
    (heap_start t) (heap_break t) (heap_mapped_end t) (heap_limit t) (is_user_process t)
    (signal_handlers t) (pending_signals t) (signal_trampoline t) (signal_active t) (active_signal t)
    (descriptors t) (working_directory t) (next t).
Definition set_context (e s b : Z) (t : task) : task :=
  mk_task (id t) (parent_id t) (state t) (exit_status t) s b e (task_directory t) (kernel_stack t)
    (heap_start t) (heap_break t) (heap_mapped_end t) (heap_limit t) (is_user_process t)
    (signal_handlers t) (pending_signals t) (signal_trampoline t) (signal_active t) (active_signal t)
    (descriptors t) (working_directory t) (next t).
Definition set_heap (brk mapped_end : Z) (t : task) : task :=
  mk_task (id t) (parent_id t) (state t) (exit_status t) (esp t) (ebp t) (eip t) (task_directory t) (kernel_stack t)
    (heap_start t) brk mapped_end (heap_limit t) (is_user_process t)
    (signal_handlers t) (pending_signals t) (signal_trampoline t) (signal_active t) (active_signal t)
    (descriptors t) (working_directory t) (next t).
Definition set_descriptors (ds : list file_descriptor) (t : task) : task :=
  mk_task (id t) (parent_id t) (state t) (exit_status t) (esp t) (ebp t) (eip t) (task_directory t) (kernel_stack t)
    (heap_start t) (heap_break t) (heap_mapped_end t) (heap_limit t) (is_user_process t)
    (signal_handlers t) (pending_signals t) (signal_trampoline t) (signal_active t) (active_signal t)
    ds (working_directory t) (next t).
Definition set_working_directory (d : Z) (t : task) : task :=
  mk_task (id t) (parent_id t) (state t) (exit_status t) (esp t) (ebp t) (eip t) (task_directory t) (kernel_stack t)
    (heap_start t) (heap_break t) (heap_mapped_end t) (heap_limit t) (is_user_process t)
    (signal_handlers t) (pending_signals t) (signal_trampoline t) (signal_active t) (active_signal t)
    (descriptors t) d (next t).
Definition set_signals (handlers : list Z) (pending trampoline active number : Z) (t : task) : task :=
  mk_task (id t) (parent_id t) (state t) (exit_status t) (esp t) (ebp t) (eip t) (task_directory t) (kernel_stack t)
    (heap_start t) (heap_break t) (heap_mapped_end t) (heap_limit t) (is_user_process t)
    handlers pending trampoline active number
    (descriptors t) (working_directory t) (next t).

(** What a physical page of zeros is. *)
Class ZeroPage (C : Type) : Type := zero_page : C.

Record kernel (C K S : Type) : Type := mk_kernel {
  tasks : gmap Z task;
  current_task : Z;
  ready_queue : Z;
  next_pid : Z;
  tss_stack : Z;
  kmm : mm C K;
  kfs : S;
  saved_frames : gmap Z registers
}.
Arguments mk_kernel {C K S}. Arguments tasks {C K S}. Arguments current_task {C K S}.
Arguments ready_queue {C K S}. Arguments next_pid {C K S}. Arguments tss_stack {C K S}.
Arguments kmm {C K S}. Arguments kfs {C K S}. Arguments saved_frames {C K S}.

Section tasks.
Context {C K S Cb : Type} `{!Kmalloc K} `{!ZeroPage C} `{!FsDriver S Cb}.
Implicit Types k : kernel C K S.

Definition with_tasks k (ts : gmap Z task) : kernel C K S :=
  mk_kernel ts (current_task k) (ready_queue k) (next_pid k) (tss_stack k) (kmm k) (kfs k) (saved_frames k).
Definition with_mm k (m : mm C K) : kernel C K S :=
  mk_kernel (tasks k) (current_task k) (ready_queue k) (next_pid k) (tss_stack k) m (kfs k) (saved_frames k).
Definition with_fs k (f : S) : kernel C K S :=
  mk_kernel (tasks k) (current_task k) (ready_queue k) (next_pid k) (tss_stack k) (kmm k) f (saved_frames k).
Definition with_next_pid k (p : Z) : kernel C K S :=
  mk_kernel (tasks k) (current_task k) (ready_queue k) p (tss_stack k) (kmm k) (kfs k) (saved_frames k).
Definition with_frame k (a : Z) (r : registers) : kernel C K S :=
  mk_kernel (tasks k) (current_task k) (ready_queue k) (next_pid k) (tss_stack k) (kmm k) (kfs k)
    (<[a := r]> (saved_frames k)).
(** [set_kernel_stack] of descriptor_tables.c. *)
Definition set_kernel_stack (stack : Z) k : kernel C K S :=
  mk_kernel (tasks k) (current_task k) (ready_queue k) (next_pid k) stack (kmm k) (kfs k) (saved_frames k).
Definition set_current (t : Z) k : kernel C K S :=
  mk_kernel (tasks k) t (ready_queue k) (next_pid k) (tss_stack k) (kmm k) (kfs k) (saved_frames k).

Definition get_task (t : Z) k : res task :=
  match tasks k !! t with Some x => Ok x | None => Panic NULL_POINTER end.
Definition update_task (t : Z) (f : task -> task) k : kernel C K S := with_tasks k (alter f t (tasks k)).

(** ** Scheduling *)

Definition candidate_step k (candidate : Z) : res (ctl Z Z) :=
  c ← get_task candidate k;
  let candidate := if next c =? 0 then ready_queue k else next c in
  c ← get_task candidate k;
  if decide (state c = TASK_RUNNABLE) then Ok (Break candidate) else Ok (Continue candidate).

(** The [do ... while] search: successors of [candidate] until a runnable
    one. *)
Definition next_runnable (candidate : Z) k : res Z := while (candidate_step k) candidate.

Definition switch_task (cpu_eip cpu_esp cpu_ebp : Z) k : res (kernel C K S) :=
  if current_task k =? 0 then Ok k
  else
    cur ← get_task (current_task k) k;
    if (current_task k =? ready_queue k) && (next cur =? 0) then Ok k
    else
      let k := update_task (current_task k) (set_context cpu_eip cpu_esp cpu_ebp) k in
      candidate ← next_runnable (current_task k) k;
      let k := set_current candidate k in
      t ← get_task candidate k;
      let k := with_mm k (switch_page_directory (task_directory t) (kmm k)) in
      Ok (set_kernel_stack (u32 (kernel_stack t + KERNEL_STACK_SIZE)) k).

Definition queue_tail k : res Z :=
  while (fun tail => t ← get_task tail k; if next t =? 0 then Ok (Break tail) else Ok (Continue (next t)))
    (ready_queue k).

Definition append_ready_task (new_task : Z) k : res (kernel C K S) :=
  tail ← queue_tail k;
  Ok (update_task tail (set_next new_task) k).

(** ** The process heap *)

(** [alloc_frame(page, 0, 1)] and [zero_page_physical] of its frame. *)
Definition back_page (table i : Z) (m : mm C K) : res (mm C K) :=
  p ← read_page table i m;
  '(p, b) ← alloc_frame p 0 1 (bits m);
  let m := write_page table i p (with_bits m b) in
  let physical := u32 (frame p * PAGE_SIZE) in
  Ok (mk_mm (bits m) (page_tables m) (directories m)
        (fun a => if a =? physical then zero_page else contents_of m a)
        (kernel_directory m) (current_directory m) (kstate m)).

(** [get_page] and the above: a new user page. *)
Definition map_zero_page (dir address : Z) (m : mm C K) : res (mm C K) :=
  '(entry, m) ← get_page address 1 dir m;
  match entry with
  | None => Panic ASSERTION_FAILED
  | Some (table, i) => back_page table i m
  end.

(** [for (address = first; address < last; address += PAGE_SIZE)]. *)
Definition map_pages (dir first last : Z) (m : mm C K) : res (mm C K) :=
  while (fun '(address, m) =>
    if address <? last then
      m ← map_zero_page dir address m;
      Ok (Continue (u32 (address + PAGE_SIZE), m))
    else Ok (Break m)) (first, m).

Definition SBRK_FAILED : Z := u32 (-1).

Definition sbrk_target (old_break increment : Z) : option Z :=
  if 0 <=? increment then
    let growth := u32 increment in
    if 0xFFFFFFFF - old_break <? growth then None else Some (old_break + growth)
  else
    let shrink := u32 (0 - u32 increment) in
    if old_break <? shrink then None else Some (old_break - shrink).

Definition task_sbrk (increment : Z) k : res (Z * kernel C K S) :=
  if current_task k =? 0 then Ok (SBRK_FAILED, k)
  else
    process ← get_task (current_task k) k;
    if is_user_process process =? 0 then Ok (SBRK_FAILED, k)
    else
      let old_break := heap_break process in
      match sbrk_target old_break increment with
      | None => Ok (SBRK_FAILED, k)
      | Some new_break =>
          if (new_break <? heap_start process) || (heap_limit process <? new_break) then Ok (SBRK_FAILED, k)
          else
            let required_mapped_end := PAGE_ALIGN_UP new_break in
            m ← map_pages (task_directory process) (heap_mapped_end process) required_mapped_end (kmm k);
            let mapped_end := if heap_mapped_end process <? required_mapped_end then required_mapped_end
                              else heap_mapped_end process in
            Ok (old_break, update_task (current_task k) (set_heap new_break mapped_end) (with_mm k m))
      end.

(** ** Descriptors *)

Definition initialise_standard_descriptors (t : task) : task :=
  set_descriptors (<[2%nat := mk_descriptor FD_KIND_CONSOLE 0 0 0]> (<[1%nat := mk_descriptor FD_KIND_CONSOLE 0 0 0]>
    (<[0%nat := mk_descriptor FD_KIND_KEYBOARD 0 0 0]> (replicate MAX_FILE_DESCRIPTORS free_descriptor)))) t.

Definition task_get_descriptor (fd : Z) k : res (option file_descriptor) :=
  if (current_task k =? 0) || (fd <? 0) || (Z.of_nat MAX_FILE_DESCRIPTORS <=? fd) then Ok None
  else
    t ← get_task (current_task k) k;
    match descriptors t !! Z.to_nat fd with
    | None => Panic NULL_POINTER
    | Some d => if decide (kind d = FD_KIND_FREE) then Ok None else Ok (Some d)
    end.

Definition set_descriptor (fd : Z) (d : file_descriptor) k : kernel C K S :=
  update_task (current_task k) (fun t => set_descriptors (<[Z.to_nat fd := d]> (descriptors t)) t) k.

(** The search for a free slot from [fd] on. *)
Fixpoint free_slot (fuel : nat) (fd : nat) (ds : list file_descriptor) : option nat :=
  match fuel with
  | O => None
  | Datatypes.S fuel =>
      match ds !! fd with
      | Some d => if decide (kind d = FD_KIND_FREE) then Some fd else free_slot fuel (Datatypes.S fd) ds
      | None => None
      end
  end.

Definition task_open_descriptor (nd flags : Z) k : res (Z * kernel C K S) :=
  if (current_task k =? 0) || (nd =? 0) then Ok (-1, k)
  else
    t ← get_task (current_task k) k;
    match free_slot (MAX_FILE_DESCRIPTORS - 3) 3 (descriptors t) with
    | None => Ok (-1, k)
    | Some fd =>
        let k := set_descriptor (Z.of_nat fd) (mk_descriptor FD_KIND_NODE nd 0 flags) k in
        f ← open_fs nd 1 0 (kfs k);
        Ok (Z.of_nat fd, with_fs k f)
    end.

Definition task_close_descriptor (fd : Z) k : res (Z * kernel C K S) :=
  if (fd <? 3) || (Z.of_nat MAX_FILE_DESCRIPTORS <=? fd) || (current_task k =? 0) then Ok (-1, k)
  else
    t ← get_task (current_task k) k;
    match descriptors t !! Z.to_nat fd with
    | None => Panic NULL_POINTER
    | Some d =>
        if decide (kind d = FD_KIND_FREE) then Ok (-1, k)
        else
          f ← (if decide (kind d = FD_KIND_NODE) then close_fs (node d) (kfs k) else Ok (kfs k));
          Ok (0, set_descriptor fd free_descriptor (with_fs k f))
    end.

Definition task_seek_descriptor (fd seek origin : Z) k : res (Z * kernel C K S) :=
  d ← task_get_descriptor fd k;
  match d with
  | None => Ok (-1, k)
  | Some d =>
      if negb (bool_decide (kind d = FD_KIND_NODE)) || (node d =? 0) then Ok (-1, k)
      else
        base ← (if origin =? 0 then Ok (Some 0)
                else if origin =? 1 then Ok (Some (offset d))
                else if origin =? 2 then n ← deref (node d) (kfs k); Ok (Some (length n))
                else Ok None);
        let moved base :=
          if 0 <=? seek then
            if (0x7FFFFFFF <? base) || (0x7FFFFFFF - base <? u32 seek) then None
            else Some (base + u32 seek)
          else
            let magnitude := u32 (0 - u32 seek) in
            if base <? magnitude then None else Some (base - magnitude) in
        match base with
        | None => Ok (-1, k)
        | Some base =>
            match moved base with
            | None => Ok (-1, k)
            | Some result =>
                Ok (s32 result, set_descriptor fd (mk_descriptor (kind d) (node d) result (fd_flags d)) k)
            end
        end
  end.

(** ** Waiting for input *)

Definition task_wait_for_keyboard (cpu_eip cpu_esp cpu_ebp : Z) k : res (kernel C K S) :=
  ASSERT (negb (current_task k =? 0));;
  t ← get_task (current_task k) k;
  ASSERT (negb (is_user_process t =? 0) && bool_decide (state t = TASK_RUNNABLE));;
  switch_task cpu_eip cpu_esp cpu_ebp (update_task (current_task k) (set_state TASK_WAITING_INPUT) k).

Definition task_wake_keyboard_waiters k : res (kernel C K S) :=
  while (fun '(t, k) =>
    if t =? 0 then Ok (Break k)
    else
      x ← get_task t k;
      let k := if decide (state x = TASK_WAITING_INPUT) then update_task t (set_state TASK_RUNNABLE) k else k in
      Ok (Continue (next x, k))) (ready_queue k, k).

Definition task_has_pending_signal k : res bool :=
  if current_task k =? 0 then Ok false
  else t ← get_task (current_task k) k; Ok (negb (pending_signals t =? 0)).

Definition task_get_working_directory k : res Z :=
  if current_task k =? 0 then Ok 0 else t ← get_task (current_task k) k; Ok (working_directory t).

Definition task_set_working_directory (directory : Z) k : res (kernel C K S) :=
  ASSERT (negb (current_task k =? 0));;
  ASSERT (negb (directory =? 0));;
  n ← deref directory (kfs k);
  ASSERT (is_directory n);;
  Ok (update_task (current_task k) (Task.set_working_directory directory) k).

Definition getpid k : res Z := t ← get_task (current_task k) k; Ok (id t).
End tasks.
