(* ===== verification/Scheduler.v ===== *)
(** * Mapping pages, and the round-robin scheduler

    [get_page] with [make], [alloc_frame] and [zero_page_physical] together
    give a directory one new page of zeros: a free frame, mapped nowhere
    else, while every other page of every directory stays as it is.  The
    second half is about [switch_task]: the first runnable task in ring
    order is chosen, and every runnable task runs within one round. *)

From S2P Require Import Prelude LinkedList Kmalloc Frames Paging PagingProofs AddressSpace Vfs Task.

Section map.
Context {C K : Type} `{!Kmalloc K} `{!KmallocLaws K} `{!ZeroPage C}.
Implicit Types m u : mm C K.

(** A private table is in no other slot of any directory. *)
Lemma slot_private m dir i t ps dir' d' i' : vm_ok m -> private m dir i t ps ->
  directories m !! dir' = Some d' -> tables d' !! i' = Some t -> dir' = dir /\ i' = i.
Proof.
  intros Hvm Hp Hd' Ht. pose proof Hp as (d & kd & _ & _ & H0 & Hkd & _ & Hps).
  assert ((i' < 1024)%nat) as Hi'.
  { apply lookup_lt_Some in Ht. by rewrite (dk_tables _ _ (vm_directories _ Hvm _ _ Hd')) in Ht. }
  destruct (slot_cases m dir' d' kd i' Hvm Hd' Hkd Hi') as (t1 & kt & Ht1 & Hkt & Hcase).
  assert (t1 = t) as -> by congruence. destruct Hcase as [?|[[_ ->]|[ps2 Hp2]]]; [done| |].
  - by destruct (vm_kernel_slot _ Hvm _ _ _ _ _ _ Hp Hkd Hkt).
  - by destruct (vm_once _ Hvm _ _ _ _ _ _ _ Hp2 Hp).
Qed.

(** What mapping one page does. *)
Record mapped m m' (dir v : Z) (p : page_t) : Prop := {
  mp_ok : vm_ok m';
  mp_page : pte m' dir v = Some p;
  mp_flags : present p = 1 /\ rw p = 1 /\ user p = 1;
  mp_frame : 0 <= frame p < nframes (bits m) /\ used (bits m) (frame p) = false;
  mp_zero : contents_of m' (base (frame p)) = zero_page;
  mp_pte dir' v' : is_Some (directories m !! dir') -> 0 <= v' -> dir' <> dir \/ v' <> v -> pte m' dir' v' = pte m dir' v';
  mp_nframes : nframes (bits m') = nframes (bits m);
  mp_used g : 0 <= g -> used (bits m') g = true <-> used (bits m) g = true \/ g = frame p;
  mp_contents f : 0 <= f < nframes (bits m) -> f <> frame p -> contents_of m' (base f) = contents_of m (base f);
  mp_kernel : kernel_directory m' = kernel_directory m;
  mp_current : current_directory m' = current_directory m;
  mp_directories x : is_Some (directories m' !! x) <-> is_Some (directories m !! x);
  mp_tables t : is_Some (page_tables m' !! t) -> is_Some (page_tables m !! t) \/ t ∉ k_live (kstate m);
  mp_blocks x : x ∈ k_live (kstate m) -> x ∈ k_live (kstate m');
  mp_blocks_only x : x ∈ k_live (kstate m') -> x ∈ k_live (kstate m) \/
    exists ps, private m' dir (Z.to_nat (v / 1024)) x ps;
  mp_private_new d i t ps : private m' d i t ps -> (exists qs, private m d i t qs) \/
    d = dir /\ i = Z.to_nat (v / 1024) /\ (t ∉ k_live (kstate m));
  mp_private_old d i t ps : private m d i t ps -> exists qs, private m' d i t qs;
  mp_shared d i : shared_slot m d i -> shared_slot m' d i;
  mp_slots d v' : user_slot m d v' -> user_slot m' d v';
  mp_kernel_slots : directories m' !! kernel_directory m = directories m !! kernel_directory m
}.

(** ** The page-table part: [get_page] *)

(** A new empty table in an empty slot. *)
Lemma set_slot_directory m d i t phys d0 x : directories (set_table_slot d i t phys m) !! x = Some d0 ->
  exists y, directories m !! x = Some y /\
    d0 = if decide (x = d) then mk_directory (<[Z.to_nat i := t]> (tables y)) (<[Z.to_nat i := phys]> (tablesPhysical y)) (physicalAddr y) else y.
Proof.
  simpl. intros [(<- & y & Hy & ->)|[Hne Hy]]%lookup_alter_Some; exists d0 || exists y; case_decide; try done; by subst.
Qed.

Record table_added m m' (dir : Z) (i : nat) (t phys : Z) : Prop := {
  ta_directories : directories m' = alter (fun x => mk_directory (<[i := t]> (tables x))
    (<[i := phys]> (tablesPhysical x)) (physicalAddr x)) dir (directories m);
  ta_tables : page_tables m' = <[t := replicate 1024 empty_page]> (page_tables m);
  ta_bits : bits m' = bits m;
  ta_contents : contents_of m' = contents_of m;
  ta_kernel : kernel_directory m' = kernel_directory m;
  ta_current : current_directory m' = current_directory m;
  ta_blocks : k_live (kstate m') = {[t]} ∪ k_live (kstate m)
}.

Lemma empty_owns f : ~ owns (replicate 1024 empty_page) f.
Proof. intros (j & q & [-> _]%lookup_replicate & Hp & _). done. Qed.

Lemma added_lookup m m' dir i t phys x d0 : table_added m m' dir i t phys -> directories m' !! x = Some d0 ->
  exists y, directories m !! x = Some y /\
    d0 = if decide (x = dir) then mk_directory (<[i := t]> (tables y)) (<[i := phys]> (tablesPhysical y)) (physicalAddr y) else y.
Proof.
  intros Hta. rewrite (ta_directories _ _ _ _ _ _ Hta).
  intros [(<- & y & Hy & ->)|[Hne Hy]]%lookup_alter_Some; [exists y|exists d0]; case_decide; try done; by subst.
Qed.

Lemma added_private m m' dir i t phys d' i' t' ps' : vm_ok m -> dir <> kernel_directory m -> t ∉ k_live (kstate m) ->
  table_added m m' dir i t phys -> private m' d' i' t' ps' ->
  private m d' i' t' ps' /\ t' <> t \/ d' = dir /\ i' = i /\ t' = t /\ ps' = replicate 1024 empty_page.
Proof.
  intros Hvm Hnk Hfresh Hta (x & kx & H1 & H2 & H3 & H4 & H5 & H6).
  assert (forall d x j, directories m !! d = Some x -> tables x !! j = Some t -> t <> 0 -> False) as Hold.
  { intros d y j Hd Hj H0. destruct (dk_present _ _ (vm_directories _ Hvm _ _ Hd) j t Hj H0) as (ps & Hps & _).
    apply Hfresh. by eapply (ol_tables _ (vm_live _ Hvm)). }
  destruct (added_lookup _ _ _ _ _ _ _ _ Hta H1) as (y & Hy & ->).
  destruct (added_lookup _ _ _ _ _ _ _ _ Hta H4) as (ky & Hky & ->). rewrite (ta_kernel _ _ _ _ _ _ Hta) in *.
  rewrite (decide_False (P := kernel_directory m = dir)) in H5 by done. rewrite (ta_tables _ _ _ _ _ _ Hta) in H6. clear H1 H4.
  destruct (decide (t' = t)) as [->|Hne].
  - right. rewrite lookup_insert_eq in H6. assert (ps' = replicate 1024 empty_page) as -> by congruence. case_decide as E; [|by destruct (Hold d' y i')].
    simpl in H2. apply list_lookup_insert_Some in H2 as [(-> & _ & _)|[_ H2]]; [done|]. by destruct (Hold d' y i').
  - left. rewrite lookup_insert_ne in H6 by done. split; [|done]. exists y, ky. split_and!; try done.
    case_decide as E; [|done]. simpl in H2. apply list_lookup_insert_Some in H2 as [(_ & -> & _)|[_ ?]]; done.
Qed.

Lemma added_pte m m' dir i t phys d' v : vm_ok m -> (t ∉ k_live (kstate m)) -> t <> 0 ->
  table_added m m' dir i t phys -> (exists d, directories m !! dir = Some d /\ tables d !! i = Some 0) ->
  pte m' d' v = pte m d' v.
Proof.
  intros Hvm Hfresh H0 Hta (d & Hd & Hz). unfold pte.
  assert (page_tables m !! t = None) as Hnone.
  { destruct (page_tables m !! t) eqn:E; [|done]. destruct Hfresh. by eapply (ol_tables _ (vm_live _ Hvm)). }
  destruct (directories m !! d') as [x|] eqn:Hx.
  - assert (forall t', table_entry (<[t:=replicate 1024 empty_page]> (page_tables m) !! t') v = table_entry (page_tables m !! t') v) as Hte.
    { intros t'. destruct (decide (t' = t)) as [->|]; [|by rewrite lookup_insert_ne].
      by rewrite lookup_insert_eq, table_entry_empty, Hnone. }
    rewrite (ta_directories _ _ _ _ _ _ Hta), (ta_tables _ _ _ _ _ _ Hta). destruct (decide (d' = dir)) as [->|Hne].
    + rewrite lookup_alter_eq, Hx. cbn [fmap option_fmap option_map mbind option_bind tables]. assert (x = d) as -> by congruence.
      destruct (decide (Z.to_nat (v / 1024) = i)) as [<-|Hi].
      * rewrite list_lookup_insert_eq by (by eapply lookup_lt_Some). rewrite Hz. cbn [mbind option_bind].
        by rewrite (proj2 (Z.eqb_neq t 0)), lookup_insert_eq, table_entry_empty by done.
      * rewrite list_lookup_insert_ne by done. destruct (tables d !! Z.to_nat (v / 1024)) as [t'|]; cbn [mbind option_bind]; [|done].
        by rewrite Hte.
    + rewrite lookup_alter_ne, Hx by done. cbn [mbind option_bind].
      destruct (tables x !! Z.to_nat (v / 1024)) as [t'|]; cbn [mbind option_bind]; [|done]. by rewrite Hte.
  - rewrite (ta_directories _ _ _ _ _ _ Hta). destruct (decide (d' = dir)) as [->|Hne]; [congruence|].
    by rewrite lookup_alter_ne, Hx.
Qed.

Lemma added_ok m m' dir i t phys d : vm_ok m -> dir <> kernel_directory m -> t ∉ k_live (kstate m) -> t <> 0 ->
  directories m !! dir = Some d -> tables d !! i = Some 0 -> table_added m m' dir i t phys -> vm_ok m'.
Proof.
  intros Hvm Hnk Hfresh H0 Hd Hz Hta.
  pose proof (added_private m m' dir i t phys) as Hpriv.
  assert (forall x x0, directories m' !! x = Some x0 -> is_Some (directories m !! x)) as Hdir
    by (intros x x0 Hx; destruct (added_lookup _ _ _ _ _ _ _ _ Hta Hx) as (y & Hy & _); eauto).
  assert (forall kd, directories m' !! kernel_directory m' = Some kd -> directories m !! kernel_directory m = Some kd) as HK.
  { intros kd Hkd. rewrite (ta_kernel _ _ _ _ _ _ Hta) in Hkd. destruct (added_lookup _ _ _ _ _ _ _ _ Hta Hkd) as (y & Hy & ->).
    by rewrite decide_False. }
  assert (forall kd j, directories m !! kernel_directory m = Some kd -> tables kd !! j = Some t -> False) as Hkt.
  { intros kd j Hkd Hj. destruct (dk_present _ _ (vm_directories _ Hvm _ _ Hkd) j t Hj H0) as (ps & Hps & _).
    apply Hfresh. by eapply (ol_tables _ (vm_live _ Hvm)). }
  assert (forall x ps, page_tables m' !! x = Some ps -> x <> t -> page_tables m !! x = Some ps) as Htab
    by (intros x ps Hx Hne; by rewrite (ta_tables _ _ _ _ _ _ Hta), lookup_insert_ne in Hx).
  assert (forall x, is_Some (page_tables m' !! x) -> x = t \/ is_Some (page_tables m !! x)) as Htab2.
  { intros x [ps Hps]. destruct (decide (x = t)); [by left|right]. apply Htab in Hps; eauto. }
  split.
  - rewrite (ta_bits _ _ _ _ _ _ Hta). apply Hvm.
  - split; intros x y Hx; rewrite (ta_blocks _ _ _ _ _ _ Hta), elem_of_union, elem_of_singleton.
    + destruct (Htab2 x) as [|[z Hz']]; [by eexists|by left|right]. by eapply (ol_tables _ (vm_live _ Hvm)).
    + apply Hdir in Hx as [z Hz']. right. by eapply (ol_directories _ (vm_live _ Hvm)).
  - intros x y [z Hz']%Hdir. by eapply (vm_addr _ Hvm).
  - destruct (vm_kernel _ Hvm) as [kd Hkd]. exists kd.
    by rewrite (ta_kernel _ _ _ _ _ _ Hta), (ta_directories _ _ _ _ _ _ Hta), lookup_alter_ne.
  - rewrite (ta_current _ _ _ _ _ _ Hta), (ta_directories _ _ _ _ _ _ Hta). apply lookup_alter_is_Some, Hvm.
  - intros x y Hx. destruct (added_lookup _ _ _ _ _ _ _ _ Hta Hx) as (z & Hz' & ->).
    destruct (vm_directories _ Hvm _ _ Hz') as [L1 L2 Hp].
    assert (forall j t', t' <> 0 -> tables z !! j = Some t' ->
      exists ps, page_tables m' !! t' = Some ps /\ table_ok (bits m') ps) as Hold.
    { intros j t' Ht0 Hj. destruct (Hp j t' Hj Ht0) as (ps & Hps & Hok). exists ps.
      rewrite (ta_tables _ _ _ _ _ _ Hta), (ta_bits _ _ _ _ _ _ Hta), lookup_insert_ne; [done|].
      intros <-. apply Hfresh. by eapply (ol_tables _ (vm_live _ Hvm)). }
    case_decide; [|split; eauto]. split; simpl; rewrite ?length_insert; try done.
    intros j t' [(<- & <- & _)|[_ Hj]]%list_lookup_insert_Some Ht0; [|by eapply Hold].
    rewrite (ta_tables _ _ _ _ _ _ Hta), lookup_insert_eq. eexists. split; [done|].
    split; [by rewrite length_replicate|]. intros f Hf. by destruct (empty_owns f).
  - intros x ps y Hx Hy. destruct (Hdir _ _ Hy) as [z Hz']. destruct (decide (x = t)) as [->|Hne].
    + apply Hfresh. by eapply (ol_directories _ (vm_live _ Hvm)).
    + apply Htab in Hx; [|done]. by eapply (vm_disjoint _ Hvm).
  - intros d1 i1 d2 i2 x p1 p2 H1%Hpriv H2%Hpriv; try done.
    destruct H1 as [[H1 N1]|(-> & -> & -> & _)], H2 as [[H2 N2]|(-> & -> & ? & _)]; try done. by eapply (vm_once _ Hvm).
  - intros d1 i1 x ps kd j H1%Hpriv Hkd%HK Hj; try done.
    destruct H1 as [[H1 N1]|(-> & -> & -> & _)]; [by eapply (vm_kernel_slot _ Hvm)|by eapply Hkt].
  - intros d1 i1 t1 p1 d2 i2 t2 p2 f H1%Hpriv H2%Hpriv Ho1 Ho2; try done.
    destruct H1 as [[H1 N1]|(-> & -> & -> & ->)]; [|by destruct (empty_owns f)].
    destruct H2 as [[H2 N2]|(-> & -> & -> & ->)]; [|by destruct (empty_owns f)]. by eapply (vm_frames _ Hvm).
  - intros d1 i1 t1 p1 j k p q H1%Hpriv Hp Hq Hpp; try done.
    destruct H1 as [[H1 N1]|(-> & -> & -> & ->)]; [by eapply (vm_entries _ Hvm)|].
    exfalso. apply (empty_owns (frame p)). by exists j, p.
  - intros d1 i1 t1 p1 kd j t2 qs f H1%Hpriv Hkd%HK Hj Ht2 Hqs Ho1 Ho2; try done.
    destruct H1 as [[H1 N1]|(-> & -> & -> & ->)]; [|by destruct (empty_owns f)].
    apply Htab in Hqs; [|intros ->; by eapply Hkt]. by eapply (vm_kernel_frames _ Hvm).
Qed.

(** What [get_page] with [make] may change. *)
Record table_ready m m' (dir : Z) (i : nat) : Prop := {
  tr_ok : vm_ok m';
  tr_bits : bits m' = bits m;
  tr_contents : contents_of m' = contents_of m;
  tr_kernel : kernel_directory m' = kernel_directory m;
  tr_current : current_directory m' = current_directory m;
  tr_pte d v : pte m' d v = pte m d v;
  tr_directories x : is_Some (directories m' !! x) <-> is_Some (directories m !! x);
  tr_tables t : is_Some (page_tables m' !! t) -> is_Some (page_tables m !! t) \/ t ∉ k_live (kstate m);
  tr_blocks x : x ∈ k_live (kstate m) -> x ∈ k_live (kstate m');
  tr_blocks_only x : x ∈ k_live (kstate m') -> x ∈ k_live (kstate m) \/ exists ps, private m' dir i x ps;
  tr_private_new d j t ps : private m' d j t ps -> (exists qs, private m d j t qs) \/
    d = dir /\ j = i /\ (t ∉ k_live (kstate m));
  tr_private_old d j t ps : private m d j t ps -> exists qs, private m' d j t qs;
  tr_shared d j : shared_slot m d j -> shared_slot m' d j;
  tr_slots d v : user_slot m d v -> user_slot m' d v;
  tr_kernel_slots : directories m' !! kernel_directory m = directories m !! kernel_directory m
}.

(** The other direction: old tables stay, the new one is private. *)
Lemma added_keeps m m' dir i t phys d x j t' : table_added m m' dir i t phys -> directories m !! dir = Some d ->
  tables d !! i = Some 0 -> directories m !! x = Some j -> t' <> 0 -> forall n, tables j !! n = Some t' ->
  exists j', directories m' !! x = Some j' /\ tables j' !! n = Some t'.
Proof.
  intros Hta Hd Hz Hx H0 n Hn. rewrite (ta_directories _ _ _ _ _ _ Hta). destruct (decide (x = dir)) as [->|Hne].
  - rewrite lookup_alter_eq, Hx. eexists. split; [done|]. simpl. assert (j = d) as -> by congruence.
    rewrite list_lookup_insert_ne; [done|]. intros ->. congruence.
  - rewrite lookup_alter_ne, Hx by done. eauto.
Qed.

Lemma added_kernel_slot m m' dir i t phys kd : dir <> kernel_directory m -> table_added m m' dir i t phys ->
  directories m !! kernel_directory m = Some kd -> directories m' !! kernel_directory m' = Some kd.
Proof.
  intros Hnk Hta Hkd. by rewrite (ta_kernel _ _ _ _ _ _ Hta), (ta_directories _ _ _ _ _ _ Hta), lookup_alter_ne.
Qed.

Lemma added_old_private m m' dir i t phys d d' j t' ps : t ∉ k_live (kstate m) -> vm_ok m -> dir <> kernel_directory m ->
  table_added m m' dir i t phys -> directories m !! dir = Some d -> tables d !! i = Some 0 ->
  private m d' j t' ps -> private m' d' j t' ps.
Proof.
  intros Hfresh Hvm Hnk Hta Hd Hz (x & kd & H1 & H2 & H3 & H4 & H5 & H6).
  destruct (added_keeps _ _ _ _ _ _ _ _ _ _ Hta Hd Hz H1 H3 j H2) as (x' & Hx' & Ht').
  exists x', kd. split_and!; try done; [by eapply added_kernel_slot|].
  rewrite (ta_tables _ _ _ _ _ _ Hta), lookup_insert_ne; [done|]. intros ->. apply Hfresh. by eapply (ol_tables _ (vm_live _ Hvm)).
Qed.

Lemma added_new_private m m' dir i t phys d : t ∉ k_live (kstate m) -> vm_ok m -> dir <> kernel_directory m -> t <> 0 ->
  table_added m m' dir i t phys -> directories m !! dir = Some d -> tables d !! i = Some 0 ->
  private m' dir i t (replicate 1024 empty_page).
Proof.
  intros Hfresh Hvm Hnk H0 Hta Hd Hz. destruct (vm_kernel _ Hvm) as [kd Hkd]. eexists _, kd. split_and!.
  - by rewrite (ta_directories _ _ _ _ _ _ Hta), lookup_alter_eq, Hd.
  - simpl. apply list_lookup_insert_eq. by eapply lookup_lt_Some.
  - done.
  - by eapply added_kernel_slot.
  - intros Hk. destruct (dk_present _ _ (vm_directories _ Hvm _ _ Hkd) _ t Hk) as (ps & Hps & _); [done|].
    apply Hfresh. by eapply (ol_tables _ (vm_live _ Hvm)).
  - by rewrite (ta_tables _ _ _ _ _ _ Hta), lookup_insert_eq.
Qed.

Lemma added_shared m m' dir i t phys d d' j : dir <> kernel_directory m ->
  table_added m m' dir i t phys -> directories m !! dir = Some d -> tables d !! i = Some 0 ->
  shared_slot m d' j -> shared_slot m' d' j.
Proof.
  intros Hnk Hta Hd Hz (x & kd & t' & H1 & H2 & H3 & H4 & H5).
  destruct (added_keeps _ _ _ _ _ _ _ _ _ _ Hta Hd Hz H1 H5 j H3) as (x' & Hx' & Ht').
  exists x', kd, t'. split_and!; try done. by eapply added_kernel_slot.
Qed.

Lemma added_ready m m' dir i t phys d : vm_ok m -> dir <> kernel_directory m -> t ∉ k_live (kstate m) -> t <> 0 ->
  directories m !! dir = Some d -> tables d !! i = Some 0 -> table_added m m' dir i t phys -> table_ready m m' dir i.
Proof.
  intros Hvm Hnk Hfresh H0 Hd Hz Hta. split; try apply Hta.
  - by eapply added_ok.
  - intros d' v. eapply added_pte; eauto.
  - intros x. rewrite (ta_directories _ _ _ _ _ _ Hta). apply lookup_alter_is_Some.
  - intros x. rewrite (ta_tables _ _ _ _ _ _ Hta), lookup_insert_is_Some. intros [<-|[_ ?]]; [by right|by left].
  - intros x Hx. rewrite (ta_blocks _ _ _ _ _ _ Hta). set_solver.
  - intros x. rewrite (ta_blocks _ _ _ _ _ _ Hta), elem_of_union, elem_of_singleton. intros [->|Hx]; [right|by left].
    exists (replicate 1024 empty_page). by eapply added_new_private.
  - intros d' j t' ps [[Hp _]|(-> & -> & -> & _)]%(added_private _ _ _ _ _ _ _ _ _ _ Hvm Hnk Hfresh Hta); [left; eauto|by right].
  - intros d' j t' ps Hp. exists ps. by eapply added_old_private.
  - intros d' j Hs. by eapply added_shared.
  - intros d' v (x & kd & Hx & Hkd & Hne & Hs).
    assert (exists x', directories m' !! d' = Some x' /\
      forall t', tables x' !! Z.to_nat (v / 1024) = Some t' -> tables x !! Z.to_nat (v / 1024) = Some t' \/ t' = t) as (x' & Hx' & Ht').
    { rewrite (ta_directories _ _ _ _ _ _ Hta). destruct (decide (d' = dir)) as [->|Hne'].
      - rewrite lookup_alter_eq, Hx. eexists. split; [done|]. simpl. intros t' [(_ & <- & _)|[_ ?]]%list_lookup_insert_Some; tauto.
      - rewrite lookup_alter_ne, Hx by done. eexists. split; [done|]. tauto. }
    exists x', kd. rewrite (ta_kernel _ _ _ _ _ _ Hta). split_and!; try done.
    + by rewrite (ta_directories _ _ _ _ _ _ Hta), lookup_alter_ne.
    + intros t' [Ho | ->]%Ht' Hn0; [by apply Hs|]. intros Hk.
      destruct (dk_present _ _ (vm_directories _ Hvm _ _ Hkd) _ t Hk H0) as (ps & Hps & _).
      apply Hfresh. by eapply (ol_tables _ (vm_live _ Hvm)).
  - rewrite (ta_directories _ _ _ _ _ _ Hta). by rewrite lookup_alter_ne.
Qed.

Lemma table_ready_refl m dir i : vm_ok m -> table_ready m m dir i.
Proof. intros Hvm. split; try tauto; intros ????; eauto. Qed.

Lemma get_page_make m a dir : vm_ok m -> is_u32 a -> user_slot m dir (a / 0x1000) ->
  alloc_failed (get_page a 1 dir m) \/
  exists t ps m', get_page a 1 dir m = Ok (Some (t, a / 0x1000 mod 1024), m') /\ table_ready m m' dir (Z.to_nat (a / 0x1000 / 1024)) /\
    private m' dir (Z.to_nat (a / 0x1000 / 1024)) t ps.
Proof.
  intros Hvm Ha (d & kd & Hd & Hkd & Hnk & Hslot). unfold get_page. set (v := a / 0x1000) in *.
  assert (0 <= v / 1024 < 1024) as Hv by (unfold v, is_u32 in *; Z.div_mod_to_equations; lia).
  rewrite (proj2 (Z.eqb_neq dir 0)) by (by eapply (vm_addr _ Hvm)). repeat assert_step.
  unfold read_directory. rewrite Hd. rsimpl. unfold table_slot.
  destruct (slot_cases m dir d kd (Z.to_nat (v / 1024)) Hvm Hd Hkd) as (t & kt & Ht & Hkt & Hcase); [lia|].
  rewrite Ht. rsimpl. destruct (Z.eqb_spec t 0) as [->|E]; cbn [negb].
  - change (negb (1 =? 0)) with true. cbv iota. unfold new_page_table.
    destruct (kmalloc_int_cases sizeof_page_table_t 1 true (kstate m)) as [[[[t' phys] k] Hk]|Hf].
    + right. unfold kmalloc_ap. rewrite Hk. rsimpl. destruct (kmalloc_int_fresh _ _ _ _ _ _ _ Hk) as (Ht' & Hfresh & Hlive).
      exists t', (replicate 1024 empty_page). eexists. split; [done|].
      match goal with |- table_ready _ ?q _ _ /\ _ => set (m' := q) end.
      assert (table_added m m' dir (Z.to_nat (v / 1024)) t' (Z.lor phys 7)) as Hta by by split.
      split; [by eapply added_ready; eauto; lia|]. eapply added_new_private; eauto. lia.
    + left. apply alloc_failed_bind. by apply alloc_failed_bind.
  - right. destruct Hcase as [?|[[_ ->]|[ps Hp]]]; [done|by destruct (Hslot t)|].
    exists t, ps, m. split; [done|]. split; [by apply table_ready_refl|done].
Qed.

(** ** The frame part: [alloc_frame] *)

(** Entry [j] of the private table [t] now maps the frame of [p]. *)
Record entry_set m m' (t : Z) (ps : list page_t) (j : nat) (p : page_t) : Prop := {
  es_tables : page_tables m' = <[t := <[j := p]> ps]> (page_tables m);
  es_wf : bitmap_wf (bits m');
  es_bits : bitmap_set (bits m) (bits m') (frame p) true;
  es_directories : directories m' = directories m;
  es_kernel : kernel_directory m' = kernel_directory m;
  es_current : current_directory m' = current_directory m;
  es_kstate : kstate m' = kstate m
}.

Lemma owns_insert ps j p f : owns (<[j := p]> ps) f -> f = frame p \/ owns ps f.
Proof.
  intros (k & q & [(-> & <- & _)|[_ Hk]]%list_lookup_insert_Some & Hp & Hf); [by left|right]. by exists k, q.
Qed.

Lemma entry_private m m' t ps j p d' i' t' ps' : page_tables m !! t = Some ps -> entry_set m m' t ps j p ->
  private m' d' i' t' ps' ->
  exists qs, private m d' i' t' qs /\ (t' = t /\ qs = ps /\ ps' = <[j := p]> ps \/ t' <> t /\ qs = ps').
Proof.
  intros Hps Hes (x & kx & H1 & H2 & H3 & H4 & H5 & H6).
  rewrite (es_directories _ _ _ _ _ _ Hes) in H1, H4. rewrite (es_kernel _ _ _ _ _ _ Hes) in H4.
  rewrite (es_tables _ _ _ _ _ _ Hes) in H6. destruct (decide (t' = t)) as [->|Hne].
  - rewrite lookup_insert_eq in H6. exists ps. split; [by exists x, kx|left]. split_and!; congruence.
  - rewrite lookup_insert_ne in H6 by done. exists ps'. split; [by exists x, kx|by right].
Qed.

Lemma entry_ok m m' dir i t ps j p p0 : vm_ok m -> private m dir i t ps -> ps !! j = Some p0 -> present p0 = 0 ->
  present p <> 0 -> 0 <= frame p < nframes (bits m) -> used (bits m) (frame p) = false ->
  entry_set m m' t ps j p -> vm_ok m'.
Proof.
  intros Hvm Hp Hj H0 Hpp Hf Hu Hes.
  pose proof Hp as (d & kd & Hd & Hdt & Ht0 & Hkd & Hkt & Hps).
  pose proof (fun d' i' t' ps' => entry_private m m' t ps j p d' i' t' ps' Hps Hes) as Hpriv.
  pose proof (es_bits _ _ _ _ _ _ Hes) as [Hnf Hset].
  assert (forall x, is_Some (page_tables m' !! x) <-> is_Some (page_tables m !! x)) as Htab.
  { intros x. rewrite (es_tables _ _ _ _ _ _ Hes), lookup_insert_is_Some. split; [intros [<-|[_ ?]]; eauto|].
    intros. destruct (decide (t = x)); [by left|by right]. }
  assert (forall d' i' t' qs g, private m d' i' t' qs -> owns qs g -> g <> frame p) as Hfresh.
  { intros d' i' t' qs g Hq Ho ->. assert (owned m d' (frame p)) as Ho' by (by exists i', t', qs).
    apply (owned_used _ _ _ Hvm) in Ho'. destruct Ho'. congruence. }
  assert (forall kd' k t' qs g, directories m !! kernel_directory m = Some kd' -> tables kd' !! k = Some t' -> t' <> 0 ->
    page_tables m !! t' = Some qs -> owns qs g -> g <> frame p) as Hkfresh.
  { intros kd' k t' qs g H1 H2 H3 H4 H5 ->. destruct (dk_present _ _ (vm_directories _ Hvm _ _ H1) k t' H2 H3) as (q & Hq & Hok).
    assert (q = qs) as -> by congruence. destruct (tk_frames _ _ Hok _ H5). congruence. }
  assert (forall kd', directories m' !! kernel_directory m' = Some kd' -> directories m !! kernel_directory m = Some kd') as HK
    by (intros kd'; by rewrite (es_directories _ _ _ _ _ _ Hes), (es_kernel _ _ _ _ _ _ Hes)).
  split.
  - apply Hes.
  - split; intros x y Hx; rewrite (es_kstate _ _ _ _ _ _ Hes).
    + destruct (proj1 (Htab x)) as [z Hz]; [eauto|]. by eapply (ol_tables _ (vm_live _ Hvm)).
    + rewrite (es_directories _ _ _ _ _ _ Hes) in Hx. by eapply (ol_directories _ (vm_live _ Hvm)).
  - rewrite (es_directories _ _ _ _ _ _ Hes). apply Hvm.
  - exists kd. by rewrite (es_directories _ _ _ _ _ _ Hes), (es_kernel _ _ _ _ _ _ Hes).
  - rewrite (es_directories _ _ _ _ _ _ Hes), (es_current _ _ _ _ _ _ Hes). apply Hvm.
  - intros x y Hx. rewrite (es_directories _ _ _ _ _ _ Hes) in Hx.
    destruct (vm_directories _ Hvm _ _ Hx) as [L1 L2 Hpr]. split; [done|done|]. intros k t' Hk Ht'.
    destruct (Hpr k t' Hk Ht') as (qs & Hqs & Hok). rewrite (es_tables _ _ _ _ _ _ Hes).
    assert (forall qs', List.length qs' = 1024%nat -> (forall g, owns qs' g -> g = frame p \/ owns qs g) -> table_ok (bits m') qs') as Hgen.
    { intros qs' Hl Hsub. split; [done|]. intros g Hg. rewrite Hnf. apply Hsub in Hg as [->|Hg].
      - split; [done|]. rewrite Hset by lia. by rewrite decide_True.
      - destruct (tk_frames _ _ Hok _ Hg) as [H1 H2]. split; [done|]. rewrite Hset by lia. case_decide; done. }
    destruct (decide (t' = t)) as [->|Hne].
    + assert (qs = ps) as -> by congruence. rewrite lookup_insert_eq. eexists. split; [done|]. apply Hgen.
      * rewrite length_insert. apply Hok.
      * intros g. apply owns_insert.
    + rewrite lookup_insert_ne by done. exists qs. split; [done|]. apply Hgen; [apply Hok|by right].
  - intros x y z Hx Hz. destruct (proj1 (Htab x)) as [q Hq]; [eauto|]. rewrite (es_directories _ _ _ _ _ _ Hes) in Hz.
    by eapply (vm_disjoint _ Hvm).
  - intros d1 i1 d2 i2 x p1 p2 (q1 & H1 & _)%Hpriv (q2 & H2 & _)%Hpriv. by eapply (vm_once _ Hvm).
  - intros d1 i1 x p1 k' l (q1 & H1 & _)%Hpriv Hk%HK. by eapply (vm_kernel_slot _ Hvm).
  - intros d1 i1 t1 p1 d2 i2 t2 p2 g (q1 & H1 & C1)%Hpriv (q2 & H2 & C2)%Hpriv Ho1 Ho2.
    destruct C1 as [(-> & -> & ->)|(N1 & ->)], C2 as [(-> & -> & ->)|(N2 & ->)]; [done| | |by eapply (vm_frames _ Hvm)].
    + apply owns_insert in Ho1 as [->|Ho1]; [by destruct (Hfresh _ _ _ _ _ H2 Ho2)|by eapply (vm_frames _ Hvm)].
    + apply owns_insert in Ho2 as [->|Ho2]; [by destruct (Hfresh _ _ _ _ _ H1 Ho1)|by eapply (vm_frames _ Hvm)].
  - intros d1 i1 t1 p1 k l q r (q1 & H1 & C1)%Hpriv Hq Hr Hpq Hpr E.
    destruct C1 as [(-> & -> & ->)|(N1 & ->)]; [|by eapply (vm_entries _ Hvm)].
    apply list_lookup_insert_Some in Hq as [(<- & <- & _)|[N1 Hq]], Hr as [(<- & <- & _)|[N2 Hr]]; [done| | |by eapply (vm_entries _ Hvm)].
    + destruct (Hfresh _ _ _ _ (frame r) H1); [by exists l, r|done].
    + destruct (Hfresh _ _ _ _ (frame q) H1); [by exists k, q|done].
  - intros d1 i1 t1 p1 k' l t2 qs g (q1 & H1 & C1)%Hpriv Hk%HK Hl Ht2 Hqs Ho1 Ho2.
    assert (t2 <> t) as Hne by (intros ->; by eapply (vm_kernel_slot _ Hvm _ _ _ _ _ _ Hp)).
    rewrite (es_tables _ _ _ _ _ _ Hes), lookup_insert_ne in Hqs by done.
    destruct C1 as [(-> & -> & ->)|(N1 & ->)]; [|by eapply (vm_kernel_frames _ Hvm)].
    apply owns_insert in Ho1 as [->|Ho1]; [by destruct (Hkfresh _ _ _ _ _ Hk Hl Ht2 Hqs Ho2)|by eapply (vm_kernel_frames _ Hvm)].
Qed.

Lemma entry_pte m m' dir v t ps p : vm_ok m -> 0 <= v -> private m dir (Z.to_nat (v / 1024)) t ps ->
  present p <> 0 -> List.length ps = 1024%nat -> entry_set m m' t ps (Z.to_nat (v mod 1024)) p ->
  pte m' dir v = Some p /\
  forall d' v', 0 <= v' -> d' <> dir \/ v' <> v -> pte m' d' v' = pte m d' v'.
Proof.
  intros Hvm Hv Hp Hpp Hlen Hes. pose proof Hp as (d & kd & Hd & Hdt & Ht0 & _ & _ & Hps). split.
  - rewrite (pte_lookup m' dir v d t); [|by rewrite (es_directories _ _ _ _ _ _ Hes)|done].
    rewrite (proj2 (Z.eqb_neq t 0)), (es_tables _ _ _ _ _ _ Hes), lookup_insert_eq by done.
    unfold table_entry. cbn [mbind option_bind].
    rewrite list_lookup_insert_eq by (rewrite Hlen; pose proof (Z.mod_pos_bound v 1024); lia). cbn [mbind option_bind].
    by rewrite (proj2 (Z.eqb_neq (present p) 0)).
  - intros d' v' Hv' Hne. unfold pte. rewrite (es_directories _ _ _ _ _ _ Hes), (es_tables _ _ _ _ _ _ Hes).
    destruct (directories m !! d') as [x|] eqn:Hx; [|done]. cbn [mbind option_bind].
    destruct (tables x !! Z.to_nat (v' / 1024)) as [t'|] eqn:Ht'; [|done]. cbn [mbind option_bind].
    destruct (t' =? 0); [done|]. destruct (decide (t' = t)) as [->|]; [|by rewrite lookup_insert_ne].
    destruct (slot_private m _ _ _ _ _ _ _ Hvm Hp Hx Ht') as [-> Hi]. rewrite lookup_insert_eq, Hps.
    unfold table_entry. cbn [mbind option_bind]. rewrite list_lookup_insert_ne; [done|].
    intros Hj. destruct Hne as [?|Hne]; [done|apply Hne].
    pose proof (Z.mod_pos_bound v 1024). pose proof (Z.mod_pos_bound v' 1024).
    apply Z2Nat.inj in Hi; [|apply Z.div_pos; lia..]. apply Z2Nat.inj in Hj; [|lia..].
    rewrite (Z.div_mod v 1024), (Z.div_mod v' 1024) by lia. congruence.
Qed.

Lemma private_pte m dir v t ps p : private m dir (Z.to_nat (v / 1024)) t ps ->
  ps !! Z.to_nat (v mod 1024) = Some p -> pte m dir v = if present p =? 0 then None else Some p.
Proof.
  intros (d & kd & Hd & Hdt & Ht0 & _ & _ & Hps) Hp. rewrite (pte_lookup m dir v d t) by done.
  rewrite (proj2 (Z.eqb_neq t 0)), Hps by done. unfold table_entry. cbn [mbind option_bind]. by rewrite Hp.
Qed.

Lemma private_length m dir i t ps : vm_ok m -> private m dir i t ps -> List.length ps = 1024%nat.
Proof.
  intros Hvm (d & kd & Hd & Hdt & Ht0 & _ & _ & Hps).
  destruct (dk_present _ _ (vm_directories _ Hvm _ _ Hd) i t Hdt Ht0) as (qs & Hqs & Hok).
  assert (qs = ps) as -> by congruence. apply Hok.
Qed.

Lemma back_page_spec m dir v t ps p0 : vm_ok m -> 0 <= v -> private m dir (Z.to_nat (v / 1024)) t ps ->
  ps !! Z.to_nat (v mod 1024) = Some p0 -> present p0 = 0 ->
  clone_failure (back_page t (v mod 1024) m) \/
  exists p m', back_page t (v mod 1024) m = Ok m' /\ mapped m m' dir v p.
Proof.
  intros Hvm Hv Hp Hp0 E0. unfold back_page. pose proof (private_length _ _ _ _ _ Hvm Hp) as Hlen.
  assert (page_tables m !! t = Some ps) as Hps by (destruct Hp as (?&?&?&?&?&?&?&?); done).
  rewrite (read_page_ok _ _ _ ps p0) by done. rsimpl.
  destruct (alloc_frame_spec p0 0 1 (bits m) (vm_bits _ Hvm) E0) as [[-> _]|(f & b' & -> & Hf & Hu & _ & Hwf & Hset)].
  { left. by left. }
  rsimpl. right. set (p := mk_page 1 (if 1 =? 1 then 1 else 0) (if 0 =? 1 then 0 else 1) (accessed p0) (dirty p0) (unused p0) f).
  exists p. eexists. split; [done|]. match goal with |- mapped _ ?q _ _ _ => set (m' := q) end.
  assert (entry_set m m' t ps (Z.to_nat (v mod 1024)) p) as Hes.
  { split; try done. simpl. unfold write_page. simpl. apply map_eq. intros x. destruct (decide (x = t)) as [->|].
    - by rewrite lookup_alter_eq, lookup_insert_eq, Hps.
    - by rewrite lookup_alter_ne, lookup_insert_ne. }
  assert (forall x, is_Some (page_tables m' !! x) -> is_Some (page_tables m !! x)) as Htab.
  { intros x. rewrite (es_tables _ _ _ _ _ _ Hes), lookup_insert_is_Some. intros [<-|[_ ?]]; eauto. }
  destruct (entry_pte m m' dir v t ps p Hvm Hv Hp) as [Hpte Hpte']; [done|done|done|].
  pose proof (bw_nframes _ (vm_bits _ Hvm)) as Hn20. destruct Hset as [Hnf Hset].
  split; try done.
  - eapply (entry_ok m m' dir _ t ps _ p p0); done.
  - simpl. unfold base. by rewrite Z.eqb_refl.
  - intros d' v' _ Hv' Hne. by apply Hpte'.
  - intros g Hg. simpl. rewrite Hset by done. case_decide; split; [by right|done|by left|]. by intros [?|?].
  - intros g Hg Hne. simpl. rewrite (proj2 (Z.eqb_neq _ _)); [done|].
    intros E. apply Hne. apply base_inj in E; simpl in E; [done|lia|simpl; lia].
  - intros x Hx. left. by apply Htab.
  - by left.
  - intros d' i' t' ps' Hpr. left. destruct (entry_private _ _ _ _ _ _ _ _ _ _ Hps Hes Hpr) as (qs & Hq & _). eauto.
  - intros d' i' t' ps' (x & kx & H1 & H2 & H3 & H4 & H5 & H6). destruct (decide (t' = t)) as [->|Hne].
    + exists (<[Z.to_nat (v mod 1024) := p]> ps), x, kx. split_and!; try done. by rewrite (es_tables _ _ _ _ _ _ Hes), lookup_insert_eq.
    + exists ps', x, kx. split_and!; try done. by rewrite (es_tables _ _ _ _ _ _ Hes), lookup_insert_ne.
Qed.

(** [get_page] before it changes nothing that matters. *)
Lemma ready_mapped m m1 m2 dir v p : vm_ok m -> table_ready m m1 dir (Z.to_nat (v / 1024)) -> mapped m1 m2 dir v p -> mapped m m2 dir v p.
Proof.
  intros Hvm [Hvm1 Hb Hc Hk Hcur Hpte Hd Ht Hbl Hbo Hpn Hpo Hsh Hsl Hks]
    [A1 A2 A3 A4 A5 A6 A7 A8 A9 A10 A11 A12 A13 A14 A15 A16 A17 A18 A19 A20]. rewrite Hb, ?Hc, ?Hk, ?Hcur in *.
  split; try done.
  - intros d' v' Hd'. rewrite <- Hpte. apply A6. by apply Hd.
  - intros x. by rewrite A12, Hd.
  - intros x [?|Hx]%A13; [by apply Ht|right]. intros Hl. by apply Hx, Hbl.
  - intros x Hx. by apply A14, Hbl.
  - intros x [[?|[ps Hp]]%Hbo|?]%A15; [by left| |by right]. right. by apply A17 in Hp.
  - intros d i t ps [(qs & Hq)|(E1 & E2 & E3)]%A16; [by eapply Hpn|right]. split_and!; try done. intros Hl. by apply E3, Hbl.
  - intros d i t ps (qs & Hq)%Hpo. by eapply A17.
  - intros d i Hs. by apply A18, Hsh.
  - intros d w Hs. by apply A19, Hsl.
  - by rewrite A20.
Qed.

Lemma get_page_absent m a dir : vm_ok m -> is_u32 a -> user_slot m dir (a / 0x1000) -> pte m dir (a / 0x1000) = None ->
  alloc_failed (get_page a 1 dir m) \/
  exists t ps p0 m', get_page a 1 dir m = Ok (Some (t, a / 0x1000 mod 1024), m') /\
    table_ready m m' dir (Z.to_nat (a / 0x1000 / 1024)) /\ private m' dir (Z.to_nat (a / 0x1000 / 1024)) t ps /\
    ps !! Z.to_nat (a / 0x1000 mod 1024) = Some p0 /\ present p0 = 0.
Proof.
  intros Hvm Ha Hus Hnone. destruct (get_page_make m a dir Hvm Ha Hus) as [Hf|(t & ps & m1 & E & Htr & Hp)]; [by left|right].
  set (v := a / 0x1000) in *.
  destruct (lookup_lt_is_Some_2 ps (Z.to_nat (v mod 1024))) as [p0 Hp0];
    [rewrite (private_length _ _ _ _ _ (tr_ok _ _ _ _ Htr) Hp); pose proof (Z.mod_pos_bound v 1024); lia|].
  exists t, ps, p0, m1. split_and!; try done. pose proof (private_pte _ _ _ _ _ _ Hp Hp0) as E1.
  rewrite (tr_pte _ _ _ _ Htr), Hnone in E1. by destruct (Z.eqb_spec (present p0) 0).
Qed.

Lemma map_zero_page_spec m dir a : vm_ok m -> is_u32 a -> user_slot m dir (a / 0x1000) ->
  pte m dir (a / 0x1000) = None ->
  clone_failure (map_zero_page dir a m) \/
  exists p m', map_zero_page dir a m = Ok m' /\ mapped m m' dir (a / 0x1000) p.
Proof.
  intros Hvm Ha Hus Hnone. unfold map_zero_page.
  destruct (get_page_absent m a dir Hvm Ha Hus Hnone) as [Hf|(t & ps & p0 & m1 & -> & Htr & Hp & Hp0 & E0)].
  { left. right. by apply alloc_failed_bind. }
  rsimpl. destruct (back_page_spec m1 dir (a / 0x1000) t ps p0) as [Hf|(p & m' & -> & Hm)]; try done; [by apply Htr| |by left|].
  { unfold is_u32 in Ha. Z.div_mod_to_equations. lia. }
  right. exists p, m'. split; [done|]. by eapply ready_mapped.
Qed.

(** ** Several pages: the loop of [task_sbrk] and of process creation *)

(** Virtual pages [lo, hi) of [dir] are new pages of zeros. *)
Record mapped_range m m' (dir lo hi : Z) : Prop := {
  mr_ok : vm_ok m';
  mr_new v : lo <= v < hi -> exists p, pte m' dir v = Some p /\ present p = 1 /\ rw p = 1 /\ user p = 1 /\
    0 <= frame p < nframes (bits m) /\ used (bits m) (frame p) = false /\ contents_of m' (base (frame p)) = zero_page;
  mr_pte d v : is_Some (directories m !! d) -> 0 <= v -> d <> dir \/ ~ lo <= v < hi -> pte m' d v = pte m d v;
  mr_nframes : nframes (bits m') = nframes (bits m);
  mr_used g : 0 <= g -> used (bits m) g = true -> used (bits m') g = true;
  mr_contents f : 0 <= f < nframes (bits m) -> used (bits m) f = true -> contents_of m' (base f) = contents_of m (base f);
  mr_kernel : kernel_directory m' = kernel_directory m;
  mr_current : current_directory m' = current_directory m;
  mr_directories x : is_Some (directories m' !! x) <-> is_Some (directories m !! x);
  mr_tables t : is_Some (page_tables m' !! t) -> is_Some (page_tables m !! t) \/ t ∉ k_live (kstate m);
  mr_blocks x : x ∈ k_live (kstate m) -> x ∈ k_live (kstate m');
  mr_slots d v : user_slot m d v -> user_slot m' d v;
  mr_kernel_slots : directories m' !! kernel_directory m = directories m !! kernel_directory m
}.

Lemma mapped_range_refl m dir lo hi : vm_ok m -> hi <= lo -> mapped_range m m dir lo hi.
Proof. intros Hvm Hle. split; try done; try tauto. intros v ?. lia. Qed.

Lemma mapped_range_snoc m m1 m2 dir lo v p : lo <= v -> is_Some (directories m !! dir) -> 0 <= lo ->
  mapped_range m m1 dir lo v -> mapped m1 m2 dir v p -> mapped_range m m2 dir lo (v + 1).
Proof.
  intros Hle Hdir Hlo Hr Hp. pose proof (mp_frame _ _ _ _ _ Hp) as [Hf Hu]. rewrite (mr_nframes _ _ _ _ _ Hr) in Hf.
  assert (forall g, 0 <= g -> used (bits m) g = true -> g <> frame p) as Hne.
  { intros g Hg Hug ->. apply (mr_used _ _ _ _ _ Hr) in Hug; [congruence|done]. }
  split; try (by apply Hp).
  - intros w Hw. destruct (decide (w = v)) as [->|Hwv].
    + exists p. destruct (mp_flags _ _ _ _ _ Hp) as (? & ? & ?). split_and!; try done; [by apply Hp|lia|lia| |by apply Hp].
      apply not_true_iff_false. intros Hug. by apply (Hne (frame p)); [lia|done|].
    + destruct (mr_new _ _ _ _ _ Hr w) as (q & Hq & H1 & H2 & H3 & H4 & H5 & H6); [lia|]. exists q.
      assert (frame q <> frame p) as Hqp.
      { intros E. destruct (pte_used m1 dir w q (mr_ok _ _ _ _ _ Hr) Hq). congruence. }
      rewrite (mp_pte _ _ _ _ _ Hp); [|by apply (mr_directories _ _ _ _ _ Hr)|lia|by right]. split_and!; try done; try lia.
      rewrite (mp_contents _ _ _ _ _ Hp); [done|by rewrite (mr_nframes _ _ _ _ _ Hr)|done].
  - intros d w Hd Hw Hout. rewrite (mp_pte _ _ _ _ _ Hp); [|by apply (mr_directories _ _ _ _ _ Hr)|done|].
    + apply Hr; [done|done|]. destruct Hout; [by left|right; lia].
    + destruct Hout; [by left|right; lia].
  - rewrite (mp_nframes _ _ _ _ _ Hp). apply Hr.
  - intros g Hg Hug. apply (mp_used _ _ _ _ _ Hp); [done|]. left. by apply Hr.
  - intros f Hff Huf. rewrite (mp_contents _ _ _ _ _ Hp); [by apply Hr|by rewrite (mr_nframes _ _ _ _ _ Hr)|].
    apply Hne; [lia|done].
  - rewrite (mp_kernel _ _ _ _ _ Hp). apply Hr.
  - rewrite (mp_current _ _ _ _ _ Hp). apply Hr.
  - intros x. rewrite (mp_directories _ _ _ _ _ Hp). apply Hr.
  - intros t [Ht|Ht]%(mp_tables _ _ _ _ _ Hp); [by apply Hr|right]. intros Hl. by apply Ht, Hr.
  - intros x Hx. by apply (mp_blocks _ _ _ _ _ Hp), Hr.
  - intros d w Hs. by apply (mp_slots _ _ _ _ _ Hp), Hr.
  - rewrite <- (mr_kernel_slots _ _ _ _ _ Hr), <- (mr_kernel _ _ _ _ _ Hr). apply Hp.
Qed.

Lemma clone_failure_conv {A B} (msg : string) : clone_failure (Panic msg : res A) -> clone_failure (Panic msg : res B).
Proof.
  intros [[= ->]|(sz & al & ph & k & H)]; [by left|right]. exists sz, al, ph, k.
  destruct (kmalloc_int sz al ph k); congruence.
Qed.
Lemma clone_failure_fuel {A B} : clone_failure (OutOfFuel : res A) -> clone_failure (OutOfFuel : res B).
Proof.
  intros [[=]|(sz & al & ph & k & H)]. right. exists sz, al, ph, k.
  destruct (kmalloc_int sz al ph k); congruence.
Qed.

(** The loop maps every page of [first, last) or fails for lack of memory;
    it always ends. *)
Lemma map_pages_spec m dir first last : vm_ok m -> is_Some (directories m !! dir) ->
  0 <= first -> 0 <= last < 2 ^ 32 - 0x1000 -> first mod 0x1000 = 0 -> last mod 0x1000 = 0 -> first <= last ->
  (forall v, first / 0x1000 <= v < last / 0x1000 -> user_slot m dir v /\ pte m dir v = None) ->
  clone_failure (map_pages dir first last m) \/
  exists m', map_pages dir first last m = Ok m' /\ mapped_range m m' dir (first / 0x1000) (last / 0x1000).
Proof.
  intros Hvm Hdir Hfirst Hlast Hfa Hla Hfl Hfree. unfold map_pages.
  destruct (while_cases
    (fun '(a, u) => first <= a <= last /\ a mod 0x1000 = 0 /\ mapped_range m u dir (first / 0x1000) (a / 0x1000))
    (fun u => mapped_range m u dir (first / 0x1000) (last / 0x1000)) clone_failure (fun '(a, _) => last - a)
    (fun '(address, m) => if address <? last then m ← map_zero_page dir address m; Ok (Continue (u32 (address + PAGE_SIZE), m))
                          else Ok (Break m)) (first, m)) as [(u & -> & Hu)|Hf]; [| | |right; eauto|by left].
  - intros [a u] (Ha & Hal & Hr). destruct (Z.ltb_spec a last) as [Hlt|Hge].
    + destruct (map_zero_page_spec u dir a) as [Hf|(p & u' & -> & Hp)].
      * apply Hr.
      * unfold is_u32. lia.
      * apply (mr_slots _ _ _ _ _ Hr). apply Hfree. Z.div_mod_to_equations. lia.
      * rewrite (mr_pte _ _ _ _ _ Hr); [apply Hfree; Z.div_mod_to_equations; lia|done|Z.div_mod_to_equations; lia|right; lia].
      * destruct (map_zero_page dir a u) as [u'|msg|] eqn:Eu; [by destruct (clone_failure_not_ok _ Hf u')|..].
        -- by eapply clone_failure_conv.
        -- by eapply clone_failure_fuel.
      * rsimpl. unfold PAGE_SIZE. rewrite u32_small by lia. split; [|Z.div_mod_to_equations; lia].
        split_and!; [lia|Z.div_mod_to_equations; lia|Z.div_mod_to_equations; lia|].
        replace ((a + 0x1000) / 0x1000) with (a / 0x1000 + 1) by (Z.div_mod_to_equations; lia).
        eapply mapped_range_snoc; [Z.div_mod_to_equations; lia|done|apply Z.div_pos; lia|done|done].
    + by replace last with a by lia.
  - split_and!; [lia|lia|done|]. apply mapped_range_refl; [done|lia].
  - lia.
Qed.
End map.

(** ** The round-robin scheduler

    [queue_ok] is the shape of the ready queue; [cyclic] reads it as a ring
    starting after the current task.  [switch_task] moves to the first
    runnable task of the ring, so every runnable task gets its turn. *)

(** The ring [r] of the queue [q], from the successor of [cur] round to
    [cur] itself. *)
Definition cyclic (q : list Z) (cur : Z) (r : list Z) : Prop :=
  exists pre post, q = pre ++ cur :: post /\ r = post ++ pre ++ [cur].

Lemma cyclic_exists q cur : cur ∈ q -> exists r, cyclic q cur r.
Proof. intros (pre & post & ->)%list_elem_of_split. exists (post ++ pre ++ [cur]), pre, post. done. Qed.

Lemma cyclic_in q cur r x : cyclic q cur r -> x ∈ r <-> x ∈ q.
Proof. intros (pre & post & -> & ->). rewrite !elem_of_app, !elem_of_cons. set_solver. Qed.

Lemma cyclic_length q cur r : cyclic q cur r -> List.length r = List.length q.
Proof. intros (pre & post & -> & ->). rewrite !length_app. simpl. lia. Qed.

(** Moving on to [c] turns the ring. *)
Lemma cyclic_move q cur s c t : cyclic q cur (s ++ c :: t) -> cyclic q c (t ++ s ++ [c]).
Proof.
  intros (pre & post & -> & E). symmetry in E. apply app_eq_app in E as (l & [[-> E]|[-> E]]).
  - (* c comes before cur in the ring: in [post] *)
    destruct l as [|x l].
    + rewrite app_nil_r. simpl in E. destruct pre as [|y pre].
      * injection E as -> ->. exists [], s. rewrite app_nil_l. done.
      * injection E as -> ->. exists [], (pre ++ cur :: s). simpl. rewrite <- !app_assoc. done.
    + injection E as -> ->. exists (pre ++ cur :: s), l. rewrite <- !app_assoc. done.
  - (* c is in [pre ++ [cur]] *)
    destruct t as [|y t _] using rev_ind.
    + apply app_inj_tail in E as [-> ->]. exists l, post. rewrite <- !app_assoc. done.
    + rewrite app_comm_cons, app_assoc in E. apply app_inj_tail in E as [-> ->].
      exists l, (t ++ y :: post). rewrite <- !app_assoc. done.
Qed.

Section scheduler.
Context {C K S Cb : Type} `{!Kmalloc K} `{!ZeroPage C} `{!FsDriver S Cb}.
Implicit Types k : kernel C K S.

Definition runnable (ts : gmap Z task) (x : Z) : Prop := exists t, ts !! x = Some t /\ state t = TASK_RUNNABLE.

Lemma runnable_dec ts x : runnable ts x \/ ~ runnable ts x.
Proof.
  unfold runnable. destruct (ts !! x) as [t|] eqn:E; [|right; intros (t & H & _); done].
  destruct (decide (state t = TASK_RUNNABLE)); [left; eauto|right]. intros (t' & [= <-] & H). done.
Qed.

(** The ready queue is [q]; its head, the idle task, is always runnable. *)
Record queue_ok k (q : list Z) : Prop := {
  qo_chain : chain next (tasks k) (ready_queue k) q;
  qo_current : current_task k ∈ q;
  qo_idle : runnable (tasks k) (ready_queue k);
  qo_addr : forall x, x ∈ q -> 0 < x < 2 ^ 32
}.

Lemma qo_length k q : queue_ok k q -> Z.of_nat (List.length q) < 2 ^ 32.
Proof. intros [Hc _ _ Ha]. apply addresses_bound; [by eapply chain_NoDup|done]. Qed.

Lemma get_task_inv x k t : get_task x k = Ok t -> tasks k !! x = Some t.
Proof. unfold get_task. destruct (tasks k !! x); congruence. Qed.
Lemma get_task_ok x k t : tasks k !! x = Some t -> get_task x k = Ok t.
Proof. intros H. unfold get_task. by rewrite H. Qed.

Lemma queue_task k q x : queue_ok k q -> x ∈ q -> exists t, tasks k !! x = Some t.
Proof. intros [Hc _ _ _] Hx. destruct (chain_in _ _ _ _ Hc x Hx) as [t Ht]. eauto. Qed.

Lemma queue_head k q : queue_ok k q -> exists q', q = ready_queue k :: q' /\ ready_queue k <> 0.
Proof.
  intros [Hc Hin _ _]. destruct q as [|x q]; [by apply not_elem_of_nil in Hin|].
  apply chain_head in Hc as [-> H0]. by exists q.
Qed.

(** The successor in queue order, and from the end back to the head. *)
Lemma ring_succ k q x y r : queue_ok k q -> cyclic q x (y :: r) ->
  exists t, tasks k !! x = Some t /\ (if next t =? 0 then ready_queue k else next t) = y.
Proof.
  intros Hq (pre & post & -> & E). pose proof (qo_chain _ _ Hq) as Hc. destruct post as [|z post].
  - destruct (chain_last _ _ _ _ _ Hc) as (t & Ht & Hn). exists t. split; [done|]. rewrite Hn. simpl.
    destruct (queue_head _ _ Hq) as (q' & E2 & _). destruct pre as [|w pre]; simpl in E, E2; congruence.
  - destruct (chain_next _ _ _ _ _ _ _ Hc) as (t & Ht & Hn). exists t. split; [done|]. injection E as -> _.
    assert (0 < next t < 2 ^ 32) by (rewrite Hn; apply (qo_addr _ _ Hq); set_solver).
    rewrite (proj2 (Z.eqb_neq (next t) 0)) by lia. done.
Qed.

Lemma search_runs k q c t : queue_ok k q -> runnable (tasks k) c -> forall s x,
  cyclic q x (s ++ c :: t) -> (forall z, z ∈ s -> ~ runnable (tasks k) z) ->
  runs (candidate_step k) (List.length s) x (Ok c).
Proof.
  intros Hq Hc s. revert t. induction s as [|y s IH]; intros t x Hcy Hs; simpl in Hcy.
  - destruct (ring_succ k q x c _ Hq Hcy) as (tx & Htx & Hnx). destruct Hc as (tc & Htc & Hrc).
    constructor. unfold candidate_step. rewrite (get_task_ok _ _ _ Htx). rsimpl.
    rewrite Hnx, (get_task_ok _ _ _ Htc). rsimpl. by rewrite decide_True.
  - destruct (ring_succ k q x y _ Hq Hcy) as (tx & Htx & Hnx).
    destruct (queue_task k q y Hq) as [ty Hty]; [apply (cyclic_in _ _ _ y Hcy); by apply elem_of_cons; left|].
    apply (runs_step _ _ _ y).
    + unfold candidate_step. rewrite (get_task_ok _ _ _ Htx). rsimpl. rewrite Hnx, (get_task_ok _ _ _ Hty). rsimpl.
      rewrite decide_False; [done|]. intros Hr. apply (Hs y); [by apply elem_of_cons; left|]. by exists ty.
    + apply (IH (t ++ [y])); [|intros z Hz; apply Hs; by apply elem_of_cons; right].
      apply (cyclic_move q x [] y (s ++ c :: t)) in Hcy. by rewrite <- app_assoc in Hcy.
Qed.

Lemma first_runnable (P : Z -> Prop) (r : list Z) x : (forall z, P z \/ ~ P z) -> x ∈ r -> P x ->
  exists s c t, r = s ++ c :: t /\ P c /\ forall z, z ∈ s -> ~ P z.
Proof.
  intros Hdec Hx HP. induction r as [|y r IH]; [by apply not_elem_of_nil in Hx|].
  destruct (Hdec y) as [Hy|Hy].
  - exists [], y, r. split_and!; [done|done|]. intros z Hz. by apply not_elem_of_nil in Hz.
  - apply elem_of_cons in Hx as [->|Hx]; [done|]. destruct (IH Hx) as (s & c & t & -> & Hc & Hs).
    exists (y :: s), c, t. split_and!; [done|done|]. intros z [->|Hz]%elem_of_cons; [done|by apply Hs].
Qed.

Lemma next_runnable_spec k q x r : queue_ok k q -> cyclic q x r ->
  exists s c t, r = s ++ c :: t /\ runnable (tasks k) c /\ (forall z, z ∈ s -> ~ runnable (tasks k) z) /\
    next_runnable x k = Ok c.
Proof.
  intros Hq Hcy. destruct (queue_head _ _ Hq) as (q' & Hqq & _).
  destruct (first_runnable (runnable (tasks k)) r (ready_queue k)) as (s & c & t & -> & Hc & Hs).
  - apply runnable_dec.
  - apply (cyclic_in _ _ _ _ Hcy). rewrite Hqq. by apply elem_of_cons; left.
  - apply Hq.
  - exists s, c, t. split_and!; try done. unfold next_runnable.
    pose proof (qo_length _ _ Hq) as Hl. rewrite <- (cyclic_length _ _ _ Hcy), length_app in Hl.
    apply (while_runs _ _ _ (List.length s)); [by eapply search_runs|lia].
Qed.

(** Saving a context changes no link and no state. *)
Lemma context_saved k cur e sp b : let k' := update_task cur (set_context e sp b) k in
  (forall x t, tasks k !! x = Some t -> exists t', tasks k' !! x = Some t' /\ next t' = next t /\ state t' = state t /\
     id t' = id t /\ task_directory t' = task_directory t /\ kernel_stack t' = kernel_stack t) /\
  (forall x, runnable (tasks k') x <-> runnable (tasks k) x).
Proof.
  intros k'. assert (forall x t, tasks k !! x = Some t -> exists t', tasks k' !! x = Some t' /\ next t' = next t /\
     state t' = state t /\ id t' = id t /\ task_directory t' = task_directory t /\ kernel_stack t' = kernel_stack t) as H.
  { intros x t Hx. unfold k'. simpl. destruct (decide (x = cur)) as [->|Hne].
    - rewrite lookup_alter_eq, Hx. eexists. split; [done|]. done.
    - rewrite lookup_alter_ne by done. eauto 10. }
  split; [done|]. intros x. split.
  - intros (t' & Ht' & Hr). unfold k' in Ht'. simpl in Ht'. apply lookup_alter_Some in Ht' as [(<- & t & Ht & ->)|[_ Ht]];
      [exists t|exists t']; done.
  - intros (t & Ht & Hr). destruct (H x t Ht) as (t' & Ht' & _ & Hs & _). exists t'. by rewrite Hs.
Qed.

Lemma queue_ok_saved k cur e sp b q : queue_ok k q -> queue_ok (update_task cur (set_context e sp b) k) q.
Proof.
  intros [Hc Hin Hi Ha]. destruct (context_saved k cur e sp b) as [Hk Hr]. split; try done.
  - eapply chain_keep; [|exact Hc]. intros x t _ Hx. destruct (Hk x t Hx) as (t' & ? & ? & _). eauto.
  - by apply Hr.
Qed.

(** What a switch does: [c] runs next, and the hardware follows it. *)
Record switched k k' (e sp b : Z) (c : Z) : Prop := {
  sw_tasks : tasks k' = alter (set_context e sp b) (current_task k) (tasks k);
  sw_current : current_task k' = c;
  sw_ready : ready_queue k' = ready_queue k;
  sw_mm : exists t, tasks k' !! c = Some t /\ kmm k' = switch_page_directory (task_directory t) (kmm k) /\
    tss_stack k' = u32 (kernel_stack t + KERNEL_STACK_SIZE);
  sw_rest : next_pid k' = next_pid k /\ kfs k' = kfs k /\ saved_frames k' = saved_frames k
}.

Lemma switch_task_spec k q r e sp b : queue_ok k q -> cyclic q (current_task k) r ->
  exists s c t k', r = s ++ c :: t /\ runnable (tasks k) c /\ (forall z, z ∈ s -> ~ runnable (tasks k) z) /\
    switch_task e sp b k = Ok k' /\ (q = [current_task k] /\ k' = k /\ c = current_task k \/ switched k k' e sp b c) /\
    queue_ok k' q /\ (forall x, runnable (tasks k') x <-> runnable (tasks k) x).
Proof.
  intros Hq Hcy. destruct (queue_task k q _ Hq (qo_current _ _ Hq)) as [cur Hcur].
  pose proof (qo_addr _ _ Hq _ (qo_current _ _ Hq)) as Hca.
  set (k1 := update_task (current_task k) (set_context e sp b) k).
  pose proof (queue_ok_saved k (current_task k) e sp b q Hq) as Hq1.
  destruct (context_saved k (current_task k) e sp b) as [Hk Hr]. fold k1 in Hq1, Hk, Hr.
  destruct (next_runnable_spec k1 q _ r Hq1 Hcy) as (s & c & t & -> & Hc & Hs & Hrun).
  assert (runnable (tasks k) c) as Hc0 by by apply Hr.
  assert (forall z, z ∈ s -> ~ runnable (tasks k) z) as Hs0 by (intros z Hz H; apply (Hs z Hz); by apply Hr).
  unfold switch_task. rewrite (proj2 (Z.eqb_neq (current_task k) 0)) by lia. rewrite (get_task_ok _ _ _ Hcur). rsimpl.
  destruct (Z.eqb_spec (current_task k) (ready_queue k)) as [E|E]; cbn [andb]; [destruct (Z.eqb_spec (next cur) 0) as [En|En]|].
  - assert (q = [current_task k]) as Hone.
    { destruct (queue_head _ _ Hq) as (q' & Hqq & _). rewrite E, Hqq. f_equal. destruct q' as [|y q']; [done|].
      pose proof (qo_chain _ _ Hq) as Hch. rewrite Hqq in Hch.
      destruct (chain_next _ _ [] _ _ _ _ Hch) as (n & Hn & Hny). assert (n = cur) as -> by congruence.
      assert (0 < y < 2 ^ 32) by (apply (qo_addr _ _ Hq); rewrite Hqq; set_solver). lia. }
    exists s, c, t, k. split_and!; try done. left. split_and!; [done|done|].
    assert (c ∈ q) as Hin by (apply (cyclic_in _ _ _ c Hcy); set_solver). rewrite Hone in Hin.
    by apply list_elem_of_singleton in Hin.
  - fold k1. change (current_task k1) with (current_task k). rewrite Hrun. rsimpl.
    destruct (queue_task k1 q c Hq1) as [tc Htc]; [apply (cyclic_in _ _ _ c Hcy); set_solver|].
    rewrite (get_task_ok c (set_current c k1) tc Htc). rsimpl.
    eexists s, c, t, _. split_and!; try done; [right|]. { split; try done. by exists tc. }
    destruct Hq1 as [? ? ? ?]. split; try done. apply (cyclic_in _ _ _ c Hcy). set_solver.
  - fold k1. change (current_task k1) with (current_task k). rewrite Hrun. rsimpl.
    destruct (queue_task k1 q c Hq1) as [tc Htc]; [apply (cyclic_in _ _ _ c Hcy); set_solver|].
    rewrite (get_task_ok c (set_current c k1) tc Htc). rsimpl.
    eexists s, c, t, _. split_and!; try done; [right|]. { split; try done. by exists tc. }
    destruct Hq1 as [? ? ? ?]. split; try done. apply (cyclic_in _ _ _ c Hcy). set_solver.
Qed.

(** A switch with nothing else in the queue does nothing. *)
Lemma switch_alone k q e sp b k' : queue_ok k q -> q = [current_task k] -> switch_task e sp b k = Ok k' -> k' = k.
Proof.
  intros Hq -> Hrun. destruct (qo_chain _ _ Hq) as (Hhead & H0 & n & Hn & Hnext). unfold switch_task in Hrun.
  rewrite (proj2 (Z.eqb_neq _ _) H0), (get_task_ok _ _ _ Hn) in Hrun. revert Hrun. rsimpl.
  simpl in Hnext. rewrite Hhead, Hnext, Z.eqb_refl. simpl. congruence.
Qed.

(** ** Fairness

    [n] time slices: the running task acts, which leads to a state [keep]
    allows, and then the timer switches. *)
Inductive slices (keep : kernel C K S -> Prop) : nat -> kernel C K S -> kernel C K S -> Prop :=
| slices_done k : slices keep 0 k k
| slices_more n k k1 e sp b k2 k3 :
    keep k1 -> current_task k1 = current_task k -> switch_task e sp b k1 = Ok k2 ->
    slices keep n k2 k3 -> slices keep (Datatypes.S n) k k3.

Definition keeps (q : list Z) (x : Z) k : Prop := queue_ok k q /\ runnable (tasks k) x.

Lemma slices_prefix keep n k k' m : slices keep n k k' -> (m <= n)%nat -> exists k2, slices keep m k k2.
Proof.
  intros H. revert m. induction H as [k|n k k1 e sp b k2 k3 ? ? ? ? IH]; intros m Hm.
  - assert (m = 0%nat) as -> by lia. exists k. constructor.
  - destruct m as [|m]; [exists k; constructor|]. destruct (IH m) as [k4 Hk4]; [lia|]. exists k4.
    by eapply slices_more.
Qed.

(** Slices never get stuck. *)
Lemma slices_exist q x n : forall k, keeps q x k -> exists k', slices (keeps q x) n k k'.
Proof.
  induction n as [|n IH]; intros k [Hq Hx]; [exists k; constructor|].
  destruct (cyclic_exists q _ (qo_current _ _ Hq)) as [r Hr].
  destruct (switch_task_spec k q r 0 0 0 Hq Hr) as (s & c & t & k1 & _ & _ & _ & Hrun & _ & Hq1 & Hr1).
  destruct (IH k1) as [k' Hk']; [by split; [|apply Hr1]|]. exists k'. by apply (slices_more _ n k k 0 0 0 k1 k').
Qed.

Lemma eventually_current q x n k k' : slices (keeps q x) n k k' -> forall r1 r2,
  cyclic q (current_task k) (r1 ++ x :: r2) -> (List.length r1 < n)%nat ->
  exists m k2, (1 <= m <= n)%nat /\ slices (keeps q x) m k k2 /\ current_task k2 = x.
Proof.
  induction 1 as [k|n k k1 e sp b k2 k3 [Hq Hx] Hcur Hrun Hsl IH]; intros r1 r2 Hcy Hlen; [lia|].
  rewrite <- Hcur in Hcy.
  destruct (switch_task_spec k1 q _ e sp b Hq Hcy) as (s & c & t & k2' & E & Hc & Hs & Hrun' & Hcase & _ & _).
  assert (k2' = k2) as -> by congruence.
  assert (current_task k2 = c) as Hc2 by (destruct Hcase as [(_ & -> & ->)|[]]; done).
  assert (slices (keeps q x) 1 k k2) as H1 by (econstructor; [by split|done|done|constructor]).
  destruct (decide (x = c)) as [->|Hne]; [exists 1%nat, k2; split_and!; [lia|lia|done|done]|].
  apply app_eq_app in E as (l & [[-> E]|[-> E]]).
  - destruct l as [|y l]; [simpl in E; congruence|]. injection E as -> ->.
    assert (cyclic q y ((l ++ x :: r2) ++ s ++ [y])) as Hcy2.
    { apply (cyclic_move q (current_task k1)). by rewrite <- app_assoc in Hcy. }
    rewrite Hc2 in IH. destruct (IH l (r2 ++ s ++ [y])) as (m & k' & Hm & Hsl' & Hk').
    + by rewrite <- app_assoc in Hcy2.
    + rewrite length_app in Hlen. simpl in Hlen. lia.
    + exists (Datatypes.S m), k'. split_and!; [lia|lia| |done]. econstructor; [by split|done|done|done].
  - destruct l as [|y l]; [simpl in E; congruence|]. injection E as -> ->.
    exfalso. apply (Hs y); [|done]. apply elem_of_app. right. by apply elem_of_cons; left.
Qed.

(** C14: the timer switch is round robin.  Whatever the states of the
    tasks, as long as the idle task at the head of the ready queue is
    runnable, [switch_task] terminates and the next task is the first
    runnable one after the current task in ring order (zombies and
    sleepers are skipped, the current task itself comes last).  If the
    queue has one task nothing changes; otherwise the CPU's registers are
    saved in the outgoing task and nothing else in any task changes, the
    chosen task's directory becomes current and its kernel stack top goes
    to the TSS. *)
Theorem switch_task_round_robin k q r e sp b : queue_ok k q -> cyclic q (current_task k) r ->
  exists s c t k', switch_task e sp b k = Ok k' /\ current_task k' = c /\
    r = s ++ c :: t /\ runnable (tasks k') c /\ (forall z, z ∈ s -> ~ runnable (tasks k) z) /\
    queue_ok k' q /\ (q = [current_task k] -> k' = k) /\ (q <> [current_task k] -> switched k k' e sp b c).
Proof.
  intros Hq Hcy. destruct (switch_task_spec k q r e sp b Hq Hcy) as (s & c & t & k' & E & Hc & Hs & Hrun & Hcase & Hq' & Hr).
  exists s, c, t, k'. split_and!; try done.
  - destruct Hcase as [(_ & -> & ->)|[]]; done.
  - by apply Hr.
  - intros Hone. destruct Hcase as [(_ & -> & _)|Hsw]; [done|]. by apply (switch_alone k q e sp b).
  - intros Hne. destruct Hcase as [(? & _)|?]; done.
Qed.

(** C15: the scheduler is fair.  Let a task stay in the ready queue and
    runnable while the running tasks block, wake, exit or compute as they
    like between the timer ticks.  Then it runs at the latest after as
    many ticks as the queue has tasks. *)
Theorem scheduler_fair k k' q x n :
  current_task k ∈ q -> x ∈ q -> slices (keeps q x) n k k' -> (List.length q <= n)%nat ->
  exists m k2, (1 <= m <= List.length q)%nat /\ slices (keeps q x) m k k2 /\ current_task k2 = x.
Proof.
  intros Hcur Hx Hsl Hn. destruct (cyclic_exists _ _ Hcur) as [r Hr].
  apply (cyclic_in _ _ _ _ Hr) in Hx. apply list_elem_of_split in Hx as (r1 & r2 & ->).
  apply cyclic_length in Hr as Hlen. rewrite length_app in Hlen. simpl in Hlen.
  destruct (slices_prefix _ _ _ _ (List.length q) Hsl Hn) as [k3 Hsl'].
  eapply eventually_current; [exact Hsl'|exact Hr|lia].
Qed.
End scheduler.

(** ** A concrete queue

    The idle task, a zombie and a shell; the idle task is running. *)
Definition with_identity (pid parent directory stack : Z) (t : task) : task :=
  mk_task pid parent (state t) (exit_status t) (esp t) (ebp t) (eip t) directory stack
    (heap_start t) (heap_break t) (heap_mapped_end t) (heap_limit t) (is_user_process t)
    (signal_handlers t) (pending_signals t) (signal_trampoline t) (signal_active t) (active_signal t)
    (descriptors t) (working_directory t) (next t).
Definition queue_demo_tasks : gmap Z task := list_to_map [
  (0x10000, set_next 0x20000 (with_identity 0 (-1) 0x2000 0x80000 zero_task));
  (0x20000, set_next 0x30000 (set_state TASK_ZOMBIE (with_identity 1 0 0x3000 0x84000 zero_task)));
  (0x30000, with_identity 2 1 0x4000 0x88000 zero_task)].
Definition queue_demo : kernel unit unit unit :=
  mk_kernel queue_demo_tasks 0x10000 0x10000 3 0 (mk_mm (mk_bitmap [] 0 0) ∅ ∅ (fun _ => tt) 0x2000 0x2000 tt) tt ∅.
Definition queue_demo_order : list Z := [0x10000; 0x20000; 0x30000].

Lemma queue_demo_ok k : tasks k = queue_demo_tasks \/ tasks k = alter (set_context 1 2 3) 0x10000 queue_demo_tasks ->
  ready_queue k = 0x10000 -> current_task k ∈ queue_demo_order -> queue_ok (C:=unit) (K:=unit) (S:=unit) k queue_demo_order.
Proof.
  intros Ht Hr Hc. split.
  - rewrite Hr. destruct Ht as [-> | ->]; repeat (split; [done|]; split; [done|]; eexists; split; [reflexivity|]); done.
  - done.
  - rewrite Hr. destruct Ht as [-> | ->]; eexists; split; reflexivity.
  - intros x Hx. unfold queue_demo_order in Hx. set_unfold. lia.
Qed.

Lemma switch_task_round_robin_witness : exists k',
  switch_task 1 2 3 queue_demo = Ok k' /\ current_task k' = 0x30000 /\ tss_stack k' = 0x88000 + KERNEL_STACK_SIZE.
Proof.
  destruct (switch_task_round_robin queue_demo queue_demo_order [0x20000; 0x30000; 0x10000] 1 2 3) as
    (s & c & t & k' & Hrun & Hcur & E & Hc & _ & _ & _ & Hsw).
  - apply queue_demo_ok; [left; reflexivity|reflexivity|]. left.
  - exists [], [0x20000; 0x30000]. split; reflexivity.
  - exists k'. split; [exact Hrun|]. vm_compute in Hrun. injection Hrun as <-. split; reflexivity.
Defined.

Lemma scheduler_fair_witness : exists m k2,
  (1 <= m <= 3)%nat /\ slices (keeps queue_demo_order 0x30000) m queue_demo k2 /\ current_task k2 = 0x30000.
Proof.
  assert (queue_ok queue_demo queue_demo_order) as Hq by (apply queue_demo_ok; [left; reflexivity|reflexivity|left]).
  assert (runnable (tasks queue_demo) 0x30000) as Hx by (eexists; split; reflexivity).
  destruct (slices_exist queue_demo_order 0x30000 3 queue_demo (conj Hq Hx)) as [k' Hsl].
  destruct (scheduler_fair queue_demo k' queue_demo_order 0x30000 3) as (m & k2 & Hm & Hk2 & Hc).
  - left.
  - right. right. left.
  - exact Hsl.
  - simpl. lia.
  - exists m, k2. split; [exact Hm|]. split; [exact Hk2|exact Hc].
Defined.
