(* ===== verification/UserSpace.v ===== *)
(** * Memory as a process sees it

    The CPU translates every access through the current directory.  Where
    that directory shares the kernel directory's table the access is to
    kernel memory, the flat memory the file system state holds; elsewhere
    the table is private and the access is to the bytes of a physical frame.
    Either way the page has to be present.  What the flat memory holds are
    the structures the model reads as bytes: the archive, the console's
    strings, the buffers of the file system.  Task records, page tables and
    the free lists of the heap are records of the model and not bytes of
    that memory, so the theorems keep stores away from kernel addresses.
    Ring 0 may write any present page (CR0.WP is clear), and touching an
    absent one ends in [page_fault], which panics. *)

From S2P Require Import Prelude Memory Common Kmalloc Frames Paging PagingProofs Vfs Initrd Task.

Definition PAGE_FAULT : string := "Page fault".

(** The bytes of a physical page, by offset. *)
Definition page_bytes : Type := Z -> Z.
#[export] Instance zero_page_bytes : ZeroPage page_bytes := fun _ => 0.

Class HasMemory (S : Type) : Type := {
  kernel_memory : S -> mem;
  set_kernel_memory : mem -> S -> S
}.
Class HasMemoryLaws (S : Type) `{!HasMemory S} : Type := {
  kernel_memory_set m s : kernel_memory (set_kernel_memory m s) = m
}.

Section userspace.
Context {K S : Type} `{!Kmalloc K} `{!HasMemory S}.
Implicit Types k : kernel page_bytes K S.

(** Where address [a] is: in kernel memory, or at an offset of a frame. *)
Definition locate (a : Z) k : res (option (Z * Z)) :=
  let m := kmm k in
  d ← read_directory (current_directory m) m;
  t ← table_slot (tables d) (a / 0x400000);
  if t =? 0 then Panic PAGE_FAULT
  else
    kd ← read_directory (kernel_directory m) m;
    kt ← table_slot (tables kd) (a / 0x400000);
    p ← read_page t (a / 0x1000 mod 1024) m;
    if present p =? 0 then Panic PAGE_FAULT
    else if kt =? t then Ok None else Ok (Some (base (frame p), a mod 0x1000)).

Definition with_contents k (c : Z -> page_bytes) : kernel page_bytes K S :=
  let m := kmm k in
  with_mm k (mk_mm (bits m) (page_tables m) (directories m) c (kernel_directory m) (current_directory m) (kstate m)).

Definition vload8 (a : Z) k : res Z :=
  l ← locate a k;
  match l with
  | None => Ok (load8 (kernel_memory (kfs k)) a)
  | Some (b, o) => Ok (contents_of (kmm k) b o)
  end.

Definition vstore8 (a v : Z) k : res (kernel page_bytes K S) :=
  l ← locate a k;
  match l with
  | None => Ok (with_fs k (set_kernel_memory (store8 (kernel_memory (kfs k)) a v) (kfs k)))
  | Some (b, o) =>
      let c := contents_of (kmm k) in
      Ok (with_contents k (fun b' o' => if (b' =? b) && (o' =? o) then u8 v else c b' o'))
  end.

(** [memcpy] from and to the visible memory. *)
Fixpoint vload_bytes (a : Z) (n : nat) k : res (list Z) :=
  match n with
  | O => Ok []
  | Datatypes.S n => v ← vload8 a k; l ← vload_bytes (u32 (a + 1)) n k; Ok (v :: l)
  end.
Fixpoint vstore_bytes (a : Z) (l : list Z) k : res (kernel page_bytes K S) :=
  match l with
  | [] => Ok k
  | v :: l => k ← vstore8 a v k; vstore_bytes (u32 (a + 1)) l k
  end.
Definition vload32 (a : Z) k : res Z := l ← vload_bytes a 4 k; Ok (word_of l).
Definition vstore32 (a v : Z) k : res (kernel page_bytes K S) := vstore_bytes a (le32 v) k.

(** The characters before the terminator. *)
Definition vstring (a : Z) k : res (list Z) :=
  while (fun '(a, l) =>
    c ← vload8 a k;
    if c =? 0 then Ok (Break l) else Ok (Continue (u32 (a + 1), l ++ [c]))) (a, []).
End userspace.

#[export] Instance initrd_memory {K} : HasMemory (initrd K) := {|
  kernel_memory := imem;
  set_kernel_memory m s := with_imem s m
|}.
#[export] Instance initrd_memory_laws {K} : HasMemoryLaws (initrd K).
Proof. done. Qed.

(** ** Stores to private pages *)
Section region.
Context {K S : Type} `{!HasMemory S}.
Implicit Types k : kernel page_bytes K S.

(** Every address of [lo, hi) is mapped, each to a byte of its own. *)
Record private_region k (lo hi : Z) : Prop := {
  pr_range : 0 <= lo /\ hi < 2 ^ 32;
  pr_located a : lo <= a < hi -> exists l, locate a k = Ok (Some l);
  pr_apart a b l : lo <= a < hi -> lo <= b < hi ->
    locate a k = Ok (Some l) -> locate b k = Ok (Some l) -> a = b
}.

(** The bytes [l] are visible at [a]. *)
Definition holds k (a : Z) (l : list Z) : Prop :=
  forall i v, l !! i = Some v -> vload8 (a + Z.of_nat i) k = Ok v.

Lemma locate_contents k c a : locate a (with_contents k c) = locate a k.
Proof. done. Qed.

Lemma region_contents k c lo hi : private_region k lo hi -> private_region (with_contents k c) lo hi.
Proof. intros [Hr Hl Ha]. by split. Qed.

Lemma region_sub k lo hi lo' hi' : private_region k lo hi -> lo <= lo' -> hi' <= hi -> private_region k lo' hi'.
Proof.
  intros [Hr Hl Ha] H1 H2. split; [lia| |].
  - intros a ?. apply Hl. lia.
  - intros a b l ? ?. apply Ha; lia.
Qed.

Lemma with_contents_twice k c c' : with_contents (with_contents k c) c' = with_contents k c'.
Proof. done. Qed.
Lemma with_contents_same k : with_contents k (contents_of (kmm k)) = k.
Proof. by destruct k as [? ? ? ? ? [] ? ?]. Qed.

Lemma vload8_located k a b o : locate a k = Ok (Some (b, o)) -> vload8 a k = Ok (contents_of (kmm k) b o).
Proof. intros H. unfold vload8. rewrite H. by rsimpl. Qed.

Lemma vstore8_spec k lo hi a v : private_region k lo hi -> lo <= a < hi ->
  exists c, vstore8 a v k = Ok (with_contents k c) /\ vload8 a (with_contents k c) = Ok (u8 v) /\
    (forall x, lo <= x < hi -> x <> a -> vload8 x (with_contents k c) = vload8 x k) /\
    (forall b o, locate a k <> Ok (Some (b, o)) -> c b o = contents_of (kmm k) b o).
Proof.
  intros Hr Ha. destruct (pr_located _ _ _ Hr a Ha) as [[b o] Hl]. unfold vstore8. rewrite Hl. rsimpl.
  eexists. split; [done|]. split_and!.
  - rewrite (vload8_located _ a b o) by done. simpl. by rewrite !Z.eqb_refl.
  - intros x Hx Hne. destruct (pr_located _ _ _ Hr x Hx) as [[b' o'] Hl'].
    rewrite (vload8_located _ x b' o'), (vload8_located k x b' o') by done. simpl.
    destruct (Z.eqb_spec b' b) as [->|]; [|done]. destruct (Z.eqb_spec o' o) as [->|]; [|done].
    destruct Hne. by eapply (pr_apart _ _ _ Hr).
  - intros b' o' Hne. destruct (Z.eqb_spec b' b) as [->|]; [|done]. destruct (Z.eqb_spec o' o) as [->|]; [|done].
    by destruct Hne.
Qed.

Lemma holds_cons k a v l : vload8 a k = Ok v -> holds k (a + 1) l -> holds k a (v :: l).
Proof.
  intros Hv Hl [|i] w Hi; simpl in Hi.
  - injection Hi as <-. by rewrite Z.add_0_r.
  - replace (a + Z.of_nat (Datatypes.S i)) with (a + 1 + Z.of_nat i) by lia. by apply Hl.
Qed.

Lemma vstore_bytes_spec l : forall k lo hi a, private_region k lo hi -> lo <= a -> a + Z.of_nat (List.length l) <= hi ->
  exists c, vstore_bytes a l k = Ok (with_contents k c) /\ holds (with_contents k c) a (u8 <$> l) /\
    (forall x, lo <= x < hi -> x < a \/ a + Z.of_nat (List.length l) <= x ->
       vload8 x (with_contents k c) = vload8 x k) /\
    (forall b o, (forall x, a <= x < a + Z.of_nat (List.length l) -> locate x k <> Ok (Some (b, o))) ->
       c b o = contents_of (kmm k) b o).
Proof.
  induction l as [|v l IH]; intros k lo hi a Hr Hlo Hhi; simpl in *.
  - exists (contents_of (kmm k)). rewrite with_contents_same. split_and!; try done.
  - destruct (vstore8_spec k lo hi a v Hr) as (c1 & -> & Hv & Hx & Hf); [lia|]. rsimpl.
    pose proof (pr_range _ _ _ Hr). rewrite u32_small by (unfold is_u32; lia).
    destruct (IH (with_contents k c1) lo hi (a + 1)) as (c & -> & Hh & Hx' & Hf'); [by apply region_contents|lia..|].
    rewrite with_contents_twice in *. exists c. split; [done|]. split_and!.
    + apply holds_cons; [|done]. rewrite Hx' by lia. done.
    + intros x Hxr Hout. rewrite Hx' by lia. rewrite Hx by lia. done.
    + intros b o Hout. rewrite Hf'; [|intros x Hxr; apply Hout; lia]. simpl. apply Hf. apply Hout. lia.
Qed.

Lemma vload_bytes_holds l : forall k a, holds k a l -> 0 <= a -> a + Z.of_nat (List.length l) < 2 ^ 32 ->
  vload_bytes a (List.length l) k = Ok l.
Proof.
  induction l as [|v l IH]; intros k a Hh H0 Hl; simpl in *; [done|].
  pose proof (Hh 0%nat v eq_refl) as Hv. rewrite Z.add_0_r in Hv. rewrite Hv. rsimpl.
  rewrite u32_small by (unfold is_u32; lia). rewrite IH; [by rsimpl| |lia..].
  intros i w Hi. replace (a + 1 + Z.of_nat i) with (a + Z.of_nat (Datatypes.S i)) by lia. by apply Hh.
Qed.

Lemma holds_app k a l1 l2 : holds k a (l1 ++ l2) <-> holds k a l1 /\ holds k (a + Z.of_nat (List.length l1)) l2.
Proof.
  split.
  - intros H. split; intros i v Hi.
    + apply H. by apply lookup_app_l_Some.
    + replace (a + Z.of_nat (List.length l1) + Z.of_nat i) with (a + Z.of_nat (List.length l1 + i)) by lia.
      apply H. rewrite lookup_app_r by lia. by replace (List.length l1 + i - List.length l1)%nat with i by lia.
  - intros [H1 H2] i v [Hi|[Hge Hi]]%lookup_app_Some; [by apply H1|].
    apply H2 in Hi. replace (a + Z.of_nat i) with (a + Z.of_nat (List.length l1) + Z.of_nat (i - List.length l1)) by lia.
    done.
Qed.

Lemma holds_keep k c lo hi a l : private_region k lo hi -> holds k a l -> lo <= a -> a + Z.of_nat (List.length l) <= hi ->
  (forall x, a <= x < a + Z.of_nat (List.length l) -> vload8 x (with_contents k c) = vload8 x k) ->
  holds (with_contents k c) a l.
Proof.
  intros Hr Hh Hlo Hhi Hx i v Hi. pose proof (lookup_lt_Some _ _ _ Hi). rewrite Hx by lia. by apply Hh.
Qed.

Lemma le32_u8 v : u8 <$> le32 v = le32 v.
Proof. unfold le32. simpl. unfold u8. change (2 ^ 8) with 256. by rewrite !Z.mod_mod by lia. Qed.

Lemma vload32_holds k a v : holds k a (le32 v) -> 0 <= a -> a + 4 < 2 ^ 32 -> vload32 a k = Ok (u32 v).
Proof.
  intros Hh H0 Ha. unfold vload32. change 4%nat with (List.length (le32 v)). rewrite (vload_bytes_holds (le32 v) k a) by done. rsimpl.
  by rewrite word_of_le32.
Qed.
End region.
