(* ===== verification/UserMemory.v ===== *)
(** * The memories of the processes

    [space m dir a] is the byte that a process with directory [dir] has at
    the user address [a], if any.  Loads and stores of the running process
    are reads and updates of its own space, and a store changes no other
    byte of any space. *)

From S2P Require Import Prelude Memory Common Kmalloc Frames Paging PagingProofs Vfs Initrd Task AddressSpace UserSpace.

Definition user_address (a : Z) : Prop := 0x400000 <= a < 0xC0000000.
Definition space {K} (m : mm page_bytes K) (dir a : Z) : option Z :=
  p ← pte m dir (a / 0x1000); Some (contents_of m (base (frame p)) (a mod 0x1000)).

Lemma user_address_range a : user_address a -> user_range (a / 0x1000).
Proof. unfold user_address, user_range. intros ?. Z.div_mod_to_equations. lia. Qed.

Section spaces.
Context {C K : Type} `{!Kmalloc K} `{!KmallocLaws K}.
Implicit Types m : mm C K.

(** A user page is an entry of a private table. *)
Lemma pte_private m dir v p : vm_ok m -> user_region_free m -> user_range v -> pte m dir v = Some p ->
  exists t ps, private m dir (Z.to_nat (v / 1024)) t ps /\ ps !! Z.to_nat (v mod 1024) = Some p /\ present p <> 0.
Proof.
  intros Hvm (kd & Hkd & Hfree) Hv Hp. unfold pte in Hp. unfold user_range in Hv.
  destruct (directories m !! dir) as [d|] eqn:Hd; [|done]. simpl in Hp.
  destruct (tables d !! Z.to_nat (v / 1024)) as [t|] eqn:Ht; [|done]. simpl in Hp.
  destruct (Z.eqb_spec t 0) as [|H0]; [done|]. unfold table_entry in Hp.
  destruct (page_tables m !! t) as [ps|] eqn:Hps; [|done]. simpl in Hp.
  destruct (ps !! Z.to_nat (v mod 1024)) as [p'|] eqn:Hp'; [|done]. simpl in Hp.
  destruct (Z.eqb_spec (present p') 0); [done|]. injection Hp as ->.
  exists t, ps. split; [|done]. exists d, kd. split_and!; try done.
  rewrite Hfree by (Z.div_mod_to_equations; lia). congruence.
Qed.

Lemma pte_frame m dir v p : vm_ok m -> user_region_free m -> user_range v -> pte m dir v = Some p ->
  0 <= frame p < nframes (bits m) /\ nframes (bits m) <= 2 ^ 20 /\ used (bits m) (frame p) = true.
Proof.
  intros Hvm Hreg Hv Hp. destruct (pte_private m dir v p Hvm Hreg Hv Hp) as (t & ps & Hpr & Hi & H0).
  destruct (owned_used m dir (frame p) Hvm) as [H1 H2].
  { exists (Z.to_nat (v / 1024)), t, ps. split; [done|]. by exists (Z.to_nat (v mod 1024)), p. }
  pose proof (bw_nframes _ (vm_bits _ Hvm)). tauto.
Qed.

(** A frame backs one page of one process. *)
Lemma pte_once m dir v p dir' v' p' : vm_ok m -> user_region_free m -> user_range v -> user_range v' ->
  pte m dir v = Some p -> pte m dir' v' = Some p' -> frame p = frame p' -> dir = dir' /\ v = v'.
Proof.
  intros Hvm Hreg Hv Hv' Hp Hp' E.
  destruct (pte_private m dir v p Hvm Hreg Hv Hp) as (t & ps & Hpr & Hi & H0).
  destruct (pte_private m dir' v' p' Hvm Hreg Hv' Hp') as (t' & ps' & Hpr' & Hi' & H0').
  assert (t = t') as <-.
  { eapply (vm_frames _ Hvm); [exact Hpr|exact Hpr'| |]; [by exists (Z.to_nat (v mod 1024)), p|by exists (Z.to_nat (v' mod 1024)), p']. }
  destruct (vm_once _ Hvm _ _ _ _ _ _ _ Hpr Hpr') as [-> Es]. split; [done|].
  assert (ps' = ps) as -> by (destruct Hpr as (?&?&_&_&_&_&_&?), Hpr' as (?&?&_&_&_&_&_&?); congruence).
  pose proof (vm_entries _ Hvm _ _ _ _ _ _ _ _ Hpr Hi Hi' H0 H0' E) as Ee. unfold user_range in *.
  apply Z2Nat.inj in Es; [|Z.div_mod_to_equations; lia..]. apply Z2Nat.inj in Ee; [|Z.div_mod_to_equations; lia..].
  Z.div_mod_to_equations. lia.
Qed.

Lemma pte_base_inj m dir v p dir' v' p' : vm_ok m -> user_region_free m -> user_range v -> user_range v' ->
  pte m dir v = Some p -> pte m dir' v' = Some p' -> base (frame p) = base (frame p') -> dir = dir' /\ v = v'.
Proof.
  intros Hvm Hreg Hv Hv' Hp Hp' E. eapply pte_once; try done.
  destruct (pte_frame m dir v p Hvm Hreg Hv Hp) as (? & ? & _), (pte_frame m dir' v' p' Hvm Hreg Hv' Hp') as (? & ? & _).
  apply base_inj; [lia..|done].
Qed.
End spaces.

Section access.
Context {K S : Type} `{!Kmalloc K} `{!KmallocLaws K} `{!HasMemory S}.
Implicit Types k : kernel page_bytes K S.
Implicit Types m : mm page_bytes K.

(** Ring 3's view of the page tables is the one [locate] takes. *)
Lemma locate_pte k a : vm_ok (kmm k) -> user_region_free (kmm k) -> user_address a ->
  locate a k = match pte (kmm k) (current_directory (kmm k)) (a / 0x1000) with
               | Some p => Ok (Some (base (frame p), a mod 0x1000))
               | None => Panic PAGE_FAULT
               end.
Proof.
  intros Hvm (kd & Hkd & Hfree) Ha. unfold user_address in Ha. set (m := kmm k) in *.
  destruct (vm_current _ Hvm) as [d Hd]. pose proof (vm_directories _ Hvm _ _ Hd) as Hdok.
  assert ((Z.to_nat (a / 0x400000) < 1024)%nat) as Hlt by (Z.div_mod_to_equations; lia).
  destruct (lookup_lt_is_Some_2 (tables d) (Z.to_nat (a / 0x400000))) as [t Ht]; [by rewrite (dk_tables _ _ Hdok)|].
  assert (a / 0x1000 / 1024 = a / 0x400000) as Eq by (rewrite Z.div_div by lia; done).
  unfold locate. fold m. unfold read_directory, table_slot. rewrite Hd. rsimpl. rewrite Ht. rsimpl.
  unfold pte. rewrite Hd, Eq. cbn [mbind option_bind]. rewrite Ht. cbn [mbind option_bind].
  destruct (Z.eqb_spec t 0) as [|H0]; [done|]. rewrite Hkd. rsimpl. rewrite Hfree by (Z.div_mod_to_equations; lia). rsimpl.
  rewrite (proj2 (Z.eqb_neq 0 t)) by done.
  destruct (dk_present _ _ Hdok _ _ Ht H0) as (ps & Hps & Hok). unfold read_page, table_entry. rewrite Hps. rsimpl.
  cbn [mbind option_bind].
  destruct (lookup_lt_is_Some_2 ps (Z.to_nat (a / 0x1000 mod 1024))) as [p Hp];
    [rewrite (tk_length _ _ Hok); Z.div_mod_to_equations; lia|].
  rewrite Hp. rsimpl. cbn [mbind option_bind]. by destruct (present p =? 0).
Qed.

Lemma vload8_space k a : vm_ok (kmm k) -> user_region_free (kmm k) -> user_address a ->
  vload8 a k = match space (kmm k) (current_directory (kmm k)) a with Some v => Ok v | None => Panic PAGE_FAULT end.
Proof.
  intros Hvm Hreg Ha. unfold vload8, space. rewrite locate_pte by done.
  destruct (pte _ _ _) as [p|]; [by rsimpl|done].
Qed.

(** Mapped user pages are a private region. *)
Lemma mapped_private_region k lo hi : vm_ok (kmm k) -> user_region_free (kmm k) -> 0x400000 <= lo -> hi <= 0xC0000000 ->
  (forall a, lo <= a < hi -> is_Some (pte (kmm k) (current_directory (kmm k)) (a / 0x1000))) -> private_region k lo hi.
Proof.
  intros Hvm Hreg Hlo Hhi Hm. split; [lia| |].
  - intros a Ha. rewrite locate_pte by (unfold user_address; done || lia). destruct (Hm a Ha) as [p ->]. eauto.
  - intros a b l Ha Hb. rewrite !locate_pte by (unfold user_address; done || lia).
    destruct (Hm a Ha) as [p Hp], (Hm b Hb) as [p' Hp']. rewrite Hp, Hp'. intros E1 E2.
    assert (base (frame p) = base (frame p') /\ a mod 0x1000 = b mod 0x1000) as [E3 E4] by (split; congruence).
    assert (a / 0x1000 = b / 0x1000) as E5; [|Z.div_mod_to_equations; lia].
    eapply (pte_base_inj (kmm k) _ _ p _ _ p' Hvm Hreg); [..|exact Hp|exact Hp'|exact E3];
      apply user_address_range; unfold user_address; lia.
Qed.

Lemma space_same m m' dir : (forall v, pte m' dir v = pte m dir v) -> contents_of m' = contents_of m ->
  forall a, space m' dir a = space m dir a.
Proof. intros Hp Hc a. unfold space. by rewrite Hp, Hc. Qed.

(** [k'] is [k] after the running process wrote [l] at [a]. *)
Record stored k k' (a : Z) (l : list Z) : Prop := {
  so_contents : exists c, k' = with_contents k c;
  so_new i v : l !! i = Some v -> space (kmm k') (current_directory (kmm k)) (a + Z.of_nat i) = Some (u8 v);
  so_frame b o : (forall x, a <= x < a + Z.of_nat (List.length l) -> locate x k <> Ok (Some (b, o))) ->
    contents_of (kmm k') b o = contents_of (kmm k) b o;
  so_old dir b : user_address b -> dir <> current_directory (kmm k) \/ b < a \/ a + Z.of_nat (List.length l) <= b ->
    space (kmm k') dir b = space (kmm k) dir b
}.

Lemma vm_ok_contents k c : vm_ok (kmm k) -> vm_ok (kmm (with_contents k c)).
Proof.
  intros [? [] ? ? ? Hdir ? ? ? ? ? ?]. split; try done. intros x y Hx. destruct (Hdir x y Hx). by split.
Qed.

Lemma store_spec k a l : vm_ok (kmm k) -> user_region_free (kmm k) ->
  0x400000 <= a -> a + Z.of_nat (List.length l) <= 0xC0000000 ->
  (forall b, a <= b < a + Z.of_nat (List.length l) -> is_Some (pte (kmm k) (current_directory (kmm k)) (b / 0x1000))) ->
  exists k', vstore_bytes a l k = Ok k' /\ stored k k' a l.
Proof.
  intros Hvm Hreg Hlo Hhi Hm.
  pose proof (mapped_private_region k a (a + Z.of_nat (List.length l)) Hvm Hreg Hlo Hhi Hm) as Hr.
  destruct (vstore_bytes_spec l k _ _ a Hr) as (c & Hrun & Hh & _ & Hf); [lia..|].
  exists (with_contents k c). split; [done|]. split; [by exists c| | |].
  - intros i v Hi. pose proof (lookup_lt_Some _ _ _ Hi) as Hlt.
    assert (user_address (a + Z.of_nat i)) as Hu by (unfold user_address; lia).
    specialize (Hh i (u8 v)). rewrite list_lookup_fmap, Hi in Hh. specialize (Hh eq_refl).
    rewrite vload8_space in Hh; [|by apply vm_ok_contents|done|done].
    change (current_directory (kmm k)) with (current_directory (kmm (with_contents k c))).
    destruct (space _ _ _); congruence.
  - exact Hf.
  - intros dir b Hb Hout. unfold space. change (pte (kmm (with_contents k c)) dir (b / 0x1000)) with (pte (kmm k) dir (b / 0x1000)).
    destruct (pte (kmm k) dir (b / 0x1000)) as [p|] eqn:Hp; [|done]. simpl. f_equal. apply Hf. intros x Hx E.
    assert (user_address x) as Hux by (unfold user_address; lia).
    rewrite locate_pte in E by done. destruct (Hm x Hx) as [p' Hp']. rewrite Hp' in E.
    assert (base (frame p') = base (frame p) /\ x mod 0x1000 = b mod 0x1000) as [E1 E2] by (split; congruence).
    destruct (pte_base_inj (kmm k) _ _ p' _ _ p Hvm Hreg (user_address_range x Hux) (user_address_range b Hb) Hp' Hp E1) as [E3 E4].
    destruct Hout as [Hd|Hout]; [congruence|]. Z.div_mod_to_equations. lia.
Qed.

(** A store in the user range that succeeds went to the own space. *)
Lemma vstore8_stored k a v k' : vm_ok (kmm k) -> user_region_free (kmm k) -> user_address a ->
  vstore8 a v k = Ok k' -> stored k k' a [v].
Proof.
  intros Hvm Hreg Ha Hrun. destruct (store_spec k a [v] Hvm Hreg) as (k1 & Hk1 & Hs); unfold user_address in Ha; simpl; try lia.
  - intros b Hb. replace b with a by lia. unfold vstore8 in Hrun. rewrite locate_pte in Hrun by done.
    destruct (pte _ _ _); [eauto|done].
  - simpl in Hk1. rewrite Hrun in Hk1. revert Hk1. rsimpl. by intros [= <-].
Qed.

(** What was stored is loaded back. *)
Lemma stored_holds k k' a l : vm_ok (kmm k) -> user_region_free (kmm k) -> 0x400000 <= a ->
  a + Z.of_nat (List.length l) <= 0xC0000000 -> stored k k' a l -> holds k' a (u8 <$> l).
Proof.
  intros Hvm Hreg Hlo Hhi [(c & ->) Hnew _ _] i v Hi. rewrite list_lookup_fmap in Hi. destruct (l !! i) as [w|] eqn:Hw; [|done].
  injection Hi as <-. pose proof (lookup_lt_Some _ _ _ Hw). rewrite vload8_space; [|by apply vm_ok_contents|done|unfold user_address; lia].
  pose proof (Hnew i w Hw) as E. simpl in E |- *. by rewrite E.
Qed.
End access.
