(* ===== verification/Signal.v ===== *)
(** * signal.c: dispositions, sending and returning

    Everything of signal.c except [task_signal_deliver], which may call
    [task_exit] and so lives in Process.v.  A signal frame is nineteen
    words on the user stack, written and read through the page tables. *)

From S2P Require Import Prelude Memory Kmalloc Frames Paging Vfs Task UserSpace.

Definition SIGNAL_COUNT : Z := 32.
Definition SIGNAL_KILL : Z := 9.
Definition SIGNAL_CHLD : Z := 17.
Definition SIGNAL_DEFAULT : Z := 0.
Definition SIGNAL_IGNORE : Z := 1.
Definition SIGNAL_FRAME_MAGIC : Z := 0x53494746.
Definition USER_ADDRESS_MIN : Z := 0x00400000.
Definition sizeof_signal_frame : Z := 76.
Definition NO_SIGNAL_SLOT : string := "signal number outside the handler table".

(** [registers_t] as it lies in memory. *)
Definition registers_words (r : registers) : list Z :=
  [r_ds r; r_edi r; r_esi r; r_ebp r; r_esp r; r_ebx r; r_edx r; r_ecx r; r_eax r;
   r_int_no r; r_err_code r; r_eip r; r_cs r; r_eflags r; r_useresp r; r_ss r].
Definition registers_of (w : list Z) : res registers :=
  match w with
  | [ds; edi; esi; ebp; esp; ebx; edx; ecx; eax; int_no; err_code; eip; cs; eflags; useresp; ss] =>
      Ok (mk_registers ds edi esi ebp esp ebx edx ecx eax int_no err_code eip cs eflags useresp ss)
  | _ => Panic NULL_POINTER
  end.
Definition set_resumption (eip useresp : Z) (r : registers) : registers :=
  mk_registers (r_ds r) (r_edi r) (r_esi r) (r_ebp r) (r_esp r) (r_ebx r) (r_edx r) (r_ecx r) (r_eax r)
    (r_int_no r) (r_err_code r) eip (r_cs r) (r_eflags r) useresp (r_ss r).

Definition signal_number_is_valid (signal_number : Z) : bool :=
  (0 <? signal_number) && (signal_number <? SIGNAL_COUNT).
Definition signal_default_is_ignore (signal_number : Z) : bool := signal_number =? SIGNAL_CHLD.

Definition handler_of (t : task) (signal_number : Z) : res Z :=
  match signal_handlers t !! Z.to_nat signal_number with Some h => Ok h | None => Panic NO_SIGNAL_SLOT end.

(** Shorthands for the signal fields of [task_t]. *)
Definition set_handler (signal_number handler : Z) (t : task) : task :=
  set_signals (<[Z.to_nat signal_number := handler]> (signal_handlers t)) (pending_signals t) (signal_trampoline t)
    (signal_active t) (active_signal t) t.
Definition set_trampoline (trampoline : Z) (t : task) : task :=
  set_signals (signal_handlers t) (pending_signals t) trampoline (signal_active t) (active_signal t) t.
Definition set_pending (pending : Z) (t : task) : task :=
  set_signals (signal_handlers t) pending (signal_trampoline t) (signal_active t) (active_signal t) t.
Definition set_active (active number : Z) (t : task) : task :=
  set_signals (signal_handlers t) (pending_signals t) (signal_trampoline t) active number t.

(** The search of [take_next_pending_signal], from [signal_number] on. *)
Fixpoint first_pending (fuel : nat) (signal_number pending : Z) : Z :=
  match fuel with
  | O => 0
  | Datatypes.S fuel =>
      if Z.land pending (u32 (Z.shiftl 1 signal_number)) =? 0 then first_pending fuel (signal_number + 1) pending
      else signal_number
  end.
Definition take_next_pending_signal (t : task) : Z * task :=
  let signal_number := first_pending 31 1 (pending_signals t) in
  if signal_number =? 0 then (0, t)
  else
    let bit := u32 (Z.shiftl 1 signal_number) in
    (signal_number, set_pending (Z.land (pending_signals t) (u32 (Z.lnot bit))) t).

(** [task_signal_inherit], on the child. *)
Definition task_signal_inherit (parent child : task) : task :=
  set_signals (signal_handlers parent) 0 (signal_trampoline parent) 0 0 child.

(** The loop of [task_signal_exec_reset]: slot 0 is left alone. *)
Definition reset_handlers (handlers : list Z) : list Z :=
  imap (fun i h => if (i =? 0)%nat || (h =? SIGNAL_IGNORE) then h else SIGNAL_DEFAULT) handlers.

Section signals.
Context {K S : Type} `{!Kmalloc K} `{!HasMemory S}.
Implicit Types k : kernel page_bytes K S.

Definition find_task (process_id : Z) k : res Z :=
  while (fun t =>
    if t =? 0 then Ok (Break 0)
    else
      x ← get_task t k;
      if id x =? process_id then Ok (Break t) else Ok (Continue (next x))) (ready_queue k).

(** May ring 3 execute at [address]: is there a present user page? *)
Definition user_page (address dir : Z) k : res bool :=
  '(entry, _) ← get_page address 0 dir (kmm k);
  match entry with
  | None => Ok false
  | Some (table, i) =>
      p ← read_page table i (kmm k);
      Ok (negb (present p =? 0) && negb (user p =? 0))
  end.

Definition user_code_address (address : Z) : bool := (USER_ADDRESS_MIN <=? address) && (address <? USER_STACK_TOP).

Definition task_signal_set_handler (signal_number handler userspace_trampoline : Z) k :
    res (Z * kernel page_bytes K S) :=
  if current_task k =? 0 then Ok (-1, k)
  else
    t ← get_task (current_task k) k;
    if (is_user_process t =? 0) || negb (signal_number_is_valid signal_number) || (signal_number =? SIGNAL_KILL)
    then Ok (-1, k)
    else
      previous ← handler_of t signal_number;
      let register k := Ok (s32 previous, update_task (current_task k) (set_handler signal_number handler) k) in
      if negb (handler =? SIGNAL_DEFAULT) && negb (handler =? SIGNAL_IGNORE) then
        if negb (user_code_address handler) || negb (user_code_address userspace_trampoline) then Ok (-1, k)
        else
          handler_ok ← user_page handler (task_directory t) k;
          trampoline_ok ← user_page userspace_trampoline (task_directory t) k;
          if negb handler_ok || negb trampoline_ok then Ok (-1, k)
          else register (update_task (current_task k) (set_trampoline userspace_trampoline) k)
      else register k.

Definition task_signal_send (process_id signal_number : Z) k : res (Z * kernel page_bytes K S) :=
  target ← find_task process_id k;
  if target =? 0 then Ok (-1, k)
  else
    t ← get_task target k;
    if (id t =? 0) || (is_user_process t =? 0) || bool_decide (state t = TASK_ZOMBIE) then Ok (-1, k)
    else if signal_number =? 0 then Ok (0, k)
    else if negb (signal_number_is_valid signal_number) then Ok (-1, k)
    else
      handler ← handler_of t signal_number;
      let k := if negb (handler =? SIGNAL_IGNORE) &&
                  negb ((handler =? SIGNAL_DEFAULT) && signal_default_is_ignore signal_number)
               then update_task target
                      (fun t => set_pending (Z.lor (pending_signals t) (u32 (Z.shiftl 1 signal_number))) t) k
               else k in
      let k := if decide (state t = TASK_WAITING_INPUT) then update_task target (set_state TASK_RUNNABLE) k else k in
      Ok (0, k).

(** Reading back a saved register frame. *)
Fixpoint vload_words (a : Z) (n : nat) k : res (list Z) :=
  match n with
  | O => Ok []
  | Datatypes.S n => w ← vload32 a k; l ← vload_words (u32 (a + 4)) n k; Ok (w :: l)
  end.

Definition task_signal_return (context_address : Z) (return_frame : registers) k :
    res (Z * registers * kernel page_bytes K S) :=
  let stack_bottom := USER_STACK_TOP - TASK_STACK_SIZE in
  if current_task k =? 0 then Ok (-1, return_frame, k)
  else
    t ← get_task (current_task k) k;
    if (signal_active t =? 0) || (context_address <? stack_bottom + 4) ||
       (USER_STACK_TOP - (sizeof_signal_frame - 4) <? context_address)
    then Ok (-1, return_frame, k)
    else
      let signal_frame := context_address - 4 in
      magic ← vload32 (signal_frame + 8) k;
      if negb (magic =? SIGNAL_FRAME_MAGIC) then Ok (-1, return_frame, k)
      else
        signal_number ← vload32 (signal_frame + 4) k;
        if negb (signal_number =? active_signal t) then Ok (-1, return_frame, k)
        else
          words ← vload_words (signal_frame + 12) 16 k;
          saved ← registers_of words;
          Ok (0, saved, update_task (current_task k) (set_active 0 0) k).

Definition task_signal_exec_reset k : res (kernel page_bytes K S) :=
  ASSERT (negb (current_task k =? 0));;
  Ok (update_task (current_task k) (fun t =>
        set_signals (reset_handlers (signal_handlers t)) (pending_signals t) 0 0 0 t) k).
End signals.
