(* ===== verification/Process.v ===== *)
(** * task.c: creating, ending and reaping processes; signal delivery

    [resume_user_frame] is the assembly return path of a forked child; its
    address is a parameter.  Functions that never return because they
    switch to another task end with that task current, and take as
    arguments the registers [switch_task] reads from the CPU. *)

From S2P Require Import Prelude Memory Kmalloc Frames Paging Vfs Task UserSpace Signal.

Definition ZOMBIE_RESUMED : string := "zombie process resumed after exit".

(** The fields [task_t] gets when a process is built, over a cleared one. *)
Definition build_task (pid parent directory stack : Z) (heap : Z * Z * Z * Z) (user : Z)
    (ds : list file_descriptor) (cwd : Z) (e s b : Z) : task :=
  let '(start, brk, mapped, limit) := heap in
  mk_task pid parent TASK_RUNNABLE 0 s b e directory stack start brk mapped limit user
    (replicate 32 0) 0 0 0 0 ds cwd 0.

Section processes.
Context {K S Cb : Type} `{!Kmalloc K} `{!HasMemory S} `{!FsDriver S Cb}.
Variable resume_user_frame : Z.
Implicit Types k : kernel page_bytes K S.

Definition insert_task (a : Z) (t : task) k : kernel page_bytes K S := with_tasks k (<[a := t]> (tasks k)).

(** [kmalloc(sizeof(task_t))] and [kmalloc_a(KERNEL_STACK_SIZE)]. *)
Definition alloc_task k : res (Z * kernel page_bytes K S) :=
  '(a, ks) ← kmalloc sizeof_task_t (kstate (kmm k)); Ok (a, with_mm k (Paging.with_kstate (kmm k) ks)).
Definition alloc_stack k : res (Z * kernel page_bytes K S) :=
  '(a, ks) ← kmalloc_a KERNEL_STACK_SIZE (kstate (kmm k)); Ok (a, with_mm k (Paging.with_kstate (kmm k) ks)).
Definition take_pid k : Z * kernel page_bytes K S :=
  (s32 (next_pid k), with_next_pid k (u32 (next_pid k + 1))).

(** PID 0, once the stack has been relocated. *)
Definition initialise_tasking k : res (kernel page_bytes K S) :=
  '(a, k) ← alloc_task k;
  let t := build_task 0 (-1) (current_directory (kmm k)) 0 (0, 0, 0, 0) 0 (replicate MAX_FILE_DESCRIPTORS free_descriptor) 0 0 0 0 in
  let k := mk_kernel (<[a := t]> (tasks k)) a a (next_pid k) (tss_stack k) (kmm k) (kfs k) (saved_frames k) in
  '(stack, k) ← alloc_stack k;
  Ok (update_task a (fun t => initialise_standard_descriptors
        (build_task (id t) (parent_id t) (task_directory t) stack (0, 0, 0, 0) 0 (descriptors t) 0 0 0 0)) k).

Definition create_initial_user_process (entry : Z) k : res (Z * kernel page_bytes K S) :=
  ASSERT (negb (entry =? 0));;
  ASSERT (negb (ready_queue k =? 0));;
  '(process, k) ← alloc_task k;
  '(directory, m) ← clone_directory (kernel_directory (kmm k)) (kmm k);
  m ← map_pages directory (USER_STACK_TOP - TASK_STACK_SIZE) USER_STACK_TOP m;
  let k := with_mm k m in
  let '(pid, k) := take_pid k in
  '(stack, k) ← alloc_stack k;
  cur ← get_task (current_task k) k;
  let t := build_task pid 0 directory stack (USER_HEAP_START, USER_HEAP_START, USER_HEAP_START, USER_HEAP_LIMIT) 1
             (descriptors cur) (working_directory cur) entry USER_STACK_TOP USER_STACK_TOP in
  k ← append_ready_task process (insert_task process t k);
  Ok (pid, k).

(** Drivers learn of a descriptor's new or lost user. *)
Fixpoint notify_open (ds : list file_descriptor) (f : S) : res S :=
  match ds with
  | [] => Ok f
  | d :: ds =>
      f ← (if decide (kind d = FD_KIND_NODE) then if node d =? 0 then Ok f else open_fs (node d) 1 0 f else Ok f);
      notify_open ds f
  end.
Fixpoint notify_close (ds : list file_descriptor) (f : S) : res S :=
  match ds with
  | [] => Ok f
  | d :: ds =>
      f ← (if decide (kind d = FD_KIND_NODE) then if node d =? 0 then Ok f else close_fs (node d) f else Ok f);
      notify_close ds f
  end.

Definition task_fork_from_frame (parent_frame : registers) k : res (Z * kernel page_bytes K S) :=
  if current_task k =? 0 then Ok (-1, k)
  else
    parent ← get_task (current_task k) k;
    if (is_user_process parent =? 0) || negb (bool_decide (state parent = TASK_RUNNABLE)) then Ok (-1, k)
    else
      '(directory, m) ← clone_directory (current_directory (kmm k)) (kmm k);
      '(new_task, k) ← alloc_task (with_mm k m);
      let '(pid, k) := take_pid k in
      '(stack, k) ← alloc_stack k;
      f ← notify_open (descriptors parent) (kfs k);
      let k := with_fs k f in
      let frame_address := u32 (stack + KERNEL_STACK_SIZE - sizeof_registers_t) in
      let t := task_signal_inherit parent
                 (build_task pid (id parent) directory stack
                    (heap_start parent, heap_break parent, heap_mapped_end parent, heap_limit parent)
                    (is_user_process parent) (descriptors parent) (working_directory parent)
                    resume_user_frame frame_address frame_address) in
      let k := with_frame k frame_address (set_eax 0 parent_frame) in
      k ← append_ready_task new_task (insert_task new_task t k);
      Ok (pid, k).

(** Never returns to the caller: the result has another task current. *)
Definition task_exit (status : Z) (cpu : Z * Z * Z) k : res (kernel page_bytes K S) :=
  let process := current_task k in
  ASSERT (negb (process =? 0));;
  t ← get_task process k;
  ASSERT (negb (id t =? 0) && negb (is_user_process t =? 0));;
  f ← notify_close (descriptors t) (kfs k);
  let k := update_task process (fun t =>
             set_state TASK_ZOMBIE (set_exit_status status
               (set_descriptors (replicate MAX_FILE_DESCRIPTORS free_descriptor) t))) (with_fs k f) in
  k ← (if 0 <? parent_id t then '(_, k) ← task_signal_send (parent_id t) SIGNAL_CHLD k; Ok k else Ok k);
  let '(eip, esp, ebp) := cpu in
  k ← switch_task eip esp ebp k;
  if current_task k =? process then Panic ZOMBIE_RESUMED else Ok k.

(** The search of [task_waitpid]: previous and current element. *)
Definition waitpid_step (pid : Z) k (st : Z * Z) : res (ctl (Z * Z) (Z * Z)) :=
  let '(previous, child) := st in
  if child =? 0 then Ok (Break (previous, child))
  else
    c ← get_task child k;
    if id c =? pid then Ok (Break (previous, child)) else Ok (Continue (child, next c)).

(** Result, and the exit status when a child was reaped; [status] is where
    the caller wants it, 0 for nowhere. *)
Definition task_waitpid (pid status : Z) k : res (Z * kernel page_bytes K S) :=
  if (current_task k =? 0) || (pid <=? 0) then Ok (-1, k)
  else
    parent ← get_task (current_task k) k;
    '(previous, child) ← while (waitpid_step pid k) (0, ready_queue k);
    if child =? 0 then Ok (-1, k)
    else
      c ← get_task child k;
      if negb (parent_id c =? id parent) then Ok (-1, k)
      else if negb (bool_decide (state c = TASK_ZOMBIE)) then Ok (0, k)
      else
        k ← (if status =? 0 then Ok k else vstore32 status (exit_status c) k);
        ASSERT (negb (previous =? 0));;
        let k := update_task previous (set_next (next c)) k in
        m ← destroy_directory (task_directory c) (kmm k);
        ks ← kfree (kernel_stack c) (kstate m);
        ks ← kfree child ks;
        let k := with_mm k (Paging.with_kstate m ks) in
        Ok (pid, with_tasks k (delete child (tasks k))).

(** ** Delivery

    What becomes of the interrupted process: it resumes with a frame, or it
    exited and another task runs. *)
Inductive resumption : Type :=
  | Resumes (frame : registers) (k : kernel page_bytes K S)
  | Exited (k : kernel page_bytes K S).

Definition task_signal_deliver (return_frame : registers) (cpu : Z * Z * Z) k : res resumption :=
  if current_task k =? 0 then Ok (Resumes return_frame k)
  else
    t ← get_task (current_task k) k;
    if (is_user_process t =? 0) || negb (bool_decide (state t = TASK_RUNNABLE)) || negb (signal_active t =? 0) ||
       negb (Z.land (r_cs return_frame) 3 =? 3)
    then Ok (Resumes return_frame k)
    else
      let '(signal_number, t) := take_next_pending_signal t in
      if signal_number =? 0 then Ok (Resumes return_frame k)
      else
        let k := update_task (current_task k) (fun _ => t) k in
        handler ← handler_of t signal_number;
        if (handler =? SIGNAL_IGNORE) || ((handler =? SIGNAL_DEFAULT) && signal_default_is_ignore signal_number)
        then Ok (Resumes return_frame k)
        else
          let die := k ← task_exit (128 + signal_number) cpu k; Ok (Exited k) in
          if (handler =? SIGNAL_DEFAULT) || (signal_number =? SIGNAL_KILL) then die
          else
            let stack_bottom := USER_STACK_TOP - TASK_STACK_SIZE in
            if (r_useresp return_frame <? stack_bottom + sizeof_signal_frame) ||
               (USER_STACK_TOP <? r_useresp return_frame) || (signal_trampoline t =? 0)
            then die
            else
              let frame_address := Z.land (r_useresp return_frame - sizeof_signal_frame) (u32 (Z.lnot 0xF)) in
              if frame_address <? stack_bottom then die
              else
                k ← vstore32 frame_address (signal_trampoline t) k;
                k ← vstore32 (frame_address + 4) signal_number k;
                k ← vstore32 (frame_address + 8) SIGNAL_FRAME_MAGIC k;
                k ← vstore_bytes (frame_address + 12) (concat (le32 <$> registers_words return_frame)) k;
                let k := update_task (current_task k) (set_active 1 (u8 signal_number)) k in
                Ok (Resumes (set_resumption handler frame_address return_frame) k).
End processes.
