(* ===== verification/ProcessInv.v ===== *)
(** * The invariant of the process table

    [process_ok]: the ready queue is well-formed and holds exactly the tasks
    of the store; every task has a directory and a kernel stack of its own;
    pids are distinct; PID 0 is the idle task and the only one that is not a
    user process; heaps are mapped as far as they say. *)

From S2P Require Import Prelude LinkedList Kmalloc Frames Paging PagingProofs Task AddressSpace Scheduler UserSpace.

(** The heap of a process: [heap_start, heap_mapped_end) is mapped user
    memory, and from there to the limit nothing is mapped. *)
Record heap_ok {C K} (m : mm C K) (t : task) : Prop := {
  ho_aligned : heap_start t mod 0x1000 = 0 /\ heap_mapped_end t mod 0x1000 = 0 /\ heap_limit t mod 0x1000 = 0;
  ho_order : 0x400000 <= heap_start t <= heap_break t /\ heap_break t <= heap_mapped_end t /\
    heap_mapped_end t <= heap_limit t /\ heap_limit t <= USER_HEAP_LIMIT;
  ho_mapped v : heap_start t / 0x1000 <= v < heap_mapped_end t / 0x1000 ->
    exists p, pte m (task_directory t) v = Some p /\ rw p <> 0 /\ user p = 1;
  ho_free v : heap_mapped_end t / 0x1000 <= v < heap_limit t / 0x1000 -> pte m (task_directory t) v = None
}.

Section invariant.
Context {K S : Type} `{!Kmalloc K} `{!KmallocLaws K}.
Implicit Types k : kernel page_bytes K S.

(** A live block of the allocator that holds no paging structure. *)
Definition plain_in (m : mm page_bytes K) (x : Z) : Prop :=
  x ∈ k_live (kstate m) /\ page_tables m !! x = None /\ directories m !! x = None.
Definition plain_block k (x : Z) : Prop := plain_in (kmm k) x.

Record task_ok k (x : Z) (t : task) : Prop := {
  to_directory : is_Some (directories (kmm k) !! task_directory t);
  to_own : task_directory t <> kernel_directory (kmm k);
  to_block : plain_block k x;
  to_stack : plain_block k (kernel_stack t) /\ tasks k !! kernel_stack t = None;
  to_pid : 0 <= id t < next_pid k;
  to_idle : id t = 0 <-> x = ready_queue k;
  to_user : is_user_process t = 0 <-> x = ready_queue k;
  to_descriptors : List.length (descriptors t) = MAX_FILE_DESCRIPTORS;
  to_handlers : List.length (signal_handlers t) = 32%nat;
  to_heap : is_user_process t <> 0 -> heap_ok (kmm k) t
}.

Record process_ok k (q : list Z) : Prop := {
  po_queue : queue_ok k q;
  po_vm : vm_ok (kmm k);
  po_region : user_region_free (kmm k);
  po_dom x : is_Some (tasks k !! x) <-> x ∈ q;
  po_tasks x t : tasks k !! x = Some t -> task_ok k x t;
  po_directories x y t u : tasks k !! x = Some t -> tasks k !! y = Some u -> task_directory t = task_directory u -> x = y;
  po_stacks x y t u : tasks k !! x = Some t -> tasks k !! y = Some u -> kernel_stack t = kernel_stack u -> x = y;
  po_pids x y t u : tasks k !! x = Some t -> tasks k !! y = Some u -> id t = id u -> x = y;
  po_current t : tasks k !! current_task k = Some t -> current_directory (kmm k) = task_directory t;
  po_next_pid : 0 < next_pid k < 2 ^ 32
}.

(** What the invariant sees of a task. *)
Record same_task (t t' : task) : Prop := {
  st_id : id t' = id t;
  st_next : next t' = next t;
  st_directory : task_directory t' = task_directory t;
  st_stack : kernel_stack t' = kernel_stack t;
  st_user : is_user_process t' = is_user_process t;
  st_heap : heap_start t' = heap_start t /\ heap_break t' = heap_break t /\
    heap_mapped_end t' = heap_mapped_end t /\ heap_limit t' = heap_limit t;
  st_descriptors : List.length (descriptors t') = List.length (descriptors t);
  st_handlers : List.length (signal_handlers t') = List.length (signal_handlers t)
}.
Lemma same_task_refl t : same_task t t.
Proof. by split. Qed.
#[export] Instance same_task_trans : Transitive same_task.
Proof. intros t u v [] []. split; try congruence. destruct_and!. split_and!; congruence. Qed.

Lemma heap_ok_same {C} (m : mm C K) t t' : same_task t t' -> heap_ok m t -> heap_ok m t'.
Proof. intros [? ? E ? ? (H1 & H2 & H3 & H4) ? ?] [A O M F]. split; rewrite ?E, ?H1, ?H2, ?H3, ?H4; try done. Qed.

(** The same without the heap. *)
Record same_shape (t t' : task) : Prop := {
  ss_id : id t' = id t;
  ss_next : next t' = next t;
  ss_directory : task_directory t' = task_directory t;
  ss_stack : kernel_stack t' = kernel_stack t;
  ss_user : is_user_process t' = is_user_process t;
  ss_descriptors : List.length (descriptors t') = List.length (descriptors t);
  ss_handlers : List.length (signal_handlers t') = List.length (signal_handlers t)
}.
Lemma same_task_shape t t' : same_task t t' -> same_shape t t'.
Proof. intros []. by split. Qed.

(** A change of memory and tasks that the invariant survives. *)
Record remap k k' : Prop := {
  rm_vm : vm_ok (kmm k');
  rm_region : user_region_free (kmm k');
  rm_kernel : kernel_directory (kmm k') = kernel_directory (kmm k);
  rm_current_directory : current_directory (kmm k') = current_directory (kmm k);
  rm_directories x : is_Some (directories (kmm k) !! x) -> is_Some (directories (kmm k') !! x);
  rm_blocks x : plain_block k x -> plain_block k' x;
  rm_ready : ready_queue k' = ready_queue k;
  rm_pid : next_pid k' = next_pid k;
  rm_current : current_task k' = current_task k;
  rm_dom x : is_Some (tasks k' !! x) <-> is_Some (tasks k !! x);
  rm_tasks x t' : tasks k' !! x = Some t' -> exists t, tasks k !! x = Some t /\ same_shape t t' /\
    (is_user_process t' <> 0 -> heap_ok (kmm k') t');
  rm_idle : runnable (tasks k) (ready_queue k) -> runnable (tasks k') (ready_queue k)
}.

(** Changes the invariant does not see keep it. *)
Record quiet k k' : Prop := {
  qt_kmm : kmm k' = kmm k;
  qt_ready : ready_queue k' = ready_queue k;
  qt_pid : next_pid k' = next_pid k;
  qt_current : current_task k' = current_task k;
  qt_dom x : is_Some (tasks k' !! x) <-> is_Some (tasks k !! x);
  qt_tasks x t' : tasks k' !! x = Some t' -> exists t, tasks k !! x = Some t /\ same_task t t';
  qt_idle : runnable (tasks k) (ready_queue k) -> runnable (tasks k') (ready_queue k)
}.

Lemma quiet_refl k : quiet k k.
Proof. split; try done. intros x t Ht. exists t. split; [done|apply same_task_refl]. Qed.

Lemma quiet_trans k1 k2 k3 : quiet k1 k2 -> quiet k2 k3 -> quiet k1 k3.
Proof.
  intros [A1 A2 A3 A4 A5 A6 A7] [B1 B2 B3 B4 B5 B6 B7]. split; try congruence.
  - intros x. by rewrite B5.
  - intros x t Ht. destruct (B6 x t Ht) as (t2 & Ht2 & S2). destruct (A6 x t2 Ht2) as (t1 & Ht1 & S1).
    exists t1. split; [done|by etrans].
  - intros H%A7. rewrite A2 in B7. by apply B7.
Qed.

Lemma queue_ok_links k k' q : queue_ok k q -> ready_queue k' = ready_queue k -> current_task k' ∈ q ->
  (forall x t, tasks k !! x = Some t -> exists t', tasks k' !! x = Some t' /\ next t' = next t) ->
  runnable (tasks k') (ready_queue k) -> queue_ok k' q.
Proof.
  intros [Hc Hin Hi Ha] Hr Hcur Ht Hrun. split; try done; rewrite ?Hr; try done.
  eapply chain_keep; [|exact Hc]. intros x t _ Hx. by apply Ht.
Qed.

Lemma remap_process_ok k k' q : process_ok k q -> remap k k' -> process_ok k' q.
Proof.
  intros [Hq Hvm Hreg Hdom Ht Hd Hs Hp Hc Hn] [Evm Ereg Ek Ecd Edir Ebl Er Ep Ec Hdm Htk Hid].
  assert (forall x, tasks k !! x = None -> tasks k' !! x = None) as Hnone.
  { intros x Hx. destruct (tasks k' !! x) eqn:E; [|done]. destruct (proj1 (Hdm x)); [eauto|congruence]. }
  split; rewrite ?Ep; try done.
  - apply (queue_ok_links k); try done; [rewrite Ec; apply Hq| |by apply Hid, Hq].
    intros x t Hx. destruct (proj2 (Hdm x)) as [t' Ht']; [eauto|]. destruct (Htk x t' Ht') as (t0 & H0 & Hst & _).
    exists t'. split; [done|]. rewrite (ss_next _ _ Hst). congruence.
  - intros x. by rewrite Hdm.
  - intros x t' Hx. destruct (Htk x t' Hx) as (t & Htx & Hst & Hh). pose proof Hst as [E1 _ E3 E4 E5 E7 E8].
    destruct (Ht x t Htx) as [T1 T2 T3 T4 T5 T6 T7 T8 T9 T10].
    split; rewrite ?Er, ?Ep, ?Ek, ?E1, ?E3, ?E4, ?E5, ?E7, ?E8; try done; [by apply Edir|by apply Ebl| |by rewrite <- E5].
    destruct T4. split; [by apply Ebl|by apply Hnone].
  - intros x y t u Hx Hy. destruct (Htk x t Hx) as (t0 & H0 & S0 & _), (Htk y u Hy) as (u0 & U0 & S1 & _).
    rewrite (ss_directory _ _ S0), (ss_directory _ _ S1). by eapply Hd.
  - intros x y t u Hx Hy. destruct (Htk x t Hx) as (t0 & H0 & S0 & _), (Htk y u Hy) as (u0 & U0 & S1 & _).
    rewrite (ss_stack _ _ S0), (ss_stack _ _ S1). by eapply Hs.
  - intros x y t u Hx Hy. destruct (Htk x t Hx) as (t0 & H0 & S0 & _), (Htk y u Hy) as (u0 & U0 & S1 & _).
    rewrite (ss_id _ _ S0), (ss_id _ _ S1). by eapply Hp.
  - intros t Hx. rewrite Ec in Hx. destruct (Htk _ t Hx) as (t0 & H0 & S0 & _). rewrite Ecd, (ss_directory _ _ S0). by apply Hc.
Qed.

Lemma quiet_remap k k' q : process_ok k q -> quiet k k' -> remap k k'.
Proof.
  intros Hk [Em Er Ep Ec Hdm Htk Hid]. split; rewrite ?Em; try done; try apply Hk.
  - intros x. unfold plain_block, plain_in. by rewrite Em.
  - intros x t' Hx. destruct (Htk x t' Hx) as (t & Htx & Hst). exists t. split; [done|]. split; [by apply same_task_shape|].
    intros Hu. eapply heap_ok_same; [done|]. apply (po_tasks _ _ Hk x t Htx). by rewrite <- (st_user _ _ Hst).
Qed.

Lemma quiet_process_ok k k' q : process_ok k q -> quiet k k' -> process_ok k' q.
Proof. intros Hk Hqt. eapply remap_process_ok; [done|by eapply quiet_remap]. Qed.

(** Updating one task quietly; the idle task stays runnable. *)
Lemma quiet_update k x f : (forall t, tasks k !! x = Some t -> same_task t (f t)) ->
  (x = ready_queue k -> forall t, tasks k !! x = Some t -> state t = TASK_RUNNABLE -> state (f t) = TASK_RUNNABLE) ->
  quiet k (update_task x f k).
Proof.
  intros Hf Hr. split; try done; simpl.
  - intros y. apply lookup_alter_is_Some.
  - intros y t' [(<- & t & Ht & ->)|[Hne Ht]]%lookup_alter_Some; [exists t; split; [done|by apply Hf]|].
    exists t'. split; [done|apply same_task_refl].
  - intros (t & Ht & Hs). destruct (decide (x = ready_queue k)) as [->|Hne].
    + exists (f t). by rewrite lookup_alter_eq, Ht, Hr.
    + exists t. by rewrite lookup_alter_ne.
Qed.

Lemma quiet_fs k f : quiet k (with_fs k f).
Proof. split; try done. intros x t Ht. exists t. split; [done|apply same_task_refl]. Qed.
Lemma quiet_frame k a r : quiet k (with_frame k a r).
Proof. split; try done. intros x t Ht. exists t. split; [done|apply same_task_refl]. Qed.
End invariant.
