(* ===== verification/ProcessOps.v ===== *)
(** * The process operations keep the invariant: switching, the heap

    Each lemma says what the operation does when the invariant holds, and
    that it holds afterwards. *)

From S2P Require Import Prelude LinkedList Kmalloc Frames Paging PagingProofs PagingTheorems AddressSpace Task Scheduler UserSpace ProcessInv.

Section vm.
Context {C K : Type} `{!Kmalloc K} `{!KmallocLaws K}.
Implicit Types m : mm C K.

Lemma vm_ok_switch d m : vm_ok m -> is_Some (directories m !! d) -> vm_ok (switch_page_directory d m).
Proof.
  intros Hvm Hd. destruct Hvm as [? [] ? ? ? Hdir ? ? ? ? ? ?]. split; try done. intros x y Hx. destruct (Hdir x y Hx). by split.
Qed.

Lemma vm_blocks m x : vm_ok m -> is_Some (page_tables m !! x) \/ is_Some (directories m !! x) -> x ∈ k_live (kstate m).
Proof.
  intros Hvm [[y Hy]|[y Hy]]; [by eapply (ol_tables _ (vm_live _ Hvm))|by eapply (ol_directories _ (vm_live _ Hvm))].
Qed.

(** Allocating a block keeps the address spaces. *)
Lemma vm_ok_alloc m a ks : vm_ok m -> k_live ks = {[a]} ∪ k_live (kstate m) -> vm_ok (Paging.with_kstate m ks).
Proof. intros Hvm E. apply vm_ok_kstate; [done|]. intros x Hx%vm_blocks; [|done]. rewrite E. set_solver. Qed.

Lemma vm_ok_free m a ks : vm_ok m -> page_tables m !! a = None -> directories m !! a = None ->
  k_live ks = k_live (kstate m) ∖ {[a]} -> vm_ok (Paging.with_kstate m ks).
Proof.
  intros Hvm H1 H2 E. apply vm_ok_kstate; [done|]. intros x Hx. rewrite E, elem_of_difference, not_elem_of_singleton.
  split; [by apply vm_blocks|]. intros ->. rewrite H1, H2 in Hx. by destruct Hx as [[]|[]].
Qed.

Lemma heap_ok_pte m m' t : (forall v, user_range v -> pte m' (task_directory t) v = pte m (task_directory t) v) ->
  heap_ok m t -> heap_ok m' t.
Proof.
  intros Hp [A O M F]. unfold USER_HEAP_LIMIT in O.
  assert (forall v, heap_start t / 0x1000 <= v < heap_limit t / 0x1000 -> user_range v) as Hr
    by (intros v Hv; unfold user_range; Z.div_mod_to_equations; lia).
  split; try done.
  - intros v Hv. rewrite Hp; [by apply M|]. apply Hr. Z.div_mod_to_equations. lia.
  - intros v Hv. rewrite Hp; [by apply F|]. apply Hr. Z.div_mod_to_equations. lia.
Qed.
End vm.

Section operations.
Context {K S : Type} `{!Kmalloc K} `{!KmallocLaws K}.
Implicit Types k : kernel page_bytes K S.

Lemma task_in_queue k q x t : process_ok k q -> tasks k !! x = Some t -> x ∈ q.
Proof. intros Hk Hx. apply (po_dom _ _ Hk). eauto. Qed.
Lemma current_task_ok k q : process_ok k q -> exists t, tasks k !! current_task k = Some t /\ current_task k <> 0.
Proof.
  intros Hk. destruct (proj2 (po_dom _ _ Hk (current_task k))) as [t Ht]; [apply Hk|]. exists t. split; [done|].
  pose proof (qo_addr _ _ (po_queue _ _ Hk) _ (task_in_queue _ _ _ _ Hk Ht)). lia.
Qed.

(** ** Switching *)
Lemma switched_process_ok k k' q e sp b c : process_ok k q -> switched k k' e sp b c -> queue_ok k' q -> process_ok k' q.
Proof.
  intros Hk [Et Ec Er (t & Hc & Em & Etss) (Ep & Ef & Es)] Hq'.
  set (k1 := update_task (current_task k) (set_context e sp b) k).
  assert (process_ok k1 q) as H1.
  { eapply quiet_process_ok; [done|]. apply quiet_update; [intros u _; by split|done]. }
  assert (tasks k' = tasks k1) as Et1 by done. destruct H1 as [_ Hvm Hreg Hdom Ht Hd Hs Hp _ Hn].
  assert (is_Some (directories (kmm k) !! task_directory t)) as Hdir by (rewrite Et1 in Hc; apply (Ht _ _ Hc)).
  split; rewrite ?Et1, ?Ep; try done.
  - rewrite Em. by apply vm_ok_switch.
  - rewrite Em. done.
  - intros x u Hx. destruct (Ht x u Hx) as [T1 T2 T3 T4 T5 T6 T7 T8 T9 T10].
    split; unfold plain_block, plain_in in *; rewrite ?Em, ?Er, ?Ep, ?Et1; try done.
    intros Hu. destruct (T10 Hu). by split.
  - intros u Hu. rewrite Et1, Ec in *. rewrite Em. simpl. congruence.
Qed.

Lemma switch_process_ok k q e sp b : process_ok k q ->
  exists k', switch_task e sp b k = Ok k' /\ process_ok k' q /\ runnable (tasks k') (current_task k') /\
    (forall x, runnable (tasks k') x <-> runnable (tasks k) x) /\ kfs k' = kfs k /\
    (forall x t', tasks k' !! x = Some t' -> exists t, tasks k !! x = Some t /\ same_task t t' /\ state t' = state t /\ parent_id t' = parent_id t).
Proof.
  intros Hk. destruct (cyclic_exists q _ (qo_current _ _ (po_queue _ _ Hk))) as [r Hr].
  destruct (switch_task_spec k q r e sp b (po_queue _ _ Hk) Hr) as (s & c & t & k' & E & Hc & Hs & Hrun & Hcase & Hq' & Hrr).
  exists k'. split; [done|]. destruct Hcase as [(_ & -> & ->)|Hsw].
  - split_and!; try done. intros x t' Ht'. exists t'. by split_and!.
  - split_and!; try done.
    + by eapply switched_process_ok.
    + rewrite (sw_current _ _ _ _ _ _ Hsw). by apply Hrr.
    + apply Hsw.
    + rewrite (sw_tasks _ _ _ _ _ _ Hsw). intros x t' [(<- & u & Hu & ->)|[_ Hu]]%lookup_alter_Some.
      * exists u. split_and!; try done.
      * exists t'. split_and!; try done.
Qed.
End operations.

(** ** task_sbrk: the process heap

    The break moves by exactly the increment or not at all; growing maps
    new pages of zeros and touches nothing else. *)

Lemma page_align_up_spec v : 0 <= v <= 0xBFF00000 ->
  PAGE_ALIGN_UP v mod 0x1000 = 0 /\ v <= PAGE_ALIGN_UP v < v + 0x1000.
Proof.
  intros Hv. unfold PAGE_ALIGN_UP, PAGE_SIZE. change (u32 (Z.lnot (0x1000 - 1))) with 0xFFFFF000.
  rewrite u32_small by lia. rewrite land_page_base by (unfold is_u32; lia).
  Z.div_mod_to_equations. lia.
Qed.

Lemma sbrk_target_spec brk increment : 0 <= brk < 2 ^ 32 -> - 2 ^ 31 <= increment < 2 ^ 31 ->
  sbrk_target brk increment = if (0 <=? brk + increment) && (brk + increment <? 2 ^ 32) then Some (brk + increment) else None.
Proof.
  intros Hb Hi. unfold sbrk_target. destruct (Z.leb_spec 0 increment) as [H|H].
  - rewrite (u32_small increment) by lia. destruct (Z.ltb_spec (0xFFFFFFFF - brk) increment).
    + by rewrite (proj2 (Z.ltb_ge (brk + increment) (2 ^ 32))), andb_false_r by lia.
    + by rewrite (proj2 (Z.leb_le 0 (brk + increment))), (proj2 (Z.ltb_lt (brk + increment) (2 ^ 32))) by lia.
  - assert (u32 (0 - u32 increment) = - increment) as ->.
    { unfold u32. rewrite Zminus_mod_idemp_r. change (0 - increment) with (- increment). apply Z.mod_small. lia. }
    destruct (Z.ltb_spec brk (- increment)).
    + by rewrite (proj2 (Z.leb_gt 0 (brk + increment))) by lia.
    + rewrite (proj2 (Z.leb_le 0 (brk + increment))), (proj2 (Z.ltb_lt (brk + increment) (2 ^ 32))) by lia.
      simpl. f_equal. lia.
Qed.

Section sbrk.
Context {K S : Type} `{!Kmalloc K} `{!KmallocLaws K}.
Implicit Types k : kernel page_bytes K S.

Lemma map_pages_nop dir first last (m : mm page_bytes K) : last <= first -> map_pages dir first last m = Ok m.
Proof.
  intros H. unfold map_pages. apply (while_runs _ _ _ 0%nat); [|lia]. constructor.
  by rewrite (proj2 (Z.ltb_ge first last)).
Qed.

(** The heap moved: [m'] is [kmm k] with the pages of [lo, hi) added. *)
Lemma heap_moved_process_ok k q x t m' brk mapped : process_ok k q -> tasks k !! x = Some t -> is_user_process t <> 0 ->
  mapped_range (kmm k) m' (task_directory t) (heap_mapped_end t / 0x1000) (mapped / 0x1000) ->
  heap_start t <= brk <= mapped -> heap_mapped_end t <= mapped <= heap_limit t -> mapped mod 0x1000 = 0 ->
  process_ok (update_task x (set_heap brk mapped) (with_mm k m')) q.
Proof.
  intros Hk Hx Hu Hmr Hb Hm Ha. pose proof (po_tasks _ _ Hk x t Hx) as Ht. destruct (to_heap _ _ _ Ht Hu) as [A O M F].
  assert (forall d v, is_Some (directories (kmm k) !! d) -> user_range v -> d <> task_directory t -> pte m' d v = pte (kmm k) d v) as Hother.
  { intros d v Hd Hv Hne. apply Hmr; [done|unfold user_range in Hv; lia|by left]. }
  eapply remap_process_ok; [done|]. split; simpl; try done.
  - apply Hmr.
  - eapply user_region_keep; [apply Hmr|apply Hmr|apply Hk].
  - apply Hmr.
  - apply Hmr.
  - intros d Hd. by apply (mr_directories _ _ _ _ _ Hmr).
  - intros b (B1 & B2 & B3). split_and!; simpl.
    + by apply (mr_blocks _ _ _ _ _ Hmr).
    + destruct (page_tables m' !! b) eqn:E; [|done]. exfalso.
      destruct (mr_tables _ _ _ _ _ Hmr b) as [[? ?]|?]; [eauto|congruence|done].
    + destruct (directories m' !! b) eqn:E; [|done]. exfalso.
      destruct (proj1 (mr_directories _ _ _ _ _ Hmr b)) as [? ?]; [eauto|congruence].
  - intros y. apply lookup_alter_is_Some.
  - intros y t' [(<- & u & Hu' & ->)|[Hne Hu']]%lookup_alter_Some.
    + exists u. split; [done|]. split; [by split|]. intros _. assert (u = t) as -> by congruence.
      destruct A as (A1 & A2 & A3), O as (O1 & O2 & O3 & O4). split; simpl.
      * done.
      * lia.
      * intros v Hv. destruct (decide (v < heap_mapped_end t / 0x1000)).
        -- rewrite (mr_pte _ _ _ _ _ Hmr); [apply M; lia|apply Ht|Z.div_mod_to_equations; lia|right; lia].
        -- destruct (mr_new _ _ _ _ _ Hmr v) as (p & Hp & _ & Hrw & Hus & _); [lia|]. exists p. split_and!; [done|lia|done].
      * intros v Hv. rewrite (mr_pte _ _ _ _ _ Hmr); [apply F; Z.div_mod_to_equations; lia|apply Ht|Z.div_mod_to_equations; lia|right; lia].
    + exists t'. split; [done|]. split; [by split|]. intros Hus. pose proof (po_tasks _ _ Hk y t' Hu') as Hty.
      eapply heap_ok_pte; [|by apply Hty]. intros v Hv. apply Hother; [apply Hty|done|].
      intros E. apply Hne. symmetry. by eapply (po_directories _ _ Hk).
  - intros (u & Hu' & Hs). destruct (decide (x = ready_queue k)) as [->|Hne].
    + exists (set_heap brk mapped u). by rewrite lookup_alter_eq, Hu'.
    + exists u. by rewrite lookup_alter_ne.
Qed.

Lemma task_sbrk_spec k q t increment : process_ok k q -> tasks k !! current_task k = Some t -> is_user_process t <> 0 ->
  - 2 ^ 31 <= increment < 2 ^ 31 ->
  let brk := heap_break t + increment in
  let mapped := Z.max (heap_mapped_end t) (PAGE_ALIGN_UP brk) in
  (~ heap_start t <= brk <= heap_limit t -> task_sbrk increment k = Ok (SBRK_FAILED, k)) /\
  (heap_start t <= brk <= heap_limit t ->
     clone_failure (task_sbrk increment k) \/
     exists m', task_sbrk increment k = Ok (heap_break t, update_task (current_task k) (set_heap brk mapped) (with_mm k m')) /\
       mapped_range (kmm k) m' (task_directory t) (heap_mapped_end t / 0x1000) (mapped / 0x1000) /\
       process_ok (update_task (current_task k) (set_heap brk mapped) (with_mm k m')) q).
Proof.
  intros Hk Ht Hu Hi brk mapped. pose proof (po_tasks _ _ Hk _ _ Ht) as Htk. destruct (to_heap _ _ _ Htk Hu) as [A O M F].
  pose proof O as (O1 & O2 & O3 & O4). unfold USER_HEAP_LIMIT in O4.
  unfold task_sbrk. destruct (current_task_ok k q Hk) as (t' & Ht' & H0). rewrite (proj2 (Z.eqb_neq _ 0)) by done.
  rewrite (get_task_ok _ _ _ Ht). rsimpl. rewrite (proj2 (Z.eqb_neq _ 0)) by done.
  rewrite sbrk_target_spec by lia. fold brk. split.
  - intros Hout. destruct (Z.leb_spec 0 brk), (Z.ltb_spec brk (2 ^ 32)); simpl; try done.
    destruct (Z.ltb_spec brk (heap_start t)); [done|]. destruct (Z.ltb_spec (heap_limit t) brk); [done|lia].
  - intros Hin. rewrite (proj2 (Z.leb_le 0 brk)), (proj2 (Z.ltb_lt brk (2 ^ 32))) by lia. simpl andb. cbv iota.
    rewrite (proj2 (Z.ltb_ge brk _)), (proj2 (Z.ltb_ge (heap_limit t) brk)) by lia. simpl orb. cbv iota.
    destruct (page_align_up_spec brk) as [Hal Hup]; [lia|].
    assert (PAGE_ALIGN_UP brk <= heap_limit t) as Hlim by (Z.div_mod_to_equations; lia).
    assert ((if heap_mapped_end t <? PAGE_ALIGN_UP brk then PAGE_ALIGN_UP brk else heap_mapped_end t) = mapped) as ->
      by (unfold mapped; destruct (Z.ltb_spec (heap_mapped_end t) (PAGE_ALIGN_UP brk)); lia).
    assert (mapped mod 0x1000 = 0) as Hma by (unfold mapped; destruct (Z.max_spec (heap_mapped_end t) (PAGE_ALIGN_UP brk)) as [[_ ->]|[_ ->]]; tauto).
    assert (clone_failure (map_pages (task_directory t) (heap_mapped_end t) (PAGE_ALIGN_UP brk) (kmm k)) \/
      exists m', map_pages (task_directory t) (heap_mapped_end t) (PAGE_ALIGN_UP brk) (kmm k) = Ok m' /\
        mapped_range (kmm k) m' (task_directory t) (heap_mapped_end t / 0x1000) (mapped / 0x1000)) as [Hf|(m' & -> & Hmr)].
    { destruct (decide (heap_mapped_end t <= PAGE_ALIGN_UP brk)).
      - replace mapped with (PAGE_ALIGN_UP brk) by lia. apply map_pages_spec; try lia; [apply Hk|apply Htk|].
        intros v Hv. split; [apply user_region_slot; [apply Hk|apply Htk|apply Htk|unfold user_range; Z.div_mod_to_equations; lia]|].
        apply F. Z.div_mod_to_equations. lia.
      - right. exists (kmm k). rewrite map_pages_nop by lia. split; [done|]. apply mapped_range_refl; [apply Hk|].
        replace mapped with (heap_mapped_end t) by lia. lia. }
    + left. by apply clone_failure_bind.
    + right. exists m'. rsimpl. split; [done|]. split; [done|]. apply (heap_moved_process_ok k q _ t); try done; unfold mapped; lia.
Qed.
End sbrk.
