(* ===== verification/Fork.v ===== *)
(** * task_fork_from_frame *)

From S2P Require Import Prelude LinkedList Kmalloc Frames Paging PagingProofs Vfs Task AddressSpace AddressClone Scheduler UserSpace Signal Process ProcessInv ProcessOps.

(** ** Appending to the ready queue *)

Lemma chain_append m l c x a ta : chain next m c (l ++ [x]) -> a ∉ l ++ [x] -> a <> 0 -> m !! a = Some ta -> next ta = 0 ->
  chain next (alter (set_next a) x m) c (l ++ [x; a]).
Proof.
  intros Hc Ha H0 Hm Hn. pose proof (chain_NoDup _ _ _ _ Hc) as Hnd. revert c Hc. induction l as [|y l IH]; intros c Hc.
  - destruct Hc as (-> & Hx & n & Hn' & _). split; [done|]. split; [done|]. exists (set_next a n).
    rewrite lookup_alter_eq, Hn'. split; [done|]. simpl. split; [done|]. split; [done|]. exists ta.
    rewrite lookup_alter_ne; [done|]. set_solver.
  - destruct Hc as (-> & Hy & n & Hn' & Hc). split; [done|]. split; [done|]. exists n.
    apply NoDup_cons in Hnd as [Hyn Hnd]. rewrite lookup_alter_ne; [|intros ->; apply Hyn; set_solver].
    split; [done|]. apply IH; [set_solver|done|done].
Qed.

Section fork.
Context {K S Cb : Type} `{!Kmalloc K} `{!KmallocLaws K} `{!HasMemory S} `{!FsDriver S Cb}.
Variable resume_user_frame : Z.
Implicit Types k : kernel page_bytes K S.

Lemma queue_tail_runs k l : forall c x, chain next (tasks k) c (l ++ [x]) ->
  runs (fun tail => t ← get_task tail k; if next t =? 0 then Ok (Break tail) else Ok (Continue (next t)))
    (List.length l) c (Ok x).
Proof.
  induction l as [|y l IH]; intros c x Hc.
  - destruct Hc as (-> & Hx & n & Hn & E). constructor. rewrite (get_task_ok _ _ _ Hn). rsimpl. simpl in E. by rewrite E.
  - destruct Hc as (-> & Hy & n & Hn & Hc). apply (runs_step _ _ _ (next n)); [|by apply IH].
    rewrite (get_task_ok _ _ _ Hn). rsimpl.
    assert (next n <> 0) as H0 by (destruct l; destruct Hc as (-> & ? & _); done).
    by rewrite (proj2 (Z.eqb_neq _ 0)).
Qed.

Lemma queue_snoc k q : queue_ok k q -> exists l x, q = l ++ [x].
Proof.
  intros Hq. destruct (queue_head _ _ Hq) as (q' & -> & _).
  destruct (exists_last (l := ready_queue k :: q')) as (l & x & ->); [done|]. eauto.
Qed.

(** A fully built task [a] goes to the end. *)
Lemma append_ready_spec k q a ta : queue_ok k q -> a ∉ q -> 0 < a < 2 ^ 32 -> next ta = 0 ->
  exists x k', append_ready_task a (insert_task a ta k) = Ok k' /\ x ∈ q /\
    k' = with_tasks k (alter (set_next a) x (<[a := ta]> (tasks k))) /\ queue_ok k' (q ++ [a]).
Proof.
  intros Hq Ha Hr Hn. destruct (queue_snoc k q Hq) as (l & x & ->).
  pose proof (qo_chain _ _ Hq) as Hc. unfold append_ready_task.
  assert (chain next (<[a:=ta]> (tasks k)) (ready_queue k) (l ++ [x])) as Hc1.
  { eapply chain_keep; [|exact Hc]. intros y n Hy Hm. exists n. rewrite lookup_insert_ne; [done|]. set_solver. }
  pose proof (qo_length _ _ Hq) as Hlen. rewrite length_app in Hlen.
  assert (queue_tail (insert_task a ta k) = Ok x) as ->
    by (apply (while_runs _ _ _ _ (queue_tail_runs (insert_task a ta k) l (ready_queue k) x Hc1)); lia).
  rsimpl.
  exists x. eexists. split; [done|]. split; [set_solver|]. split; [done|]. destruct Hq as [_ Hin (i & Hi & His) Had].
  assert (ready_queue k ∈ l ++ [x]) as Hrq.
  { destruct l; destruct Hc as (-> & _); set_solver. }
  split.
  - rewrite <- app_assoc. apply (chain_append (<[a:=ta]> (tasks k)) l _ x a ta); [done|done|lia| |done]. by rewrite lookup_insert_eq.
  - apply elem_of_app. by left.
  - change (ready_queue (update_task x (set_next a) (insert_task a ta k))) with (ready_queue k). simpl.
    destruct (decide (ready_queue k = x)) as [<-|Hne].
    + exists (set_next a i). rewrite lookup_alter_eq, lookup_insert_ne, Hi; [done|]. intros ->. done.
    + exists i. rewrite lookup_alter_ne, lookup_insert_ne; [done| |done]. intros ->. done.
  - intros y [Hy|Hy]%elem_of_app; [by apply Had|]. apply list_elem_of_singleton in Hy as ->. done.
Qed.

(** ** A new process *)

(** Memory after some address spaces and blocks were added. *)
Record grown_mm (m m' : mm page_bytes K) : Prop := {
  gm_vm : vm_ok m';
  gm_region : user_region_free m';
  gm_kernel : kernel_directory m' = kernel_directory m;
  gm_current : current_directory m' = current_directory m;
  gm_directories d : is_Some (directories m !! d) -> is_Some (directories m' !! d);
  gm_plain x : plain_in m x -> plain_in m' x;
  gm_live x : x ∈ k_live (kstate m) -> x ∈ k_live (kstate m');
  gm_pte d v : is_Some (directories m !! d) -> user_range v -> pte m' d v = pte m d v
}.

Lemma grown_refl m : vm_ok m -> user_region_free m -> grown_mm m m.
Proof. intros. by split. Qed.

Lemma grown_trans m1 m2 m3 : grown_mm m1 m2 -> grown_mm m2 m3 -> grown_mm m1 m3.
Proof.
  intros [A1 A2 A3 A4 A5 A6 A7 A8] [B1 B2 B3 B4 B5 B6 B7 B8]. split; try congruence; eauto.
  intros d v Hd Hv. rewrite B8, A8 by eauto. done.
Qed.

Lemma grown_forked m m' src nd : vm_ok m -> user_region_free m -> forked m m' src nd -> grown_mm m m'.
Proof.
  intros Hvm Hreg Hf. destruct (fk_new _ _ _ _ Hf) as (N1 & N2 & N3). split; try apply Hf.
  - eapply user_region_keep; [apply Hf|apply Hf|done].
  - intros d Hd. apply (fk_directories _ _ _ _ Hf). by left.
  - intros x (P1 & P2 & P3). split_and!; [by apply Hf| |].
    + destruct (page_tables m' !! x) eqn:E; [|done]. destruct (fk_tables _ _ _ _ Hf x) as [[? ?]|?]; [eauto|congruence|done].
    + destruct (directories m' !! x) eqn:E; [|done].
      destruct (proj1 (fk_directories _ _ _ _ Hf x)) as [[? ?]| ->]; [eauto|congruence|done].
  - intros d v [y Hd] _. apply (fk_old _ _ _ _ Hf). congruence.
Qed.

(** A block from the allocator, as a step of the memory. *)
Lemma grown_alloc m a ks : vm_ok m -> user_region_free m -> a ∉ k_live (kstate m) ->
  k_live ks = {[a]} ∪ k_live (kstate m) ->
  grown_mm m (Paging.with_kstate m ks) /\ plain_in (Paging.with_kstate m ks) a.
Proof.
  intros Hvm Hreg Ha E. split.
  - split; try done.
    + by eapply vm_ok_alloc.
    + intros x (P1 & P2 & P3). split_and!; try done. simpl. rewrite E. set_solver.
    + intros x Hx. simpl. rewrite E. set_solver.
  - split_and!; simpl.
    + rewrite E. set_solver.
    + destruct (page_tables m !! a) eqn:Ea; [|done]. destruct Ha. by eapply (ol_tables _ (vm_live _ Hvm)).
    + destruct (directories m !! a) eqn:Ea; [|done]. destruct Ha. by eapply (ol_directories _ (vm_live _ Hvm)).
Qed.

(** What the record of a new process must be. *)
Record newcomer k (m' : mm page_bytes K) (a : Z) (ta : task) : Prop := {
  nc_next : next ta = 0;
  nc_address : 0 < a < 2 ^ 32;
  nc_block : plain_in m' a /\ (a ∉ k_live (kstate (kmm k)));
  nc_stack : plain_in m' (kernel_stack ta) /\ (kernel_stack ta ∉ k_live (kstate (kmm k))) /\ kernel_stack ta <> a;
  nc_directory : is_Some (directories m' !! task_directory ta) /\ directories (kmm k) !! task_directory ta = None;
  nc_pid : id ta = next_pid k;
  nc_user : is_user_process ta <> 0;
  nc_lengths : List.length (descriptors ta) = MAX_FILE_DESCRIPTORS /\ List.length (signal_handlers ta) = 32%nat;
  nc_heap : heap_ok m' ta
}.

Lemma spawn_process_ok k q m' a ta x : process_ok k q -> next_pid k + 1 < 2 ^ 32 -> grown_mm (kmm k) m' -> newcomer k m' a ta ->
  x ∈ q ->
  let k' := with_tasks (with_next_pid (with_mm k m') (next_pid k + 1)) (alter (set_next a) x (<[a := ta]> (tasks k))) in
  queue_ok k' (q ++ [a]) -> process_ok k' (q ++ [a]).
Proof.
  intros Hk Hpid Hg [N1 N2 [N3 N3'] (N4 & N4' & N4'') [N5 N5'] N6 N7 [N8 N8'] N9] Hx k' Hq'.
  pose proof Hk as [Hq Hvm Hreg Hdom Ht Hd Hs Hp Hc Hn].
  assert (tasks k !! a = None) as Hnone.
  { destruct (tasks k !! a) eqn:E; [|done]. destruct N3'. by apply (Ht a t E). }
  assert (forall y t, tasks k !! y = Some t -> kernel_stack t ∈ k_live (kstate (kmm k)) /\ y ∈ k_live (kstate (kmm k))) as Hlive.
  { intros y t Hy. split; by apply (Ht y t Hy). }
  assert (x <> a) as Hxa. { intros ->. apply Hdom in Hx as [? ?]. congruence. }
  assert (forall y t', tasks k' !! y = Some t' ->
    y = a /\ t' = ta \/ y <> a /\ exists t, tasks k !! y = Some t /\ (t' = t \/ t' = set_next a t)) as Hcase.
  { intros y t' Hl. simpl in Hl. apply lookup_alter_Some in Hl as [(<- & t & Hy & ->)|[Hne Hy]].
    - right. split; [done|]. rewrite lookup_insert_ne in Hy by done. exists t. split; [done|by right].
    - destruct (decide (y = a)) as [->|Hya]; [left|right].
      + rewrite lookup_insert_eq in Hy. split; congruence.
      + rewrite lookup_insert_ne in Hy by done. split; [done|]. exists t'. split; [done|by left]. }
  assert (forall y t t', t' = t \/ t' = set_next a t -> task_ok k y t -> tasks k' !! kernel_stack t' = None -> task_ok k' y t') as Hold.
  { intros y t t' Hor [T1 T2 T3 [T4 T4'] T5 T6 T7 T8 T9 T10] Hst.
    assert (heap_ok (kmm k) t -> heap_ok m' t) as Hh by (apply heap_ok_pte; intros v Hv; by apply Hg).
    destruct Hor as [-> | ->]; split; simpl; try done; try (by apply Hg); try (rewrite (gm_kernel _ _ Hg); done);
      try (split; [by apply (gm_plain _ _ Hg)|done]); try lia.
    - auto.
    - intros Hu. destruct (Hh (T10 Hu)). by split. }
  assert (forall y, tasks k !! y = None -> y <> a -> tasks k' !! y = None) as Hstill.
  { intros y Hy Hya. simpl. destruct (decide (x = y)) as [->|Hne].
    - apply Hdom in Hx as [? ?]. congruence.
    - by rewrite lookup_alter_ne, lookup_insert_ne. }
  split; try done.
  - apply Hg.
  - apply Hg.
  - intros y. rewrite elem_of_app, list_elem_of_singleton, <- Hdom. simpl. rewrite lookup_alter_is_Some, lookup_insert_is_Some.
    split; [intros [->|[_ ?]]; tauto|]. intros [Hy | ->]; [|by left]. destruct (decide (a = y)) as [->|]; [by left|by right].
  - intros y t' Hy. destruct (Hcase y t' Hy) as [(-> & ->)|(Hya & t & Hyt & Hor)].
    + split; try done.
      * simpl. rewrite (gm_kernel _ _ Hg). intros E. destruct (vm_kernel _ Hvm) as [kd Hkd]. congruence.
      * split; [done|]. apply Hstill; [|done]. destruct (tasks k !! kernel_stack ta) eqn:E; [|done]. destruct N4'. by apply (Hlive _ _ E).
      * simpl. lia.
      * rewrite N6. simpl. split; [lia|]. intros ->. destruct (queue_head _ _ Hq) as (q' & Eq & _).
        destruct (proj2 (Hdom (ready_queue k))) as [t Htr]; [rewrite Eq; set_solver|]. congruence.
      * simpl. split; [done|]. intros ->. destruct (queue_head _ _ Hq) as (q' & Eq & _).
        destruct (proj2 (Hdom (ready_queue k))) as [t Htr]; [rewrite Eq; set_solver|]. congruence.
    + apply (Hold y t t' Hor); [by apply Ht|]. assert (kernel_stack t' = kernel_stack t) as -> by (by destruct Hor as [-> | ->]).
      apply Hstill; [apply (Ht y t Hyt)|]. intros E. destruct (Hlive y t Hyt) as [Hl _]. rewrite E in Hl. done.
  - intros y z t u Hy Hz. destruct (Hcase y t Hy) as [(-> & ->)|(Hya & t0 & Hyt & Hor)], (Hcase z u Hz) as [(-> & ->)|(Hza & u0 & Hzu & Hor2)]; [done| | |].
    + assert (task_directory u = task_directory u0) as -> by (by destruct Hor2 as [-> | ->]). intros E.
      destruct (to_directory _ _ _ (Ht z u0 Hzu)) as [? ?]. congruence.
    + assert (task_directory t = task_directory t0) as -> by (by destruct Hor as [-> | ->]). intros E.
      destruct (to_directory _ _ _ (Ht y t0 Hyt)) as [? ?]. congruence.
    + assert (task_directory t = task_directory t0) as -> by (by destruct Hor as [-> | ->]).
      assert (task_directory u = task_directory u0) as -> by (by destruct Hor2 as [-> | ->]). by eapply Hd.
  - intros y z t u Hy Hz. destruct (Hcase y t Hy) as [(-> & ->)|(Hya & t0 & Hyt & Hor)], (Hcase z u Hz) as [(-> & ->)|(Hza & u0 & Hzu & Hor2)]; [done| | |].
    + assert (kernel_stack u = kernel_stack u0) as -> by (by destruct Hor2 as [-> | ->]). intros E.
      destruct (Hlive z u0 Hzu) as [Hl _]. rewrite <- E in Hl. done.
    + assert (kernel_stack t = kernel_stack t0) as -> by (by destruct Hor as [-> | ->]). intros E.
      destruct (Hlive y t0 Hyt) as [Hl _]. rewrite E in Hl. done.
    + assert (kernel_stack t = kernel_stack t0) as -> by (by destruct Hor as [-> | ->]).
      assert (kernel_stack u = kernel_stack u0) as -> by (by destruct Hor2 as [-> | ->]). by eapply Hs.
  - intros y z t u Hy Hz. destruct (Hcase y t Hy) as [(-> & ->)|(Hya & t0 & Hyt & Hor)], (Hcase z u Hz) as [(-> & ->)|(Hza & u0 & Hzu & Hor2)]; [done| | |].
    + assert (id u = id u0) as -> by (by destruct Hor2 as [-> | ->]). destruct (to_pid _ _ _ (Ht z u0 Hzu)). lia.
    + assert (id t = id t0) as -> by (by destruct Hor as [-> | ->]). destruct (to_pid _ _ _ (Ht y t0 Hyt)). lia.
    + assert (id t = id t0) as -> by (by destruct Hor as [-> | ->]).
      assert (id u = id u0) as -> by (by destruct Hor2 as [-> | ->]). by eapply Hp.
  - intros t Hct. simpl in *. rewrite (gm_current _ _ Hg). destruct (current_task_ok k q Hk) as (t0 & Ht0 & _).
    destruct (Hcase (current_task k) t Hct) as [(E & _)|(_ & t1 & Ht1 & Hor)]; [congruence|].
    rewrite (Hc t1 Ht1). by destruct Hor as [-> | ->].
  - simpl. lia.
Qed.

Lemma queue_ok_ext k k' q : tasks k' = tasks k -> ready_queue k' = ready_queue k -> current_task k' = current_task k ->
  queue_ok k q -> queue_ok k' q.
Proof. intros E1 E2 E3 [? ? ? ?]. split; by rewrite ?E1, ?E2, ?E3. Qed.

(** ** Fork *)

(** The record of the child. *)
Definition child_of (t : task) (pid directory stack : Z) : task :=
  let frame_address := u32 (stack + KERNEL_STACK_SIZE - sizeof_registers_t) in
  task_signal_inherit t
    (build_task pid (id t) directory stack (heap_start t, heap_break t, heap_mapped_end t, heap_limit t)
       (is_user_process t) (descriptors t) (working_directory t) resume_user_frame frame_address frame_address).

Lemma heap_ok_forked (m m' : mm page_bytes K) t t' nd : forked m m' (task_directory t) nd -> task_directory t' = nd ->
  heap_start t' = heap_start t -> heap_break t' = heap_break t -> heap_mapped_end t' = heap_mapped_end t ->
  heap_limit t' = heap_limit t -> heap_ok m t -> heap_ok m' t'.
Proof.
  intros Hf E0 E1 E2 E3 E4 [A O M F]. unfold USER_HEAP_LIMIT in O.
  split; rewrite ?E0, ?E1, ?E2, ?E3, ?E4; try done; intros v Hv.
  - destruct (M v Hv) as (p & Hp & Hrw & Hus). destruct (fk_some _ _ _ _ Hf v p) as (q & Hq & _ & Hor);
      [Z.div_mod_to_equations; lia|done|]. exists q. split; [done|]. destruct Hor as [->|[Hc _]]; [done|].
    split; [|apply Hc]. rewrite (co_rw _ _ Hc). by rewrite (proj2 (Z.eqb_neq _ 0)).
  - apply (fk_none _ _ _ _ Hf); [Z.div_mod_to_equations; lia|by apply F].
Qed.

(** What a successful fork leaves behind. *)
Record fork_result k k' (q : list Z) (t : task) (frame : registers) (f : S) (a stack nd : Z) (m : mm page_bytes K) : Prop := {
  fr_space : forked (kmm k) m (task_directory t) nd;
  fr_mm : page_tables (kmm k') = page_tables m /\ directories (kmm k') = directories m /\ bits (kmm k') = bits m /\
    contents_of (kmm k') = contents_of m /\ current_directory (kmm k') = current_directory (kmm k);
  fr_kernel : kernel_directory (kmm k') = kernel_directory m;
  fr_blocks : k_live (kstate (kmm k')) = {[stack]} ∪ ({[a]} ∪ k_live (kstate m)) /\
    (a ∉ k_live (kstate m)) /\ (stack ∉ k_live (kstate m)) /\ stack <> a;
  fr_fresh : a ∉ q;
  fr_child : tasks k' !! a = Some (child_of t (next_pid k) nd stack);
  fr_others : exists x, x ∈ q /\ tasks k' = alter (set_next a) x (<[a := child_of t (next_pid k) nd stack]> (tasks k));
  fr_frame : saved_frames k' = <[u32 (stack + KERNEL_STACK_SIZE - sizeof_registers_t) := set_eax 0 frame]> (saved_frames k);
  fr_rest : kfs k' = f /\ current_task k' = current_task k /\ ready_queue k' = ready_queue k /\
    next_pid k' = next_pid k + 1 /\ tss_stack k' = tss_stack k;
  fr_ok : process_ok k' (q ++ [a])
}.

Lemma fork_spec k q t frame f : process_ok k q -> tasks k !! current_task k = Some t -> is_user_process t <> 0 ->
  state t = TASK_RUNNABLE -> next_pid k < 2 ^ 31 - 1 -> notify_open (descriptors t) (kfs k) = Ok f ->
  clone_failure (task_fork_from_frame resume_user_frame frame k) \/
  exists k' a stack nd m, task_fork_from_frame resume_user_frame frame k = Ok (next_pid k, k') /\
    fork_result k k' q t frame f a stack nd m.
Proof.
  intros Hk Ht Hu Hst Hpid Hopen. pose proof (po_next_pid _ _ Hk) as Hpid0. pose proof (po_tasks _ _ Hk _ _ Ht) as Htk.
  unfold task_fork_from_frame. destruct (current_task_ok k q Hk) as (t' & Ht' & H0). rewrite (proj2 (Z.eqb_neq _ 0)) by done.
  rewrite (get_task_ok _ _ _ Ht). rsimpl. rewrite (proj2 (Z.eqb_neq _ 0)), bool_decide_eq_true_2 by done. cbn [orb negb].
  rewrite (po_current _ _ Hk t Ht).
  destruct (clone_directory_forked (kmm k) (task_directory t) (po_vm _ _ Hk) (to_directory _ _ _ Htk)) as [Hf|(nd & m & -> & Hnd0 & Hf)].
  { left. by apply clone_failure_bind. }
  rsimpl. pose proof (grown_forked _ _ _ _ (po_vm _ _ Hk) (po_region _ _ Hk) Hf) as Hg.
  destruct (fk_new _ _ _ _ Hf) as (Fn1 & Fn2 & Fn3).
  unfold alloc_task. destruct (kmalloc_int_cases sizeof_task_t 0 false (kstate m)) as [[[[a pa] ks1] Hk1]|Hf1].
  2: { left. right. unfold kmalloc. simpl. do 3 apply alloc_failed_bind. done. }
  destruct (kmalloc_int_fresh _ _ _ _ _ _ _ Hk1) as (Ha & Hafr & Hl1).
  unfold kmalloc. simpl kmm. simpl kstate. rewrite Hk1. rsimpl. cbn [take_pid].
  unfold take_pid, alloc_stack, kmalloc_a.
  match goal with |- context [kmalloc_int KERNEL_STACK_SIZE 1 false ?ks] => change ks with ks1 end.
  destruct (kmalloc_int_cases KERNEL_STACK_SIZE 1 false ks1) as [[[[st pst] ks2] Hk2]|Hf2].
  2: { left. right. do 2 apply alloc_failed_bind. by apply alloc_failed_bind. }
  destruct (kmalloc_int_fresh _ _ _ _ _ _ _ Hk2) as (Hs & Hsfr & Hl2).
  rewrite Hk2. rsimpl. right. simpl kfs. rewrite Hopen. rsimpl.
  simpl next_pid. rewrite (s32_small (next_pid k)), (u32_small (next_pid k + 1)) by lia.
  fold (child_of t (next_pid k) nd st).
  set (m2 := Paging.with_kstate (Paging.with_kstate m ks1) ks2).
  destruct (grown_alloc m a ks1 (gm_vm _ _ Hg) (gm_region _ _ Hg) Hafr Hl1) as [Hg1 Hpa].
  destruct (grown_alloc (Paging.with_kstate m ks1) st ks2 (gm_vm _ _ Hg1) (gm_region _ _ Hg1) Hsfr Hl2) as [Hg2 Hps].
  pose proof (grown_trans _ _ _ Hg (grown_trans _ _ _ Hg1 Hg2)) as Hgm. fold m2 in Hgm.
  set (kn := with_frame _ _ _).
  assert (a ∉ k_live (kstate (kmm k))) as Ha0 by (intros Hin; by apply Hafr, (gm_live _ _ Hg)).
  assert (a ∉ q) as Haq.
  { intros Hin. apply (po_dom _ _ Hk) in Hin as [ta Hta]. apply Ha0. by apply (po_tasks _ _ Hk a ta Hta). }
  assert (queue_ok kn q) as Hqn by (apply (queue_ok_ext k kn q eq_refl eq_refl eq_refl), (po_queue _ _ Hk)).
  destruct (append_ready_spec kn q a (child_of t (next_pid k) nd st) Hqn Haq Ha eq_refl) as (x & k' & -> & Hx & -> & Hq').
  rsimpl. eexists _, a, st, nd, m. split; [done|].
  assert (newcomer k m2 a (child_of t (next_pid k) nd st)) as Hnew.
  { split; try done.
    - split; [|done]. by apply (gm_plain _ _ Hg2).
    - split; [done|]. split; [intros Hin; by apply Hsfr, (gm_live _ _ Hg1), (gm_live _ _ Hg)|]. intros E. simpl in E. apply Hsfr. rewrite Hl1, E. set_solver.
    - split; [apply Hg2, Hg1|done]. apply (fk_directories _ _ _ _ Hf). by right.
    - split; [apply Htk|]. apply Htk.
    - apply (heap_ok_pte m); [done|]. eapply (heap_ok_forked _ m t); [exact Hf|done..|by apply Htk]. }
  split; try done.
  - split_and!; try done. apply (fk_current _ _ _ _ Hf).
  - simpl. rewrite Hl2, Hl1. split_and!; try done; [intros Hin|intros ->]; apply Hsfr; rewrite Hl1; set_solver.
  - simpl. rewrite lookup_alter_ne, lookup_insert_eq; [done|]. intros ->. done.
  - by exists x.
  - set (k1 := with_tasks _ _).
    set (k2 := with_tasks (with_next_pid (with_mm k m2) (next_pid k + 1)) (tasks k1)).
    assert (process_ok k2 (q ++ [a])) as Hk2'.
    { apply (spawn_process_ok k q m2 a _ x); try done; [lia|]. by apply (queue_ok_ext k1). }
    eapply (quiet_process_ok _ _ _ Hk2'). change k1 with (with_frame (with_fs k2 f) (u32 (st + KERNEL_STACK_SIZE - sizeof_registers_t)) (set_eax 0 frame)).
    eapply quiet_trans; [apply quiet_fs|apply quiet_frame].
Qed.
End fork.
