(* ===== verification/Exit.v ===== *)
(** * task_signal_send and task_exit

    Sending finds its target by pid and changes that task only; an exiting
    process becomes a zombie, tells its parent and is never chosen again. *)

From S2P Require Import Prelude LinkedList Kmalloc Frames Paging PagingProofs Vfs Task AddressSpace Scheduler UserSpace Signal Process ProcessInv ProcessOps.

Section send.
Context {K S : Type} `{!Kmalloc K} `{!KmallocLaws K} `{!HasMemory S}.
Implicit Types k : kernel page_bytes K S.

(** ** Finding a process by pid *)

Definition has_pid k (pid : Z) (x : Z) : Prop := exists t, tasks k !! x = Some t /\ id t = pid.

Lemma has_pid_dec k pid x : has_pid k pid x \/ ~ has_pid k pid x.
Proof.
  unfold has_pid. destruct (tasks k !! x) as [t|]; [|right; intros (t & ? & _); done].
  destruct (decide (id t = pid)); [left; eauto|right]. intros (t' & [= <-] & ?). done.
Qed.

(** The queue up to the first task with the pid, or all of it. *)
Lemma pid_split k pid q : (exists l1 x l2, q = l1 ++ x :: l2 /\ has_pid k pid x /\ forall y, y ∈ l1 -> ~ has_pid k pid y) \/
  forall y, y ∈ q -> ~ has_pid k pid y.
Proof.
  induction q as [|y q IH]; [right; intros y Hy; by apply not_elem_of_nil in Hy|].
  destruct (has_pid_dec k pid y) as [Hy|Hy].
  - left. exists [], y, q. split_and!; [done|done|]. intros z Hz. by apply not_elem_of_nil in Hz.
  - destruct IH as [(l1 & x & l2 & -> & Hx & Hl)|Hn]; [left|right].
    + exists (y :: l1), x, l2. split_and!; [done|done|]. intros z [->|Hz]%elem_of_cons; [done|by apply Hl].
    + intros z [->|Hz]%elem_of_cons; [done|by apply Hn].
Qed.

Definition find_step (pid : Z) k (t : Z) : res (ctl Z Z) :=
  if t =? 0 then Ok (Break 0)
  else x ← get_task t k; if id x =? pid then Ok (Break t) else Ok (Continue (next x)).

Lemma find_runs k pid c l2 : forall l1 a, chain next (tasks k) a (l1 ++ c :: l2) -> has_pid k pid c ->
  (forall y, y ∈ l1 -> ~ has_pid k pid y) -> runs (find_step pid k) (List.length l1) a (Ok c).
Proof.
  induction l1 as [|y l1 IH]; intros a (-> & H0 & n & Hn & Hc) Hpid Hl.
  - constructor. destruct Hpid as (t & Ht & E). assert (n = t) as -> by congruence. unfold find_step.
    rewrite (proj2 (Z.eqb_neq c 0)), (get_task_ok _ _ _ Hn) by done. rsimpl. by rewrite E, Z.eqb_refl.
  - apply (runs_step _ _ _ (next n)).
    + unfold find_step. rewrite (proj2 (Z.eqb_neq y 0)), (get_task_ok _ _ _ Hn) by done. rsimpl.
      rewrite (proj2 (Z.eqb_neq _ _)); [done|]. intros E. apply (Hl y); [set_solver|]. by exists n.
    + apply IH; [done..|]. intros z Hz. apply Hl. set_solver.
Qed.

Lemma find_none_runs k pid : forall l a, chain next (tasks k) a l -> (forall y, y ∈ l -> ~ has_pid k pid y) ->
  runs (find_step pid k) (List.length l) a (Ok 0).
Proof.
  induction l as [|y l IH]; intros a Hc Hl.
  - simpl in Hc. subst a. by constructor.
  - destruct Hc as (-> & H0 & n & Hn & Hc). apply (runs_step _ _ _ (next n)).
    + unfold find_step. rewrite (proj2 (Z.eqb_neq y 0)), (get_task_ok _ _ _ Hn) by done. rsimpl.
      rewrite (proj2 (Z.eqb_neq _ _)); [done|]. intros E. apply (Hl y); [set_solver|]. by exists n.
    + apply IH; [done|]. intros z Hz. apply Hl. set_solver.
Qed.

Lemma find_task_spec k q pid : queue_ok k q ->
  (exists x, find_task pid k = Ok x /\ x ∈ q /\ x <> 0 /\ has_pid k pid x) \/
  (find_task pid k = Ok 0 /\ forall x, x ∈ q -> ~ has_pid k pid x).
Proof.
  intros Hq. pose proof (qo_length _ _ Hq) as Hlen. pose proof (qo_chain _ _ Hq) as Hc.
  destruct (pid_split k pid q) as [(l1 & x & l2 & -> & Hx & Hl)|Hn]; [left|right].
  - exists x. split; [|split; [set_solver|]].
    + apply (while_runs _ _ _ _ (find_runs k pid x l2 l1 _ Hc Hx Hl)). rewrite length_app in Hlen. simpl in Hlen. lia.
    + split; [|done]. assert (0 < x < 2 ^ 32); [|lia]. apply (qo_addr _ _ Hq). set_solver.
  - split; [|done]. apply (while_runs _ _ _ _ (find_none_runs k pid q _ Hc Hn)). lia.
Qed.

(** ** Sending *)

(** The signal will not be seen: it is ignored, explicitly or by default. *)
Definition discards (t : task) (n : Z) : bool :=
  match signal_handlers t !! Z.to_nat n with
  | Some h => (h =? SIGNAL_IGNORE) || ((h =? SIGNAL_DEFAULT) && signal_default_is_ignore n)
  | None => false
  end.
Definition signal_bit (n : Z) : Z := u32 (Z.shiftl 1 n).
Definition wake (t : task) : task := if decide (state t = TASK_WAITING_INPUT) then set_state TASK_RUNNABLE t else t.
(** A task after the signal was sent to it. *)
Definition signalled (n : Z) (t : task) : task :=
  wake (if discards t n then t else set_pending (Z.lor (pending_signals t) (signal_bit n)) t).

Definition reachable_target (t : task) : bool :=
  negb (id t =? 0) && negb (is_user_process t =? 0) && negb (bool_decide (state t = TASK_ZOMBIE)).

Lemma update_task_ok k x f t : tasks k !! x = Some t -> update_task x f k = with_tasks k (<[x := f t]> (tasks k)).
Proof.
  intros Ht. unfold update_task. f_equal. apply map_eq. intros y. destruct (decide (x = y)) as [<-|].
  - by rewrite lookup_alter_eq, lookup_insert_eq, Ht.
  - by rewrite lookup_alter_ne, lookup_insert_ne.
Qed.

Lemma same_task_signalled n t : same_task t (signalled n t).
Proof. unfold signalled, wake. destruct (discards t n); case_decide; by split. Qed.

Lemma signalled_state n t : state (signalled n t) = match state t with TASK_ZOMBIE => TASK_ZOMBIE | _ => TASK_RUNNABLE end.
Proof. unfold signalled, wake. destruct (discards t n); case_decide as H; simpl in *; destruct (state t); done. Qed.

Lemma signal_target_spec k q x t n : process_ok k q -> tasks k !! x = Some t -> find_task (id t) k = Ok x ->
  task_signal_send (id t) n k =
    if negb (reachable_target t) then Ok (-1, k) else if n =? 0 then Ok (0, k)
    else if negb (signal_number_is_valid n) then Ok (-1, k)
    else Ok (0, with_tasks k (<[x := signalled n t]> (tasks k))).
Proof.
  intros Hk Ht Hf. pose proof (po_tasks _ _ Hk x t Ht) as Htk.
  assert (x <> 0) as H0.
  { assert (0 < x < 2 ^ 32); [|lia]. apply (qo_addr _ _ (po_queue _ _ Hk)), (po_dom _ _ Hk). eauto. }
  unfold task_signal_send. rewrite Hf. rsimpl. rewrite (proj2 (Z.eqb_neq x 0)) by done.
  rewrite (get_task_ok _ _ _ Ht). rsimpl. unfold reachable_target.
  destruct (id t =? 0), (is_user_process t =? 0), (bool_decide (state t = TASK_ZOMBIE)); simpl; try done.
  destruct (Z.eqb_spec n 0); [done|]. destruct (signal_number_is_valid n) eqn:Hv; simpl; [|done].
  unfold signal_number_is_valid, SIGNAL_COUNT in Hv. apply andb_true_iff in Hv as [Hv1%Z.ltb_lt Hv2%Z.ltb_lt].
  destruct (lookup_lt_is_Some_2 (signal_handlers t) (Z.to_nat n)) as [h Hh]; [rewrite (to_handlers _ _ _ Htk); lia|].
  unfold handler_of. rewrite Hh. rsimpl. unfold signalled, discards. rewrite Hh.
  set (cond := negb (h =? SIGNAL_IGNORE) && _).
  assert ((h =? SIGNAL_IGNORE) || (h =? SIGNAL_DEFAULT) && signal_default_is_ignore n = negb cond) as ->.
  { unfold cond. by destruct (h =? SIGNAL_IGNORE), (h =? SIGNAL_DEFAULT), (signal_default_is_ignore n). }
  unfold wake. destruct cond; simpl.
  - rewrite (update_task_ok k x _ t) by done. case_decide; [|done].
    erewrite (update_task_ok (with_tasks _ _)) by apply lookup_insert_eq. simpl. by rewrite insert_insert_eq.
  - case_decide; [by rewrite (update_task_ok k x _ t)|]. by rewrite insert_id; [destruct k|].
Qed.

Lemma quiet_insert k x t t' : tasks k !! x = Some t -> same_task t t' ->
  (state t = TASK_RUNNABLE -> state t' = TASK_RUNNABLE) -> quiet k (with_tasks k (<[x := t']> (tasks k))).
Proof.
  intros Ht Hs Hr. rewrite <- (update_task_ok k x (fun _ => t') t Ht). apply quiet_update.
  - intros u Hu. by assert (u = t) as -> by congruence.
  - intros _ u Hu. by assert (u = t) as -> by congruence.
Qed.

Lemma pid_found k q x t : process_ok k q -> tasks k !! x = Some t -> find_task (id t) k = Ok x.
Proof.
  intros Hk Ht. destruct (find_task_spec k q (id t) (po_queue _ _ Hk)) as [(y & -> & _ & _ & u & Hu & E)|[_ Hn]].
  - f_equal. by eapply (po_pids _ _ Hk).
  - exfalso. apply (Hn x); [apply (po_dom _ _ Hk); eauto|]. by exists t.
Qed.

(** Whatever is sent to whomever, sending succeeds and is quiet. *)
Lemma signal_send_cases k q pid n : process_ok k q -> exists r k', task_signal_send pid n k = Ok (r, k') /\
  quiet k k' /\ kfs k' = kfs k /\ (k' = k \/ exists x t, tasks k !! x = Some t /\ id t = pid /\ reachable_target t = true /\
    k' = with_tasks k (<[x := signalled n t]> (tasks k))).
Proof.
  intros Hk. destruct (find_task_spec k q pid (po_queue _ _ Hk)) as [(x & Hf & _ & _ & t & Ht & <-)|[Hf _]].
  - rewrite (signal_target_spec k q x t n Hk Ht Hf). pose proof (quiet_refl k).
    destruct (reachable_target t) eqn:Hr; simpl; [|eauto 10]. destruct (n =? 0); [eauto 10|].
    destruct (signal_number_is_valid n); simpl; [|eauto 10]. eexists _, _. split; [done|]. split; [|eauto 10].
    apply (quiet_insert k x t); [done|apply same_task_signalled|]. rewrite signalled_state. by intros ->.
  - unfold task_signal_send. rewrite Hf. rsimpl. simpl. pose proof (quiet_refl k). eauto 10.
Qed.
End send.

(** ** Exit *)
Section exit.
Context {K S Cb : Type} `{!Kmalloc K} `{!KmallocLaws K} `{!HasMemory S} `{!FsDriver S Cb}.
Implicit Types k : kernel page_bytes K S.

(** The record of a process that has exited. *)
Definition zombie (status : Z) (t : task) : task :=
  set_state TASK_ZOMBIE (set_exit_status status (set_descriptors (replicate MAX_FILE_DESCRIPTORS free_descriptor) t)).

Lemma same_task_zombie status t : List.length (descriptors t) = MAX_FILE_DESCRIPTORS -> same_task t (zombie status t).
Proof. intros E. by split. Qed.

(** The store after the exit of [t] at [x], before the switch. *)
Definition exit_store (x : Z) (t : task) (status : Z) k : gmap Z task :=
  let ts := <[x := zombie status t]> (tasks k) in
  if 0 <? parent_id t then
    match find_task (parent_id t) k with
    | Ok p => match ts !! p with
              | Some u => if reachable_target u then <[p := signalled SIGNAL_CHLD u]> ts else ts
              | None => ts
              end
    | _ => ts
    end
  else ts.

(** What an exit leaves behind. *)
Record exited k k' (q : list Z) (t : task) (status : Z) (cpu : Z * Z * Z) (f : S) : Prop := {
  ex_tasks : tasks k' = alter (set_context cpu.1.1 cpu.1.2 cpu.2) (current_task k) (exit_store (current_task k) t status k);
  ex_next : current_task k' <> current_task k /\ runnable (tasks k') (current_task k');
  ex_mm : kmm k' = switch_page_directory (current_directory (kmm k')) (kmm k);
  ex_rest : kfs k' = f /\ ready_queue k' = ready_queue k /\ next_pid k' = next_pid k /\ saved_frames k' = saved_frames k;
  ex_ok : process_ok k' q
}.

Lemma switch_tasks k q e sp b : process_ok k q -> q <> [current_task k] ->
  exists k', switch_task e sp b k = Ok k' /\ process_ok k' q /\ runnable (tasks k) (current_task k') /\
    tasks k' = alter (set_context e sp b) (current_task k) (tasks k) /\ ready_queue k' = ready_queue k /\
    next_pid k' = next_pid k /\ kfs k' = kfs k /\ saved_frames k' = saved_frames k /\
    kmm k' = switch_page_directory (current_directory (kmm k')) (kmm k).
Proof.
  intros Hk Hne. destruct (cyclic_exists q _ (qo_current _ _ (po_queue _ _ Hk))) as [r Hr].
  destruct (switch_task_spec k q r e sp b (po_queue _ _ Hk) Hr) as (s & c & t & k' & E & Hc & Hs & Hrun & Hcase & Hq' & Hrr).
  destruct Hcase as [(? & _)|Hsw]; [done|]. pose proof Hsw as [E1 E2 E3 (u & Hu & E4 & E5) (E6 & E7 & E8)].
  exists k'. split_and!; try done.
  - by eapply switched_process_ok.
  - by rewrite E2.
  - by rewrite E4.
Qed.

Lemma exit_store_other k q t status x : process_ok k q -> tasks k !! current_task k = Some t -> x <> current_task k ->
  exit_store (current_task k) t status k !! x = tasks k !! x \/
  exists u, tasks k !! x = Some u /\ id u = parent_id t /\ reachable_target u = true /\
    exit_store (current_task k) t status k !! x = Some (signalled SIGNAL_CHLD u).
Proof.
  intros Hk Ht Hne. unfold exit_store. destruct (0 <? parent_id t); [|left; by rewrite lookup_insert_ne].
  destruct (find_task_spec k q (parent_id t) (po_queue _ _ Hk)) as [(p & -> & _ & _ & u0 & Hu0 & E0)|[-> Hno]].
  - destruct (decide (p = x)) as [->|Hpx].
    + rewrite lookup_insert_ne by done. rewrite Hu0. destruct (reachable_target u0) eqn:Hr.
      * right. exists u0. by rewrite lookup_insert_eq.
      * left. by rewrite lookup_insert_ne.
    + left. destruct (<[current_task k:=zombie status t]> (tasks k) !! p) as [u|]; [destruct (reachable_target u)|]; by rewrite !lookup_insert_ne.
  - left. destruct (<[current_task k:=zombie status t]> (tasks k) !! 0) as [u|] eqn:E; [|by rewrite lookup_insert_ne].
    exfalso. assert (0 < 0 < 2 ^ 32); [|lia]. apply (qo_addr _ _ (po_queue _ _ Hk)), (po_dom _ _ Hk).
    destruct (decide (current_task k = 0)) as [<-|]; [eauto|]. rewrite lookup_insert_ne in E by done. eauto.
Qed.

Lemma exit_store_self t status k x : exit_store x t status k !! x = Some (zombie status t).
Proof.
  unfold exit_store. destruct (0 <? parent_id t); [|apply lookup_insert_eq].
  destruct (find_task (parent_id t) k) as [p| |]; [|apply lookup_insert_eq..]. destruct (decide (p = x)) as [->|Hne].
  - rewrite lookup_insert_eq. unfold reachable_target. simpl. rewrite andb_false_r. apply lookup_insert_eq.
  - destruct (<[x:=zombie status t]> (tasks k) !! p) as [u|]; [destruct (reachable_target u)|];
      rewrite ?(lookup_insert_ne _ p x) by done; apply lookup_insert_eq.
Qed.

(** The parent, wherever it is, gets its SIGCHLD. *)
Lemma notify_parent k q t status f : process_ok k q -> tasks k !! current_task k = Some t ->
  let k2 := with_tasks (with_fs k f) (<[current_task k := zombie status t]> (tasks k)) in
  process_ok k2 q ->
  (if 0 <? parent_id t then '(_, k3) ← task_signal_send (parent_id t) SIGNAL_CHLD k2; Ok k3 else Ok k2)
  = Ok (with_tasks k2 (exit_store (current_task k) t status k)).
Proof.
  intros Hk Ht k2 Hk2. unfold exit_store. destruct (Z.ltb_spec 0 (parent_id t)) as [Hpar|]; [|done].
  assert (forall p u, tasks k !! p = Some u -> exists u', tasks k2 !! p = Some u' /\ id u' = id u) as Hto.
  { intros p u Hu. simpl. destruct (decide (current_task k = p)) as [<-|].
    - rewrite lookup_insert_eq. eexists. split; [done|]. simpl. congruence.
    - rewrite lookup_insert_ne by done. eauto. }
  destruct (find_task_spec k q (parent_id t) (po_queue _ _ Hk)) as [(p & -> & _ & _ & u & Hu & E)|[-> Hno]].
  - destruct (Hto p u Hu) as (u' & Hu' & E'). rewrite <- E, <- E'.
    rewrite (signal_target_spec k2 q p u' SIGNAL_CHLD Hk2 Hu' (pid_found _ _ _ _ Hk2 Hu')).
    simpl in Hu'. rewrite Hu'. destruct (reachable_target u'); rsimpl; done.
  - assert (find_task (parent_id t) k2 = Ok 0) as E.
    { destruct (find_task_spec k2 q (parent_id t) (po_queue _ _ Hk2)) as [(p & _ & Hp & _ & u' & Hu' & E')|[-> _]]; [|done].
      destruct (Hno p Hp). destruct (proj2 (po_dom _ _ Hk p) Hp) as [u Hu]. exists u. split; [done|].
      destruct (Hto p u Hu) as (u2 & H2 & E2). congruence. }
    unfold task_signal_send. rewrite E. rsimpl. simpl.
    destruct (<[current_task k:=zombie status t]> (tasks k) !! 0) as [u|] eqn:E0; [|done]. exfalso.
    assert (0 < 0 < 2 ^ 32); [|lia]. apply (qo_addr _ _ (po_queue _ _ Hk2)), (po_dom _ _ Hk2). eauto.
Qed.

Lemma zombified_process_ok k q t status f : process_ok k q -> tasks k !! current_task k = Some t -> is_user_process t <> 0 ->
  process_ok (with_tasks (with_fs k f) (<[current_task k := zombie status t]> (tasks k))) q.
Proof.
  intros Hk Ht Hu. pose proof (po_tasks _ _ Hk _ _ Ht) as Htk.
  eapply quiet_process_ok; [exact Hk|]. eapply quiet_trans; [apply quiet_fs|].
  change (with_tasks (with_fs k f) (<[current_task k:=zombie status t]> (tasks k)))
    with (with_tasks (with_fs k f) (<[current_task k:=zombie status t]> (tasks (with_fs k f)))).
  rewrite <- (update_task_ok (with_fs k f) (current_task k) (fun _ => zombie status t) t Ht). apply quiet_update.
  - intros u Hu'. simpl in Hu'. assert (u = t) as -> by congruence. apply same_task_zombie, Htk.
  - intros E. simpl in E. destruct Hu. by apply (to_user _ _ _ Htk).
Qed.

Lemma exit_store_quiet k q t status : process_ok k q -> tasks k !! current_task k = Some t -> is_user_process t <> 0 ->
  quiet k (with_tasks k (exit_store (current_task k) t status k)).
Proof.
  intros Hk Ht Hu. pose proof (po_tasks _ _ Hk _ _ Ht) as Htk. pose proof (exit_store_self t status k (current_task k)) as Hself.
  assert (current_task k <> ready_queue k) as Hne by (intros E; destruct Hu; by apply (to_user _ _ _ Htk)).
  split; try done; simpl.
  - intros x. destruct (decide (x = current_task k)) as [->|Hx]; [rewrite Hself, Ht; split; eauto|].
    destruct (exit_store_other k q t status x Hk Ht Hx) as [->|(u & -> & _ & _ & ->)]; [done|split; eauto].
  - intros x t' Hx'. destruct (decide (x = current_task k)) as [->|Hx].
    + assert (t' = zombie status t) as -> by congruence. exists t. split; [done|]. apply same_task_zombie, Htk.
    + destruct (exit_store_other k q t status x Hk Ht Hx) as [E|(u & Hu' & _ & _ & E)].
      * exists t'. split; [congruence|]. apply same_task_refl.
      * exists u. split; [done|]. assert (t' = signalled SIGNAL_CHLD u) as -> by congruence. apply same_task_signalled.
  - intros (u & Hu' & Hr). unfold runnable.
    destruct (exit_store_other k q t status (ready_queue k) Hk Ht) as [->|(u' & H1 & _ & _ & ->)]; [congruence|eauto|].
    eexists. split; [done|]. rewrite signalled_state. assert (u' = u) as -> by congruence. by rewrite Hr.
Qed.

Lemma exit_spec k q t status cpu f : process_ok k q -> tasks k !! current_task k = Some t -> is_user_process t <> 0 ->
  notify_close (descriptors t) (kfs k) = Ok f ->
  exists k', task_exit status cpu k = Ok k' /\ exited k k' q t status cpu f.
Proof.
  intros Hk Ht Hu Hf. pose proof (po_tasks _ _ Hk _ _ Ht) as Htk. destruct (current_task_ok k q Hk) as (t' & Ht' & H0).
  assert (current_task k <> ready_queue k) as Hne by (intros E; destruct Hu; by apply (to_user _ _ _ Htk)).
  assert (id t <> 0) as Hid by (intros E; destruct Hne; by apply (to_idle _ _ _ Htk)).
  unfold task_exit. rewrite (proj2 (Z.eqb_neq _ 0)) by done. assert_step. rewrite (get_task_ok _ _ _ Ht). rsimpl.
  rewrite (proj2 (Z.eqb_neq (id t) 0)), (proj2 (Z.eqb_neq (is_user_process t) 0)) by done. assert_step. rewrite Hf. rsimpl.
  rewrite (update_task_ok (with_fs k f) _ _ t Ht). fold (zombie status t). simpl tasks.
  set (k2 := with_tasks (with_fs k f) _). pose proof (zombified_process_ok k q t status f Hk Ht Hu) as Hk2.
  pose proof (notify_parent k q t status f Hk Ht Hk2) as Hn. cbv zeta in Hn. fold k2 in Hn, Hk2. rewrite Hn. rsimpl. set (k3 := with_tasks k2 _).
  assert (process_ok k3 q) as Hk3.
  { pose proof (exit_store_quiet k q t status Hk Ht Hu) as Hqt.
    apply (quiet_process_ok k k3 q Hk). eapply quiet_trans; [exact Hqt|].
    exact (quiet_fs (with_tasks k (exit_store (current_task k) t status k)) f). }
  destruct cpu as [[e sp] b].
  destruct (switch_tasks k3 q e sp b Hk3) as (k' & -> & Hk' & Hrun & E1 & E2 & E3 & E4 & E5 & E6).
  { intros E. destruct (queue_head _ _ (po_queue _ _ Hk)) as (q' & Eq & _). simpl in E. congruence. }
  rsimpl. assert (current_task k' <> current_task k) as Hcur.
  { intros E. destruct Hrun as (u & Hu' & Hs). rewrite E in Hu'. simpl in Hu'. rewrite exit_store_self in Hu'.
    injection Hu' as <-. done. }
  rewrite (proj2 (Z.eqb_neq _ _)) by done. eexists. split; [done|]. split; try done.
  split; [done|]. destruct (proj2 (po_dom _ _ Hk' (current_task k'))) as [u' Hu']; [apply Hk'|].
  destruct Hrun as (u & Hlu & Hs). exists u. split; [|done]. rewrite E1. by rewrite lookup_alter_ne.
Qed.
(** An exit that returns has closed the descriptors. *)
Lemma exit_closed k t status cpu k' : tasks k !! current_task k = Some t -> current_task k <> 0 ->
  task_exit status cpu k = Ok k' -> is_user_process t <> 0 /\ exists f, notify_close (descriptors t) (kfs k) = Ok f.
Proof.
  intros Ht H0 Hrun. unfold task_exit in Hrun. rewrite (proj2 (Z.eqb_neq _ 0)) in Hrun by done. revert Hrun. assert_step.
  rewrite (get_task_ok _ _ _ Ht). rsimpl. destruct (Z.eqb_spec (is_user_process t) 0) as [|Hu].
  - rewrite andb_false_r. done.
  - destruct (negb (id t =? 0)); [|done]. cbn [andb negb]. assert_step. intros (f & Hf & _)%bind_Ok_inv. eauto.
Qed.
End exit.
