(* ===== verification/Reap.v ===== *)
(** * task_waitpid

    The search of the ready queue for a child, and reaping a zombie: its
    record leaves the queue and its address space, kernel stack and record
    go back to the allocators. *)

From S2P Require Import Prelude LinkedList Memory Kmalloc Frames Paging PagingProofs Vfs Task AddressSpace Scheduler UserSpace UserMemory Signal Process ProcessInv ProcessOps Exit.

(** Unlinking [x], which follows [p]. *)
Lemma chain_unlink m l1 p x l2 c tx : chain next m c (l1 ++ p :: x :: l2) -> m !! x = Some tx ->
  chain next (delete x (alter (set_next (next tx)) p m)) c (l1 ++ p :: l2).
Proof.
  intros Hc Hx. pose proof (chain_NoDup _ _ _ _ Hc) as Hnd.
  assert (forall l c', chain next m c' (l ++ p :: x :: l2) -> NoDup (l ++ p :: x :: l2) ->
    chain next (alter (set_next (next tx)) p m) c' (l ++ p :: l2)) as H.
  { intros l. induction l as [|y l IH]; intros c' (-> & H0 & n & Hn & Hch) Hd; apply NoDup_cons in Hd as [Hny Hd].
    - split; [done|]. split; [done|]. exists (set_next (next tx) n). rewrite lookup_alter_eq, Hn. split; [done|]. simpl.
      destruct Hch as (_ & _ & nx & Hnx & Hch). assert (nx = tx) as -> by congruence.
      eapply chain_keep; [|exact Hch]. intros z nz Hz Hmz. exists nz. rewrite lookup_alter_ne; [done|].
      intros ->. apply Hny. set_solver.
    - split; [done|]. split; [done|]. exists n. rewrite lookup_alter_ne; [|intros ->; apply Hny; set_solver].
      split; [done|]. by apply IH. }
  eapply chain_keep; [|by apply H]. intros y n Hy Hn. exists n. rewrite lookup_delete_ne; [done|]. intros ->.
  apply NoDup_app in Hnd as (_ & Hd1 & Hd2). apply NoDup_cons in Hd2 as [Hpx Hd2]. apply NoDup_cons in Hd2 as [Hxl _].
  apply elem_of_app in Hy as [Hy|[->|Hy]%elem_of_cons]; [apply (Hd1 y Hy)|apply Hpx|done]; set_solver.
Qed.

Section reap.
Context {K S : Type} `{!Kmalloc K} `{!KmallocLaws K} `{!HasMemory S}.
Implicit Types k : kernel page_bytes K S.

(** ** Searching *)

Lemma waitpid_runs k pid x l2 : forall l1 prev a, chain next (tasks k) a (l1 ++ x :: l2) -> has_pid k pid x ->
  (forall y, y ∈ l1 -> ~ has_pid k pid y) ->
  runs (waitpid_step pid k) (List.length l1) (prev, a) (Ok (List.last l1 prev, x)).
Proof.
  induction l1 as [|y l1 IH]; intros prev a (-> & H0 & n & Hn & Hc) Hpid Hl.
  - constructor. destruct Hpid as (t & Ht & E). assert (n = t) as -> by congruence. unfold waitpid_step.
    rewrite (proj2 (Z.eqb_neq x 0)), (get_task_ok _ _ _ Hn) by done. rsimpl. by rewrite E, Z.eqb_refl.
  - apply (runs_step _ _ _ (y, next n)).
    + unfold waitpid_step. rewrite (proj2 (Z.eqb_neq y 0)), (get_task_ok _ _ _ Hn) by done. rsimpl.
      rewrite (proj2 (Z.eqb_neq _ _)); [done|]. intros E. apply (Hl y); [set_solver|]. by exists n.
    + replace (List.last (y :: l1) prev) with (List.last l1 y).
      * apply IH; [done..|]. intros z Hz. apply Hl. set_solver.
      * clear. revert y. induction l1 as [|z l1 IH]; intros y; [done|]. simpl in *. destruct l1; [done|]. apply (IH y).
Qed.

Lemma waitpid_none_runs k pid : forall l prev a, chain next (tasks k) a l -> (forall y, y ∈ l -> ~ has_pid k pid y) ->
  exists p, runs (waitpid_step pid k) (List.length l) (prev, a) (Ok (p, 0)).
Proof.
  induction l as [|y l IH]; intros prev a Hc Hl.
  - simpl in Hc. subst a. exists prev. by constructor.
  - destruct Hc as (-> & H0 & n & Hn & Hc). destruct (IH y (next n) Hc) as [p Hp].
    { intros z Hz. apply Hl. set_solver. }
    exists p. apply (runs_step _ _ _ (y, next n)); [|done].
    unfold waitpid_step. rewrite (proj2 (Z.eqb_neq y 0)), (get_task_ok _ _ _ Hn) by done. rsimpl.
    rewrite (proj2 (Z.eqb_neq _ _)); [done|]. intros E. apply (Hl y); [set_solver|]. by exists n.
Qed.

Lemma waitpid_search k q pid : queue_ok k q ->
  (exists l1 x l2, q = l1 ++ x :: l2 /\ has_pid k pid x /\ while (waitpid_step pid k) (0, ready_queue k) = Ok (List.last l1 0, x)) \/
  ((forall x, x ∈ q -> ~ has_pid k pid x) /\ exists p, while (waitpid_step pid k) (0, ready_queue k) = Ok (p, 0)).
Proof.
  intros Hq. pose proof (qo_length _ _ Hq) as Hlen. pose proof (qo_chain _ _ Hq) as Hc.
  destruct (pid_split k pid q) as [(l1 & x & l2 & -> & Hx & Hl)|Hn]; [left|right].
  - exists l1, x, l2. split_and!; [done|done|].
    apply (while_runs _ _ _ _ (waitpid_runs k pid x l2 l1 0 _ Hc Hx Hl)). rewrite length_app in Hlen. simpl in Hlen. lia.
  - split; [done|]. destruct (waitpid_none_runs k pid q 0 _ Hc Hn) as [p Hp]. exists p.
    apply (while_runs _ _ _ _ Hp). lia.
Qed.

(** ** Freeing the child's memory *)

Record reaped_mm (m m' : mm page_bytes K) (dir stack x : Z) : Prop := {
  rp_vm : vm_ok m';
  rp_nframes : nframes (bits m') = nframes (bits m);
  rp_used g : 0 <= g -> used (bits m') g = true <-> used (bits m) g = true /\ ~ owned m dir g;
  rp_contents : contents_of m' = contents_of m;
  rp_directories : directories m' = delete dir (directories m);
  rp_pte d v : d <> dir -> pte m' d v = pte m d v;
  rp_kernel : kernel_directory m' = kernel_directory m;
  rp_current : current_directory m' = current_directory m;
  rp_blocks b : b ∈ k_live (kstate m') <-> b ∈ k_live (kstate m) /\ b <> dir /\ b <> stack /\ b <> x /\
    forall i ps, ~ private m dir i b ps;
  rp_tables t ps : page_tables m' !! t = Some ps -> page_tables m !! t = Some ps
}.

Lemma plain_not_private m x dir i ps : plain_in m x -> ~ private m dir i x ps.
Proof. intros (_ & Hx & _) (? & ? & _ & _ & _ & _ & _ & ?). congruence. Qed.

Lemma reap_memory m dir stack x : vm_ok m -> is_Some (directories m !! dir) -> dir <> kernel_directory m ->
  dir <> current_directory m -> plain_in m stack -> plain_in m x -> stack <> x ->
  (exists m1 ks1 ks2, destroy_directory dir m = Ok m1 /\ kfree stack (kstate m1) = Ok ks1 /\ kfree x ks1 = Ok ks2 /\
    reaped_mm m (Paging.with_kstate m1 ks2) dir stack x) \/
  forall A (f : mm page_bytes K -> K -> res A),
    free_failed (m1 ← destroy_directory dir m; ks1 ← kfree stack (kstate m1); ks2 ← kfree x ks1; f m1 ks2).
Proof.
  intros Hvm Hd Hnk Hnc Hs Hx Hne.
  destruct (destroy_directory_spec m dir Hvm Hd Hnk Hnc) as [(m1 & Hrun & Hde)|Hf]; [|right; intros; by apply free_failed_bind].
  assert (forall b, plain_in m b -> plain_in m1 b) as Hplain.
  { intros b Hb. pose proof Hb as (H1 & H2 & H3). split_and!.
    - apply (de_blocks _ _ _ Hde). split_and!; [done|intros ->; destruct Hd; congruence|intros i ps; by apply plain_not_private].
    - destruct (page_tables m1 !! b) eqn:E; [|done]. apply (de_tables _ _ _ Hde) in E. congruence.
    - rewrite (de_directories _ _ _ Hde). apply lookup_delete_None. by right. }
  destruct (Hplain _ Hs) as (S1 & S2 & S3), (Hplain _ Hx) as (X1 & X2 & X3).
  destruct (kfree_cases stack (kstate m1) S1) as [(ks1 & Hk1 & Hl1)|Hf].
  2: { right. intros. rewrite Hrun. rsimpl. by apply free_failed_bind. }
  destruct (kfree_cases x ks1) as [(ks2 & Hk2 & Hl2)|Hf].
  { rewrite Hl1, elem_of_difference, not_elem_of_singleton. split; [done|congruence]. }
  2: { right. intros. rewrite Hrun. rsimpl. rewrite Hk1. rsimpl. by apply free_failed_bind. }
  left. exists m1, ks1, ks2. split_and!; try done. pose proof Hde as [? ? ? ? ? ? ? ? Hb ?]. split; try done.
  - apply (vm_ok_free (Paging.with_kstate m1 ks1) x ks2); try done. by apply (vm_ok_free m1 stack ks1).
  - intros b. simpl. rewrite Hl2, Hl1, !elem_of_difference, !not_elem_of_singleton, Hb. tauto.
Qed.

Lemma reaped_plain m m' dir stack x b : reaped_mm m m' dir stack x -> is_Some (directories m !! dir) ->
  plain_in m b -> b <> stack -> b <> x -> plain_in m' b.
Proof.
  intros Hr Hd Hb Hs Hx. pose proof Hb as (H1 & H2 & H3). split_and!.
  - apply (rp_blocks _ _ _ _ _ Hr). split_and!; try done; [intros ->; destruct Hd; congruence|].
    intros i ps. by apply plain_not_private.
  - destruct (page_tables m' !! b) eqn:E; [|done]. apply (rp_tables _ _ _ _ _ Hr) in E. congruence.
  - rewrite (rp_directories _ _ _ _ _ Hr). apply lookup_delete_None. by right.
Qed.

Lemma reap_queue_ok k l1 p x l2 tx m' : queue_ok k (l1 ++ p :: x :: l2) -> tasks k !! x = Some tx -> current_task k <> x ->
  queue_ok (with_tasks (with_mm k m') (delete x (alter (set_next (next tx)) p (tasks k)))) (l1 ++ p :: l2).
Proof.
  intros Hq Hx Hcur. pose proof Hq as [Hc Hin (i & Hi & Hri) Ha].
  assert (ready_queue k <> x) as Hrx.
  { pose proof (chain_NoDup _ _ _ _ Hc) as Hnd. destruct (queue_head _ _ Hq) as (q' & E & _). intros E2. rewrite E2 in E.
    apply NoDup_app in Hnd as (_ & Hd1 & Hd2). destruct l1 as [|y l1]; simpl in E; injection E as E3 E4.
    - apply NoDup_cons in Hd2 as [Hd2 _]. apply Hd2. rewrite E3. set_solver.
    - apply (Hd1 x); [rewrite E3|]; set_solver. }
  split; simpl.
  - by apply chain_unlink.
  - set_unfold in Hin. destruct Hin as [Hin|[Hin|[Hin|Hin]]]; [set_solver..|congruence|set_solver].
  - destruct (decide (ready_queue k = p)) as [<-|Hp].
    + exists (set_next (next tx) i). rewrite lookup_delete_ne, lookup_alter_eq, Hi by done. done.
    + exists i. by rewrite lookup_delete_ne, lookup_alter_ne.
  - intros y Hy. apply Ha. set_solver.
Qed.

Lemma reap_process_ok k l1 p x l2 tx m' : process_ok k (l1 ++ p :: x :: l2) -> tasks k !! x = Some tx -> current_task k <> x ->
  reaped_mm (kmm k) m' (task_directory tx) (kernel_stack tx) x ->
  process_ok (with_tasks (with_mm k m') (delete x (alter (set_next (next tx)) p (tasks k)))) (l1 ++ p :: l2).
Proof.
  intros Hk Hx Hcur Hr. set (k' := with_tasks _ _). pose proof Hk as [Hq Hvm Hreg Hdom Ht Hd Hs Hp Hc Hn].
  pose proof (chain_NoDup _ _ _ _ (qo_chain _ _ Hq)) as Hnd.
  assert (x <> p /\ (x ∉ l1) /\ (x ∉ l2)) as (Hxp & Hx1 & Hx2).
  { apply NoDup_app in Hnd as (_ & Hd1 & Hd2). apply NoDup_cons in Hd2 as [Hpx Hd2]. apply NoDup_cons in Hd2 as [Hxl _].
    split_and!; [intros ->; set_solver|intros Hin; apply (Hd1 x Hin); set_solver|done]. }
  assert (forall y t', tasks k' !! y = Some t' -> y <> x /\ exists t, tasks k !! y = Some t /\ (t' = t \/ t' = set_next (next tx) t)) as Hcase.
  { intros y t' Hy0. simpl in Hy0. apply lookup_delete_Some in Hy0 as [Hne [(<- & t & Hy & ->)|[_ Hy]]%lookup_alter_Some]; (split; [done|]); eauto. }
  destruct (vm_kernel _ Hvm) as [kd Hkd].
  assert (task_directory tx <> kernel_directory (kmm k)) as Hown by apply (Ht x tx Hx).
  split; try done.
  - by apply reap_queue_ok.
  - apply Hr.
  - apply (user_region_keep (kmm k) m'); [apply Hr| |exact Hreg]. rewrite (rp_directories _ _ _ _ _ Hr). by rewrite lookup_delete_ne.
  - intros y. simpl. rewrite lookup_delete_is_Some, lookup_alter_is_Some, Hdom. set_solver.
  - intros y t' Hy. destruct (Hcase y t' Hy) as (Hyx & t & Hyt & Hor). pose proof (Ht y t Hyt) as [T1 T2 T3 [T4 T4'] T5 T6 T7 T8 T9 T10].
    assert (task_directory t <> task_directory tx) as Hdir by (intros E; apply Hyx; by eapply Hd).
    assert (kernel_stack t <> kernel_stack tx) as Hst by (intros E; apply Hyx; by eapply Hs).
    assert (task_ok k' y t) as Hok.
    { split; try done.
      - change (is_Some (directories m' !! task_directory t)). by rewrite (rp_directories _ _ _ _ _ Hr), lookup_delete_ne.
      - change (task_directory t <> kernel_directory m'). by rewrite (rp_kernel _ _ _ _ _ Hr).
      - eapply (reaped_plain (kmm k)); [exact Hr|apply (Ht x tx Hx)|done| |done]. intros ->. destruct (to_stack _ _ _ (Ht x tx Hx)). congruence.
      - split.
        + eapply (reaped_plain (kmm k)); [exact Hr|apply (Ht x tx Hx)|done|done|]. intros E. congruence.
        + simpl. apply lookup_delete_None. right. destruct (decide (p = kernel_stack t)) as [->|].
          * by rewrite lookup_alter_eq, T4'.
          * by rewrite lookup_alter_ne.
      - intros Hu. eapply (heap_ok_pte (kmm k)); [|by apply T10]. intros v _. by apply (rp_pte _ _ _ _ _ Hr). }
    destruct Hor as [-> | ->]; [done|]. destruct Hok as [O1 O2 O3 O4 O5 O6 O7 O8 O9 O10]. split; try done.
    intros Hu. destruct (O10 Hu). by split.
  - intros y z t u Hy Hz. destruct (Hcase y t Hy) as (_ & t0 & Hyt & Hor), (Hcase z u Hz) as (_ & u0 & Hzu & Hor2).
    specialize (Hd y z t0 u0 Hyt Hzu). destruct Hor as [-> | ->], Hor2 as [-> | ->]; exact Hd.
  - intros y z t u Hy Hz. destruct (Hcase y t Hy) as (_ & t0 & Hyt & Hor), (Hcase z u Hz) as (_ & u0 & Hzu & Hor2).
    specialize (Hs y z t0 u0 Hyt Hzu). destruct Hor as [-> | ->], Hor2 as [-> | ->]; exact Hs.
  - intros y z t u Hy Hz. destruct (Hcase y t Hy) as (_ & t0 & Hyt & Hor), (Hcase z u Hz) as (_ & u0 & Hzu & Hor2).
    specialize (Hp y z t0 u0 Hyt Hzu). destruct Hor as [-> | ->], Hor2 as [-> | ->]; exact Hp.
  - intros t Hct. change (current_directory m' = task_directory t). rewrite (rp_current _ _ _ _ _ Hr).
    destruct (Hcase _ t Hct) as (_ & t0 & Ht0 & Hor). simpl in Ht0. rewrite (Hc t0 Ht0). by destruct Hor as [-> | ->].
Qed.

Lemma contents_process_ok k q c : process_ok k q -> process_ok (with_contents k c) q.
Proof.
  intros Hk. eapply remap_process_ok; [done|]. split; try done.
  - by apply vm_ok_contents, Hk.
  - apply Hk.
  - intros x t' Hx. exists t'. split; [done|]. split; [by split|]. intros Hu.
    destruct (to_heap _ _ _ (po_tasks _ _ Hk x t' Hx) Hu). by split.
Qed.
Lemma stored_process_ok k k' q a l : process_ok k q -> stored k k' a l -> process_ok k' q.
Proof. intros Hk [(c & ->) _ _ _]. by apply contents_process_ok. Qed.

(** Where a status may be stored: nowhere, or in the caller's memory. *)
Definition status_place k (status : Z) : Prop := status = 0 \/
  0x400000 <= status /\ status + 4 <= 0xC0000000 /\
  forall b, status <= b < status + 4 -> is_Some (pte (kmm k) (current_directory (kmm k)) (b / 0x1000)).

Definition delivered k k1 (status v : Z) : Prop := status = 0 /\ k1 = k \/ status <> 0 /\ stored k k1 status (le32 v).

(** What reaping the zombie [c] at [x] leaves. *)
Record reaped k k' (q : list Z) (x : Z) (c : task) (status : Z) : Prop := {
  re_mm : exists k1, delivered k k1 status (exit_status c) /\
    reaped_mm (kmm k1) (kmm k') (task_directory c) (kernel_stack c) x;
  re_tasks : exists l1 p l2, q = l1 ++ p :: x :: l2 /\ tasks k' = delete x (alter (set_next (next c)) p (tasks k)) /\
    process_ok k' (l1 ++ p :: l2);
  re_rest : kfs k' = kfs k /\ current_task k' = current_task k /\ ready_queue k' = ready_queue k /\
    next_pid k' = next_pid k /\ saved_frames k' = saved_frames k /\ tss_stack k' = tss_stack k
}.

Lemma status_delivered k q status v : process_ok k q -> status_place k status ->
  exists k1, (if status =? 0 then Ok k else vstore32 status v k) = Ok k1 /\ delivered k k1 status v /\
    exists c, k1 = with_contents k c.
Proof.
  intros Hk [->|(Hlo & Hhi & Hm)].
  - exists k. split; [done|]. split; [by left|]. exists (contents_of (kmm k)). by rewrite with_contents_same.
  - rewrite (proj2 (Z.eqb_neq status 0)) by lia.
    destruct (store_spec k status (le32 v) (po_vm _ _ Hk) (po_region _ _ Hk)) as (k1 & Hk1 & Hs); [done..|].
    exists k1. split; [done|]. split; [right; split; [lia|done]|]. apply Hs.
Qed.

Lemma waitpid_spec k q t pid status : process_ok k q -> tasks k !! current_task k = Some t -> state t = TASK_RUNNABLE ->
  status_place k status ->
  ((pid <= 0 \/ forall x c, tasks k !! x = Some c -> id c = pid -> parent_id c <> id t) /\
     task_waitpid pid status k = Ok (-1, k)) \/
  exists x c, 0 < pid /\ tasks k !! x = Some c /\ id c = pid /\ parent_id c = id t /\
    (state c <> TASK_ZOMBIE /\ task_waitpid pid status k = Ok (0, k) \/
     state c = TASK_ZOMBIE /\ ((exists k', task_waitpid pid status k = Ok (pid, k') /\ reaped k k' q x c status) \/
       free_failed (task_waitpid pid status k))).
Proof.
  intros Hk Ht Hst Hplace. destruct (current_task_ok k q Hk) as (t' & Ht' & H0). unfold task_waitpid.
  rewrite (proj2 (Z.eqb_neq _ 0)) by done. cbn [orb]. destruct (Z.leb_spec pid 0) as [|Hpos]; [left; split; [by left|done]|].
  rewrite (get_task_ok _ _ _ Ht). rsimpl.
  destruct (waitpid_search k q pid (po_queue _ _ Hk)) as [(l1 & x & l2 & Eq & (c & Hx & Hpid) & ->)|[Hno [p ->]]].
  2: { left. split; [right|by rsimpl]. intros x c Hx E _. apply (Hno x); [apply (po_dom _ _ Hk); eauto|]. by exists c. }
  rsimpl. assert (x <> 0) as Hx0.
  { assert (0 < x < 2 ^ 32); [|lia]. apply (qo_addr _ _ (po_queue _ _ Hk)). rewrite Eq. set_solver. }
  rewrite (proj2 (Z.eqb_neq x 0)), (get_task_ok _ _ _ Hx) by done. rsimpl.
  destruct (Z.eqb_spec (parent_id c) (id t)) as [Hpar|Hpar]; simpl.
  2: { left. split; [right|done]. intros y u Hy E. assert (y = x) as -> by (eapply (po_pids _ _ Hk); [done..|congruence]). congruence. }
  right. exists x, c. split_and!; try done. case_bool_decide as Hz; simpl; [right|by left]. split; [done|].
  assert (l1 <> []) as Hl1.
  { intros ->. destruct (queue_head _ _ (po_queue _ _ Hk)) as (q' & E & _). simpl in Eq. assert (x = ready_queue k) as -> by congruence.
    destruct (qo_idle _ _ (po_queue _ _ Hk)) as (i & Hi & Hri). congruence. }
  destruct (exists_last Hl1) as (l0 & p & ->). rewrite List.last_last.
  assert (q = l0 ++ p :: x :: l2) as Eq' by (by rewrite Eq, <- app_assoc).
  assert (current_task k <> x) as Hcx by (intros E; congruence).
  assert (p <> 0) as Hp0.
  { assert (0 < p < 2 ^ 32); [|lia]. apply (qo_addr _ _ (po_queue _ _ Hk)). rewrite Eq'. set_solver. }
  destruct (status_delivered k q status (exit_status c) Hk Hplace) as (k1 & -> & Hdl & cts & ->). rsimpl.
  rewrite (proj2 (Z.eqb_neq p 0)) by done. assert_step.
  set (k1 := with_contents k cts) in *. assert (process_ok k1 q) as Hk1 by (by apply contents_process_ok).
  pose proof (po_tasks _ _ Hk1 x c Hx) as Hc.
  destruct (reap_memory (kmm k1) (task_directory c) (kernel_stack c) x) as [(m1 & ks1 & ks2 & E1 & E2 & E3 & Hr)|Hfail];
    [apply Hk1|apply Hc|apply Hc| |apply Hc|apply Hc| | |].
  { rewrite (po_current _ _ Hk1 t Ht). intros E. apply Hcx. eapply (po_directories _ _ Hk1); [exact Ht|exact Hx|congruence]. }
  { intros E. destruct (to_stack _ _ _ Hc) as [_ Hno]. rewrite E in Hno. change (tasks k !! x = None) in Hno. congruence. }
  2: { right. change (kmm (update_task p (set_next (next c)) k1)) with (kmm k1). apply Hfail. }
  left. change (kmm (update_task p (set_next (next c)) k1)) with (kmm k1). rewrite E1. rsimpl. rewrite E2. rsimpl. rewrite E3. rsimpl.
  eexists. split; [done|]. split; try done.
  - by exists k1.
  - exists l0, p, l2. split; [done|]. split; [done|]. rewrite Eq' in Hk1.
    exact (reap_process_ok k1 l0 p x l2 c (Paging.with_kstate m1 ks2) Hk1 Hx Hcx Hr).
Qed.
End reap.
