(* ===== verification/Delivery.v ===== *)
(** * Pending signals, delivery and return

    The lowest pending signal is taken; a caught one leaves a frame on the
    user stack that [task_signal_return] turns back into the interrupted
    registers. *)

From S2P Require Import Prelude LinkedList Memory Kmalloc Frames Paging PagingProofs Vfs Task AddressSpace Scheduler UserSpace UserMemory Signal Process ProcessInv ProcessOps Exit Reap.

(** ** The pending set *)

Definition pends (pending n : Z) : bool := Z.testbit pending n.

Lemma first_pending_spec fuel : forall i p, 0 <= i -> i + Z.of_nat fuel <= 32 -> let n := first_pending fuel i p in
  (n = 0 /\ forall j, i <= j < i + Z.of_nat fuel -> pends p j = false) \/
  (i <= n < i + Z.of_nat fuel /\ pends p n = true /\ forall j, i <= j < n -> pends p j = false).
Proof.
  induction fuel as [|fuel IH]; intros i p Hi Hb; cbn [first_pending]; [left; split; [done|lia]|].
  rewrite u32_bit, land_pow2 by lia. fold (pends p i). destruct (pends p i) eqn:E; cbn [negb].
  - right. split_and!; [lia|lia|done|lia].
  - destruct (IH (i + 1) p) as [[-> H]|(H1 & H2 & H3)]; [lia|lia|left|right].
    + split; [done|]. intros j Hj. destruct (decide (j = i)) as [->|]; [done|]. apply H. lia.
    + split_and!; [lia|lia|done|]. intros j Hj. destruct (decide (j = i)) as [->|]; [done|]. apply H3. lia.
Qed.

Definition lowest_pending (t : task) : Z := first_pending 31 1 (pending_signals t).
(** [t] without the pending signal [n]. *)
Definition taken (n : Z) (t : task) : task :=
  set_pending (Z.land (pending_signals t) (u32 (Z.lnot (u32 (Z.shiftl 1 n))))) t.

Lemma lowest_pending_spec t : lowest_pending t = 0 /\ (forall j, 1 <= j < 32 -> pends (pending_signals t) j = false) \/
  1 <= lowest_pending t < 32 /\ pends (pending_signals t) (lowest_pending t) = true /\
    forall j, 1 <= j < lowest_pending t -> pends (pending_signals t) j = false.
Proof. apply (first_pending_spec 31 1); lia. Qed.

Lemma take_next_spec t : take_next_pending_signal t = (lowest_pending t, if lowest_pending t =? 0 then t else taken (lowest_pending t) t).
Proof. unfold take_next_pending_signal. fold (lowest_pending t). by destruct (Z.eqb_spec (lowest_pending t) 0) as [->|]. Qed.

Lemma taken_pends n t j : is_u32 (pending_signals t) -> 0 <= n < 32 -> 0 <= j ->
  is_u32 (pending_signals (taken n t)) /\ pends (pending_signals (taken n t)) j = pends (pending_signals t) j && negb (j =? n).
Proof.
  intros Hu Hn Hj. unfold taken, pends. cbn [pending_signals set_pending set_signals].
  rewrite u32_bit by done. rewrite <- Z.shiftl_1_l. destruct (word_clear_bit (pending_signals t) n Hu Hn) as [H1 H2].
  split; [done|]. rewrite H2 by done. case_decide; [|by rewrite (proj2 (Z.eqb_neq j n)), andb_true_r].
  by rewrite (proj2 (Z.eqb_eq j n)), andb_false_r.
Qed.

Lemma signalled_pends n t j : is_u32 (pending_signals t) -> 0 < n < 32 -> 0 <= j ->
  is_u32 (pending_signals (signalled n t)) /\
  pends (pending_signals (signalled n t)) j = pends (pending_signals t) j || ((j =? n) && negb (discards t n)).
Proof.
  intros Hu Hn Hj. unfold signalled.
  assert (pending_signals (wake (if discards t n then t else set_pending (Z.lor (pending_signals t) (signal_bit n)) t)) =
    if discards t n then pending_signals t else Z.lor (pending_signals t) (u32 (Z.shiftl 1 n))) as ->.
  { unfold wake. destruct (discards t n); by case_decide. }
  destruct (discards t n); simpl; [by rewrite andb_false_r, orb_false_r|]. rewrite andb_true_r.
  destruct (word_set_bit (pending_signals t) n Hu ltac:(lia)) as [H1 H2]. split; [done|]. unfold pends.
  rewrite H2 by done. case_decide; [by rewrite (proj2 (Z.eqb_eq j n)), orb_true_r|].
  by rewrite (proj2 (Z.eqb_neq j n)), orb_false_r.
Qed.

(** ** Delivery *)

(** What a process does about a signal. *)
Inductive reaction : Type := Ignored | Fatal | Caught (handler : Z).
Definition reaction_to (t : task) (n : Z) : reaction :=
  match signal_handlers t !! Z.to_nat n with
  | Some h =>
      if (h =? SIGNAL_IGNORE) || ((h =? SIGNAL_DEFAULT) && signal_default_is_ignore n) then Ignored
      else if (h =? SIGNAL_DEFAULT) || (n =? SIGNAL_KILL) then Fatal else Caught h
  | None => Fatal
  end.

(** Is there room for a signal frame below [useresp]? *)
Definition frame_fits (t : task) (useresp : Z) : bool :=
  (STACK_BOTTOM + sizeof_signal_frame <=? useresp) && (useresp <=? USER_STACK_TOP) && negb (signal_trampoline t =? 0).
Definition frame_address (useresp : Z) : Z := Z.land (useresp - sizeof_signal_frame) (u32 (Z.lnot 0xF)).
(** The bytes of a signal frame. *)
Definition frame_bytes (t : task) (n : Z) (r : registers) : list Z :=
  le32 (signal_trampoline t) ++ le32 n ++ le32 SIGNAL_FRAME_MAGIC ++ concat (le32 <$> registers_words r).

Definition deliverable (t : task) (r : registers) : bool :=
  negb (is_user_process t =? 0) && bool_decide (state t = TASK_RUNNABLE) && (signal_active t =? 0) && (Z.land (r_cs r) 3 =? 3).

Lemma frame_address_spec useresp : STACK_BOTTOM + sizeof_signal_frame <= useresp <= USER_STACK_TOP ->
  frame_address useresp mod 16 = 0 /\ STACK_BOTTOM <= frame_address useresp /\
  useresp - sizeof_signal_frame - 16 < frame_address useresp <= useresp - sizeof_signal_frame.
Proof.
  unfold STACK_BOTTOM, USER_STACK_TOP, TASK_STACK_SIZE, sizeof_signal_frame. intros Hu. unfold frame_address.
  rewrite land_16 by (unfold is_u32, sizeof_signal_frame; lia). unfold sizeof_signal_frame. split_and!; Z.div_mod_to_equations; lia.
Qed.

Lemma frame_bytes_length t n r : List.length (frame_bytes t n r) = 76%nat.
Proof. unfold frame_bytes. rewrite !length_app, !le32_length. apply Nat2Z.inj. rewrite !Nat2Z.inj_add, concat_le32_length. done. Qed.
Lemma le32_list_u8 l : u8 <$> concat (le32 <$> l) = concat (le32 <$> l).
Proof. induction l as [|w l IH]; [done|]. cbn [fmap list_fmap concat]. by rewrite fmap_app, le32_u8, IH. Qed.
Lemma frame_bytes_u8 t n r : u8 <$> frame_bytes t n r = frame_bytes t n r.
Proof. unfold frame_bytes. by rewrite !fmap_app, !le32_u8, le32_list_u8. Qed.

Section delivery.
Context {K S Cb : Type} `{!Kmalloc K} `{!KmallocLaws K} `{!HasMemory S} `{!FsDriver S Cb}.
Implicit Types k : kernel page_bytes K S.

Lemma vstore_bytes_app l1 : forall l2 a k, 0 <= a -> a + Z.of_nat (List.length l1) < 2 ^ 32 ->
  vstore_bytes a (l1 ++ l2) k = (k ← vstore_bytes a l1 k; vstore_bytes (a + Z.of_nat (List.length l1)) l2 k).
Proof.
  induction l1 as [|v l1 IH]; intros l2 a k H0 Hb; simpl in *; [by rsimpl; rewrite Z.add_0_r|].
  destruct (vstore8 a v k) as [k1| |]; rsimpl; [|done..]. rewrite u32_small by lia. rewrite IH by lia.
  replace (a + 1 + Z.of_nat (List.length l1)) with (a + Z.of_nat (Datatypes.S (List.length l1))) by lia. done.
Qed.

Lemma frame_stores t n r a k : 0 <= a -> a + 76 < 2 ^ 32 ->
  (k ← vstore32 a (signal_trampoline t) k; k ← vstore32 (a + 4) n k; k ← vstore32 (a + 8) SIGNAL_FRAME_MAGIC k;
   vstore_bytes (a + 12) (concat (le32 <$> registers_words r)) k) = vstore_bytes a (frame_bytes t n r) k.
Proof.
  intros H0 Ha. unfold frame_bytes, vstore32.
  rewrite vstore_bytes_app by (rewrite ?le32_length; lia). destruct (vstore_bytes a _ k) as [k1| |]; rsimpl; [|done..].
  rewrite vstore_bytes_app by (rewrite ?le32_length; lia). rewrite le32_length. change (Z.of_nat 4) with 4.
  destruct (vstore_bytes (a + 4) _ k1) as [k2| |]; rsimpl; [|done..].
  rewrite vstore_bytes_app by (rewrite ?le32_length; lia). rewrite le32_length. change (Z.of_nat 4) with 4.
  replace (a + 4 + 4) with (a + 8) by lia.
  rewrite le32_length. change (Z.of_nat 4) with 4. by replace (a + 8 + 4) with (a + 12) by lia.
Qed.

(** Stores change memory only. *)
Lemma vstore_bytes_keeps l : forall a k k', vstore_bytes a l k = Ok k' -> tasks k' = tasks k /\ current_task k' = current_task k.
Proof.
  induction l as [|v l IH]; intros a k k'; simpl; [by intros [= ->]|].
  intros (k1 & H1 & H2)%bind_Ok_inv. destruct (IH _ _ _ H2) as [-> ->]. unfold vstore8 in H1.
  apply bind_Ok_inv in H1 as ([[b o]|] & _ & H1); by injection H1 as <-.
Qed.

(** The signal the process would take next, taken. *)
Definition with_taken k (t : task) : kernel page_bytes K S :=
  with_tasks k (<[current_task k := taken (lowest_pending t) t]> (tasks k)).

Lemma same_task_taken n t : same_task t (taken n t).
Proof. by split. Qed.

Lemma with_taken_ok k q t : process_ok k q -> tasks k !! current_task k = Some t -> process_ok (with_taken k t) q.
Proof.
  intros Hk Ht. eapply quiet_process_ok; [done|]. apply (quiet_insert k _ t); [done|apply same_task_taken|done].
Qed.

Lemma deliver_nothing k q t r cpu : process_ok k q -> tasks k !! current_task k = Some t ->
  deliverable t r = false \/ lowest_pending t = 0 -> task_signal_deliver r cpu k = Ok (Resumes r k).
Proof.
  intros Hk Ht Hor. destruct (current_task_ok k q Hk) as (t' & _ & H0). unfold task_signal_deliver.
  rewrite (proj2 (Z.eqb_neq _ 0)), (get_task_ok _ _ _ Ht) by done. rsimpl.
  assert ((is_user_process t =? 0) || negb (bool_decide (state t = TASK_RUNNABLE)) || negb (signal_active t =? 0) ||
    negb (Z.land (r_cs r) 3 =? 3) = negb (deliverable t r)) as ->.
  { unfold deliverable. by destruct (is_user_process t =? 0), (bool_decide _), (signal_active t =? 0), (Z.land (r_cs r) 3 =? 3). }
  destruct (deliverable t r) eqn:Hd; simpl; [|done]. destruct Hor as [?|Hl]; [done|].
  rewrite take_next_spec, Hl. done.
Qed.

(** What happens to a signal that is taken. *)
Lemma deliver_taken k q t r cpu : process_ok k q -> tasks k !! current_task k = Some t ->
  deliverable t r = true -> lowest_pending t <> 0 -> let n := lowest_pending t in let k1 := with_taken k t in
  task_signal_deliver r cpu k = match reaction_to t n with
    | Ignored => Ok (Resumes r k1)
    | Fatal => k ← task_exit (128 + n) cpu k1; Ok (Exited k)
    | Caught h =>
        if frame_fits t (r_useresp r) then
          k2 ← vstore_bytes (frame_address (r_useresp r)) (frame_bytes t n r) k1;
          Ok (Resumes (set_resumption h (frame_address (r_useresp r)) r) (update_task (current_task k) (set_active 1 n) k2))
        else k ← task_exit (128 + n) cpu k1; Ok (Exited k)
    end.
Proof.
  intros Hk Ht Hd Hn n k1. destruct (current_task_ok k q Hk) as (t' & _ & H0). unfold task_signal_deliver.
  rewrite (proj2 (Z.eqb_neq _ 0)), (get_task_ok _ _ _ Ht) by done. rsimpl.
  assert ((is_user_process t =? 0) || negb (bool_decide (state t = TASK_RUNNABLE)) || negb (signal_active t =? 0) ||
    negb (Z.land (r_cs r) 3 =? 3) = negb (deliverable t r)) as ->.
  { unfold deliverable. by destruct (is_user_process t =? 0), (bool_decide _), (signal_active t =? 0), (Z.land (r_cs r) 3 =? 3). }
  rewrite Hd. cbn [negb]. rewrite take_next_spec. fold n. rewrite (proj2 (Z.eqb_neq n 0)) by done.
  rewrite (update_task_ok k _ _ t Ht). change (with_tasks k (<[current_task k:=taken n t]> (tasks k))) with k1.
  destruct (lowest_pending_spec t) as [[? _]|(Hrange & _)]; [done|]. fold n in Hrange.
  destruct (lookup_lt_is_Some_2 (signal_handlers t) (Z.to_nat n)) as [h Hh];
    [rewrite (to_handlers _ _ _ (po_tasks _ _ Hk _ _ Ht)); lia|].
  unfold handler_of, reaction_to. change (signal_handlers (taken n t)) with (signal_handlers t). rewrite Hh. rsimpl.
  change (signal_trampoline (taken n t)) with (signal_trampoline t).
  destruct ((h =? SIGNAL_IGNORE) || (h =? SIGNAL_DEFAULT) && signal_default_is_ignore n); [done|].
  destruct ((h =? SIGNAL_DEFAULT) || (n =? SIGNAL_KILL)); [done|]. unfold frame_fits. fold STACK_BOTTOM.
  destruct (Z.ltb_spec (r_useresp r) (STACK_BOTTOM + sizeof_signal_frame)) as [|H1].
  { by rewrite (proj2 (Z.leb_gt (STACK_BOTTOM + sizeof_signal_frame) (r_useresp r))) by lia. }
  rewrite (proj2 (Z.leb_le (STACK_BOTTOM + sizeof_signal_frame) (r_useresp r))) by lia.
  destruct (Z.ltb_spec USER_STACK_TOP (r_useresp r)) as [|H2].
  { by rewrite (proj2 (Z.leb_gt (r_useresp r) USER_STACK_TOP)) by lia. }
  rewrite (proj2 (Z.leb_le (r_useresp r) USER_STACK_TOP)) by lia. cbn [andb orb negb].
  destruct (Z.eqb_spec (signal_trampoline t) 0); cbn [negb]; [done|]. fold (frame_address (r_useresp r)).
  destruct (frame_address_spec (r_useresp r)) as (Ha & Hb & Hc); [lia|].
  rewrite (proj2 (Z.ltb_ge (frame_address (r_useresp r)) STACK_BOTTOM)) by lia.
  unfold STACK_BOTTOM, USER_STACK_TOP, TASK_STACK_SIZE, sizeof_signal_frame in *.
  rewrite <- frame_stores by lia. rewrite (u8_small n) by lia.
  destruct (vstore32 (frame_address (r_useresp r)) (signal_trampoline t) k1) as [k2| |] eqn:E2; rsimpl; [|done..].
  destruct (vstore32 (frame_address (r_useresp r) + 4) n k2) as [k3| |] eqn:E3; rsimpl; [|done..].
  destruct (vstore32 (frame_address (r_useresp r) + 8) SIGNAL_FRAME_MAGIC k3) as [k4| |] eqn:E4; rsimpl; [|done..].
  destruct (vstore_bytes (frame_address (r_useresp r) + 12) _ k4) as [k5| |] eqn:E5; rsimpl; [|done..].
  apply vstore_bytes_keeps in E2 as [_ E2], E3 as [_ E3], E4 as [_ E4], E5 as [_ E5].
  by rewrite E5, E4, E3, E2.
Qed.

(** ** Return *)

Definition registers_ok (r : registers) : Prop := Forall is_u32 (registers_words r).

Lemma registers_of_words r : registers_of (registers_words r) = Ok r.
Proof. by destruct r. Qed.

Lemma vload_words_holds l : forall a k, holds k a (concat (le32 <$> l)) -> 0 <= a ->
  a + 4 * Z.of_nat (List.length l) < 2 ^ 32 -> vload_words a (List.length l) k = Ok (u32 <$> l).
Proof.
  induction l as [|w l IH]; intros a k Hh H0 Hb; [done|]. cbn [fmap list_fmap concat] in Hh.
  apply holds_app in Hh as [H1 H2]. rewrite le32_length in H2. change (Z.of_nat 4) with 4 in H2.
  cbn [List.length] in Hb. cbn [vload_words List.length]. rewrite (vload32_holds k a w H1) by lia. rsimpl.
  rewrite (u32_small (a + 4)) by lia. rewrite IH; [by rsimpl|done|lia|lia].
Qed.

Lemma return_spec k q t a n r r' : process_ok k q -> tasks k !! current_task k = Some t -> signal_active t <> 0 ->
  active_signal t = n -> is_u32 n -> registers_ok r -> STACK_BOTTOM <= a -> a + sizeof_signal_frame <= USER_STACK_TOP ->
  holds k (a + 4) (le32 n ++ le32 SIGNAL_FRAME_MAGIC ++ concat (le32 <$> registers_words r)) ->
  task_signal_return (a + 4) r' k = Ok (0, r, update_task (current_task k) (set_active 0 0) k).
Proof.
  intros Hk Ht Hact Hn Hun Hr Hlo Hhi Hh. destruct (current_task_ok k q Hk) as (t' & _ & H0). unfold is_u32 in Hun.
  unfold task_signal_return. rewrite (proj2 (Z.eqb_neq _ 0)), (get_task_ok _ _ _ Ht) by done. rsimpl.
  unfold STACK_BOTTOM, USER_STACK_TOP, TASK_STACK_SIZE, sizeof_signal_frame in *.
  rewrite (proj2 (Z.eqb_neq _ 0)) by done.
  rewrite (proj2 (Z.ltb_ge (a + 4) _)), (proj2 (Z.ltb_ge _ (a + 4))) by lia. cbn [orb].
  apply holds_app in Hh as [Hh1 Hh]. apply holds_app in Hh as [Hh2 Hh3]. rewrite le32_length in Hh2, Hh3.
  change (Z.of_nat 4) with 4 in *. replace (a + 4 - 4 + 8) with (a + 4 + 4) by lia.
  rewrite (vload32_holds k _ _ Hh2) by lia. rsimpl. rewrite (u32_small SIGNAL_FRAME_MAGIC) by done. rewrite Z.eqb_refl. cbn [negb].
  replace (a + 4 - 4 + 4) with (a + 4) by lia. rewrite (vload32_holds k _ _ Hh1) by lia. rsimpl.
  rewrite (u32_small n) by lia. rewrite Hn, Z.eqb_refl. cbn [negb].
  replace (a + 4 - 4 + 12) with (a + 4 + 4 + 4) by lia.
  rewrite (vload_words_holds (registers_words r)) by (done || lia || (cbn [registers_words List.length]; lia)). rsimpl.
  assert (u32 <$> registers_words r = registers_words r) as ->.
  { clear - Hr. unfold registers_ok in Hr. induction Hr as [|w l Hw _ IH]; [done|]. rewrite fmap_cons, IH. by rewrite u32_small. }
  rewrite registers_of_words. by rsimpl.
Qed.

(** A caught signal: the frame is in the process's own memory. *)
Lemma caught_spec k q t r cpu h : process_ok k q -> tasks k !! current_task k = Some t -> deliverable t r = true ->
  lowest_pending t <> 0 -> reaction_to t (lowest_pending t) = Caught h -> frame_fits t (r_useresp r) = true ->
  (forall b, STACK_BOTTOM <= b < USER_STACK_TOP -> is_Some (pte (kmm k) (task_directory t) (b / 0x1000))) ->
  let n := lowest_pending t in let a := frame_address (r_useresp r) in
  exists k2, task_signal_deliver r cpu k = Ok (Resumes (set_resumption h a r) (update_task (current_task k) (set_active 1 n) k2)) /\
    stored (with_taken k t) k2 a (frame_bytes t n r) /\ process_ok (update_task (current_task k) (set_active 1 n) k2) q.
Proof.
  intros Hk Ht Hd Hn Hre Hfit Hm n a. rewrite (deliver_taken k q t r cpu Hk Ht Hd Hn). cbv zeta. rewrite Hre, Hfit.
  unfold frame_fits in Hfit. apply andb_true_iff in Hfit as [[H1%Z.leb_le H2%Z.leb_le]%andb_true_iff _].
  destruct (frame_address_spec (r_useresp r)) as (Ha & Hlo & Hhi); [lia|]. fold a in Ha, Hlo, Hhi |- *. fold n.
  pose proof (with_taken_ok k q t Hk Ht) as Hk1.
  destruct (store_spec (with_taken k t) a (frame_bytes t n r) (po_vm _ _ Hk1) (po_region _ _ Hk1)) as (k2 & -> & Hs);
    rewrite ?frame_bytes_length; unfold STACK_BOTTOM, USER_STACK_TOP, TASK_STACK_SIZE, sizeof_signal_frame in *; [lia|lia| |].
  { intros b Hb. change (is_Some (pte (kmm k) (current_directory (kmm k)) (b / 0x1000))). rewrite (po_current _ _ Hk t Ht). apply Hm. lia. }
  rsimpl. exists k2. split; [done|]. split; [done|]. pose proof (stored_process_ok _ _ _ _ _ Hk1 Hs) as Hk2.
  eapply quiet_process_ok; [exact Hk2|]. apply quiet_update; [by split|done].
Qed.
End delivery.
