(* ===== verification/Demo.v ===== *)
(** * A small running kernel

    The idle task, a shell and its child, each with a directory of its own
    and two stack pages; the concrete state on which the theorems about
    processes are applied. *)

From S2P Require Import Prelude LinkedList Memory Kmalloc Frames Paging PagingProofs PagingTheorems Vfs Initrd Task AddressSpace Scheduler UserSpace UserMemory Signal Process ProcessInv ProcessOps.

Definition stack_page (f : Z) : page_t := mk_page 1 1 1 0 0 0 f.
Definition stack_pages (f : Z) : list page_t := replicate 1022 empty_page ++ [stack_page f; stack_page (f + 1)].
(** The kernel's table maps the page at 0x1000, where the archive is. *)
Definition kernel_pages : list page_t := <[1%nat := stack_page 1]> (replicate 1024 empty_page).
Definition user_directory (table phys : Z) : page_directory :=
  mk_directory (<[767%nat := table]> (slots [0x5000])) (<[767%nat := table + 7]> (slots [0x5007])) phys.

Definition demo_blocks : gset Z :=
  {[ 0x2000; 0x3000; 0x5000; 0x6000; 0x7000; 0x10000; 0x20000; 0x28000; 0x30000; 0x40000; 0x80000; 0x84000; 0x88000 ]}.
Definition demo_memory (current : Z) : mm page_bytes (gset Z) := {|
  bits := mk_bitmap [0x7F; 0] 64 2;
  page_tables := {[ 0x5000 := kernel_pages; 0x6000 := stack_pages 3; 0x7000 := stack_pages 5 ]};
  directories := {[ 0x2000 := demo_kernel_directory; 0x3000 := demo_kernel_directory;
                    0x30000 := user_directory 0x6000 0x30000; 0x40000 := user_directory 0x7000 0x40000 ]};
  contents_of := fun a o => if a =? 0x3000 then o mod 256 else 0;
  kernel_directory := 0x2000;
  current_directory := current;
  kstate := demo_blocks
|}.

Definition demo_descriptors : list file_descriptor := descriptors (initialise_standard_descriptors zero_task).
Definition demo_idle : task :=
  set_next 0x20000 (build_task 0 (-1) 0x3000 0x80000 (0, 0, 0, 0) 0 demo_descriptors 0 0 0 0).
Definition demo_shell : task :=
  set_next 0x28000 (build_task 1 0 0x30000 0x84000 (USER_HEAP_START, USER_HEAP_START, USER_HEAP_START, USER_HEAP_LIMIT) 1
    demo_descriptors 0 0 0 0).
Definition demo_child (s : task_state) : task :=
  set_state s (build_task 2 1 0x40000 0x88000 (USER_HEAP_START, USER_HEAP_START, USER_HEAP_START, USER_HEAP_LIMIT) 1
    demo_descriptors 0 0 0 0).
Definition demo_fs : initrd (gset Z) := mk_initrd (fun _ => 0) ∅ 0 0 0 0 0 ([], 0) ∅.

(** The shell is running; its record and the state of its child vary. *)
Definition demo_kernel (shell : task) (s : task_state) (f : initrd (gset Z)) : kernel page_bytes (gset Z) (initrd (gset Z)) :=
  mk_kernel {[ 0x10000 := demo_idle; 0x20000 := shell; 0x28000 := demo_child s ]}
    0x20000 0x10000 3 0x86000 (demo_memory 0x30000) f ∅.
Definition demo_queue : list Z := [0x10000; 0x20000; 0x28000].

Lemma stack_pages_lookup f j p : stack_pages f !! j = Some p -> present p <> 0 -> (j = 1022%nat /\ frame p = f) \/ (j = 1023%nat /\ frame p = f + 1).
Proof.
  intros [[-> _]%lookup_replicate|[Hj H]]%lookup_app_Some Hp; [done|]. rewrite length_replicate in *.
  destruct (j - 1022)%nat as [|[|n]] eqn:E; simpl in H; [left|right|done]; (split; [lia|]); by injection H as <-.
Qed.

Lemma stack_pages_owns f g : owns (stack_pages f) g <-> g = f \/ g = f + 1.
Proof.
  split.
  - intros (j & p & Hj & Hp & <-). destruct (stack_pages_lookup f j p Hj Hp) as [[_ ->]|[_ ->]]; auto.
  - intros [-> | ->]; [exists 1022%nat, (stack_page f)|exists 1023%nat, (stack_page (f + 1))]; done.
Qed.

Lemma kernel_pages_lookup j p : kernel_pages !! j = Some p -> present p <> 0 -> j = 1%nat /\ p = stack_page 1.
Proof.
  intros Hj Hp. destruct (decide (j = 1%nat)) as [->|Hne].
  - unfold kernel_pages in Hj. rewrite list_lookup_insert_eq in Hj by (rewrite length_replicate; lia). by injection Hj as <-.
  - unfold kernel_pages in Hj. rewrite list_lookup_insert_ne in Hj by done. by apply lookup_replicate in Hj as [-> _].
Qed.
Lemma kernel_pages_owns g : owns kernel_pages g -> g = 1.
Proof. intros (j & p & Hj & Hp & <-). by destruct (kernel_pages_lookup j p Hj Hp) as [_ ->]. Qed.

Lemma user_slots table i t : <[767%nat := table]> (slots [0x5000]) !! i = Some t -> t <> 0 -> (i = 0%nat /\ t = 0x5000) \/ (i = 767%nat /\ t = table).
Proof.
  intros H H0. destruct (decide (i = 767%nat)) as [->|Hne].
  - right. rewrite list_lookup_insert_eq in H by (vm_compute; lia). split; congruence.
  - left. rewrite list_lookup_insert_ne in H by done. apply demo_slots in H as [H|]; [|done].
    destruct i as [|i]; simpl in H; [|done]. split; congruence.
Qed.

Lemma kernel_slots i t : tables demo_kernel_directory !! i = Some t -> t <> 0 -> i = 0%nat /\ t = 0x5000.
Proof. intros [H|]%demo_slots H0; [|done]. destruct i as [|i]; simpl in H; [|done]. split; congruence. Qed.

Lemma demo_directories c x d : directories (demo_memory c) !! x = Some d ->
  (x = 0x2000 \/ x = 0x3000) /\ d = demo_kernel_directory \/ x = 0x30000 /\ d = user_directory 0x6000 0x30000 \/
  x = 0x40000 /\ d = user_directory 0x7000 0x40000.
Proof.
  simpl. intros [[<- <-]|[_ [[<- <-]|[_ [[<- <-]|[_ [<- <-]%lookup_singleton_Some]]%lookup_insert_Some]]%lookup_insert_Some]]%lookup_insert_Some; tauto.
Qed.
Lemma demo_tables c t ps : page_tables (demo_memory c) !! t = Some ps ->
  t = 0x5000 /\ ps = kernel_pages \/ t = 0x6000 /\ ps = stack_pages 3 \/ t = 0x7000 /\ ps = stack_pages 5.
Proof.
  cbn [demo_memory page_tables]. intros [[<- <-]|[_ [[<- <-]|[_ [<- <-]%lookup_singleton_Some]]%lookup_insert_Some]]%lookup_insert_Some; tauto.
Qed.

Lemma demo_kernel_lookup c : directories (demo_memory c) !! kernel_directory (demo_memory c) = Some demo_kernel_directory.
Proof. done. Qed.

(** The two private tables. *)
Lemma demo_private c dir i t ps : private (demo_memory c) dir i t ps ->
  i = 767%nat /\ (dir = 0x30000 /\ t = 0x6000 /\ ps = stack_pages 3 \/ dir = 0x40000 /\ t = 0x7000 /\ ps = stack_pages 5).
Proof.
  intros (d & kd & Hd & Ht & H0 & Hkd & Hno & Hps). rewrite demo_kernel_lookup in Hkd. injection Hkd as <-.
  destruct (demo_directories c _ _ Hd) as [[_ ->]|[[-> ->]|[-> ->]]].
  - by destruct Hno.
  - destruct (user_slots 0x6000 i t Ht H0) as [[-> ->]|[-> ->]]; [by destruct Hno|]. split; [done|left].
    destruct (demo_tables c _ _ Hps) as [[? _]|[[_ ->]|[? _]]]; [lia|done|lia].
  - destruct (user_slots 0x7000 i t Ht H0) as [[-> ->]|[-> ->]]; [by destruct Hno|]. split; [done|right].
    destruct (demo_tables c _ _ Hps) as [[? _]|[[? _]|[_ ->]]]; [lia|lia|done].
Qed.

Lemma demo_used f : 0 <= f < 7 -> used (bits (demo_memory 0)) f = true.
Proof.
  intros Hf. assert (f = 0 \/ f = 1 \/ f = 2 \/ f = 3 \/ f = 4 \/ f = 5 \/ f = 6) as Hc by lia.
  by repeat destruct Hc as [->|Hc]; [..|rewrite Hc].
Qed.

Lemma stack_pages_ok c f : 0 <= f <= 5 -> table_ok (bits (demo_memory c)) (stack_pages f).
Proof.
  intros Hf. split; [done|]. intros g [-> | ->]%stack_pages_owns; (split; [simpl; lia|]); apply demo_used; lia.
Qed.

Lemma kernel_pages_ok c : table_ok (bits (demo_memory c)) kernel_pages.
Proof. split; [done|]. intros g ->%kernel_pages_owns. split; [simpl; lia|]. by apply (demo_used 1). Qed.

Lemma demo_user_directory c table phys : table = 0x6000 \/ table = 0x7000 -> directory_ok (demo_memory c) (user_directory table phys).
Proof.
  intros Hor. split; [done|done|]. intros j t Ht H0. destruct (user_slots table j t Ht H0) as [[-> ->]|[-> ->]].
  - eexists. split; [reflexivity|]. apply kernel_pages_ok.
  - destruct Hor as [-> | ->]; eexists; (split; [reflexivity|]); by apply stack_pages_ok.
Qed.

Lemma demo_directory_ok c x d : directories (demo_memory c) !! x = Some d -> directory_ok (demo_memory c) d.
Proof.
  intros H%demo_directories. destruct H as [[_ ->]|[[_ ->]|[_ ->]]]; [|apply demo_user_directory; auto..].
  split; [done|done|]. intros j t Ht H0. destruct (kernel_slots j t Ht H0) as [-> ->].
  eexists. split; [reflexivity|]. apply kernel_pages_ok.
Qed.

Lemma demo_vm_ok c : c = 0x3000 \/ c = 0x30000 \/ c = 0x40000 -> vm_ok (demo_memory c).
Proof.
  intros Hc. split.
  - split; simpl; [lia|done|done|]. repeat constructor; unfold is_u32; lia.
  - split; [intros t ps Hx%demo_tables|intros t d Hx%demo_directories]; change (k_live (kstate (demo_memory c))) with demo_blocks;
      unfold demo_blocks; set_unfold; lia.
  - intros d x Hx%demo_directories. lia.
  - by exists demo_kernel_directory.
  - destruct Hc as [->|[->| ->]]; by eexists.
  - apply demo_directory_ok.
  - intros t ps d Ht%demo_tables Hd%demo_directories. lia.
  - intros dir i dir' i' t ps ps' [-> H1]%demo_private [-> H2]%demo_private. split; [lia|done].
  - intros dir i t ps kd j [_ H1]%demo_private Hkd Hj. rewrite demo_kernel_lookup in Hkd. injection Hkd as <-.
    destruct (kernel_slots j t Hj); lia.
  - intros dir i t ps dir' i' t' ps' f [_ H1]%demo_private [_ H2]%demo_private Ho Ho'.
    destruct H1 as [(_ & -> & ->)|(_ & -> & ->)], H2 as [(_ & -> & ->)|(_ & -> & ->)]; try done;
      apply stack_pages_owns in Ho, Ho'; lia.
  - intros dir i t ps j k p q [_ H1]%demo_private Hj Hk Hp Hq E.
    destruct H1 as [(_ & _ & ->)|(_ & _ & ->)]; destruct (stack_pages_lookup _ _ _ Hj Hp), (stack_pages_lookup _ _ _ Hk Hq); lia.
  - intros dir i t ps kd j t' qs f [_ H1]%demo_private Hkd Hj H0 Hqs Hps Ho. rewrite demo_kernel_lookup in Hkd. injection Hkd as <-.
    destruct (kernel_slots j t' Hj H0) as [_ ->]. destruct (demo_tables _ _ _ Hqs) as [[_ ->]|[[? _]|[? _]]]; [|lia..].
    apply kernel_pages_owns in Ho as ->. destruct H1 as [(_ & _ & ->)|(_ & _ & ->)]; apply stack_pages_owns in Hps; lia.
Qed.

Lemma demo_region_free c : user_region_free (demo_memory c).
Proof.
  exists demo_kernel_directory. split; [done|]. intros i Hi. change (slots [0x5000] !! i = Some 0). unfold slots.
  rewrite lookup_app_r by (simpl; lia). rewrite lookup_replicate. split; [done|]. simpl. lia.
Qed.

(** The stack pages of a process. *)
Lemma demo_pte c dir v p : pte (demo_memory c) dir v = Some p -> user_range v -> v = 0xBFFFE \/ v = 0xBFFFF.
Proof.
  intros Hp Hv. unfold pte in Hp. unfold user_range in Hv.
  destruct (directories (demo_memory c) !! dir) as [d|] eqn:Hd; [|done]. cbn [mbind option_bind] in Hp.
  destruct (tables d !! Z.to_nat (v / 1024)) as [t|] eqn:Ht; [|done]. cbn [mbind option_bind] in Hp.
  destruct (Z.eqb_spec t 0) as [|H0]; [done|]. unfold table_entry in Hp.
  assert (exists f, Z.to_nat (v / 1024) = 767%nat /\ page_tables (demo_memory c) !! t = Some (stack_pages f)) as (f & Hs & Hps).
  { destruct (demo_directories c _ _ Hd) as [[_ ->]|[[_ ->]|[_ ->]]].
    - destruct (kernel_slots _ t Ht H0). Z.div_mod_to_equations. lia.
    - destruct (user_slots _ _ t Ht H0) as [[? ->]|[? ->]]; [Z.div_mod_to_equations; lia|]. by exists 3.
    - destruct (user_slots _ _ t Ht H0) as [[? ->]|[? ->]]; [Z.div_mod_to_equations; lia|]. by exists 5. }
  rewrite Hps in Hp. cbn [mbind option_bind] in Hp.
  destruct (stack_pages f !! Z.to_nat (v mod 1024)) as [p'|] eqn:Hp'; [|done]. cbn [mbind option_bind] in Hp.
  destruct (Z.eqb_spec (present p') 0) as [|Hpr]; [done|].
  destruct (stack_pages_lookup _ _ _ Hp' Hpr); Z.div_mod_to_equations; lia.
Qed.

Lemma demo_heap_ok c t dir : task_directory t = dir -> heap_start t = USER_HEAP_START -> heap_break t = USER_HEAP_START ->
  heap_mapped_end t = USER_HEAP_START -> heap_limit t = USER_HEAP_LIMIT -> heap_ok (demo_memory c) t.
Proof.
  intros E0 E1 E2 E3 E4. unfold USER_HEAP_START, USER_HEAP_LIMIT in *. split; rewrite ?E0, ?E1, ?E2, ?E3, ?E4.
  - done.
  - unfold USER_HEAP_LIMIT. lia.
  - intros v Hv. Z.div_mod_to_equations. lia.
  - intros v Hv. destruct (pte _ _ _) as [p|] eqn:E; [|done].
    destruct (demo_pte _ _ _ _ E); [unfold user_range|..]; Z.div_mod_to_equations; lia.
Qed.

Lemma demo_tasks shell s f x t : tasks (demo_kernel shell s f) !! x = Some t ->
  x = 0x10000 /\ t = demo_idle \/ x = 0x20000 /\ t = shell \/ x = 0x28000 /\ t = demo_child s.
Proof.
  cbn [demo_kernel tasks]. intros [[<- <-]|[_ [[<- <-]|[_ [<- <-]%lookup_singleton_Some]]%lookup_insert_Some]]%lookup_insert_Some; tauto.
Qed.

Lemma demo_base_ok : process_ok (demo_kernel demo_shell TASK_RUNNABLE demo_fs) demo_queue.
Proof.
  assert (forall x y t u, tasks (demo_kernel demo_shell TASK_RUNNABLE demo_fs) !! x = Some t ->
    tasks (demo_kernel demo_shell TASK_RUNNABLE demo_fs) !! y = Some u ->
    task_directory t = task_directory u \/ kernel_stack t = kernel_stack u \/ id t = id u -> x = y) as Hdist.
  { intros x y t u Hx%demo_tasks Hy%demo_tasks H.
    destruct Hx as [[-> ->]|[[-> ->]|[-> ->]]], Hy as [[-> ->]|[[-> ->]|[-> ->]]]; try done; simpl in H; lia. }
  split.
  - split.
    + repeat (split; [done|]; split; [done|]; eexists; split; [reflexivity|]); done.
    + unfold demo_queue. simpl. set_solver.
    + by exists demo_idle.
    + intros x Hx. unfold demo_queue in Hx. set_unfold. lia.
  - apply demo_vm_ok. auto.
  - apply demo_region_free.
  - intros x. split; [intros [t Hx%demo_tasks]|intros Hx]; unfold demo_queue in *; set_unfold.
    + lia.
    + destruct Hx as [->|[->|[->|[]]]]; by eexists.
  - intros x t Hx%demo_tasks.
    assert (forall b, b ∈ demo_blocks -> (page_tables (demo_memory 0x30000) !! b = None) -> directories (demo_memory 0x30000) !! b = None ->
      plain_block (demo_kernel demo_shell TASK_RUNNABLE demo_fs) b) as Hplain by done.
    destruct Hx as [[-> ->]|[[-> ->]|[-> ->]]]; (split; [by eexists|done|by apply Hplain|split; [by apply Hplain|done]|simpl; lia|done|done|done|done|]);
      intros Hu; [done|by eapply demo_heap_ok..].
  - intros x y t u Hx Hy E. eapply Hdist; [done..|by left].
  - intros x y t u Hx Hy E. eapply Hdist; [done..|by right; left].
  - intros x y t u Hx Hy E. eapply Hdist; [done..|by right; right].
  - intros t Hx%demo_tasks. destruct Hx as [[? _]|[[_ ->]|[? _]]]; done.
  - simpl. lia.
Qed.

Lemma demo_ok shell s f : same_task demo_shell shell -> process_ok (demo_kernel shell s f) demo_queue.
Proof.
  intros Hs. apply (quiet_process_ok _ _ _ demo_base_ok). split; try done.
  - intros x. cbn [demo_kernel tasks]. rewrite !lookup_insert_is_Some, !lookup_singleton_is_Some. tauto.
  - intros x t Hx%demo_tasks. destruct Hx as [[-> ->]|[[-> ->]|[-> ->]]].
    + exists demo_idle. by split.
    + exists demo_shell. by split.
    + exists (demo_child TASK_RUNNABLE). by split.
Qed.

(** A file system with one file of a hundred bytes, and a shell that has it
    open. *)
Definition demo_file : tree_node := mk_tree_node (as_archived_file 0 100 (blank_fs_node [97] FS_FILE)) 0 0 0.
Definition demo_file_fs : initrd (gset Z) := mk_initrd (fun _ => 0) {[ 0x90000 := demo_file ]} 0 0 0 0 0 ([], 0) ∅.
Definition demo_reader : task :=
  set_descriptors (<[3%nat := mk_descriptor FD_KIND_NODE 0x90000 10 0]> demo_descriptors) demo_shell.
Lemma demo_reader_ok : process_ok (demo_kernel demo_reader TASK_RUNNABLE demo_file_fs) demo_queue.
Proof. apply demo_ok. by split. Qed.
