(* ===== verification/ForkWait.v ===== *)
(** * The contracts of fork, exit and waitpid *)

From S2P Require Import Prelude LinkedList Memory Kmalloc Frames Paging PagingProofs Vfs Initrd Task AddressSpace AddressClone Scheduler UserSpace UserMemory Signal Process ProcessInv ProcessOps Fork Exit Reap Demo.

Section contracts.
Context {K S Cb : Type} `{!Kmalloc K} `{!KmallocLaws K} `{!HasMemory S} `{!FsDriver S Cb}.
Variable resume_user_frame : Z.
Implicit Types k : kernel page_bytes K S.
Implicit Types m : mm page_bytes K.

(** The copy has the bytes of the original, and nobody loses any. *)
Lemma forked_space m m' src nd a : vm_ok m -> user_region_free m -> user_address a -> forked m m' src nd ->
  space m' nd a = space m src a.
Proof.
  intros Hvm Hreg Ha Hf. pose proof (user_address_range a Ha) as Hr. unfold space. destruct (pte m src (a / 0x1000)) as [p|] eqn:Hp.
  - destruct (fk_some _ _ _ _ Hf (a / 0x1000) p) as (q & Hq & Hc & _); [unfold user_range in Hr; lia|done|]. by rewrite Hq; simpl; rewrite Hc.
  - by rewrite (fk_none _ _ _ _ Hf) by (unfold user_range in Hr; lia || done).
Qed.

Lemma forked_space_old m m' src nd d a : vm_ok m -> user_region_free m -> user_address a -> forked m m' src nd ->
  is_Some (directories m !! d) -> space m' d a = space m d a.
Proof.
  intros Hvm Hreg Ha Hf [x Hd]. destruct (fk_new _ _ _ _ Hf) as (Hn & _ & _). unfold space.
  rewrite (fk_old _ _ _ _ Hf) by congruence. destruct (pte m d (a / 0x1000)) as [p|] eqn:Hp; [|done]. simpl.
  destruct (pte_frame m d _ p Hvm Hreg (user_address_range a Ha) Hp) as (H1 & _ & H2). by rewrite (fk_contents _ _ _ _ Hf).
Qed.

Lemma space_mm m m' d a : page_tables m' = page_tables m -> directories m' = directories m -> contents_of m' = contents_of m ->
  space m' d a = space m d a.
Proof. intros E1 E2 E3. unfold space, pte. by rewrite E1, E2, E3. Qed.

(** C8: fork.  When a running user process forks, either the kernel runs
    out of memory and halts, or the parent gets the next pid and the child
    is the last task of the ready queue: it has a directory and a kernel
    stack of its own, the same memory byte for byte at every user address,
    the same heap, descriptors, working directory and signal dispositions,
    no pending signals, and a saved frame that differs from the parent's
    in [eax = 0] only.  Every other task and every other process's memory
    are as before, and the process invariant still holds. *)
Theorem fork_contract k q t frame f : process_ok k q -> tasks k !! current_task k = Some t -> is_user_process t <> 0 ->
  state t = TASK_RUNNABLE -> next_pid k < 2 ^ 31 - 1 -> notify_open (descriptors t) (kfs k) = Ok f ->
  clone_failure (task_fork_from_frame resume_user_frame frame k) \/
  exists k' a c, task_fork_from_frame resume_user_frame frame k = Ok (next_pid k, k') /\
    process_ok k' (q ++ [a]) /\ (a ∉ q) /\ current_task k' = current_task k /\ kfs k' = f /\
    tasks k' !! a = Some c /\ id c = next_pid k /\ parent_id c = id t /\ state c = TASK_RUNNABLE /\
    descriptors c = descriptors t /\ working_directory c = working_directory t /\
    signal_handlers c = signal_handlers t /\ pending_signals c = 0 /\ signal_active c = 0 /\
    saved_frames k' !! esp c = Some (set_eax 0 frame) /\ eip c = resume_user_frame /\
    (forall x u, tasks k !! x = Some u -> exists n, tasks k' !! x = Some (set_next n u)) /\
    (forall b, user_address b -> space (kmm k') (task_directory c) b = space (kmm k) (task_directory t) b) /\
    (forall d b, is_Some (directories (kmm k) !! d) -> user_address b -> space (kmm k') d b = space (kmm k) d b).
Proof.
  intros Hk Ht Hu Hst Hpid Hf. destruct (fork_spec resume_user_frame k q t frame f Hk Ht Hu Hst Hpid Hf)
    as [Hfail|(k' & a & st & nd & m & Hrun & [Hs (E1 & E2 & E3 & E4 & _) _ _ Hfr Hc (x & Hx & Ets) Hfrm (R1 & R2 & R3 & R4 & R5) Hok])];
    [by left|right].
  exists k', a, (child_of resume_user_frame t (next_pid k) nd st). split_and!; try done.
  - rewrite Hfrm. apply lookup_insert_eq.
  - intros y u Hy. assert (y <> a) as Hya by (intros ->; apply Hfr, (po_dom _ _ Hk); eauto). rewrite Ets.
    destruct (decide (x = y)) as [->|Hne].
    + exists a. by rewrite lookup_alter_eq, lookup_insert_ne, Hy.
    + exists (next u). rewrite lookup_alter_ne, lookup_insert_ne, Hy by done. by destruct u.
  - intros b Hb. rewrite (space_mm m) by done. by apply forked_space; [apply Hk|apply Hk| |].
  - intros d b Hd Hb. rewrite (space_mm m) by done. by eapply forked_space_old; [apply Hk|apply Hk| |..].
Qed.

(** C11: exit.  A user process that exits becomes a zombie with its status
    and no descriptors, and another runnable task continues; nothing ever
    resumes the zombie's code because the scheduler picks runnable tasks
    only.  If its parent is alive it gets a SIGCHLD (and is woken if it was
    waiting for the keyboard); no other task changes, memory does not
    change, and the process invariant still holds. *)
Theorem exit_contract k q t status cpu f : process_ok k q -> tasks k !! current_task k = Some t -> is_user_process t <> 0 ->
  notify_close (descriptors t) (kfs k) = Ok f ->
  exists k', task_exit status cpu k = Ok k' /\ process_ok k' q /\ kfs k' = f /\
    (exists z, tasks k' !! current_task k = Some z /\ state z = TASK_ZOMBIE /\ exit_status z = status /\
       descriptors z = replicate MAX_FILE_DESCRIPTORS free_descriptor /\ id z = id t /\ parent_id z = parent_id t) /\
    current_task k' <> current_task k /\ runnable (tasks k') (current_task k') /\
    (forall x u, tasks k !! x = Some u -> x <> current_task k ->
       tasks k' !! x = Some u \/
       (id u = parent_id t /\ reachable_target u = true /\ tasks k' !! x = Some (signalled SIGNAL_CHLD u))) /\
    (forall d a, space (kmm k') d a = space (kmm k) d a).
Proof.
  intros Hk Ht Hu Hf. destruct (exit_spec k q t status cpu f Hk Ht Hu Hf) as (k' & Hrun & [E1 [E2 E3] E4 (E5 & _) E6]).
  exists k'. split_and!; try done.
  - exists (set_context cpu.1.1 cpu.1.2 cpu.2 (zombie status t)). by rewrite E1, lookup_alter_eq, exit_store_self.
  - intros x u Hx Hne. rewrite E1, lookup_alter_ne by done.
    destruct (exit_store_other k q t status x Hk Ht Hne) as [->|(u' & H1 & H2 & H3 & ->)]; [by left|right].
    assert (u' = u) as -> by congruence. done.
  - intros d a. rewrite E4. done.
Qed.

(** C9: waitpid.  The result is -1 exactly when the caller has no child
    with that pid, 0 when the child lives, and the pid when the child is a
    zombie.  In that case its exit status is stored where the caller asked
    (in the caller's memory, nothing else in it changing), the child leaves
    the ready queue, its directory, page tables, kernel stack and record
    are freed and its private frames, and no others, become free; no
    other process's memory changes and the process invariant still
    holds. *)
Theorem waitpid_contract `{!KfreeReturns K} k q t pid status : process_ok k q -> tasks k !! current_task k = Some t -> state t = TASK_RUNNABLE ->
  status_place k status ->
  ((pid <= 0 \/ forall x c, tasks k !! x = Some c -> id c = pid -> parent_id c <> id t) /\
     task_waitpid pid status k = Ok (-1, k)) \/
  exists x c, 0 < pid /\ tasks k !! x = Some c /\ id c = pid /\ parent_id c = id t /\
    (state c <> TASK_ZOMBIE /\ task_waitpid pid status k = Ok (0, k) \/
     state c = TASK_ZOMBIE /\ exists k' l1 l2, task_waitpid pid status k = Ok (pid, k') /\ q = l1 ++ x :: l2 /\
       process_ok k' (l1 ++ l2) /\ tasks k' !! x = None /\
       (forall y u, y <> x -> tasks k !! y = Some u -> exists n, tasks k' !! y = Some (set_next n u)) /\
       directories (kmm k') = delete (task_directory c) (directories (kmm k)) /\
       (forall g, 0 <= g -> used (bits (kmm k')) g = true <->
          used (bits (kmm k)) g = true /\ ~ owned (kmm k) (task_directory c) g) /\
       (forall d a, user_address a -> d <> task_directory c ->
          (status = 0 \/ d <> task_directory t \/ a < status \/ status + 4 <= a) ->
          space (kmm k') d a = space (kmm k) d a) /\
       (status <> 0 -> forall i v, le32 (exit_status c) !! i = Some v ->
          space (kmm k') (task_directory t) (status + Z.of_nat i) = Some v)).
Proof.
  intros Hk Ht Hst Hpl. destruct (waitpid_spec k q t pid status Hk Ht Hst Hpl) as [?|(x & c & Hp & Hx & Hid & Hpar & [?|(Hz & [(k' & Hrun & Hr)|Hf])])];
    [by left|right|right|destruct (free_never_fails _ Hf)]; [exists x, c; split_and!; try done; by left|]. exists x, c. split_and!; try done. right. split; [done|].
  destruct Hr as [(k1 & Hdl & Hr) (l1 & p & l2 & -> & Ets & Hok) _].
  assert (task_directory t <> task_directory c) as Hdir.
  { intros E. assert (current_task k = x) as <- by (by eapply (po_directories _ _ Hk)). congruence. }
  assert (exists cts, k1 = with_contents k cts) as [cts ->].
  { destruct Hdl as [[_ ->]|[_ Hs]]; [|apply Hs]. exists (contents_of (kmm k)). by rewrite with_contents_same. }
  pose proof (chain_NoDup _ _ _ _ (qo_chain _ _ (po_queue _ _ Hk))) as Hnd.
  exists k', (l1 ++ [p]), l2. rewrite <- !app_assoc. split_and!; try done.
  - rewrite Ets. apply lookup_delete_eq.
  - intros y u Hy Hyu. rewrite Ets, lookup_delete_ne by done. destruct (decide (p = y)) as [->|Hne].
    + exists (next c). by rewrite lookup_alter_eq, Hyu.
    + exists (next u). rewrite lookup_alter_ne, Hyu by done. by destruct u.
  - apply Hr.
  - apply Hr.
  - intros d a Ha Hd Hout. rewrite (space_same (kmm (with_contents k cts)) (kmm k') d);
      [|intros v; by apply (rp_pte _ _ _ _ _ Hr)|apply Hr].
    destruct Hdl as [[Hs0 E]|[Hs0 Hs]]; [by rewrite E|]. apply (so_old _ _ _ _ Hs); [done|].
    rewrite (po_current _ _ Hk t Ht), le32_length. lia.
  - intros Hs0 i v Hi. rewrite (space_same (kmm (with_contents k cts)) (kmm k') (task_directory t));
      [|intros w; by apply (rp_pte _ _ _ _ _ Hr)|apply Hr].
    destruct Hdl as [[? _]|[_ Hs]]; [done|]. rewrite <- (po_current _ _ Hk t Ht), (so_new _ _ _ _ Hs i v Hi).
    pose proof (list_lookup_fmap u8 (le32 (exit_status c)) i) as E. rewrite le32_u8, Hi in E. simpl in E. congruence.
Qed.


(** ** From the fork to the wait *)



(** A task and the same task later; a zombie stays one. *)
Record later (t t' : task) : Prop := {
  lt_same : same_task t t';
  lt_parent : parent_id t' = parent_id t;
  lt_zombie : state t = TASK_ZOMBIE -> state t' = TASK_ZOMBIE /\ exit_status t' = exit_status t;
  lt_run : state t = TASK_RUNNABLE -> state t' = TASK_RUNNABLE
}.
Lemma later_refl t : later t t.
Proof. split; [apply same_task_refl|done..]. Qed.
#[local] Hint Resolve later_refl : core.



















End contracts.

(** ** On the small kernel *)

Definition demo_frame : registers := mk_registers 0x23 1 2 3 4 5 6 7 57 0x80 0 0x400100 0x1B 0x202 0xBFFFFF00 0x23.
Definition running : kernel page_bytes (gset Z) (initrd (gset Z)) := demo_kernel demo_shell TASK_RUNNABLE demo_fs.

Lemma running_ok : process_ok running demo_queue.
Proof. exact demo_base_ok. Qed.

Lemma fork_runs : is_ok (task_fork_from_frame 0x100800 demo_frame running) = true.
Proof. vm_compute. reflexivity. Qed.

Lemma fork_contract_witness : exists k' a c, task_fork_from_frame 0x100800 demo_frame running = Ok (3, k') /\
  process_ok k' (demo_queue ++ [a]) /\ tasks k' !! a = Some c /\ id c = 3 /\ parent_id c = 1 /\
  space (kmm k') (task_directory c) 0xBFFFE00A = Some 10.
Proof.
  destruct (fork_contract 0x100800 running demo_queue demo_shell demo_frame demo_fs running_ok) as [Hf|H].
  - reflexivity.
  - discriminate.
  - reflexivity.
  - reflexivity.
  - reflexivity.
  - exfalso. destruct (is_ok_true _ fork_runs) as [x Hx]. exact (clone_failure_not_ok _ Hf x Hx).
  - destruct H as (k' & a & c & Hrun & Hok & _ & _ & _ & Hc & Hid & Hpar & _ & _ & _ & _ & _ & _ & _ & _ & _ & Hsp & _).
    exists k', a, c. split; [exact Hrun|]. split; [exact Hok|]. split; [exact Hc|]. split; [exact Hid|]. split; [exact Hpar|].
    rewrite Hsp by (unfold user_address; lia). reflexivity.
Defined.

Lemma exit_contract_witness : exists k', task_exit 7 (1, 2, 3) running = Ok k' /\ process_ok k' demo_queue /\
  current_task k' <> 0x20000 /\ exists z, tasks k' !! 0x20000 = Some z /\ state z = TASK_ZOMBIE /\ exit_status z = 7.
Proof.
  destruct (exit_contract running demo_queue demo_shell 7 (1, 2, 3) demo_fs running_ok) as
    (k' & Hrun & Hok & _ & (z & Hz & Hzs & Hze & _) & Hc & _).
  - reflexivity.
  - discriminate.
  - reflexivity.
  - exists k'. split; [exact Hrun|]. split; [exact Hok|]. split; [exact Hc|]. exists z. repeat split; assumption.
Defined.

Lemma waitpid_contract_witness : exists k' l1 l2, task_waitpid 2 0 (demo_kernel demo_shell TASK_ZOMBIE demo_fs) = Ok (2, k') /\
  process_ok k' (l1 ++ l2) /\ tasks k' !! 0x28000 = None.
Proof.
  destruct (waitpid_contract (demo_kernel demo_shell TASK_ZOMBIE demo_fs) demo_queue demo_shell 2 0) as
    [[[H|H] _]|(x & c & _ & Hx & Hid & _ & [[Hz _]|(_ & k' & l1 & l2 & Hrun & _ & Hok & Hno & _)])].
  - exact (demo_ok demo_shell TASK_ZOMBIE demo_fs (same_task_refl demo_shell)).
  - reflexivity.
  - reflexivity.
  - left. reflexivity.
  - exfalso. lia.
  - exfalso. apply (H 0x28000 (demo_child TASK_ZOMBIE)); reflexivity.
  - exfalso. apply demo_tasks in Hx. destruct Hx as [[-> ->]|[[-> ->]|[-> ->]]]; [discriminate Hid|discriminate Hid|]. apply Hz. reflexivity.
  - exists k', l1, l2. split; [exact Hrun|]. split; [exact Hok|]. apply demo_tasks in Hx.
    destruct Hx as [[-> ->]|[[-> ->]|[-> ->]]]; [discriminate Hid|discriminate Hid|exact Hno].
Defined.





