(* ===== verification/ProcessMemory.v ===== *)
(** * What a process can do to memory: isolation and the heap *)

From S2P Require Import Prelude LinkedList Memory Kmalloc Frames Paging PagingProofs Vfs Initrd Task AddressSpace Scheduler UserSpace UserMemory Signal Process ProcessInv ProcessOps Exit Reap Demo.

Section memory.
Context {K S : Type} `{!Kmalloc K} `{!KmallocLaws K} `{!HasMemory S}.
Implicit Types k : kernel page_bytes K S.
Implicit Types m : mm page_bytes K.

(** C3: processes are isolated from each other.  At a user address the
    running process's load and store fault exactly when its page tables
    map nothing there; otherwise the load gives the byte of its own
    memory, and the store changes that byte and no byte of its own or of
    any other process's memory besides, whatever the page tables map. *)
Theorem memory_isolated k q t a v : process_ok k q -> tasks k !! current_task k = Some t -> user_address a ->
  (space (kmm k) (task_directory t) a = None -> vload8 a k = Panic PAGE_FAULT /\ vstore8 a v k = Panic PAGE_FAULT) /\
  (forall w, space (kmm k) (task_directory t) a = Some w -> vload8 a k = Ok w /\
     exists k', vstore8 a v k = Ok k' /\ process_ok k' q /\ tasks k' = tasks k /\
       vload8 a k' = Ok (u8 v) /\
       forall x u b, tasks k !! x = Some u -> user_address b -> x <> current_task k \/ b <> a ->
         space (kmm k') (task_directory u) b = space (kmm k) (task_directory u) b).
Proof.
  intros Hk Ht Ha. pose proof (po_vm _ _ Hk) as Hvm. pose proof (po_region _ _ Hk) as Hreg.
  rewrite (vload8_space k a Hvm Hreg Ha), (po_current _ _ Hk t Ht). split.
  - intros Hn. rewrite Hn. split; [done|]. unfold vstore8. rewrite (locate_pte k a Hvm Hreg Ha), (po_current _ _ Hk t Ht).
    unfold space in Hn. by destruct (pte (kmm k) (task_directory t) (a / 0x1000)).
  - intros w Hw. rewrite Hw. split; [done|].
    assert (exists k', vstore8 a v k = Ok k') as [k' Hrun].
    { unfold vstore8. rewrite (locate_pte k a Hvm Hreg Ha), (po_current _ _ Hk t Ht). unfold space in Hw.
      destruct (pte (kmm k) (task_directory t) (a / 0x1000)); [rsimpl; eauto|done]. }
    pose proof (vstore8_stored k a v k' Hvm Hreg Ha Hrun) as Hs. pose proof (stored_process_ok _ _ _ _ _ Hk Hs) as Hk'.
    pose proof Hs as [(c & ->) Hnew _ Hold]. exists (with_contents k c). split_and!; try done.
    + rewrite (vload8_space _ a (po_vm _ _ Hk') (po_region _ _ Hk') Ha). specialize (Hnew 0%nat v eq_refl).
      rewrite Z.add_0_r in Hnew. change (current_directory (kmm (with_contents k c))) with (current_directory (kmm k)).
      by rewrite Hnew.
    + intros x u b Hu Hb Hor. apply Hold; [done|]. rewrite (po_current _ _ Hk t Ht). simpl.
      destruct (decide (x = current_task k)) as [->|Hne].
      * assert (u = t) as -> by congruence. right. destruct Hor as [?|?]; [done|lia].
      * left. intros E. apply Hne. by eapply (po_directories _ _ Hk).
Qed.

Lemma mapped_range_space m m' dir lo hi d a : vm_ok m -> user_region_free m -> mapped_range m m' dir lo hi -> user_address a ->
  is_Some (directories m !! d) -> d <> dir \/ ~ lo <= a / 0x1000 < hi -> space m' d a = space m d a.
Proof.
  intros Hvm Hreg Hmr Ha Hd Hor. pose proof (user_address_range a Ha) as Hr. unfold space.
  rewrite (mr_pte _ _ _ _ _ Hmr) by (done || (unfold user_range in Hr; lia)).
  destruct (pte m d (a / 0x1000)) as [p|] eqn:Hp; [|done]. simpl.
  destruct (pte_frame m d _ p Hvm Hreg Hr Hp) as (H1 & _ & H2). by rewrite (mr_contents _ _ _ _ _ Hmr).
Qed.

Lemma mapped_range_zero m m' dir lo hi a : mapped_range m m' dir lo hi -> lo <= a / 0x1000 < hi -> space m' dir a = Some 0.
Proof.
  intros Hmr Ha. destruct (mr_new _ _ _ _ _ Hmr _ Ha) as (p & Hp & _ & _ & _ & _ & _ & Hz). unfold space. rewrite Hp. simpl.
  by rewrite Hz.
Qed.

(** C34: sbrk.  The break of a user process moves by the increment, and the
    old break is returned, exactly when the new break is inside the
    process's heap bounds; any other increment, including those whose sum
    wraps around 32 bits, returns -1 and changes nothing.  On success the
    heap is mapped up to the page that holds the new break, the new pages
    read as zeros, shrinking unmaps nothing, no other byte of any process
    changes, and the process invariant still holds.  (When frames run out
    the kernel halts.) *)
Theorem sbrk_contract k q t increment : process_ok k q -> tasks k !! current_task k = Some t -> is_user_process t <> 0 ->
  - 2 ^ 31 <= increment < 2 ^ 31 ->
  let brk := heap_break t + increment in
  let mapped := Z.max (heap_mapped_end t) (PAGE_ALIGN_UP brk) in
  (~ heap_start t <= brk <= heap_limit t -> task_sbrk increment k = Ok (0xFFFFFFFF, k)) /\
  (heap_start t <= brk <= heap_limit t ->
     clone_failure (task_sbrk increment k) \/
     exists k', task_sbrk increment k = Ok (heap_break t, k') /\ process_ok k' q /\
       tasks k' = <[current_task k := set_heap brk mapped t]> (tasks k) /\ brk <= mapped < Z.max (heap_mapped_end t + 1) (brk + 0x1000) /\
       (forall a, heap_mapped_end t <= a < mapped -> space (kmm k') (task_directory t) a = Some 0) /\
       (forall d a, is_Some (directories (kmm k) !! d) -> user_address a ->
          d <> task_directory t \/ ~ heap_mapped_end t <= a < mapped -> space (kmm k') d a = space (kmm k) d a)).
Proof.
  intros Hk Ht Hu Hi brk mapped. destruct (task_sbrk_spec k q t increment Hk Ht Hu Hi) as [Hout Hin].
  fold brk in Hout, Hin. split; [done|]. intros Hb. destruct (Hin Hb) as [?|(m' & Hrun & Hmr & Hok)]; [by left|right].
  fold mapped in Hmr, Hok, Hrun. pose proof (po_tasks _ _ Hk _ _ Ht) as Htk. destruct (to_heap _ _ _ Htk Hu) as [A O _ _].
  unfold USER_HEAP_LIMIT in O. destruct (page_align_up_spec brk) as [Hal Hup]; [lia|].
  assert (mapped mod 0x1000 = 0) as Hma by (unfold mapped; destruct (Z.max_spec (heap_mapped_end t) (PAGE_ALIGN_UP brk)) as [[_ ->]|[_ ->]]; tauto).
  eexists. split; [exact Hrun|]. split_and!; try done.
  - by rewrite (update_task_ok (with_mm k m') (current_task k) _ t Ht).
  - unfold mapped. lia.
  - unfold mapped. lia.
  - intros a Ha. eapply mapped_range_zero; [exact Hmr|]. Z.div_mod_to_equations. lia.
  - intros d a Hd Ha Hor. eapply mapped_range_space; [apply Hk|apply Hk|exact Hmr|done|done|].
    destruct Hor as [?|Hn]; [by left|right]. intros Hr. apply Hn. clear Hn Hmr. Z.div_mod_to_equations. lia.
Qed.
End memory.

Lemma memory_isolated_witness : vload8 0xBFFFE00A (demo_kernel demo_shell TASK_RUNNABLE demo_fs) = Ok 10 /\
  exists k', vstore8 0xBFFFE00A 300 (demo_kernel demo_shell TASK_RUNNABLE demo_fs) = Ok k' /\ vload8 0xBFFFE00A k' = Ok 44 /\
    space (kmm k') 0x40000 0xBFFFE00A = Some 0.
Proof.
  destruct (memory_isolated _ demo_queue demo_shell 0xBFFFE00A 300 demo_base_ok) as [_ H].
  - reflexivity.
  - unfold user_address. lia.
  - destruct (H 10) as (Hl & k' & Hs & _ & _ & Hl' & Ho); [reflexivity|]. split; [exact Hl|]. exists k'.
    split; [exact Hs|]. split; [exact Hl'|].
    etransitivity; [apply (Ho 0x28000 (demo_child TASK_RUNNABLE) 0xBFFFE00A); [reflexivity|unfold user_address; lia|left; discriminate]|reflexivity].
Defined.

Lemma sbrk_runs : is_ok (task_sbrk 0x1001 (demo_kernel demo_shell TASK_RUNNABLE demo_fs)) = true.
Proof. vm_compute. reflexivity. Qed.

Lemma sbrk_contract_witness : exists k', task_sbrk 0x1001 (demo_kernel demo_shell TASK_RUNNABLE demo_fs) = Ok (0x40000000, k') /\
  process_ok k' demo_queue /\ space (kmm k') 0x30000 0x40001FFF = Some 0.
Proof.
  destruct (sbrk_contract _ demo_queue demo_shell 0x1001 demo_base_ok) as [_ H].
  - reflexivity.
  - discriminate.
  - lia.
  - destruct H as [Hf|(k' & Hrun & Hok & _ & _ & Hz & _)].
    + vm_compute. split; discriminate.
    + exfalso. destruct (is_ok_true _ sbrk_runs) as [x Hx]. exact (clone_failure_not_ok _ Hf x Hx).
    + exists k'. split; [exact Hrun|]. split; [exact Hok|]. apply Hz. vm_compute. split; [discriminate|reflexivity].
Defined.
