(* ===== verification/Descriptors.v ===== *)
(** * The descriptor table of a process *)

From S2P Require Import Prelude LinkedList Memory Kmalloc Frames Paging PagingProofs Vfs Initrd Task AddressSpace Scheduler UserSpace Signal Process ProcessInv ProcessOps Exit Demo.

(** Slot [fd] of a table is free. *)
Definition slot_free (ds : list file_descriptor) (fd : nat) : Prop := exists d, ds !! fd = Some d /\ kind d = FD_KIND_FREE.

Lemma free_slot_spec fuel : forall fd ds, (fd + fuel <= List.length ds)%nat ->
  match free_slot fuel fd ds with
  | Some i => (fd <= i < fd + fuel)%nat /\ slot_free ds i /\ forall j, (fd <= j < i)%nat -> ~ slot_free ds j
  | None => forall j, (fd <= j < fd + fuel)%nat -> ~ slot_free ds j
  end.
Proof.
  induction fuel as [|fuel IH]; intros fd ds Hl; cbn [free_slot]; [lia|].
  destruct (lookup_lt_is_Some_2 ds fd) as [d Hd]; [lia|]. rewrite Hd. case_decide as Hk.
  - split_and!; [lia|lia|by exists d|lia].
  - assert (~ slot_free ds fd) as Hno by (intros (d' & Hd' & ?); congruence).
    specialize (IH (Datatypes.S fd) ds ltac:(lia)). destruct (free_slot fuel (Datatypes.S fd) ds) as [i|].
    + destruct IH as (H1 & H2 & H3). split_and!; [lia|lia|done|]. intros j Hj.
      destruct (decide (j = fd)) as [->|]; [done|]. apply H3. lia.
    + intros j Hj. destruct (decide (j = fd)) as [->|]; [done|]. apply IH. lia.
Qed.

Section descriptors.
Context {K S Cb : Type} `{!Kmalloc K} `{!KmallocLaws K} `{!FsDriver S Cb}.
Implicit Types k : kernel page_bytes K S.

Lemma set_descriptor_spec k q t fd d : process_ok k q -> tasks k !! current_task k = Some t ->
  set_descriptor fd d k = with_tasks k (<[current_task k := set_descriptors (<[Z.to_nat fd := d]> (descriptors t)) t]> (tasks k)) /\
  process_ok (set_descriptor fd d k) q.
Proof.
  intros Hk Ht. split; [unfold set_descriptor; by rewrite (update_task_ok k _ _ t Ht)|].
  apply (quiet_process_ok k _ q Hk), quiet_update; [|done].
  intros u Hu. split; try done. simpl. apply length_insert.
Qed.

Lemma get_descriptor_spec k q t fd : process_ok k q -> tasks k !! current_task k = Some t ->
  task_get_descriptor fd k = Ok (if decide (0 <= fd < 16) then
    d ← descriptors t !! Z.to_nat fd; if decide (kind d = FD_KIND_FREE) then None else Some d else None).
Proof.
  intros Hk Ht. destruct (current_task_ok k q Hk) as (t' & _ & H0). unfold task_get_descriptor.
  rewrite (proj2 (Z.eqb_neq _ 0)) by done. change (Z.of_nat MAX_FILE_DESCRIPTORS) with 16. cbn [orb].
  destruct (Z.ltb_spec fd 0), (Z.leb_spec 16 fd); cbn [orb]; case_decide; try done; try lia.
  rewrite (get_task_ok _ _ _ Ht). rsimpl.
  destruct (lookup_lt_is_Some_2 (descriptors t) (Z.to_nat fd)) as [d Hd];
    [rewrite (to_descriptors _ _ _ (po_tasks _ _ Hk _ _ Ht)); unfold MAX_FILE_DESCRIPTORS; lia|].
  rewrite Hd. cbn [mbind option_bind]. by case_decide.
Qed.

(** Descriptors.  Opening a node takes the lowest free descriptor from
    3 on, with offset 0, tells the driver, and changes no other descriptor
    or task; it fails, changing nothing, exactly when descriptors 3 to 15
    are all in use.  Reading the descriptor back gives the node, and
    closing it again tells the driver and restores the table. *)
Theorem descriptor_round_trip k q t nd flags f : process_ok k q -> tasks k !! current_task k = Some t -> nd <> 0 ->
  open_fs nd 1 0 (kfs k) = Ok f ->
  ((forall j, (3 <= j < 16)%nat -> ~ slot_free (descriptors t) j) /\ task_open_descriptor nd flags k = Ok (-1, k)) \/
  exists i k', (3 <= i < 16)%nat /\ slot_free (descriptors t) i /\ (forall j, (3 <= j < i)%nat -> ~ slot_free (descriptors t) j) /\
    task_open_descriptor nd flags k = Ok (Z.of_nat i, k') /\ process_ok k' q /\ kfs k' = f /\
    task_get_descriptor (Z.of_nat i) k' = Ok (Some (mk_descriptor FD_KIND_NODE nd 0 flags)) /\
    (forall fd, fd <> Z.of_nat i -> task_get_descriptor fd k' = task_get_descriptor fd k) /\
    (forall x, x <> current_task k -> tasks k' !! x = tasks k !! x) /\
    forall f', close_fs nd f = Ok f' -> exists k'', task_close_descriptor (Z.of_nat i) k' = Ok (0, k'') /\
      process_ok k'' q /\ kfs k'' = f' /\
      (descriptors t !! i = Some free_descriptor -> tasks k'' = tasks k).
Proof.
  intros Hk Ht Hnd Hopen. destruct (current_task_ok k q Hk) as (t' & _ & H0). pose proof (po_tasks _ _ Hk _ _ Ht) as Htk.
  pose proof (to_descriptors _ _ _ Htk) as Hlen. unfold MAX_FILE_DESCRIPTORS in Hlen.
  unfold task_open_descriptor. rewrite !(proj2 (Z.eqb_neq _ 0)) by done. cbn [orb]. rewrite (get_task_ok _ _ _ Ht). rsimpl.
  change (MAX_FILE_DESCRIPTORS - 3)%nat with 13%nat.
  pose proof (free_slot_spec 13 3 (descriptors t)) as Hfree. rewrite Hlen in Hfree. specialize (Hfree ltac:(lia)).
  destruct (free_slot 13 3 (descriptors t)) as [i|]; [right|left; split; [exact Hfree|done]].
  destruct Hfree as (Hi & Hfr & Hlow). set (d := mk_descriptor FD_KIND_NODE nd 0 flags).
  destruct (set_descriptor_spec k q t (Z.of_nat i) d Hk Ht) as [E Hk1]. rewrite Nat2Z.id in E.
  change (kfs (set_descriptor (Z.of_nat i) d k)) with (kfs k). rewrite Hopen. rsimpl.
  exists i. eexists. split; [lia|]. split; [done|]. split; [exact Hlow|]. split; [done|].
  set (k1 := with_fs (set_descriptor (Z.of_nat i) d k) f). set (t1 := set_descriptors (<[i := d]> (descriptors t)) t).
  assert (process_ok k1 q) as Hok1 by (apply (quiet_process_ok _ _ _ Hk1), quiet_fs).
  assert (tasks k1 = <[current_task k := t1]> (tasks k)) as Ets by (change (tasks (set_descriptor (Z.of_nat i) d k) = <[current_task k := t1]> (tasks k)); by rewrite E).
  assert (tasks k1 !! current_task k1 = Some t1) as Ht1 by (rewrite Ets; apply lookup_insert_eq).
  split; [done|]. split; [done|]. split; [|split; [|split]].
  - rewrite (get_descriptor_spec k1 q t1 _ Hok1 Ht1). rewrite decide_True by lia. rewrite Nat2Z.id. unfold t1. cbn [descriptors set_descriptors].
    rewrite list_lookup_insert_eq by lia. cbn [mbind option_bind]. by rewrite decide_False.
  - intros fd Hfd. rewrite (get_descriptor_spec k1 q t1 _ Hok1 Ht1), (get_descriptor_spec k q t _ Hk Ht). f_equal.
    case_decide; [|done]. unfold t1. cbn [descriptors set_descriptors]. by rewrite list_lookup_insert_ne by lia.
  - intros x Hx. rewrite Ets. by rewrite lookup_insert_ne.
  - intros f' Hclose. unfold task_close_descriptor. change (Z.of_nat MAX_FILE_DESCRIPTORS) with 16.
    rewrite (proj2 (Z.ltb_ge _ 3)), (proj2 (Z.leb_gt 16 _)) by lia. cbn [orb].
    rewrite (proj2 (Z.eqb_neq (current_task k1) 0)) by done.
    rewrite (get_task_ok _ _ _ Ht1). rsimpl. rewrite Nat2Z.id. unfold t1 at 1. cbn [descriptors set_descriptors].
    rewrite list_lookup_insert_eq by lia. rewrite decide_False, decide_True by done. change (kfs k1) with f. cbn [node d].
    rewrite Hclose. rsimpl. eexists. split; [done|].
    assert (process_ok (with_fs k1 f') q) as Hok2 by (apply (quiet_process_ok _ _ _ Hok1), quiet_fs).
    destruct (set_descriptor_spec (with_fs k1 f') q t1 (Z.of_nat i) free_descriptor Hok2 Ht1) as [E2 Hok3]. split; [done|].
    rewrite E2. split; [done|]. intros Hdi. change (<[current_task k := set_descriptors (<[Z.to_nat (Z.of_nat i):=free_descriptor]> (descriptors t1)) t1]> (tasks k1) = tasks k). rewrite Ets, insert_insert_eq. apply insert_id. rewrite Ht. f_equal.
    unfold t1. simpl. rewrite Nat2Z.id, list_insert_insert_eq, list_insert_id by done. by destruct t.
Qed.

(** What [origin] seeks from. *)
Definition seek_base (d : file_descriptor) (n : fs_node Cb) (origin : Z) : option Z :=
  if decide (origin = 0) then Some 0 else if decide (origin = 1) then Some (offset d)
  else if decide (origin = 2) then Some (length n) else None.

(** Seeking stays in bounds.  On an open file, seeking by a signed 32-bit
    amount from the start, the current offset or the end succeeds exactly
    when the target is in [0, 2^31 - 1], provided the origin itself is; it
    then returns the target and makes it the new offset.  Without that
    proviso a negative seek from an origin above 2^31 - 1 also succeeds,
    and returns the target as a negative number when it is still above.
    Otherwise, and for any other [origin], the result is -1 and nothing
    changes. *)
Theorem seek_bounds k q t fd d n seek origin : process_ok k q -> tasks k !! current_task k = Some t ->
  0 <= fd < 16 -> descriptors t !! Z.to_nat fd = Some d -> kind d = FD_KIND_NODE -> node d <> 0 ->
  deref (node d) (kfs k) = Ok n -> - 2 ^ 31 <= seek < 2 ^ 31 -> 0 <= offset d < 2 ^ 32 -> 0 <= length n < 2 ^ 32 ->
  let moved target := set_descriptor fd (mk_descriptor FD_KIND_NODE (node d) target (fd_flags d)) k in
  match seek_base d n origin with
  | None => task_seek_descriptor fd seek origin k = Ok (-1, k)
  | Some b =>
      let target := b + seek in
      (task_seek_descriptor fd seek origin k =
        if decide (0 <= target /\ (target <= 0x7FFFFFFF \/ seek < 0)) then Ok (s32 target, moved target) else Ok (-1, k)) /\
      (b <= 0x7FFFFFFF -> task_seek_descriptor fd seek origin k =
        if decide (0 <= target <= 0x7FFFFFFF) then Ok (target, moved target) else Ok (-1, k)) /\
      (0 <= target -> process_ok (moved target) q /\
         task_get_descriptor fd (moved target) = Ok (Some (mk_descriptor FD_KIND_NODE (node d) target (fd_flags d))))
  end.
Proof.
  intros Hk Ht Hfd Hd Hkind Hnode Hn Hs Ho Hl moved.
  assert (task_seek_descriptor fd seek origin k = match seek_base d n origin with
    | None => Ok (-1, k)
    | Some b => if decide (0 <= b + seek /\ (b + seek <= 0x7FFFFFFF \/ seek < 0)) then Ok (s32 (b + seek), moved (b + seek)) else Ok (-1, k)
    end) as E.
  { unfold task_seek_descriptor. rewrite (get_descriptor_spec k q t fd Hk Ht), decide_True by done. rewrite Hd. rsimpl.
    cbn [mbind option_bind]. rewrite decide_False by congruence. rewrite Hkind, bool_decide_eq_true_2 by done.
    rewrite (proj2 (Z.eqb_neq (node d) 0)) by done. cbn [orb negb].
    assert ((if origin =? 0 then Ok (Some 0) else if origin =? 1 then Ok (Some (offset d))
             else if origin =? 2 then n ← deref (node d) (kfs k); Ok (Some (length n)) else Ok None) = Ok (seek_base d n origin)) as ->.
    { unfold seek_base. destruct (Z.eqb_spec origin 0), (Z.eqb_spec origin 1), (Z.eqb_spec origin 2);
        repeat case_decide; try lia; rewrite ?Hn; rsimpl; try done. }
    rsimpl. destruct (seek_base d n origin) as [b|] eqn:Eb; [|done].
    assert (0 <= b < 2 ^ 32) as Hb by (unfold seek_base in Eb; repeat case_decide; simplify_eq; lia).
    destruct (Z.leb_spec 0 seek).
    - rewrite (u32_small seek) by lia. destruct (Z.ltb_spec 0x7FFFFFFF b), (Z.ltb_spec (0x7FFFFFFF - b) seek); cbn [orb];
        case_decide; try done; lia.
    - assert (u32 (0 - u32 seek) = - seek) as ->.
      { unfold u32. rewrite Zminus_mod_idemp_r. change (0 - seek) with (- seek). apply Z.mod_small. lia. }
      destruct (Z.ltb_spec b (- seek)); case_decide; try lia; [done|]. by replace (b - - seek) with (b + seek) by lia. }
  destruct (seek_base d n origin) as [b|] eqn:Eb; [|done]. cbv zeta. split; [done|]. split.
  - intros Hb. rewrite E. assert (0 <= b) by (unfold seek_base in Eb; repeat case_decide; simplify_eq; lia).
    repeat case_decide; try lia; [|done]. by rewrite s32_small by lia.
  - intros H0. destruct (set_descriptor_spec k q t fd (mk_descriptor FD_KIND_NODE (node d) (b + seek) (fd_flags d)) Hk Ht) as [Es Hok].
    split; [done|]. set (t1 := set_descriptors (<[Z.to_nat fd:=mk_descriptor FD_KIND_NODE (node d) (b + seek) (fd_flags d)]> (descriptors t)) t) in *.
    unfold moved in *. rewrite (get_descriptor_spec _ q t1 fd Hok).
    + rewrite decide_True by done. unfold t1. cbn [descriptors set_descriptors]. apply lookup_lt_Some in Hd.
      rewrite list_lookup_insert_eq by done. cbn [mbind option_bind]. by rewrite decide_False.
    + change (current_task (moved (b + seek))) with (current_task k). unfold moved. rewrite Es. apply lookup_insert_eq.
Qed.
End descriptors.

Lemma descriptor_round_trip_witness : exists k' k'',
  task_open_descriptor 0x90000 1 (demo_kernel demo_shell TASK_RUNNABLE demo_file_fs) = Ok (3, k') /\
  task_get_descriptor 3 k' = Ok (Some (mk_descriptor FD_KIND_NODE 0x90000 0 1)) /\
  task_close_descriptor 3 k' = Ok (0, k'') /\ tasks k'' = tasks (demo_kernel demo_shell TASK_RUNNABLE demo_file_fs).
Proof.
  destruct (descriptor_round_trip (demo_kernel demo_shell TASK_RUNNABLE demo_file_fs) demo_queue demo_shell 0x90000 1 demo_file_fs) as
    [[Hno _]|(i & k' & Hi & Hfree & Hlow & Hrun & _ & _ & Hget & _ & _ & Hclose)].
  - apply demo_ok. apply same_task_refl.
  - reflexivity.
  - discriminate.
  - reflexivity.
  - exfalso. apply (Hno 3%nat); [lia|]. exists free_descriptor. split; reflexivity.
  - assert (i = 3%nat) as ->.
    { destruct (decide (i = 3%nat)) as [E|E]; [exact E|]. exfalso. apply (Hlow 3%nat); [lia|]. exists free_descriptor. split; reflexivity. }
    destruct (Hclose demo_file_fs eq_refl) as (k'' & Hc & _ & _ & Ht). exists k', k''.
    split; [exact Hrun|]. split; [exact Hget|]. split; [exact Hc|]. apply Ht. reflexivity.
Defined.

Lemma seek_bounds_witness : exists k', task_seek_descriptor 3 (-5) 2 (demo_kernel demo_reader TASK_RUNNABLE demo_file_fs) = Ok (95, k') /\
  process_ok k' demo_queue.
Proof.
  pose proof (seek_bounds (demo_kernel demo_reader TASK_RUNNABLE demo_file_fs) demo_queue demo_reader 3 (mk_descriptor FD_KIND_NODE 0x90000 10 0)
    (fs demo_file) (-5) 2 demo_reader_ok) as H.
  destruct H as (_ & H1 & H2); [reflexivity|lia|reflexivity|reflexivity|discriminate|reflexivity|lia|simpl; lia|simpl; lia|].
  eexists. split; [apply H1; simpl; lia|]. apply H2. simpl. lia.
Defined.
