(* ===== verification/SignalTheorems.v ===== *)
(** * Signals: what delivery does, and the way back *)

From S2P Require Import Prelude LinkedList Memory Kmalloc Frames Paging PagingProofs Vfs Initrd Task AddressSpace Scheduler UserSpace UserMemory Signal Process ProcessInv ProcessOps Exit Reap Delivery Demo.

Section signals.
Context {K S Cb : Type} `{!Kmalloc K} `{!KmallocLaws K} `{!HasMemory S} `{!FsDriver S Cb}.
Implicit Types k : kernel page_bytes K S.

(** The user stack of [t] is mapped. *)
Definition stack_mapped k (t : task) : Prop :=
  forall b, STACK_BOTTOM <= b < USER_STACK_TOP -> is_Some (pte (kmm k) (task_directory t) (b / 0x1000)).

(** [n] is the signal [t] takes next. *)
Definition next_signal (t : task) (n : Z) : Prop :=
  1 <= n < 32 /\ pends (pending_signals t) n = true /\ forall j, 1 <= j < n -> pends (pending_signals t) j = false.

Lemma next_signal_lowest t n : next_signal t n -> lowest_pending t = n.
Proof.
  intros (Hn & Hp & Hl). destruct (lowest_pending_spec t) as [[_ H]|(H1 & H2 & H3)]; [by rewrite H in Hp by lia|].
  destruct (Z.lt_trichotomy (lowest_pending t) n) as [H|[H|H]]; [|done|].
  - by rewrite Hl in H2 by lia.
  - by rewrite H3 in Hp by lia.
Qed.

Lemma fatal_spec k q t cpu f : process_ok k q -> tasks k !! current_task k = Some t -> is_user_process t <> 0 ->
  notify_close (descriptors t) (kfs k) = Ok f ->
  let n := lowest_pending t in
  exists k' z, (k ← task_exit (128 + n) cpu (with_taken k t); Ok (Exited k)) = Ok (Exited k') /\ process_ok k' q /\
    tasks k' !! current_task k = Some z /\ state z = TASK_ZOMBIE /\ exit_status z = 128 + n /\
    current_task k' <> current_task k.
Proof.
  intros Hk Ht Hu Hf n.
  destruct (exit_spec (with_taken k t) q (taken n t) (128 + n) cpu f) as (k' & -> & [E1 [E2 _] _ _ Hok]);
    [by apply with_taken_ok|apply lookup_insert_eq|done|done|].
  rsimpl. exists k', (set_context cpu.1.1 cpu.1.2 cpu.2 (zombie (128 + n) (taken n t))). split_and!; try done.
  rewrite E1, lookup_alter_eq. by rewrite exit_store_self.
Qed.

(** C17: signal delivery.  On the way back to user mode nothing happens unless
    a user process that is not already in a handler has a pending signal;
    then the lowest one is taken.  If the process ignores it that is all.
    If its action is the default one, or it is SIGKILL, or there is no room
    for a signal frame on the process's stack, the process exits with
    status 128 plus the number.  Otherwise the process resumes in its
    handler with the interrupted registers in a frame below its stack
    pointer, 16-byte aligned; no other byte of any memory changes. *)
Theorem signal_delivery k q t r cpu f : process_ok k q -> tasks k !! current_task k = Some t ->
  notify_close (descriptors t) (kfs k) = Ok f -> stack_mapped k t ->
  ((deliverable t r = false \/ forall j, 1 <= j < 32 -> pends (pending_signals t) j = false) /\
     task_signal_deliver r cpu k = Ok (Resumes r k)) \/
  deliverable t r = true /\ exists n, next_signal t n /\
    (reaction_to t n = Ignored /\ (exists k', task_signal_deliver r cpu k = Ok (Resumes r k') /\ process_ok k' q /\
       tasks k' = <[current_task k := taken n t]> (tasks k) /\ kmm k' = kmm k) \/
     (reaction_to t n = Fatal \/ (exists h, reaction_to t n = Caught h) /\ frame_fits t (r_useresp r) = false) /\
       (exists k' z, task_signal_deliver r cpu k = Ok (Exited k') /\ process_ok k' q /\
         tasks k' !! current_task k = Some z /\ state z = TASK_ZOMBIE /\ exit_status z = 128 + n /\
         current_task k' <> current_task k) \/
     frame_fits t (r_useresp r) = true /\ exists h a k', reaction_to t n = Caught h /\
       task_signal_deliver r cpu k = Ok (Resumes (set_resumption h a r) k') /\ process_ok k' q /\
       a mod 16 = 0 /\ STACK_BOTTOM <= a /\ a + sizeof_signal_frame <= r_useresp r /\
       tasks k' = <[current_task k := set_active 1 n (taken n t)]> (tasks k) /\
       (forall d b, user_address b -> d <> task_directory t \/ ~ a <= b < a + sizeof_signal_frame ->
          space (kmm k') d b = space (kmm k) d b)).
Proof.
  intros Hk Ht Hf Hm. destruct (deliverable t r) eqn:Hd; [|left; split; [by left|]; apply (deliver_nothing k q t); auto].
  destruct (lowest_pending_spec t) as [[H0 Hno]|(H1 & H2 & H3)]; [left; split; [by right|]; apply (deliver_nothing k q t); auto|].
  right. split; [done|]. exists (lowest_pending t). split; [done|]. set (n := lowest_pending t).
  assert (is_user_process t <> 0) as Hu.
  { unfold deliverable in Hd. destruct (Z.eqb_spec (is_user_process t) 0); done. }
  assert (lowest_pending t <> 0) as Hn by lia.
  destruct (fatal_spec k q t cpu f Hk Ht Hu Hf) as (k' & z & Hrun & Hex).
  pose proof (deliver_taken k q t r cpu Hk Ht Hd Hn) as E. cbv zeta in E. fold n in E, Hrun.
  destruct (reaction_to t n) as [| |h] eqn:Hr.
  - left. split; [done|]. exists (with_taken k t). split_and!; try done. by apply with_taken_ok.
  - right. left. split; [by left|]. exists k', z. rewrite E. done.
  - destruct (frame_fits t (r_useresp r)) eqn:Hfit; right; [right|left].
    + split; [done|]. destruct (caught_spec k q t r cpu h Hk Ht Hd Hn Hr Hfit Hm) as (k2 & Hrun2 & Hs & Hok).
      fold n in Hrun2, Hs, Hok. exists h, (frame_address (r_useresp r)). eexists. split; [done|]. split; [exact Hrun2|].
      unfold frame_fits in Hfit. apply andb_true_iff in Hfit as [[F1%Z.leb_le F2%Z.leb_le]%andb_true_iff _].
      destruct (frame_address_spec (r_useresp r)) as (Ha & Hlo & Hhi); [lia|]. split_and!; try done; [unfold sizeof_signal_frame in *; lia| |].
      * destruct Hs as [(c & ->) _ _ _]. change (tasks (update_task (current_task k) (set_active 1 n) (with_contents (with_taken k t) c)))
          with (tasks (update_task (current_task k) (set_active 1 n) (with_taken k t))).
        rewrite (update_task_ok (with_taken k t) (current_task k) _ (taken n t)) by apply lookup_insert_eq. simpl.
        by rewrite insert_insert_eq.
      * intros d b Hb Hor. change (space (kmm k2) d b = space (kmm (with_taken k t)) d b). apply (so_old _ _ _ _ Hs); [done|].
        change (current_directory (kmm (with_taken k t))) with (current_directory (kmm k)).
        rewrite (po_current _ _ Hk t Ht), frame_bytes_length. unfold sizeof_signal_frame in Hor. lia.
    + split; [right; eauto|]. exists k', z. rewrite E. done.
Qed.

(** C16: a signal handler returns to exactly where it interrupted.  When a
    signal is caught, the process resumes in the handler with [useresp] at
    the signal frame, and its first word is the trampoline.  Whatever
    happens until the handler is done - to this process, to others, to the
    rest of memory - if the seventy-two bytes after that word are still
    what the kernel stored and the process is still in the handler of that
    signal, then [task_signal_return] succeeds, gives back all sixteen
    registers of the interrupted frame, and leaves the handler. *)
Theorem signal_round_trip k q t r cpu n h : process_ok k q -> tasks k !! current_task k = Some t -> deliverable t r = true ->
  next_signal t n -> reaction_to t n = Caught h -> frame_fits t (r_useresp r) = true -> stack_mapped k t -> registers_ok r ->
  exists k', let a := frame_address (r_useresp r) in
    task_signal_deliver r cpu k = Ok (Resumes (set_resumption h a r) k') /\ process_ok k' q /\
    vload32 a k' = Ok (u32 (signal_trampoline t)) /\
    forall k2 q2 t2 r', process_ok k2 q2 -> tasks k2 !! current_task k2 = Some t2 ->
      signal_active t2 = 1 -> active_signal t2 = n ->
      (forall b, a + 4 <= b < a + sizeof_signal_frame -> vload8 b k2 = vload8 b k') ->
      task_signal_return (a + 4) r' k2 = Ok (0, r, update_task (current_task k2) (set_active 0 0) k2).
Proof.
  intros Hk Ht Hd Hns Hr Hfit Hm Hro. pose proof (next_signal_lowest t n Hns) as El. destruct Hns as (Hn & _).
  rewrite <- El in Hr. destruct (caught_spec k q t r cpu h Hk Ht Hd ltac:(lia) Hr Hfit Hm) as (k2 & Hrun & Hs & Hok).
  rewrite El in Hrun, Hs, Hok. eexists. cbv zeta. split; [exact Hrun|]. split; [exact Hok|].
  unfold frame_fits in Hfit. apply andb_true_iff in Hfit as [[F1%Z.leb_le F2%Z.leb_le]%andb_true_iff _].
  destruct (frame_address_spec (r_useresp r)) as (Ha & Hlo & Hhi); [lia|]. set (a := frame_address (r_useresp r)) in *.
  pose proof (with_taken_ok k q t Hk Ht) as Hk1.
  assert (holds k2 a (frame_bytes t n r)) as Hh.
  { rewrite <- frame_bytes_u8. apply (stored_holds (with_taken k t)); [apply Hk1|apply Hk1|..|done]; rewrite ?frame_bytes_length;
      unfold STACK_BOTTOM, USER_STACK_TOP, TASK_STACK_SIZE, sizeof_signal_frame in *; lia. }
  unfold frame_bytes in Hh. apply holds_app in Hh as [Hh1 Hh2]. rewrite le32_length in Hh2. change (Z.of_nat 4) with 4 in Hh2.
  unfold STACK_BOTTOM, USER_STACK_TOP, TASK_STACK_SIZE, sizeof_signal_frame in *. split.
  - exact (vload32_holds k2 a (signal_trampoline t) Hh1 ltac:(lia) ltac:(lia)).
  - intros k3 q3 t3 r' Hk3 Ht3 Hact Hnum Hsame. apply (return_spec k3 q3 t3 a n r r'); try done; try lia; unfold is_u32; try lia.
    { unfold USER_STACK_TOP, sizeof_signal_frame. lia. }
    intros i v Hi. rewrite Hsame; [by apply Hh2|]. apply lookup_lt_Some in Hi.
    rewrite !length_app, !le32_length in Hi. pose proof (concat_le32_length (registers_words r)) as Hw.
    change (List.length (registers_words r)) with 16%nat in Hw. lia.
Qed.
End signals.

(** A shell with a handler for signal 10 and that signal pending, and the
    frame it was interrupted in. *)
Definition demo_catcher : task :=
  set_signals (<[10%nat := 0x400200]> (replicate 32 0)) 0x400 0x400300 0 0 demo_shell.
Definition demo_interrupted : registers :=
  mk_registers 0x23 1 2 3 4 5 6 7 57 0x80 0 0x400100 0x1B 0x202 0xBFFFFF00 0x23.
Definition catching : kernel page_bytes (gset Z) (initrd (gset Z)) := demo_kernel demo_catcher TASK_RUNNABLE demo_fs.

Lemma catching_ok : process_ok catching demo_queue.
Proof. apply demo_ok. by split. Qed.

Lemma demo_stack_page b : STACK_BOTTOM <= b < USER_STACK_TOP -> b / 0x1000 = 0xBFFFE \/ b / 0x1000 = 0xBFFFF.
Proof. unfold STACK_BOTTOM, USER_STACK_TOP, TASK_STACK_SIZE. intros Hb. Z.div_mod_to_equations. lia. Qed.

Lemma catching_stack : stack_mapped catching demo_catcher.
Proof. intros b Hb. destruct (demo_stack_page b Hb) as [-> | ->]; by eexists. Qed.

Lemma catching_next : next_signal demo_catcher 10.
Proof.
  split; [lia|]. split; [reflexivity|]. intros j Hj.
  assert (j = 1 \/ j = 2 \/ j = 3 \/ j = 4 \/ j = 5 \/ j = 6 \/ j = 7 \/ j = 8 \/ j = 9) as Hc by lia.
  by repeat destruct Hc as [->|Hc]; [..|rewrite Hc].
Qed.

Lemma signal_delivery_witness : exists h a k', task_signal_deliver demo_interrupted (1, 2, 3) catching =
    Ok (Resumes (set_resumption h a demo_interrupted) k') /\ process_ok k' demo_queue /\ h = 0x400200.
Proof.
  destruct (signal_delivery catching demo_queue demo_catcher demo_interrupted (1, 2, 3) demo_fs catching_ok) as
    [[[H|H] _]|(_ & n & Hn & [(H & _)|[([H|[_ H]] & _)|(_ & h & a & k' & Hr & Hrun & Hok & _)]])].
  - reflexivity.
  - reflexivity.
  - exact catching_stack.
  - discriminate H.
  - exfalso. pose proof (H 10 ltac:(lia)) as E. discriminate E.
  - exfalso. rewrite <- (next_signal_lowest _ _ Hn) in H. discriminate H.
  - exfalso. rewrite <- (next_signal_lowest _ _ Hn) in H. discriminate H.
  - discriminate H.
  - exists h, a, k'. split; [exact Hrun|]. split; [exact Hok|].
    rewrite <- (next_signal_lowest _ _ Hn) in Hr. assert (Caught 0x400200 = Caught h) as E by exact Hr. injection E as <-. reflexivity.
Defined.

Lemma signal_round_trip_witness : exists k', task_signal_deliver demo_interrupted (1, 2, 3) catching =
    Ok (Resumes (set_resumption 0x400200 0xBFFFFEB0 demo_interrupted) k') /\
  vload32 0xBFFFFEB0 k' = Ok 0x400300.
Proof.
  destruct (signal_round_trip catching demo_queue demo_catcher demo_interrupted (1, 2, 3) 10 0x400200 catching_ok) as (k' & Hrun & _ & Hl & _).
  - reflexivity.
  - reflexivity.
  - exact catching_next.
  - reflexivity.
  - reflexivity.
  - exact catching_stack.
  - repeat constructor; unfold is_u32; simpl; lia.
  - exists k'. split; [exact Hrun|exact Hl].
Defined.
