(* ===== verification/Steps.v ===== *)
(** * The process part of the kernel as a transition system

    [initialise_tasking] and [create_initial_user_process] establish the
    invariant; [step] is any operation of task.c and signal.c, a store of
    the running process or a change of the file system, and each keeps
    [sound]. *)

From S2P Require Import Prelude LinkedList Memory Kmalloc Frames Paging PagingProofs PagingTheorems AddressSpace AddressClone Vfs Initrd Task Scheduler UserSpace UserMemory Signal Process ProcessInv ProcessOps Fork Exit Reap Delivery Demo Descriptors.

Section spawn.
Context {K S Cb : Type} `{!Kmalloc K} `{!KmallocLaws K} `{!HasMemory S} `{!FsDriver S Cb}.
Implicit Types k : kernel page_bytes K S.
Implicit Types m : mm page_bytes K.

Lemma pte_kernel_none m v : user_region_free m -> user_range v -> pte m (kernel_directory m) v = None.
Proof.
  intros (kd & Hkd & Hfree) Hv. unfold pte, user_range in *. rewrite Hkd. cbn [mbind option_bind].
  rewrite Hfree by (Z.div_mod_to_equations; lia). done.
Qed.

(** Pages mapped in a directory that [m] does not have. *)
Lemma grown_mapped m m1 m2 nd lo hi : grown_mm m m1 -> directories m !! nd = None -> 0 <= lo ->
  mapped_range m1 m2 nd lo hi -> grown_mm m m2.
Proof.
  intros [G1 G2 G3 G4 G5 G6 G7 G8] Hnd Hlo Hmr. split.
  - apply Hmr.
  - eapply user_region_keep; [apply Hmr|apply Hmr|done].
  - rewrite (mr_kernel _ _ _ _ _ Hmr). done.
  - rewrite (mr_current _ _ _ _ _ Hmr). done.
  - intros d Hd. apply (mr_directories _ _ _ _ _ Hmr). auto.
  - intros x (P1 & P2 & P3)%G6. split_and!.
    + by apply (mr_blocks _ _ _ _ _ Hmr).
    + destruct (page_tables m2 !! x) eqn:E; [|done]. destruct (mr_tables _ _ _ _ _ Hmr x) as [[? ?]|?]; [eauto|congruence|done].
    + destruct (directories m2 !! x) eqn:E; [|done].
      destruct (proj1 (mr_directories _ _ _ _ _ Hmr x)) as [? ?]; [eauto|congruence].
  - intros x Hx. apply (mr_blocks _ _ _ _ _ Hmr). auto.
  - intros d v [y Hd] Hv. rewrite (mr_pte _ _ _ _ _ Hmr); [apply G8; eauto|apply G5; eauto|unfold user_range in Hv; lia|left; congruence].
Qed.

Definition first_process k (entry directory stack : Z) (cur : task) : task :=
  build_task (next_pid k) 0 directory stack (USER_HEAP_START, USER_HEAP_START, USER_HEAP_START, USER_HEAP_LIMIT) 1
    (descriptors cur) (working_directory cur) entry USER_STACK_TOP USER_STACK_TOP.

(** A fresh address space with two stack pages. *)
Lemma fresh_space m : vm_ok m -> user_region_free m ->
  clone_failure (('(directory, m) ← clone_directory (kernel_directory m) m;
     m ← map_pages directory (USER_STACK_TOP - TASK_STACK_SIZE) USER_STACK_TOP m; Ok (directory, m)) : res (Z * mm page_bytes K)) \/
  exists nd m1 m2, clone_directory (kernel_directory m) m = Ok (nd, m1) /\
    map_pages nd (USER_STACK_TOP - TASK_STACK_SIZE) USER_STACK_TOP m1 = Ok m2 /\ grown_mm m m2 /\
    is_Some (directories m2 !! nd) /\ directories m !! nd = None /\
    (forall v, user_range v -> v < 0xBFFFE -> pte m2 nd v = None).
Proof.
  intros Hvm Hreg. destruct (vm_kernel _ Hvm) as [kd Hkd].
  destruct (clone_directory_forked m (kernel_directory m) Hvm) as [Hf|(nd & m1 & Hrun & Hnd0 & Hf)]; [eauto|left; by apply clone_failure_bind|].
  rewrite Hrun. rsimpl. destruct (fk_new _ _ _ _ Hf) as (N1 & N2 & N3).
  assert (user_region_free m1) as Hreg1 by (eapply user_region_keep; [apply Hf|apply Hf|done]).
  assert (is_Some (directories m1 !! nd)) as Hd1 by (apply (fk_directories _ _ _ _ Hf); by right).
  assert (nd <> kernel_directory m1) as Hne by (rewrite (fk_kernel _ _ _ _ Hf); congruence).
  assert (forall v, user_range v -> pte m1 nd v = None) as Hnone.
  { intros v Hv. apply (fk_none _ _ _ _ Hf); [unfold user_range in Hv; lia|by apply pte_kernel_none]. }
  unfold USER_STACK_TOP, TASK_STACK_SIZE.
  destruct (map_pages_spec m1 nd (0xC0000000 - 8192) 0xC0000000) as [Hfail|(m2 & Hrun2 & Hmr)]; try done.
  - apply Hf.
  - intros v Hv. split; [|apply Hnone; unfold user_range; Z.div_mod_to_equations; lia].
    apply user_region_slot; [done..|unfold user_range; Z.div_mod_to_equations; lia].
  - left. by apply clone_failure_bind.
  - right. exists nd, m1, m2. split_and!; try done.
    + eapply grown_mapped; [by eapply grown_forked|done| |exact Hmr]. done.
    + by apply (mr_directories _ _ _ _ _ Hmr).
    + intros v Hv Hlt. rewrite (mr_pte _ _ _ _ _ Hmr); [by apply Hnone|done|unfold user_range in Hv; lia|right; Z.div_mod_to_equations; lia].
Qed.

(** The first user process: it joins the queue as the others do. *)
Lemma initial_process_spec k q t entry : process_ok k q -> tasks k !! current_task k = Some t -> entry <> 0 ->
  next_pid k < 2 ^ 31 - 1 ->
  clone_failure (create_initial_user_process entry k) \/
  exists k' a x nd stack m2, create_initial_user_process entry k = Ok (next_pid k, k') /\ process_ok k' (q ++ [a]) /\
    (a ∉ q) /\ x ∈ q /\ current_task k' = current_task k /\ kmm k' = m2 /\
    tasks k' = alter (set_next a) x (<[a := first_process k entry nd stack t]> (tasks k)).
Proof.
  intros Hk Ht Hentry Hpid. pose proof (po_next_pid _ _ Hk) as Hpid0.
  destruct (queue_head _ _ (po_queue _ _ Hk)) as (q' & Eq & Hr0).
  unfold create_initial_user_process. rewrite (proj2 (Z.eqb_neq entry 0)), (proj2 (Z.eqb_neq (ready_queue k) 0)) by done. repeat assert_step.
  unfold alloc_task. destruct (kmalloc_int_cases sizeof_task_t 0 false (kstate (kmm k))) as [[[[a pa] ks1] Hk1]|Hf1].
  2: { left. right. unfold kmalloc. do 3 apply alloc_failed_bind. done. }
  destruct (kmalloc_int_fresh _ _ _ _ _ _ _ Hk1) as (Ha & Hafr & Hl1). unfold kmalloc. rewrite Hk1. rsimpl.
  set (m0 := Paging.with_kstate (kmm k) ks1).
  destruct (grown_alloc (kmm k) a ks1 (po_vm _ _ Hk) (po_region _ _ Hk) Hafr Hl1) as [Hg0 Hpa]. fold m0 in Hg0, Hpa.
  change (kmm (with_mm k m0)) with m0.
  destruct (fresh_space m0 (gm_vm _ _ Hg0) (gm_region _ _ Hg0)) as [Hf|(nd & m1 & m2 & -> & E2 & Hg2 & Hnd & Hnone & Hfree)].
  { left. destruct (clone_directory (kernel_directory m0) m0) as [[nd m1]|msg|]; rsimpl.
    - revert Hf. rsimpl. intros Hf. destruct (map_pages _ _ _ m1) as [m2|msg|]; rsimpl.
      + revert Hf. rsimpl. intros Hf. by destruct (clone_failure_not_ok _ Hf (nd, m2)).
      + by eapply clone_failure_conv.
      + by eapply clone_failure_fuel.
    - by eapply clone_failure_conv.
    - by eapply clone_failure_fuel. }
  rsimpl. rewrite E2. rsimpl. unfold take_pid, alloc_stack, kmalloc_a. simpl next_pid.
  match goal with |- context [kmalloc_int KERNEL_STACK_SIZE 1 false ?ks] => change ks with (kstate m2) end.
  destruct (kmalloc_int_cases KERNEL_STACK_SIZE 1 false (kstate m2)) as [[[[st pst] ks2] Hk2]|Hf2].
  2: { left. right. do 2 apply alloc_failed_bind. by apply alloc_failed_bind. }
  destruct (kmalloc_int_fresh _ _ _ _ _ _ _ Hk2) as (Hs & Hsfr & Hl2). rewrite Hk2. rsimpl. right.
  destruct (grown_alloc m2 st ks2 (gm_vm _ _ Hg2) (gm_region _ _ Hg2) Hsfr Hl2) as [Hg3 Hps].
  set (m3 := Paging.with_kstate m2 ks2) in *.
  pose proof (grown_trans _ _ _ Hg0 (grown_trans _ _ _ Hg2 Hg3)) as Hgm.
  match goal with |- context [get_task _ ?kk] => set (kn := kk) end.
  rewrite (get_task_ok (current_task kn) kn t Ht). rsimpl.
  rewrite (s32_small (next_pid k)) by lia. fold (first_process k entry nd st t).
  assert (a ∉ q) as Haq.
  { intros Hin. apply (po_dom _ _ Hk) in Hin as [ta Hta]. apply Hafr. by apply (po_tasks _ _ Hk a ta Hta). }
  assert (queue_ok kn q) as Hqn by (apply (queue_ok_ext k kn q eq_refl eq_refl eq_refl), (po_queue _ _ Hk)).
  destruct (append_ready_spec kn q a (first_process k entry nd st t) Hqn Haq Ha eq_refl) as (x & k' & -> & Hx & -> & Hq').
  rsimpl. eexists _, a, x, nd, st, m3. split; [done|].
  assert (newcomer k m3 a (first_process k entry nd st t)) as Hnew.
  { split; try done.
    - split; [|done]. by apply (gm_plain _ _ Hg3), (gm_plain _ _ Hg2).
    - split; [done|]. split; [intros Hin; by apply Hsfr, (gm_live _ _ Hg2), (gm_live _ _ Hg0)|].
      intros E. simpl in E. apply Hsfr. rewrite E. apply (gm_live _ _ Hg2). apply Hpa.
    - split; [apply (po_tasks _ _ Hk _ _ Ht)|done].
    - split; simpl; unfold USER_HEAP_START, USER_HEAP_LIMIT.
      + done.
      + unfold USER_HEAP_LIMIT. lia.
      + intros v Hv. Z.div_mod_to_equations. lia.
      + intros v Hv. apply Hfree; [unfold user_range|]; Z.div_mod_to_equations; lia. }
  split_and!; try done.
  set (k1 := with_tasks _ _). set (k2 := with_tasks (with_next_pid (with_mm k m3) (next_pid k + 1)) (tasks k1)).
  assert (k2 = k1) as E by (unfold k2, k1, kn; simpl; by rewrite u32_small by lia). rewrite <- E.
  apply (spawn_process_ok k q m3 a _ x); try done; [lia|]. by apply (queue_ok_ext k1).
Qed.
End spawn.

(** ** The kernel as a transition system

    One step is one operation of the running process, the timer, or the
    keyboard driver waking its waiters.  The invariant [sound] holds of
    every state that steps reach. *)

Section steps.
Context {K S Cb : Type} `{!Kmalloc K} `{!KmallocLaws K} `{!HasMemory S} `{!FsDriver S Cb}.
Variable resume_user_frame : Z.
Implicit Types k : kernel page_bytes K S.

(** SIGKILL's action is the default one in every process. *)
Definition kill_default (ts : gmap Z task) : Prop :=
  forall x t, ts !! x = Some t -> signal_handlers t !! 9%nat = Some SIGNAL_DEFAULT.

Record sound k : Prop := {
  sd_ok : exists q, process_ok k q;
  sd_running : runnable (tasks k) (current_task k);
  sd_kill : kill_default (tasks k)
}.

(** One step.  The file system may change in any way [kfs] can: reads,
    writes and new directories do not touch the processes. *)
Inductive step : kernel page_bytes K S -> kernel page_bytes K S -> Prop :=
| step_spawn k k' entry pid : entry <> 0 -> next_pid k < 2 ^ 31 - 1 -> create_initial_user_process entry k = Ok (pid, k') -> step k k'
| step_fork k k' frame pid : next_pid k < 2 ^ 31 - 1 -> task_fork_from_frame resume_user_frame frame k = Ok (pid, k') -> step k k'
| step_exit k k' status cpu : task_exit status cpu k = Ok k' -> step k k'
| step_waitpid k k' pid status r : status_place k status -> task_waitpid pid status k = Ok (r, k') -> step k k'
| step_sbrk k k' increment r : - 2 ^ 31 <= increment < 2 ^ 31 -> task_sbrk increment k = Ok (r, k') -> step k k'
| step_open k k' nd fl r : task_open_descriptor nd fl k = Ok (r, k') -> step k k'
| step_close k k' fd r : task_close_descriptor fd k = Ok (r, k') -> step k k'
| step_seek k k' fd off origin r : task_seek_descriptor fd off origin k = Ok (r, k') -> step k k'
| step_chdir k k' d : task_set_working_directory d k = Ok k' -> step k k'
| step_set_handler k k' n h tr r : task_signal_set_handler n h tr k = Ok (r, k') -> step k k'
| step_send k k' pid n r : task_signal_send pid n k = Ok (r, k') -> step k k'
| step_deliver k k' frame cpu frame' : task_signal_deliver frame cpu k = Ok (Resumes frame' k') -> step k k'
| step_deliver_exit k k' frame cpu : task_signal_deliver frame cpu k = Ok (Exited k') -> step k k'
| step_sigreturn k k' a frame frame' r : task_signal_return a frame k = Ok (r, frame', k') -> step k k'
| step_exec_reset k k' : task_signal_exec_reset k = Ok k' -> step k k'
| step_store k k' a v : user_address a -> vstore8 a v k = Ok k' -> step k k'
| step_timer k k' eip esp ebp : switch_task eip esp ebp k = Ok k' -> step k k'
| step_wait_keyboard k k' eip esp ebp : task_wait_for_keyboard eip esp ebp k = Ok k' -> step k k'
| step_wake k k' : task_wake_keyboard_waiters k = Ok k' -> step k k'
| step_files k f : step k (with_fs k f).

(** ** Condemned processes

    A process is condemned when it is a zombie or SIGKILL is pending; [held]
    says that no process, known by its pid, stops being condemned, and that
    new processes get new pids. *)
Definition condemned (t : task) : Prop := state t = TASK_ZOMBIE \/ pends (pending_signals t) SIGNAL_KILL = true.
Definition held k k' : Prop := next_pid k <= next_pid k' /\
  forall x t', tasks k' !! x = Some t' ->
    (exists t, tasks k !! x = Some t /\ id t' = id t /\ (condemned t -> condemned t')) \/ next_pid k <= id t'.

#[export] Instance held_refl : Reflexive held.
Proof. intros k. split; [lia|]. intros x t Ht. left. by exists t. Qed.
#[export] Instance held_trans : Transitive held.
Proof.
  intros k1 k2 k3 [N1 H1] [N2 H2]. split; [lia|]. intros x t3 H3. destruct (H2 x t3 H3) as [(t2 & Ht2 & E2 & C2)|?]; [|right; lia].
  destruct (H1 x t2 Ht2) as [(t1 & Ht1 & E1 & C1)|?]; [left; exists t1; split_and!; [done|congruence|auto]|right; lia].
Qed.

Lemma held_tasks k k' : next_pid k' = next_pid k -> tasks k' = tasks k -> held k k'.
Proof. intros E1 E2. split; [lia|]. rewrite E2. intros x t Ht. left. by exists t. Qed.

(** ** Changes that keep the invariant because they are small *)
Record calm k k' : Prop := {
  cm_quiet : quiet k k';
  cm_run x : runnable (tasks k) x -> runnable (tasks k') x;
  cm_kill : kill_default (tasks k) -> kill_default (tasks k');
  cm_held : held k k'
}.

Lemma calm_refl k : calm k k.
Proof. split; [apply quiet_refl|done..]. Qed.
Lemma calm_trans k1 k2 k3 : calm k1 k2 -> calm k2 k3 -> calm k1 k3.
Proof. intros [A1 A2 A3 A4] [B1 B2 B3 B4]. split; [by eapply quiet_trans|auto..|by etrans]. Qed.
Lemma calm_sound k k' : sound k -> calm k k' -> sound k'.
Proof.
  intros [[q Hq] Hr Hkd] [Cq Cr Ck _]. split; [exists q; by eapply quiet_process_ok| |auto].
  rewrite (qt_current _ _ Cq). auto.
Qed.
Lemma calm_fs k f : calm k (with_fs k f).
Proof. split; [apply quiet_fs|done..|by apply held_tasks]. Qed.

(** Updates of one task that leave its state, SIGKILL's action and a pending
    SIGKILL. *)
Record calm_task (t t' : task) : Prop := {
  ct_same : same_task t t';
  ct_state : state t = TASK_RUNNABLE -> state t' = TASK_RUNNABLE;
  ct_kill : signal_handlers t !! 9%nat = Some SIGNAL_DEFAULT -> signal_handlers t' !! 9%nat = Some SIGNAL_DEFAULT;
  ct_held : condemned t -> condemned t'
}.

Lemma calm_update k x f : (forall t, tasks k !! x = Some t -> calm_task t (f t)) -> calm k (update_task x f k).
Proof.
  intros Hf. split.
  - apply quiet_update; [intros t Ht; by apply Hf|intros _ t Ht; by apply Hf].
  - intros y (t & Ht & Hs). unfold runnable. simpl. destruct (decide (x = y)) as [->|Hne].
    + exists (f t). rewrite lookup_alter_eq, Ht. split; [done|]. by apply (Hf t).
    + exists t. by rewrite lookup_alter_ne.
  - intros Hkd y t' Hy. simpl in Hy. apply lookup_alter_Some in Hy as [(<- & t & Ht & ->)|[_ Ht]]; [apply (Hf t Ht); by eapply Hkd|by eapply Hkd].
  - split; [done|]. intros y t' Hy. left. simpl in Hy. apply lookup_alter_Some in Hy as [(<- & t & Ht & ->)|[_ Ht]]; [|by exists t'].
    exists t. destruct (Hf t Ht) as [Hs _ _ Hh]. split_and!; [done|apply (st_id _ _ Hs)|done].
Qed.

Lemma calm_insert k x t t' : tasks k !! x = Some t -> calm_task t t' -> calm k (with_tasks k (<[x := t']> (tasks k))).
Proof.
  intros Ht Hc. rewrite <- (update_task_ok k x (fun _ => t') t Ht). apply calm_update. intros u Hu.
  by assert (u = t) as -> by congruence.
Qed.

Lemma calm_task_signalled n t : calm_task t (signalled n t).
Proof.
  split; [apply same_task_signalled|rewrite signalled_state; by intros ->|..].
  - unfold signalled, wake. by destruct (discards t n); case_decide.
  - intros Hc. unfold condemned in *. rewrite signalled_state.
    destruct Hc as [->|Hc]; [by left|right]. unfold signalled, wake. destruct (discards t n); case_decide; try done;
      unfold pends in *; cbn [pending_signals set_state set_pending set_signals]; rewrite Z.lor_spec, Hc; done.
Qed.

(** ** The operations, one by one *)

Lemma keeps_send k pid n r k' : sound k -> task_signal_send pid n k = Ok (r, k') -> calm k k'.
Proof.
  intros [[q Hq] _ _] Hrun. destruct (signal_send_cases k q pid n Hq) as (r2 & k2 & Hrun2 & _ & _ & Hor).
  rewrite Hrun in Hrun2. injection Hrun2 as <- <-. destruct Hor as [->|(x & t & Ht & _ & _ & ->)]; [apply calm_refl|].
  apply (calm_insert k x t); [done|apply calm_task_signalled].
Qed.

Lemma keeps_stores l : forall k a k', vstore_bytes a l k = Ok k' -> exists c f, k' = with_fs (with_contents k c) f.
Proof.
  induction l as [|v l IH]; intros k a k'; simpl.
  - intros [= <-]. exists (contents_of (kmm k)), (kfs k). rewrite with_contents_same. by destruct k.
  - intros (k1 & H1 & H2)%bind_Ok_inv. destruct (IH _ _ _ H2) as (c & f & ->). unfold vstore8 in H1.
    apply bind_Ok_inv in H1 as ([[b o]|] & _ & H1); injection H1 as <-; by exists c, f.
Qed.

Lemma stored_sound k a l k' : sound k -> vstore_bytes a l k = Ok k' -> sound k'.
Proof.
  intros [[q Hq] Hr Hkd] Hrun. destruct (keeps_stores l k a k' Hrun) as (c & f & ->). split; [|done..].
  exists q. apply (quiet_process_ok (with_contents k c)); [by apply contents_process_ok|apply quiet_fs].
Qed.

(** A fork that succeeds has told the drivers. *)
Lemma fork_opened k t frame x : tasks k !! current_task k = Some t -> current_task k <> 0 -> is_user_process t <> 0 ->
  state t = TASK_RUNNABLE -> task_fork_from_frame resume_user_frame frame k = Ok x ->
  exists f, notify_open (descriptors t) (kfs k) = Ok f.
Proof.
  intros Ht H0 Hu Hst Hrun. unfold task_fork_from_frame in Hrun.
  rewrite (proj2 (Z.eqb_neq _ 0)), (get_task_ok _ _ _ Ht) in Hrun by done. revert Hrun. rsimpl.
  rewrite (proj2 (Z.eqb_neq _ 0)), bool_decide_eq_true_2 by done. cbn [orb negb].
  intros ([d m] & _ & Hrun)%bind_Ok_inv. apply bind_Ok_inv in Hrun as ([a k1] & E1 & Hrun). simpl in Hrun.
  apply bind_Ok_inv in Hrun as ([st k2] & E2 & Hrun). apply bind_Ok_inv in Hrun as (f & Hf & _).
  apply bind_Ok_inv in E1 as ([? ?] & _ & [= _ <-]). apply bind_Ok_inv in E2 as ([? ?] & _ & [= _ <-]). eauto.
Qed.

Lemma joined_sound k k' q q' a x c : sound k -> process_ok k q -> process_ok k' q' -> (a ∉ q) -> current_task k' = current_task k ->
  tasks k' = alter (set_next a) x (<[a := c]> (tasks k)) -> signal_handlers c !! 9%nat = Some SIGNAL_DEFAULT -> sound k'.
Proof.
  intros [_ (t & Ht & Hst) Hkd] Hq Hok Hfr Ecur Ets Hc. split; [eauto| |].
  - assert (current_task k <> a) as Hca by (intros E; apply Hfr; rewrite <- E; apply (po_dom _ _ Hq); eauto).
    rewrite Ecur, Ets. unfold runnable. destruct (decide (x = current_task k)) as [->|Hne].
    + exists (set_next a t). by rewrite lookup_alter_eq, lookup_insert_ne, Ht.
    + exists t. by rewrite lookup_alter_ne, lookup_insert_ne.
  - rewrite Ets. intros y u [(<- & u0 & Hu0 & ->)|[_ Hu0]]%lookup_alter_Some; apply lookup_insert_Some in Hu0;
      destruct Hu0 as [[<- <-]|[_ Hu0]]; first [exact (Hkd _ _ Hu0)|exact Hc].
Qed.

Lemma keeps_fork k frame pid k' : sound k -> next_pid k < 2 ^ 31 - 1 ->
  task_fork_from_frame resume_user_frame frame k = Ok (pid, k') -> sound k'.
Proof.
  intros Hs Hpid Hrun. pose proof Hs as [[q Hq] (t & Ht & Hst) Hkd]. destruct (current_task_ok k q Hq) as (t' & Ht' & H0).
  destruct (decide (is_user_process t = 0)) as [Hu|Hu].
  - unfold task_fork_from_frame in Hrun. rewrite (proj2 (Z.eqb_neq _ 0)), (get_task_ok _ _ _ Ht) in Hrun by done.
    revert Hrun. rsimpl. rewrite Hu. simpl. by intros [= <- <-].
  - destruct (fork_opened k t frame _ Ht H0 Hu Hst Hrun) as [f Hf].
    destruct (fork_spec resume_user_frame k q t frame f Hq Ht Hu Hst Hpid Hf) as [Hfail|(k2 & a & st & nd & m & Hrun2 & Hr)];
      [destruct (clone_failure_not_ok _ Hfail _ Hrun)|]. rewrite Hrun in Hrun2. injection Hrun2 as -> <-.
    destruct Hr as [_ _ _ _ Hfr Hc (x & Hx & Ets) _ (_ & Ecur & _) Hok].
    eapply joined_sound; [done|exact Hq|exact Hok|done|done|exact Ets|]. exact (Hkd _ _ Ht).
Qed.

Lemma keeps_spawn k entry pid k' : sound k -> entry <> 0 -> next_pid k < 2 ^ 31 - 1 ->
  create_initial_user_process entry k = Ok (pid, k') -> sound k'.
Proof.
  intros Hs Hentry Hpid Hrun. pose proof Hs as [[q Hq] (t & Ht & Hst) _].
  destruct (initial_process_spec k q t entry Hq Ht Hentry Hpid) as [Hf|(k2 & a & x & nd & st & m2 & Hrun2 & Hok & Hfr & _ & Ecur & _ & Ets)];
    [by destruct (clone_failure_not_ok _ Hf _ Hrun)|].
  rewrite Hrun in Hrun2. injection Hrun2 as -> <-. by eapply joined_sound.
Qed.

Lemma keeps_exit k status cpu k' : sound k -> task_exit status cpu k = Ok k' -> sound k'.
Proof.
  intros [[q Hq] (t & Ht & Hst) Hkd] Hrun. destruct (current_task_ok k q Hq) as (t' & Ht' & H0).
  destruct (exit_closed k t status cpu k' Ht H0 Hrun) as [Hu [f Hf]].
  destruct (exit_spec k q t status cpu f Hq Ht Hu Hf) as (k2 & Hrun2 & [E1 [E2 E3] _ _ Hok]).
  rewrite Hrun in Hrun2. injection Hrun2 as <-. split; [eauto|done|]. rewrite E1.
  assert (kill_default (exit_store (current_task k) t status k)) as Hkd'.
  { intros y u Hy. destruct (decide (y = current_task k)) as [->|Hne].
    - rewrite exit_store_self in Hy. injection Hy as <-. exact (Hkd _ _ Ht).
    - destruct (exit_store_other k q t status y Hq Ht Hne) as [E|(u0 & Hu0 & _ & _ & E)]; rewrite E in Hy.
      + by eapply Hkd.
      + injection Hy as <-. by apply (ct_kill _ _ (calm_task_signalled SIGNAL_CHLD u0)), (Hkd y). }
  intros y u [(<- & u0 & Hu0 & ->)|[_ Hu0]]%lookup_alter_Some; exact (Hkd' _ _ Hu0).
Qed.

Lemma keeps_waitpid k pid status r k' : sound k -> status_place k status -> task_waitpid pid status k = Ok (r, k') -> sound k'.
Proof.
  intros Hs Hpl Hrun. pose proof Hs as [[q Hq] (t & Ht & Hst) Hkd].
  destruct (waitpid_spec k q t pid status Hq Ht Hst Hpl) as [[_ E]|(x & c & _ & Hx & _ & _ & [[_ E]|(Hz & [(k2 & E & Hr)|Hf])])];
    [..|by destruct (free_failed_not_ok _ Hf _ Hrun)]; rewrite Hrun in E; injection E as -> E; subst; [done|done|].
  destruct Hr as [_ (l1 & p & l2 & _ & Ets & Hok) (_ & Ecur & _)]. split; [eauto| |].
  - rewrite Ecur, Ets. assert (x <> current_task k) as Hne by (intros ->; congruence).
    unfold runnable. rewrite lookup_delete_ne by done. destruct (decide (p = current_task k)) as [->|Hp].
    + exists (set_next (next c) t). by rewrite lookup_alter_eq, Ht.
    + exists t. by rewrite lookup_alter_ne.
  - rewrite Ets. intros y u [_ [(<- & u0 & Hu0 & ->)|[_ Hu0]]%lookup_alter_Some]%lookup_delete_Some; exact (Hkd _ _ Hu0).
Qed.

Lemma keeps_sbrk k increment r k' : sound k -> - 2 ^ 31 <= increment < 2 ^ 31 -> task_sbrk increment k = Ok (r, k') -> sound k'.
Proof.
  intros Hs Hi Hrun. pose proof Hs as [[q Hq] (t & Ht & Hst) Hkd]. destruct (current_task_ok k q Hq) as (t' & Ht' & H0).
  destruct (decide (is_user_process t = 0)) as [Hu|Hu].
  - unfold task_sbrk in Hrun. rewrite (proj2 (Z.eqb_neq _ 0)), (get_task_ok _ _ _ Ht) in Hrun by done.
    revert Hrun. rsimpl. rewrite Hu. simpl. by intros [= <- <-].
  - destruct (task_sbrk_spec k q t increment Hq Ht Hu Hi) as [Hout Hin].
    destruct (decide (heap_start t <= heap_break t + increment <= heap_limit t)) as [Hb|Hb].
    + destruct (Hin Hb) as [Hf|(m' & E & _ & Hok)]; [by destruct (clone_failure_not_ok _ Hf _ Hrun)|].
      rewrite Hrun in E. injection E as _ ->. split; [eauto| |].
      * unfold runnable. simpl. rewrite lookup_alter_eq, Ht. by eexists.
      * intros y u Hy. simpl in Hy. apply lookup_alter_Some in Hy as [(<- & u0 & Hu0 & ->)|[_ Hu0]]; exact (Hkd _ _ Hu0).
    + rewrite (Hout Hb) in Hrun. injection Hrun as _ <-. done.
Qed.

Lemma calm_set_descriptor k fd d : calm k (set_descriptor fd d k).
Proof.
  apply calm_update. intros t Ht. split; [|done..]. split; try done. simpl. apply length_insert.
Qed.

Lemma calm_open k nd fl r k' : task_open_descriptor nd fl k = Ok (r, k') -> calm k k'.
Proof.
  unfold task_open_descriptor. destruct ((current_task k =? 0) || (nd =? 0)); [intros [= _ <-]; apply calm_refl|].
  intros (t & _ & Hrun)%bind_Ok_inv. destruct (free_slot _ _ _) as [i|]; [|injection Hrun as _ <-; apply calm_refl].
  apply bind_Ok_inv in Hrun as (f & _ & [= _ <-]). eapply calm_trans; [apply calm_set_descriptor|apply calm_fs].
Qed.

Lemma calm_close k fd r k' : task_close_descriptor fd k = Ok (r, k') -> calm k k'.
Proof.
  unfold task_close_descriptor. case_match; [intros [= _ <-]; apply calm_refl|].
  intros (t & _ & Hrun)%bind_Ok_inv. destruct (descriptors t !! Z.to_nat fd) as [d|]; [|done].
  case_decide; [injection Hrun as _ <-; apply calm_refl|].
  apply bind_Ok_inv in Hrun as (f & _ & [= _ <-]). eapply calm_trans; [apply calm_fs|apply calm_set_descriptor].
Qed.

Lemma calm_seek k fd off origin r k' : task_seek_descriptor fd off origin k = Ok (r, k') -> calm k k'.
Proof.
  unfold task_seek_descriptor. intros ([d|] & _ & Hrun)%bind_Ok_inv; [|injection Hrun as _ <-; apply calm_refl].
  destruct (negb _ || _); [injection Hrun as _ <-; apply calm_refl|].
  apply bind_Ok_inv in Hrun as ([b|] & _ & Hrun); [|injection Hrun as _ <-; apply calm_refl].
  case_match; injection Hrun as _ <-; [apply calm_set_descriptor|apply calm_refl].
Qed.

Lemma calm_chdir k d k' : task_set_working_directory d k = Ok k' -> calm k k'.
Proof.
  unfold task_set_working_directory. intros (? & _ & Hrun)%bind_Ok_inv. apply bind_Ok_inv in Hrun as (? & _ & Hrun).
  apply bind_Ok_inv in Hrun as (n & _ & Hrun). apply bind_Ok_inv in Hrun as (? & _ & [= <-]).
  apply calm_update. intros t Ht. by split.
Qed.

Lemma calm_handler n h t : n <> 9 -> 0 < n < 32 -> calm_task t (set_handler n h t).
Proof.
  intros Hn Hr. split; [|done| |done].
  - split; try done. simpl. apply length_insert.
  - intros E. simpl. rewrite list_lookup_insert_ne; [done|]. intros E2. apply Hn. lia.
Qed.

Lemma calm_set_handler k n h tr r k' : task_signal_set_handler n h tr k = Ok (r, k') -> calm k k'.
Proof.
  unfold task_signal_set_handler. case_match; [intros [= _ <-]; apply calm_refl|]. intros (t & Ht & Hrun)%bind_Ok_inv.
  destruct ((is_user_process t =? 0) || negb (signal_number_is_valid n) || (n =? SIGNAL_KILL)) eqn:E;
    [injection Hrun as _ <-; apply calm_refl|].
  apply orb_false_iff in E as [[_ E]%orb_false_iff E9%Z.eqb_neq]. apply negb_false_iff in E.
  unfold signal_number_is_valid, SIGNAL_COUNT in E. apply andb_true_iff in E as [E1%Z.ltb_lt E2%Z.ltb_lt].
  apply bind_Ok_inv in Hrun as (p & _ & Hrun). cbv zeta in Hrun.
  assert (forall k1, calm k k1 -> calm k (update_task (current_task k1) (set_handler n h) k1)) as Hset.
  { intros k1 Hc. eapply calm_trans; [exact Hc|]. apply calm_update. intros u Hu. apply calm_handler; [done|lia]. }
  destruct (negb (h =? SIGNAL_DEFAULT) && negb (h =? SIGNAL_IGNORE)).
  - destruct (negb (user_code_address h) || _); [injection Hrun as _ <-; apply calm_refl|].
    apply bind_Ok_inv in Hrun as (b1 & _ & Hrun). apply bind_Ok_inv in Hrun as (b2 & _ & Hrun).
    destruct (negb b1 || negb b2); injection Hrun as _ <-; [apply calm_refl|].
    apply (Hset (update_task (current_task k) (set_trampoline tr) k)), (calm_update k (current_task k) (set_trampoline tr)). intros u Hu. split; [by split|done..].
  - injection Hrun as _ <-. apply Hset, calm_refl.
Qed.

(** Taking another signal leaves SIGKILL pending. *)
Lemma taken_condemned t n : n <> SIGNAL_KILL -> condemned t -> condemned (taken n t).
Proof.
  intros Hn [Hz|Hp]; [by left|right]. unfold taken, pends in *. cbn [pending_signals set_pending set_signals].
  rewrite Z.land_spec, Hp. unfold u32, SIGNAL_KILL in *. rewrite Z.mod_pow2_bits_low, Z.lnot_spec, Z.mod_pow2_bits_low, Z.shiftl_spec by lia.
  destruct (Z.ltb_spec n 9); [|by rewrite Z.testbit_neg_r by lia].
  change 1 with (2 ^ 0). by rewrite Z.pow2_bits_false by lia.
Qed.
Lemma calm_taken k t : tasks k !! current_task k = Some t -> lowest_pending t <> SIGNAL_KILL -> calm k (with_taken k t).
Proof.
  intros Ht Hn. apply (calm_insert k _ t); [done|]. split; [apply same_task_taken|done..|by apply taken_condemned].
Qed.
Lemma taken_sound k t : sound k -> tasks k !! current_task k = Some t -> sound (with_taken k t).
Proof.
  intros [[q Hq] (t' & Ht' & Hst) Hkd] Ht. assert (t' = t) as -> by congruence. split.
  - exists q. by apply with_taken_ok.
  - exists (taken (lowest_pending t) t). split; [apply lookup_insert_eq|done].
  - intros x u Hx. unfold with_taken in Hx. simpl in Hx. apply lookup_insert_Some in Hx as [[<- <-]|[_ Hu]]; [exact (Hkd _ _ Ht)|exact (Hkd _ _ Hu)].
Qed.

Lemma keeps_deliver k frame cpu out : sound k -> task_signal_deliver frame cpu k = Ok out ->
  match out with Resumes _ k' => sound k' | Exited k' => sound k' end.
Proof.
  intros Hs Hrun. pose proof Hs as [[q Hq] (t & Ht & Hst) Hkd].
  destruct (deliverable t frame) eqn:Hd.
  2: { rewrite (deliver_nothing k q t frame cpu Hq Ht (or_introl Hd)) in Hrun. by injection Hrun as <-. }
  destruct (decide (lowest_pending t = 0)) as [H0|H0].
  { rewrite (deliver_nothing k q t frame cpu Hq Ht (or_intror H0)) in Hrun. by injection Hrun as <-. }
  rewrite (deliver_taken k q t frame cpu Hq Ht Hd H0) in Hrun. cbv zeta in Hrun.
  pose proof (taken_sound k t Hs Ht) as Hs1.
  assert (forall s, (k' ← task_exit s cpu (with_taken k t); Ok (Exited k')) = Ok out -> match out with Resumes _ k' => sound k' | Exited k' => sound k' end) as Hexit.
  { intros s (k' & He & [= <-])%bind_Ok_inv. by eapply keeps_exit. }
  destruct (reaction_to t (lowest_pending t)) as [| |h]; [by injection Hrun as <-|by eapply Hexit|].
  destruct (frame_fits t (r_useresp frame)); [|by eapply Hexit].
  apply bind_Ok_inv in Hrun as (k2 & Hst2 & [= <-]). pose proof (stored_sound _ _ _ _ Hs1 Hst2) as Hs2.
  eapply calm_sound; [exact Hs2|]. apply calm_update. intros u Hu. by split.
Qed.

Lemma calm_return k a frame r frame' k' : task_signal_return a frame k = Ok (r, frame', k') -> calm k k'.
Proof.
  unfold task_signal_return. case_match; [intros [= _ _ <-]; apply calm_refl|]. intros (t & _ & Hrun)%bind_Ok_inv. revert Hrun.
  case_match; [intros [= _ _ <-]; apply calm_refl|]. intros (mg & _ & Hrun)%bind_Ok_inv. revert Hrun.
  case_match; [intros [= _ _ <-]; apply calm_refl|]. intros (n & _ & Hrun)%bind_Ok_inv. revert Hrun.
  case_match; [intros [= _ _ <-]; apply calm_refl|]. intros (w & _ & Hrun)%bind_Ok_inv.
  apply bind_Ok_inv in Hrun as (s & _ & [= _ _ <-]). apply calm_update. intros u Hu. by split.
Qed.

Lemma reset_handlers_spec l : List.length (reset_handlers l) = List.length l /\
  (l !! 9%nat = Some SIGNAL_DEFAULT -> reset_handlers l !! 9%nat = Some SIGNAL_DEFAULT).
Proof. unfold reset_handlers. split; [apply length_imap|]. intros E. by rewrite list_lookup_imap, E. Qed.

Lemma calm_exec_reset k k' : task_signal_exec_reset k = Ok k' -> calm k k'.
Proof.
  unfold task_signal_exec_reset. intros (? & _ & [= <-])%bind_Ok_inv. apply calm_update. intros t Ht.
  destruct (reset_handlers_spec (signal_handlers t)) as [Hl H9]. split; [by split|done|exact H9|done].
Qed.

Lemma keeps_switch k e sp b k' : (exists q, process_ok k q) -> kill_default (tasks k) -> switch_task e sp b k = Ok k' -> sound k'.
Proof.
  intros [q Hq] Hkd Hrun. destruct (cyclic_exists q _ (qo_current _ _ (po_queue _ _ Hq))) as [r Hr].
  destruct (switch_task_spec k q r e sp b (po_queue _ _ Hq) Hr) as (s & c & t & k2 & _ & Hc & _ & Hrun2 & Hcase & Hq2 & Hrr).
  rewrite Hrun in Hrun2. injection Hrun2 as <-. destruct Hcase as [(_ & -> & ->)|Hsw]; [split; eauto|].
  split; [exists q; by eapply switched_process_ok|rewrite (sw_current _ _ _ _ _ _ Hsw); by apply Hrr|].
  rewrite (sw_tasks _ _ _ _ _ _ Hsw). intros y u [(<- & u0 & Hu0 & ->)|[_ Hu0]]%lookup_alter_Some; exact (Hkd _ _ Hu0).
Qed.

Lemma keeps_wait_keyboard k e sp b k' : sound k -> task_wait_for_keyboard e sp b k = Ok k' -> sound k'.
Proof.
  intros [[q Hq] (t & Ht & Hst) Hkd]. destruct (current_task_ok k q Hq) as (t' & _ & H0). unfold task_wait_for_keyboard.
  rewrite (proj2 (Z.eqb_neq _ 0)) by done. assert_step. rewrite (get_task_ok _ _ _ Ht). rsimpl.
  destruct (Z.eqb_spec (is_user_process t) 0) as [|Hu]; [done|]. rewrite bool_decide_eq_true_2 by done. assert_step.
  apply keeps_switch.
  - exists q. apply (quiet_process_ok k _ q Hq), quiet_update; [by split|]. intros E. exfalso. apply Hu.
    by apply (to_user _ _ _ (po_tasks _ _ Hq _ _ Ht)).
  - intros y u Hy. simpl in Hy. apply lookup_alter_Some in Hy as [(<- & u0 & Hu0 & ->)|[_ Hu0]]; exact (Hkd _ _ Hu0).
Qed.

Lemma calm_wake k k' : task_wake_keyboard_waiters k = Ok k' -> calm k k'.
Proof.
  apply (while_preserves (fun st => calm k st.2) (calm k)); [..|apply calm_refl].
  - intros [t k1] [t2 k2] Hc E. destruct (t =? 0); [done|]. apply bind_Ok_inv in E as (x & Hx & [= _ <-]).
    eapply calm_trans; [exact Hc|]. simpl. case_decide as Hw; [|apply calm_refl]. apply calm_update. intros u Hu.
    apply get_task_inv in Hx. split; [by split|done..|]. intros [?|?]; [congruence|by right].
  - intros [t k1] k2 Hc E. destruct (t =? 0); [by injection E as <-|]. by destruct (get_task t k1).
Qed.

(** ** The invariant *)
Lemma step_sound k k' : sound k -> step k k' -> sound k'.
Proof.
  intros Hs Hstep. destruct Hstep.
  - by eapply keeps_spawn.
  - by eapply keeps_fork.
  - by eapply keeps_exit.
  - by eapply keeps_waitpid.
  - by eapply keeps_sbrk.
  - by eapply calm_sound, calm_open.
  - by eapply calm_sound, calm_close.
  - by eapply calm_sound, calm_seek.
  - by eapply calm_sound, calm_chdir.
  - by eapply calm_sound, calm_set_handler.
  - by eapply calm_sound, keeps_send.
  - by apply (keeps_deliver k frame cpu (Resumes frame' k')).
  - by apply (keeps_deliver k frame cpu (Exited k')).
  - by eapply calm_sound, calm_return.
  - by eapply calm_sound, calm_exec_reset.
  - apply (stored_sound k a [v]); [done|]. simpl. rewrite H0. by rsimpl.
  - destruct Hs as [Hok Hr Hkd]. by eapply keeps_switch.
  - by eapply keeps_wait_keyboard.
  - by eapply calm_sound, calm_wake.
  - by eapply calm_sound, calm_fs.
Qed.

Lemma steps_sound k k' : sound k -> rtc step k k' -> sound k'.
Proof. intros Hs Hsteps. induction Hsteps as [|k1 k2 k3 Hstep _ IH]; [done|]. apply IH. by eapply step_sound. Qed.

(** ** Boot *)

(** What [initialise_paging] leaves: sound address spaces, the current
    directory a clone of the kernel's, and no process yet. *)
Record paging_ready k : Prop := {
  pr_vm : vm_ok (kmm k);
  pr_region : user_region_free (kmm k);
  pr_current : current_directory (kmm k) <> kernel_directory (kmm k);
  pr_tasks : tasks k = ∅;
  pr_pid : next_pid k = 1
}.

Lemma initialise_tasking_sound k : paging_ready k ->
  clone_failure (initialise_tasking k) \/ exists k', initialise_tasking k = Ok k' /\ sound k'.
Proof.
  intros [Hvm Hreg Hcur Hts Hpid]. unfold initialise_tasking, alloc_task, alloc_stack, kmalloc, kmalloc_a.
  destruct (kmalloc_int_cases sizeof_task_t 0 false (kstate (kmm k))) as [[[[a pa] ks1] Hk1]|Hf].
  2: { left. right. do 3 apply alloc_failed_bind. done. }
  destruct (kmalloc_int_fresh _ _ _ _ _ _ _ Hk1) as (Ha & Hafr & Hl1). rewrite Hk1. rsimpl.
  match goal with |- context [kmalloc_int KERNEL_STACK_SIZE 1 false ?ks] => change ks with ks1 end.
  destruct (kmalloc_int_cases KERNEL_STACK_SIZE 1 false ks1) as [[[[st pst] ks2] Hk2]|Hf].
  2: { left. right. do 2 apply alloc_failed_bind. by apply alloc_failed_bind. }
  destruct (kmalloc_int_fresh _ _ _ _ _ _ _ Hk2) as (Hs & Hsfr & Hl2). rewrite Hk2. rsimpl. right.
  destruct (grown_alloc (kmm k) a ks1 Hvm Hreg Hafr Hl1) as [Hg1 Hpa].
  destruct (grown_alloc (Paging.with_kstate (kmm k) ks1) st ks2 (gm_vm _ _ Hg1) (gm_region _ _ Hg1) Hsfr Hl2) as [Hg2 Hps].
  eexists. split; [done|]. simpl. rewrite Hts, insert_empty.
  set (k' := update_task a _ _).
  assert (st <> a) as Hsa. { intros ->. apply Hsfr. rewrite Hl1. set_solver. }
  assert (exists t, tasks k' = {[ a := t ]} /\ id t = 0 /\ state t = TASK_RUNNABLE /\ task_directory t = current_directory (kmm k) /\
    kernel_stack t = st /\ is_user_process t = 0 /\ List.length (descriptors t) = 16%nat /\ signal_handlers t = replicate 32 0 /\ next t = 0)
    as (t & Et & T1 & T2 & T3 & T4 & T5 & T6 & T7 & T8).
  { eexists. split; [|shelve]. unfold k'. simpl. rewrite alter_singleton_eq. reflexivity. Unshelve. done. }
  assert (tasks k' !! a = Some t) as Hat by (by rewrite Et, lookup_singleton_eq).
  assert (forall y u, tasks k' !! y = Some u -> y = a /\ u = t) as Hone.
  { intros y u. rewrite Et. intros [<- <-]%lookup_singleton_Some. done. }
  split; [exists [a]| |].
  - split.
    + split; [|set_solver|by exists t|].
      * split; [done|]. split; [lia|]. exists t. split; [done|]. by rewrite T8.
      * intros y ->%list_elem_of_singleton. done.
    + apply Hg2.
    + apply Hg2.
    + intros y. rewrite Et, lookup_singleton_is_Some, list_elem_of_singleton. done.
    + intros y u [-> ->]%Hone. split.
      * rewrite T3. apply Hvm.
      * rewrite T3. done.
      * apply (gm_plain _ _ Hg2). done.
      * rewrite T4. split; [done|]. rewrite Et. apply lookup_singleton_None. done.
      * rewrite T1. simpl. lia.
      * done.
      * done.
      * done.
      * by rewrite T7.
      * done.
    + by intros y z u w [-> _]%Hone [-> _]%Hone.
    + by intros y z u w [-> _]%Hone [-> _]%Hone.
    + by intros y z u w [-> _]%Hone [-> _]%Hone.
    + intros u [_ ->]%Hone. by rewrite T3.
    + simpl. lia.
  - by exists t.
  - intros y u [-> ->]%Hone. by rewrite T7.
Qed.
End steps.
