(* ===== verification/UserFile.v ===== *)
(** * Reading files into the memory of a process

    [read_fs] with a buffer in user space: the driver copies bytes from
    kernel memory, where the archive is, to the buffer, both seen through
    the current directory.  [FileSource] says where a driver's read takes
    its bytes from and how many it copies. *)

From S2P Require Import Prelude Memory Common Kmalloc Frames Paging Vfs Initrd Task UserSpace.

Class FileSource (S Cb : Type) : Type :=
  read_source : Cb -> Z -> Z -> Z -> S -> res (Z * Z).

Section userfile.
Context {K S Cb : Type} `{!HasMemory S} `{!FsDriver S Cb} `{!FileSource S Cb}.
Implicit Types k : kernel page_bytes K S.

(** [memcpy] between visible addresses. *)
Definition vmemcpy (dest src len : Z) k : res (kernel page_bytes K S) :=
  while (fun '(dp, sp, len, k) =>
    if negb (len =? 0) then
      c ← vload8 sp k;
      k ← vstore8 dp c k;
      Ok (Continue (u32 (dp + 1), u32 (sp + 1), u32 (len - 1), k))
    else Ok (Break k)) (dest, src, len, k).

(** [memset] of visible memory. *)
Fixpoint vfill (a v : Z) (n : nat) k : res (kernel page_bytes K S) :=
  match n with
  | O => Ok k
  | Datatypes.S n => k ← vstore8 a v k; vfill (u32 (a + 1)) v n k
  end.

Definition vread_fs (node offset size buffer : Z) k : res (Z * kernel page_bytes K S) :=
  if (node =? 0) || (buffer =? 0) then Ok (0, k)
  else
    n ← deref node (kfs k);
    match read n with
    | None => Ok (0, k)
    | Some cb =>
        '(src, count) ← read_source cb node offset size (kfs k);
        k ← vmemcpy buffer src count k;
        Ok (count, k)
    end.

(** [read_fs] into a structure of the kernel: the bytes it got. *)
Definition read_bytes (node offset size : Z) k : res (list Z) :=
  n ← deref node (kfs k);
  match read n with
  | None => Ok []
  | Some cb =>
      '(src, count) ← read_source cb node offset size (kfs k);
      vload_bytes src (Z.to_nat count) k
  end.
End userfile.

Section initrd_source.
Context {K : Type}.
Implicit Types s : initrd K.

(** The [memcpy] that [initrd_read] makes. *)
Definition initrd_source (node offset size : Z) s : res (Z * Z) :=
  n ← get_node node s;
  let header := file_header (inode (fs n)) s in
  let len := hd_length (imem s) header in
  let src := u32 (initrd_location s + hd_offset (imem s) header + offset) in
  if len <=? offset then Ok (src, 0)
  else Ok (src, if len - offset <? size then len - offset else size).

#[export] Instance initrd_file_source : FileSource (initrd K) initrd_callback := fun cb node offset size s =>
  match cb with InitrdRead => initrd_source node offset size s | _ => Panic BAD_POINTER end.

Lemma initrd_read_source node offset size buffer s :
  initrd_read node offset size buffer s =
  ('(src, count) ← initrd_source node offset size s; m ← memcpy buffer src count (imem s); Ok (count, with_imem s m)).
Proof.
  unfold initrd_read, initrd_source. destruct (get_node node s) as [n| |]; [|done..]. rsimpl.
  destruct (_ <=? offset); [|by rsimpl]. rsimpl. unfold memcpy.
  rewrite (while_runs _ _ (Ok (imem s)) 0%nat) by (try constructor; done). rsimpl. by destruct s.
Qed.
End initrd_source.
