(* ===== verification/Elf.v ===== *)
(** * elf.h and the validation half of exec.c

    The two packed ELF structures as records, decoded from the bytes that
    [read_fs] put into them, and the checks of [validate_elf].  [elf_valid]
    says what the checks are for. *)

From S2P Require Import Prelude Memory Task.

Definition USER_PROGRAM_MIN : Z := 0x00400000.
Definition ELF_PROGRAM_HEADER_MAX : Z := 32.
Definition sizeof_elf32_header_t : Z := 52.
Definition sizeof_elf32_program_header_t : Z := 32.
Definition ALIGN_DOWN_PAGE (value : Z) : Z := Z.land value 0xFFFFF000.
Definition ALIGN_UP_PAGE (value : Z) : Z := Z.land (u32 (value + PAGE_SIZE - 1)) 0xFFFFF000.

Record elf32_header : Type := mk_elf_header {
  identification : list Z;
  e_type : Z;
  machine : Z;
  version : Z;
  entry : Z;
  program_header_offset : Z;
  section_header_offset : Z;
  e_flags : Z;
  header_size : Z;
  program_header_entry_size : Z;
  program_header_count : Z;
  section_header_entry_size : Z;
  section_header_count : Z;
  section_name_index : Z
}.

Record elf32_program_header : Type := mk_elf_program {
  p_type : Z;
  file_offset : Z;
  virtual_address : Z;
  physical_address : Z;
  file_size : Z;
  memory_size : Z;
  p_flags : Z;
  alignment : Z
}.

(** Little-endian fields of a packed structure. *)
Definition byte_at (l : list Z) (i : nat) : Z := default 0 (l !! i).
Definition half_at (l : list Z) (i : nat) : Z := byte_at l i + 0x100 * byte_at l (i + 1).
Definition word_at (l : list Z) (i : nat) : Z :=
  byte_at l i + 0x100 * byte_at l (i + 1) + 0x10000 * byte_at l (i + 2) + 0x1000000 * byte_at l (i + 3).

Definition header_of (l : list Z) : elf32_header :=
  mk_elf_header (take 16 l) (half_at l 16) (half_at l 18) (word_at l 20) (word_at l 24) (word_at l 28) (word_at l 32)
    (word_at l 36) (half_at l 40) (half_at l 42) (half_at l 44) (half_at l 46) (half_at l 48) (half_at l 50).
Definition program_of (l : list Z) : elf32_program_header :=
  mk_elf_program (word_at l 0) (word_at l 4) (word_at l 8) (word_at l 12) (word_at l 16) (word_at l 20) (word_at l 24)
    (word_at l 28).
(** The table [request->programs]. *)
Fixpoint programs_of (n : nat) (l : list Z) : list elf32_program_header :=
  match n with
  | O => []
  | S n => program_of l :: programs_of n (drop 32 l)
  end.

Definition ranges_overlap (first_start first_end second_start second_end : Z) : bool :=
  (first_start <? second_end) && (second_start <? first_end).

(** The conditions on the ELF header. *)
Definition header_ok (h : elf32_header) : bool :=
  (byte_at (identification h) 0 =? 0x7F) && (byte_at (identification h) 1 =? 69) &&
  (byte_at (identification h) 2 =? 76) && (byte_at (identification h) 3 =? 70) &&
  (byte_at (identification h) 4 =? 1) && (byte_at (identification h) 5 =? 1) && (byte_at (identification h) 6 =? 1) &&
  (e_type h =? 2) && (machine h =? 3) && (version h =? 1) && (header_size h =? sizeof_elf32_header_t) &&
  (program_header_entry_size h =? sizeof_elf32_program_header_t) &&
  negb (program_header_count h =? 0) && (program_header_count h <=? ELF_PROGRAM_HEADER_MAX).

(** A program header the loader acts on. *)
Definition loadable (p : elf32_program_header) : bool := (p_type p =? 1) && negb (memory_size p =? 0).

Definition segment_end (p : elf32_program_header) : Z := u32 (virtual_address p + memory_size p).
Definition page_start (p : elf32_program_header) : Z := ALIGN_DOWN_PAGE (virtual_address p).
Definition page_end (p : elf32_program_header) : Z := ALIGN_UP_PAGE (segment_end p).

(** The checks on one segment by itself; [len] is the file's length. *)
Definition segment_ok (len : Z) (p : elf32_program_header) : bool :=
  negb ((memory_size p <? file_size p) || (len <? file_offset p) || (len - file_offset p <? file_size p) ||
        (virtual_address p <? USER_PROGRAM_MIN) || (0xFFFFFFFF - virtual_address p <? memory_size p)) &&
  negb ((USER_HEAP_LIMIT <? segment_end p) || (segment_end p <=? virtual_address p)) &&
  (if 1 <? alignment p then
     (Z.land (alignment p) (alignment p - 1) =? 0) &&
     (Z.land (virtual_address p) (alignment p - 1) =? Z.land (file_offset p) (alignment p - 1))
   else true).

Definition pages_apart (p other : elf32_program_header) : bool :=
  negb (loadable other) || negb (ranges_overlap (page_start p) (page_end p) (page_start other) (page_end other)).

(** [flags & ELF_FLAG_EXECUTE], [flags & ELF_FLAG_WRITE]. *)
Definition executable (p : elf32_program_header) : bool := negb (Z.land (p_flags p) 0x1 =? 0).
Definition writable (p : elf32_program_header) : bool := negb (Z.land (p_flags p) 0x2 =? 0).
Definition holds_entry (entry : Z) (p : elf32_program_header) : bool :=
  executable p && (virtual_address p <=? entry) && (entry <? segment_end p).

(** The loop over the program headers: highest address, whether the entry
    point is executable, how many segments; [None] for [return -1]. *)
Fixpoint check_programs (len entry : Z) (earlier ps : list elf32_program_header) (st : Z * bool * Z) : option (Z * bool * Z) :=
  match ps with
  | [] => Some st
  | p :: ps =>
      if loadable p then
        let '(highest_address, entry_is_executable, loadable_count) := st in
        if segment_ok len p && forallb (pages_apart p) earlier then
          check_programs len entry (earlier ++ [p]) ps
            (if highest_address <? segment_end p then segment_end p else highest_address,
             entry_is_executable || holds_entry entry p, loadable_count + 1)
        else None
      else check_programs len entry (earlier ++ [p]) ps st
  end.

(** [validate_elf] after the header and the table are read. *)
Definition validate_programs (len entry : Z) (ps : list elf32_program_header) : option Z :=
  '(highest_address, entry_is_executable, loadable_count) ← check_programs len entry [] ps (0, false, 0);
  if (loadable_count =? 0) || negb entry_is_executable then None else Some highest_address.
