(* ===== verification/ElfSpec.v ===== *)
(** * What [validate_elf] accepts

    [validate_programs] is equivalent to [elf_valid], which says in terms
    of addresses and file offsets when a program can be loaded: every
    segment is inside the file and inside the range of user programs, no
    page holds bytes of two segments, and the entry point is in an
    executable one. *)

From S2P Require Import Prelude Memory Task ProcessOps Elf.

Record fields_ok (p : elf32_program_header) : Prop := {
  fo_offset : is_u32 (file_offset p);
  fo_address : is_u32 (virtual_address p);
  fo_file : is_u32 (file_size p);
  fo_memory : is_u32 (memory_size p);
  fo_alignment : is_u32 (alignment p)
}.

(** Segment [p] can be loaded from a file of [len] bytes. *)
Record segment_fits (len : Z) (p : elf32_program_header) : Prop := {
  sf_size : file_size p <= memory_size p;
  sf_file : file_offset p + file_size p <= len;
  sf_low : USER_PROGRAM_MIN <= virtual_address p;
  sf_high : virtual_address p + memory_size p <= USER_HEAP_LIMIT;
  sf_alignment : 1 < alignment p -> exists n, 0 <= n /\ alignment p = 2 ^ n /\
    virtual_address p mod 2 ^ n = file_offset p mod 2 ^ n
}.

(** The addresses a segment occupies. *)
Definition in_segment (p : elf32_program_header) (a : Z) : Prop :=
  virtual_address p <= a < virtual_address p + memory_size p.

Record elf_valid (len entry : Z) (ps : list elf32_program_header) (highest : Z) : Prop := {
  ev_segments p : p ∈ ps -> loadable p = true -> segment_fits len p;
  ev_apart i j p q a b : (i < j)%nat -> ps !! i = Some p -> ps !! j = Some q -> loadable p = true -> loadable q = true ->
    in_segment p a -> in_segment q b -> a / 0x1000 <> b / 0x1000;
  ev_entry : exists p, p ∈ ps /\ loadable p = true /\ executable p = true /\ in_segment p entry;
  ev_highest : exists p, p ∈ ps /\ loadable p = true /\ highest = virtual_address p + memory_size p;
  ev_bound p : p ∈ ps -> loadable p = true -> virtual_address p + memory_size p <= highest
}.

Lemma land_pred_power a : 0 < a -> Z.land a (a - 1) = 0 <-> exists n, 0 <= n /\ a = 2 ^ n.
Proof.
  intros Ha. split.
  - intros H. exists (Z.log2 a). pose proof (Z.log2_nonneg a). split; [done|].
    destruct (Z.log2_spec a Ha) as [Hlo Hhi]. destruct (Z.eq_dec a (2 ^ Z.log2 a)) as [|Hne]; [done|].
    assert (Z.log2 (a - 1) = Z.log2 a) as E by (apply Z.log2_unique; lia).
    assert (Z.testbit (Z.land a (a - 1)) (Z.log2 a) = true) as Hb.
    { rewrite Z.land_spec, Z.bit_log2 by done. rewrite <- E. apply Z.bit_log2. pose proof (Z.pow_pos_nonneg 2 (Z.log2 a)). lia. }
    rewrite H, Z.bits_0 in Hb. discriminate.
  - intros (n & Hn & ->). rewrite Z.sub_1_r, <- Z.ones_equiv, Z.land_ones by done.
    apply Z.mod_same. pose proof (Z.pow_pos_nonneg 2 n). lia.
Qed.

Lemma land_pred_mod v n : 0 <= n -> Z.land v (2 ^ n - 1) = v mod 2 ^ n.
Proof. intros Hn. by rewrite Z.sub_1_r, <- Z.ones_equiv, Z.land_ones. Qed.

Lemma loadable_memory p : loadable p = true -> memory_size p <> 0.
Proof. unfold loadable. rewrite andb_true_iff, negb_true_iff, Z.eqb_neq. tauto. Qed.

Lemma segment_ok_spec len p : fields_ok p -> loadable p = true -> segment_ok len p = true <-> segment_fits len p.
Proof.
  intros [H1 H2 H3 H4 H5] Hl%loadable_memory. unfold is_u32 in *. unfold segment_ok.
  rewrite !andb_true_iff, !negb_true_iff, !orb_false_iff, !Z.ltb_ge, Z.leb_gt. unfold segment_end.
  assert (forall b : bool, (if 1 <? alignment p then b else true) = true <-> (1 < alignment p -> b = true)) as Hif
    by (intros b; destruct (Z.ltb_spec 1 (alignment p)); split; [auto|auto|lia|done]).
  rewrite Hif. clear Hif. rewrite andb_true_iff, !Z.eqb_eq.
  assert ((1 < alignment p -> Z.land (alignment p) (alignment p - 1) = 0 /\
    Z.land (virtual_address p) (alignment p - 1) = Z.land (file_offset p) (alignment p - 1)) <->
    (1 < alignment p -> exists n, 0 <= n /\ alignment p = 2 ^ n /\ virtual_address p mod 2 ^ n = file_offset p mod 2 ^ n)) as ->.
  { split; intros H Ha; specialize (H Ha).
    - destruct H as [(n & Hn & E)%land_pred_power Hm]; [|lia]. exists n. split_and!; try done.
      rewrite E in Hm. by rewrite !land_pred_mod in Hm.
    - destruct H as (n & Hn & E & Hm). split; [apply land_pred_power; [lia|eauto]|]. by rewrite E, !land_pred_mod. }
  split.
  - intros [[((((A & B) & C) & D) & E) [F G]] HA]. unfold USER_PROGRAM_MIN in *. rewrite u32_small in F by lia.
    split; try done; lia.
  - intros [A B C D E]. unfold USER_PROGRAM_MIN, USER_HEAP_LIMIT in *. rewrite !u32_small by lia. split_and!; try done; lia.
Qed.

(** Page bounds of a segment inside the program range. *)
Lemma page_bounds len p : fields_ok p -> loadable p = true -> segment_fits len p ->
  segment_end p = virtual_address p + memory_size p /\ page_start p mod 0x1000 = 0 /\ page_end p mod 0x1000 = 0 /\
  page_start p <= virtual_address p < page_start p + 0x1000 /\
  virtual_address p + memory_size p <= page_end p < virtual_address p + memory_size p + 0x1000 /\
  0x400000 <= page_start p /\ page_end p <= USER_HEAP_LIMIT /\ page_start p < page_end p.
Proof.
  intros [_ H2 _ H4 _] Hl%loadable_memory [_ _ Hlo Hhi _]. unfold is_u32, USER_PROGRAM_MIN, USER_HEAP_LIMIT in *.
  assert (segment_end p = virtual_address p + memory_size p) as E by (unfold segment_end; rewrite u32_small; lia).
  unfold page_start, page_end, ALIGN_DOWN_PAGE, ALIGN_UP_PAGE, PAGE_SIZE. rewrite E, (u32_small (_ + _ - 1)) by lia.
  rewrite !land_page_base by (unfold is_u32; lia). split; [done|]. Z.div_mod_to_equations. lia.
Qed.

Lemma page_start_page len p : fields_ok p -> loadable p = true -> segment_fits len p ->
  page_start p / 0x1000 = virtual_address p / 0x1000.
Proof. intros H1 H2 H3. destruct (page_bounds len p H1 H2 H3) as (_ & ? & _ & ? & _). Z.div_mod_to_equations. lia. Qed.

Lemma pages_apart_spec len p q : fields_ok p -> fields_ok q -> segment_fits len p -> segment_fits len q -> loadable p = true ->
  pages_apart p q = true <-> (loadable q = true -> forall a b, in_segment p a -> in_segment q b -> a / 0x1000 <> b / 0x1000).
Proof.
  intros Hp Hq Fp Fq Lp. unfold pages_apart, ranges_overlap, in_segment.
  destruct (loadable q) eqn:Lq; simpl; [|by split].
  destruct (page_bounds len p Hp Lp Fp) as (_ & P1 & P2 & P3 & P4 & _ & _ & _), (page_bounds len q Hq Lq Fq) as (_ & Q1 & Q2 & Q3 & Q4 & _ & _ & _).
  pose proof (loadable_memory _ Lp). pose proof (loadable_memory _ Lq).
  pose proof (fo_memory _ Hp). pose proof (fo_memory _ Hq). unfold is_u32 in *.
  rewrite negb_true_iff, andb_false_iff, !Z.ltb_ge. split.
  - intros Hd _ a b Ha Hb E. Z.div_mod_to_equations. lia.
  - intros H'. specialize (H' eq_refl). destruct (Z.le_gt_cases (page_end q) (page_start p)); [by left|].
    destruct (Z.le_gt_cases (page_end p) (page_start q)); [by right|]. exfalso.
    assert (page_start q + 0x1000 <= page_end p /\ page_start p + 0x1000 <= page_end q) as [? ?]
      by (Z.div_mod_to_equations; lia).
    set (a := Z.max (virtual_address p) (page_start q)). set (b := Z.max (virtual_address q) (page_start p)).
    apply (H' a b); [unfold a; lia|unfold b; lia|]. unfold a, b. clear H' a b. Z.div_mod_to_equations. lia.
Qed.

(** ** The loop *)

Fixpoint segments_ok (len : Z) (earlier ps : list elf32_program_header) : bool :=
  match ps with
  | [] => true
  | p :: ps => (negb (loadable p) || (segment_ok len p && forallb (pages_apart p) earlier)) && segments_ok len (earlier ++ [p]) ps
  end.
Definition raise (highest : Z) (p : elf32_program_header) : Z :=
  if loadable p then Z.max highest (segment_end p) else highest.

Lemma check_programs_run len entry ps : forall earlier h e c,
  check_programs len entry earlier ps (h, e, c) =
    if segments_ok len earlier ps
    then Some (foldl raise h ps, e || existsb (fun p => loadable p && holds_entry entry p) ps,
               c + Z.of_nat (length (filter (fun p => loadable p = true) ps)))
    else None.
Proof.
  induction ps as [|p ps IH]; intros earlier h e c.
  - simpl. by rewrite orb_false_r, Z.add_0_r.
  - cbn [check_programs segments_ok foldl existsb]. unfold raise at 2. rewrite filter_cons. destruct (loadable p) eqn:Hl; simpl.
    + destruct (segment_ok len p && forallb (pages_apart p) earlier); simpl; [|done]. rewrite IH.
      destruct (segments_ok len (earlier ++ [p]) ps); [|done]. f_equal. f_equal; [f_equal|].
      * f_equal. destruct (Z.ltb_spec h (segment_end p)); lia.
      * by rewrite orb_assoc.
      * lia.
    + rewrite IH. done.
Qed.

Lemma segments_ok_spec len ps : forall earlier, Forall fields_ok (earlier ++ ps) ->
  (forall p, p ∈ earlier -> loadable p = true -> segment_fits len p) ->
  segments_ok len earlier ps = true <->
  (forall p, p ∈ ps -> loadable p = true -> segment_fits len p) /\
  (forall i j p q a b, (i < j)%nat -> (length earlier <= j)%nat -> (earlier ++ ps) !! i = Some p -> (earlier ++ ps) !! j = Some q ->
     loadable p = true -> loadable q = true -> in_segment p a -> in_segment q b -> a / 0x1000 <> b / 0x1000).
Proof.
  induction ps as [|p ps IH]; intros earlier Hf He; cbn [segments_ok].
  - split; [|done]. intros _. split; [by intros p Hp%elem_of_nil|]. intros i j p q a b Hij Hj _ Hq.
    apply lookup_lt_Some in Hq. rewrite app_nil_r in Hq. lia.
  - assert (fields_ok p) as Hp by (rewrite Forall_forall in Hf; apply Hf; set_solver).
    assert (earlier ++ p :: ps = (earlier ++ [p]) ++ ps) as Eapp by (by rewrite <- app_assoc).
    assert ((earlier ++ p :: ps) !! length earlier = Some p) as Hnth by (by rewrite list_lookup_middle).
    rewrite andb_true_iff, orb_true_iff, negb_true_iff, andb_true_iff. split.
    + intros [Hcase Hrest].
      assert (loadable p = true -> segment_fits len p /\ forallb (pages_apart p) earlier = true) as Hfit.
      { intros Hl. destruct Hcase as [?|[Hs Ha]]; [congruence|]. split; [by apply segment_ok_spec|done]. }
      apply IH in Hrest as [Hall Hap]; [|by rewrite <- Eapp|].
      2: { intros q [Hq|Hq]%elem_of_app; [by apply He|]. apply list_elem_of_singleton in Hq as ->. intros. by apply Hfit. }
      split; [intros q [->|Hq]%elem_of_cons; [intros; by apply Hfit|by apply Hall]|].
      intros i j x y a b Hij Hj Hx Hy Lx Ly. destruct (decide (j = length earlier)) as [->|Hne].
      * assert (y = p) as -> by congruence. destruct (Hfit Ly) as [Fp Ha]. rewrite lookup_app_l in Hx by lia.
        apply list_elem_of_lookup_2 in Hx. rewrite forallb_forall in Ha. specialize (Ha x). rewrite <- list_elem_of_In in Ha.
        intros Hxa Hyb Ey. eapply (pages_apart_spec len p x); eauto.
        rewrite Forall_forall in Hf. apply Hf. set_solver.
      * rewrite Eapp in Hx, Hy. eapply Hap; eauto. rewrite length_app. simpl. lia.
    + intros [Hall Hap]. split.
      * destruct (loadable p) eqn:Hl; [right|by left].
        assert (segment_fits len p) as Fp by (apply Hall; [set_solver|done]). split; [by apply segment_ok_spec|].
        apply forallb_forall. intros x Hx. rewrite <- list_elem_of_In in Hx. pose proof Hx as [i Hi]%list_elem_of_lookup.
        assert (fields_ok x) as Hfx by (rewrite Forall_forall in Hf; apply Hf; set_solver).
        destruct (loadable x) eqn:Hlx; [|unfold pages_apart; by rewrite Hlx].
        apply (pages_apart_spec len p x); try done; [by apply He|]. intros _ a b Ha Hb E.
        pose proof (lookup_lt_Some _ _ _ Hi). eapply (Hap i (length earlier) x p b a); try done; [by apply lookup_app_l_Some].
      * apply IH; [by rewrite <- Eapp| |].
        { intros q [Hq|Hq]%elem_of_app; [by apply He|]. apply list_elem_of_singleton in Hq as ->. apply Hall. set_solver. }
        split; [intros q Hq; apply Hall; set_solver|]. rewrite <- Eapp, length_app. simpl. intros i j x y a b Hij Hj. apply Hap; lia.
Qed.

Lemma foldl_raise ps : forall h, h <= foldl raise h ps /\
  (foldl raise h ps = h \/ exists p, p ∈ ps /\ loadable p = true /\ foldl raise h ps = segment_end p) /\
  (forall p, p ∈ ps -> loadable p = true -> segment_end p <= foldl raise h ps).
Proof.
  induction ps as [|p ps IH]; intros h; simpl.
  - split; [lia|]. split; [by left|]. by intros p Hp%elem_of_nil.
  - destruct (IH (raise h p)) as (H1 & H2 & H3). unfold raise in *. destruct (loadable p) eqn:Hl.
    + split; [lia|]. split.
      * destruct H2 as [E|(q & Hq & Lq & E)]; [|right; exists q; split; [set_solver|done]].
        destruct (Z.le_gt_cases (segment_end p) h); [left; lia|right]. exists p. split; [set_solver|]. split; [done|lia].
      * intros q [->|Hq]%elem_of_cons Lq; [lia|by apply H3].
    + split; [done|]. split; [destruct H2 as [?|(q & Hq & ?)]; [by left|right; exists q; split; [set_solver|done]]|].
      intros q [->|Hq]%elem_of_cons Lq; [congruence|by apply H3].
Qed.

Lemma validate_programs_spec len entry ps highest : Forall fields_ok ps ->
  validate_programs len entry ps = Some highest <-> elf_valid len entry ps highest.
Proof.
  intros Hf. unfold validate_programs. rewrite check_programs_run. simpl (false || _).
  pose proof (segments_ok_spec len ps [] Hf ltac:(by intros p Hp%elem_of_nil)) as Hok. simpl in Hok.
  destruct (foldl_raise ps 0) as (Hr0 & Hr1 & Hr2). rewrite Forall_forall in Hf.
  assert (forall p, p ∈ ps -> loadable p = true -> segment_fits len p -> segment_end p = virtual_address p + memory_size p) as Hend
    by (intros p Hp Hl Hs; by apply (page_bounds len p (Hf p Hp) Hl Hs)).
  assert (existsb (fun p => loadable p && holds_entry entry p) ps = true <->
    exists p, p ∈ ps /\ loadable p = true /\ executable p = true /\ virtual_address p <= entry < segment_end p) as Hex.
  { rewrite existsb_exists. split.
    - intros (p & Hp & H). unfold holds_entry in H. rewrite !andb_true_iff, Z.leb_le, Z.ltb_lt in H.
      exists p. rewrite list_elem_of_In. tauto.
    - intros (p & Hp & H). exists p. rewrite <- list_elem_of_In. split; [done|]. unfold holds_entry.
      rewrite !andb_true_iff, Z.leb_le, Z.ltb_lt. tauto. }
  destruct (segments_ok len [] ps); cbn [mbind option_bind].
  - destruct (proj1 Hok eq_refl) as [Hall Hap].
    destruct (existsb _ ps) eqn:Ee; cbn [negb]; [|rewrite orb_true_r; split; [done|]].
    2: { intros [_ _ (p & Hp & Hl & Hx & Hin) _ _]. exfalso. apply diff_false_true, Hex. exists p. rewrite Hend by auto. done. }
    destruct (proj1 Hex eq_refl) as (p0 & Hp0 & Hl0 & Hx0 & Hin0).
    rewrite orb_false_r, (proj2 (Z.eqb_neq _ 0)).
    2: { assert (p0 ∈ filter (fun p => loadable p = true) ps) as Hin by (by apply list_elem_of_filter).
         destruct (filter _ ps); [by apply elem_of_nil in Hin|simpl; lia]. }
    assert (elf_valid len entry ps (foldl raise 0 ps)) as Hv.
    { split.
      - done.
      - intros i j p q a b Hij Hp Hq. eapply Hap; eauto. lia.
      - exists p0. rewrite Hend in Hin0 by auto. done.
      - destruct Hr1 as [E|(p & Hp & Hl & E)]; [|exists p; rewrite <- Hend by auto; done].
        exfalso. pose proof (Hr2 p0 Hp0 Hl0) as Hle. rewrite E, Hend in Hle by auto.
        destruct (Hall p0 Hp0 Hl0) as [_ _ Hlo _ _]. destruct (Hf p0 Hp0) as [_ _ _ Hm _]. unfold USER_PROGRAM_MIN, is_u32 in *. lia.
      - intros p Hp Hl. rewrite <- Hend by auto. by apply Hr2. }
    split; [intros [= <-]; done|]. intros [_ _ _ (p & Hp & Hl & ->) Hb]. f_equal.
    destruct Hv as [_ _ _ (q & Hq & Lq & E) Hb']. pose proof (Hb q Hq Lq). pose proof (Hb' p Hp Hl). lia.
  - split; [done|]. intros [Hall Hap _ _ _]. exfalso. apply diff_false_true. apply Hok. split; [done|].
    intros i j p q a b Hij _. by apply Hap.
Qed.
