(* ===== verification/Exec.v ===== *)
(** * exec.c: replacing the image of a process

    [process_execve] builds the new image in an address space of its own
    and gives up the old one only when nothing can fail any more.  The
    request, a kernel allocation, is the record [exec_request] together
    with the decoded ELF structures; its block is allocated and freed.
    The saved register frame is passed and returned.  [fs_root] is the root
    of the file system. *)

From S2P Require Import Prelude Memory Kmalloc Frames Paging Vfs Task UserSpace UserFile Signal Elf.

Definition EXEC_PATH_MAX : Z := 256.
Definition EXEC_ARGUMENT_MAX : Z := 16.
Definition EXEC_ARGUMENT_BYTES_MAX : Z := 2048.
Definition sizeof_exec_request_t : Z := 3452.

Record exec_request : Type := mk_request {
  path : list Z;
  argument_count : Z;
  argument_offset : list Z;
  argument_storage : list Z
}.

(** A string of the storage, from an offset to its terminator. *)
Fixpoint string_of (l : list Z) : list Z :=
  match l with
  | [] => []
  | c :: l => if c =? 0 then [] else c :: string_of l
  end.
Definition argument (rq : exec_request) (offset : Z) : list Z :=
  string_of (drop (Z.to_nat offset) (argument_storage rq)).

(** The fields of the task that a new image changes. *)
Definition set_image (dir brk : Z) (t : task) : task :=
  mk_task (id t) (parent_id t) (state t) (exit_status t) (esp t) (ebp t) (eip t) dir (kernel_stack t)
    brk brk brk USER_HEAP_LIMIT (is_user_process t)
    (signal_handlers t) (pending_signals t) (signal_trampoline t) (signal_active t) (active_signal t)
    (descriptors t) (working_directory t) (next t).
(** The registers with which the new program starts. *)
Definition set_entry (entry useresp : Z) (r : registers) : registers := set_eax 0 (set_resumption entry useresp r).

Section exec.
Context {K S Cb : Type} `{!Kmalloc K} `{!HasMemory S} `{!FsDriver S Cb} `{!FileSource S Cb}.
Variable fs_root : Z.
Implicit Types k : kernel page_bytes K S.

(** ** Capturing the request *)

(** The characters before the terminator, or failure. *)
Definition copy_bounded_string (capacity source : Z) k : res (option (list Z)) :=
  if (source =? 0) || (capacity =? 0) then Ok None
  else
    while (fun '(i, l) =>
      if i <? capacity then
        c ← vload8 (u32 (source + i)) k;
        if c =? 0 then Ok (Break (Some l)) else Ok (Continue (i + 1, l ++ [c]))
      else Ok (Break None)) (0, []).

(** The loop over [argv]: index, offsets and storage so far. *)
Definition capture_step (argv : Z) (rpath : list Z) k (st : Z * list Z * list Z) :
    res (ctl (Z * list Z * list Z) (option exec_request)) :=
  let '(index, offsets, storage) := st in
  if index <? EXEC_ARGUMENT_MAX then
    argument ← vload32 (u32 (argv + 4 * index)) k;
    if argument =? 0 then Ok (Break (Some (mk_request rpath index offsets storage)))
    else
      let argument_bytes := Z.of_nat (List.length storage) in
      let remaining := EXEC_ARGUMENT_BYTES_MAX - argument_bytes in
      if remaining =? 0 then Ok (Break None)
      else
        s ← copy_bounded_string remaining argument k;
        match s with
        | None => Ok (Break None)
        | Some s => Ok (Continue (index + 1, offsets ++ [argument_bytes], storage ++ s ++ [0]))
        end
  else Ok (Break None).

Definition capture_request (upath argv envp : Z) k : res (option exec_request) :=
  p ← copy_bounded_string EXEC_PATH_MAX upath k;
  match p with
  | None | Some [] => Ok None
  | Some p =>
      environment ← (if envp =? 0 then Ok 0 else vload32 envp k);
      if negb (environment =? 0) then Ok None
      else if argv =? 0 then Ok (Some (mk_request p 0 [] []))
      else while (capture_step argv p k) (0, [], [])
  end.

(** ** Reading and validating the file *)

Definition read_exact (file offset size : Z) k : res (option (list Z)) :=
  l ← read_bytes file offset size k;
  Ok (if Z.of_nat (List.length l) =? size then Some l else None).

(** The header, the program headers and the highest address. *)
Definition validate_elf (file : Z) k : res (option (elf32_header * list elf32_program_header * Z)) :=
  if file =? 0 then Ok None
  else
    n ← deref file (kfs k);
    if negb (Z.land (flags n) 0x7 =? FS_FILE) || negb (bool_decide (is_Some (read n))) ||
       (length n <? sizeof_elf32_header_t)
    then Ok None
    else
      bytes ← read_exact file 0 sizeof_elf32_header_t k;
      match bytes with
      | None => Ok None
      | Some bytes =>
          let h := header_of bytes in
          if negb (header_ok h) then Ok None
          else
            let table_size := program_header_count h * sizeof_elf32_program_header_t in
            if (length n <? program_header_offset h) || (length n - program_header_offset h <? table_size) then Ok None
            else
              bytes ← read_exact file (program_header_offset h) table_size k;
              match bytes with
              | None => Ok None
              | Some bytes =>
                  let ps := programs_of (Z.to_nat (program_header_count h)) bytes in
                  match validate_programs (length n) (entry h) ps with
                  | None => Ok None
                  | Some highest => Ok (Some (h, ps, highest))
                  end
              end
      end.

(** ** Building the image *)

(** A new page of zeros, unless the page is already there. *)
Definition claim_page (dir address : Z) (m : mm page_bytes K) : res (bool * mm page_bytes K) :=
  '(entry, m) ← get_page address 1 dir m;
  match entry with
  | None => Ok (false, m)
  | Some (table, i) =>
      p ← read_page table i m;
      if negb (present p =? 0) then Ok (false, m)
      else m ← back_page table i m; Ok (true, m)
  end.

Definition claim_pages (dir first last : Z) (m : mm page_bytes K) : res (bool * mm page_bytes K) :=
  while (fun '(address, m) =>
    if address <? last then
      '(ok, m) ← claim_page dir address m;
      if negb ok then Ok (Break (false, m)) else Ok (Continue (u32 (address + PAGE_SIZE), m))
    else Ok (Break (true, m))) (first, m).

Definition protect_page (dir address : Z) (is_writable : bool) (m : mm page_bytes K) : res (mm page_bytes K) :=
  '(entry, m) ← get_page address 0 dir m;
  match entry with
  | None => Panic ASSERTION_FAILED
  | Some (table, i) =>
      p ← read_page table i m;
      ASSERT (negb (present p =? 0));;
      Ok (write_page table i (mk_page (present p) (if is_writable then 1 else 0) (user p) (accessed p) (dirty p)
            (unused p) (frame p)) m)
  end.

Definition protect_pages (dir first last : Z) (is_writable : bool) (m : mm page_bytes K) : res (mm page_bytes K) :=
  while (fun '(address, m) =>
    if address <? last then
      m ← protect_page dir address is_writable m;
      Ok (Continue (u32 (address + PAGE_SIZE), m))
    else Ok (Break m)) (first, m).

Definition load_segment (file dir : Z) (p : elf32_program_header) k : res (bool * kernel page_bytes K S) :=
  '(ok, m) ← claim_pages dir (page_start p) (page_end p) (kmm k);
  let k := with_mm k m in
  if negb ok then Ok (false, k)
  else
    '(ok, k) ← (if file_size p =? 0 then Ok (true, k)
                else '(n, k) ← vread_fs file (file_offset p) (file_size p) (virtual_address p) k; Ok (n =? file_size p, k));
    if negb ok then Ok (false, k)
    else m ← protect_pages dir (page_start p) (page_end p) (writable p) (kmm k); Ok (true, with_mm k m).

Fixpoint map_and_load_segments (file dir : Z) (ps : list elf32_program_header) k : res (bool * kernel page_bytes K S) :=
  match ps with
  | [] => Ok (true, k)
  | p :: ps =>
      if loadable p then
        '(ok, k) ← load_segment file dir p k;
        if ok : bool then map_and_load_segments file dir ps k else Ok (false, k)
      else map_and_load_segments file dir ps k
  end.

(** The arguments below number [n], copied downward from [sp]; their
    addresses, in order. *)
Fixpoint push_arguments (rq : exec_request) (n : nat) (sp : Z) (addresses : list Z) k :
    res (option (Z * list Z) * kernel page_bytes K S) :=
  match n with
  | O => Ok (Some (sp, addresses), k)
  | Datatypes.S n =>
      match argument_offset rq !! n with
      | None => Panic NULL_POINTER
      | Some offset =>
          let s := argument rq offset in
          let len := Z.of_nat (List.length s) + 1 in
          if sp - STACK_BOTTOM <? len then Ok (None, k)
          else
            let sp := sp - len in
            k ← vstore_bytes sp (s ++ [0]) k;
            push_arguments rq n sp (sp :: addresses) k
      end
  end.

(** [PUSH_STACK] of each word in turn. *)
Fixpoint push_words (ws : list Z) (sp : Z) k : res (Z * kernel page_bytes K S) :=
  match ws with
  | [] => Ok (sp, k)
  | w :: ws => let sp := u32 (sp - 4) in k ← vstore32 sp w k; push_words ws sp k
  end.

Definition build_initial_stack (rq : exec_request) (dir : Z) k : res (option Z * kernel page_bytes K S) :=
  '(ok, m) ← claim_pages dir STACK_BOTTOM USER_STACK_TOP (kmm k);
  let k := with_mm k m in
  if negb ok then Ok (None, k)
  else
    '(pushed, k) ← push_arguments rq (Z.to_nat (argument_count rq)) USER_STACK_TOP [] k;
    match pushed with
    | None => Ok (None, k)
    | Some (sp, addresses) =>
        let sp := Z.land sp (u32 (Z.lnot 0xF)) in
        let pointer_bytes := (argument_count rq + 3) * 4 in
        if sp - STACK_BOTTOM <? pointer_bytes then Ok (None, k)
        else
          let final_stack_pointer := Z.land (sp - pointer_bytes) (u32 (Z.lnot 0xF)) in
          '(sp, k) ← push_words ([0; 0] ++ rev addresses ++ [argument_count rq]) (final_stack_pointer + pointer_bytes) k;
          ASSERT (sp =? final_stack_pointer);;
          Ok (Some sp, k)
    end.

(** ** The call *)

(** [kfree(request)]. *)
Definition free_block (a : Z) k : res (kernel page_bytes K S) :=
  ks ← kfree a (kstate (kmm k)); Ok (with_mm k (Paging.with_kstate (kmm k) ks)).

(** The exits that put the old address space back. *)
Definition abandon (old_directory new_directory request : Z) k : res (kernel page_bytes K S) :=
  m ← destroy_directory new_directory (switch_page_directory old_directory (kmm k));
  free_block request (with_mm k m).

Definition process_execve (upath argv envp : Z) (return_frame : registers) k :
    res (Z * registers * kernel page_bytes K S) :=
  let process := current_task k in
  if process =? 0 then Ok (-1, return_frame, k)
  else
    t ← get_task process k;
    if is_user_process t =? 0 then Ok (-1, return_frame, k)
    else
      '(request, ks) ← kmalloc sizeof_exec_request_t (kstate (kmm k));
      let k := with_mm k (Paging.with_kstate (kmm k) ks) in
      if request =? 0 then Ok (-1, return_frame, k)
      else
        rq ← capture_request upath argv envp k;
        match rq with
        | None => k ← free_block request k; Ok (-1, return_frame, k)
        | Some rq =>
            file ← resolve_path_fs fs_root (working_directory t) (Some (path rq)) (kfs k);
            image ← validate_elf file k;
            match image with
            | None => k ← free_block request k; Ok (-1, return_frame, k)
            | Some (h, ps, highest_loaded_address) =>
                let old_directory := task_directory t in
                '(new_directory, m) ← clone_directory (kernel_directory (kmm k)) (kmm k);
                let k := with_mm k (switch_page_directory new_directory m) in
                '(loaded, k) ← map_and_load_segments file new_directory ps k;
                '(stack, k) ← (if loaded : bool then build_initial_stack rq new_directory k else Ok (None, k));
                match stack with
                | None => k ← abandon old_directory new_directory request k; Ok (-1, return_frame, k)
                | Some new_stack_pointer =>
                    let new_heap_start := ALIGN_UP_PAGE highest_loaded_address in
                    if USER_HEAP_LIMIT <=? new_heap_start then
                      k ← abandon old_directory new_directory request k; Ok (-1, return_frame, k)
                    else
                      let k := update_task process (set_image new_directory new_heap_start) k in
                      k ← task_signal_exec_reset k;
                      m ← destroy_directory old_directory (kmm k);
                      k ← free_block request (with_mm k m);
                      Ok (0, set_entry (entry h) new_stack_pointer return_frame, k)
                end
            end
        end.
End exec.
