(* ===== verification/AddressBuild.v ===== *)
(** * Building an address space beside the others

    [building m0 m nd]: [m] is [m0] with one more directory, [nd], that
    shares the kernel's tables and owns every page that [m] has in use
    beyond [m0].  Mapping a page, storing to it and changing its
    protection keep this; destroying [nd] gives [m0] back, as far as any
    other directory or the allocators can tell ([restored]). *)

From S2P Require Import Prelude Kmalloc Frames Paging PagingProofs Task AddressSpace AddressClone Scheduler UserSpace UserMemory ProcessOps.

(** Nothing but the contents of unused memory changed. *)
Record restored {K} `{!Kmalloc K} `{!KmallocLaws K} (m m' : mm page_bytes K) : Prop := {
  rs_ok : vm_ok m';
  rs_nframes : nframes (bits m') = nframes (bits m);
  rs_used g : 0 <= g -> used (bits m') g = used (bits m) g;
  rs_contents f o : 0 <= f < nframes (bits m) -> used (bits m) f = true ->
    contents_of m' (base f) o = contents_of m (base f) o;
  rs_pte d v : is_Some (directories m !! d) -> 0 <= v -> pte m' d v = pte m d v;
  rs_kernel : kernel_directory m' = kernel_directory m;
  rs_current : current_directory m' = current_directory m;
  rs_directories x : is_Some (directories m' !! x) <-> is_Some (directories m !! x);
  rs_kernel_slots : directories m' !! kernel_directory m = directories m !! kernel_directory m;
  rs_blocks x : x ∈ k_live (kstate m') <-> x ∈ k_live (kstate m);
  rs_tables t : is_Some (page_tables m' !! t) -> is_Some (page_tables m !! t)
}.

Section build.
Context {K : Type} `{!Kmalloc K} `{!KmallocLaws K}.
Implicit Types m : mm page_bytes K.

(** [f] backs a user page of [dir]. *)
Definition backs m (dir f : Z) : Prop := exists v p, user_range v /\ pte m dir v = Some p /\ frame p = f.

Record building m0 m (nd : Z) : Prop := {
  bg_ok : vm_ok m;
  bg_region : user_region_free m;
  bg_fresh : directories m0 !! nd = None /\ page_tables m0 !! nd = None /\ (nd ∉ k_live (kstate m0));
  bg_new_directory : is_Some (directories m !! nd) /\ nd <> kernel_directory m;
  bg_pte d v : is_Some (directories m0 !! d) -> 0 <= v -> pte m d v = pte m0 d v;
  bg_nframes : nframes (bits m) = nframes (bits m0);
  bg_used g : 0 <= g -> used (bits m) g = true <-> used (bits m0) g = true \/ backs m nd g;
  bg_frames g : backs m nd g -> used (bits m0) g = false;
  bg_contents f o : 0 <= f < nframes (bits m0) -> used (bits m0) f = true ->
    contents_of m (base f) o = contents_of m0 (base f) o;
  bg_kernel : kernel_directory m = kernel_directory m0;
  bg_directories x : is_Some (directories m !! x) <-> is_Some (directories m0 !! x) \/ x = nd;
  bg_tables t : is_Some (page_tables m !! t) -> is_Some (page_tables m0 !! t) \/ t ∉ k_live (kstate m0);
  bg_blocks x : x ∈ k_live (kstate m) <-> x ∈ k_live (kstate m0) \/ x = nd \/ exists i ps, private m nd i x ps;
  bg_private i t ps : private m nd i t ps -> (1 <= i < 768)%nat /\ (t ∉ k_live (kstate m0));
  bg_kernel_slots : directories m !! kernel_directory m0 = directories m0 !! kernel_directory m0;
  bg_shared i : shared_slot m0 (kernel_directory m0) i -> shared_slot m nd i
}.

(** The kernel's present pages are seen from the new directory too. *)
Lemma building_kernel_page m0 m nd a : building m0 m nd -> 0 <= a -> kernel_page m0 (kernel_directory m0) a -> kernel_page m nd a.
Proof.
  intros Hb Ha [Hs Hp]. split; [by apply (bg_shared _ _ _ Hb)|]. rewrite (bg_kernel _ _ _ Hb), (bg_pte _ _ _ Hb); [done| |Z.to_euclidean_division_equations; lia].
  destruct Hs as (x & _ & _ & Hx & _). eauto.
Qed.

Lemma private_range m dir i t ps : vm_ok m -> private m dir i t ps -> (i < 1024)%nat.
Proof.
  intros Hvm (d & kd & Hd & Ht & _). apply lookup_lt_Some in Ht. by rewrite (dk_tables _ _ (vm_directories _ Hvm _ _ Hd)) in Ht.
Qed.

(** The user pages of a directory whose private tables are user tables. *)
Lemma owned_backs m dir g : vm_ok m -> user_region_free m -> (forall i t ps, private m dir i t ps -> (1 <= i < 768)%nat) ->
  owned m dir g <-> backs m dir g.
Proof.
  intros Hvm Hreg Hi. split.
  - intros (i & t & ps & Hp & (j & q & Hj & Hq & <-)). specialize (Hi i t ps Hp).
    pose proof (lookup_lt_Some _ _ _ Hj) as Hjl. rewrite (private_length _ _ _ _ _ Hvm Hp) in Hjl.
    exists (1024 * Z.of_nat i + Z.of_nat j), q. split; [unfold user_range; lia|]. split; [|done].
    assert ((1024 * Z.of_nat i + Z.of_nat j) / 1024 = Z.of_nat i) as E1 by (Z.div_mod_to_equations; lia).
    assert ((1024 * Z.of_nat i + Z.of_nat j) mod 1024 = Z.of_nat j) as E2 by (Z.div_mod_to_equations; lia).
    rewrite (private_pte m dir _ t ps q); [by rewrite (proj2 (Z.eqb_neq _ 0))|by rewrite E1, Nat2Z.id|by rewrite E2, Nat2Z.id].
  - intros (v & p & Hv & Hp & <-). destruct (pte_private m dir v p Hvm Hreg Hv Hp) as (t & ps & Hpr & Hj & H0).
    exists (Z.to_nat (v / 1024)), t, ps. split; [done|]. by exists (Z.to_nat (v mod 1024)), p.
Qed.

Lemma backs_range m dir g : vm_ok m -> backs m dir g -> 0 <= g < nframes (bits m) /\ used (bits m) g = true.
Proof. intros Hvm (v & p & _ & Hp & <-). by eapply pte_used. Qed.

(** ** Starting *)

Lemma building_start m m1 nd : vm_ok m -> user_region_free m -> forked m m1 (kernel_directory m) nd ->
  building m (switch_page_directory nd m1) nd /\ forall v, user_range v -> pte m1 nd v = None.
Proof.
  intros Hvm Hreg Hf. destruct (vm_kernel _ Hvm) as [kd Hkd].
  assert (forall i t ps, ~ private m1 nd i t ps) as Hnp.
  { intros i t ps Hp. destruct (fk_source _ _ _ _ Hf _ _ _ Hp) as (y & qs & Hq). by eapply private_kernel. }
  assert (forall v, user_range v -> pte m1 nd v = None) as Hnone.
  { intros v Hv. apply (fk_none _ _ _ _ Hf); [unfold user_range in Hv; lia|]. destruct Hreg as (kd' & Hkd' & Hfree).
    unfold pte. rewrite Hkd'. simpl. rewrite Hfree; [done|unfold user_range in Hv; Z.div_mod_to_equations; lia]. }
  assert (forall g, ~ backs m1 nd g) as Hnb by (intros g (v & p & Hv & Hp & _); rewrite Hnone in Hp; done).
  destruct (fk_new _ _ _ _ Hf) as (N1 & N2 & N3).
  assert (is_Some (directories m1 !! nd)) as Hnd by (apply (fk_directories _ _ _ _ Hf); by right).
  split; [|done]. split; try apply Hf; try done.
  - by apply ProcessOps.vm_ok_switch; [apply Hf|].
  - eapply (user_region_keep m m1); [apply Hf|apply Hf|done].
  - split; [done|]. simpl. rewrite (fk_kernel _ _ _ _ Hf). congruence.
  - intros d v [y Hd] _. apply (fk_old _ _ _ _ Hf). congruence.
  - intros g Hg. simpl. rewrite (fk_used_exactly _ _ _ _ Hf) by done. split; [|intros [?|?%Hnb]; [by left|done]].
    intros [?|(i & t & ps & Hp & _)]; [by left|by destruct (Hnp i t ps)].
  - by intros g Hg%Hnb.
  - intros f o Hf0 Hu. simpl. by rewrite (fk_contents _ _ _ _ Hf).
  - by intros i t ps Hp%Hnp.
Qed.

(** ** One more page *)

Lemma building_mapped m0 m m' nd v p : building m0 m nd -> user_range v -> pte m nd v = None -> mapped m m' nd v p ->
  building m0 m' nd.
Proof.
  intros Hb Hv Hnone Hm. pose proof Hb as [Bok Breg (F1 & F2 & F3) [D1 D2] Bpte Bnf Bu Bfr Bc Bk Bd Bt Bbl Bp Bks Bsh].
  assert (forall w, 0 <= w -> w <> v -> pte m' nd w = pte m nd w) as Hw
    by (intros w H0 Hne; apply (mp_pte _ _ _ _ _ Hm); [done|done|by right]).
  assert (forall g, backs m' nd g <-> backs m nd g \/ g = frame p) as Hbacks.
  { intros g. split.
    - intros (w & q & Hur & Hq & <-). destruct (decide (w = v)) as [->|Hne].
      + right. rewrite (mp_page _ _ _ _ _ Hm) in Hq. congruence.
      + left. rewrite Hw in Hq by (unfold user_range in Hur; lia || done). by exists w, q.
    - intros [(w & q & Hur & Hq & <-)| ->].
      + exists w, q. split_and!; try done. rewrite Hw; [done|unfold user_range in Hur; lia|congruence].
      + exists v, p. split_and!; try done. apply Hm. }
  destruct (mp_frame _ _ _ _ _ Hm) as [Hpf Hpu].
  assert (forall g, 0 <= g -> used (bits m0) g = true -> g <> frame p) as Hne.
  { intros g Hg Hu ->. assert (used (bits m) (frame p) = true) by (apply Bu; [done|by left]). congruence. }
  split; try done.
  - apply Hm.
  - eapply (user_region_keep m m'); [apply Hm|apply Hm|done].
  - split; [by apply (mp_directories _ _ _ _ _ Hm)|]. by rewrite (mp_kernel _ _ _ _ _ Hm).
  - intros d w Hd H0. rewrite (mp_pte _ _ _ _ _ Hm); [by apply Bpte|apply Bd; by left|done|left; intros ->; destruct Hd; congruence].
  - by rewrite (mp_nframes _ _ _ _ _ Hm).
  - intros g Hg. rewrite (mp_used _ _ _ _ _ Hm), Bu, Hbacks by done. tauto.
  - intros g [?| ->]%Hbacks; [by apply Bfr|]. apply not_true_iff_false. intros Hu. by apply (Hne (frame p)); [lia|done|].
  - intros f o Hf Hu. rewrite (mp_contents _ _ _ _ _ Hm); [by apply Bc|by rewrite Bnf|]. apply Hne; [lia|done].
  - by rewrite (mp_kernel _ _ _ _ _ Hm).
  - intros x. by rewrite (mp_directories _ _ _ _ _ Hm), Bd.
  - intros t [Ht|Ht]%(mp_tables _ _ _ _ _ Hm); [by apply Bt|right]. intros Hl. apply Ht, Bbl. by left.
  - intros x. split.
    + intros [Hx|[ps Hx]]%(mp_blocks_only _ _ _ _ _ Hm); [|right; right; eauto].
      apply Bbl in Hx as [?|[?|(i & ps & Hx)]]; [by left|by right; left|right; right].
      destruct (mp_private_old _ _ _ _ _ Hm _ _ _ _ Hx) as [qs ?]. eauto.
    + intros H. destruct (decide (x ∈ k_live (kstate m))) as [Hl|Hl]; [by apply (mp_blocks _ _ _ _ _ Hm)|].
      destruct H as [?|[->|(i & ps & (?&?&?&?&?&?&?&Hx))]]; [destruct Hl; apply Bbl; tauto|destruct Hl; apply Bbl; tauto|].
      by eapply (ol_tables _ (vm_live _ (mp_ok _ _ _ _ _ Hm))).
  - intros i t ps Hp. destruct (mp_private_new _ _ _ _ _ Hm _ _ _ _ Hp) as [[qs Hq]|(_ & -> & Ht)]; [by apply (Bp i t qs)|].
    split; [unfold user_range in Hv; Z.div_mod_to_equations; lia|]. intros Hl. apply Ht, Bbl. by left.
  - rewrite <- Bks, <- Bk. apply Hm.
  - intros i Hi. by apply (mp_shared _ _ _ _ _ Hm), Bsh.
Qed.

(** ** Giving it up *)

Lemma building_destroyed m0 m m' nd : vm_ok m0 -> building m0 m nd -> is_Some (directories m0 !! current_directory m) ->
  current_directory m = current_directory m0 -> destroyed m m' nd -> restored m0 m'.
Proof.
  intros Hvm0 [Bok Breg (F1 & F2 & F3) [D1 D2] Bpte Bnf Bu Bfr Bc Bk Bd Bt Bbl Bp Bks Bsh] Hc Ec [? ? Du Dc Dd Dp Dk Dcur Dbl Dt].
  assert (forall d, is_Some (directories m0 !! d) -> d <> nd) as Hne by (intros d [y ?] ->; congruence).
  assert (forall x, x ∈ k_live (kstate m') <-> x ∈ k_live (kstate m0)) as Hbl.
  { intros x. rewrite Dbl, Bbl. split.
    - intros ([?|[?|(i & ps & Hx)]] & H1 & H2); [done..|]. by destruct (H2 i ps).
    - intros Hx. split; [by left|]. split; [intros ->; done|]. intros i ps Hp. by destruct (Bp _ _ _ Hp). }
  split; try done.
  - congruence.
  - intros g Hg. destruct (used (bits m0) g) eqn:E0.
    + apply Du; [done|]. split; [apply Bu; [done|by left]|].
      rewrite (owned_backs m nd g Bok Breg) by (intros ??? Hp; by apply Bp in Hp as [? _]).
      intros Hb%Bfr. congruence.
    + apply not_true_iff_false. intros [Hu Ho]%Du; [|done]. apply Ho.
      rewrite (owned_backs m nd g Bok Breg) by (intros ??? Hp; by apply Bp in Hp as [? _]).
      apply Bu in Hu as [?|?]; [congruence|done|done].
  - intros f o Hf Hu. rewrite Dc. by apply Bc.
  - intros d v Hd Hv. rewrite Dp by (by apply Hne). by apply Bpte.
  - congruence.
  - congruence.
  - intros x. rewrite Dd, lookup_delete_is_Some, Bd. split; [intros [? [?|?]]; done|]. intros Hx. split; [|by left].
    intros E. by apply (Hne x).
  - rewrite Dd, lookup_delete_ne; [done|]. intros E. apply (Hne (kernel_directory m0)); [|done]. apply Hvm0.
  - intros t [ps Ht]. assert (is_Some (page_tables m !! t)) as Hs by eauto using mk_is_Some.
    apply Bt in Hs as [?|Hn]; [done|]. exfalso. apply Hn, Hbl. by eapply (ol_tables _ (vm_live _ de_ok)).
Qed.
(** ** Changing the protection of a page *)

(** The same entries but for their flags. *)
Definition same_frames (ps qs : list page_t) : Prop := List.length qs = List.length ps /\
  forall j p, ps !! j = Some p -> exists q, qs !! j = Some q /\ present q = present p /\ frame q = frame p.

Lemma same_frames_inv ps qs j q : same_frames ps qs -> qs !! j = Some q ->
  exists p, ps !! j = Some p /\ present q = present p /\ frame q = frame p.
Proof.
  intros [Hl H] Hq. destruct (lookup_lt_is_Some_2 ps j) as [p Hp]; [rewrite <- Hl; by eapply lookup_lt_Some|].
  destruct (H j p Hp) as (q' & Hq' & ? & ?). exists p. split; [done|]. split; congruence.
Qed.

Lemma same_frames_owns ps qs f : same_frames ps qs -> owns qs f <-> owns ps f.
Proof.
  intros Hs. split.
  - intros (j & q & Hq & H0 & <-). destruct (same_frames_inv _ _ _ _ Hs Hq) as (p & Hp & E1 & E2). exists j, p.
    split_and!; [done|congruence|done].
  - intros (j & p & Hp & H0 & <-). destruct Hs as [_ Hs]. destruct (Hs j p Hp) as (q & Hq & E1 & E2). exists j, q.
    split_and!; [done|congruence|done].
Qed.

(** The table [t] has new flags. *)
Record reflagged m m' (t : Z) (ps qs : list page_t) : Prop := {
  rf_old : page_tables m !! t = Some ps;
  rf_tables : page_tables m' = <[t := qs]> (page_tables m);
  rf_same : same_frames ps qs;
  rf_bits : bits m' = bits m;
  rf_directories : directories m' = directories m;
  rf_contents : contents_of m' = contents_of m;
  rf_kernel : kernel_directory m' = kernel_directory m;
  rf_current : current_directory m' = current_directory m;
  rf_kstate : kstate m' = kstate m
}.

Lemma reflagged_table m m' t ps qs x us : reflagged m m' t ps qs -> page_tables m' !! x = Some us ->
  exists ws, page_tables m !! x = Some ws /\ same_frames ws us.
Proof.
  intros Hr. rewrite (rf_tables _ _ _ _ _ Hr). intros [[<- <-]|[_ Hx]]%lookup_insert_Some.
  - exists ps. split; apply Hr.
  - exists us. split; [done|]. split; [done|]. eauto.
Qed.
Lemma reflagged_table' m m' t ps qs x ws : reflagged m m' t ps qs -> page_tables m !! x = Some ws ->
  exists us, page_tables m' !! x = Some us /\ same_frames ws us.
Proof.
  intros Hr Hx. rewrite (rf_tables _ _ _ _ _ Hr). destruct (decide (x = t)) as [->|Hne].
  - exists qs. rewrite lookup_insert_eq. split; [done|]. pose proof (rf_old _ _ _ _ _ Hr).
    assert (ws = ps) as -> by congruence. apply Hr.
  - exists ws. rewrite lookup_insert_ne by done. split; [done|]. split; [done|]. eauto.
Qed.

Lemma reflagged_private m m' t ps qs d i x us : reflagged m m' t ps qs -> private m' d i x us ->
  exists ws, private m d i x ws /\ same_frames ws us.
Proof.
  intros Hr (y & kd & H1 & H2 & H3 & H4 & H5 & H6). destruct (reflagged_table _ _ _ _ _ _ _ Hr H6) as (ws & Hw & Hs).
  rewrite (rf_directories _ _ _ _ _ Hr), ?(rf_kernel _ _ _ _ _ Hr) in *. exists ws. split; [by exists y, kd|done].
Qed.
Lemma reflagged_private' m m' t ps qs d i x ws : reflagged m m' t ps qs -> private m d i x ws ->
  exists us, private m' d i x us.
Proof.
  intros Hr (y & kd & H1 & H2 & H3 & H4 & H5 & H6). destruct (reflagged_table' _ _ _ _ _ _ _ Hr H6) as (us & Hu & Hs).
  exists us, y, kd. by rewrite (rf_directories _ _ _ _ _ Hr), (rf_kernel _ _ _ _ _ Hr).
Qed.

Lemma reflagged_ok m m' t ps qs : vm_ok m -> reflagged m m' t ps qs -> vm_ok m'.
Proof.
  intros Hvm Hr. pose proof Hr as [R1 R2 R3 R4 R5 R6 R7 R8 R9].
  assert (forall d x, directories m' !! d = Some x -> directories m !! d = Some x) as Hd by (intros d x; by rewrite R5).
  split.
  - rewrite R4. apply Hvm.
  - split.
    + intros x us Hx. destruct (reflagged_table _ _ _ _ _ _ _ Hr Hx) as (ws & Hw & _). rewrite R9. by eapply (ol_tables _ (vm_live _ Hvm)).
    + intros x y Hx%Hd. rewrite R9. by eapply (ol_directories _ (vm_live _ Hvm)).
  - intros d x Hx%Hd. by eapply (vm_addr _ Hvm).
  - rewrite R5, R7. apply Hvm.
  - rewrite R5, R8. apply Hvm.
  - intros dir d Hx%Hd. destruct (vm_directories _ Hvm _ _ Hx) as [D1 D2 D3]. split; try done. intros i x Hi H0.
    destruct (D3 i x Hi H0) as (ws & Hw & [L F]). destruct (reflagged_table' _ _ _ _ _ _ _ Hr Hw) as (us & Hu & Hs).
    exists us. split; [done|]. split; [by rewrite (proj1 Hs)|]. intros f Hf. rewrite R4. apply F. by apply (same_frames_owns ws us).
  - intros x us d Hx Hdx%Hd. destruct (reflagged_table _ _ _ _ _ _ _ Hr Hx) as (ws & Hw & _). by eapply (vm_disjoint _ Hvm).
  - intros d i d' i' x us us' (ws & H1 & _)%(reflagged_private _ _ _ _ _ _ _ _ _ Hr) (ws' & H2 & _)%(reflagged_private _ _ _ _ _ _ _ _ _ Hr).
    by eapply (vm_once _ Hvm).
  - intros d i x us kd j (ws & H1 & _)%(reflagged_private _ _ _ _ _ _ _ _ _ Hr). rewrite R5, R7. by eapply (vm_kernel_slot _ Hvm).
  - intros d i x us d' i' x' us' f (ws & H1 & S1)%(reflagged_private _ _ _ _ _ _ _ _ _ Hr) (ws' & H2 & S2)%(reflagged_private _ _ _ _ _ _ _ _ _ Hr).
    rewrite (same_frames_owns _ _ _ S1), (same_frames_owns _ _ _ S2). by eapply (vm_frames _ Hvm).
  - intros d i x us j l p q (ws & H1 & S1)%(reflagged_private _ _ _ _ _ _ _ _ _ Hr) Hj Hl P0 Q0 E.
    destruct (same_frames_inv _ _ _ _ S1 Hj) as (p' & Hp' & ? & ?), (same_frames_inv _ _ _ _ S1 Hl) as (q' & Hq' & ? & ?).
    eapply (vm_entries _ Hvm); [exact H1|exact Hp'|exact Hq'|congruence..].
  - intros d i x us kd j x' vs f (ws & H1 & S1)%(reflagged_private _ _ _ _ _ _ _ _ _ Hr) Hkd Hj H0 Hx' Ho1 Ho2.
    destruct (reflagged_table _ _ _ _ _ _ _ Hr Hx') as (ys & Hy & S2). rewrite R5, R7 in Hkd.
    apply (same_frames_owns _ _ _ S1) in Ho1. apply (same_frames_owns _ _ _ S2) in Ho2. by eapply (vm_kernel_frames _ Hvm).
Qed.

(** The flags of one page change. *)
Lemma reflag_pte m m' dir v t ps p p' : vm_ok m -> 0 <= v -> private m dir (Z.to_nat (v / 1024)) t ps ->
  ps !! Z.to_nat (v mod 1024) = Some p -> present p <> 0 -> present p' = present p -> frame p' = frame p ->
  reflagged m m' t ps (<[Z.to_nat (v mod 1024) := p']> ps) ->
  pte m' dir v = Some p' /\ forall d' v', 0 <= v' -> d' <> dir \/ v' <> v -> pte m' d' v' = pte m d' v'.
Proof.
  intros Hvm Hv Hp Hj H0 E1 E2 Hr. eapply entry_pte; [done|done|done|congruence|by eapply private_length|].
  pose proof (private_pte m dir v t ps p Hp Hj) as Hpte. rewrite (proj2 (Z.eqb_neq (present p) 0)) in Hpte by done.
  destruct (pte_used m dir v p Hvm Hpte) as [_ Hu]. pose proof Hr as [R1 R2 R3 R4 R5 R6 R7 R8 R9]. split; try done.
  - rewrite R4. apply Hvm.
  - split; [by rewrite R4|]. intros g Hg. rewrite R4. case_decide; [|done]. subst g. by rewrite E2.
Qed.

Lemma building_reflagged m0 m m' nd t ps qs : building m0 m nd -> reflagged m m' t ps qs ->
  (forall d v, 0 <= v -> d <> nd -> pte m' d v = pte m d v) -> (forall f, backs m' nd f <-> backs m nd f) ->
  building m0 m' nd.
Proof.
  intros [Bok Breg (F1 & F2 & F3) [D1 D2] Bpte Bnf Bu Bfr Bc Bk Bd Bt Bbl Bp Bks Bsh] Hr Hpte Hb.
  pose proof Hr as [R1 R2 R3 R4 R5 R6 R7 R8 R9]. split; rewrite ?R4, ?R5, ?R6, ?R7; try done.
  - by eapply reflagged_ok.
  - destruct Breg as (kd & Hkd & Hf). exists kd. by rewrite R5, R7.
  - intros d v Hd Hv. rewrite Hpte; [by apply Bpte|done|intros ->; destruct Hd; congruence].
  - intros g Hg. by rewrite Bu, Hb.
  - intros g ?%Hb. by apply Bfr.
  - intros x [us Hx]. destruct (reflagged_table _ _ _ _ _ _ _ Hr Hx) as (ws & Hw & _). apply Bt. eauto.
  - intros x. rewrite R9, Bbl. split; intros [?|[?|(i & us & Hx)]]; try tauto; right; right.
    + destruct (reflagged_private' _ _ _ _ _ _ _ _ _ Hr Hx) as (ws & ?). eauto.
    + destruct (reflagged_private _ _ _ _ _ _ _ _ _ Hr Hx) as (ws & ? & _). eauto.
  - intros i x us Hx. destruct (reflagged_private _ _ _ _ _ _ _ _ _ Hr Hx) as (ws & ? & _). by eapply Bp.
  - intros i (x & kd & y & H1 & H2 & H3)%Bsh. exists x, kd, y. by rewrite R5, R7.
Qed.
End build.
