(* ===== verification/ExecImage.v ===== *)
(** * The image under construction

    [image k0 k nd f g]: the kernel runs on the new directory [nd],
    which is being built beside the address spaces of [k0]; [f] is its user
    memory and [g] the write permission of its pages; nothing else of [k0]
    has changed.  Each operation of the loader is an update of [f] and
    [g]. *)

From S2P Require Import Prelude Memory Common Kmalloc Frames Paging PagingProofs Vfs Initrd Task AddressSpace AddressClone Scheduler UserSpace UserMemory UserFile ProcessOps Elf Exec AddressBuild.

Definition fill (lo hi : Z) (f : Z -> option Z) (a : Z) : option Z := if (lo <=? a) && (a <? hi) then Some 0 else f a.
Definition put (a : Z) (l : list Z) (f : Z -> option Z) (x : Z) : option Z :=
  if (a <=? x) && (x <? a + Z.of_nat (List.length l)) then u8 <$> l !! Z.to_nat (x - a) else f x.
Definition grant (lo hi r : Z) (g : Z -> Z) (v : Z) : Z := if (lo <=? v * 0x1000) && (v * 0x1000 <? hi) then r else g v.

(** How many bytes there are to read at an offset. *)
Definition available (len off size : Z) : Z := Z.max 0 (Z.min size (len - off)).

(** What a file serves: [n] is its node and [src] where its bytes are, in
    memory the kernel and the current process share. *)
Record served {K S Cb} `{!HasMemory S} `{!FsDriver S Cb} `{!FileSource S Cb}
    (k : kernel page_bytes K S) (file : Z) (n : fs_node Cb) (src : Z) : Prop := {
  sv_node : node_at (kfs k) file = Some n /\ file <> 0;
  sv_source : exists cb, read n = Some cb /\ forall off size, 0 <= off -> 0 <= size ->
    exists a, read_source cb file off size (kfs k) = Ok (a, available (length n) off size) /\ (off <= length n -> a = src + off);
  sv_range : 0 <= length n /\ 0 < src /\ src + length n < 2 ^ 32;
  sv_bytes a : src <= a < src + length n -> 0 <= load8 (kernel_memory (kfs k)) a < 256;
  sv_shared a : src <= a < src + length n ->
    kernel_page (kmm k) (kernel_directory (kmm k)) a /\
    kernel_page (kmm k) (current_directory (kmm k)) a
}.

Lemma served_within {K S Cb} `{!HasMemory S} `{!FsDriver S Cb} `{!FileSource S Cb} (k : kernel page_bytes K S) file n src cb off size :
  served k file n src -> read n = Some cb -> 0 <= off -> 0 <= size -> off + size <= length n ->
  read_source cb file off size (kfs k) = Ok (src + off, size).
Proof.
  intros Hsv Hcb Ho Hs Hl. destruct (sv_source _ _ _ _ Hsv) as (cb' & E & H). assert (cb' = cb) as -> by congruence.
  destruct (H off size Ho Hs) as (a & -> & Ha). rewrite Ha by lia. unfold available. do 2 f_equal. lia.
Qed.

(** The bytes [off, off + size) of the file. *)
Definition file_bytes {K S} `{!HasMemory S} (k : kernel page_bytes K S) (src off : Z) (size : nat) : list Z :=
  (fun i => load8 (kernel_memory (kfs k)) (src + off + Z.of_nat i)) <$> seq 0 size.

Lemma file_bytes_length {K S} `{!HasMemory S} (k : kernel page_bytes K S) src off size :
  List.length (file_bytes k src off size) = size.
Proof. unfold file_bytes. by rewrite length_fmap, length_seq. Qed.

Section image.
Context {K S Cb : Type} `{!Kmalloc K} `{!KmallocLaws K} `{!HasMemory S} `{!FsDriver S Cb} `{!FileSource S Cb}.
Implicit Types k : kernel page_bytes K S.
Implicit Types m : mm page_bytes K.

Record image (k0 k : kernel page_bytes K S) (nd : Z) (f : Z -> option Z) (g : Z -> Z) : Prop := {
  im_building : building (kmm k0) (kmm k) nd;
  im_current : current_directory (kmm k) = nd;
  im_rest : k = with_mm k0 (kmm k);
  im_space a : user_address a -> space (kmm k) nd a = f a;
  im_rights v p : user_range v -> pte (kmm k) nd v = Some p -> rw p = g v /\ user p = 1
}.

Lemma image_ext k0 k nd f f' g g' : (forall a, user_address a -> f' a = f a) ->
  (forall v, user_range v -> g' v = g v) -> image k0 k nd f g -> image k0 k nd f' g'.
Proof.
  intros Hf Hg [B C R Hs Hr]. split; try done.
  - intros a Ha. by rewrite Hf, Hs.
  - intros v p Hv Hp. rewrite Hg by done. by apply Hr.
Qed.

Lemma space_pte m dir a : space m dir a = None <-> pte m dir (a / 0x1000) = None.
Proof. unfold space. by destruct (pte m dir (a / 0x1000)). Qed.

(** ** Pages of zeros *)

Lemma claim_page_spec m dir a : vm_ok m -> is_u32 a -> user_slot m dir (a / 0x1000) -> pte m dir (a / 0x1000) = None ->
  clone_failure (claim_page dir a m) \/
  exists p m', claim_page dir a m = Ok (true, m') /\ mapped m m' dir (a / 0x1000) p.
Proof.
  intros Hvm Ha Hus Hnone. unfold claim_page.
  destruct (get_page_absent m a dir Hvm Ha Hus Hnone) as [Hf|(t & ps & p0 & m1 & -> & Htr & Hp & Hp0 & E0)].
  { left. right. by apply alloc_failed_bind. }
  rsimpl. assert (page_tables m1 !! t = Some ps) as Hps by (destruct Hp as (?&?&?&?&?&?&?&?); done).
  rewrite (read_page_ok _ _ _ ps p0) by done. rsimpl. rewrite E0. simpl negb. cbv iota.
  destruct (back_page_spec m1 dir (a / 0x1000) t ps p0) as [Hf|(p & m' & -> & Hm)]; try done; [by apply Htr| | |].
  { unfold is_u32 in Ha. Z.div_mod_to_equations. lia. }
  { left. by apply clone_failure_bind. }
  rsimpl. right. exists p, m'. split; [done|]. by eapply ready_mapped.
Qed.

Lemma claim_page_image k0 k nd f g a : image k0 k nd f g -> user_address a -> a mod 0x1000 = 0 -> f a = None ->
  clone_failure (claim_page nd a (kmm k)) \/
  exists m', claim_page nd a (kmm k) = Ok (true, m') /\
    image k0 (with_mm k m') nd (fill a (a + 0x1000) f) (grant a (a + 0x1000) 1 g).
Proof.
  intros [B C R Hs Hr] Ha Hal Hf. pose proof (user_address_range a Ha) as Hv. set (v := a / 0x1000) in *.
  assert (pte (kmm k) nd v = None) as Hnone by (apply space_pte; by rewrite Hs).
  destruct (claim_page_spec (kmm k) nd a) as [Hf'|(p & m' & -> & Hm)]; [apply B| | |done|by left|].
  { unfold is_u32, user_address in *. lia. }
  { apply user_region_slot; [apply B|apply B|apply B|done]. }
  right. exists m'. split; [done|]. fold v in Hm.
  assert (forall w, 0 <= w -> w <> v -> pte m' nd w = pte (kmm k) nd w) as Hw
    by (intros w H0 Hne; apply (mp_pte _ _ _ _ _ Hm); [apply B|done|by right]).
  split.
  - by eapply building_mapped.
  - simpl. by rewrite (mp_current _ _ _ _ _ Hm).
  - rewrite R. done.
  - intros x Hx. simpl. unfold space, fill. destruct (decide (x / 0x1000 = v)) as [E|Hne].
    + rewrite E, (mp_page _ _ _ _ _ Hm). cbn [mbind option_bind]. rewrite (mp_zero _ _ _ _ _ Hm).
      rewrite (proj2 (Z.leb_le a x)), (proj2 (Z.ltb_lt x (a + 0x1000))) by (unfold v in E; Z.div_mod_to_equations; lia). done.
    + pose proof (user_address_range x Hx) as Hxr. unfold user_range in Hxr.
      rewrite Hw by (done || lia). assert (((a <=? x) && (x <? a + 0x1000)) = false) as ->.
      { apply andb_false_iff. rewrite Z.leb_gt, Z.ltb_ge. unfold v in Hne. Z.div_mod_to_equations. lia. }
      rewrite <- Hs by done. unfold space. destruct (pte (kmm k) nd (x / 0x1000)) as [q|] eqn:Hq; [|done]. cbn [mbind option_bind].
      f_equal. destruct (pte_used (kmm k) nd _ q (bg_ok _ _ _ B) Hq) as [H1 H2].
      rewrite (mp_contents _ _ _ _ _ Hm); [done|done|]. intros E. destruct (mp_frame _ _ _ _ _ Hm). congruence.
  - intros w q Hwr Hq. simpl in Hq. unfold grant. destruct (decide (w = v)) as [->|Hne].
    + rewrite (mp_page _ _ _ _ _ Hm) in Hq. injection Hq as <-. destruct (mp_flags _ _ _ _ _ Hm) as (_ & ? & ?).
      rewrite (proj2 (Z.leb_le _ _)), (proj2 (Z.ltb_lt _ _)) by (unfold v; Z.div_mod_to_equations; lia). done.
    + rewrite Hw in Hq by (done || (unfold user_range in Hwr; lia)).
      assert (((a <=? w * 0x1000) && (w * 0x1000 <? a + 0x1000)) = false) as ->; [|by apply Hr].
      apply andb_false_iff. rewrite Z.leb_gt, Z.ltb_ge. unfold v in Hne. Z.div_mod_to_equations. lia.
Qed.

Lemma fill_fill lo mid hi f a : lo <= mid <= hi -> fill lo hi f a = fill mid hi (fill lo mid f) a.
Proof.
  intros H. unfold fill. destruct (Z.leb_spec lo a), (Z.ltb_spec a hi), (Z.leb_spec mid a), (Z.ltb_spec a mid); simpl; done || lia.
Qed.
Lemma grant_grant lo mid hi r g v : lo <= mid <= hi -> grant lo hi r g v = grant mid hi r (grant lo mid r g) v.
Proof.
  intros H. unfold grant.
  destruct (Z.leb_spec lo (v * 0x1000)), (Z.ltb_spec (v * 0x1000) hi), (Z.leb_spec mid (v * 0x1000)), (Z.ltb_spec (v * 0x1000) mid);
    simpl; done || lia.
Qed.
Lemma fill_empty a f x : fill a a f x = f x.
Proof. unfold fill. destruct (Z.leb_spec a x), (Z.ltb_spec x a); simpl; done || lia. Qed.
Lemma grant_empty a r g v : grant a a r g v = g v.
Proof. unfold grant. destruct (Z.leb_spec a (v * 0x1000)), (Z.ltb_spec (v * 0x1000) a); simpl; done || lia. Qed.

Lemma put_nil a f x : put a [] f x = f x.
Proof.
  unfold put. rewrite Z.add_0_r. destruct (Z.leb_spec a x), (Z.ltb_spec x a); simpl; done || lia.
Qed.

(** The mapping loops of the loader. *)
Lemma claim_pages_image k0 k nd f g lo hi : image k0 k nd f g -> 0x400000 <= lo <= hi -> hi <= 0xC0000000 ->
  lo mod 0x1000 = 0 -> hi mod 0x1000 = 0 -> (forall a, lo <= a < hi -> f a = None) ->
  clone_failure (claim_pages nd lo hi (kmm k)) \/
  exists m', claim_pages nd lo hi (kmm k) = Ok (true, m') /\ image k0 (with_mm k m') nd (fill lo hi f) (grant lo hi 1 g).
Proof.
  intros Him Hlo Hhi Hal Hah Hf. unfold claim_pages.
  destruct (while_cases
    (fun '(a, m) => lo <= a <= hi /\ a mod 0x1000 = 0 /\ image k0 (with_mm k m) nd (fill lo a f) (grant lo a 1 g))
    (fun '(b, m) => b = true /\ image k0 (with_mm k m) nd (fill lo hi f) (grant lo hi 1 g))
    clone_failure (fun '(a, _) => hi - a)
    (fun '(address, m) => if address <? hi then
      '(ok, m) ← claim_page nd address m;
      if negb ok then Ok (Break (false, m)) else Ok (Continue (u32 (address + PAGE_SIZE), m))
      else Ok (Break (true, m))) (lo, kmm k)) as [([b m] & -> & -> & Hu)|Hfail]; [| | |right; eauto|by left].
  - intros [a m] (Ha & Haa & Hi). destruct (Z.ltb_spec a hi) as [Hlt|Hge].
    + destruct (claim_page_image k0 (with_mm k m) nd _ _ a Hi) as [Hfail|(m' & E & Hi')].
      * unfold user_address. lia.
      * done.
      * unfold fill. rewrite (proj2 (Z.ltb_ge a a)), andb_false_r by lia. apply Hf. lia.
      * simpl in Hfail. destruct (claim_page nd a m) as [[b m']|msg|] eqn:Eu; [by destruct (clone_failure_not_ok _ Hfail (b, m'))|..].
        -- by eapply clone_failure_conv.
        -- by eapply clone_failure_fuel.
      * simpl in E. rewrite E. rsimpl. simpl negb. cbv iota. unfold PAGE_SIZE. rewrite u32_small by lia.
        split; [|Z.div_mod_to_equations; lia]. split; [Z.div_mod_to_equations; lia|]. split; [Z.div_mod_to_equations; lia|].
        eapply image_ext; [| |exact Hi'].
        -- intros x _. apply fill_fill. lia.
        -- intros w _. apply grant_grant. lia.
    + replace hi with a by lia. done.
  - split_and!; [lia|lia|done|]. destruct k. eapply image_ext; [| |exact Him]; intros; [apply fill_empty|apply grant_empty].
  - lia.
Qed.

(** ** Stores *)

Lemma building_stored m0 k k' nd a l : building m0 (kmm k) nd -> current_directory (kmm k) = nd -> 0x400000 <= a ->
  a + Z.of_nat (List.length l) <= 0xC0000000 -> stored k k' a l -> building m0 (kmm k') nd.
Proof.
  intros B C Hlo Hhi Hst. pose proof Hst as [(c & ->) _ Hfr _].
  pose proof B as [Bok Breg BF BD Bpte Bnf Bu Bfr Bc Bk Bd Bt Bbl Bp Bks Bsh].
  split; try done; [by apply vm_ok_contents|].
  intros fr o Hf Hu. rewrite <- Bc by done. apply Hfr. intros x Hx E.
  assert (user_address x) as Hxu by (unfold user_address; lia).
  rewrite locate_pte in E by done. rewrite C in E. destruct (pte (kmm k) nd (x / 0x1000)) as [p|] eqn:Hp; [|done].
  assert (base (frame p) = base fr) as Eb by congruence.
  destruct (pte_used _ _ _ _ Bok Hp) as [H1 _]. pose proof (bw_nframes _ (vm_bits _ Bok)).
  apply base_inj in Eb; [|lia|lia]. subst fr.
  rewrite (Bfr (frame p)) in Hu; [done|]. exists (x / 0x1000), p. split_and!; [by apply user_address_range|done|done].
Qed.

Lemma image_mapped k0 k nd f g a : image k0 k nd f g -> user_address a -> is_Some (f a) ->
  is_Some (pte (kmm k) (current_directory (kmm k)) (a / 0x1000)).
Proof.
  intros [B C R Hs Hr] Ha Hf. rewrite C. rewrite <- Hs in Hf by done. unfold space in Hf.
  destruct (pte (kmm k) nd (a / 0x1000)); [eauto|by destruct Hf].
Qed.

Lemma store_image k0 k nd f g a l : image k0 k nd f g -> 0x400000 <= a -> a + Z.of_nat (List.length l) <= 0xC0000000 ->
  (forall b, a <= b < a + Z.of_nat (List.length l) -> is_Some (f b)) ->
  exists k', vstore_bytes a l k = Ok k' /\ image k0 k' nd (put a l f) g.
Proof.
  intros Him Hlo Hhi Hf. pose proof Him as [B C R Hs Hr].
  destruct (store_spec k a l (bg_ok _ _ _ B) (bg_region _ _ _ B) Hlo Hhi) as (k' & Hrun & Hst).
  { intros b Hb. eapply image_mapped; [done|unfold user_address; lia|by apply Hf]. }
  exists k'. split; [done|]. pose proof (building_stored (kmm k0) k k' nd a l B C Hlo Hhi Hst) as B'.
  destruct Hst as [(c & ->) Hnew _ Hold]. split; try done.
  - rewrite R. done.
  - intros x Hx. unfold put. destruct (Z.leb_spec a x), (Z.ltb_spec x (a + Z.of_nat (List.length l))); simpl.
    + destruct (lookup_lt_is_Some_2 l (Z.to_nat (x - a))) as [v Hv]; [lia|]. rewrite Hv. simpl.
      specialize (Hnew _ _ Hv). rewrite C, Z2Nat.id in Hnew by lia. by replace (a + (x - a)) with x in Hnew by lia.
    + rewrite Hold by (done || (right; lia)). by apply Hs.
    + rewrite Hold by (done || (right; lia)). by apply Hs.
    + rewrite Hold by (done || (right; lia)). by apply Hs.
Qed.
(** ** Protection *)

Lemma get_page_present m dir a p : vm_ok m -> user_region_free m -> user_range (a / 0x1000) -> pte m dir (a / 0x1000) = Some p ->
  exists t ps, get_page a 0 dir m = Ok (Some (t, a / 0x1000 mod 1024), m) /\
    private m dir (Z.to_nat (a / 0x1000 / 1024)) t ps /\ ps !! Z.to_nat (a / 0x1000 mod 1024) = Some p /\ present p <> 0.
Proof.
  intros Hvm Hreg Hv Hp. destruct (pte_private m dir _ p Hvm Hreg Hv Hp) as (t & ps & Hpr & Hj & H0).
  exists t, ps. split; [|done]. pose proof Hpr as (d & kd & Hd & Ht & Ht0 & _). unfold get_page.
  rewrite (proj2 (Z.eqb_neq dir 0)) by (by eapply (vm_addr _ Hvm)). repeat assert_step.
  unfold read_directory, table_slot. rewrite Hd. rsimpl. rewrite Ht. rsimpl. by rewrite (proj2 (Z.eqb_neq t 0)).
Qed.

Lemma protect_page_image k0 k nd f g a w : image k0 k nd f g -> user_address a -> a mod 0x1000 = 0 -> is_Some (f a) ->
  exists m', protect_page nd a w (kmm k) = Ok m' /\
    image k0 (with_mm k m') nd f (grant a (a + 0x1000) (if w then 1 else 0) g).
Proof.
  intros Him Ha Hal Hf. pose proof Him as [B C R Hs Hr]. pose proof (user_address_range a Ha) as Hv.
  destruct (image_mapped _ _ _ _ _ a Him Ha Hf) as [p Hp]. rewrite C in Hp. set (v := a / 0x1000) in *.
  pose proof (bg_ok _ _ _ B) as Hvm.
  destruct (get_page_present (kmm k) nd a p Hvm (bg_region _ _ _ B) Hv Hp) as (t & ps & Hg & Hpr & Hj & H0). fold v in Hg, Hpr, Hj.
  unfold protect_page. rewrite Hg. rsimpl. assert (page_tables (kmm k) !! t = Some ps) as Hps by (destruct Hpr as (?&?&?&?&?&?&?&?); done).
  rewrite (read_page_ok _ _ _ ps p) by done. rsimpl. rewrite (proj2 (Z.eqb_neq (present p) 0)) by done. assert_step.
  set (p' := mk_page (present p) (if w then 1 else 0) (user p) (accessed p) (dirty p) (unused p) (frame p)).
  eexists. split; [done|]. set (m' := write_page t (v mod 1024) p' (kmm k)).
  assert (reflagged (kmm k) m' t ps (<[Z.to_nat (v mod 1024) := p']> ps)) as Hrf.
  { split; try done.
    - unfold m', write_page. simpl. apply map_eq. intros x. destruct (decide (x = t)) as [->|].
      + by rewrite lookup_alter_eq, lookup_insert_eq, Hps.
      + by rewrite lookup_alter_ne, lookup_insert_ne.
    - split; [by rewrite length_insert|]. intros j q Hq. destruct (decide (j = Z.to_nat (v mod 1024))) as [->|Hne].
      + exists p'. rewrite list_lookup_insert_eq by (by eapply lookup_lt_Some). assert (q = p) as -> by congruence. done.
      + exists q. by rewrite list_lookup_insert_ne. }
  assert (0 <= v) as Hv0 by (unfold user_range in Hv; lia).
  destruct (reflag_pte (kmm k) m' nd v t ps p p' Hvm Hv0 Hpr Hj H0 eq_refl eq_refl Hrf) as [Hnew Hold].
  assert (forall w', 0 <= w' -> w' <> v -> pte m' nd w' = pte (kmm k) nd w') as Hw by (intros w' ? ?; apply Hold; [done|by right]).
  split.
  - apply (building_reflagged (kmm k0) (kmm k) m' nd t ps (<[Z.to_nat (v mod 1024) := p']> ps)); [done|exact Hrf| |].
    + intros d w' Hw' Hd. apply Hold; [done|by left].
    + intros fr. split; intros (w' & q & Hr' & Hq & <-); destruct (decide (w' = v)) as [->|Hne].
      * exists v, p. split_and!; try done. rewrite Hnew in Hq. by injection Hq as <-.
      * exists w', q. rewrite Hw in Hq by (done || (unfold user_range in Hr'; lia)). done.
      * exists v, p'. split_and!; try done. assert (q = p) as -> by congruence. done.
      * exists w', q. rewrite Hw by (done || (unfold user_range in Hr'; lia)). done.
  - done.
  - rewrite R. done.
  - intros x Hx. rewrite <- Hs by done. unfold space. change (contents_of (kmm (with_mm k m'))) with (contents_of (kmm k)).
    simpl. destruct (decide (x / 0x1000 = v)) as [E|Hne]; [by rewrite E, Hnew, Hp|].
    pose proof (user_address_range x Hx) as Hxr. by rewrite Hw by (done || (unfold user_range in Hxr; lia)).
  - intros w' q Hwr Hq. simpl in Hq. unfold grant. destruct (decide (w' = v)) as [->|Hne].
    + rewrite Hnew in Hq. injection Hq as <-. rewrite (proj2 (Z.leb_le _ _)), (proj2 (Z.ltb_lt _ _)) by (unfold v; Z.div_mod_to_equations; lia).
      split; [done|]. by apply (Hr v p).
    + rewrite Hw in Hq by (done || (unfold user_range in Hwr; lia)).
      assert (((a <=? w' * 0x1000) && (w' * 0x1000 <? a + 0x1000)) = false) as ->; [|by apply Hr].
      apply andb_false_iff. rewrite Z.leb_gt, Z.ltb_ge. unfold v in Hne. Z.div_mod_to_equations. lia.
Qed.

Lemma protect_pages_image k0 k nd f g lo hi w : image k0 k nd f g -> 0x400000 <= lo <= hi -> hi <= 0xC0000000 ->
  lo mod 0x1000 = 0 -> hi mod 0x1000 = 0 -> (forall a, lo <= a < hi -> is_Some (f a)) ->
  exists m', protect_pages nd lo hi w (kmm k) = Ok m' /\
    image k0 (with_mm k m') nd f (grant lo hi (if w then 1 else 0) g).
Proof.
  intros Him Hlo Hhi Hal Hah Hf. unfold protect_pages. set (r := if w then 1 else 0).
  apply (while_rule _
    (fun '(a, m) => lo <= a <= hi /\ a mod 0x1000 = 0 /\ image k0 (with_mm k m) nd f (grant lo a r g))
    (fun m => image k0 (with_mm k m) nd f (grant lo hi r g)) (fun '(a, _) => hi - a)).
  - intros [a m] (Ha & Haa & Hi). destruct (Z.ltb_spec a hi) as [Hlt|Hge]; [|by replace hi with a by lia].
    destruct (protect_page_image k0 (with_mm k m) nd _ _ a w Hi) as (m' & E & Hi'); [unfold user_address; lia|done|apply Hf; lia|].
    simpl in E. rewrite E. rsimpl. unfold PAGE_SIZE. rewrite u32_small by lia. split; [|Z.div_mod_to_equations; lia].
    split; [Z.div_mod_to_equations; lia|]. split; [Z.div_mod_to_equations; lia|].
    eapply image_ext; [| |exact Hi']; [done|]. intros v _. apply grant_grant. lia.
  - split_and!; [lia|lia|done|]. destruct k. eapply image_ext; [| |exact Him]; intros; [done|apply grant_empty].
  - lia.
Qed.

(** ** Reading from the file *)

Lemma shared_locate k a : kernel_page (kmm k) (current_directory (kmm k)) a -> locate a k = Ok None.
Proof.
  intros [(x & kd & t & H1 & H2 & H3 & H4 & H5) [p Hp]].
  unfold locate, read_directory, table_slot. rewrite H1. rsimpl. rewrite H3. rsimpl.
  rewrite (proj2 (Z.eqb_neq t 0)), H2 by done. rsimpl. rewrite H4. rsimpl.
  unfold pte in Hp. rewrite H2, Z.div_div in Hp by done. change (0x1000 * 1024) with 0x400000 in Hp. cbn [mbind option_bind] in Hp. rewrite H4 in Hp. cbn [mbind option_bind] in Hp.
  rewrite (proj2 (Z.eqb_neq t 0)) in Hp by done. unfold table_entry in Hp.
  destruct (page_tables (kmm k) !! t) as [ps|] eqn:Hps; [|done]. cbn [mbind option_bind] in Hp.
  destruct (ps !! Z.to_nat (a / 0x1000 mod 1024)) as [p'|] eqn:Hp'; [|done]. cbn [mbind option_bind] in Hp.
  rewrite (read_page_ok _ _ _ ps p') by done. rsimpl. destruct (present p' =? 0); [done|]. by rewrite Z.eqb_refl.
Qed.

Lemma shared_load k a : kernel_page (kmm k) (current_directory (kmm k)) a ->
  vload8 a k = Ok (load8 (kernel_memory (kfs k)) a).
Proof. intros H. unfold vload8. rewrite shared_locate by done. by rsimpl. Qed.

(** Copying from shared memory to private pages is storing its bytes. *)
Lemma vmemcpy_runs n : forall k dest src, 0 < src -> src + Z.of_nat n <= 2 ^ 32 -> Z.of_nat n < 2 ^ 32 ->
  private_region k dest (dest + Z.of_nat n) ->
  (forall a, src <= a < src + Z.of_nat n -> kernel_page (kmm k) (current_directory (kmm k)) a) ->
  exists k', vstore_bytes dest (file_bytes k src 0 n) k = Ok k' /\
  runs (fun '(dp, sp, len, k) =>
    if negb (len =? 0) then
      c ← vload8 sp k;
      k ← vstore8 dp c k;
      Ok (Continue (u32 (dp + 1), u32 (sp + 1), u32 (len - 1), k))
    else Ok (Break k)) n (dest, u32 src, Z.of_nat n, k) (Ok k').
Proof.
  induction n as [|n IH]; intros k dest src Hs Hse Hn Hr Hsh.
  - exists k. split; [done|]. by constructor.
  - pose proof (pr_range _ _ _ Hr) as Hrange.
    destruct (vstore8_spec k dest (dest + Z.of_nat (Datatypes.S n)) dest (load8 (kernel_memory (kfs k)) src) Hr) as (c & Hrun & _); [lia|].
    destruct (IH (with_contents k c) (dest + 1) (src + 1)) as (k' & Hst & Hrs); [lia|lia|lia| | |].
    { eapply region_contents, (region_sub k dest _ _ _ Hr); lia. }
    { intros a Ha. change (kernel_page (kmm k) (current_directory (kmm k)) a). apply Hsh. lia. }
    exists k'. split.
    + unfold file_bytes. cbn [seq fmap list_fmap vstore_bytes]. rewrite !Z.add_0_r, Hrun. rsimpl.
      rewrite (u32_small (dest + 1)) by lia. rewrite <- Hst. f_equal. unfold file_bytes. rewrite <- fmap_S_seq, <- list_fmap_compose.
      apply list_fmap_ext. intros i x _. simpl. f_equal. lia.
    + eapply (runs_step _ _ _ (dest + 1, u32 (src + 1), Z.of_nat n, with_contents k c)); [|done].
      rewrite (proj2 (Z.eqb_neq _ 0)) by lia. simpl negb. cbv iota. rewrite (u32_small src) by lia.
      rewrite shared_load by (apply Hsh; lia). rsimpl. rewrite Hrun. rsimpl.
      rewrite (u32_small (dest + 1)) by lia. replace (Z.of_nat (Datatypes.S n) - 1) with (Z.of_nat n) by lia.
      by rewrite (u32_small (Z.of_nat n)) by lia.
Qed.
Lemma file_bytes_shift k src off n : file_bytes k (src + off) 0 n = file_bytes k src off n.
Proof. unfold file_bytes. apply list_fmap_ext. intros i x _. f_equal. lia. Qed.

Lemma image_fs k0 k nd f g : image k0 k nd f g -> kfs k = kfs k0.
Proof. intros [_ _ R _ _]. by rewrite R. Qed.

Lemma vread_fs_image k0 k nd f g file n src off size a : image k0 k nd f g -> served k0 file n src ->
  0 <= off -> 0 < size -> off + size <= length n -> 0x400000 <= a -> a + size <= 0xC0000000 ->
  (forall b, a <= b < a + size -> is_Some (f b)) ->
  exists k', vread_fs file off size a k = Ok (size, k') /\
    image k0 k' nd (put a (file_bytes k0 src off (Z.to_nat size)) f) g.
Proof.
  intros Him Hsv Ho Hsz Hlen Hlo Hhi Hf. pose proof Hsv as [[Sn S0] (cb & Hcb & _) (R1 & R2 & R3) _ Hsh].
  pose proof (image_fs _ _ _ _ _ Him) as Efs. pose proof Him as [B C R Hs Hr].
  unfold vread_fs. rewrite (proj2 (Z.eqb_neq file 0)), (proj2 (Z.eqb_neq a 0)) by (done || lia). cbn [orb].
  unfold deref. rewrite Efs, Sn. rsimpl. rewrite Hcb, (served_within k0 file n src) by (done || lia). rsimpl.
  assert (private_region k a (a + Z.of_nat (Z.to_nat size))) as Hreg.
  { apply mapped_private_region; [apply B|apply B|lia|lia|]. intros b Hb. eapply image_mapped; [done|unfold user_address; lia|apply Hf; lia]. }
  destruct (vmemcpy_runs (Z.to_nat size) k a (src + off)) as (k' & Hst & Hrun); [lia|lia|lia|done| |].
  { intros b Hb. rewrite C. apply (building_kernel_page _ _ _ _ B); [lia|]. apply Hsh. lia. }
  rewrite Z2Nat.id in Hrun by lia. rewrite u32_small in Hrun by lia.
  unfold vmemcpy. rewrite (while_runs _ _ _ _ Hrun) by lia. rsimpl. exists k'. split; [done|].
  assert (file_bytes k (src + off) 0 (Z.to_nat size) = file_bytes k0 src off (Z.to_nat size)) as Eb
    by (rewrite file_bytes_shift; unfold file_bytes; by rewrite Efs).
  rewrite Eb in Hst.
  destruct (store_image k0 k nd f g a (file_bytes k0 src off (Z.to_nat size)) Him) as (k2 & Hk2 & Him2); [lia| | |congruence].
  - rewrite file_bytes_length. lia.
  - rewrite file_bytes_length. intros b Hb. apply Hf. lia.
Qed.

(** ** Segments *)

(** What the loader makes of the user memory and its rights. *)
Definition load_bytes k (src : Z) (p : elf32_program_header) (f : Z -> option Z) : Z -> option Z :=
  put (virtual_address p) (file_bytes k src (file_offset p) (Z.to_nat (file_size p))) (fill (page_start p) (page_end p) f).
Definition load_rights (p : elf32_program_header) (g : Z -> Z) : Z -> Z :=
  grant (page_start p) (page_end p) (if writable p then 1 else 0) g.

Lemma load_segment_image k0 k nd f g file n src p : image k0 k nd f g -> served k0 file n src ->
  is_u32 (file_offset p) -> is_u32 (file_size p) ->
  file_offset p + file_size p <= length n -> file_size p <= memory_size p ->
  0x400000 <= page_start p <= virtual_address p -> virtual_address p + memory_size p <= page_end p ->
  page_end p <= 0xC0000000 -> 0 < memory_size p ->
  page_start p mod 0x1000 = 0 -> page_end p mod 0x1000 = 0 -> (forall a, page_start p <= a < page_end p -> f a = None) ->
  clone_failure (load_segment file nd p k) \/
  exists k', load_segment file nd p k = Ok (true, k') /\ image k0 k' nd (load_bytes k0 src p f) (load_rights p g).
Proof.
  intros Him Hsv [O1 O2] [S1 S2] Hlen Hsize Hlo Hhi Hend Hpos Hal Hah Hf. unfold load_segment.
  destruct (claim_pages_image k0 k nd f g (page_start p) (page_end p) Him) as [Hfail|(m & -> & Hi)]; try done; [lia| |].
  { left. by apply clone_failure_bind. }
  rsimpl. simpl negb. cbv iota. right. set (k1 := with_mm k m) in *.
  assert (exists k2, (if file_size p =? 0 then Ok (true, k1)
    else '(n, k) ← vread_fs file (file_offset p) (file_size p) (virtual_address p) k1; Ok (n =? file_size p, k)) = Ok (true, k2) /\
    image k0 k2 nd (load_bytes k0 src p f) (grant (page_start p) (page_end p) 1 g)) as (k2 & -> & Hi2).
  { destruct (Z.eqb_spec (file_size p) 0) as [E|E].
    - exists k1. split; [done|]. eapply image_ext; [| |exact Hi]; [|done]. intros a _. unfold load_bytes. rewrite E.
      apply put_nil.
    - destruct (vread_fs_image k0 k1 nd _ _ file n src (file_offset p) (file_size p) (virtual_address p) Hi Hsv) as (k2 & -> & Hi2); try lia.
      { intros b Hb. unfold fill. rewrite (proj2 (Z.leb_le (page_start p) b)), (proj2 (Z.ltb_lt b (page_end p))) by lia. eauto. }
      rsimpl. rewrite Z.eqb_refl. exists k2. done. }
  rsimpl. simpl negb. cbv iota.
  destruct (protect_pages_image k0 k2 nd _ _ (page_start p) (page_end p) (writable p) Hi2) as (m' & -> & Hi3); try done; [lia| |].
  - intros a Ha. unfold load_bytes, put. case_match; [|unfold fill; rewrite (proj2 (Z.leb_le (page_start p) a)), (proj2 (Z.ltb_lt a (page_end p))) by lia; eauto].
    match goal with H : _ && _ = true |- _ => apply andb_true_iff in H as [H1%Z.leb_le H2%Z.ltb_lt] end.
    destruct (lookup_lt_is_Some_2 (file_bytes k0 src (file_offset p) (Z.to_nat (file_size p))) (Z.to_nat (a - virtual_address p))) as [v ->]; [lia|].
    simpl. eauto.
  - rsimpl. eexists. split; [done|]. eapply image_ext; [| |exact Hi3]; [done|]. intros v _. unfold load_rights, grant. by destruct (_ && _).
Qed.
End image.
