(* ===== verification/ExecCheck.v ===== *)
(** * What [capture_request] takes from the caller

    [requested]: the path and the arguments are the strings at the
    caller's pointers.  The function captures exactly the requests that
    respect the limits, and [validate_elf] reads the captured path through
    the page tables. *)

From S2P Require Import Prelude Memory Kmalloc Frames Paging AddressSpace Vfs Task UserSpace UserFile Elf ElfSpec Exec ExecImage.

(** The stored form of the arguments. *)
Definition terminated (args : list (list Z)) : list Z := concat ((fun s => s ++ [0]) <$> args).
Definition no_nul (s : list Z) : Prop := Forall (fun c => c <> 0) s.

(** [rq] holds the arguments [args]. *)
Record request_of (rq : exec_request) (args : list (list Z)) : Prop := {
  ro_count : argument_count rq = Z.of_nat (List.length args) /\ (List.length args < 16)%nat;
  ro_storage : argument_storage rq = terminated args;
  ro_offsets : argument_offset rq = (fun i => Z.of_nat (List.length (terminated (take i args)))) <$> seq 0 (List.length args);
  ro_strings : Forall no_nul args;
  ro_size : Z.of_nat (List.length (terminated args)) <= EXEC_ARGUMENT_BYTES_MAX
}.

Lemma terminated_snoc args s : terminated (args ++ [s]) = terminated args ++ s ++ [0].
Proof. unfold terminated. rewrite fmap_app, concat_app. simpl. by rewrite app_nil_r. Qed.
Lemma terminated_app a b : terminated (a ++ b) = terminated a ++ terminated b.
Proof. unfold terminated. by rewrite fmap_app, concat_app. Qed.

Lemma string_of_spec s l : no_nul s -> string_of (s ++ 0 :: l) = s.
Proof.
  induction s as [|c s IH]; intros Hs; [done|]. apply Forall_cons in Hs as [Hc Hs]. simpl.
  rewrite (proj2 (Z.eqb_neq c 0)) by done. by rewrite IH.
Qed.

Lemma request_argument rq args i s : request_of rq args -> args !! i = Some s ->
  argument_offset rq !! i = Some (Z.of_nat (List.length (terminated (take i args)))) /\
  argument rq (Z.of_nat (List.length (terminated (take i args)))) = s.
Proof.
  intros [_ Hst Hoff Hs _] Hi. pose proof (lookup_lt_Some _ _ _ Hi). split.
  - rewrite Hoff, list_lookup_fmap, lookup_seq_lt by done. done.
  - unfold argument. rewrite Hst, Nat2Z.id. rewrite <- (take_drop_middle args i s Hi) at 2.
    rewrite terminated_app, drop_app_length. unfold terminated. simpl. rewrite <- app_assoc. simpl.
    apply string_of_spec. rewrite Forall_forall in Hs. apply Hs. by eapply list_elem_of_lookup_2.
Qed.

(** The string at [a] in the visible memory. *)
Definition string_at {K S} `{!Kmalloc K} `{!HasMemory S} (k : kernel page_bytes K S) (a : Z) (s : list Z) : Prop :=
  (forall i c, s !! i = Some c -> vload8 (u32 (a + Z.of_nat i)) k = Ok c /\ c <> 0) /\
  vload8 (u32 (a + Z.of_nat (List.length s))) k = Ok 0.

Record requested {K S} `{!Kmalloc K} `{!HasMemory S} (k : kernel page_bytes K S) (upath argv envp : Z)
    (rq : exec_request) (args : list (list Z)) : Prop := {
  rd_request : request_of rq args;
  rd_path : string_at k upath (path rq) /\ upath <> 0 /\ path rq <> [] /\ Z.of_nat (List.length (path rq)) < EXEC_PATH_MAX;
  rd_environment : envp = 0 \/ vload32 envp k = Ok 0;
  rd_arguments : argv = 0 /\ args = [] \/ argv <> 0 /\ exists pointers, List.length pointers = List.length args /\
    (forall i p s, pointers !! i = Some p -> args !! i = Some s ->
       vload32 (u32 (argv + 4 * Z.of_nat i)) k = Ok p /\ p <> 0 /\ string_at k p s) /\
    vload32 (u32 (argv + 4 * Z.of_nat (List.length args))) k = Ok 0
}.

Section request.
Context {K S : Type} `{!Kmalloc K} `{!HasMemory S}.
Implicit Types k : kernel page_bytes K S.

Lemma string_at_no_nul k a s : string_at k a s -> no_nul s.
Proof.
  intros [Hs _]. apply Forall_lookup. intros i c Hi. by apply (Hs i c).
Qed.

Definition copy_body (capacity source : Z) k (st : Z * list Z) : res (ctl (Z * list Z) (option (list Z))) :=
  let '(i, l) := st in
  if i <? capacity then
    c ← vload8 (u32 (source + i)) k;
    if c =? 0 then Ok (Break (Some l)) else Ok (Continue (i + 1, l ++ [c]))
  else Ok (Break None).

Lemma copy_sound capacity source k n : forall l s,
  (forall i c, l !! i = Some c -> vload8 (u32 (source + Z.of_nat i)) k = Ok c /\ c <> 0) ->
  runs (copy_body capacity source k) n (Z.of_nat (List.length l), l) (Ok (Some s)) ->
  Z.of_nat (List.length s) < capacity /\ string_at k source s.
Proof.
  induction n as [|n IH]; intros l s Hl Hr; inversion Hr as [? ? E| | |? ? s' ? E Hr']; subst; unfold copy_body in E.
  - destruct (Z.ltb_spec (Z.of_nat (List.length l)) capacity); [|congruence].
    apply bind_Ok_inv in E as (c & Hc & E). destruct (Z.eqb_spec c 0) as [->|]; [|congruence].
    injection E as <-. split; [done|]. by split.
  - destruct (Z.ltb_spec (Z.of_nat (List.length l)) capacity); [|congruence].
    apply bind_Ok_inv in E as (c & Hc & E). destruct (Z.eqb_spec c 0) as [->|Hc0]; [congruence|]. injection E as <-.
    apply (IH (l ++ [c])); [|by rewrite length_app, Nat2Z.inj_add].
    intros i x [Hi|[Hge Hi]]%lookup_app_Some; [by apply Hl|].
    destruct (i - List.length l)%nat eqn:Ei; [|done]. injection Hi as <-.
    replace i with (List.length l) by lia. done.
Qed.

Lemma copy_complete capacity source k s2 : forall s1, string_at k source (s1 ++ s2) ->
  Z.of_nat (List.length (s1 ++ s2)) < capacity ->
  runs (copy_body capacity source k) (List.length s2) (Z.of_nat (List.length s1), s1) (Ok (Some (s1 ++ s2))).
Proof.
  induction s2 as [|c s2 IH]; intros s1 [Hs Hend] Hl.
  - rewrite app_nil_r in *. constructor. unfold copy_body. rewrite (proj2 (Z.ltb_lt _ _)), Hend by done. by rsimpl.
  - assert ((s1 ++ c :: s2) !! List.length s1 = Some c) as Hc by (by apply list_lookup_middle).
    destruct (Hs _ _ Hc) as [Hv H0]. rewrite length_app in Hl. simpl in Hl.
    assert (s1 ++ c :: s2 = (s1 ++ [c]) ++ s2) as E by (by rewrite <- app_assoc).
    apply (runs_step _ _ _ (Z.of_nat (List.length (s1 ++ [c])), s1 ++ [c])).
    + unfold copy_body. rewrite (proj2 (Z.ltb_lt _ _)), Hv by lia. rsimpl. rewrite (proj2 (Z.eqb_neq c 0)) by done.
      by rewrite length_app, Nat2Z.inj_add.
    + rewrite E. apply IH; rewrite <- E; [done|]. rewrite length_app. simpl. lia.
Qed.

Lemma copy_bounded_string_spec capacity source k s : capacity <= 2 ^ 32 ->
  copy_bounded_string capacity source k = Ok (Some s) <->
  source <> 0 /\ Z.of_nat (List.length s) < capacity /\ string_at k source s.
Proof.
  intros Hcap. unfold copy_bounded_string. destruct (Z.eqb_spec source 0) as [->|Hs]; cbn [orb]; [split; [done|tauto]|].
  destruct (Z.eqb_spec capacity 0) as [->|Hc]; [split; [done|lia]|]. fold (copy_body capacity source k). split.
  - intros Hr. split; [done|]. apply while_inv in Hr as (n & Hr); [|done]. apply (copy_sound capacity source k n []); [|done].
    intros i c Hi. done.
  - intros (_ & Hl & Hat). apply (while_runs _ _ _ _ (copy_complete capacity source k s [] Hat Hl)). lia.
Qed.

(** ** The argument vector *)

Definition captured (argv : Z) k (pointers : list Z) (args : list (list Z)) : Prop :=
  List.length pointers = List.length args /\
  forall i p s, pointers !! i = Some p -> args !! i = Some s ->
    vload32 (u32 (argv + 4 * Z.of_nat i)) k = Ok p /\ p <> 0 /\ string_at k p s.

Definition offsets_of (args : list (list Z)) : list Z :=
  (fun i => Z.of_nat (List.length (terminated (take i args)))) <$> seq 0 (List.length args).

Lemma offsets_snoc args s : offsets_of (args ++ [s]) = offsets_of args ++ [Z.of_nat (List.length (terminated args))].
Proof.
  unfold offsets_of. rewrite length_app. simpl. rewrite Nat.add_1_r, seq_S, fmap_app. simpl. f_equal.
  - apply list_fmap_ext. intros i x Hx. apply lookup_seq in Hx as [-> Hlt]. simpl. do 3 f_equal. by rewrite take_app_le by lia.
  - do 3 f_equal. by rewrite take_app_length.
Qed.

Lemma capture_sound argv p k n : forall pointers args rq, captured argv k pointers args ->
  Z.of_nat (List.length (terminated args)) <= EXEC_ARGUMENT_BYTES_MAX ->
  runs (capture_step argv p k) n (Z.of_nat (List.length args), offsets_of args, terminated args) (Ok (Some rq)) ->
  exists pointers' args', captured argv k pointers' args' /\ request_of rq args' /\ path rq = p /\
    vload32 (u32 (argv + 4 * Z.of_nat (List.length args'))) k = Ok 0.
Proof.
  induction n as [|n IH]; intros pointers args rq Hc Hsz Hr; inversion Hr as [? ? E| | |? ? s' ? E Hr']; subst; unfold capture_step in E;
    (destruct (Z.ltb_spec (Z.of_nat (List.length args)) EXEC_ARGUMENT_MAX) as [Hlt|]; [|congruence]);
    apply bind_Ok_inv in E as (a & Ha & E); destruct (Z.eqb_spec a 0) as [->|Ha0].
  - injection E as <-. exists pointers, args. split; [done|]. split; [|done]. unfold EXEC_ARGUMENT_MAX in Hlt. split; try done.
    + simpl. split; [done|lia].
    + apply Forall_lookup. intros i s Hi. destruct Hc as [Hl Hc].
      destruct (lookup_lt_is_Some_2 pointers i) as [q Hq]; [rewrite Hl; by eapply lookup_lt_Some|].
      destruct (Hc i q s Hq Hi) as (_ & _ & Hs). by eapply string_at_no_nul.
  - destruct (_ =? 0); [congruence|]. apply bind_Ok_inv in E as (o & _ & E). destruct o; congruence.
  - congruence.
  - destruct (Z.eqb_spec (EXEC_ARGUMENT_BYTES_MAX - Z.of_nat (List.length (terminated args))) 0); [congruence|].
    apply bind_Ok_inv in E as (o & Ho & E). destruct o as [s|]; [|congruence]. injection E as <-.
    apply copy_bounded_string_spec in Ho as (_ & Hl & Hs); [|unfold EXEC_ARGUMENT_BYTES_MAX; lia].
    apply (IH (pointers ++ [a]) (args ++ [s])).
    + destruct Hc as [Hlen Hc]. split; [by rewrite !length_app, Hlen|]. intros i q w Hq Hw.
      apply lookup_app_Some in Hq as [Hq|[Hge Hq]].
      * rewrite lookup_app_l in Hw by (rewrite <- Hlen; by eapply lookup_lt_Some). by apply Hc.
      * destruct (i - List.length pointers)%nat eqn:Ei; [|done]. injection Hq as <-.
        assert (i = List.length args) as -> by lia. rewrite list_lookup_middle in Hw by done. injection Hw as <-. done.
    + rewrite terminated_snoc, !length_app. simpl. lia.
    + rewrite terminated_snoc, offsets_snoc, length_app, Nat2Z.inj_add. exact Hr'.
Qed.

Lemma capture_complete argv rq args k pointers : request_of rq args -> captured argv k pointers args ->
  vload32 (u32 (argv + 4 * Z.of_nat (List.length args))) k = Ok 0 ->
  forall args2 args1, args = args1 ++ args2 ->
  runs (capture_step argv (path rq) k) (List.length args2)
    (Z.of_nat (List.length args1), offsets_of args1, terminated args1) (Ok (Some rq)).
Proof.
  intros [[Rc Rl] Rst Roff Rs Rsz] [Hlen Hc] Hend. induction args2 as [|s args2 IH]; intros args1 Eargs.
  - rewrite app_nil_r in Eargs. subst args1. constructor. unfold capture_step, EXEC_ARGUMENT_MAX. rewrite (proj2 (Z.ltb_lt _ _)), Hend by lia.
    rsimpl. simpl. fold (offsets_of args) in Roff. rewrite <- Rc, <- Roff, <- Rst. by destruct rq.
  - assert (args !! List.length args1 = Some s) as Hs by (rewrite Eargs; by apply list_lookup_middle).
    destruct (lookup_lt_is_Some_2 pointers (List.length args1)) as [q Hq]; [rewrite Hlen; by eapply lookup_lt_Some|].
    destruct (Hc _ q s Hq Hs) as (Hv & Hq0 & Hat).
    assert (List.length (terminated args) = List.length (terminated args1) + List.length s + 1 + List.length (terminated args2))%nat as El.
    { rewrite Eargs, terminated_app. change (terminated (s :: args2)) with ((s ++ [0]) ++ terminated args2).
      rewrite !length_app. simpl. lia. }
    unfold EXEC_ARGUMENT_BYTES_MAX in *.
    apply (runs_step _ _ _ (Z.of_nat (List.length (args1 ++ [s])), offsets_of (args1 ++ [s]), terminated (args1 ++ [s]))).
    + unfold capture_step, EXEC_ARGUMENT_MAX, EXEC_ARGUMENT_BYTES_MAX.
      pose proof (lookup_lt_Some _ _ _ Hs). rewrite (proj2 (Z.ltb_lt _ _)), Hv by lia. rsimpl.
      rewrite (proj2 (Z.eqb_neq q 0)), (proj2 (Z.eqb_neq (2048 - _) 0)) by (done || lia).
      assert (copy_bounded_string (2048 - Z.of_nat (List.length (terminated args1))) q k = Ok (Some s)) as ->
        by (apply copy_bounded_string_spec; [lia|]; split_and!; [done|lia|done]).
      rsimpl. by rewrite terminated_snoc, offsets_snoc, length_app, Nat2Z.inj_add.
    + apply IH. by rewrite <- app_assoc.
Qed.

Lemma capture_request_spec upath argv envp k rq :
  capture_request upath argv envp k = Ok (Some rq) <-> exists args, requested k upath argv envp rq args.
Proof.
  unfold capture_request. split.
  - intros Hr. apply bind_Ok_inv in Hr as (p & Hp & Hr). destruct p as [[|c p]|]; [congruence| |congruence].
    apply copy_bounded_string_spec in Hp as (Hu & Hl & Hs); [|unfold EXEC_PATH_MAX; lia].
    apply bind_Ok_inv in Hr as (e & He & Hr). destruct (Z.eqb_spec e 0) as [->|]; simpl negb in Hr; cbv iota in Hr; [|congruence].
    assert (envp = 0 \/ vload32 envp k = Ok 0) as Henv by (destruct (Z.eqb_spec envp 0); [by left|by right]).
    destruct (Z.eqb_spec argv 0) as [->|Hargv].
    + injection Hr as <-. exists []. split; try done; [|by left]. split; simpl; try done. unfold EXEC_ARGUMENT_BYTES_MAX. lia.
    + apply while_inv in Hr as (n & Hr); [|done]. destruct (capture_sound argv (c :: p) k n [] [] rq) as (ptrs & args & Hc & Hrq & Ep & Hend); [done|done|exact Hr|].
      exists args. split; [done| |done|].
      * rewrite Ep. done.
      * right. split; [done|]. exists ptrs. destruct Hc. done.
  - intros (args & [Hrq (Hs & Hu & Hne & Hl) Henv Hargs]).
    assert (copy_bounded_string EXEC_PATH_MAX upath k = Ok (Some (path rq))) as ->
      by (apply copy_bounded_string_spec; [unfold EXEC_PATH_MAX; lia|done]).
    rsimpl. destruct (path rq) as [|c p] eqn:Ep; [done|]. rewrite <- Ep.
    assert ((if envp =? 0 then Ok 0 else vload32 envp k) = Ok 0) as -> by (destruct Henv as [->|]; [done|by destruct (envp =? 0)]).
    rsimpl. simpl negb. cbv iota. destruct Hargs as [[-> ->]|(H0 & ptrs & Hlen & Hc & Hend)].
    + rewrite Z.eqb_refl. destruct Hrq as [[Hc _] Hst Hoff _ _]. destruct rq as [rp rc ro rs]. cbn in Hc, Hst, Hoff.
      by rewrite Hc, Hst, Hoff.
    + rewrite (proj2 (Z.eqb_neq argv 0)) by done.
      apply (while_runs _ _ _ _ (capture_complete argv rq args k ptrs Hrq (conj Hlen Hc) Hend args [] eq_refl)).
      destruct (ro_count _ _ Hrq). lia.
Qed.
End request.

(** ** [validate_elf] on a file

    Reading a served file gives its bytes, so [validate_elf] accepts
    exactly the files whose bytes are a valid program. *)

Lemma byte_at_range l i : Forall (fun b => 0 <= b < 256) l -> 0 <= byte_at l i < 256.
Proof.
  intros H. unfold byte_at. destruct (l !! i) as [b|] eqn:E; simpl; [|lia].
  rewrite Forall_forall in H. apply H. by eapply list_elem_of_lookup_2.
Qed.
Lemma word_at_range l i : Forall (fun b => 0 <= b < 256) l -> is_u32 (word_at l i).
Proof.
  intros H. pose proof (byte_at_range l i H). pose proof (byte_at_range l (i + 1) H).
  pose proof (byte_at_range l (i + 2) H). pose proof (byte_at_range l (i + 3) H). unfold is_u32, word_at. lia.
Qed.
Lemma half_at_range l i : Forall (fun b => 0 <= b < 256) l -> 0 <= half_at l i < 2 ^ 16.
Proof.
  intros H. pose proof (byte_at_range l i H). pose proof (byte_at_range l (i + 1) H). unfold half_at. lia.
Qed.
Lemma programs_of_fields n : forall l, Forall (fun b => 0 <= b < 256) l -> Forall fields_ok (programs_of n l).
Proof.
  induction n as [|n IH]; intros l Hl; [constructor|]. cbn [programs_of]. constructor.
  - split; apply word_at_range; done.
  - apply IH. by apply Forall_drop.
Qed.

Section check.
Context {K S Cb : Type} `{!Kmalloc K} `{!KmallocLaws K} `{!HasMemory S} `{!FsDriver S Cb} `{!FileSource S Cb}.
Implicit Types k : kernel page_bytes K S.

Lemma vload_bytes_shared n : forall k a, 0 <= a -> a + Z.of_nat n < 2 ^ 32 ->
  (forall x, a <= x < a + Z.of_nat n -> kernel_page (kmm k) (current_directory (kmm k)) x) ->
  vload_bytes a n k = Ok (file_bytes k a 0 n).
Proof.
  induction n as [|n IH]; intros k a H0 Ha Hsh; [done|]. cbn [vload_bytes]. rewrite shared_load by (apply Hsh; lia). rsimpl.
  rewrite u32_small by lia. rewrite IH; [|lia|lia|intros x Hx; apply Hsh; lia]. rsimpl.
  unfold file_bytes. cbn [seq fmap list_fmap]. rewrite !Z.add_0_r. f_equal. f_equal.
  rewrite <- fmap_S_seq, <- list_fmap_compose. apply list_fmap_ext. intros i x _. simpl. f_equal. lia.
Qed.

Lemma served_bytes k file n src off size : served k file n src -> 0 <= off -> 0 <= size -> off + size <= length n ->
  read_exact file off size k = Ok (Some (file_bytes k src off (Z.to_nat size))).
Proof.
  intros Hsv Ho Hs Hl. pose proof Hsv as [[Sn S0] (cb & Hcb & _) (R1 & R2 & R3) _ Hsh]. unfold read_exact, read_bytes, deref.
  rewrite Sn. rsimpl. rewrite Hcb, (served_within k file n src) by done. rsimpl. rewrite vload_bytes_shared; [|lia|lia|intros x Hx; apply Hsh; lia].
  rsimpl. rewrite file_bytes_shift, file_bytes_length, Z2Nat.id, Z.eqb_refl by done. done.
Qed.

Lemma file_bytes_range k file n src off size : served k file n src -> 0 <= off -> off + Z.of_nat size <= length n ->
  Forall (fun b => 0 <= b < 256) (file_bytes k src off size).
Proof.
  intros Hsv Ho Hl. apply Forall_forall. intros b Hb. unfold file_bytes in Hb. apply list_elem_of_fmap in Hb as (i & -> & Hi).
  apply elem_of_seq in Hi. apply (sv_bytes _ _ _ _ Hsv). lia.
Qed.

(** The file is a program with header [h] and program headers [ps]. *)
Record program_file k (n : fs_node Cb) (src : Z) (h : elf32_header) (ps : list elf32_program_header) (highest : Z) : Prop := {
  pf_regular : Z.land (flags n) 0x7 = FS_FILE;
  pf_size : sizeof_elf32_header_t <= length n;
  pf_header : h = header_of (file_bytes k src 0 52) /\ header_ok h = true;
  pf_table : program_header_offset h + program_header_count h * 32 <= length n;
  pf_programs : ps = programs_of (Z.to_nat (program_header_count h))
    (file_bytes k src (program_header_offset h) (Z.to_nat (program_header_count h * 32)));
  pf_valid : elf_valid (length n) (entry h) ps highest
}.

Definition program_file_dec k (n : fs_node Cb) (src : Z) : option (elf32_header * list elf32_program_header * Z) :=
  if negb (Z.land (flags n) 0x7 =? FS_FILE) || (length n <? 52) then None
  else
    let h := header_of (file_bytes k src 0 52) in
    if negb (header_ok h) || (length n - program_header_offset h <? program_header_count h * 32) then None
    else
      let ps := programs_of (Z.to_nat (program_header_count h))
                  (file_bytes k src (program_header_offset h) (Z.to_nat (program_header_count h * 32))) in
      match validate_programs (length n) (entry h) ps with Some highest => Some (h, ps, highest) | None => None end.

Lemma header_count h : header_ok h = true -> program_header_count h <= 32.
Proof. unfold header_ok. rewrite !andb_true_iff. intros H. apply Z.leb_le. apply H. Qed.

Lemma validate_elf_run k file n src : served k file n src -> validate_elf file k = Ok (program_file_dec k n src).
Proof.
  intros Hsv. pose proof Hsv as [[Sn S0] (cb & Hcb & _) (R1 & R2 & R3) _ _]. unfold validate_elf, program_file_dec.
  rewrite (proj2 (Z.eqb_neq file 0)) by done. unfold deref. rewrite Sn. rsimpl. rewrite Hcb, bool_decide_eq_true_2 by eauto.
  simpl negb. rewrite orb_false_r. unfold sizeof_elf32_header_t.
  destruct (negb (Z.land (flags n) 0x7 =? FS_FILE)); cbn [orb]; [done|].
  destruct (Z.ltb_spec (length n) 52) as [|Hlen]; [done|].
  rewrite (served_bytes k file n src 0 52 Hsv) by lia. rsimpl. change (Z.to_nat 52) with 52%nat.
  pose proof (file_bytes_range k file n src 0 52 Hsv ltac:(lia) ltac:(lia)) as Hr.
  set (h := header_of (file_bytes k src 0 52)). destruct (header_ok h) eqn:Hh; simpl negb; cbn [orb]; [|done].
  assert (0 <= program_header_count h < 2 ^ 16) as Hc by (by apply half_at_range).
  assert (is_u32 (program_header_offset h)) as Ho by (by apply word_at_range). unfold is_u32 in Ho.
  unfold sizeof_elf32_program_header_t.
  destruct (Z.ltb_spec (length n) (program_header_offset h)); cbn [orb].
  { by rewrite (proj2 (Z.ltb_lt _ _)) by lia. }
  destruct (Z.ltb_spec (length n - program_header_offset h) (program_header_count h * 32)); [done|].
  rewrite (served_bytes k file n src _ _ Hsv) by lia. rsimpl. by destruct (validate_programs _ _ _).
Qed.

Lemma program_file_spec k file n src h ps highest : served k file n src ->
  program_file_dec k n src = Some (h, ps, highest) <-> program_file k n src h ps highest.
Proof.
  intros Hsv. pose proof (sv_range _ _ _ _ Hsv) as (R1 & R2 & R3). unfold program_file_dec.
  destruct (Z.eqb_spec (Z.land (flags n) 0x7) FS_FILE) as [Ef|Ef]; cbn [negb orb]; [|by split; [|intros []]].
  destruct (Z.ltb_spec (length n) 52) as [|Hlen]; [split; [done|intros [_ Hs _ _ _ _]; unfold sizeof_elf32_header_t in Hs; lia]|].
  pose proof (file_bytes_range k file n src 0 52 Hsv ltac:(lia) ltac:(lia)) as Hr.
  set (h0 := header_of (file_bytes k src 0 52)).
  assert (0 <= program_header_count h0 < 2 ^ 16) as Hc by (by apply half_at_range).
  assert (is_u32 (program_header_offset h0)) as Ho by (by apply word_at_range). unfold is_u32 in Ho.
  destruct (header_ok h0) eqn:Hh; cbn [negb orb]; [|split; [done|intros [_ _ [-> Hh'] _ _ _]; fold h0 in Hh'; congruence]].
  destruct (Z.ltb_spec (length n - program_header_offset h0) (program_header_count h0 * 32)) as [Hlt|Hge].
  { split; [done|]. intros [_ _ [-> _] Ht _ _]. fold h0 in Ht. lia. }
  set (ps0 := programs_of _ _).
  assert (Forall fields_ok ps0) as Hf by (apply programs_of_fields; eapply file_bytes_range; [done|lia|lia]).
  pose proof (fun hi => validate_programs_spec (length n) (entry h0) ps0 hi Hf) as Hv.
  destruct (validate_programs (length n) (entry h0) ps0) as [hi|] eqn:Ev.
  - split.
    + intros [= <- <- <-]. split; try done; [lia|]. by apply Hv.
    + intros [_ _ [-> _] _ -> Hev]. fold h0 in Hev |- *. fold ps0 in Hev |- *. apply Hv in Hev. by injection Hev as ->.
  - split; [done|]. intros [_ _ [-> _] _ -> Hev]. fold h0 in Hev. fold ps0 in Hev. by apply Hv in Hev.
Qed.

Lemma program_fields k file n src h ps highest : served k file n src -> program_file k n src h ps highest -> Forall fields_ok ps.
Proof.
  intros Hsv [_ Hs [-> Hh] Ht -> _]. unfold sizeof_elf32_header_t in Hs. set (h := header_of (file_bytes k src 0 52)) in *.
  pose proof (file_bytes_range k file n src 0 52 Hsv ltac:(lia) ltac:(lia)) as Hr.
  assert (0 <= program_header_count h < 2 ^ 16) as Hc by (by apply half_at_range).
  assert (is_u32 (program_header_offset h)) as Ho by (by apply word_at_range). unfold is_u32 in Ho.
  apply programs_of_fields. eapply file_bytes_range; [done|lia|lia].
Qed.
End check.
