(* ===== verification/ExecLoad.v ===== *)
(** * Loading segments and building the first stack

    The user memory a valid ELF file and captured arguments give. *)

From S2P Require Import Prelude Memory Kmalloc Frames Paging PagingProofs AddressSpace Vfs Task UserSpace UserMemory Signal UserFile Elf ElfSpec Exec ExecCheck AddressBuild ExecImage.

(** [f] has the bytes [l] at [a]. *)
Definition bytes (f : Z -> option Z) (a : Z) (l : list Z) : Prop :=
  forall i v, l !! i = Some v -> f (a + Z.of_nat i) = Some (u8 v).

Lemma put_bytes a l f : bytes (put a l f) a l.
Proof.
  intros i v Hi. pose proof (lookup_lt_Some _ _ _ Hi). unfold put.
  rewrite (proj2 (Z.leb_le _ _)), (proj2 (Z.ltb_lt _ _)) by lia. simpl.
  replace (Z.to_nat (a + Z.of_nat i - a)) with i by lia. by rewrite Hi.
Qed.
Lemma put_out a l f x : x < a \/ a + Z.of_nat (List.length l) <= x -> put a l f x = f x.
Proof.
  intros H. unfold put. destruct (Z.leb_spec a x), (Z.ltb_spec x (a + Z.of_nat (List.length l))); simpl; done || lia.
Qed.
Lemma put_some a l f x : is_Some (f x) -> is_Some (put a l f x).
Proof.
  intros H. unfold put. destruct (Z.leb_spec a x), (Z.ltb_spec x (a + Z.of_nat (List.length l))); simpl; try done.
  destruct (lookup_lt_is_Some_2 l (Z.to_nat (x - a))) as [v ->]; [lia|]. simpl. eauto.
Qed.
Lemma bytes_keep f f' a l : bytes f a l -> (forall x, a <= x < a + Z.of_nat (List.length l) -> f' x = f x) -> bytes f' a l.
Proof. intros Hb Hf i v Hi. pose proof (lookup_lt_Some _ _ _ Hi). rewrite Hf by lia. by apply Hb. Qed.
Lemma bytes_app f a l1 l2 : bytes f a l1 -> bytes f (a + Z.of_nat (List.length l1)) l2 -> bytes f a (l1 ++ l2).
Proof.
  intros H1 H2 i v [Hi|[Hge Hi]]%lookup_app_Some; [by apply H1|]. apply H2 in Hi. rewrite <- Hi. f_equal. lia.
Qed.
Lemma fill_in lo hi f a : lo <= a < hi -> fill lo hi f a = Some 0.
Proof. intros H. unfold fill. by rewrite (proj2 (Z.leb_le _ _)), (proj2 (Z.ltb_lt _ _)) by lia. Qed.
Lemma fill_out lo hi f a : ~ lo <= a < hi -> fill lo hi f a = f a.
Proof. intros H. unfold fill. destruct (Z.leb_spec lo a), (Z.ltb_spec a hi); simpl; done || lia. Qed.

Section load.
Context {K S Cb : Type} `{!Kmalloc K} `{!KmallocLaws K} `{!HasMemory S} `{!FsDriver S Cb} `{!FileSource S Cb}.
Implicit Types k : kernel page_bytes K S.

(** ** Segments *)

Definition no_memory (_ : Z) : option Z := None.
Definition no_rights (_ : Z) : Z := 0.

Definition loaded k (src : Z) (ps : list elf32_program_header) : Z -> option Z :=
  foldl (fun f p => if loadable p then load_bytes k src p f else f) no_memory ps.
Definition rights (ps : list elf32_program_header) : Z -> Z :=
  foldl (fun g p => if loadable p then load_rights p g else g) no_rights ps.

Definition on_pages (p : elf32_program_header) (a : Z) : Prop := page_start p <= a < page_end p.

(** The byte of segment [p] at [a]: from the file, or zero. *)
Definition segment_byte k (src : Z) (p : elf32_program_header) (a : Z) : Z :=
  if a <? virtual_address p + file_size p then u8 (load8 (kernel_memory (kfs k)) (src + file_offset p + (a - virtual_address p)))
  else 0.

Lemma load_bytes_out k src p f a : page_start p <= virtual_address p -> virtual_address p + file_size p <= page_end p ->
  0 <= file_size p -> ~ on_pages p a -> load_bytes k src p f a = f a.
Proof.
  intros H1 H2 H3 Ha. unfold on_pages in Ha. unfold load_bytes.
  rewrite put_out; [|rewrite file_bytes_length; lia]. by apply fill_out.
Qed.

Lemma load_bytes_in k src p f a : virtual_address p + file_size p <= page_end p -> page_start p <= virtual_address p ->
  0 <= file_size p -> virtual_address p <= a < page_end p -> load_bytes k src p f a = Some (segment_byte k src p a).
Proof.
  intros H1 H2 H3 Ha. unfold load_bytes, segment_byte. destruct (Z.ltb_spec a (virtual_address p + file_size p)).
  - pose proof (put_bytes (virtual_address p) (file_bytes k src (file_offset p) (Z.to_nat (file_size p)))
      (fill (page_start p) (page_end p) f) (Z.to_nat (a - virtual_address p))
      (load8 (kernel_memory (kfs k)) (src + file_offset p + (a - virtual_address p)))) as Hb.
    rewrite Z2Nat.id in Hb by lia. replace (virtual_address p + (a - virtual_address p)) with a in Hb by lia. apply Hb.
    unfold file_bytes. rewrite list_lookup_fmap, lookup_seq_lt by lia. simpl. do 2 f_equal. lia.
  - rewrite put_out by (rewrite file_bytes_length; lia). apply fill_in. lia.
Qed.

Section valid.
Context (len en : Z) (ps : list elf32_program_header) (highest : Z) (Hv : elf_valid len en ps highest) (Hfo : Forall fields_ok ps).

Lemma valid_bounds p : p ∈ ps -> loadable p = true ->
  fields_ok p /\ segment_fits len p /\ 0 < memory_size p /\
  page_start p mod 0x1000 = 0 /\ page_end p mod 0x1000 = 0 /\
  0x400000 <= page_start p /\ page_start p <= virtual_address p < page_start p + 0x1000 /\
  virtual_address p + memory_size p <= page_end p < virtual_address p + memory_size p + 0x1000 /\ page_end p <= USER_HEAP_LIMIT.
Proof.
  intros Hp Hl. assert (fields_ok p) as Hf by (rewrite Forall_forall in Hfo; by apply Hfo).
  pose proof (ev_segments _ _ _ _ Hv p Hp Hl) as Hs. destruct (page_bounds len p Hf Hl Hs) as (_ & ? & ? & ? & ? & ? & ? & _).
  pose proof (loadable_memory p Hl). destruct Hf as [? ? ? Hm ?]. unfold is_u32 in Hm. split_and!; try done; lia.
Qed.

Lemma valid_disjoint i j p q a : (i < j)%nat -> ps !! i = Some p -> ps !! j = Some q -> loadable p = true -> loadable q = true ->
  on_pages p a -> on_pages q a -> False.
Proof.
  intros Hij Hi Hj Lp Lq Hp Hq.
  destruct (valid_bounds p) as (_ & _ & P0 & P1 & P2 & P3 & P4 & P5 & P6); [by eapply list_elem_of_lookup_2|done|].
  destruct (valid_bounds q) as (_ & _ & Q0 & Q1 & Q2 & Q3 & Q4 & Q5 & Q6); [by eapply list_elem_of_lookup_2|done|].
  unfold on_pages in *. set (b := a / 0x1000 * 0x1000).
  apply (ev_apart _ _ _ _ Hv i j p q (Z.max (virtual_address p) b) (Z.max (virtual_address q) b) Hij Hi Hj Lp Lq);
    unfold in_segment, b; Z.div_mod_to_equations; lia.
Qed.

Lemma loaded_out k src qs a : (forall p, p ∈ qs -> p ∈ ps) -> (forall p, p ∈ qs -> loadable p = true -> ~ on_pages p a) ->
  loaded k src qs a = None.
Proof.
  unfold loaded. induction qs as [|p qs IH] using rev_ind; intros Hin Ha; [done|]. rewrite foldl_snoc.
  destruct (loadable p) eqn:Hl; [|apply IH; intros q Hq; [apply Hin|apply Ha]; set_solver].
  destruct (valid_bounds p) as (Hf & [Hs _ _ _ _] & _ & _ & _ & _ & ? & ? & _); [apply Hin; set_solver|done|].
  pose proof (fo_file _ Hf) as [? _].
  rewrite load_bytes_out; [|lia|lia|lia|apply Ha; set_solver]. apply IH; intros q Hq; [apply Hin|apply Ha]; set_solver.
Qed.

Lemma loaded_in k src p a : p ∈ ps -> loadable p = true -> virtual_address p <= a < page_end p ->
  loaded k src ps a = Some (segment_byte k src p a).
Proof.
  intros Hp Hl Ha. apply list_elem_of_split in Hp as (l1 & l2 & Eps).
  assert (p ∈ ps) as Hp by (rewrite Eps; set_solver).
  assert (on_pages p a) as Hon by (destruct (valid_bounds p Hp Hl) as (_ & _ & _ & _ & _ & _ & ? & _); unfold on_pages; lia).
  unfold loaded. rewrite Eps. rewrite foldl_app. simpl. rewrite Hl.
  assert (forall qs f, (forall q, q ∈ qs -> q ∈ ps) -> (forall q, q ∈ qs -> loadable q = true -> ~ on_pages q a) ->
    foldl (fun f p => if loadable p then load_bytes k src p f else f) f qs a = f a) as Hkeep.
  { intros qs. induction qs as [|q qs IH] using rev_ind; intros f Hin Hq; [done|]. rewrite foldl_snoc.
    destruct (loadable q) eqn:Lq; [|apply IH; intros z Hz; [apply Hin|apply Hq]; set_solver].
    destruct (valid_bounds q) as (Hf & [Hs _ _ _ _] & _ & _ & _ & _ & ? & ? & _); [apply Hin; set_solver|done|].
    pose proof (fo_file _ Hf) as [? _].
    rewrite load_bytes_out; [|lia|lia|lia|apply Hq; set_solver]. apply IH; intros z Hz; [apply Hin|apply Hq]; set_solver. }
  rewrite Hkeep.
  - destruct (valid_bounds p Hp Hl) as (Hf & [Hs _ _ _ _] & _ & _ & _ & _ & ? & ? & _). pose proof (fo_file _ Hf) as [? _].
    apply load_bytes_in; lia.
  - intros q Hq. rewrite Eps. set_solver.
  - intros q Hq Lq Hoq. apply list_elem_of_lookup in Hq as [j Hj].
    eapply (valid_disjoint (List.length l1) (List.length l1 + Datatypes.S j) p q a); try done; [lia| |].
    + rewrite Eps. by rewrite list_lookup_middle.
    + rewrite Eps, lookup_app_r by lia. replace (List.length l1 + Datatypes.S j - List.length l1)%nat with (Datatypes.S j) by lia. done.
Qed.

Lemma rights_in p v : p ∈ ps -> loadable p = true -> on_pages p (v * 0x1000) -> rights ps v = if writable p then 1 else 0.
Proof.
  intros Hp Hl Ha. apply list_elem_of_split in Hp as (l1 & l2 & Eps). unfold rights. rewrite Eps, foldl_app. simpl. rewrite Hl.
  assert (forall qs g, (forall q, q ∈ qs -> loadable q = true -> ~ on_pages q (v * 0x1000)) ->
    foldl (fun g p => if loadable p then load_rights p g else g) g qs v = g v) as ->.
  { intros qs. induction qs as [|q qs IH] using rev_ind; intros g Hq; [done|]. rewrite foldl_snoc.
    rewrite <- (IH g) by (intros z Hz Lz; apply Hq; [set_solver|done]). destruct (loadable q) eqn:Lq; [|done].
    assert (~ on_pages q (v * 0x1000)) as Hn by (apply Hq; [set_solver|done]). unfold on_pages in Hn. unfold load_rights, grant.
    destruct (Z.leb_spec (page_start q) (v * 0x1000)), (Z.ltb_spec (v * 0x1000) (page_end q)); simpl; done || lia. }
  - unfold load_rights, grant, on_pages in *. by rewrite (proj2 (Z.leb_le _ _)), (proj2 (Z.ltb_lt _ _)) by lia.
  - intros q Hq Lq Hoq. apply list_elem_of_lookup in Hq as [j Hj].
    eapply (valid_disjoint (List.length l1) (List.length l1 + Datatypes.S j) p q (v * 0x1000)); try done; [lia| |].
    + rewrite Eps. by rewrite list_lookup_middle.
    + rewrite Eps, lookup_app_r by lia. replace (List.length l1 + Datatypes.S j - List.length l1)%nat with (Datatypes.S j) by lia. done.
Qed.

Lemma map_and_load_image k0 nd file n src : served k0 file n src -> len = length n ->
  forall ps2 ps1 k, ps = ps1 ++ ps2 -> image k0 k nd (loaded k0 src ps1) (rights ps1) ->
  clone_failure (map_and_load_segments file nd ps2 k) \/
  exists k', map_and_load_segments file nd ps2 k = Ok (true, k') /\ image k0 k' nd (loaded k0 src ps) (rights ps).
Proof.
  intros Hsv Elen. induction ps2 as [|p ps2 IH]; intros ps1 k Eps Him.
  { right. exists k. split; [done|]. rewrite Eps, app_nil_r. done. }
  assert (ps = (ps1 ++ [p]) ++ ps2) as Eps2 by (by rewrite Eps, <- app_assoc).
  cbn [map_and_load_segments]. destruct (loadable p) eqn:Hl.
  - assert (p ∈ ps) as Hp by (rewrite Eps; set_solver).
    destruct (valid_bounds p Hp Hl) as (Hf & [Hs1 Hs2 _ _ _] & ? & ? & ? & ? & ? & ? & ?). unfold USER_HEAP_LIMIT in *.
    destruct (load_segment_image k0 k nd _ _ file n src p Him Hsv) as [Hfail|(k' & -> & Hi)];
      try done; try lia; [apply Hf|apply Hf| |by left; apply clone_failure_bind|].
    + intros a Ha. apply loaded_out; [intros q Hq; rewrite Eps; set_solver|]. intros q Hq Lq Hoq.
      apply list_elem_of_lookup in Hq as [i Hi]. pose proof (lookup_lt_Some _ _ _ Hi).
      eapply (valid_disjoint i (List.length ps1) q p a); try done.
      * rewrite Eps. by apply lookup_app_l_Some.
      * rewrite Eps. by rewrite list_lookup_middle.
    + rsimpl. apply (IH (ps1 ++ [p])); [done|]. unfold loaded, rights. rewrite !foldl_snoc, Hl. exact Hi.
  - apply (IH (ps1 ++ [p])); [done|]. unfold loaded, rights. rewrite !foldl_snoc, Hl. exact Him.
Qed.
End valid.
End load.

(** ** The first stack

    [start_stack] is the stack a new program starts with, in the
    System V layout: argc, the argument pointers, two null words. *)

Definition stack_bytes (n : nat) (args : list (list Z)) : Z := Z.of_nat (List.length (terminated (take n args))).

Lemma stack_bytes_S n args s : args !! n = Some s -> stack_bytes (Datatypes.S n) args = stack_bytes n args + Z.of_nat (List.length s) + 1.
Proof.
  intros Hn. unfold stack_bytes. rewrite (take_S_r _ _ s) by done. rewrite terminated_snoc, !length_app. simpl. lia.
Qed.
Lemma stack_bytes_all n args : (List.length args <= n)%nat -> stack_bytes n args = Z.of_nat (List.length (terminated args)).
Proof. intros Hn. unfold stack_bytes. by rewrite take_ge. Qed.

(** The stack of a new program. *)
Record start_stack (f : Z -> option Z) (sp : Z) (args : list (list Z)) (addresses : list Z) : Prop := {
  ss_count : List.length addresses = List.length args;
  ss_pointer : STACK_BOTTOM <= sp /\ sp mod 16 = 0 /\ sp + 4 * Z.of_nat (List.length args + 3) <= USER_STACK_TOP;
  ss_words : bytes f sp (concat (le32 <$> [Z.of_nat (List.length args)] ++ addresses ++ [0; 0]));
  ss_strings i a s : addresses !! i = Some a -> args !! i = Some s ->
    sp + 4 * Z.of_nat (List.length args + 3) <= a /\ a + Z.of_nat (List.length s) + 1 <= USER_STACK_TOP /\ bytes f a (s ++ [0])
}.

Section stack.
Context {K S Cb : Type} `{!Kmalloc K} `{!KmallocLaws K} `{!HasMemory S} `{!FsDriver S Cb} `{!FileSource S Cb}.
Implicit Types k : kernel page_bytes K S.

Definition stack_mapped (f : Z -> option Z) : Prop := forall a, STACK_BOTTOM <= a < USER_STACK_TOP -> is_Some (f a).

Lemma push_arguments_image k0 nd g rq args : request_of rq args -> forall n sp addrs k f,
  (n <= List.length args)%nat -> image k0 k nd f g -> stack_mapped f ->
  STACK_BOTTOM + stack_bytes n args <= sp -> sp <= USER_STACK_TOP ->
  exists addrs' k' f', push_arguments rq n sp addrs k = Ok (Some (sp - stack_bytes n args, addrs' ++ addrs), k') /\
    image k0 k' nd f' g /\ stack_mapped f' /\ List.length addrs' = n /\
    (forall i a s, addrs' !! i = Some a -> args !! i = Some s ->
       sp - stack_bytes n args <= a /\ a + Z.of_nat (List.length s) + 1 <= sp /\ bytes f' a (s ++ [0])) /\
    (forall x, x < sp - stack_bytes n args \/ sp <= x -> f' x = f x).
Proof.
  intros Hrq. induction n as [|n IH]; intros sp addrs k f Hn Him Hm Hlo Hhi.
  - exists [], k, f. unfold stack_bytes. simpl. rewrite Z.sub_0_r. split_and!; try done.
  - destruct (lookup_lt_is_Some_2 args n) as [s Hs]; [lia|]. pose proof (stack_bytes_S n args s Hs) as Esb.
    destruct (request_argument rq args n s Hrq Hs) as [Ho Ea]. cbn [push_arguments]. rewrite Ho, Ea.
    assert (0 <= stack_bytes n args) as H0 by (unfold stack_bytes; lia).
    rewrite (proj2 (Z.ltb_ge _ _)) by lia. set (a := sp - (Z.of_nat (List.length s) + 1)).
    unfold STACK_BOTTOM, USER_STACK_TOP, TASK_STACK_SIZE in *.
    assert (Z.of_nat (List.length (s ++ [0])) = Z.of_nat (List.length s) + 1) as El by (rewrite length_app; simpl; lia).
    destruct (store_image k0 k nd f g a (s ++ [0]) Him) as (k1 & -> & Hi1); [unfold a; lia|unfold a; lia| |].
    { intros b Hb. apply Hm. unfold STACK_BOTTOM, USER_STACK_TOP, TASK_STACK_SIZE, a in *. lia. }
    rsimpl. destruct (IH a (a :: addrs) k1 (put a (s ++ [0]) f)) as (addrs' & k' & f' & Hrun & Hi' & Hm' & Hlen & Hstr & Hout);
      [lia|done|intros x Hx; by apply put_some, Hm|unfold a; lia|unfold a; lia|].
    exists (addrs' ++ [a]), k', f'. rewrite <- app_assoc.
    replace (sp - stack_bytes (Datatypes.S n) args) with (a - stack_bytes n args) by (unfold a; lia).
    split_and!; try done.
    + rewrite length_app. simpl. lia.
    + intros i b w [Hi|[Hge Hi]]%lookup_app_Some Hw.
      * destruct (Hstr i b w Hi Hw) as (? & ? & ?). split_and!; [done|unfold a in *; lia|done].
      * destruct (i - List.length addrs')%nat eqn:Ei; [|done]. simpl in Hi. injection Hi as <-.
        assert (i = n) as -> by lia. assert (w = s) as -> by congruence. split; [lia|]. split; [unfold a; lia|].
        eapply bytes_keep; [apply put_bytes|]. intros x Hx. apply Hout. lia.
    + intros x Hx. rewrite Hout by (unfold a in *; lia). apply put_out. unfold a in *. lia.
Qed.

Lemma push_words_image k0 nd g ws : forall sp k f, image k0 k nd f g -> stack_mapped f ->
  STACK_BOTTOM + 4 * Z.of_nat (List.length ws) <= sp -> sp <= USER_STACK_TOP ->
  exists k' f', push_words ws sp k = Ok (sp - 4 * Z.of_nat (List.length ws), k') /\ image k0 k' nd f' g /\ stack_mapped f' /\
    bytes f' (sp - 4 * Z.of_nat (List.length ws)) (concat (le32 <$> rev ws)) /\
    (forall x, x < sp - 4 * Z.of_nat (List.length ws) \/ sp <= x -> f' x = f x).
Proof.
  induction ws as [|w ws IH]; intros sp k f Him Hm Hlo Hhi.
  - exists k, f. simpl. rewrite Z.sub_0_r. split_and!; try done.
  - cbn [push_words]. replace (Z.of_nat (List.length (w :: ws))) with (Z.of_nat (List.length ws) + 1) in * by (simpl; lia).
    unfold STACK_BOTTOM, USER_STACK_TOP, TASK_STACK_SIZE in *. rewrite u32_small by lia. unfold vstore32.
    destruct (store_image k0 k nd f g (sp - 4) (le32 w) Him) as (k1 & -> & Hi1); [lia|rewrite le32_length; lia| |].
    { rewrite le32_length. intros b Hb. apply Hm. unfold STACK_BOTTOM, USER_STACK_TOP, TASK_STACK_SIZE. lia. }
    rsimpl. destruct (IH (sp - 4) k1 _ Hi1) as (k' & f' & -> & Hi' & Hm' & Hb & Hout); [intros x Hx; by apply put_some, Hm|lia|lia|].
    exists k', f'. replace (sp - 4 * (Z.of_nat (List.length ws) + 1)) with (sp - 4 - 4 * Z.of_nat (List.length ws)) by lia.
    split_and!; try done.
    + simpl rev. rewrite fmap_app, concat_app. apply bytes_app; [done|]. rewrite concat_le32_length, length_rev.
      replace (sp - 4 - 4 * Z.of_nat (List.length ws) + 4 * Z.of_nat (List.length ws)) with (sp - 4) by lia.
      cbn [fmap list_fmap concat]. rewrite app_nil_r. eapply bytes_keep; [apply put_bytes|].
      rewrite le32_length. intros x Hx. apply Hout. lia.
    + intros x Hx. rewrite Hout by lia. apply put_out. rewrite le32_length. lia.
Qed.

Lemma build_initial_stack_image k0 k nd f g rq args : request_of rq args -> image k0 k nd f g ->
  (forall a, STACK_BOTTOM <= a < USER_STACK_TOP -> f a = None) ->
  clone_failure (build_initial_stack rq nd k) \/
  exists sp addresses k' f', build_initial_stack rq nd k = Ok (Some sp, k') /\
    image k0 k' nd f' (grant STACK_BOTTOM USER_STACK_TOP 1 g) /\ start_stack f' sp args addresses /\
    (forall x, x < STACK_BOTTOM \/ USER_STACK_TOP <= x -> f' x = f x).
Proof.
  intros Hrq Him Hf. unfold build_initial_stack.
  destruct (claim_pages_image k0 k nd f g STACK_BOTTOM USER_STACK_TOP Him) as [Hfail|(m & -> & Hi)]; try done.
  { left. by apply clone_failure_bind. }
  rsimpl. simpl negb. cbv iota. right. set (k1 := with_mm k m) in *. set (f1 := fill STACK_BOTTOM USER_STACK_TOP f) in *. set (g1 := grant STACK_BOTTOM USER_STACK_TOP 1 g) in *.
  destruct (ro_count _ _ Hrq) as [Ec Hc16]. pose proof (ro_size _ _ Hrq) as Hsz. unfold EXEC_ARGUMENT_BYTES_MAX in Hsz.
  rewrite Ec, Nat2Z.id. set (total := Z.of_nat (List.length (terminated args))) in *.
  assert (stack_bytes (List.length args) args = total) as Esb by (by apply stack_bytes_all).
  assert (stack_mapped f1) as Hm1 by (intros a Ha; unfold f1; rewrite fill_in by done; eauto).
  destruct (push_arguments_image k0 nd g1 rq args Hrq (List.length args) USER_STACK_TOP [] k1 f1) as
    (addrs & k2 & f2 & -> & Hi2 & Hm2 & Hlen & Hstr & Hout); try done.
  { rewrite Esb. unfold STACK_BOTTOM, USER_STACK_TOP, TASK_STACK_SIZE. lia. }
  rsimpl. rewrite Esb in *. rewrite app_nil_r. unfold STACK_BOTTOM, USER_STACK_TOP, TASK_STACK_SIZE in *.
  assert (0 <= total) as Ht0 by (unfold total; lia). rewrite (land_16 (0xC0000000 - total)) by (unfold is_u32; lia).
  set (sp1 := 0xC0000000 - total - (0xC0000000 - total) mod 16). set (pb := (Z.of_nat (List.length args) + 3) * 4).
  assert (0xC0000000 - total - 16 < sp1 <= 0xC0000000 - total) as Hsp1 by (unfold sp1; Z.div_mod_to_equations; lia).
  assert (12 <= pb <= 72) as Hpb by (unfold pb; lia). rewrite (proj2 (Z.ltb_ge _ _)) by lia.
  rewrite (land_16 (sp1 - pb)) by (unfold is_u32; lia). set (fin := sp1 - pb - (sp1 - pb) mod 16).
  assert (sp1 - pb - 16 < fin <= sp1 - pb /\ fin mod 16 = 0) as [Hfin Hal].
  { unfold fin. clearbody pb. clear. split; [Z.div_mod_to_equations; lia|]. rewrite Zminus_mod_idemp_r || idtac. Z.div_mod_to_equations. lia. }
  set (ws := [0; 0] ++ rev addrs ++ [Z.of_nat (List.length args)]).
  assert (Z.of_nat (List.length ws) = Z.of_nat (List.length args) + 3) as Ews by (unfold ws; rewrite !length_app, length_rev; simpl; lia).
  destruct (push_words_image k0 nd g1 ws (fin + pb) k2 f2 Hi2 Hm2) as (k3 & f3 & -> & Hi3 & Hm3 & Hb3 & Hout3);
    [unfold STACK_BOTTOM, USER_STACK_TOP, TASK_STACK_SIZE; lia|unfold USER_STACK_TOP; lia|].
  rsimpl. rewrite Ews in *. replace (fin + pb - 4 * (Z.of_nat (List.length args) + 3)) with fin in * by (unfold pb; lia).
  rewrite Z.eqb_refl. assert_step. exists fin, addrs, k3, f3. split_and!; try done.
  - split; try done.
    + unfold STACK_BOTTOM, USER_STACK_TOP, TASK_STACK_SIZE. split_and!; [lia|done|unfold pb in *; lia].
    + replace ([Z.of_nat (List.length args)] ++ addrs ++ [0; 0]) with (rev ws); [done|].
      unfold ws. rewrite !rev_app_distr, rev_involutive. done.
    + intros i a s Ha Hs. destruct (Hstr i a s Ha Hs) as (H1 & H2 & H3).
      split; [unfold pb in *; lia|]. split; [unfold USER_STACK_TOP; lia|].
      eapply bytes_keep; [exact H3|]. intros x Hx. apply Hout3. lia.
  - intros x Hx. rewrite Hout3 by lia. rewrite Hout by lia. apply fill_out. unfold STACK_BOTTOM, USER_STACK_TOP, TASK_STACK_SIZE. lia.
Qed.
End stack.
