(* ===== verification/ExecSpec.v ===== *)
(** * process_execve

    [execve_spec]: either nothing happens - the old image, every address
    space and the allocators are as before - or the process has exactly the
    new image, and no other process can tell.  Running out of memory panics,
    as everywhere in this kernel. *)

From S2P Require Import Prelude LinkedList Memory Kmalloc Frames Paging PagingProofs AddressSpace AddressClone Vfs Task Scheduler UserSpace UserMemory Signal ProcessInv ProcessOps Fork Reap UserFile Elf ElfSpec Exec ExecCheck AddressBuild ExecImage ExecLoad.

(** The task after a successful call. *)
Definition exec_task (nd start : Z) (t : task) : task :=
  let t := set_image nd start t in set_signals (reset_handlers (signal_handlers t)) (pending_signals t) 0 0 0 t.

Section contract.
Context {K S Cb : Type} `{!Kmalloc K} `{!KmallocLaws K} `{!HasMemory S} `{!FsDriver S Cb} `{!FileSource S Cb}.
Implicit Types k : kernel page_bytes K S.
Implicit Types m : mm page_bytes K.

(** ** Memory *)

Lemma building_switch m0 m nd d : building m0 m nd -> is_Some (directories m !! d) -> building m0 (switch_page_directory d m) nd.
Proof.
  intros [Bok Breg BF BD Bpte Bnf Bu Bfr Bc Bk Bd Bt Bbl Bp Bks Bsh] Hd. split; try done. by apply vm_ok_switch.
Qed.

Lemma building_plain m0 m nd x : building m0 m nd -> plain_in m0 x -> plain_in m x.
Proof.
  intros [Bok Breg (F1 & F2 & F3) BD Bpte Bnf Bu Bfr Bc Bk Bd Bt Bbl Bp Bks Bsh] (P1 & P2 & P3). split_and!.
  - apply Bbl. by left.
  - destruct (page_tables m !! x) eqn:E; [|done]. destruct (Bt x) as [[? ?]|?]; [eauto|congruence|done].
  - destruct (directories m !! x) eqn:E; [|done]. destruct (proj1 (Bd x)) as [[? ?]| ->]; [eauto|congruence|done].
Qed.

Lemma destroyed_plain m m' dir x : destroyed m m' dir -> is_Some (directories m !! dir) -> plain_in m x -> plain_in m' x.
Proof.
  intros Hde Hd Hx. pose proof Hx as (P1 & P2 & P3). split_and!.
  - apply (de_blocks _ _ _ Hde). split_and!; [done|intros ->; destruct Hd; congruence|intros i ps; by apply plain_not_private].
  - destruct (page_tables m' !! x) eqn:E; [|done]. apply (de_tables _ _ _ Hde) in E. congruence.
  - rewrite (de_directories _ _ _ Hde). apply lookup_delete_None. by right.
Qed.

(** Freeing a block that holds no paging structure. *)
Lemma free_plain m r ks : vm_ok m -> plain_in m r -> k_live ks = k_live (kstate m) ∖ {[r]} ->
  vm_ok (Paging.with_kstate m ks) /\ forall x, plain_in m x -> x <> r -> plain_in (Paging.with_kstate m ks) x.
Proof.
  intros Hvm (P1 & P2 & P3) E. split; [by apply (vm_ok_free m r)|]. intros x (Q1 & Q2 & Q3) Hne. split_and!; try done.
  simpl. rewrite E. set_solver.
Qed.

Lemma free_block_ok k r : plain_block k r -> (exists ks, free_block r k = Ok (with_mm k (Paging.with_kstate (kmm k) ks)) /\
  k_live ks = k_live (kstate (kmm k)) ∖ {[r]}) \/ free_failed (free_block r k).
Proof.
  intros (P1 & _ & _). unfold free_block.
  destruct (kfree_cases r (kstate (kmm k)) P1) as [(ks & -> & E)|Hf]; [left|right; by apply free_failed_bind].
  exists ks. by rsimpl.
Qed.

(** The request block comes and goes. *)
Lemma restored_request m r ks m' ks' : vm_ok m -> r ∉ k_live (kstate m) -> k_live ks = {[r]} ∪ k_live (kstate m) ->
  restored (Paging.with_kstate m ks) m' -> k_live ks' = k_live (kstate m') ∖ {[r]} ->
  restored m (Paging.with_kstate m' ks').
Proof.
  intros Hvm Hr E [R1 R2 R3 R4 R5 R6 R7 R8 R9 R10 R11] E'.
  assert (forall x, x ∈ k_live ks' <-> x ∈ k_live (kstate m)) as Hbl.
  { intros x. rewrite E', elem_of_difference, not_elem_of_singleton, R10. simpl. rewrite E. set_solver. }
  split; try done. apply vm_ok_kstate; [done|]. intros x Hx. apply Hbl. destruct Hx as [Hx|Hx].
  - apply R11 in Hx. apply vm_blocks; [done|by left].
  - apply R8 in Hx. apply vm_blocks; [done|by right].
Qed.

Lemma restored_refl m : vm_ok m -> restored m m.
Proof. intros Hvm. by split. Qed.

(** The process table over memory in which one address space replaced
    another. *)
Record swapped m m' (old nd : Z) : Prop := {
  sw_ok : vm_ok m';
  sw_region : user_region_free m';
  sw_kernel : kernel_directory m' = kernel_directory m;
  sw_current : current_directory m' = nd;
  sw_new : is_Some (directories m' !! nd) /\ nd <> kernel_directory m /\ directories m !! nd = None;
  sw_directories d : is_Some (directories m !! d) -> d <> old -> is_Some (directories m' !! d);
  sw_plain x : plain_in m x -> plain_in m' x;
  sw_pte d v : is_Some (directories m !! d) -> d <> old -> 0 <= v -> pte m' d v = pte m d v
}.

Lemma exec_process_ok k q t m' nd start : process_ok k q -> tasks k !! current_task k = Some t -> is_user_process t <> 0 ->
  swapped (kmm k) m' (task_directory t) nd -> heap_ok m' (exec_task nd start t) ->
  process_ok (with_tasks (with_mm k m') (<[current_task k := exec_task nd start t]> (tasks k))) q.
Proof.
  intros Hk Ht Hu [W1 W2 W3 W4 (W5 & W6 & W7) W8 W9 W10] Hh. set (t' := exec_task nd start t). set (k' := with_tasks _ _).
  pose proof Hk as [Hq Hvm Hreg Hdom Htk Hd Hs Hp Hc Hn]. pose proof (po_tasks _ _ Hk _ _ Ht) as [T1 T2 T3 [T4 T4'] T5 T6 T7 T8 T9 T10].
  assert (forall y u, tasks k' !! y = Some u -> y = current_task k /\ u = t' \/ y <> current_task k /\ tasks k !! y = Some u) as Hcase.
  { intros y u Hy. simpl in Hy. apply lookup_insert_Some in Hy as [[<- <-]|[? ?]]; [left|right]; done. }
  assert (forall y u, y <> current_task k -> tasks k !! y = Some u -> task_directory u <> nd /\ task_directory u <> task_directory t) as Hdirs.
  { intros y u Hne Hy. split; [|intros E; apply Hne; by eapply Hd]. intros E. destruct (to_directory _ _ _ (Htk y u Hy)). congruence. }
  assert (forall y, tasks k !! y = None -> tasks k' !! y = None) as Hnone.
  { intros y Hy. simpl. apply lookup_insert_None. split; [done|]. intros E. congruence. }
  split; try done.
  - apply (queue_ok_links k); try done; [apply Hq| |].
    + intros x u Hx. simpl. destruct (decide (x = current_task k)) as [->|Hne].
      * exists t'. rewrite lookup_insert_eq. split; [done|]. assert (u = t) as -> by congruence. done.
      * exists u. by rewrite lookup_insert_ne.
    + destruct (qo_idle _ _ Hq) as (i & Hi & Hri). destruct (decide (ready_queue k = current_task k)) as [E|Hne].
      * exists t'. rewrite E. simpl. rewrite lookup_insert_eq. split; [done|]. assert (i = t) as -> by congruence. done.
      * exists i. simpl. by rewrite lookup_insert_ne.
  - intros x. simpl. rewrite lookup_insert_is_Some, <- Hdom. split; [intros [<-|[_ ?]]; eauto|]. intros Hx.
    destruct (decide (current_task k = x)); [by left|by right].
  - intros x u Hx. destruct (Hcase x u Hx) as [(-> & ->)|(Hne & Hy)].
    + split; try done.
      * change (nd <> kernel_directory m'). by rewrite W3.
      * by apply W9.
      * split; [by apply W9|by apply Hnone].
      * simpl. unfold reset_handlers. by rewrite length_imap.
    + destruct (Htk x u Hy) as [U1 U2 U3 [U4 U4'] U5 U6 U7 U8 U9 U10]. destruct (Hdirs x u Hne Hy) as [D1 D2]. split; try done.
      * by apply W8.
      * change (task_directory u <> kernel_directory m'). by rewrite W3.
      * by apply W9.
      * split; [by apply W9|by apply Hnone].
      * intros Hus. apply (heap_ok_pte (kmm k)); [|by apply U10]. intros v Hv. apply W10; [done|done|unfold user_range in Hv; lia].
  - intros x y a b Hx Hy E. destruct (Hcase x a Hx) as [(-> & ->)|(Nx & Hx0)], (Hcase y b Hy) as [(-> & ->)|(Ny & Hy0)]; [done| | |by eapply Hd].
    + destruct (Hdirs y b Ny Hy0) as [D _]. by destruct D.
    + destruct (Hdirs x a Nx Hx0) as [D _]. by destruct D.
  - intros x y a b Hx Hy E. destruct (Hcase x a Hx) as [(-> & ->)|(Nx & Hx0)], (Hcase y b Hy) as [(-> & ->)|(Ny & Hy0)]; [done| | |by eapply Hs].
    + by eapply (Hs (current_task k) y t b).
    + by eapply (Hs x (current_task k) a t).
  - intros x y a b Hx Hy E. destruct (Hcase x a Hx) as [(-> & ->)|(Nx & Hx0)], (Hcase y b Hy) as [(-> & ->)|(Ny & Hy0)]; [done| | |by eapply Hp].
    + by eapply (Hp (current_task k) y t b).
    + by eapply (Hp x (current_task k) a t).
  - intros u Hcur. destruct (Hcase _ u Hcur) as [(_ & ->)|(Hne & _)]; [done|by destruct Hne].
Qed.
End contract.

(** ** What [process_execve] does

    [untouched] is the state after a failure, [replaced] after a success. *)

Section spec.
Context {K S Cb : Type} `{!Kmalloc K} `{!KmallocLaws K} `{!HasMemory S} `{!FsDriver S Cb} `{!FileSource S Cb}.
Variable fs_root : Z.
Implicit Types k : kernel page_bytes K S.
Implicit Types m : mm page_bytes K.

(** Only unused memory may differ. *)
Definition untouched k k' : Prop := k' = with_mm k (kmm k') /\ restored (kmm k) (kmm k').

Record replaced k k' (q : list Z) (t : task) (src : Z) (ps : list elf32_program_header) (highest : Z)
    (args : list (list Z)) (addresses : list Z) (sp nd : Z) : Prop := {
  xc_task : tasks k' = <[current_task k := exec_task nd (ALIGN_UP_PAGE highest) t]> (tasks k);
  xc_rest : kfs k' = kfs k /\ current_task k' = current_task k /\ ready_queue k' = ready_queue k /\
    next_pid k' = next_pid k /\ tss_stack k' = tss_stack k /\ saved_frames k' = saved_frames k;
  xc_ok : process_ok k' q;
  xc_new : directories (kmm k) !! nd = None;
  xc_gone : directories (kmm k') !! task_directory t = None;
  xc_segments p a : p ∈ ps -> loadable p = true -> virtual_address p <= a < page_end p ->
    space (kmm k') nd a = Some (segment_byte k src p a);
  xc_rights p v g : p ∈ ps -> loadable p = true -> on_pages p (v * 0x1000) -> pte (kmm k') nd v = Some g ->
    rw g = (if writable p then 1 else 0) /\ user g = 1;
  xc_stack : start_stack (space (kmm k') nd) sp args addresses;
  xc_nothing a : user_address a -> a < STACK_BOTTOM -> (forall p, p ∈ ps -> loadable p = true -> ~ on_pages p a) ->
    space (kmm k') nd a = None;
  xc_others dir a : is_Some (directories (kmm k) !! dir) -> dir <> task_directory t -> user_address a ->
    space (kmm k') dir a = space (kmm k) dir a;
  xc_freed v p : user_range v -> pte (kmm k) (task_directory t) v = Some p -> used (bits (kmm k')) (frame p) = false
}.

(** ** Swapping the address spaces *)

Lemma swap_memory m r ks m3 nd old : vm_ok m -> user_region_free m -> r ∉ k_live (kstate m) ->
  k_live ks = {[r]} ∪ k_live (kstate m) -> building (Paging.with_kstate m ks) m3 nd -> current_directory m3 = nd ->
  is_Some (directories m !! old) -> old <> kernel_directory m ->
  (exists m4 ks5, destroy_directory old m3 = Ok m4 /\ kfree r (kstate m4) = Ok ks5 /\
    swapped m (Paging.with_kstate m4 ks5) old nd /\ (forall v, pte m4 nd v = pte m3 nd v) /\
    contents_of m4 = contents_of m3 /\ directories m4 !! old = None /\
    (forall v p, user_range v -> pte m old v = Some p -> used (bits m4) (frame p) = false)) \/
  free_failed (destroy_directory old m3) \/
  exists m4, destroy_directory old m3 = Ok m4 /\ free_failed (kfree r (kstate m4)).
Proof.
  intros Hvm Hreg Hr E B C Hold Hnk. destruct (grown_alloc m r ks Hvm Hreg Hr E) as [Hg Hpr]. set (m1 := Paging.with_kstate m ks) in *.
  pose proof B as [Bok Breg (F1 & F2 & F3) [D1 D2] Bpte Bnf Bu Bfr Bc Bk Bd Bt Bbl Bp Bks Bsh].
  assert (nd <> old) as Hne by (intros ->; destruct Hold; change (directories m !! old = None) in F1; congruence).
  destruct (destroy_directory_spec m3 old Bok) as [(m4 & Hrun & Hde)|Hf];
    [apply Bd; by left|by rewrite Bk|congruence| |by right; left].
  assert (is_Some (directories m3 !! old)) as Hold3 by (apply Bd; by left).
  assert (forall x, plain_in m1 x -> plain_in m4 x) as Hpl by (intros x Hx; eapply destroyed_plain, building_plain; done).
  destruct (Hpl r Hpr) as (R1 & R2 & R3). destruct (kfree_cases r (kstate m4) R1) as [(ks5 & Hfree & E5)|Hf].
  2: { right. right. by exists m4. }
  destruct (free_plain m4 r ks5 (de_ok _ _ _ Hde) (Hpl r Hpr) E5) as [Hvm5 Hpl5].
  assert (kernel_directory m3 <> old) as Hkd by (rewrite Bk; exact (not_eq_sym Hnk)).
  left. exists m4, ks5. split; [done|]. split; [done|]. split; [split; simpl|].
  - done.
  - eapply (user_region_keep m3 (Paging.with_kstate m4 ks5)); [exact (de_kernel _ _ _ Hde)| |done].
    simpl. by rewrite (de_directories _ _ _ Hde), lookup_delete_ne.
  - rewrite (de_kernel _ _ _ Hde). exact Bk.
  - rewrite (de_current _ _ _ Hde). exact C.
  - split; [by rewrite (de_directories _ _ _ Hde), lookup_delete_ne|]. split; [|done]. intros ->. apply D2. by rewrite Bk.
  - intros d Hd Hdo. rewrite (de_directories _ _ _ Hde), lookup_delete_ne by congruence. apply Bd. by left.
  - intros x Hx. apply Hpl5; [by apply Hpl, Hg|]. intros ->. by destruct Hx.
  - intros d v Hd Hdo Hv. change (pte m4 d v = pte m d v). rewrite (de_pte _ _ _ Hde) by done. by apply Bpte.
  - split; [intros v; by apply (de_pte _ _ _ Hde)|]. split; [apply Hde|].
    split; [by rewrite (de_directories _ _ _ Hde), lookup_delete_eq|]. intros v p Hv Hp.
    assert (pte m3 old v = Some p) as Hp3 by (rewrite Bpte; [done|done|unfold user_range in Hv; lia]).
    apply not_true_iff_false. destruct (pte_used m3 old v p Bok Hp3) as [Hr0 _]. rewrite (de_used _ _ _ Hde) by lia. intros [_ Hno].
    apply Hno. destruct (pte_private m3 old v p Bok Breg Hv Hp3) as (tb & qs & Hpri & Hj & H0).
    exists (Z.to_nat (v / 1024)), tb, qs. split; [done|]. by exists (Z.to_nat (v mod 1024)), p.
Qed.

(** The given-up image. *)
Lemma abandon_spec k r ks k3 nd q t : process_ok k q -> tasks k !! current_task k = Some t -> r ∉ k_live (kstate (kmm k)) ->
  k_live ks = {[r]} ∪ k_live (kstate (kmm k)) ->
  let k1 := with_mm k (Paging.with_kstate (kmm k) ks) in
  building (kmm k1) (kmm k3) nd -> k3 = with_mm k1 (kmm k3) ->
  (exists k', abandon (task_directory t) nd r k3 = Ok k' /\ untouched k k') \/ free_failed (abandon (task_directory t) nd r k3).
Proof.
  intros Hk Ht Hr E k1 B Rest. pose proof (po_tasks _ _ Hk _ _ Ht) as Htk.
  destruct (grown_alloc (kmm k) r ks (po_vm _ _ Hk) (po_region _ _ Hk) Hr E) as [Hg Hpr].
  set (old := task_directory t) in *. set (m3 := switch_page_directory old (kmm k3)).
  assert (building (kmm k1) m3 nd) as B3 by (apply building_switch; [done|apply (bg_directories _ _ _ B); left; apply Htk]).
  destruct (bg_fresh _ _ _ B3) as (F1 & _). destruct (bg_new_directory _ _ _ B3) as [N1 N2].
  assert (nd <> old) as Hne by (intros ->; destruct (to_directory _ _ _ Htk); change (directories (kmm k) !! task_directory t = None) in F1; congruence).
  destruct (destroy_directory_spec m3 nd (bg_ok _ _ _ B3) N1 N2 Hne) as [(m4 & Hrun & Hde)|Hf];
    [|right; by apply free_failed_bind].
  assert (restored (kmm k1) m4) as Hres.
  { eapply (building_destroyed (kmm k1) m3 m4 nd); [apply Hg|done|apply Htk| |done].
    simpl. symmetry. by apply (po_current _ _ Hk). }
  unfold abandon. fold m3. rewrite Hrun. rsimpl.
  assert (plain_in m4 r) as Hp4 by (eapply destroyed_plain, building_plain; done).
  destruct (free_block_ok (with_mm k3 m4) r Hp4) as [(ks5 & -> & E5)|Hf]; [left|by right]. eexists. split; [done|]. split.
  - rewrite Rest. done.
  - simpl. eapply (restored_request (kmm k) r ks); [apply Hk|done|done|exact Hres|exact E5].
Qed.
(** ** The call *)

(** Reading does not depend on the allocator. *)
Lemma read_exact_same k k' : kfs k' = kfs k -> (forall a, vload8 a k' = vload8 a k) ->
  forall file off size, read_exact file off size k' = read_exact file off size k.
Proof.
  intros Ef Hv file off size. assert (forall n a, vload_bytes a n k' = vload_bytes a n k) as Hb.
  { intros n. induction n as [|n IH]; intros a; [done|]. cbn [vload_bytes]. rewrite Hv. destruct (vload8 a k); [|done..].
    rsimpl. by rewrite IH. }
  unfold read_exact, read_bytes. rewrite Ef. destruct (deref file (kfs k)) as [n| |]; [|done..]. rsimpl.
  destruct (read n); [|done]. destruct (read_source _ _ _ _ _) as [[src count]| |]; [|done..]. rsimpl. by rewrite Hb.
Qed.

Lemma validate_elf_same k k' file : kfs k' = kfs k -> (forall a, vload8 a k' = vload8 a k) ->
  validate_elf file k' = validate_elf file k.
Proof.
  intros Ef Hv. unfold validate_elf. rewrite Ef. destruct (file =? 0); [done|]. destruct (deref file (kfs k)) as [n| |]; [|done..]. rsimpl.
  destruct (_ || _); [done|]. rewrite (read_exact_same k k') by done. destruct (read_exact _ _ _ k) as [[l|]| |]; [|done..].
  rsimpl. destruct (negb _); [done|]. destruct (_ || _); [done|]. by rewrite (read_exact_same k k').
Qed.

Lemma request_block k : clone_failure (kmalloc sizeof_exec_request_t (kstate (kmm k))) \/
  exists r ks, kmalloc sizeof_exec_request_t (kstate (kmm k)) = Ok (r, ks) /\ r <> 0 /\ (r ∉ k_live (kstate (kmm k))) /\
    k_live ks = {[r]} ∪ k_live (kstate (kmm k)).
Proof.
  destruct (kmalloc_cases sizeof_exec_request_t (kstate (kmm k))) as [(r & ks & H)|Hf]; [right|left; by right].
  exists r, ks. destruct (kmalloc_plain_fresh _ _ _ _ H) as (? & ? & ?). split_and!; try done. lia.
Qed.

Lemma release_request k r ks : vm_ok (kmm k) -> user_region_free (kmm k) -> r ∉ k_live (kstate (kmm k)) ->
  k_live ks = {[r]} ∪ k_live (kstate (kmm k)) ->
  (exists k', free_block r (with_mm k (Paging.with_kstate (kmm k) ks)) = Ok k' /\ untouched k k') \/
  free_failed (free_block r (with_mm k (Paging.with_kstate (kmm k) ks))).
Proof.
  intros Hvm Hreg Hr E. destruct (grown_alloc (kmm k) r ks Hvm Hreg Hr E) as [Hg Hpr].
  destruct (free_block_ok (with_mm k (Paging.with_kstate (kmm k) ks)) r Hpr) as [(ks' & -> & E')|Hf]; [left|by right]. eexists. split; [done|].
  split; [done|]. eapply (restored_request (kmm k) r ks (Paging.with_kstate (kmm k) ks)); try done. apply restored_refl, Hg.
Qed.

Lemma kernel_ext k k' m ts : kmm k' = m -> tasks k' = ts ->
  kfs k' = kfs k /\ current_task k' = current_task k /\ ready_queue k' = ready_queue k /\
  next_pid k' = next_pid k /\ tss_stack k' = tss_stack k /\ saved_frames k' = saved_frames k ->
  k' = with_tasks (with_mm k m) ts.
Proof. destruct k'. simpl. intros <- <- (-> & -> & -> & -> & -> & ->). done. Qed.

Section call.
Context k q t (Hk : process_ok k q) (Ht : tasks k !! current_task k = Some t) (Hu : is_user_process t <> 0).
Context (upath argv envp : Z) (frame0 : registers).

(** Requests and files that are refused. *)
Lemma execve_refused : (capture_request upath argv envp k = Ok None \/
    exists rq file, capture_request upath argv envp k = Ok (Some rq) /\
      resolve_path_fs fs_root (working_directory t) (Some (path rq)) (kfs k) = Ok file /\ validate_elf file k = Ok None) ->
  kernel_failure (process_execve fs_root upath argv envp frame0 k) \/
  exists k', process_execve fs_root upath argv envp frame0 k = Ok (-1, frame0, k') /\ untouched k k'.
Proof.
  intros Hcase. destruct (current_task_ok k q Hk) as (t' & Ht' & H0). unfold process_execve.
  rewrite (proj2 (Z.eqb_neq _ 0)), (get_task_ok _ _ _ Ht) by done. rsimpl. rewrite (proj2 (Z.eqb_neq _ 0)) by done.
  destruct (request_block k) as [Hf|(r & ks & -> & Hr0 & Hr & E)]; [left; left; by apply clone_failure_bind|]. rsimpl.
  rewrite (proj2 (Z.eqb_neq r 0)) by done.
  change (capture_request upath argv envp (with_mm k (Paging.with_kstate (kmm k) ks))) with (capture_request upath argv envp k).
  match goal with |- kernel_failure ?x \/ _ => assert (x = (k ← free_block r (with_mm k (Paging.with_kstate (kmm k) ks)); Ok (-1, frame0, k))) as -> end.
  { destruct Hcase as [->|(rq & file & -> & Hfile & Hval)]; rsimpl; [done|].
    change (kfs (with_mm k (Paging.with_kstate (kmm k) ks))) with (kfs k). rewrite Hfile. rsimpl.
    rewrite (validate_elf_same k) by done. rewrite Hval. by rsimpl. }
  destruct (release_request k r ks (po_vm _ _ Hk) (po_region _ _ Hk) Hr E) as [(k' & -> & Hun)|Hf];
    [right|left; right; by apply free_failed_bind]. exists k'. split; [by rsimpl|done].
Qed.
(** Requests for a file that is a program. *)
Context (rq : exec_request) (args : list (list Z)) (file : Z) (n : fs_node Cb) (src : Z)
  (h : elf32_header) (ps : list elf32_program_header) (highest : Z)
  (Hcap : requested k upath argv envp rq args)
  (Hfile : resolve_path_fs fs_root (working_directory t) (Some (path rq)) (kfs k) = Ok file)
  (Hsv : served k file n src) (Hpf : program_file k n src h ps highest).

Lemma heap_start_spec : highest <= USER_HEAP_LIMIT /\ ALIGN_UP_PAGE highest mod 0x1000 = 0 /\
  0x400000 <= highest <= ALIGN_UP_PAGE highest /\
  forall p, p ∈ ps -> loadable p = true -> page_end p <= ALIGN_UP_PAGE highest.
Proof.
  pose proof (pf_valid _ _ _ _ _ _ Hpf) as Hv. pose proof (program_fields k file n src h ps highest Hsv Hpf) as Hf.
  destruct (ev_highest _ _ _ _ Hv) as (p & Hp & Hl & E).
  destruct (valid_bounds _ _ _ _ Hv Hf p Hp Hl) as (_ & [_ _ Hlo Hhi _] & Hm & _). unfold USER_PROGRAM_MIN, USER_HEAP_LIMIT in *.
  destruct (page_align_up_spec highest) as [Ha Hb]; [lia|]. change (PAGE_ALIGN_UP highest) with (ALIGN_UP_PAGE highest) in *.
  split_and!; try done; try lia. intros u Hpu Hlu. pose proof (ev_bound _ _ _ _ Hv u Hpu Hlu).
  destruct (valid_bounds _ _ _ _ Hv Hf u Hpu Hlu) as (_ & _ & _ & _ & He & _ & _ & Hup & _). Z.div_mod_to_equations. lia.
Qed.

(** The new image, once it is complete. *)
Lemma execve_commit r ks k3 nd f g sp addresses : r ∉ k_live (kstate (kmm k)) -> k_live ks = {[r]} ∪ k_live (kstate (kmm k)) ->
  let k1 := with_mm k (Paging.with_kstate (kmm k) ks) in
  image k1 k3 nd f (grant STACK_BOTTOM USER_STACK_TOP 1 g) -> start_stack f sp args addresses ->
  (forall x, x < STACK_BOTTOM \/ USER_STACK_TOP <= x -> f x = loaded k1 src ps x) -> g = rights ps ->
  ALIGN_UP_PAGE highest < USER_HEAP_LIMIT ->
  let call := (k ← task_signal_exec_reset (update_task (current_task k) (set_image nd (ALIGN_UP_PAGE highest)) k3);
     m ← destroy_directory (task_directory t) (kmm k);
     k ← free_block r (with_mm k m);
     Ok (0, set_entry (entry h) sp frame0, k)) in
  (exists k', call = Ok (0, set_entry (entry h) sp frame0, k') /\ replaced k k' q t src ps highest args addresses sp nd) \/ free_failed call.
Proof.
  intros Hr E k1 [B C R Hs Hrt] Hst Hf -> Hlim call. pose proof (po_tasks _ _ Hk _ _ Ht) as Htk.
  destruct (current_task_ok k q Hk) as (t' & Ht' & H0).
  pose proof (pf_valid _ _ _ _ _ _ Hpf) as Hv. pose proof (program_fields k file n src h ps highest Hsv Hpf) as Hfo.
  destruct heap_start_spec as (Hmax & Hal & Hlow & Hpe).
  destruct (swap_memory (kmm k) r ks (kmm k3) nd (task_directory t)) as [(m4 & ks5 & Hd & Hfree & Hsw & Hpte & Hc & Hgone & Hfreed)|Hfail];
    try done; [apply Hk|apply Hk|apply Htk|apply Htk| |].
  2: { right. unfold call, task_signal_exec_reset.
    change (current_task (update_task (current_task k) (set_image nd (ALIGN_UP_PAGE highest)) k3)) with (current_task k3).
    assert (current_task k3 = current_task k) as Ec by (by rewrite R). rewrite Ec, (proj2 (Z.eqb_neq (current_task k) 0)) by done. assert_step.
    match goal with |- context [destroy_directory _ ?m] => change m with (kmm k3) end.
    destruct Hfail as [Hfail|(m4 & -> & Hfail)]; [by apply free_failed_bind|]. rsimpl. unfold free_block.
    match goal with |- context [kfree r ?x] => change x with (kstate m4) end. by do 2 apply free_failed_bind. }
  left.
  assert (forall a, user_address a -> space m4 nd a = f a) as Hsp.
  { intros a Ha. rewrite <- Hs by done. unfold space. rewrite Hpte, Hc. done. }
  assert (forall p, p ∈ ps -> loadable p = true -> page_end p <= USER_HEAP_LIMIT) as Hpl.
  { intros p Hp Hl. by destruct (valid_bounds _ _ _ _ Hv Hfo p Hp Hl) as (_ & _ & _ & _ & _ & _ & _ & _ & ?). }
  unfold call, task_signal_exec_reset. change (current_task (update_task (current_task k) (set_image nd (ALIGN_UP_PAGE highest)) k3)) with (current_task k3).
  assert (current_task k3 = current_task k) as Ec by (by rewrite R). rewrite Ec, (proj2 (Z.eqb_neq (current_task k) 0)) by done. assert_step.
  change (kmm (update_task (current_task k) ?f (update_task (current_task k) ?g k3))) with (kmm k3).
  match goal with |- context [destroy_directory _ ?m] => change m with (kmm k3) end. rewrite Hd. rsimpl.
  unfold free_block. match goal with |- context [kfree r ?x] => change x with (kstate m4) end. rewrite Hfree. rsimpl.
  match goal with |- exists k', Ok (_, ?x) = _ /\ _ => exists x; split; [done|]; set (k' := x) end.
  assert (kmm k' = Paging.with_kstate m4 ks5) as Em by done.
  assert (tasks k' = <[current_task k := exec_task nd (ALIGN_UP_PAGE highest) t]> (tasks k)) as Etk.
  { unfold k'. simpl. assert (tasks k3 = tasks k) as -> by (by rewrite R).
    apply map_eq. intros x. destruct (decide (x = current_task k)) as [->|Hne].
    - by rewrite !lookup_alter_eq, lookup_insert_eq, Ht.
    - by rewrite !lookup_alter_ne, lookup_insert_ne. }
  assert (kfs k' = kfs k /\ current_task k' = current_task k /\ ready_queue k' = ready_queue k /\
    next_pid k' = next_pid k /\ tss_stack k' = tss_stack k /\ saved_frames k' = saved_frames k) as Erest by (unfold k'; simpl; by rewrite R).
  assert (k' = with_tasks (with_mm k (Paging.with_kstate m4 ks5)) (<[current_task k := exec_task nd (ALIGN_UP_PAGE highest) t]> (tasks k))) as Ek.
  { by apply kernel_ext. }
  split; rewrite ?Em; try done.
  - rewrite Ek. apply exec_process_ok; try done. split; simpl.
    + split_and!; try done.
    + unfold USER_HEAP_LIMIT in *. lia.
    + intros v Hvr. lia.
    + intros v Hvr. change (pte m4 nd v = None). unfold USER_HEAP_LIMIT in *.
      assert (user_address (v * 0x1000)) as Ha by (unfold user_address; Z.div_mod_to_equations; lia).
      pose proof (space_pte m4 nd (v * 0x1000)) as [Hsome _]. rewrite Z.div_mul in Hsome by lia. apply Hsome. rewrite Hsp, Hf by (done || (unfold STACK_BOTTOM, USER_STACK_TOP, TASK_STACK_SIZE; Z.div_mod_to_equations; lia)).
      eapply loaded_out; [exact Hv|exact Hfo|done|]. intros p Hp Hl. pose proof (Hpe p Hp Hl). unfold on_pages. Z.div_mod_to_equations. lia.
  - apply (bg_fresh _ _ _ B).
  - intros p a Hp Hl Ha. change (space m4 nd a = Some (segment_byte k src p a)). pose proof (Hpl p Hp Hl).
    destruct (valid_bounds _ _ _ _ Hv Hfo p Hp Hl) as (_ & [_ _ Hlo _ _] & _). unfold USER_PROGRAM_MIN, USER_HEAP_LIMIT in *.
    rewrite Hsp, Hf by (unfold user_address, STACK_BOTTOM, USER_STACK_TOP, TASK_STACK_SIZE; lia).
    exact (loaded_in _ _ _ _ Hv Hfo k1 src p a Hp Hl Ha).
  - intros p v pg Hp Hl Hon Hpg. change (pte m4 nd v = Some pg) in Hpg. rewrite Hpte in Hpg. pose proof (Hpl p Hp Hl).
    destruct (valid_bounds _ _ _ _ Hv Hfo p Hp Hl) as (_ & _ & _ & _ & _ & Hps & _). unfold on_pages, USER_HEAP_LIMIT in *.
    destruct (Hrt v pg) as [-> ->]; [unfold user_range; lia|done|]. split; [|done]. unfold grant.
    rewrite (proj2 (Z.leb_gt STACK_BOTTOM _)) by (unfold STACK_BOTTOM, USER_STACK_TOP, TASK_STACK_SIZE; lia). cbn [andb].
    exact (rights_in _ _ _ _ Hv Hfo p v Hp Hl Hon).
  - destruct Hst as [S1 (S2 & S2' & S2'') S3 S4]. unfold STACK_BOTTOM, USER_STACK_TOP, TASK_STACK_SIZE in *. split; try done.
    + eapply bytes_keep; [exact S3|]. intros x Hx. rewrite concat_le32_length, !length_app, S1 in Hx. simpl in Hx.
      apply Hsp. unfold user_address. lia.
    + intros i a s Ha Hsx. destruct (S4 i a s Ha Hsx) as (G1 & G2 & G3). unfold USER_STACK_TOP in G2. split_and!; try done.
      eapply bytes_keep; [exact G3|]. intros x Hx. rewrite length_app in Hx. simpl in Hx. apply Hsp. unfold user_address. lia.
  - intros a Ha Hlo Hno. change (space m4 nd a = None). rewrite Hsp, Hf by (done || by left).
    eapply loaded_out; [exact Hv|exact Hfo|done|done].
  - intros dir a Hdir Hne Ha. pose proof (user_address_range a Ha) as Hvr. unfold user_range in Hvr.
    pose proof (sw_pte _ _ _ _ Hsw dir (a / 0x1000) Hdir Hne ltac:(lia)) as Ep. change (pte m4 dir (a / 0x1000) = pte (kmm k) dir (a / 0x1000)) in Ep.
    unfold space. change (pte (Paging.with_kstate m4 ks5) dir (a / 0x1000)) with (pte m4 dir (a / 0x1000)). rewrite Ep.
    destruct (pte (kmm k) dir (a / 0x1000)) as [p|] eqn:Hp; [|done]. cbn [mbind option_bind]. f_equal.
    destruct (pte_used _ _ _ _ (po_vm _ _ Hk) Hp) as [U1 U2]. change (contents_of m4 (base (frame p)) (a mod 0x1000) = contents_of (kmm k) (base (frame p)) (a mod 0x1000)).
    rewrite Hc. by apply (bg_contents _ _ _ B).
Qed.
(** Loading into a fresh address space. *)
Lemma execve_build r ks : r ∉ k_live (kstate (kmm k)) -> k_live ks = {[r]} ∪ k_live (kstate (kmm k)) ->
  let k1 := with_mm k (Paging.with_kstate (kmm k) ks) in
  clone_failure (clone_directory (kernel_directory (kmm k1)) (kmm k1)) \/
  exists nd m, clone_directory (kernel_directory (kmm k1)) (kmm k1) = Ok (nd, m) /\
    let k2 := with_mm k1 (switch_page_directory nd m) in
    clone_failure ('(loaded, k) ← map_and_load_segments file nd ps k2;
                   if loaded : bool then build_initial_stack rq nd k else Ok (None, k)) \/
    exists k3 k4 f sp addresses, map_and_load_segments file nd ps k2 = Ok (true, k3) /\
      build_initial_stack rq nd k3 = Ok (Some sp, k4) /\
      image k1 k4 nd f (grant STACK_BOTTOM USER_STACK_TOP 1 (rights ps)) /\ start_stack f sp args addresses /\
      (forall x, x < STACK_BOTTOM \/ USER_STACK_TOP <= x -> f x = loaded k1 src ps x).
Proof.
  intros Hr E k1. pose proof (pf_valid _ _ _ _ _ _ Hpf) as Hv. pose proof (program_fields k file n src h ps highest Hsv Hpf) as Hfo.
  destruct (grown_alloc (kmm k) r ks (po_vm _ _ Hk) (po_region _ _ Hk) Hr E) as [Hg Hpr].
  assert (served k1 file n src) as Hsv1 by (destruct Hsv; by split).
  destruct (clone_directory_forked (kmm k1) (kernel_directory (kmm k1)) (gm_vm _ _ Hg)) as [Hf|(nd & m & Hrun & Hnd0 & Hf)];
    [apply (vm_kernel _ (gm_vm _ _ Hg))|by left|right].
  exists nd, m. split; [done|]. intros k2. destruct (building_start (kmm k1) m nd (gm_vm _ _ Hg) (gm_region _ _ Hg) Hf) as [B Hnone].
  assert (image k1 k2 nd no_memory no_rights) as Him.
  { split; try done.
    - intros a Ha. apply space_pte. change (pte m nd (a / 0x1000) = None). by apply Hnone, user_address_range.
    - intros v p Hvr Hp. change (pte m nd v = Some p) in Hp. by rewrite Hnone in Hp. }
  destruct (map_and_load_image _ _ _ _ Hv Hfo k1 nd file n src Hsv1 eq_refl ps [] k2 eq_refl Him) as [Hfail|(k3 & Hload & Hi3)].
  { left. by apply clone_failure_bind. }
  rewrite Hload. rsimpl.
  destruct (build_initial_stack_image k1 k3 nd _ _ rq args (rd_request _ _ _ _ _ _ Hcap) Hi3) as [Hfail|(sp & addrs & k4 & f & Hst & Hi4 & Hss & Hout)].
  { intros a Ha. eapply loaded_out; [exact Hv|exact Hfo|done|]. intros p Hp Hl Hon.
    destruct (valid_bounds _ _ _ _ Hv Hfo p Hp Hl) as (_ & _ & _ & _ & _ & _ & _ & _ & He).
    unfold on_pages, STACK_BOTTOM, USER_STACK_TOP, TASK_STACK_SIZE, USER_HEAP_LIMIT in *. lia. }
  - by left.
  - right. exists k3, k4, f, sp, addrs. done.
Qed.

Lemma execve_accepted :
  kernel_failure (process_execve fs_root upath argv envp frame0 k) \/
  (USER_HEAP_LIMIT <= ALIGN_UP_PAGE highest /\
   exists k', process_execve fs_root upath argv envp frame0 k = Ok (-1, frame0, k') /\ untouched k k') \/
  (ALIGN_UP_PAGE highest < USER_HEAP_LIMIT /\
   exists k' addresses sp nd, process_execve fs_root upath argv envp frame0 k = Ok (0, set_entry (entry h) sp frame0, k') /\
     replaced k k' q t src ps highest args addresses sp nd).
Proof.
  destruct (current_task_ok k q Hk) as (t' & Ht' & H0). unfold process_execve.
  rewrite (proj2 (Z.eqb_neq _ 0)), (get_task_ok _ _ _ Ht) by done. rsimpl. rewrite (proj2 (Z.eqb_neq _ 0)) by done.
  destruct (request_block k) as [Hf|(r & ks & -> & Hr0 & Hr & E)]; [left; left; by apply clone_failure_bind|]. rsimpl.
  rewrite (proj2 (Z.eqb_neq r 0)) by done. set (k1 := with_mm k (Paging.with_kstate (kmm k) ks)).
  change (capture_request upath argv envp k1) with (capture_request upath argv envp k).
  rewrite (proj2 (capture_request_spec upath argv envp k rq)) by eauto. rsimpl.
  change (kfs k1) with (kfs k). rewrite Hfile. rsimpl. rewrite (validate_elf_same k k1) by done.
  rewrite (validate_elf_run k file n src Hsv), (proj2 (program_file_spec k file n src h ps highest Hsv) Hpf). rsimpl.
  destruct (execve_build r ks Hr E) as [Hf|(nd & m & Hclone & Hcase)].
  { left. left. by apply clone_failure_bind. }
  fold k1 in Hclone, Hcase. rewrite Hclone. rsimpl. destruct Hcase as [Hfail|(k3 & k4 & f & sp & addrs & Hload & Hstack & Him & Hst & Hout)].
  - left. left. destruct (map_and_load_segments file nd ps _) as [[b k3]|msg|]; revert Hfail; rsimpl.
    + intros Hfail. by apply clone_failure_bind.
    + exact (clone_failure_conv msg).
    + exact clone_failure_fuel.
  - rewrite Hload. rsimpl. rewrite Hstack. rsimpl. destruct (Z.leb_spec USER_HEAP_LIMIT (ALIGN_UP_PAGE highest)) as [Hge|Hlt].
    + destruct (abandon_spec k r ks k4 nd q t Hk Ht Hr E (im_building _ _ _ _ _ Him) (im_rest _ _ _ _ _ Him)) as [(k' & Hrun & Hun)|Hf];
        [right; left|left; right; by apply free_failed_bind]. split; [done|]. exists k'. rewrite Hrun. by rsimpl.
    + destruct (execve_commit r ks k4 nd f (rights ps) sp addrs Hr E Him Hst Hout eq_refl Hlt) as [(k' & Hrun & Hrep)|Hf];
        [right; right|by left; right]. split; [done|]. exists k', addrs, sp, nd. split; [|done]. exact Hrun.
Qed.
End call.
End spec.
