(* ===== verification/ExecTheorems.v ===== *)
(** * Program replacement

    The theorems about [process_execve], with a small program file on which
    they are applied. *)

From S2P Require Import Prelude LinkedList Memory Kmalloc Frames Paging PagingProofs PagingTheorems Vfs Initrd Task AddressSpace UserSpace UserMemory UserFile Signal Process ProcessInv ProcessOps Elf ElfSpec Exec ExecCheck AddressBuild ExecImage ExecLoad ExecSpec Demo.

Section theorems.
Context {K S Cb : Type} `{!Kmalloc K} `{!KmallocLaws K} `{!HasMemory S} `{!FsDriver S Cb} `{!FileSource S Cb}.
Variable fs_root : Z.
Implicit Types k : kernel page_bytes K S.

(** C4: execve replaces the image or does nothing.  When the caller's
    request can be captured and its path leads to a file whose bytes are a
    valid program, then, unless memory runs out (which panics), execve
    either returns -1 - exactly when the image ends in the last page below
    the heap limit - and leaves every address space, the allocators and the
    process table as they were; or it returns 0 with the saved registers
    set to the entry point and the new stack pointer, and the process has a
    new directory in which each segment holds its file bytes and zeros with
    its own write permission, the stack holds argc, the argument pointers
    and the arguments, and nothing else is mapped; the heap is empty and
    starts at the page after the image; signal handlers other than ignored
    ones are back to default; the old frames are free; the memory of every
    other process is unchanged; and the process invariant holds. *)
Theorem execve_replaces `{!KfreeReturns K} k q t upath argv envp frame0 rq args file n src h ps highest :
  process_ok k q -> tasks k !! current_task k = Some t -> is_user_process t <> 0 ->
  requested k upath argv envp rq args ->
  resolve_path_fs fs_root (working_directory t) (Some (path rq)) (kfs k) = Ok file ->
  served k file n src -> program_file k n src h ps highest ->
  clone_failure (process_execve fs_root upath argv envp frame0 k) \/
  (USER_HEAP_LIMIT <= ALIGN_UP_PAGE highest /\
   exists k', process_execve fs_root upath argv envp frame0 k = Ok (-1, frame0, k') /\ untouched k k') \/
  (ALIGN_UP_PAGE highest < USER_HEAP_LIMIT /\
   exists k' addresses sp nd, process_execve fs_root upath argv envp frame0 k = Ok (0, set_entry (entry h) sp frame0, k') /\
     replaced k k' q t src ps highest args addresses sp nd).
Proof.
  intros Hk Ht Hu Hreq Hf Hsv Hpf. destruct (execve_accepted fs_root k q t Hk Ht Hu upath argv envp frame0 rq args file n src h ps highest) as [Hfail|H];
    [done..|left|by right]. by apply kernel_failure_returns.
Qed.

(** C22: a refused execve changes nothing.  When the request breaks a limit
    or names an environment, or the file is missing, is not a regular
    readable file, or is not a valid program, execve returns -1 with the
    saved registers unchanged, and every address space, the process table
    and the allocators are as they were, unless even the request itself
    could not be allocated. *)
Theorem execve_refusal `{!KfreeReturns K} k q t upath argv envp frame0 : process_ok k q -> tasks k !! current_task k = Some t ->
  is_user_process t <> 0 ->
  (capture_request upath argv envp k = Ok None \/
   exists rq file, capture_request upath argv envp k = Ok (Some rq) /\
     resolve_path_fs fs_root (working_directory t) (Some (path rq)) (kfs k) = Ok file /\ validate_elf file k = Ok None) ->
  clone_failure (process_execve fs_root upath argv envp frame0 k) \/
  exists k', process_execve fs_root upath argv envp frame0 k = Ok (-1, frame0, k') /\ untouched k k'.
Proof.
  intros Hk Ht Hu Hc. destruct (execve_refused fs_root k q t Hk Ht Hu upath argv envp frame0 Hc) as [Hfail|H]; [left|by right].
  by apply kernel_failure_returns.
Qed.

(** C23: what validate_elf accepts.  On a file that serves its bytes,
    validate_elf always returns, and it accepts with header [h], program
    headers [ps] and end address [highest] exactly when the file is a
    regular file that starts with an ELF header of the supported kind, its
    program header table is inside the file, and the loadable segments are
    inside the file and the user program range, have power-of-two
    alignments their offsets respect, share no page, contain the entry
    point in an executable one, and end at [highest]. *)
Theorem validate_elf_accepts k file n src : served k file n src ->
  (exists r, validate_elf file k = Ok r) /\
  forall h ps highest, validate_elf file k = Ok (Some (h, ps, highest)) <-> program_file k n src h ps highest.
Proof.
  intros Hsv. rewrite (validate_elf_run k file n src Hsv). split; [eauto|]. intros h ps highest.
  rewrite <- (program_file_spec k file n src h ps highest Hsv). split; [by intros [= ->]|by intros ->].
Qed.

(** What execve captures.  A request is captured exactly when the path
    is a non-empty string of fewer than 256 characters, the environment is
    empty, and argv is null or a null-terminated vector of at most 15
    strings with at most 2048 bytes in all; the captured request then holds
    the path and these arguments. *)
Theorem capture_request_exact k upath argv envp rq :
  capture_request upath argv envp k = Ok (Some rq) <-> exists args, requested k upath argv envp rq args.
Proof. apply capture_request_spec. Qed.
End theorems.

(** ** Files of the archive *)

Lemma initrd_served {K} `{!Kmalloc K} (k : kernel page_bytes K (initrd K)) file n src : node_at (kfs k) file = Some n ->
  file <> 0 -> read n = Some InitrdRead -> 0 <= length n -> hd_length (imem (kfs k)) (file_header (inode n) (kfs k)) = length n ->
  src = initrd_location (kfs k) + hd_offset (imem (kfs k)) (file_header (inode n) (kfs k)) -> 0 < src -> src + length n < 2 ^ 32 ->
  (forall a, 0 <= imem (kfs k) a < 256) ->
  (forall a, src <= a < src + length n ->
    kernel_page (kmm k) (kernel_directory (kmm k)) a /\
    kernel_page (kmm k) (current_directory (kmm k)) a) ->
  served k file n src.
Proof.
  intros Hn H0 Hr Hlen Hhd Hsrc Hpos Hend Hb Hsh. split; try done; [|intros a _; apply Hb].
  exists InitrdRead. split; [done|]. intros off size Ho Hs. simpl in Hn. destruct (tree (kfs k) !! file) as [x|] eqn:Hx; [|done].
  injection Hn as <-. unfold read_source, initrd_file_source, initrd_source, get_node. rewrite Hx. rsimpl.
  rewrite Hhd, <- Hsrc. eexists (u32 (src + off)). split; [|intros Hl; apply u32_small; unfold is_u32; lia]. unfold available.
  destruct (Z.leb_spec (length (fs x)) off); [do 2 f_equal; lia|]. destruct (Z.ltb_spec (length (fs x) - off) size); do 2 f_equal; lia.
Qed.

(** ** A program on the small kernel

    The archive is at 0x1000: a file header, then an ELF file whose one
    segment has four bytes of code and four of zeros.  The shell asks for
    the file that its stack names. *)

Definition demo_elf : list Z :=
  [0x7F; 69; 76; 70; 1; 1; 1; 0; 0; 0; 0; 0; 0; 0; 0; 0; 2; 0; 3; 0] ++ le32 1 ++ le32 0x400010 ++ le32 52 ++ le32 0 ++ le32 0 ++
  [52; 0; 32; 0; 1; 0; 0; 0; 0; 0; 0; 0] ++
  le32 1 ++ le32 84 ++ le32 0x400010 ++ le32 0 ++ le32 4 ++ le32 8 ++ le32 5 ++ le32 1 ++ [0x90; 0x90; 0xEB; 0xFE].
Definition demo_archive : list Z := replicate 68 0 ++ le32 76 ++ le32 88 ++ demo_elf ++ le32 0xBFFFE0FD ++ le32 0.
Definition demo_argv : Z := 0x1000 + 76 + 88.
Definition exec_memory : mem := fun a => if a <? 0x1000 then 0 else default 0 (demo_archive !! Z.to_nat (a - 0x1000)).

Definition demo_program : tree_node := mk_tree_node (as_archived_file 0 88 (blank_fs_node [253; 254; 255] FS_FILE)) 0x90000 0 0.
Definition demo_root : tree_node := mk_tree_node (as_directory (blank_fs_node [47] FS_DIRECTORY)) 0 0x90100 0.
Definition exec_fs : initrd (gset Z) :=
  mk_initrd exec_memory {[ 0x90000 := demo_root; 0x90100 := demo_program ]} 0x1000 0x1000 0x2000 0x90000 0 ([], 0) ∅.
Definition exec_shell : task := Task.set_working_directory 0x90000 demo_shell.
Definition exec_demo : kernel page_bytes (gset Z) (initrd (gset Z)) := demo_kernel exec_shell TASK_RUNNABLE exec_fs.
Definition exec_request_demo : exec_request := mk_request [253; 254; 255] 1 [0] [253; 254; 255; 0].
Definition exec_frame : registers := mk_registers 0x23 0 0 0 0 0 0 0 19 0x80 0 0x400000 0x1B 0x202 0xBFFFFF00 0x23.

Lemma exec_demo_ok : process_ok exec_demo demo_queue.
Proof. apply demo_ok. by split. Qed.

Lemma demo_shared c d a : d = 0x2000 \/ d = 0x30000 -> 0x1000 <= a < 0x2000 -> kernel_page (demo_memory c) d a.
Proof.
  intros Hd Ha. unfold kernel_page. rewrite Z.div_small by lia. replace (a / 0x1000) with 1 by (Z.to_euclidean_division_equations; lia).
  split; [destruct Hd as [-> | ->]; eexists _, demo_kernel_directory, 0x5000; (split; [reflexivity|]); done|].
  exists (stack_page 1). reflexivity.
Qed.

Lemma exec_memory_bytes a : 0 <= exec_memory a < 256.
Proof.
  unfold exec_memory. destruct (a <? 0x1000); [lia|]. destruct (demo_archive !! Z.to_nat (a - 0x1000)) as [b|] eqn:E; simpl; [|lia].
  assert (forallb (fun b => (0 <=? b) && (b <? 256)) demo_archive = true) as Hf by (vm_compute; reflexivity).
  rewrite forallb_forall in Hf. apply list_elem_of_lookup_2, list_elem_of_In, Hf in E. apply andb_prop in E as [?%Z.leb_le ?%Z.ltb_lt]. lia.
Qed.

Lemma exec_served : served exec_demo 0x90100 (fs demo_program) (0x1000 + 76).
Proof.
  apply initrd_served; try reflexivity; try done.
  - apply exec_memory_bytes.
  - intros a Ha. simpl in Ha. split; apply demo_shared; auto; lia.
Qed.

Lemma exec_captured : capture_request 0xBFFFE0FD demo_argv 0 exec_demo = Ok (Some exec_request_demo).
Proof. vm_compute. reflexivity. Qed.
Lemma exec_resolved : resolve_path_fs 0x90000 (working_directory exec_shell) (Some (path exec_request_demo)) (kfs exec_demo) = Ok 0x90100.
Proof. vm_compute. reflexivity. Qed.
Lemma exec_validated : exists h ps highest, validate_elf 0x90100 exec_demo = Ok (Some (h, ps, highest)) /\
  entry h = 0x400010 /\ ALIGN_UP_PAGE highest < USER_HEAP_LIMIT.
Proof. eexists _, _, _. split; [vm_compute; reflexivity|]. vm_compute. done. Qed.
Lemma exec_runs : is_ok (process_execve 0x90000 0xBFFFE0FD demo_argv 0 exec_frame exec_demo) = true.
Proof. vm_compute. reflexivity. Qed.

Lemma execve_replaces_witness : exists k' addresses sp nd src ps highest args h,
  process_execve 0x90000 0xBFFFE0FD demo_argv 0 exec_frame exec_demo = Ok (0, set_entry (entry h) sp exec_frame, k') /\
  replaced exec_demo k' demo_queue exec_shell src ps highest args addresses sp nd.
Proof.
  destruct exec_validated as (h & ps & highest & Hv & _ & Hhi).
  destruct (proj1 (capture_request_spec _ _ _ _ _) exec_captured) as (args & Hrq).
  rewrite (validate_elf_run _ _ _ _ exec_served) in Hv.
  assert (program_file exec_demo (fs demo_program) (0x1000 + 76) h ps highest) as Hpf.
  { apply (program_file_spec _ _ _ _ _ _ _ exec_served). congruence. }
  destruct (execve_replaces 0x90000 exec_demo demo_queue exec_shell 0xBFFFE0FD demo_argv 0 exec_frame exec_request_demo args
    0x90100 (fs demo_program) (0x1000 + 76) h ps highest exec_demo_ok eq_refl ltac:(discriminate) Hrq exec_resolved exec_served Hpf)
    as [Hf|[[Hl _]|(_ & k' & addresses & sp & nd & Hr & Hrep)]].
  - destruct (process_execve 0x90000 0xBFFFE0FD demo_argv 0 exec_frame exec_demo) as [r| |] eqn:E;
      [by destruct (clone_failure_not_ok _ Hf r)|pose proof exec_runs as X; rewrite E in X; discriminate X..].
  - lia.
  - exists k', addresses, sp, nd, (0x1000 + 76), ps, highest, args, h. split; [exact Hr|exact Hrep].
Defined.

Lemma execve_refusal_witness : exists k', process_execve 0x90000 0 0 0 exec_frame exec_demo = Ok (-1, exec_frame, k') /\
  untouched exec_demo k'.
Proof.
  destruct (execve_refusal 0x90000 exec_demo demo_queue exec_shell 0 0 0 exec_frame exec_demo_ok eq_refl ltac:(discriminate)
    (or_introl eq_refl)) as [Hf|H]; [|exact H].
  assert (is_ok (process_execve 0x90000 0 0 0 exec_frame exec_demo) = true) as X by (vm_compute; reflexivity).
  destruct (process_execve 0x90000 0 0 0 exec_frame exec_demo) as [r| |] eqn:E;
    [by destruct (clone_failure_not_ok _ Hf r)|discriminate X..].
Defined.

Lemma validate_elf_accepts_witness : exists h ps highest, program_file exec_demo (fs demo_program) (0x1000 + 76) h ps highest /\
  entry h = 0x400010.
Proof.
  destruct exec_validated as (h & ps & highest & Hv & He & _). exists h, ps, highest. split; [|exact He].
  apply (proj2 (validate_elf_accepts exec_demo 0x90100 (fs demo_program) (0x1000 + 76) exec_served)), Hv.
Defined.
