(* ===== verification/KernelTheorems.v ===== *)
(** * What holds of every reachable state of the kernel *)

From S2P Require Import Prelude LinkedList Memory Kmalloc Frames Paging PagingProofs Vfs Initrd Task AddressSpace Scheduler UserSpace UserMemory Signal Process ProcessInv ProcessOps Fork Exit Reap Delivery SignalTheorems Steps Demo.

Section reachable.
Context {K S Cb : Type} `{!Kmalloc K} `{!KmallocLaws K} `{!HasMemory S} `{!FsDriver S Cb}.
Variable resume_user_frame : Z.
Implicit Types k : kernel page_bytes K S.

(** C2: the process invariant.  Tasking starts in a sound state, and every
    sequence of operations - spawning the first process, fork, exit,
    waitpid, sbrk, descriptors, signals, user stores, timer ticks, blocking
    on and waking from the keyboard, changes of the file system - leads to
    a sound state: the ready queue is a null-terminated list of exactly the
    live tasks headed by the runnable idle task, the running task is
    runnable and its directory is current, pids, kernel stacks and
    directories are not shared, every frame of a process is in use and
    backs one page of that process only, every block of a process is
    allocated, heaps are mapped exactly as far as their records say, and
    SIGKILL has its default action everywhere. *)
Theorem process_invariant k0 k1 k : paging_ready k0 -> initialise_tasking k0 = Ok k1 -> rtc (step resume_user_frame) k1 k -> sound k.
Proof.
  intros Hp Hi Hsteps. destruct (initialise_tasking_sound k0 Hp) as [Hf|(k' & Hi' & Hs)]; [by destruct (clone_failure_not_ok _ Hf k1)|].
  assert (k' = k1) as -> by congruence. by eapply steps_sound.
Qed.

(** ** A pending SIGKILL is never lost *)

Lemma held_alter k k' x f : next_pid k <= next_pid k' -> tasks k' = alter f x (tasks k) ->
  (forall t, tasks k !! x = Some t -> id (f t) = id t /\ (condemned t -> condemned (f t))) -> held k k'.
Proof.
  intros Hn E Hf. split; [done|]. rewrite E. intros y t' [(<- & t & Ht & ->)|[_ Ht]]%lookup_alter_Some; left; [|by exists t'].
  exists t. destruct (Hf t Ht). by split_and!.
Qed.

(** A new task at the end of the queue. *)
Lemma held_joined k k' q a x c : process_ok k' q -> id c = next_pid k -> a <> x ->
  tasks k' = alter (set_next a) x (<[a := c]> (tasks k)) -> held k k'.
Proof.
  intros Hok Hc Hne E. assert (tasks k' !! a = Some c) as Ha by (by rewrite E, lookup_alter_ne, lookup_insert_eq).
  pose proof (to_pid _ _ _ (po_tasks _ _ Hok _ _ Ha)) as Hp. split; [lia|]. rewrite E.
  intros y t' [(<- & t & Ht & ->)|[_ Ht]]%lookup_alter_Some; apply lookup_insert_Some in Ht as [[<- <-]|[_ Ht]].
  - right. simpl. lia.
  - left. by exists t.
  - right. lia.
  - left. by exists t'.
Qed.

Lemma held_exit k status cpu k' : sound k -> task_exit status cpu k = Ok k' -> held k k' /\
  exists z, tasks k' !! current_task k = Some z /\ state z = TASK_ZOMBIE.
Proof.
  intros [[q Hq] (t & Ht & Hst) Hkd] Hrun. destruct (current_task_ok k q Hq) as (t' & Ht' & H0).
  destruct (exit_closed k t status cpu k' Ht H0 Hrun) as [Hu [f Hf]].
  destruct (exit_spec k q t status cpu f Hq Ht Hu Hf) as (k2 & Hrun2 & [E1 _ _ (_ & _ & En & _) _]).
  rewrite Hrun in Hrun2. injection Hrun2 as <-. split.
  - split; [lia|]. rewrite E1. intros x u Hx. left. apply lookup_alter_Some in Hx as [(<- & u0 & Hx & ->)|[Hne Hx]].
    + rewrite exit_store_self in Hx. injection Hx as <-. exists t. split_and!; [done|done|]. intros _. by left.
    + destruct (exit_store_other k q t status x Hq Ht) as [E|(u' & Hu' & _ & _ & E)]; [congruence|..]; rewrite E in Hx.
      * by exists u.
      * injection Hx as <-. exists u'. destruct (calm_task_signalled SIGNAL_CHLD u') as [Hs _ _ Hh]. split_and!; [done|apply (st_id _ _ Hs)|done].
  - eexists. rewrite E1, lookup_alter_eq, exit_store_self. by split.
Qed.

Lemma held_switch k e sp b k' : (exists q, process_ok k q) -> switch_task e sp b k = Ok k' -> held k k'.
Proof.
  intros [q Hq] Hrun. destruct (cyclic_exists q _ (qo_current _ _ (po_queue _ _ Hq))) as [r Hr].
  destruct (switch_task_spec k q r e sp b (po_queue _ _ Hq) Hr) as (s & c & t & k2 & _ & Hc & _ & Hrun2 & Hcase & Hq2 & Hrr).
  rewrite Hrun in Hrun2. injection Hrun2 as <-. destruct Hcase as [(_ & -> & _)|[Et _ _ _ (En & _)]]; [done|].
  eapply held_alter; [lia|exact Et|done].
Qed.

Lemma held_stores k k' a l : vstore_bytes a l k = Ok k' -> held k k'.
Proof. intros H. destruct (keeps_stores l k a k' H) as (c & f & ->). by apply held_tasks. Qed.

Lemma held_waitpid k pid status r k' : sound k -> status_place k status -> task_waitpid pid status k = Ok (r, k') -> held k k'.
Proof.
  intros Hs Hpl Hrun. pose proof Hs as [[q Hq] (t & Ht & Hst) Hkd].
  destruct (waitpid_spec k q t pid status Hq Ht Hst Hpl) as [[_ E]|(x & c & _ & Hx & _ & _ & [[_ E]|(Hz & [(k2 & E & Hr)|Hf])])];
    [..|by destruct (free_failed_not_ok _ Hf _ Hrun)]; rewrite Hrun in E; injection E as -> E; subst; [done|done|].
  destruct Hr as [_ (l1 & p & l2 & _ & Ets & _) (_ & _ & _ & En & _)]. split; [lia|]. rewrite Ets.
  intros y u [_ [(<- & u0 & Hu0 & ->)|[_ Hu0]]%lookup_alter_Some]%lookup_delete_Some; left; [by exists u0|by exists u].
Qed.

Lemma held_sbrk k increment r k' : sound k -> - 2 ^ 31 <= increment < 2 ^ 31 -> task_sbrk increment k = Ok (r, k') -> held k k'.
Proof.
  intros [[q Hq] (t & Ht & Hst) Hkd] Hi Hrun. destruct (current_task_ok k q Hq) as (t' & Ht' & H0).
  destruct (decide (is_user_process t = 0)) as [Hu|Hu].
  - unfold task_sbrk in Hrun. rewrite (proj2 (Z.eqb_neq _ 0)), (get_task_ok _ _ _ Ht) in Hrun by done.
    revert Hrun. rsimpl. rewrite Hu. simpl. by intros [= <- <-].
  - destruct (task_sbrk_spec k q t increment Hq Ht Hu Hi) as [Hout Hin].
    destruct (decide (heap_start t <= heap_break t + increment <= heap_limit t)) as [Hb|Hb].
    + destruct (Hin Hb) as [Hf|(m' & E & _)]; [by destruct (clone_failure_not_ok _ Hf _ Hrun)|].
      rewrite Hrun in E. injection E as _ ->. by eapply held_alter.
    + rewrite (Hout Hb) in Hrun. by injection Hrun as _ <-.
Qed.

Lemma held_deliver k frame cpu out : sound k -> task_signal_deliver frame cpu k = Ok out ->
  match out with Resumes _ k' => held k k' | Exited k' => held k k' end.
Proof.
  intros Hs Hrun. pose proof Hs as [[q Hq] (t & Ht & Hst) Hkd].
  destruct (deliverable t frame) eqn:Hd.
  2: { rewrite (deliver_nothing k q t frame cpu Hq Ht (or_introl Hd)) in Hrun. by injection Hrun as <-. }
  destruct (decide (lowest_pending t = 0)) as [H0|H0].
  { rewrite (deliver_nothing k q t frame cpu Hq Ht (or_intror H0)) in Hrun. by injection Hrun as <-. }
  rewrite (deliver_taken k q t frame cpu Hq Ht Hd H0) in Hrun. cbv zeta in Hrun.
  pose proof (taken_sound k t Hs Ht) as Hs1.
  assert (forall k', (exists z, tasks k' !! current_task k = Some z /\ state z = TASK_ZOMBIE) -> held (with_taken k t) k' -> held k k') as Hvia.
  { intros k' (z & Hz & Hzs) [Hn H]. split; [exact Hn|]. intros x u Hx. destruct (H x u Hx) as [(u0 & Hu0 & E & Hh)|?]; [left|by right].
    unfold with_taken in Hu0. simpl in Hu0. apply lookup_insert_Some in Hu0 as [[<- <-]|[_ Hu0]]; [|by exists u0].
    exists t. split_and!; [done|done|]. intros _. left. congruence. }
  assert (forall s, (k' ← task_exit s cpu (with_taken k t); Ok (Exited k')) = Ok out ->
    match out with Resumes _ k' => held k k' | Exited k' => held k k' end) as Hexit.
  { intros s (k' & He & [= <-])%bind_Ok_inv. destruct (held_exit _ _ _ _ Hs1 He) as [Hh Hz]. by apply Hvia. }
  destruct (decide (lowest_pending t = SIGNAL_KILL)) as [E9|E9].
  - assert (reaction_to t (lowest_pending t) = Fatal) as E by (rewrite E9; unfold reaction_to; change (Z.to_nat SIGNAL_KILL) with 9%nat; by rewrite (Hkd _ t Ht)).
    rewrite E in Hrun. by eapply Hexit.
  - pose proof (cm_held _ _ (calm_taken k t Ht E9)) as Hh.
    destruct (reaction_to t (lowest_pending t)) as [| |h]; [by injection Hrun as <-|by eapply Hexit|].
    destruct (frame_fits t (r_useresp frame)); [|by eapply Hexit].
    apply bind_Ok_inv in Hrun as (k2 & Hst2 & [= <-]). etrans; [exact Hh|]. etrans; [by eapply held_stores|].
    by eapply held_alter.
Qed.

Lemma held_spawn k entry pid k' : sound k -> entry <> 0 -> next_pid k < 2 ^ 31 - 1 ->
  create_initial_user_process entry k = Ok (pid, k') -> held k k'.
Proof.
  intros [[q Hq] (t & Ht & Hst) _] Hentry Hpid Hrun. pose proof (po_next_pid _ _ Hq) as Hp0.
  destruct (initial_process_spec k q t entry Hq Ht Hentry Hpid) as [Hf|(k2 & a & x & nd & st & m2 & Hrun2 & Hok & Hfr & Hx & _ & _ & Ets)];
    [by destruct (clone_failure_not_ok _ Hf _ Hrun)|]. rewrite Hrun in Hrun2. injection Hrun2 as -> <-.
  eapply held_joined; [exact Hok| | |exact Ets]; [simpl; done|by intros ->].
Qed.

Lemma held_fork k frame pid k' : sound k -> next_pid k < 2 ^ 31 - 1 ->
  task_fork_from_frame resume_user_frame frame k = Ok (pid, k') -> held k k'.
Proof.
  intros [[q Hq] (t & Ht & Hst) _] Hpid Hrun. destruct (current_task_ok k q Hq) as (t' & Ht' & H0).
  destruct (decide (is_user_process t = 0)) as [Hu|Hu].
  - unfold task_fork_from_frame in Hrun. rewrite (proj2 (Z.eqb_neq _ 0)), (get_task_ok _ _ _ Ht) in Hrun by done.
    revert Hrun. rsimpl. rewrite Hu. simpl. by intros [= <- <-].
  - destruct (fork_opened resume_user_frame k t frame _ Ht H0 Hu Hst Hrun) as [f Hf].
    destruct (fork_spec resume_user_frame k q t frame f Hq Ht Hu Hst Hpid Hf) as [Hfail|(k2 & a & st & nd & m & Hrun2 & Hr)];
      [destruct (clone_failure_not_ok _ Hfail _ Hrun)|]. rewrite Hrun in Hrun2. injection Hrun2 as -> <-.
    destruct Hr as [_ _ _ _ Hfr _ (x & Hx & Ets) _ _ Hok]. eapply held_joined; [exact Hok| | |exact Ets]; [done|by intros ->].
Qed.

Lemma held_wait_keyboard k e sp b k' : sound k -> task_wait_for_keyboard e sp b k = Ok k' -> held k k'.
Proof.
  intros [[q Hq] (t & Ht & Hst) _]. destruct (current_task_ok k q Hq) as (t' & _ & H0). unfold task_wait_for_keyboard.
  rewrite (proj2 (Z.eqb_neq _ 0)) by done. assert_step. rewrite (get_task_ok _ _ _ Ht). rsimpl.
  destruct (Z.eqb_spec (is_user_process t) 0) as [|Hu]; [done|]. rewrite bool_decide_eq_true_2 by done. assert_step. intros Hrun.
  etrans; [|eapply held_switch; [|exact Hrun]].
  - eapply held_alter; [|done|]; [done|]. intros u Hu'. split; [done|]. intros [?|?]; [congruence|by right].
  - exists q. apply (quiet_process_ok k _ q Hq), quiet_update; [by split|]. intros E. exfalso. apply Hu.
    by apply (to_user _ _ _ (po_tasks _ _ Hq _ _ Ht)).
Qed.

Lemma step_held k k' : sound k -> step resume_user_frame k k' -> held k k'.
Proof.
  intros Hs Hstep. destruct Hstep.
  - by eapply held_spawn.
  - by eapply held_fork.
  - by eapply held_exit.
  - by eapply held_waitpid.
  - by eapply held_sbrk.
  - by eapply cm_held, calm_open.
  - by eapply cm_held, calm_close.
  - by eapply cm_held, calm_seek.
  - by eapply cm_held, calm_chdir.
  - by eapply cm_held, calm_set_handler.
  - by eapply cm_held, keeps_send.
  - by apply (held_deliver k frame cpu (Resumes frame' k')).
  - by apply (held_deliver k frame cpu (Exited k')).
  - by eapply cm_held, calm_return.
  - by eapply cm_held, calm_exec_reset.
  - apply (held_stores k k' a [v]). simpl. rewrite H0. by rsimpl.
  - destruct Hs as [Hok _ _]. by eapply held_switch.
  - by eapply held_wait_keyboard.
  - by eapply cm_held, calm_wake.
  - by eapply cm_held, calm_fs.
Qed.

Lemma steps_held k k' : sound k -> rtc (step resume_user_frame) k k' -> held k k'.
Proof.
  intros Hs Hsteps. induction Hsteps as [|k1 k2 k3 Hstep _ IH]; [done|]. etrans; [by eapply step_held|].
  apply IH. by eapply step_sound.
Qed.

(** Sending SIGKILL, and taking it. *)
Lemma kill_sent k q x t : sound k -> process_ok k q -> tasks k !! x = Some t -> reachable_target t = true ->
  exists k1, task_signal_send (id t) SIGNAL_KILL k = Ok (0, k1) /\ sound k1 /\
    (exists t1, tasks k1 !! x = Some t1 /\ id t1 = id t /\ pends (pending_signals t1) SIGNAL_KILL = true) /\ next_pid k1 = next_pid k.
Proof.
  intros Hs Hq Hx Ht. pose proof (signal_target_spec k q x t SIGNAL_KILL Hq Hx (pid_found k q x t Hq Hx)) as E. rewrite Ht in E. cbn [negb] in E.
  eexists. split; [exact E|]. split_and!; [| |done].
  - eapply calm_sound; [exact Hs|]. apply (calm_insert k x t); [done|apply calm_task_signalled].
  - exists (signalled SIGNAL_KILL t). split; [apply lookup_insert_eq|]. split; [apply (st_id _ _ (same_task_signalled _ _))|].
    unfold signalled. assert (discards t SIGNAL_KILL = false) as ->
      by (unfold discards; change (Z.to_nat SIGNAL_KILL) with 9%nat; by rewrite (sd_kill _ Hs x t Hx)).
    unfold wake, pends. case_decide; cbn [pending_signals set_pending set_signals set_state]; rewrite Z.lor_spec;
      change (Z.testbit (signal_bit SIGNAL_KILL) SIGNAL_KILL) with true; apply orb_true_r.
Qed.

Lemma kill_delivered k q t r cpu f : sound k -> process_ok k q -> tasks k !! current_task k = Some t -> condemned t ->
  deliverable t r = true -> (forall j, 1 <= j < SIGNAL_KILL -> pends (pending_signals t) j = false) ->
  notify_close (descriptors t) (kfs k) = Ok f ->
  exists k' z, task_signal_deliver r cpu k = Ok (Exited k') /\ tasks k' !! current_task k = Some z /\
    state z = TASK_ZOMBIE /\ exit_status z = 137.
Proof.
  intros Hs Hq Hx Hcon Hd Hlow Hf. destruct (sd_running _ Hs) as (t' & Ht' & Hst). assert (t' = t) as -> by congruence.
  assert (lowest_pending t = SIGNAL_KILL) as El.
  { apply next_signal_lowest. split; [unfold SIGNAL_KILL; lia|]. split; [|done]. destruct Hcon; [congruence|done]. }
  assert (is_user_process t <> 0) as Hu by (unfold deliverable in Hd; destruct (Z.eqb_spec (is_user_process t) 0); done).
  destruct (fatal_spec k q t cpu f Hq Hx Hu Hf) as (k' & z & Hrun & _ & Hz & Hzs & Hze & _). exists k', z.
  rewrite (deliver_taken k q t r cpu Hq Hx Hd) by (rewrite El; done). cbv zeta in Hrun |- *. rewrite El in Hrun, Hze |- *.
  assert (reaction_to t SIGNAL_KILL = Fatal) as -> by (unfold reaction_to; change (Z.to_nat SIGNAL_KILL) with 9%nat; by rewrite (sd_kill _ Hs _ t Hx)).
  by split_and!.
Qed.

(** C18: SIGKILL cannot be caught or ignored, and once sent it is not lost.
    In a sound state no process can change its action.  Sending it to any
    living user process succeeds, and then, whatever steps the kernel
    takes, as long as a process with that pid lives the signal is pending
    for it; and as soon as the process returns to user mode outside of a
    handler with SIGKILL as its lowest pending signal, it exits with status
    137 instead.  It can be deferred: lower signals go first, and while the
    process is in a handler ([signal_active]) nothing is delivered, SIGKILL
    included, so that a process which never leaves its handler is never
    killed (recorded as a finding). *)
Theorem kill_uncatchable k x t : sound k -> tasks k !! x = Some t -> reachable_target t = true ->
  (forall h trampoline, task_signal_set_handler SIGNAL_KILL h trampoline k = Ok (-1, k)) /\
  exists k1, task_signal_send (id t) SIGNAL_KILL k = Ok (0, k1) /\ sound k1 /\
    forall k2 y u, rtc (step resume_user_frame) k1 k2 -> tasks k2 !! y = Some u -> id u = id t ->
      (state u = TASK_ZOMBIE \/ pends (pending_signals u) SIGNAL_KILL = true) /\
      (forall r cpu, y = current_task k2 -> signal_active u <> 0 -> task_signal_deliver r cpu k2 = Ok (Resumes r k2)) /\
      (forall r cpu f, y = current_task k2 -> deliverable u r = true -> (forall j, 1 <= j < SIGNAL_KILL -> pends (pending_signals u) j = false) ->
         notify_close (descriptors u) (kfs k2) = Ok f ->
         exists k3 z, task_signal_deliver r cpu k2 = Ok (Exited k3) /\ tasks k3 !! y = Some z /\
           state z = TASK_ZOMBIE /\ exit_status z = 137).
Proof.
  intros Hs Hx Ht. pose proof Hs as [[q Hq] (c & Hc & _) Hkd]. split.
  { intros h tr. unfold task_signal_set_handler. destruct (current_task k =? 0); [done|]. rewrite (get_task_ok _ _ _ Hc). rsimpl.
    by rewrite orb_true_r. }
  destruct (kill_sent k q x t Hs Hq Hx Ht) as (k1 & Hrun & Hs1 & Hx1 & Hn1). exists k1. split; [done|]. split; [done|].
  intros k2 y u Hsteps Hy Hid. pose proof (steps_sound resume_user_frame _ _ Hs1 Hsteps) as Hs2.
  assert (condemned u) as Hcon.
  { destruct (steps_held _ _ Hs1 Hsteps) as [_ Hh]. destruct (Hh y u Hy) as [(u1 & Hu1 & E & Hcu)|Hge].
    - apply Hcu. destruct (sd_ok _ Hs1) as [q1 Hq1]. right. destruct Hx1 as (t1 & Hx1 & Eid & Hp).
      assert (y = x) as -> by (eapply (po_pids _ _ Hq1); [exact Hu1|exact Hx1|congruence]). by assert (u1 = t1) as -> by congruence.
    - pose proof (to_pid _ _ _ (po_tasks _ _ Hq _ _ Hx)). lia. }
  destruct (sd_ok _ Hs2) as [q2 Hq2]. split_and!.
  - exact Hcon.
  - intros r cpu -> Ha. apply (deliver_nothing k2 q2 u r cpu Hq2 Hy). left. unfold deliverable. rewrite (proj2 (Z.eqb_neq (signal_active u) 0)) by done.
    by rewrite andb_false_r.
  - intros r cpu f -> Hd Hlow Hf. by apply (kill_delivered k2 q2 u r cpu f).
Qed.
End reachable.

(** ** Booting the small kernel *)
Definition booting : kernel page_bytes (gset Z) (initrd (gset Z)) :=
  mk_kernel ∅ 0 0 1 0 (demo_memory 0x3000) demo_fs ∅.

Lemma booting_ready : paging_ready booting.
Proof. split; [apply demo_vm_ok; auto|apply demo_region_free|done|done|done]. Qed.

Definition boot : res (Z * kernel page_bytes (gset Z) (initrd (gset Z))) :=
  k ← initialise_tasking booting; create_initial_user_process 0x100400 k.
Lemma boot_runs : is_ok boot = true.
Proof. vm_compute. reflexivity. Qed.

Lemma process_invariant_witness : exists k1 pid k2, initialise_tasking booting = Ok k1 /\
  create_initial_user_process 0x100400 k1 = Ok (pid, k2) /\ sound k2.
Proof.
  destruct (is_ok_true _ boot_runs) as [[pid k2] Hrun]. unfold boot in Hrun.
  apply bind_Ok_inv in Hrun as (k1 & H1 & H2). exists k1, pid, k2. split; [exact H1|]. split; [exact H2|].
  apply (process_invariant 0x100800 booting k1 k2 booting_ready H1).
  assert (next_pid k1 = 1) as Hpid.
  { pose proof (bind_Ok_inv _ _ _ H1) as ([a ka] & Ha & Hr). apply bind_Ok_inv in Ha as ([a2 ks] & _ & Ha). injection Ha as _ <-.
    apply bind_Ok_inv in Hr as ([s kb] & Hb & Hr). apply bind_Ok_inv in Hb as ([s2 ks2] & _ & Hb). injection Hb as _ <-.
    injection Hr as <-. reflexivity. }
  apply rtc_once. apply (step_spawn 0x100800 k1 k2 0x100400 pid); [discriminate|rewrite Hpid; lia|exact H2].
Defined.

Lemma demo_sound : sound (demo_kernel demo_shell TASK_RUNNABLE demo_fs).
Proof.
  split; [exists demo_queue; exact demo_base_ok|exists demo_shell; done|].
  intros x t Hx%demo_tasks. by destruct Hx as [[_ ->]|[[_ ->]|[_ ->]]].
Qed.

(** The shell kills its child; the timer lets the child run, and on the way
    to user mode it is gone. *)
Definition user_frame : registers := mk_registers 0x23 0 0 0 0 0 0 0 0 32 0 0x400000 0x1B 0x202 0xBFFFFF00 0x23.
Definition killed_child : task := signalled SIGNAL_KILL (demo_child TASK_RUNNABLE).
Lemma kill_checked : ('(_, k1) ← task_signal_send 2 SIGNAL_KILL (demo_kernel demo_shell TASK_RUNNABLE demo_fs);
  k2 ← switch_task 1 2 3 k1; t ← get_task (current_task k2) k2; Ok (current_task k2 =? 0x28000, t)) = Ok (true, killed_child).
Proof. vm_compute. reflexivity. Qed.

Lemma kill_run_parts k1 : task_signal_send 2 SIGNAL_KILL (demo_kernel demo_shell TASK_RUNNABLE demo_fs) = Ok (0, k1) ->
  exists k2, switch_task 1 2 3 k1 = Ok k2 /\ current_task k2 = 0x28000 /\ tasks k2 !! 0x28000 = Some killed_child.
Proof.
  intros Hrun. pose proof (bind_Ok_inv _ _ _ kill_checked) as ([r k1'] & Hrun' & Hc).
  apply bind_Ok_inv in Hc as (k2 & Hs & Hc). apply bind_Ok_inv in Hc as (t & Ht & Hc). apply get_task_inv in Ht.
  injection Hc as Hcur ->. apply Z.eqb_eq in Hcur. rewrite Hcur in Ht. exists k2. split; [|by split].
  rewrite Hrun in Hrun'. injection Hrun' as _ <-. exact Hs.
Qed.

Lemma killed_child_next j : 1 <= j < SIGNAL_KILL -> pends (pending_signals killed_child) j = false.
Proof.
  unfold SIGNAL_KILL. intros Hj. assert (j = 1 \/ j = 2 \/ j = 3 \/ j = 4 \/ j = 5 \/ j = 6 \/ j = 7 \/ j = 8) as Hor by lia.
  repeat (destruct Hor as [->|Hor]; [reflexivity|]). by rewrite Hor.
Qed.

Lemma killed_child_facts (f : initrd (gset Z)) : deliverable killed_child user_frame = true /\ id killed_child = id (demo_child TASK_RUNNABLE) /\
  notify_close (descriptors killed_child) f = Ok f.
Proof. split_and!; reflexivity. Qed.

Lemma kill_uncatchable_witness : exists k1 k2 k3 z, task_signal_send 2 SIGNAL_KILL (demo_kernel demo_shell TASK_RUNNABLE demo_fs) = Ok (0, k1) /\
  switch_task 1 2 3 k1 = Ok k2 /\ current_task k2 = 0x28000 /\ task_signal_deliver user_frame (4, 5, 6) k2 = Ok (Exited k3) /\
  tasks k3 !! 0x28000 = Some z /\ state z = TASK_ZOMBIE /\ exit_status z = 137.
Proof.
  destruct (kill_uncatchable 0x100800 (demo_kernel demo_shell TASK_RUNNABLE demo_fs) 0x28000 (demo_child TASK_RUNNABLE) demo_sound
    eq_refl eq_refl) as (_ & k1 & Hrun & _ & Hlater).
  destruct (kill_run_parts k1 Hrun) as (k2 & Hs & Hcur & Ht). destruct (killed_child_facts (kfs k2)) as (F1 & F2 & F3).
  destruct (Hlater k2 0x28000 killed_child (rtc_once _ _ (step_timer 0x100800 _ _ 1 2 3 Hs)) Ht F2) as (_ & _ & Hdie).
  destruct (Hdie user_frame (4, 5, 6) (kfs k2) (eq_sym Hcur) F1 killed_child_next F3) as (k3 & z & Hd & Hz & Hzs & Hze).
  exists k1, k2, k3, z. split; [exact Hrun|]. repeat (split; [assumption|]). assumption.
Defined.
