(* ===== verification/Syscall.v ===== *)
(** * syscall.c: the services behind interrupt 0x80

    [machine] adds the console, the keyboard and the clock to the kernel
    state.  Each service has the fixed signature of [services]: five
    registers in, an [int] out, and the state threaded through.  User
    pointers are used as they come, through the page tables of the caller;
    a string is read to its end before it is used.  [service_fd_read] may
    put the caller to sleep, so its result is an [outcome]. *)

From S2P Require Import Prelude Memory Kmalloc Frames Paging Vfs Initrd Task UserSpace UserFile Keyboard Monitor Signal Process.

Definition SYSCALL_COUNT : Z := 30.
Definition SYSCALL_EXECVE : Z := 19.
Definition SYSCALL_FORK : Z := 20.
Definition SYSCALL_EXIT : Z := 21.
Definition SYSCALL_SIGRETURN : Z := 25.
Definition OPEN_READ_ONLY : Z := 0.
Definition FILE_STATUS_REGULAR : Z := 1.
Definition FILE_STATUS_DIRECTORY : Z := 2.
Definition FILE_STATUS_CHARACTER : Z := 3.
Definition sizeof_syscall_file_status_t : nat := 16.

Definition ERRNO_ENOENT : Z := 2.
Definition ERRNO_ESRCH : Z := 3.
Definition ERRNO_EINTR : Z := 4.
Definition ERRNO_EIO : Z := 5.
Definition ERRNO_ENOEXEC : Z := 8.
Definition ERRNO_EBADF : Z := 9.
Definition ERRNO_ECHILD : Z := 10.
Definition ERRNO_ENOMEM : Z := 12.
Definition ERRNO_EFAULT : Z := 14.
Definition ERRNO_EISDIR : Z := 21.
Definition ERRNO_EINVAL : Z := 22.
Definition ERRNO_EMFILE : Z := 24.
Definition ERRNO_ESPIPE : Z := 29.
Definition ERRNO_EROFS : Z := 30.
Definition ERRNO_ENOSYS : Z := 38.
Definition SYSCALL_ERROR (number : Z) : Z := - number.

(** The allocator that a driver's own calls to [kmalloc] use is the
    kernel's: it is handed over and taken back. *)
Class HasAllocator (S K : Type) : Type := {
  fs_allocator : S -> K;
  set_fs_allocator : K -> S -> S
}.
#[export] Instance initrd_allocator {K} : HasAllocator (initrd K) K := {|
  fs_allocator := ialloc;
  set_fs_allocator ks s := mk_initrd (imem s) (tree s) (file_headers s) (initrd_location s) (initrd_end s) (initrd_root s)
    (initrd_dev s) (shared_dirent s) ks
|}.

Record machine (K S : Type) : Type := mk_machine {
  proc : kernel page_bytes K S;
  screen : monitor;
  input : keyboard;
  tick : Z
}.
Arguments mk_machine {K S}. Arguments proc {K S}. Arguments screen {K S}. Arguments input {K S}. Arguments tick {K S}.

(** What [fill_file_status] is given: a node or a character device. *)
Definition node_descriptor (nd : Z) : file_descriptor := mk_descriptor FD_KIND_NODE nd 0 0.
Definition is_character (d : file_descriptor) : bool :=
  bool_decide (kind d = FD_KIND_KEYBOARD) || bool_decide (kind d = FD_KIND_CONSOLE).

Section services.
Context {K S Cb : Type} `{!Kmalloc K} `{!HasMemory S} `{!FsDriver S Cb} `{!FileSource S Cb} `{!HasAllocator S K}.
Variable fs_root : Z.
Implicit Types k : kernel page_bytes K S.
Implicit Types m : machine K S.

Definition with_proc m k : machine K S := mk_machine k (screen m) (input m) (tick m).
Definition with_screen m (s : monitor) : machine K S := mk_machine (proc m) s (input m) (tick m).
Definition with_input m (b : keyboard) : machine K S := mk_machine (proc m) (screen m) b (tick m).

(** A pair of result and kernel, back in the machine. *)
Definition lift m (r : res (Z * kernel page_bytes K S)) : res (Z * machine K S) :=
  '(v, k) ← r; Ok (v, with_proc m k).

(** [path_address] as a nullable string. *)
Definition user_path (path_address : Z) k : res (option (list Z)) :=
  if path_address =? 0 then Ok None else l ← vstring path_address k; Ok (Some l).

(** [resolve_path_fs(fs_root, task_get_working_directory(), path)]. *)
Definition resolve_user_path (path_address : Z) k : res Z :=
  wd ← task_get_working_directory k;
  p ← user_path path_address k;
  resolve_path_fs fs_root wd p (kfs k).

(** ** Console *)

Definition service_write (a b c d e : Z) m : res (Z * machine K S) :=
  if a =? 0 then Ok (-1, m)
  else
    text ← vstring a (proc m);
    s ← monitor_write console_put text (Ok (screen m));
    Ok (0, with_screen m s).

Definition service_putchar (a b c d e : Z) m : res (Z * machine K S) :=
  s ← monitor_put a (screen m); Ok (0, with_screen m s).

Definition service_clear (a b c d e : Z) m : res (Z * machine K S) :=
  s ← monitor_clear (screen m); Ok (0, with_screen m s).

Definition service_getchar (a b c d e : Z) m : res (Z * machine K S) :=
  let '(character, buffer) := keyboard_getchar (input m) in Ok (character, with_input m buffer).

Definition service_hex (a b c d e : Z) m : res (Z * machine K S) :=
  s ← monitor_write_hex console_put a (Ok (screen m));
  s ← s;
  Ok (0, with_screen m s).

Definition service_dec (a b c d e : Z) m : res (Z * machine K S) :=
  s ← monitor_write_dec console_put a (Ok (screen m));
  s ← s;
  Ok (0, with_screen m s).

(** ** Clock, memory and identity *)

Definition service_getpid (a b c d e : Z) m : res (Z * machine K S) := p ← getpid (proc m); Ok (p, m).
Definition service_ticks (a b c d e : Z) m : res (Z * machine K S) := Ok (s32 (tick m), m).
Definition service_memory (a b c d e : Z) m : res (Z * machine K S) :=
  Ok (s32 (paging_total_memory_kib (bits (kmm (proc m)))), m).

(** ** Directories *)

(** The loop of [service_readdir] from index [i], and the terminator. *)
Fixpoint copy_name (destination capacity i : Z) (nm : list Z) k : res (kernel page_bytes K S) :=
  match nm with
  | c :: nm =>
      if (i + 1 <? capacity) && negb (c =? 0) then
        k ← vstore8 (u32 (destination + i)) c k; copy_name destination capacity (i + 1) nm k
      else vstore8 (u32 (destination + i)) 0 k
  | [] => vstore8 (u32 (destination + i)) 0 k
  end.

Definition service_readdir (index name_address capacity d e : Z) m : res (Z * machine K S) :=
  let k := proc m in
  directory ← task_get_working_directory k;
  if (directory =? 0) || (name_address =? 0) || (capacity =? 0) then Ok (-1, m)
  else
    '(entry, f) ← readdir_fs directory index (kfs k);
    let k := with_fs k f in
    match entry with
    | None => Ok (0, with_proc m k)
    | Some (nm, _) => k ← copy_name name_address capacity 0 nm k; Ok (1, with_proc m k)
    end.

Definition service_chdir (path_address b c d e : Z) m : res (Z * machine K S) :=
  let k := proc m in
  if (path_address =? 0) || (fs_root =? 0) then Ok (-1, m)
  else
    directory ← resolve_user_path path_address k;
    if directory =? 0 then Ok (-1, m)
    else
      n ← deref directory (kfs k);
      if negb (is_directory n) then Ok (-1, m)
      else k ← task_set_working_directory directory k; Ok (0, with_proc m k).

Definition service_getcwd (buffer_address capacity c d e : Z) m : res (Z * machine K S) :=
  let k := proc m in
  if buffer_address =? 0 then Ok (-1, m)
  else
    wd ← task_get_working_directory k;
    '(result, text) ← get_path_fs fs_root wd buffer_address capacity (kfs k);
    k ← vstore_bytes buffer_address text k;
    Ok (result, with_proc m k).

Definition service_mkdir (path_address b c d e : Z) m : res (Z * machine K S) :=
  let k := proc m in
  if (path_address =? 0) || (fs_root =? 0) then Ok (-1, m)
  else
    wd ← task_get_working_directory k;
    p ← user_path path_address k;
    '(result, f) ← mkdir_path_fs fs_root wd p (set_fs_allocator (kstate (kmm k)) (kfs k));
    let k := with_fs (with_mm k (Paging.with_kstate (kmm k) (fs_allocator f))) f in
    Ok (result, with_proc m k).

(** ** Files *)

Definition service_readfile (name_address buffer_address capacity d e : Z) m : res (Z * machine K S) :=
  let k := proc m in
  if (fs_root =? 0) || (name_address =? 0) || (buffer_address =? 0) || (capacity =? 0) then Ok (-1, m)
  else
    node ← resolve_user_path name_address k;
    if node =? 0 then Ok (-1, m)
    else
      n ← deref node (kfs k);
      if negb (Z.land (flags n) 0x7 =? FS_FILE) then Ok (-1, m)
      else
        let amount := if length n <? capacity then length n else capacity in
        '(count, k) ← vread_fs node 0 amount buffer_address k;
        Ok (s32 count, with_proc m k).

Definition service_open (path_address flags_ c d e : Z) m : res (Z * machine K S) :=
  let k := proc m in
  if (path_address =? 0) || (fs_root =? 0) || negb (flags_ =? OPEN_READ_ONLY) then Ok (SYSCALL_ERROR ERRNO_EINVAL, m)
  else
    node ← resolve_user_path path_address k;
    if node =? 0 then Ok (SYSCALL_ERROR ERRNO_ENOENT, m)
    else
      n ← deref node (kfs k);
      if negb (Z.land (flags n) 0x7 =? FS_FILE) || negb (bool_decide (is_Some (read n))) then
        Ok (if is_directory n then SYSCALL_ERROR ERRNO_EISDIR else SYSCALL_ERROR ERRNO_ENOENT, m)
      else
        '(descriptor, k) ← task_open_descriptor node flags_ k;
        Ok (if descriptor <? 0 then SYSCALL_ERROR ERRNO_EMFILE else descriptor, with_proc m k).

Definition service_close (fd b c d e : Z) m : res (Z * machine K S) :=
  '(result, k) ← task_close_descriptor (s32 fd) (proc m);
  Ok (if result <? 0 then SYSCALL_ERROR ERRNO_EBADF else 0, with_proc m k).

(** [descriptor->offset += bytes]. *)
Definition advance (d : file_descriptor) (count : Z) : file_descriptor :=
  mk_descriptor (kind d) (node d) (u32 (offset d + count)) (fd_flags d).

(** Console output of [count] bytes from [a]. *)
Fixpoint put_bytes (a : Z) (count : nat) k (s : monitor) : res monitor :=
  match count with
  | O => Ok s
  | Datatypes.S count => c ← vload8 a k; s ← monitor_put c s; put_bytes (u32 (a + 1)) count k s
  end.

Definition service_fd_write (fd buffer_address count d e : Z) m : res (Z * machine K S) :=
  let k := proc m in
  if count =? 0 then Ok (0, m)
  else if buffer_address =? 0 then Ok (SYSCALL_ERROR ERRNO_EFAULT, m)
  else
    descriptor ← task_get_descriptor (s32 fd) k;
    match descriptor with
    | None => Ok (SYSCALL_ERROR ERRNO_EBADF, m)
    | Some desc =>
        match kind desc with
        | FD_KIND_CONSOLE =>
            s ← put_bytes buffer_address (Z.to_nat count) k (screen m); Ok (s32 count, with_screen m s)
        | FD_KIND_NODE =>
            writable ← (if node desc =? 0 then Ok false
                        else n ← deref (node desc) (kfs k); Ok (bool_decide (is_Some (write n))));
            if negb writable || (fd_flags desc =? OPEN_READ_ONLY) then Ok (SYSCALL_ERROR ERRNO_EROFS, m)
            else
              '(bytes, f) ← write_fs (node desc) (offset desc) count buffer_address (kfs k);
              let k := set_descriptor (s32 fd) (advance desc bytes) (with_fs k f) in
              Ok (s32 bytes, with_proc m k)
        | _ => Ok (SYSCALL_ERROR ERRNO_EBADF, m)
        end
    end.

Definition service_lseek (fd offset_ origin d e : Z) m : res (Z * machine K S) :=
  descriptor ← task_get_descriptor (s32 fd) (proc m);
  match descriptor with
  | None => Ok (SYSCALL_ERROR ERRNO_EBADF, m)
  | Some desc =>
      if negb (bool_decide (kind desc = FD_KIND_NODE)) then Ok (SYSCALL_ERROR ERRNO_ESPIPE, m)
      else
        '(result, k) ← task_seek_descriptor (s32 fd) (s32 offset_) (s32 origin) (proc m);
        Ok (if result <? 0 then SYSCALL_ERROR ERRNO_EINVAL else result, with_proc m k)
  end.

(** ** Status *)

(** [memset] of the structure, then its fields one by one. *)
Definition fill_file_status (desc : file_descriptor) (status : Z) k : res (Z * kernel page_bytes K S) :=
  if status =? 0 then Ok (SYSCALL_ERROR ERRNO_EFAULT, k)
  else
    k ← vfill status 0 sizeof_syscall_file_status_t k;
    if is_character desc then
      k ← vstore32 status FILE_STATUS_CHARACTER k;
      k ← vstore32 (u32 (status + 12)) 438 k;
      Ok (0, k)
    else if negb (bool_decide (kind desc = FD_KIND_NODE)) || (node desc =? 0) then Ok (SYSCALL_ERROR ERRNO_EBADF, k)
    else
      n ← deref (node desc) (kfs k);
      let node_type := Z.land (flags n) 0x7 in
      let type := if node_type =? FS_DIRECTORY then FILE_STATUS_DIRECTORY
                  else if node_type =? FS_FILE then FILE_STATUS_REGULAR else 0 in
      k ← vstore32 status type k;
      k ← vstore32 (u32 (status + 4)) (length n) k;
      k ← vstore32 (u32 (status + 8)) (inode n) k;
      k ← vstore32 (u32 (status + 12)) (if negb (mask n =? 0) then mask n
                                        else if type =? FILE_STATUS_DIRECTORY then 365 else 292) k;
      Ok (if type =? 0 then SYSCALL_ERROR ERRNO_EIO else 0, k).

Definition service_fstat (fd status_address c d e : Z) m : res (Z * machine K S) :=
  if status_address =? 0 then Ok (SYSCALL_ERROR ERRNO_EFAULT, m)
  else
    descriptor ← task_get_descriptor (s32 fd) (proc m);
    match descriptor with
    | None => Ok (SYSCALL_ERROR ERRNO_EBADF, m)
    | Some desc => lift m (fill_file_status desc status_address (proc m))
    end.

Definition service_stat (path_address status_address c d e : Z) m : res (Z * machine K S) :=
  if (path_address =? 0) || (status_address =? 0) then Ok (SYSCALL_ERROR ERRNO_EFAULT, m)
  else
    node ← resolve_user_path path_address (proc m);
    if node =? 0 then Ok (SYSCALL_ERROR ERRNO_ENOENT, m)
    else lift m (fill_file_status (node_descriptor node) status_address (proc m)).

Definition service_isatty (fd b c d e : Z) m : res (Z * machine K S) :=
  descriptor ← task_get_descriptor (s32 fd) (proc m);
  match descriptor with
  | None => Ok (SYSCALL_ERROR ERRNO_EBADF, m)
  | Some desc => Ok (if is_character desc then 1 else 0, m)
  end.

(** ** Processes and signals *)

Definition service_sbrk (increment b c d e : Z) m : res (Z * machine K S) :=
  '(result, k) ← task_sbrk (s32 increment) (proc m); Ok (s32 result, with_proc m k).

Definition service_waitpid (pid status_address c d e : Z) m : res (Z * machine K S) :=
  '(result, k) ← task_waitpid (s32 pid) status_address (proc m);
  Ok (if result <? 0 then SYSCALL_ERROR ERRNO_ECHILD else result, with_proc m k).

Definition service_signal (signal_number handler trampoline d e : Z) m : res (Z * machine K S) :=
  '(result, k) ← task_signal_set_handler (s32 signal_number) handler trampoline (proc m);
  Ok (if result <? 0 then SYSCALL_ERROR ERRNO_EINVAL else result, with_proc m k).

Definition service_kill (process_id signal_number c d e : Z) m : res (Z * machine K S) :=
  '(result, k) ← task_signal_send (s32 process_id) (s32 signal_number) (proc m);
  Ok (if result <? 0 then SYSCALL_ERROR ERRNO_ESRCH else 0, with_proc m k).

(** ** Reading a descriptor *)

(** The call returned, or its process sleeps in [task_wait_for_keyboard]
    and another one runs. *)
Inductive outcome : Type :=
  | Returned (result : Z) (m : machine K S)
  | Asleep (m : machine K S).

(** The bytes that are there already: [amount] are in the buffer. *)
Fixpoint drain_keyboard (room : nat) (amount buffer_address : Z) m : res (Z * machine K S) :=
  match room with
  | O => Ok (amount, m)
  | Datatypes.S room =>
      let '(character, b) := keyboard_getchar (input m) in
      let m := with_input m b in
      if character <? 0 then Ok (amount, m)
      else
        k ← vstore8 (u32 (buffer_address + amount)) character (proc m);
        drain_keyboard room (amount + 1) buffer_address (with_proc m k)
  end.

(** From the test of the loop: read what is queued, or go to sleep. *)
Definition read_keyboard (buffer_address count : Z) (cpu : Z * Z * Z) m : res outcome :=
  let '(character, b) := keyboard_getchar (input m) in
  let m := with_input m b in
  if character <? 0 then
    let '(eip, esp, ebp) := cpu in
    k ← task_wait_for_keyboard eip esp ebp (proc m);
    Ok (Asleep (with_proc m k))
  else
    k ← vstore8 buffer_address (u8 character) (proc m);
    '(amount, m) ← drain_keyboard (Z.to_nat (count - 1)) 1 buffer_address (with_proc m k);
    Ok (Returned (s32 amount) m).

(** What a sleeping call does when its process runs again. *)
Definition resume_read (buffer_address count : Z) (cpu : Z * Z * Z) m : res outcome :=
  pending ← task_has_pending_signal (proc m);
  if pending : bool then Ok (Returned (SYSCALL_ERROR ERRNO_EINTR) m)
  else read_keyboard buffer_address count cpu m.

Definition service_fd_read (fd buffer_address count : Z) (cpu : Z * Z * Z) m : res outcome :=
  if (buffer_address =? 0) || (count =? 0) then
    Ok (Returned (if count =? 0 then 0 else SYSCALL_ERROR ERRNO_EFAULT) m)
  else
    descriptor ← task_get_descriptor (s32 fd) (proc m);
    match descriptor with
    | None => Ok (Returned (SYSCALL_ERROR ERRNO_EBADF) m)
    | Some desc =>
        match kind desc with
        | FD_KIND_KEYBOARD => read_keyboard buffer_address count cpu m
        | FD_KIND_NODE =>
            if node desc =? 0 then Ok (Returned (SYSCALL_ERROR ERRNO_EBADF) m)
            else
              '(bytes, k) ← vread_fs (node desc) (offset desc) count buffer_address (proc m);
              let k := set_descriptor (s32 fd) (advance desc bytes) k in
              Ok (Returned (s32 bytes) (with_proc m k))
        | _ => Ok (Returned (SYSCALL_ERROR ERRNO_EBADF) m)
        end
    end.
End services.
