(* ===== verification/Interrupt.v ===== *)
(** * Interrupts: the syscall dispatcher and the hardware handlers

    [syscall_handler] of syscall.c, [timer_callback] of timer.c, the IRQ1
    handler of keyboard.c, and the table of isr.c that leads to them.  A
    handler gets the frame the interrupt saved and ends in an [event]: the
    interrupted process resumes with a frame, it is gone, or it sleeps in
    the middle of a read.  [cpu] is the instruction and stack pointers a
    context switch inside the handler saves. *)

From S2P Require Import Prelude Kmalloc Frames Paging Vfs Task UserSpace UserFile Keyboard Monitor Signal Process Exec Syscall.

Definition IRQ0 : Z := 32.
Definition IRQ1 : Z := 33.

Section interrupts.
Context {K S Cb : Type} `{!Kmalloc K} `{!HasMemory S} `{!FsDriver S Cb} `{!FileSource S Cb} `{!HasAllocator S K}.
Variable fs_root resume_user_frame : Z.
Implicit Types k : kernel page_bytes K S.
Implicit Types m : machine K S.

Inductive event : Type :=
  | Resumed (frame : registers) (m : machine K S)
  | Departed (m : machine K S)
  | Slept (m : machine K S).

(** [task_signal_deliver(regs)], the last thing a handler does. *)
Definition deliver (frame : registers) (cpu : Z * Z * Z) m : res event :=
  r ← task_signal_deliver frame cpu (proc m);
  Ok (match r with
      | Resumes frame k => Resumed frame (with_proc m k)
      | Exited k => Departed (with_proc m k)
      end).

Definition service : Type := Z -> Z -> Z -> Z -> Z -> machine K S -> res (Z * machine K S).

(** The table of services; [fd_read] is its twelfth entry and is called
    apart because it can sleep. *)
Definition services (number : Z) : option service :=
  match number with
  | 0 => Some service_write | 1 => Some service_putchar | 2 => Some service_clear | 3 => Some service_getchar
  | 4 => Some service_readdir | 5 => Some (service_readfile fs_root) | 6 => Some service_getpid | 7 => Some service_ticks
  | 8 => Some service_memory | 9 => Some service_hex | 10 => Some service_dec
  | 11 => Some (service_open fs_root) | 13 => Some service_close | 14 => Some service_fd_write
  | 15 => Some (service_chdir fs_root) | 16 => Some (service_getcwd fs_root) | 17 => Some (service_mkdir fs_root)
  | 18 => Some service_sbrk
  | 22 => Some service_waitpid | 23 => Some service_signal | 24 => Some service_kill
  | 26 => Some service_lseek | 27 => Some service_fstat | 28 => Some (service_stat fs_root) | 29 => Some service_isatty
  | _ => None
  end.
Definition SYSCALL_FD_READ : Z := 12.

(** The result of a service goes to EAX. *)
Definition finish_read (frame : registers) (cpu : Z * Z * Z) (o : outcome) : res event :=
  match o with
  | Returned result m => deliver (set_eax (u32 result) frame) cpu m
  | Asleep m => Ok (Slept m)
  end.

Definition syscall_handler (regs : registers) (cpu : Z * Z * Z) m : res event :=
  if SYSCALL_COUNT <=? r_eax regs then deliver (set_eax (u32 (SYSCALL_ERROR ERRNO_ENOSYS)) regs) cpu m
  else if r_eax regs =? SYSCALL_EXECVE then
    '(result, regs, k) ← process_execve fs_root (r_ebx regs) (r_ecx regs) (r_edx regs) regs (proc m);
    deliver (if result <? 0 then set_eax (u32 (SYSCALL_ERROR ERRNO_ENOEXEC)) regs else regs) cpu (with_proc m k)
  else if r_eax regs =? SYSCALL_FORK then
    '(child, k) ← task_fork_from_frame resume_user_frame regs (proc m);
    deliver (set_eax (if child <? 0 then u32 (SYSCALL_ERROR ERRNO_ENOMEM) else u32 child) regs) cpu (with_proc m k)
  else if r_eax regs =? SYSCALL_EXIT then
    k ← task_exit (s32 (r_ebx regs)) cpu (proc m); Ok (Departed (with_proc m k))
  else if r_eax regs =? SYSCALL_SIGRETURN then
    '(result, regs, k) ← task_signal_return (r_ebx regs) regs (proc m);
    deliver (if result <? 0 then set_eax (u32 (-1)) regs else regs) cpu (with_proc m k)
  else if r_eax regs =? SYSCALL_FD_READ then
    o ← service_fd_read (r_ebx regs) (r_ecx regs) (r_edx regs) cpu m;
    finish_read regs cpu o
  else
    match services (r_eax regs) with
    | None => Panic ASSERTION_FAILED
    | Some service =>
        '(result, m) ← service (r_ebx regs) (r_ecx regs) (r_edx regs) (r_esi regs) (r_edi regs) m;
        deliver (set_eax (u32 result) regs) cpu m
    end.

(** The rest of a [fd_read] whose process was woken and scheduled. *)
Definition resume_syscall (regs : registers) (cpu : Z * Z * Z) m : res event :=
  o ← resume_read (r_ecx regs) (r_edx regs) cpu m; finish_read regs cpu o.

(** IRQ0.  A process that is switched away from keeps its frame on its own
    kernel stack and resumes with it later. *)
Definition timer_callback (regs : registers) (cpu : Z * Z * Z) m : res event :=
  let m := mk_machine (proc m) (screen m) (input m) (u32 (tick m + 1)) in
  e ← deliver regs cpu m;
  match e with
  | Resumed frame m =>
      let '(eip, esp, ebp) := cpu in
      k ← switch_task eip esp ebp (proc m);
      Ok (Resumed frame (with_proc m k))
  | e => Ok e
  end.

(** IRQ1: [keyboard_interrupt] wakes the waiters when it queued a byte. *)
Definition keyboard_callback (scancode : Z) (regs : registers) m : res event :=
  let '(b, queued) := keyboard_interrupt scancode (input m) in
  k ← (if queued : bool then task_wake_keyboard_waiters (proc m) else Ok (proc m));
  Ok (Resumed regs (with_proc (with_input m b) k)).

(** ** The handler table *)

Inductive isr : Type := Syscall | Timer | KeyboardIrq | PageFault.
#[export] Instance isr_eq_dec : EqDecision isr.
Proof. solve_decision. Defined.

Definition handler_table : Type := gmap Z isr.
Definition register_interrupt_handler (n : Z) (h : isr) (t : handler_table) : handler_table := <[u8 n := h]> t.

(** The end of syscall.c. *)
Definition SYSCALL_VECTOR : Z := 0x80.
Definition initialise_syscalls (t : handler_table) : handler_table := register_interrupt_handler SYSCALL_VECTOR Syscall t.

Definition UNHANDLED : string := "unhandled interrupt".

Definition run_handler (h : isr) (scancode : Z) (regs : registers) (cpu : Z * Z * Z) m : res event :=
  match h with
  | Syscall => syscall_handler regs cpu m
  | Timer => timer_callback regs cpu m
  | KeyboardIrq => keyboard_callback scancode regs m
  | PageFault => Panic PAGE_FAULT
  end.

(** Without a handler, [isr_handler] prints and stops. *)
Definition isr_handler (t : handler_table) (scancode : Z) (regs : registers) (cpu : Z * Z * Z) m : res event :=
  match t !! Z.land (r_int_no regs) 0xFF with
  | Some h => run_handler h scancode regs cpu m
  | None => Panic UNHANDLED
  end.

(** The ends of interrupt that [irq_handler] sends: to the slave and then
    the master controller. *)
Definition acknowledgements (int_no : Z) : list (Z * Z) :=
  (if 40 <=? int_no then [(0xA0, 0x20)] else []) ++ [(0x20, 0x20)].

Definition irq_handler (t : handler_table) (scancode : Z) (regs : registers) (cpu : Z * Z * Z) m : list (Z * Z) * res event :=
  (acknowledgements (r_int_no regs),
   match t !! r_int_no regs with
   | Some h => run_handler h scancode regs cpu m
   | None => Ok (Resumed regs m)
   end).
End interrupts.
