(* ===== verification/DescriptorTables.v ===== *)
(** * descriptor_tables.c: segments, interrupt gates and the task state segment

    The packed structures are records; [gdt_bytes] and [idt_bytes] lay them
    out in memory as descriptor_tables.h declares them, and the readings
    [segment_base], [segment_limit], [gate_offset] and the like are what
    the processor makes of those eight bytes.  The addresses of the tables
    and of the assembly stubs are parameters: the linker chooses them. *)

From S2P Require Import Prelude Interrupt.

Record gdt_entry_t : Type := mk_gdt_entry {
  limit_low : Z;
  base_low : Z;
  base_middle : Z;
  access : Z;
  granularity : Z;
  base_high : Z
}.

Record idt_entry_t : Type := mk_idt_entry {
  base_lo : Z;
  sel : Z;
  always0 : Z;
  flags : Z;
  base_hi : Z
}.

Record tss_entry_t : Type := mk_tss_entry {
  prev_tss : Z; esp0 : Z; ss0 : Z; esp1 : Z; ss1 : Z; esp2 : Z; ss2 : Z; cr3 : Z; eip : Z; eflags : Z;
  eax : Z; ecx : Z; edx : Z; ebx : Z; esp : Z; ebp : Z; esi : Z; edi : Z;
  es : Z; cs : Z; ss : Z; ds : Z; fs : Z; gs : Z;
  ldt : Z;
  trap : Z;
  iomap_base : Z
}.

(** [gdt_ptr_t] and [idt_ptr_t]: the operand of lgdt and lidt. *)
Record table_ptr : Type := mk_table_ptr { limit : Z; base : Z }.

Definition sizeof_gdt_entry_t : Z := 8.
Definition sizeof_idt_entry_t : Z := 8.
Definition sizeof_tss_entry_t : Z := 104.

(** What [memset] to zero leaves. *)
Definition null_gate : idt_entry_t := mk_idt_entry 0 0 0 0 0.
Definition null_segment : gdt_entry_t := mk_gdt_entry 0 0 0 0 0 0.
Definition zero_tss : tss_entry_t := mk_tss_entry 0 0 0 0 0 0 0 0 0 0 0 0 0 0 0 0 0 0 0 0 0 0 0 0 0 0 0.

(** The globals of the file, the registers that gdt.s loads, the table of
    isr.c, and the writes to I/O ports so far. *)
Record tables : Type := mk_tables {
  gdt_entries : list gdt_entry_t;
  idt_entries : list idt_entry_t;
  tss_entry : tss_entry_t;
  gdtr : option table_ptr;
  idtr : option table_ptr;
  tr : option Z;
  interrupt_handlers : handler_table;
  port_writes : list (Z * Z)
}.

Definition with_gdt (s : tables) (g : list gdt_entry_t) : tables :=
  mk_tables g (idt_entries s) (tss_entry s) (gdtr s) (idtr s) (tr s) (interrupt_handlers s) (port_writes s).
Definition with_idt (s : tables) (i : list idt_entry_t) : tables :=
  mk_tables (gdt_entries s) i (tss_entry s) (gdtr s) (idtr s) (tr s) (interrupt_handlers s) (port_writes s).
Definition with_tss (s : tables) (t : tss_entry_t) : tables :=
  mk_tables (gdt_entries s) (idt_entries s) t (gdtr s) (idtr s) (tr s) (interrupt_handlers s) (port_writes s).
Definition with_handlers (s : tables) (t : handler_table) : tables :=
  mk_tables (gdt_entries s) (idt_entries s) (tss_entry s) (gdtr s) (idtr s) (tr s) t (port_writes s).

(** lgdt, lidt and ltr of gdt.s; the task register gets selector 0x2B. *)
Definition gdt_flush (p : table_ptr) (s : tables) : tables :=
  mk_tables (gdt_entries s) (idt_entries s) (tss_entry s) (Some p) (idtr s) (tr s) (interrupt_handlers s) (port_writes s).
Definition idt_flush (p : table_ptr) (s : tables) : tables :=
  mk_tables (gdt_entries s) (idt_entries s) (tss_entry s) (gdtr s) (Some p) (tr s) (interrupt_handlers s) (port_writes s).
Definition tss_flush (s : tables) : tables :=
  mk_tables (gdt_entries s) (idt_entries s) (tss_entry s) (gdtr s) (idtr s) (Some 0x2B) (interrupt_handlers s) (port_writes s).

(** [outb] of common.c. *)
Definition outb (port value : Z) (s : tables) : tables :=
  mk_tables (gdt_entries s) (idt_entries s) (tss_entry s) (gdtr s) (idtr s) (tr s) (interrupt_handlers s)
    (port_writes s ++ [(u16 port, u8 value)]).
Definition outbs (ws : list (Z * Z)) (s : tables) : tables := foldl (fun s w => outb w.1 w.2 s) s ws.

(** The stores of [gdt_set_gate] into one entry. *)
Definition segment (base limit acc gran : Z) : gdt_entry_t :=
  mk_gdt_entry (u16 (Z.land limit 0xFFFF)) (u16 (Z.land base 0xFFFF))
    (u8 (Z.land (Z.shiftr base 16) 0xFF)) (u8 acc)
    (Z.lor (u8 (Z.land (Z.shiftr limit 16) 0x0F)) (Z.land (u8 gran) 0xF0))
    (u8 (Z.land (Z.shiftr base 24) 0xFF)).
Definition gdt_set_gate (num base limit acc gran : Z) (s : tables) : tables :=
  with_gdt s (<[Z.to_nat num := segment base limit acc gran]> (gdt_entries s)).

(** The stores of [idt_set_gate] into one entry. *)
Definition gate (base selector fl : Z) : idt_entry_t :=
  mk_idt_entry (u16 (Z.land base 0xFFFF)) selector 0 (Z.lor fl 0x60) (u16 (Z.land (Z.shiftr base 16) 0xFFFF)).
Definition idt_set_gate (num base selector fl : Z) (s : tables) : tables :=
  with_idt s (<[Z.to_nat (u8 num) := gate base selector fl]> (idt_entries s)).

(** The assignments of [write_tss]. *)
Definition initial_tss (kernel_ss kernel_esp : Z) : tss_entry_t :=
  let t := zero_tss in
  mk_tss_entry (prev_tss t) kernel_esp kernel_ss (esp1 t) (ss1 t) (esp2 t) (ss2 t) (cr3 t) (eip t) (eflags t)
    (eax t) (ecx t) (edx t) (ebx t) (esp t) (ebp t) (esi t) (edi t)
    0x13 0x0B 0x13 0x13 0x13 0x13 (ldt t) (trap t) sizeof_tss_entry_t.

Section descriptors.
(** Where the linker puts the tables, and the entry stub of each vector. *)
Variables gdt_address idt_address tss_address : Z.
Variable stub : Z -> Z.

Definition write_tss (num kernel_ss kernel_esp : Z) (s : tables) : tables :=
  with_tss (gdt_set_gate num tss_address (sizeof_tss_entry_t - 1) 0xE9 0x00 s) (initial_tss kernel_ss kernel_esp).

Definition init_gdt (s : tables) : tables :=
  let s := gdt_set_gate 0 0 0 0 0 s in
  let s := gdt_set_gate 1 0 0xFFFFFFFF 0x9A 0xCF s in
  let s := gdt_set_gate 2 0 0xFFFFFFFF 0x92 0xCF s in
  let s := gdt_set_gate 3 0 0xFFFFFFFF 0xFA 0xCF s in
  let s := gdt_set_gate 4 0 0xFFFFFFFF 0xF2 0xCF s in
  let s := write_tss 5 0x10 0x0 s in
  tss_flush (gdt_flush (mk_table_ptr (u16 (sizeof_gdt_entry_t * 6 - 1)) gdt_address) s).

(** The initialisation of the two 8259 controllers. *)
Definition pic_remap : list (Z * Z) :=
  [(0x20, 0x11); (0xA0, 0x11); (0x21, 0x20); (0xA1, 0x28); (0x21, 0x04); (0xA1, 0x02);
   (0x21, 0x01); (0xA1, 0x01); (0x21, 0x0); (0xA1, 0x0)].

(** The vectors that get a gate: isr0-31, irq0-15 and isr128. *)
Definition gated_vectors : list Z := seqZ 0 48 ++ [128].

Definition set_gates (vs : list Z) (s : tables) : tables :=
  foldl (fun s v => idt_set_gate v (stub v) 0x08 0x8E s) s vs.

Definition init_idt (s : tables) : tables :=
  let s := with_idt s (replicate 256 null_gate) in
  let s := outbs pic_remap s in
  let s := set_gates gated_vectors s in
  idt_flush (mk_table_ptr (u16 (sizeof_idt_entry_t * 256 - 1)) idt_address) s.

Definition init_descriptor_tables (s : tables) : tables := with_handlers (init_idt (init_gdt s)) ∅.
End descriptors.

(** ** What the processor reads *)

Definition le16 (v : Z) : list Z := [u8 v; u8 (Z.shiftr v 8)].
Definition gdt_bytes (e : gdt_entry_t) : list Z :=
  le16 (limit_low e) ++ le16 (base_low e) ++ [base_middle e; access e; granularity e; base_high e].
Definition idt_bytes (e : idt_entry_t) : list Z :=
  le16 (base_lo e) ++ le16 (sel e) ++ [always0 e; flags e] ++ le16 (base_hi e).

Section hardware.
Variable bytes : list Z.
Definition byte_at (i : nat) : Z := nth i bytes 0.

(** A segment descriptor; the limit counts pages when bit 55 is set. *)
Definition segment_base : Z :=
  byte_at 2 + byte_at 3 * 2 ^ 8 + byte_at 4 * 2 ^ 16 + byte_at 7 * 2 ^ 24.
Definition raw_limit : Z := byte_at 0 + byte_at 1 * 2 ^ 8 + (byte_at 6 mod 16) * 2 ^ 16.
Definition segment_limit : Z :=
  if Z.testbit (byte_at 6) 7 then raw_limit * 0x1000 + 0xFFF else raw_limit.
Definition segment_dpl : Z := byte_at 5 / 32 mod 4.
Definition segment_present : bool := Z.testbit (byte_at 5) 7.
Definition segment_type : Z := byte_at 5 mod 32.

(** An interrupt gate. *)
Definition gate_offset : Z := byte_at 0 + byte_at 1 * 2 ^ 8 + byte_at 6 * 2 ^ 16 + byte_at 7 * 2 ^ 24.
Definition gate_selector : Z := byte_at 2 + byte_at 3 * 2 ^ 8.
Definition gate_present : bool := Z.testbit (byte_at 5) 7.
Definition gate_dpl : Z := byte_at 5 / 32 mod 4.
Definition gate_type : Z := byte_at 5 mod 32.
End hardware.

(** The segment types of the processor manuals. *)
Definition CODE_SEGMENT : Z := 0x1A.
Definition DATA_SEGMENT : Z := 0x12.
Definition AVAILABLE_TSS : Z := 0x09.
Definition INTERRUPT_GATE : Z := 0x0E.

(** A present flat 4 GiB segment of the given type and privilege. *)
Definition flat (type dpl : Z) (e : gdt_entry_t) : Prop :=
  segment_base (gdt_bytes e) = 0 /\ segment_limit (gdt_bytes e) = 0xFFFFFFFF /\
  segment_type (gdt_bytes e) = type /\ segment_dpl (gdt_bytes e) = dpl /\ segment_present (gdt_bytes e) = true.

(** The vectors that lead somewhere once the table is loaded. *)
Definition vectored (v : Z) : Prop := 0 <= v < 48 \/ v = 128.

(** ** Packing and reading back *)

Lemma low_half x : Z.land x 0xFFFF = x mod 2 ^ 16.
Proof. change 0xFFFF with (Z.ones 16). by apply Z.land_ones. Qed.
Lemma low_byte x : Z.land x 0xFF = x mod 2 ^ 8.
Proof. change 0xFF with (Z.ones 8). by apply Z.land_ones. Qed.
Lemma low_nibble x : Z.land x 0x0F = x mod 2 ^ 4.
Proof. change 0x0F with (Z.ones 4). by apply Z.land_ones. Qed.

(** The granularity byte: the top of the limit below the flags. *)
Lemma join_nibbles a g : 0 <= a < 16 -> 0 <= g < 256 -> Z.lor a (Z.land g 0xF0) = a + g / 16 * 16.
Proof.
  intros Ha Hg.
  assert (Z.eqb (Z.lor ((g * 16 + a) mod 16) (Z.land ((g * 16 + a) / 16) 0xF0))
            ((g * 16 + a) mod 16 + (g * 16 + a) / 16 / 16 * 16) = true) as H.
  { apply (range_check 4096 (fun x => Z.eqb (Z.lor (x mod 16) (Z.land (x / 16) 0xF0)) (x mod 16 + x / 16 / 16 * 16)));
      [by vm_compute|lia]. }
  rewrite (Z.add_comm (g * 16)), Z.mod_add, Z.div_add, (Z.mod_small a), (Z.div_small a), Z.add_0_l in H by lia.
  by apply Z.eqb_eq.
Qed.

Lemma bit_7 x : 0 <= x < 256 -> Z.testbit x 7 = (128 <=? x).
Proof. intros Hx. by apply eqb_true_iff, (range_check 256 (fun x => eqb (Z.testbit x 7) (128 <=? x))). Qed.

Lemma word_bytes x : is_u32 x -> x mod 2 ^ 16 mod 2 ^ 8 + x mod 2 ^ 16 / 2 ^ 8 mod 2 ^ 8 * 2 ^ 8 + x / 2 ^ 16 mod 2 ^ 8 * 2 ^ 16 + x / 2 ^ 24 mod 2 ^ 8 * 2 ^ 24 = x.
Proof. unfold is_u32. intros Hx. Z.to_euclidean_division_equations. lia. Qed.

(** The eight bytes of a descriptor that [gdt_set_gate] wrote. *)
Lemma segment_bytes base limit acc gran : is_u32 base -> is_u32 limit -> 0 <= acc < 256 -> 0 <= gran < 256 ->
  gdt_bytes (segment base limit acc gran) =
    [limit mod 2 ^ 16 mod 2 ^ 8; limit mod 2 ^ 16 / 2 ^ 8 mod 2 ^ 8; base mod 2 ^ 16 mod 2 ^ 8; base mod 2 ^ 16 / 2 ^ 8 mod 2 ^ 8;
     base / 2 ^ 16 mod 2 ^ 8; acc; limit / 2 ^ 16 mod 2 ^ 4 + gran / 16 * 16; base / 2 ^ 24 mod 2 ^ 8].
Proof.
  intros Hb Hl Ha Hg. unfold gdt_bytes, segment, le16. cbn [limit_low base_low base_middle access granularity base_high].
  rewrite !low_half, !low_byte, !low_nibble, !Z.shiftr_div_pow2 by lia.
  pose proof (Z.mod_pos_bound (limit / 2 ^ 16) (2 ^ 4)).
  rewrite (u8_small gran), (u8_small acc), (u8_small (limit / 2 ^ 16 mod 2 ^ 4)), join_nibbles by lia.
  unfold u8, u16. rewrite !Z.mod_mod by lia. done.
Qed.

Lemma gate_bytes base selector fl : is_u32 base -> idt_bytes (gate base selector fl) =
    [base mod 2 ^ 16 mod 2 ^ 8; base mod 2 ^ 16 / 2 ^ 8 mod 2 ^ 8; u8 selector; u8 (selector / 2 ^ 8); 0; Z.lor fl 0x60;
     base / 2 ^ 16 mod 2 ^ 8; base / 2 ^ 24 mod 2 ^ 8].
Proof.
  unfold is_u32. intros Hb. unfold idt_bytes, gate, le16. cbn [base_lo sel always0 flags base_hi].
  rewrite !low_half, !Z.shiftr_div_pow2 by lia. unfold u8, u16. rewrite !Z.mod_mod by lia. cbn [app].
  do 6 f_equal. assert (base / 2 ^ 16 mod 2 ^ 16 = base / 2 ^ 16) as -> by (apply Z.mod_small; Z.to_euclidean_division_equations; lia).
  by rewrite Z.div_div by lia.
Qed.

Lemma top_bit lo g : 0 <= lo < 16 -> 0 <= g < 256 -> (128 <=? lo + g / 16 * 16) = (128 <=? g).
Proof.
  intros. pose proof (Z.div_mod g 16). pose proof (Z.mod_pos_bound g 16).
  destruct (Z.leb_spec 128 g), (Z.leb_spec 128 (lo + g / 16 * 16)); done || lia.
Qed.

Lemma limit_bits x : x mod 2 ^ 16 mod 2 ^ 8 + x mod 2 ^ 16 / 2 ^ 8 mod 2 ^ 8 * 2 ^ 8 + x / 2 ^ 16 mod 2 ^ 4 * 2 ^ 16 = x mod 2 ^ 20.
Proof.
  change (2 ^ 20) with (2 ^ 16 * 2 ^ 4). rewrite (Z.rem_mul_r x) by lia.
  pose proof (Z.mod_pos_bound x (2 ^ 16)). set (y := x mod 2 ^ 16) in *. rewrite (Z.mod_small (y / 2 ^ 8)).
  - pose proof (Z.div_mod y (2 ^ 8)). lia.
  - split; [apply Z.div_pos|apply Z.div_lt_upper_bound]; lia.
Qed.

(** What [gdt_set_gate] packs, the processor unpacks: every base
    survives, the limit survives modulo its twenty bits and is scaled when
    the granularity flag asks for pages, and type, privilege and presence
    are those of the access byte.  The same for the offset and selector of
    an interrupt gate, which is always present with privilege 3 when its
    flags are 0x8E. *)
Theorem descriptors_round_trip base limit acc gran selector :
  is_u32 base -> is_u32 limit -> 0 <= acc < 256 -> 0 <= gran < 256 -> 0 <= selector < 2 ^ 16 ->
  let d := gdt_bytes (segment base limit acc gran) in
  let g := idt_bytes (gate base selector 0x8E) in
  segment_base d = base /\ raw_limit d = limit mod 2 ^ 20 /\
  segment_limit d = (if 128 <=? gran then limit mod 2 ^ 20 * 0x1000 + 0xFFF else limit mod 2 ^ 20) /\
  segment_type d = acc mod 32 /\ segment_dpl d = acc / 32 mod 4 /\ segment_present d = (128 <=? acc) /\
  gate_offset g = base /\ gate_selector g = selector /\ gate_type g = INTERRUPT_GATE /\ gate_dpl g = 3 /\
  gate_present g = true.
Proof.
  intros Hb Hl Ha Hg Hs d g. pose proof (segment_bytes base limit acc gran Hb Hl Ha Hg) as Hd.
  pose proof (gate_bytes base selector 0x8E Hb) as Hgb.
  subst d g. rewrite Hd, Hgb. unfold segment_base, segment_limit, raw_limit, segment_type, segment_dpl, segment_present,
    gate_offset, gate_selector, gate_type, gate_dpl, gate_present, byte_at. cbn [nth].
  assert (limit / 2 ^ 16 mod 2 ^ 4 + gran / 16 * 16 < 256 /\ 0 <= limit / 2 ^ 16 mod 2 ^ 4) as [? ?] by (split; Z.to_euclidean_division_equations; lia).
  rewrite (bit_7 acc Ha), (bit_7 (limit / 2 ^ 16 mod 2 ^ 4 + gran / 16 * 16)), (word_bytes base Hb); cycle 1.
  { split; [|done]. apply Z.add_nonneg_nonneg; [done|]. apply Z.mul_nonneg_nonneg; [apply Z.div_pos|]; lia. }
  assert (limit mod 2 ^ 16 mod 2 ^ 8 + limit mod 2 ^ 16 / 2 ^ 8 mod 2 ^ 8 * 2 ^ 8 +
          (limit / 2 ^ 16 mod 2 ^ 4 + gran / 16 * 16) mod 16 * 2 ^ 16 = limit mod 2 ^ 20) as Hlim.
  { rewrite Z.mod_add, (Z.mod_mod (limit / 2 ^ 16)) by lia. apply limit_bits. }
  rewrite Hlim. split_and!; try done.
  - rewrite top_bit; [done|apply Z.mod_pos_bound; lia|lia].
  - unfold u8. Z.to_euclidean_division_equations. lia.
Qed.

(** ** The tables after boot *)

Section boot.
Variables gdt_address idt_address tss_address : Z.
Variable stub : Z -> Z.

(** Only the table of gates changes, and the last gate wins. *)
Lemma set_gates_spec vs : forall s, Forall (fun v => 0 <= v < 256) vs -> List.length (idt_entries s) = 256%nat ->
  exists l, set_gates stub vs s = with_idt s l /\ List.length l = 256%nat /\
    forall v, 0 <= v < 256 -> l !! Z.to_nat v = if decide (v ∈ vs) then Some (gate (stub v) 0x08 0x8E) else idt_entries s !! Z.to_nat v.
Proof.
  induction vs as [|w vs IH] using rev_ind; intros s Hvs Hlen.
  - exists (idt_entries s). split_and!; [by destruct s|done|]. intros v _. by rewrite decide_False by apply not_elem_of_nil.
  - apply Forall_app in Hvs as [Hvs Hw]. apply Forall_cons in Hw as [Hw _].
    destruct (IH s Hvs Hlen) as (l & He & Hl & Hlook).
    exists (<[Z.to_nat w := gate (stub w) 0x08 0x8E]> l). unfold set_gates in *. rewrite foldl_app, He. cbn [foldl].
    unfold idt_set_gate. rewrite u8_small by lia. split_and!; [done|by rewrite length_insert|].
    intros v Hv. destruct (decide (v = w)) as [->|Hne].
    + rewrite list_lookup_insert_eq by lia. rewrite decide_True; [done|]. set_solver.
    + rewrite list_lookup_insert_ne by lia. rewrite Hlook by done. apply decide_ext. set_solver.
Qed.

Lemma gated_spec v : v ∈ gated_vectors <-> vectored v.
Proof. unfold gated_vectors, vectored. rewrite elem_of_app, elem_of_seqZ, list_elem_of_singleton. lia. Qed.

Lemma outbs_spec ws : forall s, Forall (fun w => 0 <= w.1 < 2 ^ 16 /\ 0 <= w.2 < 2 ^ 8) ws ->
  outbs ws s = mk_tables (gdt_entries s) (idt_entries s) (tss_entry s) (gdtr s) (idtr s) (tr s) (interrupt_handlers s) (port_writes s ++ ws).
Proof.
  induction ws as [|[p v] ws IH]; intros s Hws; [destruct s; cbn; by rewrite app_nil_r|].
  apply Forall_cons in Hws as [[Hp Hv] Hws]. cbn in Hp, Hv. unfold outbs in *. cbn [foldl]. rewrite IH by done.
  unfold outb, u16. cbn. rewrite u8_small, Z.mod_small by lia. by rewrite <- app_assoc.
Qed.

Lemma init_gdt_spec s : List.length (gdt_entries s) = 6%nat ->
  init_gdt gdt_address tss_address s =
    mk_tables [segment 0 0 0 0; segment 0 0xFFFFFFFF 0x9A 0xCF; segment 0 0xFFFFFFFF 0x92 0xCF; segment 0 0xFFFFFFFF 0xFA 0xCF;
               segment 0 0xFFFFFFFF 0xF2 0xCF; segment tss_address 103 0xE9 0x00]
      (idt_entries s) (initial_tss 0x10 0) (Some (mk_table_ptr 47 gdt_address)) (idtr s) (Some 0x2B) (interrupt_handlers s) (port_writes s).
Proof. intros Hlen. destruct s as [g i t gr ir tr' h p]. cbn in Hlen. do 7 (destruct g as [|? g]; try done). Qed.

(** What the whole initialisation builds. *)
Lemma init_tables_spec s :
  List.length (gdt_entries s) = 6%nat ->
  exists l, List.length l = 256%nat /\
    (forall v, 0 <= v < 256 -> l !! Z.to_nat v = Some (if decide (v ∈ gated_vectors) then gate (stub v) 0x08 0x8E else null_gate)) /\
    init_descriptor_tables gdt_address idt_address tss_address stub s =
      mk_tables [segment 0 0 0 0; segment 0 0xFFFFFFFF 0x9A 0xCF; segment 0 0xFFFFFFFF 0x92 0xCF; segment 0 0xFFFFFFFF 0xFA 0xCF;
                 segment 0 0xFFFFFFFF 0xF2 0xCF; segment tss_address 103 0xE9 0x00]
        l (initial_tss 0x10 0) (Some (mk_table_ptr 47 gdt_address)) (Some (mk_table_ptr 2047 idt_address)) (Some 0x2B) ∅
        (port_writes s ++ pic_remap).
Proof.
  intros Hlen. unfold init_descriptor_tables, init_idt. rewrite init_gdt_spec by done.
  rewrite outbs_spec by (repeat apply Forall_cons_2; try apply Forall_nil_2; cbn; lia).
  cbn [with_idt gdt_entries idt_entries tss_entry gdtr idtr tr interrupt_handlers port_writes].
  match goal with |- context [set_gates stub gated_vectors ?st] => destruct (set_gates_spec gated_vectors st) as (l & He & Hl & Hlook) end.
  { apply Forall_forall. intros v ?%gated_spec. unfold vectored in *. lia. }
  { cbn [idt_entries]. by rewrite length_replicate. }
  exists l. split_and!; [done| |by rewrite He].
  intros v Hv. rewrite Hlook by done. case_decide; [done|]. cbn [idt_entries]. apply lookup_replicate_2. lia.
Qed.
End boot.

(** C32: [init_descriptor_tables] leaves the processor with flat ring-0 and
    ring-3 code and data segments, a task segment that covers exactly
    [tss_entry] and has no I/O bitmap, and an interrupt gate to its own stub
    for each of the 32 exceptions, the 16 hardware lines and vector 0x80 -
    all of them open to ring 3 - and for no other vector; the tables in the
    registers cover exactly those entries, the interrupt controllers send
    their lines to vectors 32 to 47, and no C handler is registered. *)
Theorem descriptor_tables_installed gdt_address idt_address tss_address stub s :
  List.length (gdt_entries s) = 6%nat -> is_u32 tss_address -> (forall v, is_u32 (stub v)) ->
  let s' := init_descriptor_tables gdt_address idt_address tss_address stub s in
  (exists e0 e1 e2 e3 e4 e5, gdt_entries s' = [e0; e1; e2; e3; e4; e5] /\ segment_present (gdt_bytes e0) = false /\
     flat CODE_SEGMENT 0 e1 /\ flat DATA_SEGMENT 0 e2 /\ flat CODE_SEGMENT 3 e3 /\ flat DATA_SEGMENT 3 e4 /\
     segment_base (gdt_bytes e5) = tss_address /\ segment_limit (gdt_bytes e5) = sizeof_tss_entry_t - 1 /\
     segment_type (gdt_bytes e5) = AVAILABLE_TSS /\ segment_present (gdt_bytes e5) = true) /\
  (forall v, 0 <= v < 256 -> exists g, idt_entries s' !! Z.to_nat v = Some g /\ (gate_present (idt_bytes g) = true <-> vectored v) /\
     (vectored v -> gate_offset (idt_bytes g) = stub v /\ gate_selector (idt_bytes g) = 0x08 /\
        gate_type (idt_bytes g) = INTERRUPT_GATE /\ gate_dpl (idt_bytes g) = 3)) /\
  gdtr s' = Some (mk_table_ptr (6 * sizeof_gdt_entry_t - 1) gdt_address) /\
  idtr s' = Some (mk_table_ptr (256 * sizeof_idt_entry_t - 1) idt_address) /\ tr s' = Some (5 * sizeof_gdt_entry_t + 3) /\
  ss0 (tss_entry s') = 0x10 /\ iomap_base (tss_entry s') = sizeof_tss_entry_t /\
  interrupt_handlers s' = ∅ /\ port_writes s' = port_writes s ++ pic_remap.
Proof.
  intros Hlen Htss Hstub s'. destruct (init_tables_spec gdt_address idt_address tss_address stub s Hlen) as (l & Hl & Hlook & He).
  subst s'. rewrite He. cbn [gdt_entries idt_entries tss_entry gdtr idtr tr interrupt_handlers port_writes]. split_and!; try done.
  - exists (segment 0 0 0 0), (segment 0 0xFFFFFFFF 0x9A 0xCF), (segment 0 0xFFFFFFFF 0x92 0xCF), (segment 0 0xFFFFFFFF 0xFA 0xCF),
      (segment 0 0xFFFFFFFF 0xF2 0xCF), (segment tss_address 103 0xE9 0x00).
    split; [done|]. do 5 (split; [vm_compute; repeat split; done|]).
    rewrite (segment_bytes tss_address) by (done || unfold is_u32; lia).
    split; [by apply word_bytes|]. split_and!; vm_compute; done.
  - intros v Hv. eexists. split; [by apply Hlook|]. rewrite <- gated_spec. case_decide as Hd.
    + rewrite (gate_bytes (stub v)) by apply Hstub. split; [done|]. intros _. split; [by apply word_bytes|]. split_and!; vm_compute; done.
    + split; [|done]. split; [vm_compute; discriminate|done].
Qed.

(** A machine just started by the boot loader. *)
Definition reset_tables : tables :=
  mk_tables (replicate 6 null_segment) (replicate 256 null_gate) zero_tss None None None {[ 14 := PageFault ]} [].
Definition demo_stub (v : Z) : Z := if (0 <=? v) && (v <? 256) then 0x100000 + 16 * v else 0.

Lemma descriptors_round_trip_witness :
  is_u32 0x12345678 /\ segment_base (gdt_bytes (segment 0x12345678 103 0xE9 0)) = 0x12345678.
Proof.
  assert (is_u32 0x12345678) as Hb by (unfold is_u32; lia). split; [exact Hb|].
  apply (descriptors_round_trip 0x12345678 103 0xE9 0 8); [exact Hb|unfold is_u32; lia|lia..].
Defined.

Lemma descriptor_tables_installed_witness :
  List.length (gdt_entries reset_tables) = 6%nat /\
  tr (init_descriptor_tables 0x110000 0x111000 0x112000 demo_stub reset_tables) = Some (5 * sizeof_gdt_entry_t + 3).
Proof.
  split; [reflexivity|].
  refine (proj1 (proj2 (proj2 (proj2 (proj2 (descriptor_tables_installed 0x110000 0x111000 0x112000 demo_stub reset_tables _ _ _)))))).
  - reflexivity.
  - unfold is_u32; lia.
  - intros v. unfold demo_stub, is_u32. destruct (Z.leb_spec 0 v), (Z.ltb_spec v 256); cbn [andb]; lia.
Defined.
