(* ===== verification/BootPaging.v ===== *)
(** * paging.c: building the first address spaces

    [initialise_paging] runs on the bump allocator of early boot and ends
    with the kernel heap in place.  [BootAllocator] is what it uses of
    kheap.c beyond [kmalloc]: the bump pointer and [kheap = create_heap(..)].
    [BootLaws] says how that allocator behaves before and just after the
    heap exists; [kernel_boot_laws] discharges it for kheap.c itself. *)

From S2P Require Import Prelude Memory OrderedArray KHeap HeapInv HeapContract HeapTheorems Kmalloc Frames Paging AddressSpace HeapPaging Interrupt.

Class BootAllocator (K : Type) : Type := {
  placement_address : K -> Z;
  set_placement_address : Z -> K -> K;
  install_heap : Z -> Z -> Z -> Z -> Z -> K -> res K
}.

Section initialise.
Context {C K : Type} `{!Kmalloc K} `{!BootAllocator K}.
Implicit Types s : mm C K.

Definition with_kernel_directory s (d : Z) : mm C K :=
  mk_mm (bits s) (page_tables s) (directories s) (contents_of s) d (current_directory s) (kstate s).

(** [for (i = KHEAP_START; ...; i += 0x1000)] over the first heap pages. *)
Definition each_heap_page (f : Z -> mm C K -> res (mm C K)) s : res (mm C K) :=
  while (fun '(i, s) =>
    if i <? KHEAP_START + KHEAP_INITIAL_SIZE then s ← f i s; Ok (Continue (u32 (i + 0x1000), s))
    else Ok (Break s)) (KHEAP_START, s).

(** [get_page(i, 1, kernel_directory)], for its page table. *)
Definition reserve_table (i : Z) s : res (mm C K) := '(_, s) ← get_page i 1 (kernel_directory s) s; Ok s.

(** One page of the identity mapping. *)
Definition map_identity (i : Z) s : res (mm C K) :=
  '(page, s) ← get_page i 1 (kernel_directory s) s;
  match page with
  | None => Panic ASSERTION_FAILED
  | Some (t, j) =>
      ASSERT (i / 0x1000 <? nframes (bits s));;
      b ← set_frame i (bits s);
      p ← read_page t j s;
      Ok (write_page t j (mk_page 1 0 1 (accessed p) (dirty p) (unused p) (i / 0x1000)) (with_bits s b))
  end.

(** [alloc_frame(get_page(i, 1, kernel_directory), 0, 1)]. *)
Definition back_heap_page (i : Z) s : res (mm C K) := back_kernel_page i 0 1 s.

(** The loop whose bound moves when a page table is allocated. *)
Definition identity_map s : res (mm C K) :=
  while (fun '(i, s) =>
    if i <? u32 (placement_address (kstate s) + 0x1000) then s ← map_identity i s; Ok (Continue (u32 (i + 0x1000), s))
    else Ok (Break s)) (0, s).

(** The frame bitmap and an empty kernel directory. *)
Definition first_directory (physical_memory_end : Z) s : res (mm C K) :=
  let nframes := physical_memory_end / 0x1000 in
  let frame_word_count := INDEX_FROM_BIT (nframes + 31) in
  '(_, k) ← kmalloc (u32 (frame_word_count * 4)) (kstate s);
  b ← initialise_bitmap physical_memory_end;
  '(d, k) ← kmalloc_a sizeof_page_directory_t k;
  Ok (with_kernel_directory
        (with_directories (with_bits (with_kstate s k) b)
           (<[d := mk_directory (replicate 1024 0) (replicate 1024 0) (u32 (d + 4096))]> (directories s))) d).

(** The mappings, before paging is turned on. *)
Definition boot_mappings (physical_memory_end : Z) s : res (mm C K) :=
  let physical_memory_end := Z.land physical_memory_end 0xFFFFF000 in
  ASSERT (placement_address (kstate s) <? physical_memory_end);;
  s ← first_directory physical_memory_end s;
  s ← each_heap_page reserve_table s;
  ASSERT (placement_address (kstate s) <=? 0xFFFFEFFF);;
  s ← identity_map s;
  each_heap_page back_heap_page s.

Definition initialise_paging (physical_memory_end : Z) (t : handler_table) s : res (handler_table * mm C K) :=
  s ← boot_mappings physical_memory_end s;
  let t := register_interrupt_handler 14 PageFault t in
  let s := switch_page_directory (kernel_directory s) s in
  k ← install_heap KHEAP_START (KHEAP_START + KHEAP_INITIAL_SIZE) 0xCFFFF000 0 0 (kstate s);
  let s := with_kstate s k in
  '(d, s) ← clone_directory (kernel_directory s) s;
  Ok (t, switch_page_directory d s).
End initialise.

(** ** The allocator during boot *)

Definition aligned_up (p : Z) : Z := (p + 0xFFF) / 0x1000 * 0x1000.

Lemma aligned_up_spec p : aligned_up p mod 0x1000 = 0 /\ p <= aligned_up p <= p + 0xFFF.
Proof. unfold aligned_up. split; [apply Z.mod_mul; lia|]. pose proof (Z.div_mod (p + 0xFFF) 0x1000). pose proof (Z.mod_pos_bound (p + 0xFFF) 0x1000). lia. Qed.

Lemma aligned_up_unique p a : a mod 0x1000 = 0 -> p <= a <= p + 0xFFF -> a = aligned_up p.
Proof.
  intros Ha Hp. destruct (aligned_up_spec p) as [Hu Hb]. pose proof (Z.div_mod a 0x1000). pose proof (Z.div_mod (aligned_up p) 0x1000). lia.
Qed.

Lemma aligned_up_id p : p mod 0x1000 = 0 -> aligned_up p = p.
Proof. intros H. symmetry. apply aligned_up_unique; [done|lia]. Qed.

Class BootLaws (K : Type) `{!Kmalloc K} `{!BootAllocator K} : Type := {
  early : K -> Prop;
  (** The bump pointer is moved up, behind the archive. *)
  early_set p k : early k -> placement_address k <= p < 2 ^ 32 -> early (set_placement_address p k) /\ placement_address (set_placement_address p k) = p;
  (** A bump allocation: the next address, rounded up when asked. *)
  early_serves sz align phys k : early k -> 0 < placement_address k -> 0 < sz ->
    placement_address k + (if align =? 1 then 0xFFF else 0) + sz < 2 ^ 32 ->
    exists k', let a := if align =? 1 then aligned_up (placement_address k) else placement_address k in
      kmalloc_int sz align phys k = Ok (a, if phys then a else 0, k') /\ early k' /\ placement_address k' = a + sz;
  (** The heap can be created, and serves the first directory. *)
  heap_starts k : early k -> 0 < placement_address k -> placement_address k + sizeof_heap_t <= KHEAP_START ->
    exists k', install_heap KHEAP_START (KHEAP_START + KHEAP_INITIAL_SIZE) 0xCFFFF000 0 0 k = Ok k' /\
      exists a p k'', kmalloc_ap sizeof_page_directory_t k' = Ok (a, p, k'') /\ KHEAP_START <= a < 2 ^ 32
}.

(** *** kheap.c

    [view] is what the heap sees of the page tables when it is created, and
    [m] the bytes in its pages at that time. *)
Section kernel.
Context {P : Type} `{!PageBacking P} `{!PageWalk P}.
Variable (m : mem) (view : P).
Implicit Types k : kernel_alloc P.

#[export] Instance kernel_boot_allocator : BootAllocator (kernel_alloc P) := {|
  placement_address := Kmalloc.placement_address;
  set_placement_address p k := mk_kernel_alloc p (kheap k);
  install_heap start end_addr max supervisor readonly k :=
    '(a, k) ← kmalloc sizeof_heap_t k;
    h ← create_heap (fun _ pages => Ok (a, pages)) start end_addr max supervisor readonly m view;
    Ok (mk_kernel_alloc (Kmalloc.placement_address k) (Some h))
|}.

(** The pages behind the heap are there, and more can be had. *)
Context `{!PageBackingLaws P}.
Hypothesis view_ready : exists hi n, pb_ready view (KHEAP_START + 0x80000) hi n /\
  KHEAP_START + KHEAP_INITIAL_SIZE + 0x10000 <= hi /\ 0x10 <= n.
(** What the new heap allocates lies in mapped pages. *)
Hypothesis view_walks : forall h sz a n h' bl, created KHEAP_START (KHEAP_START + KHEAP_INITIAL_SIZE) 0xCFFFF000 view h ->
  alloc ALLOC_ROUNDS sz 1 h = Ok (a, h') -> heap_ok (hmem h') (hheap h') bl -> (a, n) ∈ allocated (start_address (hheap h')) bl -> 0 < n ->
  backed 0 h' -> exists present frame, pw_page (hpages h') a = Some (present, frame) /\ present <> 0.

Lemma kernel_early_serves sz align phys k : kheap k = None -> is_u32 (Kmalloc.placement_address k) -> 0 <= sz ->
  Kmalloc.placement_address k + (if align =? 1 then 0xFFF else 0) + sz < 2 ^ 32 ->
  let a := if align =? 1 then aligned_up (Kmalloc.placement_address k) else Kmalloc.placement_address k in
  kmalloc_int sz align phys k = Ok (a, if phys then a else 0, mk_kernel_alloc (a + sz) None).
Proof.
  intros Hk Hp Hsz Hfit a. destruct (early_kmalloc_spec sz align phys k Hp Hsz Hfit) as (x & Hrun & Hx & Hal & Hna).
  assert (x = a) as ->.
  { unfold a. destruct (Z.eqb_spec align 1) as [->|Hne]; [simpl in Hx; apply aligned_up_unique; [exact (Hal eq_refl)|lia]|exact (Hna Hne)]. }
  rewrite Hk in Hrun. simpl. by rewrite Hk, Hrun.
Qed.

Lemma kernel_heap_starts k : kheap k = None -> 0 < Kmalloc.placement_address k ->
  Kmalloc.placement_address k + sizeof_heap_t < 2 ^ 32 ->
  exists k', install_heap KHEAP_START (KHEAP_START + KHEAP_INITIAL_SIZE) 0xCFFFF000 0 0 k = Ok k' /\
    exists a p k'', kmalloc_ap sizeof_page_directory_t k' = Ok (a, p, k'') /\ KHEAP_START <= a < 2 ^ 32.
Proof.
  unfold sizeof_heap_t. intros Hk Hp0 Hp. unfold install_heap, kernel_boot_allocator, kmalloc.
  rewrite kernel_early_serves by (done || (unfold is_u32, sizeof_heap_t; simpl; lia)). rsimpl. simpl (_ =? 1). cbv iota.
  destruct (create_heap_correct (fun _ pages => Ok (Kmalloc.placement_address k, pages)) KHEAP_START (KHEAP_START + KHEAP_INITIAL_SIZE)
    0xCFFFF000 0 0 m view (Kmalloc.placement_address k) view) as (h & -> & Hc);
    [done|done|done|done|by right|by vm_compute|split; by vm_compute|].
  rsimpl. eexists. split; [done|]. destruct view_ready as (hi & n & Hr & Hhi & Hn).
  pose proof Hc as [Hwf Hok Hs He Hm Hal Hi Hcap Hpg].
  destruct (alloc_correct 0 sizeof_page_directory_t 1 h _ Hwf Hok) as (a & h' & bl & Hrun & Hpost & _).
  - done.
  - by vm_compute.
  - done.
  - change (3 * round_up_page (sizeof_page_directory_t + MIN_BLOCK) + 0) with 0x9000. split; [done|]. rewrite Hs, He, Hm, Hpg.
    split; [by vm_compute|]. split; [by vm_compute|]. exists (KHEAP_START + 0x80000), hi, n. unfold arena_start, KHEAP_START, KHEAP_INITIAL_SIZE, HEAP_MIN_SIZE, sizeof_type_t, HEAP_INDEX_SIZE in *.
    split_and!; [done|lia..].
  - done.
  - rewrite Hi, Hcap. by vm_compute.
  - destruct (ap_payloads _ _ _ _ _ _ _ _ Hpost) as (len & Hlen & Hall).
    assert ((a, len) ∈ allocated (start_address (hheap h)) bl) as Ha by (rewrite Hall; apply list_elem_of_here).
    pose proof (ap_ok _ _ _ _ _ _ _ _ Hpost) as Hok'. rewrite <- (ap_start _ _ _ _ _ _ _ _ Hpost) in Ha.
    destruct (view_walks h sizeof_page_directory_t a len h' bl Hc Hrun Hok' Ha) as (pr & fr & Hw & Hpr); [unfold sizeof_page_directory_t in Hlen; lia|apply Hpost|].
    unfold kmalloc_ap, kmalloc_int, kernel_kmalloc. cbn [kheap]. unfold heap_kmalloc. change (u8 1) with 1. change (alloc 4) with (alloc (P := P) ALLOC_ROUNDS) in Hrun. rewrite Hrun. rsimpl. cbn [hpages].
    rewrite Hw, (proj2 (Z.eqb_neq pr 0)) by done. cbn [negb ASSERT]. rsimpl. eexists _, _, _. split; [done|].
    apply (allocated_range _ _ _ _ _ (ok_layout _ _ _ Hok')) in Ha.
    pose proof (ok_total _ _ _ Hok'). pose proof (ok_max _ _ _ Hok'). rewrite (ap_max _ _ _ _ _ _ _ _ Hpost), Hm in *. rewrite (ap_start _ _ _ _ _ _ _ _ Hpost), Hs in Ha, H.
    unfold arena_start, sizeof_type_t, HEAP_INDEX_SIZE in *. unfold KHEAP_START in *. lia.
Qed.

#[export] Program Instance kernel_boot_laws : BootLaws (kernel_alloc P) := {|
  early k := kheap k = None /\ is_u32 (Kmalloc.placement_address k)
|}.
Next Obligation. intros p k [Hk Hk0] Hp. unfold is_u32 in *. simpl in *. split; [|done]. split; [done|lia]. Qed.
Next Obligation.
  intros sz align phys k [Hk Hp] Hp0 Hsz Hfit. simpl in *. eexists. split.
  - apply kernel_early_serves; [done|done|lia|done].
  - unfold is_u32 in *. simpl. split; [|done]. split; [done|]. destruct (aligned_up_spec (Kmalloc.placement_address k)). destruct (align =? 1); lia.
Qed.
Next Obligation. intros k [Hk Hp] Hp0 Hfit. unfold KHEAP_START in *. apply kernel_heap_starts; [done|done|simpl in *; lia]. Qed.
End kernel.

(** *** kheap.c on the page tables

    The view is a real address space whose kernel directory maps the first
    MiB of the heap and has a table for what follows it. *)
Section tables.
Context {K : Type} `{!Kmalloc K} `{!KmallocLaws K}.
Variable view : mm (Z -> Z) K.
Variable HI : Z.
Hypothesis view_window : heap_window KHEAP_START HI view.
Hypothesis view_room : KHEAP_START + KHEAP_INITIAL_SIZE + 0x10000 <= HI.
Hypothesis view_frames : frames_left 0x10 view.
Hypothesis view_mapped : forall a, KHEAP_START <= a < KHEAP_START + KHEAP_INITIAL_SIZE -> is_Some (kernel_page view a).

Lemma created_arena h : created KHEAP_START (KHEAP_START + KHEAP_INITIAL_SIZE) 0xCFFFF000 view h -> arena KHEAP_START HI h.
Proof.
  intros [Hwf Hok Hs He Hm Hal Hi Hcap Hpg]. destruct Hal as [Hal1 Hal2].
  split; [..|rewrite Hpg; exact view_window|]; rewrite ?Hs, ?He, ?Hm in *; unfold arena_start, KHEAP_START, KHEAP_INITIAL_SIZE, sizeof_type_t, HEAP_INDEX_SIZE in *;
    [lia|done|done|lia|lia|]. intros a Ha _. rewrite Hpg. apply view_mapped. lia.
Qed.

Lemma tables_ready : exists hi n, window_ready KHEAP_START HI view view (KHEAP_START + 0x80000) hi n /\
  KHEAP_START + KHEAP_INITIAL_SIZE + 0x10000 <= hi /\ 0x10 <= n.
Proof. exists HI, 0x10. split; [|by split]. split; [done|lia|done|done|apply beside_refl]. Qed.

Lemma tables_walk h sz a n h' bl : created KHEAP_START (KHEAP_START + KHEAP_INITIAL_SIZE) 0xCFFFF000 view h ->
  alloc ALLOC_ROUNDS sz 1 h = Ok (a, h') -> heap_ok (hmem h') (hheap h') bl -> (a, n) ∈ allocated (start_address (hheap h')) bl -> 0 < n ->
  @backed _ _ (table_backing_laws KHEAP_START HI view) 0 h' -> exists present frame, pw_page (hpages h') a = Some (present, frame) /\ present <> 0.
Proof.
  intros Hc Hrun Hok Ha Hn (_ & _ & _ & lo & hi & k & [Hw _ Hhi _ _] & _ & Hend & _).
  assert (arena KHEAP_START HI h') as Har by (apply (alloc_arena KHEAP_START HI _ _ _ _ _ _ (created_arena h Hc) Hrun); lia).
  destruct (payload_mapped KHEAP_START HI h' bl a n a Har Hok Ha) as [q Hq]; [lia|].
  exists (present q), (frame q). cbn [pw_page table_walk]. rewrite Hq. split; [done|].
  by destruct (kernel_pte_slot _ _ _ (hw_vm _ _ _ Hw) Hq) as (t & qs & _ & _ & _ & Hp).
Qed.

(** The boot laws hold of kheap.c on these tables. *)
Definition table_boot_laws (m : mem) : @BootLaws (kernel_alloc (mm (Z -> Z) K)) kernel_kmalloc (kernel_boot_allocator m view) :=
  @kernel_boot_laws _ _ _ m view (table_backing_laws KHEAP_START HI view) tables_ready tables_walk.
End tables.
