(* ===== verification/BootPagingSpec.v ===== *)
(** * What initialise_paging builds

    [boot_map D N c n h]: the kernel directory at [D] has tables in the
    slots [c]; its first [n] pages are mapped to the frames of the same
    number, the first [h] pages of the heap to the frames after those, and
    no other page is; exactly these [n + h] of the [N] frames are in use.
    Every table lies below the bump pointer, hence in an identity-mapped
    page once paging is on.  The last parts put the kernel heap on these
    tables and give a concrete allocator on which the theorems run. *)

From S2P Require Import Prelude Memory OrderedArray Kmalloc Frames Paging PagingProofs AddressSpace AddressClone KHeap HeapInv HeapAlloc HeapContract HeapFree HeapTheorems HeapPaging Interrupt BootPaging.

Definition HEAP_PAGE : Z := 0xC0000.
Definition HEAP_SLOT : Z := 768.

(** The entry of virtual page [v]. *)
Definition boot_entry (n h v : Z) : page_t :=
  if v <? n then mk_page 1 0 1 0 0 0 v
  else if (HEAP_PAGE <=? v) && (v <? HEAP_PAGE + h) then mk_page 1 1 1 0 0 0 (n + (v - HEAP_PAGE))
  else empty_page.
Definition boot_table (n h j : Z) : list page_t := boot_entry n h <$> seqZ (j * 1024) 1024.

Lemma boot_table_lookup n h j i : 0 <= i < 1024 -> boot_table n h j !! Z.to_nat i = Some (boot_entry n h (j * 1024 + i)).
Proof.
  intros Hi. unfold boot_table. rewrite list_lookup_fmap, lookup_seqZ_lt by lia. simpl. do 2 f_equal. lia.
Qed.

Lemma boot_table_length n h j : List.length (boot_table n h j) = 1024%nat.
Proof. unfold boot_table. by rewrite length_fmap, length_seqZ. Qed.

(** A table changes in one entry when one more page is mapped. *)
Lemma boot_table_insert n h n' h' j i p : 0 <= i < 1024 ->
  p = boot_entry n' h' (j * 1024 + i) ->
  (forall v, v <> j * 1024 + i -> boot_entry n' h' v = boot_entry n h v) ->
  <[Z.to_nat i := p]> (boot_table n h j) = boot_table n' h' j.
Proof.
  intros Hi -> Hrest. apply list_eq. intros k. destruct (decide (k = Z.to_nat i)) as [->|Hne].
  - rewrite list_lookup_insert_eq by (rewrite boot_table_length; lia). by rewrite boot_table_lookup.
  - rewrite list_lookup_insert_ne by done. destruct (decide (k < 1024)%nat) as [Hk|Hk].
    + rewrite <- (Nat2Z.id k), !boot_table_lookup by lia. rewrite Hrest; [done|lia].
    + rewrite !lookup_ge_None_2; [done|rewrite boot_table_length; lia..].
Qed.

Lemma boot_table_same n h n' h' j : (forall v, j * 1024 <= v < j * 1024 + 1024 -> boot_entry n' h' v = boot_entry n h v) ->
  boot_table n h j = boot_table n' h' j.
Proof.
  intros H. unfold boot_table. apply list_fmap_ext. intros k v Hv. apply lookup_seqZ in Hv. symmetry. apply H. lia.
Qed.

Lemma boot_table_empty n h j : (forall v, j * 1024 <= v < j * 1024 + 1024 -> boot_entry n h v = empty_page) ->
  boot_table n h j = replicate 1024 empty_page.
Proof.
  intros H. apply list_eq. intros k. destruct (decide (k < 1024)%nat) as [Hk|Hk].
  - rewrite <- (Nat2Z.id k), boot_table_lookup by lia. rewrite lookup_replicate_2 by lia. f_equal. apply H. lia.
  - rewrite !lookup_ge_None_2; [done|rewrite length_replicate; lia|rewrite boot_table_length; lia].
Qed.

Section spec.
Context {C K : Type} `{!Kmalloc K} `{!BootAllocator K} `{!BootLaws K}.
Implicit Types s : mm C K.

Record boot_map (D N : Z) (c : Z -> Prop) (n h : Z) s : Prop := {
  bm_wf : bitmap_wf (bits s);
  bm_nframes : nframes (bits s) = N;
  bm_used f : 0 <= f < N -> used (bits s) f = true <-> f < n + h;
  bm_kernel : kernel_directory s = D;
  bm_directory : 0 < D;
  bm_tables : exists d, directories s = {[ D := d ]} /\ List.length (tables d) = 1024%nat /\ List.length (tablesPhysical d) = 1024%nat /\
    (forall j, 0 <= j < 1024 -> exists t, tables d !! Z.to_nat j = Some t /\ (t <> 0 <-> c j)) /\
    (forall j t, 0 <= j < 1024 -> tables d !! Z.to_nat j = Some t -> t <> 0 ->
       page_tables s !! t = Some (boot_table n h j) /\ t < placement_address (kstate s) /\ t <> D) /\
    (forall j j' t, 0 <= j < 1024 -> 0 <= j' < 1024 -> tables d !! Z.to_nat j = Some t -> tables d !! Z.to_nat j' = Some t -> t <> 0 -> j = j') /\
    (forall t ps, page_tables s !! t = Some ps -> exists j, 0 <= j < 1024 /\ tables d !! Z.to_nat j = Some t /\ t <> 0);
  bm_below : D + sizeof_page_directory_t <= placement_address (kstate s) < 2 ^ 32;
  bm_early : early (kstate s)
}.

(** [get_page] with [make] in the kernel directory: the table of the slot,
    which is new when there was none. *)
Lemma boot_get_page D N c n h s a j : boot_map D N c n h s -> 0 <= j < 1024 -> a / 0x1000 / 1024 = j ->
  (c j \/ ~ c j /\ placement_address (kstate s) + 0x1FFF < 2 ^ 32) ->
  (forall v, j * 1024 <= v < j * 1024 + 1024 -> c j \/ boot_entry n h v = empty_page) ->
  exists t s', get_page a 1 (kernel_directory s) s = Ok (Some (t, a / 0x1000 mod 1024), s') /\
    boot_map D N (fun i => c i \/ i = j) n h s' /\
    (exists d, directories s' !! D = Some d /\ tables d !! Z.to_nat j = Some t /\ t <> 0) /\
    bits s' = bits s /\ current_directory s' = current_directory s /\ contents_of s' = contents_of s /\
    (c j -> s' = s) /\ (~ c j -> placement_address (kstate s') = aligned_up (placement_address (kstate s)) + 0x1000).
Proof.
  intros [Hwf Hnf Hu Hk HD (d & Hd & Hl & Hlp & Hslot & Htab & Hinj & Honly) Hbelow Hearly] Hj Ha Hroom Hempty.
  destruct (Hslot j Hj) as (t & Ht & Htc).
  unfold get_page. rewrite Hk, (proj2 (Z.eqb_neq D 0)) by lia. cbn [negb ASSERT]. rsimpl. unfold read_directory, table_slot.
  assert (directories s !! D = Some d) as HdD by (rewrite Hd; apply lookup_singleton_eq).
  rewrite HdD. rsimpl. rewrite Ha, Ht. rsimpl. destruct (Z.eqb_spec t 0) as [->|Ht0]; cbn [negb Z.eqb].
  2: { assert (c j) as Hc by tauto. exists t, s. split; [done|]. split.
    - split; try done. exists d. split_and!; try done. intros i Hi. destruct (Hslot i Hi) as (x & Hx & Hxc). exists x. split; [done|].
      rewrite Hxc. split; [tauto|]. intros [Hci| ->]; done.
    - split; [exists d; by split_and!|]. split_and!; try done. }
  assert (~ c j) as Hnc by tauto. destruct Hroom as [Hc|[_ Hroom]]; [done|].
  pose proof Hbelow as [Hb1 Hb2]. unfold sizeof_page_directory_t in Hb1.
  unfold new_page_table, kmalloc_ap.
  destruct (early_serves sizeof_page_table_t 1 true (kstate s) Hearly) as (k' & Hrun & Hek & Hpk); [lia|done|unfold sizeof_page_table_t; simpl; lia|].
  cbv zeta in Hrun. simpl (1 =? 1) in *. cbv iota in *. destruct (aligned_up_spec (placement_address (kstate s))) as [_ Hup].
  set (b := aligned_up (placement_address (kstate s))) in *. rewrite Hrun. rsimpl. unfold sizeof_page_table_t in *.
  eexists b, _. split; [done|]. unfold set_table_slot, with_directories, with_tables, with_kstate.
  cbn [bits page_tables directories kernel_directory current_directory contents_of kstate].
  rewrite Hd, alter_singleton_eq. set (d' := mk_directory _ _ _).
  assert (forall i, 0 <= i < 1024 -> tables d' !! Z.to_nat i = if decide (i = j) then Some b else tables d !! Z.to_nat i) as Hlook.
  { intros i Hi. cbn [d' tables]. case_decide as E; [subst i; by rewrite list_lookup_insert_eq by lia|].
    rewrite list_lookup_insert_ne by lia. done. }
  assert (page_tables s !! b = None) as Hfresh.
  { destruct (page_tables s !! b) as [ps|] eqn:E; [|done]. destruct (Honly _ _ E) as (i & Hi & Hti & H0).
    destruct (Htab i b Hi Hti H0) as (_ & ? & _). lia. }
  split; [|split; [exists d'; rewrite lookup_singleton_eq, Hlook, decide_True by done; split_and!; [done..|lia]|by split_and!; try done]].
  split; cbn [bits page_tables directories kernel_directory current_directory contents_of kstate]; try done; [|lia].
  exists d'. split; [done|]. split; [cbn [d' tables]; by rewrite length_insert|]. split; [cbn [d' tablesPhysical]; by rewrite length_insert|].
  split_and!.
  - intros i Hi. rewrite Hlook by done. case_decide as E; [exists b; split; [done|]; split; [by right|lia]|].
    destruct (Hslot i Hi) as (x & Hx & Hxc). exists x. split; [done|]. rewrite Hxc. split; [by left|intros [Hci|Hij]; done].
  - intros i x Hi Hx Hx0. rewrite Hlook in Hx by done. case_decide as E.
    + injection Hx as <-. subst i. rewrite lookup_insert_eq, boot_table_empty; [split; [done|lia]|].
      intros v Hv. by destruct (Hempty v Hv).
    + destruct (Htab i x Hi Hx Hx0) as (H1 & H2 & H3). rewrite lookup_insert_ne by lia. split; [done|]. split; [lia|done].
  - intros i i' x Hi Hi' Hx Hx' Hx0. rewrite Hlook in Hx, Hx' by done. destruct (decide (i = j)) as [Ei|Ei], (decide (i' = j)) as [Ei'|Ei'].
    + congruence.
    + injection Hx as <-. destruct (Htab i' b Hi' Hx' Hx0) as (_ & ? & _). lia.
    + injection Hx' as <-. destruct (Htab i b Hi Hx Hx0) as (_ & ? & _). lia.
    + by eapply Hinj.
  - intros x ps. rewrite lookup_insert_Some. intros [[<- _]|[Hne Hps]].
    + exists j. rewrite Hlook, decide_True by done. split_and!; [lia..|done|lia].
    + destruct (Honly x ps Hps) as (i & Hi & Hx & Hx0). exists i. rewrite Hlook by done. rewrite decide_False; [done|].
      intros ->. congruence.
Qed.

Lemma boot_map_ext D N c c' n h s : (forall j, 0 <= j < 1024 -> c j <-> c' j) -> boot_map D N c n h s -> boot_map D N c' n h s.
Proof.
  intros Hc [Hwf Hnf Hu Hk HD (d & Hd & Hl & Hlp & Hslot & Hrest) Hbelow Hearly]. split; try done.
  exists d. do 3 (split; [done|]). split; [|done]. intros j Hj. destruct (Hslot j Hj) as (t & Ht & Htc). exists t. by rewrite <- Hc.
Qed.

(** The entries an address finds. *)
Lemma boot_read_page D N c n h s t j i : boot_map D N c n h s -> 0 <= j < 1024 -> 0 <= i < 1024 ->
  (exists d, directories s !! D = Some d /\ tables d !! Z.to_nat j = Some t /\ t <> 0) ->
  read_page t i s = Ok (boot_entry n h (j * 1024 + i)).
Proof.
  intros [? ? ? ? ? (d & Hd & _ & _ & _ & Htab & _) ? ?] Hj Hi (d' & Hd' & Ht & Ht0).
  rewrite Hd in Hd'. apply lookup_singleton_Some in Hd' as [_ <-]. destruct (Htab j t Hj Ht Ht0) as (Hps & _).
  unfold read_page. by rewrite Hps, boot_table_lookup.
Qed.

(** Mapping one more page. *)
Lemma boot_write_page D N c n h n' h' s t j i p b : boot_map D N c n h s -> 0 <= j < 1024 -> 0 <= i < 1024 ->
  (exists d, directories s !! D = Some d /\ tables d !! Z.to_nat j = Some t /\ t <> 0) ->
  p = boot_entry n' h' (j * 1024 + i) -> (forall v, v <> j * 1024 + i -> boot_entry n' h' v = boot_entry n h v) ->
  bitmap_wf b -> bitmap_set (bits s) b (n + h) true -> n' + h' = n + h + 1 ->
  boot_map D N c n' h' (write_page t i p (with_bits s b)).
Proof.
  intros [Hwf Hnf Hu Hk HD (d & Hd & Hl & Hlp & Hslot & Htab & Hinj & Honly) Hbelow Hearly] Hj Hi (d' & Hd' & Ht & Ht0) Hp Hrest Hb [Hbn Hbu] Hsum.
  rewrite Hd in Hd'. apply lookup_singleton_Some in Hd' as [_ <-]. destruct (Htab j t Hj Ht Ht0) as (Hps & _).
  split; cbn [write_page with_bits with_tables bits page_tables directories kernel_directory current_directory contents_of kstate]; try done.
  - congruence.
  - intros f Hf. rewrite Hbu by lia. case_decide as E; [lia|]. rewrite Hu by lia. lia.
  - exists d. split_and!; try done.
    + intros j' t' Hj' Ht' H0'. destruct (Htab j' t' Hj' Ht' H0') as (Hps' & ? & ?). split; [|done]. destruct (decide (t' = t)) as [->|Hne].
      * assert (j' = j) as -> by (by eapply Hinj). rewrite lookup_alter_eq, Hps. simpl. f_equal. by apply boot_table_insert.
      * rewrite lookup_alter_ne by done. rewrite Hps'. f_equal. apply boot_table_same. intros v Hv. apply Hrest.
        intros ->. apply Hne. assert (j' = j) as -> by lia. congruence.
    + intros t' ps. rewrite lookup_alter_Some. intros [(-> & ps' & Hq & _)|[_ Hq]]; by eapply Honly.
Qed.

(** ** The identity mapping *)

(** Slots in use when [n] pages are mapped. *)
Definition boot_slots (n j : Z) : Prop := j = HEAP_SLOT \/ j * 1024 < n.

Lemma boot_entry_identity n v : 0 <= n < HEAP_PAGE -> v <> n -> boot_entry (n + 1) 0 v = boot_entry n 0 v.
Proof.
  unfold boot_entry, HEAP_PAGE. intros Hn Hv. destruct (Z.ltb_spec v (n + 1)), (Z.ltb_spec v n); try lia; [done|].
  destruct (Z.leb_spec 0xC0000 v), (Z.ltb_spec v (0xC0000 + 0)); simpl; try done; lia.
Qed.

Lemma boot_entry_empty n v : n <= v -> boot_entry n 0 v = empty_page.
Proof.
  unfold boot_entry. intros Hv. rewrite (proj2 (Z.ltb_ge v n)) by lia.
  destruct (Z.leb_spec HEAP_PAGE v), (Z.ltb_spec v (HEAP_PAGE + 0)); simpl; try done; lia.
Qed.

Definition same_contents s s' : Prop := contents_of s' = contents_of s /\ current_directory s' = current_directory s.

Lemma map_identity_spec D N n s : boot_map D N (boot_slots n) n 0 s -> 0 <= n < N -> n < HEAP_PAGE ->
  placement_address (kstate s) + 0x1FFF < 2 ^ 32 -> placement_address (kstate s) mod 0x1000 = 0 ->
  exists s', map_identity (n * 0x1000) s = Ok s' /\ boot_map D N (boot_slots (n + 1)) (n + 1) 0 s' /\ same_contents s s' /\
    placement_address (kstate s') = placement_address (kstate s) + (if n mod 1024 =? 0 then 0x1000 else 0).
Proof.
  intros Hm Hn Hh Hroom Hal. unfold HEAP_PAGE in Hh. unfold map_identity.
  assert (0 <= n mod 1024 < 1024 /\ n = 1024 * (n / 1024) + n mod 1024) as [Hmod Hdiv] by (split; [apply Z.mod_pos_bound; lia|apply Z.div_mod; lia]).
  assert (0 <= n / 1024 < 768) as Hj by lia.
  assert (boot_slots n (n / 1024) <-> n mod 1024 <> 0) as Hslot by (unfold boot_slots, HEAP_SLOT; lia).
  destruct (boot_get_page D N (boot_slots n) n 0 s (n * 0x1000) (n / 1024) Hm) as (t & s1 & Hrun & Hm1 & Ht & Hb & Hcur & Hct & Hsame & Hnew).
  - lia.
  - by rewrite Z.div_mul.
  - destruct (Z.eq_dec (n mod 1024) 0); [right; tauto|left; tauto].
  - intros v Hv. destruct (Z.eq_dec (n mod 1024) 0); [right; apply boot_entry_empty; lia|left; tauto].
  - rewrite Hrun. rsimpl. rewrite Z.div_mul by lia. pose proof (bm_nframes _ _ _ _ _ _ Hm1) as Hnf. assert_step.
    pose proof (bw_nframes _ (bm_wf _ _ _ _ _ _ Hm1)) as Hn20.
    destruct (set_frame_spec (bits s1) n (bm_wf _ _ _ _ _ _ Hm1)) as (b & Hset & Hbwf & Hbset); [lia|]. rewrite u32_small in Hset by lia. rewrite Hset. rsimpl.
    assert (n / 1024 * 1024 + n mod 1024 = n) as Hback by lia.
    rewrite (boot_read_page D N _ n 0 s1 t (n / 1024) (n mod 1024) Hm1) by (done || lia). rsimpl. rewrite Hback, boot_entry_empty by lia. cbn [accessed dirty unused empty_page].
    eexists. split; [done|]. split; [|split].
    + apply (boot_map_ext D N (fun i => boot_slots n i \/ i = n / 1024)); [intros i Hi; unfold boot_slots, HEAP_SLOT; lia|].
      apply (boot_write_page D N _ n 0 _ _ _ _ (n / 1024)); try done; try lia.
      * rewrite Hback. unfold boot_entry. by rewrite (proj2 (Z.ltb_lt n (n + 1))) by lia.
      * intros v Hv. apply boot_entry_identity; [unfold HEAP_PAGE; lia|lia].
      * by rewrite Z.add_0_r.
    + by split.
    + cbn [write_page with_tables with_bits kstate]. destruct (Z.eqb_spec (n mod 1024) 0) as [E|E].
      * rewrite Hnew by tauto. by rewrite aligned_up_id.
      * rewrite (Hsame ltac:(tauto)). lia.
Qed.

(** One table for each 4 MiB of identity mapping. *)
Definition identity_tables (n : Z) : Z := (n + 1023) / 1024.

Lemma identity_tables_next n : 0 <= n -> identity_tables (n + 1) = identity_tables n + (if n mod 1024 =? 0 then 1 else 0).
Proof.
  intros Hn. unfold identity_tables. destruct (Z.eqb_spec (n mod 1024) 0); Z.to_euclidean_division_equations; lia.
Qed.

(** The loop ends with the mapping one page past the bump pointer, all
    tables that it allocated on the way included. *)
Lemma identity_map_spec D N P1 s : boot_map D N (boot_slots 0) 0 0 s -> placement_address (kstate s) = P1 ->
  P1 mod 0x1000 = 0 -> P1 + 0x302000 <= N * 0x1000 -> P1 + 0x302000 <= HEAP_PAGE * 0x1000 ->
  exists n s', identity_map s = Ok s' /\ boot_map D N (boot_slots n) n 0 s' /\ same_contents s s' /\
    n * 0x1000 = P1 + (identity_tables n + 1) * 0x1000 /\ placement_address (kstate s') = P1 + identity_tables n * 0x1000 /\
    0 < n <= 0xC0000 /\ (n + 256) * 0x1000 <= P1 + 0x402000.
Proof.
  intros Hm HP1 Hal HN Hh. unfold HEAP_PAGE in Hh. unfold identity_map.
  pose proof (bm_below _ _ _ _ _ _ Hm) as Hbelow. pose proof (bm_directory _ _ _ _ _ _ Hm) as HD. unfold sizeof_page_directory_t in Hbelow.
  match goal with |- context [while ?f (0, s)] => destruct (while_rule f
    (fun '(i, u) => exists n, i = n * 0x1000 /\ 0 <= n /\ boot_map D N (boot_slots n) n 0 u /\ same_contents s u /\
       placement_address (kstate u) = P1 + identity_tables n * 0x1000 /\ n * 0x1000 <= placement_address (kstate u) + 0x1000)
    (fun u => exists n, boot_map D N (boot_slots n) n 0 u /\ same_contents s u /\ 0 < n /\
       placement_address (kstate u) = P1 + identity_tables n * 0x1000 /\ n * 0x1000 = placement_address (kstate u) + 0x1000)
    (fun '(i, _) => 2 ^ 32 - i) (0, s)) as (u & -> & n & Hmu & Hcu & Hn0 & Hpu & Hnu) end.
  - intros [i u] (n & -> & Hn & Hmu & [Hc1 Hc2] & Hpu & Hle).
    assert (n <= 0xBFFFF) as Hn' by (unfold identity_tables in Hpu; pose proof (Z.div_mod (n + 1023) 1024); pose proof (Z.mod_pos_bound (n + 1023) 1024); lia).
    assert (identity_tables n <= 768) as Hit by (unfold identity_tables; apply Z.lt_succ_r, Z.div_lt_upper_bound; lia).
    assert (0 <= identity_tables n) as Hit0 by (unfold identity_tables; apply Z.div_pos; lia).
    rewrite u32_small by lia. destruct (Z.ltb_spec (n * 0x1000) (placement_address (kstate u) + 0x1000)) as [Hlt|Hge].
    2: { exists n. split_and!; [done..|lia|done|lia]. }
    destruct (map_identity_spec D N n u Hmu) as (u' & -> & Hmu' & [Hc1' Hc2'] & Hpu'); [lia|unfold HEAP_PAGE; lia|lia| |].
    { rewrite Hpu. by rewrite Z.mod_add. }
    rsimpl. rewrite u32_small by lia. split; [|lia]. exists (n + 1). rewrite identity_tables_next by done.
    assert (placement_address (kstate u) mod 0x1000 = 0) as Hpm by (rewrite Hpu; by rewrite Z.mod_add).
    pose proof (Z.div_mod (placement_address (kstate u)) 0x1000).
    split_and!; [lia|lia|done|split; congruence| |]; rewrite Hpu'; destruct (n mod 1024 =? 0); lia.
  - exists 0. change (identity_tables 0) with 0. split_and!; try done; lia.
  - lia.
  - exists n, u. split; [done|].
    assert (n <= 0xC0000) as Hn' by (unfold identity_tables in Hpu; pose proof (Z.div_mod (n + 1023) 1024); pose proof (Z.mod_pos_bound (n + 1023) 1024); lia).
    assert (identity_tables n <= 768) as Hit by (unfold identity_tables; apply Z.lt_succ_r, Z.div_lt_upper_bound; lia).
    split_and!; try done; lia.
Qed.

(** ** The pages of the heap *)

Lemma boot_entry_heap n h v : 0 <= h -> v <> HEAP_PAGE + h -> boot_entry n (h + 1) v = boot_entry n h v.
Proof.
  unfold boot_entry. intros Hh Hv. destruct (Z.ltb_spec v n); [done|].
  destruct (Z.leb_spec HEAP_PAGE v), (Z.ltb_spec v (HEAP_PAGE + (h + 1))), (Z.ltb_spec v (HEAP_PAGE + h)); simpl; try done; lia.
Qed.

Lemma back_heap_page_spec D N c n h s : boot_map D N c n h s -> c HEAP_SLOT -> 0 <= h < 256 -> 0 <= n <= HEAP_PAGE -> n + h < N ->
  exists s', back_heap_page ((HEAP_PAGE + h) * 0x1000) s = Ok s' /\ boot_map D N c n (h + 1) s' /\ same_contents s s' /\ kstate s' = kstate s.
Proof.
  intros Hm Hc Hh Hn HN. unfold back_heap_page, back_kernel_page. unfold HEAP_PAGE in *.
  assert ((0xC0000 + h) / 1024 = 768 /\ (0xC0000 + h) mod 1024 = h) as [Hdiv Hmod] by (Z.to_euclidean_division_equations; lia).
  destruct (boot_get_page D N c n h s ((0xC0000 + h) * 0x1000) 768 Hm) as (t & s1 & Hrun & Hm1 & Ht & Hb & Hcur & Hct & Hsame & _).
  - lia.
  - by rewrite Z.div_mul.
  - by left.
  - intros v _. by left.
  - rewrite Hrun. rsimpl. rewrite Z.div_mul, Hmod by lia. rewrite (Hsame Hc) in *.
    rewrite (boot_read_page D N c n h s t 768 h Hm) by (done || lia). rsimpl.
    change (768 * 1024) with 0xC0000. assert (boot_entry n h (0xC0000 + h) = empty_page) as ->.
    { unfold boot_entry, HEAP_PAGE. rewrite (proj2 (Z.ltb_ge _ n)), (proj2 (Z.ltb_ge _ (0xC0000 + h))) by lia. by rewrite andb_false_r. }
    pose proof (bm_nframes _ _ _ _ _ _ Hm) as Hnf.
    destruct (alloc_frame_spec empty_page 0 1 (bits s) (bm_wf _ _ _ _ _ _ Hm) eq_refl) as [[_ Hfull]|(f & b & Hal & Hf & Hfree & Hlow & Hbwf & Hbset)].
    + assert (used (bits s) (n + h) = true) as Hx by (apply Hfull; lia). apply (bm_used _ _ _ _ _ _ Hm) in Hx; lia.
    + assert (f = n + h) as ->.
      { destruct (Z.lt_trichotomy f (n + h)) as [Hlt|[?|Hgt]]; [|done|].
        - apply (bm_used _ _ _ _ _ _ Hm) in Hlt; [congruence|lia].
        - assert (used (bits s) (n + h) = true) as Hx by (apply Hlow; lia). apply (bm_used _ _ _ _ _ _ Hm) in Hx; lia. }
      rewrite Hal. rsimpl. eexists. split; [done|]. split; [|by split].
      apply (boot_write_page D N c n h _ _ _ _ 768); try done; try lia.
      * change (768 * 1024) with 0xC0000. unfold boot_entry, HEAP_PAGE. rewrite (proj2 (Z.ltb_ge _ n)), (proj2 (Z.leb_le _ _)), (proj2 (Z.ltb_lt _ _)) by lia.
        cbn [andb accessed dirty unused empty_page]. f_equal. simpl (_ =? _). lia.
      * intros v Hv. by apply boot_entry_heap; [lia|unfold HEAP_PAGE].
Qed.

(** A loop over the heap pages, from an invariant of its steps. *)
Lemma each_heap_page_rule (I : Z -> mm C K -> Prop) f s :
  (forall h u, 0 <= h < 256 -> I h u -> exists u', f ((HEAP_PAGE + h) * 0x1000) u = Ok u' /\ I (h + 1) u') ->
  I 0 s -> exists s', each_heap_page f s = Ok s' /\ I 256 s'.
Proof.
  intros Hf Hs. unfold each_heap_page, HEAP_PAGE, KHEAP_START, KHEAP_INITIAL_SIZE in *.
  match goal with |- context [while ?g _] => destruct (while_rule g
    (fun '(i, u) => exists h, 0 <= h <= 256 /\ i = (0xC0000 + h) * 0x1000 /\ I h u) (I 256) (fun '(i, _) => 2 ^ 32 - i) (0xC0000000, s)) as (u & Hr & HI) end.
  - intros [i u] (h & Hh & -> & HI). destruct (Z.ltb_spec ((0xC0000 + h) * 0x1000) (0xC0000000 + 0x100000)) as [Hlt|Hge].
    + destruct (Hf h u) as (u' & -> & HI'); [lia|done|]. rsimpl. rewrite u32_small by lia. split; [|lia]. exists (h + 1). split_and!; [lia..|done].
    + by replace 256 with h by lia.
  - exists 0. split_and!; [lia..|done].
  - lia.
  - by exists u.
Qed.

(** ** All the mappings *)

(** Before paging: no directory, and a bump pointer behind the archive
    with 5 MiB of memory after it. *)
Record before_paging (physical_memory_end : Z) s : Prop := {
  bp_early : early (kstate s);
  bp_placement : 0 < placement_address (kstate s) <= 0xB0000000;
  bp_memory : is_u32 physical_memory_end;
  bp_room : placement_address (kstate s) + 0x500000 <= physical_memory_end / 0x1000 * 0x1000;
  bp_tables : page_tables s = ∅;
  bp_directories : directories s = ∅
}.

(** Where the kernel directory goes: behind the frame bitmap. *)
Definition directory_at (placement physical_memory_end : Z) : Z :=
  aligned_up (placement + 4 * ((physical_memory_end / 0x1000 + 31) / 32)).

Lemma directory_at_bounds placement pme : is_u32 pme -> placement <= directory_at placement pme /\
  directory_at placement pme <= placement + 0x20FFF /\ directory_at placement pme mod 0x1000 = 0.
Proof.
  unfold is_u32, directory_at. intros Hp. set (w := (pme / 0x1000 + 31) / 32).
  assert (0 <= pme / 0x1000 < 0x100000) as Hn by (split; [apply Z.div_pos|apply Z.div_lt_upper_bound]; lia).
  assert (0 <= w < 0x8001) as Hw by (unfold w; split; [apply Z.div_pos|apply Z.div_lt_upper_bound]; lia).
  destruct (aligned_up_spec (placement + 4 * w)) as [Hm Hb]. split_and!; [lia..|done].
Qed.

Lemma first_directory_spec pme s : before_paging pme s -> pme mod 0x1000 = 0 ->
  let D := directory_at (placement_address (kstate s)) pme in
  exists s', first_directory pme s = Ok s' /\ boot_map D (pme / 0x1000) (fun _ => False) 0 0 s' /\ same_contents s s' /\
    placement_address (kstate s') = D + sizeof_page_directory_t.
Proof.
  intros [He [Hp0 Hp] Hpm Hroom Hts Hds] Hmod D. assert (pme / 0x1000 * 0x1000 = pme) as Hpe by (pose proof (Z.div_mod pme 0x1000); lia). rewrite Hpe in Hroom. destruct (directory_at_bounds (placement_address (kstate s)) pme Hpm) as (HD1 & HD2 & HDm). fold D in HD1, HD2, HDm.
  unfold is_u32 in Hpm. set (p := placement_address (kstate s)) in *. unfold first_directory, INDEX_FROM_BIT, BITS_PER_FRAME_WORD, kmalloc, kmalloc_a.
  set (w := (pme / 0x1000 + 31) / 32). assert (0x500 <= pme / 0x1000 < 0x100000) as Hnf by (split; [apply Z.div_le_lower_bound|apply Z.div_lt_upper_bound]; lia).
  assert (0 < w < 0x8001) as Hw by (unfold w; split; [apply Z.div_str_pos|apply Z.div_lt_upper_bound]; lia).
  rewrite (u32_small (w * 4)) by lia.
  destruct (early_serves (w * 4) 0 false (kstate s) He) as (k1 & Hk1 & He1 & Hp1); [done|lia|simpl; lia|].
  cbv zeta in Hk1, Hp1. simpl (_ =? _) in Hk1, Hp1. cbv iota in Hk1, Hp1. rewrite Hk1. rsimpl.
  destruct (initialise_bitmap_spec pme) as (b & -> & Hbwf & Hbn & Hbfree); [done|lia|]. rsimpl.
  destruct (early_serves sizeof_page_directory_t 1 false k1 He1) as (k2 & Hk2 & He2 & Hp2); [lia|done|unfold sizeof_page_directory_t; simpl; lia|].
  cbv zeta in Hk2, Hp2. simpl (_ =? _) in Hk2, Hp2. cbv iota in Hk2, Hp2. rewrite Hp1 in Hk2, Hp2. fold p in Hk2, Hp2.
  replace (aligned_up (p + w * 4)) with D in Hk2, Hp2 by (unfold D, directory_at; fold w; f_equal; lia).
  rewrite Hk2. rsimpl. eexists. split; [done|]. split; [|by split].
  unfold with_kernel_directory, with_directories, with_bits, with_kstate. unfold sizeof_page_directory_t in *.
  split; cbn [bits page_tables directories kernel_directory current_directory contents_of kstate]; try done; try lia.
  - intros f Hf. rewrite Hbfree by lia. split; [done|lia].
  - rewrite Hds, Hts, insert_empty. eexists. split; [done|]. cbn [tables tablesPhysical].
    rewrite !length_replicate. split; [done|]. split; [done|]. split; [|split; [|split]].
    + intros j Hj. exists 0. rewrite lookup_replicate_2 by lia. split; [done|]. split; [lia|done].
    + intros j t Hj [-> _]%lookup_replicate H0. done.
    + intros j j' t _ _ [-> _]%lookup_replicate _ H0. done.
    + intros t ps []%lookup_empty_Some.
  - unfold sizeof_page_directory_t. lia.
Qed.

Lemma reserve_table_spec D N s : boot_map D N (fun _ => False) 0 0 s -> placement_address (kstate s) = D + sizeof_page_directory_t ->
  D mod 0x1000 = 0 -> D + 0x8000 < 2 ^ 32 ->
  exists s', each_heap_page reserve_table s = Ok s' /\ boot_map D N (boot_slots 0) 0 0 s' /\ same_contents s s' /\
    placement_address (kstate s') = D + 0x4000.
Proof.
  unfold sizeof_page_directory_t. intros Hm Hp HDm HD.
  destruct (each_heap_page_rule (fun h u => boot_map D N (fun j => j = HEAP_SLOT /\ 0 < h) 0 0 u /\ same_contents s u /\
    placement_address (kstate u) = if decide (h = 0) then D + 8196 else D + 0x4000) reserve_table s) as (s' & Hrun & Hm' & Hc' & Hp').
  - intros h u Hh (Hmu & [Hc1 Hc2] & Hpu). unfold reserve_table, HEAP_PAGE.
    assert ((0xC0000 + h) / 1024 = 768) as Hdiv by (Z.to_euclidean_division_equations; lia).
    destruct (boot_get_page D N _ 0 0 u ((0xC0000 + h) * 0x1000) 768 Hmu) as (t & u' & -> & Hmu' & _ & _ & Hcur & Hct & Hsame & Hnew).
    + lia.
    + by rewrite Z.div_mul.
    + rewrite Hpu. unfold HEAP_SLOT. case_decide; [right|left]; lia.
    + intros v Hv. right. apply boot_entry_empty. lia.
    + rsimpl. eexists. split; [done|]. split; [|split; [split; congruence|]].
      * eapply boot_map_ext; [|exact Hmu']. intros j Hj. unfold HEAP_SLOT. lia.
      * rewrite decide_False by lia. unfold HEAP_SLOT in *. case_decide as E.
        -- rewrite Hnew, Hpu by lia. assert (aligned_up (D + 8196) = D + 0x3000) as ->; [|lia]. symmetry. apply aligned_up_unique; [|lia].
           change 0x3000 with (3 * 0x1000). by rewrite Z.mod_add.
        -- by rewrite (Hsame ltac:(lia)).
  - split; [|split; [by split|done]]. eapply boot_map_ext; [|exact Hm]. intros j Hj. split; [done|lia].
  - exists s'. split_and!; try done. eapply boot_map_ext; [|exact Hm']. intros j Hj. unfold boot_slots. lia.
Qed.

Lemma land_pages_end pme : is_u32 pme -> Z.land pme 0xFFFFF000 = pme / 0x1000 * 0x1000.
Proof. intros H. rewrite land_page_base by done. pose proof (Z.div_mod pme 0x1000). lia. Qed.

Lemma boot_mappings_spec pme s : before_paging pme s ->
  let D := directory_at (placement_address (kstate s)) (pme / 0x1000 * 0x1000) in
  exists n s', boot_mappings pme s = Ok s' /\ boot_map D (pme / 0x1000) (boot_slots n) n 256 s' /\ same_contents s s' /\
    placement_address (kstate s') = D + 0x4000 + identity_tables n * 0x1000 /\
    n * 0x1000 = placement_address (kstate s') + 0x1000 /\ 0 < n <= 0xC0000.
Proof.
  intros Hbp. pose proof Hbp as [He [Hp0 Hp] Hpm Hroom Hts Hds]. unfold boot_mappings. rewrite land_pages_end by done. unfold is_u32 in Hpm.
  set (e := pme / 0x1000 * 0x1000). assert (e <= pme < e + 0x1000) as Hee by (unfold e; Z.to_euclidean_division_equations; lia).
  assert (e / 0x1000 = pme / 0x1000) as Hn by (unfold e; by rewrite Z.div_mul).
  assert (before_paging e s) as Hbe by (split; try done; [unfold is_u32; lia|by rewrite Hn]).
  set (D := directory_at _ e). cbv zeta. fold e in Hroom. rewrite ASSERT_ok by lia. rsimpl.
  destruct (directory_at_bounds (placement_address (kstate s)) e) as (HD1 & HD2 & HDm); [unfold is_u32; lia|]. fold D in HD1, HD2, HDm.
  destruct (first_directory_spec e s Hbe) as (s1 & -> & Hm1 & [Hc1 Hd1] & Hp1); [unfold e; by apply Z.mod_mul|]. fold D in Hm1, Hp1. rsimpl.
  rewrite Hn in Hm1. destruct (reserve_table_spec D _ s1 Hm1 Hp1 HDm) as (s2 & -> & Hm2 & [Hc2 Hd2] & Hp2); [lia|]. rsimpl. rewrite Hp2.
  rewrite ASSERT_ok by lia. rsimpl.
  destruct (identity_map_spec D _ (D + 0x4000) s2 Hm2 Hp2) as (n & s3 & -> & Hm3 & [Hc3 Hd3] & Hn3 & Hp3 & Hn0 & Hmax).
  - change 0x4000 with (4 * 0x1000). by rewrite Z.mod_add.
  - fold e. lia.
  - unfold HEAP_PAGE. lia.
  - rsimpl. exists n.
    destruct (each_heap_page_rule (fun h u => boot_map D (pme / 0x1000) (boot_slots n) n h u /\ same_contents s3 u /\ kstate u = kstate s3)
      back_heap_page s3) as (s4 & Hrun & Hm4 & [Hc4 Hd4] & Hk4).
    + intros h u Hh (Hmu & [Hcu Hdu] & Hku). destruct (back_heap_page_spec D _ _ n h u Hmu) as (u' & Hru & Hmu' & [? ?] & ?); [by left|lia|unfold HEAP_PAGE; lia|lia|].
      exists u'. split; [done|]. split; [done|]. split; [split; congruence|congruence].
    + by split.
    + exists s4. split; [done|]. split; [done|]. split; [split; congruence|]. rewrite Hk4. split_and!; lia.
Qed.
End spec.

(** ** The blocks of the boot structures stay allocated *)

(** Creating the heap frees nothing. *)
Class BootKeeps (K : Type) `{!Kmalloc K} `{!KmallocLaws K} `{!BootAllocator K} : Prop := {
  install_keeps k k' : install_heap KHEAP_START (KHEAP_START + KHEAP_INITIAL_SIZE) 0xCFFFF000 0 0 k = Ok k' -> k_live k ⊆ k_live k'
}.

Section live.
Context {C K : Type} `{!Kmalloc K} `{!KmallocLaws K} `{!BootAllocator K} `{!BootLaws K} `{!BootKeeps K}.
Implicit Types s : mm C K.

Lemma live_mono s s' : page_tables s' = page_tables s -> directories s' = directories s -> k_live (kstate s) ⊆ k_live (kstate s') ->
  objects_live s -> objects_live s'.
Proof. intros Ht Hd Hk [H1 H2]. split; rewrite ?Ht, ?Hd; eauto. Qed.

Lemma live_write_page t i p b s : objects_live s -> objects_live (write_page t i p (with_bits s b)).
Proof.
  intros [H1 H2]. split; [|done]. intros x ps. simpl. rewrite lookup_alter_Some. intros [(-> & ps' & Hq & _)|[_ Hq]]; by eapply H1.
Qed.

Lemma live_set_slot d i t phys s : objects_live s -> objects_live (set_table_slot d i t phys s).
Proof.
  intros [H1 H2]. split; [done|]. intros x y. simpl. rewrite lookup_alter_Some. intros [(-> & y' & Hq & _)|[_ Hq]]; by eapply H2.
Qed.

Lemma live_get_page a make d s r s' : get_page a make d s = Ok (r, s') -> objects_live s -> objects_live s'.
Proof.
  unfold get_page. intros (u & _ & H)%bind_Ok_inv Hl. apply bind_Ok_inv in H as (x & _ & H). apply bind_Ok_inv in H as (t & _ & H).
  destruct (negb (t =? 0)); [by injection H as _ <-|]. destruct (negb (make =? 0)); [|by injection H as _ <-].
  apply bind_Ok_inv in H as ([[b ph] s1] & Hn & H). injection H as _ <-. apply live_set_slot.
  unfold new_page_table in Hn. apply bind_Ok_inv in Hn as ([[b' ph'] k] & Hk & Hn). injection Hn as _ _ <-.
  destruct (kmalloc_fresh _ _ _ _ _ Hk) as (_ & _ & Hlk). destruct Hl as [H1 H2]. split; simpl; rewrite Hlk.
  - intros y ps. rewrite lookup_insert_Some. intros [[<- _]|[_ Hy]]; [set_solver|]. apply H1 in Hy. set_solver.
  - intros y z Hy%H2. set_solver.
Qed.

Lemma live_each_page f s s' : (forall i u u', f i u = Ok u' -> objects_live u -> objects_live u') ->
  each_heap_page f s = Ok s' -> objects_live s -> objects_live s'.
Proof.
  intros Hf Hr Hs. revert Hr. unfold each_heap_page. apply (while_preserves (fun st => objects_live st.2) objects_live); [..|done].
  - intros [i u] [i' u'] Hu. simpl in Hu |- *. case_match; [|done]. intros (u1 & H1 & [= _ <-])%bind_Ok_inv. by eapply Hf.
  - intros [i u] r Hu. case_match; [|by intros [= <-]]. by intros (u1 & H1 & [=])%bind_Ok_inv.
Qed.

Lemma live_map_identity i s s' : map_identity i s = Ok s' -> objects_live s -> objects_live s'.
Proof.
  unfold map_identity. intros ([page s1] & Hg & H)%bind_Ok_inv Hl. destruct page as [[t j]|]; [|done].
  apply bind_Ok_inv in H as (? & _ & H). apply bind_Ok_inv in H as (b & _ & H). apply bind_Ok_inv in H as (p & _ & [= <-]).
  apply live_write_page. by eapply live_get_page.
Qed.

Lemma live_back_heap_page i s s' : back_heap_page i s = Ok s' -> objects_live s -> objects_live s'.
Proof.
  unfold back_heap_page, back_kernel_page. intros ([page s1] & Hg & H)%bind_Ok_inv Hl. destruct page as [[t j]|]; [|done].
  apply bind_Ok_inv in H as (p & _ & H). apply bind_Ok_inv in H as ([q b] & _ & [= <-]).
  apply live_write_page. by eapply live_get_page.
Qed.

Lemma live_identity_map s s' : identity_map s = Ok s' -> objects_live s -> objects_live s'.
Proof.
  intros Hr Hs. revert Hr. unfold identity_map. apply (while_preserves (fun st => objects_live st.2) objects_live); [..|done].
  - intros [i u] [i' u'] Hu. simpl in Hu |- *. case_match; [|done]. intros (u1 & H1 & [= _ <-])%bind_Ok_inv. by eapply live_map_identity.
  - intros [i u] r Hu. case_match; [|by intros [= <-]]. by intros (u1 & H1 & [=])%bind_Ok_inv.
Qed.

Lemma live_first_directory pme s s' : first_directory pme s = Ok s' -> objects_live s -> objects_live s'.
Proof.
  unfold first_directory. intros ([a k1] & Hk1 & H)%bind_Ok_inv [H1 H2]. apply bind_Ok_inv in H as (b & _ & H).
  apply bind_Ok_inv in H as ([d k2] & Hk2 & [= <-]).
  destruct (kmalloc_plain_fresh _ _ _ _ Hk1) as (_ & _ & L1). destruct (kmalloc_a_fresh _ _ _ _ Hk2) as (_ & _ & L2).
  split; simpl; rewrite L2, L1.
  - intros t ps Ht%H1. set_solver.
  - intros x y. rewrite lookup_insert_Some. intros [[<- _]|[_ Hx%H2]]; set_solver.
Qed.

Lemma live_boot_mappings pme s s' : boot_mappings pme s = Ok s' -> objects_live s -> objects_live s'.
Proof.
  unfold boot_mappings. intros (? & _ & H)%bind_Ok_inv Hl. apply bind_Ok_inv in H as (s1 & H1 & H). apply bind_Ok_inv in H as (s2 & H2 & H).
  apply bind_Ok_inv in H as (? & _ & H). apply bind_Ok_inv in H as (s3 & H3 & H4).
  eapply live_each_page in H4; [done|intros ???; apply live_back_heap_page|]. eapply live_identity_map in H3; [done|].
  eapply live_each_page in H2; [done| |by eapply live_first_directory].
  intros i u u' ([p u1] & Hg & [= <-])%bind_Ok_inv. by eapply live_get_page.
Qed.
End live.

(** ** The result *)

(** What virtual page [v] is mapped to once [n] pages are identity mapped. *)
Definition boot_pte (n v : Z) : option page_t :=
  let p := boot_entry n 256 v in if present p =? 0 then None else Some p.

Lemma boot_pte_slot n v : 0 <= n <= HEAP_PAGE -> 0 <= v < 2 ^ 20 -> ~ boot_slots n (v / 1024) -> boot_pte n v = None.
Proof.
  intros Hn Hv Hs. unfold boot_pte, boot_entry, boot_slots, HEAP_SLOT, HEAP_PAGE in *.
  rewrite (proj2 (Z.ltb_ge v n)) by (Z.to_euclidean_division_equations; lia).
  destruct (Z.leb_spec 0xC0000 v), (Z.ltb_spec v (0xC0000 + 256)); cbn [andb present empty_page Z.eqb]; try done.
  exfalso. Z.to_euclidean_division_equations. lia.
Qed.

Section result.
Context {C K : Type} `{!Kmalloc K} `{!KmallocLaws K} `{!BootAllocator K} `{!BootLaws K} `{!BootKeeps K}.
Implicit Types s : mm C K.

Lemma boot_map_pte D N n s v : boot_map D N (boot_slots n) n 256 s -> 0 <= n <= HEAP_PAGE -> 0 <= v < 2 ^ 20 -> pte s D v = boot_pte n v.
Proof.
  intros [? ? ? ? ? (d & Hd & _ & _ & Hslot & Htab & _) ? ?] Hn Hv. assert (0 <= v / 1024 < 1024) as Hj by (Z.to_euclidean_division_equations; lia).
  destruct (Hslot _ Hj) as (t & Ht & Htc). rewrite (pte_lookup s D v d t); [|by rewrite Hd, lookup_singleton_eq|done].
  destruct (Z.eqb_spec t 0) as [->|Ht0]; [by rewrite boot_pte_slot by tauto|]. destruct (Htab _ t Hj Ht Ht0) as (Hps & _).
  unfold table_entry. rewrite Hps. cbn [mbind option_bind]. rewrite boot_table_lookup by (apply Z.mod_pos_bound; lia). cbn [mbind option_bind].
  unfold boot_pte. by replace (v / 1024 * 1024 + v mod 1024) with v by (pose proof (Z.div_mod v 1024); lia).
Qed.

Lemma boot_entry_frame n v : 0 <= n -> 0 <= v -> present (boot_entry n 256 v) <> 0 -> 0 <= frame (boot_entry n 256 v) < n + 256.
Proof.
  intros Hn Hv. unfold boot_entry, HEAP_PAGE. destruct (Z.ltb_spec v n); [simpl; lia|].
  destruct (Z.leb_spec 0xC0000 v), (Z.ltb_spec v (0xC0000 + 256)); simpl; try done; lia.
Qed.

(** The address-space invariant holds as soon as paging is turned on. *)
Lemma boot_vm_ok D N n s : boot_map D N (boot_slots n) n 256 s -> 0 <= n -> n + 256 <= N -> objects_live s -> current_directory s = D -> vm_ok s.
Proof.
  intros [Hwf Hnf Hu Hk HD (d & Hd & Hl & Hlp & Hslot & Htab & Hinj & Honly) Hbelow Hearly] Hn0 HN Hlive Hcur.
  assert (forall x y, directories s !! x = Some y -> x = D /\ y = d) as Hone.
  { intros x y. rewrite Hd. by intros [-> ->]%lookup_singleton_Some. }
  assert (forall dir i t ps, ~ private s dir i t ps) as Hpriv.
  { intros dir i t ps (x & kd & Hx & Ht & _ & Hkd & Hne & _). apply Hone in Hx as [-> ->], Hkd as [_ ->]. done. }
  assert (directories s !! D = Some d) as HdD by (rewrite Hd; apply lookup_singleton_eq).
  split; try done; try (by intros; exfalso; eapply Hpriv).
  - intros x y [-> _]%Hone. lia.
  - rewrite Hk. eauto.
  - rewrite Hcur. eauto.
  - intros dir y [-> ->]%Hone. split; [done|done|]. intros j t Ht Ht0.
    assert (0 <= Z.of_nat j < 1024) as Hj by (apply lookup_lt_Some in Ht; lia). rewrite <- (Nat2Z.id j) in Ht.
    destruct (Htab _ t Hj Ht Ht0) as (Hps & _). eexists. split; [done|]. split; [apply boot_table_length|].
    intros f (i & q & Hq & Hpr & <-). assert (0 <= Z.of_nat i < 1024) as Hi by (apply lookup_lt_Some in Hq; rewrite boot_table_length in Hq; lia).
    rewrite <- (Nat2Z.id i), boot_table_lookup in Hq by done. injection Hq as <-.
    pose proof (boot_entry_frame n (Z.of_nat j * 1024 + Z.of_nat i) Hn0 ltac:(lia) Hpr) as Hf.
    split; [lia|]. apply Hu; lia.
  - intros t ps y Ht [-> ->]%Hone. destruct (Honly _ _ Ht) as (j & Hj & Htj & Ht0). by destruct (Htab j D Hj Htj Ht0) as (_ & _ & ?).
Qed.

Lemma boot_region_free D N n s : boot_map D N (boot_slots n) n 256 s -> n <= 0x400 -> user_region_free s.
Proof.
  intros [? ? ? Hk ? (d & Hd & _ & _ & Hslot & _) ? ?] Hn. exists d. rewrite Hk, Hd, lookup_singleton_eq. split; [done|].
  intros i Hi. destruct (Hslot (Z.of_nat i)) as (t & Ht & Htc); [lia|]. rewrite Nat2Z.id in Ht. rewrite Ht. f_equal.
  unfold boot_slots, HEAP_SLOT in Htc. destruct (Z.eq_dec t 0); [done|]. apply Htc in n0. lia.
Qed.

(** A clone of the kernel directory shares every table. *)
Lemma clone_kernel_runs s d a p k : kernel_directory s <> 0 -> directories s !! kernel_directory s = Some d -> List.length (tables d) = 1024%nat ->
  List.length (tablesPhysical d) = 1024%nat -> kmalloc_ap sizeof_page_directory_t (kstate s) = Ok (a, p, k) -> a <> kernel_directory s ->
  exists x, clone_directory (kernel_directory s) s = Ok x.
Proof.
  intros Hk0 Hd Hl Hlp Hk Ha. unfold clone_directory. rewrite (proj2 (Z.eqb_neq _ 0)) by done. cbn [negb ASSERT]. rsimpl. rewrite Hk. rsimpl.
  match goal with |- context [for_range 0 1024 ?f ?s0] =>
    destruct (for_range_rule (fun _ u => directories u !! kernel_directory s = Some d /\ kernel_directory u = kernel_directory s) f 0 1024 s0) as (u & -> & _) end.
  - lia.
  - intros j u Hj [Hu Hku]. unfold clone_slot, read_directory, table_slot. rewrite Hku, Hu. rsimpl.
    destruct (lookup_lt_is_Some_2 (tables d) (Z.to_nat j)) as [t Ht]; [lia|]. rewrite Ht. rsimpl. destruct (t =? 0); [by exists u|].
    rewrite Ht. rsimpl. rewrite Z.eqb_refl. destruct (lookup_lt_is_Some_2 (tablesPhysical d) (Z.to_nat j)) as [q ->]; [lia|]. rsimpl.
    eexists. split; [done|]. split; [|done]. simpl. by rewrite lookup_alter_ne.
  - split; [|done]. simpl. by rewrite lookup_insert_ne.
  - rsimpl. by eexists.
Qed.

(** It reads like the kernel directory and owns no frame. *)
Lemma clone_kernel_same s s' nd d : vm_ok s -> directories s !! kernel_directory s = Some d -> forked s s' (kernel_directory s) nd ->
  (forall v, 0 <= v < 2 ^ 20 -> pte s' nd v = pte s (kernel_directory s) v) /\
  (forall g, 0 <= g -> used (bits s') g = true <-> used (bits s) g = true).
Proof.
  intros Hvm Hd Hf. split.
  - intros v Hv. destruct (pte s (kernel_directory s) v) as [p|] eqn:E; [|by apply (fk_none _ _ _ _ Hf)].
    assert (exists t, tables d !! Z.to_nat (v / 1024) = Some t /\ t <> 0) as (t & Ht & Ht0).
    { unfold pte in E. rewrite Hd in E. simpl in E. destruct (tables d !! Z.to_nat (v / 1024)) as [t|] eqn:Et; [|done]. simpl in E.
      exists t. split; [done|]. intros ->. done. }
    destruct (fk_shared _ _ _ _ Hf (Z.to_nat (v / 1024))) as (x & kd & t' & Hx & Hkd & Hxt & Hkt & _); [by exists d, d, t|].
    rewrite <- E, <- (fk_old _ _ _ _ Hf (kernel_directory s) v).
    + rewrite (fk_kernel _ _ _ _ Hf) in Hkd. by rewrite (pte_lookup s' nd v x t' Hx Hxt), (pte_lookup s' _ v kd t' Hkd Hkt).
    + intros E2. destruct (fk_new _ _ _ _ Hf) as (Hn & _). rewrite <- E2, Hd in Hn. done.
  - intros g Hg. rewrite (fk_used_exactly _ _ _ _ Hf g Hg). split; [|by left]. intros [?|(i & t & ps & Hp & _)]; [done|].
    destruct (fk_source _ _ _ _ Hf i t ps Hp) as (y & qs & Hq). by apply private_kernel in Hq.
Qed.

(** [initialise_paging] succeeds when the archive has 5 MiB of memory
    behind it. *)
Record paging_started (pme n : Z) (placement : Z) s s' : Prop := {
  ps_ok : vm_ok s';
  ps_region : n <= 0x400 -> user_region_free s';
  ps_kernel : kernel_directory s' = directory_at placement (pme / 0x1000 * 0x1000);
  ps_current : current_directory s' <> kernel_directory s';
  ps_limit : n * 0x1000 = kernel_directory s' + 0x5000 + identity_tables n * 0x1000;
  ps_structures kd j t : directories s' !! kernel_directory s' = Some kd -> tables kd !! j = Some t -> t <> 0 -> t + 0x1000 <= n * 0x1000;
  ps_nframes : nframes (bits s') = pme / 0x1000;
  ps_used f : 0 <= f < nframes (bits s') -> used (bits s') f = true <-> f < n + 256;
  ps_pages v : 0 <= v < 2 ^ 20 -> pte s' (kernel_directory s') v = boot_pte n v /\ pte s' (current_directory s') v = boot_pte n v;
  ps_high v : HEAP_PAGE + 1024 <= v < 2 ^ 20 -> user_slot s' (current_directory s') v;
  ps_contents f : f < n + 256 -> 0 <= f -> contents_of s' (base f) = contents_of s (base f);
  ps_bounds : 0 <= n <= HEAP_PAGE /\ n + 256 <= pme / 0x1000
}.

Lemma initialise_paging_spec pme t s : before_paging pme s ->
  exists n s', initialise_paging pme t s = Ok (<[14 := PageFault]> t, s') /\ paging_started pme n (placement_address (kstate s)) s s'.
Proof.
  intros Hbp. pose proof Hbp as [He [Hp0 Hp] Hpm Hroom Hts Hds]. unfold initialise_paging.
  destruct (boot_mappings_spec pme s Hbp) as (n & s1 & Hrun & Hm & [Hct Hcu] & Hpl & Hn & Hnb). rewrite Hrun. rsimpl.
  assert (objects_live s1) as Hlive.
  { eapply live_boot_mappings; [exact Hrun|]. split; rewrite ?Hts, ?Hds; by intros ?? ?%lookup_empty_Some. }
  set (D := directory_at _ _) in *. unfold is_u32 in Hpm.
  assert (0 < D /\ D + 0x8000 < 0xC0000000 /\ n + 256 <= pme / 0x1000) as (HD0 & HD & Hn256).
  { destruct (directory_at_bounds (placement_address (kstate s)) (pme / 0x1000 * 0x1000)) as (H1 & H2 & _); [unfold is_u32; Z.to_euclidean_division_equations; lia|].
    fold D in H1, H2. assert (identity_tables n <= 768) as Hit by (unfold identity_tables; apply Z.lt_succ_r, Z.div_lt_upper_bound; lia). lia. }
  pose proof (bm_kernel _ _ _ _ _ _ Hm) as Hk. set (s2 := switch_page_directory (kernel_directory s1) s1).
  assert (boot_map D (pme / 0x1000) (boot_slots n) n 256 s2) as Hm2 by (destruct Hm; by split).
  assert (0 <= identity_tables n) as Hit0 by (unfold identity_tables; apply Z.div_pos; lia).
  destruct (heap_starts (kstate s1)) as (k' & Hi & a & p & k'' & Hka & Ha); [apply Hm|lia|unfold sizeof_heap_t, KHEAP_START; lia|].
  change (kstate s2) with (kstate s1). rewrite Hi. rsimpl.
  assert (vm_ok s2) as Hvm2 by (apply (boot_vm_ok D (pme / 0x1000) n s2 Hm2); [lia|done|by destruct Hlive|done]).
  set (s3 := with_kstate s2 k'). assert (objects_live s3) as Hlive3 by (apply (live_mono s1); [done|done|by apply install_keeps|done]).
  assert (vm_ok s3) as Hvm3.
  { apply (vm_ok_kstate s2); [done|]. intros x [[y Hy]|[y Hy]]; [by eapply (ol_tables _ Hlive3)|by eapply (ol_directories _ Hlive3)]. }
  destruct Hm as [? Hnf Hu _ _ (d & Hd & Hl & Hlp & Hslot & Htab & _ & Honly) Hbelow _].
  assert (kernel_directory s3 = D) as Hk3 by done. unfold sizeof_page_directory_t in Hbelow.
  assert (directories s3 !! kernel_directory s3 = Some d) as Hd3 by (rewrite Hk3; simpl; rewrite Hd; apply lookup_singleton_eq).
  unfold KHEAP_START in Ha.
  destruct (clone_kernel_runs s3 d a p k'') as [[nd s4] Hrun4]; [lia|done|done|done|done|lia|].
  destruct (clone_directory_forked s3 (kernel_directory s3) Hvm3) as [Hf|(nd' & s4' & Hrun4' & _ & Hf)]; [by eexists|by destruct (clone_failure_not_ok _ Hf (nd, s4))|].
  rewrite Hrun4 in Hrun4'. injection Hrun4' as <- <-. change (kernel_directory s1) with (kernel_directory s3). rewrite Hrun4. rsimpl.
  destruct (clone_kernel_same s3 s4 nd d Hvm3 Hd3 Hf) as [Hpte Hused]. pose proof (fk_kernel _ _ _ _ Hf) as Hk4. rewrite Hk3 in *.
  assert (forall v, 0 <= v < 2 ^ 20 -> pte s3 D v = boot_pte n v) as Hmapped.
  { intros v Hv. apply (boot_map_pte D (pme / 0x1000) n s2); [done|unfold HEAP_PAGE; lia|done]. }
  assert (nd <> D) as Hnd by (intros ->; destruct (fk_new _ _ _ _ Hf) as (Hx & _); congruence).
  exists n, (switch_page_directory nd s4). split; [done|].
  assert (vm_ok (switch_page_directory nd s4)) as Hvm5.
  { destruct (fk_ok _ _ _ _ Hf) as [? [] ? ? ? Hdir ? ? ? ? ? ?]. split; try done; [|intros x y Hx; destruct (Hdir x y Hx); by split]. simpl. apply (fk_directories _ _ _ _ Hf). by right. }
  split; cbn [switch_page_directory kernel_directory current_directory bits]; try done.
  - intros Hn4. apply (user_region_keep s3); [exact (eq_trans Hk4 (eq_sym Hk3))|exact (fk_kernel_slots _ _ _ _ Hf)|].
    by apply (boot_region_free D (pme / 0x1000) n s2).
  - by rewrite Hk4.
  - rewrite Hk4. lia.
  - intros kd j t' Hkd Ht' Ht0'. change (directories s4 !! kernel_directory s4 = Some kd) in Hkd.
    rewrite Hk4 in Hkd. assert (kd = d) as ->.
    { pose proof (fk_kernel_slots _ _ _ _ Hf) as E. rewrite Hk3 in E. change (directories s4 !! D = directories s3 !! D) in E. congruence. }
    assert (0 <= Z.of_nat j < 1024) as Hj by (apply lookup_lt_Some in Ht'; lia). rewrite <- (Nat2Z.id j) in Ht'.
    destruct (Htab _ t' Hj Ht' Ht0') as (_ & Hlt & _). lia.
  - rewrite (fk_nframes _ _ _ _ Hf). done.
  - intros f Hf0. rewrite Hused by lia. apply Hu. rewrite (fk_nframes _ _ _ _ Hf) in Hf0. change (bits s3) with (bits s1) in Hf0. lia.
  - intros v Hv. rewrite Hk4. split.
    + rewrite <- Hmapped by done. apply (fk_old _ _ _ _ Hf D v). congruence.
    + rewrite <- Hmapped by done. by apply Hpte.
  - unfold HEAP_PAGE. intros v Hv. assert (0 <= v / 1024 < 1024) as Hj by (Z.to_euclidean_division_equations; lia).
    destruct (Hslot _ Hj) as (t' & Ht' & Htc). assert (t' = 0) as ->.
    { destruct (Z.eq_dec t' 0) as [|Hne]; [done|]. apply Htc in Hne. exfalso. unfold boot_slots, HEAP_SLOT in Hne. Z.to_euclidean_division_equations. lia. }
    destruct (vm_current _ Hvm5) as [x Hx]. pose proof (fk_kernel_slots _ _ _ _ Hf) as E. rewrite Hk3, Hd3 in E.
    exists x, d. split; [exact Hx|]. split; [change (directories s4 !! kernel_directory s4 = Some d); by rewrite Hk4|]. split; [change (nd <> kernel_directory s4); by rewrite Hk4|].
    intros t'' _ Ht0'' Hkt. rewrite Ht' in Hkt. injection Hkt as <-. done.
  - intros f Hf1 Hf0. change (contents_of s4 (base f) = contents_of s (base f)). rewrite (fk_contents _ _ _ _ Hf f); [by change (contents_of s3) with (contents_of s1); rewrite Hct| |].
    + change (bits s3) with (bits s1). lia.
    + change (bits s3) with (bits s1). apply Hu; lia.
  - unfold HEAP_PAGE in *. lia.
Qed.
End result.

(** ** The heap on the tables of boot *)

Lemma boot_pte_frame n v p : boot_pte n v = Some p -> 0 <= n <= HEAP_PAGE -> 0 <= v < 2 ^ 20 ->
  (v < n /\ frame p = v) \/ (HEAP_PAGE <= v < HEAP_PAGE + 256 /\ frame p = n + (v - HEAP_PAGE)).
Proof.
  unfold boot_pte, boot_entry, HEAP_PAGE. intros Hp Hn Hv. destruct (Z.ltb_spec v n).
  - left. injection Hp as <-. simpl. lia.
  - right. destruct (Z.leb_spec 0xC0000 v), (Z.ltb_spec v (0xC0000 + 256)); try done. injection Hp as <-. simpl. lia.
Qed.

Lemma boot_pte_once n v v' p p' : 0 <= n <= HEAP_PAGE -> 0 <= v < 2 ^ 20 -> 0 <= v' < 2 ^ 20 ->
  boot_pte n v = Some p -> boot_pte n v' = Some p' -> frame p = frame p' -> v = v'.
Proof. intros Hn Hv Hv' H1%boot_pte_frame H2%boot_pte_frame Hf; [|done..]. lia. Qed.

Lemma boot_pte_heap n v : 0 <= n <= HEAP_PAGE -> HEAP_PAGE <= v < HEAP_PAGE + 256 -> exists p, boot_pte n v = Some p.
Proof.
  intros Hn Hv. unfold boot_pte, boot_entry. rewrite (proj2 (Z.ltb_ge v n)), (proj2 (Z.leb_le HEAP_PAGE v)), (proj2 (Z.ltb_lt v _)) by lia.
  by eexists.
Qed.

Definition HEAP_WINDOW_END : Z := KHEAP_START + 0x400000.

Section boot_window.
Context {C K : Type} `{!Kmalloc K} `{!KmallocLaws K}.
Implicit Types s : mm C K.

(** The first table of the heap is a window: 4 MiB that the heap can use
    without a new page table. *)
Lemma paging_started_window pme n placement s s' : paging_started pme n placement s s' ->
  heap_window KHEAP_START HEAP_WINDOW_END s' /\
  (forall a, KHEAP_START <= a < KHEAP_START + KHEAP_INITIAL_SIZE -> is_Some (kernel_page s' a)).
Proof.
  intros Hps. destruct (ps_bounds _ _ _ _ _ Hps) as [Hn _]. pose proof (ps_ok _ _ _ _ _ Hps) as Hvm. unfold HEAP_WINDOW_END, KHEAP_START, KHEAP_INITIAL_SIZE.
  destruct (boot_pte_heap n HEAP_PAGE Hn) as [p0 Hp0]; [lia|]. pose proof Hp0 as Hk0.
  rewrite <- (proj1 (ps_pages _ _ _ _ _ Hps HEAP_PAGE ltac:(unfold HEAP_PAGE; lia))) in Hk0.
  destruct (kernel_pte_slot _ _ _ Hvm Hk0) as (t & qs & Hs & _ & Hq0 & Hpp0). change (HEAP_PAGE mod 1024) with 0 in Hq0.
  assert (forall v, 0xC0000000 <= v * 0x1000 < 0xC0000000 + 0x400000 -> v / 1024 = HEAP_PAGE / 1024) as Hslot
    by (unfold HEAP_PAGE; intros; Z.to_euclidean_division_equations; lia).
  split; [split|].
  - done.
  - lia.
  - intros v Hv. exists t, qs. destruct Hs as (kd & Hkd & Ht & H0 & Hqs). exists kd. by rewrite Hslot.
  - intros v v' t1 rs1 rs2 Hv Hv' (kd & Hkd & Ht & H0 & Hrs) Hs2. rewrite (Hslot v Hv) in *.
    destruct Hs as (kd' & Hkd' & Ht' & H0' & Hqs). assert (t1 = t) as -> by congruence.
    destruct Hs2 as (kd2 & Hkd2 & Ht2 & _ & Hrs2). assert (rs2 = qs) as -> by congruence.
    assert (HEAP_PAGE = v' / 1024 * 1024) as ->; [|by rewrite Z.div_mul].
    assert (0 <= v' / 1024 * 1024 < 2 ^ 20) as Hw by (Z.to_euclidean_division_equations; lia).
    apply (boot_pte_once n _ _ p0 p0 Hn); [unfold HEAP_PAGE; lia|done|done| |done].
    rewrite <- (proj1 (ps_pages _ _ _ _ _ Hps _ Hw)). rewrite (kernel_pte _ _ t qs) by (exists kd2; by rewrite Z.div_mul).
    rewrite Z.mod_mul by done. change (Z.to_nat 0) with 0%nat in *. rewrite Hq0. cbn [mbind option_bind]. by rewrite (proj2 (Z.eqb_neq _ 0)).
  - intros v v' p p' Hv Hv'. assert (0 <= v < 2 ^ 20) as Hv20 by lia.
    rewrite !(fun w Hw => proj1 (ps_pages _ _ _ _ _ Hps w Hw)) by done. by apply boot_pte_once.
  - intros a Ha. destruct (boot_pte_heap n (a / 0x1000) Hn) as [p Hp]; [unfold HEAP_PAGE; Z.to_euclidean_division_equations; lia|].
    exists p. unfold kernel_page. rewrite (proj1 (ps_pages _ _ _ _ _ Hps (a / 0x1000) ltac:(Z.to_euclidean_division_equations; lia))). done.
Qed.

Lemma paging_started_frames pme n placement s s' : paging_started pme n placement s s' ->
  frames_left (pme / 0x1000 - (n + 256)) s'.
Proof.
  intros Hps. destruct (ps_bounds _ _ _ _ _ Hps) as [Hn Hle]. exists (seqZ (n + 256) (pme / 0x1000 - (n + 256))). split_and!.
  - apply NoDup_seqZ.
  - intros f Hf%elem_of_seqZ. rewrite (ps_nframes _ _ _ _ _ Hps). split; [lia|].
    destruct (used (bits s') f) eqn:E; [|done]. apply (ps_used _ _ _ _ _ Hps) in E; [lia|]. rewrite (ps_nframes _ _ _ _ _ Hps). lia.
  - rewrite length_seqZ. lia.
Qed.
End boot_window.

(** ** A concrete allocator

    An allocator whose bump pointer jumps to the heap: it obeys the laws of
    the kernel allocator and those of boot. *)

Record bump : Type := mk_bump { bp_next : Z; bp_live : gset Z }.

#[export] Instance bump_kmalloc : Kmalloc bump := {|
  kmalloc_int sz align phys k :=
    let a := if align =? 1 then aligned_up (bp_next k) else bp_next k in
    if bool_decide (0 < a < 2 ^ 32 /\ (a ∉ bp_live k)) then Ok (a, if phys then a else 0, mk_bump (a + sz) ({[a]} ∪ bp_live k))
    else Panic ASSERTION_FAILED;
  kfree a k := if decide (a ∈ bp_live k) then Ok (mk_bump (bp_next k) (bp_live k ∖ {[a]})) else Panic ASSERTION_FAILED
|}.

#[export] Program Instance bump_laws : KmallocLaws bump := {| k_live := bp_live |}.
Next Obligation.
  intros sz align phys k a p k'. simpl. case_bool_decide as H; [|done]. intros [= <- <- <-]. simpl. tauto.
Qed.
Next Obligation. intros a k k' Ha. simpl in *. rewrite decide_True by done. by intros [= <-]. Qed.

#[export] Instance bump_boot : BootAllocator bump := {|
  BootPaging.placement_address := bp_next;
  set_placement_address p k := mk_bump p (bp_live k);
  install_heap start _ _ _ _ k := Ok (mk_bump (start + 0x80000) (bp_live k))
|}.

#[export] Program Instance bump_boot_laws : BootLaws bump := {| early k := forall x, x ∈ bp_live k -> x < bp_next k |}.
Next Obligation. intros p k Hk Hp. simpl in *. split; [|done]. intros x Hx%Hk. lia. Qed.
Next Obligation.
  intros sz align phys k Hk Hp Hsz Hfit. simpl in *. destruct (aligned_up_spec (bp_next k)) as [_ Hu].
  rewrite bool_decide_true.
  - eexists. split; [done|]. simpl. split; [|done]. intros x [->%elem_of_singleton|Hx%Hk]%elem_of_union; destruct (align =? 1); lia.
  - destruct (align =? 1); (split; [lia|intros Hx%Hk; lia]).
Qed.
Next Obligation.
  intros k Hk Hp Hfit. simpl in *. unfold sizeof_heap_t, KHEAP_START in *. eexists. split; [done|].
  unfold kmalloc_ap. simpl. change (aligned_up (0xC0000000 + 0x80000)) with 0xC0080000. rewrite bool_decide_true.
  - eexists _, _, _. split; [done|]. lia.
  - split; [lia|]. intros Hx%Hk. lia.
Qed.
#[export] Instance bump_keeps : BootKeeps bump.
Proof. split. intros k k' [= <-]. done. Qed.

(** [initialise_paging] builds the identity map, the kernel heap and a copy
    of the kernel directory, and fails on no memory of at least 5 MiB above
    the bump pointer. *)
Section paging_property.
Context {K : Type} `{!Kmalloc K} `{!KmallocLaws K} `{!BootAllocator K} `{!BootLaws K} `{!BootKeeps K}.

(** C20: paging starts.  On an empty address space whose bump pointer leaves
    5 MiB, [initialise_paging] returns, having registered the page fault
    handler; every page up to [n] - one page past the bump pointer - maps
    to the frame of its own number, the heap pages map to the next 256
    frames, no other page is mapped, exactly those frames are used, the
    current directory is a distinct clone with the same mappings, and every
    structure it built lies below the limit. *)
Theorem paging_initialised pme t (s : mm (Z -> Z) K) : before_paging pme s ->
  exists n s', initialise_paging pme t s = Ok (<[14 := PageFault]> t, s') /\ paging_started pme n (placement_address (kstate s)) s s'.
Proof. exact (initialise_paging_spec pme t s). Qed.
End paging_property.

Definition early_mm : mm (Z -> Z) bump := mk_mm (mk_bitmap [] 0 0) ∅ ∅ (fun _ _ => 0) 0 0 (mk_bump 0x101400 ∅).

Lemma early_mm_before : before_paging 0x1000000 early_mm.
Proof.
  by split.
Qed.

Lemma paging_initialised_witness : exists n s', initialise_paging 0x1000000 ∅ early_mm = Ok ({[14 := PageFault]}, s') /\
  paging_started 0x1000000 n 0x101400 early_mm s'.
Proof. exact (paging_initialised 0x1000000 ∅ early_mm early_mm_before). Defined.

(** C21: the kernel heap on its page tables.  As long as the window has tables and
    frames, [alloc] returns a payload every byte of which lies in a mapped
    page of the kernel, keeps every other payload, and changes no page and
    no frame of any address space outside the window; [free] of that payload
    (unless it leaves a sliver, see [free_sliver_panics]) gives it back and
    keeps every remaining payload mapped. *)
Theorem kernel_heap_mapped {K} `{!Kmalloc K} `{!KmallocLaws K} LO HI n size page_align (s : hstate (mm (Z -> Z) K)) bl :
  arena LO HI s -> heap_wf (hheap s) -> heap_ok (hmem s) (hheap s) bl ->
  0 < size -> size + MIN_BLOCK < 2 ^ 32 -> 0 <= page_align -> HEAP_MIN_SIZE <= end_address (hheap s) - start_address (hheap s) ->
  let room := 3 * round_up_page (size + MIN_BLOCK) in
  end_address (hheap s) + room <= max_address (hheap s) -> end_address (hheap s) + room <= HI -> room <= n * 0x1000 ->
  frames_left n (hpages s) -> OrderedArray.size (index (hheap s)) + 4 < max_size (index (hheap s)) ->
  exists p s' bl', alloc ALLOC_ROUNDS size page_align s = Ok (p, s') /\ mapped_alloc LO HI s s' bl bl' size page_align p /\
    (no_sliver bl' p (start_address (hheap s')) ->
     exists k s'' bl'', free p s' = Ok s'' /\ mapped_free LO HI s' s'' bl' bl'' p k).
Proof.
  intros Har Hwf Hok Hsz Hs32 Hal Hmin room Hmax Hhi Hroom Hfr Hidx.
  destruct (alloc_mapped LO HI n size page_align s bl) as (p & s' & bl' & Hrun & Hma); [done..|lia|].
  exists p, s', bl'. split; [exact Hrun|]. split; [exact Hma|]. intros Hns.
  destruct (ma_payload _ _ _ _ _ _ _ _ _ Hma) as (k & _ & Hpay & _). pose proof (ma_index _ _ _ _ _ _ _ _ _ Hma) as [Hi1 Hi2].
  pose proof (ma_end _ _ _ _ _ _ _ _ _ Hma). pose proof (ma_start _ _ _ _ _ _ _ _ _ Hma) as Hst.
  destruct (free_mapped LO HI s' bl' p k) as (s'' & bl'' & Hrun' & Hmf); [by apply Hma|by apply Hma|by apply Hma| |lia|done|lia|by exists k, s'', bl''].
  rewrite Hst, Hpay. by left.
Qed.

(** The heap right after [initialise_paging]. *)
Lemma boot_heap_arena : exists (s : hstate (mm (Z -> Z) bump)),
  create_heap (fun _ m => Ok (0x200000, m)) KHEAP_START (KHEAP_START + KHEAP_INITIAL_SIZE) 0xCFFFF000 0 0 (fun _ => 0xCC) (hpages s) = Ok s /\
  created KHEAP_START (KHEAP_START + KHEAP_INITIAL_SIZE) 0xCFFFF000 (hpages s) s /\ arena KHEAP_START HEAP_WINDOW_END s /\ frames_left 3 (hpages s).
Proof.
  destruct (initialise_paging_spec 0x1000000 ∅ early_mm early_mm_before) as (n & m1 & _ & Hps).
  destruct (paging_started_window _ _ _ _ _ Hps) as [Hw Hmap]. pose proof (paging_started_frames _ _ _ _ _ Hps) as Hfr.
  assert (n <= 0x200) as Hn.
  { pose proof (ps_limit _ _ _ _ _ Hps) as Hl. rewrite (ps_kernel _ _ _ _ _ Hps) in Hl.
    change (directory_at (placement_address (kstate early_mm)) (0x1000000 / 0x1000 * 0x1000)) with 0x102000 in Hl.
    unfold identity_tables in Hl. pose proof (ps_bounds _ _ _ _ _ Hps) as [_ Hb]. Z.to_euclidean_division_equations. lia. }
  destruct (create_heap_correct (fun _ m => Ok (0x200000, m)) KHEAP_START (KHEAP_START + KHEAP_INITIAL_SIZE) 0xCFFFF000 0 0 (fun _ => 0xCC) m1 0x200000 m1)
    as (s & Hrun & Hc); [done|done|done|done|by right|by vm_compute|split; by vm_compute|].
  exists s. rewrite (cr_pages _ _ _ _ _ Hc). split; [exact Hrun|]. split; [exact Hc|]. split.
  - apply (created_arena m1 HEAP_WINDOW_END Hw); [by vm_compute|exact Hmap|exact Hc].
  - eapply frames_left_weaken; [exact Hfr|]. change (0x1000000 / 0x1000) with 0x1000. lia.
Qed.

Lemma kernel_heap_mapped_witness : exists (s s' s'' : hstate (mm (Z -> Z) bump)) p k bl' bl'',
  alloc ALLOC_ROUNDS 100 1 s = Ok (p, s') /\ free p s' = Ok s'' /\ mapped_free KHEAP_START HEAP_WINDOW_END s' s'' bl' bl'' p k.
Proof.
  destruct boot_heap_arena as (s & _ & Hc & Har & Hfr).
  pose proof (cr_start _ _ _ _ _ Hc) as Hs. pose proof (cr_end _ _ _ _ _ Hc) as He. pose proof (cr_max _ _ _ _ _ Hc) as Hm.
  pose proof (cr_index _ _ _ _ _ Hc) as Hi. pose proof (cr_cap _ _ _ _ _ Hc) as Hcap.
  destruct (kernel_heap_mapped KHEAP_START HEAP_WINDOW_END 3 100 1 s _ Har (cr_wf _ _ _ _ _ Hc) (cr_ok _ _ _ _ _ Hc)) as (p & s' & bl' & Hrun & Hma & Hfree);
    [lia|by vm_compute|lia|rewrite Hs, He; by vm_compute|rewrite He, Hm; by vm_compute|rewrite He; by vm_compute|by vm_compute|exact Hfr|rewrite Hi, Hcap; by vm_compute|].
  destruct (ma_payload _ _ _ _ _ _ _ _ _ Hma) as (n & _ & Hpay & _).
  destruct Hfree as (k & s'' & bl'' & Hrun' & Hmf).
  - rewrite (ma_start _ _ _ _ _ _ _ _ _ Hma). apply (only_payload_no_sliver p n); [exact Hpay|by apply Hma].
  - exists s, s', s'', p, k, bl', bl''. split; [exact Hrun|]. split; [exact Hrun'|exact Hmf].
Defined.
