(* ===== verification/LibC.v ===== *)
(** * user/libc: the library that user programs are linked with

    A program in ring 3 sees its memory and interrupt 0x80: [UserWorld] has
    a load, a store and the trap, and nothing else.  The trap gets EAX and
    as many of EBX, ECX and EDX as the asm statement names; the remaining
    registers hold whatever the compiler left there, so they belong to the
    world.  [Ring3.v] makes the machine of syscall.c such a world. *)

From S2P Require Import Prelude Memory.

Class UserWorld (W : Type) : Type := {
  int80 : list Z -> W -> res (Z * W);
  uload8 : Z -> W -> res Z;
  ustore8 : Z -> Z -> W -> res W
}.

Definition USER_SYS_WRITE_TEXT : Z := 0.
Definition USER_SYS_PUTCHAR : Z := 1.
Definition USER_SYS_CLEAR : Z := 2.
Definition USER_SYS_GETCHAR : Z := 3.
Definition USER_SYS_READDIR : Z := 4.
Definition USER_SYS_READFILE : Z := 5.
Definition USER_SYS_GETPID : Z := 6.
Definition USER_SYS_TICKS : Z := 7.
Definition USER_SYS_MEMORY_KIB : Z := 8.
Definition USER_SYS_WRITE_HEX : Z := 9.
Definition USER_SYS_WRITE_DEC : Z := 10.
Definition USER_SYS_OPEN : Z := 11.
Definition USER_SYS_READ : Z := 12.
Definition USER_SYS_CLOSE : Z := 13.
Definition USER_SYS_WRITE : Z := 14.
Definition USER_SYS_CHDIR : Z := 15.
Definition USER_SYS_GETCWD : Z := 16.
Definition USER_SYS_MKDIR : Z := 17.
Definition USER_SYS_SBRK : Z := 18.
Definition USER_SYS_EXECVE : Z := 19.
Definition USER_SYS_FORK : Z := 20.
Definition USER_SYS_EXIT : Z := 21.
Definition USER_SYS_WAITPID : Z := 22.
Definition USER_SYS_SIGNAL : Z := 23.
Definition USER_SYS_KILL : Z := 24.
Definition USER_SYS_SIGRETURN : Z := 25.
Definition USER_SYS_LSEEK : Z := 26.
Definition USER_SYS_FSTAT : Z := 27.
Definition USER_SYS_STAT : Z := 28.
Definition USER_SYS_ISATTY : Z := 29.

Section libc.
Context {W : Type} `{!UserWorld W}.
(** The entry of signal.s that ends every handler. *)
Variable signal_trampoline : Z.
Implicit Types w : W.

(** An [int] or a pointer in the program's memory. *)
Fixpoint uload_bytes (a : Z) (n : nat) w : res (list Z) :=
  match n with
  | O => Ok []
  | S n => v ← uload8 a w; l ← uload_bytes (u32 (a + 1)) n w; Ok (v :: l)
  end.
Definition uload32 (a : Z) w : res Z := l ← uload_bytes a 4 w; Ok (word_of l).
Fixpoint ustore_bytes (a : Z) (l : list Z) w : res W :=
  match l with
  | [] => Ok w
  | v :: l => w ← ustore8 a v w; ustore_bytes (u32 (a + 1)) l w
  end.
Definition ustore32 (a v : Z) w : res W := ustore_bytes a (le32 v) w.

(** EAX as an [int]. *)
Definition int_call (args : list Z) w : res (Z * W) := '(eax, w) ← int80 args w; Ok (s32 eax, w).

(** ** syscall.c *)

Definition write (descriptor buffer count : Z) w : res (Z * W) :=
  int_call [USER_SYS_WRITE; u32 descriptor; u32 buffer; u32 count] w.
Definition read (descriptor buffer count : Z) w : res (Z * W) :=
  int_call [USER_SYS_READ; u32 descriptor; u32 buffer; u32 count] w.
Definition open (path flags : Z) w : res (Z * W) := int_call [USER_SYS_OPEN; u32 path; u32 flags] w.
Definition close (descriptor : Z) w : res (Z * W) := int_call [USER_SYS_CLOSE; u32 descriptor] w.
Definition clear_screen w : res (Z * W) := int_call [USER_SYS_CLEAR] w.
Definition getchar_nonblocking w : res (Z * W) := int_call [USER_SYS_GETCHAR] w.
Definition readdir_name (index name capacity : Z) w : res (Z * W) :=
  int_call [USER_SYS_READDIR; u32 index; u32 name; u32 capacity] w.
Definition system_ticks w : res (Z * W) := int80 [USER_SYS_TICKS] w.
Definition system_memory_kib w : res (Z * W) := int80 [USER_SYS_MEMORY_KIB] w.
Definition write_hex (value : Z) w : res (Z * W) := int_call [USER_SYS_WRITE_HEX; u32 value] w.
Definition write_dec (value : Z) w : res (Z * W) := int_call [USER_SYS_WRITE_DEC; u32 value] w.
Definition chdir (path : Z) w : res (Z * W) := int_call [USER_SYS_CHDIR; u32 path] w.
Definition getcwd (buffer capacity : Z) w : res (Z * W) := int_call [USER_SYS_GETCWD; u32 buffer; u32 capacity] w.
Definition mkdir (path : Z) w : res (Z * W) := int_call [USER_SYS_MKDIR; u32 path] w.
Definition getpid w : res (Z * W) := int_call [USER_SYS_GETPID] w.
Definition sbrk (increment : Z) w : res (Z * W) := int80 [USER_SYS_SBRK; u32 increment] w.
Definition fork w : res (Z * W) := int_call [USER_SYS_FORK] w.
Definition execve (path argv envp : Z) w : res (Z * W) :=
  int_call [USER_SYS_EXECVE; u32 path; u32 argv; u32 envp] w.
Definition waitpid (pid status : Z) w : res (Z * W) := int_call [USER_SYS_WAITPID; u32 pid; u32 status] w.
Definition lseek (descriptor offset origin : Z) w : res (Z * W) :=
  int_call [USER_SYS_LSEEK; u32 descriptor; u32 offset; u32 origin] w.
Definition fstat_info (descriptor status : Z) w : res (Z * W) := int_call [USER_SYS_FSTAT; u32 descriptor; u32 status] w.
Definition stat_info (path status : Z) w : res (Z * W) := int_call [USER_SYS_STAT; u32 path; u32 status] w.
Definition isatty (descriptor : Z) w : res (Z * W) := int_call [USER_SYS_ISATTY; u32 descriptor] w.
Definition signal (signal_number handler : Z) w : res (Z * W) :=
  int80 [USER_SYS_SIGNAL; u32 signal_number; u32 handler; u32 signal_trampoline] w.
Definition kill (process_id signal_number : Z) w : res (Z * W) :=
  int_call [USER_SYS_KILL; u32 process_id; u32 signal_number] w.
Definition raise (signal_number : Z) w : res (Z * W) := '(pid, w) ← getpid w; kill pid signal_number w.
Definition __sigreturn (context : Z) w : res (Z * W) := int_call [USER_SYS_SIGRETURN; u32 context] w.

(** [for (;;) pause]: no result, whatever the fuel. *)
Definition pause_forever w : res (Z * W) := while (fun w => Ok (Continue w)) w.
Definition _exit (status : Z) w : res (Z * W) := '(_, w) ← int80 [USER_SYS_EXIT; u32 status] w; pause_forever w.

(** ** print.c

    A [char] is signed where it is compared by order. *)

Definition string_length (text : Z) w : res Z :=
  while (fun length => c ← uload8 (u32 (text + length)) w;
                       if c =? 0 then Ok (Break length) else Ok (Continue (u32 (length + 1)))) 0.
Definition strlen (text : Z) w : res Z := n ← string_length text w; Ok (s32 n).

Definition strcmp (left right : Z) w : res Z :=
  while (fun index =>
           a ← uload8 (u32 (left + index)) w; b ← uload8 (u32 (right + index)) w;
           if (a =? 0) || (b =? 0) then Ok (Break (if a =? b then 0 else 1))
           else if a =? b then Ok (Continue (u32 (index + 1))) else Ok (Break 1)) 0.

Definition strncmp (left right count : Z) w : res Z :=
  while (fun index =>
           if index <? count then
             a ← uload8 (u32 (left + index)) w; b ← uload8 (u32 (right + index)) w;
             if negb (a =? b) then Ok (Break 1)
             else if a =? 0 then Ok (Break 0) else Ok (Continue (u32 (index + 1)))
           else Ok (Break 0)) 0.

(** The arithmetic of [int]; a value that leaves its range is undefined in
    C and wraps on this compiler. *)
Definition atoi (text : Z) w : res Z :=
  c ← uload8 text w;
  let '(sign, text) := if c =? 45 then (-1, u32 (text + 1)) else (1, text) in
  while (fun '(text, value) =>
           c ← uload8 text w;
           if (48 <=? s8 c) && (s8 c <=? 57) then Ok (Continue (u32 (text + 1), s32 (s32 (value * 10) + (s8 c - 48))))
           else Ok (Break (s32 (value * sign)))) (text, 0).

Definition print (text : Z) w : res W :=
  n ← string_length text w; '(_, w) ← write 1 text n w; Ok w.

(** [digits] is the address of the local array. *)
Definition print_unsigned (digits value : Z) w : res W :=
  '(count, w) ← while (fun '(value, count, w) =>
                   w ← ustore8 (u32 (digits + count)) (u8 (48 + value mod 10)) w;
                   if value / 10 =? 0 then Ok (Break (count + 1, w)) else Ok (Continue (value / 10, count + 1, w)))
                 (value, 0, w);
  while (fun '(count, w) =>
           if count =? 0 then Ok (Break w)
           else '(_, w) ← write 1 (u32 (digits + (count - 1))) 1 w; Ok (Continue (count - 1, w))) (count, w).

(** The two string constants are at addresses of the linker's choice. *)
Definition print_pid_line (digits is_running full_stop program_name : Z) w : res W :=
  w ← print program_name w;
  w ← print is_running w;
  '(pid, w) ← getpid w;
  w ← print_unsigned digits (u32 pid) w;
  print full_stop w.
End libc.
