(* ===== verification/LibCSpec.v ===== *)
(** * What the user library does with its memory and the console

    [ConsoleWorld] is what a program relies on: bytes of its own that it
    can overwrite, and a descriptor 1 that shows what is written to it.
    Over any such world, [print] shows the string, [print_unsigned] the
    decimal numeral, and the readers of print.c agree with their meaning;
    [Ring3.v] shows that a process on the machine is such a world. *)

From S2P Require Import Prelude Monitor LibC.

(** [l] is in memory at [a]. *)
Definition uholds {W} `{!UserWorld W} (w : W) (a : Z) (l : list Z) : Prop :=
  forall i c, l !! i = Some c -> uload8 (a + Z.of_nat i) w = Ok c.

(** A null-terminated string of bytes that does not wrap around. *)
Record ustring {W} `{!UserWorld W} (w : W) (a : Z) (s : list Z) : Prop := {
  us_bytes : uholds w a (s ++ [0]);
  us_chars : Forall (fun c => 0 < c < 256) s;
  us_range : 0 < a /\ a + Z.of_nat (length s) < 2 ^ 32;
  us_length : Z.of_nat (length s) < 2 ^ 31
}.

Class ConsoleWorld (W T : Type) `{!UserWorld W} : Type := {
  own : Z -> Prop;
  shown : W -> T;
  put : Z -> T -> T;
  (** the program runs with descriptor 1 on the console and may use [lo, hi) *)
  runs_with : W -> Z -> Z -> Prop;
  cw_region w lo hi a : runs_with w lo hi -> lo <= a < hi -> own a /\ 0 < a < 2 ^ 32 - 1;
  cw_store w lo hi a v : runs_with w lo hi -> lo <= a < hi -> 0 <= v < 256 ->
    exists w', ustore8 a v w = Ok w' /\ runs_with w' lo hi /\ shown w' = shown w /\ uload8 a w' = Ok v /\
      forall b, own b -> b <> a -> uload8 b w' = uload8 b w;
  cw_write w lo hi a l : runs_with w lo hi -> uholds w a l -> Forall (fun c => 0 <= c < 256) l ->
    0 < a -> a + Z.of_nat (length l) < 2 ^ 32 -> Z.of_nat (length l) < 2 ^ 31 ->
    exists w', int80 [USER_SYS_WRITE; 1; a; Z.of_nat (length l)] w = Ok (Z.of_nat (length l), w') /\ runs_with w' lo hi /\
      shown w' = foldl (fun t c => put c t) (shown w) l /\ forall b, uload8 b w' = uload8 b w
}.

Lemma s32_u32_small v : - 2 ^ 31 <= v < 2 ^ 31 -> s32 (u32 v) = v.
Proof.
  intros Hv. unfold s32. rewrite u32_u32. unfold u32. destruct (Z.lt_ge_cases v 0) as [Hneg|Hpos].
  - assert (v mod 2 ^ 32 = v + 2 ^ 32) as ->.
    { rewrite <- (Z.mod_add v 1) by lia. rewrite Z.mul_1_l. apply Z.mod_small. lia. }
    rewrite (proj2 (Z.ltb_ge _ _)) by lia. lia.
  - rewrite Z.mod_small by lia. by rewrite (proj2 (Z.ltb_lt _ _)) by lia.
Qed.

Section strings.
Context {W : Type} `{!UserWorld W}.
Implicit Types w : W.

Lemma uholds_nil w a : uholds w a [].
Proof. intros i c Hi. done. Qed.

Lemma uholds_app w a l1 l2 : uholds w a (l1 ++ l2) <-> uholds w a l1 /\ uholds w (a + Z.of_nat (length l1)) l2.
Proof.
  split.
  - intros H. split; intros i c Hi.
    + apply H. by apply lookup_app_l_Some.
    + replace (a + Z.of_nat (length l1) + Z.of_nat i) with (a + Z.of_nat (length l1 + i)) by lia. apply H.
      rewrite lookup_app_r by lia. by replace (length l1 + i - length l1)%nat with i by lia.
  - intros [H1 H2] i c [Hi|[Hle Hi]]%lookup_app_Some; [by apply H1|].
    replace (a + Z.of_nat i) with (a + Z.of_nat (length l1) + Z.of_nat (i - length l1)) by lia. by apply H2.
Qed.

(** The byte of a string at an index up to its terminator. *)
Lemma ustring_at w a s i : ustring w a s -> (i <= length s)%nat ->
  exists c, uload8 (u32 (a + Z.of_nat i)) w = Ok c /\ (s ++ [0]) !! i = Some c /\ (c = 0 <-> i = length s).
Proof.
  intros [Hb Hc Hr _] Hi. destruct (lookup_lt_is_Some_2 (s ++ [0]) i) as [c Hl]; [rewrite length_app; simpl; lia|].
  exists c. rewrite u32_small by lia. split_and!; [by apply Hb|done|].
  apply lookup_app_Some in Hl as [Hl|[Hle Hl]].
  - pose proof (lookup_lt_Some _ _ _ Hl). pose proof (proj1 (Forall_lookup _ _) Hc _ _ Hl). simpl in *. lia.
  - assert (i = length s) as -> by lia. rewrite Nat.sub_diag in Hl. injection Hl as <-. done.
Qed.

Lemma string_length_spec w a s : ustring w a s -> string_length a w = Ok (Z.of_nat (length s)).
Proof.
  intros Hs. unfold string_length.
  destruct (while_rule (fun l => c ← uload8 (u32 (a + l)) w; if c =? 0 then Ok (Break l) else Ok (Continue (u32 (l + 1))))
    (fun l => 0 <= l <= Z.of_nat (length s)) (fun l => l = Z.of_nat (length s)) (fun l => Z.of_nat (length s) - l) 0) as (l & -> & ->); [| | |done].
  - intros l Hl. destruct (ustring_at w a s (Z.to_nat l) Hs) as (c & Hc & _ & Hz); [lia|]. rewrite Z2Nat.id in Hc by lia.
    rewrite Hc. rsimpl. pose proof (us_length _ _ _ Hs). destruct (Z.eqb_spec c 0); [lia|]. rewrite u32_small by lia. lia.
  - lia.
  - pose proof (us_length _ _ _ Hs). lia.
Qed.

Lemma strlen_spec w a s : ustring w a s -> strlen a w = Ok (Z.of_nat (length s)).
Proof.
  intros Hs. unfold strlen. rewrite (string_length_spec w a s Hs). rsimpl. pose proof (us_length _ _ _ Hs).
  by rewrite s32_small by lia.
Qed.

(** Bytes at the same index of two strings that agree so far. *)
Lemma ustring_same w a b s t i : ustring w a s -> ustring w b t -> (i <= length s)%nat -> (i <= length t)%nat ->
  take i s = take i t -> exists c d, uload8 (u32 (a + Z.of_nat i)) w = Ok c /\ uload8 (u32 (b + Z.of_nat i)) w = Ok d /\
    (c = 0 <-> i = length s) /\ (d = 0 <-> i = length t) /\
    (c <> d -> s <> t) /\ (c = d -> c <> 0 -> take (1 + i) s = take (1 + i) t) /\ (c = d -> c = 0 -> s = t).
Proof.
  intros Hs Ht Hi Hj Htk. destruct (ustring_at w a s i Hs Hi) as (c & Hc & Hlc & Hzc).
  destruct (ustring_at w b t i Ht Hj) as (d & Hd & Hld & Hzd). exists c, d. split_and!; try done.
  - intros Hne ->. congruence.
  - intros <- H0. apply lookup_app_Some in Hlc as [Hlc|[? ?]]; [|lia]. apply lookup_app_Some in Hld as [Hld|[? ?]]; [|lia].
    change (1 + i)%nat with (S i). by rewrite (take_S_r _ _ _ Hlc), (take_S_r _ _ _ Hld), Htk.
  - intros <- H0. rewrite <- (firstn_all s), <- (firstn_all t). by rewrite <- (proj1 Hzc H0), <- (proj1 Hzd H0).
Qed.

Lemma strcmp_spec w a b s t : ustring w a s -> ustring w b t -> strcmp a b w = Ok (if decide (s = t) then 0 else 1).
Proof.
  intros Hs Ht. unfold strcmp. pose proof (us_length _ _ _ Hs) as Hls. pose proof (us_length _ _ _ Ht).
  match goal with |- while ?f _ = _ => destruct (while_rule f
    (fun i => 0 <= i <= Z.of_nat (length s) /\ i <= Z.of_nat (length t) /\ take (Z.to_nat i) s = take (Z.to_nat i) t)
    (fun r => r = if decide (s = t) then 0 else 1) (fun i => Z.of_nat (length s) - i) 0) as (r & -> & ->) end; [| | |done].
  - intros i (Hi & Hj & Htk).
    destruct (ustring_same w a b s t (Z.to_nat i) Hs Ht) as (c & d & Hc & Hd & Hzc & Hzd & Hne & Hstep & Heq); [lia|lia|done|].
    rewrite Z2Nat.id in Hc, Hd by lia. rewrite Hc. rsimpl. rewrite Hd. rsimpl.
    destruct (Z.eqb_spec c d) as [<-|Hcd].
    + rewrite orb_diag. destruct (Z.eqb_spec c 0) as [->|H0]; [by rewrite decide_True by auto|].
      rewrite u32_small by lia. replace (Z.to_nat (i + 1)) with (1 + Z.to_nat i)%nat by lia. split; [|lia]. split_and!; [lia|lia|lia|by apply Hstep].
    + rewrite decide_False by auto. by destruct (_ || _).
  - split_and!; [lia|lia|lia|done].
  - lia.
Qed.

Lemma take_at (u : list Z) i n c : (i < n)%nat -> (i <= length u)%nat -> (u ++ [0]) !! i = Some c -> (take n u ++ [0]) !! i = Some c.
Proof.
  intros Hn Hu. destruct (decide (i < length u)%nat).
  - rewrite !lookup_app_l by (rewrite ?length_take; lia). by rewrite lookup_take_lt.
  - rewrite !lookup_app_r by (rewrite ?length_take; lia). rewrite length_take. by replace (i - n `min` length u)%nat with (i - length u)%nat by lia.
Qed.

Lemma strncmp_spec w a b s t n : ustring w a s -> ustring w b t -> is_u32 n ->
  strncmp a b n w = Ok (if decide (take (Z.to_nat n) s = take (Z.to_nat n) t) then 0 else 1).
Proof.
  intros Hs Ht Hn. unfold strncmp. pose proof (us_length _ _ _ Hs) as Hls. pose proof (us_length _ _ _ Ht). unfold is_u32 in Hn.
  match goal with |- while ?f _ = _ => destruct (while_rule f
    (fun i => 0 <= i <= n /\ i <= Z.of_nat (length s) /\ i <= Z.of_nat (length t) /\ take (Z.to_nat i) s = take (Z.to_nat i) t)
    (fun r => r = if decide (take (Z.to_nat n) s = take (Z.to_nat n) t) then 0 else 1) (fun i => Z.of_nat (length s) - i) 0) as (r & -> & ->) end; [| | |done].
  - intros i (Hi & Hj & Hk & Htk). destruct (Z.ltb_spec i n) as [Hlt|Hge].
    2: { assert (i = n) as -> by lia. by rewrite decide_True. }
    destruct (ustring_same w a b s t (Z.to_nat i) Hs Ht) as (c & d & Hc & Hd & Hzc & Hzd & Hne & Hstep & Heq); [lia|lia|done|].
    rewrite Z2Nat.id in Hc, Hd by lia. rewrite Hc. rsimpl. rewrite Hd. rsimpl.
    destruct (Z.eqb_spec c d) as [<-|Hcd]; simpl negb; cbv iota.
    + destruct (Z.eqb_spec c 0) as [->|H0]; [by rewrite decide_True by (f_equal; auto)|].
      rewrite u32_small by lia. replace (Z.to_nat (i + 1)) with (1 + Z.to_nat i)%nat by lia. split; [|lia]. split_and!; [lia|lia|lia|lia|by apply Hstep].
    + rewrite decide_False; [done|]. intros E.
      destruct (ustring_at w a s (Z.to_nat i) Hs) as (c' & Hc' & Hl & _); [lia|]. destruct (ustring_at w b t (Z.to_nat i) Ht) as (d' & Hd' & Hl' & _); [lia|].
      rewrite Z2Nat.id in Hc', Hd' by lia. assert (c' = c) as -> by congruence. assert (d' = d) as -> by congruence.
      apply (take_at s _ (Z.to_nat n)) in Hl; [|lia..]. apply (take_at t _ (Z.to_nat n)) in Hl'; [|lia..]. congruence.
  - split_and!; [lia|lia|lia|lia|done].
  - lia.
Qed.
End strings.

(** A string stays where none of its bytes changes. *)
Lemma ustring_keep {W} `{!UserWorld W} (w w' : W) a s :
  (forall b, a <= b <= a + Z.of_nat (length s) -> uload8 b w' = uload8 b w) -> ustring w a s -> ustring w' a s.
Proof.
  intros H [Hb Hc Hr Hl]. split; try done. intros i c Hi. pose proof (lookup_lt_Some _ _ _ Hi) as Hlt.
  rewrite length_app in Hlt. simpl in Hlt. rewrite H by lia. by apply Hb.
Qed.

Section printing.
Context {W T : Type} `{!UserWorld W} `{!ConsoleWorld W T}.
Implicit Types w : W.

Definition shows (t : T) (l : list Z) : T := foldl (fun t c => put c t) t l.

Lemma print_spec w lo hi a s : runs_with w lo hi -> ustring w a s ->
  exists w', print a w = Ok w' /\ runs_with w' lo hi /\ shown w' = shows (shown w) s /\ forall b, uload8 b w' = uload8 b w.
Proof.
  intros Hw Hs. pose proof (us_length _ _ _ Hs). destruct (us_range _ _ _ Hs).
  unfold print. rewrite (string_length_spec w a s Hs). rsimpl. unfold write, int_call.
  destruct (cw_write w lo hi a s) as (w' & Hr & Hw' & Hsh & Hl); [done| |by eapply Forall_impl; [apply Hs|simpl; lia]|done..|].
  { apply (uholds_app w a s [0]), (us_bytes _ _ _ Hs). }
  rewrite (u32_small 1), (u32_small a), (u32_small (Z.of_nat _)) by lia. rewrite Hr. rsimpl. by exists w'.
Qed.

(** The digits stored so far, least significant first. *)
Record digits_at w (digits : Z) (ds : list Z) : Prop := {
  da_bytes : uholds w digits ds;
  da_digits : Forall (digit_ok 10) ds
}.

Lemma uholds_snoc w w' lo hi a l c : runs_with w lo hi -> lo <= a -> a + Z.of_nat (length l) < hi ->
  uholds w a l -> uload8 (a + Z.of_nat (length l)) w' = Ok c ->
  (forall b, own b -> b <> a + Z.of_nat (length l) -> uload8 b w' = uload8 b w) -> uholds w' a (l ++ [c]).
Proof.
  intros Hw Hlo Hhi Hl Hc Hframe. apply uholds_app. split.
  - intros i x Hi. pose proof (lookup_lt_Some _ _ _ Hi). rewrite Hframe; [by apply Hl| |lia]. apply (cw_region w lo hi); [done|lia].
  - intros [|i] x Hi; [|done]. injection Hi as <-. by rewrite Z.add_0_r.
Qed.

Lemma decimal_digit v : 0 <= v < 10 -> digit_ok 10 (48 + v) /\ digit_value (48 + v) = v.
Proof. intros Hv. unfold digit_ok, digit_value. rewrite (proj2 (Z.ltb_lt _ _)) by lia. lia. Qed.

(** The first loop leaves the digits in the array. *)
Lemma store_digits w lo digits value : runs_with w lo (digits + 10) -> lo <= digits -> is_u32 value ->
  exists ds w', while (fun '(value, count, w) =>
                   w ← ustore8 (u32 (digits + count)) (u8 (48 + value mod 10)) w;
                   if value / 10 =? 0 then Ok (Break (count + 1, w)) else Ok (Continue (value / 10, count + 1, w)))
                 (value, 0, w) = Ok (Z.of_nat (length ds), w') /\
    runs_with w' lo (digits + 10) /\ shown w' = shown w /\ digits_at w' digits ds /\ (length ds <= 10)%nat /\ numeral 10 (reverse ds) value /\
    forall b, own b -> ~ (digits <= b < digits + 10) -> uload8 b w' = uload8 b w.
Proof.
  intros Hw Hlo Hv. unfold is_u32 in Hv.
  match goal with |- context [while ?f ?s0] => destruct (while_rule f
    (fun '(v, count, w1) => exists ds, count = Z.of_nat (length ds) /\ count < 10 /\ runs_with w1 lo (digits + 10) /\ shown w1 = shown w /\
       digits_at w1 digits ds /\ low_first ds + 10 ^ count * v = value /\ 0 <= v < 10 ^ (10 - count) /\ (v = 0 -> ds = []) /\
       (forall b, own b -> ~ (digits <= b < digits + 10) -> uload8 b w1 = uload8 b w))
    (fun '(count, w1) => exists ds, count = Z.of_nat (length ds) /\ (length ds <= 10)%nat /\ runs_with w1 lo (digits + 10) /\ shown w1 = shown w /\
       digits_at w1 digits ds /\ numeral 10 (reverse ds) value /\ (forall b, own b -> ~ (digits <= b < digits + 10) -> uload8 b w1 = uload8 b w))
    (fun '(v, _, _) => v) s0) as ([count w'] & Hrun & ds & -> & H1 & H2 & H3 & H4 & H5 & H6) end.
  - intros [[v count] w1] (ds & -> & Hc & Hw1 & Hsh & [Hds Hok] & Hval & Hv1 & H0 & Hkeep).
    pose proof (cw_region w1 lo (digits + 10) (digits + Z.of_nat (length ds)) Hw1 ltac:(lia)) as [_ Ha].
    pose proof (Z.mod_pos_bound v 10 ltac:(lia)) as Hm. pose proof (Z.div_mod v 10 ltac:(lia)) as Hdm.
    rewrite (u32_small (digits + _)), (u8_small (48 + _)) by lia.
    destruct (cw_store w1 lo (digits + 10) (digits + Z.of_nat (length ds)) (48 + v mod 10)) as (w2 & Hst & Hw2 & Hsh2 & Hld & Hfr); [done|lia|lia|].
    rewrite Hst. rsimpl. destruct (decimal_digit (v mod 10) Hm) as [Hdok Hdv].
    assert (forall b, own b -> ~ (digits <= b < digits + 10) -> uload8 b w2 = uload8 b w) as Hkeep2.
    { intros b Hb Hout. rewrite Hfr by (done || lia). by apply Hkeep. }
    assert (digits_at w2 digits (ds ++ [48 + v mod 10])) as Hat.
    { split; [eapply uholds_snoc; [exact Hw1|lia|lia|done..]|]. apply Forall_app. by rewrite Forall_singleton. }
    assert (low_first (ds ++ [48 + v mod 10]) + 10 ^ (Z.of_nat (length ds) + 1) * (v / 10) = value) as Hval'.
    { rewrite low_first_snoc, Hdv, Z.pow_add_r by lia. change (10 ^ 1) with 10. nia. }
    assert (Z.of_nat (length ds) + 1 = Z.of_nat (length (ds ++ [48 + v mod 10]))) as Hlen by (rewrite length_app; simpl; lia).
    destruct (Z.eqb_spec (v / 10) 0) as [E|Hne].
    + exists (ds ++ [48 + v mod 10]). split_and!; [done|lia|done|congruence|done| |done]. split.
      * apply Forall_reverse, Hat.
      * rewrite text_value_reverse. rewrite E in Hval'. lia.
      * rewrite reverse_snoc. destruct (Z.eq_dec v 0) as [->|Hnz].
        { rewrite H0 by done. by left. }
        right. exists (48 + v mod 10), (reverse ds). split; [done|]. lia.
    + assert (0 < v / 10) by (assert (0 <= v / 10) by (apply Z.div_pos; lia); lia). split; [|lia].
      exists (ds ++ [48 + v mod 10]). rewrite <- Hlen.
      assert (v / 10 < 10 ^ (10 - (Z.of_nat (length ds) + 1))) as Hlt.
      { apply Z.div_lt_upper_bound; [lia|]. rewrite <- Z.pow_succ_r by lia. replace (Z.succ (10 - (Z.of_nat (length ds) + 1))) with (10 - Z.of_nat (length ds)) by lia. lia. }
      split_and!; [done| |done|congruence|done|done|lia|done|lia|done].
      destruct (Z.eq_dec (Z.of_nat (length ds)) 9) as [E9|]; [|lia]. rewrite E9 in Hlt. change (10 ^ (10 - (9 + 1))) with 1 in Hlt. lia.
  - exists []. simpl. split_and!; [done|lia|done|done|by split; [apply uholds_nil|constructor]|lia|lia|lia|done|done].
  - lia.
  - exists ds, w'. split_and!; try done.
Qed.

(** The second loop shows them, most significant first. *)
Lemma show_digits w lo hi digits ds : runs_with w lo hi -> digits_at w digits ds -> 0 < digits -> digits + Z.of_nat (length ds) < 2 ^ 32 -> (length ds <= 10)%nat ->
  exists w', while (fun '(count, w) =>
           if count =? 0 then Ok (Break w)
           else '(_, w) ← write 1 (u32 (digits + (count - 1))) 1 w; Ok (Continue (count - 1, w))) (Z.of_nat (length ds), w) = Ok w' /\
    runs_with w' lo hi /\ shown w' = shows (shown w) (reverse ds) /\ forall b, uload8 b w' = uload8 b w.
Proof.
  intros Hw [Hds Hok] Hd Hr Hlen. unfold shows.
  match goal with |- context [while ?f ?s0] => destruct (while_rule f
    (fun '(count, w1) => 0 <= count <= Z.of_nat (length ds) /\ runs_with w1 lo hi /\ (forall b, uload8 b w1 = uload8 b w) /\
       shown w1 = foldl (fun t c => put c t) (shown w) (reverse (drop (Z.to_nat count) ds)))
    (fun w' => runs_with w' lo hi /\ shown w' = foldl (fun t c => put c t) (shown w) (reverse ds) /\ forall b, uload8 b w' = uload8 b w)
    (fun '(count, _) => count) s0) as (w' & Hrun & HQ) end.
  - intros [count w1] (Hc & Hw1 & Hl & Hsh). destruct (Z.eqb_spec count 0) as [->|Hne]; [done|].
    destruct (lookup_lt_is_Some_2 ds (Z.to_nat (count - 1))) as [c Hi]; [lia|].
    destruct (cw_write w1 lo hi (digits + (count - 1)) [c]) as (w2 & Hwr & Hw2 & Hsh2 & Hl2); [done| | |simpl; lia..|].
    { intros [|i] x Hx; [|done]. injection Hx as <-. rewrite Hl, Z.add_0_r. specialize (Hds _ _ Hi). rewrite Z2Nat.id in Hds by lia. done. }
    { apply Forall_singleton. pose proof (proj1 (Forall_lookup _ _) Hok _ _ Hi) as [[?|?] _]; lia. }
    unfold write, int_call. rewrite (u32_small 1), (u32_small (u32 _)), (u32_small (digits + _)) by (lia || auto with ints).
    simpl length in Hwr. change (Z.of_nat 1) with 1 in Hwr. rewrite Hwr. rsimpl. split; [|lia].
    split_and!; [lia|lia|done|intros b; by rewrite Hl2|]. rewrite Hsh2, Hsh. simpl.
    rewrite (drop_S ds c (Z.to_nat (count - 1))) by done. replace (S (Z.to_nat (count - 1))) with (Z.to_nat count) by lia.
    by rewrite reverse_cons, foldl_app.
  - split_and!; [lia|lia|done|done|]. by rewrite Nat2Z.id, drop_all.
  - lia.
  - by exists w'.
Qed.

Lemma print_unsigned_spec w lo digits value : runs_with w lo (digits + 10) -> lo <= digits -> is_u32 value ->
  exists ds w', print_unsigned digits value w = Ok w' /\ runs_with w' lo (digits + 10) /\ numeral 10 ds value /\
    shown w' = shows (shown w) ds /\ forall b, own b -> ~ (digits <= b < digits + 10) -> uload8 b w' = uload8 b w.
Proof.
  intros Hw Hlo Hv. unfold print_unsigned.
  destruct (store_digits w lo digits value Hw Hlo Hv) as (ds & w1 & Hrun & Hw1 & Hsh & Hat & Hlen & Hn & Hkeep). rewrite Hrun. rsimpl.
  pose proof (cw_region w lo (digits + 10) digits Hw ltac:(lia)) as [_ H0].
  pose proof (cw_region w lo (digits + 10) (digits + 9) Hw ltac:(lia)) as [_ H9].
  destruct (show_digits w1 lo (digits + 10) digits ds Hw1 Hat) as (w' & Hrun' & Hw' & Hsh' & Hl'); [lia|lia|done|].
  exists (reverse ds), w'. rewrite Hrun'. split_and!; try done; [by rewrite Hsh', Hsh|]. intros b Hb Hout. rewrite Hl'. by apply Hkeep.
Qed.
End printing.

Lemma text_value_prefix ds j : Forall (digit_ok 10) ds -> 0 <= text_value 10 (take j ds) <= text_value 10 ds.
Proof.
  induction ds as [|c ds IH] using rev_ind; intros Hds; [by rewrite take_nil|].
  apply Forall_app in Hds as [Hds Hc]. apply Forall_cons in Hc as [[_ Hc] _]. specialize (IH Hds).
  rewrite text_value_snoc. destruct (decide (j <= length ds)%nat).
  - rewrite take_app_le by done. lia.
  - rewrite firstn_all2 by (rewrite length_app; simpl; lia). rewrite text_value_snoc. lia.
Qed.

(** [atoi] of a numeral that something else follows. *)
Lemma atoi_spec {W} `{!UserWorld W} (w : W) a ds n c : numeral 10 ds n -> n < 2 ^ 31 -> uholds w a (ds ++ [c]) -> 0 <= c < 256 ->
  ~ (48 <= c <= 57) -> 0 < a -> a + Z.of_nat (length ds) < 2 ^ 32 -> atoi a w = Ok n.
Proof.
  intros [Hds Hval Hlead] Hn Hh Hc Hnd Ha Hr. unfold atoi.
  assert (forall i d, ds !! i = Some d -> uload8 (a + Z.of_nat i) w = Ok d /\ 48 <= d < 58 /\ digit_value d = d - 48) as Hd.
  { intros i d Hi. pose proof (proj1 (Forall_lookup _ _) Hds _ _ Hi) as [Hok Hdv]. split; [by apply Hh, lookup_app_l_Some|].
    unfold digit_value in *. destruct Hok; destruct (Z.ltb_spec d 58); lia. }
  assert (exists d ds', ds = d :: ds') as (d & ds' & Eds) by (destruct Hlead as [->|(?&?&->&_)]; eauto).
  destruct (Hd 0%nat d) as (H0 & H1 & _); [by rewrite Eds|]. rewrite Z.add_0_r in H0. rewrite H0. rsimpl.
  destruct (Z.eqb_spec d 45); [lia|].
  match goal with |- while ?f ?s0 = _ => destruct (while_rule f
    (fun '(text, value) => exists i, (i <= length ds)%nat /\ text = a + Z.of_nat i /\ value = text_value 10 (take i ds))
    (fun r => r = n) (fun '(text, _) => a + Z.of_nat (length ds) - text) s0) as (r & -> & ->) end; [| | |done].
  - intros [text value] (i & Hi & -> & ->).
    assert (forall j, (j <= length ds)%nat -> 0 <= text_value 10 (take j ds) <= n) as Hb.
    { intros j _. rewrite <- Hval. by apply text_value_prefix. }
    destruct (decide (i = length ds)) as [->|Hne].
    + assert (uload8 (a + Z.of_nat (length ds)) w = Ok c) as ->.
      { apply Hh. rewrite lookup_app_r, Nat.sub_diag by lia. done. }
      rsimpl. rewrite s8_char by done.
      assert ((48 <=? (if c <? 128 then c else c - 256)) && ((if c <? 128 then c else c - 256) <=? 57) = false) as -> by (destruct (Z.ltb_spec c 128); lia).
      rewrite firstn_all, Hval, Z.mul_1_r, s32_small; [done|]. pose proof (Hb (length ds) ltac:(lia)). rewrite firstn_all, Hval in *. lia.
    + destruct (lookup_lt_is_Some_2 ds i) as [x Hx]; [lia|]. destruct (Hd i x Hx) as (-> & Hx1 & Hx2). rsimpl.
      rewrite s8_char by lia. rewrite (proj2 (Z.ltb_lt x 128)) by lia. rewrite (proj2 (Z.leb_le 48 x)), (proj2 (Z.leb_le x 57)) by lia. cbn [andb].
      pose proof (Hb i Hi) as Hbi. pose proof (Hb (S i) ltac:(lia)) as Hbs. rewrite (take_S_r _ _ _ Hx), text_value_snoc, Hx2 in Hbs.
      split; [|rewrite u32_small by lia; lia]. exists (S i). rewrite (u32_small (_ + 1)), (s32_small (_ * 10)), s32_small by lia.
      rewrite (take_S_r _ _ _ Hx), text_value_snoc, Hx2. split_and!; lia.
  - exists 0%nat. split_and!; [lia|lia|done].
  - lia.
Qed.
