(* ===== verification/Newlib.v ===== *)
(** * user/newlib/syscalls.c: the boundary below the hosted C library

    The hooks Newlib expects, over the same interrupt as [LibC]; [errno] is
    Newlib's own variable, so it is threaded through.  The numbers that the
    hooks take from Newlib's headers are a class: they belong to that
    library.  [struct stat] and [struct tms] are given by value, because
    their layout is the library's too. *)

From S2P Require Import Prelude LibC.

(** errno.h, fcntl.h, sys/stat.h and signal.h of Newlib. *)
Class NewlibHeaders : Type := {
  EROFS : Z; ENOTTY : Z; ENOMEM : Z; EINVAL : Z; EFAULT : Z;
  O_ACCMODE : Z; O_RDONLY : Z; O_CREAT : Z;
  S_IFREG : Z; S_IFDIR : Z; S_IFCHR : Z
}.

(** The hooks' state: [errno] and the rest of the world. *)
Record hosted (W : Type) : Type := mk_hosted { errno : Z; world : W }.
Arguments mk_hosted {W}. Arguments errno {W}. Arguments world {W}.

Record stat : Type := mk_stat { st_ino : Z; st_size : Z; st_nlink : Z; st_mode : Z }.
Record tms : Type := mk_tms { tms_utime : Z; tms_stime : Z; tms_cutime : Z; tms_cstime : Z }.
Record timeval : Type := mk_timeval { tv_sec : Z; tv_usec : Z }.

(** [os_file_status_t] of os_abi.h. *)
Record os_file_status : Type := mk_os_file_status { fst_type : Z; fst_size : Z; fst_inode : Z; fst_mode : Z }.

Definition OS_SYS_GETPID : Z := 6.
Definition OS_SYS_TICKS : Z := 7.
Definition OS_SYS_OPEN : Z := 11.
Definition OS_SYS_READ : Z := 12.
Definition OS_SYS_CLOSE : Z := 13.
Definition OS_SYS_WRITE : Z := 14.
Definition OS_SYS_SBRK : Z := 18.
Definition OS_SYS_EXECVE : Z := 19.
Definition OS_SYS_FORK : Z := 20.
Definition OS_SYS_EXIT : Z := 21.
Definition OS_SYS_WAITPID : Z := 22.
Definition OS_SYS_SIGNAL : Z := 23.
Definition OS_SYS_KILL : Z := 24.
Definition OS_SYS_SIGRETURN : Z := 25.
Definition OS_SYS_LSEEK : Z := 26.
Definition OS_SYS_FSTAT : Z := 27.
Definition OS_SYS_STAT : Z := 28.
Definition OS_SYS_ISATTY : Z := 29.
Definition OS_OPEN_READ_ONLY : Z := 0.
Definition OS_FILE_REGULAR : Z := 1.
Definition OS_FILE_DIRECTORY : Z := 2.
Definition OS_FILE_CHARACTER : Z := 3.

Section newlib.
Context `{!NewlibHeaders} {W : Type} `{!UserWorld W}.
Variable signal_trampoline : Z.
Implicit Types s : hosted W.

Definition set_errno (e : Z) s : hosted W := mk_hosted e (world s).
Definition os_call (args : list Z) s : res (Z * hosted W) :=
  '(eax, w) ← int80 args (world s); Ok (s32 eax, mk_hosted (errno s) w).
Definition os_call0 (number : Z) : hosted W -> res (Z * hosted W) := os_call [number].
Definition os_call1 (number first : Z) : hosted W -> res (Z * hosted W) := os_call [number; u32 first].
Definition os_call2 (number first second : Z) : hosted W -> res (Z * hosted W) := os_call [number; u32 first; u32 second].
Definition os_call3 (number first second third : Z) : hosted W -> res (Z * hosted W) :=
  os_call [number; u32 first; u32 second; u32 third].

Definition newlib_result (r : res (Z * hosted W)) : res (Z * hosted W) :=
  '(kernel_result, s) ← r;
  if kernel_result <? 0 then Ok (-1, set_errno (- kernel_result) s) else Ok (kernel_result, s).

(** ** Files *)

Definition _write (descriptor buffer count : Z) s : res (Z * hosted W) := newlib_result (os_call3 OS_SYS_WRITE descriptor buffer count s).
Definition _read (descriptor buffer count : Z) s : res (Z * hosted W) := newlib_result (os_call3 OS_SYS_READ descriptor buffer count s).

Definition _open (path flags : Z) s : res (Z * hosted W) :=
  if negb (Z.land flags O_ACCMODE =? O_RDONLY) || negb (Z.land flags O_CREAT =? 0) then Ok (-1, set_errno EROFS s)
  else newlib_result (os_call2 OS_SYS_OPEN path OS_OPEN_READ_ONLY s).

Definition _close (descriptor : Z) s : res (Z * hosted W) := newlib_result (os_call1 OS_SYS_CLOSE descriptor s).
Definition _lseek (descriptor offset origin : Z) s : res (Z * hosted W) := newlib_result (os_call3 OS_SYS_LSEEK descriptor offset origin s).

Definition translate_status (source : os_file_status) : stat :=
  mk_stat (fst_inode source) (s32 (fst_size source)) 1
    (Z.lor (fst_mode source)
       (if fst_type source =? OS_FILE_REGULAR then S_IFREG
        else if fst_type source =? OS_FILE_DIRECTORY then S_IFDIR
        else if fst_type source =? OS_FILE_CHARACTER then S_IFCHR else 0)).

(** The structure at [compact]. *)
Definition load_status (compact : Z) (w : W) : res os_file_status :=
  type ← uload32 compact w; size ← uload32 (u32 (compact + 4)) w;
  inode ← uload32 (u32 (compact + 8)) w; mode ← uload32 (u32 (compact + 12)) w;
  Ok (mk_os_file_status type size inode mode).

(** After the call: the structure is translated when the call succeeded. *)
Definition with_status (compact : Z) (r : res (Z * hosted W)) : res (Z * option stat * hosted W) :=
  '(result, s) ← r;
  if result =? 0 then c ← load_status compact (world s); Ok (result, Some (translate_status c), s)
  else Ok (result, None, s).

(** [compact] is the address of the local structure. *)
Definition _fstat (compact descriptor : Z) s : res (Z * option stat * hosted W) :=
  with_status compact (newlib_result (os_call2 OS_SYS_FSTAT descriptor compact s)).
Definition _stat (compact path : Z) s : res (Z * option stat * hosted W) :=
  with_status compact (newlib_result (os_call2 OS_SYS_STAT path compact s)).

Definition _isatty (descriptor : Z) s : res (Z * hosted W) :=
  '(result, s) ← os_call1 OS_SYS_ISATTY descriptor s;
  if result <? 0 then newlib_result (Ok (result, s))
  else Ok (result, if result =? 0 then set_errno ENOTTY s else s).

Definition _link (old_path new_path : Z) s : res (Z * hosted W) := Ok (-1, set_errno EROFS s).
Definition _unlink (path : Z) s : res (Z * hosted W) := Ok (-1, set_errno EROFS s).

(** ** Memory, processes and signals *)

(** The result is an address. *)
Definition _sbrk (increment : Z) s : res (Z * hosted W) :=
  '(result, s) ← os_call1 OS_SYS_SBRK increment s;
  if result =? -1 then Ok (u32 (-1), set_errno ENOMEM s) else Ok (u32 result, s).

Definition _getpid s : res (Z * hosted W) := os_call0 OS_SYS_GETPID s.
Definition _kill (process_id signal_number : Z) s : res (Z * hosted W) := newlib_result (os_call2 OS_SYS_KILL process_id signal_number s).
Definition _fork s : res (Z * hosted W) := newlib_result (os_call0 OS_SYS_FORK s).
Definition _execve (path argv envp : Z) s : res (Z * hosted W) := newlib_result (os_call3 OS_SYS_EXECVE path argv envp s).
Definition _waitpid (process_id status options : Z) s : res (Z * hosted W) :=
  if negb (options =? 0) then Ok (-1, set_errno EINVAL s)
  else newlib_result (os_call2 OS_SYS_WAITPID process_id status s).

(** [SIG_ERR] is the address -1. *)
Definition signal (signal_number handler : Z) s : res (Z * hosted W) :=
  '(result, s) ← os_call3 OS_SYS_SIGNAL signal_number handler signal_trampoline s;
  Ok (if result <? 0 then u32 (-1) else result, s).
Definition raise (signal_number : Z) s : res (Z * hosted W) := '(pid, s) ← _getpid s; _kill pid signal_number s.
Definition __sigreturn (context : Z) s : res (Z * hosted W) := os_call1 OS_SYS_SIGRETURN context s.
Definition _exit (status : Z) s : res (Z * hosted W) :=
  '(_, s) ← os_call1 OS_SYS_EXIT status s; while (fun s => Ok (Continue s)) s.

(** ** Time *)

(** [wanted]: the pointer is not null. *)
Definition _times (wanted : bool) s : res (Z * option tms * hosted W) :=
  '(ticks, s) ← os_call0 OS_SYS_TICKS s;
  Ok (u32 ticks, if wanted then Some (mk_tms (u32 ticks) 0 0 0) else None, s).

Definition _gettimeofday (wanted : bool) s : res (Z * option timeval * hosted W) :=
  if negb wanted then Ok (-1, None, set_errno EFAULT s)
  else
    '(ticks, s) ← os_call0 OS_SYS_TICKS s;
    Ok (0, Some (mk_timeval (u32 ticks / 50) (u32 ticks mod 50 * 20000)), s).

(** ** Without the underscore *)

Definition write := _write.
Definition read := _read.
Definition open := _open.
Definition close := _close.
Definition lseek := _lseek.
Definition fstat := _fstat.
Definition stat_ := _stat.
Definition isatty := _isatty.
Definition sbrk := _sbrk.
Definition getpid := _getpid.
Definition kill := _kill.
End newlib.
