(* ===== verification/MachineInv.v ===== *)
(** * The invariant of the whole machine

    [machine_ok]: the processes are sound, the screen and the keyboard
    buffer are well formed and the clock is a word.  Every service and
    every interrupt handler keeps it. *)

From S2P Require Import Prelude LinkedList Memory Kmalloc Keyboard Monitor Frames Paging PagingProofs AddressSpace Vfs Initrd Task Scheduler UserSpace UserMemory Signal Process ProcessInv ProcessOps Fork Reap Steps UserFile Syscall.

(** ** Stores anywhere

    A store through the page tables changes the bytes of frames or of
    kernel memory and nothing else. *)
Section stores.
Context {K S Cb : Type} `{!Kmalloc K} `{!HasMemory S} `{!FsDriver S Cb} `{!FileSource S Cb}.
Implicit Types k : kernel page_bytes K S.

Definition stores k k' : Prop := exists c f, k' = with_fs (with_contents k c) f.

#[export] Instance stores_refl : Reflexive stores.
Proof. intros k. exists (contents_of (kmm k)), (kfs k). rewrite with_contents_same. by destruct k. Qed.
#[export] Instance stores_trans : Transitive stores.
Proof. intros k1 k2 k3 (c & f & ->) (c' & f' & ->). by exists c', f'. Qed.

Lemma stores_vstore8 a v k k' : vstore8 a v k = Ok k' -> stores k k'.
Proof.
  intros ([[b o]|] & _ & [= <-])%bind_Ok_inv; [by eexists _, (kfs k)|].
  exists (contents_of (kmm k)). rewrite with_contents_same. by eexists.
Qed.
Lemma stores_bytes l : forall a k k', vstore_bytes a l k = Ok k' -> stores k k'.
Proof.
  induction l as [|v l IH]; intros a k k'; simpl; [by intros [= <-]|].
  intros (k1 & H1 & H2)%bind_Ok_inv. etrans; [by eapply stores_vstore8|by eapply IH].
Qed.
Lemma stores_vfill n : forall a v k k', vfill a v n k = Ok k' -> stores k k'.
Proof.
  induction n as [|n IH]; intros a v k k'; simpl; [by intros [= <-]|].
  intros (k1 & H1 & H2)%bind_Ok_inv. etrans; [by eapply stores_vstore8|by eapply IH].
Qed.
Lemma stores_name nm : forall a cap i k k', copy_name a cap i nm k = Ok k' -> stores k k'.
Proof.
  induction nm as [|c nm IH]; intros a cap i k k'; simpl; [apply stores_vstore8|].
  destruct (_ && _); [|apply stores_vstore8].
  intros (k1 & H1 & H2)%bind_Ok_inv. etrans; [by eapply stores_vstore8|by eapply IH].
Qed.
Lemma stores_memcpy dest src len k k' : vmemcpy dest src len k = Ok k' -> stores k k'.
Proof.
  apply (while_preserves (fun st => stores k st.2) (stores k)); [..|done].
  - intros [[[dp sp] n] k1] s Hk E. destruct (negb (n =? 0)); [|done].
    apply bind_Ok_inv in E as (c & _ & E). apply bind_Ok_inv in E as (k2 & H2 & [= <-]). etrans; [exact Hk|by eapply stores_vstore8].
  - intros [[[dp sp] n] k1] k2 Hk E. destruct (negb (n =? 0)); [|by injection E as <-].
    apply bind_Ok_inv in E as (c & _ & E). by apply bind_Ok_inv in E as (? & _ & ?).
Qed.
Lemma stores_read nd off size buf k r k' : vread_fs nd off size buf k = Ok (r, k') -> stores k k'.
Proof.
  unfold vread_fs. destruct (_ || _); [by intros [= _ <-]|]. intros (n & _ & H)%bind_Ok_inv.
  destruct (read n); [|by injection H as _ <-]. apply bind_Ok_inv in H as ([src len] & _ & H).
  apply bind_Ok_inv in H as (k2 & H2 & [= _ <-]). by eapply stores_memcpy.
Qed.
Lemma stores_status d a k r k' : fill_file_status d a k = Ok (r, k') -> stores k k'.
Proof.
  unfold fill_file_status. destruct (a =? 0); [by intros [= _ <-]|]. intros (k1 & H1%stores_vfill & H)%bind_Ok_inv.
  assert (forall x v k2 k3, vstore32 x v k2 = Ok k3 -> stores k1 k2 -> stores k1 k3) as Hs.
  { intros x v k2 k3 Hst Hk. etrans; [exact Hk|by eapply stores_bytes]. }
  etrans; [exact H1|]. pose proof (stores_refl k1) as H0. destruct (is_character d).
  - apply bind_Ok_inv in H as (k2 & H2 & H). apply bind_Ok_inv in H as (k3 & H3 & [= _ <-]). eauto.
  - destruct (_ || _); [by injection H as _ <-|]. apply bind_Ok_inv in H as (n & _ & H).
    apply bind_Ok_inv in H as (k2 & H2 & H). apply bind_Ok_inv in H as (k3 & H3 & H).
    apply bind_Ok_inv in H as (k4 & H4 & H). apply bind_Ok_inv in H as (k5 & H5 & [= _ <-]). eauto 6.
Qed.
End stores.

(** ** Console output always returns *)

Lemma monitor_put_ok c s : screen_ok s -> exists s', monitor_put c s = Ok s' /\ screen_ok s'.
Proof.
  intros Hs. assert (monitor_put c s = monitor_put (u8 c) s) as ->.
  { unfold monitor_put, put_character. assert (s8 (u8 c) = s8 c) as -> by (unfold s8, u8; by rewrite Z.mod_mod). done. }
  destruct (monitor_put_refines (u8 c) s (u8_range c) Hs) as (s' & E & _ & Hs' & _). by exists s'.
Qed.

Lemma monitor_write_ok text : forall s, screen_ok s -> exists s', monitor_write console_put text (Ok s) = Ok s' /\ screen_ok s'.
Proof.
  induction text as [|c text IH]; intros s Hs; simpl; [by exists s|]. destruct (c =? 0); [by exists s|].
  destruct (monitor_put_ok c s Hs) as (s' & E & Hs'). unfold console_put at 1. simpl. rewrite E. by apply IH.
Qed.

Lemma monitor_hex_ok n s : is_u32 n -> screen_ok s -> exists s', monitor_write_hex console_put n (Ok s) = Ok (Ok s') /\ screen_ok s'.
Proof.
  intros Hn Hs. destruct (monitor_write_hex_correct console_put n (Ok s) Hn) as (ds & _ & E).
  destruct (monitor_write_ok (codes "0x" ++ ds) s Hs) as (s' & E' & Hs'). exists s'. split; [|done]. congruence.
Qed.

Lemma monitor_dec_ok n s : is_u32 n -> screen_ok s -> exists s', monitor_write_dec console_put n (Ok s) = Ok (Ok s') /\ screen_ok s'.
Proof.
  intros Hn Hs. pose proof (monitor_write_dec_all console_put n (Ok s) Hn) as H.
  destruct (n <? 2 ^ 31); [|by exists s]. destruct H as (ds & _ & E).
  destruct (monitor_write_ok ds s Hs) as (s' & E' & Hs'). exists s'. split; [|done]. congruence.
Qed.

Lemma monitor_clear_ok s : screen_ok s -> exists s', monitor_clear s = Ok s' /\ screen_ok s'.
Proof.
  intros [Hl Hx Hy]. unfold monitor_clear. rewrite fill_cells by lia. rsimpl. eexists. split; [done|]. split; cbn [video_memory cursor_x cursor_y move_cursor]; [|lia..].
  rewrite length_app, length_take, length_replicate. lia.
Qed.

Lemma put_bytes_ok {K S} `{!HasMemory S} (k : kernel page_bytes K S) n : forall a s s', screen_ok s ->
  put_bytes a n k s = Ok s' -> screen_ok s'.
Proof.
  induction n as [|n IH]; intros a s s' Hs; simpl; [by intros [= <-]|]. intros (c & _ & H)%bind_Ok_inv.
  destruct (monitor_put_ok c s Hs) as (s1 & E & Hs1). rewrite E in H. revert H. rsimpl. by apply IH.
Qed.

(** ** The invariant *)

Class AllocatorLaws (S K Cb : Type) `{!Kmalloc K} `{!KmallocLaws K} `{!FsDriver S Cb} `{!HasAllocator S K} : Prop := {
  allocator_set ks s : fs_allocator (set_fs_allocator ks s) = ks;
  (** A driver's [mkdir] allocates at most one block. *)
  mkdir_allocates cb dir nm s r s' : call_mkdir cb dir nm s = Ok (r, s') ->
    fs_allocator s' = fs_allocator s \/
    exists a, (a ∉ k_live (fs_allocator s)) /\ k_live (fs_allocator s') = {[a]} ∪ k_live (fs_allocator s)
}.

(** The archive's driver allocates one tree node. *)
#[export] Instance initrd_allocator_laws {K} `{!Kmalloc K} `{!KmallocLaws K} : AllocatorLaws (initrd K) K initrd_callback.
Proof.
  split; [done|]. intros cb dir nm s r s' H. destruct cb; try done. cbn [call_mkdir initrd_driver] in H. unfold initrd_mkdir in H.
  destruct nm as [|c nm]; [injection H as _ <-; by left|]. apply bind_Ok_inv in H as (x & _ & H).
  destruct (negb (x =? 0)); [injection H as _ <-; by left|]. right. apply bind_Ok_inv in H as ([nd s1] & Hn & H).
  apply bind_Ok_inv in H as (s2 & Ha & [= _ <-]).
  assert (ialloc s2 = ialloc s1) as E2.
  { unfold attach_child in Ha. apply bind_Ok_inv in Ha as (? & _ & Ha). apply bind_Ok_inv in Ha as (? & _ & Ha).
    apply bind_Ok_inv in Ha as (? & _ & Ha). apply bind_Ok_inv in Ha as (? & _ & [= <-]). done. }
  unfold new_tree_node in Hn. apply bind_Ok_inv in Hn as ([a ks] & Hk & Hn). apply bind_Ok_inv in Hn as (? & _ & Hn).
  apply bind_Ok_inv in Hn as (? & _ & [= <- <-]). destruct (kmalloc_plain_fresh _ _ _ _ Hk) as (_ & Hf & E).
  exists a. simpl. rewrite E2. by split.
Qed.

Record machine_ok {K S : Type} `{!Kmalloc K} `{!KmallocLaws K} (m : machine K S) : Prop := {
  mk_sound : sound (proc m);
  mk_screen : screen_ok (screen m);
  mk_input : exists q, represents (input m) q;
  mk_tick : is_u32 (tick m)
}.

Section invariant.
Context {K S Cb : Type} `{!Kmalloc K} `{!KmallocLaws K} `{!HasMemory S} `{!FsDriver S Cb} `{!FileSource S Cb} `{!HasAllocator S K}.
Implicit Types k : kernel page_bytes K S.
Implicit Types m : machine K S.

Lemma stores_sound k k' : stores k k' -> sound k -> sound k'.
Proof.
  intros (c & f & ->) [[q Hq] Hr Hkd]. split; [|done..].
  exists q. apply (quiet_process_ok (with_contents k c)); [by apply contents_process_ok|apply quiet_fs].
Qed.

Lemma ok_proc m k : machine_ok m -> sound k -> machine_ok (with_proc m k).
Proof. intros [] ?. by split. Qed.
Lemma ok_screen m s : machine_ok m -> screen_ok s -> machine_ok (with_screen m s).
Proof. intros [] ?. by split. Qed.
Lemma ok_input m b q : machine_ok m -> represents b q -> machine_ok (with_input m b).
Proof. intros [] ?. split; try done. by exists q. Qed.
Lemma ok_getchar m c b : machine_ok m -> keyboard_getchar (input m) = (c, b) -> machine_ok (with_input m b).
Proof.
  intros Hm E. destruct (mk_input _ Hm) as [q Hq]. destruct (keyboard_getchar_refines _ _ Hq) as (b' & E' & Hb).
  assert (b' = b) as -> by congruence. by eapply ok_input.
Qed.
Lemma ok_stores m k : machine_ok m -> stores (proc m) k -> machine_ok (with_proc m k).
Proof. intros Hm Hs. apply ok_proc; [done|]. by eapply stores_sound, Hm. Qed.
Lemma ok_calm m k : machine_ok m -> calm (proc m) k -> machine_ok (with_proc m k).
Proof. intros Hm Hs. apply ok_proc; [done|]. eapply calm_sound; [apply Hm|done]. Qed.
End invariant.

(** ** Every service keeps the machine invariant *)

(** Walks down a computation that returned: each bind gives the equation
    of its first part, each test is decided. *)
Ltac run_back H :=
  repeat (simpl negb in H; cbv iota in H;
    match type of H with
    | Ok _ = Ok _ => injection H; intros; subst; clear H
    | mbind _ _ = Ok _ => let x := fresh "x" in let E := fresh "E" in apply bind_Ok_inv in H as (x & E & H); try match type of x with (_ * _)%type => destruct x as [? ?] end
    | (if ?b then _ else _) = Ok _ => destruct b eqn:?
    | (match ?x with _ => _ end) = Ok _ => destruct x eqn:?
    end); try done.

Section ops.
Context {K S Cb : Type} `{!Kmalloc K} `{!KmallocLaws K} `{!HasMemory S} `{!FsDriver S Cb} `{!FileSource S Cb} `{!HasAllocator S K}
  `{!AllocatorLaws S K Cb}.
Variable fs_root : Z.
Implicit Types k : kernel page_bytes K S.
Implicit Types m : machine K S.

(** A service that keeps the invariant when its arguments are words. *)
Definition keeps (f : Z -> Z -> Z -> Z -> Z -> machine K S -> res (Z * machine K S)) : Prop :=
  forall a b c d e m r m', machine_ok m -> is_u32 a -> is_u32 b -> is_u32 c -> f a b c d e m = Ok (r, m') -> machine_ok m'.

(** ** Console, clock and identity *)

Lemma keeps_write : keeps service_write.
Proof.
  intros a b c d e m r m' Hm _ _ _ H. unfold service_write in H. destruct (a =? 0); [by injection H as _ <-|].
  apply bind_Ok_inv in H as (text & _ & H). destruct (monitor_write_ok text _ (mk_screen _ Hm)) as (s' & E & Hs).
  rewrite E in H. revert H. rsimpl. intros [= _ <-]. by apply ok_screen.
Qed.
Lemma keeps_putchar : keeps service_putchar.
Proof.
  unfold keeps, service_putchar. intros a b c d e m r m' Hm _ _ _ (s & E & [= _ <-])%bind_Ok_inv. destruct (monitor_put_ok a _ (mk_screen _ Hm)) as (s' & E' & Hs).
  apply ok_screen; [done|]. congruence.
Qed.
Lemma keeps_clear : keeps service_clear.
Proof.
  unfold keeps, service_clear. intros a b c d e m r m' Hm _ _ _ (s & E & [= _ <-])%bind_Ok_inv. destruct (monitor_clear_ok _ (mk_screen _ Hm)) as (s' & E' & Hs).
  apply ok_screen; [done|]. congruence.
Qed.
Lemma keeps_getchar : keeps service_getchar.
Proof.
  intros a b c d e m r m' Hm _ _ _. unfold service_getchar. destruct (keyboard_getchar (input m)) as [ch bf] eqn:E.
  intros [= _ <-]. by eapply ok_getchar.
Qed.
Lemma keeps_hex : keeps service_hex.
Proof.
  unfold keeps, service_hex. intros a b c d e m r m' Hm Ha _ _ (s & E & H)%bind_Ok_inv. destruct (monitor_hex_ok a _ Ha (mk_screen _ Hm)) as (s' & E' & Hs).
  assert (s = Ok s') as -> by congruence. revert H. rsimpl. intros [= _ <-]. by apply ok_screen.
Qed.
Lemma keeps_dec : keeps service_dec.
Proof.
  unfold keeps, service_dec. intros a b c d e m r m' Hm Ha _ _ (s & E & H)%bind_Ok_inv. destruct (monitor_dec_ok a _ Ha (mk_screen _ Hm)) as (s' & E' & Hs).
  assert (s = Ok s') as -> by congruence. revert H. rsimpl. intros [= _ <-]. by apply ok_screen.
Qed.
Lemma keeps_getpid : keeps service_getpid.
Proof. unfold keeps, service_getpid. by intros a b c d e m r m' Hm _ _ _ (p & _ & [= _ <-])%bind_Ok_inv. Qed.
Lemma keeps_ticks : keeps service_ticks.
Proof. unfold keeps, service_ticks. by intros a b c d e m r m' Hm _ _ _ [= _ <-]. Qed.
Lemma keeps_memory : keeps service_memory.
Proof. unfold keeps, service_memory. by intros a b c d e m r m' Hm _ _ _ [= _ <-]. Qed.

(** ** Files and directories *)

Lemma ok_fs m f : machine_ok m -> machine_ok (with_proc m (with_fs (proc m) f)).
Proof. intros Hm. apply ok_calm; [done|apply calm_fs]. Qed.
Lemma ok_fs_stores m f k : machine_ok m -> stores (with_fs (proc m) f) k -> machine_ok (with_proc m k).
Proof. intros Hm Hs. apply (ok_stores (with_proc m (with_fs (proc m) f))); [by apply ok_fs|done]. Qed.

Lemma keeps_readdir : keeps service_readdir.
Proof.
  unfold keeps, service_readdir. intros a b c d e m r m' Hm _ _ _ H. cbv zeta in H. run_back H; [|by apply ok_fs].
  eapply ok_fs_stores; [done|by eapply stores_name].
Qed.
Lemma keeps_chdir : keeps (service_chdir fs_root).
Proof.
  unfold keeps, service_chdir. intros a b c d e m r m' Hm _ _ _ H. cbv zeta in H. run_back H.
  apply ok_calm; [done|by eapply calm_chdir].
Qed.
Lemma keeps_getcwd : keeps (service_getcwd fs_root).
Proof.
  unfold keeps, service_getcwd. intros a b c d e m r m' Hm _ _ _ H. cbv zeta in H. run_back H.
  apply ok_stores; [done|by eapply stores_bytes].
Qed.
Lemma keeps_readfile : keeps (service_readfile fs_root).
Proof.
  unfold keeps, service_readfile. intros a b c d e m r m' Hm _ _ _ H. cbv zeta in H. run_back H.
  all: apply ok_stores; [done|by eapply stores_read].
Qed.
Lemma keeps_open : keeps (service_open fs_root).
Proof.
  unfold keeps, service_open. intros a b c d e m r m' Hm _ _ _ H. cbv zeta in H. run_back H.
  all: apply ok_calm; [done|by eapply calm_open].
Qed.
Lemma keeps_close : keeps service_close.
Proof.
  unfold keeps, service_close. intros a b c d e m r m' Hm _ _ _ H. run_back H. apply ok_calm; [done|by eapply calm_close].
Qed.
Lemma keeps_fd_write : keeps service_fd_write.
Proof.
  unfold keeps, service_fd_write. intros a b c d e m r m' Hm _ _ _ H. cbv zeta in H. run_back H.
  - apply ok_screen; [done|]. eapply put_bytes_ok; [apply Hm|done].
  - apply ok_calm; [done|]. eapply calm_trans; [apply calm_fs|apply calm_set_descriptor].
Qed.
Lemma keeps_lseek : keeps service_lseek.
Proof.
  unfold keeps, service_lseek. intros a b c d e m r m' Hm _ _ _ H. run_back H. all: apply ok_calm; [done|by eapply calm_seek].
Qed.
Lemma keeps_fstat : keeps service_fstat.
Proof.
  unfold keeps, service_fstat, lift. intros a b c d e m r m' Hm _ _ _ H. run_back H. apply ok_stores; [done|by eapply stores_status].
Qed.
Lemma keeps_stat : keeps (service_stat fs_root).
Proof.
  unfold keeps, service_stat, lift. intros a b c d e m r m' Hm _ _ _ H. run_back H. apply ok_stores; [done|by eapply stores_status].
Qed.
Lemma keeps_isatty : keeps service_isatty.
Proof. unfold keeps, service_isatty. intros a b c d e m r m' Hm _ _ _ H. run_back H. Qed.

(** One more block for the driver. *)
Lemma allocated_sound k a ks : sound k -> (a ∉ k_live (kstate (kmm k))) -> k_live ks = {[a]} ∪ k_live (kstate (kmm k)) ->
  sound (with_mm k (Paging.with_kstate (kmm k) ks)).
Proof.
  intros [[q Hq] Hr Hkd] Ha E. split; [|done..]. exists q.
  destruct (grown_alloc (kmm k) a ks (po_vm _ _ Hq) (po_region _ _ Hq) Ha E) as [Hg _].
  apply (remap_process_ok k); [done|]. split; try done; try apply Hg.
  intros x t Hx. exists t. split; [done|]. split; [by split|]. intros Hu.
  destruct (to_heap _ _ _ (po_tasks _ _ Hq x t Hx) Hu). by split.
Qed.

Lemma mkdir_fs_allocates dir nm s r s' : mkdir_fs dir nm s = Ok (r, s') ->
  fs_allocator s' = fs_allocator s \/
  exists a, (a ∉ k_live (fs_allocator s)) /\ k_live (fs_allocator s') = {[a]} ∪ k_live (fs_allocator s).
Proof.
  unfold mkdir_fs. destruct nm as [nm|]; [|intros [= _ <-]; by left]. destruct (dir =? 0); [intros [= _ <-]; by left|].
  intros (n & _ & H)%bind_Ok_inv. destruct (is_directory n); [|injection H as _ <-; by left].
  destruct (mkdir n) as [cb|]; [by eapply mkdir_allocates|injection H as _ <-; by left].
Qed.

Lemma keeps_mkdir : keeps (service_mkdir fs_root).
Proof.
  unfold keeps, service_mkdir. intros a b c d e m r m' Hm _ _ _ H. cbv zeta in H. destruct (_ || _); [by injection H as _ <-|].
  apply bind_Ok_inv in H as (wd & _ & H). apply bind_Ok_inv in H as (p & _ & H). apply bind_Ok_inv in H as ([v f] & H & [= _ <-]).
  set (s0 := set_fs_allocator _ _) in H.
  assert (fs_allocator f = fs_allocator s0 \/
    exists a, (a ∉ k_live (fs_allocator s0)) /\ k_live (fs_allocator f) = {[a]} ∪ k_live (fs_allocator s0)) as Hal.
  { unfold mkdir_path_fs in H. destruct p as [[|ch p]|]; [injection H as _ <-; by left| |injection H as _ <-; by left].
    destruct (_ || _); [injection H as _ <-; by left|]. destruct (skip_slashes _); [injection H as _ <-; by left|].
    apply bind_Ok_inv in H as ([[dir nm]|] & _ & H); [by eapply mkdir_fs_allocates|injection H as _ <-; by left]. }
  unfold s0 in Hal. rewrite allocator_set in Hal.
  assert (sound (with_mm (proc m) (Paging.with_kstate (kmm (proc m)) (fs_allocator f)))) as Hs.
  { destruct Hal as [->|(x & Hx & E)]; [|by eapply allocated_sound; [apply Hm|..]].
    pose proof (mk_sound _ Hm) as Hs. destruct (proc m) as [? ? ? ? ? [] ? ?]. exact Hs. }
  apply ok_proc; [done|]. eapply calm_sound; [exact Hs|apply calm_fs].
Qed.

(** ** Processes and signals *)

Lemma keeps_sbrk_service : keeps service_sbrk.
Proof.
  unfold keeps, service_sbrk. intros a b c d e m r m' Hm _ _ _ H. run_back H.
  apply ok_proc; [done|]. eapply keeps_sbrk; [apply Hm| |done]. pose proof (s32_range a). lia.
Qed.

(** [task_waitpid] stores the status, wherever it points, and then goes on
    as if nothing was asked for. *)
Lemma waitpid_stores k pid status r k' : task_waitpid pid status k = Ok (r, k') ->
  exists k1, stores k k1 /\ task_waitpid pid 0 k1 = Ok (r, k').
Proof.
  intros H. pose proof H as H0. unfold task_waitpid in H. destruct (_ || _) eqn:Eg; [exists k; split; [done|]; unfold task_waitpid; by rewrite Eg|].
  apply bind_Ok_inv in H as (p & Ep & H). apply bind_Ok_inv in H as ([prev child] & Es & H).
  destruct (child =? 0) eqn:Ec. { exists k. split; [done|]. unfold task_waitpid. rewrite Eg, Ep. rsimpl. rewrite Es. rsimpl. by rewrite Ec. }
  apply bind_Ok_inv in H as (c & Ek & H).
  destruct (negb (parent_id c =? id p)) eqn:E1. { exists k. split; [done|]. unfold task_waitpid. rewrite Eg, Ep. rsimpl. rewrite Es. rsimpl. rewrite Ec, Ek. rsimpl. by rewrite E1. }
  destruct (negb (bool_decide (state c = TASK_ZOMBIE))) eqn:E2. { exists k. split; [done|]. unfold task_waitpid. rewrite Eg, Ep. rsimpl. rewrite Es. rsimpl. rewrite Ec, Ek. rsimpl. by rewrite E1, E2. }
  apply bind_Ok_inv in H as (k1 & Est & H).
  assert (stores k k1) as Hst by (destruct (status =? 0); [by injection Est as <-|by eapply stores_bytes]).
  exists k1. split; [done|]. destruct Hst as (cc & f & ->). unfold task_waitpid.
  change (current_task (with_fs (with_contents k cc) f)) with (current_task k). rewrite Eg.
  change (get_task (current_task k) (with_fs (with_contents k cc) f)) with (get_task (current_task k) k). rewrite Ep. rsimpl.
  change (waitpid_step pid (with_fs (with_contents k cc) f)) with (waitpid_step pid k).
  change (ready_queue (with_fs (with_contents k cc) f)) with (ready_queue k). rewrite Es. rsimpl. rewrite Ec.
  change (get_task child (with_fs (with_contents k cc) f)) with (get_task child k). rewrite Ek. rsimpl. rewrite E1, E2. exact H.
Qed.

Lemma keeps_waitpid_service : keeps service_waitpid.
Proof.
  unfold keeps, service_waitpid. intros a b c d e m r m' Hm _ _ _ (x & E & H)%bind_Ok_inv. destruct x as [v k]. injection H as _ <-.
  destruct (waitpid_stores _ _ _ _ _ E) as (k1 & Hst & E1).
  apply ok_proc; [done|]. eapply (keeps_waitpid k1); [eapply stores_sound; [done|apply Hm]|by left|done].
Qed.
Lemma keeps_signal : keeps service_signal.
Proof.
  unfold keeps, service_signal. intros a b c d e m r m' Hm _ _ _ H. run_back H. all: apply ok_calm; [done|by eapply calm_set_handler].
Qed.
Lemma keeps_kill : keeps service_kill.
Proof.
  unfold keeps, service_kill. intros a b c d e m r m' Hm _ _ _ H. run_back H. all: apply ok_calm; [done|]; eapply keeps_send; [apply Hm|done].
Qed.
End ops.
