(* ===== verification/MachineSteps.v ===== *)
(** * Every interrupt keeps the machine invariant *)

From S2P Require Import Prelude LinkedList Memory Kmalloc Frames Paging PagingProofs Vfs Initrd Task AddressSpace Scheduler UserSpace UserMemory UserFile Keyboard Monitor Signal Process ProcessInv ProcessOps Fork Exit Reap Delivery Steps Elf ElfSpec Exec ExecCheck AddressBuild ExecImage ExecSpec Syscall Interrupt MachineInv.

Section execve.
Context {K S Cb : Type} `{!Kmalloc K} `{!KmallocLaws K} `{!HasMemory S} `{!FsDriver S Cb} `{!FileSource S Cb}.
Variable fs_root : Z.
Implicit Types k : kernel page_bytes K S.

(** Regular files can be read, from memory that every process shares. *)
Definition files_served k : Prop := forall file n, node_at (kfs k) file = Some n -> file <> 0 ->
  Z.land (flags n) 0x7 = FS_FILE -> is_Some (read n) -> exists src, served k file n src.

Lemma untouched_sound k k' : sound k -> untouched k k' -> sound k'.
Proof.
  intros [[q Hq] Hr Hkd] [-> H]. set (m' := kmm k') in *. clearbody m'. split; [|done..]. exists q.
  pose proof H as [R1 R2 R3 R4 R5 R6 R7 R8 R9 R10 R11].
  apply (remap_process_ok k); [done|]. split; try done; simpl.
  - eapply (user_region_keep (kmm k)); [done|done|apply Hq].
  - intros x. by rewrite R8.
  - intros x (P1 & P2 & P3). split_and!; simpl.
    + by apply R10.
    + destruct (page_tables m' !! x) eqn:E; [|done]. destruct (R11 x) as [y Hy]; [eauto|]. congruence.
    + destruct (directories m' !! x) eqn:E; [|done]. destruct (proj1 (R8 x)) as [y Hy]; [eauto|]. congruence.
  - intros x t Hx. exists t. split; [done|]. split; [by split|]. intros Hu.
    eapply heap_ok_pte; [|apply (to_heap _ _ _ (po_tasks _ _ Hq x t Hx) Hu)].
    intros v Hv. apply R5; [|unfold user_range in Hv; lia]. apply (po_tasks _ _ Hq x t Hx).
Qed.

Lemma replaced_sound k k' q t src ps highest args addresses sp nd : sound k -> tasks k !! current_task k = Some t ->
  replaced k k' q t src ps highest args addresses sp nd -> sound k'.
Proof.
  intros [_ (t' & Ht' & Hst) Hkd] Ht [Ets (_ & Ec & _) Hok _ _ _ _ _ _ _ _]. assert (t' = t) as -> by congruence.
  split; [by exists q| |].
  - rewrite Ec, Ets. eexists. rewrite lookup_insert_eq. by split.
  - rewrite Ets. intros x u [[<- <-]|[_ Hu]]%lookup_insert_Some; [|by eapply Hkd].
    apply reset_handlers_spec. exact (Hkd _ _ Ht).
Qed.

(** A file that is not null, regular and readable is needed. *)
Lemma validate_needs_file k file x : validate_elf file k = Ok (Some x) ->
  exists n, node_at (kfs k) file = Some n /\ file <> 0 /\ Z.land (flags n) 0x7 = FS_FILE /\ is_Some (read n).
Proof.
  unfold validate_elf. destruct (Z.eqb_spec file 0) as [|H0]; [done|]. intros (n & Hn & H)%bind_Ok_inv. unfold deref in Hn.
  destruct (node_at (kfs k) file) as [n'|]; [|done]. injection Hn as ->. exists n.
  destruct (Z.eqb_spec (Z.land (flags n) 0x7) FS_FILE); [|done]. destruct (read n); [|done]. split_and!; eauto.
Qed.

Lemma keeps_execve k upath argv envp frame r frame' k' : sound k -> files_served k ->
  process_execve fs_root upath argv envp frame k = Ok (r, frame', k') -> sound k' /\ kfs k' = kfs k.
Proof.
  intros Hs Hfiles Hrun. pose proof Hs as [[q Hq] (t & Ht & Hst) Hkd]. destruct (current_task_ok k q Hq) as (t' & Ht' & H0).
  destruct (decide (is_user_process t = 0)) as [Hu|Hu].
  { unfold process_execve in Hrun. rewrite (proj2 (Z.eqb_neq _ 0)), (get_task_ok _ _ _ Ht) in Hrun by done.
    revert Hrun. rsimpl. rewrite Hu. simpl. by intros [= _ _ <-]. }
  assert (forall k1, untouched k k1 -> sound k1 /\ kfs k1 = kfs k) as Hsame.
  { intros k1 Hun. split; [by eapply untouched_sound|]. destruct Hun as [-> _]. done. }
  assert (capture_request upath argv envp k = Ok None \/
    exists rq file im, capture_request upath argv envp k = Ok (Some rq) /\
      resolve_path_fs fs_root (working_directory t) (Some (path rq)) (kfs k) = Ok file /\ validate_elf file k = Ok im) as Hcase.
  { pose proof Hrun as H. unfold process_execve in H. rewrite (proj2 (Z.eqb_neq _ 0)), (get_task_ok _ _ _ Ht) in H by done.
    revert H. rsimpl. rewrite (proj2 (Z.eqb_neq _ 0)) by done. intros ([rb ks] & Hk & H)%bind_Ok_inv.
    destruct (kmalloc_plain_fresh _ _ _ _ Hk) as (Hr0 & _). rewrite (proj2 (Z.eqb_neq rb 0)) in H by lia.
    change (capture_request upath argv envp (with_mm k (Paging.with_kstate (kmm k) ks))) with (capture_request upath argv envp k) in H.
    apply bind_Ok_inv in H as ([rq|] & Hc & H); [right|by left]. apply bind_Ok_inv in H as (file & Hf & H).
    apply bind_Ok_inv in H as (im & Hv & _). rewrite (validate_elf_same k) in Hv by done. by exists rq, file, im. }
  destruct Hcase as [Hc|(rq & file & [[[h ps] highest]|] & Hc & Hf & Hv)].
  - destruct (execve_refused fs_root k q t Hq Ht Hu upath argv envp frame (or_introl Hc)) as [Hfail|(k2 & Hrun2 & Hun)];
      [by destruct (kernel_failure_not_ok _ Hfail _ Hrun)|]. rewrite Hrun in Hrun2. injection Hrun2 as _ _ <-. by apply Hsame.
  - apply capture_request_spec in Hc as (args & Hreq). destruct (validate_needs_file k file _ Hv) as (n & Hn & Hn0 & Hreg & Hread).
    destruct (Hfiles file n Hn Hn0 Hreg Hread) as (src & Hsv). rewrite (validate_elf_run k file n src Hsv) in Hv. injection Hv as Hv.
    apply (program_file_spec _ _ _ _ _ _ _ Hsv) in Hv.
    destruct (execve_accepted fs_root k q t Hq Ht Hu upath argv envp frame rq args file n src h ps highest Hreq Hf Hsv Hv)
      as [Hfail|[(_ & k2 & Hrun2 & Hun)|(_ & k2 & addresses & sp & nd & Hrun2 & Hrep)]];
      [by destruct (kernel_failure_not_ok _ Hfail _ Hrun)|..]; rewrite Hrun in Hrun2; injection Hrun2 as _ _ <-.
    + by apply Hsame.
    + split; [eapply replaced_sound; [exact Hs|exact Ht|exact Hrep]|apply Hrep].
  - destruct (execve_refused fs_root k q t Hq Ht Hu upath argv envp frame (or_intror (ex_intro _ rq (ex_intro _ file (conj Hc (conj Hf Hv))))))
      as [Hfail|(k2 & Hrun2 & Hun)]; [by destruct (kernel_failure_not_ok _ Hfail _ Hrun)|].
    rewrite Hrun in Hrun2. injection Hrun2 as _ _ <-. by apply Hsame.
Qed.
End execve.

(** ** Kernel memory

    A buffer in user space is never in kernel memory, so the calls that
    fill one leave every byte of it alone, as long as the drivers do. *)
Class KernelMemoryLaws (S K Cb : Type) `{!HasMemory S} `{!FsDriver S Cb} `{!FileSource S Cb} `{!HasAllocator S K} : Prop := {
  km_open cb nd s s' : call_open cb nd s = Ok s' -> kernel_memory s' = kernel_memory s;
  km_close cb nd s s' : call_close cb nd s = Ok s' -> kernel_memory s' = kernel_memory s;
  km_readdir cb nd i s e s' : call_readdir cb nd i s = Ok (e, s') -> kernel_memory s' = kernel_memory s;
  km_mkdir cb nd nm s r s' : call_mkdir cb nd nm s = Ok (r, s') -> kernel_memory s' = kernel_memory s;
  km_write cb nd off size buf s r s' : call_write cb nd off size buf s = Ok (r, s') -> kernel_memory s' = kernel_memory s;
  km_allocator ks s : kernel_memory (set_fs_allocator ks s) = kernel_memory s;
  (** A read copies no more than was asked for. *)
  km_source cb nd off size s src n : read_source cb nd off size s = Ok (src, n) -> 0 <= size -> 0 <= n <= size
}.

(** The archive's driver keeps its tree of nodes, not bytes. *)
#[export] Instance initrd_memory_kept {K} `{!Kmalloc K} : KernelMemoryLaws (initrd K) K initrd_callback.
Proof.
  split; try done.
  - intros cb nd i s e s' H. destruct cb; try done. cbn [call_readdir initrd_driver] in H. unfold initrd_readdir in H. run_back H.
  - intros cb nd nm s r s' H. destruct cb; try done. cbn [call_mkdir initrd_driver] in H. unfold initrd_mkdir in H.
    destruct nm as [|c nm]; [by injection H as _ <-|]. run_back H.
    unfold new_tree_node in *. unfold attach_child in *. run_back E0. run_back E1.
  - intros cb nd off size s src n H Hs. destruct cb; try done. unfold read_source, initrd_file_source, initrd_source in H.
    apply bind_Ok_inv in H as (x & _ & H). destruct (Z.leb_spec (hd_length (imem s) (file_header (inode (fs x)) s)) off); [injection H as _ <-; lia|].
    destruct (Z.ltb_spec (hd_length (imem s) (file_header (inode (fs x)) s) - off) size); injection H as _ <-; lia.
Qed.

Section stores.
Context {K S Cb : Type} `{!Kmalloc K} `{!KmallocLaws K} `{!HasMemory S} `{!FsDriver S Cb} `{!FileSource S Cb} `{!HasAllocator S K}
  `{!KernelMemoryLaws S K Cb}.
Implicit Types k : kernel page_bytes K S.

Definition kernel_bytes k : mem := kernel_memory (kfs k).

(** User addresses are in frames. *)
Definition user_private k : Prop := forall a, user_address a -> locate a k <> Ok None.
Lemma sound_private k : sound k -> user_private k.
Proof. intros [[q Hq] _ _] a Ha. rewrite locate_pte by (done || apply Hq). by destruct (pte _ _ _). Qed.

(** [n] bytes at [a] lie in user space. *)
Definition user_place (a n : Z) : Prop := forall x, a <= x < a + n -> user_address x.

Definition user_stores k k' : Prop := exists c, k' = with_contents k c.
#[export] Instance user_stores_refl : Reflexive user_stores.
Proof. intros k. exists (contents_of (kmm k)). by rewrite with_contents_same. Qed.
#[export] Instance user_stores_trans : Transitive user_stores.
Proof. intros k1 k2 k3 [c ->] [c' ->]. by exists c'. Qed.
Lemma user_stores_private k k' : user_private k -> user_stores k k' -> user_private k'.
Proof. intros Hk [c ->] a. rewrite locate_contents. apply Hk. Qed.
Lemma user_stores_bytes k k' : user_stores k k' -> kernel_bytes k' = kernel_bytes k.
Proof. by intros [c ->]. Qed.

Lemma user_store8 a v k k' : user_private k -> user_address a -> vstore8 a v k = Ok k' -> user_stores k k'.
Proof. intros Hk Ha ([[b o]|] & Hl & H)%bind_Ok_inv; [injection H as <-; by eexists|by destruct (Hk a Ha)]. Qed.

Lemma user_store_then a v k k1 k' : user_private k -> user_address a -> vstore8 a v k = Ok k1 ->
  (user_private k1 -> user_stores k1 k') -> user_stores k k'.
Proof. intros Hk Ha H Hn. pose proof (user_store8 _ _ _ _ Hk Ha H) as Hs. etrans; [exact Hs|]. apply Hn. by eapply user_stores_private. Qed.

Lemma user_place_head a n : user_place a n -> 0 < n -> user_address a /\ u32 (a + 1) = a + 1 /\ user_place (a + 1) (n - 1).
Proof.
  intros Hp Hn. assert (user_address a) as Ha by (apply Hp; lia). split; [done|]. unfold user_address in Ha.
  split; [apply u32_small; unfold is_u32; lia|]. intros x Hx. apply Hp. lia.
Qed.
Lemma user_place_sub a n i l : user_place a n -> 0 <= i -> i + l <= n -> user_place (a + i) l.
Proof. intros Hp Hi Hl x Hx. apply Hp. lia. Qed.
Lemma user_place_u32 a n i : user_place a n -> 0 <= i < n -> u32 (a + i) = a + i /\ user_address (a + i).
Proof. intros Hp Hi. assert (user_address (a + i)) as Ha by (apply Hp; lia). split; [apply u32_small; unfold user_address in Ha; lia|done]. Qed.

Lemma user_bytes l : forall a k k', user_private k -> user_place a (Z.of_nat (List.length l)) -> vstore_bytes a l k = Ok k' -> user_stores k k'.
Proof.
  induction l as [|v l IH]; intros a k k' Hk Hp; cbn [vstore_bytes]; [by intros [= <-]|]. intros (k1 & H1 & H2)%bind_Ok_inv.
  cbn [List.length] in Hp. destruct (user_place_head _ _ Hp) as (Ha & E & Hp'); [lia|]. rewrite E in H2.
  eapply user_store_then; [done|exact Ha|exact H1|]. intros Hk1. eapply IH; [done| |exact H2]. intros x Hx. apply Hp'. lia.
Qed.
Lemma user_word a v k k' : user_private k -> user_place a 4 -> vstore32 a v k = Ok k' -> user_stores k k'.
Proof. intros Hk Hp. apply user_bytes; [done|]. by rewrite le32_length. Qed.
Lemma user_fill n : forall a v k k', user_private k -> user_place a (Z.of_nat n) -> vfill a v n k = Ok k' -> user_stores k k'.
Proof.
  induction n as [|n IH]; intros a v k k' Hk Hp; cbn [vfill]; [by intros [= <-]|]. intros (k1 & H1 & H2)%bind_Ok_inv.
  destruct (user_place_head _ _ Hp) as (Ha & E & Hp'); [lia|]. rewrite E in H2.
  eapply user_store_then; [done|exact Ha|exact H1|]. intros Hk1. eapply IH; [done| |exact H2]. intros x Hx. apply Hp'. lia.
Qed.
Lemma user_name nm : forall a cap i k k', user_private k -> user_place a cap -> 0 <= i < cap -> copy_name a cap i nm k = Ok k' -> user_stores k k'.
Proof.
  induction nm as [|c nm IH]; intros a cap i k k' Hk Hp Hi; cbn [copy_name]; destruct (user_place_u32 a cap i Hp Hi) as [-> Ha];
    [by apply user_store8|]. destruct (Z.ltb_spec (i + 1) cap); cbn [andb]; [|by apply user_store8].
  destruct (negb (c =? 0)); [|by apply user_store8]. intros (k1 & H1 & H2)%bind_Ok_inv.
  eapply user_store_then; [done|exact Ha|exact H1|]. intros Hk1. eapply (IH a cap (i + 1)); [done|exact Hp|lia|exact H2].
Qed.
Lemma user_copy dest src len k k' : user_private k -> 0 <= len < 2 ^ 32 -> user_place dest len -> vmemcpy dest src len k = Ok k' -> user_stores k k'.
Proof.
  intros Hk Hl Hp.
  apply (while_preserves (fun '(dp, _, n, k1) => user_stores k k1 /\ 0 <= n < 2 ^ 32 /\ user_place dp n) (user_stores k)); [..|done].
  - intros [[[dp sp] n] k1] [[[dp' sp'] n'] k2] (Hs & Hn & Hd) E. destruct (Z.eqb_spec n 0); cbn [negb] in E; [done|].
    apply bind_Ok_inv in E as (c & _ & E). apply bind_Ok_inv in E as (k3 & H3 & [= <- <- <- <-]).
    destruct (user_place_head _ _ Hd) as (Ha & -> & Hd'); [lia|]. rewrite (u32_small (n - 1)) by lia. split_and!; [|lia|lia|done].
    etrans; [exact Hs|]. eapply user_store8; [by eapply user_stores_private|exact Ha|exact H3].
  - intros [[[dp sp] n] k1] k2 (Hs & _) E. destruct (negb (n =? 0)); [|by injection E as <-].
    apply bind_Ok_inv in E as (c & _ & E). by apply bind_Ok_inv in E as (? & _ & ?).
Qed.
Lemma user_read nd off size buf k r k' : user_private k -> 0 <= size < 2 ^ 32 -> buf = 0 \/ user_place buf size ->
  vread_fs nd off size buf k = Ok (r, k') -> user_stores k k'.
Proof.
  intros Hk Hs Hp. unfold vread_fs. destruct (_ || _) eqn:E0; [by intros [= _ <-]|]. intros (n & _ & H)%bind_Ok_inv.
  destruct (read n) as [cb|]; [|by injection H as _ <-]. apply bind_Ok_inv in H as ([src len] & Hsrc & H).
  apply bind_Ok_inv in H as (k2 & H2 & [= _ <-]). apply km_source in Hsrc; [|lia]. apply orb_false_iff in E0 as [_ E0%Z.eqb_neq].
  destruct Hp as [?|Hp]; [done|]. eapply user_copy; [done| | |exact H2]; [lia|]. intros x Hx. apply Hp. lia.
Qed.
Lemma user_status d a k r k' : user_private k -> a = 0 \/ user_place a 16 -> fill_file_status d a k = Ok (r, k') -> user_stores k k'.
Proof.
  intros Hk Hp. unfold fill_file_status. destruct (Z.eqb_spec a 0) as [|H0]; [by intros [= _ <-]|]. destruct Hp as [?|Hp]; [done|].
  intros (k1 & H1%user_fill & H)%bind_Ok_inv; [|done..]. pose proof (user_stores_private _ _ Hk H1) as Hk1.
  assert (forall i v k2 k3, 0 <= i <= 12 -> vstore32 (u32 (a + i)) v k2 = Ok k3 -> user_stores k1 k2 -> user_stores k1 k3) as Hs.
  { intros i v k2 k3 Hi Hst Hk2. destruct (user_place_u32 a 16 i Hp) as [E _]; [lia|]. rewrite E in Hst. etrans; [exact Hk2|].
    eapply user_word; [by eapply user_stores_private| |exact Hst]. eapply user_place_sub; [done|lia..]. }
  assert (forall v k2 k3, vstore32 a v k2 = Ok k3 -> user_stores k1 k2 -> user_stores k1 k3) as Hs0.
  { intros v k2 k3 Hst. apply (Hs 0 v); [lia|]. destruct (user_place_u32 a 16 0 Hp) as [-> _]; [lia|]. by rewrite Z.add_0_r. }
  etrans; [exact H1|]. pose proof (user_stores_refl k1) as H00. destruct (is_character d).
  - apply bind_Ok_inv in H as (k2 & H2%Hs0 & H); [|done]. apply bind_Ok_inv in H as (k3 & H3 & [= _ <-]). eapply (Hs 12); [lia|done..].
  - destruct (_ || _); [by injection H as _ <-|]. apply bind_Ok_inv in H as (n & _ & H).
    apply bind_Ok_inv in H as (k2 & H2%Hs0 & H); [|done]. apply bind_Ok_inv in H as (k3 & H3 & H). apply Hs in H3; [|lia|done].
    apply bind_Ok_inv in H as (k4 & H4 & H). apply Hs in H4; [|lia|done]. apply bind_Ok_inv in H as (k5 & H5 & [= _ <-]).
    eapply (Hs 12); [lia|done..].
Qed.
End stores.

(** ** Operations and services leave kernel memory alone *)
Section bytes.
Context {K S Cb : Type} `{!Kmalloc K} `{!KmallocLaws K} `{!HasMemory S} `{!FsDriver S Cb} `{!FileSource S Cb} `{!HasAllocator S K}
  `{!KernelMemoryLaws S K Cb}.
Variable fs_root resume_user_frame : Z.
Implicit Types k : kernel page_bytes K S.
Implicit Types m : machine K S.

Lemma open_bytes nd a b (s s' : S) : open_fs nd a b s = Ok s' -> kernel_memory s' = kernel_memory s.
Proof. unfold open_fs. intros H. run_back H. by eapply km_open. Qed.
Lemma close_bytes nd (s s' : S) : close_fs nd s = Ok s' -> kernel_memory s' = kernel_memory s.
Proof. unfold close_fs. intros H. run_back H. by eapply km_close. Qed.
Lemma notify_open_bytes ds : forall s s' : S, notify_open ds s = Ok s' -> kernel_memory s' = kernel_memory s.
Proof.
  induction ds as [|d ds IH]; intros s s'; cbn [notify_open]; [by intros [= <-]|]. intros (s1 & H1 & H2%IH)%bind_Ok_inv. rewrite H2.
  destruct (decide _); [|by injection H1 as <-]. destruct (node d =? 0); [by injection H1 as <-|by eapply open_bytes].
Qed.
Lemma notify_close_bytes ds : forall s s' : S, notify_close ds s = Ok s' -> kernel_memory s' = kernel_memory s.
Proof.
  induction ds as [|d ds IH]; intros s s'; cbn [notify_close]; [by intros [= <-]|]. intros (s1 & H1 & H2%IH)%bind_Ok_inv. rewrite H2.
  destruct (decide _); [|by injection H1 as <-]. destruct (node d =? 0); [by injection H1 as <-|by eapply close_bytes].
Qed.

Lemma switch_bytes e sp b k k' : switch_task e sp b k = Ok k' -> kernel_bytes k' = kernel_bytes k.
Proof. unfold switch_task. intros H. cbv zeta in H. run_back H. Qed.
Lemma wait_bytes e sp b k k' : task_wait_for_keyboard e sp b k = Ok k' -> kernel_bytes k' = kernel_bytes k.
Proof. unfold task_wait_for_keyboard. intros H. run_back H. by apply switch_bytes in H. Qed.
Lemma wake_bytes k k' : task_wake_keyboard_waiters k = Ok k' -> kernel_bytes k' = kernel_bytes k.
Proof.
  apply (while_preserves (fun st => kernel_bytes st.2 = kernel_bytes k) (fun k1 => kernel_bytes k1 = kernel_bytes k)); [..|done].
  - intros [t k1] [t2 k2] Hc E. destruct (t =? 0); [done|]. apply bind_Ok_inv in E as (x & _ & [= _ <-]). simpl in *. by case_decide.
  - intros [t k1] k2 Hc E. destruct (t =? 0); [by injection E as <-|]. by destruct (get_task t k1).
Qed.
Lemma send_bytes pid n k r k' : sound k -> task_signal_send pid n k = Ok (r, k') -> kernel_bytes k' = kernel_bytes k.
Proof.
  intros [[q Hq] _ _] H. destruct (signal_send_cases k q pid n Hq) as (r2 & k2 & H2 & _ & E & _).
  rewrite H in H2. injection H2 as <- <-. unfold kernel_bytes. by rewrite E.
Qed.
Lemma exit_bytes status cpu k k' : sound k -> task_exit status cpu k = Ok k' -> kernel_bytes k' = kernel_bytes k.
Proof.
  intros [[q Hq] (t & Ht & Hst) _] H. destruct (current_task_ok k q Hq) as (t' & Ht' & H0).
  destruct (exit_closed k t status cpu k' Ht H0 H) as [Hu [f Hf]].
  destruct (exit_spec k q t status cpu f Hq Ht Hu Hf) as (k2 & H2 & [_ _ _ (Ef & _) _]). rewrite H in H2. injection H2 as <-.
  unfold kernel_bytes. rewrite Ef. by eapply notify_close_bytes.
Qed.
Lemma fork_bytes frame k r k' : sound k -> next_pid k < 2 ^ 31 - 1 -> task_fork_from_frame resume_user_frame frame k = Ok (r, k') ->
  kernel_bytes k' = kernel_bytes k.
Proof.
  intros [[q Hq] (t & Ht & Hst) _] Hpid H. destruct (current_task_ok k q Hq) as (t' & Ht' & H0).
  destruct (decide (is_user_process t = 0)) as [Hu|Hu].
  - unfold task_fork_from_frame in H. rewrite (proj2 (Z.eqb_neq _ 0)), (get_task_ok _ _ _ Ht) in H by done.
    revert H. rsimpl. rewrite Hu. simpl. by intros [= _ <-].
  - destruct (fork_opened resume_user_frame k t frame _ Ht H0 Hu Hst H) as [f Hf].
    destruct (fork_spec resume_user_frame k q t frame f Hq Ht Hu Hst Hpid Hf) as [Hfail|(k2 & a & st & nd & m & H2 & Hr)];
      [by destruct (clone_failure_not_ok _ Hfail _ H)|]. rewrite H in H2. injection H2 as _ <-.
    destruct (fr_rest _ _ _ _ _ _ _ _ _ _ _ Hr) as (E & _). unfold kernel_bytes. rewrite E. by eapply notify_open_bytes.
Qed.
Lemma deliver_bytes frame cpu k out : sound k -> task_signal_deliver frame cpu k = Ok out ->
  kernel_bytes match out with Resumes _ k' => k' | Exited k' => k' end = kernel_bytes k.
Proof.
  intros Hs H. pose proof Hs as [[q Hq] (t & Ht & Hst) Hkd].
  destruct (deliverable t frame) eqn:Hd.
  2: { rewrite (deliver_nothing k q t frame cpu Hq Ht (or_introl Hd)) in H. by injection H as <-. }
  destruct (decide (lowest_pending t = 0)) as [H0|H0].
  { rewrite (deliver_nothing k q t frame cpu Hq Ht (or_intror H0)) in H. by injection H as <-. }
  rewrite (deliver_taken k q t frame cpu Hq Ht Hd H0) in H. cbv zeta in H.
  pose proof (taken_sound k t Hs Ht) as Hs1.
  assert (forall s, (k' ← task_exit s cpu (with_taken k t); Ok (Exited k')) = Ok out ->
    kernel_bytes match out with Resumes _ k' => k' | Exited k' => k' end = kernel_bytes k) as Hexit.
  { intros s (k' & He & [= <-])%bind_Ok_inv. by apply exit_bytes in He. }
  destruct (reaction_to t (lowest_pending t)) as [| |h]; [by injection H as <-|by eapply Hexit|].
  destruct (frame_fits t (r_useresp frame)) eqn:Hfit; [|by eapply Hexit].
  apply bind_Ok_inv in H as (k2 & H2 & [= <-]). unfold frame_fits in Hfit. apply andb_true_iff in Hfit as [[F1%Z.leb_le F2%Z.leb_le]%andb_true_iff _].
  destruct (frame_address_spec (r_useresp frame)) as (_ & A1 & A2); [lia|]. unfold STACK_BOTTOM, USER_STACK_TOP, TASK_STACK_SIZE, sizeof_signal_frame in *.
  change (kernel_bytes k2 = kernel_bytes (with_taken k t)). apply user_stores_bytes. eapply user_bytes; [by apply sound_private| |exact H2].
  rewrite frame_bytes_length. intros x Hx. unfold user_address. lia.
Qed.

Lemma read_keyboard_bytes a count cpu m o : user_private (proc m) -> 0 < count -> user_place a count -> read_keyboard a count cpu m = Ok o ->
  kernel_bytes (proc match o with Returned _ m' | Asleep m' => m' end) = kernel_bytes (proc m).
Proof.
  intros Hk Hc Hp. unfold read_keyboard. destruct (keyboard_getchar (input m)) as [ch b]. destruct (ch <? 0).
  - destruct cpu as [[eip esp] ebp]. intros (k & H%wait_bytes & [= <-])%bind_Ok_inv. exact H.
  - intros (k & H & H2)%bind_Ok_inv. apply bind_Ok_inv in H2 as ([n m2] & H2 & [= <-]).
    destruct (user_place_head _ _ Hp Hc) as (Ha & _ & _). pose proof (user_store8 _ _ _ _ Hk Ha H) as Hs.
    rewrite <- (user_stores_bytes _ _ Hs). apply (user_stores_private _ _ Hk) in Hs. change k with (proc (with_proc (with_input m b) k)).
    assert (forall room amount m1, user_private (proc m1) -> 0 <= amount -> amount + Z.of_nat room <= count ->
      forall r m3, drain_keyboard room amount a m1 = Ok (r, m3) -> kernel_bytes (proc m3) = kernel_bytes (proc m1)) as Hdrain.
    { induction room as [|room IH]; intros amount m1 Hk1 H0 Hle r m3; cbn [drain_keyboard]; [by intros [= _ <-]|].
      destruct (keyboard_getchar (input m1)) as [c1 b1]. destruct (c1 <? 0); [by intros [= _ <-]|]. intros (k1 & H1 & H3)%bind_Ok_inv.
      destruct (user_place_u32 a count amount Hp) as [E Haa]; [lia|]. rewrite E in H1. pose proof (user_store8 _ _ _ _ Hk1 Haa H1) as Hs1.
      rewrite (IH (amount + 1) (with_proc (with_input m1 b1) k1) (user_stores_private _ _ Hk1 Hs1) ltac:(lia) ltac:(lia) _ _ H3). by apply user_stores_bytes. }
    eapply Hdrain; [exact Hs| | |exact H2]; lia.
Qed.

Lemma fd_read_bytes fd a count cpu m o : user_private (proc m) -> is_u32 count -> a = 0 \/ user_place a count ->
  service_fd_read fd a count cpu m = Ok o -> kernel_bytes (proc match o with Returned _ m' | Asleep m' => m' end) = kernel_bytes (proc m).
Proof.
  intros Hk Hu Hp. unfold service_fd_read. destruct (_ || _) eqn:E; [by intros [= <-]|]. apply orb_false_iff in E as [E1%Z.eqb_neq E2%Z.eqb_neq].
  destruct Hp as [?|Hp]; [done|]. unfold is_u32 in Hu. intros ([d|] & _ & H)%bind_Ok_inv; [|by injection H as <-].
  destruct (kind d); try by injection H as <-.
  - by eapply read_keyboard_bytes; [..|exact H]; try lia.
  - destruct (node d =? 0); [by injection H as <-|]. apply bind_Ok_inv in H as ([n k] & H & [= <-]). simpl.
    change (kernel_bytes k = kernel_bytes (proc m)). apply user_stores_bytes. eapply user_read; [done| | |exact H]; [lia|by right].
Qed.

(** ** Services *)

(** The buffer a system call fills: its address and its size. *)
Definition call_buffer (number a b c : Z) : Z * Z :=
  match number with
  | 4 | 5 | 12 => (b, c)
  | 16 => (a, b)
  | 22 => (b, 4)
  | 27 | 28 => (b, 16)
  | _ => (0, 0)
  end.
(** It is null or in user space. *)
Definition buffer_in_user (number a b c : Z) : Prop :=
  let '(p, n) := call_buffer number a b c in p = 0 \/ user_place p n.

Definition leaves_bytes (number : Z) (f : service (K := K) (S := S)) : Prop :=
  forall a b c d e m r m', sound (proc m) -> files_served (proc m) -> is_u32 c -> buffer_in_user number a b c ->
    f a b c d e m = Ok (r, m') -> kernel_bytes (proc m') = kernel_bytes (proc m).

Lemma emit_names_length cs cap : forall out (s : S) r text, emit_names cs cap out s = Ok (r, text) ->
  Z.of_nat (List.length out) + 1 <= cap -> Z.of_nat (List.length text) <= cap.
Proof.
  induction cs as [|c cs IH]; intros out s r text; cbn [emit_names].
  - intros [= _ <-] H. rewrite length_app. simpl. lia.
  - intros (n & _ & H)%bind_Ok_inv Hle. cbv zeta in H. set (more := match cs with [] => false | _ => true end) in H.
    destruct (Z.gtb_spec (Z.of_nat (List.length out) + Z.of_nat (List.length (name n)) + (if more then 1 else 0) + 1) cap);
      [injection H as _ <-; lia|]. eapply IH; [exact H|]. rewrite !length_app. destruct more; simpl List.length; lia.
Qed.
Lemma get_path_length root nd a cap (s : S) r text : get_path_fs root nd a cap s = Ok (r, text) -> Z.of_nat (List.length text) <= Z.max 0 cap.
Proof.
  unfold get_path_fs. destruct (_ || _) eqn:E; [intros [= _ <-]; simpl; lia|]. apply orb_false_iff in E as [_ E%Z.ltb_ge].
  intros ([cs|] & _ & H)%bind_Ok_inv; [|injection H as _ <-; simpl; lia]. apply emit_names_length in H; simpl; lia.
Qed.

Lemma readdir_fs_bytes nd i (s s' : S) e : readdir_fs nd i s = Ok (e, s') -> kernel_memory s' = kernel_memory s.
Proof. unfold readdir_fs. intros H. run_back H. by eapply km_readdir. Qed.
Lemma mkdir_fs_bytes nd nm (s s' : S) r : mkdir_fs nd nm s = Ok (r, s') -> kernel_memory s' = kernel_memory s.
Proof. unfold mkdir_fs. intros H. run_back H. by eapply km_mkdir. Qed.
Lemma write_fs_bytes nd off size buf (s s' : S) r : write_fs nd off size buf s = Ok (r, s') -> kernel_memory s' = kernel_memory s.
Proof. unfold write_fs. intros H. run_back H. by eapply km_write. Qed.

Lemma readdir_bytes : leaves_bytes 4 service_readdir.
Proof.
  unfold leaves_bytes, service_readdir. intros a b c d e m r m' Hs _ Hc Hb H. cbv zeta in H. apply sound_private in Hs as Hk. run_back H.
  - transitivity (kernel_bytes (with_fs (proc m) s)); [|exact (readdir_fs_bytes _ _ _ _ _ E0)].
    apply orb_false_iff in Heqb0 as [[_ E2%Z.eqb_neq]%orb_false_iff E3%Z.eqb_neq]. destruct Hb as [?|Hb]; [done|]. unfold is_u32 in Hc.
    apply user_stores_bytes. eapply (user_name l b c 0); [exact Hk|exact Hb|lia|exact E1].
  - exact (readdir_fs_bytes _ _ _ _ _ E0).
Qed.
Lemma getcwd_bytes : leaves_bytes 16 (service_getcwd fs_root).
Proof.
  unfold leaves_bytes, service_getcwd. intros a b c d e m r m' Hs _ _ Hb H. cbv zeta in H. apply sound_private in Hs as Hk. run_back H.
  apply user_stores_bytes. destruct Hb as [?|Hb]; [by apply Z.eqb_neq in Heqb0|]. apply get_path_length in E0.
  eapply user_bytes; [exact Hk| |exact E1]. intros y Hy. apply Hb. lia.
Qed.
Lemma readfile_bytes : leaves_bytes 5 (service_readfile fs_root).
Proof.
  unfold leaves_bytes, service_readfile. intros a b c d e m r m' Hs Hfiles Hc Hb H. cbv zeta in H. apply sound_private in Hs as Hk. unfold is_u32 in Hc.
  destruct (_ || _) eqn:E0; [by injection H as _ <-|]. apply orb_false_iff in E0 as [[[_ _]%orb_false_iff E1%Z.eqb_neq]%orb_false_iff _].
  destruct Hb as [?|Hb]; [done|]. apply bind_Ok_inv in H as (nd & _ & H). destruct (Z.eqb_spec nd 0) as [|Hnd]; [by injection H as _ <-|].
  apply bind_Ok_inv in H as (n & Hn & H). destruct (Z.eqb_spec (Z.land (flags n) 0x7) FS_FILE) as [Hf|]; cbn [negb] in H; [|by injection H as _ <-].
  apply bind_Ok_inv in H as ([count k] & H & [= _ <-]). change (kernel_bytes k = kernel_bytes (proc m)). apply user_stores_bytes.
  unfold deref in Hn. destruct (node_at (kfs (proc m)) nd) as [n'|] eqn:Hat; [|done]. injection Hn as ->.
  destruct (read n) as [cb|] eqn:Hr.
  - destruct (Hfiles nd n Hat Hnd Hf ltac:(by rewrite Hr)) as [src Hsv]. destruct (sv_range _ _ _ _ Hsv) as (L0 & _).
    eapply user_read; [exact Hk| | |exact H]; [|right; intros y Hy; apply Hb]; destruct (Z.ltb_spec (length n) c); lia.
  - unfold vread_fs in H. destruct (_ || _); [by injection H as _ <-|]. unfold deref in H. rewrite Hat in H. revert H. rsimpl. rewrite Hr. by intros [= _ <-].
Qed.
Lemma status_bytes d a k r k' : user_private k -> a = 0 \/ user_place a 16 -> fill_file_status d a k = Ok (r, k') -> kernel_bytes k' = kernel_bytes k.
Proof. intros. apply user_stores_bytes. by eapply user_status. Qed.
Lemma fstat_bytes : leaves_bytes 27 service_fstat.
Proof.
  unfold leaves_bytes, service_fstat, lift. intros a b c d e m r m' Hs _ _ Hb H. apply sound_private in Hs as Hk. run_back H.
  change (kernel_bytes k = kernel_bytes (proc m)). eapply status_bytes; [exact Hk|exact Hb|eassumption].
Qed.
Lemma stat_bytes : leaves_bytes 28 (service_stat fs_root).
Proof.
  unfold leaves_bytes, service_stat, lift. intros a b c d e m r m' Hs _ _ Hb H. apply sound_private in Hs as Hk. run_back H.
  change (kernel_bytes k = kernel_bytes (proc m)). eapply status_bytes; [exact Hk|exact Hb|eassumption].
Qed.
Lemma waitpid_bytes : leaves_bytes 22 service_waitpid.
Proof.
  unfold leaves_bytes, service_waitpid. intros a b c d e m r m' Hs _ _ Hb (x & H & H2)%bind_Ok_inv. destruct x as [v k]. injection H2 as _ <-.
  apply sound_private in Hs as Hk. change (kernel_bytes k = kernel_bytes (proc m)). unfold task_waitpid in H. cbv zeta in H.
  destruct (_ || _); [by injection H as _ <-|]. apply bind_Ok_inv in H as (p & _ & H). apply bind_Ok_inv in H as ([prev child] & _ & H).
  destruct (child =? 0); [by injection H as _ <-|]. apply bind_Ok_inv in H as (ch & _ & H). destruct (negb _); [by injection H as _ <-|].
  destruct (negb _); [by injection H as _ <-|]. apply bind_Ok_inv in H as (k1 & Hst & H).
  assert (kernel_bytes k1 = kernel_bytes (proc m)) as <-.
  { destruct (Z.eqb_spec b 0) as [|Hb0]; [by injection Hst as <-|]. destruct Hb as [?|Hb]; [done|]. apply user_stores_bytes. by eapply user_word. }
  run_back H.
Qed.
Lemma chdir_bytes : leaves_bytes 15 (service_chdir fs_root).
Proof.
  unfold leaves_bytes, service_chdir, task_set_working_directory. intros a b c d e m r m' _ _ _ _ H. cbv zeta in H. run_back H.
  match goal with E : _ = Ok ?k |- kernel_bytes (proc (with_proc _ ?k)) = _ => run_back E end.
Qed.
Lemma open_service_bytes : leaves_bytes 11 (service_open fs_root).
Proof.
  unfold leaves_bytes, service_open, task_open_descriptor. intros a b c d e m r m' _ _ _ _ H. cbv zeta in H. run_back H.
  all: match goal with E : _ = Ok (_, ?k) |- kernel_bytes (proc (with_proc _ ?k)) = _ => run_back E end.
  all: by match goal with E : open_fs _ _ _ _ = _ |- _ => apply open_bytes in E end.
Qed.
Lemma close_service_bytes : leaves_bytes 13 service_close.
Proof.
  unfold leaves_bytes, service_close, task_close_descriptor. intros a b c d e m r m' _ _ _ _ H. run_back H.
  all: match goal with E : _ = Ok (_, ?k) |- kernel_bytes (proc (with_proc _ ?k)) = _ => run_back E end.
  all: change (kernel_memory x0 = kernel_bytes (proc m)); destruct (decide (kind f = FD_KIND_NODE)); [by eapply close_bytes|by injection E1 as <-].
Qed.
Lemma fd_write_bytes : leaves_bytes 14 service_fd_write.
Proof.
  unfold leaves_bytes, service_fd_write. intros a b c d e m r m' _ _ _ _ H. cbv zeta in H. run_back H.
  by match goal with E : write_fs _ _ _ _ _ = _ |- _ => apply write_fs_bytes in E end.
Qed.
Lemma lseek_bytes : leaves_bytes 26 service_lseek.
Proof.
  unfold leaves_bytes, service_lseek, task_seek_descriptor. intros a b c d e m r m' _ _ _ _ H. cbv zeta in H. run_back H.
  all: match goal with E : _ = Ok (_, ?k) |- kernel_bytes (proc (with_proc _ ?k)) = _ => run_back E end.
Qed.
Lemma mkdir_path_bytes root wd p (s s' : S) r : mkdir_path_fs root wd p s = Ok (r, s') -> kernel_memory s' = kernel_memory s.
Proof.
  unfold mkdir_path_fs. intros H. destruct p as [[|ch p]|]; [by injection H as _ <-| |by injection H as _ <-].
  destruct (_ || _); [by injection H as _ <-|]. destruct (skip_slashes _); [by injection H as _ <-|].
  apply bind_Ok_inv in H as ([[dir nm]|] & _ & H); [by eapply mkdir_fs_bytes|by injection H as _ <-].
Qed.
Lemma mkdir_bytes : leaves_bytes 17 (service_mkdir fs_root).
Proof.
  unfold leaves_bytes, service_mkdir. intros a b c d e m r m' _ _ _ _ H. cbv zeta in H. run_back H.
  change (kernel_memory s = kernel_memory (kfs (proc m))).
  match goal with E : mkdir_path_fs _ _ _ _ = _ |- _ => etrans; [exact (mkdir_path_bytes _ _ _ _ _ _ E)|apply km_allocator] end.
Qed.
Lemma sbrk_bytes : leaves_bytes 18 service_sbrk.
Proof.
  unfold leaves_bytes, service_sbrk, task_sbrk. intros a b c d e m r m' _ _ _ _ H. cbv zeta in H. run_back H.
  match goal with E : _ = Ok (_, ?k) |- kernel_bytes (proc (with_proc _ ?k)) = _ => run_back E end.
Qed.
Lemma signal_bytes : leaves_bytes 23 service_signal.
Proof.
  unfold leaves_bytes, service_signal, task_signal_set_handler. intros a b c d e m r m' _ _ _ _ H. cbv zeta in H. run_back H.
  all: match goal with E : _ = Ok (_, ?k) |- kernel_bytes (proc (with_proc _ ?k)) = _ => run_back E end.
Qed.
Lemma kill_bytes : leaves_bytes 24 service_kill.
Proof.
  unfold leaves_bytes, service_kill. intros a b c d e m r m' Hs _ _ _ (x & H & H2)%bind_Ok_inv. destruct x as [v k]. injection H2 as _ <-.
  by eapply send_bytes.
Qed.

Lemma services_bytes n f : services fs_root n = Some f -> leaves_bytes n f.
Proof.
  unfold services. intros H.
  repeat match type of H with (match ?x with _ => _ end) = _ => destruct x; try done end; injection H as <-;
  first [apply readdir_bytes|apply readfile_bytes|apply open_service_bytes|apply close_service_bytes|apply fd_write_bytes|apply chdir_bytes
    |apply getcwd_bytes|apply mkdir_bytes|apply sbrk_bytes|apply waitpid_bytes|apply signal_bytes|apply kill_bytes|apply lseek_bytes
    |apply fstat_bytes|apply stat_bytes
    |unfold leaves_bytes, service_write, service_putchar, service_clear, service_getchar, service_getpid, service_ticks, service_memory,
       service_hex, service_dec, service_isatty; intros a b c d e m r m' _ _ _ _ H; run_back H].
Qed.
End bytes.

Section machine.
Context {K S Cb : Type} `{!Kmalloc K} `{!KmallocLaws K} `{!HasMemory S} `{!FsDriver S Cb} `{!FileSource S Cb} `{!HasAllocator S K}
  `{!AllocatorLaws S K Cb}.
Variable fs_root resume_user_frame : Z.
Implicit Types k : kernel page_bytes K S.
Implicit Types m : machine K S.

(** ** Reading *)

Definition outcome_machine (o : outcome (K := K) (S := S)) : machine K S := match o with Returned _ m | Asleep m => m end.

Lemma keeps_drain room : forall amount a m r m', machine_ok m -> drain_keyboard room amount a m = Ok (r, m') -> machine_ok m'.
Proof.
  induction room as [|room IH]; intros amount a m r m' Hm; simpl; [by intros [= _ <-]|].
  destruct (keyboard_getchar (input m)) as [c b] eqn:E. pose proof (ok_getchar m c b Hm E) as Hm1.
  destruct (c <? 0); [by intros [= _ <-]|]. intros (k & Hk & H)%bind_Ok_inv. eapply IH; [|exact H].
  apply ok_stores; [done|]. by eapply stores_vstore8.
Qed.

Lemma keeps_read_keyboard a count cpu m o : machine_ok m -> read_keyboard a count cpu m = Ok o -> machine_ok (outcome_machine o).
Proof.
  intros Hm. unfold read_keyboard. destruct (keyboard_getchar (input m)) as [c b] eqn:E. pose proof (ok_getchar m c b Hm E) as Hm1.
  destruct (c <? 0).
  - destruct cpu as [[eip esp] ebp]. intros (k & Hk & [= <-])%bind_Ok_inv. apply ok_proc; [done|].
    eapply keeps_wait_keyboard; [apply Hm1|exact Hk].
  - intros (k & Hk & H)%bind_Ok_inv. apply bind_Ok_inv in H as ([n m2] & H & [= <-]). simpl. eapply keeps_drain; [|exact H].
    apply ok_stores; [done|]. by eapply stores_vstore8.
Qed.

Lemma keeps_fd_read fd a count cpu m o : machine_ok m -> service_fd_read fd a count cpu m = Ok o -> machine_ok (outcome_machine o).
Proof.
  intros Hm. unfold service_fd_read. destruct (_ || _); [by intros [= <-]|]. intros ([d|] & _ & H)%bind_Ok_inv; [|by injection H as <-].
  destruct (kind d); try by injection H as <-.
  - by eapply keeps_read_keyboard.
  - destruct (node d =? 0); [by injection H as <-|]. apply bind_Ok_inv in H as ([n k] & Hk & [= <-]). simpl.
    assert (machine_ok (with_proc m k)) as Hm1 by (apply ok_stores; [done|by eapply stores_read]).
    exact (ok_calm _ _ Hm1 (calm_set_descriptor _ _ _)).
Qed.

Lemma keeps_resume a count cpu m o : machine_ok m -> resume_read a count cpu m = Ok o -> machine_ok (outcome_machine o).
Proof.
  intros Hm (p & _ & H)%bind_Ok_inv. destruct p; [by injection H as <-|by eapply keeps_read_keyboard].
Qed.

(** ** Handlers *)

Definition event_machine (e : event (K := K) (S := S)) : machine K S := match e with Resumed _ m | Departed m | Slept m => m end.

Lemma keeps_delivery frame cpu m e : machine_ok m -> deliver frame cpu m = Ok e -> machine_ok (event_machine e).
Proof.
  intros Hm (r & H & [= <-])%bind_Ok_inv. pose proof (keeps_deliver _ _ _ _ (mk_sound _ Hm) H) as Hs.
  by destruct r; apply ok_proc.
Qed.

Lemma keeps_finish regs cpu o e : machine_ok (outcome_machine o) -> finish_read regs cpu o = Ok e -> machine_ok (event_machine e).
Proof. destruct o as [r m|m]; simpl; [apply keeps_delivery|by intros ? [= <-]]. Qed.

Lemma services_keep n f : services fs_root n = Some f -> keeps f.
Proof.
  unfold services. intros H.
  repeat match type of H with (match ?x with _ => _ end) = _ => destruct x; try done end; injection H as <-;
  first [apply keeps_write|apply keeps_putchar|apply keeps_clear|apply keeps_getchar|apply keeps_readdir|apply keeps_readfile
    |apply keeps_getpid|apply keeps_ticks|apply keeps_memory|apply keeps_hex|apply keeps_dec|apply keeps_open|apply keeps_close
    |apply keeps_fd_write|apply keeps_chdir|apply keeps_getcwd|apply keeps_mkdir|apply keeps_sbrk_service|apply keeps_waitpid_service
    |apply keeps_signal|apply keeps_kill|apply keeps_lseek|apply keeps_fstat|apply keeps_stat|apply keeps_isatty].
Qed.

(** What a syscall needs of the state: pids and served files. *)
Record syscalls_ready m : Prop := {
  sr_pid : next_pid (proc m) < 2 ^ 31 - 1;
  sr_files : files_served (proc m)
}.

Lemma keeps_syscall regs cpu m e : machine_ok m -> syscalls_ready m -> registers_ok regs ->
  syscall_handler fs_root resume_user_frame regs cpu m = Ok e -> machine_ok (event_machine e).
Proof.
  intros Hm [Hpid Hfiles] Hregs. unfold syscall_handler.
  assert (is_u32 (r_ebx regs) /\ is_u32 (r_ecx regs) /\ is_u32 (r_edx regs)) as (Hb & Hc & Hd).
  { unfold registers_ok, registers_words in Hregs. rewrite !Forall_cons in Hregs. tauto. }
  destruct (SYSCALL_COUNT <=? r_eax regs); [by apply keeps_delivery|].
  destruct (r_eax regs =? SYSCALL_EXECVE).
  { intros ([[r fr] k] & H & Hd')%bind_Ok_inv. eapply keeps_delivery; [|exact Hd']. apply ok_proc; [done|].
    eapply (keeps_execve fs_root (proc m)); [apply Hm|exact Hfiles|exact H]. }
  destruct (r_eax regs =? SYSCALL_FORK).
  { intros ([r k] & H & Hd')%bind_Ok_inv. eapply keeps_delivery; [|exact Hd']. apply ok_proc; [done|].
    eapply keeps_fork; [apply Hm|exact Hpid|exact H]. }
  destruct (r_eax regs =? SYSCALL_EXIT).
  { intros (k & H & [= <-])%bind_Ok_inv. apply ok_proc; [done|]. eapply keeps_exit; [apply Hm|exact H]. }
  destruct (r_eax regs =? SYSCALL_SIGRETURN).
  { intros ([[r fr] k] & H & Hd')%bind_Ok_inv. eapply keeps_delivery; [|exact Hd']. apply ok_calm; [done|]. by eapply calm_return. }
  destruct (r_eax regs =? SYSCALL_FD_READ).
  { intros (o & H & Hd')%bind_Ok_inv. eapply keeps_finish; [|exact Hd']. by eapply keeps_fd_read. }
  destruct (services fs_root (r_eax regs)) as [f|] eqn:Hf; [|done]. intros ([r m2] & H & Hd')%bind_Ok_inv.
  eapply keeps_delivery; [|exact Hd']. eapply (services_keep _ f Hf); [exact Hm|exact Hb|exact Hc|exact Hd|exact H].
Qed.

Lemma keeps_resumed regs cpu m e : machine_ok m -> resume_syscall regs cpu m = Ok e -> machine_ok (event_machine e).
Proof. intros Hm (o & H & Hd)%bind_Ok_inv. eapply keeps_finish; [|exact Hd]. by eapply keeps_resume. Qed.

Lemma keeps_timer regs cpu m e : machine_ok m -> timer_callback regs cpu m = Ok e -> machine_ok (event_machine e).
Proof.
  intros Hm (e1 & H & Hd)%bind_Ok_inv. assert (machine_ok (event_machine e1)) as H1.
  { eapply keeps_delivery; [|exact H]. destruct Hm. split; try done. apply u32_range. }
  destruct e1 as [fr m1|m1|m1]; [|by injection Hd as <-..]. destruct cpu as [[eip esp] ebp].
  apply bind_Ok_inv in Hd as (k & Hk & [= <-]). destruct (mk_sound _ H1) as [Hok _ Hkd].
  apply (ok_proc m1); [done|]. by eapply keeps_switch.
Qed.

Lemma keeps_key scancode regs m e : 0 <= scancode < 256 -> machine_ok m -> keyboard_callback scancode regs m = Ok e ->
  machine_ok (event_machine e).
Proof.
  intros Hsc Hm. destruct (mk_input _ Hm) as [q Hq]. unfold keyboard_callback.
  destruct (keyboard_interrupt_refines scancode _ q Hsc Hq) as (b & -> & Hb). intros (k & Hk & [= <-])%bind_Ok_inv.
  apply (ok_calm (with_input m b)); [by eapply ok_input|]. destruct (queue_key scancode q).2; [by apply calm_wake|].
  injection Hk as <-. apply calm_refl.
Qed.

(** ** Kernel memory through a handler *)
Section kernel_memory.
Context `{!KernelMemoryLaws S K Cb}.

Lemma delivery_bytes frame cpu m e : machine_ok m -> deliver frame cpu m = Ok e ->
  kernel_bytes (proc (event_machine e)) = kernel_bytes (proc m).
Proof.
  intros Hm (r & H & [= <-])%bind_Ok_inv. pose proof (deliver_bytes _ _ _ _ (mk_sound _ Hm) H) as E. by destruct r.
Qed.

Lemma finish_bytes regs cpu o e : machine_ok (outcome_machine o) -> finish_read regs cpu o = Ok e ->
  kernel_bytes (proc (event_machine e)) = kernel_bytes (proc (outcome_machine o)).
Proof. destruct o as [r m|m]; simpl; [by intros; eapply (delivery_bytes _ _ m)|by intros ? [= <-]]. Qed.

Lemma syscall_bytes regs cpu m e : machine_ok m -> syscalls_ready m -> registers_ok regs ->
  buffer_in_user (r_eax regs) (r_ebx regs) (r_ecx regs) (r_edx regs) ->
  syscall_handler fs_root resume_user_frame regs cpu m = Ok e -> kernel_bytes (proc (event_machine e)) = kernel_bytes (proc m).
Proof.
  intros Hm [Hpid Hfiles] Hregs Hbuf. pose proof (mk_sound _ Hm) as Hs. unfold syscall_handler.
  assert (is_u32 (r_ebx regs) /\ is_u32 (r_ecx regs) /\ is_u32 (r_edx regs)) as (Hb & Hc & Hd).
  { unfold registers_ok, registers_words in Hregs. rewrite !Forall_cons in Hregs. tauto. }
  destruct (SYSCALL_COUNT <=? r_eax regs); [by apply delivery_bytes|].
  destruct (r_eax regs =? SYSCALL_EXECVE).
  { intros ([[r fr] k] & H & Hd')%bind_Ok_inv. destruct (keeps_execve fs_root (proc m) _ _ _ _ _ _ _ Hs Hfiles H) as [Hs' E].
    etrans; [eapply delivery_bytes; [|exact Hd']; by apply ok_proc|]. unfold kernel_bytes. simpl. by rewrite E. }
  destruct (r_eax regs =? SYSCALL_FORK).
  { intros ([r k] & H & Hd')%bind_Ok_inv. etrans; [eapply delivery_bytes; [|exact Hd']|].
    - apply ok_proc; [done|]. eapply keeps_fork; [exact Hs|exact Hpid|exact H].
    - exact (fork_bytes resume_user_frame regs (proc m) r k Hs Hpid H). }
  destruct (r_eax regs =? SYSCALL_EXIT).
  { intros (k & H & [= <-])%bind_Ok_inv. by eapply exit_bytes. }
  destruct (r_eax regs =? SYSCALL_SIGRETURN).
  { intros ([[r fr] k] & H & Hd')%bind_Ok_inv. etrans; [eapply delivery_bytes; [|exact Hd']|].
    - apply ok_calm; [done|]. by eapply calm_return.
    - change (kernel_bytes k = kernel_bytes (proc m)). unfold task_signal_return in H. cbv zeta in H. run_back H. }
  destruct (Z.eqb_spec (r_eax regs) SYSCALL_FD_READ) as [Er|_].
  { intros (o & H & Hd')%bind_Ok_inv. etrans; [eapply finish_bytes; [|exact Hd']; by eapply keeps_fd_read|].
    rewrite Er in Hbuf. apply fd_read_bytes in H; [by destruct o|by apply sound_private|done|exact Hbuf]. }
  destruct (services fs_root (r_eax regs)) as [f|] eqn:Hf; [|done]. intros ([r m2] & H & Hd')%bind_Ok_inv.
  etrans; [eapply delivery_bytes; [|exact Hd']|].
  - eapply (services_keep _ f Hf); [exact Hm|exact Hb|exact Hc|exact Hd|exact H].
  - eapply (services_bytes fs_root _ f Hf); [exact Hs|exact Hfiles|exact Hd|exact Hbuf|exact H].
Qed.

Lemma resumed_bytes regs cpu m e : machine_ok m -> 0 < r_edx regs -> user_place (r_ecx regs) (r_edx regs) ->
  resume_syscall regs cpu m = Ok e -> kernel_bytes (proc (event_machine e)) = kernel_bytes (proc m).
Proof.
  intros Hm Hn Hp (o & H & Hd)%bind_Ok_inv. etrans; [eapply finish_bytes; [|exact Hd]; by eapply keeps_resume|].
  apply bind_Ok_inv in H as (p & _ & H). destruct p; [by injection H as <-|].
  apply read_keyboard_bytes in H; [by destruct o|apply sound_private, Hm|done|done].
Qed.

Lemma timer_bytes regs cpu m e : machine_ok m -> timer_callback regs cpu m = Ok e ->
  kernel_bytes (proc (event_machine e)) = kernel_bytes (proc m).
Proof.
  intros Hm (e1 & H & Hd)%bind_Ok_inv. apply delivery_bytes in H; [|destruct Hm; split; try done; apply u32_range].
  change (kernel_bytes (proc (event_machine e1)) = kernel_bytes (proc m)) in H.
  destruct e1 as [fr m1|m1|m1]; [|by injection Hd as <-..]. destruct cpu as [[eip esp] ebp].
  apply bind_Ok_inv in Hd as (k & Hk%switch_bytes & [= <-]). etrans; [exact Hk|exact H].
Qed.

Lemma key_bytes scancode regs m e : keyboard_callback scancode regs m = Ok e ->
  kernel_bytes (proc (event_machine e)) = kernel_bytes (proc m).
Proof.
  unfold keyboard_callback. destruct (keyboard_interrupt scancode (input m)) as [b q]. intros (k & Hk & [= <-])%bind_Ok_inv.
  destruct q; [by apply wake_bytes in Hk|by injection Hk as <-].
Qed.
End kernel_memory.

(** ** Runs of the machine

    An interrupt, a sleeping read whose process was scheduled again, or a
    store by user code.  Stores go to user addresses and the buffer that a
    system call fills lies there: the kernel uses pointers as they come and
    its heap is mapped for ring 3, so that a process could also write over
    task records and page tables, which are not bytes of the model. *)
Inductive machine_step : machine K S -> machine K S -> Prop :=
| machine_interrupt h scancode regs cpu m e : syscalls_ready m -> registers_ok regs -> 0 <= scancode < 256 ->
    (h = Syscall -> buffer_in_user (r_eax regs) (r_ebx regs) (r_ecx regs) (r_edx regs)) ->
    run_handler fs_root resume_user_frame h scancode regs cpu m = Ok e -> machine_step m (event_machine e)
| machine_resume regs cpu m e : 0 < r_edx regs -> user_place (r_ecx regs) (r_edx regs) ->
    resume_syscall regs cpu m = Ok e -> machine_step m (event_machine e)
| machine_store a v m k : user_address a -> vstore8 a v (proc m) = Ok k -> machine_step m (with_proc m k).

Lemma machine_step_ok m m' : machine_ok m -> machine_step m m' -> machine_ok m'.
Proof.
  intros Hm Hs. destruct Hs as [h sc regs cpu m e Hr Hregs Hsc _ H|regs cpu m e _ _ H|a v m k _ H].
  - destruct h; simpl in H; [by eapply keeps_syscall|by eapply keeps_timer|by eapply keeps_key|done].
  - by eapply keeps_resumed.
  - apply ok_stores; [done|]. by eapply stores_vstore8.
Qed.

Lemma machine_step_bytes `{!KernelMemoryLaws S K Cb} m m' : machine_ok m -> machine_step m m' ->
  kernel_bytes (proc m') = kernel_bytes (proc m).
Proof.
  intros Hm Hs. destruct Hs as [h sc regs cpu m e Hr Hregs Hsc Hbuf H|regs cpu m e Hn Hp H|a v m k Ha H].
  - destruct h; cbn [run_handler] in H.
    + exact (syscall_bytes regs cpu m e Hm Hr Hregs (Hbuf eq_refl) H).
    + exact (timer_bytes regs cpu m e Hm H).
    + exact (key_bytes sc regs m e H).
    + discriminate.
  - by eapply resumed_bytes.
  - apply user_stores_bytes. eapply user_store8; [apply sound_private, Hm|exact Ha|exact H].
Qed.

Lemma machine_steps_ok `{!KernelMemoryLaws S K Cb} m m' : machine_ok m -> rtc machine_step m m' ->
  machine_ok m' /\ kernel_bytes (proc m') = kernel_bytes (proc m).
Proof.
  intros Hm Hs. induction Hs as [|m1 m2 m3 Hstep _ IH]; [done|]. destruct IH as [IH1 IH2]; [by eapply machine_step_ok|].
  split; [done|]. rewrite IH2. by eapply machine_step_bytes.
Qed.
End machine.
