(* ===== verification/SyscallIO.v ===== *)
(** * What reading and writing a descriptor does *)

From S2P Require Import Prelude LinkedList Memory Kmalloc Frames Paging PagingProofs Vfs Initrd Task AddressSpace Scheduler UserSpace UserMemory UserFile Keyboard Monitor Signal Process ProcessInv ProcessOps Exit Reap Descriptors ExecImage Syscall.

(** [count] bytes from [a] are the caller's memory. *)
Definition user_buffer {K S} (k : kernel page_bytes K S) (a count : Z) : Prop :=
  0x400000 <= a /\ a + count <= 0xC0000000 /\
  forall b, a <= b < a + count -> is_Some (pte (kmm k) (current_directory (kmm k)) (b / 0x1000)).

Section io.
Context {K S Cb : Type} `{!Kmalloc K} `{!KmallocLaws K} `{!HasMemory S} `{!FsDriver S Cb} `{!FileSource S Cb}.
Implicit Types k : kernel page_bytes K S.
Implicit Types m : machine K S.

Lemma user_buffer_store k q a l : process_ok k q -> user_buffer k a (Z.of_nat (List.length l)) ->
  exists k', vstore_bytes a l k = Ok k' /\ stored k k' a l.
Proof. intros Hk (H1 & H2 & H3). by apply store_spec; [apply Hk|apply Hk|..]. Qed.

Lemma user_buffer_prefix k a n n' : user_buffer k a n -> n' <= n -> user_buffer k a n'.
Proof. intros (H1 & H2 & H3) Hn. split; [done|]. split; [lia|]. intros b Hb. apply H3. lia. Qed.

(** ** Files *)

(** [read_fs] into the caller's memory. *)
Lemma vread_fs_spec k q file n src off size a : process_ok k q -> served k file n src -> 0 <= off -> 0 <= size ->
  user_buffer k a (available (length n) off size) ->
  exists k', vread_fs file off size a k = Ok (available (length n) off size, k') /\
    stored k k' a (file_bytes k src off (Z.to_nat (available (length n) off size))).
Proof.
  intros Hk Hsv Ho Hs Hbuf. pose proof Hsv as [[Sn S0] (cb & Hcb & Hsrc) (R1 & R2 & R3) _ Hsh].
  set (cnt := available (length n) off size) in *. assert (0 <= cnt) as Hc0 by (unfold cnt, available; lia).
  pose proof Hbuf as (B1 & B2 & B3).
  unfold vread_fs. rewrite (proj2 (Z.eqb_neq file 0)), (proj2 (Z.eqb_neq a 0)) by (done || lia). cbn [orb].
  unfold deref. rewrite Sn. rsimpl. rewrite Hcb. destruct (Hsrc off size Ho Hs) as (b & -> & Hb). rsimpl. fold cnt.
  destruct (user_buffer_store k q a (file_bytes k src off (Z.to_nat cnt)) Hk) as (k' & Hst & Hstored).
  { rewrite file_bytes_length. by rewrite Z2Nat.id. }
  exists k'. split; [|done]. unfold vmemcpy. destruct (decide (cnt = 0)) as [E|Hne].
  - rewrite E in *. rewrite (while_runs _ _ (Ok k) 0%nat); [|by constructor|lia]. rsimpl. simpl in Hst. congruence.
  - assert (off < length n /\ off + cnt <= length n) as [Hlt Hle] by (unfold cnt, available in *; lia).
    rewrite Hb by lia. destruct (vmemcpy_runs (Z.to_nat cnt) k a (src + off)) as (k2 & Hst2 & Hrun); [lia|lia|lia| | |].
    + apply mapped_private_region; [apply Hk|apply Hk|lia|lia|]. intros x Hx. apply B3. lia.
    + intros x Hx. apply Hsh. lia.
    + rewrite Z2Nat.id, u32_small in Hrun by lia. rewrite (while_runs _ _ _ _ Hrun) by lia. rsimpl.
      rewrite file_bytes_shift in Hst2. congruence.
Qed.

(** The state after a read: the buffer holds [l] and the offset moved. *)
Record read_into m m' (t : task) (fd : Z) (d : file_descriptor) (a : Z) (l : list Z) : Prop := {
  ri_machine : m' = with_proc m (proc m');
  ri_stored : exists k', stored (proc m) k' a l /\ proc m' = set_descriptor fd (advance d (Z.of_nat (List.length l))) k';
  ri_holds : holds (proc m') a (u8 <$> l);
  ri_task : tasks (proc m') = <[current_task (proc m) :=
    set_descriptors (<[Z.to_nat fd := advance d (Z.of_nat (List.length l))]> (descriptors t)) t]> (tasks (proc m))
}.

Lemma locate_tasks k k' a : kmm k' = kmm k -> locate a k' = locate a k.
Proof. intros E. unfold locate. by rewrite E. Qed.
Lemma vload8_memory k k' a : kmm k' = kmm k -> kfs k' = kfs k -> vload8 a k' = vload8 a k.
Proof. intros E1 E2. unfold vload8. by rewrite (locate_tasks k k'), E1, E2. Qed.

Lemma fd_read_file m q t fd d n src a count cpu : process_ok (proc m) q -> tasks (proc m) !! current_task (proc m) = Some t ->
  0 <= s32 fd < 16 -> descriptors t !! Z.to_nat (s32 fd) = Some d -> kind d = FD_KIND_NODE -> served (proc m) (node d) n src ->
  0 <= offset d -> 0 < count -> user_buffer (proc m) a (available (length n) (offset d) count) ->
  let bytes := file_bytes (proc m) src (offset d) (Z.to_nat (available (length n) (offset d) count)) in
  exists m', service_fd_read fd a count cpu m = Ok (Returned (s32 (Z.of_nat (List.length bytes))) m') /\
    process_ok (proc m') q /\ read_into m m' t (s32 fd) d a bytes.
Proof.
  intros Hk Ht Hfd Hd Hkind Hsv Ho Hc Hbuf bytes. pose proof Hbuf as (B1 & B2 & B3).
  assert (0 <= available (length n) (offset d) count) as Hav by (unfold available; lia).
  assert (Z.of_nat (List.length bytes) = available (length n) (offset d) count) as Hlen
    by (unfold bytes; rewrite file_bytes_length; lia).
  destruct (vread_fs_spec (proc m) q (node d) n src (offset d) count a Hk Hsv Ho) as (k1 & Hrun & Hst); [lia|done|]. fold bytes in Hst.
  unfold service_fd_read. rewrite (proj2 (Z.eqb_neq a 0)), (proj2 (Z.eqb_neq count 0)) by lia. cbn [orb].
  rewrite (get_descriptor_spec (proc m) q t) by done. rewrite decide_True by done. rewrite Hd. cbn [mbind option_bind].
  rewrite decide_False by congruence. rsimpl. rewrite Hkind, (proj2 (Z.eqb_neq _ 0)) by apply Hsv. rewrite Hrun. rsimpl.
  assert (process_ok k1 q) as Hk1 by (by eapply stored_process_ok).
  assert (current_task k1 = current_task (proc m) /\ tasks k1 = tasks (proc m)) as [Ec Ets] by (by destruct (so_contents _ _ _ _ Hst) as [c ->]).
  destruct (set_descriptor_spec k1 q t (s32 fd) (advance d (Z.of_nat (List.length bytes))) Hk1) as [Eset Hok]; [congruence|].
  rewrite <- Hlen. eexists. split; [done|]. split; [exact Hok|]. split; simpl.
  - done.
  - by exists k1.
  - intros i v Hi. rewrite (vload8_memory k1) by done. revert i v Hi. apply (stored_holds (proc m)); [apply Hk|apply Hk|lia|lia|done].
  - transitivity (tasks (set_descriptor (s32 fd) (advance d (Z.of_nat (List.length bytes))) k1)); [done|].
    rewrite Eset. simpl. by rewrite Ec, Ets.
Qed.

(** ** The console *)

Lemma put_bytes_spec k l : forall a s, holds k a l -> 0 <= a -> a + Z.of_nat (List.length l) < 2 ^ 32 ->
  Forall (fun c => 0 <= c < 256) l -> screen_ok s ->
  exists s', put_bytes a (List.length l) k s = Ok s' /\ screen_ok s' /\
    terminal_of s' = foldl (fun t c => terminal_put c t) (terminal_of s) l.
Proof.
  induction l as [|c l IH]; intros a s Hh H0 Ha Hl Hs; simpl in *; [by exists s|]. apply Forall_cons in Hl as [Hc Hl].
  pose proof (Hh 0%nat c eq_refl) as Hv. rewrite Z.add_0_r in Hv. rewrite Hv. rsimpl.
  destruct (monitor_put_refines c s Hc Hs) as (s1 & -> & Et & Hs1 & _). rsimpl. rewrite u32_small by (unfold is_u32; lia).
  destruct (IH (a + 1) s1) as (s' & -> & Hs' & Et'); [|lia|lia|done|done|].
  - intros i v Hi. replace (a + 1 + Z.of_nat i) with (a + Z.of_nat (Datatypes.S i)) by lia. by apply Hh.
  - exists s'. split; [done|]. split; [done|]. by rewrite Et', Et.
Qed.

(** ** The keyboard *)

Lemma vstore8_u8 a v k : vstore8 a (u8 v) k = vstore8 a v k.
Proof. unfold vstore8. assert (u8 (u8 v) = u8 v) as E by (unfold u8; by rewrite Z.mod_mod). unfold store8. by rewrite E. Qed.

(** Draining stores what is queued, as far as there is room. *)
Lemma drain_stores room : forall amount a m l shift k, represents (input m) (l, shift) ->
  vstore_bytes (u32 (a + amount)) (take room l) (proc m) = Ok k ->
  exists b, represents b (drop room l, shift) /\
    drain_keyboard room amount a m = Ok (amount + Z.of_nat (List.length (take room l)), with_input (with_proc m k) b).
Proof.
  induction room as [|room IH]; intros amount a m l shift k Hr; simpl.
  - intros [= <-]. exists (input m). split; [done|]. rewrite Z.add_0_r. by destruct m.
  - destruct (keyboard_getchar_refines _ _ Hr) as (b & -> & Hb). destruct l as [|c l]; simpl in Hb |- *.
    + intros [= <-]. exists b. split; [done|]. rewrite Z.add_0_r. by destruct m.
    + pose proof (rp_bytes _ _ Hr) as Hc. apply Forall_cons in Hc as [Hc _]. rewrite (proj2 (Z.ltb_ge c 0)) by lia.
      intros (k1 & Hk1 & Hst)%bind_Ok_inv. change (proc (with_input m b)) with (proc m). rewrite Hk1. rsimpl.
      destruct (IH (amount + 1) a (with_proc (with_input m b) k1) l shift k Hb) as (b' & Hb' & Hrun).
      { replace (u32 (a + (amount + 1))) with (u32 (u32 (a + amount) + 1)) by (unfold u32; rewrite Zplus_mod_idemp_l; f_equal; lia).
        done. }
      exists b'. split; [done|]. rewrite Hrun. do 2 f_equal; simpl; lia || done.
Qed.

(** Reading when characters are queued. *)
Lemma read_keyboard_queued m l shift a count cpu k : represents (input m) (l, shift) -> l <> [] -> 0 < count < 2 ^ 31 -> is_u32 a ->
  vstore_bytes a (take (Z.to_nat count) l) (proc m) = Ok k ->
  exists b, represents b (drop (Z.to_nat count) l, shift) /\
    read_keyboard a count cpu m = Ok (Returned (Z.of_nat (List.length (take (Z.to_nat count) l))) (with_input (with_proc m k) b)).
Proof.
  intros Hr Hl Hc Ha Hst. unfold read_keyboard. destruct (keyboard_getchar_refines _ _ Hr) as (b & -> & Hb).
  destruct l as [|c l]; [done|]. pose proof (rp_bytes _ _ Hr) as Hcs. apply Forall_cons in Hcs as [Hch _]. simpl in Hb |- *.
  rewrite (proj2 (Z.ltb_ge c 0)) by lia. change (proc (with_input m b)) with (proc m). rewrite vstore8_u8.
  destruct (Z.to_nat count) as [|room] eqn:Er; [lia|]. simpl in Hst |- *. apply bind_Ok_inv in Hst as (k1 & Hk1 & Hst). rewrite Hk1. rsimpl.
  replace (Z.to_nat (count - 1)) with room by lia.
  destruct (drain_stores room 1 a (with_proc (with_input m b) k1) l shift k Hb Hst) as (b' & Hb' & ->). rsimpl.
  exists b'. split; [done|]. pose proof (length_take l room).
  replace (1 + Z.of_nat (List.length (take room l))) with (Z.of_nat (Datatypes.S (List.length (take room l)))) by lia.
  rewrite s32_small by lia. done.
Qed.

(** Reading when nothing is queued: the caller sleeps. *)
Lemma read_keyboard_empty m shift a count eip esp ebp : represents (input m) ([], shift) ->
  exists b, represents b ([], shift) /\
    read_keyboard a count (eip, esp, ebp) m =
    (k ← task_wait_for_keyboard eip esp ebp (proc m); Ok (Asleep (with_proc (with_input m b) k))).
Proof.
  intros Hr. unfold read_keyboard. destruct (keyboard_getchar_refines _ _ Hr) as (b & -> & Hb). simpl. by exists b.
Qed.
(** A write to the console puts the bytes on the terminal. *)
Lemma console_write_spec m q t fd d a l c e : process_ok (proc m) q -> tasks (proc m) !! current_task (proc m) = Some t ->
  0 <= s32 fd < 16 -> descriptors t !! Z.to_nat (s32 fd) = Some d -> kind d = FD_KIND_CONSOLE -> screen_ok (screen m) ->
  l <> [] -> holds (proc m) a l -> 0 < a -> a + Z.of_nat (List.length l) < 2 ^ 32 -> Z.of_nat (List.length l) < 2 ^ 31 -> Forall (fun b => 0 <= b < 256) l ->
  exists s, service_fd_write fd a (Z.of_nat (List.length l)) c e m = Ok (Z.of_nat (List.length l), with_screen m s) /\ screen_ok s /\
    terminal_of s = foldl (fun t b => terminal_put b t) (terminal_of (screen m)) l.
Proof.
  intros Hk Ht Hfd Hd Hkind Hs Hl Hh Ha Hal Hlen Hb.
  destruct (put_bytes_spec (proc m) l a (screen m) Hh) as (s & Hp & Hs' & Et); [lia|lia|done|done|]. exists s. split; [|done].
  unfold service_fd_write. rewrite (proj2 (Z.eqb_neq (Z.of_nat _) 0)) by (destruct l; [done|simpl; lia]).
  rewrite (proj2 (Z.eqb_neq a 0)) by lia. rewrite (get_descriptor_spec (proc m) q t) by done. rewrite decide_True by done. rewrite Hd.
  cbn [mbind option_bind]. rewrite decide_False by congruence. rsimpl. rewrite Hkind, Nat2Z.id, Hp. rsimpl.
  by rewrite s32_small by lia.
Qed.
(** The slot is out of range or free. *)
Definition not_open (t : task) (fd : Z) : Prop := ~ (0 <= s32 fd < 16) \/ slot_free (descriptors t) (Z.to_nat (s32 fd)).

(** Calls on a descriptor that is not open. *)
Lemma bad_descriptor_spec m q t fd : process_ok (proc m) q -> tasks (proc m) !! current_task (proc m) = Some t -> not_open t fd ->
  (forall a b cpu, a <> 0 -> b <> 0 -> service_fd_read fd a b cpu m = Ok (Returned (- ERRNO_EBADF) m)) /\
  (forall a b d e, a <> 0 -> b <> 0 -> service_fd_write fd a b d e m = Ok (- ERRNO_EBADF, m)) /\
  (forall a c d e, a <> 0 -> service_fstat fd a c d e m = Ok (- ERRNO_EBADF, m)) /\
  (forall b c d e, service_lseek fd b c d e m = Ok (- ERRNO_EBADF, m)) /\ (forall b c d e, service_isatty fd b c d e m = Ok (- ERRNO_EBADF, m)) /\
  (forall b c d e, service_close fd b c d e m = Ok (- ERRNO_EBADF, m)).
Proof.
  intros Hk Ht Hno. destruct (current_task_ok _ q Hk) as (t' & _ & H0).
  assert (task_get_descriptor (s32 fd) (proc m) = Ok None) as Eg.
  { rewrite (get_descriptor_spec (proc m) q t) by done. case_decide as Hr; [|done]. destruct Hno as [?|(x & Hx & E)]; [done|].
    rewrite Hx. cbn [mbind option_bind]. by rewrite decide_True. }
  unfold service_fd_read, service_fd_write, service_lseek, service_fstat, service_isatty, service_close.
  rewrite Eg. rsimpl. split; [by intros a b ? ->%Z.eqb_neq ->%Z.eqb_neq|]. split; [by intros a b ? ? ->%Z.eqb_neq ->%Z.eqb_neq|].
  split; [by intros a ? ? ? ->%Z.eqb_neq|]. split; [done|]. split; [done|]. intros _ _ _ _.
  unfold task_close_descriptor. rewrite (proj2 (Z.eqb_neq _ 0)), orb_false_r by done. change (Z.of_nat MAX_FILE_DESCRIPTORS) with 16.
  destruct (Z.ltb_spec (s32 fd) 3), (Z.leb_spec 16 (s32 fd)); cbn [orb]; rsimpl; try by destruct m.
  rewrite (get_task_ok _ _ _ Ht). rsimpl. destruct Hno as [?|(x & Hx & E)]; [lia|]. rewrite Hx, decide_True by done. rsimpl. by destruct m.
Qed.
End io.
