(* ===== verification/SyscallSpec.v ===== *)
(** * Runs of several system calls

    Reading a file to its end, sleeping on the keyboard and being woken. *)

From S2P Require Import Prelude LinkedList Memory Kmalloc Frames Paging PagingProofs Vfs Initrd Task AddressSpace Scheduler UserSpace UserMemory UserFile Keyboard Monitor Signal Process ProcessInv ProcessOps Exit Fork Reap Descriptors Steps ExecImage ExecCheck Syscall Interrupt MachineInv MachineSteps SyscallIO.

(** What a client that reads until nothing comes gets, in pieces of at most
    [count] bytes. *)
Section client.
Context {K S Cb : Type} `{!Kmalloc K} `{!HasMemory S} `{!FsDriver S Cb} `{!FileSource S Cb}.
Fixpoint read_all (fuel : nat) (fd a count : Z) (cpu : Z * Z * Z) (m : machine K S) : res (list Z * machine K S) :=
  match fuel with
  | O => OutOfFuel
  | Datatypes.S fuel =>
      o ← service_fd_read fd a count cpu m;
      match o with
      | Asleep _ => OutOfFuel
      | Returned r m =>
          if r <=? 0 then Ok ([], m)
          else
            l ← vload_bytes a (Z.to_nat r) (proc m);
            '(rest, m) ← read_all fuel fd a count cpu m;
            Ok (l ++ rest, m)
      end
  end.
End client.

Section runs.
Context {K S Cb : Type} `{!Kmalloc K} `{!KmallocLaws K} `{!HasMemory S} `{!FsDriver S Cb} `{!FileSource S Cb}.
Implicit Types k : kernel page_bytes K S.
Implicit Types m : machine K S.

(** ** A file *)

(** A file stays served when a buffer is filled and an offset moves. *)
Lemma served_after k k' a l fd d file n src : stored k k' a l -> served k file n src -> served (set_descriptor fd d k') file n src.
Proof. intros [(c & ->) _ _ _] []. by split. Qed.
Lemma buffer_after k k' a l fd d b n : stored k k' a l -> user_buffer k b n -> user_buffer (set_descriptor fd d k') b n.
Proof. intros [(c & ->) _ _ _] H. exact H. Qed.

Lemma file_bytes_split k src off i j : file_bytes k src off (i + j) = file_bytes k src off i ++ file_bytes k src (off + Z.of_nat i) j.
Proof.
  unfold file_bytes. rewrite seq_app, fmap_app. f_equal.
  change (0 + i)%nat with i. replace (seq i j) with (Nat.add i <$> seq 0 j) by (rewrite fmap_add_seq; by rewrite Nat.add_0_r).
  rewrite <- list_fmap_compose. apply list_fmap_ext. intros x y _. simpl. f_equal. lia.
Qed.

Lemma file_bytes_u8 k file n src off size : served k file n src -> 0 <= off -> off + Z.of_nat size <= length n ->
  u8 <$> file_bytes k src off size = file_bytes k src off size.
Proof.
  intros Hsv Ho Hl. pose proof (file_bytes_range k file n src off size Hsv Ho Hl) as Hr.
  rewrite <- (list_fmap_id (file_bytes k src off size)) at 2. apply list_fmap_ext. intros i b Hb.
  rewrite Forall_lookup in Hr. apply u8_small. by eapply Hr.
Qed.

(** Between two reads of the file. *)
Record reading k (q : list Z) (t : task) (fd : Z) (d : file_descriptor) (n : fs_node Cb) (src a count : Z) : Prop := {
  rg_ok : process_ok k q;
  rg_task : tasks k !! current_task k = Some t;
  rg_fd : 0 <= s32 fd < 16;
  rg_descriptor : descriptors t !! Z.to_nat (s32 fd) = Some d;
  rg_kind : kind d = FD_KIND_NODE;
  rg_served : served k (node d) n src;
  rg_offset : 0 <= offset d <= length n;
  rg_count : 0 < count < 2 ^ 31;
  rg_buffer : user_buffer k a count
}.

Lemma reading_step m q t fd d n src a count cpu : reading (proc m) q t fd d n src a count ->
  let size := Z.min count (length n - offset d) in
  exists m' t', service_fd_read fd a count cpu m = Ok (Returned size m') /\
    vload_bytes a (Z.to_nat size) (proc m') = Ok (file_bytes (proc m) src (offset d) (Z.to_nat size)) /\
    reading (proc m') q t' fd (advance d size) n src a count /\ offset (advance d size) = offset d + size /\
    kfs (proc m') = kfs (proc m).
Proof.
  intros [Hk Ht Hfd Hd Hkind Hsv Ho Hc Hb] size. pose proof (sv_range _ _ _ _ Hsv) as (R1 & R2 & R3).
  assert (available (length n) (offset d) count = size) as Eav by (unfold available, size; lia).
  assert (0 <= size <= count /\ offset d + size <= length n) as [Hs1 Hs2] by (unfold size; lia).
  destruct (fd_read_file m q t fd d n src a count cpu) as (m' & Hrun & Hok & [_ (k1 & Hst & Ek) Hh Ets]); try done; [lia|lia| |].
  { rewrite Eav. eapply user_buffer_prefix; [done|lia]. }
  rewrite Eav in Hrun, Hst, Ek, Hh, Ets. rewrite file_bytes_length, Z2Nat.id in Hrun, Ek, Ets by lia.
  pose proof Hb as (B1 & B2 & _).
  exists m'. eexists. split; [rewrite s32_small in Hrun by lia; exact Hrun|]. split_and!.
  - rewrite (file_bytes_u8 (proc m) (node d) n src) in Hh by (done || lia).
    rewrite <- (file_bytes_length (proc m) src (offset d) (Z.to_nat size)) at 1. apply vload_bytes_holds; [done|lia|].
    rewrite file_bytes_length. lia.
  - assert (current_task (proc m') = current_task (proc m)) as Ec by (rewrite Ek; by destruct (so_contents _ _ _ _ Hst) as [c ->]).
    split; [done| |done| |done| | |done|].
    + rewrite Ec, Ets, lookup_insert_eq. done.
    + simpl. rewrite list_lookup_insert_eq; [done|]. by eapply lookup_lt_Some.
    + rewrite Ek. by eapply served_after.
    + simpl. rewrite u32_small by lia. lia.
    + rewrite Ek. by eapply buffer_after.
  - simpl. apply u32_small. lia.
  - rewrite Ek. by destruct (so_contents _ _ _ _ Hst) as [c ->].
Qed.

Lemma read_all_spec fuel : forall m q t fd d n src a count cpu, reading (proc m) q t fd d n src a count ->
  length n - offset d < Z.of_nat fuel ->
  exists m', read_all fuel fd a count cpu m = Ok (file_bytes (proc m) src (offset d) (Z.to_nat (length n - offset d)), m') /\
    exists t', reading (proc m') q t' fd (mk_descriptor (kind d) (node d) (length n) (fd_flags d)) n src a count.
Proof.
  induction fuel as [|fuel IH]; intros m q t fd d n src a count cpu Hr Hf; [pose proof (rg_offset _ _ _ _ _ _ _ _ _ Hr); lia|].
  pose proof (rg_offset _ _ _ _ _ _ _ _ _ Hr) as Ho. pose proof (rg_count _ _ _ _ _ _ _ _ _ Hr) as Hc.
  destruct (reading_step m q t fd d n src a count cpu Hr) as (m1 & t1 & Hrun & Hload & Hr1 & Eo & Efs).
  set (size := Z.min count (length n - offset d)) in *. cbn [read_all]. rewrite Hrun. rsimpl.
  destruct (Z.leb_spec size 0) as [Hz|Hz].
  - assert (length n - offset d = 0) as E by (unfold size in Hz; lia). rewrite E. exists m1. split; [done|]. exists t1.
    replace (mk_descriptor (kind d) (node d) (length n) (fd_flags d)) with (advance d size); [done|].
    unfold advance in *. simpl in Eo. f_equal. unfold size in *. lia.
  - rewrite Hload. rsimpl. destruct (IH m1 q t1 fd (advance d size) n src a count cpu Hr1) as (m' & -> & t' & Hr'); [lia|]. rsimpl.
    exists m'. split; [|by exists t']. f_equal. f_equal. rewrite Eo.
    replace (Z.to_nat (length n - offset d)) with (Z.to_nat size + Z.to_nat (length n - (offset d + size)))%nat by (unfold size; lia).
    rewrite file_bytes_split, Z2Nat.id by lia. f_equal. unfold file_bytes. by rewrite Efs.
Qed.
(** ** The keyboard *)

(** A process that waits sleeps, and another one runs. *)
Lemma wait_keyboard_spec k q t e sp b : process_ok k q -> tasks k !! current_task k = Some t -> is_user_process t <> 0 ->
  state t = TASK_RUNNABLE ->
  exists k', task_wait_for_keyboard e sp b k = Ok k' /\ process_ok k' q /\ runnable (tasks k') (current_task k') /\
    tasks k' = alter (set_context e sp b) (current_task k) (alter (set_state TASK_WAITING_INPUT) (current_task k) (tasks k)).
Proof.
  intros Hk Ht Hu Hst. destruct (current_task_ok k q Hk) as (t' & _ & H0). unfold task_wait_for_keyboard.
  rewrite (proj2 (Z.eqb_neq _ 0)) by done. assert_step. rewrite (get_task_ok _ _ _ Ht). rsimpl.
  rewrite (proj2 (Z.eqb_neq _ 0)), bool_decide_eq_true_2 by done. assert_step.
  set (k1 := update_task (current_task k) (set_state TASK_WAITING_INPUT) k).
  assert (current_task k <> ready_queue k) as Hidle by (intros E; apply Hu; by apply (to_user _ _ _ (po_tasks _ _ Hk _ _ Ht))).
  assert (process_ok k1 q) as Hk1 by (apply (quiet_process_ok k _ q Hk), quiet_update; [by split|done]).
  assert (q <> [current_task k1]) as Hq.
  { intros E. destruct (queue_head _ _ (po_queue _ _ Hk)) as (q' & Hqq & _). apply Hidle. change (current_task k1) with (current_task k) in E. congruence. }
  destruct (switch_process_ok k1 q e sp b Hk1) as (k' & Hrun & Hok & Hr & _). exists k'. split; [done|]. split; [done|]. split; [done|].
  destruct (switch_tasks k1 q e sp b Hk1 Hq) as (k2 & Hrun2 & _ & _ & E & _). assert (k2 = k') as -> by congruence. exact E.
Qed.

(** One turn of the loop of [task_wake_keyboard_waiters]. *)
Definition wake_step (st : Z * kernel page_bytes K S) : res (ctl (Z * kernel page_bytes K S) (kernel page_bytes K S)) :=
  let '(t, k) := st in
  if t =? 0 then Ok (Break k)
  else
    x ← get_task t k;
    let k := if decide (state x = TASK_WAITING_INPUT) then update_task t (set_state TASK_RUNNABLE) k else k in
    Ok (Continue (next x, k)).

Lemma wake_runs l : forall k a, chain next (tasks k) a l -> NoDup l ->
  exists k', runs wake_step (List.length l) (a, k) (Ok k') /\ k' = with_tasks k (tasks k') /\
    (forall y, tasks k' !! y = (fun t => if decide (y ∈ l) then wake t else t) <$> tasks k !! y).
Proof.
  induction l as [|x l IH]; intros k a Hc Hnd.
  - simpl in Hc. subst a. exists k. split; [by constructor|]. split; [by destruct k|]. intros y.
    destruct (tasks k !! y); cbn [fmap option_fmap option_map]; [|done]. by rewrite decide_False by set_solver.
  - destruct Hc as (-> & H0 & t & Ht & Hc). apply NoDup_cons in Hnd as [Hx Hnd].
    set (k1 := if decide (state t = TASK_WAITING_INPUT) then update_task x (set_state TASK_RUNNABLE) k else k).
    assert (tasks k1 !! x = Some (wake t) /\ (forall y, y <> x -> tasks k1 !! y = tasks k !! y) /\ k1 = with_tasks k (tasks k1)) as (E1 & E2 & E3).
    { unfold k1, wake. case_decide; [|by destruct k]. simpl. rewrite lookup_alter_eq, Ht. split; [done|]. split; [|done].
      intros y Hy. by rewrite lookup_alter_ne. }
    destruct (IH k1 (next t)) as (k' & Hr & Ek & Hw).
    { eapply chain_keep; [|exact Hc]. intros y u Hy Hu. exists u. rewrite E2; [done|]. intros ->. done. }
    { done. }
    exists k'. split; [|split].
    + eapply runs_step; [|exact Hr]. unfold wake_step. rewrite (proj2 (Z.eqb_neq x 0)) by lia. rewrite (get_task_ok _ _ _ Ht). by rsimpl.
    + rewrite Ek, E3. done.
    + intros y. rewrite Hw. destruct (decide (y = x)) as [->|Hne].
      * rewrite E1, Ht. cbn [fmap option_fmap option_map].
        rewrite (decide_False (P := x ∈ l)), (decide_True (P := x ∈ x :: l)) by set_solver. done.
      * rewrite E2 by done. destruct (tasks k !! y); cbn [fmap option_fmap option_map]; [|done]. f_equal.
        destruct (decide (y ∈ l)); [rewrite decide_True by set_solver|rewrite decide_False by set_solver]; done.
Qed.

Lemma wake_spec k q : process_ok k q -> exists k', task_wake_keyboard_waiters k = Ok k' /\ k' = with_tasks k (tasks k') /\
  tasks k' = wake <$> tasks k.
Proof.
  intros Hk. pose proof (po_queue _ _ Hk) as Hq. pose proof (qo_length _ _ Hq). pose proof (chain_NoDup _ _ _ _ (qo_chain _ _ Hq)) as Hnd.
  destruct (wake_runs q k (ready_queue k) (qo_chain _ _ Hq) Hnd) as (k' & Hr & Ek & Hw). exists k'. split; [|split; [done|]].
  - unfold task_wake_keyboard_waiters. apply (while_runs _ _ _ _ Hr). lia.
  - apply map_eq. intros y. rewrite lookup_fmap, Hw. destruct (tasks k !! y) as [t|] eqn:Ht; simpl; [|done].
    rewrite decide_True; [done|]. apply (po_dom _ _ Hk). eauto.
Qed.
End runs.
