(* ===== verification/SyscallTheorems.v ===== *)
(** * Theorems about the system calls and the whole machine *)

From S2P Require Import Prelude LinkedList Memory Kmalloc Frames Paging PagingProofs Vfs Initrd Task AddressSpace Scheduler UserSpace UserMemory UserFile Keyboard Monitor Signal Process ProcessInv ProcessOps Exit Fork Reap Delivery Descriptors Steps ExecImage Syscall Interrupt MachineInv MachineSteps SyscallIO SyscallSpec Demo ExecTheorems KernelTheorems.

Section theorems.
Context {K S Cb : Type} `{!Kmalloc K} `{!KmallocLaws K} `{!HasMemory S} `{!FsDriver S Cb} `{!FileSource S Cb} `{!HasAllocator S K}
  `{!AllocatorLaws S K Cb} `{!KernelMemoryLaws S K Cb}.
Variable fs_root resume_user_frame : Z.
Implicit Types k : kernel page_bytes K S.
Implicit Types m : machine K S.

(** C1: the machine invariant.  Tasking starts, the first processes are
    spawned, and then the machine takes any sequence of interrupts - system
    calls, timer ticks, keys, reads that resume - and of stores by user
    code.  Each of these that returns leaves a sound machine: the process
    table, address spaces and signal actions as in the process invariant, a
    screen whose cursor is inside it, a keyboard buffer that is a ring of
    characters, and a clock that is a word; and the bytes of kernel memory,
    the archive among them, are what they were.  The buffers that system
    calls fill and the stores of user code are at user addresses
    ([buffer_in_user], [user_address]): syscall.c does not check pointers
    and the kernel's pages are open to ring 3, so outside this assumption a
    process can overwrite the kernel.  Other arguments and registers are
    arbitrary.  Programs are executed from files that are served, and fork
    needs a free pid. *)
Theorem machine_invariant k0 k1 m m' : paging_ready k0 -> initialise_tasking k0 = Ok k1 ->
  rtc (step resume_user_frame) k1 (proc m) -> screen_ok (screen m) -> (exists q, represents (input m) q) -> is_u32 (tick m) ->
  rtc (machine_step fs_root resume_user_frame) m m' ->
  machine_ok m' /\ kernel_bytes (proc m') = kernel_bytes (proc m).
Proof.
  intros Hp Hi Hk Hs Hb Ht Hsteps. destruct (initialise_tasking_sound k0 Hp) as [Hf|(k' & Hi' & Hs')]; [by destruct (clone_failure_not_ok _ Hf k1)|].
  assert (k' = k1) as -> by congruence. apply (machine_steps_ok fs_root resume_user_frame m m'); [|exact Hsteps]. split; try done. by eapply steps_sound.
Qed.

(** C33: every walk over the process table ends.  In a sound state the
    search for a process by number, the search for a child to wait for, the
    search for the end of the ready queue, the scheduler's search for a
    runnable task and the waking of all readers return, whatever the
    arguments. *)
Theorem queue_walks_terminate k pid : sound k ->
  (exists x, find_task pid k = Ok x) /\
  (exists st, while (waitpid_step pid k) (0, ready_queue k) = Ok st) /\
  (exists x, queue_tail k = Ok x) /\
  (exists x, next_runnable (current_task k) k = Ok x) /\
  (exists k', task_wake_keyboard_waiters k = Ok k').
Proof.
  intros [[q Hk] _ _]. pose proof (po_queue _ _ Hk) as Hq. split_and!.
  - destruct (find_task_spec k q pid Hq) as [(x & E & _)|[E _]]; by eexists.
  - destruct (waitpid_search k q pid Hq) as [(l1 & x & l2 & _ & _ & E)|(_ & p & E)]; by eexists.
  - pose proof (qo_length _ _ Hq) as Hl. destruct (exists_last (l := q)) as (l & x & ->); [intros ->; by destruct (not_elem_of_nil _ (qo_current _ _ Hq))|].
    rewrite length_app in Hl. exists x. apply (while_runs _ _ _ _ (queue_tail_runs k l _ _ (qo_chain _ _ Hq))). lia.
  - destruct (cyclic_exists q _ (qo_current _ _ Hq)) as [r Hr].
    destruct (next_runnable_spec k q _ r Hq Hr) as (s & c & t & _ & _ & _ & E). by exists c.
  - destruct (wake_spec k q Hk) as (k' & E & _). by exists k'.
Qed.

(** C24: reading a file to its end gives its contents.  A client that
    calls read on an open descriptor with a buffer of any size until it
    gets nothing collects exactly the bytes of the file from the
    descriptor's offset on; the calls all return, the offset ends at the
    length of the file, and the process invariant holds. *)
Theorem read_whole_file m q t fd d n src a count cpu fuel : reading (proc m) q t fd d n src a count ->
  length n - offset d < Z.of_nat fuel ->
  exists m' t', read_all fuel fd a count cpu m =
      Ok (file_bytes (proc m) src (offset d) (Z.to_nat (length n - offset d)), m') /\
    process_ok (proc m') q /\ tasks (proc m') !! current_task (proc m') = Some t' /\
    descriptors t' !! Z.to_nat (s32 fd) = Some (mk_descriptor (kind d) (node d) (length n) (fd_flags d)).
Proof.
  intros Hr Hf. destruct (read_all_spec fuel m q t fd d n src a count cpu Hr Hf) as (m' & E & t' & []). by exists m', t'.
Qed.

(** Writing to the console prints the bytes.  A write of a buffer of
    visible bytes to a console descriptor returns their number and leaves
    the terminal as if they had been typed one after the other; nothing
    else changes. *)
Theorem console_write m q t fd d a l c e : process_ok (proc m) q -> tasks (proc m) !! current_task (proc m) = Some t ->
  0 <= s32 fd < 16 -> descriptors t !! Z.to_nat (s32 fd) = Some d -> kind d = FD_KIND_CONSOLE -> screen_ok (screen m) ->
  l <> [] -> holds (proc m) a l -> 0 < a -> a + Z.of_nat (List.length l) < 2 ^ 32 -> Z.of_nat (List.length l) < 2 ^ 31 -> Forall (fun b => 0 <= b < 256) l ->
  exists s, service_fd_write fd a (Z.of_nat (List.length l)) c e m = Ok (Z.of_nat (List.length l), with_screen m s) /\ screen_ok s /\
    terminal_of s = foldl (fun t b => terminal_put b t) (terminal_of (screen m)) l.
Proof.
  intros. by eapply console_write_spec.
Qed.

(** C25: blocking reads.  A read of the keyboard when nothing is queued
    puts its process to sleep and lets another one run.  While it sleeps,
    a key that stands for a character queues it and makes the process
    runnable, so the scheduler reaches it.  When it runs again with no
    signal pending, the read returns as many of the queued characters as
    fit, the first ones, in its buffer, and leaves the others queued. *)
Theorem keyboard_read_blocks m q t fd d shift a count eip esp ebp : machine_ok m -> process_ok (proc m) q ->
  tasks (proc m) !! current_task (proc m) = Some t -> is_user_process t <> 0 -> 0 <= s32 fd < 16 ->
  descriptors t !! Z.to_nat (s32 fd) = Some d -> kind d = FD_KIND_KEYBOARD -> represents (input m) ([], shift) ->
  0 < a -> 0 < count < 2 ^ 31 ->
  let x := current_task (proc m) in
  (exists m1 t1, service_fd_read fd a count (eip, esp, ebp) m = Ok (Asleep m1) /\ machine_ok m1 /\ current_task (proc m1) <> x /\
    tasks (proc m1) !! x = Some t1 /\ state t1 = TASK_WAITING_INPUT) /\
  (forall m2 q2 t2 scancode regs l shift2, process_ok (proc m2) q2 -> tasks (proc m2) !! x = Some t2 -> state t2 = TASK_WAITING_INPUT ->
    represents (input m2) (l, shift2) -> 0 <= scancode < 256 -> (queue_key scancode (l, shift2)).2 = true ->
    exists m3 t3 c, keyboard_callback scancode regs m2 = Ok (Resumed regs m3) /\ represents (input m3) (l ++ [c], shift2) /\
      tasks (proc m3) !! x = Some t3 /\ state t3 = TASK_RUNNABLE) /\
  (forall m4 q4 t4 l shift4 cpu, process_ok (proc m4) q4 -> current_task (proc m4) = x -> tasks (proc m4) !! x = Some t4 ->
    pending_signals t4 = 0 -> represents (input m4) (l, shift4) -> l <> [] -> user_buffer (proc m4) a count ->
    exists m5, resume_read a count cpu m4 = Ok (Returned (Z.min count (Z.of_nat (List.length l))) m5) /\
      holds (proc m5) a (take (Z.to_nat count) l) /\ represents (input m5) (drop (Z.to_nat count) l, shift4)).
Proof.
  intros Hm Hk Ht Hu Hfd Hd Hkind Hr Ha Hc x. split; [|split].
  - destruct (mk_sound _ Hm) as [_ (t' & Ht' & Hst) _]. assert (t' = t) as -> by congruence.
    destruct (read_keyboard_empty m shift a count eip esp ebp Hr) as (b & Hb & Hrun).
    destruct (wait_keyboard_spec (proc m) q t eip esp ebp Hk Ht Hu Hst) as (k' & Hw & Hok & (tc & Htc & Hstc) & Ets).
    rewrite Hw in Hrun. revert Hrun. rsimpl. intros Hrun.
    assert (exists t1, tasks k' !! x = Some t1 /\ state t1 = TASK_WAITING_INPUT) as (t1 & Ht1 & Hst1).
    { rewrite Ets, !lookup_alter_eq, Ht. by eexists. }
    exists (with_proc (with_input m b) k'), t1. split_and!; [| |intros E; simpl in E; congruence|done|done].
    + unfold service_fd_read. rewrite (proj2 (Z.eqb_neq a 0)), (proj2 (Z.eqb_neq count 0)) by lia. cbn [orb].
      rewrite (get_descriptor_spec (proc m) q t) by done. rewrite decide_True by done. rewrite Hd. cbn [mbind option_bind].
      rewrite decide_False by congruence. rsimpl. by rewrite Hkind.
    + exact (keeps_read_keyboard _ _ _ _ _ Hm Hrun).
  - intros m2 q2 t2 sc regs l shift2 Hk2 Ht2 Hst2 Hr2 Hsc Hkey.
    destruct (keyboard_interrupt_refines sc _ _ Hsc Hr2) as (b & Hint & Hb). rewrite Hkey in Hint.
    destruct (wake_spec (proc m2) q2 Hk2) as (k' & Hw & _ & Ets).
    assert (exists c, (queue_key sc (l, shift2)).1 = (l ++ [c], shift2)) as [c Ec].
    { unfold queue_key in *. destruct (decode sc) as [|p s|]; simpl in Hkey |- *; [done| |done]. destruct (_ || _); [done|]. by eexists. }
    rewrite Ec in Hb. eexists (with_proc (with_input m2 b) k'), (wake t2), c. unfold keyboard_callback. rewrite Hint, Hw. rsimpl.
    split_and!; [done|done| |].
    + simpl. by rewrite Ets, lookup_fmap, Ht2.
    + unfold wake. by rewrite decide_True.
  - intros m4 q4 t4 l shift4 cpu Hk4 Ecur Ht4 Hp Hr4 Hl Hbuf. unfold resume_read, task_has_pending_signal.
    destruct (current_task_ok _ q4 Hk4) as (t' & _ & H0). rewrite (proj2 (Z.eqb_neq _ 0)) by done.
    rewrite Ecur, (get_task_ok _ _ _ Ht4). rsimpl. rewrite Hp. simpl negb. cbv iota. pose proof (length_take l (Z.to_nat count)) as Hlen.
    destruct (user_buffer_store (proc m4) q4 a (take (Z.to_nat count) l) Hk4) as (k' & Hst & Hstored).
    { eapply user_buffer_prefix; [done|lia]. }
    pose proof Hbuf as (B1 & B2 & _).
    destruct (read_keyboard_queued m4 l shift4 a count cpu k' Hr4 Hl Hc) as (b & Hb & ->); [unfold is_u32; lia|done|].
    exists (with_input (with_proc m4 k') b). split; [|split; [|done]].
    + do 2 f_equal. lia.
    + change (proc (with_input (with_proc m4 k') b)) with k'.
      assert (take (Z.to_nat count) l = u8 <$> take (Z.to_nat count) l) as ->; [|apply (stored_holds (proc m4)); [apply Hk4|apply Hk4|lia|lia|done]].
      rewrite <- (list_fmap_id (take _ l)) at 1. apply list_fmap_ext. intros i c Hi. change (c = u8 c). symmetry. apply u8_small.
      pose proof (rp_bytes _ _ Hr4) as Hf. simpl in Hf. rewrite Forall_lookup in Hf.
      apply lookup_take_Some in Hi as [Hi _]. specialize (Hf i c Hi). simpl in Hf. lia.
Qed.

(** Descriptors that are not open.  Reading, writing, seeking,
    asking for the status or kind of and closing a descriptor whose number
    is out of range or whose slot is free returns -EBADF and changes
    nothing. *)
Theorem bad_descriptor m q t fd a b c d e cpu : process_ok (proc m) q -> tasks (proc m) !! current_task (proc m) = Some t ->
  not_open t fd -> a <> 0 -> b <> 0 ->
  service_fd_read fd a b cpu m = Ok (Returned (- ERRNO_EBADF) m) /\
  service_fd_write fd a b d e m = Ok (- ERRNO_EBADF, m) /\ service_lseek fd b c d e m = Ok (- ERRNO_EBADF, m) /\
  service_fstat fd a c d e m = Ok (- ERRNO_EBADF, m) /\ service_isatty fd b c d e m = Ok (- ERRNO_EBADF, m) /\
  service_close fd b c d e m = Ok (- ERRNO_EBADF, m).
Proof.
  intros Hk Ht Hno Ha Hb. destruct (bad_descriptor_spec m q t fd Hk Ht Hno) as (H1 & H2 & H3 & H4 & H5 & H6). split_and!; auto.
Qed.
End theorems.

(** ** A machine with an open file, a key and a page of text *)

Definition io_shell : task := set_descriptors (<[3%nat := mk_descriptor FD_KIND_NODE 0x90100 80 0]> demo_descriptors) exec_shell.
Definition io_kernel : kernel page_bytes (gset Z) (initrd (gset Z)) := demo_kernel io_shell TASK_RUNNABLE exec_fs.
Definition io_keyboard : keyboard := initialise_keyboard (mk_keyboard (replicate 128 0) 0 0 0).
Definition io_machine : machine (gset Z) (initrd (gset Z)) := mk_machine io_kernel demo_screen io_keyboard 7.

Lemma io_ok : process_ok io_kernel demo_queue.
Proof. apply demo_ok. by split. Qed.

Lemma io_served : served io_kernel 0x90100 (fs demo_program) (0x1000 + 76).
Proof.
  apply initrd_served; try reflexivity; try done.
  - apply exec_memory_bytes.
  - intros a Ha. simpl in Ha. split; apply demo_shared; auto; lia.
Qed.

Lemma io_buffer a n : 0xBFFFE000 <= a -> a + n <= 0xC0000000 -> user_buffer io_kernel a n.
Proof.
  intros H1 H2. split; [lia|]. split; [done|]. intros b Hb.
  assert (b / 0x1000 = 0xBFFFE \/ b / 0x1000 = 0xBFFFF) as [-> | ->] by (Z.div_mod_to_equations; lia); by vm_compute; eauto.
Qed.

Lemma io_keyboard_empty : represents io_keyboard ([], false).
Proof. split; [split; simpl; lia|done|done|constructor]. Qed.

Lemma io_sound : machine_ok io_machine.
Proof.
  split; [|split; simpl; lia|exists ([], false); exact io_keyboard_empty|unfold is_u32; simpl; lia].
  split; [exists demo_queue; exact io_ok|exists io_shell; done|].
  intros x t Hx%demo_tasks. by destruct Hx as [[_ ->]|[[_ ->]|[_ ->]]].
Qed.

Lemma io_reading : reading io_kernel demo_queue io_shell 3 (mk_descriptor FD_KIND_NODE 0x90100 80 0) (fs demo_program) (0x1000 + 76) 0xBFFFE000 3.
Proof. split; [exact io_ok|done|vm_compute; done|done|done|exact io_served|simpl; lia|lia|apply io_buffer; lia]. Qed.

Lemma read_whole_file_witness : exists m' t', read_all 9 3 0xBFFFE000 3 (0, 0, 0) io_machine =
    Ok (file_bytes io_kernel (0x1000 + 76) 80 8, m') /\
  tasks (proc m') !! current_task (proc m') = Some t' /\ descriptors t' !! 3%nat = Some (mk_descriptor FD_KIND_NODE 0x90100 88 0).
Proof.
  destruct (read_whole_file io_machine demo_queue io_shell 3 _ _ _ _ _ (0, 0, 0) 9 io_reading ltac:(simpl; lia)) as (m' & t' & Hr & _ & Ht & Hd).
  exists m', t'. split; [exact Hr|]. split; [exact Ht|exact Hd].
Defined.

Lemma queue_walks_terminate_witness : exists x, find_task 2 io_kernel = Ok x.
Proof. exact (proj1 (queue_walks_terminate io_kernel 2 (mk_sound _ io_sound))). Defined.

Lemma io_text : holds io_kernel 0xBFFFE041 [65; 66].
Proof. intros [|[|i]] v Hi; simpl in Hi; [injection Hi as <-; vm_compute; reflexivity..|done]. Qed.

Lemma console_write_witness : exists s, service_fd_write 1 0xBFFFE041 2 0 0 io_machine = Ok (2, with_screen io_machine s) /\ screen_ok s /\
  terminal_of s = terminal_put 66 (terminal_put 65 (terminal_of demo_screen)).
Proof.
  refine (console_write io_machine demo_queue io_shell 1 (mk_descriptor FD_KIND_CONSOLE 0 0 0) 0xBFFFE041 [65; 66] 0 0 io_ok
    eq_refl _ eq_refl eq_refl (mk_screen _ io_sound) _ io_text _ _ _ _).
  - split; vm_compute; congruence.
  - congruence.
  - lia.
  - simpl. lia.
  - simpl. lia.
  - repeat constructor; lia.
Defined.

Lemma bad_descriptor_witness : service_fd_read 9 1 1 (0, 0, 0) io_machine = Ok (Returned (-9) io_machine) /\
  service_close (u32 (-1)) 1 0 0 0 io_machine = Ok (-9, io_machine).
Proof.
  split.
  - apply (bad_descriptor io_machine demo_queue io_shell 9 1 1 0 0 0 (0, 0, 0) io_ok eq_refl); [|lia|lia].
    right. exists free_descriptor. split; reflexivity.
  - apply (bad_descriptor io_machine demo_queue io_shell (u32 (-1)) 1 1 0 0 0 (0, 0, 0) io_ok eq_refl); [|lia|lia].
    left. vm_compute. intros [H _]. exact (H eq_refl).
Defined.

Lemma keyboard_read_blocks_witness : exists m1, service_fd_read 0 0xBFFFE000 4 (1, 2, 3) io_machine = Ok (Asleep m1) /\ machine_ok m1 /\
  current_task (proc m1) <> 0x20000.
Proof.
  destruct (keyboard_read_blocks io_machine demo_queue io_shell 0 (mk_descriptor FD_KIND_KEYBOARD 0 0 0) false 0xBFFFE000 4 1 2 3
    io_sound io_ok eq_refl) as ((m1 & t1 & Hr & Hm & Hc & _) & _); try reflexivity; try lia.
  - discriminate.
  - split; vm_compute; congruence.
  - exact io_keyboard_empty.
  - exists m1. split; [exact Hr|]. split; [exact Hm|exact Hc].
Defined.

(** The kernel boots and spawns a process; the timer switches to it, it
    stores a byte on its stack, and asks for the status of its console in
    the words after it. *)
Definition first_machine (k : kernel page_bytes (gset Z) (initrd (gset Z))) : machine (gset Z) (initrd (gset Z)) :=
  mk_machine k demo_screen io_keyboard 0.
Definition fstat_frame : registers := mk_registers 0x23 0 0 0 0 1 0 0xBFFFE010 27 0x80 0 0x400100 0x1B 0x202 0xBFFFFF00 0x23.
Definition run_to (h : isr) (regs : registers) (m : machine (gset Z) (initrd (gset Z))) : res (event (K := gset Z) (S := initrd (gset Z))) :=
  run_handler 0x90000 0x100800 h 0 regs (0x100000, 0x9000, 0x9000) m.
(** A free pid and no files. *)
Definition bare (m : machine (gset Z) (initrd (gset Z))) : bool := (next_pid (proc m) <? 100) && (size (tree (kfs (proc m))) =? 0)%nat.
Definition first_slice : res bool :=
  k1 ← initialise_tasking booting;
  '(_, k2) ← create_initial_user_process 0x100400 k1;
  e1 ← run_to Timer exec_frame (first_machine k2);
  k ← vstore8 0xBFFFE000 7 (proc (event_machine e1));
  e2 ← run_to Syscall fstat_frame (with_proc (event_machine e1) k);
  v ← vload32 0xBFFFE010 (proc (event_machine e2));
  Ok (bare (first_machine k2) && bare (with_proc (event_machine e1) k) && (next_pid k1 =? 1) && (v =? FILE_STATUS_CHARACTER)).
Lemma first_slice_runs : first_slice = Ok true.
Proof. vm_compute. reflexivity. Qed.

Lemma first_slice_parts : exists k1 pid k2 e1 k e2, initialise_tasking booting = Ok k1 /\
  create_initial_user_process 0x100400 k1 = Ok (pid, k2) /\ run_to Timer exec_frame (first_machine k2) = Ok e1 /\
  vstore8 0xBFFFE000 7 (proc (event_machine e1)) = Ok k /\ run_to Syscall fstat_frame (with_proc (event_machine e1) k) = Ok e2 /\
  bare (first_machine k2) = true /\ bare (with_proc (event_machine e1) k) = true /\ next_pid k1 = 1 /\
  vload32 0xBFFFE010 (proc (event_machine e2)) = Ok FILE_STATUS_CHARACTER.
Proof.
  pose proof first_slice_runs as H. unfold first_slice in H.
  apply bind_Ok_inv in H as (k1 & H1 & H). apply bind_Ok_inv in H as ([pid k2] & H2 & H). apply bind_Ok_inv in H as (e1 & H3 & H).
  apply bind_Ok_inv in H as (k & H4 & H). apply bind_Ok_inv in H as (e2 & H5 & H). apply bind_Ok_inv in H as (v & H6 & H).
  injection H as H. apply andb_true_iff in H as [[[B1 B2]%andb_true_iff B3%Z.eqb_eq]%andb_true_iff B4%Z.eqb_eq].
  exists k1, pid, k2, e1, k, e2. rewrite B4 in H6. by split_and!.
Qed.

Lemma bare_ready m : bare m = true -> syscalls_ready m.
Proof.
  intros [H1%Z.ltb_lt H2%Nat.eqb_eq]%andb_true_iff. split; [lia|]. intros file n Hn. apply map_size_empty_inv in H2.
  assert (node_at (kfs (proc m)) file = None) as E by (unfold node_at, initrd_driver; by rewrite H2). congruence.
Qed.

Lemma frames_ok : registers_ok exec_frame /\ registers_ok fstat_frame.
Proof. split; repeat (apply Forall_cons; split; [unfold is_u32; cbn; lia|]); by apply Forall_nil. Qed.

Lemma machine_invariant_witness : exists k2 k : kernel page_bytes (gset Z) (initrd (gset Z)), exists e1 e2,
  run_to Timer exec_frame (first_machine k2) = Ok e1 /\ vstore8 0xBFFFE000 7 (proc (event_machine e1)) = Ok k /\
  run_to Syscall fstat_frame (with_proc (event_machine e1) k) = Ok e2 /\ machine_ok (event_machine e2) /\
  kernel_bytes (proc (event_machine e2)) = kernel_bytes k2 /\
  vload32 0xBFFFE010 (proc (event_machine e2)) = Ok FILE_STATUS_CHARACTER.
Proof.
  destruct first_slice_parts as (k1 & pid & k2 & e1 & k & e2 & H1 & H2 & H3 & H4 & H5 & B1 & B2 & Hpid & H6).
  exists k2, k, e1, e2. split; [exact H3|]. split; [exact H4|]. split; [exact H5|].
  destruct (machine_invariant 0x90000 0x100800 booting k1 (first_machine k2) (event_machine e2) booting_ready H1) as [Hok Hmem].
  - apply rtc_once. apply (step_spawn 0x100800 k1 k2 0x100400 pid); [discriminate|rewrite Hpid; lia|exact H2].
  - apply io_sound.
  - exists ([], false). exact io_keyboard_empty.
  - unfold is_u32. simpl. lia.
  - eapply rtc_l; [apply (machine_interrupt 0x90000 0x100800 Timer 0 exec_frame (0x100000, 0x9000, 0x9000) (first_machine k2) e1);
      [exact (bare_ready _ B1)|apply frames_ok|lia|discriminate|exact H3]|].
    eapply rtc_l; [apply (machine_store 0x90000 0x100800 0xBFFFE000 7 (event_machine e1) k); [unfold user_address; lia|exact H4]|].
    apply rtc_once. apply (machine_interrupt 0x90000 0x100800 Syscall 0 fstat_frame (0x100000, 0x9000, 0x9000) _ e2);
      [exact (bare_ready _ B2)|apply frames_ok|lia| |exact H5].
    intros _. right. intros x Hx. change (0xBFFFE010 <= x < 0xBFFFE010 + 16) in Hx. unfold user_address. lia.
  - split; [exact Hok|]. split; [exact Hmem|exact H6].
Defined.
