(* ===== verification/Ring3.v ===== *)
(** * A process on the machine is a world for user programs

    [int 0x80] goes through the stub, the handler table and
    [syscall_handler]; loads and stores go through the page tables of the
    running process.  The registers that the program did not set and the
    stack pointers of the handler are parameters.  A call that does not
    come back to the instruction after it - its process exits, sleeps, is
    replaced by another image or enters a signal handler first - has no
    result here. *)

From S2P Require Import Prelude LinkedList Memory Kmalloc Frames Paging PagingProofs Vfs Initrd Task AddressSpace Scheduler UserSpace UserMemory UserFile Keyboard Monitor Signal Process ProcessInv Reap Delivery Exec Syscall Interrupt MachineInv SyscallIO Demo ExecTheorems SyscallTheorems LibC LibCSpec.

Definition NOT_RETURNED : string := "the call does not return to its caller".

(** The frame the stub of vector 0x80 saves: EAX, EBX, ECX and EDX as far
    as the program set them. *)
Definition arguments (args : list Z) (r : registers) : registers :=
  let arg i old := match args !! i with Some v => v | None => old end in
  mk_registers (r_ds r) (r_edi r) (r_esi r) (r_ebp r) (r_esp r) (arg 1%nat (r_ebx r)) (arg 3%nat (r_edx r)) (arg 2%nat (r_ecx r))
    (arg 0%nat (r_eax r)) SYSCALL_VECTOR (r_err_code r) (r_eip r) (r_cs r) (r_eflags r) (r_useresp r) (r_ss r).

Section ring3.
Context {K S Cb : Type} `{!Kmalloc K} `{!HasMemory S} `{!FsDriver S Cb} `{!FileSource S Cb} `{!HasAllocator S K}.
Variable fs_root resume_user_frame : Z.
Variable frame : registers.
Variable cpu : Z * Z * Z.
Implicit Types k : kernel page_bytes K S.
Implicit Types m : machine K S.

(** The event that ends the handler, as the program sees it. *)
Definition returned (saved : registers) (e : event) : res (Z * machine K S) :=
  match e with
  | Resumed r m => if (r_eip r =? r_eip saved) && (r_useresp r =? r_useresp saved) then Ok (r_eax r, m) else Panic NOT_RETURNED
  | Departed _ => Panic NOT_RETURNED
  | Slept _ => Panic NOT_RETURNED
  end.

Definition trap_to_kernel (args : list Z) m : res (Z * machine K S) :=
  e ← isr_handler fs_root resume_user_frame (initialise_syscalls ∅) 0 (arguments args frame) cpu m;
  returned (arguments args frame) e.

#[local] Instance machine_world : UserWorld (machine K S) := {|
  int80 := trap_to_kernel;
  uload8 a m := vload8 a (proc m);
  ustore8 a v m := k ← vstore8 a v (proc m); Ok (with_proc m k)
|}.

(** ** The numbers and arguments of the wrappers *)

(** What a call gives when the kernel runs [svc] for it. *)
Definition int_service (args : list Z) (svc : res (Z * machine K S)) : res (Z * machine K S) :=
  '(v, m) ← svc;
  e ← deliver (set_eax (u32 v) (arguments args frame)) cpu m;
  '(eax, m) ← returned (arguments args frame) e;
  Ok (s32 eax, m).
Definition word_service (args : list Z) (svc : res (Z * machine K S)) : res (Z * machine K S) :=
  '(v, m) ← svc;
  e ← deliver (set_eax (u32 v) (arguments args frame)) cpu m;
  returned (arguments args frame) e.

Lemma int_service_runs args svc : (forall m, trap_to_kernel args m = word_service args (svc m)) ->
  forall m, int_call args m = int_service args (svc m).
Proof.
  intros H m. unfold int_call. change (int80 args m) with (trap_to_kernel args m). rewrite H. unfold word_service, int_service.
  destruct (svc m) as [[v m']|msg|]; rsimpl; [|done..]. by destruct (deliver _ cpu m').
Qed.

(** A call whose number is in the table of services runs that service. *)
Lemma trap_runs n args f m : services fs_root n = Some f -> n ∉ [12; 19; 20; 21; 25] -> n < SYSCALL_COUNT ->
  let r := arguments (n :: args) frame in
  trap_to_kernel (n :: args) m = word_service (n :: args) (f (r_ebx r) (r_ecx r) (r_edx r) (r_esi frame) (r_edi frame) m).
Proof.
  intros Hf Hn Hlt r. unfold trap_to_kernel.
  change (isr_handler fs_root resume_user_frame (initialise_syscalls ∅) 0 (arguments (n :: args) frame) cpu m)
    with (syscall_handler fs_root resume_user_frame r cpu m).
  assert (r_eax r = n) as Er by done. unfold syscall_handler. rewrite Er.
  assert (n <> 12 /\ n <> 19 /\ n <> 20 /\ n <> 21 /\ n <> 25) as (?&?&?&?&?) by set_solver.
  rewrite (proj2 (Z.leb_gt SYSCALL_COUNT n)) by done.
  rewrite (proj2 (Z.eqb_neq n SYSCALL_EXECVE)), (proj2 (Z.eqb_neq n SYSCALL_FORK)), (proj2 (Z.eqb_neq n SYSCALL_EXIT)),
    (proj2 (Z.eqb_neq n SYSCALL_SIGRETURN)), (proj2 (Z.eqb_neq n SYSCALL_FD_READ)) by done.
  rewrite Hf. unfold word_service. change (r_esi r) with (r_esi frame). change (r_edi r) with (r_edi frame).
  destruct (f _ _ _ _ _ m) as [[v m']|msg|]; rsimpl; [|done..]. done.
Qed.

Lemma call_runs n args f m : services fs_root n = Some f -> n ∉ [12; 19; 20; 21; 25] -> n < SYSCALL_COUNT ->
  let r := arguments (n :: args) frame in
  int_call (n :: args) m = int_service (n :: args) (f (r_ebx r) (r_ecx r) (r_edx r) (r_esi frame) (r_edi frame) m).
Proof. intros Hf Hn Hlt r. apply (int_service_runs _ (fun m => f _ _ _ _ _ m)). intros m'. by apply trap_runs. Qed.

(** What the dispatcher does with a frame, as a call. *)
Lemma int_call_unfold args m : int_call args m =
  (e ← syscall_handler fs_root resume_user_frame (arguments args frame) cpu m;
   '(eax, m) ← returned (arguments args frame) e; Ok (s32 eax, m)).
Proof.
  unfold int_call. change (int80 args m) with (trap_to_kernel args m). unfold trap_to_kernel.
  change (isr_handler fs_root resume_user_frame (initialise_syscalls ∅) 0 (arguments args frame) cpu m)
    with (syscall_handler fs_root resume_user_frame (arguments args frame) cpu m).
  by destruct (syscall_handler _ _ _ _ m).
Qed.

(** C27: the wrappers of the user library and the dispatcher agree on the
    ABI: each wrapper, called on the machine, runs the service it is named
    after on the same arguments in the same order - fork, execve, exit and
    sigreturn the process operation - and returns what the service returns
    as an [int], or as a word where its type says so. *)
Theorem libc_reaches_kernel signal_trampoline m a b c :
  let w := machine_world in
  let x := r_ecx frame in let y := r_edx frame in let bx := r_ebx frame in let si := r_esi frame in let di := r_edi frame in
  (LibC.write a b c m = int_service [14; u32 a; u32 b; u32 c] (service_fd_write (u32 a) (u32 b) (u32 c) si di m) /\
   LibC.open a b m = int_service [11; u32 a; u32 b] (service_open fs_root (u32 a) (u32 b) y si di m) /\
   LibC.close a m = int_service [13; u32 a] (service_close (u32 a) x y si di m) /\
   LibC.lseek a b c m = int_service [26; u32 a; u32 b; u32 c] (service_lseek (u32 a) (u32 b) (u32 c) si di m) /\
   LibC.fstat_info a b m = int_service [27; u32 a; u32 b] (service_fstat (u32 a) (u32 b) y si di m) /\
   LibC.stat_info a b m = int_service [28; u32 a; u32 b] (service_stat fs_root (u32 a) (u32 b) y si di m) /\
   LibC.isatty a m = int_service [29; u32 a] (service_isatty (u32 a) x y si di m) /\
   LibC.read a b c m = (o ← service_fd_read (u32 a) (u32 b) (u32 c) cpu m;
     e ← finish_read (arguments [12; u32 a; u32 b; u32 c] frame) cpu o;
     '(eax, m) ← returned (arguments [12; u32 a; u32 b; u32 c] frame) e; Ok (s32 eax, m))) /\
  (LibC.clear_screen m = int_service [2] (service_clear bx x y si di m) /\
   LibC.getchar_nonblocking m = int_service [3] (service_getchar bx x y si di m) /\
   LibC.write_hex a m = int_service [9; u32 a] (service_hex (u32 a) x y si di m) /\
   LibC.write_dec a m = int_service [10; u32 a] (service_dec (u32 a) x y si di m) /\
   LibC.system_ticks m = word_service [7] (service_ticks bx x y si di m) /\
   LibC.system_memory_kib m = word_service [8] (service_memory bx x y si di m)) /\
  (LibC.readdir_name a b c m = int_service [4; u32 a; u32 b; u32 c] (service_readdir (u32 a) (u32 b) (u32 c) si di m) /\
   LibC.chdir a m = int_service [15; u32 a] (service_chdir fs_root (u32 a) x y si di m) /\
   LibC.getcwd a b m = int_service [16; u32 a; u32 b] (service_getcwd fs_root (u32 a) (u32 b) y si di m) /\
   LibC.mkdir a m = int_service [17; u32 a] (service_mkdir fs_root (u32 a) x y si di m)) /\
  (LibC.getpid m = int_service [6] (service_getpid bx x y si di m) /\
   LibC.sbrk a m = word_service [18; u32 a] (service_sbrk (u32 a) x y si di m) /\
   LibC.waitpid a b m = int_service [22; u32 a; u32 b] (service_waitpid (u32 a) (u32 b) y si di m) /\
   LibC.signal signal_trampoline a b m =
     word_service [23; u32 a; u32 b; u32 signal_trampoline] (service_signal (u32 a) (u32 b) (u32 signal_trampoline) si di m) /\
   LibC.kill a b m = int_service [24; u32 a; u32 b] (service_kill (u32 a) (u32 b) y si di m)) /\
  (LibC.fork m = ('(child, k) ← task_fork_from_frame resume_user_frame (arguments [20] frame) (proc m);
     e ← deliver (set_eax (if child <? 0 then u32 (SYSCALL_ERROR ERRNO_ENOMEM) else u32 child) (arguments [20] frame)) cpu (with_proc m k);
     '(eax, m) ← returned (arguments [20] frame) e; Ok (s32 eax, m)) /\
   LibC.execve a b c m = (let r := arguments [19; u32 a; u32 b; u32 c] frame in
     '(result, r', k) ← process_execve fs_root (u32 a) (u32 b) (u32 c) r (proc m);
     e ← deliver (if result <? 0 then set_eax (u32 (SYSCALL_ERROR ERRNO_ENOEXEC)) r' else r') cpu (with_proc m k);
     '(eax, m) ← returned r e; Ok (s32 eax, m)) /\
   LibC._exit a m = (k ← task_exit (s32 (u32 a)) cpu (proc m); Panic NOT_RETURNED) /\
   LibC.__sigreturn a m = (let r := arguments [25; u32 a] frame in
     '(result, r', k) ← task_signal_return (u32 a) r (proc m);
     e ← deliver (if result <? 0 then set_eax (u32 (-1)) r' else r') cpu (with_proc m k);
     '(eax, m) ← returned r e; Ok (s32 eax, m))).
Proof.
  intros w x y bx si di. split_and!.
  all: try (match goal with
    | |- _ = int_service (?n :: ?l) _ => refine (call_runs n l _ m eq_refl _ eq_refl); set_solver by lia
    | |- _ = word_service (?n :: ?l) _ => refine (trap_runs n l _ m eq_refl _ eq_refl); set_solver by lia
    end).
  - unfold LibC.read. rewrite int_call_unfold. change (syscall_handler _ _ _ cpu m)
      with (o ← service_fd_read (u32 a) (u32 b) (u32 c) cpu m; finish_read (arguments [12; u32 a; u32 b; u32 c] frame) cpu o).
    by destruct (service_fd_read _ _ _ _ m).
  - unfold LibC.fork. rewrite int_call_unfold. change (syscall_handler _ _ _ cpu m)
      with ('(child, k) ← task_fork_from_frame resume_user_frame (arguments [20] frame) (proc m);
        deliver (set_eax (if child <? 0 then u32 (SYSCALL_ERROR ERRNO_ENOMEM) else u32 child) (arguments [20] frame)) cpu (with_proc m k)).
    by destruct (task_fork_from_frame _ _ _) as [[child k]| |].
  - unfold LibC.execve. rewrite int_call_unfold. change (syscall_handler _ _ _ cpu m)
      with ('(result, r', k) ← process_execve fs_root (u32 a) (u32 b) (u32 c) (arguments [19; u32 a; u32 b; u32 c] frame) (proc m);
        deliver (if result <? 0 then set_eax (u32 (SYSCALL_ERROR ERRNO_ENOEXEC)) r' else r') cpu (with_proc m k)).
    cbv zeta. by destruct (process_execve _ _ _ _ _ _) as [[[result r'] k]| |].
  - unfold LibC._exit. change (int80 _ m) with (trap_to_kernel [21; u32 a] m). unfold trap_to_kernel.
    change (isr_handler _ _ _ _ _ _ m) with (k ← task_exit (s32 (u32 a)) cpu (proc m); Ok (Departed (with_proc m k))).
    by destruct (task_exit _ _ _).
  - unfold LibC.__sigreturn. rewrite int_call_unfold. change (syscall_handler _ _ _ cpu m)
      with ('(result, r', k) ← task_signal_return (u32 a) (arguments [25; u32 a] frame) (proc m);
        deliver (if result <? 0 then set_eax (u32 (-1)) r' else r') cpu (with_proc m k)).
    cbv zeta. by destruct (task_signal_return _ _ _) as [[[result r'] k]| |].
Qed.

(** ** Memory and console *)

Context `{!KmallocLaws K}.

(** The running process has nothing to deliver, its descriptor 1 is the
    console, and [lo, hi) is its memory. *)
Record console_process m (lo hi : Z) : Prop := {
  cp_running : exists q t d, process_ok (proc m) q /\ tasks (proc m) !! current_task (proc m) = Some t /\ lowest_pending t = 0 /\
    descriptors t !! 1%nat = Some d /\ kind d = FD_KIND_CONSOLE;
  cp_screen : screen_ok (screen m);
  cp_buffer : user_buffer (proc m) lo (hi - lo)
}.

(** What a program shows: the terminal.  The task that runs and the
    keyboard are part of the view because printing does not change them. *)
Definition view : Type := terminal * option task * keyboard.
Definition view_of m : view := (terminal_of (screen m), tasks (proc m) !! current_task (proc m), input m).
Definition view_put (c : Z) (v : view) : view := (terminal_put c v.1.1, v.1.2, v.2).

Lemma view_puts l v : foldl (fun v c => view_put c v) v l = (foldl (fun t c => terminal_put c t) v.1.1 l, v.1.2, v.2).
Proof. revert v. induction l as [|c l IH]; intros [[t x] b]; [done|]. cbn [foldl]. by rewrite IH. Qed.

Lemma process_store m lo hi a v : console_process m lo hi -> lo <= a < hi -> 0 <= v < 256 ->
  exists m', ustore8 a v m = Ok m' /\ console_process m' lo hi /\ view_of m' = view_of m /\
    uload8 a m' = Ok v /\ forall b, user_address b -> b <> a -> uload8 b m' = uload8 b m.
Proof.
  intros [(q & t & d & Hk & Ht & Hp & Hd & Hkind) Hs (Hlo & Hhi & Hm)] Ha Hv.
  destruct (user_buffer_store (proc m) q a [v] Hk) as (k' & Hst & Hstored).
  { split_and!; [lia|simpl; lia|]. intros b Hb. simpl in Hb. apply Hm. lia. }
  simpl in Hst. pose proof (stored_process_ok _ _ _ _ _ Hk Hstored) as Hk'.
  pose proof (stored_holds (proc m) k' a [v] (po_vm _ _ Hk) (po_region _ _ Hk) ltac:(lia) ltac:(simpl; lia) Hstored) as Hh.
  pose proof (so_old _ _ _ _ Hstored) as Hold. destruct (so_contents _ _ _ _ Hstored) as [c ->].
  exists (with_proc m (with_contents (proc m) c)). simpl. destruct (vstore8 a v (proc m)) as [k1| |]; [|done..]. revert Hst. rsimpl.
  intros [= ->]. split_and!; try done.
  - split; [by exists q, t, d|done|done].
  - specialize (Hh 0%nat (u8 v) eq_refl). rewrite Z.add_0_r, u8_small in Hh by lia. done.
  - intros b Hb Hne. rewrite !vload8_space by (done || apply Hk || apply Hk').
    change (current_directory (kmm (with_contents (proc m) c))) with (current_directory (kmm (proc m))).
    rewrite Hold; [done|done|]. simpl. lia.
Qed.

Lemma with_screen_same m : with_screen m (screen m) = m.
Proof. by destruct m. Qed.

(** A call that changes nothing but the screen comes back at once. *)
Lemma quiet_return m lo hi s v r : console_process m lo hi ->
  deliver (set_eax (u32 v) r) cpu (with_screen m s) = Ok (Resumed (set_eax (u32 v) r) (with_screen m s)).
Proof.
  intros [(q & t & d & Hk & Ht & Hp & _) _ _]. unfold deliver. simpl proc.
  rewrite (deliver_nothing (proc m) q t _ cpu Hk Ht) by by right. rsimpl. by destruct m.
Qed.

Lemma process_write m lo hi a l : console_process m lo hi -> uholds m a l -> Forall (fun c => 0 <= c < 256) l ->
  0 < a -> a + Z.of_nat (List.length l) < 2 ^ 32 -> Z.of_nat (List.length l) < 2 ^ 31 ->
  exists m', int80 [USER_SYS_WRITE; 1; a; Z.of_nat (List.length l)] m = Ok (Z.of_nat (List.length l), m') /\ console_process m' lo hi /\
    view_of m' = foldl (fun t c => view_put c t) (view_of m) l /\ forall b, uload8 b m' = uload8 b m.
Proof.
  intros Hm Hh Hb Ha Hr Hl. pose proof Hm as [(q & t & d & Hk & Ht & Hp & Hd & Hkind) Hs Hbuf].
  assert (exists s, service_fd_write 1 a (Z.of_nat (List.length l)) (r_esi frame) (r_edi frame) m = Ok (Z.of_nat (List.length l), with_screen m s) /\
    screen_ok s /\ terminal_of s = foldl (fun t b => terminal_put b t) (terminal_of (screen m)) l) as (s & Hrun & Hs' & Hterm).
  { destruct (decide (l = [])) as [->|Hne].
    - exists (screen m). split_and!; [|done|done]. by destruct m.
    - apply (console_write_spec m q t 1 d); try done. }
  exists (with_screen m s). split_and!; [|by split; [by exists q, t, d|..]| |done].
  2: { rewrite view_puts. unfold view_of. simpl. by rewrite Hterm. }
  change (int80 _ m) with (trap_to_kernel [14; 1; a; Z.of_nat (List.length l)] m).
  rewrite (trap_runs 14 [1; a; Z.of_nat (List.length l)] service_fd_write m eq_refl) by (done || set_solver by lia). unfold word_service.
  change (service_fd_write _ _ _ _ _ m) with (service_fd_write 1 a (Z.of_nat (List.length l)) (r_esi frame) (r_edi frame) m).
  rewrite Hrun. rsimpl. rewrite (quiet_return m lo hi) by done. rsimpl. unfold returned. simpl r_eip. simpl r_useresp. rewrite !Z.eqb_refl.
  simpl. by rewrite u32_small by lia.
Qed.

Lemma process_region m lo hi a : console_process m lo hi -> lo <= a < hi -> user_address a /\ 0 < a < 2 ^ 32 - 1.
Proof. intros [_ _ (Hlo & Hhi & _)] Ha. unfold user_address. lia. Qed.

#[local] Instance process_console : ConsoleWorld (machine K S) view := {|
  own := user_address;
  shown := view_of;
  put := view_put;
  runs_with := console_process;
  cw_region := process_region;
  cw_store := process_store;
  cw_write := process_write
|}.

Lemma shown_puts (v : view) l : shows (ConsoleWorld0 := process_console) v l = (foldl (fun t c => terminal_put c t) v.1.1 l, v.1.2, v.2).
Proof. exact (view_puts l v). Qed.
Lemma shown_task (v : view) l : (shows (ConsoleWorld0 := process_console) v l).1.2 = v.1.2.
Proof. by rewrite shown_puts. Qed.

Lemma process_getpid m lo hi t : console_process m lo hi -> tasks (proc m) !! current_task (proc m) = Some t ->
  LibC.getpid m = Ok (s32 (u32 (id t)), m).
Proof.
  intros Hm Ht. unfold LibC.getpid. change USER_SYS_GETPID with 6. rewrite (call_runs 6 [] service_getpid m eq_refl) by (done || set_solver by lia). unfold int_service.
  assert (service_getpid (r_ebx (arguments [6] frame)) (r_ecx (arguments [6] frame)) (r_edx (arguments [6] frame)) (r_esi frame) (r_edi frame) m
    = Ok (id t, m)) as ->.
  { unfold service_getpid, Task.getpid. by rewrite (get_task_ok _ _ _ Ht). }
  rsimpl. assert (m = with_screen m (screen m)) as Em by by destruct m.
  rewrite Em at 1. rewrite (quiet_return m lo hi) by done. rsimpl. rewrite <- Em.
  unfold returned. simpl r_eip. simpl r_useresp. rewrite !Z.eqb_refl. done.
Qed.

(** A string constant of the program, away from the array of digits. *)
Definition constant m (digits a : Z) (s : list Z) : Prop :=
  ustring m a s /\ forall b, a <= b <= a + Z.of_nat (List.length s) -> user_address b /\ ~ (digits <= b < digits + 10).

Lemma pid_line_spec m lo digits is_running full_stop name s t :
  console_process m lo (digits + 10) -> lo <= digits -> tasks (proc m) !! current_task (proc m) = Some t ->
  ustring m name s -> constant m digits is_running (codes " is running as PID ") -> constant m digits full_stop (codes "." ++ [10]) ->
  exists ds m', print_pid_line digits is_running full_stop name m = Ok m' /\ console_process m' lo (digits + 10) /\
    numeral 10 ds (u32 (id t)) /\
    view_of m' = shows (ConsoleWorld0 := process_console) (view_of m) (s ++ codes " is running as PID " ++ ds ++ codes "." ++ [10]).
Proof.
  intros Hm Hlo Ht Hs [Hr _] [Hf Hout]. unfold print_pid_line.
  destruct (print_spec (T := view) (ConsoleWorld0 := process_console) m lo (digits + 10) name s Hm Hs) as (m1 & E1 & Hm1 & Hsh1 & Hl1). rewrite E1. rsimpl.
  destruct (print_spec (T := view) (ConsoleWorld0 := process_console) m1 lo (digits + 10) is_running (codes " is running as PID ") Hm1) as (m2 & E2 & Hm2 & Hsh2 & Hl2).
  { eapply ustring_keep; [|exact Hr]. intros; apply Hl1. }
  rewrite E2. rsimpl.
  assert (tasks (proc m2) !! current_task (proc m2) = Some t) as Ht2.
  { change ((shown (ConsoleWorld := process_console) m2).1.2 = Some t). rewrite Hsh2, shown_task, Hsh1, shown_task. exact Ht. }
  rewrite (process_getpid m2 lo (digits + 10) t Hm2 Ht2). rsimpl. rewrite u32_s32, u32_u32.
  destruct (print_unsigned_spec (T := view) (ConsoleWorld0 := process_console) m2 lo digits (u32 (id t)) Hm2 Hlo (u32_range _)) as (ds & m3 & E3 & Hm3 & Hn & Hsh3 & Hl3). rewrite E3. rsimpl.
  destruct (print_spec (T := view) (ConsoleWorld0 := process_console) m3 lo (digits + 10) full_stop (codes "." ++ [10]) Hm3) as (m4 & E4 & Hm4 & Hsh4 & _).
  { eapply ustring_keep; [|exact Hf]. intros b Hb. destruct (Hout b Hb). rewrite Hl3 by done. by rewrite Hl2, Hl1. }
  exists ds, m4. split_and!; [done|done|done|]. change (shown (ConsoleWorld := process_console) m4 = shows (shown (T := view) m) (s ++ codes " is running as PID " ++ ds ++ codes "." ++ [10])).
  rewrite Hsh4, Hsh3, Hsh2, Hsh1. unfold shows. by rewrite !foldl_app.
Qed.

(** What a user program prints reaches the screen.  On the machine,
    [print_pid_line] of the user library - strings found by their
    terminator, one write call each, the digits of the pid made on the
    user stack and written one by one - returns with the terminal as if
    the name, the text, the decimal numeral of the pid and the full stop
    had been typed; the numeral has no leading zeros, covers every 32-bit
    value, and [atoi] reads it back wherever it is stored. *)
Theorem pid_line_reaches_screen m lo digits is_running full_stop name s t :
  console_process m lo (digits + 10) -> lo <= digits -> tasks (proc m) !! current_task (proc m) = Some t ->
  ustring m name s -> constant m digits is_running (codes " is running as PID ") -> constant m digits full_stop (codes "." ++ [10]) ->
  exists ds m', print_pid_line digits is_running full_stop name m = Ok m' /\ console_process m' lo (digits + 10) /\
    numeral 10 ds (u32 (id t)) /\
    terminal_of (screen m') =
      foldl (fun t c => terminal_put c t) (terminal_of (screen m)) (s ++ codes " is running as PID " ++ ds ++ codes "." ++ [10]) /\
    (u32 (id t) < 2 ^ 31 -> forall m2 a c, uholds m2 a (ds ++ [c]) -> 0 <= c < 256 -> ~ (48 <= c <= 57) -> 0 < a ->
       a + Z.of_nat (List.length ds) < 2 ^ 32 -> atoi a m2 = Ok (u32 (id t))).
Proof.
  intros Hm Hlo Ht Hs Hr Hf. destruct (pid_line_spec m lo digits is_running full_stop name s t Hm Hlo Ht Hs Hr Hf) as (ds & m' & E & Hm' & Hn & Hv).
  exists ds, m'. split_and!; [done|done|done| |].
  - rewrite shown_puts in Hv. exact (f_equal (fun v : view => v.1.1) Hv).
  - intros Hlt m2 a c. by apply atoi_spec.
Qed.
End ring3.

(** ** A process with three strings on its stack *)

Lemma uholds_check {W} `{!UserWorld W} (w : W) a l :
  forallb (fun i => bool_decide (uload8 (a + Z.of_nat i) w = Ok (nth i l 0))) (seq 0 (List.length l)) = true -> uholds w a l.
Proof.
  intros H i c Hi. rewrite forallb_forall in H. pose proof (lookup_lt_Some _ _ _ Hi). specialize (H i).
  rewrite in_seq, bool_decide_eq_true, (nth_lookup_Some l i 0 c Hi) in H. apply H. lia.
Qed.

Definition print_text : list Z :=
  codes "status" ++ [0] ++ codes " is running as PID " ++ [0] ++ codes "." ++ [10; 0].
Definition print_contents (b o : Z) : Z :=
  if (b =? 0x3000) && (0x100 <=? o) && (o <? 0x100 + Z.of_nat (List.length print_text)) then nth (Z.to_nat (o - 0x100)) print_text 0
  else contents_of (kmm io_kernel) b o.
Definition print_machine : machine (gset Z) (initrd (gset Z)) := with_proc io_machine (with_contents io_kernel print_contents).
#[local] Instance print_world : UserWorld (machine (gset Z) (initrd (gset Z))) := machine_world 0x90000 0x100800 exec_frame (0, 0, 0).

Lemma print_process : console_process print_machine 0xBFFFE040 0xBFFFE04A.
Proof.
  split.
  - exists demo_queue, io_shell, (mk_descriptor FD_KIND_CONSOLE 0 0 0). split; [apply contents_process_ok; exact io_ok|]. split; [reflexivity|].
    split; [reflexivity|]. split; reflexivity.
  - exact (mk_screen _ io_sound).
  - exact (io_buffer 0xBFFFE040 10 ltac:(lia) ltac:(lia)).
Qed.

Lemma print_constant a s : uholds print_machine a (s ++ [0]) -> Forall (fun c => 0 < c < 256) s -> 0xBFFFE100 <= a ->
  a + Z.of_nat (List.length s) < 0xBFFFF000 -> constant 0x90000 0x100800 exec_frame (0, 0, 0) print_machine 0xBFFFE040 a s.
Proof.
  intros Hh Hs H1 H2. split; [split; [exact Hh|exact Hs|lia|lia]|]. intros b Hb. unfold user_address. lia.
Qed.

Lemma chars_check s : forallb (fun c => (0 <? c) && (c <? 256)) s = true -> Forall (fun c => 0 < c < 256) s.
Proof. intros H. apply Forall_forall. intros c Hc%list_elem_of_In. rewrite forallb_forall in H. specialize (H c Hc). lia. Qed.

Lemma pid_line_reaches_screen_witness : exists ds m', print_pid_line 0xBFFFE040 0xBFFFE107 0xBFFFE11B 0xBFFFE100 print_machine = Ok m' /\
  numeral 10 ds 1.
Proof.
  destruct (pid_line_reaches_screen 0x90000 0x100800 exec_frame (0, 0, 0) print_machine 0xBFFFE040 0xBFFFE040 0xBFFFE107 0xBFFFE11B 0xBFFFE100
    (codes "status") io_shell) as (ds & m' & Hr & _ & Hn & _).
  - exact print_process.
  - lia.
  - reflexivity.
  - apply print_constant; [apply uholds_check; vm_compute; reflexivity|apply chars_check; vm_compute; reflexivity|lia|simpl; lia].
  - apply print_constant; [apply uholds_check; vm_compute; reflexivity|apply chars_check; vm_compute; reflexivity|lia|simpl; lia].
  - apply print_constant; [apply uholds_check; vm_compute; reflexivity|apply chars_check; vm_compute; reflexivity|lia|simpl; lia].
  - exists ds, m'. split; [exact Hr|]. exact Hn.
Defined.
