(* ===== verification/Programs.v ===== *)
(** * user/programs: the demonstration programs

    The programs that the archive carries besides the shell, over any world
    of [LibC]: each is its [main], from the arguments to the status that
    crt0.s hands to [_exit].  [literal] is the address the linker gave a
    string constant; static and local variables whose address is taken are
    parameters too.  The theorem follows args.c through the kernel to the
    screen. *)

From S2P Require Import Prelude LinkedList Memory Kmalloc Frames Paging PagingProofs Vfs Initrd Task AddressSpace Scheduler UserSpace UserMemory UserFile Keyboard Monitor Signal Process ProcessInv Reap Delivery Exec Syscall Interrupt MachineInv SyscallIO Demo ExecTheorems SyscallTheorems Ring3 LibC LibCSpec.

Section programs.
Context {W : Type} `{!UserWorld W}.
Variable literal : list Z -> Z.
(** The array of [print_unsigned], and the entry that ends handlers. *)
Variables digits signal_trampoline : Z.
Implicit Types w : W.

Definition say (text : list Z) w : res W := print (literal text) w.
(** A constant that ends in a newline. *)
Definition line (text : string) : list Z := codes text ++ [10].
Definition pid_line (name : string) w : res W :=
  print_pid_line digits (literal (codes " is running as PID ")) (literal (line ".")) (literal (codes name)) w.

(** The line for one argument; hello.c and args.c differ in the indent. *)
Definition show_argument (indent : string) (argv index : Z) w : res W :=
  w ← say (codes indent ++ codes "argv[") w;
  w ← print_unsigned digits (u32 index) w;
  w ← say (codes "] = ") w;
  text ← uload32 (u32 (argv + 4 * index)) w;
  w ← print text w;
  say [10] w.
Definition show_arguments (indent : string) (argc argv : Z) w : res W :=
  w ← say (codes "argc = ") w;
  w ← print_unsigned digits (u32 argc) w;
  w ← say [10] w;
  for_range 0 argc (show_argument indent argv) w.

(** [a || b], where both have effects. *)
Definition orelse (a b : W -> res (bool * W)) w : res (bool * W) :=
  '(x, w) ← a w; if x : bool then Ok (true, w) else b w.
Definition test {A} (call : W -> res (A * W)) (p : A -> bool) w : res (bool * W) := '(r, w) ← call w; Ok (p r, w).
Definition look {A} (load : W -> res A) (p : A -> bool) w : res (bool * W) := r ← load w; Ok (p r, w).

(** ** args.c, status.c *)

Definition args_main (argc argv : Z) w : res (Z * W) :=
  w ← say (line "Hello from the argument demonstration program.") w;
  w ← pid_line "args" w;
  w ← show_arguments "  " argc argv w;
  Ok (0, w).

Definition status_main w : res (Z * W) :=
  w ← say (line "Hello from the exit-status demonstration.") w;
  w ← pid_line "status" w;
  w ← say (line "status: returning 42 to the parent shell.") w;
  Ok (42, w).

(** ** hello.c *)

Definition hello_main (initialized_data_cookie zero_filled_bss_cookie argc argv : Z) w : res (Z * W) :=
  w ← say (line "External ELF32 userspace program is running.") w;
  '(wrong, w) ← orelse (look (uload32 initialized_data_cookie) (fun v => negb (v =? 0x13579BDF)))
                       (look (uload32 zero_filled_bss_cookie) (fun v => negb (v =? 0))) w;
  w ← say (line (if wrong : bool then "ELF data/BSS test: segment contents are wrong."
                 else "ELF data/BSS test: initialized and zero-filled bytes passed.")) w;
  w ← pid_line "hello" w;
  w ← show_arguments "" argc argv w;
  '(memory, w) ← sbrk 5000 w;
  w ← (if memory =? 0xFFFFFFFF then say (line "ELF heap test: sbrk failed.") w
       else
         w ← ustore8 memory 0x3C w;
         w ← ustore8 (u32 (memory + 4999)) 0xC3 w;
         '(wrong, w) ← orelse (look (uload8 memory) (fun v => negb (v =? 0x3C)))
                              (look (uload8 (u32 (memory + 4999))) (fun v => negb (v =? 0xC3))) w;
         say (line (if wrong : bool then "ELF heap test: memory verification failed."
                    else "ELF heap test: two writable pages passed.")) w);
  w ← say (line "hello is returning status 0 through SYS_EXIT.") w;
  Ok (0, w).

(** ** readcheck.c *)

Definition readcheck_main (character : Z) w : res (Z * W) :=
  w ← say (line "readcheck: press one key; this process is blocked meanwhile...") w;
  '(amount, w) ← read 0 character 1 w;
  if negb (amount =? 1) then w ← say (line "readcheck: read failed") w; Ok (1, w)
  else
    w ← say (codes "readcheck: woke and read '") w;
    '(_, w) ← write 1 character 1 w;
    w ← say (line "'") w;
    Ok (0, w).

(** ** heapdemo.c *)

Definition heapdemo_main w : res (Z * W) :=
  w ← say (line "Hello from the userspace heap demonstration.") w;
  w ← pid_line "heapdemo" w;
  '(first, w) ← sbrk 9000 w;
  if first =? 0xFFFFFFFF then w ← say (line "heapdemo: sbrk failed.") w; Ok (1, w)
  else
    w ← ustore8 first 11 w;
    w ← ustore8 (u32 (first + 4096)) 22 w;
    w ← ustore8 (u32 (first + 8999)) 33 w;
    '(wrong, w) ← orelse (look (uload8 first) (fun v => negb (v =? 11)))
                    (orelse (look (uload8 (u32 (first + 4096))) (fun v => negb (v =? 22)))
                            (look (uload8 (u32 (first + 8999))) (fun v => negb (v =? 33)))) w;
    if wrong : bool then w ← say (line "heapdemo: page verification failed.") w; Ok (2, w)
    else w ← say (line "heapdemo: three-page allocation passed.") w; Ok (0, w).

(** ** abicheck.c

    [status] is the local [file_status_t], [first] the array of five. *)

Definition FILE_STATUS_REGULAR : Z := 1.
Definition SEEK_FROM_START : Z := 0.

Definition report (text : string) (failures : Z) w : res (Z * W) := w ← say (line text) w; Ok (failures + 1, w).

Definition abicheck_read (descriptor first failures : Z) w : res (Z * W) :=
  '(wrong, w) ← orelse (test (read descriptor first 4) (fun r => negb (r =? 4)))
                  (orelse (test (lseek descriptor 0 SEEK_FROM_START) (fun r => negb (r =? 0)))
                          (test (read descriptor first 4) (fun r => negb (r =? 4)))) w;
  '(failures, w) ← (if wrong : bool then report "abicheck: read/lseek failed" failures w else Ok (failures, w));
  '(_, w) ← close descriptor w;
  Ok (failures, w).

Definition abicheck_main (status first : Z) w : res (Z * W) :=
  '(wrong, w) ← orelse (test (isatty 0) (fun r => negb (r =? 1))) (test (isatty 1) (fun r => negb (r =? 1))) w;
  '(failures, w) ← (if wrong : bool then report "abicheck: terminal detection failed" 0 w else Ok (0, w));
  '(wrong, w) ← orelse (test (stat_info (literal (codes "/test.txt")) status) (fun r => r <? 0))
                  (orelse (look (uload32 status) (fun v => negb (v =? FILE_STATUS_REGULAR)))
                          (look (uload32 (u32 (status + 4))) (fun v => negb (v =? 17)))) w;
  '(failures, w) ← (if wrong : bool then report "abicheck: stat failed" failures w else Ok (failures, w));
  '(descriptor, w) ← open (literal (codes "/test.txt")) 0 w;
  '(wrong, w) ← orelse (fun w => Ok (descriptor <? 0, w))
                  (orelse (test (fstat_info descriptor status) (fun r => r <? 0))
                          (look (uload32 (u32 (status + 4))) (fun v => negb (v =? 17)))) w;
  '(failures, w) ← (if wrong : bool then report "abicheck: open/fstat failed" failures w
                    else abicheck_read descriptor first failures w);
  '(wrong, w) ← test (lseek 1 0 SEEK_FROM_START) (fun r => negb (r =? -29)) w;
  '(failures, w) ← (if wrong : bool then report "abicheck: console did not report ESPIPE" failures w else Ok (failures, w));
  w ← say (line (if failures =? 0 then "abicheck: Newlib kernel ABI passed" else "abicheck: failures detected")) w;
  Ok (failures, w).

(** ** sigdemo.c

    The kernel runs the two handlers when their signals arrive; what they
    do to the memory and the console is part of the world in which [main]
    makes its calls. *)

Definition SIGUSR1 : Z := 10.
Definition SIGTERM : Z := 15.
Definition SIGCHLD : Z := 17.
Definition SIG_ERR : Z := u32 (-1).

Section sigdemo.
Variables caught_signal child_notifications status : Z.

Definition on_user_signal (signal_number : Z) w : res W :=
  w ← ustore32 caught_signal signal_number w;
  w ← say (codes "sigdemo: userspace handler caught SIGUSR1 in PID ") w;
  '(pid, w) ← getpid w;
  w ← print_unsigned digits (u32 pid) w;
  say [10] w.

Definition on_child_exit (signal_number : Z) w : res W :=
  if signal_number =? SIGCHLD then n ← uload32 child_notifications w; ustore32 child_notifications (u32 (n + 1)) w
  else Ok w.

(** [status = 0; while (waitpid(pid, &status) == 0) pause]. *)
Definition await (pid : Z) w : res W :=
  w ← ustore32 status 0 w;
  while (fun w => '(r, w) ← waitpid pid status w; if r =? 0 then Ok (Continue w) else Ok (Break w)) w.

(** The second half: the default action of SIGTERM. *)
Definition check_default w : res (Z * W) :=
  '(terminated_pid, w) ← fork w;
  if terminated_pid <? 0 then Ok (5, w)
  else if terminated_pid =? 0 then
    '(_, w) ← raise SIGTERM w;
    w ← say (line "sigdemo: ERROR: default SIGTERM returned") w;
    _exit 6 w
  else
    w ← await terminated_pid w;
    value ← uload32 status w;
    if negb (s32 value =? 128 + SIGTERM) then
      w ← say (codes "sigdemo: default-action test failed; status ") w;
      w ← print_unsigned digits value w;
      w ← say [10] w;
      Ok (8, w)
    else
      n ← uload32 child_notifications w;
      if s32 n <? 2 then w ← say (line "sigdemo: SIGCHLD handler test failed") w; Ok (9, w)
      else
        w ← say (line "sigdemo: SIGTERM default action produced status 143") w;
        w ← say (line "sigdemo: caught SIGCHLD for both child exits") w;
        w ← say (line "sigdemo: all signal tests passed") w;
        Ok (0, w).

Definition sigdemo_main (user_handler child_handler : Z) w : res (Z * W) :=
  '(r, w) ← signal signal_trampoline SIGUSR1 user_handler w;
  if r =? SIG_ERR then w ← say (line "sigdemo: could not install handler") w; Ok (1, w)
  else
    '(r, w) ← signal signal_trampoline SIGCHLD child_handler w;
    if r =? SIG_ERR then w ← say (line "sigdemo: could not install SIGCHLD handler") w; Ok (1, w)
    else
      '(parent_pid, w) ← getpid w;
      '(sender_pid, w) ← fork w;
      if sender_pid <? 0 then Ok (2, w)
      else if sender_pid =? 0 then
        '(result, w) ← kill parent_pid SIGUSR1 w;
        _exit (if result =? 0 then 7 else 3) w
      else
        w ← await sender_pid w;
        '(wrong, w) ← orelse (look (uload32 status) (fun v => negb (s32 v =? 7)))
                        (orelse (look (uload32 caught_signal) (fun v => negb (s32 v =? SIGUSR1)))
                                (look (uload32 child_notifications) (fun v => s32 v <? 1))) w;
        if wrong : bool then w ← say (line "sigdemo: caught-signal test failed") w; Ok (4, w)
        else check_default w.
End sigdemo.
End programs.

(** ** What the printing programs show

    A program that only prints: every step shows some text and leaves all
    memory outside the array of digits alone. *)
Section printing.
Context {W T : Type} `{!UserWorld W} `{!ConsoleWorld W T}.
Variable literal : list Z -> Z.
Variables lo digits pid : Z.
Variable who : T -> Prop.
Hypothesis digits_low : lo <= digits.
(** Printing does not change which process asks for its pid. *)
Hypothesis who_shows : forall t l, who t -> who (shows t l).
Hypothesis getpid_known : forall w, runs_with w lo (digits + 10) -> who (shown w) -> getpid w = Ok (pid, w).
Implicit Types w : W.

Definition outside (b : Z) : Prop := own b /\ ~ (digits <= b < digits + 10).

Record fixed_string w (a : Z) (s : list Z) : Prop := {
  fs_string : ustring w a s;
  fs_outside b : a <= b <= a + Z.of_nat (List.length s) -> outside b
}.
Record fixed_word w (a v : Z) : Prop := {
  fw_bytes : uholds w a (le32 v);
  fw_outside b : a <= b < a + 4 -> outside b;
  fw_range : 0 <= a /\ a + 4 < 2 ^ 32 /\ is_u32 v
}.

Record printed w w' (text : list Z) : Prop := {
  pr_runs : runs_with w' lo (digits + 10);
  pr_shown : shown w' = shows (shown w) text;
  pr_memory b : outside b -> uload8 b w' = uload8 b w
}.

Lemma shows_app (t : T) l1 l2 : shows t (l1 ++ l2) = shows (shows t l1) l2.
Proof. apply foldl_app. Qed.

Lemma printed_refl w : runs_with w lo (digits + 10) -> printed w w [].
Proof. by split. Qed.
Lemma printed_trans w1 w2 w3 l1 l2 : printed w1 w2 l1 -> printed w2 w3 l2 -> printed w1 w3 (l1 ++ l2).
Proof.
  intros [_ Hs1 Hm1] [Hr Hs2 Hm2]. split; [done|by rewrite Hs2, Hs1, shows_app|]. intros b Hb. by rewrite Hm2, Hm1.
Qed.

Lemma fixed_string_keep w w' l a s : printed w w' l -> fixed_string w a s -> fixed_string w' a s.
Proof. intros Hp [Hs Ho]. split; [|done]. eapply ustring_keep; [|exact Hs]. intros b Hb. by apply (pr_memory _ _ _ Hp), Ho. Qed.
Lemma fixed_word_keep w w' l a v : printed w w' l -> fixed_word w a v -> fixed_word w' a v.
Proof.
  intros Hp [Hb Ho Hr]. split; [|done..]. intros i c Hi. pose proof (lookup_lt_Some _ _ _ Hi) as Hlt. rewrite le32_length in Hlt.
  rewrite (pr_memory _ _ _ Hp); [by apply Hb|]. apply Ho. lia.
Qed.

Lemma load_word w a v : fixed_word w a v -> uload32 a w = Ok v.
Proof.
  intros [Hb _ (Ha & Ha4 & Hv)]. unfold uload32, uload_bytes.
  pose proof (Hb 0%nat) as H0. pose proof (Hb 1%nat) as H1. pose proof (Hb 2%nat) as H2. pose proof (Hb 3%nat) as H3.
  unfold le32 in *. cbn [lookup list_lookup] in *.
  rewrite (u32_small (a + 1)) by lia. rewrite (u32_small (a + 1 + 1)) by lia. rewrite (u32_small (a + 1 + 1 + 1)) by lia.
  replace (a + Z.of_nat 0) with a in H0 by lia. replace (a + Z.of_nat 1) with (a + 1) in H1 by lia.
  replace (a + Z.of_nat 2) with (a + 1 + 1) in H2 by lia. replace (a + Z.of_nat 3) with (a + 1 + 1 + 1) in H3 by lia.
  rewrite (H0 _ eq_refl), (H1 _ eq_refl), (H2 _ eq_refl), (H3 _ eq_refl). rsimpl.
  pose proof (word_of_le32 v) as E. unfold le32 in E. by rewrite E, u32_small.
Qed.

Lemma print_shows w a s : runs_with w lo (digits + 10) -> fixed_string w a s -> exists w', print a w = Ok w' /\ printed w w' s.
Proof.
  intros Hw [Hs _]. destruct (print_spec w lo (digits + 10) a s Hw Hs) as (w' & E & Hw' & Hsh & Hl). exists w'. split; [done|]. by split.
Qed.
Lemma number_shows w v : runs_with w lo (digits + 10) -> is_u32 v ->
  exists ds w', print_unsigned digits v w = Ok w' /\ numeral 10 ds v /\ printed w w' ds.
Proof.
  intros Hw Hv. destruct (print_unsigned_spec w lo digits v Hw digits_low Hv) as (ds & w' & E & Hw' & Hn & Hsh & Hl).
  exists ds, w'. split; [done|]. split; [done|]. split; [done..|]. intros b [Hb1 Hb2]. by apply Hl.
Qed.

(** The constants [texts] are where the linker put them. *)
Definition constants (texts : list (list Z)) w : Prop := forall s, s ∈ texts -> fixed_string w (literal s) s.
Lemma constants_keep texts w w' l : printed w w' l -> constants texts w -> constants texts w'.
Proof. intros Hp Hc s Hs. eapply fixed_string_keep; eauto. Qed.

Lemma say_shows texts w s : runs_with w lo (digits + 10) -> constants texts w -> s ∈ texts ->
  exists w', say literal s w = Ok w' /\ printed w w' s.
Proof. intros Hw Hc Hs. by apply print_shows, Hc. Qed.

Definition pid_texts (name : string) : list (list Z) := [codes " is running as PID "; line "."; codes name].

Lemma pid_line_shows name w : runs_with w lo (digits + 10) -> constants (pid_texts name) w -> who (shown w) ->
  exists ds w', pid_line literal digits name w = Ok w' /\ numeral 10 ds (u32 pid) /\
    printed w w' (codes name ++ codes " is running as PID " ++ ds ++ line ".").
Proof.
  intros Hw Hc Hwho. unfold pid_line, print_pid_line.
  destruct (print_shows w (literal (codes name)) (codes name) Hw) as (w1 & E1 & P1); [apply Hc; set_solver|]. rewrite E1. rsimpl.
  destruct (print_shows w1 (literal (codes " is running as PID ")) (codes " is running as PID ") (pr_runs _ _ _ P1)) as (w2 & E2 & P2);
    [eapply fixed_string_keep; [exact P1|apply Hc; set_solver]|]. rewrite E2. rsimpl. pose proof (printed_trans _ _ _ _ _ P1 P2) as P12.
  rewrite getpid_known; [|exact (pr_runs _ _ _ P2)|rewrite (pr_shown _ _ _ P12); by apply who_shows]. rsimpl.
  destruct (number_shows w2 (u32 pid) (pr_runs _ _ _ P2) (u32_range _)) as (ds & w3 & E3 & Hn & P3). rewrite E3. rsimpl.
  pose proof (printed_trans _ _ _ _ _ P12 P3) as P123.
  destruct (print_shows w3 (literal (line ".")) (line ".") (pr_runs _ _ _ P3)) as (w4 & E4 & P4);
    [eapply fixed_string_keep; [exact P123|apply Hc; set_solver]|]. rewrite E4.
  exists ds, w4. split; [done|]. split; [done|]. pose proof (printed_trans _ _ _ _ _ P123 P4) as P. by rewrite <- !app_assoc in P.
Qed.

(** ** The arguments *)

(** [argv] points at pointers to the strings [args]. *)
Record argument_vector w (argv : Z) (args : list (list Z)) : Prop := {
  av_range : 0 <= argv /\ argv + 4 * Z.of_nat (List.length args) < 2 ^ 32;
  av_strings i s : args !! i = Some s -> exists p, fixed_word w (argv + 4 * Z.of_nat i) p /\ fixed_string w p s
}.
Lemma argument_vector_keep w w' l argv args : printed w w' l -> argument_vector w argv args -> argument_vector w' argv args.
Proof.
  intros Hp [Hr Hs]. split; [done|]. intros i s Hi. destruct (Hs i s Hi) as (p & H1 & H2). exists p.
  split; [by eapply fixed_word_keep|by eapply fixed_string_keep].
Qed.

(** The text of the first arguments: [index] numeral, then the argument. *)
Inductive argument_lines (indent : string) : nat -> list (list Z) -> list Z -> Prop :=
  | no_arguments i : argument_lines indent i [] []
  | one_argument i s args ds text : numeral 10 ds (Z.of_nat i) -> argument_lines indent (S i) args text ->
      argument_lines indent i (s :: args) (codes indent ++ codes "argv[" ++ ds ++ codes "] = " ++ s ++ [10] ++ text).

Definition argument_texts (indent : string) : list (list Z) := [codes indent ++ codes "argv["; codes "] = "; [10]; codes "argc = "].

Lemma show_argument_shows indent argv args i s w : runs_with w lo (digits + 10) -> constants (argument_texts indent) w ->
  argument_vector w argv args -> args !! i = Some s -> Z.of_nat (List.length args) < 2 ^ 30 ->
  exists ds w', show_argument literal digits indent argv (Z.of_nat i) w = Ok w' /\ numeral 10 ds (Z.of_nat i) /\
    printed w w' (codes indent ++ codes "argv[" ++ ds ++ codes "] = " ++ s ++ [10]).
Proof.
  intros Hw Hc Hav Hi Hlen. pose proof (lookup_lt_Some _ _ _ Hi) as Hlt. destruct (av_range _ _ _ Hav) as [Ha0 Ha]. unfold show_argument.
  destruct (say_shows (argument_texts indent) w (codes indent ++ codes "argv[")) as (w1 & E1 & P1); [done|done|by left|]. rewrite E1. rsimpl.
  rewrite (u32_small (Z.of_nat i)) by lia.
  destruct (number_shows w1 (Z.of_nat i) (pr_runs _ _ _ P1) ltac:(unfold is_u32; lia)) as (ds & w2 & E2 & Hn & P2). rewrite E2. rsimpl.
  pose proof (printed_trans _ _ _ _ _ P1 P2) as P12. pose proof (constants_keep _ _ _ _ P12 Hc) as Hc2.
  destruct (say_shows (argument_texts indent) w2 (codes "] = ")) as (w3 & E3 & P3); [by apply P2|done|by right; left|]. rewrite E3. rsimpl.
  pose proof (printed_trans _ _ _ _ _ P12 P3) as P123.
  destruct (av_strings _ _ _ (argument_vector_keep _ _ _ _ _ P123 Hav) i s Hi) as (p & Hp & Hs).
  rewrite (u32_small (argv + 4 * Z.of_nat i)) by lia. rewrite (load_word _ _ _ Hp). rsimpl.
  destruct (print_shows w3 p s (pr_runs _ _ _ P3) Hs) as (w4 & E4 & P4). rewrite E4. rsimpl. pose proof (printed_trans _ _ _ _ _ P123 P4) as P1234.
  destruct (say_shows (argument_texts indent) w4 [10]) as (w5 & E5 & P5); [by apply P4|by apply (constants_keep _ _ _ _ P1234)|by right; right; left|].
  rewrite E5. exists ds, w5. split; [done|]. split; [done|]. pose proof (printed_trans _ _ _ _ _ P1234 P5) as P. by rewrite <- !app_assoc in P.
Qed.

Lemma arguments_loop indent argv args : Z.of_nat (List.length args) < 2 ^ 30 -> forall rest i w,
  drop i args = rest -> runs_with w lo (digits + 10) -> constants (argument_texts indent) w -> argument_vector w argv args ->
  exists text w', for_nat (List.length rest) (Z.of_nat i) (show_argument literal digits indent argv) w = Ok w' /\
    argument_lines indent i rest text /\ printed w w' text.
Proof.
  intros Hlen rest. induction rest as [|s rest IH]; intros i w Hd Hw Hc Hav; cbn [List.length for_nat].
  - exists [], w. split; [done|]. split; [constructor|by apply printed_refl].
  - assert (args !! i = Some s) as Hi by (rewrite <- (Nat.add_0_r i), <- lookup_drop, Hd; done).
    destruct (show_argument_shows indent argv args i s w Hw Hc Hav Hi Hlen) as (ds & w1 & E1 & Hn & P1). rewrite E1. rsimpl.
    replace (Z.of_nat i + 1) with (Z.of_nat (S i)) by lia.
    destruct (IH (S i) w1) as (text & w2 & E2 & Ht & P2); [by rewrite (drop_S args s i Hi) in Hd; injection Hd|by apply P1|by eapply constants_keep|by eapply argument_vector_keep|].
    exists (codes indent ++ codes "argv[" ++ ds ++ codes "] = " ++ s ++ [10] ++ text), w2. split; [done|]. split; [by constructor|].
    pose proof (printed_trans _ _ _ _ _ P1 P2) as P. by rewrite <- !app_assoc in P.
Qed.

(** The lines about the arguments: their number, then each of them. *)
Definition arguments_text (indent : string) (args : list (list Z)) (text : list Z) : Prop :=
  exists count lines, numeral 10 count (Z.of_nat (List.length args)) /\ argument_lines indent 0 args lines /\
    text = codes "argc = " ++ count ++ [10] ++ lines.

Lemma show_arguments_shows indent argv args w : runs_with w lo (digits + 10) -> constants (argument_texts indent) w ->
  argument_vector w argv args -> Z.of_nat (List.length args) < 2 ^ 30 ->
  exists text w', show_arguments literal digits indent (Z.of_nat (List.length args)) argv w = Ok w' /\ arguments_text indent args text /\ printed w w' text.
Proof.
  intros Hw Hc Hav Hlen. unfold show_arguments.
  destruct (say_shows (argument_texts indent) w (codes "argc = ")) as (w1 & E1 & P1); [done|done|by do 3 right; left|]. rewrite E1. rsimpl.
  rewrite (u32_small (Z.of_nat _)) by lia.
  destruct (number_shows w1 (Z.of_nat (List.length args)) (pr_runs _ _ _ P1) ltac:(unfold is_u32; lia)) as (count & w2 & E2 & Hn & P2). rewrite E2. rsimpl.
  pose proof (printed_trans _ _ _ _ _ P1 P2) as P12.
  destruct (say_shows (argument_texts indent) w2 [10]) as (w3 & E3 & P3); [by apply P2|by apply (constants_keep _ _ _ _ P12)|by right; right; left|]. rewrite E3. rsimpl.
  pose proof (printed_trans _ _ _ _ _ P12 P3) as P123. unfold for_range. rewrite Z.sub_0_r, Nat2Z.id.
  destruct (arguments_loop indent argv args Hlen args 0 w3 eq_refl) as (lines & w4 & E4 & Hl & P4);
    [by apply P3|by apply (constants_keep _ _ _ _ P123)|by apply (argument_vector_keep _ _ _ _ _ P123)|].
  exists (codes "argc = " ++ count ++ [10] ++ lines), w4. split; [exact E4|]. split; [by exists count, lines|].
  pose proof (printed_trans _ _ _ _ _ P123 P4) as P. by rewrite <- !app_assoc in P.
Qed.

Definition args_texts : list (list Z) := line "Hello from the argument demonstration program." :: pid_texts "args" ++ argument_texts "  ".

Lemma args_shows argv args w : runs_with w lo (digits + 10) -> constants args_texts w -> argument_vector w argv args ->
  Z.of_nat (List.length args) < 2 ^ 30 -> who (shown w) ->
  exists ds text w', args_main literal digits (Z.of_nat (List.length args)) argv w = Ok (0, w') /\ numeral 10 ds (u32 pid) /\ arguments_text "  " args text /\
    printed w w' (line "Hello from the argument demonstration program." ++ codes "args is running as PID " ++ ds ++ line "." ++ text).
Proof.
  intros Hw Hc Hav Hlen Hwho. unfold args_main.
  assert (forall w, constants args_texts w -> constants (pid_texts "args") w /\ constants (argument_texts "  ") w) as Hparts.
  { intros u Hu. split; intros x Hx; apply Hu; right; apply elem_of_app; [by left|by right]. }
  destruct (say_shows args_texts w (line "Hello from the argument demonstration program.")) as (w1 & E1 & P1); [done|done|by left|]. rewrite E1. rsimpl.
  pose proof (constants_keep _ _ _ _ P1 Hc) as Hc1. destruct (Hparts _ Hc1) as [Hc1p _].
  destruct (pid_line_shows "args" w1 (pr_runs _ _ _ P1) Hc1p) as (ds & w2 & E2 & Hn & P2); [rewrite (pr_shown _ _ _ P1); by apply who_shows|]. rewrite E2. rsimpl.
  pose proof (printed_trans _ _ _ _ _ P1 P2) as P12. destruct (Hparts _ (constants_keep _ _ _ _ P12 Hc)) as [_ Hc2].
  destruct (show_arguments_shows "  " argv args w2 (pr_runs _ _ _ P2) Hc2 (argument_vector_keep _ _ _ _ _ P12 Hav) Hlen) as (text & w3 & E3 & Ht & P3).
  rewrite E3. rsimpl. exists ds, text, w3. split; [done|]. split; [done|]. split; [done|].
  pose proof (printed_trans _ _ _ _ _ P12 P3) as P. by rewrite <- !app_assoc in P.
Qed.
End printing.

(** ** On the machine *)

Section machine.
Context {K S Cb : Type} `{!Kmalloc K} `{!HasMemory S} `{!FsDriver S Cb} `{!FileSource S Cb} `{!HasAllocator S K} `{!KmallocLaws K}.
Variable fs_root resume_user_frame : Z.
Variable frame : registers.
Variable cpu : Z * Z * Z.
Implicit Types m : machine K S.

#[local] Instance program_world : UserWorld (machine K S) := machine_world fs_root resume_user_frame frame cpu.
#[local] Instance program_console : ConsoleWorld (machine K S) view := process_console fs_root resume_user_frame frame cpu.

(** C26: a whole program reaches the screen.  args.c, run by a process on the
    machine with its constants and its argument vector in user memory,
    returns 0, and the terminal shows the greeting, the line with the
    process's pid, the number of arguments, and one line with its number
    and its text for each argument, in order - each numeral in decimal
    without leading zeros. *)
Theorem args_reaches_screen (literal : list Z -> Z) m lo digits argv args t :
  console_process m lo (digits + 10) -> lo <= digits -> tasks (proc m) !! current_task (proc m) = Some t ->
  constants literal digits args_texts m -> argument_vector digits m argv args -> Z.of_nat (List.length args) < 2 ^ 30 ->
  exists ds text m', args_main literal digits (Z.of_nat (List.length args)) argv m = Ok (0, m') /\
    console_process m' lo (digits + 10) /\ numeral 10 ds (u32 (id t)) /\ arguments_text "  " args text /\
    terminal_of (screen m') = foldl (fun t c => terminal_put c t) (terminal_of (screen m))
      (line "Hello from the argument demonstration program." ++ codes "args is running as PID " ++ ds ++ line "." ++ text).
Proof.
  intros Hm Hlo Ht Hc Hav Hlen.
  destruct (args_shows literal lo digits (s32 (u32 (id t))) (fun v : view => v.1.2 = Some t) Hlo) with (argv := argv) (args := args) (w := m)
    as (ds & text & m' & E & Hn & Htext & [Hm' Hsh _]); try done.
  - intros v l Hv. etrans; [exact (shown_task fs_root resume_user_frame frame cpu v l)|exact Hv].
  - intros m1 Hm1 Hw. exact (process_getpid fs_root resume_user_frame frame cpu m1 lo (digits + 10) t Hm1 Hw).
  - exists ds, text, m'. rewrite u32_s32, u32_u32 in Hn. split_and!; [done..|].
    transitivity ((shown (T := view) m').1.1); [done|]. rewrite Hsh.
    exact (f_equal (fun v : view => v.1.1) (shown_puts fs_root resume_user_frame frame cpu (view_of m) _)).
Qed.
End machine.

(** *** A concrete run: "args hi" *)

Definition demo_texts : list Z := concat (map (fun s => s ++ [0]) args_texts).
Definition demo_vector : list Z := le32 0xBFFFE240 ++ le32 0xBFFFE245.
Definition demo_strings : list Z := codes "args" ++ [0] ++ codes "hi" ++ [0].
(** Where the linker put the constants: one after the other. *)
Fixpoint place (a : Z) (texts : list (list Z)) (s : list Z) : Z :=
  match texts with
  | [] => 0
  | x :: texts => if decide (x = s) then a else place (a + Z.of_nat (List.length x) + 1) texts s
  end.
Definition demo_literal : list Z -> Z := place 0xBFFFE100 args_texts.

Definition in_page (start : Z) (l : list Z) (o : Z) : option Z := if start <=? o then l !! Z.to_nat (o - start) else None.
Definition args_contents (b o : Z) : Z :=
  if b =? 0x3000 then
    match in_page 0x100 demo_texts o, in_page 0x200 demo_vector o, in_page 0x240 demo_strings o with
    | Some c, _, _ => c
    | _, Some c, _ => c
    | _, _, Some c => c
    | _, _, _ => contents_of (kmm io_kernel) b o
    end
  else contents_of (kmm io_kernel) b o.
Definition args_machine : machine (gset Z) (initrd (gset Z)) := with_proc io_machine (with_contents io_kernel args_contents).
#[local] Instance args_world : UserWorld (machine (gset Z) (initrd (gset Z))) := machine_world 0x90000 0x100800 exec_frame (0, 0, 0).
#[local] Instance args_console : ConsoleWorld (machine (gset Z) (initrd (gset Z))) view := process_console 0x90000 0x100800 exec_frame (0, 0, 0).

Lemma args_process : console_process args_machine 0xBFFFE040 0xBFFFE04A.
Proof.
  split.
  - exists demo_queue, io_shell, (mk_descriptor FD_KIND_CONSOLE 0 0 0). split; [apply contents_process_ok; exact io_ok|]. split; [reflexivity|].
    split; [reflexivity|]. split; reflexivity.
  - exact (mk_screen _ io_sound).
  - exact (io_buffer 0xBFFFE040 10 ltac:(lia) ltac:(lia)).
Qed.

Lemma demo_outside b : 0xBFFFE100 <= b < 0xBFFFF000 -> outside 0xBFFFE040 b.
Proof. intros Hb. split; [|lia]. change (user_address b). unfold user_address. lia. Qed.

Lemma demo_string a s : uholds args_machine a (s ++ [0]) -> forallb (fun c => (0 <? c) && (c <? 256)) s = true ->
  (0xBFFFE100 <=? a) && (a + Z.of_nat (List.length s) <? 0xBFFFF000) = true -> fixed_string 0xBFFFE040 args_machine a s.
Proof.
  intros Hh Hs%chars_check Hr. split; [split; [exact Hh|exact Hs|lia|lia]|]. intros b Hb. apply demo_outside. lia.
Qed.

Lemma demo_constants : constants demo_literal 0xBFFFE040 args_texts args_machine.
Proof.
  assert (Forall (fun s => forallb (fun i => bool_decide (uload8 (demo_literal s + Z.of_nat i) args_machine = Ok (nth i (s ++ [0]) 0)))
      (seq 0 (List.length (s ++ [0]))) && forallb (fun c => (0 <? c) && (c <? 256)) s &&
      ((0xBFFFE100 <=? demo_literal s) && (demo_literal s + Z.of_nat (List.length s) <? 0xBFFFF000)) = true) args_texts) as H.
  { apply Forall_forall. intros s Hs%list_elem_of_In. revert s Hs. apply forallb_forall. vm_compute. reflexivity. }
  intros s Hs. rewrite Forall_forall in H. specialize (H s Hs). rewrite !andb_true_iff in H. destruct H as [[H1 H2] [H3 H4]].
  apply demo_string; [by apply uholds_check|exact H2|by rewrite H3, H4].
Qed.

Lemma demo_arguments : argument_vector 0xBFFFE040 args_machine 0xBFFFE200 [codes "args"; codes "hi"].
Proof.
  split; [simpl; lia|]. intros i s Hi.
  assert (i = 0%nat /\ s = codes "args" \/ i = 1%nat /\ s = codes "hi") as [[-> ->]|[-> ->]].
  { destruct i as [|[|i]]; [left|right|done]; (split; [done|by injection Hi as <-]). }
  - exists 0xBFFFE240. split; [split|apply demo_string; [apply uholds_check|..]; vm_compute; reflexivity].
    + apply uholds_check. vm_compute. reflexivity.
    + intros b Hb. apply demo_outside. lia.
    + unfold is_u32. lia.
  - exists 0xBFFFE245. split; [split|apply demo_string; [apply uholds_check|..]; vm_compute; reflexivity].
    + apply uholds_check. vm_compute. reflexivity.
    + intros b Hb. apply demo_outside. lia.
    + unfold is_u32. lia.
Qed.

Lemma args_reaches_screen_witness : exists ds text m',
  args_main demo_literal 0xBFFFE040 2 0xBFFFE200 args_machine = Ok (0, m') /\ numeral 10 ds 1 /\
  arguments_text "  " [codes "args"; codes "hi"] text.
Proof.
  destruct (args_reaches_screen 0x90000 0x100800 exec_frame (0, 0, 0) demo_literal args_machine 0xBFFFE040 0xBFFFE040 0xBFFFE200
    [codes "args"; codes "hi"] io_shell args_process ltac:(lia) eq_refl demo_constants demo_arguments ltac:(simpl; lia))
    as (ds & text & m' & Hr & _ & Hn & Ht & _).
  exists ds, text, m'. split; [exact Hr|]. split; [exact Hn|exact Ht].
Defined.
