(* ===== verification/NewlibSpec.v ===== *)
(** * The hosted C library on the machine

    Newlib's hooks make the same calls as the small library and turn the
    kernel's negative results into -1 and [errno]. *)

From S2P Require Import Prelude LinkedList Memory Kmalloc Frames Paging PagingProofs Vfs Initrd Task AddressSpace Scheduler UserSpace UserMemory UserFile Keyboard Monitor Signal Process ProcessInv Reap Delivery Exec Syscall Interrupt MachineInv SyscallIO Demo ExecTheorems SyscallTheorems LibC LibCSpec Ring3 Newlib.

Section translation.
Context `{!NewlibHeaders} {W : Type} `{!UserWorld W}.

(** A result of the small library with [errno] as Newlib wants it. *)
Definition translated (e : Z) (r : res (Z * W)) : res (Z * hosted W) :=
  '(v, w) ← r; Ok (if v <? 0 then (-1, mk_hosted (- v) w) else (v, mk_hosted e w)).

Lemma newlib_result_int args e w : newlib_result (os_call args (mk_hosted e w)) = translated e (int_call args w).
Proof.
  unfold os_call, int_call, newlib_result, translated. simpl world. destruct (int80 args w) as [[v w']|m|]; rsimpl; [|done..]. simpl.
  by destruct (s32 v <? 0).
Qed.

(** Newlib's hooks make the calls of the small library.  Each hook is
    the wrapper of libc with a negative result turned into -1 and [errno];
    [_open] calls the kernel for read-only access and otherwise refuses
    with EROFS without a call, [_waitpid] refuses options. *)
Theorem newlib_wraps_libc a b c e (w : W) :
  let s := mk_hosted e w in
  _write a b c s = translated e (LibC.write a b c w) /\ _read a b c s = translated e (LibC.read a b c w) /\
  _close a s = translated e (LibC.close a w) /\ _lseek a b c s = translated e (LibC.lseek a b c w) /\
  _kill a b s = translated e (LibC.kill a b w) /\ _fork s = translated e (LibC.fork w) /\
  _execve a b c s = translated e (LibC.execve a b c w) /\
  _waitpid a b c s = (if c =? 0 then translated e (LibC.waitpid a b w) else Ok (-1, mk_hosted EINVAL w)) /\
  _open a b s = (if (Z.land b O_ACCMODE =? O_RDONLY) && (Z.land b O_CREAT =? 0) then translated e (LibC.open a 0 w)
                 else Ok (-1, mk_hosted EROFS w)) /\
  (forall r s', _isatty a s = Ok (r, s') -> r <> 0 -> translated e (LibC.isatty a w) = Ok (r, s')) /\
  (forall r s', _sbrk b s = Ok (r, s') -> exists v, LibC.sbrk b w = Ok (v, world s') /\ r = u32 (s32 v) /\ (r <> u32 (-1) -> errno s' = e)).
Proof.
  intros s. split_and!; try apply newlib_result_int.
  - unfold _waitpid. destruct (c =? 0); [|done]. apply newlib_result_int.
  - unfold _open. rewrite <- negb_andb. destruct (_ && _); [|done]. apply newlib_result_int.
  - intros r s' Hi Hr. unfold _isatty, os_call1, os_call in Hi. simpl in Hi. unfold LibC.isatty, int_call, translated.
    change (int80 [OS_SYS_ISATTY; u32 a] w) with (int80 [USER_SYS_ISATTY; u32 a] w) in Hi.
    destruct (int80 _ w) as [[v w']|m|]; revert Hi; rsimpl; [|done..]. simpl. destruct (s32 v <? 0); [by intros [= <- <-]|].
    destruct (Z.eqb_spec (s32 v) 0); [by intros [= <- <-]|]. by intros [= <- <-].
  - intros r s' Hi. unfold _sbrk, os_call1, os_call in Hi. simpl in Hi. unfold LibC.sbrk.
    change (int80 [OS_SYS_SBRK; u32 b] w) with (int80 [USER_SYS_SBRK; u32 b] w) in Hi.
    destruct (int80 _ w) as [[v w']|m|]; revert Hi; rsimpl; [|done..]. simpl.
    destruct (Z.eqb_spec (s32 v) (-1)) as [E|]; intros [= <- <-]; exists v; (split; [done|]); [by rewrite E|done].
Qed.

(** The clock of the hosted library.  [_gettimeofday] splits the
    50 Hz tick counter into whole seconds and microseconds below one
    million without losing a tick, and [_times] reports the counter. *)
Theorem newlib_clock (w w' : W) t e : int80 [OS_SYS_TICKS] w = Ok (t, w') -> is_u32 t ->
  _times true (mk_hosted e w) = Ok (t, Some (mk_tms t 0 0 0), mk_hosted e w') /\
  exists sec usec, _gettimeofday true (mk_hosted e w) = Ok (0, Some (mk_timeval sec usec), mk_hosted e w') /\
    0 <= usec < 1000000 /\ sec * 1000000 + usec = t * 20000.
Proof.
  intros Hc Ht. unfold _times, _gettimeofday, os_call0, os_call. simpl. rewrite Hc. rsimpl. rewrite u32_s32, u32_small by done.
  split; [done|]. exists (t / 50), (t mod 50 * 20000). split; [done|]. pose proof (Z.div_mod t 50). pose proof (Z.mod_pos_bound t 50). lia.
Qed.
End translation.

Section errors.
Context `{!NewlibHeaders} {K S Cb : Type} `{!Kmalloc K} `{!KmallocLaws K} `{!HasMemory S} `{!FsDriver S Cb} `{!FileSource S Cb} `{!HasAllocator S K}.
Variable fs_root resume_user_frame : Z.
Variable frame : registers.
Variable cpu : Z * Z * Z.
Implicit Types m : machine K S.

#[local] Instance hosted_world : UserWorld (machine K S) := machine_world fs_root resume_user_frame frame cpu.

(** A call of the running process that changes nothing returns at once. *)
Lemma unchanged_return m q t args v : process_ok (proc m) q -> tasks (proc m) !! current_task (proc m) = Some t -> lowest_pending t = 0 ->
  deliver (set_eax (u32 v) (arguments args frame)) cpu m = Ok (Resumed (set_eax (u32 v) (arguments args frame)) m).
Proof.
  intros Hk Ht Hp. unfold deliver. rewrite (deliver_nothing (proc m) q t _ cpu Hk Ht) by by right. rsimpl. by destruct m.
Qed.

Lemma refused_call m q t n l f v : process_ok (proc m) q -> tasks (proc m) !! current_task (proc m) = Some t -> lowest_pending t = 0 ->
  services fs_root n = Some f -> n ∉ [12; 19; 20; 21; 25] -> n < SYSCALL_COUNT -> - 2 ^ 31 <= v < 2 ^ 31 ->
  (let r := arguments (n :: l) frame in f (r_ebx r) (r_ecx r) (r_edx r) (r_esi frame) (r_edi frame) m = Ok (v, m)) ->
  int_call (n :: l) m = Ok (v, m).
Proof.
  intros Hk Ht Hp Hf Hn Hlt Hv Hrun. cbv zeta in Hrun.
  pose proof (call_runs fs_root resume_user_frame frame cpu n l f m Hf Hn Hlt) as E. cbv zeta in E. change (machine_world fs_root resume_user_frame frame cpu) with hosted_world in E.
  rewrite E. unfold int_service. rewrite Hrun. rsimpl. rewrite (unchanged_return m q t) by done. rsimpl.
  unfold returned. simpl r_eip. simpl r_useresp. rewrite !Z.eqb_refl. simpl. by rewrite s32_u32_small.
Qed.

(** A kernel error of the call becomes [errno]. *)
Lemma hook_error m args e n : int_call args m = Ok (- n, m) -> 0 < n ->
  newlib_result (os_call args (mk_hosted e m)) = Ok (-1, mk_hosted n m).
Proof.
  intros E Hn. rewrite newlib_result_int, E. unfold translated. rsimpl. rewrite (proj2 (Z.ltb_lt (- n) 0)) by lia.
  by rewrite Z.opp_involutive.
Qed.

(** C31: a hosted program sees the kernel's errors in [errno].  On the
    machine, reading, writing, seeking, closing and asking about a
    descriptor that is not open gives -1 with [errno] EBADF; opening a
    path that names nothing gives ENOENT and opening anything for writing
    EROFS; each leaves the machine as it was. *)
Theorem newlib_reports_errors m q t fd a b c e : process_ok (proc m) q -> tasks (proc m) !! current_task (proc m) = Some t ->
  lowest_pending t = 0 -> not_open t (u32 fd) -> u32 a <> 0 -> u32 b <> 0 ->
  let s := mk_hosted e m in let bad := Ok (-1, mk_hosted ERRNO_EBADF m) in
  _read fd a b s = bad /\ _write fd a b s = bad /\ _lseek fd b c s = bad /\ _close fd s = bad /\ _isatty fd s = bad /\
  _fstat a fd s = Ok (-1, None, mk_hosted ERRNO_EBADF m) /\
  (forall flags, Z.land flags O_ACCMODE = O_RDONLY -> Z.land flags O_CREAT = 0 -> fs_root <> 0 ->
     resolve_user_path fs_root (u32 a) (proc m) = Ok 0 -> _open a flags s = Ok (-1, mk_hosted ERRNO_ENOENT m)) /\
  (forall flags, Z.land flags O_ACCMODE <> O_RDONLY -> _open a flags s = Ok (-1, mk_hosted EROFS m)).
Proof.
  intros Hk Ht Hp Hno Ha Hb s bad.
  destruct (bad_descriptor_spec m q t (u32 fd) Hk Ht Hno) as (Er & Ew & Ef & El & Ei & Ec).
  assert (forall n l f v, services fs_root n = Some f -> n ∉ [12; 19; 20; 21; 25] -> n < SYSCALL_COUNT -> 0 < v < 2 ^ 31 ->
    (let r := arguments (n :: l) frame in f (r_ebx r) (r_ecx r) (r_edx r) (r_esi frame) (r_edi frame) m = Ok (- v, m)) ->
    newlib_result (os_call (n :: l) s) = Ok (-1, mk_hosted v m)) as Hcall.
  { intros n l f v Hf Hn Hlt Hv Hrun. apply hook_error; [|lia]. eapply refused_call; [exact Hk|exact Ht|exact Hp|exact Hf|exact Hn|exact Hlt|lia|exact Hrun]. }
  assert (newlib_result (os_call [27; u32 fd; u32 a] s) = bad) as Hfs.
  { apply (Hcall 27 _ service_fstat); [done|set_solver by lia|done|unfold ERRNO_EBADF; lia|]. by apply Ef. }
  split_and!.
  - apply hook_error; [|unfold ERRNO_EBADF; lia].
    pose proof (int_call_unfold fs_root resume_user_frame frame cpu [12; u32 fd; u32 a; u32 b] m) as E.
    change (machine_world fs_root resume_user_frame frame cpu) with hosted_world in E.
    etransitivity; [exact E|]. change (syscall_handler _ _ _ cpu m) with (o ← service_fd_read (u32 fd) (u32 a) (u32 b) cpu m; finish_read (arguments [12; u32 fd; u32 a; u32 b] frame) cpu o).
    rewrite Er by done. rsimpl. unfold finish_read. rewrite (unchanged_return m q t) by done. rsimpl.
    unfold returned. simpl r_eip. simpl r_useresp. rewrite !Z.eqb_refl. done.
  - apply (Hcall 14 [u32 fd; u32 a; u32 b] service_fd_write); [done|set_solver by lia|done|unfold ERRNO_EBADF; lia|]. by apply Ew.
  - apply (Hcall 26 [u32 fd; u32 b; u32 c] service_lseek); [done|set_solver by lia|done|unfold ERRNO_EBADF; lia|]. apply El.
  - apply (Hcall 13 [u32 fd] service_close); [done|set_solver by lia|done|unfold ERRNO_EBADF; lia|]. apply Ec.
  - pose proof (Hcall 29 [u32 fd] service_isatty ERRNO_EBADF eq_refl ltac:(set_solver by lia) eq_refl ltac:(unfold ERRNO_EBADF; lia) (Ei _ _ _ _)) as E.
    revert E. unfold _isatty, os_call1, newlib_result. change OS_SYS_ISATTY with 29. generalize (os_call [29; u32 fd] s).
    intros [[v s']|msg|]; rsimpl; [|done..]. destruct (Z.ltb_spec v 0); [done|]. intros [= -> _]. lia.
  - change (with_status a (newlib_result (os_call [27; u32 fd; u32 a] s)) = Ok (-1, None, mk_hosted ERRNO_EBADF m)). by rewrite Hfs.
  - intros flags H1 H2 Hroot Hres. unfold _open. rewrite H1, H2, !Z.eqb_refl. cbn [negb orb].
    apply (Hcall 11 [u32 a; u32 OS_OPEN_READ_ONLY] (service_open fs_root)); [done|set_solver by lia|done|unfold ERRNO_ENOENT; lia|].
    change (service_open fs_root (u32 a) 0 (r_edx frame) (r_esi frame) (r_edi frame) m = Ok (- ERRNO_ENOENT, m)).
    unfold service_open. rewrite (proj2 (Z.eqb_neq (u32 a) 0)), (proj2 (Z.eqb_neq fs_root 0)) by done. cbn [orb].
    rewrite Hres. rsimpl. done.
  - intros flags H1. unfold _open. by rewrite (proj2 (Z.eqb_neq _ _)) by done.
Qed.
End errors.

(** ** Newlib's numbers, and concrete worlds *)

#[local] Instance newlib_numbers : NewlibHeaders :=
  {| EROFS := 30; ENOTTY := 25; ENOMEM := 12; EINVAL := 22; EFAULT := 14; O_ACCMODE := 3; O_RDONLY := 0; O_CREAT := 0x200;
     S_IFREG := 0x8000; S_IFDIR := 0x4000; S_IFCHR := 0x2000 |}.

(** A kernel that answers every call with the same word. *)
Definition answering : Type := Z.
#[local] Instance answering_world : UserWorld answering := {|
  int80 _ w := Ok (u32 w, w); uload8 _ _ := Ok 0; ustore8 _ _ w := Ok w
|}.

Lemma newlib_wraps_libc_witness :
  _close 7 (mk_hosted 5 (-9 : answering)) = translated 5 (LibC.close 7 (-9 : answering)) /\
  _close 7 (mk_hosted 5 (-9 : answering)) = Ok (-1, mk_hosted 9 (-9 : answering)).
Proof. split; [apply (newlib_wraps_libc 7 0 0 5 (-9 : answering))|reflexivity]. Defined.

Lemma newlib_clock_witness : exists sec usec,
  _gettimeofday true (mk_hosted 5 (123 : answering)) = Ok (0, Some (mk_timeval sec usec), mk_hosted 5 (123 : answering)) /\
  0 <= usec < 1000000 /\ sec * 1000000 + usec = 123 * 20000.
Proof.
  refine (proj2 (newlib_clock (123 : answering) (123 : answering) 123 5 _ _)); [reflexivity|unfold is_u32; lia].
Defined.

#[local] Instance io_world : UserWorld (machine (gset Z) (initrd (gset Z))) := machine_world 0x90000 0x100800 exec_frame (0, 0, 0).

Lemma newlib_reports_errors_witness : _close 9 (mk_hosted 0 io_machine) = Ok (-1, mk_hosted ERRNO_EBADF io_machine) /\
  _open 1 1 (mk_hosted 0 io_machine) = Ok (-1, mk_hosted 30 io_machine).
Proof.
  assert (not_open io_shell (u32 9)) as Hno by (right; exists free_descriptor; split; reflexivity).
  destruct (newlib_reports_errors 0x90000 0x100800 exec_frame (0, 0, 0) io_machine demo_queue io_shell 9 1 1 0 0 io_ok eq_refl eq_refl Hno)
    as (_ & _ & _ & Hc & _ & _ & _ & Ho).
  - discriminate.
  - discriminate.
  - split; [exact Hc|]. apply (Ho 1). discriminate.
Defined.
