(* ===== verification/Shell.v ===== *)
(** * user/programs/shell.c: the command interpreter

    The shell runs over any world of [LibC].  [literal] is the address the
    linker gave a string constant; the other parameters are the addresses
    of the local arrays and of the variables whose address is taken.
    [split_words] works in place, as in C: it ends the words of its text
    with zeros and stores pointers to them. *)

From S2P Require Import Prelude LibC.

Definition SHELL_LINE_SIZE : Z := 128.
Definition SHELL_FILE_BUFFER_SIZE : Z := 256.
Definition OPEN_READ_ONLY : Z := 0.
Definition NEWLINE : Z := 10.
Definition BACKSPACE : Z := 8.
Definition SPACE : Z := 32.

Section shell.
Context {W : Type} `{!UserWorld W}.
Variable literal : string -> Z.
Variables line_address path_address name_address buffer_address argv_address status_address character_address : Z.
Implicit Types w : W.

(** ** Output *)

Definition shell_write_bytes (buffer count : Z) w : res (Z * W) := LibC.write 1 buffer count w.
Definition shell_write (text : Z) w : res (Z * W) := n ← strlen text w; shell_write_bytes text (u32 n) w.

(** The parameter lives in memory, because its address is passed on. *)
Definition shell_putchar (character : Z) w : res (Z * W) :=
  w ← ustore8 character_address (u8 character) w; shell_write_bytes character_address 1 w.

Definition print_line (text : Z) w : res W :=
  '(_, w) ← shell_write text w; '(_, w) ← shell_putchar NEWLINE w; Ok w.
Definition print_literal (s : string) w : res W := print_line (literal s) w.
Definition write_literal (s : string) w : res W := '(_, w) ← shell_write (literal s) w; Ok w.

Definition print_prompt w : res W :=
  '(r, w) ← getcwd path_address 128 w;
  if r <? 0 then write_literal "?> " w
  else '(_, w) ← shell_write path_address w; write_literal "> " w.

Definition arguments_after (line command : Z) w : res Z :=
  i ← strlen command w;
  c ← uload8 (u32 (line + i)) w;
  Ok (if c =? SPACE then u32 (line + (i + 1)) else literal "").

Definition help_lines : list string :=
  ["Commands:";
   "  help          show this command list";
   "  clear         clear the VGA text screen";
   "  echo TEXT     print TEXT";
   "  ls            list the current directory";
   "  cd PATH       change this task's working directory";
   "  pwd           print the current working directory";
   "  mkdir PATH    create a volatile directory (lost on reboot)";
   "  cat FILE      print an initrd file using open/read/close";
   "  pid           show the current task ID";
   "  uptime        show timer ticks and approximate seconds";
   "  mem           show RAM tracked by the frame allocator";
   "  heaptest      grow this process's user heap across two pages";
   "  exec PATH ... replace this shell with a static ELF32 program";
   "  run PATH ...  fork, execute, wait, then return to this shell";
   "  kill PID SIG  send a signal number to another process";
   "  status        summarize this shell's current limitations";
   "  about         identify the operating-system project"].

Fixpoint print_lines (ls : list string) w : res W :=
  match ls with
  | [] => Ok w
  | s :: ls => w ← print_literal s w; print_lines ls w
  end.
Definition command_help w : res W := print_lines help_lines w.

(** ** Commands *)

Definition command_heaptest w : res W :=
  '(memory, w) ← sbrk 5000 w;
  if memory =? 0xFFFFFFFF then print_literal "heaptest: sbrk failed" w
  else
    w ← ustore8 memory 0x5A w;
    w ← ustore8 (u32 (memory + 4999)) 0xA5 w;
    first ← uload8 memory w;
    last ← uload8 (u32 (memory + 4999)) w;
    if negb (first =? 0x5A) || negb (last =? 0xA5) then print_literal "heaptest: mapped memory did not retain writes" w
    else
      w ← write_literal "heaptest: 5000 writable bytes at " w;
      '(_, w) ← write_hex memory w;
      w ← write_literal "; new break " w;
      '(break, w) ← sbrk 0 w;
      '(_, w) ← write_hex break w;
      '(_, w) ← shell_putchar NEWLINE w;
      Ok w.

(** The cursor after the characters that satisfy [p]. *)
Definition skip (p : Z -> bool) (cursor : Z) w : res Z :=
  while (fun cursor => c ← uload8 cursor w; if p c then Ok (Continue (u32 (cursor + 1))) else Ok (Break cursor)) cursor.

(** The body of the loop of [split_words]; it breaks with the number of
    words, or with none when there are too many. *)
Definition split_step (argv maximum_arguments : Z) (st : Z * Z * W) : res (ctl (Z * Z * W) (option Z * W)) :=
  let '(argc, cursor, w) := st in
  cursor ← skip (fun c => c =? SPACE) cursor w;
  c ← uload8 cursor w;
  if c =? 0 then Ok (Break (Some argc, w))
  else if argc =? maximum_arguments then Ok (Break (None, w))
  else
    w ← ustore32 (u32 (argv + 4 * argc)) cursor w;
    cursor ← skip (fun c => negb (c =? 0) && negb (c =? SPACE)) cursor w;
    c ← uload8 cursor w;
    if c =? 0 then Ok (Continue (argc + 1, cursor, w))
    else w ← ustore8 cursor 0 w; Ok (Continue (argc + 1, u32 (cursor + 1), w)).

Definition split_words (text argv maximum_arguments : Z) w : res (Z * W) :=
  '(argc, w) ← while (split_step argv maximum_arguments) (0, text, w);
  match argc with
  | None => Ok (-1, w)
  | Some argc => w ← ustore32 (u32 (argv + 4 * argc)) 0 w; Ok (s32 argc, w)
  end.

Definition command_exec (arguments : Z) w : res W :=
  '(argc, w) ← split_words arguments argv_address 8 w;
  if argc =? 0 then print_literal "usage: exec PATH [ARG ...]" w
  else if argc <? 0 then print_literal "exec: at most 8 arguments are currently supported" w
  else
    path ← uload32 argv_address w;
    '(r, w) ← execve path argv_address 0 w;
    if r <? 0 then print_literal "exec: file missing, invalid, or unsupported ELF32" w else Ok w.

(** [while ((waited = waitpid(child, &status)) == 0) pause]. *)
Definition wait_for (child_pid : Z) w : res (Z * W) :=
  while (fun w => '(waited, w) ← waitpid child_pid status_address w;
                  if waited =? 0 then Ok (Continue w) else Ok (Break (waited, w))) w.

Definition command_run (arguments : Z) w : res W :=
  '(argc, w) ← split_words arguments argv_address 8 w;
  if argc =? 0 then print_literal "usage: run PATH [ARG ...]" w
  else if argc <? 0 then print_literal "run: at most 8 arguments are currently supported" w
  else
    '(child_pid, w) ← fork w;
    if child_pid <? 0 then print_literal "run: fork failed" w
    else
      w ← (if child_pid =? 0 then
             path ← uload32 argv_address w;
             '(r, w) ← execve path argv_address 0 w;
             if r <? 0 then
               w ← print_literal "run: child could not load executable" w;
               '(_, w) ← _exit 127 w; Ok w
             else Ok w
           else Ok w);
      w ← write_literal "run: started child PID " w;
      '(_, w) ← write_dec (u32 child_pid) w;
      '(_, w) ← shell_putchar NEWLINE w;
      w ← ustore32 status_address 0 w;
      '(waited, w) ← wait_for child_pid w;
      if waited <? 0 then print_literal "run: waitpid failed" w
      else
        w ← write_literal "run: child exited with status " w;
        status ← uload32 status_address w;
        '(_, w) ← write_dec status w;
        '(_, w) ← shell_putchar NEWLINE w;
        Ok w.

Definition command_kill (arguments : Z) w : res W :=
  '(argc, w) ← split_words arguments argv_address 2 w;
  if negb (argc =? 2) then print_literal "usage: kill PID SIGNAL" w
  else
    p ← uload32 argv_address w; process_id ← atoi p w;
    n ← uload32 (u32 (argv_address + 4)) w; signal_number ← atoi n w;
    '(failed, w) ← (if (process_id <=? 0) || (signal_number <? 0) then Ok (true, w)
                    else '(r, w) ← kill process_id signal_number w; Ok (r <? 0, w));
    if failed : bool then print_literal "kill: invalid PID/signal or process does not exist" w
    else print_literal (if signal_number =? 0 then "kill: process exists" else "kill: signal queued") w.

Definition command_ls w : res W :=
  '(result, w) ← while (fun '(index, w) =>
      '(result, w) ← readdir_name index name_address 128 w;
      if 0 <? result then
        '(_, w) ← shell_write name_address w;
        '(_, w) ← shell_putchar NEWLINE w;
        Ok (Continue (u32 (index + 1), w))
      else Ok (Break (result, w))) (0, w);
  if result <? 0 then print_literal "ls: filesystem unavailable" w else Ok w.

Definition command_cat (name : Z) w : res W :=
  c ← uload8 name w;
  if c =? 0 then print_literal "usage: cat FILE" w
  else
    '(fd, w) ← LibC.open name OPEN_READ_ONLY w;
    if fd <? 0 then print_literal "cat: file not found or not a regular file" w
    else
      '(bytes, final_character, w) ← while (fun '(final_character, w) =>
          '(bytes, w) ← LibC.read fd buffer_address (SHELL_FILE_BUFFER_SIZE - 1) w;
          if 0 <? bytes then
            final_character ← uload8 (u32 (buffer_address + (bytes - 1))) w;
            '(_, w) ← shell_write_bytes buffer_address (u32 bytes) w;
            Ok (Continue (final_character, w))
          else Ok (Break (bytes, final_character, w))) (0, w);
      '(_, w) ← LibC.close fd w;
      if bytes <? 0 then print_literal "cat: read failed" w
      else if negb (final_character =? NEWLINE) then '(_, w) ← shell_putchar NEWLINE w; Ok w
      else Ok w.

(** ** The dispatcher *)

Definition command_pwd w : res W :=
  '(r, w) ← getcwd path_address 128 w;
  if r <? 0 then print_literal "pwd: unavailable" w else print_line path_address w.

Definition command_cd (line : Z) w : res W :=
  path ← arguments_after line (literal "cd") w;
  '(r, w) ← chdir path w;
  if r <? 0 then print_literal "cd: directory not found" w else Ok w.

Definition command_mkdir (line : Z) w : res W :=
  path ← arguments_after line (literal "mkdir") w;
  '(r, w) ← mkdir path w;
  if r <? 0 then print_literal "mkdir: parent missing, name exists, or path is invalid" w else Ok w.

Definition command_pid w : res W :=
  w ← write_literal "PID: " w; '(pid, w) ← getpid w; '(_, w) ← write_dec (u32 pid) w;
  '(_, w) ← shell_putchar NEWLINE w; Ok w.

Definition command_uptime w : res W :=
  '(ticks, w) ← system_ticks w;
  w ← write_literal "Ticks: " w; '(_, w) ← write_dec ticks w;
  w ← write_literal " (~" w; '(_, w) ← write_dec (ticks / 50) w;
  w ← write_literal (String.append " seconds)" (String (Ascii.ascii_of_nat 10) EmptyString)) w; Ok w.

Definition command_mem w : res W :=
  w ← write_literal "Tracked contiguous RAM: " w;
  '(kib, w) ← system_memory_kib w; '(_, w) ← write_dec kib w;
  w ← write_literal (String.append " KiB" (String (Ascii.ascii_of_nat 10) EmptyString)) w; Ok w.

Definition status_lines : list string :=
  ["ring 3: yes; syscalls: yes; initrd: read-only";
   "external executables: yes; this shell is /bin/shell ELF32";
   "scheduler: PID 0 kernel idle, PID 1 user mother, PID 2 shell";
   "user heap: page-backed sbrk; malloc not added yet";
   "signals: catch/ignore/default, kill, SIGCHLD, sigreturn"].

(** The chain of tests of [execute_command]: a whole line, or a prefix. *)
Inductive test : Type := Is (s : string) | Starts (s : string) (n : Z).
Definition passes (line : Z) (t : test) w : res bool :=
  match t with
  | Is s => r ← strcmp line (literal s) w; Ok (r =? 0)
  | Starts s n => r ← strncmp line (literal s) n w; Ok (r =? 0)
  end.
Fixpoint dispatch (line : Z) (cases : list (test * (W -> res W))) (otherwise : W -> res W) w : res W :=
  match cases with
  | [] => otherwise w
  | (t, command) :: cases => b ← passes line t w; if b : bool then command w else dispatch line cases otherwise w
  end.

Definition commands (line : Z) : list (test * (W -> res W)) :=
  [(Is "help", command_help);
   (Is "clear", fun w => '(_, w) ← clear_screen w; Ok w);
   (Is "ls", command_ls);
   (Is "pwd", command_pwd);
   (Is "cd", print_literal "usage: cd PATH"); (Is "cd ", print_literal "usage: cd PATH");
   (Starts "cd " 3, command_cd line);
   (Is "mkdir", print_literal "usage: mkdir PATH"); (Is "mkdir ", print_literal "usage: mkdir PATH");
   (Starts "mkdir " 6, command_mkdir line);
   (Is "pid", command_pid);
   (Is "uptime", command_uptime);
   (Is "mem", command_mem);
   (Is "heaptest", command_heaptest);
   (Is "exec", print_literal "usage: exec PATH [ARG ...]"); (Is "exec ", print_literal "usage: exec PATH [ARG ...]");
   (Starts "exec " 5, command_exec (u32 (line + 5)));
   (Is "run", print_literal "usage: run PATH [ARG ...]"); (Is "run ", print_literal "usage: run PATH [ARG ...]");
   (Starts "run " 4, command_run (u32 (line + 4)));
   (Is "kill", print_literal "usage: kill PID SIGNAL"); (Is "kill ", print_literal "usage: kill PID SIGNAL");
   (Starts "kill " 5, command_kill (u32 (line + 5)));
   (Is "status", print_lines status_lines);
   (Is "about", print_literal "Soumish's experimental 32-bit x86 OS");
   (Is "echo", fun w => '(_, w) ← shell_putchar NEWLINE w; Ok w); (Is "echo ", fun w => '(_, w) ← shell_putchar NEWLINE w; Ok w);
   (Starts "echo " 5, fun w => text ← arguments_after line (literal "echo") w; print_line text w);
   (Starts "cat " 4, fun w => name ← arguments_after line (literal "cat") w; command_cat name w)].

Definition execute_command (line : Z) w : res W :=
  c ← uload8 line w;
  if c =? 0 then Ok w
  else dispatch line (commands line) (fun w => w ← write_literal "unknown command: " w; print_line line w) w.

(** ** The main loop *)

(** One turn: poll the keyboard and act on the character.  The state is the
    length of the line so far; the line itself is in memory. *)
Definition main_step (length : Z) w : res (Z * W) :=
  '(value, w) ← getchar_nonblocking w;
  if value <? 0 then Ok (length, w)
  else
    let character := s8 value in
    if character =? NEWLINE then
      '(_, w) ← shell_putchar NEWLINE w;
      w ← ustore8 (u32 (line_address + length)) 0 w;
      w ← execute_command line_address w;
      w ← print_prompt w;
      Ok (0, w)
    else if character =? BACKSPACE then
      if 0 <? length then
        '(_, w) ← shell_putchar BACKSPACE w; '(_, w) ← shell_putchar SPACE w; '(_, w) ← shell_putchar BACKSPACE w;
        Ok (length - 1, w)
      else Ok (length, w)
    else if (SPACE <=? character) && (length + 1 <? SHELL_LINE_SIZE) then
      w ← ustore8 (u32 (line_address + length)) (u8 character) w;
      '(_, w) ← shell_putchar character w;
      Ok (length + 1, w)
    else Ok (length, w).

Definition main w : res W :=
  w ← print_literal "Welcome to user mode. Type 'help'." w;
  w ← print_prompt w;
  while (fun '(length, w) => '(length, w) ← main_step length w; Ok (Continue (length, w))) (0, w).
End shell.
