(* ===== verification/ShellSpec.v ===== *)
(** * What the shell does with a line

    [words] is the specification; [split_words] of the shell finds the
    same words in place: it ends each with a zero and leaves a pointer to
    it in the array of arguments.  Then the shell on the machine: editing a
    line from the keyboard buffer, and dispatching it. *)

From S2P Require Import Prelude LinkedList Memory Kmalloc Keyboard Monitor Frames Paging PagingProofs AddressSpace Vfs Initrd Task Scheduler UserSpace UserMemory Signal Process ProcessInv Reap Delivery Demo UserFile Exec ExecTheorems Syscall Interrupt LibC LibCSpec MachineInv SyscallIO SyscallTheorems Ring3 Shell.

(** The words of a line: the non-empty pieces between spaces. *)
Fixpoint pieces (s : list Z) : list (list Z) :=
  match s with
  | [] => [[]]
  | c :: s =>
      if c =? 32 then [] :: pieces s
      else match pieces s with p :: ps => (c :: p) :: ps | [] => [[c]] end
  end.
Definition words (s : list Z) : list (list Z) := filter (fun p => p <> []) (pieces s).

Lemma pieces_cons s : exists p ps, pieces s = p :: ps.
Proof. induction s as [|c s (p & ps & E)]; simpl; [eauto|]. rewrite E. destruct (c =? 32); eauto. Qed.

Lemma words_nil : words [] = [].
Proof. done. Qed.
Lemma words_space s : words (32 :: s) = words s.
Proof. unfold words. simpl. by rewrite filter_cons_False by auto. Qed.
Lemma words_spaces k s : words (replicate k 32 ++ s) = words s.
Proof. induction k as [|k IH]; [done|]. simpl. by rewrite words_space. Qed.

Lemma pieces_word x s : Forall (fun c => c <> 32) x -> pieces (x ++ 32 :: s) = x :: pieces s.
Proof.
  induction x as [|c x IH]; [done|]. intros [Hc Hx]%Forall_cons. simpl. rewrite IH by done. by rewrite (proj2 (Z.eqb_neq c 32)).
Qed.
Lemma words_word x s : x <> [] -> Forall (fun c => c <> 32) x -> words (x ++ 32 :: s) = x :: words s.
Proof. intros Hne Hx. unfold words. by rewrite pieces_word, filter_cons_True by done. Qed.
Lemma words_last x : x <> [] -> Forall (fun c => c <> 32) x -> words x = [x].
Proof.
  intros Hne Hx. assert (pieces x = [x]) as E.
  { clear Hne. induction x as [|c x IH]; [done|]. apply Forall_cons in Hx as [Hc Hx]. simpl. rewrite IH by done. by rewrite (proj2 (Z.eqb_neq c 32)). }
  unfold words. by rewrite E, filter_cons_True by done.
Qed.

(** Where a run of characters with [p] ends. *)
Lemma span (p : Z -> bool) s : exists pre post, s = pre ++ post /\ Forall (fun c => p c = true) pre /\
  match post with [] => True | c :: _ => p c = false end.
Proof.
  induction s as [|c s (pre & post & -> & H1 & H2)]; [by exists [], []|]. destruct (p c) eqn:E.
  - exists (c :: pre), post. split_and!; [done|by constructor|done].
  - exists [], (c :: pre ++ post). split_and!; [done|constructor|done].
Qed.

Section strings.
Context {W : Type} `{!UserWorld W}.
Implicit Types w : W.

Lemma ustring_drop w a x y : ustring w a (x ++ y) -> ustring w (a + Z.of_nat (List.length x)) y.
Proof.
  intros [Hb Hc Hr Hl]. rewrite length_app in *. rewrite <- app_assoc in Hb. apply uholds_app in Hb as [_ Hb]. apply Forall_app in Hc as [_ Hc].
  split; [done|done|lia|lia].
Qed.

(** The first character. *)
Lemma ustring_head w a s : ustring w a s -> exists c, uload8 a w = Ok c /\ (c = 0 <-> s = []) /\ head (s ++ [0]) = Some c.
Proof.
  intros Hs. destruct (ustring_at w a s 0 Hs) as (c & Hc & Hl & Hz); [lia|]. pose proof (us_range _ _ _ Hs).
  rewrite Z.add_0_r, u32_small in Hc by lia. exists c. split_and!; [done| |by destruct s].
  rewrite Hz. destruct s; simpl; split; congruence.
Qed.

(** [skip] finds the end of the run. *)
Lemma skip_spec w p a pre post : ustring w a (pre ++ post) -> Forall (fun c => p c = true) pre ->
  match post with [] => p 0 = false | c :: _ => p c = false end -> skip p a w = Ok (a + Z.of_nat (List.length pre)).
Proof.
  intros Hs Hpre Hpost. pose proof (us_range _ _ _ Hs) as Hr. pose proof (us_length _ _ _ Hs) as Hl. rewrite length_app in Hr, Hl. unfold skip.
  match goal with |- while ?f _ = _ => destruct (while_rule f
    (fun c => exists i, (i <= List.length pre)%nat /\ c = a + Z.of_nat i) (fun r => r = a + Z.of_nat (List.length pre))
    (fun c => a + Z.of_nat (List.length pre) - c) a) as (r & -> & ->) end; [| | |done].
  - intros c (i & Hi & ->). destruct (ustring_at w a (pre ++ post) i Hs) as (x & Hx & Hlx & _); [rewrite length_app; lia|].
    rewrite u32_small in Hx by lia. rewrite Hx. rsimpl. destruct (decide (i = List.length pre)) as [->|Hne].
    + assert (p x = false) as ->; [|done]. rewrite <- app_assoc, lookup_app_r, Nat.sub_diag in Hlx by lia.
      destruct post; injection Hlx as <-; exact Hpost.
    + rewrite <- app_assoc, lookup_app_l in Hlx by lia. rewrite (proj1 (Forall_lookup _ _) Hpre _ _ Hlx).
      rewrite u32_small by lia. split; [|lia]. exists (S i). lia.
  - exists 0%nat. lia.
  - lia.
Qed.
End strings.

Section splitting.
Context {W T : Type} `{!UserWorld W} `{!ConsoleWorld W T}.
Implicit Types w : W.

(** Stores of several bytes. *)
Lemma ustore_bytes_spec lo hi l : forall w a, runs_with w lo hi -> lo <= a -> a + Z.of_nat (List.length l) <= hi -> Forall (fun c => 0 <= c < 256) l ->
  exists w', ustore_bytes a l w = Ok w' /\ runs_with w' lo hi /\ shown w' = shown w /\ uholds w' a l /\
    forall b, own b -> ~ (a <= b < a + Z.of_nat (List.length l)) -> uload8 b w' = uload8 b w.
Proof.
  induction l as [|c l IH]; intros w a Hw Hlo Hhi Hf; [by exists w; split_and!; [..|apply uholds_nil|]|].
  cbn [List.length] in *. apply Forall_cons in Hf as [Hc Hf].
  destruct (cw_store w lo hi a c Hw ltac:(lia) Hc) as (w1 & E1 & Hw1 & Hs1 & Hl1 & Hk1). simpl. rewrite E1. rsimpl.
  destruct (cw_region w lo hi a Hw ltac:(lia)) as [Hown Ha]. rewrite u32_small by lia.
  destruct (IH w1 (a + 1)) as (w2 & E2 & Hw2 & Hs2 & Hl2 & Hk2); [done|lia|lia|done|].
  exists w2. split_and!; [done|done|congruence| |].
  - intros [|i] x Hx.
    + injection Hx as <-. rewrite Z.add_0_r, Hk2 by (done || lia). done.
    + replace (a + Z.of_nat (S i)) with (a + 1 + Z.of_nat i) by lia. by apply Hl2.
  - intros b Hb Hout. rewrite Hk2 by (done || lia). apply Hk1; [done|lia].
Qed.

Lemma le32_bytes v : Forall (fun c => 0 <= c < 256) (le32 v).
Proof. apply Forall_forall. intros c. unfold le32. rewrite !elem_of_cons. intros [->|[->|[->|[->|[]%not_elem_of_nil]]]]; apply u8_range. Qed.

Lemma ustore32_spec lo hi w a v : runs_with w lo hi -> lo <= a -> a + 4 <= hi ->
  exists w', ustore32 a v w = Ok w' /\ runs_with w' lo hi /\ shown w' = shown w /\ uholds w' a (le32 v) /\
    forall b, own b -> ~ (a <= b < a + 4) -> uload8 b w' = uload8 b w.
Proof. intros Hw H1 H2. apply (ustore_bytes_spec lo hi (le32 v)); [done|done|simpl; lia|apply le32_bytes]. Qed.

(** The text and the array of arguments, with [n] arguments at most. *)
Record words_layout (lo hi text argv n : Z) (s : list Z) : Prop := {
  wl_text : lo <= text /\ text + Z.of_nat (List.length s) < hi;
  wl_argv : lo <= argv /\ argv + 4 * (n + 1) <= hi;
  wl_apart : argv + 4 * (n + 1) <= text \/ text + Z.of_nat (List.length s) < argv;
  wl_count : 0 <= n < 2 ^ 28
}.

Section loop.
Variables (lo hi text argv n : Z) (s : list Z) (w0 : W).
Hypothesis layout : words_layout lo hi text argv n s.

(** The words [ws] found so far start at [addrs]; [rest] is at [cursor]. *)
Record found (addrs : list Z) (ws : list (list Z)) (cursor : Z) (rest : list Z) w : Prop := {
  fd_runs : runs_with w lo hi;
  fd_shown : shown w = shown w0;
  fd_cursor : text <= cursor /\ cursor + Z.of_nat (List.length rest) = text + Z.of_nat (List.length s);
  fd_rest : ustring w cursor rest;
  fd_words : words s = ws ++ words rest;
  fd_done : Forall2 (fun a x => ustring w a x /\ text <= a /\ a + Z.of_nat (List.length x) <= cursor) addrs ws;
  fd_argv : uholds w argv (concat (le32 <$> addrs))
}.

Lemma text_own w b : runs_with w lo hi -> text <= b <= text + Z.of_nat (List.length s) -> own b.
Proof. intros Hw Hb. destruct (wl_text _ _ _ _ _ _ layout). by apply (cw_region w lo hi); [|lia]. Qed.
Lemma argv_own w b : runs_with w lo hi -> argv <= b < argv + 4 * (n + 1) -> own b.
Proof. intros Hw Hb. destruct (wl_argv _ _ _ _ _ _ layout). by apply (cw_region w lo hi); [|lia]. Qed.

(** A pointer is stored in the array. *)
Lemma found_store addrs ws cursor rest w v : found addrs ws cursor rest w -> Z.of_nat (List.length addrs) <= n ->
  exists w', ustore32 (u32 (argv + 4 * Z.of_nat (List.length addrs))) v w = Ok w' /\ found addrs ws cursor rest w' /\
    uholds w' argv (concat (le32 <$> addrs) ++ le32 v).
Proof.
  intros [Hw Hsh [Hc1 Hc2] Hr Hws Hdone Hargv] Hn. destruct (wl_argv _ _ _ _ _ _ layout) as [Ha1 Ha2].
  pose proof (wl_apart _ _ _ _ _ _ layout) as Hap. destruct (cw_region w lo hi argv Hw) as [_ Hr1]; [pose proof (wl_count _ _ _ _ _ _ layout); lia|].
  destruct (cw_region w lo hi (argv + 4 * (n + 1) - 1) Hw) as [_ Hr2]; [pose proof (wl_count _ _ _ _ _ _ layout); lia|].
  rewrite u32_small by lia.
  destruct (ustore32_spec lo hi w (argv + 4 * Z.of_nat (List.length addrs)) v Hw) as (w' & E & Hw' & Hs' & Hl' & Hk'); [lia|lia|].
  pose proof (concat_le32_length addrs) as Hcat.
  assert (forall b, text <= b <= text + Z.of_nat (List.length s) -> uload8 b w' = uload8 b w) as Htext.
  { intros b Hb. apply Hk'; [by apply (text_own w)|lia]. }
  assert (uholds w' argv (concat (le32 <$> addrs))) as Hargv'.
  { intros i c Hi. pose proof (lookup_lt_Some _ _ _ Hi). rewrite Hk'; [by apply Hargv|apply (argv_own w); [done|lia]|lia]. }
  exists w'. split_and!; [done| |apply uholds_app; split; [done|by rewrite Hcat]].
  split; try done; [congruence|eapply ustring_keep; [|done]; intros; apply Htext; lia|].
  eapply Forall2_impl; [exact Hdone|]. intros a x (Hs & H1 & H2). split; [|done].
  eapply ustring_keep; [|done]. intros; apply Htext; lia.
Qed.

(** A word is ended by a zero. *)
Lemma found_end addrs ws cursor x r w : found addrs ws cursor (x ++ 32 :: r) w -> x <> [] -> Forall (fun c => c <> 32) x ->
  uholds w argv (concat (le32 <$> addrs) ++ le32 cursor) -> Z.of_nat (List.length addrs) < n ->
  exists w', ustore8 (cursor + Z.of_nat (List.length x)) 0 w = Ok w' /\
    found (addrs ++ [cursor]) (ws ++ [x]) (cursor + Z.of_nat (List.length x) + 1) r w'.
Proof.
  intros [Hw Hsh [Hc1 Hc2] Hr Hws Hdone _] Hne Hx Hargv Hn. rewrite length_app in Hc2. cbn [List.length] in Hc2.
  destruct (wl_text _ _ _ _ _ _ layout) as [Ht1 Ht2]. pose proof (wl_apart _ _ _ _ _ _ layout) as Hap.
  destruct (cw_store w lo hi (cursor + Z.of_nat (List.length x)) 0 Hw ltac:(lia) ltac:(lia)) as (w' & E & Hw' & Hs' & Hl' & Hk').
  assert (forall b, text <= b <= text + Z.of_nat (List.length s) -> b <> cursor + Z.of_nat (List.length x) -> uload8 b w' = uload8 b w) as Htext.
  { intros b Hb Hne'. apply Hk'; [by apply (text_own w)|done]. }
  pose proof Hr as [Hb Hch Hrange Hlen]. rewrite length_app in Hrange, Hlen. cbn [List.length] in Hrange, Hlen.
  rewrite <- app_assoc in Hb. apply uholds_app in Hb as [Hbx Hbr]. apply Forall_app in Hch as [Hchx Hchr].
  assert (ustring w' cursor x) as Hsx.
  { split; [|done|lia|lia]. apply uholds_app. split.
    - intros i c Hi. pose proof (lookup_lt_Some _ _ _ Hi). rewrite Htext by lia. by apply Hbx.
    - intros [|i] c Hi; [|done]. injection Hi as <-. by rewrite Z.add_0_r. }
  exists w'. split; [done|]. split; [done|congruence|lia| | | |].
  - eapply ustring_keep; [|]; cycle 1.
    + replace (cursor + Z.of_nat (List.length x) + 1) with (cursor + Z.of_nat (List.length (x ++ [32]))) by (rewrite length_app; simpl; lia).
      apply ustring_drop. by rewrite <- app_assoc.
    + intros b Hb'. apply Htext; lia.
  - rewrite Hws, words_word by done. by rewrite <- app_assoc.
  - apply Forall2_app; [|constructor; [split; [done|lia]|constructor]].
    eapply Forall2_impl; [exact Hdone|]. intros a y (Hs & H1 & H2). assert (0 < Z.of_nat (List.length x)) by (destruct x; [done|simpl; lia]).
    split; [|lia]. eapply ustring_keep; [|done]. intros; apply Htext; lia.
  - rewrite fmap_app, concat_app. change (concat (le32 <$> [cursor])) with (le32 cursor ++ []). rewrite app_nil_r. intros i c Hi. pose proof (lookup_lt_Some _ _ _ Hi) as Hlt.
    rewrite length_app, le32_length in Hlt. pose proof (concat_le32_length addrs) as Hcat.
    assert (argv <= argv + Z.of_nat i < argv + 4 * (n + 1)) as Hin by lia.
    rewrite Hk'; [by apply Hargv|by apply (argv_own w)|lia].
Qed.

Lemma found_skip addrs ws cursor pre r w : found addrs ws cursor (pre ++ r) w -> Forall (fun c => (c =? 32) = true) pre ->
  found addrs ws (cursor + Z.of_nat (List.length pre)) r w.
Proof.
  intros [Hw Hsh [Hc1 Hc2] Hr Hws Hdone Hargv] Hpre. rewrite length_app in Hc2.
  split; try done; [lia|by apply ustring_drop| |].
  - rewrite Hws. f_equal. clear -Hpre. induction pre as [|c pre IH]; [done|]. apply Forall_cons in Hpre as [->%Z.eqb_eq Hpre].
    cbn [app]. rewrite words_space. by apply IH.
  - eapply Forall2_impl; [exact Hdone|]. simpl. intros a x (Hs & H1 & H2). split; [done|lia].
Qed.

(** The last word ends where the text ends. *)
Lemma found_last addrs ws cursor x w : found addrs ws cursor x w -> x <> [] -> Forall (fun c => c <> 32) x ->
  uholds w argv (concat (le32 <$> addrs) ++ le32 cursor) -> found (addrs ++ [cursor]) (ws ++ [x]) (cursor + Z.of_nat (List.length x)) [] w.
Proof.
  intros [Hw Hsh [Hc1 Hc2] Hr Hws Hdone _] Hne Hx Hargv. split; try done.
  - simpl. lia.
  - rewrite <- (app_nil_r x) in Hr. by apply ustring_drop in Hr.
  - by rewrite Hws, words_last, words_nil, app_nil_r.
  - apply Forall2_app; [|constructor; [split; [done|lia]|constructor]].
    eapply Forall2_impl; [exact Hdone|]. simpl. intros a y (Hs & H1 & H2). split; [done|lia].
  - rewrite fmap_app, concat_app. change (concat (le32 <$> [cursor])) with (le32 cursor ++ []). by rewrite app_nil_r.
Qed.

(** The character under the cursor. *)
Lemma found_char addrs ws cursor rest w : found addrs ws cursor rest w ->
  exists c, uload8 cursor w = Ok c /\ (c = 0 <-> rest = []) /\ head (rest ++ [0]) = Some c.
Proof. intros Hf. apply ustring_head, Hf. Qed.

(** One word: the loop stops at the end of the text or when the array is
    full, and otherwise takes the next word. *)
Lemma split_step_spec addrs ws cursor rest w : found addrs ws cursor rest w -> Z.of_nat (List.length addrs) <= n ->
  (words rest = [] /\ exists w', split_step argv n (Z.of_nat (List.length addrs), cursor, w) = Ok (Break (Some (Z.of_nat (List.length addrs)), w')) /\
     found addrs ws (text + Z.of_nat (List.length s)) [] w') \/
  (words rest <> [] /\ Z.of_nat (List.length addrs) = n /\ split_step argv n (Z.of_nat (List.length addrs), cursor, w) = Ok (Break (None, w))) \/
  (Z.of_nat (List.length addrs) < n /\ exists a x cursor' rest' w', split_step argv n (Z.of_nat (List.length addrs), cursor, w) =
     Ok (Continue (Z.of_nat (List.length addrs) + 1, cursor', w')) /\ found (addrs ++ [a]) (ws ++ [x]) cursor' rest' w' /\ (List.length rest' < List.length rest)%nat).
Proof.
  intros Hf Hn. destruct (span (fun c => c =? SPACE) rest) as (pre & r1 & -> & Hpre & Hhead).
  unfold split_step. rewrite (skip_spec w _ cursor pre r1 (fd_rest _ _ _ _ _ Hf) Hpre) by (by destruct r1). rsimpl.
  pose proof (found_skip _ _ _ _ _ _ Hf Hpre) as Hf1. destruct (found_char _ _ _ _ _ Hf1) as (c & Hc & Hz & Hhd). rewrite Hc. rsimpl.
  destruct (Z.eqb_spec c 0) as [H0|H0].
  { left. assert (r1 = []) as -> by tauto. assert (words (pre ++ []) = []) as Ew.
    { pose proof (fd_words _ _ _ _ _ Hf) as E1. pose proof (fd_words _ _ _ _ _ Hf1) as E2. rewrite E1 in E2. by apply app_inv_head in E2. }
    split; [done|]. exists w. split; [done|]. destruct (fd_cursor _ _ _ _ _ Hf1) as [_ E]. simpl in E. by rewrite <- E, Z.add_0_r. }
  destruct r1 as [|c' r1]; [by destruct H0; apply Hz|]. injection Hhd as ->. apply Z.eqb_neq in Hhead.
  destruct (span (fun c => negb (c =? 0) && negb (c =? SPACE)) (c :: r1)) as (x & r2 & E & Hx & Hhead2). rewrite E in *.
  assert (x <> []) as Hne.
  { intros ->. simpl in E. subst r2. simpl in Hhead2. apply Z.eqb_neq in H0. rewrite H0 in Hhead2. apply Z.eqb_neq in Hhead. by rewrite Hhead in Hhead2. }
  assert (Forall (fun c => c <> 32) x) as Hx32.
  { eapply Forall_impl; [exact Hx|]. simpl. intros y [_ Hy]%andb_true_iff. by apply negb_true_iff, Z.eqb_neq in Hy. }
  assert (match r2 with [] => True | c2 :: _ => c2 = 32 end) as H2.
  { destruct r2 as [|c2 r2]; [done|]. pose proof (us_chars _ _ _ (fd_rest _ _ _ _ _ Hf1)) as Hch. apply Forall_app in Hch as [_ Hch]. apply Forall_cons in Hch as [Hch _].
    rewrite (proj2 (Z.eqb_neq c2 0)) in Hhead2 by lia. cbn [andb negb] in Hhead2. by apply negb_false_iff, Z.eqb_eq in Hhead2. }
  assert (words (pre ++ x ++ r2) <> []) as Hwne.
  { intros E0. pose proof (fd_words _ _ _ _ _ Hf) as E1. pose proof (fd_words _ _ _ _ _ Hf1) as E2. rewrite E1, E0 in E2. apply app_inv_head in E2.
    destruct r2 as [|c2 r2]; [rewrite app_nil_r, words_last in E2 by done; done|]. subst c2. by rewrite words_word in E2. }
  destruct (Z.eqb_spec (Z.of_nat (List.length addrs)) n) as [Hmax|Hmax]; [by right; left|]. right; right. split; [lia|].
  set (cur := cursor + Z.of_nat (List.length pre)) in *.
  destruct (found_store _ _ _ _ _ cur Hf1 Hn) as (w1 & E1 & Hf2 & Hargv). rewrite E1. rsimpl.
  rewrite (skip_spec w1 _ cur x r2 (fd_rest _ _ _ _ _ Hf2) Hx) by (destruct r2; [done|exact Hhead2]). rsimpl.
  assert (0 < List.length x)%nat by (destruct x; [done|simpl; lia]).
  destruct r2 as [|c2 r2].
  - rewrite app_nil_r in *. pose proof (found_last _ _ _ _ _ Hf2 Hne Hx32 Hargv) as Hf3.
    destruct (found_char _ _ _ _ _ Hf3) as (z & Hz3 & Hz0 & _). rewrite Hz3. rsimpl. rewrite (proj2 (Z.eqb_eq z 0)) by tauto.
    eexists cur, x, _, [], w1. split_and!; [done|done|]. rewrite length_app. simpl. lia.
  - subst c2. pose proof (fd_rest _ _ _ _ _ Hf2) as Hr2. pose proof (us_range _ _ _ Hr2) as Hrange. rewrite length_app in Hrange. cbn [List.length] in Hrange.
    destruct (ustring_head w1 (cur + Z.of_nat (List.length x)) (32 :: r2) (ustring_drop _ _ _ _ Hr2)) as (z & Hz3 & _ & Hz0).
    injection Hz0 as <-. rewrite Hz3. rsimpl. change (32 =? 0) with false. cbv iota.
    destruct (found_end _ _ _ _ _ _ Hf2 Hne Hx32 Hargv) as (w2 & E2 & Hf3); [lia|]. rewrite E2. rsimpl. rewrite u32_small by lia.
    eexists cur, x, _, r2, w2. split_and!; [done|done|]. rewrite !length_app. simpl. lia.
Qed.

Lemma split_loop : runs_with w0 lo hi -> ustring w0 text s ->
  exists r w', while (split_step argv n) (0, text, w0) = Ok (r, w') /\ runs_with w' lo hi /\ shown w' = shown w0 /\
    match r with
    | Some argc => argc = Z.of_nat (List.length (words s)) /\ argc <= n /\
        exists addrs, List.length addrs = List.length (words s) /\ found addrs (words s) (text + Z.of_nat (List.length s)) [] w'
    | None => n < Z.of_nat (List.length (words s))
    end.
Proof.
  intros Hw Hs. pose proof (wl_count _ _ _ _ _ _ layout) as Hn. pose proof (us_length _ _ _ Hs) as Hlen.
  destruct (while_rule (split_step argv n)
    (fun '(argc, cursor, w) => exists addrs ws rest, argc = Z.of_nat (List.length addrs) /\ argc <= n /\ found addrs ws cursor rest w)
    (fun '(r, w') => runs_with w' lo hi /\ shown w' = shown w0 /\
      match r with
      | Some argc => argc = Z.of_nat (List.length (words s)) /\ argc <= n /\
          exists addrs, List.length addrs = List.length (words s) /\ found addrs (words s) (text + Z.of_nat (List.length s)) [] w'
      | None => n < Z.of_nat (List.length (words s))
      end) (fun '(_, cursor, _) => text + Z.of_nat (List.length s) - cursor) (0, text, w0)) as ([r w'] & Hr & H1 & H2 & H3).
  - intros [[argc cursor] w] (addrs & ws & rest & -> & Hle & Hf). pose proof (Forall2_length _ _ _ (fd_done _ _ _ _ _ Hf)) as Hl.
    destruct (split_step_spec addrs ws cursor rest w Hf Hle) as [(Ew & w' & E & Hf')|[(Ew & Hmax & E)|(Hlt & a & x & cursor' & rest' & w' & E & Hf' & Hless)]]; rewrite E.
    + assert (words s = ws) as Ews by by rewrite (fd_words _ _ _ _ _ Hf'), words_nil, app_nil_r. rewrite Ews.
      split_and!; [apply Hf'|apply Hf'|lia|lia|by exists addrs].
    + split_and!; [apply Hf|apply Hf|]. rewrite (fd_words _ _ _ _ _ Hf), length_app. destruct (words rest); [done|simpl; lia].
    + split.
      * exists (addrs ++ [a]), (ws ++ [x]), rest'. rewrite length_app. simpl. split_and!; [lia|lia|done].
      * pose proof (fd_cursor _ _ _ _ _ Hf). pose proof (fd_cursor _ _ _ _ _ Hf'). lia.
  - exists [], [], s. split; [done|]. split; [lia|]. split; [done|done|lia|done|done|constructor|apply uholds_nil].
  - lia.
  - by exists r, w'.
Qed.
End loop.

Lemma split_words_spec lo hi text argv n s w : runs_with w lo hi -> words_layout lo hi text argv n s -> ustring w text s ->
  exists w', split_words text argv n w = Ok (if Z.of_nat (List.length (words s)) <=? n then Z.of_nat (List.length (words s)) else -1, w') /\
    runs_with w' lo hi /\ shown w' = shown w /\
    (Z.of_nat (List.length (words s)) <= n -> exists addrs, Forall2 (ustring w') addrs (words s) /\
       uholds w' argv (concat (le32 <$> addrs) ++ le32 0)).
Proof.
  intros Hw Hlay Hs. destruct (split_loop lo hi text argv n s w Hlay Hw Hs) as (r & w1 & E & Hw1 & Hs1 & H). unfold split_words. rewrite E. rsimpl.
  pose proof (wl_count _ _ _ _ _ _ Hlay) as Hn. destruct r as [argc|].
  - destruct H as (-> & Hle & addrs & Hl & Hf). rewrite <- Hl in Hle |- *. rewrite (proj2 (Z.leb_le _ _)) by done.
    destruct (found_store lo hi text argv n s w Hlay _ _ _ _ _ 0 Hf Hle) as (w' & E' & Hf' & Hargv). rewrite E'. rsimpl.
    rewrite s32_small by lia. exists w'. split_and!; [done|apply Hf'|apply Hf'|]. intros _. exists addrs. split; [|done].
    eapply Forall2_impl; [apply Hf'|]. by intros a x (? & _).
  - rewrite (proj2 (Z.leb_gt _ _)) by done. exists w1. split_and!; [done|done|done|]. intros ?. lia.
Qed.
End splitting.

(** ** The shell on the machine

    Line editing: what is typed, echoed and kept in the buffer.  The
    splitting of a command into words, and the echo command through the
    whole dispatcher. *)

(** ** Specification of line editing *)

(** A printable character that still fits. *)
Definition fits (l : list Z) (c : Z) : bool := (32 <=? c) && (c <? 128) && (Z.of_nat (List.length l) + 1 <? 128).
Definition edit (l : list Z) (c : Z) : list Z :=
  if c =? 8 then take (List.length l - 1)%nat l else if fits l c then l ++ [c] else l.
Definition echoed (l : list Z) (c : Z) : list Z :=
  if c =? 8 then (if bool_decide (l = []) then [] else [8; 32; 8]) else if fits l c then [c] else [].
(** Everything that is echoed while [cs] is typed. *)
Fixpoint echoes (l cs : list Z) : list Z :=
  match cs with [] => [] | c :: cs => echoed l c ++ echoes (edit l c) cs end.

Section machine.
Context {K S Cb : Type} `{!Kmalloc K} `{!KmallocLaws K} `{!HasMemory S} `{!FsDriver S Cb} `{!FileSource S Cb} `{!HasAllocator S K}.
Variable fs_root resume_user_frame : Z.
Variable frame : registers.
Variable cpu : Z * Z * Z.
Variable literal : string -> Z.
Variables line_address path_address name_address buffer_address argv_address status_address character_address : Z.
Implicit Types m : machine K S.

#[local] Instance shell_world : UserWorld (machine K S) := machine_world fs_root resume_user_frame frame cpu.
#[local] Instance shell_console : ConsoleWorld (machine K S) view := process_console fs_root resume_user_frame frame cpu.

(** The loads of everything but [lo, hi) are kept. *)
Definition keeps_outside (P : Z -> Prop) m m' : Prop := forall b, user_address b -> ~ P b -> uload8 b m' = uload8 b m.

Definition stable (lo hi : Z) m m' : Prop := keeps_outside (fun b => lo <= b < hi) m m'.
Lemma stable_refl lo hi m : stable lo hi m m.
Proof. by intros b _ _. Qed.
Lemma stable_trans lo hi m1 m2 m3 : stable lo hi m1 m2 -> stable lo hi m2 m3 -> stable lo hi m1 m3.
Proof. intros H1 H2 b Hb Hout. rewrite H2 by done. by apply H1. Qed.

Lemma putchar_spec m lo hi c : console_process m lo hi -> lo <= character_address < hi -> 0 <= c < 256 ->
  exists m', shell_putchar character_address c m = Ok (1, m') /\ console_process m' lo hi /\
    view_of m' = view_put c (view_of m) /\ keeps_outside (fun b => b = character_address) m m'.
Proof.
  intros Hm Hr Hc. unfold shell_putchar. rewrite u8_small by lia.
  destruct (cw_store (ConsoleWorld := shell_console) m lo hi character_address c Hm Hr Hc) as (m1 & E1 & Hm1 & Hv1 & Hl1 & Hk1). rewrite E1. rsimpl.
  destruct (cw_region (ConsoleWorld := shell_console) m lo hi character_address Hm Hr) as [_ Ha].
  destruct (cw_write (ConsoleWorld := shell_console) m1 lo hi character_address [c] Hm1) as (m2 & E2 & Hm2 & Hv2 & Hl2).
  { intros [|i] x Hx; [|done]. injection Hx as <-. by rewrite Z.add_0_r. }
  { by apply Forall_singleton. }
  { lia. }
  { simpl. lia. }
  { simpl. lia. }
  unfold shell_write_bytes, LibC.write, int_call. rewrite (u32_small 1), (u32_small character_address) by lia.
  change (Z.of_nat (List.length [c])) with 1 in E2. rewrite E2. rsimpl. exists m2. split_and!; [done|done| |].
  - change (view_of m2 = view_put c (view_of m1)) in Hv2. change (view_of m1 = view_of m) in Hv1. by rewrite Hv2, Hv1.
  - intros b Hb Hne. rewrite Hl2. by apply Hk1.
Qed.

(** Polling the keyboard takes the oldest character. *)
Lemma getchar_spec m lo hi c q sh : console_process m lo hi -> represents (input m) (c :: q, sh) ->
  exists b, getchar_nonblocking m = Ok (c, with_input m b) /\ represents b (q, sh) /\ 0 < c < 256 /\ console_process (with_input m b) lo hi.
Proof.
  intros Hm Hr. destruct (keyboard_getchar_refines _ _ Hr) as (b & Hg & Hb). pose proof (rp_bytes _ _ Hr) as Hc. simpl in Hg, Hb.
  apply Forall_cons in Hc as [Hc _]. exists b. split; [|split_and!; [done|lia..|by destruct Hm; split]].
  unfold getchar_nonblocking. change USER_SYS_GETCHAR with 3.
  pose proof (call_runs fs_root resume_user_frame frame cpu 3 [] service_getchar m eq_refl ltac:(set_solver by lia) eq_refl) as E. cbv zeta in E.
  etransitivity; [exact E|]. unfold int_service. unfold service_getchar. rewrite Hg. rsimpl.
  assert (console_process (with_input m b) lo hi) as Hm' by by destruct Hm; split.
  rewrite <- (with_screen_same (with_input m b)) at 1. rewrite (quiet_return cpu (with_input m b) lo hi) by done. rsimpl.
  rewrite with_screen_same. unfold returned. simpl r_eip. simpl r_useresp. rewrite !Z.eqb_refl. simpl. by rewrite s32_u32_small by lia.
Qed.

(** The line buffer and the character slot are the program's memory. *)
Record shell_layout (lo hi : Z) : Prop := {
  sl_line : lo <= line_address /\ line_address + 128 <= hi;
  sl_character : lo <= character_address < hi;
  sl_apart : ~ (line_address <= character_address < line_address + 128)
}.

(** The shell waits for input with [l] typed and [q] queued. *)
Record typing m (lo hi : Z) (l q : list Z) (sh : bool) : Prop := {
  ty_process : console_process m lo hi;
  ty_line : uholds m line_address l;
  ty_short : Z.of_nat (List.length l) < 128;
  ty_chars : Forall (fun c => 32 <= c < 128) l;
  ty_queue : represents (input m) (q, sh)
}.

Abbreviation step := (main_step literal line_address path_address name_address buffer_address argv_address status_address character_address).
Abbreviation putc := (fun t c => terminal_put c t).

Lemma line_kept m m' lo hi l : shell_layout lo hi -> console_process m lo hi -> Z.of_nat (List.length l) <= 128 ->
  keeps_outside (fun b => b = character_address) m m' -> uholds m line_address l -> uholds m' line_address l.
Proof.
  intros Hlay Hm Hlen Hk Hl i c Hi. pose proof (lookup_lt_Some _ _ _ Hi). pose proof (sl_apart _ _ Hlay). destruct (sl_line _ _ Hlay).
  rewrite Hk; [by apply Hl| |lia]. eapply (process_region m lo hi); [done|lia].
Qed.

Lemma view_parts m m' c : view_of m' = view_put c (view_of m) ->
  terminal_of (screen m') = terminal_put c (terminal_of (screen m)) /\ input m' = input m.
Proof. intros E. split; [exact (f_equal (fun v : view => v.1.1) E)|exact (f_equal (fun v : view => v.2) E)]. Qed.

(** Putting a character while a line is typed. *)
Lemma echo_one m lo hi l q sh c : shell_layout lo hi -> typing m lo hi l q sh -> 0 <= c < 256 ->
  exists m', shell_putchar character_address c m = Ok (1, m') /\ typing m' lo hi l q sh /\
    terminal_of (screen m') = terminal_put c (terminal_of (screen m)) /\ stable lo hi m m'.
Proof.
  intros Hlay [Hm Hl Hs Hf Hq] Hc. destruct (putchar_spec m lo hi c Hm (sl_character _ _ Hlay) Hc) as (m' & E & Hm' & Hv & Hk).
  apply view_parts in Hv as [Ht Hi]. exists m'. split_and!; [done| |done|].
  - split; try done; [|by rewrite Hi]. eapply line_kept; [done|exact Hm|lia|done|done].
  - intros b Hb Hout. apply Hk; [done|]. pose proof (sl_character _ _ Hlay). simpl. lia.
Qed.

(** Storing a character of the line. *)
Lemma store_char m lo hi l c : shell_layout lo hi -> console_process m lo hi -> uholds m line_address l -> Z.of_nat (List.length l) < 128 -> 0 <= c < 256 ->
  exists m', ustore8 (u32 (line_address + Z.of_nat (List.length l))) c m = Ok m' /\ console_process m' lo hi /\ view_of m' = view_of m /\
    uholds m' line_address (l ++ [c]) /\ stable lo hi m m'.
Proof.
  intros Hlay Hm Hl Hs Hc. destruct (sl_line _ _ Hlay) as [H1 H2].
  destruct (process_region m lo hi (line_address + Z.of_nat (List.length l)) Hm ltac:(lia)) as [_ Ha]. rewrite u32_small by lia.
  destruct (cw_store (ConsoleWorld := shell_console) m lo hi (line_address + Z.of_nat (List.length l)) c Hm ltac:(lia) Hc) as (m' & E & Hm' & Hv & Hld & Hk).
  exists m'. split_and!; [done|done|done| |].
  - eapply (uholds_snoc (ConsoleWorld0 := shell_console) m m' lo hi); [done|lia|lia|done|done|done].
  - intros b Hb Hout. apply Hk; [done|]. simpl in Hout. lia.
Qed.

(** Erasing the last character. *)
Lemma typing_take m lo hi l q sh n : typing m lo hi l q sh -> typing m lo hi (take n l) q sh.
Proof.
  intros [Hm Hl Hs Hf Hq]. split; try done; [|rewrite length_take; lia|by apply Forall_take].
  intros i c Hi. apply Hl. by apply lookup_take_Some in Hi as [? _].
Qed.

Lemma signed_char c : 0 < c < 256 ->
  s8 c = c /\ c < 128 \/ (s8 c =? 10) = false /\ (s8 c =? 8) = false /\ (32 <=? s8 c) = false /\ 128 <= c.
Proof. intros Hc. rewrite s8_char by lia. destruct (Z.ltb_spec c 128); [by left|right; lia]. Qed.

(** What the shell does with a character that is not the end of the line. *)
Lemma step_types m lo hi l q sh c : shell_layout lo hi -> typing m lo hi l (c :: q) sh -> c <> 10 ->
  exists m', step (Z.of_nat (List.length l)) m = Ok (Z.of_nat (List.length (edit l c)), m') /\ typing m' lo hi (edit l c) q sh /\
    terminal_of (screen m') = foldl putc (terminal_of (screen m)) (echoed l c) /\ stable lo hi m m'.
Proof.
  intros Hlay [Hm Hl Hs Hf Hq] Hc. destruct (getchar_spec m lo hi c q sh Hm Hq) as (b & Hg & Hb & Hcr & Hm1).
  assert (typing (with_input m b) lo hi l q sh) as Hty by done. assert (screen m = screen (with_input m b)) as Hscr by done.
  assert (stable lo hi m (with_input m b)) as Hst by done. unfold main_step. rewrite Hg, Hscr. rsimpl. rewrite (proj2 (Z.ltb_ge c 0)) by lia.
  generalize dependent (with_input m b). intros m1 _ _ Hty _ Hst. clear Hm Hl Hs Hf Hq Hb. unfold NEWLINE, BACKSPACE, SPACE, SHELL_LINE_SIZE, edit, echoed, fits.
  destruct (signed_char c Hcr) as [[E8 H128]|(-> & -> & -> & H128)].
  2: { cbn [andb]. rewrite (proj2 (Z.eqb_neq c 8)), (proj2 (Z.ltb_ge c 128)) by lia. rewrite andb_false_r. by exists m1. }
  rewrite E8, (proj2 (Z.eqb_neq c 10)) by done. destruct (Z.eqb_spec c 8) as [->|H8].
  - case_bool_decide as Hnil; [subst l; by exists m1|].
    rewrite (proj2 (Z.ltb_lt 0 _)) by (destruct l; [done|simpl; lia]).
    destruct (echo_one m1 lo hi l q sh 8 Hlay Hty ltac:(lia)) as (m2 & -> & Hty2 & Ht2 & St2). rsimpl.
    destruct (echo_one m2 lo hi l q sh 32 Hlay Hty2 ltac:(lia)) as (m3 & -> & Hty3 & Ht3 & St3). rsimpl.
    destruct (echo_one m3 lo hi l q sh 8 Hlay Hty3 ltac:(lia)) as (m4 & -> & Hty4 & Ht4 & St4). rsimpl.
    exists m4. split_and!; [|by apply typing_take|by rewrite Ht4, Ht3, Ht2|eauto using stable_trans].
    do 2 f_equal. rewrite length_take. destruct l; [done|]. cbn [List.length]. lia.
  - rewrite (proj2 (Z.ltb_lt c 128)), andb_true_r by lia. destruct (_ && _) eqn:Hfit; [|by exists m1].
    apply andb_true_iff in Hfit as [H32%Z.leb_le Hlen%Z.ltb_lt]. pose proof Hty as [Hm Hl Hs Hf Hq].
    rewrite u8_small by lia. destruct (store_char m1 lo hi l c Hlay Hm Hl Hs ltac:(lia)) as (m2 & -> & Hm2 & Hv2 & Hl2 & St2). rsimpl.
    assert (typing m2 lo hi (l ++ [c]) q sh) as Hty2.
    { split; [done|done|rewrite length_app; simpl; lia|apply Forall_app; split; [done|]; apply Forall_singleton; lia|].
      by rewrite (f_equal (fun v : view => v.2) Hv2 : input m2 = input m1). }
    destruct (echo_one m2 lo hi (l ++ [c]) q sh c Hlay Hty2 ltac:(lia)) as (m3 & -> & Hty3 & Ht3 & St3). rsimpl.
    exists m3. split_and!; [|done| |eauto using stable_trans].
    + do 2 f_equal. rewrite length_app. simpl. lia.
    + by rewrite Ht3, (f_equal (fun v : view => v.1.1) Hv2 : terminal_of (screen m2) = terminal_of (screen m1)).
Qed.

(** The end of the line: the text becomes a string and is executed. *)
Lemma step_enters m lo hi l q sh : shell_layout lo hi -> typing m lo hi l (10 :: q) sh ->
  exists m1, step (Z.of_nat (List.length l)) m =
      (m2 ← execute_command literal path_address name_address buffer_address argv_address status_address character_address line_address m1;
       m3 ← print_prompt literal path_address m2; Ok (0, m3)) /\
    console_process m1 lo hi /\ ustring m1 line_address l /\ represents (input m1) (q, sh) /\
    terminal_of (screen m1) = terminal_put 10 (terminal_of (screen m)) /\ stable lo hi m m1.
Proof.
  intros Hlay [Hm Hl Hs Hf Hq]. destruct (getchar_spec m lo hi 10 q sh Hm Hq) as (b & Hg & Hb & Hcr & Hm1).
  assert (typing (with_input m b) lo hi l q sh) as Hty by done. assert (screen m = screen (with_input m b)) as Hscr by done.
  assert (stable lo hi m (with_input m b)) as Hst by done.
  unfold main_step. rewrite Hg, Hscr. rsimpl. change (10 <? 0) with false. change (s8 10 =? NEWLINE) with true. cbv iota.
  generalize dependent (with_input m b). intros m1 _ _ Hty _ Hst. clear Hm Hl Hq Hb.
  destruct (echo_one m1 lo hi l q sh 10 Hlay Hty ltac:(lia)) as (m2 & E2 & Hty2 & Ht2 & St2). change NEWLINE with 10. rewrite E2. rsimpl.
  destruct Hty2 as [Hm2 Hl2 _ _ Hq2].
  destruct (store_char m2 lo hi l 0 Hlay Hm2 Hl2 Hs ltac:(lia)) as (m3 & -> & Hm3 & Hv3 & Hl3 & St3). rsimpl.
  exists m3. split_and!; [done|done| | | |eauto using stable_trans].
  - destruct (sl_line _ _ Hlay) as [H1 H2]. destruct (process_region m3 lo hi line_address Hm3 ltac:(lia)) as [_ Ha].
    destruct (process_region m3 lo hi (line_address + Z.of_nat (List.length l)) Hm3 ltac:(lia)) as [_ Hb].
    split; [done|eapply Forall_impl; [exact Hf|simpl; lia]|lia|lia].
  - by rewrite (f_equal (fun v : view => v.2) Hv3 : input m3 = input m2).
  - by rewrite (f_equal (fun v : view => v.1.1) Hv3 : terminal_of (screen m3) = terminal_of (screen m2)), Ht2.
Qed.

(** Turns of the main loop. *)
Fixpoint steps (n : nat) (length : Z) m : res (Z * machine K S) :=
  match n with
  | O => Ok (length, m)
  | Datatypes.S n => '(length, m) ← step length m; steps n length m
  end.

Lemma steps_type lo hi sh : shell_layout lo hi -> forall cs m l q, typing m lo hi l (cs ++ q) sh -> Forall (fun c => c <> 10) cs ->
  exists m', steps (List.length cs) (Z.of_nat (List.length l)) m = Ok (Z.of_nat (List.length (foldl edit l cs)), m') /\
    typing m' lo hi (foldl edit l cs) q sh /\ terminal_of (screen m') = foldl putc (terminal_of (screen m)) (echoes l cs) /\
    stable lo hi m m'.
Proof.
  intros Hlay cs. induction cs as [|c cs IH]; intros m l q Hty Hcs; [by exists m|].
  apply Forall_cons in Hcs as [Hc Hcs]. destruct (step_types m lo hi l (cs ++ q) sh c Hlay Hty Hc) as (m1 & E1 & Hty1 & Ht1 & St1).
  destruct (IH m1 (edit l c) q Hty1 Hcs) as (m' & E & Hty' & Ht' & St'). exists m'. cbn [steps List.length]. rewrite E1. rsimpl.
  split_and!; [done|done| |by eapply stable_trans]. cbn [echoes]. by rewrite foldl_app, <- Ht1.
Qed.

(** ** The dispatcher and echo *)

Definition subject (t : test) : string := match t with Is s => s | Starts s _ => s end.
Definition meets (l : list Z) (t : test) : bool :=
  match t with
  | Is s => bool_decide (l = codes s)
  | Starts s n => bool_decide (take (Z.to_nat n) l = take (Z.to_nat n) (codes s))
  end.
Definition test_ok (t : test) : Prop := match t with Is _ => True | Starts _ n => is_u32 n end.

Lemma passes_spec m line l t : ustring m line l -> ustring m (literal (subject t)) (codes (subject t)) -> test_ok t ->
  passes literal line t m = Ok (meets l t).
Proof.
  intros Hl Ht Hok. destruct t as [s|s n]; cbn [passes meets subject] in *.
  - rewrite (strcmp_spec m line (literal s) l (codes s) Hl Ht). rsimpl. by case_bool_decide; case_decide.
  - rewrite (strncmp_spec m line (literal s) l (codes s) n Hl Ht Hok). rsimpl. by case_bool_decide; case_decide.
Qed.

Lemma dispatch_cons m line l t c cases otherwise : ustring m line l -> ustring m (literal (subject t)) (codes (subject t)) -> test_ok t ->
  dispatch literal line ((t, c) :: cases) otherwise m = if meets l t then c m else dispatch literal line cases otherwise m.
Proof. intros Hl Ht Hok. cbn [dispatch]. rewrite (passes_spec m line l t Hl Ht Hok). by rsimpl. Qed.

(** The strings that are compared before and for an echo. *)
Definition command_names : list string :=
  ["help"; "clear"; "ls"; "pwd"; "cd"; "cd "; "mkdir"; "mkdir "; "pid"; "uptime"; "mem"; "heaptest"; "exec"; "exec ";
   "run"; "run "; "kill"; "kill "; "status"; "about"; "echo"; "echo "].
(** They are in the image of the shell, away from its buffers. *)
Definition names_in m (lo hi : Z) : Prop := forall s, s ∈ command_names ->
  ustring m (literal s) (codes s) /\
  forall b, literal s <= b <= literal s + Z.of_nat (List.length (codes s)) -> user_address b /\ ~ (lo <= b < hi).

Lemma names_stable m m' lo hi : stable lo hi m m' -> names_in m lo hi -> names_in m' lo hi.
Proof.
  intros Hst Hn s Hs. destruct (Hn s Hs) as [Hu Ha]. split; [|done]. eapply ustring_keep; [|done]. intros b Hb.
  destruct (Ha b Hb). by apply Hst.
Qed.

Lemma print_line_spec m lo hi a l : shell_layout lo hi -> console_process m lo hi -> ustring m a l ->
  exists m', print_line character_address a m = Ok m' /\ console_process m' lo hi /\ input m' = input m /\
    terminal_of (screen m') = foldl putc (terminal_of (screen m)) (l ++ [10]).
Proof.
  intros Hlay Hm Hs. pose proof (us_length _ _ _ Hs). destruct (us_range _ _ _ Hs). unfold print_line, shell_write. rewrite (strlen_spec m a l Hs). rsimpl.
  destruct (cw_write (ConsoleWorld := shell_console) m lo hi a l Hm) as (m1 & E1 & Hm1 & Hv1 & _).
  { apply (uholds_app m a l [0]), (us_bytes _ _ _ Hs). }
  { eapply Forall_impl; [apply Hs|simpl; lia]. }
  { done. }
  { done. }
  { done. }
  unfold shell_write_bytes, LibC.write, int_call. rewrite (u32_small 1), (u32_small a), (u32_small (u32 _)), (u32_small (Z.of_nat _)) by (lia || auto with ints).
  rewrite E1. rsimpl. destruct (putchar_spec m1 lo hi 10 Hm1 (sl_character _ _ Hlay) ltac:(lia)) as (m2 & E2 & Hm2 & Hv2 & _).
  change NEWLINE with 10. rewrite E2. rsimpl. apply view_parts in Hv2 as [Ht2 Hi2]. exists m2.
  assert (view_of m1 = (foldl putc (terminal_of (screen m)) l, tasks (proc m) !! current_task (proc m), input m)) as Hv.
  { change (view_of m1 = foldl (fun v c => view_put c v) (view_of m) l) in Hv1. by rewrite view_puts in Hv1. }
  pose proof (f_equal (fun v : view => v.1.1) Hv : terminal_of (screen m1) = _) as Et.
  pose proof (f_equal (fun v : view => v.2) Hv : input m1 = _) as Ei. simpl in Et, Ei.
  split_and!; [done|done|by rewrite Hi2|]. rewrite Ht2, foldl_app, Et. done.
Qed.

(** Two lines that differ before either ends. *)
Fixpoint differs (l1 l2 : list Z) : bool :=
  match l1, l2 with
  | c :: l1, d :: l2 => negb (c =? d) || differs l1 l2
  | _, _ => false
  end.
Lemma differs_ne l1 l2 u : differs l1 l2 = true -> l1 ++ u <> l2.
Proof.
  revert l2. induction l1 as [|c l1 IH]; intros [|d l2]; try done. simpl. intros [Hne|H]%orb_true_iff [= <- E].
  - by rewrite Z.eqb_refl in Hne.
  - by eapply IH.
Qed.

(** A test that every line starting with [start] fails. *)
Definition refuted (start : list Z) (t : test) : bool :=
  bool_decide (subject t ∈ command_names) &&
  match t with
  | Is s => differs start (codes s)
  | Starts s n => (0 <=? n) && (n <? 2 ^ 32) && differs (take (Z.to_nat n) start) (take (Z.to_nat n) (codes s))
  end.
Lemma refuted_spec start u t : refuted start t = true -> subject t ∈ command_names /\ test_ok t /\ meets (start ++ u) t = false.
Proof.
  unfold refuted. intros [Hin Ht]%andb_true_iff. apply bool_decide_eq_true in Hin. split; [done|]. destruct t as [s|s n]; cbn [test_ok meets].
  - split; [done|]. by apply bool_decide_eq_false, differs_ne.
  - apply andb_true_iff in Ht as [Hn Hd]. split; [unfold is_u32; lia|]. apply bool_decide_eq_false. rewrite take_app. by apply differs_ne.
Qed.

Lemma dispatch_skip m lo hi line start u pre post otherwise : names_in m lo hi -> ustring m line (start ++ u) ->
  forallb (refuted start) (fst <$> pre) = true ->
  dispatch literal line (pre ++ post) otherwise m = dispatch literal line post otherwise m.
Proof.
  intros Hn Hl. induction pre as [|[t c] pre IH]; [done|]. intros [Ht Hpre]%andb_true_iff. cbn [app].
  destruct (refuted_spec start u t Ht) as (Hin & Hok & Hm). destruct (Hn _ Hin) as [Hu _].
  rewrite (dispatch_cons m line (start ++ u)) by done. rewrite Hm. by apply IH.
Qed.

Lemma echo_spec m lo hi line t : shell_layout lo hi -> console_process m lo hi -> names_in m lo hi ->
  ustring m line (codes "echo " ++ t) -> t <> [] ->
  exists m', execute_command literal path_address name_address buffer_address argv_address status_address character_address line m = Ok m' /\
    console_process m' lo hi /\ input m' = input m /\ terminal_of (screen m') = foldl putc (terminal_of (screen m)) (t ++ [10]).
Proof.
  intros Hlay Hm Hn Hl Ht. assert (Hlit : forall s, s ∈ command_names -> ustring m (literal s) (codes s)) by (intros s Hs; by apply Hn).
  unfold execute_command. destruct (ustring_at m line _ 0 Hl) as (c & Hc & Hlc & Hz); [lia|]. pose proof (us_range _ _ _ Hl) as Hr.
  rewrite length_app in Hr. change (List.length (codes "echo ")) with 5%nat in Hr. rewrite Z.add_0_r, u32_small in Hc by lia. rewrite Hc. rsimpl.
  rewrite (proj2 (Z.eqb_neq c 0)) by (rewrite Hz, length_app; simpl; lia).
  match goal with |- context [dispatch literal line ?cs ?o m] => rewrite <- (take_drop 25 cs) end.
  rewrite (dispatch_skip m lo hi line (codes "echo ") t) by (done || vm_compute; reflexivity).
  unfold commands. cbn [drop].
  assert (Hin : forall s, bool_decide (s ∈ command_names) = true -> ustring m (literal s) (codes s)).
  { intros s Hs%bool_decide_eq_true. by apply Hlit. }
  rewrite (dispatch_cons m line _ (Is "echo") _ _ _ Hl (Hin "echo" eq_refl) I). cbn [meets].
  rewrite bool_decide_eq_false_2 by (intros E; vm_compute in E; discriminate E).
  rewrite (dispatch_cons m line _ (Is "echo ") _ _ _ Hl (Hin "echo " eq_refl) I). cbn [meets].
  rewrite bool_decide_eq_false_2 by (intros E; rewrite <- (app_nil_r (codes "echo ")) in E; by apply app_inv_head in E).
  rewrite (dispatch_cons m line _ (Starts "echo " 5) _ _ _ Hl (Hin "echo " eq_refl) ltac:(unfold test_ok, is_u32; lia)). cbn [meets].
  rewrite bool_decide_eq_true_2 by done. unfold arguments_after.
  rewrite (strlen_spec m (literal "echo") (codes "echo") (Hin "echo" eq_refl)). rsimpl. change (Z.of_nat (List.length (codes "echo"))) with 4.
  destruct (ustring_at m line _ 4 Hl) as (d & Hd & Hld & _); [rewrite length_app; simpl; lia|]. change (Z.of_nat 4) with 4 in Hd. rewrite Hd. rsimpl.
  injection Hld as <-. change (32 =? SPACE) with true. cbv iota. rewrite u32_small by lia. change (4 + 1) with (Z.of_nat (List.length (codes "echo "))).
  apply print_line_spec; [done|done|]. by apply ustring_drop.
Qed.

(** A typed echo command, up to the next prompt. *)
Lemma session_spec lo hi sh m cs t q : shell_layout lo hi -> typing m lo hi [] (cs ++ 10 :: q) sh -> names_in m lo hi ->
  Forall (fun c => c <> 10) cs -> foldl edit [] cs = codes "echo " ++ t -> t <> [] ->
  exists m', steps (List.length cs + 1) 0 m = (m3 ← print_prompt literal path_address m'; Ok (0, m3)) /\
    console_process m' lo hi /\ represents (input m') (q, sh) /\
    terminal_of (screen m') = foldl putc (terminal_of (screen m)) (echoes [] cs ++ [10] ++ t ++ [10]).
Proof.
  intros Hlay Hty Hn Hcs Hl Ht. destruct (steps_type lo hi sh Hlay cs m [] (10 :: q) Hty Hcs) as (m1 & E1 & Hty1 & Ht1 & St1).
  destruct (step_enters m1 lo hi _ q sh Hlay Hty1) as (m2 & E2 & Hm2 & Hu2 & Hq2 & Ht2 & St2). rewrite Hl in Hu2.
  destruct (echo_spec m2 lo hi line_address t Hlay Hm2) as (m3 & E3 & Hm3 & Hi3 & Ht3); [|done|done|].
  { eapply names_stable; [|exact Hn]. by eapply stable_trans. }
  exists m3. split_and!; [|done|by rewrite Hi3|].
  - rewrite E3 in E2. revert E2. rsimpl. intros E2. cut (forall n l m0 r, steps n l m0 = Ok r -> steps (n + 1) l m0 = step r.1 r.2).
    { intros Hsplit. change 0 with (Z.of_nat (List.length (@nil Z))) at 1. by rewrite (Hsplit _ _ _ _ E1). }
    intros n. induction n as [|n IH]; intros l m0 [l' m0'] E; cbn [steps Nat.add] in *.
    + injection E as <- <-. simpl. by destruct (step l m0) as [[? ?]| |].
    + destruct (step l m0) as [[l1 m4]| |]; [|done..]. revert E. rsimpl. apply IH.
  - rewrite Ht3, Ht2, Ht1. by rewrite !foldl_app.
Qed.
End machine.
