(* ===== verification/ShellTheorems.v ===== *)
(** * Theorems about the shell *)

From S2P Require Import Prelude Memory Kmalloc Frames Paging Vfs Initrd Task AddressSpace UserSpace UserMemory UserFile Keyboard Monitor Signal Process ProcessInv Reap Syscall Interrupt MachineInv SyscallIO Demo ExecTheorems SyscallTheorems LibC LibCSpec Ring3 Shell ShellSpec.

Section shell.
Context {K S Cb : Type} `{!Kmalloc K} `{!KmallocLaws K} `{!HasMemory S} `{!FsDriver S Cb} `{!FileSource S Cb} `{!HasAllocator S K}.
Variable fs_root resume_user_frame : Z.
Variable frame : registers.
Variable cpu : Z * Z * Z.
Variable literal : string -> Z.
Variables line path name buffer argv status character : Z.
Implicit Types m : machine K S.

(** The turns of the shell's loop on this machine. *)
Definition turns : nat -> Z -> machine K S -> res (Z * machine K S) :=
  steps fs_root resume_user_frame frame cpu literal line path name buffer argv status character.

(** C28: the shell is a line editor.  Whatever is typed before the end of
    the line - printable characters, backspaces, anything else, and more
    than the buffer holds - each turn of the main loop takes one character,
    the buffer holds exactly the edited line, which never reaches its 128
    bytes, the screen shows the echo, with each erased character blanked,
    and no byte outside the shell's own buffers changes. *)
Theorem shell_edits_line m lo hi l cs q sh : shell_layout line character lo hi ->
  typing fs_root resume_user_frame frame cpu line m lo hi l (cs ++ q) sh -> Forall (fun c => c <> 10) cs ->
  exists m', turns (List.length cs) (Z.of_nat (List.length l)) m = Ok (Z.of_nat (List.length (foldl edit l cs)), m') /\
    console_process m' lo hi /\ represents (input m') (q, sh) /\
    (forall i c, foldl edit l cs !! i = Some c -> vload8 (line + Z.of_nat i) (proc m') = Ok c /\ 32 <= c < 128) /\
    Z.of_nat (List.length (foldl edit l cs)) < 128 /\
    terminal_of (screen m') = foldl (fun t c => terminal_put c t) (terminal_of (screen m)) (echoes l cs) /\
    (forall b, user_address b -> ~ (lo <= b < hi) -> vload8 b (proc m') = vload8 b (proc m)).
Proof.
  intros Hlay Hty Hcs. destruct (steps_type fs_root resume_user_frame frame cpu literal line path name buffer argv status character lo hi sh
    Hlay cs m l q Hty Hcs) as (m' & E & [Hm' Hl' Hs' Hf' Hq'] & Ht' & Hst). exists m'. split_and!; try done.
  intros i c Hi. split; [by apply Hl'|]. exact (proj1 (Forall_lookup _ _) Hf' _ _ Hi).
Qed.

(** C29: an echo command from the keyboard to the screen.  Keys that edit
    to a line starting with echo and a space, then the end of the line,
    make the shell echo the keys, start a new line, find the command after
    comparing the line with every command before it, and print the text
    after the first space and a newline; then it prompts again. *)
Theorem shell_echoes m lo hi cs t q sh : shell_layout line character lo hi ->
  typing fs_root resume_user_frame frame cpu line m lo hi [] (cs ++ 10 :: q) sh ->
  names_in fs_root resume_user_frame frame cpu literal m lo hi -> Forall (fun c => c <> 10) cs ->
  foldl edit [] cs = codes "echo " ++ t -> t <> [] ->
  exists m', turns (List.length cs + 1) 0 m =
      (m3 ← print_prompt (UserWorld0 := machine_world fs_root resume_user_frame frame cpu) literal path m'; Ok (0, m3)) /\
    console_process m' lo hi /\ represents (input m') (q, sh) /\
    terminal_of (screen m') = foldl (fun t c => terminal_put c t) (terminal_of (screen m)) (echoes [] cs ++ [10] ++ t ++ [10]).
Proof. intros. by eapply session_spec. Qed.
End shell.

(** C30: [split_words] finds the words of a line.  In any world where the
    text and the array of pointers are the program's own memory and do not
    overlap, it returns the number of words and leaves the array filled
    with pointers to them, each a string of its own, in order and ended by
    a null pointer; with more words than the array takes it returns -1;
    nothing is shown. *)
Theorem shell_splits_words {W T} `{!UserWorld W} `{!ConsoleWorld W T} (w : W) lo hi text argv n s :
  runs_with w lo hi -> words_layout lo hi text argv n s -> ustring w text s ->
  exists w', split_words text argv n w = Ok (if Z.of_nat (List.length (words s)) <=? n then Z.of_nat (List.length (words s)) else -1, w') /\
    runs_with w' lo hi /\ shown w' = shown w /\
    (Z.of_nat (List.length (words s)) <= n -> exists addrs, Forall2 (ustring w') addrs (words s) /\
       uholds w' argv (concat (le32 <$> addrs) ++ le32 0)).
Proof. apply split_words_spec. Qed.

(** ** A shell at its prompt *)

(** The strings of the shell in the upper page of its stack. *)
Definition name_bytes : list Z := concat ((fun s => codes s ++ [0]) <$> command_names).
Fixpoint name_offset (s : string) (names : list string) : Z :=
  match names with
  | [] => 0
  | x :: names => if bool_decide (s = x) then 0 else Z.of_nat (String.length x) + 1 + name_offset s names
  end.
Definition shell_literal (s : string) : Z := 0xBFFFF000 + name_offset s command_names.

(** A line of three words at the start of the lower page. *)
Definition shell_text : list Z := codes " run  /bin/args 7".
Definition shell_contents (b o : Z) : Z :=
  if (b =? 0x4000) && (0 <=? o) && (o <? Z.of_nat (List.length name_bytes)) then nth (Z.to_nat o) name_bytes 0
  else if (b =? 0x3000) && (0 <=? o) && (o <? Z.of_nat (List.length shell_text + 1)) then nth (Z.to_nat o) (shell_text ++ [0]) 0
  else contents_of (kmm io_kernel) b o.

Definition typed_keys : list Z := codes "ecxx" ++ [8; 8] ++ codes "ho hi".
Definition shell_keyboard : keyboard :=
  mk_keyboard ((typed_keys ++ [10]) ++ replicate (128 - List.length (typed_keys ++ [10])) 0) 0 (Z.of_nat (List.length (typed_keys ++ [10]))) 0.
Definition shell_machine : machine (gset Z) (initrd (gset Z)) :=
  with_input (with_proc io_machine (with_contents io_kernel shell_contents)) shell_keyboard.

#[local] Instance shell_demo_world : UserWorld (machine (gset Z) (initrd (gset Z))) := machine_world 0x90000 0x100800 exec_frame (0, 0, 0).
#[local] Instance shell_demo_console : ConsoleWorld (machine (gset Z) (initrd (gset Z))) view := process_console 0x90000 0x100800 exec_frame (0, 0, 0).

Lemma shell_process : console_process shell_machine 0xBFFFE000 0xBFFFE200.
Proof.
  split.
  - exists demo_queue, io_shell, (mk_descriptor FD_KIND_CONSOLE 0 0 0). split; [apply contents_process_ok; exact io_ok|]. split; [reflexivity|].
    split; [reflexivity|]. split; reflexivity.
  - exact (mk_screen _ io_sound).
  - exact (io_buffer 0xBFFFE000 0x200 ltac:(lia) ltac:(lia)).
Qed.

Lemma shell_typing : typing 0x90000 0x100800 exec_frame (0, 0, 0) 0xBFFFE000 shell_machine 0xBFFFE000 0xBFFFE200 [] (typed_keys ++ [10]) false.
Proof.
  split; [exact shell_process|apply uholds_nil|simpl; lia|constructor|].
  split; [split; vm_compute; repeat split; congruence|reflexivity|reflexivity|apply chars_check; reflexivity].
Qed.

Lemma shell_demo_layout : shell_layout 0xBFFFE000 0xBFFFE080 0xBFFFE000 0xBFFFE200.
Proof. split; lia. Qed.

Definition name_ok (s : string) : bool :=
  forallb (fun i => bool_decide (uload8 (shell_literal s + Z.of_nat i) shell_machine = Ok (nth i (codes s ++ [0]) 0))) (seq 0 (List.length (codes s ++ [0]))) &&
  forallb (fun c => (0 <? c) && (c <? 256)) (codes s) && (0xBFFFF000 <=? shell_literal s) && (shell_literal s + Z.of_nat (List.length (codes s)) <? 0xC0000000).
Lemma names_ok : forallb name_ok command_names = true.
Proof. vm_compute. reflexivity. Qed.

Lemma shell_names : names_in 0x90000 0x100800 exec_frame (0, 0, 0) shell_literal shell_machine 0xBFFFE000 0xBFFFE200.
Proof.
  intros s Hs. pose proof names_ok as H. rewrite forallb_forall in H. apply list_elem_of_In in Hs. specialize (H s Hs). unfold name_ok in H.
  apply andb_true_iff in H as [H H4%Z.ltb_lt]. apply andb_true_iff in H as [H H3%Z.leb_le]. apply andb_true_iff in H as [H1 H2].
  split; [split; [by apply uholds_check|by apply chars_check|lia|lia]|]. intros b Hb. unfold user_address. lia.
Qed.

Lemma typed_no_newline : Forall (fun c => c <> 10) typed_keys.
Proof. apply Forall_forall. intros c Hc%list_elem_of_In ->. vm_compute in Hc. repeat (destruct Hc as [Hc|Hc]; [discriminate Hc|]). exact Hc. Qed.

Lemma shell_edits_line_witness : exists m', turns 0x90000 0x100800 exec_frame (0, 0, 0) shell_literal 0xBFFFE000 0 0 0 0 0 0xBFFFE080 11 0 shell_machine =
  Ok (7, m') /\ terminal_of (screen m') = foldl (fun t c => terminal_put c t) (terminal_of (screen shell_machine)) (echoes [] typed_keys).
Proof.
  destruct (shell_edits_line 0x90000 0x100800 exec_frame (0, 0, 0) shell_literal 0xBFFFE000 0 0 0 0 0 0xBFFFE080 shell_machine 0xBFFFE000 0xBFFFE200
    [] typed_keys [10] false shell_demo_layout shell_typing typed_no_newline) as (m' & E & _ & _ & _ & _ & Ht & _).
  exists m'. split; [exact E|exact Ht].
Defined.

Lemma shell_echoes_witness : exists m' : machine (gset Z) (initrd (gset Z)), console_process m' 0xBFFFE000 0xBFFFE200 /\
  terminal_of (screen m') = foldl (fun t c => terminal_put c t) (terminal_of (screen shell_machine)) (echoes [] typed_keys ++ [10] ++ codes "hi" ++ [10]).
Proof.
  destruct (shell_echoes 0x90000 0x100800 exec_frame (0, 0, 0) shell_literal 0xBFFFE000 0 0 0 0 0 0xBFFFE080 shell_machine 0xBFFFE000 0xBFFFE200
    typed_keys (codes "hi") [] false shell_demo_layout shell_typing shell_names typed_no_newline) as (m' & _ & Hm & _ & Ht).
  - vm_compute. reflexivity.
  - discriminate.
  - exists m'. split; [exact Hm|exact Ht].
Defined.

Lemma shell_text_string : ustring shell_machine 0xBFFFE000 shell_text.
Proof.
  split; [apply uholds_check; vm_compute; reflexivity|apply chars_check; vm_compute; reflexivity|vm_compute; repeat split; congruence|vm_compute; reflexivity].
Qed.

Lemma shell_splits_words_witness : exists w' addrs, split_words 0xBFFFE000 0xBFFFE100 8 shell_machine = Ok (3, w') /\
  Forall2 (ustring w') addrs [codes "run"; codes "/bin/args"; codes "7"].
Proof.
  assert (words shell_text = [codes "run"; codes "/bin/args"; codes "7"]) as Ew by (vm_compute; reflexivity).
  destruct (shell_splits_words shell_machine 0xBFFFE000 0xBFFFE200 0xBFFFE000 0xBFFFE100 8 shell_text) as (w' & E & _ & _ & H).
  - exact shell_process.
  - split; [split; vm_compute; congruence|lia|right; vm_compute; reflexivity|lia].
  - exact shell_text_string.
  - rewrite Ew in E, H. destruct H as (addrs & Ha & _); [simpl; lia|]. exists w', addrs. split; [exact E|exact Ha].
Defined.
