(* ===== verification/Boot.v ===== *)
(** * main.c: from the boot loader to the first user process

    [main] calls the initialisers in order; here it runs without being
    interrupted and returns where it would halt.  [move_stack] of task.c,
    [init_timer] of timer.c, [page_fault] of paging.c and the two panic
    printers of common.c are also here.  The addresses that the linker
    chose, and the registers that [move_stack] reads, are parameters. *)

From S2P Require Import DescriptorTables MakeInitrd.
From S2P Require Import Prelude Memory Common Kmalloc Keyboard Monitor Frames Paging PagingProofs AddressSpace AddressClone Vfs Initrd Task Scheduler UserSpace UserFile Process ProcessInv Fork Steps Syscall Interrupt MachineInv KHeap BootPaging BootPagingSpec InitrdTree InitrdProofs InitrdMount InitrdImage InitrdTheorems LibC.

(** ** common.c: the last words of the kernel *)

Definition write_all (ls : list (list Z)) (s : monitor) : res monitor :=
  foldl (fun r l => monitor_write console_put l r) (Ok s) ls.

Definition panic_text (banner message file : list Z) (line : Z) (s : monitor) : res monitor :=
  s ← write_all [banner; message; codes ") at "; file; codes ":"] s;
  s ← monitor_write_dec console_put line (Ok s);
  s ← s;
  write_all [[10]] s.
(** What [panic] and [panic_assert] leave on the screen before they halt. *)
Definition panic (message file : list Z) (line : Z) : monitor -> res monitor := panic_text (codes "PANIC(") message file line.
Definition panic_assert (file : list Z) (line : Z) (desc : list Z) : monitor -> res monitor :=
  panic_text (codes "ASSERTION-FAILED(") desc file line.

(** [page_fault]; [file] and [line] are those of its PANIC. *)
Definition page_fault (faulting_address : Z) (regs : registers) (file : list Z) (line : Z) (s : monitor) : res monitor :=
  let present := if Z.land (r_err_code regs) 0x1 =? 0 then 1 else 0 in
  let rw := Z.land (r_err_code regs) 0x2 in
  let us := Z.land (r_err_code regs) 0x4 in
  let reserved := Z.land (r_err_code regs) 0x8 in
  let id := Z.land (r_err_code regs) 0x10 in
  let when (v : Z) (text : string) := if negb (v =? 0) then codes text else [] in
  s ← write_all [codes "Page fault! ( "; when present "present "%string; when rw "read-only "%string; when us "user-mode "%string;
                 when reserved "reserved "%string; when id "instruction-fetch "%string; codes ") at 0x"] s;
  s ← monitor_write_hex console_put faulting_address (Ok s); s ← s;
  s ← write_all [codes " - EIP: "] s;
  s ← monitor_write_hex console_put (r_eip regs) (Ok s); s ← s;
  s ← write_all [[10]] s;
  panic (codes "Page fault") file line s.

(** ** timer.c and keyboard.c *)

Definition init_timer (frequency : Z) (s : DescriptorTables.tables) : res DescriptorTables.tables :=
  ASSERT (0 <? frequency);;
  let s := DescriptorTables.with_handlers s (register_interrupt_handler IRQ0 Timer (DescriptorTables.interrupt_handlers s)) in
  let divisor := 1193180 / frequency in
  ASSERT ((0 <? divisor) && (divisor <=? 0xFFFF));;
  let s := DescriptorTables.outb 0x43 0x36 s in
  let l := u8 (Z.land divisor 0xFF) in
  let h := u8 (Z.land (Z.shiftr divisor 8) 0xFF) in
  Ok (DescriptorTables.outb 0x40 h (DescriptorTables.outb 0x40 l s)).

Definition timer_ticks {K S} (m : machine K S) : Z := tick m.

Definition initialise_keyboard (b : keyboard) (t : handler_table) : keyboard * handler_table :=
  (mk_keyboard (input_buffer b) 0 0 0, register_interrupt_handler IRQ1 KeyboardIrq t).

(** ** task.c: relocating the boot stack *)

Section stack.
Context {K S : Type} `{!Kmalloc K} `{!HasMemory S}.
Implicit Types k : kernel page_bytes K S.

(** [alloc_frame(get_page(i, 1, current_directory), 0, 1)]. *)
Definition map_stack_page (i : Z) (m : mm page_bytes K) : res (mm page_bytes K) :=
  '(page, m) ← get_page i 1 (current_directory m) m;
  match page with
  | None => Panic ASSERTION_FAILED
  | Some (t, j) =>
      p ← read_page t j m;
      '(p, b) ← alloc_frame p 0 1 (bits m);
      Ok (write_page t j p (with_bits m b))
  end.

Definition map_stack (new_stack_start size : Z) (m : mm page_bytes K) : res (mm page_bytes K) :=
  while (fun '(i, m) =>
    if u32 (new_stack_start - size) <=? i then m ← map_stack_page i m; Ok (Continue (u32 (i - 0x1000), m))
    else Ok (Break m)) (new_stack_start, m).

(** Rebasing every word that looks like a saved base pointer. *)
Definition rebase_stack (new_stack_start size initial_esp old_stack_pointer offset : Z) k : res (kernel page_bytes K S) :=
  while (fun '(i, k) =>
    if u32 (new_stack_start - size) <? i then
      tmp ← vload32 i k;
      k ← (if (old_stack_pointer <? tmp) && (tmp <? initial_esp) then vstore32 i (u32 (tmp + offset)) k else Ok k);
      Ok (Continue (u32 (i - 4), k))
    else Ok (Break k)) (new_stack_start, k).

(** The new ESP and EBP, with the relocated stack. *)
Definition move_stack (new_stack_start size initial_esp old_stack_pointer old_base_pointer : Z) k :
    res (Z * Z * kernel page_bytes K S) :=
  m ← map_stack new_stack_start size (kmm k);
  let k := with_mm k m in
  let offset := u32 (new_stack_start - initial_esp) in
  let new_stack_pointer := u32 (old_stack_pointer + offset) in
  let new_base_pointer := u32 (old_base_pointer + offset) in
  k ← vmemcpy new_stack_pointer old_stack_pointer (u32 (initial_esp - old_stack_pointer)) k;
  k ← rebase_stack new_stack_start size initial_esp old_stack_pointer offset k;
  Ok (new_stack_pointer, new_base_pointer, k).
End stack.

(** ** syscall.c: the wrappers linked into the kernel

    The bootstrap code of the first processes runs them in ring 3. *)
Section wrappers.
Context {W : Type} `{!UserWorld W}.

Definition WRAP0 (number : Z) (w : W) : res (Z * W) := int_call [number] w.
Definition WRAP1 (number a : Z) (w : W) : res (Z * W) := int_call [number; u32 a] w.
Definition WRAP2 (number a b : Z) (w : W) : res (Z * W) := int_call [number; u32 a; u32 b] w.
Definition WRAP3 (number a b c : Z) (w : W) : res (Z * W) := int_call [number; u32 a; u32 b; u32 c] w.

Definition syscall_write (a : Z) : W -> res (Z * W) := WRAP1 0 a.
Definition syscall_putchar (a : Z) : W -> res (Z * W) := WRAP1 1 (s8 a).
Definition syscall_clear : W -> res (Z * W) := WRAP0 2.
Definition syscall_getchar : W -> res (Z * W) := WRAP0 3.
Definition syscall_readdir (a b c : Z) : W -> res (Z * W) := WRAP3 4 a b c.
Definition syscall_readfile (a b c : Z) : W -> res (Z * W) := WRAP3 5 a b c.
Definition syscall_getpid : W -> res (Z * W) := WRAP0 6.
Definition syscall_write_hex (a : Z) : W -> res (Z * W) := WRAP1 9 a.
Definition syscall_write_dec (a : Z) : W -> res (Z * W) := WRAP1 10 a.
Definition syscall_open (a b : Z) : W -> res (Z * W) := WRAP2 11 a b.
Definition syscall_fd_read (a b c : Z) : W -> res (Z * W) := WRAP3 12 a b c.
Definition syscall_close (a : Z) : W -> res (Z * W) := WRAP1 13 a.
Definition syscall_fd_write (a b c : Z) : W -> res (Z * W) := WRAP3 14 a b c.
Definition syscall_chdir (a : Z) : W -> res (Z * W) := WRAP1 15 a.
Definition syscall_getcwd (a b : Z) : W -> res (Z * W) := WRAP2 16 a b.
Definition syscall_mkdir (a : Z) : W -> res (Z * W) := WRAP1 17 a.
Definition syscall_sbrk (increment : Z) (w : W) : res (Z * W) := int80 [18; u32 increment] w.
Definition syscall_execve (path argv envp : Z) (w : W) : res (Z * W) := int_call [19; u32 path; u32 argv; u32 envp] w.
Definition syscall_fork (w : W) : res (Z * W) := int_call [20] w.
Definition syscall_exit (status : Z) (w : W) : res (Z * W) := '(_, w) ← int80 [21; u32 status] w; pause_forever w.
Definition syscall_waitpid (pid status : Z) (w : W) : res (Z * W) := int_call [22; u32 pid; u32 status] w.
Definition syscall_ticks (w : W) : res (Z * W) := '(r, w) ← int_call [7] w; Ok (u32 r, w).
Definition syscall_memory_kib (w : W) : res (Z * W) := '(r, w) ← int_call [8] w; Ok (u32 r, w).

(** The code of PID 1, once it is in ring 3.  [argv] is the address of the
    two pointers; the strings are where the linker put them. *)
Definition mother_process_entry (argv shell_path failure : Z) (w : W) : res (Z * W) :=
  '(shell_pid, w) ← syscall_fork w;
  '(_, w) ← (if shell_pid =? 0 then
               w ← ustore32 argv shell_path w;
               w ← ustore32 (u32 (argv + 4)) 0 w;
               path ← uload32 argv w;
               '(r, w) ← syscall_execve path argv 0 w;
               if r <? 0 then '(_, w) ← syscall_write failure w; syscall_exit 127 w else Ok (r, w)
             else Ok (0, w));
  pause_forever w.
End wrappers.

(** ** main.c *)

Definition MULTIBOOT_FLAG_MEM : Z := 0x001.

(** [struct multiboot], as far as [main] reads it. *)
Record multiboot : Type := mk_multiboot {
  flags : Z;
  mem_lower : Z;
  mem_upper : Z;
  boot_device : Z;
  cmdline : Z;
  mods_count : Z;
  mods_addr : Z
}.

(** The machine with the processor's tables. *)
Record boot_state (K : Type) : Type := mk_boot_state {
  b_tables : DescriptorTables.tables;
  b_machine : machine K (initrd K)
}.
Arguments mk_boot_state {K}. Arguments b_tables {K}. Arguments b_machine {K}.

Section main.
Context {K : Type} `{!Kmalloc K} `{!BootAllocator K}.
Variables gdt_address idt_address tss_address : Z.
Variable stub : Z -> Z.
(** ESP and EBP when [move_stack] reads them, and the entry of PID 1. *)
Variables boot_esp boot_ebp mother_entry : Z.
Implicit Types k : kernel page_bytes K (initrd K).

(** [fs_root = initialise_initrd(..)], on the kernel's memory and allocator. *)
Definition mount_initrd (location end_ : Z) k : res (Z * kernel page_bytes K (initrd K)) :=
  '(root, f) ← initialise_initrd location end_ (imem (kfs k)) (shared_dirent (kfs k)) (kstate (kmm k));
  Ok (root, with_mm (with_fs k f) (Paging.with_kstate (kmm k) (ialloc f))).

(** "Multiboot contiguous memory: " and the two numbers. *)
Definition announce_memory (contiguous_memory_kib physical_memory_end : Z) (s : monitor) : res monitor :=
  s ← write_all [codes "Multiboot contiguous memory: "] s;
  s ← monitor_write_dec console_put contiguous_memory_kib (Ok s); s ← s;
  s ← write_all [codes " KiB (~"] s;
  s ← monitor_write_dec console_put (physical_memory_end / (1024 * 1024)) (Ok s); s ← s;
  write_all [codes " MiB)" ++ [10]] s.

Definition announce_mother (mother_pid : Z) (s : monitor) : res monitor :=
  s ← write_all [codes "Started user mother process with PID "] s;
  s ← monitor_write_dec console_put (u32 mother_pid) (Ok s); s ← s;
  write_all [codes "; it will fork shell PID 2." ++ [10]] s.

Definition main (mboot : multiboot) (initial_stack : Z) (b : boot_state K) : res (boot_state K) :=
  let initial_esp := initial_stack in
  let m := b_machine b in
  let k := proc m in
  let t := DescriptorTables.init_descriptor_tables gdt_address idt_address tss_address stub (b_tables b) in
  s ← monitor_clear (screen m);
  t ← init_timer 50 t;
  ASSERT (0 <? mods_count mboot);;
  let initrd_location := load32 (imem (kfs k)) (mods_addr mboot) in
  let initrd_end := load32 (imem (kfs k)) (u32 (mods_addr mboot + 4)) in
  let k := with_mm k (Paging.with_kstate (kmm k) (set_placement_address initrd_end (kstate (kmm k)))) in
  ASSERT (negb (Z.land (flags mboot) MULTIBOOT_FLAG_MEM =? 0));;
  ASSERT (mem_upper mboot <=? (0xFFFFFFFF - 0x100000) / 1024);;
  let physical_memory_end := u32 (0x100000 + mem_upper mboot * 1024) in
  let contiguous_memory_kib := u32 (mem_upper mboot + 1024) in
  s ← announce_memory contiguous_memory_kib physical_memory_end s;
  '(h, mm) ← initialise_paging physical_memory_end (DescriptorTables.interrupt_handlers t) (kmm k);
  '(_, _, k) ← move_stack 0xE0000000 0x2000 initial_esp boot_esp boot_ebp (with_mm k mm);
  k ← initialise_tasking k;
  '(fs_root, k) ← mount_initrd initrd_location initrd_end k;
  k ← task_set_working_directory fs_root k;
  let h := initialise_syscalls h in
  let '(input, h) := initialise_keyboard (input m) h in
  '(mother_pid, k) ← create_initial_user_process mother_entry k;
  ASSERT (mother_pid =? 1);;
  s ← announce_mother mother_pid s;
  Ok (mk_boot_state (DescriptorTables.with_handlers t h) (mk_machine k s input (tick m))).
End main.

(** ** The boot stack *)

(** The same memory with other bytes in the frames. *)
Definition recontents {C K} (c : Z -> C) (m : mm C K) : mm C K :=
  mk_mm (bits m) (page_tables m) (directories m) c (kernel_directory m) (current_directory m) (kstate m).

Section relocation.
Context {K S : Type} `{!Kmalloc K} `{!KmallocLaws K} `{!HasMemory S}.
Implicit Types m u : mm page_bytes K.
Implicit Types k : kernel page_bytes K S.

Lemma recontents_ok c m : vm_ok m -> vm_ok (recontents c m).
Proof. intros [? [] ? ? ? Hdir ? ? ? ? ? ?]. split; try done. intros x y Hx. destruct (Hdir x y Hx). by split. Qed.

Lemma map_stack_page_spec m a : vm_ok m -> is_u32 a -> user_slot m (current_directory m) (a / 0x1000) ->
  pte m (current_directory m) (a / 0x1000) = None ->
  clone_failure (map_stack_page a m) \/
  exists p m', map_stack_page a m = Ok (recontents (contents_of m) m') /\ mapped m m' (current_directory m) (a / 0x1000) p.
Proof.
  intros Hvm Ha Hus Hnone. unfold map_stack_page.
  destruct (get_page_absent m a _ Hvm Ha Hus Hnone) as [Hf|(t & ps & p0 & m1 & -> & Htr & Hp & Hp0 & E0)].
  { left. right. by apply alloc_failed_bind. }
  rsimpl. assert (page_tables m1 !! t = Some ps) as Hps by (destruct Hp as (?&?&?&?&?&?&?&?); done).
  destruct (back_page_spec m1 (current_directory m) (a / 0x1000) t ps p0) as [Hf|(p & m' & Hrun & Hm)]; try done; [by apply Htr| | |].
  { unfold is_u32 in Ha. Z.div_mod_to_equations. lia. }
  - left. unfold back_page in Hf. rewrite (read_page_ok _ _ _ ps p0) in Hf |- * by done. revert Hf. rsimpl.
    destruct (alloc_frame p0 0 1 (bits m1)) as [[q b]|msg|]; rsimpl; [|by apply clone_failure_conv|by apply clone_failure_fuel].
    intros Hf. by destruct (clone_failure_not_ok _ Hf _ eq_refl).
  - right. unfold back_page in Hrun. rewrite (read_page_ok _ _ _ ps p0) in Hrun |- * by done. revert Hrun. rsimpl.
    destruct (alloc_frame p0 0 1 (bits m1)) as [[q b]|msg|]; rsimpl; [|done..]. intros [= <-].
    eexists p, _. split; [|by eapply ready_mapped]. by rewrite <- (tr_contents _ _ _ _ Htr).
Qed.

(** What the relocation does to the page tables: pages [lo, hi] of the
    running directory are there, every other one is as it was. *)
Record stacked m u (lo hi : Z) : Prop := {
  sk_ok : vm_ok u;
  sk_kernel : kernel_directory u = kernel_directory m;
  sk_current : current_directory u = current_directory m;
  sk_kernel_slots : directories u !! kernel_directory m = directories m !! kernel_directory m;
  sk_slots v : user_slot m (current_directory m) v -> user_slot u (current_directory m) v;
  sk_old v : 0 <= v -> ~ lo < v <= hi -> pte u (current_directory m) v = pte m (current_directory m) v;
  sk_new v : lo < v <= hi -> exists p, pte u (current_directory m) v = Some p
}.

Lemma stacked_step m u lo hi a p u' : stacked m u lo hi -> a / 0x1000 = lo -> 0 <= lo <= hi ->
  mapped u u' (current_directory m) lo p -> stacked m (recontents (contents_of u) u') (lo - 1) hi.
Proof.
  intros [Hvm Hk Hc Hks Hsl Ho Hn] Ha Hlo Hm. assert (is_Some (directories u !! current_directory m)) as Hd by (rewrite <- Hc; apply Hvm).
  split; try done.
  - apply recontents_ok, Hm.
  - simpl. by rewrite (mp_kernel _ _ _ _ _ Hm).
  - simpl. by rewrite (mp_current _ _ _ _ _ Hm).
  - simpl. rewrite <- Hk, (mp_kernel_slots _ _ _ _ _ Hm), Hk. done.
  - intros v Hv. apply (mp_slots _ _ _ _ _ Hm _ _ (Hsl v Hv)).
  - intros v Hv Hout. rewrite <- (Ho v) by lia. apply (mp_pte _ _ _ _ _ Hm); [done|done|right; lia].
  - intros v Hv. destruct (decide (v = lo)) as [->|]; [exists p; apply Hm|]. destruct (Hn v) as [q Hq]; [lia|]. exists q. rewrite <- Hq.
    apply (mp_pte _ _ _ _ _ Hm); [done|lia|by right].
Qed.

Lemma map_stack_spec m : vm_ok m ->
  (forall v, 0xDFFFE <= v <= 0xE0000 -> user_slot m (current_directory m) v /\ pte m (current_directory m) v = None) ->
  clone_failure (map_stack 0xE0000000 0x2000 m) \/
  exists u, map_stack 0xE0000000 0x2000 m = Ok u /\ stacked m u 0xDFFFD 0xE0000.
Proof.
  intros Hvm Hfree. unfold map_stack. change (u32 (0xE0000000 - 0x2000)) with 0xDFFFE000.
  match goal with |- context [while ?f ?s0] =>
    destruct (while_cases (fun '(i, u) => exists v, i = v * 0x1000 /\ 0xDFFFD <= v <= 0xE0000 /\ stacked m u v 0xE0000)
      (fun u => stacked m u 0xDFFFD 0xE0000) clone_failure (fun '(i, _) => i) f s0) as [(u & -> & Hu)|Hf] end.
  - intros [i u] (v & -> & Hv & Hu). destruct (Z.leb_spec 0xDFFFE000 (v * 0x1000)) as [Hle|Hgt].
    2: { by replace 0xDFFFD with v by lia. }
    assert (v * 0x1000 / 0x1000 = v) as Hdiv by (by rewrite Z.div_mul). destruct (Hfree v) as [Hsl Hnone]; [lia|].
    pose proof (sk_current _ _ _ _ Hu) as Hc.
    destruct (map_stack_page_spec u (v * 0x1000)) as [Hf|(p & u' & -> & Hm)].
    + apply Hu.
    + unfold is_u32. lia.
    + rewrite Hdiv, Hc. by apply Hu.
    + rewrite Hdiv, Hc, (sk_old _ _ _ _ Hu) by lia. done.
    + destruct (map_stack_page (v * 0x1000) u) as [?|msg|] eqn:E; [by destruct (clone_failure_not_ok _ Hf _ eq_refl)|by eapply clone_failure_conv|by eapply clone_failure_fuel].
    + rsimpl. rewrite u32_small by lia. split; [|lia]. exists (v - 1). rewrite Hdiv, Hc in Hm. split_and!; [lia..|].
      apply (stacked_step m u v 0xE0000 (v * 0x1000) p u'); try done; lia.
  - exists 0xE0000. split_and!; try lia. split; try done. intros v ?. lia.
  - lia.
  - right. by exists u.
  - by left.
Qed.

(** A mapped address is somewhere, and in a frame where the slot is not the
    kernel's. *)
Lemma locate_mapped k a p : vm_ok (kmm k) -> 0 <= a < 2 ^ 32 -> pte (kmm k) (current_directory (kmm k)) (a / 0x1000) = Some p ->
  exists l, locate a k = Ok l /\ (user_slot (kmm k) (current_directory (kmm k)) (a / 0x1000) -> is_Some l).
Proof.
  intros Hvm Ha Hp. unfold pte in Hp. assert (a / 0x1000 / 1024 = a / 0x400000) as Hs by (by rewrite Z.div_div). rewrite Hs in Hp.
  destruct (directories (kmm k) !! current_directory (kmm k)) as [d|] eqn:Hd; [|done]. cbn [mbind option_bind] in Hp.
  destruct (tables d !! Z.to_nat (a / 0x400000)) as [t|] eqn:Ht; [|done]. cbn [mbind option_bind] in Hp.
  destruct (Z.eqb_spec t 0) as [|Ht0]; [done|]. unfold table_entry in Hp.
  destruct (page_tables (kmm k) !! t) as [ps|] eqn:Hps; [|done]. cbn [mbind option_bind] in Hp.
  destruct (ps !! Z.to_nat (a / 0x1000 mod 1024)) as [q|] eqn:Hq; [|done]. cbn [mbind option_bind] in Hp.
  destruct (Z.eqb_spec (present q) 0) as [|Hq0]; [done|].
  destruct (vm_kernel _ Hvm) as [kd Hkd]. pose proof (dk_tables _ _ (vm_directories _ Hvm _ _ Hkd)) as Hl.
  destruct (lookup_lt_is_Some_2 (tables kd) (Z.to_nat (a / 0x400000))) as [kt Hkt]; [Z.to_euclidean_division_equations; lia|].
  unfold locate, read_directory, table_slot. rewrite Hd. rsimpl. rewrite Ht. rsimpl. rewrite (proj2 (Z.eqb_neq t 0)) by done.
  rewrite Hkd. rsimpl. rewrite Hkt. rsimpl. rewrite (read_page_ok t _ _ ps q) by done. rsimpl. rewrite (proj2 (Z.eqb_neq (present q) 0)) by done.
  destruct (Z.eqb_spec kt t) as [->|Hne].
  - exists None. split; [done|]. intros (d' & kd' & Hd' & Hkd' & _ & Hus). exfalso. rewrite Hs in Hus.
    assert (d' = d) as -> by congruence. assert (kd' = kd) as -> by congruence. by apply (Hus t Ht Ht0).
  - by eexists.
Qed.

(** Copying into the frames of the running directory. *)
Lemma vmemcpy_frames dest src len k : 0 <= src -> src + len <= 2 ^ 32 -> 0 <= dest -> dest + len < 2 ^ 32 -> 0 <= len ->
  (forall a, src <= a < src + len -> exists l, locate a k = Ok l) ->
  (forall a, dest <= a < dest + len -> exists l, locate a k = Ok (Some l)) ->
  exists c, vmemcpy dest src len k = Ok (with_contents k c).
Proof.
  intros Hs0 Hs Hd0 Hd Hl Hsrc Hdest. unfold vmemcpy.
  match goal with |- context [while ?f ?s0] =>
    destruct (while_rule f (fun '(dp, sp, n, w) => exists c i, w = with_contents k c /\ 0 <= i <= len /\ n = len - i /\
        (i < len -> dp = dest + i /\ sp = src + i)) (fun w => exists c, w = with_contents k c) (fun '(_, _, n, _) => n) s0) as (w & Hr & c & ->) end.
  - intros [[[dp sp] n] w] (c & i & -> & Hi & -> & Hp). destruct (Z.eqb_spec (len - i) 0) as [E|E]; cbn [negb]; [by exists c|].
    destruct (Hp ltac:(lia)) as [-> ->]. destruct (Hsrc (src + i)) as [l Hll]; [lia|]. destruct (Hdest (dest + i)) as [[b o] Hdl]; [lia|].
    assert (exists v, vload8 (src + i) (with_contents k c) = Ok v) as [v ->].
    { unfold vload8. rewrite locate_contents, Hll. rsimpl. destruct l as [[b' o']|]; by eexists. }
    rsimpl. unfold vstore8. rewrite locate_contents, Hdl. rsimpl. rewrite (u32_small (len - i - 1)) by lia. split; [|lia].
    eexists _, (i + 1). split; [by rewrite with_contents_twice|]. split_and!; [lia..|]. intros Hlt. rewrite !u32_small by lia. lia.
  - exists (contents_of (kmm k)), 0. rewrite with_contents_same. split_and!; try done; lia.
  - lia.
  - by exists c.
Qed.

Lemma vload32_frames a k : 0 <= a -> a + 4 < 2 ^ 32 -> (forall x, a <= x < a + 4 -> exists l, locate x k = Ok l) -> exists v, vload32 a k = Ok v.
Proof.
  intros H0 Ha Hl. assert (forall x, a <= x < a + 4 -> exists v, vload8 x k = Ok v) as H8.
  { intros x Hx. destruct (Hl x Hx) as [[[b o]|] E]; unfold vload8; rewrite E; rsimpl; by eexists. }
  unfold vload32. cbn [vload_bytes]. rewrite !(u32_small (a + 1)), !(u32_small (a + 1 + 1)), !(u32_small (a + 1 + 1 + 1)) by lia.
  destruct (H8 a) as [v0 ->]; [lia|]. rsimpl. destruct (H8 (a + 1)) as [v1 ->]; [lia|]. rsimpl.
  destruct (H8 (a + 1 + 1)) as [v2 ->]; [lia|]. rsimpl. destruct (H8 (a + 1 + 1 + 1)) as [v3 ->]; [lia|]. rsimpl. by eexists.
Qed.

Lemma vstore_frames l : forall a k, 0 <= a -> a + Z.of_nat (List.length l) < 2 ^ 32 ->
  (forall x, a <= x < a + Z.of_nat (List.length l) -> exists y, locate x k = Ok (Some y)) ->
  exists c, vstore_bytes a l k = Ok (with_contents k c).
Proof.
  induction l as [|v l IH]; intros a k H0 Ha Hl; cbn [vstore_bytes List.length] in *.
  - exists (contents_of (kmm k)). by rewrite with_contents_same.
  - destruct (Hl a) as [[b o] E]; [lia|]. unfold vstore8 at 1. rewrite E. rsimpl. rewrite u32_small by lia.
    match goal with |- context [with_contents k ?c] => destruct (IH (a + 1) (with_contents k c)) as [c' ->]; [lia|lia| |] end.
    + intros x Hx. apply Hl. lia.
    + exists c'. done.
Qed.

Lemma rebase_stack_frames esp0 old offset k : (forall a, 0xDFFFE000 <= a < 0xE0001000 -> exists l, locate a k = Ok (Some l)) ->
  exists c, rebase_stack 0xE0000000 0x2000 esp0 old offset k = Ok (with_contents k c).
Proof.
  intros Hl. unfold rebase_stack. change (u32 (0xE0000000 - 0x2000)) with 0xDFFFE000.
  match goal with |- context [while ?f ?s0] =>
    destruct (while_rule f (fun '(i, w) => exists c, w = with_contents k c /\ 0xDFFFE000 <= i <= 0xE0000000 /\ i mod 4 = 0)
      (fun w => exists c, w = with_contents k c) (fun '(i, _) => i) s0) as (w & Hr & c & ->) end.
  - intros [i w] (c & -> & Hi & Hm). destruct (Z.ltb_spec 0xDFFFE000 i) as [Hlt|Hge]; [|by exists c].
    assert (0xDFFFE000 + 4 <= i) as Hi4 by (Z.to_euclidean_division_equations; lia).
    destruct (vload32_frames i (with_contents k c)) as [tmp ->]; [lia|lia| |].
    { intros x Hx. rewrite locate_contents. destruct (Hl x) as [l ->]; [lia|]. by eexists. }
    rsimpl. assert (exists c', (if (old <? tmp) && (tmp <? esp0) then vstore32 i (u32 (tmp + offset)) (with_contents k c) else Ok (with_contents k c)) =
      Ok (with_contents k c')) as [c' ->].
    { destruct (_ && _); [|by exists c]. unfold vstore32.
      destruct (vstore_frames (le32 (u32 (tmp + offset))) i (with_contents k c)) as [c' E]; [lia|rewrite le32_length; lia| |exists c'; by rewrite E, with_contents_twice].
      intros x Hx. rewrite le32_length in Hx. rewrite locate_contents. apply Hl. lia. }
    rsimpl. rewrite u32_small by lia. split; [|lia]. exists c'. split_and!; [done|lia|lia|]. Z.to_euclidean_division_equations. lia.
  - exists (contents_of (kmm k)). by rewrite with_contents_same.
  - lia.
  - by exists c.
Qed.

Lemma move_stack_spec esp0 old ebp k : paging_ready k ->
  (forall v, 0xDFFFE <= v <= 0xE0000 -> user_slot (kmm k) (current_directory (kmm k)) v /\ pte (kmm k) (current_directory (kmm k)) v = None) ->
  (forall v, 0 <= v -> v * 0x1000 < esp0 -> exists p, pte (kmm k) (current_directory (kmm k)) v = Some p) ->
  0 <= old <= esp0 -> esp0 <= 0xC0000000 -> esp0 - old <= 0x2000 ->
  clone_failure (move_stack 0xE0000000 0x2000 esp0 old ebp k) \/
  exists m c, move_stack 0xE0000000 0x2000 esp0 old ebp k = Ok (0xE0000000 - (esp0 - old), u32 (ebp + u32 (0xE0000000 - esp0)), with_contents (with_mm k m) c) /\
    paging_ready (with_contents (with_mm k m) c).
Proof.
  intros [Hvm Hreg Hcur Hts Hpid] Hfree Hmap Hold Hesp Hlen. unfold move_stack.
  destruct (map_stack_spec (kmm k) Hvm Hfree) as [Hf|(m & -> & Hm)]; [left; by apply clone_failure_bind|]. rsimpl. right.
  rewrite (u32_small (0xE0000000 - esp0)), (u32_small (old + _)), (u32_small (esp0 - old)) by lia.
  pose proof (sk_current _ _ _ _ Hm) as Hc. pose proof (sk_kernel _ _ _ _ Hm) as Hk.
  assert (forall a, 0xDFFFE000 <= a < 0xE0001000 -> exists l, locate a (with_mm k m) = Ok (Some l)) as Hdest.
  { intros a Ha. assert (0xDFFFD < a / 0x1000 <= 0xE0000) as Hv by (Z.to_euclidean_division_equations; lia).
    destruct (sk_new _ _ _ _ Hm _ Hv) as [p Hp]. rewrite <- Hc in Hp.
    destruct (locate_mapped (with_mm k m) a p) as (l & Hl & Hsl); [apply Hm|lia|exact Hp|].
    destruct Hsl as [x ->]; [|by exists x]. simpl. rewrite Hc. apply (sk_slots _ _ _ _ Hm), Hfree. lia. }
  assert (forall a, old <= a < esp0 -> exists l, locate a (with_mm k m) = Ok l) as Hsrc.
  { intros a Ha. assert (0 <= a / 0x1000 /\ a / 0x1000 * 0x1000 <= a) as [Hv0 Hv] by (Z.to_euclidean_division_equations; lia).
    destruct (Hmap (a / 0x1000)) as [p Hp]; [done|lia|]. rewrite <- (sk_old _ _ _ _ Hm), <- Hc in Hp by lia.
    destruct (locate_mapped (with_mm k m) a p) as (l & Hl & _); [apply Hm|lia|exact Hp|by exists l]. }
  destruct (vmemcpy_frames (old + (0xE0000000 - esp0)) old (esp0 - old) (with_mm k m)) as [c ->]; [lia..| | |].
  { intros a Ha. apply Hsrc. lia. }
  { intros a Ha. apply Hdest. lia. }
  rsimpl. destruct (rebase_stack_frames esp0 old (0xE0000000 - esp0) (with_contents (with_mm k m) c)) as [c' ->].
  { intros a Ha. rewrite locate_contents. by apply Hdest. }
  rsimpl. rewrite with_contents_twice. exists m, c'. split; [do 3 f_equal; lia|]. split; try done.
  - apply (recontents_ok c' m), Hm.
  - apply (user_region_keep (kmm k)); [exact Hk|exact (sk_kernel_slots _ _ _ _ Hm)|done].
  - change (current_directory m <> kernel_directory m). congruence.
Qed.
End relocation.

(** ** Mounting the archive while the processes wait *)
Section mounting.
Context {K : Type} `{!Kmalloc K} `{!KmallocLaws K}.
Implicit Types s : initrd K.
Implicit Types k : kernel page_bytes K (initrd K).

Lemma new_node_live nm fl s nd s' : new_tree_node nm fl s = Ok (nd, s') -> k_live (ialloc s) ⊆ k_live (ialloc s').
Proof.
  unfold new_tree_node. intros ([a ks] & Hk & H)%bind_Ok_inv. apply bind_Ok_inv in H as (? & _ & H). apply bind_Ok_inv in H as (? & _ & [= _ <-]).
  destruct (kmalloc_plain_fresh _ _ _ _ Hk) as (_ & _ & E). simpl. rewrite E. set_solver.
Qed.

Lemma attach_alloc d c s s' : attach_child d c s = Ok s' -> ialloc s' = ialloc s.
Proof.
  unfold attach_child. intros (? & _ & H)%bind_Ok_inv. apply bind_Ok_inv in H as (? & _ & H).
  apply bind_Ok_inv in H as (? & _ & H). by apply bind_Ok_inv in H as (? & _ & [= <-]).
Qed.

Lemma directory_live d nm s x s' : get_or_create_directory d nm s = Ok (x, s') -> k_live (ialloc s) ⊆ k_live (ialloc s').
Proof.
  unfold get_or_create_directory. intros (y & _ & H)%bind_Ok_inv. destruct (negb (y =? 0)).
  - apply bind_Ok_inv in H as (? & _ & H). by apply bind_Ok_inv in H as (? & _ & [= _ <-]).
  - apply bind_Ok_inv in H as ([nd s1] & Hn & H). apply bind_Ok_inv in H as (s2 & Ha & [= _ <-]).
    rewrite (attach_alloc _ _ _ _ Ha). by apply new_node_live in Hn.
Qed.

Lemma add_file_live i s s' : add_archived_file i s = Ok s' -> k_live (ialloc s) ⊆ k_live (ialloc s').
Proof.
  unfold add_archived_file. intros (? & _ & H)%bind_Ok_inv. apply bind_Ok_inv in H as (? & _ & H). apply bind_Ok_inv in H as (? & _ & H). revert H.
  apply (while_preserves (fun st => k_live (ialloc s) ⊆ k_live (ialloc st.2)) (fun r => k_live (ialloc s) ⊆ k_live (ialloc r))); [..|done].
  - intros [[[d p] c] u] st Hu H. cbn [snd] in Hu. unfold archive_step in H. destruct (_ <? _); [|done].
    apply bind_Ok_inv in H as ([cm p'] & _ & H). apply bind_Ok_inv in H as (? & _ & H). apply bind_Ok_inv in H as (? & _ & H).
    apply bind_Ok_inv in H as (? & _ & H). destruct (p' <? _).
    + apply bind_Ok_inv in H as (? & _ & H). apply bind_Ok_inv in H as ([d' u'] & Hd & [= <-]). apply directory_live in Hd. cbn [snd]. set_solver.
    + apply bind_Ok_inv in H as (? & _ & H). apply bind_Ok_inv in H as (? & _ & H). apply bind_Ok_inv in H as ([f u'] & Hn & H).
      apply bind_Ok_inv in H as (u2 & Ha & [= <-]). apply new_node_live in Hn. apply attach_alloc in Ha. cbn [snd]. rewrite Ha.
      change (ialloc (update_fs f ?g u')) with (ialloc u'). set_solver.
  - intros [[[d p] c] u] r Hu H. cbn [snd] in Hu. unfold archive_step in H. destruct (_ <? _); [|by injection H as <-].
    apply bind_Ok_inv in H as ([cm p'] & _ & H). apply bind_Ok_inv in H as (? & _ & H). apply bind_Ok_inv in H as (? & _ & H).
    apply bind_Ok_inv in H as (? & _ & H). destruct (p' <? _).
    + apply bind_Ok_inv in H as (? & _ & H). by apply bind_Ok_inv in H as ([d' u'] & _ & ?).
    + apply bind_Ok_inv in H as (? & _ & H). apply bind_Ok_inv in H as (? & _ & H). apply bind_Ok_inv in H as ([f u'] & _ & H).
      by apply bind_Ok_inv in H as (u2 & _ & ?).
Qed.

(** Mounting only allocates. *)
Lemma mount_live location end_ m dirent ks root s : initialise_initrd location end_ m dirent ks = Ok (root, s) -> k_live ks ⊆ k_live (ialloc s).
Proof.
  unfold initialise_initrd. intros (? & _ & H)%bind_Ok_inv. apply bind_Ok_inv in H as (? & _ & H). apply bind_Ok_inv in H as (? & _ & H).
  apply bind_Ok_inv in H as ([rt s1] & H1 & H). apply bind_Ok_inv in H as ([dv s2] & H2 & H). apply bind_Ok_inv in H as (s3 & H3 & H).
  apply bind_Ok_inv in H as (s4 & H4 & [= _ <-]). apply new_node_live in H1, H2. apply attach_alloc in H3. cbn [ialloc with_roots configure_directory update_fs with_tree] in *.
  assert (k_live (ialloc s3) ⊆ k_live (ialloc s4)) as H34.
  { set (s3' := with_roots s3 rt dv) in H4. change (ialloc s3) with (ialloc s3'). clearbody s3'.
    unfold for_range in H4. refine (for_nat_inv (fun _ u => k_live (ialloc s3') ⊆ k_live (ialloc u)) _ _ _ _ _ _ _ H4); [|done].
    intros j u u' _ Hu E. unfold load_header in E. apply bind_Ok_inv in E as (? & _ & E). apply bind_Ok_inv in E as (? & _ & E).
    apply bind_Ok_inv in E as (? & _ & E). apply add_file_live in E. set_solver. }
  rewrite H3 in H34. unfold with_tree in *. cbn in *. set_solver.
Qed.

(** More blocks in use do not disturb the processes. *)
Lemma live_sound k ks : sound k -> k_live (kstate (kmm k)) ⊆ k_live ks -> sound (with_mm k (Paging.with_kstate (kmm k) ks)).
Proof.
  intros [[q Hq] Hr Hkd] E. split; [|done..]. exists q. pose proof (po_vm _ _ Hq) as Hvm.
  assert (vm_ok (Paging.with_kstate (kmm k) ks)) as Hvm'.
  { apply vm_ok_kstate; [done|]. intros x [[y Hy]|[y Hy]]; apply E; [by eapply (ol_tables _ (vm_live _ Hvm))|by eapply (ol_directories _ (vm_live _ Hvm))]. }
  apply (remap_process_ok k); [done|]. split; try done; try apply Hq.
  - intros x (P1 & P2 & P3). split_and!; try done. simpl. set_solver.
  - intros x t Hx. exists t. split; [done|]. split; [by split|]. intros Hu.
    destruct (to_heap _ _ _ (po_tasks _ _ Hq x t Hx) Hu). by split.
Qed.
End mounting.

(** ** The whole of main *)

Section boot_theorem.
Context {K : Type} `{!Kmalloc K} `{!KmallocLaws K} `{!BootAllocator K} `{!BootLaws K} `{!BootKeeps K}.
Implicit Types k : kernel page_bytes K (initrd K).

(** Before any process: an empty store, and the first pid. *)
Lemma tasking_shape k k' : initialise_tasking k = Ok k' ->
  next_pid k' = next_pid k /\ kfs k' = kfs k /\ current_task k' = ready_queue k'.
Proof.
  unfold initialise_tasking, alloc_task, alloc_stack. intros ([a k1] & H1 & H)%bind_Ok_inv. apply bind_Ok_inv in H1 as ([b ks] & _ & [= <- <-]).
  apply bind_Ok_inv in H as ([st k2] & H2 & [= <-]). by apply bind_Ok_inv in H2 as ([b' ks'] & _ & [= _ <-]).
Qed.

Lemma alloc_task_same k a k' : alloc_task k = Ok (a, k') -> kfs k' = kfs k /\ next_pid k' = next_pid k.
Proof. unfold alloc_task. by intros ([b ks] & _ & [= _ <-])%bind_Ok_inv. Qed.
Lemma alloc_stack_same k a k' : alloc_stack k = Ok (a, k') -> kfs k' = kfs k /\ next_pid k' = next_pid k.
Proof. unfold alloc_stack. by intros ([b ks] & _ & [= _ <-])%bind_Ok_inv. Qed.
Lemma append_same a k k' : append_ready_task a k = Ok k' -> kfs k' = kfs k /\ next_pid k' = next_pid k.
Proof. unfold append_ready_task. by intros (tl & _ & [= <-])%bind_Ok_inv. Qed.

Lemma spawn_shape entry k pid k' : create_initial_user_process entry k = Ok (pid, k') -> kfs k' = kfs k /\ next_pid k' = u32 (next_pid k + 1).
Proof.
  unfold create_initial_user_process. intros (? & _ & H)%bind_Ok_inv. apply bind_Ok_inv in H as (? & _ & H).
  apply bind_Ok_inv in H as ([a k1] & H1 & H). apply alloc_task_same in H1 as [<- <-].
  apply bind_Ok_inv in H as ([d m1] & _ & H). apply bind_Ok_inv in H as (m2 & _ & H). cbn [take_pid] in H.
  apply bind_Ok_inv in H as ([st k2] & H2 & H). apply alloc_stack_same in H2 as [F2 P2].
  apply bind_Ok_inv in H as (cur & _ & H). apply bind_Ok_inv in H as (k3 & H3 & E). apply append_same in H3 as [F3 P3].
  assert (k' = k3) as -> by congruence. rewrite F3, P3. split; [exact F2|exact P2].
Qed.

Lemma chdir_root k q root n : process_ok k q -> runnable (tasks k) (current_task k) -> root <> 0 -> node_at (kfs k) root = Some n -> is_directory n = true ->
  task_set_working_directory root k = Ok (update_task (current_task k) (Task.set_working_directory root) k).
Proof.
  intros Hq (t & Ht & _) Hr Hn Hd. unfold task_set_working_directory.
  assert (current_task k <> 0) as Hc by (pose proof (qo_addr _ _ (po_queue _ _ Hq) _ (qo_current _ _ (po_queue _ _ Hq))); lia).
  rewrite (proj2 (Z.eqb_neq (current_task k) 0)), (proj2 (Z.eqb_neq root 0)) by done. cbn [negb ASSERT]. rsimpl.
  unfold deref. rewrite Hn. rsimpl. rewrite Hd. cbn [ASSERT]. by rsimpl.
Qed.

(** A machine that the boot loader started with an archive of [inputs]. *)
Record bootable (mboot : multiboot) (initial_stack boot_esp : Z) (inputs : list (option (list Z) * list Z)) (b : boot_state K) : Prop := {
  bo_gdt : List.length (DescriptorTables.gdt_entries (b_tables b)) = 6%nat;
  bo_screen : screen_ok (screen (b_machine b));
  bo_ring : List.length (input_buffer (input (b_machine b))) = 128%nat;
  bo_tick : is_u32 (tick (b_machine b));
  bo_tasks : tasks (proc (b_machine b)) = ∅;
  bo_pid : next_pid (proc (b_machine b)) = 1;
  bo_early : early (kstate (kmm (proc (b_machine b))));
  bo_tables : page_tables (kmm (proc (b_machine b))) = ∅;
  bo_directories : directories (kmm (proc (b_machine b))) = ∅;
  bo_mods : 0 < mods_count mboot;
  bo_flags : Z.land (flags mboot) MULTIBOOT_FLAG_MEM <> 0;
  bo_bytes : bytes_ok (imem (kfs (proc (b_machine b))));
  bo_archive : exists image, let m := imem (kfs (proc (b_machine b))) in let location := load32 m (mods_addr mboot) in
    MakeInitrd.main inputs = Ok (Some image) /\ Forall (fun i => 0 ∉ snd i) inputs /\ unobstructed inputs /\ loaded m location image /\
    0 <= location /\ load32 m (u32 (mods_addr mboot + 4)) = location + Z.of_nat (List.length image);
  bo_end : let e := load32 (imem (kfs (proc (b_machine b)))) (u32 (mods_addr mboot + 4)) in 0 < e <= 0x3D0000 /\
    placement_address (kstate (kmm (proc (b_machine b)))) <= e /\
    0 <= boot_esp <= initial_stack /\ initial_stack <= e /\ initial_stack - boot_esp <= 0x2000 /\
    0 <= mem_upper mboot <= (0xFFFFFFFF - 0x100000) / 1024 /\
    e + 0x500000 <= (0x100000 + mem_upper mboot * 1024) / 0x1000 * 0x1000
}.

(** The four interrupts that have a handler. *)
Definition boot_handlers : handler_table := {[ 14 := PageFault; 32 := Timer; 33 := KeyboardIrq; 128 := Syscall ]}.

Lemma announce_memory_ok a e s : is_u32 a -> is_u32 e -> screen_ok s -> exists s', announce_memory a e s = Ok s' /\ screen_ok s'.
Proof.
  intros Ha He Hs. unfold announce_memory, write_all. cbn [foldl].
  destruct (monitor_write_ok (codes "Multiboot contiguous memory: ") s Hs) as (s1 & -> & H1). rsimpl.
  destruct (monitor_dec_ok a s1 Ha H1) as (s2 & -> & H2). rsimpl.
  destruct (monitor_write_ok (codes " KiB (~") s2 H2) as (s3 & -> & H3). rsimpl.
  destruct (monitor_dec_ok (e / (1024 * 1024)) s3) as (s4 & -> & H4); [unfold is_u32 in *; Z.to_euclidean_division_equations; lia|done|]. rsimpl.
  apply monitor_write_ok. done.
Qed.

Lemma announce_mother_ok s : screen_ok s -> exists s', announce_mother 1 s = Ok s' /\ screen_ok s'.
Proof.
  intros Hs. unfold announce_mother, write_all. cbn [foldl].
  destruct (monitor_write_ok (codes "Started user mother process with PID ") s Hs) as (s1 & -> & H1). rsimpl.
  destruct (monitor_dec_ok (u32 1) s1) as (s2 & -> & H2); [done|done|]. rsimpl. by apply monitor_write_ok.
Qed.

Lemma init_timer_spec s : init_timer 50 s = Ok (DescriptorTables.mk_tables (DescriptorTables.gdt_entries s) (DescriptorTables.idt_entries s)
  (DescriptorTables.tss_entry s) (DescriptorTables.gdtr s) (DescriptorTables.idtr s) (DescriptorTables.tr s)
  (<[32 := Timer]> (DescriptorTables.interrupt_handlers s)) (DescriptorTables.port_writes s ++ [(0x43, 0x36); (0x40, 0x37); (0x40, 0x5D)])).
Proof.
  unfold init_timer, DescriptorTables.outb, DescriptorTables.with_handlers.
  cbn [DescriptorTables.gdt_entries DescriptorTables.idt_entries DescriptorTables.tss_entry DescriptorTables.gdtr DescriptorTables.idtr
    DescriptorTables.tr DescriptorTables.interrupt_handlers DescriptorTables.port_writes].
  change (1193180 / 50) with 23863. rewrite !ASSERT_ok by done. rsimpl. rewrite <- !app_assoc. done.
Qed.

Lemma reset_keyboard b t : List.length (input_buffer b) = 128%nat -> represents (initialise_keyboard b t).1 ([], false).
Proof. intros Hl. split; [split; simpl; [done|lia|lia]|done|done|constructor]. Qed.

(** The paging that main starts is ready for tasking, and for the stack. *)
Lemma paging_started_ready pme n p m0 k : paging_started pme n p m0 (kmm k) -> 0 < p <= 0x3D0000 -> is_u32 pme -> tasks k = ∅ -> next_pid k = 1 ->
  paging_ready k /\
  (forall v, 0xDFFFE <= v <= 0xE0000 -> user_slot (kmm k) (current_directory (kmm k)) v /\ pte (kmm k) (current_directory (kmm k)) v = None) /\
  (forall v, 0 <= v -> v * 0x1000 < p -> exists e, pte (kmm k) (current_directory (kmm k)) v = Some e).
Proof.
  intros Hps Hp Hpme Hts Hpid. pose proof (ps_limit _ _ _ _ _ Hps) as Hn. rewrite (ps_kernel _ _ _ _ _ Hps) in Hn.
  assert (is_u32 (pme / 0x1000 * 0x1000)) as Hpe by (unfold is_u32 in *; Z.to_euclidean_division_equations; lia).
  destruct (directory_at_bounds p _ Hpe) as (H1 & H2 & _). unfold identity_tables in Hn.
  pose proof (Z.div_mod (n + 1023) 1024). pose proof (Z.mod_pos_bound (n + 1023) 1024).
  split; [|split].
  - split; try done; [apply Hps| |apply Hps]. apply (ps_region _ _ _ _ _ Hps). lia.
  - intros v Hv. split; [apply (ps_high _ _ _ _ _ Hps); unfold HEAP_PAGE; lia|].
    rewrite (proj2 (ps_pages _ _ _ _ _ Hps v ltac:(lia))). unfold boot_pte, boot_entry, HEAP_PAGE.
    rewrite (proj2 (Z.ltb_ge v n)), (proj2 (Z.ltb_ge v (0xC0000 + 256))) by lia. by rewrite andb_false_r.
  - intros v Hv0 Hv. rewrite (proj2 (ps_pages _ _ _ _ _ Hps v ltac:(lia))). unfold boot_pte, boot_entry.
    rewrite (proj2 (Z.ltb_lt v n)) by lia. simpl. by eexists.
Qed.

(** From tasking to the first process, over the processes only. *)
Definition start_processes (location end_ mother_entry : Z) k : res (Z * Z * kernel page_bytes K (initrd K)) :=
  k ← initialise_tasking k;
  '(fs_root, k) ← mount_initrd location end_ k;
  k ← task_set_working_directory fs_root k;
  '(mother_pid, k) ← create_initial_user_process mother_entry k;
  Ok (fs_root, mother_pid, k).

(** The archive is mounted and PID 1 waits for its first turn. *)
Record started (m : mem) (location end_ mother_entry : Z) (files : list afile) (root : Z) k : Prop := {
  sr_sound : sound k;
  sr_pid : next_pid k = 2;
  sr_mother : exists a t, tasks k !! a = Some t /\ id t = 1 /\ Task.eip t = mother_entry /\ state t = TASK_RUNNABLE /\
    is_user_process t = 1 /\ working_directory t = root;
  sr_idle : exists t, tasks k !! current_task k = Some t /\ id t = 0 /\ working_directory t = root;
  sr_mounted : mounting m location end_ root files (kfs k) (List.length files)
}.

Lemma start_processes_spec location end_ mother_entry files k : paging_ready k -> archive (imem (kfs k)) location end_ files -> mother_entry <> 0 ->
  clone_failure (start_processes location end_ mother_entry k) \/
  exists root k', start_processes location end_ mother_entry k = Ok (root, 1, k') /\ started (imem (kfs k)) location end_ mother_entry files root k'.
Proof.
  intros Hp Har He. unfold start_processes.
  destruct (initialise_tasking_sound k Hp) as [Hf|(k1 & Hk1 & Hs1)]; [left; by apply clone_failure_bind|].
  destruct (tasking_shape k k1 Hk1) as (Hp1 & Hf1 & Hc1). rewrite Hk1. rsimpl. unfold mount_initrd. rewrite Hf1.
  destruct (initialise_initrd_correct location end_ _ (shared_dirent (kfs k)) (kstate (kmm k1)) files Har) as [Hf|(root & f & Hrun & Hmt)].
  { left. right. do 2 apply alloc_failed_bind. done. }
  pose proof (mount_live _ _ _ _ _ _ _ Hrun) as Hl. rewrite Hrun. rsimpl.
  set (k2 := with_mm (with_fs k1 f) (Paging.with_kstate (kmm k1) (ialloc f))).
  assert (sound k2) as Hs2.
  { pose proof (live_sound k1 (ialloc f) Hs1 Hl) as Hs. eapply calm_sound; [exact Hs|]. apply (calm_fs (with_mm k1 (Paging.with_kstate (kmm k1) (ialloc f))) f). }
  pose proof Hs2 as [[q Hq] Hr _]. pose proof Hmt as [Hio [(r & Hrt & _ & Hrd)] _ _ _ _ Hroot _ _]. rewrite Hroot in Hrt.
  assert (root <> 0) as Hr0 by (pose proof (ok_addr _ (io_tree _ Hio) root r Hrt); lia).
  pose proof (chdir_root k2 q root (fs r) Hq Hr Hr0 (node_at_tree f root r Hrt) Hrd) as Hcd. rewrite Hcd. rsimpl.
  pose proof (calm_sound _ _ Hs2 (calm_chdir _ _ _ Hcd)) as Hs3. set (k3 := update_task _ _ k2) in *.
  pose proof Hr as (t & Ht & Hst). pose proof Hs3 as [[q3 Hq3] _ _].
  assert (tasks k3 !! current_task k3 = Some (Task.set_working_directory root t)) as Ht3 by (change (alter (Task.set_working_directory root) (current_task k2) (tasks k2) !! current_task k2 = Some (Task.set_working_directory root t)); by rewrite lookup_alter_eq, Ht).
  assert (next_pid k3 = 1) as Hp3 by (change (next_pid k1 = 1); rewrite Hp1; by apply Hp).
  destruct (initial_process_spec k3 q3 _ mother_entry Hq3 Ht3 He) as [Hf|(k4 & a & x & nd & st & m2 & Hrun4 & Hok4 & Ha & Hx & Ec & _ & Ets)].
  { rewrite Hp3. lia. }
  { left. by apply clone_failure_bind. }
  right. rewrite Hrun4. rsimpl. rewrite Hp3. exists root, k4. split; [done|].
  assert (a <> current_task k3) as Hac by (intros ->; apply Ha, (qo_current _ _ (po_queue _ _ Hq3))).
  assert (x <> a) as Hxa by (intros ->; done).
  split.
  - by eapply keeps_spawn; [exact Hs3|exact He|rewrite Hp3; lia|exact Hrun4].
  - destruct (spawn_shape _ _ _ _ Hrun4) as [_ ->]. by rewrite Hp3.
  - exists a, (first_process k3 mother_entry nd st (Task.set_working_directory root t)). rewrite Ets, lookup_alter_ne, lookup_insert_eq by done.
    unfold first_process. rewrite Hp3. done.
  - rewrite Ec, Ets. exists (if decide (x = current_task k3) then set_next a (Task.set_working_directory root t) else Task.set_working_directory root t).
    assert (id t = 0) as Hid.
    { pose proof (po_tasks _ _ Hq _ _ Ht) as Hto. apply (to_idle _ _ _ Hto). exact Hc1. }
    case_decide as E; [subst x; rewrite lookup_alter_eq, lookup_insert_ne, Ht3 by done|rewrite lookup_alter_ne, lookup_insert_ne by done]; done.
  - destruct (spawn_shape _ _ _ _ Hrun4) as [-> _]. exact Hmt.
Qed.

(** [start_processes] inside a longer run. *)
Lemma start_processes_bind {A} location end_ mother_entry k (f : Z -> Z -> kernel page_bytes K (initrd K) -> res A) :
  (k ← initialise_tasking k; '(root, k) ← mount_initrd location end_ k; k ← task_set_working_directory root k;
   '(pid, k) ← create_initial_user_process mother_entry k; f root pid k) =
  ('(root, pid, k) ← start_processes location end_ mother_entry k; f root pid k).
Proof.
  unfold start_processes. destruct (initialise_tasking k) as [k1|?|]; [rsimpl|done..].
  destruct (mount_initrd location end_ k1) as [[root k2]|?|]; [rsimpl|done..].
  destruct (task_set_working_directory root k2) as [k3|?|]; [rsimpl|done..].
  by destruct (create_initial_user_process mother_entry k3) as [[pid k4]|?|].
Qed.

Section main_theorem.
Variables gdt_address idt_address tss_address : Z.
Variable stub : Z -> Z.
Variables boot_esp boot_ebp mother_entry : Z.

(** C19: booting.  On a machine whose loader provides the memory size and an
    archive that make_initrd wrote, [main] reaches its final loop unless
    memory runs out.  Then the machine invariant holds, the four handlers
    are registered, the timer is programmed for 50 Hz, PID 0 is running,
    PID 1 is runnable at its entry point, and every archived file is found
    under its path with its contents. *)
Theorem boot_reaches_user_mode mboot initial_stack inputs b :
  bootable mboot initial_stack boot_esp inputs b -> mother_entry <> 0 ->
  let r := main gdt_address idt_address tss_address stub boot_esp boot_ebp mother_entry mboot initial_stack b in
  clone_failure r \/
  exists b', r = Ok b' /\ machine_ok (b_machine b') /\
    DescriptorTables.interrupt_handlers (b_tables b') = boot_handlers /\
    DescriptorTables.port_writes (b_tables b') =
      DescriptorTables.port_writes (b_tables b) ++ DescriptorTables.pic_remap ++ [(0x43, 0x36); (0x40, 0x37); (0x40, 0x5D)] /\
    let k := proc (b_machine b') in
    next_pid k = 2 /\
    (exists t, tasks k !! current_task k = Some t /\ id t = 0) /\
    (exists a t, tasks k !! a = Some t /\ id t = 1 /\ Task.eip t = mother_entry /\ state t = TASK_RUNNABLE /\ is_user_process t = 1 /\
       working_directory t = initrd_root (kfs k)) /\
    forall i bytes nm buffer, inputs !! i = Some (Some bytes, nm) -> is_u32 buffer -> 0x3D0000 <= buffer ->
      buffer + Z.of_nat (List.length bytes) <= 2 ^ 32 ->
      exists x s', resolve_path_fs (initrd_root (kfs k)) (initrd_root (kfs k)) (Some (SLASH :: nm)) (kfs k) = Ok x /\
        read_fs x 0 (Z.of_nat (List.length bytes)) buffer (kfs k) = Ok (Z.of_nat (List.length bytes), s') /\
        loaded (imem s') buffer bytes.
Proof.
  intros [Hgdt Hscreen Hring Htick Hts Hpid Hearly Hpts Hds Hmods Hflags Hbytes (image & Him & Hz & Hun & Hld & Hloc & Hend) He] Hentry r.
  cbv zeta in He. destruct He as (He & Hplace & Hesp & Hstack & Hsize & Hupper & Hroom). subst r. unfold main.
  set (k0 := proc (b_machine b)) in *. set (location := load32 _ (mods_addr mboot)) in *. set (e := load32 _ (u32 _)) in *.
  destruct (monitor_clear_ok _ Hscreen) as (s1 & -> & Hs1). rsimpl. rewrite init_timer_spec. rsimpl.
  change ((0xFFFFFFFF - 0x100000) / 1024) with 4193279 in *.
  rewrite (ASSERT_ok (0 <? mods_count mboot)) by lia. rsimpl.
  rewrite (ASSERT_ok (negb _)) by (by apply negb_true_iff, Z.eqb_neq). rsimpl.
  rewrite (ASSERT_ok (mem_upper mboot <=? 4193279)) by lia. rsimpl.
  rewrite (u32_small (0x100000 + _)), (u32_small (mem_upper mboot + 1024)) by lia.
  set (pme := 0x100000 + mem_upper mboot * 1024) in *. assert (is_u32 pme) as Hpme by (unfold is_u32, pme; lia).
  destruct (announce_memory_ok (mem_upper mboot + 1024) pme s1) as (s2 & -> & Hs2); [unfold is_u32; lia|done|done|]. rsimpl.
  destruct (DescriptorTables.init_tables_spec gdt_address idt_address tss_address stub (b_tables b) Hgdt) as (gates & _ & _ & ->).
  cbn [DescriptorTables.interrupt_handlers DescriptorTables.port_writes].
  set (m0 := Paging.with_kstate (kmm k0) (set_placement_address e (kstate (kmm k0)))).
  destruct (early_set e (kstate (kmm k0)) Hearly) as [Hearly0 Hpl0]; [fold k0 in Hplace; lia|].
  assert (before_paging pme m0) as Hbp.
  { split; [exact Hearly0|simpl; rewrite Hpl0; lia|exact Hpme|simpl; rewrite Hpl0; lia|exact Hpts|exact Hds]. }
  destruct (initialise_paging_spec pme (<[32 := Timer]> ∅) m0 Hbp) as (n & m1 & Hrun & Hps). change (kmm (with_mm k0 m0)) with m0. rewrite Hrun. rsimpl.
  change (placement_address (kstate m0)) with (placement_address (set_placement_address e (kstate (kmm k0)))) in Hps. rewrite Hpl0 in Hps.
  set (k1 := with_mm (with_mm k0 m0) m1). destruct (paging_started_ready pme n e m0 k1 Hps He Hpme Hts Hpid) as (Hready & Hhigh & Hlow).
  destruct (move_stack_spec initial_stack boot_esp boot_ebp k1 Hready Hhigh) as [Hf|(m2 & c & Hrun2 & Hready2)]; [|lia|lia|lia|left; by apply clone_failure_bind|].
  { intros v Hv0 Hv. apply Hlow; lia. }
  rewrite Hrun2. rsimpl. set (k2 := with_contents (with_mm k1 m2) c) in *.
  destruct (image_is_archive (imem (kfs k0)) location inputs image Hz Him Hun Hld Hloc) as [Har Hfiles]; [lia|]. rewrite <- Hend in Har. fold e in Har.
  unfold initialise_keyboard. cbv beta iota zeta.
  rewrite (start_processes_bind location e mother_entry k2 (fun _ mother_pid k => ASSERT (mother_pid =? 1);; s ← announce_mother mother_pid s2; Ok _)).
  destruct (start_processes_spec location e mother_entry _ k2 Hready2 Har Hentry) as [Hf|(root & k3 & -> & [Hs3 Hp3 Hm3 Hi3 Hmt3])]; [left; by apply clone_failure_bind|].
  rsimpl. rewrite (ASSERT_ok (1 =? 1)) by done. rsimpl.
  destruct (announce_mother_ok s2 Hs2) as (s3 & -> & Hs3'). rsimpl. right. eexists. split; [reflexivity|].
  cbn [b_machine b_tables DescriptorTables.with_handlers DescriptorTables.interrupt_handlers DescriptorTables.port_writes proc].
  assert (initrd_root (kfs k3) = root) as Hroot by apply Hmt3. rewrite Hroot.
  split; [|split; [|split; [|split; [exact Hp3|split; [|split; [exact Hm3|]]]]]].
  - split; cbn [proc screen input tick]; try done. exists ([], false). apply (reset_keyboard (input (b_machine b)) ∅ Hring).
  - vm_compute. reflexivity.
  - by rewrite <- app_assoc.
  - destruct Hi3 as (t & Ht & Hid & _). by exists t.
  - intros i bytes nm buffer Hi Hb Hblo Hbhi. destruct (Hfiles i bytes nm Hi) as (f & Hf & _ & Hnm & Hlen & Hdata).
    destruct (mg_rooted _ _ _ _ _ _ _ Hmt3) as [(rt & Hrt & _)]. rewrite Hroot in Hrt.
    destruct (read_archived (imem (kfs k2)) location e root _ (kfs k3) i f root 0 (Z.of_nat (List.length bytes)) buffer Har Hmt3 Hf) as (x & s' & Hres & Hread & Hcopied & _);
      [by exists rt|exact Hbytes|exact Hb|lia|lia|lia|lia|right; lia|].
    exists x, s'. rewrite Hnm in Hres. split; [exact Hres|]. rewrite Hlen in Hread, Hcopied.
    assert ((if Z.of_nat (List.length bytes) <=? 0 then 0 else Z.min (Z.of_nat (List.length bytes)) (Z.of_nat (List.length bytes) - 0)) = Z.of_nat (List.length bytes)) as Hn
      by (destruct (Z.leb_spec (Z.of_nat (List.length bytes)) 0); lia).
    rewrite Hn in Hread, Hcopied. split; [exact Hread|]. intros j ch Hj. pose proof (lookup_lt_Some _ _ _ Hj). rewrite Hcopied by lia.
    rewrite Z.add_0_r. by apply Hdata.
Qed.
End main_theorem.
End boot_theorem.

(** ** A concrete boot *)

(** The loader put the archive at 1 MiB and its table of modules at 0x9000. *)
Definition boot_memory : mem := fun a =>
  if (0x9000 <=? a) && (a <? 0x9008) then nth (Z.to_nat (a - 0x9000)) (le32 DEMO_LOCATION ++ le32 DEMO_END) 0 else demo_mem a.
Definition demo_multiboot : multiboot := mk_multiboot 0x9 640 0x3C00 0 0 1 0x9000.
Definition boot_mm : mm page_bytes bump := mk_mm (mk_bitmap [] 0 0) ∅ ∅ (fun _ _ => 0) 0 0 (mk_bump 0x80000 ∅).
Definition boot_machine : boot_state bump :=
  mk_boot_state DescriptorTables.reset_tables
    (mk_machine (mk_kernel ∅ 0 0 1 0 boot_mm (mk_initrd boot_memory ∅ 0 0 0 0 0 ([], 0) (mk_bump 0x80000 ∅)) ∅) demo_screen
       (mk_keyboard (replicate 128 0) 5 7 1) 0).
Lemma demo_boot_runs : is_ok (main 0x110000 0x111000 0x112000 DescriptorTables.demo_stub 0x7F00 0x7F20 0x100400 demo_multiboot 0x8000 boot_machine) = true.
Proof. vm_compute. reflexivity. Qed.

Lemma runs_unless {A} (r : res A) (P : Prop) : is_ok r = true -> clone_failure r \/ P -> P.
Proof. intros Hr [Hf|HP]; [|done]. destruct r as [a| |]; [|discriminate Hr..]. destruct (clone_failure_not_ok _ Hf a eq_refl). Qed.

Lemma boot_memory_high a : 0x9008 <= a -> boot_memory a = demo_mem a.
Proof. intros Ha. unfold boot_memory. rewrite (proj2 (Z.ltb_ge a 0x9008)) by done. by rewrite andb_false_r. Qed.

Lemma boot_memory_bytes : bytes_ok boot_memory.
Proof.
  intros a. unfold boot_memory. destruct (_ && _); [|apply demo_bytes].
  assert (Forall (fun c => 0 <= c < 256) (le32 DEMO_LOCATION ++ le32 DEMO_END)) as H by (apply (bool_decide_unpack _); vm_compute; exact I).
  destruct (nth_in_or_default (Z.to_nat (a - 0x9000)) (le32 DEMO_LOCATION ++ le32 DEMO_END) 0) as [Hin| ->]; [|lia].
  rewrite Forall_forall in H. apply H. by apply list_elem_of_In.
Qed.

Lemma boot_machine_loaded : loaded boot_memory DEMO_LOCATION demo_image.
Proof.
  intros i c Hi. assert (0x9008 <= DEMO_LOCATION) as Hl by (vm_compute; discriminate). rewrite boot_memory_high by lia.
  revert i c Hi. apply image_memory_loaded. vm_compute. discriminate.
Qed.

Lemma boot_machine_modules : load32 boot_memory 0x9000 = DEMO_LOCATION /\ load32 boot_memory 0x9004 = DEMO_END.
Proof. split; vm_compute; reflexivity. Qed.

Lemma boot_machine_bootable : bootable demo_multiboot 0x8000 0x7F00 demo_inputs boot_machine.
Proof.
  destruct boot_machine_modules as [Hlocation Hend].
  split; cbn [demo_multiboot mods_count mods_addr flags mem_upper boot_machine b_machine b_tables proc kfs imem kmm kstate].
  - reflexivity.
  - split; [reflexivity|simpl; lia|simpl; lia].
  - reflexivity.
  - vm_compute. split; [discriminate|reflexivity].
  - reflexivity.
  - reflexivity.
  - intros x Hx. by apply not_elem_of_empty in Hx.
  - reflexivity.
  - reflexivity.
  - lia.
  - vm_compute. discriminate.
  - exact boot_memory_bytes.
  - change (u32 (0x9000 + 4)) with 0x9004. rewrite Hlocation, Hend. exists demo_image.
    split; [exact demo_main|split; [exact demo_no_zero|split; [exact demo_unobstructed|split; [exact boot_machine_loaded|]]]].
    split; [vm_compute; discriminate|vm_compute; reflexivity].
  - change (u32 (0x9000 + 4)) with 0x9004. cbv zeta. rewrite Hend. vm_compute. repeat split; discriminate.
Qed.

Lemma boot_reaches_user_mode_witness : exists b',
  main 0x110000 0x111000 0x112000 DescriptorTables.demo_stub 0x7F00 0x7F20 0x100400 demo_multiboot 0x8000 boot_machine = Ok b' /\
  machine_ok (b_machine b') /\ DescriptorTables.interrupt_handlers (b_tables b') = boot_handlers /\ next_pid (proc (b_machine b')) = 2.
Proof.
  destruct (runs_unless _ _ demo_boot_runs (boot_reaches_user_mode 0x110000 0x111000 0x112000 DescriptorTables.demo_stub
    0x7F00 0x7F20 0x100400 demo_multiboot 0x8000 demo_inputs boot_machine boot_machine_bootable ltac:(discriminate)))
    as (b' & Hrun & Hok & Hh & _ & Hpid & _).
  exists b'. exact (conj Hrun (conj Hok (conj Hh Hpid))).
Defined.
